(* ===== verification/_CoqProject ===== *)
-Q . S2P
Prelude.v
PyText.v
Regex.v
PyRe.v
GuardParser.v
ToolGuard.v
PyValue.v
Shlex.v
TargetTypes.v
Classifier.v
ClassifierProps.v
TargetGuard.v
Freeze.v
PyFloat.v
PyOps.v
Json.v
BladeUid.v
Coerce.v
FaultSpec.v
Failure.v
Screener.v
Router.v
Graph.v
LoopBounds.v
SafetyScore.v
FaultContext.v
Conflict.v
InjectionDetection.v
Verdict.v
Layer1.v
VerdictParse.v
SafetyGate.v
GatedRun.v
Finalize.v
RecoverFinalize.v
AttemptTracker.v
Tokens.v
ContextManager.v
FaultType.v
Kubectl.v
TargetHealth.v
Feasibility.v
Effects.v
Blade.v
DirectExecute.v
DirectProps.v
PlanningMetadata.v
SideEffects.v
JsonDump.v
ReactHelpers.v
ExecuteLoop.v
ExecuteProps.v
AgentLoop.v
AgentProps.v
BaselineCommands.v
BaselineCapture.v
BaselineProps.v
MetricExtractor.v
VerifierHints.v
VerifierContext.v
Verifier.v
VerifierProps.v
RecoverLoop.v
RecoverProps.v
JsonStored.v
SessionMessage.v
SessionStore.v
SessionLog.v
SessionSteps.v
SessionProps.v
TuiStore.v
ToolCompactor.v
Intent.v
IntentProps.v
TaskState.v
TaskStore.v
TaskProps.v
Skills.v
AgentTools.v
InjectContext.v
