(* ===== verification/Prelude.v ===== *)
(** * Blade AI: the safety pipeline of the chaos-engineering agent

    The program is the agent under src/blade-ai/src/chaos_agent: a language
    model plans a fault injection and issues tool calls (kubectl, blade,
    skill scripts) inside a graph of nodes, and deterministic code around it
    decides which of these calls may reach the cluster.  This development
    models that deterministic code and proves what it guarantees whatever the
    language model, the cluster and the human do.

    ** The parts of the program and the files that model them

    A request enters as a fault specification; the planning loop may only
    read; a safety check and, where it asks for one, a human confirmation
    stand in front of the execution; the approval freezes the target; every
    call of the execution loop is classified and compared with the frozen
    target before it runs; a guard on command lines is the last line.  After
    the injection a first layer asks blade and the cluster, a second layer
    lets the language model look, and a finalize node turns what it says into
    a recorded verdict; a recovery is verified the same way.

    - Shell command guard (tools/guard.py, tools/guard_parser.py):
      [GuardParser] (parsing of kubectl, blade and other command lines),
      [ToolGuard] (whitelists, suspicious tokens, the blacklist of patterns),
      over [Regex] (regular expressions by derivatives, with their language).
    - Tool-call classifier (agent/target_guard/classifier.py): [Classifier]
      (every subcommand and helper, [infer_effective_target]),
      [ClassifierProps] (its theorems), over [Shlex] (shlex.split).
    - Drift guard (agent/target_guard/types.py, guard.py): [TargetTypes] (the
      records and verdicts), [TargetGuard] ([target_drift_guard] step by step,
      and the policy as a relation that it refines).
    - Approval snapshot (agent/target_guard/freeze.py): [Freeze].
    - Screener nodes (agent/nodes/tool_screener.py, phase1_screener.py):
      [Screener].  The node is written against the class [TargetGuardOps]
      (classify a call, judge it) and the classifier and the drift guard are
      its instance.
    - Coercions of values the language model supplies (utils/coerce.py):
      [Coerce], over [Json] (json.loads, with json.dumps and the round trip in
      [JsonDump]) and [PyFloat] (binary64 values, int(),
      float() and repr()).
    - Fault specification (agent/fault_spec.py): [FaultSpec].
    - Failures (errors.py, agent/verdict.py, agent/state_helpers.py):
      [Failure].
    - Routers and graphs (agent/router.py, agent/graph.py): [Router] (every
      conditional edge), [Graph] (the edge maps, the step relations
      [inject_step] and [recover_step], runs with their history).
    - Clarification of an intent, its confirmation, and the confirmation of a
      changed plan (agent/nodes/intent_clarification.py, intent_confirm.py,
      plan_change_confirm.py): [Intent] (what texts say, and the nodes),
      [IntentProps].
    - Planning loop (agent/nodes/agent_loop.py): [LoopBounds] (its counter
      and the bound on runs), [AgentLoop] (the node), [AgentProps].
    - Execution loop (agent/nodes/execute_loop.py): [ExecuteLoop],
      [ExecuteProps]; what both loops share (agent/nodes/react_helpers.py,
      _kubeconfig_inject.py, the merge of hook updates): [ReactHelpers].
    - Safety score (agent/safety_score.py): [SafetyScore].
    - Fault context adaptation table (utils/fault_context.py): [FaultContext].
    - Conflict detection (agent/nodes/_conflict_check.py, with
      discover_tool_pods and the kubectl arguments it calls): [Conflict].
    - Safety check, confirmation gate and reject nodes
      (agent/nodes/safety_check.py, confirmation_gate.py, reject.py, with the
      report records of agent/target_health.py and agent/feasibility.py):
      [SafetyGate].
    - The checkers behind that check (agent/target_health.py,
      agent/feasibility.py, agent/_feasibility_checkers.py): [TargetHealth],
      which sees the tool through the class [KubectlOps], and [Feasibility].
    - Fault types, flags and durations (utils/fault_type.py): [FaultType].
    - The kubectl tools (tools/kubectl.py) with the command runner's guard
      (tools/shell.py): [Kubectl].
    - Programs that run commands, with their weakest precondition: [Effects];
      the blade tools (tools/blade.py): [Blade]; direct execution and setup
      (agent/nodes/direct_execute.py, direct_setup.py): [DirectExecute] and
      its theorems, [DirectProps].
    - What planning leaves in the state
      (agent/nodes/extract_planning_metadata.py): [PlanningMetadata].
    - Baseline before an injection (agent/nodes/baseline_capture.py,
      agent/baseline_extractors.py): [BaselineCommands] (tables, templates,
      validation), [BaselineCapture] (the node), [BaselineProps].
    - Side effects of an injection (agent/nodes/_side_effect_detectors.py,
      se_snapshot.py, se_detect.py): [SideEffects].
    - Runs of the graph with these gates in place: [GatedRun].
    - Identifiers of experiments in tool output (utils/blade_uid.py):
      [BladeUid].
    - What the conversation shows of an injection
      (agent/nodes/_injection_detection.py): [InjectionDetection].
    - Records of verdicts (agent/verdict.py, agent/nodes/_verifier_shared.py):
      [Verdict]; the first layer of a verification and of a recovery
      (agent/nodes/_verifier_layer1.py, _recover_layer1.py): [Layer1]; the
      parsers of verdicts (agent/nodes/_verifier_layer2_parse.py,
      _recover_layer2_parse.py): [VerdictParse], [RecoverFinalize]; the finalize
      nodes (agent/nodes/_verifier_finalize.py, _recover_finalize.py):
      [Finalize], [RecoverFinalize].
    - The verifier node (agent/nodes/verifier.py, with _verifier_messages.py
      and _verifier_hints.py): [VerifierHints], [VerifierContext] (what the
      model is told), [Verifier], [VerifierProps]; the metrics it compares
      (agent/nodes/_metric_extractor.py): [MetricExtractor].
    - The recovery verifier (agent/nodes/_recover_verifier_loop.py, with the
      messages of _recover_layer1.py): [RecoverLoop], [RecoverProps].
    - Attempts of the pipeline (agent/attempt_tracker.py): [AttemptTracker].
    - Token counts and the context window (memory/tokens.py,
      memory/context_manager.py): [Tokens], [ContextManager].  The context
      manager sees the counters through the class [TokenOps].
    - Task records on disk (memory/session_store.py): [SessionMessage] (how a
      message is written, told apart and split at the handoff), [SessionStore]
      (the store: snapshot, log, compaction, closing, reading back),
      [SessionLog] (what the text of a log reads back as), [SessionSteps] (the
      weakest precondition of store programs and the invariant of every
      operation), [SessionProps]; over [JsonStored] (json.dumps with an
      indentation and its round trip, UTF-8 and the newlines of text files,
      the values a record can hold, and why no part of a line is read as one).
    - Records of terminal sessions (memory/tui_session_store.py): [TuiStore].
    - Truncation of tool output (memory/tool_compactor.py): [ToolCompactor].

    - The life cycle of a task (agent/state.py): [TaskState]; the task store
      (persistence/task_store.py, task_store_backend.py,
      agent/nodes/_store_sync.py, the writes of observability/tracer.py):
      [TaskStore], written against the class [StorageBackend], whose contract
      is [BackendLaws], with the SQLite back end (task_store_sqlite.py), which
      keeps it; [TaskProps].

    - What a recovery is told of the injection (utils/inject_context.py):
      [InjectContext].
    - Skills (skills/registry.py, loader.py, validator.py): [Skills]; the tools
      of the planning phase on files and skills (agent/factory.py,
      tools/file_reader.py, tools/file_writer.py): [AgentTools].

    [Prelude] holds the strings, notations, tactics and lemmas all of them
    share, [PyValue] the values, dicts and exceptions of Python, [PyOps] the
    comparisons and formats of numbers and the operations on values whose type the program does not check, [PyText] the
    methods of str, [PyRe] the
    backtracking matcher of the re module with the syntax of its patterns.

    ** State and operations

    The graph state is [Router.GState]: the list of messages and a dict of
    the other keys.  A node is a function from the state to an update ([Delta]
    or a dict), an edge a function from the state to a node, and the graph a
    step relation over configurations (the node about to run, the state).
    Nodes that are not modelled are a relation parameter, free to do anything
    to the state, so the theorems on runs hold whatever they do.

    ** What the theorems show

    - Whole runs: tools of the execution phase run only behind the screener
      (C1) and those of the planning phase only behind
      theirs (C33); with the gates as written, execution
      is reached only for a request that passed the rules and was found safe,
      approved or forced, with the approval frozen from its specification
      (C2); the recover graph ends for a stated reason
      (C40); the planning loop is bounded without a replan
      (C35), the execution loop with its replans always
      (C16).
    - Drift guard: it refines the declared policy (C3),
      what it allows of the approved kind stays inside the approved blast
      radius but for injections through a tool pod
      (C5).
    - Classifier: which destructive subcommands are taken as read-only
      (C36).
    - Approval: round trip ([freeze_roundtrip]), no escalation through the
      tool pods by a call without a help flag
      (C4).
    - Screeners: what passes was judged (C30).
    - Gates: what a verdict of safe means (C7), same-action
      overlays ask for a confirmation ([overlay_needs_confirmation]).
    - Intent: planning starts from the confirmation only for a complete
      submission that a human approved (C9); the
      dialogue ends (C15); what it settled is kept
      ([dialogue_keeps_settled]), and a plan change rejected twice ends the
      planning ([second_rejection_ends]).
    - Planning: no plan without a use case or a look at the catalogue
      ([planning_needs_case]); the specification is completed, never
      rewritten (C19).
    - Execution loop: a new plan drops the approval of the old one, so that
      calls pass only as read-only or by making the classifier raise
      (C6), a request that can no longer be followed
      ends the run (C17); the loop detector against its
      specification (C34).
    - Command guard: [check] against its specification
      (C31); the planning tool runs nothing but what its
      subcommands and the guard allow (C32).
    - Direct execution, which bypasses the screener: in every world it runs
      nothing but looks at the cluster, the creation of its specification and,
      when blade does not know the flag, the same without the namespace
      (C10); its first call is one the guard would allow
      (C11); it reports what a creation answered
      (C12).
    - Baseline: whatever the model proposes, the node runs nothing but
      kubectl get, top and describe, execs, whose inner command is not
      confined, and the life cycle of its own debug pods
      (C13); the lists it extends in place stay within a bound
      (C14).
    - Verification: a verified verdict needs evidence
      (C24); the two structured forms of a verdict agree
      (C25); the verifier itself
      never declares an injection verified (C21); its
      loop ends (C20) and is repeated at most once for gaps
      (C26); texts are parsed to consistent verdicts
      (C37).
    - Recovery: its loop ends (C22), and a recovery is claimed
      only on grounds (C23).
    - What a recovery is told holds no value of a short kubectl output
      ([kubectl_abstract_value_free]) and is bounded
      ([inject_context_bounded]).
    - Data: round trip of the specification (C39).
    - Records: whatever calls of the operating system fail, and wherever the
      process ends, a task record is read back with its messages, one of each
      key, unless a write damaged its log
      (C27), also when it was closed (C28).
    - Tool output: a stripped object agrees with the full one on every field
      kept for its kind whose path has no index, and has none of the others
      (C29).

    - Task store: what is upserted under an identifier that is recorded is read
      back, on every back end that keeps the contract (C38); a passed verification means injected but
      for skipped layers ([passed_is_injected]).

    - Files and skills: what the script tool may start
      (C18), what the file tools may read and write
      (C8), what the search for use cases finds
      ([match_use_cases_sound]).

    The bounds on the loops and what is said of the intent hold for hooks that
    do not write the keys concerned: merge_hook_updates would let a hook
    overwrite any key, the one of memory/hook.py returns messages,
    metric_observations and compressed_summary only.

    Lemmas that show a divergence between code and intent stand in the file
    of the component, under a heading of their own.

    ** Bounds and fuel

    [Classifier._classify_kubectl] recurses through kubectl exec; its fuel is
    one more than the number of arguments, and [classify_kubectl_fuel_enough] shows that more fuel
    never changes the answer.  [BladeUid.scan_json] walks the text with its
    length as fuel; [scan_json_fuel] shows that more never changes the answer.
    A repetition of [PyRe] stops at an empty iteration, so its recursion is
    bounded by the text that is left.  [PyFloat.shortest] tries at most
    seventeen digits and [scale_up] four hundred decades, which covers
    binary64.  Everything else is structural.

    ** Conventions

    Strings are lists of UTF-8 bytes; case mapping, blanks and digits follow
    Python on ASCII, and lengths and slices count code points.  An exception
    is [None] of [Exc]; the kind of exception is kept only where the source
    tells kinds apart.  Dicts are association lists in insertion order with
    string keys.  Integers are unbounded, floats binary64 ([SpecFloat]),
    carried in values by their repr.  The interrupt, the clock, the command
    runner, the skill registry, the language model, the memory hook, the tokenizers, the age of a time stamp and
    the plan text are arguments.  Where a node's calls to the cluster matter,
    it is a program ([Effects]) run in a world that may answer the same
    command differently each time.  The stores are programs over the files of
    one directory, and a list of events says of each call that changes it
    whether it succeeds, raises OSError or is the last of the process, and how
    much of a text it wrote; [st_torn] marks runs in which a log was left
    damaged.  Names of temporary files are arguments.  Values are not
    shared: where the program changes a checklist item in place the model
    stores the changed item back, and the tables of baseline commands, whose
    lists the node extends, are passed in and out.  Logging, progress tracking, the copy of updates into the task
    store and the recursion limit of the interpreter are left out.

    ** What is not modelled

    The language model and the prompts, and the parts that are little more
    than a prompt and what it answers (plan builder, compaction by the
    language model): in the theorems on runs they are
    arbitrary.  Subprocesses, the download of binaries, the copy of
    bundled skills, the search tools, connections, the PostgreSQL dialect, observability: I/O with no
    decision of their own.  Command line,
    server and terminal interface: transport and rendering. *)

From stdpp Require Import base list strings pretty.
From Stdlib Require Import Ascii.

Open Scope string_scope.
Open Scope list_scope.

#[global] Arguments String.append !_ _ / : simpl nomatch.

Declare Scope py_scope.
Delimit Scope py_scope with py.

(** ** Membership of a string in a literal set, tuple or list

    Python's [x in ("a", "b")] and [x in frozenset({...})] are a linear
    membership test here; the order of the elements is irrelevant. *)

Definition str_in (x : string) (l : list string) : bool := existsb (String.eqb x) l.

#[global] Arguments str_in : simpl never.

Notation "x ∈? l" := (str_in x l) (at level 70, no associativity) : py_scope.
Open Scope py_scope.

(** ** Characters *)

(** The ASCII part of [str.isspace]: TAB, LF, VT, FF, CR, the four
    separators FS..US and the blank. *)
Definition py_isspace (c : ascii) : bool :=
  let n := nat_of_ascii c in
  (Nat.leb 9 n && Nat.leb n 13) || (Nat.leb 28 n && Nat.leb n 32).

Definition lower_ascii (c : ascii) : ascii :=
  let n := nat_of_ascii c in
  if Nat.leb 65 n && Nat.leb n 90 then ascii_of_nat (n + 32) else c.

Definition upper_ascii (c : ascii) : ascii :=
  let n := nat_of_ascii c in
  if Nat.leb 97 n && Nat.leb n 122 then ascii_of_nat (n - 32) else c.

(** ** String operations *)

(** Truthiness of a string: [if s:]. *)
Definition truthy (s : string) : bool := negb (String.eqb s "").

(** [a or b] on strings. *)
Definition str_or (a b : string) : string := if truthy a then a else b.

Fixpoint str_map (f : ascii → ascii) (s : string) : string :=
  match s with
  | EmptyString => EmptyString
  | String c s' => String (f c) (str_map f s')
  end.

(** [s.lower()] and [s.upper()]. *)
Definition lower : string → string := str_map lower_ascii.
Definition upper : string → string := str_map upper_ascii.

(** [s.lstrip()], [s.rstrip()] and [s.strip()]. *)
Fixpoint lstrip (s : string) : string :=
  match s with
  | EmptyString => EmptyString
  | String c s' => if py_isspace c then lstrip s' else s
  end.

Fixpoint rstrip (s : string) : string :=
  match s with
  | EmptyString => EmptyString
  | String c s' =>
      match rstrip s' with
      | EmptyString => if py_isspace c then EmptyString else String c EmptyString
      | String _ _ as r => String c r
      end
  end.

Definition strip (s : string) : string := rstrip (lstrip s).

(** [s.startswith(pre)]. *)
Definition startswith (s pre : string) : bool := String.prefix pre s.

(** [sub in s]. *)
Fixpoint contains (sub s : string) : bool :=
  String.prefix sub s ||
  match s with
  | EmptyString => false
  | String _ s' => contains sub s'
  end.

(** [c in s] for a single character. *)
Fixpoint has_char (c : ascii) (s : string) : bool :=
  match s with
  | EmptyString => false
  | String d s' => Ascii.eqb c d || has_char c s'
  end.

(** [s.split(sep)] for a one-character separator: never empty. *)
Fixpoint split_on (sep : ascii) (s : string) : list string :=
  match s with
  | EmptyString => [EmptyString]
  | String c s' =>
      if Ascii.eqb sep c then EmptyString :: split_on sep s'
      else match split_on sep s' with
           | [] => [String c EmptyString]
           | h :: t => String c h :: t
           end
  end.

(** The split at the first separator, shared by [s.split(sep, 1)] and
    [s.partition(sep)]; [None] when the separator does not occur. *)
Fixpoint cut (sep : ascii) (s : string) : option (string * string) :=
  match s with
  | EmptyString => None
  | String c s' =>
      if Ascii.eqb sep c then Some (EmptyString, s')
      else match cut sep s' with
           | None => None
           | Some (a, b) => Some (String c a, b)
           end
  end.

(** [s.split(sep, 1)[0]]. *)
Definition before (sep : ascii) (s : string) : string :=
  match cut sep s with Some (a, _) => a | None => s end.

(** [s.split(sep, 1)[1]] where the source has tested that the separator
    occurs. *)
Definition after (sep : ascii) (s : string) : string :=
  match cut sep s with Some (_, b) => b | None => EmptyString end.

(** [s.split()]: the maximal runs of non-blank characters. *)
Fixpoint split_ws_go (cur : string) (s : string) : list string :=
  match s with
  | EmptyString => if truthy cur then [cur] else []
  | String c s' =>
      if py_isspace c
      then (if truthy cur then [cur] else []) ++ split_ws_go EmptyString s'
      else split_ws_go (cur +:+ String c EmptyString) s'
  end.

Definition split_ws (s : string) : list string := split_ws_go EmptyString s.

(** [sep.join(l)]. *)
Fixpoint join (sep : string) (l : list string) : string :=
  match l with
  | [] => EmptyString
  | [x] => x
  | x :: l' => x +:+ sep +:+ join sep l'
  end.

(** [[n.strip() for n in s.split(",") if n.strip()]]. *)
Definition csv_names (s : string) : list string :=
  filter (λ n, truthy n) (map strip (split_on "," s)).

(** [str(n)] of an integer. *)
Definition str_of_Z (z : Z) : string := pretty z.
Definition str_of_nat (n : nat) : string := pretty n.

(** The characters that cannot be written in a Rocq string literal. *)
Definition dquote : string := String "034" EmptyString.
Definition squote : string := String "039" EmptyString.
Definition newline : string := String "010" EmptyString.

(** ** Automation *)

Create HintDb py discriminated.
Create Rewrite HintDb py.

(** Turn boolean hypotheses and goals of the model into propositions. *)
Lemma str_in_spec x l : (x ∈? l) = true ↔ x ∈ l.
Proof.
  unfold str_in. rewrite existsb_exists. split.
  - intros (y & Hy & ->%String.eqb_eq). by apply list_elem_of_In.
  - intros H. exists x. split; [by apply list_elem_of_In | apply String.eqb_refl].
Qed.

Lemma str_in_false x l : (x ∈? l) = false ↔ x ∉ l.
Proof. rewrite <- str_in_spec. by destruct (x ∈? l). Qed.

Lemma truthy_spec s : truthy s = true ↔ s ≠ "".
Proof. unfold truthy. by rewrite negb_true_iff, String.eqb_neq. Qed.

Lemma truthy_false s : truthy s = false ↔ s = "".
Proof. unfold truthy. by rewrite negb_false_iff, String.eqb_eq. Qed.

Ltac bool_to_prop :=
  repeat match goal with
  | H : context [negb _ = true] |- _ => rewrite negb_true_iff in H
  | H : context [negb _ = false] |- _ => rewrite negb_false_iff in H
  | H : _ && _ = true |- _ => apply andb_true_iff in H as [? ?]
  | H : _ || _ = false |- _ => apply orb_false_iff in H as [? ?]
  | H : (_ ∈? _) = true |- _ => apply str_in_spec in H
  | H : (_ ∈? _) = false |- _ => apply str_in_false in H
  | H : String.eqb _ _ = true |- _ => apply String.eqb_eq in H
  | H : String.eqb _ _ = false |- _ => apply String.eqb_neq in H
  | H : truthy _ = true |- _ => apply truthy_spec in H
  | H : truthy _ = false |- _ => apply truthy_false in H
  end.

(** Case analysis on the first conditional of the goal. *)
Ltac case_if :=
  match goal with
  | |- context [if ?b then _ else _] => destruct b eqn:?
  end.

(** Case analysis on the conditionals of the goal or of a hypothesis. *)
Ltac split_ifs :=
  repeat match goal with
  | |- context [if ?b then _ else _] => destruct b eqn:?
  end.

Ltac case_if_in H :=
  match type of H with
  | context [if ?b then _ else _] => destruct b eqn:?
  end.

(** The conditional at the head of a hypothesis. *)
Ltac head_if H :=
  cbv zeta in H;
  match type of H with
  | (if ?b then _ else _) = _ => destruct b eqn:?
  end.

Ltac split_ifs_in H :=
  repeat match type of H with
  | context [if ?b then _ else _] => destruct b eqn:?
  end.

(** ** Lemmas on the string operations *)

Lemma append_empty_r s : s +:+ "" = s.
Proof. induction s; simpl; congruence. Qed.

Lemma append_assoc s1 s2 s3 : (s1 +:+ s2) +:+ s3 = s1 +:+ s2 +:+ s3.
Proof. induction s1; simpl; congruence. Qed.

Lemma prefix_spec p s : String.prefix p s = true ↔ ∃ r, s = p +:+ r.
Proof.
  revert s. induction p as [|c p IH]; intros s.
  - split; [eauto | by destruct s].
  - destruct s as [|d s]; simpl.
    + split; [done | intros [r Hr]; discriminate].
    + destruct (ascii_dec c d) as [->|Hne].
      * rewrite IH. split; intros [r Hr]; exists r; congruence.
      * split; [done | intros [r Hr]; congruence].
Qed.

Lemma contains_spec sub s : contains sub s = true ↔ ∃ a b, s = a +:+ sub +:+ b.
Proof.
  induction s as [|c s IH]; cbn [contains].
  - rewrite orb_false_r, prefix_spec. split.
    + intros [r Hr]. by exists "", r.
    + intros (a & b & H). destruct a; [by exists b | discriminate].
  - rewrite orb_true_iff, prefix_spec, IH. split.
    + intros [[r Hr] | (a & b & ->)]; [by exists "", r | by exists (String c a), b].
    + intros (a & b & H). destruct a as [|d a]; [left; by exists b |].
      right. exists a, b. by injection H.
Qed.

Lemma has_char_app c s1 s2 : has_char c (s1 +:+ s2) = has_char c s1 || has_char c s2.
Proof. induction s1; simpl; [done|]. by rewrite IHs1, orb_assoc. Qed.

(** [cut] returns the part before the first separator, and the rest. *)
Lemma cut_Some sep s a b :
  cut sep s = Some (a, b) ↔ s = a +:+ String sep b ∧ has_char sep a = false.
Proof.
  revert a b. induction s as [|c s IH]; intros a b; simpl.
  - split; [done | intros [H _]]. destruct a; discriminate.
  - destruct (Ascii.eqb_spec sep c) as [<-|Hne].
    + split; [intros [= <- <-]; done |].
      intros [H Ha]. destruct a as [|d a]; simpl in *; [congruence|].
      injection H as <- H. by rewrite Ascii.eqb_refl in Ha.
    + split.
      * intros H. destruct (cut sep s) as [[a' b']|] eqn:E; [|done].
        injection H as <- <-. destruct (proj1 (IH a' b') eq_refl) as [-> Ha].
        simpl. split; [done|]. rewrite Ha, orb_false_r. by apply Ascii.eqb_neq.
      * intros [H Ha]. destruct a as [|d a]; simpl in *; [congruence|].
        injection H as <- H. apply orb_false_iff in Ha as [_ Ha].
        by rewrite (proj2 (IH a b) (conj H Ha)).
Qed.

Lemma cut_None sep s : cut sep s = None ↔ has_char sep s = false.
Proof.
  induction s as [|c s IH]; simpl; [done|].
  destruct (Ascii.eqb sep c) eqn:E; simpl; [done|].
  rewrite <- IH. destruct (cut sep s) as [[? ?]|]; split; done.
Qed.

Lemma cut_first sep a b : has_char sep a = false → cut sep (a +:+ String sep b) = Some (a, b).
Proof. intros. by apply cut_Some. Qed.

Lemma before_no_sep sep s : has_char sep (before sep s) = false.
Proof.
  unfold before. destruct (cut sep s) as [[a b]|] eqn:E.
  - by apply cut_Some in E as [_ ?].
  - by apply cut_None.
Qed.

Lemma before_id sep s : has_char sep s = false → before sep s = s.
Proof. intros H. unfold before. by rewrite (proj2 (cut_None sep s) H). Qed.

Lemma split_on_no_sep sep s x : x ∈ split_on sep s → has_char sep x = false.
Proof.
  revert x. induction s as [|c s IH]; simpl; intros x.
  - intros Hx. by apply list_elem_of_singleton in Hx as ->.
  - destruct (Ascii.eqb sep c) eqn:E.
    + intros [->|Hx]%elem_of_cons; [done | auto].
    + destruct (split_on sep s) as [|h t].
      * intros Hx. apply list_elem_of_singleton in Hx as ->. simpl. by rewrite E.
      * intros [->|Hx]%elem_of_cons; [|apply IH; by right].
        simpl. rewrite E. apply IH. by left.
Qed.

Lemma split_on_single sep s : has_char sep s = false → split_on sep s = [s].
Proof.
  induction s as [|c s IH]; simpl; [done|]. intros [H1 H2]%orb_false_iff.
  by rewrite H1, IH.
Qed.

Lemma last_default_or_elem (l : list string) : List.last l "" = "" ∨ List.last l "" ∈ l.
Proof.
  induction l as [|x l IH]; [by left|]. simpl. destruct l as [|y l]; [right; by left|].
  destruct IH as [IH|IH]; [by left | right; by right].
Qed.

Lemma lower_ascii_idem c : lower_ascii (lower_ascii c) = lower_ascii c.
Proof. by destruct c as [[] [] [] [] [] [] [] []]. Qed.

Lemma lower_idem s : lower (lower s) = lower s.
Proof. unfold lower. induction s; simpl; [done|]. by rewrite lower_ascii_idem, IHs. Qed.

Lemma isspace_lower c : py_isspace (lower_ascii c) = py_isspace c.
Proof. by destruct c as [[] [] [] [] [] [] [] []]. Qed.

Lemma lstrip_nonspace c s : py_isspace c = false → lstrip (String c s) = String c s.
Proof. simpl. by intros ->. Qed.

Lemma lstrip_head s : lstrip s = "" ∨ ∃ c s', lstrip s = String c s' ∧ py_isspace c = false.
Proof. induction s; simpl; [by left|]. destruct (py_isspace _) eqn:E; eauto. Qed.

Lemma rstrip_idem s : rstrip (rstrip s) = rstrip s.
Proof.
  induction s as [|c s IH]; simpl; [done|].
  destruct (rstrip s) as [|d r] eqn:E.
  - destruct (py_isspace c) eqn:Ec; simpl; [done | by rewrite Ec].
  - change (rstrip (String c (String d r))) with
      (match rstrip (String d r) with
       | EmptyString => if py_isspace c then EmptyString else String c EmptyString
       | String _ _ as q => String c q end).
    by rewrite IH.
Qed.

Lemma strip_cons_nonspace c s :
  py_isspace c = false → strip (String c s) = String c (rstrip s).
Proof.
  intros Hc. unfold strip. simpl. rewrite Hc. simpl. rewrite Hc. by destruct (rstrip s).
Qed.

Lemma strip_idem s : strip (strip s) = strip s.
Proof.
  unfold strip at 2 3. destruct (lstrip_head s) as [-> | (c & s' & -> & Hc)]; [done|].
  assert (H : rstrip (String c s') = String c (rstrip s')).
  { simpl. rewrite Hc. by destruct (rstrip s'). }
  rewrite H, strip_cons_nonspace by done. by rewrite rstrip_idem.
Qed.

Lemma lower_lstrip s : lower (lstrip s) = lstrip (lower s).
Proof.
  unfold lower. induction s as [|c s IH]; simpl; [done|].
  rewrite isspace_lower. by destruct (py_isspace c).
Qed.

Lemma lower_rstrip s : lower (rstrip s) = rstrip (lower s).
Proof.
  unfold lower. induction s as [|c s IH]; simpl; [done|]. rewrite <- IH, isspace_lower.
  destruct (rstrip s); simpl; [by destruct (py_isspace c) | done].
Qed.

Lemma lower_strip s : lower (strip s) = strip (lower s).
Proof. unfold strip. by rewrite lower_rstrip, lower_lstrip. Qed.

Lemma has_char_rstrip c s : has_char c s = false → has_char c (rstrip s) = false.
Proof.
  induction s as [|d s IH]; simpl; [done|]. intros [H1 H2]%orb_false_iff.
  specialize (IH H2). destruct (rstrip s) as [|e r] eqn:E; simpl in *.
  - destruct (py_isspace d); simpl; [done|]. by rewrite H1.
  - by rewrite H1, IH.
Qed.

Lemma has_char_lstrip c s : has_char c s = false → has_char c (lstrip s) = false.
Proof.
  induction s as [|d s IH]; simpl; [done|]. intros [H1 H2]%orb_false_iff.
  destruct (py_isspace d); simpl; [auto|]. by rewrite H1, H2.
Qed.

Lemma has_char_strip c s : has_char c s = false → has_char c (strip s) = false.
Proof. intros. by apply has_char_rstrip, has_char_lstrip. Qed.

Lemma has_char_lower_dot s : has_char "." (lower s) = has_char "." s.
Proof.
  unfold lower. induction s as [|c s IH]; simpl; [done|]. rewrite IH. f_equal.
  by destruct c as [[] [] [] [] [] [] [] []].
Qed.

#[export] Hint Resolve has_char_strip before_no_sep : py.
#[export] Hint Rewrite append_empty_r lower_idem strip_idem : py.
