(* ===== verification/PyText.v ===== *)
(** * Text operations of Python strings

    The methods of [str] that the parsers of model output use beyond those
    of the prelude: the characters of a text (strings are UTF-8 bytes, a
    character is a lead byte with its continuation bytes), [find] and
    [split(sep, 1)] as the cut at the first occurrence, [split], [replace],
    [endswith] and [strip] with an explicit set of characters. *)

From stdpp Require Import base list strings.
From Stdlib Require Import Ascii ZArith.
From S2P Require Import Prelude.

Abbreviation char := string.

Definition is_continuation (c : ascii) : bool :=
  let n := nat_of_ascii c in Nat.leb 128 n && Nat.ltb n 192.

(** The characters of a text. *)
Fixpoint uchars (s : string) : list char :=
  match s with
  | EmptyString => []
  | String c s' =>
      match s' with
      | String d _ =>
          if is_continuation d then
            match uchars s' with
            | ch :: l => String c ch :: l
            | [] => [String c EmptyString]
            end
          else String c EmptyString :: uchars s'
      | EmptyString => [String c EmptyString]
      end
  end.

(** Concatenation of characters. *)
Fixpoint unchars (l : list char) : string :=
  match l with [] => "" | c :: l' => c +:+ unchars l' end.

Fixpoint payload (acc : Z) (s : string) : Z :=
  match s with
  | EmptyString => acc
  | String c s' => payload (acc * 64 + (Z.of_nat (nat_of_ascii c)) mod 64)%Z s'
  end.

(** [ord(c)]. *)
Definition code_point (ch : char) : Z :=
  match ch with
  | EmptyString => 0%Z
  | String c s' =>
      let n := Z.of_nat (nat_of_ascii c) in
      (if n <? 128 then n
       else payload (if n <? 224 then n mod 32 else if n <? 240 then n mod 16 else n mod 8) s')%Z
  end.

(** The text before and after the first occurrence of [sub]; [None] when it
    does not occur.  [s.find(sub)] is the length of the first part,
    [s.split(sub, 1)[1]] the second part. *)
Fixpoint cut_str (sub s : string) : option (string * string) :=
  if startswith s sub then Some ("", String.substring (String.length sub) (String.length s) s)
  else match s with
       | EmptyString => None
       | String c s' =>
           match cut_str sub s' with
           | Some (a, b) => Some (String c a, b)
           | None => None
           end
       end.

(** [s.split(sub, 1)[0]] and, where [sub] occurs, [s.split(sub, 1)[1]]. *)
Definition before_str (sub s : string) : string :=
  match cut_str sub s with Some (a, _) => a | None => s end.
Definition after_str (sub s : string) : string :=
  match cut_str sub s with Some (_, b) => b | None => "" end.

(** [s.split("\n")]. *)
Definition lines (s : string) : list string := split_on "010" s.

(** [s.split("\n")[0]]. *)
Definition first_line (s : string) : string := before "010" s.

Fixpoint split_str_go (fuel : nat) (sub s : string) : list string :=
  match fuel with
  | 0 => [s]
  | S n =>
      match cut_str sub s with
      | Some (a, b) => a :: split_str_go n sub b
      | None => [s]
      end
  end.

(** [s.split(sub)] and [s.replace(old, new)] for a nonempty [sub]. *)
Definition split_str (sub s : string) : list string := split_str_go (String.length s) sub s.
Definition replace (old new s : string) : string := join new (split_str old s).

Definition str_rev (s : string) : string :=
  String.string_of_list_ascii (rev (String.list_ascii_of_string s)).

Definition endswith (s suf : string) : bool := startswith (str_rev s) (str_rev suf).

Fixpoint drop_chars (set : list char) (l : list char) : list char :=
  match l with
  | c :: l' => if c ∈? set then drop_chars set l' else l
  | [] => []
  end.

(** [s.lstrip(chars)] and [s.rstrip(chars)]. *)
Definition lstrip_of (set s : string) : string := unchars (drop_chars (uchars set) (uchars s)).
Definition rstrip_of (set s : string) : string :=
  unchars (rev (drop_chars (uchars set) (rev (uchars s)))).
Definition strip_of (set s : string) : string := rstrip_of set (lstrip_of set s).

(** ** Laws *)

Lemma unchars_app l1 l2 : unchars (l1 ++ l2) = unchars l1 +:+ unchars l2.
Proof. induction l1 as [|c l1 IH]; simpl; [done|]. by rewrite IH, append_assoc. Qed.

(** A text is the concatenation of its characters. *)
Lemma unchars_uchars s : unchars (uchars s) = s.
Proof.
  induction s as [|c s IH]; [done|]. cbn [uchars].
  destruct s as [|d s']; [done|].
  destruct (is_continuation d); simpl in *.
  - destruct (match s' with "" => _ | _ => _ end) as [|ch l] eqn:E; simpl in *; congruence.
  - f_equal. exact IH.
Qed.

Lemma substring_drop (a b : string) :
  String.substring (String.length a) (String.length (a +:+ b)) (a +:+ b) = b.
Proof.
  assert (H0 : ∀ s n, (String.length s ≤ n)%nat → String.substring 0 n s = s).
  { induction s as [|c s IH]; intros [|n]; simpl; try done; try lia.
    intros ?. f_equal. apply IH. lia. }
  assert (H : ∀ a n, (String.length b ≤ n)%nat → String.substring (String.length a) n (a +:+ b) = b).
  { clear a. induction a as [|c a IH]; intros n Hn; simpl; [by apply H0 | by apply IH]. }
  apply H. rewrite <- (Nat.add_0_l (String.length b)).
  induction a as [|c a IH]; simpl; [done | lia].
Qed.

Lemma cut_str_Some sub s a b : cut_str sub s = Some (a, b) → s = a +:+ sub +:+ b.
Proof.
  revert a b. induction s as [|c s IH]; intros a b; cbn [cut_str]; unfold startswith.
  - destruct (String.prefix sub "") eqn:E; [|done].
    apply prefix_spec in E as [r Hr]. destruct sub; [|done]. by intros [= <- <-].
  - destruct (String.prefix sub (String c s)) eqn:E.
    + apply prefix_spec in E as [r Hr]. rewrite Hr, substring_drop. by intros [= <- <-].
    + destruct (cut_str sub s) as [[a' b']|] eqn:Ec; [|done].
      intros [= <- <-]. simpl. f_equal. by apply IH.
Qed.

Lemma cut_str_None sub s : cut_str sub s = None ↔ contains sub s = false.
Proof.
  induction s as [|c s IH]; cbn [cut_str contains]; unfold startswith.
  - destruct (String.prefix sub ""); simpl; done.
  - destruct (String.prefix sub (String c s)); simpl; [done|].
    rewrite <- IH. by destruct (cut_str sub s) as [[]|].
Qed.

Lemma before_after_str sub s :
  contains sub s = true → s = before_str sub s +:+ sub +:+ after_str sub s.
Proof.
  unfold before_str, after_str. intros H.
  destruct (cut_str sub s) as [[a b]|] eqn:E; [by apply cut_str_Some|].
  apply cut_str_None in E. congruence.
Qed.

(** ** Lengths in characters *)

Lemma uchars_cons_len c s : (length (uchars (String c s)) ≤ S (length (uchars s)))%nat.
Proof.
  cbn [uchars]. destruct s as [|d s']; [simpl; lia|].
  destruct (is_continuation d); [|simpl; lia].
  destruct (uchars (String d s')); simpl; lia.
Qed.

Lemma uchars_app_len a b : (length (uchars (a +:+ b)) ≤ length (uchars a) + length (uchars b))%nat.
Proof.
  induction a as [|c a IH]; [done|]. simpl String.append.
  destruct a as [|d a'].
  - simpl String.append. change (length (uchars (String c ""))) with 1%nat. apply uchars_cons_len.
  - assert (E : ∀ t, length (uchars (String c (String d t))) =
                     if is_continuation d then Nat.max 1 (length (uchars (String d t)))
                     else S (length (uchars (String d t)))).
    { intros t. change (uchars (String c (String d t))) with
        (if is_continuation d then match uchars (String d t) with ch :: l => String c ch :: l
                                   | [] => [String c ""] end
         else String c "" :: uchars (String d t)).
      destruct (is_continuation d); [destruct (uchars (String d t)); simpl; lia | done]. }
    change (String c (String d a' +:+ b)) with (String c (String d (a' +:+ b))).
    change (String d a' +:+ b) with (String d (a' +:+ b)) in IH.
    rewrite !E. destruct (is_continuation d); lia.
Qed.

(** Every character of a text is one character. *)
Lemma uchars_single s : Forall (λ ch, (length (uchars ch) ≤ 1)%nat) (uchars s).
Proof.
  induction s as [|c s IH]; [constructor|]. cbn [uchars].
  destruct s as [|d s']; [repeat constructor|].
  destruct (is_continuation d) eqn:Ed; [|by constructor; [simpl; lia|]].
  cbn [uchars] in *.
  destruct s' as [|e s'']; [by constructor; [simpl; rewrite Ed; simpl; lia|]|].
  destruct (is_continuation e).
  - destruct (uchars (String e s'')) as [|ch l].
    + constructor; [simpl; rewrite Ed; simpl; lia | by apply Forall_inv_tail in IH].
    + apply Forall_cons in IH as [H1 H2]. constructor; [|done].
      change (length (uchars (String c (String d ch))) ≤ 1)%nat.
      cbn [uchars] in *. rewrite Ed. by destruct ch as [|x ch'];
        [simpl; lia | destruct (is_continuation x); [destruct (uchars (String x ch')); simpl in *; lia | simpl in *; lia]].
  - apply Forall_cons in IH as [_ H2]. constructor; [simpl; rewrite Ed; simpl; lia | done].
Qed.

Lemma unchars_len l : Forall (λ ch, (length (uchars ch) ≤ 1)%nat) l → (length (uchars (unchars l)) ≤ length l)%nat.
Proof.
  induction 1 as [|ch l Hch _ IH]; [done|]. simpl unchars.
  pose proof (uchars_app_len ch (unchars l)). simpl. lia.
Qed.

Lemma take_chars_len n s : (length (uchars (unchars (take n (uchars s)))) ≤ n)%nat.
Proof.
  etransitivity; [apply unchars_len, Forall_take, uchars_single|]. rewrite length_take. lia.
Qed.

Lemma drop_chars_len n s :
  (length (uchars (unchars (drop n (uchars s)))) ≤ length (uchars s) - n)%nat.
Proof.
  etransitivity; [apply unchars_len, Forall_drop, uchars_single|]. by rewrite length_drop.
Qed.
