(* ===== verification/Regex.v ===== *)
(** * Regular expressions

    The part of Python's [re] that the tool guard uses: [re.compile] of a
    pattern built from literals, character classes, concatenation and
    repetition, and [pattern.search(s)].  A compiled pattern is a value of
    [re]; [search] runs it with Brzozowski derivatives and [search_spec]
    shows that it finds a match exactly when some substring belongs to the
    language of the pattern. *)

From stdpp Require Import base list strings.
From Stdlib Require Import Ascii.
From S2P Require Import Prelude.

Inductive re :=
  | RVoid
  | REps
  | RSet (p : ascii → bool)
  | RSeq (r1 r2 : re)
  | RAlt (r1 r2 : re)
  | RStar (r : re).

(** The language of a pattern. *)
Inductive re_matches : re → string → Prop :=
  | M_eps : re_matches REps ""
  | M_set p c : p c = true → re_matches (RSet p) (String c "")
  | M_seq r1 r2 s1 s2 :
      re_matches r1 s1 → re_matches r2 s2 → re_matches (RSeq r1 r2) (s1 +:+ s2)
  | M_alt_l r1 r2 s : re_matches r1 s → re_matches (RAlt r1 r2) s
  | M_alt_r r1 r2 s : re_matches r2 s → re_matches (RAlt r1 r2) s
  | M_star_nil r : re_matches (RStar r) ""
  | M_star_cons r s1 s2 :
      re_matches r s1 → re_matches (RStar r) s2 → re_matches (RStar r) (s1 +:+ s2).

#[export] Hint Constructors re_matches : py.

Fixpoint nullable (r : re) : bool :=
  match r with
  | RVoid | RSet _ => false
  | REps | RStar _ => true
  | RSeq r1 r2 => nullable r1 && nullable r2
  | RAlt r1 r2 => nullable r1 || nullable r2
  end.

Fixpoint deriv (c : ascii) (r : re) : re :=
  match r with
  | RVoid | REps => RVoid
  | RSet p => if p c then REps else RVoid
  | RSeq r1 r2 =>
      let d := RSeq (deriv c r1) r2 in
      if nullable r1 then RAlt d (deriv c r2) else d
  | RAlt r1 r2 => RAlt (deriv c r1) (deriv c r2)
  | RStar r1 => RSeq (deriv c r1) (RStar r1)
  end.

(** Some prefix of [s] matches [r]. *)
Fixpoint match_prefix (r : re) (s : string) : bool :=
  nullable r ||
  match s with
  | EmptyString => false
  | String c s' => match_prefix (deriv c r) s'
  end.

(** [pattern.search(s)] is not [None]. *)
Fixpoint search (r : re) (s : string) : bool :=
  match_prefix r s ||
  match s with
  | EmptyString => false
  | String _ s' => search r s'
  end.

(** Pattern constructors. *)
Definition RChar (c : ascii) : re := RSet (Ascii.eqb c).

Fixpoint RLit (s : string) : re :=
  match s with
  | EmptyString => REps
  | String c s' => RSeq (RChar c) (RLit s')
  end.

Definition RPlus (r : re) : re := RSeq r (RStar r).
Definition RSpace : re := RSet py_isspace.
Definition RDot : re := RSet (λ c, negb (Ascii.eqb c "010")).

Lemma nullable_spec r : nullable r = true ↔ re_matches r "".
Proof.
  induction r as [| |p|r1 IH1 r2 IH2|r1 IH1 r2 IH2|r IH]; simpl.
  - split; [done | intros H; inversion H].
  - split; [constructor | done].
  - split; [done | intros H; inversion H].
  - rewrite andb_true_iff, IH1, IH2. split.
    + intros [H1 H2]. by apply (M_seq _ _ "" "").
    + intros H. inversion H as [| |? ? s1 s2 H1 H2 E1 E2| | | |]; subst.
      destruct s1; [|discriminate]. simpl in E2. by subst.
  - rewrite orb_true_iff, IH1, IH2. split.
    + intros [?|?]; eauto with py.
    + intros H. inversion H; subst; eauto.
  - split; [constructor | done].
Qed.

(** A nonempty match of a star starts with a nonempty match of its body. *)
Lemma star_cons_inv r c s :
  re_matches (RStar r) (String c s) →
  ∃ s1 s2, s = s1 +:+ s2 ∧ re_matches r (String c s1) ∧ re_matches (RStar r) s2.
Proof.
  intros H. remember (RStar r) as q eqn:Eq. remember (String c s) as t eqn:Et.
  revert s Et. induction H as [| | | | | |r' s1 s2 H1 _ H2 IH2]; intros u Et;
    try discriminate.
  injection Eq as ->. destruct s1 as [|d s1]; simpl in Et.
  - by apply IH2.
  - injection Et as -> <-. eauto.
Qed.

Lemma seq_cons_inv r1 r2 c s :
  re_matches (RSeq r1 r2) (String c s) ↔
  (∃ s1 s2, s = s1 +:+ s2 ∧ re_matches r1 (String c s1) ∧ re_matches r2 s2) ∨
  (re_matches r1 "" ∧ re_matches r2 (String c s)).
Proof.
  split.
  - intros H. inversion H as [| |? ? s1 s2 H1 H2 E1 E2| | | |]; subst.
    destruct s1 as [|d s1]; simpl in E2; [subst; by right |].
    injection E2 as -> <-. left. eauto.
  - intros [(s1 & s2 & -> & H1 & H2) | [H1 H2]].
    + by apply (M_seq r1 r2 (String c s1) s2).
    + by apply (M_seq r1 r2 "" (String c s)).
Qed.

Lemma seq_matches r1 r2 s :
  re_matches (RSeq r1 r2) s ↔ ∃ s1 s2, s = s1 +:+ s2 ∧ re_matches r1 s1 ∧ re_matches r2 s2.
Proof.
  split; [intros H; inversion H; subst; eauto | intros (? & ? & -> & ? & ?); eauto with py].
Qed.

Lemma deriv_spec c r s : re_matches (deriv c r) s ↔ re_matches r (String c s).
Proof.
  revert s. induction r as [| |p|r1 IH1 r2 IH2|r1 IH1 r2 IH2|r IH]; intros s; simpl.
  - split; intros H; inversion H.
  - split; intros H; inversion H.
  - destruct (p c) eqn:E; split; intros H; inversion H; subst; try congruence;
      eauto with py.
  - rewrite seq_cons_inv, <- nullable_spec, <- IH2.
    setoid_rewrite <- IH1. rewrite <- seq_matches.
    destruct (nullable r1); split.
    + intros H; inversion H; subst; eauto.
    + intros [?|[_ ?]]; eauto with py.
    + eauto.
    + by intros [?|[? _]].
  - split; intros H; inversion H; subst; [apply M_alt_l | apply M_alt_r |
      apply M_alt_l | apply M_alt_r]; by (apply IH1 || apply IH2).
  - rewrite seq_matches. split.
    + intros (s1 & s2 & -> & H1 & H2). apply IH in H1.
      by apply (M_star_cons r (String c s1) s2).
    + intros (s1 & s2 & -> & H1 & H2)%star_cons_inv. exists s1, s2.
      split; [done|]. by rewrite IH.
Qed.

Lemma match_prefix_spec r s :
  match_prefix r s = true ↔ ∃ m b, s = m +:+ b ∧ re_matches r m.
Proof.
  revert r. induction s as [|c s IH]; intros r; cbn [match_prefix].
  - rewrite orb_false_r, nullable_spec. split.
    + intros H. by exists "", "".
    + intros (m & b & E & H). destruct m; [done | discriminate].
  - rewrite orb_true_iff, nullable_spec, IH. split.
    + intros [H | (m & b & -> & H)].
      * by exists "", (String c s).
      * exists (String c m), b. split; [done|]. by apply deriv_spec.
    + intros (m & b & E & H). destruct m as [|d m]; [by left|].
      injection E as -> ->. right. exists m, b. split; [done|]. by apply deriv_spec.
Qed.

(** [search] finds a match exactly when a substring is in the language. *)
Lemma search_spec r s :
  search r s = true ↔ ∃ a m b, s = a +:+ m +:+ b ∧ re_matches r m.
Proof.
  induction s as [|c s IH]; cbn [search].
  - rewrite orb_false_r, match_prefix_spec. split.
    + intros (m & b & E & H). by exists "", m, b.
    + intros (a & m & b & E & H). destruct a; [by exists m, b | discriminate].
  - rewrite orb_true_iff, match_prefix_spec, IH. split.
    + intros [(m & b & E & H) | (a & m & b & -> & H)].
      * by exists "", m, b.
      * by exists (String c a), m, b.
    + intros (a & m & b & E & H). destruct a as [|d a]; [left; by exists m, b|].
      injection E as -> ->. right. by exists a, m, b.
Qed.

Lemma RLit_matches s : re_matches (RLit s) s.
Proof.
  induction s as [|c s IH]; simpl; [constructor|].
  apply (M_seq (RChar c) (RLit s) (String c "") s); [|done].
  constructor. apply Ascii.eqb_refl.
Qed.

(** A literal pattern is found in every string that contains the literal. *)
Lemma search_RLit lit s : contains lit s = true → search (RLit lit) s = true.
Proof.
  intros (a & b & ->)%contains_spec. apply search_spec. exists a, lit, b.
  split; [done | apply RLit_matches].
Qed.
