(* ===== verification/PyRe.v ===== *)
(** * Regular expressions with groups

    [re.compile], [search], [match], [fullmatch], [finditer], [findall],
    [split] and [sub] of Python for the patterns the program uses.  [compile]
    reads a pattern in Python's own syntax, so that a pattern of the source
    stands unchanged in the model; [mt] is a backtracking matcher in
    continuation-passing style with Python's priorities (alternatives from
    left to right, greedy and lazy repetition), groups, line anchors, word
    boundaries and look-behind.  [step_re] is the declarative meaning of a
    pattern, without priorities, and [mt_sound] shows that what the matcher
    finds is a match of it.

    [Regex] is the smaller language, without groups and with a matcher by
    derivatives that is complete, which the command guard needs. *)

From stdpp Require Import base list strings.
From Stdlib Require Import Ascii ZArith.
From S2P Require Import Prelude PyText.

(** ** Patterns *)

Inductive citem :=
  | CRange (lo hi : Z)
  | CDigit | CSpace | CWord
  | CNotDigit | CNotSpace | CNotWord.

Inductive rx :=
  | XEps
  | XFail
  | XSet (neg : bool) (items : list citem)
  | XSeq (a b : rx)
  | XAlt (a b : rx)
  | XUpTo (max : option nat) (greedy : bool) (a : rx)
  | XGroup (n : nat) (a : rx)
  | XBol | XEol
  | XWordB
  | XLook (neg : bool) (a : rx)
  | XNotBehind (width : nat) (a : rx).

(** The flags of [re.compile]. *)
Record flags := Flags { f_ignorecase : bool; f_multiline : bool; f_dotall : bool }.

Definition no_flags : flags := Flags false false false.
Definition re_I : flags := Flags true false false.
Definition re_M : flags := Flags false true false.
Definition re_IM : flags := Flags true true false.
Definition re_S : flags := Flags false false true.

(** ** Characters *)

Definition is_digit_cp (n : Z) : bool := ((48 <=? n) && (n <=? 57))%Z.
Definition is_space_cp (n : Z) : bool :=
  (((9 <=? n) && (n <=? 13)) || ((28 <=? n) && (n <=? 32)))%Z.
Definition is_lower_cp (n : Z) : bool := ((97 <=? n) && (n <=? 122))%Z.
Definition is_upper_cp (n : Z) : bool := ((65 <=? n) && (n <=? 90))%Z.
(** [\w]: letters of other scripts count as word characters. *)
Definition is_word_cp (n : Z) : bool :=
  (is_digit_cp n || is_lower_cp n || is_upper_cp n || (n =? 95) || (128 <=? n))%Z.

Definition item_has (n : Z) (i : citem) : bool :=
  match i with
  | CRange lo hi => ((lo <=? n) && (n <=? hi))%Z
  | CDigit => is_digit_cp n
  | CSpace => is_space_cp n
  | CWord => is_word_cp n
  | CNotDigit => negb (is_digit_cp n)
  | CNotSpace => negb (is_space_cp n)
  | CNotWord => negb (is_word_cp n)
  end.

Definition swap_case_cp (n : Z) : Z :=
  (if is_lower_cp n then n - 32 else if is_upper_cp n then n + 32 else n)%Z.

Definition set_has (ic neg : bool) (items : list citem) (c : char) : bool :=
  let n := code_point c in
  xorb neg (existsb (item_has n) items || (ic && existsb (item_has (swap_case_cp n)) items)).

(** ** Reading a pattern *)

Definition CChar (c : char) : citem := CRange (code_point c) (code_point c).
Definition XChar (c : char) : rx := XSet false [CChar c].

(** The class escapes [\d], [\s], [\w] and their complements. *)
Definition class_escape (c : char) : option citem :=
  if String.eqb c "d" then Some CDigit else if String.eqb c "s" then Some CSpace
  else if String.eqb c "w" then Some CWord else if String.eqb c "D" then Some CNotDigit
  else if String.eqb c "S" then Some CNotSpace else if String.eqb c "W" then Some CNotWord
  else None.

(** The character an escape stands for: [\n], [\t], [\r], or itself. *)
Definition char_escape (c : char) : char :=
  if String.eqb c "n" then newline
  else if String.eqb c "t" then String "009" ""
  else if String.eqb c "r" then String "013" "" else c.

Definition hex_value (c : char) : option Z :=
  let n := code_point c in
  if is_digit_cp n then Some (n - 48)%Z
  else if ((97 <=? n) && (n <=? 102))%Z then Some (n - 87)%Z
  else if ((65 <=? n) && (n <=? 70))%Z then Some (n - 55)%Z else None.

(** One element of a character class as a code point or a class. *)
Definition class_atom (s : list char) : option ((Z + citem) * list char) :=
  match s with
  | "\" :: "x" :: a :: b :: s' =>
      match hex_value a, hex_value b with
      | Some x, Some y => Some (inl (x * 16 + y)%Z, s')
      | _, _ => None
      end
  | "\" :: c :: s' =>
      match class_escape c with
      | Some i => Some (inr i, s')
      | None => Some (inl (code_point (char_escape c)), s')
      end
  | c :: s' => Some (inl (code_point c), s')
  | [] => None
  end.

(** The rest of a class after its opening bracket (and its caret). *)
Fixpoint class_items (fuel : nat) (acc : list citem) (s : list char) :
    option (list citem * list char) :=
  match fuel with
  | 0 => None
  | S n =>
      match s, acc with
      | "]" :: s', _ :: _ => Some (rev acc, s')
      | _, _ =>
          match class_atom s with
          | Some (inr i, s') => class_items n (i :: acc) s'
          | Some (inl lo, ("-" :: c :: _) as s') =>
              if String.eqb c "]" then class_items n (CRange lo lo :: acc) s'
              else match class_atom (tail s') with
                   | Some (inl hi, s'') => class_items n (CRange lo hi :: acc) s''
                   | _ => None
                   end
          | Some (inl lo, s') => class_items n (CRange lo lo :: acc) s'
          | None => None
          end
      end
  end.

Fixpoint read_nat (acc : option nat) (s : list char) : option nat * list char :=
  match s with
  | c :: s' =>
      if is_digit_cp (code_point c)
      then read_nat (Some (10 * default 0 acc + Z.to_nat (code_point c - 48))) s'
      else (acc, s)
  | [] => (acc, [])
  end.

(** The bounds of a quantifier at the head of the text. *)
Definition read_bounds (s : list char) : option (nat * option nat * list char) :=
  match s with
  | "*" :: s' => Some (0, None, s')
  | "+" :: s' => Some (1, None, s')
  | "?" :: s' => Some (0, Some 1, s')
  | "{" :: s' =>
      match read_nat None s' with
      | (Some lo, "}" :: s'') => Some (lo, Some lo, s'')
      | (lo, "," :: s'') =>
          match read_nat None s'' with
          | (Some hi, "}" :: s3) => Some (default 0 lo, Some hi, s3)
          | (None, "}" :: s3) => match lo with Some n => Some (n, None, s3) | None => None end
          | _ => None
          end
      | _ => None
      end
  | _ => None
  end.

Fixpoint copies (n : nat) (a r : rx) : rx :=
  match n with 0 => r | S n' => XSeq a (copies n' a r) end.

(** [a{lo,hi}]: [lo] copies, then at most [hi - lo] more. *)
Definition repeat_rx (a : rx) (lo : nat) (hi : option nat) (greedy : bool) : rx :=
  match hi with
  | Some h => if Nat.eqb lo h then copies lo a XEps
              else copies lo a (XUpTo (Some (h - lo)) greedy a)
  | None => copies lo a (XUpTo None greedy a)
  end.

Definition quantify (a : rx) (s : list char) : rx * list char :=
  match read_bounds s with
  | Some (lo, hi, "?" :: s') => (repeat_rx a lo hi false, s')
  | Some (lo, hi, s') => (repeat_rx a lo hi true, s')
  | None => (a, s)
  end.

(** The width of a look-behind pattern. *)
Fixpoint width (r : rx) : nat :=
  match r with
  | XSet _ _ => 1
  | XSeq a b => width a + width b
  | XAlt a _ | XGroup _ a => width a
  | _ => 0
  end.

Fixpoint skip_name (s : list char) : list char :=
  match s with
  | ">" :: s' => s'
  | _ :: s' => skip_name s'
  | [] => []
  end.

(** Reads a sequence of atoms onto [acc] up to a closing parenthesis or the
    end; [g] is the number of the next group. *)
Fixpoint parse_rx (fuel : nat) (dotall : bool) (g : nat) (acc : rx) (s : list char) :
    option (rx * nat * list char) :=
  match fuel with
  | 0 => None
  | S n =>
      let atom a g' s' :=
        let '(a', s'') := quantify a s' in parse_rx n dotall g' (XSeq acc a') s'' in
      let group wrap g' s' :=
        match parse_rx n dotall g' XEps s' with
        | Some (r, g'', ")" :: s'') => atom (wrap r) g'' s''
        | _ => None
        end in
      match s with
      | [] | ")" :: _ => Some (acc, g, s)
      | "|" :: s' =>
          match parse_rx n dotall g XEps s' with
          | Some (r, g', s'') => Some (XAlt acc r, g', s'')
          | None => None
          end
      | "(" :: "?" :: ":" :: s' => group (λ r, r) g s'
      | "(" :: "?" :: "=" :: s' => group (XLook false) g s'
      | "(" :: "?" :: "!" :: s' => group (XLook true) g s'
      | "(" :: "?" :: "<" :: "!" :: s' => group (λ r, XNotBehind (width r) r) g s'
      | "(" :: "?" :: "P" :: "<" :: s' => group (XGroup g) (S g) (skip_name s')
      | "(" :: s' => group (XGroup g) (S g) s'
      | "[" :: "^" :: s' =>
          match class_items n [] s' with
          | Some (l, s'') => atom (XSet true l) g s''
          | None => None
          end
      | "[" :: s' =>
          match class_items n [] s' with
          | Some (l, s'') => atom (XSet false l) g s''
          | None => None
          end
      | "." :: s' => atom (if dotall then XSet true [] else XSet true [CChar newline]) g s'
      | "^" :: s' => atom XBol g s'
      | "$" :: s' => atom XEol g s'
      | "\" :: "b" :: s' => atom XWordB g s'
      | "\" :: c :: s' =>
          atom match class_escape c with
               | Some i => XSet false [i]
               | None => XChar (char_escape c)
               end g s'
      | c :: s' => atom (XChar c) g s'
      end
  end.

(** [re.compile(pattern, flags)]. *)
Record pattern := Pattern { p_rx : rx; p_flags : flags }.

Definition compile (f : flags) (s : string) : option pattern :=
  match parse_rx (S (String.length s)) (f_dotall f) 1 XEps (uchars s) with
  | Some (r, _, []) => Some (Pattern r f)
  | _ => None
  end.

(** A pattern constant: compilation of the patterns of the program succeeds,
    which each of them shows by evaluation. *)
Definition get_pattern (o : option pattern) : o ≠ None → pattern :=
  match o with
  | Some p => λ _, p
  | None => λ H, False_rect pattern (H eq_refl)
  end.

(** ** Matching *)

(** A position in the text: what precedes it (nearest first), what follows,
    and the groups closed so far (latest first). *)
Record mstate := MState {
  m_before : list char; m_rest : list char; m_groups : list (nat * list char) }.

Definition captured (s s' : mstate) : list char :=
  take (length (m_rest s) - length (m_rest s')) (m_rest s).

Definition at_bol (multi : bool) (s : mstate) : bool :=
  match m_before s with
  | [] => true
  | c :: _ => multi && String.eqb c newline
  end.

(** [$]: the end, or before a newline (any newline with MULTILINE, a final
    one without). *)
Definition at_eol (multi : bool) (s : mstate) : bool :=
  match m_rest s with
  | [] => true
  | [c] => String.eqb c newline
  | c :: _ => multi && String.eqb c newline
  end.

Definition is_word (c : char) : bool := is_word_cp (code_point c).

Definition at_word_boundary (s : mstate) : bool :=
  xorb (match m_before s with c :: _ => is_word c | [] => false end)
       (match m_rest s with c :: _ => is_word c | [] => false end).

(** The position [w] characters back. *)
Fixpoint move_back (w : nat) (s : mstate) : option mstate :=
  match w with
  | 0 => Some s
  | S w' =>
      match m_before s with
      | c :: b => move_back w' (MState b (c :: m_rest s) (m_groups s))
      | [] => None
      end
  end.

Section matching.
Context (f : flags).

Definition step_char (neg : bool) (items : list citem) (s : mstate) : option mstate :=
  match m_rest s with
  | c :: r => if set_has (f_ignorecase f) neg items c
              then Some (MState (c :: m_before s) r (m_groups s)) else None
  | [] => None
  end.

Fixpoint mt (r : rx) (k : mstate → option mstate) (s : mstate) : option mstate :=
  match r with
  | XEps => k s
  | XFail => None
  | XSet neg items => match step_char neg items s with Some s' => k s' | None => None end
  | XSeq a b => mt a (mt b k) s
  | XAlt a b => match mt a k s with Some x => Some x | None => mt b k s end
  | XUpTo max greedy a =>
      (fix loop (n : nat) (s : mstate) : option mstate :=
         match n with
         | 0 => k s
         | S n' =>
             let more :=
               mt a (λ s', if Nat.ltb (length (m_rest s')) (length (m_rest s))
                           then loop n' s' else None) s in
             if greedy then match more with Some x => Some x | None => k s end
             else match k s with Some x => Some x | None => more end
         end) (default (S (length (m_rest s))) max) s
  | XGroup n a =>
      mt a (λ s', k (MState (m_before s') (m_rest s') ((n, captured s s') :: m_groups s'))) s
  | XBol => if at_bol (f_multiline f) s then k s else None
  | XEol => if at_eol (f_multiline f) s then k s else None
  | XWordB => if at_word_boundary s then k s else None
  | XLook neg a =>
      match mt a Some s with
      | Some s' => if neg then None else k (MState (m_before s) (m_rest s) (m_groups s'))
      | None => if neg then k s else None
      end
  | XNotBehind w a =>
      match move_back w s with
      | Some s0 =>
          match mt a (λ s', if Nat.eqb (length (m_rest s')) (length (m_rest s))
                            then Some s' else None) s0 with
          | Some _ => None
          | None => k s
          end
      | None => k s
      end
  end.

End matching.

(** A match object: its start and end (in characters), its text, its groups
    and the position after it. *)
Record mobj := MObj {
  mo_start : nat; mo_end : nat; mo_text : string;
  mo_groups : list (nat * string); mo_after : mstate }.

Definition mk_mobj (s s' : mstate) : mobj :=
  MObj (length (m_before s)) (length (m_before s')) (unchars (captured s s'))
    (map (λ nc, (nc.1, unchars nc.2)) (m_groups s'))
    (MState (m_before s') (m_rest s') []).

(** [m.group(n)] for a group: [None] when it took no part in the match. *)
Fixpoint group_of (n : nat) (l : list (nat * string)) : option string :=
  match l with
  | [] => None
  | (n', t) :: l' => if Nat.eqb n n' then Some t else group_of n l'
  end.
Definition group (n : nat) (m : mobj) : option string := group_of n (mo_groups m).

(** [m.lastindex]: the group closed last. *)
Definition lastindex (m : mobj) : option nat :=
  match mo_groups m with (n, _) :: _ => Some n | [] => None end.

Definition start_state (s : string) : mstate := MState [] (uchars s) [].

Definition match_at (p : pattern) (s : mstate) : option mobj :=
  mk_mobj s <$> mt (p_flags p) (p_rx p) Some s.

(** The first match at or after a position. *)
Fixpoint search_from (p : pattern) (b rest : list char) : option mobj :=
  match match_at p (MState b rest []) with
  | Some m => Some m
  | None =>
      match rest with
      | [] => None
      | c :: rest' => search_from p (c :: b) rest'
      end
  end.

(** [p.match(s)], [p.search(s)] and [p.fullmatch(s)]. *)
Definition re_match (p : pattern) (s : string) : option mobj := match_at p (start_state s).
Definition re_search (p : pattern) (s : string) : option mobj := search_from p [] (uchars s).
Definition re_fullmatch (p : pattern) (s : string) : option mobj :=
  mk_mobj (start_state s) <$>
    mt (p_flags p) (p_rx p) (λ s', match m_rest s' with [] => Some s' | _ => None end)
       (start_state s).

Fixpoint finditer_go (fuel : nat) (p : pattern) (b rest : list char) : list mobj :=
  match fuel with
  | 0 => []
  | S n =>
      match search_from p b rest with
      | None => []
      | Some m =>
          m :: (if Nat.eqb (mo_start m) (mo_end m) then
                  match m_rest (mo_after m) with
                  | c :: r => finditer_go n p (c :: m_before (mo_after m)) r
                  | [] => []
                  end
                else finditer_go n p (m_before (mo_after m)) (m_rest (mo_after m)))
      end
  end.

(** [p.finditer(s)]: the matches from left to right without overlap. *)
Definition finditer (p : pattern) (s : string) : list mobj :=
  finditer_go (S (length (uchars s))) p [] (uchars s).

(** [re.findall] of a pattern without groups, and with one group. *)
Definition findall (p : pattern) (s : string) : list string := map mo_text (finditer p s).
Definition findall1 (p : pattern) (s : string) : list string :=
  map (λ m, default "" (group 1 m)) (finditer p s).

Fixpoint sub_go (repl : mobj → string) (pos : nat) (l : list mobj) (rest : list char) : string :=
  match l with
  | [] => unchars rest
  | m :: l' =>
      unchars (take (mo_start m - pos) rest) +:+ repl m +:+
      sub_go repl (mo_end m) l' (drop (mo_end m - pos) rest)
  end.

(** [p.sub(repl, s)] with a function, and with a literal replacement. *)
Definition re_sub_fun (p : pattern) (repl : mobj → string) (s : string) : string :=
  sub_go repl 0 (finditer p s) (uchars s).
Definition re_sub (p : pattern) (new s : string) : string := re_sub_fun p (λ _, new) s.

Fixpoint resplit_go (pos : nat) (l : list mobj) (rest : list char) : list string :=
  match l with
  | [] => [unchars rest]
  | m :: l' =>
      unchars (take (mo_start m - pos) rest) ::
      resplit_go (mo_end m) l' (drop (mo_end m - pos) rest)
  end.

(** [re.split(p, s)] of a pattern without groups. *)
Definition re_split (p : pattern) (s : string) : list string :=
  resplit_go 0 (finditer p s) (uchars s).

(** ** What a match means *)

Section meaning.
Context (f : flags).

(** [step_re r s s']: the pattern can match between the positions. *)
Inductive step_re : rx → mstate → mstate → Prop :=
  | S_eps s : step_re XEps s s
  | S_set neg items s s' : step_char f neg items s = Some s' → step_re (XSet neg items) s s'
  | S_seq a b s s1 s2 : step_re a s s1 → step_re b s1 s2 → step_re (XSeq a b) s s2
  | S_alt_l a b s s' : step_re a s s' → step_re (XAlt a b) s s'
  | S_alt_r a b s s' : step_re b s s' → step_re (XAlt a b) s s'
  | S_stop max g a s : step_re (XUpTo max g a) s s
  | S_more max g a s s1 s2 :
      max ≠ Some 0 → step_re a s s1 → step_re (XUpTo (pred <$> max) g a) s1 s2 →
      step_re (XUpTo max g a) s s2
  | S_group n a s s' :
      step_re a s s' →
      step_re (XGroup n a) s (MState (m_before s') (m_rest s') ((n, captured s s') :: m_groups s'))
  | S_bol s : at_bol (f_multiline f) s = true → step_re XBol s s
  | S_eol s : at_eol (f_multiline f) s = true → step_re XEol s s
  | S_wordb s : at_word_boundary s = true → step_re XWordB s s
  | S_look a s s' :
      step_re a s s' → step_re (XLook false a) s (MState (m_before s) (m_rest s) (m_groups s'))
  | S_look_not a s : step_re (XLook true a) s s
  | S_not_behind w a s : step_re (XNotBehind w a) s s.

(** What the matcher passes to its continuation is a match. *)
Lemma mt_sound r k s x : mt f r k s = Some x → ∃ s', step_re r s s' ∧ k s' = Some x.
Proof.
  revert k s x. induction r as [| |neg items|a IHa b IHb|a IHa b IHb|max g a IHa|n a IHa| | | |neg a IHa|w a IHa];
    intros k s x; cbn [mt]; intros H; try discriminate;
    try (case_match; [|discriminate]; eexists; split; [by constructor | done]).
  - eexists. by split; [constructor|].
  - apply IHa in H as (s1 & H1 & H). apply IHb in H as (s2 & H2 & H).
    exists s2. split; [by econstructor | done].
  - destruct (mt f a k s) as [y|] eqn:E.
    + injection H as ->. apply IHa in E as (s' & ? & ?). exists s'. by split; [constructor|].
    + apply IHb in H as (s' & ? & ?). exists s'. by split; [apply S_alt_r|].
  - revert H. set (N := default _ max).
    assert (HN : ∀ m, max = Some m → N = m) by (intros m ->; done).
    clearbody N. revert max s HN. induction N as [|N IHN]; intros max s HN H.
    + exists s. by split; [apply S_stop|].
    + assert (Hk : k s = Some x → ∃ s', step_re (XUpTo max g a) s s' ∧ k s' = Some x)
        by (intros ?; exists s; by split; [apply S_stop|]).
      match type of H with context [mt f a ?kk s] => destruct (mt f a kk s) as [y|] eqn:E end.
      * assert (Hy : y = x → ∃ s', step_re (XUpTo max g a) s s' ∧ k s' = Some x).
        { intros ->. apply IHa in E as (s1 & H1 & E).
          case_match; [|discriminate].
          apply (IHN (pred <$> max)) in E as (s2 & H2 & E).
          - exists s2. split; [|done]. eapply S_more; [|done..].
            intros ->. specialize (HN 0 eq_refl). lia.
          - intros m Hm. destruct max as [m0|]; [|done]. injection Hm as <-.
            specialize (HN m0 eq_refl). lia. }
        destruct g; [apply Hy; congruence|].
        destruct (k s) eqn:Ek; [apply Hk; congruence | apply Hy; congruence].
      * destruct g; [by apply Hk|]. destruct (k s) eqn:Ek; [apply Hk; congruence | done].
  - apply IHa in H as (s' & H1 & H). eexists. split; [by constructor | done].
  - destruct (mt f a Some s) as [s1|] eqn:E.
    + destruct neg; [discriminate|]. apply IHa in E as (s' & H1 & E).
      injection E as ->. eexists. split; [by constructor | done].
    + destruct neg; [|discriminate]. eexists. by split; [apply S_look_not|].
  - assert (k s = Some x) by (repeat case_match; congruence).
    exists s. by split; [apply S_not_behind|].
Qed.

(** The text around the position. *)
Definition text_of (s : mstate) : list char := rev (m_before s) ++ m_rest s.

(** A match moves the position inside the text and never back. *)
Lemma step_re_text r s s' :
  step_re r s s' →
  ∃ m, m_rest s = m ++ m_rest s' ∧ m_before s' = rev m ++ m_before s.
Proof.
  induction 1 as [s|neg items s s' Hs|a b s s1 s2 _ (m1 & E1 & B1) _ (m2 & E2 & B2)| | |
      max g a s|max g a s s1 s2 _ _ (m1 & E1 & B1) _ (m2 & E2 & B2)| | | | |a s s' _ IH| |]; simpl;
    try (by exists []); try done.
  - unfold step_char in Hs. destruct (m_rest s) as [|c r] eqn:E; [done|].
    case_match; [|done]. injection Hs as <-. by exists [c].
  - exists (m1 ++ m2). rewrite E1, E2, B2, B1, rev_app_distr. by rewrite <- !(assoc_L (++)).
  - exists (m1 ++ m2). rewrite E1, E2, B2, B1, rev_app_distr. by rewrite <- !(assoc_L (++)).
Qed.

Lemma captured_app (s s' : mstate) m : m_rest s = m ++ m_rest s' → captured s s' = m.
Proof.
  intros E. unfold captured. rewrite E, length_app, Nat.add_sub. by rewrite take_app_length.
Qed.

Lemma step_re_captured r s s' :
  step_re r s s' → m_rest s = captured s s' ++ m_rest s'.
Proof. intros (m & E & _)%step_re_text. by rewrite (captured_app _ _ m E). Qed.
End meaning.

Lemma match_at_sound p s m :
  match_at p s = Some m →
  ∃ s', step_re (p_flags p) (p_rx p) s s' ∧ m = mk_mobj s s'.
Proof.
  unfold match_at. destruct (mt _ _ _ _) as [x|] eqn:E; [|done]. intros [= <-].
  apply mt_sound in E as (s' & H & [= ->]). by exists x.
Qed.

(** A match found by [search_from] lies in the text: what precedes it, the
    match and what follows it are the text. *)
Lemma search_from_sound p b rest m :
  search_from p b rest = Some m →
  ∃ s s', text_of s = rev b ++ rest ∧ step_re (p_flags p) (p_rx p) s s' ∧ m = mk_mobj s s'.
Proof.
  revert b. induction rest as [|c rest IH]; intros b; cbn [search_from].
  - destruct (match_at p _) as [m'|] eqn:E; [|done]. intros [= ->].
    apply match_at_sound in E as (s' & ? & ?). by exists (MState b [] []), s'.
  - destruct (match_at p _) as [m'|] eqn:E.
    + intros [= ->]. apply match_at_sound in E as (s' & ? & ?). by exists (MState b (c :: rest) []), s'.
    + intros (s & s' & Ht & ?)%IH. exists s, s'. split; [|done].
      rewrite Ht. simpl. by rewrite <- (assoc_L (++)).
Qed.

Lemma re_search_sound p s m :
  re_search p s = Some m →
  ∃ st st', s = unchars (rev (m_before st)) +:+ mo_text m +:+ unchars (m_rest st') ∧
    step_re (p_flags p) (p_rx p) st st' ∧ m = mk_mobj st st'.
Proof.
  intros (st & st' & Ht & Hs & Hm)%search_from_sound. exists st, st'. split; [|by split].
  rewrite Hm. simpl. rewrite <- !unchars_app.
  rewrite <- (step_re_captured _ _ _ _ Hs). simpl in Ht. unfold text_of in Ht.
  by rewrite Ht, unchars_uchars.
Qed.
