(* ===== verification/GuardParser.v ===== *)
(** * The command parser of the tool guard (tools/guard_parser.py)

    [parse_command] splits an exec-form argument vector into a
    [ParsedCommand].  The loops of [_parse_kubectl] and [_parse_blade]
    recurse on the unread suffix [cmd[i:]] of the vector; their local
    variables are the fields of a [ParsedCommand] that the loop extends at
    the end, as the source's [append] does. *)

From stdpp Require Import base list strings sets.
From Stdlib Require Import Ascii.
From S2P Require Import Prelude.

(** ** Schemas *)

Definition KUBECTL_BOOLEAN_FLAGS : list string :=
  ["-h"; "--help"; "--version";
   "-A"; "--all-namespaces"; "--all";
   "-w"; "--watch"; "--watch-only";
   "-R"; "--recursive";
   "--no-headers"; "--show-labels"; "--show-kind"; "--show-managed-fields";
   "--server-print";
   "--insecure-skip-tls-verify";
   "-q"; "--quiet";
   "--ignore-not-found";
   "--force";
   "--cascade";
   "--prune";
   "--validate";
   "--dry-run";
   "-i"; "--stdin";
   "-t"; "--tty";
   "--previous";
   "--prefix";
   "--timestamps";
   "--show-events";
   "--allow-missing-template-keys"].

Definition KUBECTL_DATA_PAYLOAD_FLAGS : list string :=
  ["-p"; "--patch";
   "-f"; "--filename";
   "--from-literal"; "--from-file"; "--from-env-file";
   "--annotation"; "--annotations";
   "--labels"; "--label";
   "--data"; "--data-binary";
   "-l"; "--selector";
   "--field-selector";
   "--overrides";
   "--kubeconfig";
   "--context";
   "--cluster";
   "--user";
   "--server";
   "--token";
   "--certificate-authority";
   "--client-certificate";
   "--client-key";
   "--as";
   "--as-group";
   "--as-uid"].

Definition KUBECTL_DOUBLE_DASH_SUBCOMMANDS : list string :=
  ["exec"; "run"; "attach"; "debug"].

Definition BLADE_BOOLEAN_FLAGS : list string :=
  ["-h"; "--help"; "-d"; "--debug"; "-v"; "--version"; "--no-color"].

Definition SUSPICIOUS_SOLO_TOKENS : list string :=
  [";"; "|"; "&"; "||"; "&&"; ">"; "<"; ">>"; "<<"; "<<<"].

(** ** The parse result *)

Record ParsedCommand := mkParsed {
  binary : string;
  subcommand : option string;
  positional_args : list string;
  flags : list (string * option string);
  data_payload_values : list string;
  container_command : list string;
}.

Definition add_subcommand (t : string) (p : ParsedCommand) : ParsedCommand :=
  mkParsed (binary p) (Some t) (positional_args p) (flags p)
           (data_payload_values p) (container_command p).

Definition add_positional (t : string) (p : ParsedCommand) : ParsedCommand :=
  mkParsed (binary p) (subcommand p) (positional_args p ++ [t]) (flags p)
           (data_payload_values p) (container_command p).

Definition add_flag (n : string) (v : option string) (p : ParsedCommand) : ParsedCommand :=
  mkParsed (binary p) (subcommand p) (positional_args p) (flags p ++ [(n, v)])
           (data_payload_values p) (container_command p).

Definition add_payload (v : string) (p : ParsedCommand) : ParsedCommand :=
  mkParsed (binary p) (subcommand p) (positional_args p) (flags p)
           (data_payload_values p ++ [v]) (container_command p).

Definition set_container (l : list string) (p : ParsedCommand) : ParsedCommand :=
  mkParsed (binary p) (subcommand p) (positional_args p) (flags p)
           (data_payload_values p) l.

(** [if subcommand is None: subcommand = token else: positional.append(token)] *)
Definition add_word (t : string) (p : ParsedCommand) : ParsedCommand :=
  match subcommand p with
  | None => add_subcommand t p
  | Some _ => add_positional t p
  end.

(** [Path(c).name]: the last component that is neither empty nor ["."]. *)
Definition path_name (c : string) : string :=
  List.last (filter (λ x, truthy x && negb (String.eqb x ".")) (split_on "/" c)) "".

Definition opt_list (o : option string) : list string :=
  match o with Some x => [x] | None => [] end.

(** The tokens that undergo the shell-pattern checks. *)
Definition host_relevant_tokens (p : ParsedCommand) : list string :=
  [binary p] ++
  match subcommand p with
  | Some s => if truthy s then [s] else []
  | None => []
  end ++
  positional_args p ++
  flat_map (λ '(name, val),
    name :: match val with
            | Some v => if v ∈? data_payload_values p then [] else [v]
            | None => []
            end) (flags p).

(** ** The per-binary parsers *)

Definition _split_flag_eq (token : string) : string * option string :=
  if has_char "=" token && startswith token "-"
  then match cut "=" token with
       | Some (name, val) => (name, Some val)
       | None => (token, None)
       end
  else (token, None).

(** [token.startswith("-") and len(token) > 1]. *)
Definition flag_like (token : string) : bool :=
  startswith token "-" && Nat.ltb 1 (String.length token).

Definition add_kubectl_flag (name : string) (val : string) (p : ParsedCommand) : ParsedCommand :=
  let p := add_flag name (Some val) p in
  if name ∈? KUBECTL_DATA_PAYLOAD_FLAGS then add_payload val p else p.

Fixpoint kubectl_loop (toks : list string) (p : ParsedCommand) : ParsedCommand :=
  match toks with
  | [] => p
  | token :: rest =>
      if String.eqb token "--" then
        if match subcommand p with
           | Some s => s ∈? KUBECTL_DOUBLE_DASH_SUBCOMMANDS
           | None => false
           end
        then set_container rest p
        else kubectl_loop rest (add_word token p)
      else if flag_like token then
        match _split_flag_eq token with
        | (name, None) =>
            if name ∈? KUBECTL_BOOLEAN_FLAGS then kubectl_loop rest (add_flag name None p)
            else match rest with
                 | next :: rest' =>
                     if startswith next "-"
                     then kubectl_loop rest (add_flag name None p)
                     else kubectl_loop rest' (add_kubectl_flag name next p)
                 | [] => add_flag name None p
                 end
        | (name, Some eq_val) => kubectl_loop rest (add_kubectl_flag name eq_val p)
        end
      else kubectl_loop rest (add_word token p)
  end.

Definition empty_parsed (b : string) : ParsedCommand := mkParsed b None [] [] [] [].

Definition _parse_kubectl (cmd : list string) : ParsedCommand :=
  kubectl_loop (tail cmd) (empty_parsed "kubectl").

Fixpoint blade_loop (toks : list string) (p : ParsedCommand) : ParsedCommand :=
  match toks with
  | [] => p
  | token :: rest =>
      if flag_like token then
        match _split_flag_eq token with
        | (name, None) =>
            if name ∈? BLADE_BOOLEAN_FLAGS then blade_loop rest (add_flag name None p)
            else match rest with
                 | next :: rest' =>
                     if startswith next "-"
                     then blade_loop rest (add_flag name None p)
                     else blade_loop rest' (add_flag name (Some next) p)
                 | [] => add_flag name None p
                 end
        | (name, Some eq_val) => blade_loop rest (add_flag name (Some eq_val) p)
        end
      else blade_loop rest (add_word token p)
  end.

Definition _parse_blade (cmd : list string) : ParsedCommand :=
  blade_loop (tail cmd) (empty_parsed "blade").

Definition _parse_generic (cmd : list string) : ParsedCommand :=
  mkParsed (path_name (List.hd "" cmd)) None (tail cmd) [] [] [].

Definition parse_command (cmd : list string) : ParsedCommand :=
  match cmd with
  | [] => empty_parsed ""
  | c :: _ =>
      let binary_name := path_name c in
      if String.eqb binary_name "kubectl" then _parse_kubectl cmd
      else if String.eqb binary_name "blade" then _parse_blade cmd
      else _parse_generic cmd
  end.

#[global] Arguments parse_command : simpl never.
#[global] Arguments path_name : simpl never.
#[global] Arguments host_relevant_tokens : simpl never.

(** ** Token accounting

    The atoms of a token are what the parser can record of it: the name
    and the value of a [--name=value] token, the token itself otherwise.
    The atoms of a parse result are everything it recorded about the host
    part of the vector. *)

Definition token_atoms (t : string) : list string :=
  let '(n, v) := _split_flag_eq t in n :: opt_list v.

Definition flag_atoms (f : string * option string) : list string := f.1 :: opt_list f.2.

Definition parsed_atoms (p : ParsedCommand) : list string :=
  opt_list (subcommand p) ++ positional_args p ++ flat_map flag_atoms (flags p).

(** The values of the data-payload flags among [fs]. *)
Definition payload_values (fs : list (string * option string)) : list string :=
  flat_map (λ f, if f.1 ∈? KUBECTL_DATA_PAYLOAD_FLAGS then opt_list f.2 else []) fs.

Lemma not_flag_atoms t : startswith t "-" = false → token_atoms t = [t].
Proof. intros H. unfold token_atoms, _split_flag_eq. by rewrite H, andb_false_r. Qed.

Lemma flag_like_false t : flag_like t = false → token_atoms t = [t].
Proof.
  unfold flag_like. intros [H|H]%andb_false_iff; [by apply not_flag_atoms|].
  destruct t as [|c [|d t]]; [done | | done].
  unfold token_atoms, _split_flag_eq. cbn [has_char].
  destruct (Ascii.eqb_spec "=" c) as [<-|]; done.
Qed.

Lemma parsed_atoms_word t p :
  parsed_atoms (add_word t p) ≡ₚ t :: parsed_atoms p.
Proof.
  unfold add_word, parsed_atoms. destruct (subcommand p) as [s|] eqn:E; simpl.
  - rewrite E. simpl. rewrite <- (assoc_L (++)). simpl. solve_Permutation.
  - done.
Qed.

Lemma parsed_atoms_flag n v p :
  parsed_atoms (add_flag n v p) ≡ₚ (n :: opt_list v) ++ parsed_atoms p.
Proof.
  unfold parsed_atoms. simpl. rewrite flat_map_app. simpl. rewrite app_nil_r.
  solve_Permutation.
Qed.

Lemma parsed_atoms_payload v p : parsed_atoms (add_payload v p) = parsed_atoms p.
Proof. done. Qed.

Lemma parsed_atoms_kubectl_flag n v p :
  parsed_atoms (add_kubectl_flag n v p) ≡ₚ [n; v] ++ parsed_atoms p.
Proof.
  unfold add_kubectl_flag. destruct (n ∈? _).
  - rewrite parsed_atoms_payload. apply (parsed_atoms_flag n (Some v)).
  - apply (parsed_atoms_flag n (Some v)).
Qed.

(** Induction on a list that may drop one or two elements per step. *)
Lemma list_ind_len {A} (P : list A → Prop) :
  (∀ l, (∀ l', length l' < length l → P l') → P l) → ∀ l, P l.
Proof.
  intros H l. induction l as [l IH] using (induction_ltof1 _ length). apply H, IH.
Qed.

(** What one run of a parser loop over [toks] from [p] to [q] guarantees:
    the atoms of the host tokens are recorded, none twice and none made up,
    and what is not recorded is the container command after a ["--"]. *)
Definition accounts (toks : list string) (p q : ParsedCommand) : Prop :=
  ∃ host,
    (toks = host ∧ container_command q = container_command p ∨
     toks = host ++ "--" :: container_command q) ∧
    parsed_atoms q ≡ₚ flat_map token_atoms host ++ parsed_atoms p.

Lemma accounts_nil p : accounts [] p p.
Proof. exists []. eauto. Qed.

Lemma accounts_step ts toks p p' q :
  container_command p' = container_command p →
  parsed_atoms p' ≡ₚ flat_map token_atoms ts ++ parsed_atoms p →
  accounts toks p' q → accounts (ts ++ toks) p q.
Proof.
  intros Hc Hp (host & Hh & Hq). exists (ts ++ host). split.
  - destruct Hh as [[-> Hc'] | ->]; [left; split; congruence|].
    right. by rewrite <- (assoc_L (++)).
  - rewrite Hq, Hp, flat_map_app. solve_Permutation.
Qed.

Lemma container_word t p : container_command (add_word t p) = container_command p.
Proof. unfold add_word. by destruct (subcommand p). Qed.

Lemma container_kubectl_flag n v p :
  container_command (add_kubectl_flag n v p) = container_command p.
Proof. unfold add_kubectl_flag. by destruct (n ∈? _). Qed.

Lemma accounts_word t toks p q :
  token_atoms t = [t] → accounts toks (add_word t p) q → accounts (t :: toks) p q.
Proof.
  intros Ht. apply (accounts_step [t]); [apply container_word|].
  simpl. rewrite Ht. apply parsed_atoms_word.
Qed.

Lemma accounts_flag t n v toks p q :
  _split_flag_eq t = (n, v) → accounts toks (add_flag n v p) q → accounts (t :: toks) p q.
Proof.
  intros Ht. apply (accounts_step [t]); [done|].
  simpl. unfold token_atoms. rewrite Ht, app_nil_r. apply parsed_atoms_flag.
Qed.

Lemma accounts_flag_value t n v toks p p' q :
  _split_flag_eq t = (n, None) → startswith v "-" = false →
  container_command p' = container_command p →
  parsed_atoms p' ≡ₚ [n; v] ++ parsed_atoms p →
  accounts toks p' q → accounts (t :: v :: toks) p q.
Proof.
  intros Ht Hv Hc Hp. apply (accounts_step [t; v]); [done|].
  simpl. rewrite (not_flag_atoms v Hv). unfold token_atoms. by rewrite Ht.
Qed.

Lemma kubectl_loop_accounts toks p : accounts toks p (kubectl_loop toks p).
Proof.
  revert p. induction toks as [toks IH] using list_ind_len; intros p.
  destruct toks as [|token rest]; [apply accounts_nil|]. simpl.
  destruct (String.eqb token "--") eqn:Edd.
  - apply String.eqb_eq in Edd as ->. case_if.
    + exists []. split; [right; reflexivity | reflexivity].
    + apply accounts_word; [done|]. apply IH. simpl. lia.
  - destruct (flag_like token) eqn:Efl.
    2: { apply accounts_word; [by apply flag_like_false|]. apply IH. simpl. lia. }
    destruct (_split_flag_eq token) as [name [v|]] eqn:Es.
    + apply (accounts_step [token] rest p (add_kubectl_flag name v p)).
      * apply container_kubectl_flag.
      * simpl. unfold token_atoms. rewrite Es. simpl. apply parsed_atoms_kubectl_flag.
      * apply IH. simpl. lia.
    + destruct (name ∈? _).
      { apply (accounts_flag _ _ _ _ _ _ Es), IH. simpl. lia. }
      destruct rest as [|next rest'].
      { apply (accounts_flag _ _ _ _ _ _ Es), accounts_nil. }
      destruct (startswith next "-") eqn:En.
      { apply (accounts_flag _ _ _ _ _ _ Es), IH. simpl. lia. }
      eapply (accounts_flag_value _ _ _ _ _ _ _ Es En (container_kubectl_flag _ _ _)).
      * apply parsed_atoms_kubectl_flag.
      * apply IH. simpl. lia.
Qed.

Lemma blade_loop_accounts toks p : accounts toks p (blade_loop toks p).
Proof.
  revert p. induction toks as [toks IH] using list_ind_len; intros p.
  destruct toks as [|token rest]; [apply accounts_nil|]. simpl.
  destruct (flag_like token) eqn:Efl.
  2: { apply accounts_word; [by apply flag_like_false|]. apply IH. simpl. lia. }
  destruct (_split_flag_eq token) as [name [v|]] eqn:Es.
  { apply (accounts_flag _ _ _ _ _ _ Es), IH. simpl. lia. }
  destruct (name ∈? _).
  { apply (accounts_flag _ _ _ _ _ _ Es), IH. simpl. lia. }
  destruct rest as [|next rest'].
  { apply (accounts_flag _ _ _ _ _ _ Es), accounts_nil. }
  destruct (startswith next "-") eqn:En.
  { apply (accounts_flag _ _ _ _ _ _ Es), IH. simpl. lia. }
  eapply (accounts_flag_value _ _ _ _ _ (add_flag name (Some next) p) _ Es En); [done| |].
  - apply (parsed_atoms_flag name (Some next)).
  - apply IH. simpl. lia.
Qed.

(** ** Payload values *)

Lemma payload_values_app fs gs :
  payload_values (fs ++ gs) = payload_values fs ++ payload_values gs.
Proof. apply flat_map_app. Qed.

(** The loop keeps [data_payload_values] equal to the values of the
    data-payload flags it has recorded. *)
Definition payload_inv (p : ParsedCommand) : Prop :=
  data_payload_values p = payload_values (flags p).

Lemma payload_inv_word t p : payload_inv p → payload_inv (add_word t p).
Proof. unfold payload_inv, add_word. by destruct (subcommand p). Qed.

Lemma payload_inv_flag n p : payload_inv p → payload_inv (add_flag n None p).
Proof.
  unfold payload_inv. simpl. rewrite payload_values_app. unfold payload_values at 3.
  simpl. intros ->. case_if; by rewrite !app_nil_r.
Qed.

Lemma payload_inv_kubectl_flag n v p : payload_inv p → payload_inv (add_kubectl_flag n v p).
Proof.
  unfold payload_inv, add_kubectl_flag. intros H. destruct (n ∈? _) eqn:E; simpl;
    rewrite payload_values_app, H; unfold payload_values at 3; simpl; rewrite E;
    simpl; by rewrite ?app_nil_r.
Qed.

#[export] Hint Resolve payload_inv_word payload_inv_flag payload_inv_kubectl_flag : py.

Lemma kubectl_loop_payload toks p : payload_inv p → payload_inv (kubectl_loop toks p).
Proof.
  revert p. induction toks as [toks IH] using list_ind_len; intros p Hp.
  destruct toks as [|token rest]; [done|]. simpl.
  destruct (String.eqb token "--").
  { case_if; [done|]. apply IH; [simpl; lia | auto with py]. }
  destruct (flag_like token); [|apply IH; [simpl; lia | auto with py]].
  destruct (_split_flag_eq token) as [name [v|]];
    [apply IH; [simpl; lia | auto with py]|].
  destruct (name ∈? _); [apply IH; [simpl; lia | auto with py]|].
  destruct rest as [|next rest']; [auto with py|].
  destruct (startswith next "-"); (apply IH; [simpl; lia | auto with py]).
Qed.

(** ** What the host checks see *)

Lemma host_tokens_cover p x :
  x ∈ parsed_atoms p → x ≠ "" → x ∈ host_relevant_tokens p ∨ x ∈ data_payload_values p.
Proof.
  unfold parsed_atoms, host_relevant_tokens.
  rewrite !elem_of_app. intros [H|[H|H]] Hne.
  - left. right. left. destruct (subcommand p) as [s|]; simpl in *; [|set_solver].
    apply list_elem_of_singleton in H as ->.
    rewrite (proj2 (truthy_spec s) Hne). set_solver.
  - set_solver.
  - apply list_elem_of_In, in_flat_map in H as ([n v] & Hf & Hx).
    apply list_elem_of_In in Hx. unfold flag_atoms in Hx. simpl in Hx.
    destruct (decide (x ∈ data_payload_values p)) as [|Hp]; [by right|]. left.
    right. right. right. apply list_elem_of_In, in_flat_map. exists (n, v).
    split; [done|]. apply list_elem_of_In.
    apply elem_of_cons in Hx as [->|Hx]; [set_solver|].
    destruct v as [v|]; simpl in Hx; [|set_solver].
    apply list_elem_of_singleton in Hx as ->.
    rewrite (proj2 (str_in_false v _) Hp). set_solver.
Qed.

(** The host part of a vector, the container command apart. *)
Theorem parse_kubectl_accounts c args :
  let q := _parse_kubectl (c :: args) in
  ∃ host,
    (args = host ∧ container_command q = [] ∨ args = host ++ "--" :: container_command q) ∧
    parsed_atoms q ≡ₚ flat_map token_atoms host ∧
    data_payload_values q = payload_values (flags q).
Proof.
  simpl. unfold _parse_kubectl. simpl.
  destruct (kubectl_loop_accounts args (empty_parsed "kubectl")) as (host & Hh & Hq).
  exists host. split; [done|]. split; [by rewrite Hq, app_nil_r|].
  by apply kubectl_loop_payload.
Qed.

(** A container command is split off only behind a ["--"] of a delegating
    subcommand. *)
Lemma kubectl_loop_container toks p :
  container_command (kubectl_loop toks p) ≠ container_command p →
  ∃ s, subcommand (kubectl_loop toks p) = Some s ∧ s ∈ KUBECTL_DOUBLE_DASH_SUBCOMMANDS.
Proof.
  revert p. induction toks as [toks IH] using list_ind_len; intros p.
  destruct toks as [|token rest]; [done|]. simpl.
  assert (IH' : ∀ l q, length l < length (token :: rest) →
    container_command q = container_command p →
    container_command (kubectl_loop l q) ≠ container_command p →
    ∃ s, subcommand (kubectl_loop l q) = Some s ∧ s ∈ KUBECTL_DOUBLE_DASH_SUBCOMMANDS).
  { intros l q Hl Hc Hn. apply IH; [done | congruence]. }
  destruct (String.eqb token "--").
  { case_if.
    - intros _. simpl. destruct (subcommand p) as [s|]; [|done]. exists s.
      bool_to_prop. done.
    - apply IH'; [simpl; lia | apply container_word]. }
  destruct (flag_like token); [|apply IH'; [simpl; lia | apply container_word]].
  destruct (_split_flag_eq token) as [name [v|]];
    [apply IH'; [simpl; lia | apply container_kubectl_flag]|].
  destruct (name ∈? _); [apply IH'; [simpl; lia | done]|].
  destruct rest as [|next rest']; [done|].
  destruct (startswith next "-");
    (apply IH'; [simpl; lia | by rewrite ?container_kubectl_flag]).
Qed.

(** ** The binary is identified by its base name *)

Lemma path_name_idem c : path_name (path_name c) = path_name c.
Proof.
  unfold path_name at 2 3.
  destruct (last_default_or_elem
    (filter (λ x, truthy x && negb (String.eqb x ".")) (split_on "/" c))) as [->|H]; [done|].
  set (x := List.last _ _) in *. apply list_elem_of_filter in H as [Hx H].
  apply split_on_no_sep in H. unfold path_name. rewrite (split_on_single _ _ H).
  simpl. rewrite filter_cons_True by done. done.
Qed.

Lemma parse_command_basename c args :
  parse_command (c :: args) = parse_command (path_name c :: args).
Proof.
  unfold parse_command. rewrite path_name_idem.
  case_if; [done|]. case_if; [done|]. unfold _parse_generic. simpl.
  by rewrite path_name_idem.
Qed.
