(* ===== verification/ToolGuard.v ===== *)
(** * The tool guard (tools/guard.py)

    [check] decides whether an exec-form command may run: a whitelist of
    binaries, a whitelist of kubectl subcommands and a token-level
    blacklist on the host-relevant tokens of the parsed command. *)

From stdpp Require Import base list strings sets.
From Stdlib Require Import Ascii.
From S2P Require Import Prelude.
From S2P Require Import Regex.
From S2P Require Import GuardParser.

Definition ALLOWED_COMMANDS : list string := ["blade"; "kubectl"; "df"; "ping"; "sleep"].

Definition KUBECTL_ALLOWED_SUBCOMMANDS : list string :=
  ["get"; "describe"; "delete"; "exec"; "logs"; "top"; "patch"; "set"; "scale";
   "debug"; "wait"; "cordon"; "uncordon"; "taint"; "apply"; "create"; "rollout"].

(** The seven patterns of the source, compiled. *)
Definition PARAM_BLACKLIST_PATTERNS : list re :=
  [RSeq (RLit "rm") (RSeq (RPlus RSpace) (RLit "-rf"));
   RSeq (RLit ">") (RSeq (RStar RSpace) (RLit "/dev/"));
   RSeq (RLit ";") (RSeq (RStar RSpace) (RLit "rm"));
   RSeq (RLit "|") (RSeq (RStar RSpace) (RLit "bash"));
   RSeq (RLit "|") (RSeq (RStar RSpace) (RLit "sh"));
   RSeq (RLit "`") (RSeq (RStar RDot) (RLit "`"));
   RLit "$("].

Record ToolGuard := mkToolGuard {
  allowed_commands : list string;
  kubectl_subcommands : list string;
  param_blacklist : list re;
}.

(** [x or default] on a set or a list: [None] and the empty collection
    both take the default. *)
Definition coll_or {A} (o : option (list A)) (d : list A) : list A :=
  match o with
  | None | Some [] => d
  | Some l => l
  end.

(** [ToolGuard.__init__]. *)
Definition toolguard_init (cmds subs : option (list string)) (pats : option (list re)) : ToolGuard :=
  mkToolGuard (coll_or cmds ALLOWED_COMMANDS)
              (coll_or subs KUBECTL_ALLOWED_SUBCOMMANDS)
              (coll_or pats PARAM_BLACKLIST_PATTERNS).

Definition default_guard : ToolGuard := toolguard_init None None None.

(** The two checks of one host token. *)
Definition dangerous (g : ToolGuard) (token : string) : bool :=
  (token ∈? SUSPICIOUS_SOLO_TOKENS) || existsb (λ r, search r token) (param_blacklist g).

Definition check (g : ToolGuard) (cmd : list string) : bool * string :=
  match cmd with
  | [] => (false, "Empty command")
  | c :: _ =>
      let binary := path_name c in
      if negb (binary ∈? allowed_commands g)
      then (false, "Command not allowed: " +:+ binary)
      else
        let parsed := parse_command cmd in
        let bad_sub :=
          if String.eqb binary "kubectl"
          then match subcommand parsed with
               | Some s => if truthy s && negb (s ∈? kubectl_subcommands g) then Some s else None
               | None => None
               end
          else None in
        match bad_sub with
        | Some s => (false, "kubectl subcommand not allowed: " +:+ s)
        | None =>
            if existsb (dangerous g) (host_relevant_tokens parsed)
            then (false, "Dangerous pattern detected in command")
            else (true, "OK")
        end
  end.

(** ** Specification

    What the guard promises of an accepted command, stated without its
    control flow. *)

Definition host_clean (g : ToolGuard) (t : string) : Prop :=
  (t ∉ SUSPICIOUS_SOLO_TOKENS) ∧
  ∀ r a m b, r ∈ param_blacklist g → t = a +:+ m +:+ b → ¬ re_matches r m.

Definition guard_allows (g : ToolGuard) (cmd : list string) : Prop :=
  ∃ c args, cmd = c :: args ∧
    path_name c ∈ allowed_commands g ∧
    (path_name c = "kubectl" →
     ∀ s, subcommand (parse_command cmd) = Some s → s ≠ "" → s ∈ kubectl_subcommands g) ∧
    ∀ t, t ∈ host_relevant_tokens (parse_command cmd) → host_clean g t.

Lemma dangerous_spec g t : dangerous g t = false ↔ host_clean g t.
Proof.
  unfold dangerous, host_clean. rewrite orb_false_iff, str_in_false.
  apply and_iff_compat_l. rewrite <- not_true_iff_false, existsb_exists. split.
  - intros H r a m b Hr -> Hm. apply H. exists r.
    split; [by apply list_elem_of_In | apply search_spec; eauto].
  - intros H (r & Hr & (a & m & b & -> & Hm)%search_spec).
    apply list_elem_of_In in Hr. by eapply H.
Qed.

Lemma existsb_dangerous g l :
  existsb (dangerous g) l = false ↔ ∀ t, t ∈ l → host_clean g t.
Proof.
  induction l as [|x l IH]; simpl.
  - split; [intros _ t Ht; set_solver | done].
  - rewrite orb_false_iff, IH, dangerous_spec. split.
    + intros [Hx Hl] t [->|Ht]%elem_of_cons; auto.
    + intros H. split; [apply H; by left | intros t Ht; apply H; by right].
Qed.

(** The subcommand is on the list, when the command is kubectl and has one. *)
Definition subcommand_allowed (g : ToolGuard) (cmd : list string) (binary : string) : Prop :=
  binary = "kubectl" → ∀ s, subcommand (parse_command cmd) = Some s → s ≠ "" → s ∈ kubectl_subcommands g.

(** The refusals, each with its reason; an earlier reason hides a later one. *)
Inductive guard_refuses (g : ToolGuard) : list string → string → Prop :=
  | refuse_empty : guard_refuses g [] "Empty command"
  | refuse_binary c args :
      path_name c ∉ allowed_commands g →
      guard_refuses g (c :: args) ("Command not allowed: " +:+ path_name c)
  | refuse_subcommand c args s :
      path_name c ∈ allowed_commands g → path_name c = "kubectl" →
      subcommand (parse_command (c :: args)) = Some s → s ≠ "" → s ∉ kubectl_subcommands g →
      guard_refuses g (c :: args) ("kubectl subcommand not allowed: " +:+ s)
  | refuse_token c args t :
      path_name c ∈ allowed_commands g → subcommand_allowed g (c :: args) (path_name c) →
      t ∈ host_relevant_tokens (parse_command (c :: args)) → ¬ host_clean g t →
      guard_refuses g (c :: args) "Dangerous pattern detected in command".

(** The verdict: accepted by the policy, or refused for the reason it gives. *)
Lemma check_cases g cmd :
  (check g cmd = (true, "OK") ∧ guard_allows g cmd) ∨
  ∃ reason, check g cmd = (false, reason) ∧ guard_refuses g cmd reason.
Proof.
  unfold check, guard_allows. destruct cmd as [|c args]; [right; eexists; split; [done | constructor]|].
  destruct (path_name c ∈? allowed_commands g) eqn:Eb; cbn [negb]; bool_to_prop;
    [|right; eexists; split; [done | by constructor]].
  set (bad := if String.eqb (path_name c) "kubectl" then _ else _).
  assert (Hsub : match bad with
    | Some s => path_name c = "kubectl" ∧ subcommand (parse_command (c :: args)) = Some s ∧ s ≠ "" ∧ s ∉ kubectl_subcommands g
    | None => subcommand_allowed g (c :: args) (path_name c) end).
  { unfold bad, subcommand_allowed. destruct (String.eqb_spec (path_name c) "kubectl") as [->|Hk]; [|naive_solver].
    destruct (subcommand (parse_command (c :: args))) as [s|]; [|naive_solver].
    destruct (truthy s) eqn:Et, (s ∈? kubectl_subcommands g) eqn:Es; simpl; bool_to_prop; naive_solver. }
  destruct bad as [s|].
  { destruct Hsub as (Hk & Hs & Hne & Hn). right. eexists. split; [done | by constructor]. }
  destruct (existsb (dangerous g) _) eqn:Ed.
  - right. eexists. split; [done|]. apply existsb_exists in Ed as (t & Ht%list_elem_of_In & Hd).
    eapply refuse_token; [done..|]. by rewrite <- dangerous_spec, Hd.
  - left. split; [done|]. exists c, args. by rewrite <- existsb_dangerous.
Qed.

Lemma refused_not_allowed g cmd reason : guard_refuses g cmd reason → ¬ guard_allows g cmd.
Proof. intros [|c args ?|c args s ? ? ? ? Hn|c args t ? ? ? Hn] (c' & args' & Hc & ? & Hs & Ht); simplify_eq; naive_solver. Qed.

Lemma toolguard_check_spec g cmd :
  check g cmd = (true, "OK") ↔ guard_allows g cmd.
Proof.
  destruct (check_cases g cmd) as [[-> ?]|(r & -> & Hr)]; [done|]. by apply refused_not_allowed in Hr.
Qed.

(** The reasons are disjoint. *)
Lemma refuses_unique g cmd r1 r2 : guard_refuses g cmd r1 → guard_refuses g cmd r2 → r1 = r2.
Proof.
  unfold subcommand_allowed.
  intros [|c args ?|c args s ? ? ? ? ?|c args t ? ? ? ?]; inversion 1; subst; try done; try naive_solver; by simplify_eq.
Qed.

(** C31. The guard accepts a command exactly when its specification holds:
    nonempty, whitelisted binary, whitelisted kubectl subcommand, and no
    host-relevant token that is a lone shell metacharacter or contains a
    substring in the language of a blacklisted pattern.  It refuses with a
    reason exactly when the condition that reason names is the first of
    these to fail. *)
Theorem toolguard_check_correct g cmd :
  (check g cmd = (true, "OK") ↔ guard_allows g cmd) ∧
  (∀ reason, check g cmd = (false, reason) ↔ guard_refuses g cmd reason).
Proof.
  split; [apply toolguard_check_spec|]. intros reason.
  destruct (check_cases g cmd) as [[-> Ha]|(r & -> & Hr)].
  - split; [done|]. intros H. by apply refused_not_allowed in H.
  - split; [by intros [= <-]|]. intros H. by rewrite (refuses_unique _ _ _ _ Hr H).
Qed.

(** In an accepted kubectl command every piece of every host token is
    clean, or is the value of a data-payload flag of the command; what is
    not checked at all is the container command, which exists only behind
    the ["--"] of a delegating subcommand. *)
Theorem accepted_kubectl_host_clean g c args :
  path_name c = "kubectl" → check g (c :: args) = (true, "OK") →
  let q := parse_command (c :: args) in
  ∃ host,
    (args = host ∧ container_command q = [] ∨
     args = host ++ "--" :: container_command q ∧
     (container_command q ≠ [] →
      ∃ s, subcommand q = Some s ∧ s ∈ KUBECTL_DOUBLE_DASH_SUBCOMMANDS)) ∧
    ∀ t x, t ∈ host → x ∈ token_atoms t → x ≠ "" →
      host_clean g x ∨ x ∈ payload_values (flags q).
Proof.
  intros Hk (? & ? & [= <- <-] & _ & _ & Hc)%toolguard_check_spec q.
  assert (Hq : q = _parse_kubectl (c :: args)).
  { unfold q, parse_command. by rewrite Hk. }
  destruct (parse_kubectl_accounts c args) as (host & Hh & Ha & Hp).
  rewrite <- Hq in *. exists host. split.
  - destruct Hh as [?|Hh]; [by left | right]. split; [done|]. intros Hn.
    rewrite Hq in *. by apply (kubectl_loop_container args (empty_parsed "kubectl")).
  - intros t x Ht Hx Hne. assert (x ∈ parsed_atoms q) as Hin.
    { rewrite Ha. apply list_elem_of_In, in_flat_map. exists t.
      split; by apply list_elem_of_In. }
    destruct (host_tokens_cover q x Hin Hne) as [?|?]; [left; by apply Hc | right].
    by rewrite <- Hp.
Qed.

(** The accepted command of the witness: a pod shell with a blacklisted
    text behind the separator. *)
Definition exec_cmd : list string :=
  ["kubectl"; "-n"; "prod"; "exec"; "web-0"; "--"; "sh"; "-c"; "rm -rf /tmp/x"].

Lemma accepted_kubectl_host_clean_witness :
  let q := parse_command exec_cmd in
  ∃ host,
    (tail exec_cmd = host ∧ container_command q = [] ∨
     tail exec_cmd = host ++ "--" :: container_command q ∧
     (container_command q ≠ [] →
      ∃ s, subcommand q = Some s ∧ s ∈ KUBECTL_DOUBLE_DASH_SUBCOMMANDS)) ∧
    ∀ t x, t ∈ host → x ∈ token_atoms t → x ≠ "" →
      host_clean default_guard x ∨ x ∈ payload_values (flags q).
Proof.
  exact (accepted_kubectl_host_clean default_guard "kubectl" (tail exec_cmd)
           eq_refl eq_refl).
Defined.

(** The base name decides: a path prefix of the binary changes nothing. *)
Lemma check_basename g c args : check g (c :: args) = check g (path_name c :: args).
Proof. unfold check. by rewrite path_name_idem, <- parse_command_basename. Qed.

(** ** A value shared with a payload flag escapes the checks

    [host_relevant_tokens] drops a flag value when an equal text was given
    to a data-payload flag, whatever flag the value belongs to: repeating a
    command substitution as a selector hides it from the blacklist. *)
Lemma payload_alias_escapes :
  check default_guard ["kubectl"; "get"; "pods"; "-o"; "$(reboot)"] =
    (false, "Dangerous pattern detected in command") ∧
  check default_guard ["kubectl"; "get"; "pods"; "-o"; "$(reboot)"; "-l"; "$(reboot)"] =
    (true, "OK").
Proof. split; reflexivity. Qed.
