(* ===== verification/PyValue.v ===== *)
(** * Python values and dictionaries

    The dynamically typed values that tool-call arguments and graph state
    carry: the JSON types, plus tuples.  A float is represented by its
    [repr], which determines it.  A dict is an association list in insertion
    order whose keys are strings; [dict_wf] says that no key occurs twice,
    and [dict_set] keeps it that way. *)

From stdpp Require Import base list strings sets.
From Stdlib Require Import Ascii.
From S2P Require Import Prelude PyText.

(** ** Dictionaries *)

Abbreviation dict V := (list (string * V)).

Section dict.
Context {V : Type}.

(** [d.get(k)]; [None] when the key is missing. *)
Fixpoint dict_get (k : string) (d : dict V) : option V :=
  match d with
  | [] => None
  | (k', v) :: d' => if String.eqb k k' then Some v else dict_get k d'
  end.

(** [d[k] = v]: overwrites in place or appends. *)
Fixpoint dict_set (k : string) (v : V) (d : dict V) : dict V :=
  match d with
  | [] => [(k, v)]
  | (k', v') :: d' =>
      if String.eqb k k' then (k', v) :: d' else (k', v') :: dict_set k v d'
  end.

Definition dict_mem (k : string) (d : dict V) : bool :=
  match dict_get k d with Some _ => true | None => false end.

Definition dict_keys (d : dict V) : list string := map fst d.

Definition dict_wf (d : dict V) : Prop := NoDup (dict_keys d).

(** [{**d1, **d2}], and the dict comprehension over pairs. *)
Definition dict_update (d1 d2 : dict V) : dict V :=
  fold_left (λ d kv, dict_set kv.1 kv.2 d) d2 d1.

(** Two dicts are equal in Python when they have the same entries,
    whatever their insertion order. *)
Definition dict_equiv (d1 d2 : dict V) : Prop := ∀ k, dict_get k d1 = dict_get k d2.

#[global] Instance dict_equiv_equivalence : Equivalence dict_equiv.
Proof. split; [by intros ? ? | intros ? ? H k; by rewrite H |
  intros ? ? ? H1 H2 k; by rewrite H1, H2]. Qed.

#[global] Instance dict_get_proper k : Proper (dict_equiv ==> eq) (dict_get k).
Proof. intros d1 d2 H. apply H. Qed.

#[global] Instance dict_mem_proper k : Proper (dict_equiv ==> eq) (dict_mem k).
Proof. intros d1 d2 H. unfold dict_mem. by rewrite H. Qed.

Lemma dict_get_set k v d k' :
  dict_get k' (dict_set k v d) = if String.eqb k' k then Some v else dict_get k' d.
Proof.
  induction d as [|[k1 v1] d IH]; simpl; [done|].
  destruct (String.eqb_spec k k1) as [<-|Hne]; simpl.
  - by destruct (String.eqb k' k).
  - destruct (String.eqb_spec k' k1) as [->|]; [|done].
    by rewrite (proj2 (String.eqb_neq k1 k)) by congruence.
Qed.

Lemma dict_get_set_ne k v d k' : k' ≠ k → dict_get k' (dict_set k v d) = dict_get k' d.
Proof. intros H. rewrite dict_get_set. by rewrite (proj2 (String.eqb_neq k' k) H). Qed.

#[global] Instance dict_set_proper k v : Proper (dict_equiv ==> dict_equiv) (dict_set k v).
Proof. intros d1 d2 H k'. by rewrite !dict_get_set, H. Qed.

Lemma dict_get_In k v d : dict_get k d = Some v → (k, v) ∈ d.
Proof.
  induction d as [|[k1 v1] d IH]; simpl; [done|].
  destruct (String.eqb_spec k k1) as [->|]; [intros [= ->]; by left | right; auto].
Qed.

Lemma dict_get_app k (d1 d2 : dict V) :
  dict_get k (d1 ++ d2) = match dict_get k d1 with Some v => Some v | None => dict_get k d2 end.
Proof. induction d1 as [|[k' v] d1 IH]; simpl; [done|]. by destruct (String.eqb k k'). Qed.

Lemma dict_get_None k d : dict_get k d = None ↔ k ∉ dict_keys d.
Proof.
  induction d as [|[k1 v1] d IH]; simpl; [set_solver|].
  destruct (String.eqb_spec k k1) as [->|Hne]; [set_solver|]. rewrite IH. set_solver.
Qed.

Lemma dict_wf_get k v d : dict_wf d → (k, v) ∈ d → dict_get k d = Some v.
Proof.
  unfold dict_wf. induction d as [|[k1 v1] d IH]; simpl; [set_solver|].
  intros [Hk Hd]%NoDup_cons [[= -> ->]|H]%elem_of_cons.
  - by rewrite String.eqb_refl.
  - destruct (String.eqb_spec k k1) as [->|]; [|auto].
    destruct Hk. apply list_elem_of_fmap. by exists (k1, v).
Qed.

Lemma dict_set_keys k v d :
  dict_keys (dict_set k v d) = if dict_mem k d then dict_keys d else dict_keys d ++ [k].
Proof.
  unfold dict_mem. induction d as [|[k1 v1] d IH]; simpl; [done|].
  destruct (String.eqb k k1); simpl; [done|]. rewrite IH. by destruct (dict_get k d).
Qed.

(** Assignment keeps the keys distinct. *)
Lemma dict_set_wf k v d : dict_wf d → dict_wf (dict_set k v d).
Proof.
  unfold dict_wf. rewrite dict_set_keys. unfold dict_mem.
  destruct (dict_get k d) eqn:E; [done|]. apply dict_get_None in E.
  intros H. apply NoDup_app. split; [done|]. split; [set_solver | apply NoDup_singleton].
Qed.

Lemma dict_update_wf d1 d2 : dict_wf d1 → dict_wf (dict_update d1 d2).
Proof.
  unfold dict_update. revert d1. induction d2 as [|[k v] d2 IH]; intros d1 H; simpl; [done|].
  by apply IH, dict_set_wf.
Qed.

Lemma dict_update_fresh d1 d2 :
  dict_wf d2 → (∀ k, k ∈ dict_keys d1 → k ∈ dict_keys d2 → False) →
  dict_update d1 d2 = d1 ++ d2.
Proof.
  unfold dict_update, dict_wf. revert d1.
  induction d2 as [|[k v] d2 IH]; intros d1 Hwf Hdis; simpl; [by rewrite app_nil_r|].
  apply NoDup_cons in Hwf as [Hk Hwf].
  assert (Hs : dict_set k v d1 = d1 ++ [(k, v)]).
  { assert (Hn : k ∉ dict_keys d1) by (intros ?; eapply Hdis; [done | by left]).
    clear - Hn. induction d1 as [|[k1 v1] d1 IH]; simpl in *; [done|].
    destruct (String.eqb_spec k k1) as [->|]; [set_solver|]. rewrite IH; set_solver. }
  rewrite Hs, IH; [by rewrite <- (assoc_L (++)) | done |].
  intros k'. unfold dict_keys. rewrite map_app. simpl. set_solver.
Qed.

(** Reading after an update: keys of the update win. *)
Lemma update_get_notin d1 d2 k : k ∉ dict_keys d2 → dict_get k (dict_update d1 d2) = dict_get k d1.
Proof.
  revert d1. induction d2 as [|[k1 v1] d2 IH]; intros d1 Hk; [done|].
  unfold dict_update in *. cbn [fold_left fst snd].
  rewrite IH by set_solver. rewrite dict_get_set.
  destruct (String.eqb_spec k k1) as [->|]; [set_solver | done].
Qed.

Lemma dict_get_update k d1 d2 :
  dict_wf d2 →
  dict_get k (dict_update d1 d2) = match dict_get k d2 with Some v => Some v | None => dict_get k d1 end.
Proof.
  unfold dict_wf. revert d1. induction d2 as [|[k1 v1] d2 IH]; intros d1 Hwf; [done|].
  apply NoDup_cons in Hwf as [Hk Hwf]. unfold dict_update in *. cbn [fold_left fst snd].
  rewrite IH by done. rewrite dict_get_set. cbn [dict_get].
  destruct (String.eqb_spec k k1) as [->|]; [|done].
  by rewrite (proj2 (dict_get_None k1 d2) Hk).
Qed.
End dict.

#[export] Hint Resolve dict_set_wf dict_update_wf : py.
#[global] Arguments dict_wf {V} d : simpl never.

(** ** Values *)

Inductive pyval :=
  | VNone
  | VBool (b : bool)
  | VInt (z : Z)
  | VFloat (repr : string)
  | VStr (s : string)
  | VList (l : list pyval)
  | VTuple (l : list pyval)
  | VDict (d : list (string * pyval)).

(** [bool(v)]. *)
Definition py_truthy (v : pyval) : bool :=
  match v with
  | VNone => false
  | VBool b => b
  | VInt z => negb (Z.eqb z 0)
  | VFloat r => negb (r ∈? ["0.0"; "-0.0"])
  | VStr s => truthy s
  | VList l | VTuple l => match l with [] => false | _ => true end
  | VDict d => match d with [] => false | _ => true end
  end.

(** [a or b]. *)
Definition py_or (a b : pyval) : pyval := if py_truthy a then a else b.

(** [d.get(k)]. *)
Definition py_get (k : string) (d : dict pyval) : pyval :=
  match dict_get k d with Some v => v | None => VNone end.

Lemma py_get_set k v (d : dict pyval) k' :
  py_get k' (dict_set k v d) = if String.eqb k' k then v else py_get k' d.
Proof. unfold py_get. rewrite dict_get_set. by destruct (String.eqb k' k). Qed.

(** [repr(s)] of a string: single quotes, unless the text has a single and
    no double quote. *)
Definition hex_digit (n : nat) : ascii :=
  if Nat.ltb n 10 then ascii_of_nat (48 + n) else ascii_of_nat (87 + n).

Definition repr_char (q : ascii) (c : ascii) : string :=
  let n := nat_of_ascii c in
  if Ascii.eqb c q then String "\" (String c "")
  else if Ascii.eqb c "\" then "\\"
  else if Nat.eqb n 9 then "\t"
  else if Nat.eqb n 10 then "\n"
  else if Nat.eqb n 13 then "\r"
  else if Nat.ltb n 32 || Nat.eqb n 127
  then String "\" (String "x" (String (hex_digit (Nat.div n 16))
         (String (hex_digit (Nat.modulo n 16)) "")))
  else String c "".

Fixpoint repr_chars (q : ascii) (s : string) : string :=
  match s with
  | EmptyString => EmptyString
  | String c s' => repr_char q c +:+ repr_chars q s'
  end.

Definition repr_str (s : string) : string :=
  let q : ascii := if has_char "'" s && negb (has_char "034" s) then "034"%char else "'"%char in
  String q (repr_chars q s +:+ String q "").

(** [repr(v)] and [str(v)]. *)
Fixpoint py_repr (v : pyval) : string :=
  match v with
  | VNone => "None"
  | VBool b => if b then "True" else "False"
  | VInt z => str_of_Z z
  | VFloat r => r
  | VStr s => repr_str s
  | VList l => "[" +:+ join ", " (map py_repr l) +:+ "]"
  | VTuple l =>
      match l with
      | [x] => "(" +:+ py_repr x +:+ ",)"
      | _ => "(" +:+ join ", " (map py_repr l) +:+ ")"
      end
  | VDict d =>
      "{" +:+ join ", " (map (λ kv, repr_str kv.1 +:+ ": " +:+ py_repr kv.2) d) +:+ "}"
  end.

Definition py_str (v : pyval) : string :=
  match v with
  | VStr s => s
  | _ => py_repr v
  end.

(** [str(x)] of a list of strings and of a dict of strings, as the f-strings
    of the guard print them. *)
Definition repr_str_list (l : list string) : string := py_repr (VList (map VStr l)).
Definition repr_str_dict (d : dict string) : string :=
  py_repr (VDict (map (λ kv, (kv.1, VStr kv.2)) d)).

(** ** Exceptions

    A computation that may raise; the exception itself is not observed by
    any caller of the model, only that one was raised. *)

Abbreviation Exc A := (option A).
Definition Raise {A} : Exc A := None.

(** [for x in v]: the elements of an iterable; an [int], [float], [bool]
    or [None] is not iterable. *)
Definition py_iter (v : pyval) : Exc (list pyval) :=
  match v with
  | VList l | VTuple l => Some l
  | VStr s => Some (map VStr (uchars s))
  | VDict d => Some (map VStr (dict_keys d))
  | VNone | VBool _ | VInt _ | VFloat _ => Raise
  end.

(** [{str(k): str(v) for k, v in v.items()}]: only a dict has [items]. *)
Definition py_str_items (v : pyval) : Exc (dict string) :=
  match v with
  | VDict d => Some (dict_update [] (map (λ kv, (kv.1, py_str kv.2)) d))
  | _ => Raise
  end.
