(* ===== verification/Shlex.v ===== *)
(** * Shell-style word splitting ([shlex.split])

    The classifier splits the [v_args] of a kubectl tool call with
    [shlex.split], in POSIX mode with [whitespace_split]: the automaton of
    [shlex.read_token], one character at a time.  [ValueError] (an open
    quotation, a trailing escape) is [Raise]. *)

From stdpp Require Import base list strings.
From Stdlib Require Import Ascii.
From S2P Require Import Prelude.
From S2P Require Import PyValue.

(** The lexer's [state]: between words, in a word, in a quotation, behind
    an escape character (with the state to return to). *)
Inductive shlex_state :=
  | SSpace
  | SWord
  | SQuote (q : ascii)
  | SEscape (back : option ascii).

Definition shlex_space (c : ascii) : bool :=
  Ascii.eqb c " " || Ascii.eqb c "009" || Ascii.eqb c "013" || Ascii.eqb c "010".

Definition shlex_quote (c : ascii) : bool := Ascii.eqb c "'" || Ascii.eqb c "034".

Definition back_state (back : option ascii) : shlex_state :=
  match back with Some q => SQuote q | None => SWord end.

(** The word read so far is emitted when it is nonempty or was quoted. *)
Definition emit (tok : string) (quoted : bool) : list string :=
  if truthy tok || quoted then [tok] else [].

Fixpoint shlex_go (st : shlex_state) (tok : string) (quoted : bool) (s : string)
    : Exc (list string) :=
  match s with
  | EmptyString =>
      match st with
      | SSpace | SWord => Some (emit tok quoted)
      | SQuote _ | SEscape _ => Raise
      end
  | String c s' =>
      match st with
      | SSpace =>
          if shlex_space c then
            (l ← shlex_go SSpace "" false s'; Some (emit tok quoted ++ l))
          else if Ascii.eqb c "\" then shlex_go (SEscape None) tok quoted s'
          else if shlex_quote c then shlex_go (SQuote c) tok quoted s'
          else shlex_go SWord (String c "") quoted s'
      | SWord =>
          if shlex_space c then
            (l ← shlex_go SSpace "" false s'; Some (emit tok quoted ++ l))
          else if shlex_quote c then shlex_go (SQuote c) tok quoted s'
          else if Ascii.eqb c "\" then shlex_go (SEscape None) tok quoted s'
          else shlex_go SWord (tok +:+ String c "") quoted s'
      | SQuote q =>
          if Ascii.eqb c q then shlex_go SWord tok true s'
          else if Ascii.eqb c "\" && Ascii.eqb q "034"
          then shlex_go (SEscape (Some q)) tok true s'
          else shlex_go (SQuote q) (tok +:+ String c "") true s'
      | SEscape back =>
          let keep := match back with
                      | Some q => negb (Ascii.eqb c "\") && negb (Ascii.eqb c q)
                      | None => false
                      end in
          let tok' := if keep then tok +:+ "\" else tok in
          shlex_go (back_state back) (tok' +:+ String c "") quoted s'
      end
  end.

Definition shlex_split (s : string) : Exc (list string) := shlex_go SSpace "" false s.

(** [try: shlex.split(s) except ValueError: s.split()]: never raises. *)
Definition shlex_or_split (s : string) : list string :=
  match shlex_split s with
  | Some l => l
  | None => split_ws s
  end.

(** ** Plain text splits at its blanks

    A word without blanks, quotes and escapes is read back as itself, so
    joining such words with single spaces and splitting is the identity. *)

Definition plain_char (c : ascii) : bool :=
  negb (shlex_space c) && negb (shlex_quote c) && negb (Ascii.eqb c "\").

Fixpoint all_chars (p : ascii → bool) (s : string) : bool :=
  match s with
  | EmptyString => true
  | String c s' => p c && all_chars p s'
  end.

Definition plain (s : string) : bool := truthy s && all_chars plain_char s.

Lemma plain_char_inv c :
  plain_char c = true →
  shlex_space c = false ∧ shlex_quote c = false ∧ Ascii.eqb c "\" = false.
Proof.
  unfold plain_char. intros. bool_to_prop. auto.
Qed.

Lemma shlex_go_plain w tok s :
  all_chars plain_char w = true → shlex_go SWord tok false (w +:+ s) = shlex_go SWord (tok +:+ w) false s.
Proof.
  revert tok. induction w as [|c w IH]; intros tok; simpl.
  - by rewrite append_empty_r.
  - intros [Hc Hw]%andb_true_iff. apply plain_char_inv in Hc as (Hs & Hq & He).
    rewrite Hs, Hq, He, IH by done. by rewrite append_assoc.
Qed.

Lemma shlex_go_word w s :
  plain w = true → shlex_go SSpace "" false (w +:+ s) = shlex_go SWord w false s.
Proof.
  unfold plain. intros [Hne Hw]%andb_true_iff. destruct w as [|c w]; [done|].
  simpl in *. apply andb_true_iff in Hw as [Hc Hw].
  apply plain_char_inv in Hc as (Hs & Hq & He).
  by rewrite Hs, He, Hq, (shlex_go_plain w (String c "") s Hw).
Qed.

Lemma emit_plain w : plain w = true → emit w false = [w].
Proof. unfold plain, emit. intros [-> _]%andb_true_iff. done. Qed.

(** Splitting undoes joining with blanks. *)
Lemma shlex_split_join (ws : list string) :
  Forall (λ w, plain w = true) ws → shlex_split (join " " ws) = Some ws.
Proof.
  unfold shlex_split. induction ws as [|w ws IH]; intros H; [done|].
  apply Forall_cons in H as [Hw Hws]. destruct ws as [|w2 ws].
  - cbn [join]. rewrite <- (append_empty_r w), shlex_go_word by done. simpl.
    by rewrite emit_plain, append_empty_r.
  - cbn [join]. rewrite shlex_go_word by done.
    change (shlex_go SWord w false (String " " (join " " (w2 :: ws))) = Some (w :: w2 :: ws)).
    cbn [shlex_go]. simpl (shlex_space _). cbv iota.
    rewrite (IH Hws). simpl. by rewrite emit_plain.
Qed.
