(* ===== verification/TargetTypes.v ===== *)
(** * Records of the target-drift guard (agent/target_guard/types.py)

    [ApprovedTarget] is the snapshot of what the user approved,
    [EffectiveTarget] what a tool call would do, [GuardDecision] the verdict
    of comparing the two. *)

From stdpp Require Import base list strings.
From S2P Require Import Prelude.
From S2P Require Import PyValue.

Inductive GuardVerdict :=
  | ALLOW
  | READONLY
  | REJECT_DRIFT
  | REJECT_BANNED
  | REJECT_UNKNOWN.

(** The string value of the enum, as logs and routing compare it. *)
Definition verdict_value (v : GuardVerdict) : string :=
  match v with
  | ALLOW => "allow"
  | READONLY => "readonly"
  | REJECT_DRIFT => "reject_drift"
  | REJECT_BANNED => "reject_banned"
  | REJECT_UNKNOWN => "reject_unknown"
  end.

Inductive ConfidenceLevel := HIGH | LOW | UNKNOWN.

#[global] Instance GuardVerdict_eq_dec : EqDecision GuardVerdict.
Proof. solve_decision. Defined.

#[global] Instance ConfidenceLevel_eq_dec : EqDecision ConfidenceLevel.
Proof. solve_decision. Defined.

Record ApprovedTarget := mkApproved {
  a_scope : string;
  a_namespace : string;
  a_names : list string;
  a_labels : dict string;
  a_is_namespace_wide : bool;
  a_blade_target : string;
  a_blade_action : string;
  a_lock_fault_type : bool;
  a_owner_names : list string;
  a_secondary_scopes : list string;
  a_secondary_namespace : string;
}.

Record EffectiveTarget := mkEffective {
  e_scope : string;
  e_namespace : string;
  e_names : list string;
  e_labels : dict string;
  e_blade_target : string;
  e_blade_action : string;
  e_confidence : ConfidenceLevel;
  e_raw_command : string;
  e_is_tier1_exec : bool;
}.

#[global] Instance ApprovedTarget_eq_dec : EqDecision ApprovedTarget.
Proof. solve_decision. Defined.

#[global] Instance EffectiveTarget_eq_dec : EqDecision EffectiveTarget.
Proof. solve_decision. Defined.

Record GuardDecision := mkDecision {
  d_verdict : GuardVerdict;
  d_reason : string;
  d_effective : option EffectiveTarget;
  d_suggestion : string;
}.

(** [GuardDecision.is_reject] and [GuardDecision.is_allow]. *)
Definition is_reject (d : GuardDecision) : bool :=
  match d_verdict d with
  | REJECT_DRIFT | REJECT_BANNED | REJECT_UNKNOWN => true
  | _ => false
  end.

Definition is_allow (d : GuardDecision) : bool :=
  match d_verdict d with
  | ALLOW | READONLY => true
  | _ => false
  end.

Lemma is_reject_negb_allow d : is_reject d = negb (is_allow d).
Proof. unfold is_reject, is_allow. by destruct (d_verdict d). Qed.
