(* ===== verification/Classifier.v ===== *)
(** * The tool-call classifier (agent/target_guard/classifier.py)

    [infer_effective_target] maps a tool call to the resource it would act
    on.  [Raise] is an exception of the source: the screeners catch it and
    let the call pass.  [kubectl exec POD -- kubectl ...] recurses into the
    inner command; the recursion carries fuel, and [classify_kubectl_fuel_enough] shows
    that the fuel given by [_classify_kubectl] is always enough. *)

From stdpp Require Import base list strings sets.
From Stdlib Require Import Ascii.
From S2P Require Import Prelude.
From S2P Require Import PyValue.
From S2P Require Import Shlex.
From S2P Require Import TargetTypes.

Definition SCOPE_READONLY : string := "__readonly__".
Definition SCOPE_BANNED : string := "__banned__".
Definition SCOPE_UNKNOWN : string := "__unknown__".

Definition TOOL_POD_NAMESPACES : list string := ["chaosblade"].

(** ** Kinds *)

Definition KIND_ALIASES : dict string :=
  [("pod", "pod"); ("pods", "pod"); ("po", "pod");
   ("container", "pod"); ("containers", "pod");
   ("node", "node"); ("nodes", "node"); ("no", "node");
   ("service", "service"); ("services", "service"); ("svc", "service");
   ("namespace", "namespace"); ("namespaces", "namespace"); ("ns", "namespace");
   ("configmap", "configmap"); ("configmaps", "configmap"); ("cm", "configmap");
   ("secret", "secret"); ("secrets", "secret");
   ("persistentvolumeclaim", "pvc"); ("pvc", "pvc"); ("pvcs", "pvc");
   ("persistentvolume", "pv"); ("pv", "pv"); ("pvs", "pv");
   ("serviceaccount", "serviceaccount"); ("serviceaccounts", "serviceaccount");
   ("sa", "serviceaccount");
   ("endpoints", "endpoints"); ("ep", "endpoints");
   ("event", "event"); ("events", "event"); ("ev", "event");
   ("deployment", "deployment"); ("deployments", "deployment"); ("deploy", "deployment");
   ("daemonset", "daemonset"); ("daemonsets", "daemonset"); ("ds", "daemonset");
   ("statefulset", "statefulset"); ("statefulsets", "statefulset"); ("sts", "statefulset");
   ("replicaset", "replicaset"); ("replicasets", "replicaset"); ("rs", "replicaset");
   ("replicationcontroller", "replicationcontroller");
   ("replicationcontrollers", "replicationcontroller"); ("rc", "replicationcontroller");
   ("job", "job"); ("jobs", "job");
   ("cronjob", "cronjob"); ("cronjobs", "cronjob"); ("cj", "cronjob");
   ("ingress", "ingress"); ("ingresses", "ingress"); ("ing", "ingress");
   ("networkpolicy", "networkpolicy"); ("networkpolicies", "networkpolicy");
   ("netpol", "networkpolicy");
   ("horizontalpodautoscaler", "hpa"); ("horizontalpodautoscalers", "hpa"); ("hpa", "hpa");
   ("role", "role"); ("roles", "role");
   ("rolebinding", "rolebinding"); ("rolebindings", "rolebinding");
   ("clusterrole", "clusterrole"); ("clusterroles", "clusterrole");
   ("clusterrolebinding", "clusterrolebinding"); ("clusterrolebindings", "clusterrolebinding");
   ("storageclass", "storageclass"); ("storageclasses", "storageclass"); ("sc", "storageclass");
   ("chaosblade", "chaosblade"); ("chaosblades", "chaosblade")].

(** [raw.split(".", 1)[0].lower().strip()]. *)
Definition kind_head (raw : string) : string := strip (lower (before "." raw)).

Definition canonicalise_kind (raw : string) : string :=
  if truthy raw then
    let head := kind_head raw in
    match dict_get head KIND_ALIASES with Some k => k | None => head end
  else "".

Definition _is_known_kind (token : string) : bool :=
  truthy token && dict_mem (kind_head token) KIND_ALIASES.

(** ** Namespace and label flags *)

Fixpoint parse_namespace (args : list string) (default : string) : string :=
  match args with
  | [] => default
  | a :: rest =>
      if String.eqb a "--" then default
      else if startswith a "-n=" || startswith a "--namespace=" then after "=" a
      else if String.eqb a "-n" || String.eqb a "--namespace" then
        match rest with
        | v :: _ => v
        | [] => default
        end
      else parse_namespace rest default
  end.

(** One comma-separated piece of a selector. *)
Definition add_selector_pair (selector : dict string) (pair0 : string) : dict string :=
  let pair := strip pair0 in
  if contains "!=" pair || contains ">=" pair || contains "<=" pair
     || contains " in " pair || contains " notin " pair
  then dict_set pair pair selector
  else match cut "=" pair with
       | Some (k, v) => dict_set (strip k) (strip v) selector
       | None => dict_set pair pair selector
       end.

Definition add_raw_selector (selector : dict string) (raw : string) : dict string :=
  if truthy raw then fold_left add_selector_pair (split_on "," raw) selector else selector.

Fixpoint parse_labels_go (args : list string) (selector : dict string) : dict string :=
  match args with
  | [] => selector
  | a :: rest =>
      if String.eqb a "--" then selector
      else if a ∈? ["-l"; "--selector"; "--labels"] then
        match rest with
        | v :: rest' => parse_labels_go rest' (add_raw_selector selector v)
        | [] => selector
        end
      else if startswith a "-l=" || startswith a "--selector=" || startswith a "--labels="
      then parse_labels_go rest (add_raw_selector selector (after "=" a))
      else parse_labels_go rest selector
  end.

Definition parse_labels (args : list string) : dict string := parse_labels_go args [].

(** ** Subcommand tables *)

Definition READONLY_KUBECTL_SUBS : list string :=
  ["get"; "describe"; "top"; "logs"; "events"; "version"; "api-resources";
   "api-versions"; "explain"; "auth"; "wait"; "diff"; "help"].

Definition READONLY_ROLLOUT_SUBS : list string := ["status"; "history"].

Definition READONLY_CONFIG_SUBS : list string :=
  ["view"; "current-context"; "get-contexts"; "get-clusters"; "get-users"].

Definition BANNED_KUBECTL_SUBS : list string := ["certificate"].

(** The subcommands the source lists as destructive; nothing tests the list. *)
Definition DESTRUCTIVE_KUBECTL_SUBS : list string :=
  ["exec"; "scale"; "cordon"; "uncordon"; "drain"; "taint"; "patch"; "set"; "delete"; "edit";
   "replace"; "run"; "label"; "annotate"; "autoscale"; "expose"; "debug"; "attach";
   "port-forward"; "proxy"; "cp"; "create"; "rollout"; "apply"].

Definition ALLOWED_MANIFEST_KINDS : list string :=
  ["persistentvolumeclaim"; "pvc"; "persistentvolume"; "pv"; "configmap"; "secret";
   "namespace"].

Definition BLADE_TARGET_TO_SCOPE : dict string :=
  [("pod", "pod"); ("node", "node"); ("container", "pod");
   ("jvm", "pod"); ("mysql", "pod"); ("redis", "pod"); ("kafka", "pod");
   ("rocketmq", "pod"); ("nginx", "pod");
   ("cpu", "node"); ("mem", "node"); ("memory", "node"); ("disk", "node");
   ("network", "node"); ("process", "node"); ("file", "node"); ("script", "node");
   ("time", "node"); ("kernel", "node")].

Definition _BOOLEAN_FLAGS : list string :=
  ["-h"; "--help"; "-v"; "--version"; "-W"; "--warnings-as-errors"; "-q"; "--quiet";
   "-A"; "--all-namespaces"; "--all"; "-R"; "--recursive";
   "--force"; "--ignore-not-found"; "--prune"; "--insecure-skip-tls-verify";
   "-w"; "--watch"; "--watch-only"; "--show-labels"; "--show-kind"; "--no-headers";
   "--server-side"; "--client"; "--include-uninitialized"; "--keep-annotations";
   "--validate"; "--save-config"; "--rm"; "-i"; "--stdin"; "-t"; "--tty";
   "--allow-missing-template-keys"; "--overwrite"; "--local"].

(** ** Results *)

(** A sentinel verdict: no resource, no namespace. *)
Definition sentinel (scope : string) (conf : ConfidenceLevel) (raw : string) : EffectiveTarget :=
  mkEffective scope "" [] [] "" "" conf raw false.

Definition readonly_target (raw : string) : EffectiveTarget := sentinel SCOPE_READONLY HIGH raw.
Definition banned_target (raw : string) : EffectiveTarget := sentinel SCOPE_BANNED HIGH raw.
Definition unknown_target (raw : string) : EffectiveTarget := sentinel SCOPE_UNKNOWN UNKNOWN raw.

(** A named resource without labels or blade fields, at high confidence. *)
Definition named_target (scope ns : string) (names : list string) (raw : string) : EffectiveTarget :=
  mkEffective scope ns names [] "" "" HIGH raw false.

(** ** Argument-list helpers *)

Fixpoint _list_positionals (args : list string) : list string :=
  match args with
  | [] => []
  | a :: rest =>
      if String.eqb a "--" then []
      else if negb (startswith a "-") then a :: _list_positionals rest
      else if has_char "=" a then _list_positionals rest
      else if a ∈? _BOOLEAN_FLAGS then _list_positionals rest
      else match rest with
           | [] => []
           | _ :: rest' => _list_positionals rest'
           end
  end.

Definition _first_positional (args : list string) : string :=
  match _list_positionals args with p :: _ => p | [] => "" end.

Definition _split_kind_name (token : string) : string * string :=
  match cut "/" token with
  | Some (kind, name) => (kind, name)
  | None => ("", token)
  end.

Fixpoint _extract_after_double_dash (args : list string) : list string :=
  match args with
  | [] => []
  | a :: rest => if String.eqb a "--" then rest else _extract_after_double_dash rest
  end.

Definition _has_help_flag (args : list string) : bool :=
  ("-h" ∈? args) || ("--help" ∈? args).

(** The subcommand with what precedes and follows it: [args[:i]],
    [args[i]], [args[i+1:]] for the index of [_find_subcommand_index]. *)
Fixpoint _find_subcommand_index (args : list string) : option (list string * string * list string) :=
  match args with
  | [] => None
  | a :: rest =>
      let skip1 :=
        '(pre, sub, rest') ← _find_subcommand_index rest; Some (a :: pre, sub, rest') in
      if negb (startswith a "-") then Some ([], a, rest)
      else if has_char "=" a then skip1
      else if a ∈? _BOOLEAN_FLAGS then skip1
      else match rest with
           | [] => None
           | v :: rest' =>
               '(pre, sub, rest'') ← _find_subcommand_index rest';
               Some (a :: v :: pre, sub, rest'')
           end
  end.

Fixpoint _rest_has_namespace (rest : list string) : bool :=
  match rest with
  | [] => false
  | a :: rest' =>
      if String.eqb a "--" then false
      else if a ∈? ["-n"; "--namespace"] then true
      else if startswith a "-n=" || startswith a "--namespace=" then true
      else _rest_has_namespace rest'
  end.

Definition _uses_file_input (args : list string) : bool :=
  existsb (λ a, (a ∈? ["-f"; "--filename"]) || startswith a "-f=" || startswith a "--filename=") args.

Fixpoint _parse_flag_value (args : list string) (flag : string) : string :=
  match args with
  | [] => ""
  | a :: rest =>
      match (if String.eqb a flag then List.hd_error rest else None) with
      | Some v => v
      | None => if startswith a (flag +:+ "=") then after "=" a else _parse_flag_value rest flag
      end
  end.

Definition _parse_blade_names (args : list string) : list string :=
  let raw := _parse_flag_value args "--names" in
  if truthy raw then csv_names raw else [].

(** [_parse_label_string]: ["k1=v1,k2=v2"]. *)
Definition _parse_label_string (s : string) : dict string :=
  fold_left (λ out pair0,
    match cut "=" (strip pair0) with
    | Some (k, v) => dict_set (strip k) (strip v) out
    | None => out
    end) (split_on "," s) [].

(** ** Manifests on standard input

    The three regular expressions on the YAML text, all with
    [re.MULTILINE].  [\s] also matches line breaks. *)

(** The leading run of non-blank characters: [(\S+)]. *)
Fixpoint word_of (s : string) : string :=
  match s with
  | EmptyString => EmptyString
  | String c s' => if py_isspace c then EmptyString else String c (word_of s')
  end.

(** [re.findall(r"^kind:\s*(\S+)", s, re.MULTILINE)] as one pass over the
    text: looking for the key (at the beginning of a line or not), behind
    the first characters of the key, in the gap, in the captured word. *)
Inductive kind_scan :=
  | KScan (bol : bool)
  | KKey (left : nat)
  | KWord (acc : string).

Fixpoint scan_kinds (st : kind_scan) (s : string) : list string :=
  match s with
  | EmptyString => match st with KWord acc => [acc] | _ => [] end
  | String c s' =>
      match st with
      | KScan bol =>
          if bol && startswith s "kind:" then scan_kinds (KKey 4) s'
          else scan_kinds (KScan (Ascii.eqb c "010")) s'
      | KKey (S n) => scan_kinds (KKey n) s'
      | KKey 0 => if py_isspace c then scan_kinds (KKey 0) s' else scan_kinds (KWord (String c "")) s'
      | KWord acc =>
          if py_isspace c then acc :: scan_kinds (KScan (Ascii.eqb c "010")) s'
          else scan_kinds (KWord (acc +:+ String c "")) s'
      end
  end.

Definition _extract_all_kinds_from_yaml (yaml_str : string) : list string :=
  scan_kinds (KScan true) yaml_str.

(** [re.search(r"^\s+KEY\s*(\S+)", s, re.MULTILINE)]. *)
Definition yaml_value (key r : string) : option string :=
  if startswith r key then
    let w := word_of (lstrip (String.substring (String.length key) (String.length r) r)) in
    if truthy w then Some w else None
  else None.

Fixpoint yaml_search (key : string) (bol : bool) (s : string) : option string :=
  match s with
  | EmptyString => None
  | String c s' =>
      match (if bol && py_isspace c then yaml_value key (lstrip s) else None) with
      | Some w => Some w
      | None => yaml_search key (Ascii.eqb c "010") s'
      end
  end.

Definition _extract_name_from_yaml (yaml_str : string) : string :=
  default "" (yaml_search "name:" true yaml_str).

Definition _extract_namespace_from_yaml (yaml_str : string) : string :=
  default "" (yaml_search "namespace:" true yaml_str).

Definition _classify_kubectl_stdin_manifest (stdin_data : string) (rest : list string)
    (raw_command : string) : EffectiveTarget :=
  match _extract_all_kinds_from_yaml stdin_data with
  | [] => banned_target raw_command
  | (k0 :: _) as kinds =>
      if negb (forallb (λ k, lower k ∈? ALLOWED_MANIFEST_KINDS) kinds)
      then banned_target raw_command
      else
        let ns := parse_namespace rest "" in
        let namespace := if truthy ns then ns else _extract_namespace_from_yaml stdin_data in
        let name := _extract_name_from_yaml stdin_data in
        named_target (canonicalise_kind k0) namespace
                     (if truthy name then [name] else []) raw_command
  end.

(** ** Inline blade commands *)

Definition list_head (l : list string) : string := List.hd "" l.

Definition _classify_inline_blade (inner : list string) (raw_command : string)
    (fallback_ns fallback_pod : string) : EffectiveTarget :=
  match inner with
  | b :: c :: rest0 =>
      if negb (String.eqb b "blade") || negb (String.eqb c "create")
      then readonly_target raw_command
      else
        let is_k8s := match rest0 with r :: _ => String.eqb r "k8s" | [] => false end in
        let rest1 := if is_k8s then tail rest0 else rest0 in
        let blade_subtype := list_head rest1 in
        let rest := tail rest1 in
        let '(scope_hint, target_hint) :=
          match cut "-" blade_subtype with
          | Some (s, t) => (s, t)
          | None => ("", blade_subtype)
          end in
        let blade_action := list_head rest in
        let ns := parse_namespace rest "" in
        let names := _parse_blade_names rest in
        let labels := parse_labels rest in
        let node_name := _parse_flag_value rest "--node" in
        let scope :=
          if is_k8s && truthy scope_hint
          then str_or (canonicalise_kind scope_hint) scope_hint
          else match dict_get target_hint BLADE_TARGET_TO_SCOPE with
               | Some s => s
               | None => str_or scope_hint "pod"
               end in
        let is_tier1 := is_k8s && (fallback_ns ∈? TOOL_POD_NAMESPACES) && negb (truthy ns) in
        let effective_ns :=
          if String.eqb scope "node" then ""
          else if truthy ns then ns
          else if is_tier1 then ""
          else "default" in
        let effective_names :=
          if String.eqb scope "node" && truthy node_name then [node_name]
          else match names, labels with
               | _ :: _, _ => names
               | [], _ :: _ => []
               | [], [] =>
                   if truthy fallback_pod && String.eqb scope "pod" then [fallback_pod] else []
               end in
        mkEffective scope effective_ns effective_names labels target_hint blade_action
                    HIGH raw_command is_tier1
  | _ => readonly_target raw_command
  end.

(** ** The other kubectl subcommands *)

Definition _classify_kubectl_debug (args : list string) (raw_command : string) : EffectiveTarget :=
  let first := _first_positional args in
  if truthy first then
    let '(kind, name) := _split_kind_name first in
    let canonical := if truthy kind then canonicalise_kind kind else "pod" in
    let ns := parse_namespace args (if String.eqb canonical "node" then "" else "default") in
    named_target canonical ns [name] raw_command
  else unknown_target raw_command.

Definition _classify_kubectl_node_op (args : list string) (raw_command : string) : EffectiveTarget :=
  let node := _first_positional args in
  if truthy node then named_target "node" "" [node] raw_command
  else unknown_target raw_command.

Definition _classify_kubectl_taint (args : list string) (raw_command : string) : EffectiveTarget :=
  match _list_positionals args with
  | p0 :: p1 :: _ =>
      if String.eqb (canonicalise_kind p0) "node" then named_target "node" "" [p1] raw_command
      else unknown_target raw_command
  | _ => unknown_target raw_command
  end.

Definition cluster_scoped_resource (canonical : string) : bool :=
  canonical ∈? ["node"; "pv"; "namespace"; "clusterrole"; "clusterrolebinding"; "storageclass"].

(** The disambiguation of the positionals into a kind and a name; [None]
    is the source's early UNKNOWN return. *)
Definition resolve_kind_name (positionals : list string) (default_kind : option string)
    : option (string * string) :=
  match positionals with
  | [] => None
  | first :: more =>
      let '(kind, name) := _split_kind_name first in
      if negb (truthy kind) then
        match default_kind, more with
        | Some dk, [] => Some (dk, first)
        | _, _ =>
            if _is_known_kind first then Some (first, list_head more)
            else match default_kind with
                 | Some dk => Some (dk, first)
                 | None => None
                 end
        end
      else match more with
           | second :: _ => Some (kind, if truthy name then name else second)
           | [] => Some (kind, name)
           end
  end.

Definition _classify_kubectl_resource (args : list string) (raw_command : string)
    (default_kind : option string) : EffectiveTarget :=
  match resolve_kind_name (_list_positionals args) default_kind with
  | None => unknown_target raw_command
  | Some (kind, name) =>
      let canonical := if truthy kind then canonicalise_kind kind else default "" default_kind in
      if negb (truthy canonical) then unknown_target raw_command
      else
        let ns := parse_namespace args (if cluster_scoped_resource canonical then "" else "default") in
        let labels := parse_labels args in
        mkEffective canonical ns (if truthy name then [name] else []) labels "" ""
          (if truthy name || match labels with [] => false | _ => true end then HIGH else LOW)
          raw_command false
  end.

Definition _classify_kubectl_run (args : list string) (raw_command : string) : EffectiveTarget :=
  let name := _first_positional args in
  if truthy name then named_target "pod" (parse_namespace args "default") [name] raw_command
  else unknown_target raw_command.

Definition _classify_kubectl_rollout (args : list string) (raw_command : string) : EffectiveTarget :=
  match args with
  | [] => unknown_target raw_command
  | _ :: rest => _classify_kubectl_resource rest raw_command None
  end.

Fixpoint cp_loop (all args : list string) (raw_command : string) : EffectiveTarget :=
  match args with
  | [] => unknown_target raw_command
  | a :: rest =>
      if startswith a "-" then cp_loop all rest raw_command
      else match cut ":" a with
           | Some (pod_part, _) =>
               match cut "/" pod_part with
               | Some (ns, name) => named_target "pod" ns [name] raw_command
               | None => named_target "pod" (parse_namespace all "default") [pod_part] raw_command
               end
           | None => cp_loop all rest raw_command
           end
  end.

Definition _classify_kubectl_cp (args : list string) (raw_command : string) : EffectiveTarget :=
  cp_loop args args raw_command.

(** ** kubectl exec and the dispatch on the subcommand *)

(** [nested] classifies an inner kubectl command. *)
Definition _classify_kubectl_exec (nested : list string → Exc EffectiveTarget)
    (args : list string) (raw_command : string) : Exc EffectiveTarget :=
  let ns := parse_namespace args "default" in
  let pod_name := _first_positional args in
  if negb (truthy pod_name) then Some (unknown_target raw_command)
  else match _extract_after_double_dash args with
       | [] => Some (named_target "pod" ns [pod_name] raw_command)
       | (i0 :: inner') as inner =>
           if _has_help_flag inner then Some (readonly_target raw_command)
           else if String.eqb i0 "blade" then
             Some (_classify_inline_blade inner raw_command ns pod_name)
           else if String.eqb i0 "kubectl" then
             n ← nested inner';
             if String.eqb (e_namespace n) "default" && negb (String.eqb ns "default")
             then Some (mkEffective (e_scope n) ns (e_names n) (e_labels n) (e_blade_target n)
                          (e_blade_action n) LOW raw_command false)
             else Some n
           else if i0 ∈? ["nsenter"; "chroot"; "unshare"] then Some (unknown_target raw_command)
           else Some (named_target "pod" ns [pod_name] raw_command)
       end.

(** [stdin_data] of the raw arguments; [VNone] when there are none. *)
Definition stdin_of (raw_args : option (dict pyval)) : pyval :=
  match raw_args with
  | Some ((_ :: _) as d) => match dict_get "stdin_data" d with Some v => v | None => VStr "" end
  | _ => VStr ""
  end.

Definition file_input_subs : list string :=
  ["apply"; "create"; "replace"; "patch"; "set"; "delete"; "edit"].

(** The global namespace in front of the subcommand, pushed into [rest]. *)
Definition push_namespace (pre rest : list string) : list string :=
  let global_ns := parse_namespace pre "" in
  if truthy global_ns && negb (_rest_has_namespace rest) then "-n" :: global_ns :: rest else rest.

(** The dispatch of [_classify_kubectl] for a subcommand and its arguments. *)
Definition classify_sub (nested : list string → Exc EffectiveTarget) (sub : string)
    (rest : list string) (raw_command : string) (raw_args : option (dict pyval))
    : Exc EffectiveTarget :=
  if sub ∈? BANNED_KUBECTL_SUBS then Some (banned_target raw_command)
  else if (sub ∈? file_input_subs) && _uses_file_input rest then
    let stdin_data := stdin_of raw_args in
    if py_truthy stdin_data then
      match stdin_data with
      | VStr s => Some (_classify_kubectl_stdin_manifest s rest raw_command)
      | _ => Raise
      end
    else Some (banned_target raw_command)
  else if sub ∈? READONLY_KUBECTL_SUBS then Some (readonly_target raw_command)
  else if _has_help_flag rest then Some (readonly_target raw_command)
  else if String.eqb sub "rollout" then
    match rest with
    | r :: _ => if r ∈? READONLY_ROLLOUT_SUBS then Some (readonly_target raw_command)
                else Some (_classify_kubectl_rollout rest raw_command)
    | [] => Some (_classify_kubectl_rollout rest raw_command)
    end
  else if String.eqb sub "config" then
    match rest with
    | r :: _ => if r ∈? READONLY_CONFIG_SUBS then Some (readonly_target raw_command)
                else Some (banned_target raw_command)
    | [] => Some (banned_target raw_command)
    end
  else if String.eqb sub "exec" then _classify_kubectl_exec nested rest raw_command
  else if String.eqb sub "debug" then Some (_classify_kubectl_debug rest raw_command)
  else if String.eqb sub "scale" then Some (_classify_kubectl_resource rest raw_command None)
  else if sub ∈? ["cordon"; "uncordon"; "drain"] then
    Some (_classify_kubectl_node_op rest raw_command)
  else if String.eqb sub "taint" then Some (_classify_kubectl_taint rest raw_command)
  else if sub ∈? ["patch"; "set"; "delete"; "edit"; "replace"; "label"; "annotate"; "autoscale"] then
    Some (_classify_kubectl_resource rest raw_command None)
  else if String.eqb sub "run" then Some (_classify_kubectl_run rest raw_command)
  else if String.eqb sub "expose" then Some (_classify_kubectl_resource rest raw_command None)
  else if String.eqb sub "attach" then Some (_classify_kubectl_resource rest raw_command (Some "pod"))
  else if String.eqb sub "cp" then Some (_classify_kubectl_cp rest raw_command)
  else if String.eqb sub "port-forward" then
    Some (_classify_kubectl_resource rest raw_command (Some "pod"))
  else if String.eqb sub "proxy" then Some (banned_target raw_command)
  else if String.eqb sub "create" then Some (_classify_kubectl_resource rest raw_command None)
  else if String.eqb sub "apply" then Some (_classify_kubectl_resource rest raw_command None)
  else Some (unknown_target raw_command).

Fixpoint classify_kubectl_fuel (fuel : nat) (args : list string) (raw_command : string)
    (raw_args : option (dict pyval)) : Exc EffectiveTarget :=
  match fuel with
  | O => Raise
  | S fuel' =>
      match _find_subcommand_index args with
      | None => Some (unknown_target raw_command)
      | Some (pre, sub, rest) =>
          classify_sub (λ inner, classify_kubectl_fuel fuel' inner raw_command None)
            sub (push_namespace pre rest) raw_command raw_args
      end
  end.

Definition _classify_kubectl (args : list string) (raw_command : string)
    (raw_args : option (dict pyval)) : Exc EffectiveTarget :=
  classify_kubectl_fuel (S (length args)) args raw_command raw_args.

(** ** blade_create *)

(** The [names] and [labels] of the call; iterating a non-iterable value
    and taking the items of a non-dict raise. *)
Definition blade_create_names (args : dict pyval) : Exc (list string) :=
  match py_or (py_get "names" args) (VList []) with
  | VStr s => Some (csv_names s)
  | v => l ← py_iter v; Some (map py_str (List.filter py_truthy l))
  end.

Definition blade_create_labels (args : dict pyval) : Exc (dict string) :=
  match py_or (py_get "labels" args) (VDict []) with
  | VStr s => Some (_parse_label_string s)
  | v => py_str_items v
  end.

Definition _classify_blade_create (args : dict pyval) (raw_command : string) : Exc EffectiveTarget :=
  let field k1 k2 := lower (py_str (py_or (py_or (py_get k1 args) (py_get k2 args)) (VStr ""))) in
  let blade_target := field "target" "blade_target" in
  let blade_action := field "action" "blade_action" in
  let raw_scope := field "scope" "blade_scope" in
  let scope0 := if truthy raw_scope then canonicalise_kind raw_scope else "" in
  let scope := if scope0 ∈? ["pod"; "node"] then scope0
               else default SCOPE_UNKNOWN (dict_get blade_target BLADE_TARGET_TO_SCOPE) in
  let namespace0 := strip (py_str (py_or (py_get "namespace" args) (VStr ""))) in
  let namespace := if negb (truthy namespace0) && negb (String.eqb scope "node")
                   then "default" else namespace0 in
  names ← blade_create_names args;
  labels ← blade_create_labels args;
  let confidence := match names, labels with [], [] => LOW | _, _ => HIGH end in
  Some (mkEffective scope namespace names labels blade_target blade_action confidence
          raw_command false).

(** ** The entry point *)

Definition _coerce_args_dict (tool_args : pyval) : dict pyval :=
  match tool_args with VDict d => d | _ => [] end.

(** The first of the legacy keys that holds a list or a string. *)
Fixpoint legacy_args (keys : list string) (d : dict pyval) : list string :=
  match keys with
  | [] => []
  | k :: keys' =>
      match py_get k d with
      | VList l => map py_str l
      | VStr s => shlex_or_split s
      | _ => legacy_args keys' d
      end
  end.

Definition _coerce_args_list (tool_args : pyval) : list string :=
  match tool_args with
  | VList l => map py_str l
  | VDict d =>
      if dict_mem "subcommand" d then
        let sub := py_str (py_or (py_get "subcommand" d) (VStr "")) in
        let v_args := py_or (py_get "v_args" d) (VStr "") in
        List.filter truthy
          (sub :: (if py_truthy v_args then shlex_or_split (py_str v_args) else []))
      else legacy_args ["command"; "args"; "argv"; "cmd"] d
  | VStr s => shlex_or_split s
  | _ => []
  end.

Definition _format_raw_command (tool_name : string) (tool_args : pyval) : string :=
  match tool_args with
  | VDict d =>
      tool_name +:+ "(" +:+ join ", " (map (λ kv, kv.1 +:+ "=" +:+ py_repr kv.2) d) +:+ ")"
  | VList l => tool_name +:+ "(" +:+ join " " (map py_str l) +:+ ")"
  | VStr s => tool_name +:+ "(" +:+ s +:+ ")"
  | _ => tool_name +:+ "(?)"
  end.

Definition READONLY_TOOLS : list string :=
  ["blade_help"; "blade_status"; "blade_query_k8s"; "read_knowledge_resource";
   "read_skill_resource"; "activate_skill"; "submit_fault_intent"; "kubectl_ro";
   "read_file"; "save_fault_plan"; "finish_planning"; "propose_plan_change";
   "submit_verification"; "submit_recover_verification"; "time_wait"].

Definition SKILL_SCRIPT_TOOLS : list string := ["_execute_skill_script"; "execute_skill_script"].

Definition infer_effective_target (tool_name : string) (tool_args : pyval)
    (skill_script_allowed : bool) : Exc EffectiveTarget :=
  let raw_command := _format_raw_command tool_name tool_args in
  if tool_name ∈? READONLY_TOOLS then Some (readonly_target raw_command)
  else if tool_name ∈? SKILL_SCRIPT_TOOLS then
    if negb skill_script_allowed then Some (banned_target raw_command)
    else Some (readonly_target raw_command)
  else if String.eqb tool_name "blade_create" then
    _classify_blade_create (_coerce_args_dict tool_args) raw_command
  else if tool_name ∈? ["kubectl"; "kubectl_verify"] then
    let raw_args := match tool_args with VDict d => Some d | _ => None end in
    _classify_kubectl (_coerce_args_list tool_args) raw_command raw_args
  else Some (unknown_target raw_command).
