(* ===== verification/ClassifierProps.v ===== *)
(** * Properties of the classifier

    Totality and termination, kind canonicalisation, the separation of the
    outer kubectl arguments from the inner command of [kubectl exec], and
    what a read-only or manifest classification guarantees. *)

From stdpp Require Import base list strings sets.
From Stdlib Require Import Ascii Btauto.
From S2P Require Import Prelude.
From S2P Require Import PyValue.
From S2P Require Import Shlex.
From S2P Require Import TargetTypes.
From S2P Require Import Classifier.

(** ** Termination of the exec recursion *)

Lemma extract_after_shorter args i inner :
  _extract_after_double_dash args = i :: inner → S (length inner) < length args.
Proof.
  induction args as [|a args IH]; simpl; [done|].
  case_if; intros H; [subst; simpl; lia | specialize (IH H); lia].
Qed.

Lemma exec_ext n1 n2 args raw :
  (∀ l, length l < length args → n1 l = n2 l) →
  _classify_kubectl_exec n1 args raw = _classify_kubectl_exec n2 args raw.
Proof.
  intros H. unfold _classify_kubectl_exec. case_if; [done|].
  destruct (_extract_after_double_dash args) as [|i inner] eqn:E; [done|].
  apply extract_after_shorter in E. rewrite (H inner) by lia. done.
Qed.

Lemma classify_sub_ext n1 n2 sub rest raw ra :
  (∀ l, length l < length rest → n1 l = n2 l) →
  classify_sub n1 sub rest raw ra = classify_sub n2 sub rest raw ra.
Proof. intros H. unfold classify_sub. by rewrite (exec_ext n1 n2 rest raw H). Qed.

(** [_find_subcommand_index] splits its argument. *)
Lemma find_subcommand_split args pre sub rest :
  _find_subcommand_index args = Some (pre, sub, rest) → args = pre ++ sub :: rest.
Proof.
  revert pre. induction args as [args IH] using (induction_ltof1 _ length); intros pre.
  destruct args as [|a args]; simpl; [done|]. unfold ltof in IH.
  destruct (startswith a "-"); cbn [negb]; [|by intros [= <- <- <-]].
  assert (Hskip : ∀ q, ('(pre, sub, rest') ← _find_subcommand_index args;
    Some (a :: pre, sub, rest')) = Some (q, sub, rest) → a :: args = q ++ sub :: rest).
  { intros q. destruct (_find_subcommand_index args) as [[[p s] r]|] eqn:E; [|done].
    simpl. intros [= <- -> ->]. simpl. f_equal. apply IH; [simpl; lia | done]. }
  destruct (has_char "=" a); [apply Hskip|].
  destruct (a ∈? _BOOLEAN_FLAGS); [apply Hskip|].
  destruct args as [|v args]; [done|].
  destruct (_find_subcommand_index args) as [[[p s] r]|] eqn:E; [|done].
  simpl. intros [= <- -> ->]. simpl. do 2 f_equal. apply IH; [simpl; lia | done].
Qed.

Lemma push_namespace_length pre sub rest :
  (length (push_namespace pre rest) ≤ length (pre ++ sub :: rest))%nat.
Proof.
  unfold push_namespace. rewrite length_app. simpl.
  destruct pre as [|p pre]; simpl; [lia|].
  case_if; simpl; lia.
Qed.

Lemma fuel_irrelevant n m args raw ra :
  length args < n → length args < m →
  classify_kubectl_fuel n args raw ra = classify_kubectl_fuel m args raw ra.
Proof.
  revert m args ra. induction n as [|n IH]; intros m args ra Hn Hm; [lia|].
  destruct m as [|m]; [lia|]. simpl.
  destruct (_find_subcommand_index args) as [[[pre sub] rest]|] eqn:E; [|done].
  apply find_subcommand_split in E as ->. apply classify_sub_ext. intros l Hl.
  pose proof (push_namespace_length pre sub rest). apply IH; lia.
Qed.

(** The fuel of [_classify_kubectl] is enough: any larger amount gives
    the same classification, so the recursion into nested [kubectl exec]
    commands always terminates with the result of the unbounded code. *)
Theorem classify_kubectl_fuel_enough n args raw ra :
  length args < n → classify_kubectl_fuel n args raw ra = _classify_kubectl args raw ra.
Proof. intros H. apply fuel_irrelevant; lia. Qed.

Definition nested_exec_args : list string :=
  ["exec"; "a"; "--"; "kubectl"; "exec"; "b"; "--"; "kubectl"; "drain"; "n1"].

Lemma classify_kubectl_fuel_enough_witness :
  classify_kubectl_fuel 100 nested_exec_args "r" None = Some (named_target "node" "" ["n1"] "r").
Proof.
  rewrite (classify_kubectl_fuel_enough 100 nested_exec_args "r" None) by (simpl; lia).
  reflexivity.
Defined.

(** ** Totality *)

Lemma exec_total nested args raw :
  (∀ l, length l < length args → is_Some (nested l)) →
  is_Some (_classify_kubectl_exec nested args raw).
Proof.
  intros H. unfold _classify_kubectl_exec. case_if; [eauto|].
  destruct (_extract_after_double_dash args) as [|i inner] eqn:E; [eauto|].
  apply extract_after_shorter in E. destruct (H inner) as [e He]; [lia|].
  rewrite He. simpl. split_ifs; eauto.
Qed.

(** The [stdin_data] the classifier can read: text, or nothing. *)
Definition stdin_ok (ra : option (dict pyval)) : Prop :=
  py_truthy (stdin_of ra) = true → ∃ s, stdin_of ra = VStr s.

Lemma classify_sub_total nested sub rest raw ra :
  stdin_ok ra → (∀ l, length l < length rest → is_Some (nested l)) →
  is_Some (classify_sub nested sub rest raw ra).
Proof.
  intros Hs Hn. unfold classify_sub.
  case_if; [eauto|]. case_if.
  { destruct (py_truthy (stdin_of ra)) eqn:E; [|eauto]. destruct (Hs E) as [s ->]. eauto. }
  do 2 (case_if; [eauto|]).
  case_if; [destruct rest; split_ifs; eauto|].
  case_if; [destruct rest; split_ifs; eauto|].
  case_if; [by apply exec_total|]. split_ifs; eauto.
Qed.

Lemma classify_kubectl_total args raw ra : stdin_ok ra → is_Some (_classify_kubectl args raw ra).
Proof.
  unfold _classify_kubectl. generalize (Nat.lt_succ_diag_r (length args)).
  generalize (S (length args)) as n. intros n. revert args ra.
  induction n as [|n IH]; intros args ra Hl Hs; [lia|]. simpl.
  destruct (_find_subcommand_index args) as [[[pre sub] rest]|] eqn:E; [|eauto].
  apply find_subcommand_split in E as ->. apply classify_sub_total; [done|].
  intros l Hl'. pose proof (push_namespace_length pre sub rest). apply IH; [lia | done].
Qed.

(** The arguments of a [blade_create] call that follow the tool's schema:
    names as text, list, tuple, dict or nothing; labels as text, dict or
    nothing. *)
Definition iterable (v : pyval) : bool :=
  match v with VStr _ | VList _ | VTuple _ | VDict _ => true | _ => false end.

Definition label_like (v : pyval) : bool :=
  match v with VStr _ | VDict _ => true | _ => false end.

Definition names_ok (v : pyval) : bool := negb (py_truthy v) || iterable v.
Definition labels_ok (v : pyval) : bool := negb (py_truthy v) || label_like v.

Definition blade_args_ok (args : dict pyval) : bool :=
  names_ok (py_get "names" args) && labels_ok (py_get "labels" args).

Lemma blade_create_names_total args :
  is_Some (blade_create_names args) ↔ names_ok (py_get "names" args) = true.
Proof.
  unfold blade_create_names, names_ok, py_or.
  destruct (py_truthy (py_get "names" args)); simpl; [|by eauto].
  destruct (py_get "names" args); simpl; split; intros H; try done; eauto; by destruct H.
Qed.

Lemma blade_create_labels_total args :
  is_Some (blade_create_labels args) ↔ labels_ok (py_get "labels" args) = true.
Proof.
  unfold blade_create_labels, labels_ok, py_or.
  destruct (py_truthy (py_get "labels" args)); simpl; [|by eauto].
  destruct (py_get "labels" args); simpl; split; intros H; try done; eauto; by destruct H.
Qed.

Lemma blade_create_total args raw :
  is_Some (_classify_blade_create args raw) ↔ blade_args_ok args = true.
Proof.
  unfold blade_args_ok. rewrite andb_true_iff.
  rewrite <- blade_create_names_total, <- blade_create_labels_total.
  unfold _classify_blade_create. cbv zeta.
  destruct (blade_create_names args); [|split; [by intros [] | by intros [[] _]]].
  destruct (blade_create_labels args); [|split; [by intros [] | by intros [_ []]]].
  simpl. split; eauto.
Qed.

(** The arguments on which the classifier does not raise. *)
Definition args_ok (tool_name : string) (tool_args : pyval) : Prop :=
  match tool_args with
  | VDict d =>
      (tool_name = "blade_create" → blade_args_ok d = true) ∧
      (tool_name ∈ ["kubectl"; "kubectl_verify"] → stdin_ok (Some d))
  | _ => True
  end.

Lemma infer_total tool_name tool_args allowed :
  args_ok tool_name tool_args → is_Some (infer_effective_target tool_name tool_args allowed).
Proof.
  intros H. unfold infer_effective_target.
  case_if; [eauto|]. case_if; [split_ifs; eauto|].
  case_if.
  - apply blade_create_total. bool_to_prop. subst.
    destruct tool_args; simpl; try done. simpl in H. by apply H.
  - case_if; [|eauto]. apply classify_kubectl_total. bool_to_prop.
    destruct tool_args; simpl in *; try (by intros ?); by apply H.
Qed.

(** The classifier returns a target for every tool name and every
    argument value that follows the tool schema (names iterable, labels
    text or dict, stdin_data text): outside that, [blade_create] raises
    exactly when its names or labels have another shape. *)
Theorem infer_effective_target_total tool_name tool_args allowed :
  args_ok tool_name tool_args →
  is_Some (infer_effective_target tool_name tool_args allowed) ∧
  (∀ d raw, is_Some (_classify_blade_create d raw) ↔ blade_args_ok d = true).
Proof. intros H. split; [by apply infer_total | intros; apply blade_create_total]. Qed.

Definition blade_args_example : pyval :=
  VDict [("scope", VStr "pod"); ("target", VStr "cpu"); ("action", VStr "fullload");
         ("namespace", VStr "prod"); ("names", VStr "web-0,web-1");
         ("labels", VDict [("app", VStr "web")])].

Lemma infer_effective_target_total_witness :
  is_Some (infer_effective_target "blade_create" blade_args_example false).
Proof.
  apply infer_effective_target_total. split; [intros _; reflexivity|].
  intros H. by apply str_in_spec in H.
Defined.

(** ** Kinds *)

Lemma kind_aliases_closed h k :
  dict_get h KIND_ALIASES = Some k → canonicalise_kind k = k.
Proof.
  intros H%dict_get_In%list_elem_of_In.
  assert (Ht : forallb (λ kv, String.eqb (canonicalise_kind kv.2) kv.2) KIND_ALIASES = true)
    by (vm_compute; reflexivity).
  by apply String.eqb_eq, (proj1 (forallb_forall _ _) Ht (h, k)).
Qed.

Lemma kind_head_no_dot raw : has_char "." (kind_head raw) = false.
Proof. apply has_char_strip. rewrite has_char_lower_dot. apply before_no_sep. Qed.

Lemma kind_head_idem raw : kind_head (kind_head raw) = kind_head raw.
Proof.
  unfold kind_head at 1. rewrite before_id by apply kind_head_no_dot.
  unfold kind_head. by rewrite lower_strip, lower_idem, strip_idem.
Qed.

(** Canonicalisation is idempotent: a canonical kind is its own
    canonical form, so comparing the canonical forms of the approved and
    the effective scope does not depend on how often either was
    canonicalised before. *)
Lemma canonicalise_kind_idem raw :
  canonicalise_kind (canonicalise_kind raw) = canonicalise_kind raw.
Proof.
  unfold canonicalise_kind at 2 3. destruct (truthy raw); [|done].
  destruct (dict_get (kind_head raw) KIND_ALIASES) as [k|] eqn:E.
  - by apply kind_aliases_closed in E.
  - unfold canonicalise_kind. rewrite kind_head_idem, E.
    by destruct (truthy (kind_head raw)) eqn:Et; bool_to_prop.
Qed.

(** ** Separation of the exec payload *)

(** Nothing behind the separator reaches the namespace of the outer
    command. *)
Lemma parse_namespace_stops outer inner d :
  parse_namespace (outer ++ "--" :: inner) d = parse_namespace (outer ++ ["--"]) d.
Proof.
  induction outer as [|a outer IH]; [done|]. simpl.
  do 3 (case_if; [done || by destruct outer|]). done.
Qed.

Lemma rest_has_namespace_stops outer inner :
  _rest_has_namespace (outer ++ "--" :: inner) = _rest_has_namespace outer.
Proof. induction outer as [|a outer IH]; [done|]. simpl. by split_ifs. Qed.

Lemma extract_after_outer outer inner :
  "--" ∉ outer → _extract_after_double_dash (outer ++ "--" :: inner) = inner.
Proof.
  induction outer as [|a outer IH]; [done|]. intros H. simpl.
  destruct (String.eqb_spec a "--") as [->|]; [set_solver|]. apply IH. set_solver.
Qed.

(** A pod name as the first argument is the first positional. *)
Lemma first_positional_head pod rest :
  pod ≠ "--" → startswith pod "-" = false → _first_positional (pod :: rest) = pod.
Proof.
  intros Hd Hs. unfold _first_positional. simpl.
  rewrite (proj2 (String.eqb_neq pod "--") Hd), Hs. done.
Qed.

Lemma has_help_app l1 l2 :
  _has_help_flag (l1 ++ l2) = _has_help_flag l1 || _has_help_flag l2.
Proof.
  unfold _has_help_flag, str_in. rewrite !existsb_app.
  destruct (existsb _ l1), (existsb _ l2); simpl; btauto.
Qed.

(** The shape of an exec call whose pod comes first. *)
Section exec.
Context (pod : string) (opts : list string).
Hypothesis pod_nonempty : pod ≠ "".
Hypothesis pod_no_flag : startswith pod "-" = false.
Hypothesis opts_no_sep : "--" ∉ opts.

Lemma pod_not_sep : pod ≠ "--".
Proof using pod_no_flag.
  intros E. pose proof pod_no_flag as H. rewrite E in H. discriminate H.
Qed.

Lemma classify_exec inner raw ra :
  _has_help_flag (pod :: opts ++ "--" :: inner) = false →
  ∃ nested,
    _classify_kubectl ("exec" :: pod :: opts ++ "--" :: inner) raw ra =
    _classify_kubectl_exec nested (pod :: opts ++ "--" :: inner) raw.
Proof using.
  intros Hh. eexists. unfold _classify_kubectl. cbn [classify_kubectl_fuel].
  change (_find_subcommand_index ("exec" :: ?l)) with (Some (@nil string, "exec", l)).
  cbn iota. change (push_namespace [] ?l) with l. unfold classify_sub.
  rewrite Hh. reflexivity.
Qed.

Lemma exec_inner inner i0 inner' nested raw :
  inner = i0 :: inner' → _has_help_flag inner = false →
  _classify_kubectl_exec nested (pod :: opts ++ "--" :: inner) raw =
    let ns := parse_namespace (pod :: opts ++ ["--"]) "default" in
    if String.eqb i0 "blade" then Some (_classify_inline_blade inner raw ns pod)
    else if String.eqb i0 "kubectl" then
      n ← nested inner';
      if String.eqb (e_namespace n) "default" && negb (String.eqb ns "default")
      then Some (mkEffective (e_scope n) ns (e_names n) (e_labels n) (e_blade_target n)
                   (e_blade_action n) LOW raw false)
      else Some n
    else if i0 ∈? ["nsenter"; "chroot"; "unshare"] then Some (unknown_target raw)
    else Some (named_target "pod" ns [pod] raw).
Proof using pod_nonempty pod_no_flag opts_no_sep.
  intros -> Hh. unfold _classify_kubectl_exec.
  change (pod :: opts ++ "--" :: ?l) with ((pod :: opts) ++ "--" :: l).
  rewrite parse_namespace_stops, extract_after_outer by (pose proof pod_not_sep; set_solver).
  cbn [app]. rewrite first_positional_head by (done || apply pod_not_sep).
  rewrite (proj2 (truthy_spec pod) pod_nonempty). cbn [negb]. cbv beta iota zeta.
  rewrite Hh. done.
Qed.
End exec.

(** [kubectl exec POD OPTS -- PROG ...] with an ordinary program acts
    on the pod named by the outer command, in the namespace of the outer
    command: no argument behind the separator (a [-n], a [-l], another pod
    name) can change the classified target. *)
Theorem exec_plain_target pod opts prog args raw ra :
  pod ≠ "" → startswith pod "-" = false → "--" ∉ opts →
  prog ∉ ["blade"; "kubectl"; "nsenter"; "chroot"; "unshare"] →
  _has_help_flag (pod :: opts ++ "--" :: prog :: args) = false →
  _classify_kubectl ("exec" :: pod :: opts ++ "--" :: prog :: args) raw ra =
    Some (named_target "pod" (parse_namespace (pod :: opts ++ ["--"]) "default") [pod] raw).
Proof.
  intros Hp Hs Ho Hprog Hh.
  destruct (classify_exec pod opts (prog :: args) raw ra Hh) as [nested ->].
  assert (Hi : _has_help_flag (prog :: args) = false).
  { change (pod :: opts ++ ?l) with ((pod :: opts) ++ l) in Hh. rewrite has_help_app in Hh.
    change ("--" :: ?l) with (["--"] ++ l) in Hh. rewrite has_help_app in Hh. by bool_to_prop. }
  rewrite (exec_inner pod opts Hp Hs Ho _ prog args) by done. cbv zeta.
  rewrite (proj2 (String.eqb_neq prog "blade")) by set_solver.
  rewrite (proj2 (String.eqb_neq prog "kubectl")) by set_solver.
  by rewrite (proj2 (str_in_false prog _)) by set_solver.
Qed.

Lemma exec_plain_target_witness :
  _classify_kubectl
    ("exec" :: "web-0" :: ["-n"; "prod"] ++ "--" :: "stress" :: ["-n"; "kube-system"]) "r" None =
  Some (named_target "pod" "prod" ["web-0"] "r").
Proof.
  apply (exec_plain_target "web-0" ["-n"; "prod"] "stress" ["-n"; "kube-system"] "r" None);
    first [done | apply str_in_false; reflexivity | reflexivity].
Defined.

Lemma exec_inline_blade pod opts hint tgt more raw ra :
  pod ≠ "" → startswith pod "-" = false → "--" ∉ opts →
  has_char "-" hint = false → canonicalise_kind hint ≠ "" →
  let inner := "blade" :: "create" :: "k8s" :: (hint +:+ "-" +:+ tgt) :: more in
  _has_help_flag (pod :: opts ++ "--" :: inner) = false →
  ∃ e, _classify_kubectl ("exec" :: pod :: opts ++ "--" :: inner) raw ra = Some e ∧
       e_scope e = canonicalise_kind hint ∧ e_blade_target e = tgt ∧ e_confidence e = HIGH.
Proof.
  intros Hp Hs Ho Hd Hc inner Hh.
  destruct (classify_exec pod opts inner raw ra Hh) as [nested ->].
  assert (Hi : _has_help_flag inner = false).
  { change (pod :: opts ++ ?l) with ((pod :: opts) ++ l) in Hh. rewrite has_help_app in Hh.
    change ("--" :: ?l) with (["--"] ++ l) in Hh. rewrite has_help_app in Hh. by bool_to_prop. }
  rewrite (exec_inner pod opts Hp Hs Ho inner "blade" (tail inner)) by done.
  cbv zeta. change (String.eqb "blade" "blade") with true. cbv iota.
  eexists. split; [reflexivity|]. unfold inner, _classify_inline_blade.
  cbn -[cut String.append canonicalise_kind truthy str_in str_or].
  change ("-" +:+ tgt) with (String "-" tgt). rewrite (cut_first "-" hint tgt Hd).
  assert (hint ≠ "") as Hhint by (by intros ->).
  cbn -[canonicalise_kind truthy str_or]. rewrite (proj2 (truthy_spec hint) Hhint).
  cbn [andb]. unfold str_or.
  by rewrite (proj2 (truthy_spec (canonicalise_kind hint)) Hc).
Qed.

(** An inline [blade create k8s SCOPE-TARGET ...] behind
    [kubectl exec] is classified by the scope and the target of the inner
    command, never by the pod that carries it. *)
Theorem exec_inline_blade_target pod opts hint tgt more raw ra :
  pod ≠ "" → startswith pod "-" = false → "--" ∉ opts →
  has_char "-" hint = false → canonicalise_kind hint ≠ "" →
  let inner := "blade" :: "create" :: "k8s" :: (hint +:+ "-" +:+ tgt) :: more in
  _has_help_flag (pod :: opts ++ "--" :: inner) = false →
  ∃ e, _classify_kubectl ("exec" :: pod :: opts ++ "--" :: inner) raw ra = Some e ∧
       e_scope e = canonicalise_kind hint ∧ e_blade_target e = tgt ∧ e_confidence e = HIGH.
Proof. apply exec_inline_blade. Qed.

Lemma exec_inline_blade_target_witness :
  let inner := "blade" :: "create" :: "k8s" :: ("node" +:+ "-" +:+ "cpu") ::
               ["fullload"; "--names"; "n1"] in
  ∃ e, _classify_kubectl ("exec" :: "web-0" :: ["-n"; "prod"] ++ "--" :: inner) "r" None = Some e ∧
       e_scope e = "node" ∧ e_blade_target e = "cpu" ∧ e_confidence e = HIGH.
Proof.
  apply (exec_inline_blade_target "web-0" ["-n"; "prod"] "node" "cpu" ["fullload"; "--names"; "n1"]);
    first [done | apply str_in_false; reflexivity | reflexivity].
Defined.

(** ** Manifests *)

Lemma allowed_manifest_canonical k :
  lower k ∈ ALLOWED_MANIFEST_KINDS →
  canonicalise_kind k ∈ ["pvc"; "pv"; "configmap"; "secret"; "namespace"].
Proof.
  intros H. assert (Hk : truthy k = true) by (apply truthy_spec; intros ->; by apply str_in_spec in H).
  assert (Hd : has_char "." k = false).
  { rewrite <- has_char_lower_dot. apply list_elem_of_In in H.
    assert (Ht : forallb (λ x, negb (has_char "." x)) ALLOWED_MANIFEST_KINDS = true) by done.
    rewrite forallb_forall in Ht. specialize (Ht _ H). by bool_to_prop. }
  unfold canonicalise_kind. rewrite Hk. unfold kind_head. rewrite before_id by done.
  apply list_elem_of_In in H.
  assert (Ht : forallb (λ x, default "" (dict_get (strip x) KIND_ALIASES)
    ∈? ["pvc"; "pv"; "configmap"; "secret"; "namespace"]) ALLOWED_MANIFEST_KINDS = true)
    by (vm_compute; reflexivity).
  rewrite forallb_forall in Ht. specialize (Ht _ H). apply str_in_spec in Ht.
  destruct (dict_get _ _); simpl in *; [done|]. by apply str_in_spec in Ht.
Qed.

Lemma stdin_manifest_cases s rest raw :
  _classify_kubectl_stdin_manifest s rest raw = banned_target raw ∨
  (_extract_all_kinds_from_yaml s ≠ [] ∧
   (∀ k, k ∈ _extract_all_kinds_from_yaml s → lower k ∈ ALLOWED_MANIFEST_KINDS) ∧
   e_scope (_classify_kubectl_stdin_manifest s rest raw)
     ∈ ["pvc"; "pv"; "configmap"; "secret"; "namespace"]).
Proof.
  unfold _classify_kubectl_stdin_manifest.
  destruct (_extract_all_kinds_from_yaml s) as [|k0 ks]; [by left|].
  case_if; [by left|]. right. apply negb_false_iff in Heqb. rewrite forallb_forall in Heqb.
  split; [done|]. split.
  - intros k Hk%list_elem_of_In. by apply str_in_spec, Heqb.
  - apply allowed_manifest_canonical, str_in_spec, Heqb. by left.
Qed.

(** A manifest on standard input is either banned or consists, as far
    as the [kind:] lines show, of whitelisted low-risk kinds only, and is
    then classified as one of them: no workload kind on a [kind:] line
    passes. *)
Theorem stdin_manifest_whitelisted s rest raw :
  let e := _classify_kubectl_stdin_manifest s rest raw in
  e = banned_target raw ∨
  (Forall (λ k, lower k ∈ ALLOWED_MANIFEST_KINDS) (_extract_all_kinds_from_yaml s) ∧
   e_scope e ∈ ["pvc"; "pv"; "configmap"; "secret"; "namespace"]).
Proof.
  destruct (stdin_manifest_cases s rest raw) as [?|(_ & Hk & Hs)]; [by left | right].
  split; [by apply Forall_forall | done].
Qed.

(** ** Read-only classifications *)

Lemma canonicalise_readonly k :
  canonicalise_kind k = SCOPE_READONLY → kind_head k = SCOPE_READONLY.
Proof.
  unfold canonicalise_kind. destruct (truthy k); [|done].
  destruct (dict_get (kind_head k) KIND_ALIASES) as [v|] eqn:E; [|done].
  intros ->. apply dict_get_In, list_elem_of_In in E.
  assert (Ht : forallb (λ kv, negb (String.eqb kv.2 SCOPE_READONLY)) KIND_ALIASES = true)
    by (vm_compute; reflexivity).
  rewrite forallb_forall in Ht. by specialize (Ht _ E).
Qed.

Lemma split_kind_before token :
  (_split_kind_name token).1 ≠ "" → (_split_kind_name token).1 = before "/" token.
Proof. unfold _split_kind_name, before. by destruct (cut "/" token) as [[a b]|]. Qed.

Section no_spoof.
Context (rest : list string) (raw : string).
(** No positional spells the sentinel as its kind. *)
Hypothesis no_spoof : ∀ p, p ∈ _list_positionals rest → kind_head (before "/" p) ≠ SCOPE_READONLY.

Lemma resource_not_readonly dk :
  dk ∈ [None; Some "pod"] →
  e_scope (_classify_kubectl_resource rest raw dk) ≠ SCOPE_READONLY.
Proof using no_spoof.
  intros Hdk. unfold _classify_kubectl_resource.
  destruct (resolve_kind_name _ dk) as [[kind name]|] eqn:E; [|done].
  case_if; [done|]. simpl. destruct (truthy kind) eqn:Ek; [|by destruct dk as [d|]; simpl; set_solver].
  intros Hc%canonicalise_readonly. unfold resolve_kind_name in E.
  destruct (_list_positionals rest) as [|first more] eqn:Ep; [done|].
  specialize (no_spoof first ltac:(by left)).
  pose proof (split_kind_before first) as Hsk. destruct (_split_kind_name first) as [k n].
  simpl in Hsk. destruct (truthy k) eqn:Ekk; cbn [negb] in E; bool_to_prop.
  - rewrite <- (Hsk Ekk) in no_spoof. destruct more; injection E as -> _; done.
  - assert (Hdef : ∀ d, dk = Some d → kind_head d ≠ SCOPE_READONLY) by set_solver.
    assert (Hknown : _is_known_kind first = true → kind_head first ≠ SCOPE_READONLY).
    { unfold _is_known_kind. intros [_ H]%andb_true_iff H'. by rewrite H' in H. }
    destruct dk as [d|], more, (_is_known_kind first);
      simplify_eq; naive_solver.
Qed.

Lemma debug_not_readonly : e_scope (_classify_kubectl_debug rest raw) ≠ SCOPE_READONLY.
Proof using no_spoof.
  unfold _classify_kubectl_debug, _first_positional.
  destruct (_list_positionals rest) as [|first more] eqn:Ep; [done|].
  specialize (no_spoof first ltac:(by left)).
  pose proof (split_kind_before first) as Hsk. destruct (_split_kind_name first) as [k n].
  destruct (truthy first); [|done]. simpl in *. destruct (truthy k) eqn:Ek; [|done].
  bool_to_prop. intros H%canonicalise_readonly. by rewrite (Hsk Ek) in H.
Qed.
End no_spoof.

Lemma manifest_not_readonly s rest raw :
  e_scope (_classify_kubectl_stdin_manifest s rest raw) ≠ SCOPE_READONLY.
Proof.
  destruct (stdin_manifest_cases s rest raw) as [-> | (_ & _ & H)]; [done|].
  intros E. rewrite E in H. by apply str_in_spec in H.
Qed.

Lemma cp_not_readonly all args raw : e_scope (cp_loop all args raw) ≠ SCOPE_READONLY.
Proof.
  induction args as [|a args IH]; simpl; [done|]. case_if; [done|].
  destruct (cut ":" a) as [[p ?]|]; [|done]. by destruct (cut "/" p) as [[? ?]|].
Qed.

(** The positionals are words of the command. *)
Lemma positionals_words args w : w ∈ _list_positionals args → w ∈ args.
Proof.
  induction args as [args IH] using (induction_ltof1 _ length). unfold ltof in IH.
  destruct args as [|a args]; [done|]. simpl in *.
  case_if; [intros Hw; by apply elem_of_nil in Hw|]. case_if.
  { intros [->|Hw]%elem_of_cons; [by left | right; by apply IH; [lia|]]. }
  do 2 (case_if; [intros Hw; right; by apply IH; [lia|]|]).
  destruct args as [|v args]; [intros Hw; by apply elem_of_nil in Hw|]. intros Hw. do 2 right. by apply IH; [simpl; lia|].
Qed.

(** A word whose part before a slash or a dash names the sentinel. *)
Definition spells_sentinel (w : string) : bool :=
  String.eqb (kind_head (before "/" w)) SCOPE_READONLY || String.eqb (kind_head (before "-" w)) SCOPE_READONLY.

Lemma unspelled w : spells_sentinel w = false →
  kind_head (before "/" w) ≠ SCOPE_READONLY ∧ kind_head (before "-" w) ≠ SCOPE_READONLY.
Proof. unfold spells_sentinel. rewrite orb_false_iff, !String.eqb_neq. done. Qed.

Definition unspelled_words (ws : list string) : Prop := ∀ w, w ∈ ws → spells_sentinel w = false.

Lemma unspelled_positionals ws : unspelled_words ws →
  ∀ p, p ∈ _list_positionals ws → kind_head (before "/" p) ≠ SCOPE_READONLY.
Proof. intros H p Hp%positionals_words. by apply unspelled, H. Qed.

Lemma destructive_not_in sub l :
  sub ∈ DESTRUCTIVE_KUBECTL_SUBS → forallb (λ x, negb (x ∈? l)) DESTRUCTIVE_KUBECTL_SUBS = true → (sub ∈? l) = false.
Proof.
  intros H%list_elem_of_In Ht. rewrite forallb_forall in Ht.
  by apply negb_true_iff, Ht.
Qed.

(** The classification of a subcommand other than [exec] and [rollout]. *)
Lemma sub_not_readonly nested sub rest raw ra e :
  sub ∈ DESTRUCTIVE_KUBECTL_SUBS → sub ≠ "exec" → sub ≠ "rollout" → _has_help_flag rest = false → unspelled_words rest →
  classify_sub nested sub rest raw ra = Some e → e_scope e ≠ SCOPE_READONLY.
Proof.
  intros Hsub He%String.eqb_neq Hro%String.eqb_neq Hh Hu. pose proof (unspelled_positionals _ Hu) as Hns. unfold classify_sub.
  rewrite Hh, He, Hro, (destructive_not_in _ READONLY_KUBECTL_SUBS Hsub) by reflexivity.
  case_if; [by intros [= <-]|]. case_if.
  { destruct (py_truthy _); [|by intros [= <-]].
    destruct (stdin_of ra); try done. intros [= <-]. apply manifest_not_readonly. }
  case_if; [destruct rest; [by intros [= <-]|bool_to_prop; by subst; set_solver]|].
  assert (Hr : ∀ dk, dk ∈ [None; Some "pod"] →
    Some (_classify_kubectl_resource rest raw dk) = Some e → e_scope e ≠ SCOPE_READONLY).
  { intros dk Hdk [= <-]. by apply resource_not_readonly. }
  case_if; [intros [= <-]; by apply debug_not_readonly|].
  case_if; [apply Hr; set_solver|].
  case_if; [intros [= <-]; unfold _classify_kubectl_node_op; by case_if|].
  case_if; [intros [= <-]; unfold _classify_kubectl_taint;
            destruct (_list_positionals rest) as [|? [|? ?]]; try done; by case_if|].
  case_if; [apply Hr; set_solver|].
  case_if; [intros [= <-]; unfold _classify_kubectl_run; by case_if|].
  case_if; [apply Hr; set_solver|].
  case_if; [apply Hr; set_solver|].
  case_if; [intros [= <-]; apply cp_not_readonly|].
  case_if; [apply Hr; set_solver|].
  case_if; [by intros [= <-]|].
  do 2 (case_if; [apply Hr; set_solver|]). by intros [= <-].
Qed.

(** A creation inside a container has the scope its words name. *)
Lemma inline_create_not_readonly l raw ns pod :
  unspelled_words l → e_scope (_classify_inline_blade ("blade" :: "create" :: l) raw ns pod) ≠ SCOPE_READONLY.
Proof.
  intros Hl. cbn [_classify_inline_blade String.eqb Ascii.eqb Bool.eqb negb orb].
  set (k8s := match l with r :: _ => String.eqb r "k8s" | [] => false end). set (rest1 := if k8s then tail l else l).
  assert (Hw : ∀ a b, cut "-" (list_head rest1) = Some (a, b) → kind_head a ≠ SCOPE_READONLY).
  { intros a b Hc. assert (Hin : list_head rest1 ∈ l).
    { destruct rest1 as [|w r] eqn:E; [discriminate Hc|]. cbn [list_head]. unfold rest1 in E.
      destruct k8s; [destruct l as [|x l']; [done|]; cbn in E; subst; right; by left | subst; by left]. }
    apply Hl, unspelled in Hin as [_ Hin]. unfold before in Hin. by rewrite Hc in Hin. }
  assert (Hm : ∀ t s, dict_get t BLADE_TARGET_TO_SCOPE = Some s → s ≠ SCOPE_READONLY).
  { intros t s H%dict_get_In%list_elem_of_In. assert (Ht : forallb (λ kv, negb (String.eqb kv.2 SCOPE_READONLY)) BLADE_TARGET_TO_SCOPE = true)
      by (vm_compute; reflexivity). rewrite forallb_forall in Ht. specialize (Ht _ H). by apply negb_true_iff, String.eqb_neq in Ht. }
  assert (Hk : ∀ a, kind_head a ≠ SCOPE_READONLY → a ≠ SCOPE_READONLY) by (intros a Ha ->; by apply Ha).
  destruct (cut "-" (list_head rest1)) as [[a b]|] eqn:Ec; cbn [e_scope].
  - specialize (Hw _ _ eq_refl). case_if.
    + unfold str_or. case_if; [intros Hc%canonicalise_readonly; done | by apply Hk].
    + destruct (dict_get b _) eqn:E; [by eapply Hm|]. unfold str_or. case_if; [by apply Hk | done].
  - rewrite andb_false_r. destruct (dict_get _ BLADE_TARGET_TO_SCOPE) eqn:E; [by eapply Hm | done].
Qed.

Lemma after_dash_words args w : w ∈ _extract_after_double_dash args → w ∈ args.
Proof. induction args as [|a args IH]; simpl; [done|]. case_if; intros; right; auto. Qed.

(** What runs inside a container and is classified read-only. *)
Definition readonly_inside (inner : list string) (raw : string) : Prop :=
  (∃ l, inner = "blade" :: l ∧ head l ≠ Some "create") ∨
  (∃ l n, inner = "kubectl" :: l ∧ _classify_kubectl l raw None = Some n ∧ e_scope n = SCOPE_READONLY).

Lemma exec_readonly nested args raw e :
  _has_help_flag args = false → unspelled_words args →
  (∀ i0 l, _extract_after_double_dash args = i0 :: l → nested l = _classify_kubectl l raw None) →
  _classify_kubectl_exec nested args raw = Some e → e_scope e = SCOPE_READONLY →
  readonly_inside (_extract_after_double_dash args) raw.
Proof.
  intros Hh Hu Hn. unfold _classify_kubectl_exec. case_if; [by intros [= <-]|].
  assert (Hwords : ∀ w, w ∈ _extract_after_double_dash args → w ∈ args) by apply after_dash_words.
  destruct (_extract_after_double_dash args) as [|i0 l]; [by intros [= <-]|]. rewrite (Hn i0 l eq_refl).
  assert (Hhi : _has_help_flag (i0 :: l) = false).
  { unfold _has_help_flag in *. apply orb_false_iff in Hh as [H1%str_in_false H2%str_in_false].
    apply orb_false_iff. split; apply str_in_false; intros H%Hwords; done. }
  rewrite Hhi. case_if.
  { bool_to_prop. subst. intros [= <-] He. left. exists l. split; [done|]. intros Hc. destruct l as [|c l]; [done|].
    injection Hc as ->. revert He. apply inline_create_not_readonly. intros w Hw. apply Hu, Hwords. by do 2 right. }
  case_if; [|case_if; by intros [= <-]]. bool_to_prop. subst.
  intros (n & Hc & He)%bind_Some Hs. right. exists l, n. split_and!; [done..|]. revert He Hs. case_if; by intros [= <-].
Qed.

(** C36. Of the subcommands the source lists as destructive, called without a help
    flag and without a word that names the sentinel, the classifier takes as
    read-only only [rollout status] and [rollout history], and an [exec] whose
    inner command is [blade] with anything but [create] (so [blade destroy]
    too) or a [kubectl] command that is itself read-only. *)
Theorem destructive_readonly_only sub rest raw ra e :
  sub ∈ DESTRUCTIVE_KUBECTL_SUBS → _has_help_flag rest = false → unspelled_words rest →
  _classify_kubectl (sub :: rest) raw ra = Some e → e_scope e = SCOPE_READONLY →
  (sub = "rollout" ∧ ∃ r l, rest = r :: l ∧ r ∈ ["status"; "history"]) ∨
  (sub = "exec" ∧ readonly_inside (_extract_after_double_dash rest) raw).
Proof.
  intros Hsub Hh Hu. unfold _classify_kubectl. cbn [classify_kubectl_fuel].
  assert (Hf : _find_subcommand_index (sub :: rest) = Some ([], sub, rest)).
  { assert (startswith sub "-" = false) as Hd.
    { apply list_elem_of_In in Hsub.
      assert (Ht : forallb (λ x, negb (startswith x "-")) DESTRUCTIVE_KUBECTL_SUBS = true) by done.
      rewrite forallb_forall in Ht. by apply negb_true_iff, Ht. }
    simpl. by rewrite Hd. }
  rewrite Hf. cbv iota. change (push_namespace [] rest) with rest.
  destruct (decide (sub = "exec")) as [->|He]; [|destruct (decide (sub = "rollout")) as [->|Hr]].
  - unfold classify_sub. rewrite Hh. cbv iota. intros Hc Hs. right. split; [done|].
    eapply exec_readonly; [done|done| |exact Hc|exact Hs].
    intros i0 l Hl%extract_after_shorter. apply fuel_irrelevant; cbn [length]; lia.
  - change (classify_sub ?n "rollout" ?l raw ra) with (if _has_help_flag l then Some (readonly_target raw) else match l with
      | r :: _ => if r ∈? READONLY_ROLLOUT_SUBS then Some (readonly_target raw) else Some (_classify_kubectl_rollout l raw)
      | [] => Some (_classify_kubectl_rollout l raw) end).
    rewrite Hh. destruct rest as [|r l]; [by intros [= <-]|].
    case_if; [intros _ _; left; split; [done|]; exists r, l; split; [done|]; by apply str_in_spec|].
    intros [= <-] Hs. exfalso. revert Hs. apply resource_not_readonly; [|by left].
    apply unspelled_positionals. intros w Hw. apply Hu. by right.
  - intros Hc Hs. by eapply sub_not_readonly in Hs.
Qed.

Lemma destructive_readonly_only_witness :
  readonly_inside ["blade"; "destroy"; "u1"] "r".
Proof.
  destruct (destructive_readonly_only "exec" ["otel-1"; "--"; "blade"; "destroy"; "u1"] "r" None (readonly_target "r"))
    as [[[=] _]|[_ H]]; [apply str_in_spec; reflexivity | reflexivity | | reflexivity | reflexivity | exact H].
  intros w Hw. rewrite !elem_of_cons, elem_of_nil in Hw. by destruct Hw as [->|[->|[->|[->|[->|[]]]]]].
Defined.

(** ** What the classifier does not see

    Facts about the code that an operator has to know. *)

(** Positionals behind the second one are not looked at, so only the first
    name of a multi-resource command is classified. *)
Lemma resolve_ignores_extra p0 p1 extra dk :
  resolve_kind_name (p0 :: p1 :: extra) dk = resolve_kind_name [p0; p1] dk.
Proof. reflexivity. Qed.

Lemma delete_extra_names_ignored :
  _classify_kubectl ["delete"; "pod"; "web-0"; "victim-1"; "victim-2"; "-n"; "prod"] "r" None =
  _classify_kubectl ["delete"; "pod"; "web-0"; "-n"; "prod"] "r" None.
Proof. reflexivity. Qed.

(** A help flag anywhere, also behind the separator as an argument of the
    inner program, makes the whole call read-only. *)
Lemma exec_trailing_help_readonly :
  _classify_kubectl ["exec"; "web-0"; "--"; "sh"; "-c"; "kill 1"; "-h"] "r" None =
  Some (readonly_target "r").
Proof. reflexivity. Qed.

(** The sentinel can be spelled as a kind. *)
Lemma sentinel_spoof :
  e_scope <$> _classify_kubectl ["delete"; "__readonly__/x"; "pod/web-0"] "r" None =
  Some SCOPE_READONLY.
Proof. reflexivity. Qed.

(** A second document whose [kind] key is quoted is invisible to the
    whitelist. *)
Definition smuggled_manifest : string :=
  "kind: ConfigMap" +:+ newline +:+ "metadata:" +:+ newline +:+ "  name: cm" +:+ newline +:+
  "---" +:+ newline +:+ dquote +:+ "kind" +:+ dquote +:+ ": DaemonSet" +:+ newline.

Lemma quoted_kind_unseen :
  _classify_kubectl_stdin_manifest smuggled_manifest ["-f"; "-"] "r" =
  named_target "configmap" "" ["cm"] "r".
Proof. reflexivity. Qed.

(** A [blade_create] call whose labels are a list makes the classifier
    raise. *)
Lemma blade_create_list_labels_raise :
  infer_effective_target "blade_create"
    (VDict [("scope", VStr "node"); ("target", VStr "cpu");
            ("labels", VList [VStr "role=db"])]) false = Raise.
Proof. reflexivity. Qed.
