(* ===== verification/TargetGuard.v ===== *)
(** * The target-drift guard (agent/target_guard/guard.py)

    [target_drift_guard] compares what a tool call would do with what the
    user approved.  [permitted] is the policy it implements, stated as a
    relation; [guard_allow_spec] is the refinement. *)

From stdpp Require Import base list strings sets.
From S2P Require Import Prelude.
From S2P Require Import PyValue.
From S2P Require Import TargetTypes.
From S2P Require Import Classifier.

Definition CLUSTER_SCOPED_KINDS : list string :=
  ["node"; "pv"; "namespace"; "clusterrole"; "clusterrolebinding"; "storageclass"].

(** [OWNER_SCOPES.get(scope, frozenset())]. *)
Definition OWNER_SCOPES (scope : string) : list string :=
  if String.eqb scope "pod"
  then ["deployment"; "daemonset"; "statefulset"; "replicaset"; "job"; "cronjob"]
  else if String.eqb scope "deployment" then ["replicaset"]
  else [].

(** ** Selectors *)

Definition nonempty {A} (l : list A) : bool := match l with [] => false | _ => true end.

Definition _check_names_subset (approved : ApprovedTarget) (effective : EffectiveTarget) : bool :=
  nonempty (a_names approved) && nonempty (e_names effective) &&
  forallb (λ n, n ∈? a_names approved) (e_names effective).

Definition _check_labels_superset (approved : ApprovedTarget) (effective : EffectiveTarget) : bool :=
  nonempty (a_labels approved) && nonempty (e_labels effective) &&
  forallb (λ kv, match dict_get kv.1 (e_labels effective) with
                 | Some v => String.eqb v kv.2
                 | None => false
                 end) (a_labels approved).

(** ** Texts for the audit log and the LLM *)

Definition _format_name_drift_reason (approved : ApprovedTarget) (effective : EffectiveTarget) : string :=
  let a_parts :=
    (if nonempty (a_names approved) then ["approved.names=" +:+ repr_str_list (a_names approved)] else []) ++
    (if nonempty (a_labels approved) then ["approved.labels=" +:+ repr_str_dict (a_labels approved)] else []) in
  let a_parts := if nonempty a_parts then a_parts else ["approved.<no-selector>"] in
  let e_parts :=
    (if nonempty (e_names effective) then ["effective.names=" +:+ repr_str_list (e_names effective)] else []) ++
    (if nonempty (e_labels effective) then ["effective.labels=" +:+ repr_str_dict (e_labels effective)] else []) in
  let e_parts := if nonempty e_parts then e_parts else ["effective.<no-selector>"] in
  "resource selection drift: " +:+ join ", " a_parts +:+ " vs " +:+ join ", " e_parts.

Definition _build_suggestion (approved : ApprovedTarget) : string :=
  let bits :=
    ["scope=" +:+ a_scope approved; "ns=" +:+ str_or (a_namespace approved) "<cluster>"] ++
    (if nonempty (a_names approved) then ["names=" +:+ repr_str_list (a_names approved)] else []) ++
    (if nonempty (a_labels approved) then ["labels=" +:+ repr_str_dict (a_labels approved)] else []) ++
    (if truthy (a_blade_target approved) then ["blade_target=" +:+ a_blade_target approved] else []) ++
    (if a_is_namespace_wide approved then ["namespace-wide=true"] else []) in
  "approved target: " +:+ join ", " bits.

(** ** The decision *)

Definition reject_drift (effective : EffectiveTarget) (reason suggestion : string) : GuardDecision :=
  mkDecision REJECT_DRIFT reason (Some effective) suggestion.

(** [(ns or "default").strip()]. *)
Definition norm_ns (ns : string) : string := strip (str_or ns "default").

(** Steps 7 and 8: the blade-target lock, then ALLOW. *)
Definition guard_lock (effective : EffectiveTarget) (approved : ApprovedTarget) : GuardDecision :=
  let a_bt := lower (a_blade_target approved) in
  let e_bt := lower (e_blade_target effective) in
  if a_lock_fault_type approved && truthy a_bt && truthy e_bt && negb (String.eqb a_bt e_bt)
  then reject_drift effective
         ("blade_target drift: approved=" +:+ a_bt +:+ " effective=" +:+ e_bt)
         ("approved fault type is " +:+ a_bt +:+ "; trigger replan to switch types")
  else mkDecision ALLOW "effective target matches approved" (Some effective) "".

(** Step 6: the resource selection; [owner] and [secondary] are the flags
    set by the scope check. *)
Definition guard_selection (effective : EffectiveTarget) (approved : ApprovedTarget)
    (is_owner_scope is_secondary_scope : bool) : GuardDecision :=
  if is_secondary_scope then guard_lock effective approved
  else if negb (a_is_namespace_wide approved) then
    if is_owner_scope then
      if nonempty (a_owner_names approved) && nonempty (e_names effective)
         && negb (forallb (λ n, n ∈? a_owner_names approved) (e_names effective))
      then reject_drift effective
             ("owner drift: effective names " +:+ repr_str_list (e_names effective) +:+
              " not in approved owners " +:+ repr_str_list (a_owner_names approved))
             (_build_suggestion approved)
      else guard_lock effective approved
    else if negb (_check_names_subset approved effective)
            && negb (_check_labels_superset approved effective)
    then reject_drift effective (_format_name_drift_reason approved effective)
           (_build_suggestion approved)
    else guard_lock effective approved
  else guard_lock effective approved.

(** Step 5: the namespace. *)
Definition guard_namespace (effective : EffectiveTarget) (approved : ApprovedTarget)
    (approved_scope effective_scope : string) (is_owner_scope is_secondary_scope : bool)
    : GuardDecision :=
  let continue := guard_selection effective approved is_owner_scope is_secondary_scope in
  let cluster := effective_scope ∈? CLUSTER_SCOPED_KINDS in
  if is_secondary_scope then
    if cluster && truthy (e_blade_target effective)
    then reject_drift effective
           ("scope drift: blade " +:+ e_blade_target effective +:+ " targets " +:+
            effective_scope +:+ " under " +:+ approved_scope +:+ " approval")
           (_build_suggestion approved)
    else if negb cluster then
      let check_ns := norm_ns (a_secondary_namespace approved) in
      let effective_ns := norm_ns (e_namespace effective) in
      if negb (String.eqb check_ns effective_ns) && negb (effective_ns ∈? TOOL_POD_NAMESPACES)
      then reject_drift effective
             ("secondary namespace drift: approved=" +:+ check_ns +:+ " effective=" +:+ effective_ns)
             (_build_suggestion approved)
      else continue
    else continue
  else if negb cluster && negb (e_is_tier1_exec effective) then
    let approved_ns := norm_ns (a_namespace approved) in
    let effective_ns := norm_ns (e_namespace effective) in
    if negb (String.eqb approved_ns effective_ns)
    then reject_drift effective
           ("namespace drift: approved=" +:+ approved_ns +:+ " effective=" +:+ effective_ns)
           (_build_suggestion approved)
    else continue
  else continue.

(** Step 4: the scope. *)
Definition guard_scope (effective : EffectiveTarget) (approved : ApprovedTarget) : GuardDecision :=
  let approved_scope := canonicalise_kind (a_scope approved) in
  let effective_scope := canonicalise_kind (e_scope effective) in
  let continue := guard_namespace effective approved approved_scope effective_scope in
  if negb (String.eqb approved_scope effective_scope) then
    if effective_scope ∈? OWNER_SCOPES approved_scope then continue true false
    else if effective_scope ∈? a_secondary_scopes approved then continue false true
    else reject_drift effective
           ("scope drift: approved=" +:+ approved_scope +:+ " effective=" +:+ effective_scope)
           (_build_suggestion approved)
  else continue false false.

Definition target_drift_guard (effective : EffectiveTarget) (approved : option ApprovedTarget)
    : GuardDecision :=
  if String.eqb (e_scope effective) SCOPE_READONLY
  then mkDecision READONLY "tool is read-only" (Some effective) ""
  else if String.eqb (e_scope effective) SCOPE_BANNED
  then mkDecision REJECT_BANNED "tool is in the banned list" (Some effective) ""
  else if String.eqb (e_scope effective) SCOPE_UNKNOWN
  then mkDecision REJECT_UNKNOWN
         ("could not classify tool_call: " +:+ e_raw_command effective) (Some effective) ""
  else match approved with
       | None => mkDecision REJECT_UNKNOWN "no approved target on record" (Some effective) ""
       | Some approved =>
           match e_confidence effective with
           | UNKNOWN =>
               mkDecision REJECT_UNKNOWN
                 ("classifier confidence=unknown for " +:+ e_raw_command effective)
                 (Some effective) ""
           | _ => guard_scope effective approved
           end
       end.

(** ** The policy *)

Section policy.
Context (a : ApprovedTarget) (e : EffectiveTarget).

Let sa := canonicalise_kind (a_scope a).
Let se := canonicalise_kind (e_scope e).

(** The call names only approved names. *)
Definition names_within : Prop :=
  a_names a ≠ [] ∧ e_names e ≠ [] ∧ ∀ n, n ∈ e_names e → n ∈ a_names a.

(** Every approved label constraint is one of the call's constraints. *)
Definition labels_within : Prop :=
  a_labels a ≠ [] ∧ e_labels e ≠ [] ∧
  ∀ k v, (k, v) ∈ a_labels a → dict_get k (e_labels e) = Some v.

Definition same_namespace : Prop :=
  se ∈ CLUSTER_SCOPED_KINDS ∨ e_is_tier1_exec e = true ∨
  norm_ns (a_namespace a) = norm_ns (e_namespace e).

(** The call acts on the approved kind of resource. *)
Definition permitted_same : Prop :=
  sa = se ∧ same_namespace ∧
  (a_is_namespace_wide a = true ∨ names_within ∨ labels_within).

(** The call acts on an owner of the approved resource. *)
Definition permitted_owner : Prop :=
  sa ≠ se ∧ se ∈ OWNER_SCOPES sa ∧ same_namespace ∧
  (a_is_namespace_wide a = true ∨ a_owner_names a = [] ∨
   ∀ n, n ∈ e_names e → n ∈ a_owner_names a).

(** The call acts on a secondary kind of resource. *)
Definition permitted_secondary : Prop :=
  sa ≠ se ∧ (se ∉ OWNER_SCOPES sa) ∧ se ∈ a_secondary_scopes a ∧
  (se ∈ CLUSTER_SCOPED_KINDS ∧ e_blade_target e = "" ∨
   (se ∉ CLUSTER_SCOPED_KINDS) ∧
   (norm_ns (a_secondary_namespace a) = norm_ns (e_namespace e) ∨
    norm_ns (e_namespace e) ∈ TOOL_POD_NAMESPACES)).

(** The fault family does not change while it is locked. *)
Definition fault_family_kept : Prop :=
  a_lock_fault_type a = true → a_blade_target a ≠ "" → e_blade_target e ≠ "" →
  lower (a_blade_target a) = lower (e_blade_target e).

Definition permitted : Prop :=
  (permitted_same ∨ permitted_owner ∨ permitted_secondary) ∧ fault_family_kept.
End policy.

(** ** Refinement: the decision implements the policy *)

Lemma nonempty_spec {A} (l : list A) : nonempty l = true ↔ l ≠ [].
Proof. by destruct l. Qed.

Lemma truthy_lower s : truthy (lower s) = truthy s.
Proof. by destruct s. Qed.

Lemma forallb_in (l l' : list string) :
  forallb (λ n, n ∈? l) l' = true ↔ ∀ n, n ∈ l' → n ∈ l.
Proof.
  rewrite forallb_forall. split; intros H n Hn.
  - by apply str_in_spec, H, list_elem_of_In.
  - by apply str_in_spec, H, list_elem_of_In.
Qed.

Lemma check_names_spec a e : _check_names_subset a e = true ↔ names_within a e.
Proof.
  unfold _check_names_subset, names_within.
  by rewrite !andb_true_iff, !nonempty_spec, forallb_in, <- (assoc and).
Qed.

Lemma check_labels_spec a e : _check_labels_superset a e = true ↔ labels_within a e.
Proof.
  unfold _check_labels_superset, labels_within.
  rewrite !andb_true_iff, !nonempty_spec, <- (assoc and), forallb_forall.
  do 2 apply and_iff_compat_l. split; intros H.
  - intros k v Hkv. specialize (H (k, v) (proj1 (list_elem_of_In _ _) Hkv)). simpl in H.
    destruct (dict_get k (e_labels e)); [|done]. by apply String.eqb_eq in H as ->.
  - intros [k v] Hkv. simpl. rewrite (H k v) by (by apply list_elem_of_In).
    apply String.eqb_refl.
Qed.

Lemma guard_lock_allow e a : d_verdict (guard_lock e a) = ALLOW ↔ fault_family_kept a e.
Proof.
  unfold guard_lock, fault_family_kept. cbv zeta. rewrite !truthy_lower.
  destruct (a_lock_fault_type a); simpl; [|done].
  destruct (truthy (a_blade_target a)) eqn:E1; simpl; bool_to_prop; [|naive_solver].
  destruct (truthy (e_blade_target e)) eqn:E2; simpl; bool_to_prop; [|naive_solver].
  destruct (String.eqb_spec (lower (a_blade_target a)) (lower (e_blade_target e)));
    simpl; naive_solver.
Qed.

(** What the selection step asks for, given the flags of the scope step. *)
Definition selection_ok (a : ApprovedTarget) (e : EffectiveTarget) (owner secondary : bool) : Prop :=
  if secondary then True
  else a_is_namespace_wide a = true ∨
       if owner then a_owner_names a = [] ∨ ∀ n, n ∈ e_names e → n ∈ a_owner_names a
       else names_within a e ∨ labels_within a e.

Lemma guard_selection_allow e a o s :
  d_verdict (guard_selection e a o s) = ALLOW ↔ selection_ok a e o s ∧ fault_family_kept a e.
Proof.
  unfold guard_selection, selection_ok. rewrite <- guard_lock_allow.
  destruct s; [naive_solver|]. destruct (a_is_namespace_wide a); cbn [negb]; [naive_solver|].
  destruct o.
  - rewrite <- forallb_in. destruct (a_owner_names a) as [|o1 os] eqn:Eo; [simpl; naive_solver|].
    destruct (e_names e) as [|n ns] eqn:En; cbn [nonempty andb]; [naive_solver|].
    destruct (forallb _ (n :: ns)); cbn [negb]; naive_solver.
  - rewrite <- check_names_spec, <- check_labels_spec.
    destruct (_check_names_subset a e), (_check_labels_superset a e); simpl; naive_solver.
Qed.

(** What the namespace step asks for. *)
Definition namespace_ok (a : ApprovedTarget) (e : EffectiveTarget) (secondary : bool) : Prop :=
  let se := canonicalise_kind (e_scope e) in
  if secondary then
    se ∈ CLUSTER_SCOPED_KINDS ∧ e_blade_target e = "" ∨
    (se ∉ CLUSTER_SCOPED_KINDS) ∧
    (norm_ns (a_secondary_namespace a) = norm_ns (e_namespace e) ∨
     norm_ns (e_namespace e) ∈ TOOL_POD_NAMESPACES)
  else same_namespace a e.

Lemma guard_namespace_allow e a o s :
  d_verdict (guard_namespace e a (canonicalise_kind (a_scope a)) (canonicalise_kind (e_scope e)) o s)
    = ALLOW ↔
  namespace_ok a e s ∧ selection_ok a e o s ∧ fault_family_kept a e.
Proof.
  unfold guard_namespace, namespace_ok, same_namespace. cbv zeta.
  rewrite <- guard_selection_allow.
  set (se := canonicalise_kind (e_scope e)). destruct s.
  - destruct (se ∈? CLUSTER_SCOPED_KINDS) eqn:Ec; cbn [negb andb]; bool_to_prop.
    + destruct (truthy (e_blade_target e)) eqn:Eb; bool_to_prop; simpl; naive_solver.
    + destruct (String.eqb_spec (norm_ns (a_secondary_namespace a)) (norm_ns (e_namespace e)));
        cbn [negb andb]; [naive_solver|].
      destruct (norm_ns (e_namespace e) ∈? TOOL_POD_NAMESPACES) eqn:Et; cbn [negb];
        bool_to_prop; simpl; naive_solver.
  - destruct (se ∈? CLUSTER_SCOPED_KINDS) eqn:Ec; cbn [negb andb]; bool_to_prop; [naive_solver|].
    destruct (e_is_tier1_exec e); cbn [negb]; [naive_solver|].
    destruct (String.eqb_spec (norm_ns (a_namespace a)) (norm_ns (e_namespace e)));
      simpl; naive_solver.
Qed.

Lemma guard_scope_allow e a : d_verdict (guard_scope e a) = ALLOW ↔ permitted a e.
Proof.
  unfold guard_scope, permitted, permitted_same, permitted_owner, permitted_secondary. cbv zeta.
  destruct (String.eqb_spec (canonicalise_kind (a_scope a)) (canonicalise_kind (e_scope e))) as [Heq|Hne]; cbn [negb].
  - rewrite guard_namespace_allow. unfold namespace_ok, selection_ok. naive_solver.
  - destruct (canonicalise_kind (e_scope e) ∈? OWNER_SCOPES _) eqn:Eo; bool_to_prop.
    + rewrite guard_namespace_allow. unfold namespace_ok, selection_ok. naive_solver.
    + destruct (canonicalise_kind (e_scope e) ∈? a_secondary_scopes a) eqn:Es; bool_to_prop.
      * rewrite guard_namespace_allow. unfold namespace_ok, selection_ok. naive_solver.
      * simpl. naive_solver.
Qed.

(** A scope that is none of the three sentinels. *)
Definition real_scope (e : EffectiveTarget) : Prop :=
  e_scope e ∉ [SCOPE_READONLY; SCOPE_BANNED; SCOPE_UNKNOWN].

Lemma guard_allow_spec e oa :
  d_verdict (target_drift_guard e oa) = ALLOW ↔
  ∃ a, oa = Some a ∧ real_scope e ∧ e_confidence e ≠ UNKNOWN ∧ permitted a e.
Proof.
  unfold target_drift_guard, real_scope.
  destruct (String.eqb_spec (e_scope e) SCOPE_READONLY) as [->|H1]; [set_solver|].
  destruct (String.eqb_spec (e_scope e) SCOPE_BANNED) as [->|H2]; [set_solver|].
  destruct (String.eqb_spec (e_scope e) SCOPE_UNKNOWN) as [->|H3]; [set_solver|].
  destruct oa as [a|]; [|simpl; naive_solver].
  assert (e_scope e ∉ [SCOPE_READONLY; SCOPE_BANNED; SCOPE_UNKNOWN]) by set_solver.
  destruct (e_confidence e) eqn:Ec; [| |simpl; naive_solver];
    rewrite guard_scope_allow; naive_solver.
Qed.

(** What each of the other verdicts means. *)
Lemma guard_reject_spec e oa :
  match d_verdict (target_drift_guard e oa) with
  | ALLOW => True
  | READONLY => e_scope e = SCOPE_READONLY
  | REJECT_BANNED => e_scope e = SCOPE_BANNED
  | REJECT_UNKNOWN =>
      e_scope e = SCOPE_UNKNOWN ∨ real_scope e ∧ (oa = None ∨ e_confidence e = UNKNOWN)
  | REJECT_DRIFT =>
      ∃ a, oa = Some a ∧ real_scope e ∧ e_confidence e ≠ UNKNOWN ∧ ¬ permitted a e
  end.
Proof.
  pose proof (guard_allow_spec e oa) as Hallow. revert Hallow.
  unfold target_drift_guard.
  destruct (String.eqb_spec (e_scope e) SCOPE_READONLY) as [Hs|H1]; [done|].
  destruct (String.eqb_spec (e_scope e) SCOPE_BANNED) as [Hs|H2]; [done|].
  destruct (String.eqb_spec (e_scope e) SCOPE_UNKNOWN) as [Hs|H3]; [simpl; by left|].
  assert (Hreal : real_scope e) by (unfold real_scope; set_solver).
  destruct oa as [a|]; [|simpl; naive_solver].
  destruct (e_confidence e) eqn:Ec; [| |simpl; naive_solver];
    (destruct (d_verdict (guard_scope e a)) eqn:Ed; intros Hallow; [done|..];
     [exfalso|exists a; naive_solver|exfalso|exfalso]);
    revert Ed; unfold guard_scope, guard_namespace, guard_selection, guard_lock, reject_drift;
    cbv zeta; split_ifs; discriminate.
Qed.

(** C3. Refinement: the guard answers ALLOW exactly when an approval is on
    record, the call was classified to a real scope with a known confidence,
    and the policy [permitted] relates the approval and the call. *)
Theorem guard_refines_policy e oa :
  d_verdict (target_drift_guard e oa) = ALLOW ↔
  ∃ a, oa = Some a ∧ real_scope e ∧ e_confidence e ≠ UNKNOWN ∧ permitted a e.
Proof. apply guard_allow_spec. Qed.

(** Default deny: a call that is neither read-only nor permitted is
    rejected; the verdict says why (banned scope, unclassified call or
    missing approval, drift from the approval), and the decision carries the
    call it is about. *)
Theorem guard_default_deny e oa :
  (is_reject (target_drift_guard e oa) = true ↔
     e_scope e ≠ SCOPE_READONLY ∧
     ¬ ∃ a, oa = Some a ∧ real_scope e ∧ e_confidence e ≠ UNKNOWN ∧ permitted a e) ∧
  match d_verdict (target_drift_guard e oa) with
  | ALLOW => True
  | READONLY => e_scope e = SCOPE_READONLY
  | REJECT_BANNED => e_scope e = SCOPE_BANNED
  | REJECT_UNKNOWN =>
      e_scope e = SCOPE_UNKNOWN ∨ real_scope e ∧ (oa = None ∨ e_confidence e = UNKNOWN)
  | REJECT_DRIFT =>
      ∃ a, oa = Some a ∧ real_scope e ∧ e_confidence e ≠ UNKNOWN ∧ ¬ permitted a e
  end.
Proof.
  split; [|apply guard_reject_spec].
  rewrite <- guard_allow_spec, is_reject_negb_allow. unfold is_allow.
  pose proof (guard_reject_spec e oa) as H.
  destruct (d_verdict (target_drift_guard e oa)) eqn:E; simpl.
  1,2: naive_solver.
  all: split; [intros _|done]; split; [|done]; intros Hs; revert E;
    unfold target_drift_guard; by rewrite Hs.
Qed.

(** ** The blast radius

    A resource of the cluster, as far as a selector can see it.  [sat r k v]
    says that the resource satisfies the selector entry [k], [v]; nothing is
    assumed about it, so set-based and inequality entries, which the
    classifier stores under their own text, are covered too. *)

Record Resource := mkResource {
  r_kind : string;
  r_namespace : string;
  r_name : string;
  r_labels : dict string;
}.

Section blast_radius.
Context (sat : Resource → string → string → Prop).

Definition matches_labels (labels : dict string) (r : Resource) : Prop :=
  ∀ k v, (k, v) ∈ labels → sat r k v.

(** The resources a call acts on: its names and its selector both
    constrain the selection. *)
Definition selected (e : EffectiveTarget) (r : Resource) : Prop :=
  r_kind r = canonicalise_kind (e_scope e) ∧
  (r_kind r ∈ CLUSTER_SCOPED_KINDS ∨ r_namespace r = norm_ns (e_namespace e)) ∧
  (e_names e ≠ [] → r_name r ∈ e_names e) ∧
  matches_labels (e_labels e) r.

(** The resources the user approved. *)
Definition approved_resource (a : ApprovedTarget) (r : Resource) : Prop :=
  r_kind r = canonicalise_kind (a_scope a) ∧
  (r_kind r ∈ CLUSTER_SCOPED_KINDS ∨ r_namespace r = norm_ns (a_namespace a)) ∧
  (a_is_namespace_wide a = true ∨ r_name r ∈ a_names a ∨
   a_labels a ≠ [] ∧ matches_labels (a_labels a) r).

Lemma permitted_same_covers a e r :
  permitted_same a e → e_is_tier1_exec e = false → selected e r → approved_resource a r.
Proof.
  intros (Hs & Hns & Hsel) Ht (Hk & Hn & Hnames & Hlabels).
  unfold approved_resource. rewrite Hs. split; [done|]. split.
  { destruct Hns as [Hc | [Ht' | Heq]]; [left; by rewrite Hk | congruence | ].
    rewrite Heq. by destruct Hn; [left|right]. }
  destruct Hsel as [Hw | [(Ha & He & Hsub) | (Ha & He & Hsub)]]; [by left|..].
  - right; left. by apply Hsub, Hnames.
  - right; right. split; [done|]. intros k v Hkv. by apply Hlabels, dict_get_In, Hsub.
Qed.

(** C5. Blast radius: a call of the approved kind that the guard allows,
    and that is not an injection through a tool pod, whose namespace is not
    checked ([e_is_tier1_exec]), selects only resources the user approved,
    however label selectors are evaluated. *)
Theorem allowed_within_blast_radius a e r :
  d_verdict (target_drift_guard e (Some a)) = ALLOW →
  canonicalise_kind (e_scope e) = canonicalise_kind (a_scope a) →
  e_is_tier1_exec e = false →
  selected e r → approved_resource a r.
Proof.
  intros (a' & [= <-] & _ & _ & [Hp _])%guard_allow_spec Hs Ht Hsel.
  apply (permitted_same_covers a e); [|done|done].
  by destruct Hp as [Hp | [(Hne & _) | (Hne & _)]]; [|congruence..].
Qed.
End blast_radius.

Definition has_label (r : Resource) (k v : string) : Prop := dict_get k (r_labels r) = Some v.

(** An approval by label and a narrower call. *)
Definition approved_by_label : ApprovedTarget :=
  mkApproved "pod" "shop" [] [("app", "cart")] false "cpu" "fullload" true [] [] "".
Definition narrower_call : EffectiveTarget :=
  mkEffective "pods" "shop" [] [("env", "prod"); ("app", "cart")] "" "" HIGH "" false.

Lemma allowed_within_blast_radius_witness :
  approved_resource has_label approved_by_label
    (mkResource "pod" "shop" "cart-1" [("app", "cart"); ("env", "prod")]).
Proof.
  apply (allowed_within_blast_radius has_label approved_by_label narrower_call).
  - vm_compute. reflexivity.
  - vm_compute. reflexivity.
  - reflexivity.
  - split; [vm_compute; reflexivity|]. split; [right; vm_compute; reflexivity|].
    split; [done|]. intros k v. simpl.
    rewrite !elem_of_cons. intros [[= -> ->] | [[= -> ->] | H]]; [reflexivity..|].
    by apply elem_of_nil in H.
Defined.

(** ** Labels are compared as dicts, not as lists *)

(** Two approvals, or two calls, that differ in the order of labels only. *)
Record approved_equiv (a1 a2 : ApprovedTarget) : Prop := {
  ae_labels : dict_equiv (a_labels a1) (a_labels a2);
  ae_wf1 : dict_wf (a_labels a1);
  ae_wf2 : dict_wf (a_labels a2);
  ae_rest : a2 = mkApproved (a_scope a1) (a_namespace a1) (a_names a1) (a_labels a2)
    (a_is_namespace_wide a1) (a_blade_target a1) (a_blade_action a1) (a_lock_fault_type a1)
    (a_owner_names a1) (a_secondary_scopes a1) (a_secondary_namespace a1);
}.

Record effective_equiv (e1 e2 : EffectiveTarget) : Prop := {
  ee_labels : dict_equiv (e_labels e1) (e_labels e2);
  ee_rest : e2 = mkEffective (e_scope e1) (e_namespace e1) (e_names e1) (e_labels e2)
    (e_blade_target e1) (e_blade_action e1) (e_confidence e1) (e_raw_command e1)
    (e_is_tier1_exec e1);
}.

Lemma dict_equiv_nil (d1 d2 : dict string) : dict_equiv d1 d2 → d1 = [] → d2 = [].
Proof.
  intros H ->. destruct d2 as [|[k v] d2]; [done|]. specialize (H k). simpl in H.
  by rewrite String.eqb_refl in H.
Qed.

Lemma labels_within_proper a1 a2 e1 e2 :
  approved_equiv a1 a2 → effective_equiv e1 e2 → labels_within a1 e1 → labels_within a2 e2.
Proof.
  intros [Ha Hw1 Hw2 _] [He _] (H1 & H2 & H3). split; [|split].
  - intros E. apply H1. eapply dict_equiv_nil; [symmetry; apply Ha | done].
  - intros E. apply H2. eapply dict_equiv_nil; [symmetry; apply He | done].
  - intros k v Hkv. rewrite <- He. apply H3, dict_get_In. rewrite Ha. by apply dict_wf_get.
Qed.

Lemma approved_equiv_sym a1 a2 : approved_equiv a1 a2 → approved_equiv a2 a1.
Proof. intros [H1 H2 H3 H4]. split; [done..|]. rewrite H4. by destruct a1. Qed.

Lemma effective_equiv_sym e1 e2 : effective_equiv e1 e2 → effective_equiv e2 e1.
Proof. intros [H1 H2]. split; [done|]. rewrite H2. by destruct e1. Qed.

#[global] Instance check_labels_proper :
  Proper (approved_equiv ==> effective_equiv ==> eq) _check_labels_superset.
Proof.
  intros a1 a2 Ha e1 e2 He. apply eq_true_iff_eq. rewrite !check_labels_spec.
  split; apply labels_within_proper;
    auto using approved_equiv_sym, effective_equiv_sym.
Qed.

(** The verdict does not depend on the order of labels. *)
#[global] Instance guard_proper :
  Proper (effective_equiv ==> approved_equiv ==> eq)
    (λ e a, d_verdict (target_drift_guard e (Some a))).
Proof.
  intros e1 e2 He a1 a2 Ha. pose proof (check_labels_proper _ _ Ha _ _ He) as Hl.
  destruct Ha as [_ _ _ Ha], He as [_ He].
  destruct a2 as [x1 x2 x3 x4 x5 x6 x7 x8 x9 x10 x11], e2 as [y1 y2 y3 y4 y5 y6 y7 y8 y9].
  simpl in Ha, He. injection Ha as -> -> -> -> -> -> -> -> -> ->.
  injection He as -> -> -> -> -> -> -> ->.
  unfold target_drift_guard, guard_scope, guard_namespace, guard_selection, guard_lock,
    _check_names_subset. cbn [e_scope e_namespace e_names e_blade_target e_confidence
    e_is_tier1_exec a_scope a_namespace a_names a_is_namespace_wide a_blade_target
    a_lock_fault_type a_owner_names a_secondary_scopes a_secondary_namespace].
  rewrite <- Hl. destruct (e_confidence e1); split_ifs; reflexivity.
Qed.
