(* ===== verification/Freeze.v ===== *)
(** * Freezing the approved target (agent/target_guard/freeze.py)

    [freeze_approved_target] builds the dict that the approval stores in the
    graph state, [approved_from_dict] reads it back.  The theorems relate the
    two, and close the loop with the classifier and the guard: the approved
    plan's own call passes, and an approval of a workload stays inside its
    namespace. *)

From stdpp Require Import base list strings sets.
From Stdlib Require Import Ascii.
From S2P Require Import Prelude.
From S2P Require Import PyValue.
From S2P Require Import Shlex.
From S2P Require Import TargetTypes.
From S2P Require Import Classifier.
From S2P Require Import ClassifierProps.
From S2P Require Import TargetGuard.

(** ** Operations *)

(** The dict literal that is stored. *)
Definition approved_to_dict (a : ApprovedTarget) : dict pyval :=
  [("scope", VStr (a_scope a));
   ("namespace", VStr (a_namespace a));
   ("names", VList (map VStr (a_names a)));
   ("labels", VDict (map (λ kv, (kv.1, VStr kv.2)) (a_labels a)));
   ("is_namespace_wide", VBool (a_is_namespace_wide a));
   ("blade_target", VStr (a_blade_target a));
   ("blade_action", VStr (a_blade_action a));
   ("lock_fault_type", VBool (a_lock_fault_type a));
   ("owner_names", VList (map VStr (a_owner_names a)));
   ("secondary_scopes", VList (map VStr (a_secondary_scopes a)));
   ("secondary_namespace", VStr (a_secondary_namespace a))].

Definition freeze_scope (target params : dict pyval) (blade_scope : pyval) : string :=
  let raw := py_or (py_or (py_or (py_get "resource_type" target) (py_get "scope" params))
                      blade_scope) (VStr "") in
  let scope := lower (strip (py_str raw)) in
  if String.eqb scope "container" then "pod" else scope.

(** The namespace after default-normalisation, before it is cleared for a
    cluster-scoped kind. *)
Definition freeze_namespace (target : dict pyval) (scope : string) : string :=
  let namespace := strip (py_str (py_or (py_get "namespace" target) (VStr ""))) in
  if negb (truthy namespace) && negb (scope ∈? CLUSTER_SCOPED_KINDS) then "default" else namespace.

Definition NODE_SECONDARY : list string := ["pod"; "deployment"; "daemonset"; "statefulset"].
Definition WORKLOAD_SCOPES : list string := ["pod"; "deployment"; "statefulset"; "daemonset"].
Definition WORKLOAD_SECONDARY : list string :=
  ["pvc"; "persistentvolumeclaim"; "pv"; "persistentvolume"; "configmap"; "secret"; "pod"; "node"].

(** [(namespace, secondary_namespace, secondary_scopes)]. *)
Definition freeze_secondary (scope namespace : string) : string * string * list string :=
  if scope ∈? CLUSTER_SCOPED_KINDS
  then ("", namespace, if String.eqb scope "node" then NODE_SECONDARY else [])
  else if scope ∈? WORKLOAD_SCOPES then (namespace, namespace, WORKLOAD_SECONDARY)
  else (namespace, "", []).

Definition freeze_names (target : dict pyval) : Exc (list string) :=
  match py_or (py_get "names" target) (VList []) with
  | VStr s => Some (csv_names s)
  | v => l ← py_iter v; Some (map py_str (List.filter py_truthy l))
  end.

Definition freeze_labels (target : dict pyval) : dict string :=
  match py_or (py_get "labels" target) (VDict []) with
  | VDict d => default [] (py_str_items (VDict d))
  | _ => []
  end.

Definition empty_list {A} (l : list A) : bool := negb (nonempty l).

(** The approval that [freeze_approved_target] describes. *)
Definition freeze_record (target params : dict pyval) (blade_scope blade_target blade_action : pyval)
    (lock_fault_type : bool) (owner_names : list string) : Exc (option ApprovedTarget) :=
  let scope := freeze_scope target params blade_scope in
  if negb (truthy scope) then Some None
  else
    let '(namespace, secondary_namespace, secondary_scopes) :=
      freeze_secondary scope (freeze_namespace target scope) in
    names ← freeze_names target;
    let labels := freeze_labels target in
    let field v k := lower (strip (py_str (py_or (py_or v (py_get k params)) (VStr "")))) in
    Some (Some (mkApproved scope namespace names labels (empty_list names && empty_list labels)
                  (field blade_target "target") (field blade_action "action") lock_fault_type
                  owner_names secondary_scopes secondary_namespace)).

(** [None] stands for [target or {}] and [params or {}] on a missing dict. *)
Definition freeze_approved_target (target params : option (dict pyval))
    (blade_scope blade_target blade_action : pyval) (lock_fault_type : bool)
    (owner_names : list string) : Exc (option (dict pyval)) :=
  r ← freeze_record (default [] target) (default [] params) blade_scope blade_target blade_action
        lock_fault_type owner_names;
  Some (option_map approved_to_dict r).

(** [tuple(str(n) for n in (v or []))]. *)
Definition str_tuple (v : pyval) : Exc (list string) :=
  l ← py_iter (py_or v (VList [])); Some (map py_str l).

Definition approved_from_dict (v : pyval) : Exc (option ApprovedTarget) :=
  match v with
  | VDict ((_ :: _) as d) =>
      let str k := py_str (py_or (py_get k d) (VStr "")) in
      let scope := strip (str "scope") in
      if negb (truthy scope) then Some None
      else
        names ← str_tuple (py_get "names" d);
        labels ← py_str_items (py_or (py_get "labels" d) (VDict []));
        owner_names ← str_tuple (py_get "owner_names" d);
        secondary_scopes ← str_tuple (py_get "secondary_scopes" d);
        Some (Some (mkApproved scope (str "namespace") names labels
                      (py_truthy (py_or (py_get "is_namespace_wide" d) (VBool false)))
                      (str "blade_target") (str "blade_action")
                      (py_truthy (default (VBool true) (dict_get "lock_fault_type" d)))
                      owner_names secondary_scopes (str "secondary_namespace")))
  | _ => Some None
  end.

(** [discover_owner_names]: one [kubectl get KIND -l SELECTOR] per owner
    kind; [run] is the command runner (exit code and standard output, or
    [None] when it raises), [kubectl] the path and global arguments. *)
Section discover.
Context (run : list string → option (Z * string)) (kubectl : list string).

(** [sorted(OWNER_SCOPES[scope])]. *)
Definition sorted_owner_kinds (scope : string) : list string :=
  if String.eqb scope "pod"
  then ["cronjob"; "daemonset"; "deployment"; "job"; "replicaset"; "statefulset"]
  else OWNER_SCOPES scope.

Definition owner_query (namespace : string) (labels : dict string) (kind : string) : list string :=
  kubectl ++ ["get"; kind; "-n"; namespace; "-l";
              join "," (map (λ kv, kv.1 +:+ "=" +:+ kv.2) labels);
              "-o"; "jsonpath={.items[*].metadata.name}"].

Definition owners_of_kind (namespace : string) (labels : dict string) (kind : string) : list string :=
  match run (owner_query namespace labels kind) with
  | Some (code, out) => if Z.eqb code 0 && truthy (strip out) then split_ws (strip out) else []
  | None => []
  end.

Definition discover_owner_names (scope namespace : string) (labels : dict string) : list string :=
  if negb (nonempty (OWNER_SCOPES scope)) || negb (nonempty labels) || negb (truthy namespace)
  then []
  else concat (map (owners_of_kind namespace labels) (sorted_owner_kinds scope)).
End discover.

(** ** Round trip *)

Lemma py_str_items_strs (d : dict string) :
  dict_wf d → py_str_items (VDict (map (λ kv, (kv.1, VStr kv.2)) d)) = Some d.
Proof.
  intros Hwf. unfold py_str_items. rewrite map_map. simpl. f_equal.
  rewrite (map_ext _ id), map_id by (by intros []).
  apply (dict_update_fresh [] d); [done | set_solver].
Qed.

Lemma str_tuple_strs l : str_tuple (VList (map VStr l)) = Some l.
Proof.
  unfold str_tuple, py_or. destruct l as [|x l]; [done|]. simpl. do 2 f_equal.
  rewrite map_map. apply map_id.
Qed.

Lemma py_or_str s : py_str (py_or (VStr s) (VStr "")) = s.
Proof. unfold py_or. simpl. destruct (truthy s) eqn:E; [done|]. by apply truthy_false in E. Qed.

(** An approval that survives storage: a stripped, non-empty scope and a
    real dict of labels. *)
Definition approved_wf (a : ApprovedTarget) : Prop :=
  a_scope a ≠ "" ∧ strip (a_scope a) = a_scope a ∧ dict_wf (a_labels a).

Lemma from_to_dict a : approved_wf a → approved_from_dict (VDict (approved_to_dict a)) = Some (Some a).
Proof.
  intros (Hs & Hstrip & Hwf). unfold approved_from_dict, approved_to_dict.
  cbn -[py_or str_tuple py_str_items py_str strip truthy py_truthy].
  rewrite !py_or_str, Hstrip, (proj2 (truthy_spec _) Hs), !str_tuple_strs. cbn [negb mbind option_bind].
  assert (Hl : py_str_items (py_or (VDict (map (λ kv, (kv.1, VStr kv.2)) (a_labels a))) (VDict []))
               = Some (a_labels a)).
  { rewrite <- (py_str_items_strs (a_labels a) Hwf). by destruct (a_labels a). }
  rewrite Hl. cbn [mbind option_bind]. destruct a as [? ? ? ? [] ? ? [] ? ? ?]; reflexivity.
Qed.

Lemma freeze_scope_normal target params bs :
  strip (freeze_scope target params bs) = freeze_scope target params bs ∧
  lower (freeze_scope target params bs) = freeze_scope target params bs ∧
  freeze_scope target params bs ≠ "container".
Proof.
  unfold freeze_scope. cbv zeta.
  destruct (String.eqb_spec (lower (strip (py_str
    (py_or (py_or (py_or (py_get "resource_type" target) (py_get "scope" params)) bs) (VStr "")))))
    "container") as [E|E]; [done|].
  by rewrite lower_strip, strip_idem, <- lower_strip, lower_idem.
Qed.

Lemma freeze_labels_wf target : dict_wf (freeze_labels target).
Proof.
  unfold freeze_labels. destruct (py_or _ _); try (apply NoDup_nil_2). simpl.
  apply dict_update_wf, NoDup_nil_2.
Qed.

Section frozen.
Context (target params : dict pyval) (bs bt ba : pyval) (lock : bool) (owners : list string)
        (a : ApprovedTarget).
Hypothesis frozen : freeze_record target params bs bt ba lock owners = Some (Some a).

(** The fields of a frozen approval. *)
Lemma frozen_fields :
  a_scope a = freeze_scope target params bs ∧ a_scope a ≠ "" ∧
  (a_namespace a, a_secondary_namespace a, a_secondary_scopes a) =
    freeze_secondary (a_scope a) (freeze_namespace target (a_scope a)) ∧
  freeze_names target = Some (a_names a) ∧ a_labels a = freeze_labels target ∧
  a_is_namespace_wide a = empty_list (a_names a) && empty_list (a_labels a) ∧
  a_blade_target a = lower (strip (py_str (py_or (py_or bt (py_get "target" params)) (VStr "")))) ∧
  a_lock_fault_type a = lock ∧ a_owner_names a = owners.
Proof using frozen.
  revert frozen. unfold freeze_record. cbv zeta.
  destruct (truthy (freeze_scope target params bs)) eqn:Es; cbn [negb]; [|done].
  apply truthy_spec in Es.
  destruct (freeze_secondary _ _) as [[ns sns] sscopes] eqn:E2.
  destruct (freeze_names target) as [names|] eqn:E3; cbn [mbind option_bind]; [|done].
  intros [= <-]. cbn. by rewrite E2.
Qed.

Lemma frozen_wf : approved_wf a.
Proof using frozen.
  destruct frozen_fields as (Hs & Hne & _ & _ & Hl & _). unfold approved_wf.
  split; [done|]. rewrite Hl. split; [|apply freeze_labels_wf].
  rewrite Hs. by apply freeze_scope_normal.
Qed.
End frozen.

(** The stored approval survives the graph state: reading the frozen
    dict back gives exactly the approval that was frozen. *)
Theorem freeze_roundtrip target params bs bt ba lock owners a :
  freeze_record target params bs bt ba lock owners = Some (Some a) →
  ∃ d, freeze_approved_target (Some target) (Some params) bs bt ba lock owners = Some (Some d) ∧
       approved_from_dict (VDict d) = Some (Some a).
Proof.
  intros H. exists (approved_to_dict a). unfold freeze_approved_target. cbn [from_option id].
  rewrite H. split; [done|]. apply from_to_dict. by eapply frozen_wf.
Qed.

Definition sample_target : dict pyval :=
  [("resource_type", VStr " Container "); ("namespace", VStr "shop");
   ("names", VStr "cart-1, cart-2"); ("labels", VDict [("app", VStr "cart"); ("tier", VInt 2)])].

Definition sample_approved : ApprovedTarget :=
  mkApproved "pod" "shop" ["cart-1"; "cart-2"] [("app", "cart"); ("tier", "2")] false
    "cpu" "fullload" true ["cart"] WORKLOAD_SECONDARY "shop".

Lemma freeze_roundtrip_witness :
  ∃ d, freeze_approved_target (Some sample_target) (Some []) VNone (VStr "CPU") (VStr "fullload")
         true ["cart"] = Some (Some d) ∧
       approved_from_dict (VDict d) = Some (Some sample_approved).
Proof. apply (freeze_roundtrip sample_target [] VNone (VStr "CPU")). vm_compute. reflexivity. Defined.

(** ** The approved plan's own call *)

Lemma py_or_str2 s : py_str (py_or (py_or (VStr s) VNone) (VStr "")) = s.
Proof.
  unfold py_or. simpl. destruct (truthy s) eqn:E; simpl; [by rewrite E|].
  by apply truthy_false in E.
Qed.

Section plan.
Context (scope blade_target blade_action namespace : string) (names : list string)
        (labels : dict string).

(** A fault plan as the approval sees it, and as the call the agent
    issues to carry it out. *)
Definition plan_target : dict pyval :=
  [("namespace", VStr namespace); ("names", VList (map VStr names));
   ("labels", VDict (map (λ kv, (kv.1, VStr kv.2)) labels))].

Definition plan_call : dict pyval :=
  [("scope", VStr scope); ("target", VStr blade_target); ("action", VStr blade_action);
   ("namespace", VStr namespace); ("names", VList (map VStr names));
   ("labels", VDict (map (λ kv, (kv.1, VStr kv.2)) labels))].

Definition plan_names : list string := map py_str (List.filter py_truthy (map VStr names)).
Definition plan_labels : dict string :=
  dict_update [] (map (λ kv, (kv.1, py_str kv.2)) (map (λ kv, (kv.1, VStr kv.2)) labels)).

Lemma freeze_plan_names : freeze_names plan_target = Some plan_names.
Proof. unfold plan_names, plan_target, plan_call. destruct names as [|n ns]; reflexivity. Qed.

Lemma call_plan_names : blade_create_names plan_call = Some plan_names.
Proof. unfold plan_names, plan_target, plan_call. destruct names as [|n ns]; reflexivity. Qed.

Lemma freeze_plan_labels : freeze_labels plan_target = plan_labels.
Proof. unfold plan_labels, plan_target, plan_call. destruct labels as [|l ls]; reflexivity. Qed.

Lemma call_plan_labels : blade_create_labels plan_call = Some plan_labels.
Proof. unfold plan_labels, plan_target, plan_call. destruct labels as [|l ls]; reflexivity. Qed.

(** The namespace of a pod-scoped plan, on both sides. *)
Definition plan_ns : string :=
  if negb (truthy (strip namespace)) then "default" else strip namespace.

(** Kinds a plan can name, with the kind the guard compares. *)
Definition plan_kind : string := if String.eqb scope "node" then "node" else "pod".

Definition plan_approved (lock : bool) (owners : list string) : ApprovedTarget :=
  let wide := empty_list plan_names && empty_list plan_labels in
  let bt := lower (strip blade_target) in
  let ba := lower (strip blade_action) in
  if String.eqb scope "node"
  then mkApproved "node" "" plan_names plan_labels wide bt ba lock owners NODE_SECONDARY
         (strip namespace)
  else mkApproved "pod" plan_ns plan_names plan_labels wide bt ba lock owners
         WORKLOAD_SECONDARY plan_ns.

Definition plan_effective (raw : string) : EffectiveTarget :=
  mkEffective plan_kind (if String.eqb scope "node" then strip namespace else plan_ns)
    plan_names plan_labels (lower blade_target) (lower blade_action)
    (match plan_names, plan_labels with [], [] => LOW | _, _ => HIGH end) raw false.

Hypothesis scope_ok : scope ∈ ["pod"; "container"; "node"].

Lemma freeze_plan lock owners :
  freeze_record plan_target [] (VStr scope) (VStr blade_target) (VStr blade_action) lock owners
  = Some (Some (plan_approved lock owners)).
Proof using scope_ok.
  unfold freeze_record. rewrite freeze_plan_names, freeze_plan_labels.
  change (py_get ?k []) with VNone. rewrite !py_or_str2.
  assert (Hf : freeze_scope plan_target [] (VStr scope) = plan_kind).
  { unfold plan_kind. rewrite !elem_of_cons, elem_of_nil in scope_ok.
    destruct scope_ok as [-> | [-> | [-> | []]]]; reflexivity. }
  rewrite Hf. unfold freeze_namespace.
  change (py_get "namespace" plan_target) with (VStr namespace). rewrite py_or_str.
  unfold plan_approved, plan_kind, plan_ns.
  destruct (String.eqb scope "node"); [by destruct (truthy (strip namespace))|].
  by destruct (truthy (strip namespace)).
Qed.

Lemma classify_plan raw :
  _classify_blade_create plan_call raw = Some (plan_effective raw).
Proof using scope_ok.
  unfold _classify_blade_create. rewrite call_plan_names, call_plan_labels.
  change (py_get "scope" plan_call) with (VStr scope).
  change (py_get "target" plan_call) with (VStr blade_target).
  change (py_get "action" plan_call) with (VStr blade_action).
  change (py_get "namespace" plan_call) with (VStr namespace).
  change (py_get ?k plan_call) with VNone. rewrite !py_or_str2, py_or_str.
  unfold plan_effective, plan_kind, plan_ns.
  rewrite !elem_of_cons, elem_of_nil in scope_ok.
  destruct scope_ok as [-> | [-> | [-> | []]]]; cbv beta zeta;
    destruct (truthy (strip namespace)), plan_names, plan_labels; reflexivity.
Qed.

Lemma plan_permitted lock owners raw :
  strip blade_target = blade_target →
  permitted (plan_approved lock owners) (plan_effective raw).
Proof using scope_ok.
  intros Hbt. split; [left|].
  - unfold permitted_same, same_namespace, names_within, labels_within.
    unfold plan_approved, plan_effective, plan_kind.
    destruct (String.eqb scope "node"); cbn -[CLUSTER_SCOPED_KINDS plan_names plan_labels];
      (split; [done|]; split; [first [left; by apply str_in_spec | by right; right]|]);
      (destruct plan_names as [|n ns]; [|by right; left];
       destruct plan_labels as [|kv l] eqn:El; [by left|]; right; right;
       split; [done|]; split; [done|]; rewrite <- El; intros k v Hkv; apply dict_wf_get; [|done];
       apply dict_update_wf, NoDup_nil_2).
  - intros _ _ _. unfold plan_approved, plan_effective. rewrite Hbt.
    destruct (String.eqb scope "node"); cbn; by rewrite lower_idem.
Qed.
End plan.

(** No false alarm: the [blade_create] call that carries out an
    approved plan, with the plan's own scope, fault, namespace, names and
    labels, is classified and allowed, whether the plan selects by name, by
    label or namespace-wide. *)
Theorem approved_plan_call_allowed scope bt ba ns names labels lock owners allowed :
  scope ∈ ["pod"; "container"; "node"] → strip bt = bt →
  ∃ a e,
    freeze_record (plan_target ns names labels) [] (VStr scope) (VStr bt) (VStr ba) lock owners
      = Some (Some a) ∧
    infer_effective_target "blade_create" (VDict (plan_call scope bt ba ns names labels)) allowed
      = Some e ∧
    d_verdict (target_drift_guard e (Some a)) = ALLOW.
Proof.
  intros Hs Hbt. eexists _, _. split; [by apply freeze_plan|]. split; [by apply classify_plan|].
  apply guard_allow_spec. eexists. split; [done|]. split; [|split].
  - unfold real_scope, plan_effective, plan_kind. cbn.
    destruct (String.eqb scope "node"); by apply str_in_false.
  - unfold plan_effective. cbn. by destruct (plan_names names), (plan_labels labels).
  - by apply plan_permitted.
Qed.

Lemma approved_plan_call_allowed_witness :
  ∃ a e,
    freeze_record (plan_target "shop" [] [("app", "cart")]) [] (VStr "container") (VStr "cpu")
      (VStr "fullload") true [] = Some (Some a) ∧
    infer_effective_target "blade_create"
      (VDict (plan_call "container" "cpu" "fullload" "shop" [] [("app", "cart")])) true = Some e ∧
    d_verdict (target_drift_guard e (Some a)) = ALLOW.
Proof. apply approved_plan_call_allowed; [by apply str_in_spec | reflexivity]. Defined.

(** ** What an approval confines *)

Lemma cluster_kinds_canonical k : k ∈ CLUSTER_SCOPED_KINDS → canonicalise_kind k ∈ CLUSTER_SCOPED_KINDS.
Proof.
  intros Hk.
  assert (Ht : forallb (λ k, canonicalise_kind k ∈? CLUSTER_SCOPED_KINDS) CLUSTER_SCOPED_KINDS = true)
    by (vm_compute; reflexivity).
  rewrite forallb_forall in Ht. by apply str_in_spec, Ht, list_elem_of_In.
Qed.

Lemma owner_scopes_namespaced s k : k ∈ OWNER_SCOPES s → k ∉ CLUSTER_SCOPED_KINDS.
Proof.
  unfold OWNER_SCOPES. intros Hk. apply str_in_false.
  assert (Ht : forallb (λ k, negb (k ∈? CLUSTER_SCOPED_KINDS))
    ["deployment"; "daemonset"; "statefulset"; "replicaset"; "job"; "cronjob"] = true)
    by (vm_compute; reflexivity).
  rewrite forallb_forall in Ht. apply negb_true_iff, Ht, list_elem_of_In.
  split_ifs_in Hk; set_solver.
Qed.

Lemma workload_secondary_cluster k :
  k ∈ WORKLOAD_SECONDARY → k ∈ CLUSTER_SCOPED_KINDS → k ∈ ["pv"; "node"].
Proof.
  intros Hk Hc. assert (Ht : forallb (λ k, negb (k ∈? CLUSTER_SCOPED_KINDS) || (k ∈? ["pv"; "node"]))
    WORKLOAD_SECONDARY = true) by (vm_compute; reflexivity).
  rewrite forallb_forall in Ht. specialize (Ht k (proj1 (list_elem_of_In _ _) Hk)).
  rewrite (proj2 (str_in_spec _ _) Hc) in Ht. by apply str_in_spec.
Qed.

Section namespaced.
Context (target params : dict pyval) (bs bt ba : pyval) (lock : bool) (owners : list string)
        (a : ApprovedTarget).
Hypothesis frozen : freeze_record target params bs bt ba lock owners = Some (Some a).
Hypothesis namespaced : canonicalise_kind (a_scope a) ∉ CLUSTER_SCOPED_KINDS.

(** The namespace of a namespaced approval is normalised, and the
    secondary kinds are anchored in the same namespace. *)
Lemma namespaced_fields :
  norm_ns (a_namespace a) = a_namespace a ∧
  (a_secondary_scopes a = [] ∨
   a_secondary_scopes a = WORKLOAD_SECONDARY ∧ a_secondary_namespace a = a_namespace a).
Proof using frozen namespaced.
  destruct (frozen_fields _ _ _ _ _ _ _ _ frozen) as (_ & _ & Hsec & _).
  assert (Hc : (a_scope a ∈? CLUSTER_SCOPED_KINDS) = false).
  { apply str_in_false. intros H. by apply namespaced, cluster_kinds_canonical. }
  unfold freeze_secondary, freeze_namespace in Hsec. rewrite Hc, andb_true_r in Hsec.
  cbv zeta in Hsec. set (ns := strip _) in Hsec.
  assert (Hn : norm_ns (if negb (truthy ns) then "default" else ns) =
               if negb (truthy ns) then "default" else ns).
  { unfold norm_ns, str_or. destruct (truthy ns) eqn:E; simpl; [|done].
    rewrite E. apply strip_idem. }
  destruct (a_scope a ∈? WORKLOAD_SCOPES); injection Hsec as -> -> ->; split; auto.
Qed.

(** Confinement: under a frozen approval of a namespaced resource,
    an allowed call (other than the namespace-exempt injection through a
    tool pod) stays in the approved namespace or in a tool-pod namespace;
    the only cluster-scoped resources it may touch are nodes and
    persistent volumes, and never with a blade experiment. *)
Theorem frozen_namespace_confinement e :
  d_verdict (target_drift_guard e (Some a)) = ALLOW → e_is_tier1_exec e = false →
  let se := canonicalise_kind (e_scope e) in
  (se ∈ ["pv"; "node"] ∧ e_blade_target e = "") ∨
  ((se ∉ CLUSTER_SCOPED_KINDS) ∧
   (norm_ns (e_namespace e) = a_namespace a ∨ norm_ns (e_namespace e) ∈ TOOL_POD_NAMESPACES)).
Proof using frozen namespaced.
  intros (a' & [= <-] & _ & _ & [Hp _])%guard_allow_spec Ht. cbv zeta.
  destruct namespaced_fields as [Hn Hsec].
  destruct Hp as [(Hs & Hns & _) | [(_ & Ho & Hns & _) | (_ & _ & Hi & Hns)]].
  - right. rewrite <- Hs. split; [done|]. left. rewrite <- Hn.
    destruct Hns as [Hc | [Ht' | Heq]]; [|congruence | done].
    destruct namespaced. by rewrite Hs.
  - right. pose proof (owner_scopes_namespaced _ _ Ho). split; [done|]. left. rewrite <- Hn.
    by destruct Hns as [Hc | [Ht' | Heq]]; [|congruence|].
  - destruct Hsec as [Hsec | [Hsec Hsn]]; rewrite Hsec in Hi; [by apply elem_of_nil in Hi|].
    destruct Hns as [[Hc Hb] | [Hc Hns]].
    + left. split; [by apply workload_secondary_cluster | done].
    + right. split; [done|]. rewrite Hsn, Hn in Hns. destruct Hns; auto.
Qed.

Lemma node_blade_drift e :
  real_scope e → e_confidence e ≠ UNKNOWN → canonicalise_kind (e_scope e) = "node" →
  e_blade_target e ≠ "" → d_verdict (target_drift_guard e (Some a)) = REJECT_DRIFT.
Proof using frozen namespaced.
  intros Hr Hc Hs Hb.
  assert (Hnode : "node" ∈ CLUSTER_SCOPED_KINDS) by (by apply str_in_spec).
  assert (Hnp : ¬ permitted a e).
  { intros [[(H & _) | [(_ & Ho & _) | (_ & _ & _ & [[_ H] | [H _]])]] _]; try done.
    - apply namespaced. by rewrite H, Hs.
    - rewrite Hs in Ho. by apply owner_scopes_namespaced in Ho.
    - by rewrite Hs in H. }
  pose proof (guard_reject_spec e (Some a)) as H.
  destruct (d_verdict (target_drift_guard e (Some a))) eqn:E; [|..]; try done.
  - apply guard_allow_spec in E as (a' & [= <-] & _ & _ & Hp). done.
  - destruct Hr. rewrite H. by left.
  - destruct Hr. rewrite H. by right; left.
  - destruct H as [H | [_ [H|H]]]; [|done..]. destruct Hr. rewrite H. right; right; by left.
Qed.
End namespaced.

Lemma frozen_namespace_confinement_witness :
  let e := named_target "configmap" "shop" ["cart-config"] "r" in
  (canonicalise_kind (e_scope e) ∈ ["pv"; "node"] ∧ e_blade_target e = "") ∨
  ((canonicalise_kind (e_scope e) ∉ CLUSTER_SCOPED_KINDS) ∧
   (norm_ns (e_namespace e) = "shop" ∨ norm_ns (e_namespace e) ∈ TOOL_POD_NAMESPACES)).
Proof.
  apply (frozen_namespace_confinement sample_target [] VNone (VStr "CPU") (VStr "fullload") true
           ["cart"] sample_approved).
  - vm_compute. reflexivity.
  - apply str_in_false. vm_compute. reflexivity.
  - vm_compute. reflexivity.
  - reflexivity.
Defined.

(** ** Escalation through a tool pod, end to end *)

(** The arguments of the [kubectl] tool for a command line of plain words. *)
Definition kubectl_call (sub : string) (words : list string) : pyval :=
  VDict [("subcommand", VStr sub); ("v_args", VStr (join " " words))].

Lemma filter_plain ws : Forall (λ w, plain w = true) ws → List.filter truthy ws = ws.
Proof.
  induction 1 as [|w ws Hw _ IH]; [done|]. simpl. unfold plain in Hw.
  apply andb_true_iff in Hw as [-> _]. by rewrite IH.
Qed.

Lemma coerce_kubectl_call sub ws :
  sub ≠ "" → Forall (λ w, plain w = true) ws → _coerce_args_list (kubectl_call sub ws) = sub :: ws.
Proof.
  intros Hs Hws. unfold _coerce_args_list, kubectl_call.
  change (dict_mem "subcommand" _) with true. cbv iota zeta.
  change (py_get "subcommand" _) with (VStr sub). rewrite py_or_str.
  change (py_get "v_args" _) with (VStr (join " " ws)).
  assert (Hv : (if py_truthy (py_or (VStr (join " " ws)) (VStr "")) then
                  shlex_or_split (py_str (py_or (VStr (join " " ws)) (VStr ""))) else []) = ws).
  { rewrite py_or_str. unfold shlex_or_split. rewrite (shlex_split_join ws Hws).
    unfold py_or. cbn [py_truthy]. destruct (truthy (join " " ws)) eqn:E; cbn [py_truthy]; [by rewrite E|].
    apply truthy_false in E. pose proof (shlex_split_join ws Hws) as H. rewrite E in H.
    by injection H. }
  rewrite Hv. cbn [List.filter]. by rewrite (proj2 (truthy_spec sub) Hs), filter_plain.
Qed.

(** C4. No escalation through a tool pod: under a frozen approval of a
    namespaced resource, a [kubectl exec] whose first word is the pod, which
    has any options before ["--"] and then
    [blade create k8s node-TARGET ...], whose words need no quoting and
    among which there is neither [-h] nor [--help], is rejected as drift, for
    any pod, namespace and parameters.  With a help flag anywhere the call is
    taken as read-only ([exec_trailing_help_readonly]). *)
Theorem tool_pod_escalation_rejected target params bs bt ba lock owners a
    (pod : string) (opts : list string) (hint tgt : string) (more : list string) (allowed : bool) :
  freeze_record target params bs bt ba lock owners = Some (Some a) →
  canonicalise_kind (a_scope a) ∉ CLUSTER_SCOPED_KINDS →
  startswith pod "-" = false → "--" ∉ opts →
  has_char "-"%char hint = false → canonicalise_kind hint = "node" → tgt ≠ "" →
  let inner := "blade" :: "create" :: "k8s" :: (hint +:+ "-" +:+ tgt) :: more in
  let words := pod :: opts ++ "--" :: inner in
  Forall (λ w, plain w = true) words → _has_help_flag words = false →
  ∃ e, infer_effective_target "kubectl" (kubectl_call "exec" words) allowed = Some e ∧
       d_verdict (target_drift_guard e (Some a)) = REJECT_DRIFT.
Proof.
  intros Hf Hns Hp Ho Hd Hk Ht inner words Hw Hh.
  assert (Hpod : pod ≠ "").
  { apply Forall_cons in Hw as [Hw _]. unfold plain in Hw. by bool_to_prop. }
  set (raw := _format_raw_command "kubectl" (kubectl_call "exec" words)).
  destruct (exec_inline_blade pod opts hint tgt more raw
    (Some [("subcommand", VStr "exec"); ("v_args", VStr (join " " words))]))
    as (e & He & Hs & Hb & Hc); [done..|by rewrite Hk|exact Hh|].
  exists e. split.
  - unfold infer_effective_target. rewrite coerce_kubectl_call by done. exact He.
  - apply (node_blade_drift target params bs bt ba lock owners a Hf Hns).
    + unfold real_scope. rewrite Hs, Hk. by apply str_in_false.
    + by rewrite Hc.
    + by rewrite Hs, Hk.
    + by rewrite Hb.
Qed.

Lemma tool_pod_escalation_rejected_witness :
  let words := "otel-1" :: ["-n"; "chaosblade"] ++ "--" ::
    "blade" :: "create" :: "k8s" :: ("node" +:+ "-" +:+ "cpu") :: ["fullload"; "--names"; "n1"] in
  ∃ e, infer_effective_target "kubectl" (kubectl_call "exec" words) true = Some e ∧
       d_verdict (target_drift_guard e (Some sample_approved)) = REJECT_DRIFT.
Proof.
  apply (tool_pod_escalation_rejected sample_target [] VNone (VStr "CPU") (VStr "fullload") true
           ["cart"] sample_approved "otel-1" ["-n"; "chaosblade"] "node" "cpu").
  - vm_compute. reflexivity.
  - apply str_in_false. vm_compute. reflexivity.
  - reflexivity.
  - apply str_in_false. reflexivity.
  - reflexivity.
  - reflexivity.
  - done.
  - repeat constructor.
  - reflexivity.
Defined.

(** The extra names of [kubectl delete pod A B] are not seen, so a call
    that deletes an unapproved pod beside an approved one is allowed. *)
Lemma extra_name_allowed :
  (e ← infer_effective_target "kubectl"
         (kubectl_call "delete" ["pod"; "cart-1"; "payment-1"; "-n"; "shop"]) true;
   Some (d_verdict (target_drift_guard e (Some sample_approved)))) = Some ALLOW.
Proof. vm_compute. reflexivity. Qed.
