(* ===== verification/PyFloat.v ===== *)
(** * Python numbers: [int(s)], [float(s)], [int(x)] and [repr(x)]

    A float is a binary64 value of the Standard Library's [SpecFloat]; a
    [VFloat] of [PyValue] carries its [repr], and [float_of_repr] recovers
    the value.  Only ASCII digits are recognised. *)

From stdpp Require Import base list strings.
From Stdlib Require Import ZArith Ascii SpecFloat.
From S2P Require Import Prelude.

Definition prec : Z := 53.
Definition emax : Z := 1024.

(** ** Digits *)

Definition is_digit (c : ascii) : bool :=
  let n := nat_of_ascii c in Nat.leb 48 n && Nat.leb n 57.

Definition digit_val (c : ascii) : Z := Z.of_nat (nat_of_ascii c - 48).

Fixpoint digits_val (acc : Z) (s : string) : Z :=
  match s with
  | EmptyString => acc
  | String c s' => digits_val (acc * 10 + digit_val c)%Z s'
  end.

(** The leading run of digits and the rest. *)
Fixpoint take_digits (s : string) : string * string :=
  match s with
  | EmptyString => (EmptyString, EmptyString)
  | String c s' =>
      if is_digit c then let '(d, r) := take_digits s' in (String c d, r) else (EmptyString, s)
  end.

Fixpoint drop_zeros (s : string) : string :=
  match s with
  | String "0" s' => drop_zeros s'
  | _ => s
  end.

(** An optional sign. *)
Definition take_sign (s : string) : bool * string :=
  match s with
  | String "-" s' => (true, s')
  | String "+" s' => (false, s')
  | _ => (false, s)
  end.

(** Underscores are dropped; each must stand between two digits. *)
Fixpoint drop_underscores (prev_digit : bool) (s : string) : option string :=
  match s with
  | EmptyString => Some EmptyString
  | String "_" s' =>
      match s' with
      | String c _ => if prev_digit && is_digit c then drop_underscores false s' else None
      | EmptyString => None
      end
  | String c s' => String c <$> drop_underscores (is_digit c) s'
  end.

(** ** [int(s)] on a stripped text; [None] is a [ValueError] *)

(** [sys.int_info.default_max_str_digits]. *)
Definition MAX_STR_DIGITS : nat := 4300.

Definition py_int_of_string (s0 : string) : option Z :=
  s ← drop_underscores false s0;
  let '(neg, s1) := take_sign s in
  let '(d, r) := take_digits s1 in
  if truthy d && negb (truthy r) && Nat.leb (String.length d) MAX_STR_DIGITS
  then Some (if neg then - digits_val 0 d else digits_val 0 d)%Z
  else None.

(** ** Decimal to binary: [(-1)^neg * m * 10^e10], rounded to nearest even *)

Definition float_of_decimal (neg : bool) (m e10 : Z) (ndigits : Z) : spec_float :=
  match m with
  | Zpos p =>
      if (400 <? ndigits + e10)%Z then S754_infinity neg
      else if (ndigits + e10 <? -400)%Z then S754_zero neg
      else if (0 <=? e10)%Z
      then binary_normalize prec emax (if neg then - (m * 10 ^ e10) else m * 10 ^ e10)%Z 0 neg
      else match (10 ^ (- e10))%Z with
           | Zpos q => SFdiv prec emax (S754_finite neg p 0) (S754_finite false q 0)
           | _ => S754_nan
           end
  | _ => S754_zero neg
  end.

(** [float(s)] on a stripped text; [None] is a [ValueError]. *)
Definition py_float_of_string (s0 : string) : option spec_float :=
  s ← drop_underscores false s0;
  let '(neg, s1) := take_sign s in
  if lower s1 ∈? ["inf"; "infinity"] then Some (S754_infinity neg)
  else if String.eqb (lower s1) "nan" then Some S754_nan
  else
    let '(ip, r1) := take_digits s1 in
    let '(fp, r2) := match r1 with String "." r => take_digits r | _ => (EmptyString, r1) end in
    if negb (truthy ip) && negb (truthy fp) then None
    else
      let mant := (ip +:+ fp) in
      let value e := float_of_decimal neg (digits_val 0 mant) (e - Z.of_nat (String.length fp))
                       (Z.of_nat (String.length (drop_zeros mant))) in
      match r2 with
      | EmptyString => Some (value 0%Z)
      | String c r3 =>
          if Ascii.eqb c "e" || Ascii.eqb c "E" then
            let '(eneg, r4) := take_sign r3 in
            let '(ed, r5) := take_digits r4 in
            if truthy ed && negb (truthy r5)
            then Some (value (if eneg then - digits_val 0 ed else digits_val 0 ed)%Z)
            else None
          else None
      end.

(** ** [int(x)] of a float: truncation; it raises on infinities and NaN *)

Inductive trunc_result := TInt (z : Z) | TOverflow | TValueError.

Definition float_trunc (x : spec_float) : trunc_result :=
  match x with
  | S754_zero _ => TInt 0
  | S754_infinity _ => TOverflow
  | S754_nan => TValueError
  | S754_finite s m e =>
      let a := (if 0 <=? e then Zpos m * 2 ^ e else Zpos m / 2 ^ (- e))%Z in
      TInt (if s then - a else a)
  end.

(** ** [repr(x)]: the shortest decimal that reads back as the same float *)

Definition repeat_zero (n : nat) : string := String.concat "" (repeat "0" n).

Fixpoint drop_trailing_zeros (s : string) : string :=
  match s with
  | EmptyString => EmptyString
  | String c s' =>
      match drop_trailing_zeros s' with
      | EmptyString => if Ascii.eqb c "0" then EmptyString else String c EmptyString
      | String _ _ as r => String c r
      end
  end.

Definition digits_of (z : Z) : string := str_of_Z z.

(** The least [j >= 1] with [num * 10^j >= den]. *)
Fixpoint scale_up (fuel : nat) (j : Z) (num den : Z) : Z :=
  match fuel with
  | O => j
  | S f => if (den <=? num * 10)%Z then j else scale_up f (j + 1)%Z (num * 10)%Z den
  end.

(** The position of the decimal point: [10^(k-1) <= num/den < 10^k]. *)
Definition decimal_point (num den : Z) : Z :=
  if (den <=? num)%Z then Z.of_nat (String.length (digits_of (num / den)))
  else (1 - scale_up 400 1 num den)%Z.

Definition div_round_even (a b : Z) : Z :=
  let q := (a / b)%Z in
  let r := (a - q * b)%Z in
  if (2 * r <? b)%Z then q
  else if (b <? 2 * r)%Z then (q + 1)%Z
  else if Z.even q then q else (q + 1)%Z.

Definition same_float (x y : spec_float) : bool :=
  match SFcompare x y with Some Eq => true | _ => false end.

(** The shortest digits, with the position of the decimal point. *)
Fixpoint shortest (fuel : nat) (n : Z) (m : positive) (e num den k : Z) : string * Z :=
  let sc := (n - k)%Z in
  let d := (if 0 <=? sc then div_round_even (num * 10 ^ sc) den
            else div_round_even num (den * 10 ^ (- sc)))%Z in
  let ds := digits_of d in
  let result := (drop_trailing_zeros ds, (k - n + Z.of_nat (String.length ds))%Z) in
  match fuel with
  | O => result
  | S f =>
      if same_float (float_of_decimal false d (k - n)%Z (Z.of_nat (String.length ds)))
                    (S754_finite false m e)
      then result
      else shortest f (n + 1)%Z m e num den k
  end.

Definition format_repr (digits : string) (decpt : Z) : string :=
  let len := Z.of_nat (String.length digits) in
  if ((decpt - 1 <? -4) || (16 <=? decpt - 1))%Z then
    let mant := match digits with
                | String c EmptyString => digits
                | String c r => String c (String "." r)
                | EmptyString => "0"
                end in
    let ex := (decpt - 1)%Z in
    let eds := digits_of (Z.abs ex) in
    mant +:+ "e" +:+ (if (ex <? 0)%Z then "-" else "+") +:+
    (if Nat.ltb (String.length eds) 2 then "0" +:+ eds else eds)
  else if (decpt <=? 0)%Z then "0." +:+ repeat_zero (Z.to_nat (- decpt)) +:+ digits
  else if (len <=? decpt)%Z then digits +:+ repeat_zero (Z.to_nat (decpt - len)) +:+ ".0"
  else String.substring 0 (Z.to_nat decpt) digits +:+ "." +:+
       String.substring (Z.to_nat decpt) (String.length digits) digits.

Definition float_repr (x : spec_float) : string :=
  match x with
  | S754_zero s => if s then "-0.0" else "0.0"
  | S754_infinity s => if s then "-inf" else "inf"
  | S754_nan => "nan"
  | S754_finite s m e =>
      let num := (if 0 <=? e then Zpos m * 2 ^ e else Zpos m)%Z in
      let den := (if 0 <=? e then 1 else 2 ^ (- e))%Z in
      let '(digits, decpt) := shortest 16 1 m e num den (decimal_point num den) in
      (if s then "-" else "") +:+ format_repr digits decpt
  end.

(** The float behind a [VFloat]. *)
Definition float_of_repr (r : string) : spec_float := default S754_nan (py_float_of_string r).
