(* ===== verification/PyOps.v ===== *)
(** * Numbers, and operations on dynamically typed values *)

From stdpp Require Import base list strings sets.
From Stdlib Require Import ZArith Ascii SpecFloat.
From S2P Require Import Prelude PyValue PyFloat.

(** * Numbers of Python values

    Comparison of integers, booleans and floats with each other (exact, as
    Python compares them), subtraction of floats, and the presentation type
    ["g"] of format strings. *)

(** A number: an integer or a float. *)
Inductive pynum := NInt (z : Z) | NFloat (x : spec_float).

Definition num_of (v : pyval) : Exc pynum :=
  match v with
  | VInt z => Some (NInt z)
  | VBool b => Some (NInt (if b then 1 else 0)%Z)
  | VFloat r => Some (NFloat (float_of_repr r))
  | _ => Raise
  end.

(** Comparison of [a * 2^e] with [b * 2^f]. *)
Definition compare_scaled (a e b f : Z) : comparison :=
  let m := Z.min e f in ((a * 2 ^ (e - m)) ?= (b * 2 ^ (f - m)))%Z.

(** Finite values as a scaled integer, infinities as a sign. *)
Definition num_parts (n : pynum) : option (Z * Z + bool) :=
  match n with
  | NInt z => Some (inl (z, 0%Z))
  | NFloat (S754_zero _) => Some (inl (0%Z, 0%Z))
  | NFloat (S754_finite s m e) => Some (inl (if s then Zneg m else Zpos m, e))
  | NFloat (S754_infinity s) => Some (inr s)
  | NFloat S754_nan => None
  end.

(** [None] when one of the two is not a number (NaN). *)
Definition num_compare (a b : pynum) : option comparison :=
  match num_parts a, num_parts b with
  | Some (inl (x, e)), Some (inl (y, f)) => Some (compare_scaled x e y f)
  | Some (inr s), Some (inr t) =>
      Some (match s, t with true, false => Lt | false, true => Gt | _, _ => Eq end)
  | Some (inr s), Some (inl _) => Some (if s then Lt else Gt)
  | Some (inl _), Some (inr t) => Some (if t then Gt else Lt)
  | _, _ => None
  end.

Definition py_cmp (test : comparison → bool) (a b : pyval) : Exc bool :=
  x ← num_of a; y ← num_of b;
  Some (match num_compare x y with Some c => test c | None => false end).

(** [a <= b], [a < b], [a >= b], [a > b] where one side is a number. *)
Definition py_le := py_cmp (λ c, match c with Gt => false | _ => true end).
Definition py_lt := py_cmp (λ c, match c with Lt => true | _ => false end).
Definition py_ge := py_cmp (λ c, match c with Lt => false | _ => true end).
Definition py_gt := py_cmp (λ c, match c with Gt => true | _ => false end).

Lemma py_cmp_int test x y : py_cmp test (VInt x) (VInt y) = Some (test (x ?= y)%Z).
Proof. unfold py_cmp; simpl. unfold compare_scaled. simpl. by rewrite !Z.mul_1_r. Qed.

Lemma py_le_int x y : py_le (VInt x) (VInt y) = Some (x <=? y)%Z.
Proof. unfold py_le, Z.leb. rewrite py_cmp_int. by destruct (x ?= y)%Z. Qed.
Lemma py_lt_int x y : py_lt (VInt x) (VInt y) = Some (x <? y)%Z.
Proof. unfold py_lt, Z.ltb. rewrite py_cmp_int. by destruct (x ?= y)%Z. Qed.
Lemma py_ge_int x y : py_ge (VInt x) (VInt y) = Some (y <=? x)%Z.
Proof.
  unfold py_ge. rewrite py_cmp_int. f_equal.
  destruct (Z.compare_spec x y); symmetry; [apply Z.leb_le | apply Z.leb_gt | apply Z.leb_le]; lia.
Qed.
Lemma py_gt_int x y : py_gt (VInt x) (VInt y) = Some (y <? x)%Z.
Proof.
  unfold py_gt. rewrite py_cmp_int. f_equal.
  destruct (Z.compare_spec x y); symmetry; [apply Z.ltb_ge | apply Z.ltb_ge | apply Z.ltb_lt]; lia.
Qed.

(** [x - y] and [x == 0] of floats. *)
Definition float_sub (x y : spec_float) : spec_float := SFsub prec emax x y.
Definition float_is_zero (x : spec_float) : bool :=
  match x with S754_zero _ => true | _ => false end.

(** ** [f"{x:g}"] and [f"{x:+g}"]: six significant digits *)

Definition format_g_digits (num den : Z) : string :=
  let k0 := decimal_point num den in
  let scaled n := (if 0 <=? n then div_round_even (num * 10 ^ n) den
                   else div_round_even num (den * 10 ^ (- n)))%Z in
  let d0 := scaled (6 - k0)%Z in
  let '(d, k) := (if 1000000 <=? d0 then (d0 / 10, k0 + 1) else (d0, k0))%Z in
  let digits := drop_trailing_zeros (digits_of d) in
  let ex := (k - 1)%Z in
  if ((ex <? -4) || (6 <=? ex))%Z then
    let mant := match digits with
                | String c (String _ _ as r) => String c (String "." r)
                | _ => digits
                end in
    let eds := digits_of (Z.abs ex) in
    mant +:+ "e" +:+ (if (ex <? 0)%Z then "-" else "+") +:+
    (if Nat.ltb (String.length eds) 2 then "0" +:+ eds else eds)
  else if (k <=? 0)%Z then "0." +:+ repeat_zero (Z.to_nat (- k)) +:+ digits
  else if (Z.of_nat (String.length digits) <=? k)%Z
  then digits +:+ repeat_zero (Z.to_nat (k - Z.of_nat (String.length digits)))
  else String.substring 0 (Z.to_nat k) digits +:+ "." +:+
       String.substring (Z.to_nat k) (String.length digits) digits.

Definition format_g (plus : bool) (x : spec_float) : string :=
  let sign (s : bool) := if s then "-" else if plus then "+" else "" in
  match x with
  | S754_zero s => sign s +:+ "0"
  | S754_infinity s => sign s +:+ "inf"
  | S754_nan => sign false +:+ "nan"
  | S754_finite s m e =>
      sign s +:+ format_g_digits (if 0 <=? e then Zpos m * 2 ^ e else Zpos m)%Z
                                 (if 0 <=? e then 1 else 2 ^ (- e))%Z
  end.

Example format_g_samples :
  map (λ t, format_g true (float_of_repr t)) ["1.0"; "0.5"; "1234567.0"; "0.00001234"; "99.99999999"; "-3.25"]
  = ["+1"; "+0.5"; "+1.23457e+06"; "+1.234e-05"; "+100"; "-3.25"].
Proof. vm_compute. reflexivity. Qed.

(** * Operations on dynamically typed values

    The accesses the program makes on values whose type it does not check:
    [v.get(k, d)], [v[k]], [v in ("a", "b")], iteration and concatenation of
    texts.  Each raises where Python raises. *)

(** [d.get(k, dflt)] on a dict. *)
Definition get_d (k : string) (dflt : pyval) (d : dict pyval) : pyval :=
  default dflt (dict_get k d).

(** A value used as a dict, a text, a list; anything else raises. *)
Definition as_dict (v : pyval) : Exc (dict pyval) :=
  match v with VDict d => Some d | _ => Raise end.
Definition as_str (v : pyval) : Exc string :=
  match v with VStr s => Some s | _ => Raise end.
Definition as_list (v : pyval) : Exc (list pyval) :=
  match v with VList l => Some l | _ => Raise end.

(** [v.get(k, dflt)] and [v.get(k)]. *)
Definition vget_d (k : string) (dflt v : pyval) : Exc pyval := d ← as_dict v; Some (get_d k dflt d).
Definition vget (k : string) (v : pyval) : Exc pyval := vget_d k VNone v.

(** [v == "lit"] and [v in ("a", "b")]. *)
Definition eqs (v : pyval) (t : string) : bool :=
  match v with VStr x => String.eqb x t | _ => false end.
Definition one_of (v : pyval) (l : list string) : bool :=
  match v with VStr x => x ∈? l | _ => false end.

(** [v == n] for an integer literal. *)
Definition eq_int (v : pyval) (n : Z) : bool :=
  match num_of v with
  | Some x => match num_compare x (NInt n) with Some Eq => true | _ => false end
  | None => false
  end.

Definition is_dict (v : pyval) : bool := match v with VDict _ => true | _ => false end.
Definition is_int (v : pyval) : bool := match v with VInt _ | VBool _ => true | _ => false end.

(** [{}] and [v or {}]. *)
Definition or_empty (v : pyval) : pyval := py_or v (VDict []).

(** [sep.join(l)]: every element must be text. *)
Definition join_vals (sep : string) (l : list pyval) : Exc string :=
  texts ← mapM as_str l; Some (join sep texts).

(** [d[k1][k2] = v]. *)
Definition set_in (k1 k2 : string) (v : pyval) (d : dict pyval) : Exc (dict pyval) :=
  inner ← dict_get k1 d;
  inner ← as_dict inner;
  Some (dict_set k1 (VDict (dict_set k2 v inner)) d).

(** Truthiness of a list. *)
Definition nonempty {A} (l : list A) : bool := match l with [] => false | _ => true end.

(** [sum(1 for x in l if test(x))]. *)
Definition count_if {A} (test : A → bool) (l : list A) : Z :=
  Z.of_nat (length (List.filter test l)).

(** ** Laws *)

Lemma eqs_true v t : eqs v t = true ↔ v = VStr t.
Proof.
  destruct v; simpl; try (split; [done | intros [=]]).
  rewrite String.eqb_eq. split; [by intros -> | by intros [= ->]].
Qed.

Lemma one_of_true v l : one_of v l = true ↔ ∃ s, v = VStr s ∧ s ∈ l.
Proof.
  destruct v; simpl; try (split; [done | intros (? & [=] & _)]).
  rewrite str_in_spec. split; [eauto | by intros (? & [= ->] & ?)].
Qed.

Lemma get_d_set k k' v dflt d :
  get_d k' dflt (dict_set k v d) = if String.eqb k' k then v else get_d k' dflt d.
Proof. unfold get_d. rewrite dict_get_set. by destruct (String.eqb k' k). Qed.

Lemma set_in_other k1 k2 v d d' k :
  set_in k1 k2 v d = Some d' → k ≠ k1 → dict_get k d' = dict_get k d.
Proof.
  unfold set_in. intros (i & _ & (j & _ & [= <-])%bind_Some)%bind_Some Hne.
  by rewrite dict_get_set_ne by done.
Qed.

Lemma set_in_get k1 k2 v d d' :
  set_in k1 k2 v d = Some d' →
  ∃ i, dict_get k1 d = Some (VDict i) ∧ dict_get k1 d' = Some (VDict (dict_set k2 v i)).
Proof.
  unfold set_in. intros (i & Hi & (j & Hj & [= <-])%bind_Some)%bind_Some.
  destruct i; try discriminate. injection Hj as <-. exists d0.
  rewrite dict_get_set, String.eqb_refl. by rewrite Hi.
Qed.

(** [t in v]: substring of a text, member of a list, key of a dict. *)
Definition py_in (t : string) (v : pyval) : Exc bool :=
  match v with
  | VStr s => Some (contains t s)
  | VList l | VTuple l => Some (existsb (λ x, eqs x t) l)
  | VDict d => Some (dict_mem t d)
  | _ => Raise
  end.

(** [v in {"a", "b"}]: a list or a dict cannot be hashed. *)
Definition in_set (v : pyval) (l : list string) : Exc bool :=
  match v with
  | VList _ | VDict _ => Raise
  | _ => Some (one_of v l)
  end.

(** ** Exceptions with a text

    Where the source uses [str(e)]: a computation returns or raises with a
    text. *)

Inductive outcome (A : Type) := Ret (a : A) | Exn (text : string).
#[global] Arguments Ret {A} _.
#[global] Arguments Exn {A} _.

#[global] Instance outcome_ret : MRet outcome := λ A a, Ret a.
#[global] Instance outcome_bind : MBind outcome := λ A B f x,
  match x with Ret a => f a | Exn t => Exn t end.

(** An exception whose text the model does not determine. *)
Definition with_text {A} (text : string) (x : Exc A) : outcome A :=
  match x with Some a => Ret a | None => Exn text end.

(** [try: x except Exception as e: h(e)]. *)
Definition try_catch {A} (x : outcome A) (h : string → outcome A) : outcome A :=
  match x with Ret a => Ret a | Exn t => h t end.

Lemma outcome_bind_ret {A B} (f : A → outcome B) x b :
  x ≫= f = Ret b ↔ ∃ a, x = Ret a ∧ f a = Ret b.
Proof.
  destruct x as [a|t]; simpl.
  - split; [eauto | by intros (? & [= ->] & ?)].
  - split; [done | by intros (? & ? & ?)].
Qed.
