(* ===== verification/Json.v ===== *)
(** * [json.loads]

    The decoder of the Python standard library, as a tokenizer and a
    push-down parser; both are structural, so decoding always terminates.
    An integer literal longer than [MAX_STR_DIGITS] raises a plain
    [ValueError], every syntax error a [JSONDecodeError].  The interpreter's
    recursion limit is not modelled. *)

From stdpp Require Import base list strings.
From Stdlib Require Import ZArith Ascii.
From S2P Require Import Prelude.
From S2P Require Import PyValue.
From S2P Require Import PyFloat.

Inductive json_result := JOk (v : pyval) | JDecodeError | JValueError.

(** ** Tokens *)

Inductive jtok :=
  | TPunct (c : ascii)
  | TStr (s : string)
  | TWord (s : string)
  | TBad.

Definition json_space (c : ascii) : bool :=
  Ascii.eqb c " " || Ascii.eqb c "009" || Ascii.eqb c "010" || Ascii.eqb c "013".

Definition json_punct (c : ascii) : bool :=
  Ascii.eqb c "[" || Ascii.eqb c "]" || Ascii.eqb c "{" || Ascii.eqb c "}" ||
  Ascii.eqb c "," || Ascii.eqb c ":".

(** UTF-8 of a code point (a lone surrogate keeps its three-byte form). *)
Definition utf8 (n : N) : string :=
  let b (k : N) := ascii_of_N k in
  if N.ltb n 128 then String (b n) ""
  else if N.ltb n 2048 then
    String (b (192 + n / 64)%N) (String (b (128 + n mod 64)%N) "")
  else if N.ltb n 65536 then
    String (b (224 + n / 4096)%N)
      (String (b (128 + (n / 64) mod 64)%N) (String (b (128 + n mod 64)%N) ""))
  else
    String (b (240 + n / 262144)%N)
      (String (b (128 + (n / 4096) mod 64)%N)
        (String (b (128 + (n / 64) mod 64)%N) (String (b (128 + n mod 64)%N) ""))).

Definition hex_val (c : ascii) : option N :=
  let n := nat_of_ascii c in
  if Nat.leb 48 n && Nat.leb n 57 then Some (N.of_nat (n - 48))
  else if Nat.leb 97 n && Nat.leb n 102 then Some (N.of_nat (n - 87))
  else if Nat.leb 65 n && Nat.leb n 70 then Some (N.of_nat (n - 55))
  else None.

(** The simple escapes. *)
Definition unescape (c : ascii) : option ascii :=
  if Ascii.eqb c "034" || Ascii.eqb c "\" || Ascii.eqb c "/" then Some c
  else if Ascii.eqb c "b" then Some "008"%char
  else if Ascii.eqb c "f" then Some "012"%char
  else if Ascii.eqb c "n" then Some "010"%char
  else if Ascii.eqb c "r" then Some "013"%char
  else if Ascii.eqb c "t" then Some "009"%char
  else None.

Definition is_high (n : N) : bool := N.leb 55296 n && N.leb n 56319.
Definition is_low (n : N) : bool := N.leb 56320 n && N.leb n 57343.

(** The pending high surrogate of a [\u] escape, as text when it stays alone. *)
Definition flush (hi : option N) : string :=
  match hi with Some h => utf8 h | None => EmptyString end.

Inductive lex_state :=
  | LIdle
  | LWord (acc : string)
  | LStr (acc : string) (hi : option N)
  | LEsc (acc : string) (hi : option N)
  | LHex (acc : string) (hi : option N) (more : nat) (val : N).

(** The state after a complete [\uXXXX] with code unit [n]. *)
Definition after_hex (acc : string) (hi : option N) (n : N) : lex_state :=
  match hi with
  | Some h =>
      if is_low n then LStr (acc +:+ utf8 (65536 + (h - 55296) * 1024 + (n - 56320))%N) None
      else if is_high n then LStr (acc +:+ utf8 h) (Some n)
      else LStr (acc +:+ utf8 h +:+ utf8 n) None
  | None => if is_high n then LStr acc (Some n) else LStr (acc +:+ utf8 n) None
  end.

Definition chr (c : ascii) : string := String c EmptyString.

Fixpoint lex (st : lex_state) (s : string) : list jtok :=
  match s with
  | EmptyString =>
      match st with
      | LIdle => []
      | LWord w => [TWord w]
      | _ => [TBad]
      end
  | String c s' =>
      let idle (_ : unit) :=
        if json_space c then lex LIdle s'
        else if json_punct c then TPunct c :: lex LIdle s'
        else if Ascii.eqb c "034" then lex (LStr "" None) s'
        else lex (LWord (chr c)) s' in
      match st with
      | LIdle => idle ()
      | LWord w =>
          if json_space c || json_punct c || Ascii.eqb c "034" then TWord w :: idle ()
          else lex (LWord (w +:+ chr c)) s'
      | LStr acc hi =>
          if Ascii.eqb c "034" then TStr (acc +:+ flush hi) :: lex LIdle s'
          else if Ascii.eqb c "\" then lex (LEsc acc hi) s'
          else if Nat.ltb (nat_of_ascii c) 32 then [TBad]
          else lex (LStr (acc +:+ flush hi +:+ chr c) None) s'
      | LEsc acc hi =>
          if Ascii.eqb c "u" then lex (LHex acc hi 3 0) s'
          else match unescape c with
               | Some d => lex (LStr (acc +:+ flush hi +:+ chr d) None) s'
               | None => [TBad]
               end
      | LHex acc hi more val =>
          match hex_val c with
          | None => [TBad]
          | Some h =>
              let val' := (val * 16 + h)%N in
              match more with
              | O => lex (after_hex acc hi val') s'
              | S n => lex (LHex acc hi n val') s'
              end
          end
      end
  end.

(** ** Numbers and literals *)

(** An optional minus sign, an integer part without leading zeros, an
    optional fraction, an optional exponent: the digits of the integer part
    and whether a fraction or an exponent follows; [None] for no match. *)
Definition json_number (w : string) : option (string * bool) :=
  let w1 := match w with String "-" r => r | _ => w end in
  let '(ip, r1) := take_digits w1 in
  if negb (truthy ip) || (startswith ip "0" && Nat.ltb 1 (String.length ip)) then None
  else
    let '(frac_ok, is_frac, r2) :=
      match r1 with
      | String "." r => let '(f, r') := take_digits r in (truthy f, true, r')
      | _ => (true, false, r1)
      end in
    let '(exp_ok, is_exp, r3) :=
      match r2 with
      | String c r =>
          if Ascii.eqb c "e" || Ascii.eqb c "E"
          then let '(e, r') := take_digits (take_sign r).2 in (truthy e, true, r')
          else (true, false, r2)
      | EmptyString => (true, false, r2)
      end in
    if frac_ok && exp_ok && negb (truthy r3) then Some (ip, is_frac || is_exp) else None.

Definition json_word (w : string) : json_result :=
  if String.eqb w "null" then JOk VNone
  else if String.eqb w "true" then JOk (VBool true)
  else if String.eqb w "false" then JOk (VBool false)
  else if String.eqb w "NaN" then JOk (VFloat "nan")
  else if String.eqb w "Infinity" then JOk (VFloat "inf")
  else if String.eqb w "-Infinity" then JOk (VFloat "-inf")
  else match json_number w with
       | None => JDecodeError
       | Some (ip, true) =>
           match py_float_of_string w with
           | Some x => JOk (VFloat (float_repr x))
           | None => JDecodeError
           end
       | Some (ip, false) =>
           if Nat.leb (String.length ip) MAX_STR_DIGITS
           then let v := digits_val 0 ip in
                JOk (VInt (if startswith w "-" then - v else v)%Z)
           else JValueError
       end.

(** ** The parser *)

Inductive frame :=
  | FArr (items : list pyval)
  | FObj (d : dict pyval) (key : string).

Inductive jmode :=
  | PValue
  | PArrFirst (** a value or a closing bracket *)
  | PObjFirst (d : dict pyval) (** a key or a closing brace *)
  | PKey (d : dict pyval)
  | PColon (d : dict pyval) (key : string)
  | PArrNext (items : list pyval)
  | PObjNext (d : dict pyval)
  | PDone (v : pyval).

(** A value is complete: back to the enclosing container. *)
Definition complete (v : pyval) (stack : list frame) : jmode * list frame :=
  match stack with
  | [] => (PDone v, [])
  | FArr items :: st => (PArrNext (items ++ [v]), st)
  | FObj d k :: st => (PObjNext (dict_set k v d), st)
  end.

Fixpoint parse (mode : jmode) (stack : list frame) (toks : list jtok) : json_result :=
  match toks with
  | [] => match mode with PDone v => JOk v | _ => JDecodeError end
  | t :: toks' =>
      let go ms := parse ms.1 ms.2 toks' in
      let value (_ : unit) :=
        match t with
        | TStr s => go (complete (VStr s) stack)
        | TWord w =>
            match json_word w with
            | JOk v => go (complete v stack)
            | e => e
            end
        | TPunct "[" => go (PArrFirst, stack)
        | TPunct "{" => go (PObjFirst [], stack)
        | _ => JDecodeError
        end in
      match mode, t with
      | PValue, _ => value ()
      | PArrFirst, TPunct "]" => go (complete (VList []) stack)
      | PArrFirst, TStr s => go (PArrNext [VStr s], stack)
      | PArrFirst, TWord w =>
          match json_word w with
          | JOk v => go (PArrNext [v], stack)
          | e => e
          end
      | PArrFirst, TPunct "[" => go (PArrFirst, FArr [] :: stack)
      | PArrFirst, TPunct "{" => go (PObjFirst [], FArr [] :: stack)
      | PObjFirst d, TPunct "}" => go (complete (VDict d) stack)
      | PObjFirst d, TStr k | PKey d, TStr k => go (PColon d k, stack)
      | PColon d k, TPunct ":" => go (PValue, FObj d k :: stack)
      | PArrNext items, TPunct "]" => go (complete (VList items) stack)
      | PArrNext items, TPunct "," => go (PValue, FArr items :: stack)
      | PObjNext d, TPunct "}" => go (complete (VDict d) stack)
      | PObjNext d, TPunct "," => go (PKey d, stack)
      | _, _ => JDecodeError
      end
  end.

Definition json_loads (s : string) : json_result := parse PValue [] (lex LIdle s).

(** ** A short text never raises [ValueError] *)

Definition short_tok (n : nat) (t : jtok) : Prop :=
  match t with TWord w => (String.length w ≤ n)%nat | _ => True end.

Lemma length_append a b : String.length (a +:+ b) = (String.length a + String.length b)%nat.
Proof. induction a; simpl; [done|]. by rewrite IHa. Qed.

Definition pending_word (st : lex_state) : nat :=
  match st with LWord w => String.length w | _ => 0 end.

(** Tokens are no longer than the text. *)
Lemma lex_short st s n :
  (pending_word st + String.length s ≤ n)%nat → Forall (short_tok n) (lex st s).
Proof.
  revert st. induction s as [|c s IH]; intros st Hn; cbn [lex].
  - destruct st; repeat constructor. simpl in *. lia.
  - assert (Hidle : Forall (short_tok n)
      (if json_space c then lex LIdle s
       else if json_punct c then TPunct c :: lex LIdle s
       else if Ascii.eqb c "034" then lex (LStr "" None) s
       else lex (LWord (chr c)) s)).
    { cbn [String.length] in Hn. split_ifs; try constructor; try done; apply IH; simpl; lia. }
    cbn [String.length] in Hn. destruct st as [|w|acc hi|acc hi|acc hi l v]; cbv zeta; [done|..].
    + case_if; [constructor; [simpl in *; lia | done]|].
      apply IH. simpl in *. rewrite length_append. simpl. lia.
    + split_ifs; try (constructor; [done|]); try (apply IH; simpl in *; lia). constructor.
    + case_if; [apply IH; simpl in *; lia|].
      destruct (unescape c); [apply IH; simpl in *; lia | repeat constructor].
    + destruct (hex_val c) as [h|]; [|repeat constructor].
      destruct l; apply IH; [|simpl in *; lia].
      unfold after_hex. destruct hi; split_ifs; simpl in *; lia.
Qed.

Lemma take_digits_length s : (String.length (take_digits s).1 ≤ String.length s)%nat.
Proof.
  induction s as [|c s IH]; simpl; [lia|]. destruct (is_digit c); simpl; [|lia].
  destruct (take_digits s); simpl in *. lia.
Qed.

Lemma json_number_length w ip b : json_number w = Some (ip, b) → (String.length ip ≤ String.length w)%nat.
Proof.
  unfold json_number.
  set (w1 := match w with String "-" r => r | _ => w end).
  assert (Hw : (String.length w1 ≤ String.length w)%nat).
  { subst w1. destruct w as [|[[] [] [] [] [] [] [] []] w]; simpl; lia. }
  pose proof (take_digits_length w1) as Hd. destruct (take_digits w1) as [d r1]. simpl in Hd.
  case_if; [done|].
  destruct (match r1 with String "." r => _ | _ => _ end) as [[f1 f2] r2].
  destruct (match r2 with String c r => _ | _ => _ end) as [[x1 x2] r3].
  case_if; [|done]. intros [= <- <-]. lia.
Qed.

Lemma json_word_short w : (String.length w ≤ MAX_STR_DIGITS)%nat → json_word w ≠ JValueError.
Proof.
  intros Hw. unfold json_word. do 6 (case_if; [done|]).
  destruct (json_number w) as [[ip []]|] eqn:E; [by destruct (py_float_of_string w) | | done].
  apply json_number_length in E.
  by rewrite (proj2 (Nat.leb_le _ _)) by lia.
Qed.

Lemma parse_short toks mode stack :
  Forall (short_tok MAX_STR_DIGITS) toks → parse mode stack toks ≠ JValueError.
Proof.
  revert mode stack. induction toks as [|t toks IH]; intros mode stack Hf; cbn [parse].
  - by destruct mode.
  - apply Forall_cons in Hf as [Ht Hf].
    assert (Hgo : ∀ ms, parse ms.1 ms.2 toks ≠ JValueError) by (intros; by apply IH).
    assert (Hw : ∀ w f, t = TWord w → (∀ v, f v ≠ JValueError) →
      match json_word w with JOk v => f v | e => e end ≠ JValueError).
    { intros w f -> Hfv. pose proof (json_word_short w Ht). by destruct (json_word w). }
    destruct mode, t as [[[] [] [] [] [] [] [] []]|s|w|]; cbv zeta; try done; try apply Hgo;
      apply (Hw w); try done; intros v; apply Hgo.
Qed.

(** Decoding a text of at most [MAX_STR_DIGITS] bytes gives a value or a
    [JSONDecodeError]. *)
Lemma json_loads_short s : (String.length s ≤ MAX_STR_DIGITS)%nat → json_loads s ≠ JValueError.
Proof. intros Hs. apply parse_short, lex_short. simpl. lia. Qed.
