(* ===== verification/BladeUid.v ===== *)
(** * Extraction of experiment identifiers (utils/blade_uid.py)

    [extract_blade_uid] walks the JSON objects in the output of a tool and
    applies the meaning of a [blade create] response to each, then falls back
    to two patterns, unless a response said that the injection failed. *)

From stdpp Require Import base list strings sets.
From Stdlib Require Import ZArith Ascii.
From S2P Require Import Prelude PyValue PyOps PyText PyRe Json.

(** ** [json.JSONDecoder().raw_decode(text, idx)] at an opening brace

    The objects of JSON are prefix-free, so the value read is the one of the
    first prefix that is a complete object. *)

Inductive raw_result := RawOk (v : pyval) (rest : string) | RawDecodeError | RawValueError.

Fixpoint raw_decode_go (read rest : string) : raw_result :=
  match rest with
  | EmptyString => RawDecodeError
  | String c rest' =>
      let read' := read +:+ String c "" in
      if Ascii.eqb c "}" then
        match json_loads read' with
        | JOk v => RawOk v rest'
        | JValueError => RawValueError
        | JDecodeError => raw_decode_go read' rest'
        end
      else raw_decode_go read' rest'
  end.

Definition raw_decode (s : string) : raw_result := raw_decode_go "" s.

(** The text from the next opening brace on. *)
Fixpoint find_brace (s : string) : option string :=
  match s with
  | EmptyString => None
  | String c s' => if Ascii.eqb c "{" then Some s else find_brace s'
  end.

(** ** The meaning of a response *)

Inductive uid_result := Uid (u : string) | NoUid | FailedResponse.

(** What one JSON value says: an identifier, nothing, or a known failure. *)
Definition read_response (v : pyval) : Exc uid_result :=
  match v with
  | VDict data =>
      let code := py_get "code" data in
      match py_get "success" data, py_get "result" data with
      | VBool true, VStr r =>
          if eq_int code 200 && truthy r then Some (Uid r) else Some NoUid
      | success, VDict result =>
          if eq_int code 54000 then
            match py_get "uid" result with
            | VStr uid =>
                if truthy uid then
                  err ← as_str (py_or (py_get "error" data) (VStr ""));
                  let err := lower err in
                  let initializing := contains "please wait" err || contains "initialized" err in
                  match success with
                  | VBool false => if initializing then Some (Uid uid) else Some FailedResponse
                  | _ => Some (Uid uid)
                  end
                else Some NoUid
            | _ => Some NoUid
            end
          else Some NoUid
      | _, _ => Some NoUid
      end
  | _ => Some NoUid
  end.

Fixpoint scan_json (fuel : nat) (s : string) (saw_failed : bool) : Exc uid_result :=
  let stop := Some (if saw_failed then FailedResponse else NoUid) in
  match fuel with
  | 0 => stop
  | S n =>
      match find_brace s with
      | None => stop
      | Some t =>
          match raw_decode t with
          | RawValueError => Raise
          | RawDecodeError =>
              match t with String _ t' => scan_json n t' saw_failed | EmptyString => stop end
          | RawOk v rest =>
              r ← read_response v;
              match r with
              | Uid u => Some (Uid u)
              | FailedResponse => scan_json n rest true
              | NoUid => scan_json n rest saw_failed
              end
          end
      end
  end.

Definition _strategy_json_aware (text : string) : Exc uid_result :=
  scan_json (S (String.length text)) text false.

(** ** The two patterns *)

Definition _UUID_RE : pattern := Eval vm_compute in
  get_pattern (compile no_flags (dquote +:+ "(?:result|uid)" +:+ dquote +:+ "\s*:\s*" +:+ dquote +:+
    "([a-f0-9]{8}-[a-f0-9]{4}-[a-f0-9]{4}-[a-f0-9]{4}-[a-f0-9]{12})" +:+ dquote))
    ltac:(vm_compute; discriminate).

Definition _CHAOSBLADE_RESOURCE_RE : pattern := Eval vm_compute in
  get_pattern (compile no_flags "\b(chaosblade-[a-f0-9]{8,})\b") ltac:(vm_compute; discriminate).

Definition _strategy_regex (text : string) : option string :=
  m ← re_search _UUID_RE text; group 1 m.

Definition _strategy_chaosblade_resource (text : string) : option string :=
  m ← re_search _CHAOSBLADE_RESOURCE_RE text; group 1 m.

Definition extract_blade_uid (text : string) : Exc (option string) :=
  if negb (truthy text) then Some None
  else
    r ← _strategy_json_aware text;
    match r with
    | FailedResponse => Some None
    | Uid u => Some (Some u)
    | NoUid =>
        match _strategy_regex text with
        | Some u => Some (Some u)
        | None => Some (_strategy_chaosblade_resource text)
        end
    end.

(** ** What an extracted identifier means *)

(** A JSON object of the text, as the walk meets it. *)
Definition has_segment (text : string) (v : pyval) : Prop :=
  ∃ a seg b, text = a +:+ seg +:+ b ∧ json_loads seg = JOk v.

Lemma raw_decode_go_ok read s v rest :
  raw_decode_go read s = RawOk v rest →
  ∃ m, s = m +:+ rest ∧ m ≠ "" ∧ json_loads (read +:+ m) = JOk v.
Proof.
  revert read. induction s as [|c s IH]; intros read; cbn [raw_decode_go]; [discriminate|].
  assert (Hrec : raw_decode_go (read +:+ String c "") s = RawOk v rest →
    ∃ m, String c s = m +:+ rest ∧ m ≠ "" ∧ json_loads (read +:+ m) = JOk v).
  { intros (m & -> & _ & Hm)%IH. exists (String c m). split; [done|]. split; [done|].
    by rewrite append_assoc in Hm. }
  destruct (Ascii.eqb c "}"); [|exact Hrec].
  destruct (json_loads (read +:+ String c "")) as [v'| |] eqn:E; try discriminate; [|exact Hrec].
  intros [= -> ->]. by exists (String c "").
Qed.

Lemma raw_decode_ok s v rest :
  raw_decode s = RawOk v rest → ∃ m, s = m +:+ rest ∧ m ≠ "" ∧ json_loads m = JOk v.
Proof. apply (raw_decode_go_ok ""). Qed.

Lemma find_brace_Some s t : find_brace s = Some t → ∃ a, s = a +:+ t.
Proof.
  induction s as [|c s IH]; cbn [find_brace]; [done|].
  destruct (Ascii.eqb c "{"); [intros [= <-]; by exists "" |].
  intros (a & ->)%IH. by exists (String c a).
Qed.

Lemma has_segment_app a s v : has_segment s v → has_segment (a +:+ s) v.
Proof.
  intros (x & seg & b & -> & H). exists (a +:+ x), seg, b. by rewrite append_assoc.
Qed.

(** The walk: an identifier comes from a segment that carries it; a failure
    from a segment that reports it, or from before. *)
Lemma scan_json_sound fuel s saw r :
  scan_json fuel s saw = Some r →
  match r with
  | Uid u => ∃ v, has_segment s v ∧ read_response v = Some (Uid u)
  | FailedResponse => saw = true ∨ ∃ v, has_segment s v ∧ read_response v = Some FailedResponse
  | NoUid => saw = false
  end.
Proof.
  revert s saw. induction fuel as [|n IH]; intros s saw; cbn [scan_json].
  { intros [= <-]. destruct saw; auto. }
  destruct (find_brace s) as [t|] eqn:Ef; [|intros [= <-]; destruct saw; auto].
  apply find_brace_Some in Ef as [a ->].
  destruct (raw_decode t) as [v rest| |] eqn:Er; [| |discriminate].
  - apply raw_decode_ok in Er as (m & -> & _ & Hm).
    assert (Hseg : has_segment (a +:+ m +:+ rest) v) by (by exists a, m, rest).
    assert (Hlift : ∀ w, has_segment rest w → has_segment (a +:+ m +:+ rest) w).
    { intros w Hw. by apply has_segment_app, has_segment_app. }
    intros (r0 & Hr0 & H)%bind_Some. destruct r0 as [u| |].
    + injection H as <-. eauto.
    + apply IH in H. destruct r; [| |naive_solver].
      * destruct H as (w & Hw & ?). eauto.
      * done.
    + apply IH in H. destruct r; [|done|].
      * destruct H as (w & Hw & ?). eauto.
      * right. eauto.
  - destruct t as [|c t']; [intros [= <-]; destruct saw; auto|].
    intros H%IH. assert (Hlift : ∀ w, has_segment t' w → has_segment (a +:+ String c t') w).
    { intros w Hw. apply has_segment_app. by apply (has_segment_app (String c "")). }
    destruct r; naive_solver.
Qed.

(** Enough fuel: the walk consumes a character per round. *)
Lemma scan_json_fuel n m s saw :
  (String.length s < n)%nat → (n ≤ m)%nat → scan_json m s saw = scan_json n s saw.
Proof.
  revert m s saw. induction n as [|n IH]; intros m s saw Hn Hm; [lia|].
  destruct m as [|m]; [lia|]. cbn [scan_json].
  destruct (find_brace s) as [t|] eqn:Ef; [|done].
  apply find_brace_Some in Ef as [a ->]. rewrite length_append in Hn.
  destruct (raw_decode t) as [v rest| |] eqn:Er; [| |done].
  - apply raw_decode_ok in Er as (mm & -> & Hne & _). rewrite length_append in Hn.
    destruct mm as [|c mm]; [done|]. simpl in Hn.
    destruct (read_response v) as [[]|]; simpl; try done; apply IH; lia.
  - destruct t as [|c t']; [done|]. simpl in Hn. apply IH; lia.
Qed.

(** A response reports a live experiment under an identifier: code 200 with
    success, or code 54000 unless it says [success: false] with an error that
    is not about initialisation. *)
Definition live_response (data : dict pyval) (u : string) : Prop :=
  (py_get "success" data = VBool true ∧ eq_int (py_get "code" data) 200 = true ∧
   py_get "result" data = VStr u) ∨
  (eq_int (py_get "code" data) 54000 = true ∧
   ∃ result err, py_get "result" data = VDict result ∧ py_get "uid" result = VStr u ∧
     py_or (py_get "error" data) (VStr "") = VStr err ∧
     (py_get "success" data ≠ VBool false ∨
      contains "please wait" (lower err) = true ∨ contains "initialized" (lower err) = true)).

Lemma read_response_uid v u :
  read_response v = Some (Uid u) → ∃ data, v = VDict data ∧ live_response data u.
Proof.
  destruct v as [| | | | | | |data]; try discriminate. intros H. exists data. split; [done|].
  unfold read_response in H. cbv zeta in H. unfold live_response.
  destruct (py_get "result" data) as [| | | |r| | |result] eqn:Er;
    try (destruct (py_get "success" data) as [|[]| | | | | |]; discriminate).
  - destruct (py_get "success" data) as [|[]| | | | | |] eqn:Es; try discriminate.
    case_if_in H; [|discriminate]. injection H as <-. bool_to_prop. left. naive_solver.
  - assert (H' : exists success, success = py_get "success" data ∧
      (if eq_int (py_get "code" data) 54000 then
            match py_get "uid" result with
            | VStr uid =>
                if truthy uid then
                  err ← as_str (py_or (py_get "error" data) (VStr ""));
                  match success with
                  | VBool false =>
                      if contains "please wait" (lower err) || contains "initialized" (lower err)
                      then Some (Uid uid) else Some FailedResponse
                  | _ => Some (Uid uid)
                  end
                else Some NoUid
            | _ => Some NoUid
            end
          else Some NoUid) = Some (Uid u)).
    { exists (py_get "success" data). split; [done|].
      destruct (py_get "success" data) as [|[]| | | | | |]; exact H. }
    clear H. destruct H' as (success & Hsucc & H). right.
    case_if_in H; [|discriminate]. split; [done|].
    destruct (py_get "uid" result) as [| | | |uid| | |] eqn:Eu; try discriminate.
    case_if_in H; [|discriminate]. apply bind_Some in H as (err & He & H).
    destruct (py_or _ _) eqn:Ee; try discriminate. injection He as ->.
    destruct success as [|[]| | | | | |]; try (injection H as <-; exists result, err;
      repeat (split; [done|]); left; congruence).
    case_if_in H; [|discriminate]. injection H as <-. exists result, err.
    repeat (split; [done|]). right. by apply orb_true_iff.
Qed.

(** The identifier that is extracted is live or unreported: it stands in
    a response of the text that says the experiment exists and has not
    terminally failed, or the walk met no failed response and the identifier
    is a match of one of the two patterns. *)
Theorem extracted_uid_live text u :
  extract_blade_uid text = Some (Some u) →
  (∃ data, has_segment text (VDict data) ∧ live_response data u) ∨
  (_strategy_json_aware text = Some NoUid ∧
   (_strategy_regex text = Some u ∨ _strategy_chaosblade_resource text = Some u)).
Proof.
  unfold extract_blade_uid. destruct (truthy text); [|done]. cbn [negb].
  intros (r & Hr & H)%bind_Some. pose proof Hr as Hs. apply scan_json_sound in Hs.
  destruct r as [u'| |]; [|right|discriminate].
  - injection H as ->. destruct Hs as (v & Hv & Hu).
    apply read_response_uid in Hu as (data & -> & Hl). left. eauto.
  - split; [exact Hr|]. destruct (_strategy_regex text); [left; congruence | right; congruence].
Qed.

Definition failed_output : string :=
  "{" +:+ dquote +:+ "code" +:+ dquote +:+ ":54000," +:+ dquote +:+ "success" +:+ dquote +:+ ":false," +:+
  dquote +:+ "error" +:+ dquote +:+ ":" +:+ dquote +:+ "dd: command not found" +:+ dquote +:+ "," +:+
  dquote +:+ "result" +:+ dquote +:+ ":{" +:+ dquote +:+ "uid" +:+ dquote +:+ ":" +:+ dquote +:+
  "chaosblade-0123456789abcdef" +:+ dquote +:+ "}}".

Definition created_output : string :=
  "defaulting container" +:+ newline +:+
  "{" +:+ dquote +:+ "code" +:+ dquote +:+ ":200," +:+ dquote +:+ "success" +:+ dquote +:+ ":true," +:+
  dquote +:+ "result" +:+ dquote +:+ ":" +:+ dquote +:+ "0a1b2c3d4e5f6071" +:+ dquote +:+ "}".

Lemma extracted_uid_live_witness :
  (∃ data, has_segment created_output (VDict data) ∧ live_response data "0a1b2c3d4e5f6071") ∨
  (_strategy_json_aware created_output = Some NoUid ∧
   (_strategy_regex created_output = Some "0a1b2c3d4e5f6071" ∨
    _strategy_chaosblade_resource created_output = Some "0a1b2c3d4e5f6071")).
Proof. apply (extracted_uid_live created_output). vm_compute. reflexivity. Defined.

(** A terminal failure is not revived by the name of its resource. *)
Example failed_output_has_no_uid : extract_blade_uid failed_output = Some None.
Proof. vm_compute. reflexivity. Qed.

Example failed_output_pattern :
  _strategy_chaosblade_resource failed_output = Some "chaosblade-0123456789abcdef".
Proof. vm_compute. reflexivity. Qed.

(** ** A divergence

    An identifier of code 54000 whose error is not a text stops the caller
    with an exception instead of giving no identifier. *)
Example error_object_raises :
  read_response (VDict [("code", VInt 54000); ("error", VDict [("reason", VStr "x")]);
                        ("result", VDict [("uid", VStr "a")])]) = Raise.
Proof. reflexivity. Qed.
