(* ===== verification/Coerce.v ===== *)
(** * Tolerant coercions of LLM-supplied values (utils/coerce.py)

    Each helper turns a value that should have some shape into one that has
    it.  [Raise] is an exception that leaves the helper: [json.JSONDecodeError]
    and [ValueError] are caught where the source catches them. *)

From stdpp Require Import base list strings sets.
From Stdlib Require Import ZArith Ascii.
From S2P Require Import Prelude.
From S2P Require Import PyValue.
From S2P Require Import PyFloat.
From S2P Require Import Json.

(** ** [coerce_to_dict] *)

(** [k, v = item.split("=", 1)]; the pair is kept when the stripped key is
    not empty. *)
Definition add_pair (out : dict pyval) (item : string) : dict pyval :=
  match cut "=" item with
  | Some (k, v) => if truthy (strip k) then dict_set (strip k) (VStr (strip v)) out else out
  | None => out
  end.

Definition selector_dict (s : string) : dict pyval :=
  fold_left (λ out piece, add_pair out (strip piece)) (split_on "," s) [].

Definition list_pairs (l : list pyval) : dict pyval :=
  fold_left (λ out item, match item with VStr s => add_pair out s | _ => out end) l [].

Fixpoint first_dict (l : list pyval) : option (dict pyval) :=
  match l with
  | [] => None
  | VDict d :: _ => Some d
  | _ :: l' => first_dict l'
  end.

(** The part of the string branch behind the JSON attempt. *)
Definition coerce_selector (s : string) : dict pyval :=
  if has_char "=" s then selector_dict s else [].

Definition coerce_to_dict (value : pyval) : Exc (dict pyval) :=
  match value with
  | VNone => Some []
  | VDict d => Some d
  | VStr v =>
      if truthy v then
        let s := strip v in
        if startswith s "{" then
          match json_loads s with
          | JOk (VDict d) => Some d
          | JOk _ | JDecodeError => Some (coerce_selector s)
          | JValueError => Raise
          end
        else Some (coerce_selector s)
      else Some []
  | VList l =>
      match first_dict l with
      | Some d => Some d
      | None => Some (list_pairs l)
      end
  | _ => Some []
  end.

(** ** [coerce_to_list] *)

Definition coerce_csv (s : string) : list pyval :=
  if has_char "," s then map VStr (csv_names s) else if truthy s then [VStr s] else [].

Definition coerce_to_list (value : pyval) : Exc (list pyval) :=
  match value with
  | VNone => Some []
  | VList l | VTuple l => Some l
  | VStr v =>
      if truthy v then
        let s := strip v in
        if startswith s "[" then
          match json_loads s with
          | JOk (VList l) => Some l
          | JOk _ | JDecodeError => Some (coerce_csv s)
          | JValueError => Raise
          end
        else Some (coerce_csv s)
      else Some []
  | _ => Some []
  end.

(** ** [coerce_to_str] and [coerce_to_int] *)

Definition coerce_to_str (value : pyval) (default : string) : string :=
  match value with
  | VNone => default
  | VStr s => s
  | VBool b => lower (py_str (VBool b))
  | VInt _ | VFloat _ => py_str value
  | _ => default
  end.

Definition coerce_to_int (value : pyval) (default : Z) : Exc Z :=
  match value with
  | VNone | VBool _ => Some default
  | VInt z => Some z
  | VFloat r =>
      match float_trunc (float_of_repr r) with
      | TInt z => Some z
      | TOverflow | TValueError => Raise
      end
  | VStr v =>
      let s := strip v in
      if truthy s then
        match py_int_of_string s with
        | Some z => Some z
        | None =>
            match py_float_of_string s with
            | None => Some default
            | Some x =>
                match float_trunc x with
                | TInt z => Some z
                | TValueError => Some default
                | TOverflow => Raise
                end
            end
        end
      else Some default
  | _ => Some default
  end.

(** ** Totality *)

(** A value whose text, if it is one, fits the interpreter's digit limit. *)
Definition short_text (v : pyval) : Prop :=
  match v with VStr s => (String.length s ≤ MAX_STR_DIGITS)%nat | _ => True end.

Lemma lstrip_length s : (String.length (lstrip s) ≤ String.length s)%nat.
Proof. induction s; simpl; [done|]. destruct (py_isspace _); simpl; lia. Qed.

Lemma rstrip_length s : (String.length (rstrip s) ≤ String.length s)%nat.
Proof.
  induction s as [|c s IH]; simpl; [done|].
  destruct (rstrip s); simpl in *; [destruct (py_isspace c); simpl; lia | lia].
Qed.

Lemma strip_length s : (String.length (strip s) ≤ String.length s)%nat.
Proof. unfold strip. etrans; [apply rstrip_length | apply lstrip_length]. Qed.

Lemma json_strip_short s :
  (String.length s ≤ MAX_STR_DIGITS)%nat → json_loads (strip s) ≠ JValueError.
Proof. intros H. apply json_loads_short. pose proof (strip_length s). lia. Qed.

Lemma coerce_to_dict_short v : short_text v → is_Some (coerce_to_dict v).
Proof.
  destruct v as [| | | |s|l| |]; simpl; try eauto; intros Hs.
  - pose proof (json_strip_short s Hs). destruct (truthy s); [|eauto].
    destruct (startswith (strip s) "{"); [|eauto].
    destruct (json_loads (strip s)) as [[]| |]; eauto; done.
  - destruct (first_dict l); eauto.
Qed.

Lemma coerce_to_list_short v : short_text v → is_Some (coerce_to_list v).
Proof.
  destruct v as [| | | |s|l| |]; simpl; try eauto; intros Hs.
  pose proof (json_strip_short s Hs). destruct (truthy s); [|eauto].
  destruct (startswith (strip s) "["); [|eauto].
  destruct (json_loads (strip s)) as [[]| |]; eauto; done.
Qed.

(** The dict and list coercions accept every value: on anything but a
    text longer than the interpreter's integer-digit limit they return. *)
Theorem coerce_containers_total v :
  short_text v → is_Some (coerce_to_dict v) ∧ is_Some (coerce_to_list v).
Proof. split; [by apply coerce_to_dict_short | by apply coerce_to_list_short]. Qed.

Lemma coerce_containers_total_witness :
  is_Some (coerce_to_dict (VStr "{broken, a=b")) ∧ is_Some (coerce_to_list (VStr "{broken, a=b")).
Proof. apply coerce_containers_total. apply Nat.leb_le. vm_compute. reflexivity. Defined.

(** ** Label selectors

    [k1=v1,k2=v2] is the syntax of selectors on the command line. *)

Definition render_selector (labels : dict string) : string :=
  join "," (map (λ kv, kv.1 +:+ "=" +:+ kv.2) labels).

(** A label whose text survives the selector syntax. *)
Definition plain_label (kv : string * string) : Prop :=
  kv.1 ≠ "" ∧ strip kv.1 = kv.1 ∧ has_char "=" kv.1 = false ∧ has_char "," kv.1 = false ∧
  strip kv.2 = kv.2 ∧ has_char "," kv.2 = false ∧ strip (kv.1 +:+ "=" +:+ kv.2) = kv.1 +:+ "=" +:+ kv.2.

Lemma split_on_cons sep x s :
  has_char sep x = false → split_on sep (x +:+ String sep s) = x :: split_on sep s.
Proof.
  induction x as [|c x IH]; simpl; [by rewrite Ascii.eqb_refl|].
  intros [Hc Hx]%orb_false_iff. by rewrite Hc, IH.
Qed.

Lemma split_join sep (l : list string) :
  l ≠ [] → Forall (λ x, has_char sep x = false) l → split_on sep (join (String sep "") l) = l.
Proof.
  intros Hne Hf. induction l as [|x l IH]; [done|]. apply Forall_cons in Hf as [Hx Hf].
  destruct l as [|y l]; [by apply split_on_single|].
  change (join (String sep "") (x :: y :: l)) with
    (x +:+ String sep (join (String sep "") (y :: l))).
  by rewrite split_on_cons, IH by done.
Qed.

Lemma label_no_comma kv : plain_label kv → has_char "," (kv.1 +:+ "=" +:+ kv.2) = false.
Proof.
  intros (_ & _ & _ & Hk & _ & Hv & _). rewrite !has_char_app, Hk, Hv. done.
Qed.

(** Folding the rendered pieces rebuilds the dict, for any way of storing a
    pair that splits at the first equals sign. *)
Lemma fold_pieces {V} (step : dict V → string → dict V) (f : string → V) labels d :
  (∀ d kv, plain_label kv → step d (kv.1 +:+ "=" +:+ kv.2) = dict_set kv.1 (f kv.2) d) →
  Forall plain_label labels →
  fold_left step (map (λ kv, kv.1 +:+ "=" +:+ kv.2) labels) d =
  dict_update d (map (λ kv, (kv.1, f kv.2)) labels).
Proof.
  intros Hstep Hf. unfold dict_update. revert d.
  induction labels as [|kv labels IH]; intros d; [done|].
  apply Forall_cons in Hf as [Hkv Hf]. cbn [map fold_left]. rewrite Hstep by done. by apply IH.
Qed.

Lemma dict_keys_map {V W} (f : V → W) (d : dict V) :
  dict_keys (map (λ kv, (kv.1, f kv.2)) d) = dict_keys d.
Proof. unfold dict_keys. rewrite map_map. by apply map_ext. Qed.

Lemma dict_update_nil {V} (d : dict V) : dict_wf d → dict_update [] d = d.
Proof. intros H. apply (dict_update_fresh [] d H). set_solver. Qed.

Lemma add_pair_plain d kv :
  plain_label kv → add_pair d (strip (kv.1 +:+ "=" +:+ kv.2)) = dict_set kv.1 (VStr kv.2) d.
Proof.
  intros (Hne & Hk & He & _ & Hv & _ & Hs). rewrite Hs. unfold add_pair.
  change ("=" +:+ kv.2) with (String "=" kv.2). rewrite (cut_first "=" kv.1 kv.2 He), Hk, Hv.
  by rewrite (proj2 (truthy_spec _) Hne).
Qed.

Lemma selector_dict_render labels :
  labels ≠ [] → dict_wf labels → Forall plain_label labels →
  selector_dict (render_selector labels) = map (λ kv, (kv.1, VStr kv.2)) labels.
Proof.
  intros Hne Hwf Hf. unfold selector_dict, render_selector.
  rewrite (split_join ","); [| by destruct labels |].
  - rewrite (fold_pieces _ VStr) by (done || apply add_pair_plain).
    apply dict_update_nil. unfold dict_wf. by rewrite dict_keys_map.
  - apply Forall_map. eapply Forall_impl; [apply Hf|]. intros kv. apply label_no_comma.
Qed.

(** Round trip: labels written in selector syntax are read back as the
    same dict. *)
Theorem coerce_selector_roundtrip labels :
  labels ≠ [] → dict_wf labels → Forall plain_label labels →
  strip (render_selector labels) = render_selector labels →
  startswith (render_selector labels) "{" = false →
  coerce_to_dict (VStr (render_selector labels)) = Some (map (λ kv, (kv.1, VStr kv.2)) labels).
Proof.
  intros Hne Hwf Hf Hs Hb. unfold coerce_to_dict. cbv zeta. rewrite Hs, Hb.
  assert (Heq : has_char "=" (render_selector labels) = true).
  { destruct labels as [|kv labels]; [done|]. unfold render_selector. cbn [map].
    destruct labels; cbn [map join]; rewrite !has_char_app; simpl; by rewrite orb_true_r. }
  unfold coerce_selector. rewrite Heq, selector_dict_render by done.
  by destruct (truthy (render_selector labels)) eqn:Et;
    [| apply truthy_false in Et; rewrite Et in Heq].
Qed.

Lemma coerce_selector_roundtrip_witness :
  coerce_to_dict (VStr "app=cart,tier=a=b") =
  Some [("app", VStr "cart"); ("tier", VStr "a=b")].
Proof.
  apply (coerce_selector_roundtrip [("app", "cart"); ("tier", "a=b")]).
  - done.
  - by apply (bool_decide_unpack _), I.
  - repeat constructor; done.
  - reflexivity.
  - reflexivity.
Defined.

(** [coerce_to_int] lets an [OverflowError] escape on the texts of an
    infinity, and a huge integer literal in a JSON text escapes
    [coerce_to_dict] as a [ValueError]. *)
Lemma coerce_to_int_inf_raises : coerce_to_int (VStr " inf ") 0 = Raise.
Proof. vm_compute. reflexivity. Qed.

Lemma coerce_to_dict_huge_int_raises :
  coerce_to_dict (VStr ("{" +:+ dquote +:+ "n" +:+ dquote +:+ ":" +:+
    String.concat "" (repeat "1" 4301) +:+ "}")) = Raise.
Proof. vm_compute. reflexivity. Qed.
