(* ===== verification/FaultSpec.v ===== *)
(** * The fault specification (agent/fault_spec.py)

    [FaultSpec] is the single record of what fault to inject where.  Its
    declared field types are not enforced at run time, so the container
    fields hold arbitrary values here; [spec_wf] is the type invariant the
    constructors establish. *)

From stdpp Require Import base list strings sets.
From Stdlib Require Import ZArith Ascii.
From S2P Require Import Prelude.
From S2P Require Import PyValue.
From S2P Require Import PyFloat.
From S2P Require Import Json.
From S2P Require Import Coerce.

Definition SOURCE_CLI_STRUCTURED : string := "cli_structured".
Definition SOURCE_CLI_NL : string := "cli_nl".
Definition SOURCE_HTTP_STRUCTURED : string := "http_structured".
Definition SOURCE_HTTP_NL : string := "http_nl".
Definition SOURCE_TUI : string := "tui".

Definition _CLUSTER_SCOPED : list string :=
  ["node"; "pv"; "namespace"; "clusterrole"; "clusterrolebinding"; "storageclass"].

Record FaultSpec := mkSpec {
  s_namespace : string;
  s_scope : string;
  s_names : list pyval;
  s_labels : dict pyval;
  s_blade_target : string;
  s_blade_action : string;
  s_params : dict pyval;
  s_params_flags : list pyval;
  s_duration_seconds : Z;
  s_source : string;
  s_user_description : string;
}.

(** ** Derived properties *)

Definition fault_type (s : FaultSpec) : string :=
  join "-" (List.filter truthy [s_scope s; s_blade_target s; s_blade_action s]).

Definition is_nil {A} (l : list A) : bool := match l with [] => true | _ => false end.

Definition is_namespace_wide (s : FaultSpec) : bool := is_nil (s_names s) && is_nil (s_labels s).

Definition is_complete (s : FaultSpec) : bool :=
  if negb (truthy (s_scope s) && truthy (s_blade_target s) && truthy (s_blade_action s))
  then false
  else if negb (s_scope s ∈? _CLUSTER_SCOPED) && negb (truthy (s_namespace s)) then false
  else true.

(** ** Normalisation *)

Definition _normalise_names (raw : pyval) : Exc (list pyval) :=
  items ← coerce_to_list raw;
  Some (map VStr (List.filter truthy (map (λ n, strip (py_str n)) items))).

Definition _normalise_labels (raw : pyval) : Exc (dict pyval) :=
  parsed ← coerce_to_dict raw;
  Some (dict_update [] (map (λ kv, (kv.1, VStr (py_str kv.2))) parsed)).

Definition param_str (v : pyval) : pyval :=
  match v with VNone => VStr "" | _ => VStr (py_str v) end.

Definition _normalise_params (raw : pyval) : Exc (dict pyval) :=
  parsed ← coerce_to_dict raw;
  Some (dict_update [] (map (λ kv, (kv.1, param_str kv.2)) parsed)).

(** [tuple(v or ())]. *)
Definition py_tuple (v : pyval) : Exc (list pyval) := py_iter (py_or v (VTuple [])).

(** ** Constructors *)

Definition placeholder_nl (user_description : pyval) (source : string) : FaultSpec :=
  mkSpec "" "" [] [] "" "" [] [] 0 source (coerce_to_str user_description "").

Definition from_cli_structured (kwargs : dict pyval) : Exc FaultSpec :=
  let names := csv_names (py_str (py_or (py_get "target_name" kwargs) (VStr ""))) in
  labels ← _normalise_labels (py_get "labels" kwargs);
  params ← _normalise_params (py_get "params" kwargs);
  flags ← py_tuple (py_get "params_flags" kwargs);
  duration ← coerce_to_int (py_get "duration" kwargs) 0;
  Some (mkSpec (coerce_to_str (py_get "namespace" kwargs) "")
          (coerce_to_str (py_get "scope" kwargs) "") (map VStr names) labels
          (coerce_to_str (py_get "target" kwargs) "") (coerce_to_str (py_get "action" kwargs) "")
          params flags duration SOURCE_CLI_STRUCTURED
          (coerce_to_str (py_get "input" kwargs) "")).

Definition from_cli_nl (input_text : pyval) (kwargs : dict pyval) : Exc FaultSpec :=
  params ← _normalise_params (py_get "params" kwargs);
  flags ← py_tuple (py_get "params_flags" kwargs);
  duration ← coerce_to_int (py_get "duration" kwargs) 0;
  Some (mkSpec "" "" [] [] "" "" params flags duration SOURCE_CLI_NL (coerce_to_str input_text "")).

(** [getattr(request, k, "")]. *)
Definition attr (k : string) (request : dict pyval) : pyval :=
  match dict_get k request with Some v => v | None => VStr "" end.

(** The five-field test of a structured request. *)
Definition http_is_structured (request : dict pyval) : bool :=
  py_truthy (attr "scope" request) && py_truthy (attr "target" request) &&
  py_truthy (attr "action" request) &&
  (py_truthy (attr "target_name" request) || py_truthy (py_get "labels" request)) &&
  py_truthy (attr "namespace" request).

Definition from_http_request (request : dict pyval) : Exc FaultSpec :=
  names ← (if py_truthy (attr "target_name" request) then
             match attr "target_name" request with
             | VStr s => Some (csv_names s)
             | _ => Raise
             end
           else Some []);
  labels ← _normalise_labels (py_or (py_get "labels" request) (VDict []));
  params ← _normalise_params (py_get "params" request);
  flags ← py_tuple (py_get "params_flags" request);
  duration ← coerce_to_int (match dict_get "duration" request with Some v => v | None => VInt 0 end) 0;
  Some (mkSpec (coerce_to_str (attr "namespace" request) "")
          (coerce_to_str (py_or (attr "scope" request) (VStr "")) "") (map VStr names) labels
          (coerce_to_str (attr "target" request) "") (coerce_to_str (attr "action" request) "")
          params flags duration
          (if http_is_structured request then SOURCE_HTTP_STRUCTURED else SOURCE_HTTP_NL)
          (coerce_to_str (attr "input" request) "")).

Definition from_intent_args (args : dict pyval) (existing : option FaultSpec)
    (source : option string) : Exc FaultSpec :=
  params ← _normalise_params (py_get "params" args);
  duration ← (match dict_get "timeout" params with
              | Some t => coerce_to_int t 0
              | None => Some 0%Z
              end);
  names ← _normalise_names (py_get "names" args);
  labels ← _normalise_labels (py_get "labels" args);
  let user_desc0 := coerce_to_str (py_get "user_description" args) "" in
  let user_desc :=
    match existing with
    | Some e => if truthy user_desc0 then user_desc0 else s_user_description e
    | None => user_desc0
    end in
  let src :=
    match source, existing with
    | Some s, _ => s
    | None, Some e => s_source e
    | None, None => SOURCE_TUI
    end in
  Some (mkSpec (coerce_to_str (py_get "namespace" args) "") (coerce_to_str (py_get "scope" args) "")
          names labels (coerce_to_str (py_get "target" args) "")
          (coerce_to_str (py_get "action" args) "") params [] duration src user_desc).

Definition with_duration (s : FaultSpec) (d : Z) : FaultSpec :=
  mkSpec (s_namespace s) (s_scope s) (s_names s) (s_labels s) (s_blade_target s) (s_blade_action s)
    (s_params s) (s_params_flags s) d (s_source s) (s_user_description s).

Definition from_direct_setup (base : FaultSpec) (skill_meta : dict pyval) : Exc FaultSpec :=
  if Z.eqb (s_duration_seconds base) 0 && py_truthy (py_get "default_duration" skill_meta)
  then d ← coerce_to_int (py_get "default_duration" skill_meta) 0; Some (with_duration base d)
  else Some base.

(** ** Serialisation *)

Definition to_intent_dict (s : FaultSpec) : dict pyval :=
  [("fault_type", VStr (fault_type s)); ("scope", VStr (s_scope s));
   ("target", VStr (s_blade_target s)); ("action", VStr (s_blade_action s));
   ("namespace", VStr (s_namespace s)); ("names", VList (s_names s));
   ("labels", VDict (s_labels s)); ("params", VDict (s_params s));
   ("user_description", VStr (s_user_description s))].

Definition to_dict (s : FaultSpec) : dict pyval :=
  [("namespace", VStr (s_namespace s)); ("scope", VStr (s_scope s));
   ("names", VList (s_names s)); ("labels", VDict (s_labels s));
   ("blade_target", VStr (s_blade_target s)); ("blade_action", VStr (s_blade_action s));
   ("params", VDict (s_params s)); ("params_flags", VList (s_params_flags s));
   ("duration_seconds", VInt (s_duration_seconds s)); ("source", VStr (s_source s));
   ("user_description", VStr (s_user_description s))].

(** The body of the [try]; [from_dict] turns an exception into [None]. *)
Definition from_dict_body (d : dict pyval) : Exc FaultSpec :=
  names ← _normalise_names (py_get "names" d);
  labels ← _normalise_labels (py_get "labels" d);
  params ← _normalise_params (py_get "params" d);
  flags ← coerce_to_list (py_get "params_flags" d);
  duration ← coerce_to_int (py_get "duration_seconds" d) 0;
  Some (mkSpec (coerce_to_str (py_get "namespace" d) "") (coerce_to_str (py_get "scope" d) "")
          names labels (coerce_to_str (py_get "blade_target" d) "")
          (coerce_to_str (py_get "blade_action" d) "") params flags duration
          (coerce_to_str (py_get "source" d) "") (coerce_to_str (py_get "user_description" d) "")).

Definition from_dict (v : pyval) : option FaultSpec :=
  match v with
  | VDict ((_ :: _) as d) => from_dict_body d
  | _ => None
  end.

(** ** Reading the specification from the state *)

(** [dict(v or {})] for a mapping; the state holds no iterables of pairs. *)
Definition py_dict (v : pyval) : Exc (dict pyval) :=
  match py_or v (VDict []) with
  | VDict d => Some d
  | _ => Raise
  end.

(** [int(v or 0)]. *)
Definition py_int (v : pyval) : Exc Z :=
  match py_or v (VInt 0) with
  | VInt z => Some z
  | VBool b => Some (if b then 1 else 0)%Z
  | VFloat r => match float_trunc (float_of_repr r) with TInt z => Some z | _ => Raise end
  | VStr s => py_int_of_string (strip s)
  | _ => Raise
  end.

(** The projection of the scattered fields of older states. *)
Definition legacy_fault_spec (state : dict pyval) : Exc (option FaultSpec) :=
  let legacy_target := py_get "target" state in
  let legacy_scope := py_get "blade_scope" state in
  let legacy_blade_target := py_get "blade_target" state in
  let legacy_action := py_get "blade_action" state in
  if negb (py_truthy legacy_target || py_truthy legacy_scope || py_truthy legacy_blade_target
           || py_truthy legacy_action)
  then Some None
  else
    target ← py_dict legacy_target;
    let str v := py_str (py_or v (VStr "")) in
    names ← py_tuple (py_get "names" target);
    labels ← py_dict (py_get "labels" target);
    params ← py_dict (py_get "params" state);
    flags ← py_tuple (py_get "params_flags" state);
    duration ← py_int (py_get "duration" state);
    Some (Some (mkSpec (str (py_get "namespace" target))
                  (str (py_or legacy_scope (py_get "resource_type" target))) names labels
                  (str legacy_blade_target) (str legacy_action) params flags duration "" "")).

Definition read_fault_spec (state : dict pyval) : Exc (option FaultSpec) :=
  match from_dict (py_get "fault_spec" state) with
  | Some spec => Some (Some spec)
  | None => legacy_fault_spec state
  end.

Definition legacy_target_dict (state : dict pyval) : Exc (dict pyval) :=
  spec ← read_fault_spec state;
  Some (match spec with
        | None => []
        | Some s => [("namespace", VStr (s_namespace s)); ("names", VList (s_names s));
                     ("labels", VDict (s_labels s)); ("resource_type", VStr (s_scope s))]
        end).

Definition legacy_params_dict (state : dict pyval) : Exc (dict pyval) :=
  spec ← read_fault_spec state;
  Some (match spec with None => [] | Some s => s_params s end).

(** ** The type invariant *)

Definition clean_name (v : pyval) : Prop := ∃ s, v = VStr s ∧ s ≠ "" ∧ strip s = s.

(** A dict of strings. *)
Definition str_dict (d : dict pyval) : Prop :=
  dict_wf d ∧ Forall (λ kv, ∃ s, kv.2 = VStr s) d.

Definition spec_wf (s : FaultSpec) : Prop :=
  Forall clean_name (s_names s) ∧ str_dict (s_labels s) ∧ str_dict (s_params s).

Lemma forall_dict_set (P : pyval → Prop) k v (d : dict pyval) :
  P v → Forall (λ kv, P kv.2) d → Forall (λ kv, P kv.2) (dict_set k v d).
Proof.
  intros Hv Hd. induction Hd as [|[k' v'] d Hp Hd IH]; simpl; [by repeat constructor|].
  destruct (String.eqb k k'); by constructor.
Qed.

Lemma forall_dict_update (P : pyval → Prop) (d1 d2 : dict pyval) :
  Forall (λ kv, P kv.2) d1 → Forall (λ kv, P kv.2) d2 → Forall (λ kv, P kv.2) (dict_update d1 d2).
Proof.
  unfold dict_update. intros H1 H2. revert d1 H1.
  induction H2 as [|[k v] d2 Hv _ IH]; intros d1 H1; simpl; [done|].
  by apply IH, forall_dict_set.
Qed.

Lemma str_dict_update (f : pyval → pyval) (d : dict pyval) :
  (∀ v, ∃ s, f v = VStr s) → str_dict (dict_update [] (map (λ kv, (kv.1, f kv.2)) d)).
Proof.
  intros Hf. split; [apply dict_update_wf, NoDup_nil_2|].
  apply (forall_dict_update (λ v, ∃ s, v = VStr s)); [constructor|].
  apply Forall_map, Forall_true. intros kv. apply Hf.
Qed.

Lemma filter_truthy_Forall l : Forall (λ s, s ≠ "") (List.filter truthy l).
Proof.
  apply Forall_forall. intros s Hs. apply list_elem_of_In, filter_In in Hs as [_ Hs].
  by apply truthy_spec.
Qed.

(** Stripping and dropping the empty strings gives clean names. *)
Lemma clean_names l : Forall clean_name (map VStr (List.filter truthy (map strip l))).
Proof.
  apply Forall_map, Forall_forall. intros s Hs. exists s. split; [done|].
  apply list_elem_of_In, filter_In in Hs as [Hs Ht]. split; [by apply truthy_spec|].
  apply in_map_iff in Hs as (x & <- & _). apply strip_idem.
Qed.

Lemma csv_names_filter s : csv_names s = List.filter truthy (map strip (split_on "," s)).
Proof.
  unfold csv_names. induction (split_on "," s) as [|x l IH]; [done|]. cbn [map List.filter].
  rewrite filter_cons. destruct (truthy (strip x)) eqn:E; rewrite IH.
  - rewrite decide_True; [reflexivity | exact I].
  - rewrite decide_False; [reflexivity | intros []].
Qed.

Lemma normalise_names_wf v l : _normalise_names v = Some l → Forall clean_name l.
Proof.
  unfold _normalise_names. destruct (coerce_to_list v); simpl; [|done]. intros [= <-].
  rewrite <- (map_map py_str strip). apply clean_names.
Qed.

Lemma normalise_labels_wf v d : _normalise_labels v = Some d → str_dict d.
Proof.
  unfold _normalise_labels. destruct (coerce_to_dict v) as [p|]; simpl; [|done]. intros [= <-].
  apply (str_dict_update (λ v, VStr (py_str v))). eauto.
Qed.

Lemma normalise_params_wf v d : _normalise_params v = Some d → str_dict d.
Proof.
  unfold _normalise_params. destruct (coerce_to_dict v) as [p|]; simpl; [|done]. intros [= <-].
  apply (str_dict_update param_str). intros []; unfold param_str; eauto.
Qed.

Lemma str_dict_nil : str_dict [].
Proof. split; [apply NoDup_nil_2 | constructor]. Qed.

#[export] Hint Resolve normalise_names_wf normalise_labels_wf normalise_params_wf str_dict_nil : py.

(** Take a chain of binds in a hypothesis apart. *)
Ltac bind_inv H :=
  repeat match type of H with
  | (_ ≫= _) = Some _ => apply bind_Some in H as (? & ? & H)
  end.

(** A specification built by one of the entry points. *)
Inductive entry_spec : FaultSpec → Prop :=
  | entry_placeholder desc src : entry_spec (placeholder_nl desc src)
  | entry_cli kwargs s : from_cli_structured kwargs = Some s → entry_spec s
  | entry_cli_nl txt kwargs s : from_cli_nl txt kwargs = Some s → entry_spec s
  | entry_http req s : from_http_request req = Some s → entry_spec s
  | entry_intent args existing src s : from_intent_args args existing src = Some s → entry_spec s
  | entry_dict v s : from_dict v = Some s → entry_spec s
  | entry_direct base meta s :
      entry_spec base → from_direct_setup base meta = Some s → entry_spec s.

Lemma csv_clean s : Forall clean_name (map VStr (csv_names s)).
Proof. rewrite csv_names_filter. apply clean_names. Qed.

#[export] Hint Resolve csv_clean : py.

Lemma entry_spec_wf s : entry_spec s → spec_wf s.
Proof.
  unfold spec_wf.
  induction 1 as [desc src|kw s H|txt kw s H|req s H|args ex src s H|v s H|base meta s _ IH H].
  - cbn. auto using str_dict_nil.
  - unfold from_cli_structured in H. bind_inv H. injection H as <-. cbn. split; [|split]; eauto with py.
  - unfold from_cli_nl in H. bind_inv H. injection H as <-. cbn. split; [|split]; eauto with py.
  - unfold from_http_request in H. apply bind_Some in H as (names & Hn & H). bind_inv H.
    injection H as <-. cbn. split; [|split; eauto with py].
    destruct (py_truthy (attr "target_name" req)); [|injection Hn as <-; constructor].
    destruct (attr "target_name" req); try done. injection Hn as <-. apply csv_clean.
  - unfold from_intent_args in H. bind_inv H. injection H as <-. cbn. split; [|split]; eauto with py.
  - unfold from_dict in H. destruct v as [| | | | | | |[|]]; try done.
    unfold from_dict_body in H. bind_inv H. injection H as <-. cbn. split; [|split]; eauto with py.
  - unfold from_direct_setup in H. case_if_in H.
    + bind_inv H. injection H as <-. exact IH.
    + injection H as <-. exact IH.
Qed.

(** ** Round trips *)

Lemma normalise_clean l : Forall clean_name l → _normalise_names (VList l) = Some l.
Proof.
  unfold _normalise_names. cbn [coerce_to_list mbind option_bind]. intros Hl. f_equal.
  induction Hl as [|v l (s & -> & Hne & Hs) _ IH]; [done|]. cbn [map List.filter py_str].
  rewrite Hs, (proj2 (truthy_spec s) Hne). cbn [map]. by rewrite IH.
Qed.

(** Stringification of a dict of strings changes nothing. *)
Lemma dict_strings (f : pyval → pyval) (d : dict pyval) :
  (∀ s, f (VStr s) = VStr s) → str_dict d → dict_update [] (map (λ kv, (kv.1, f kv.2)) d) = d.
Proof.
  intros Hf [Hwf Hs].
  assert (Hm : map (λ kv, (kv.1, f kv.2)) d = d).
  { clear Hwf. induction Hs as [|[k v] d [s Hv] _ IH]; [done|]. cbn [map fst snd] in *.
    by rewrite Hv, Hf, IH. }
  rewrite Hm. by apply dict_update_nil.
Qed.

Lemma normalise_str_labels d : str_dict d → _normalise_labels (VDict d) = Some d.
Proof.
  intros H. unfold _normalise_labels. cbn [coerce_to_dict mbind option_bind]. f_equal.
  by apply (dict_strings (λ v, VStr (py_str v))).
Qed.

Lemma normalise_str_params d : str_dict d → _normalise_params (VDict d) = Some d.
Proof.
  intros H. unfold _normalise_params. cbn [coerce_to_dict mbind option_bind]. f_equal.
  by apply (dict_strings param_str).
Qed.

Lemma from_to_dict_wf s : spec_wf s → from_dict (VDict (to_dict s)) = Some s.
Proof.
  intros (Hn & Hl & Hp). unfold from_dict, to_dict, from_dict_body.
  change (py_get "names" _) with (VList (s_names s)).
  change (py_get "labels" _) with (VDict (s_labels s)).
  change (py_get "params" _) with (VDict (s_params s)).
  rewrite normalise_clean, normalise_str_labels, normalise_str_params by done.
  by destruct s.
Qed.

(** C39. Persistence: a specification built by any entry point (CLI, HTTP,
    natural language, stored dict, direct mode) is read back from the graph
    state unchanged. *)
Theorem fault_spec_roundtrip s state :
  entry_spec s →
  read_fault_spec (("fault_spec", VDict (to_dict s)) :: state) = Some (Some s).
Proof.
  intros H%entry_spec_wf. unfold read_fault_spec.
  change (py_get "fault_spec" _) with (VDict (to_dict s)).
  by rewrite from_to_dict_wf.
Qed.

Definition cli_kwargs : dict pyval :=
  [("namespace", VStr "shop"); ("scope", VStr "pod"); ("target_name", VStr " cart-1 , ,cart-2");
   ("labels", VStr "app=cart, tier=web"); ("target", VStr "cpu"); ("action", VStr "fullload");
   ("params", VDict [("percent", VInt 80); ("x", VNone)]); ("duration", VStr "1e2")].

Definition cli_spec : FaultSpec :=
  mkSpec "shop" "pod" [VStr "cart-1"; VStr "cart-2"] [("app", VStr "cart"); ("tier", VStr "web")]
    "cpu" "fullload" [("percent", VStr "80"); ("x", VStr "")] [] 100 "cli_structured" "".

Lemma fault_spec_roundtrip_witness :
  read_fault_spec [("fault_spec", VDict (to_dict cli_spec))] = Some (Some cli_spec).
Proof.
  apply (fault_spec_roundtrip cli_spec []). apply (entry_cli cli_kwargs). vm_compute. reflexivity.
Defined.

(** Re-submitting an intent: feeding the intent dict of a
    specification back through [from_intent_args] keeps every identity and
    tuning field; only the flags are dropped and the duration is recomputed
    from the [timeout] parameter. *)
Theorem intent_dict_roundtrip s s' :
  entry_spec s →
  from_intent_args (to_intent_dict s) (Some s) None = Some s' →
  s_namespace s' = s_namespace s ∧ s_scope s' = s_scope s ∧ s_names s' = s_names s ∧
  s_labels s' = s_labels s ∧ s_blade_target s' = s_blade_target s ∧
  s_blade_action s' = s_blade_action s ∧ s_params s' = s_params s ∧ s_params_flags s' = [] ∧
  s_source s' = s_source s ∧ s_user_description s' = s_user_description s.
Proof.
  intros (Hn & Hl & Hp)%entry_spec_wf. unfold from_intent_args, to_intent_dict.
  change (py_get "names" _) with (VList (s_names s)).
  change (py_get "labels" _) with (VDict (s_labels s)).
  change (py_get "params" _) with (VDict (s_params s)).
  rewrite normalise_clean, normalise_str_labels, normalise_str_params by done.
  cbn [mbind option_bind]. intros (d & _ & H)%bind_Some. injection H as <-.
  cbn. by destruct (truthy (s_user_description s)).
Qed.

Lemma intent_dict_roundtrip_witness :
  let s' := mkSpec "shop" "pod" [VStr "cart-1"; VStr "cart-2"]
    [("app", VStr "cart"); ("tier", VStr "web")] "cpu" "fullload"
    [("percent", VStr "80"); ("x", VStr "")] [] 0 "cli_structured" "" in
  s_namespace s' = s_namespace cli_spec ∧ s_scope s' = s_scope cli_spec ∧
  s_names s' = s_names cli_spec ∧ s_labels s' = s_labels cli_spec ∧
  s_blade_target s' = s_blade_target cli_spec ∧ s_blade_action s' = s_blade_action cli_spec ∧
  s_params s' = s_params cli_spec ∧ s_params_flags s' = [] ∧
  s_source s' = s_source cli_spec ∧ s_user_description s' = s_user_description cli_spec.
Proof.
  apply intent_dict_roundtrip.
  - apply (entry_cli cli_kwargs). vm_compute. reflexivity.
  - vm_compute. reflexivity.
Defined.

(** Skill metadata fills a missing duration and changes nothing else. *)
Lemma direct_setup_only_duration base meta s :
  from_direct_setup base meta = Some s →
  s = with_duration base (s_duration_seconds s) ∧ (s_duration_seconds base ≠ 0%Z → s = base).
Proof.
  unfold from_direct_setup. destruct (Z.eqb_spec (s_duration_seconds base) 0) as [H0|H0]; simpl.
  - case_if; [intros (d & _ & [= <-])%bind_Some | intros [= <-]]; by destruct base.
  - intros [= <-]. by destruct base.
Qed.
