(* ===== verification/Failure.v ===== *)
(** * Messages, failures and error classification
    (errors.py, agent/verdict.py, agent/state_helpers.py)

    The messages of a conversation, the structured failure that a node
    writes into the state, and the classification of error texts on which
    the routers act. *)

From stdpp Require Import base list strings sets.
From Stdlib Require Import ZArith Ascii.
From S2P Require Import Prelude.
From S2P Require Import PyValue.

(** ** Lengths and prefixes in code points

    Strings are UTF-8: [len(s)] and [s[:n]] count the bytes that are not
    continuation bytes. *)

Definition utf8_cont (c : ascii) : bool :=
  let n := nat_of_ascii c in Nat.leb 128 n && Nat.leb n 191.

Fixpoint py_len (s : string) : nat :=
  match s with
  | EmptyString => 0
  | String c s' => (if utf8_cont c then 0 else 1) + py_len s'
  end.

Fixpoint py_take (n : nat) (s : string) : string :=
  match s with
  | EmptyString => EmptyString
  | String c s' =>
      if utf8_cont c then String c (py_take n s')
      else match n with
           | O => EmptyString
           | S n' => String c (py_take n' s')
           end
  end.

Lemma py_take_len n s : (py_len (py_take n s) ≤ n)%nat.
Proof.
  revert n. induction s as [|c s IH]; intros n; simpl; [lia|].
  destruct (utf8_cont c) eqn:E; simpl; [rewrite E; simpl; apply IH|].
  destruct n; simpl; [lia|]. rewrite E. simpl. specialize (IH n). lia.
Qed.

(** ** Messages *)

Record ToolCall := mkCall {
  tc_name : string;
  tc_args : pyval;
  tc_id : option string;
}.

Inductive Message :=
  | AIMessage (content : pyval) (reasoning_content : pyval) (tool_calls : list ToolCall)
  | ToolMessage (content name tool_call_id : string) (is_error : bool)
  | HumanMessage (content : string)
  | SystemMessage (content : string).

(** ** Failure details *)

Inductive FailureCategory :=
  | PLANNING_TIMEOUT | PLANNING_REJECTED | SAFETY_REJECTED | USER_REJECTED
  | PREREQUISITE_FAILED | EXECUTION_FAILED | EXECUTION_TIMEOUT | REPLAN_EXHAUSTED
  | VERIFICATION_FAILED | RECOVERY_FAILED | RECOVERY_VERIFICATION_TIMEOUT
  | INTERNAL_ERROR | WALL_CLOCK_TIMEOUT.

Definition category_value (c : FailureCategory) : string :=
  match c with
  | PLANNING_TIMEOUT => "planning_timeout"
  | PLANNING_REJECTED => "planning_rejected"
  | SAFETY_REJECTED => "safety_rejected"
  | USER_REJECTED => "user_rejected"
  | PREREQUISITE_FAILED => "prerequisite_failed"
  | EXECUTION_FAILED => "execution_failed"
  | EXECUTION_TIMEOUT => "execution_timeout"
  | REPLAN_EXHAUSTED => "replan_exhausted"
  | VERIFICATION_FAILED => "verification_failed"
  | RECOVERY_FAILED => "recovery_failed"
  | RECOVERY_VERIFICATION_TIMEOUT => "recovery_verification_timeout"
  | INTERNAL_ERROR => "internal_error"
  | WALL_CLOCK_TIMEOUT => "wall_clock_timeout"
  end.

Record FailureDetail := mkFailure {
  f_category : FailureCategory;
  f_context : string;
  f_llm_analysis : string;
}.

Definition to_reason_string (d : FailureDetail) : string :=
  let base := if truthy (f_context d)
              then category_value (f_category d) +:+ ": " +:+ f_context d
              else category_value (f_category d) in
  if truthy (f_llm_analysis d) then base +:+ " | llm_analysis: " +:+ f_llm_analysis d else base.

Definition _DIAGNOSIS_FALLBACK : string := "未能从 Agent 推理记录中提取失败根因分析".

(** A string of at least 20 characters. *)
Definition long_text (v : pyval) : option string :=
  match v with
  | VStr s => if Nat.leb 20 (py_len s) then Some s else None
  | _ => None
  end.

(** The diagnosis text of one message, if it has one. *)
Definition message_text (m : Message) : option string :=
  match m with
  | AIMessage content reasoning calls =>
      if match calls with [] => false | _ => true end && negb (py_truthy content) then None
      else match long_text content with
           | Some s => Some s
           | None => long_text reasoning
           end
  | _ => None
  end.

Fixpoint first_text (l : list Message) : option string :=
  match l with
  | [] => None
  | m :: l' => match message_text m with Some s => Some s | None => first_text l' end
  end.

Definition extract_llm_diagnosis (messages : list Message) (max_length : nat) : string :=
  match first_text (rev messages) with
  | Some text => if Nat.ltb max_length (py_len text) then py_take max_length text +:+ "..." else text
  | None => _DIAGNOSIS_FALLBACK
  end.

(** The state update of a failed task. *)
Definition fail_state (category : FailureCategory) (context : string) (messages : list Message)
    : dict pyval :=
  let analysis := match messages with [] => "" | _ => extract_llm_diagnosis messages 500 end in
  let detail := mkFailure category context analysis in
  [("failure_detail", VDict [("category", VStr (category_value category));
                             ("context", VStr context); ("llm_analysis", VStr analysis)]);
   ("error", VStr (to_reason_string detail))].

(** ** Error classification *)

Inductive ErrorClass :=
  | INFRA_PERSISTENT | INFRA_TRANSIENT | INTERFACE_MISMATCH | USER_CONFIG | TARGET_GONE
  | QUOTA_EXCEEDED | AUTH_DENIED | EC_UNKNOWN.

Inductive ErrorAction := REPLAN | SHORT_RETRY | END_FAILED | ASK_USER.

#[global] Instance ErrorClass_eq_dec : EqDecision ErrorClass.
Proof. solve_decision. Defined.

#[global] Instance ErrorAction_eq_dec : EqDecision ErrorAction.
Proof. solve_decision. Defined.

Definition _CLASS_TO_ACTION (c : ErrorClass) : ErrorAction :=
  match c with
  | INTERFACE_MISMATCH | USER_CONFIG | TARGET_GONE => REPLAN
  | INFRA_TRANSIENT => SHORT_RETRY
  | INFRA_PERSISTENT => END_FAILED
  | QUOTA_EXCEEDED | AUTH_DENIED => ASK_USER
  | EC_UNKNOWN => END_FAILED
  end.

Definition _CLASSIFY_RULES : list (ErrorClass * list string) :=
  [(AUTH_DENIED, ["permission denied"; "forbidden"; "unauthorized"; "x509";
     "certificate has expired"; "certificate verify failed"; "tls handshake failure"]);
   (QUOTA_EXCEEDED, ["exceeded quota"; "resourcequota"; "limit exceeded";
     "exceeded the resource limit"]);
   (TARGET_GONE, ["resource not found"; "target not found"; "not found"; "no matches for kind";
     "no resources found"]);
   (INTERFACE_MISMATCH, ["unknown flag"; "unknown command"; "unknown shorthand flag";
     "flag provided but not defined"]);
   (USER_CONFIG, ["invalid parameter"; "flag mismatch"; "unsupported flag"; "invalid argument";
     "validation error"]);
   (INFRA_PERSISTENT, ["diskpressure"; "memorypressure"; "networkunavailable"; "pidpressure";
     "node not ready"; "evicted"]);
   (INFRA_TRANSIENT, ["timeout"; "deadline exceeded"; "connection refused"; "connection reset";
     "bad file descriptor"; "no such host"; "i/o timeout"; "tls handshake timeout";
     "server gave http response to https client"; "broken pipe"; "eof"])].

Record ClassificationResult := mkClass {
  error_class : ErrorClass;
  action : ErrorAction;
  matched_pattern : option string;
}.

(** The inner loop over the patterns of one class. *)
Definition find_pattern (msg : string) (patterns : list string) : option string :=
  List.find (λ p, contains p msg) patterns.

Fixpoint classify_rules (rules : list (ErrorClass * list string)) (msg : string)
    : ClassificationResult :=
  match rules with
  | [] => mkClass EC_UNKNOWN (_CLASS_TO_ACTION EC_UNKNOWN) None
  | (ec, patterns) :: rules' =>
      match find_pattern msg patterns with
      | Some p => mkClass ec (_CLASS_TO_ACTION ec) (Some p)
      | None => classify_rules rules' msg
      end
  end.

Definition classify_error (error_message : option string) : ClassificationResult :=
  match error_message with
  | Some m => if truthy m then classify_rules _CLASSIFY_RULES (lower m)
              else mkClass EC_UNKNOWN (_CLASS_TO_ACTION EC_UNKNOWN) None
  | None => mkClass EC_UNKNOWN (_CLASS_TO_ACTION EC_UNKNOWN) None
  end.

Definition should_auto_replan (error_message : string) : bool :=
  if decide (action (classify_error (Some error_message)) = REPLAN) then true else false.

(** ** First match wins *)

Definition occurs (p m : string) : Prop := ∃ a b, m = a +:+ p +:+ b.

(** A class matches a message when one of its patterns occurs in it. *)
Definition class_matches (m : string) (rule : ErrorClass * list string) : Prop :=
  ∃ p, p ∈ rule.2 ∧ occurs p m.

Lemma find_pattern_Some m ps p : find_pattern m ps = Some p → p ∈ ps ∧ occurs p m.
Proof.
  unfold find_pattern. intros H%List.find_some. rewrite contains_spec in H.
  by rewrite list_elem_of_In.
Qed.

Lemma find_pattern_None m ps : find_pattern m ps = None ↔ ∀ p, p ∈ ps → ¬ occurs p m.
Proof.
  unfold find_pattern. split.
  - intros H p Hp Ho. apply list_elem_of_In in Hp. pose proof (List.find_none _ _ H p Hp) as Hc.
    simpl in Hc. apply contains_spec in Ho. congruence.
  - intros H. destruct (List.find _ ps) as [p|] eqn:E; [|done].
    apply List.find_some in E as [Hin Hc]. apply contains_spec in Hc.
    destruct (H p); [by apply list_elem_of_In | done].
Qed.

Lemma classify_rules_spec rules m :
  let r := classify_rules rules m in
  action r = _CLASS_TO_ACTION (error_class r) ∧
  match matched_pattern r with
  | Some p =>
      ∃ before ps after, rules = before ++ (error_class r, ps) :: after ∧ p ∈ ps ∧ occurs p m ∧
        ∀ rule, rule ∈ before → ¬ class_matches m rule
  | None => error_class r = EC_UNKNOWN ∧ ∀ rule, rule ∈ rules → ¬ class_matches m rule
  end.
Proof.
  induction rules as [|[ec ps] rules IH]; cbn [classify_rules].
  - split; [done|]. cbn. split; [done|]. intros rule Hr. by apply elem_of_nil in Hr.
  - destruct (find_pattern m ps) as [p|] eqn:E; cbn zeta.
    + split; [done|]. cbn. apply find_pattern_Some in E as [Hp Ho].
      exists [], ps, rules. split; [done|]. split; [done|]. split; [done|].
      intros rule Hr. by apply elem_of_nil in Hr.
    + cbn zeta in IH. destruct IH as [Ha IH]. rewrite find_pattern_None in E.
      assert (Hn : ¬ class_matches m (ec, ps)) by (intros (p & Hp & Ho); by apply (E p)).
      generalize dependent (classify_rules rules m). intros r Ha IH. split; [done|].
      destruct (matched_pattern r) as [p|].
      * destruct IH as (b & ps' & a & -> & Hp & Ho & Hb).
        exists ((ec, ps) :: b), ps', a. split; [done|]. split; [done|]. split; [done|].
        intros rule [->|Hr]%elem_of_cons; [done | by apply Hb].
      * destruct IH as [Hu Hr]. split; [done|].
        intros rule [->|Hrule]%elem_of_cons; [done | by apply Hr].
Qed.

(** Error classification: the class of a message is the first class of
    the rule table, in its order, of which a pattern occurs in the lowered
    message, [UNKNOWN] when none does; the action is the one the class maps
    to. *)
Theorem classify_error_first_match m :
  let r := classify_error (Some m) in
  action r = _CLASS_TO_ACTION (error_class r) ∧
  match matched_pattern r with
  | Some p =>
      ∃ before ps after, _CLASSIFY_RULES = before ++ (error_class r, ps) :: after ∧
        p ∈ ps ∧ occurs p (lower m) ∧ ∀ rule, rule ∈ before → ¬ class_matches (lower m) rule
  | None => error_class r = EC_UNKNOWN ∧
            ∀ rule, rule ∈ _CLASSIFY_RULES → ¬ class_matches (lower m) rule
  end.
Proof.
  unfold classify_error. destruct (truthy m) eqn:E; [apply classify_rules_spec|].
  apply truthy_false in E as ->. split; [done|]. cbn [matched_pattern error_class].
  split; [done|]. apply (classify_rules_spec _CLASSIFY_RULES "").
Qed.

(** Authorisation failures are never retried: they go to the user whatever
    else the message says. *)
Lemma auth_never_retried m :
  occurs "forbidden" (lower m) → action (classify_error (Some m)) = ASK_USER.
Proof.
  intros Ho. unfold classify_error.
  destruct (truthy m) eqn:E.
  - cbn [classify_rules _CLASSIFY_RULES].
    destruct (find_pattern (lower m) _) as [p|] eqn:Ef; [done|].
    destruct (proj1 (find_pattern_None _ _) Ef "forbidden"); [by apply str_in_spec | done].
  - apply truthy_false in E as ->. destruct Ho as ([|] & b & H); discriminate H.
Qed.
