(* ===== verification/Screener.v ===== *)
(** * The two screener nodes
    (agent/nodes/tool_screener.py, agent/nodes/phase1_screener.py)

    A screener looks at the tool calls of the last AI message before any of
    them runs.  Both reach the classifier and the guard through the
    interface [TargetGuardOps]; [target_guard_ops] is the implementation,
    and [TargetGuardLaws] is what the screeners' theorems need of it. *)

From stdpp Require Import base list strings sets relations.
From Stdlib Require Import ZArith Ascii.
From S2P Require Import Prelude.
From S2P Require Import PyValue.
From S2P Require Import TargetTypes.
From S2P Require Import Classifier.
From S2P Require Import ClassifierProps.
From S2P Require Import TargetGuard.
From S2P Require Import Freeze.
From S2P Require Import FaultSpec.
From S2P Require Import Failure.

(** ** The interface *)

Class TargetGuardOps := {
  (** [infer_effective_target(name, args, skill_script_allowed=...)]. *)
  classify : string → pyval → bool → Exc EffectiveTarget;
  (** [target_drift_guard(effective, approved)]. *)
  judge : EffectiveTarget → option ApprovedTarget → GuardDecision;
}.

Class TargetGuardLaws (G : TargetGuardOps) : Prop := {
  (** Without an approval nothing but a read-only call is allowed. *)
  judge_no_approval e : is_allow (judge e None) = true → e_scope e = SCOPE_READONLY;
  (** Drift is measured against an approval. *)
  judge_drift_approval e oa : d_verdict (judge e oa) = REJECT_DRIFT → is_Some oa;
}.

#[global] Instance target_guard_ops : TargetGuardOps := {
  classify := infer_effective_target;
  judge := target_drift_guard;
}.

#[global] Instance target_guard_laws : TargetGuardLaws target_guard_ops.
Proof.
  split; cbn [judge target_guard_ops].
  - intros e H. pose proof (guard_reject_spec e None) as Hs. unfold is_allow in H.
    destruct (d_verdict (target_drift_guard e None)) eqn:E; try done.
    apply guard_allow_spec in E as (a & Ha & _). done.
  - intros e oa H. pose proof (guard_reject_spec e oa) as Hs. rewrite H in Hs.
    destruct Hs as (a & -> & _). eauto.
Qed.

(** ** The phase-2 screener *)

Definition SCREENER_ROUTE_PASS : string := "pass".
Definition SCREENER_ROUTE_REPLAN : string := "replan".
Definition SCREENER_ROUTE_RETRY : string := "retry".

(** One entry of [decisions]. *)
Record ScreenDecision := mkScreen {
  sd_id : string;
  sd_name : string;
  sd_verdict : string;
  sd_reason : string;
  sd_suggestion : string;
  sd_effective : option EffectiveTarget;
}.

(** The update a node returns: messages to append and values to set. *)
Record Delta := mkDelta {
  dl_messages : list Message;
  dl_values : dict pyval;
}.

(** The settings the screeners read. *)
Record ScreenSettings := mkSettings {
  target_guard_enforcing : bool;
  skill_script_default_allow : bool;
  phase1_screener_enforcing : bool;
  blacklist_namespaces : list string;
}.

Definition call_id (tc : ToolCall) : string := default "" (tc_id tc).

Definition _format_rejection_for_llm (d : ScreenDecision) (approved_missing : bool) : string :=
  join " "
    (["[target_guard] " +:+ upper (sd_verdict d) +:+ " — " +:+ sd_reason d] ++
     (if truthy (sd_suggestion d) then [sd_suggestion d] else []) ++
     (if approved_missing && String.eqb (sd_verdict d) (verdict_value REJECT_UNKNOWN)
      then ["no approved target on record; the screener default-denies " +:+
            "destructive calls until confirmation_gate has been passed."] else []) ++
     ["Correct the tool_call to match the approved target, " +:+
      "or abort if the task cannot proceed."]).

Definition rejection_message (approved_missing : bool) (d : ScreenDecision) : Message :=
  ToolMessage (_format_rejection_for_llm d approved_missing) (sd_name d) (sd_id d) true.

Definition str_values (d : dict string) : dict pyval := map (λ kv, (kv.1, VStr kv.2)) d.

Definition _format_approved_for_card (approved : option ApprovedTarget) : dict pyval :=
  match approved with
  | None => []
  | Some a => [("scope", VStr (a_scope a)); ("namespace", VStr (a_namespace a));
               ("names", VList (map VStr (a_names a))); ("labels", VDict (str_values (a_labels a)));
               ("blade_target", VStr (a_blade_target a))]
  end.

Definition _format_effective_for_card (e : EffectiveTarget) : dict pyval :=
  [("scope", VStr (e_scope e)); ("namespace", VStr (e_namespace e));
   ("names", VList (map VStr (e_names e))); ("labels", VDict (str_values (e_labels e)));
   ("blade_target", VStr (e_blade_target e))].

(** The text of one content block. *)
Definition block_text (b : pyval) : Exc string :=
  match b with
  | VDict d => match dict_get "text" d with
               | None => Some ""
               | Some (VStr s) => Some s
               | Some _ => Raise
               end
  | _ => Some (py_str b)
  end.

Fixpoint mapE {A B} (f : A → Exc B) (l : list A) : Exc (list B) :=
  match l with
  | [] => Some []
  | x :: l' => y ← f x; ys ← mapE f l'; Some (y :: ys)
  end.

Definition _extract_agent_reason (content reasoning : pyval) : Exc string :=
  text ← (match py_or content (VStr "") with
          | VList l => bs ← mapE block_text l; Some (strip (strip (join " " bs)))
          | VStr s => Some (strip s)
          | _ => Some ""
          end);
  if truthy text then Some (py_take 200 text)
  else match py_or reasoning (VStr "") with
       | VStr r => Some (if truthy (strip r) then py_take 200 (strip r) else "")
       | _ => Raise
       end.

(** [tuple(eff.names) != spec.names] and [eff.labels != spec.labels]. *)
Definition eq_str (v : pyval) (s : string) : bool :=
  match v with VStr t => String.eqb t s | _ => false end.

Fixpoint names_eq (l : list string) (vs : list pyval) : bool :=
  match l, vs with
  | [], [] => true
  | s :: l', v :: vs' => eq_str v s && names_eq l' vs'
  | _, _ => false
  end.

Definition labels_eq (d : dict string) (vs : dict pyval) : bool :=
  Nat.eqb (length d) (length vs) &&
  forallb (λ kv, match dict_get kv.1 vs with Some v => eq_str v kv.2 | None => false end) d.

(** [spec.replace(...)] with the corrections that apply. *)
Definition correct_spec (blacklist : list string) (spec : FaultSpec) (eff : EffectiveTarget)
    : FaultSpec :=
  let ns := if truthy (e_namespace eff) && negb (String.eqb (e_namespace eff) (s_namespace spec))
               && negb (e_namespace eff ∈? blacklist)
            then e_namespace eff else s_namespace spec in
  let names := if nonempty (e_names eff) && negb (names_eq (e_names eff) (s_names spec))
               then map VStr (e_names eff) else s_names spec in
  let labels := if nonempty (e_labels eff) && negb (labels_eq (e_labels eff) (s_labels spec))
                then str_values (e_labels eff) else s_labels spec in
  mkSpec ns (s_scope spec) names labels (s_blade_target spec) (s_blade_action spec)
    (s_params spec) (s_params_flags spec) (s_duration_seconds spec) (s_source spec)
    (s_user_description spec).

(** The freeze of a specification. *)
Definition freeze_spec (s : FaultSpec) : Exc (option (dict pyval)) :=
  freeze_approved_target
    (Some [("namespace", VStr (s_namespace s)); ("names", VList (s_names s));
           ("labels", VDict (s_labels s)); ("resource_type", VStr (s_scope s))])
    (Some (s_params s)) (VStr (s_scope s)) (VStr (s_blade_target s)) (VStr (s_blade_action s))
    true [].

Definition opt_dict (o : option (dict pyval)) : pyval :=
  match o with Some d => VDict d | None => VNone end.

Definition _apply_drift_correction (blacklist : list string) (state : dict pyval)
    (eff : option EffectiveTarget) : Exc (dict pyval) :=
  spec ← read_fault_spec state;
  match spec, eff with
  | Some spec, Some eff =>
      let new_spec := correct_spec blacklist spec eff in
      approved ← freeze_spec new_spec;
      Some [("fault_spec", VDict (to_dict new_spec)); ("approved_target", opt_dict approved)]
  | _, _ => Some []
  end.

Section screener.
Context {G : TargetGuardOps}.
Context (cfg : ScreenSettings).
(** The class name and text of the exception a classification raised. *)
Context (exc_text : string → pyval → string).
(** The value the graph is resumed with after an interrupt. *)
Context (resume : dict pyval → pyval).

Definition screen_call (approved : option ApprovedTarget) (tc : ToolCall) : ScreenDecision :=
  match classify (tc_name tc) (tc_args tc) (skill_script_default_allow cfg) with
  | None => mkScreen (call_id tc) (tc_name tc) "allow"
              ("screener exception: " +:+ exc_text (tc_name tc) (tc_args tc)) "" None
  | Some e =>
      let decision := judge e approved in
      mkScreen (call_id tc) (tc_name tc) (verdict_value (d_verdict decision))
        (d_reason decision) (d_suggestion decision) (Some e)
  end.

Definition is_drift (d : ScreenDecision) : bool :=
  String.eqb (sd_verdict d) (verdict_value REJECT_DRIFT).

Definition is_other_reject (d : ScreenDecision) : bool :=
  sd_verdict d ∈? [verdict_value REJECT_BANNED; verdict_value REJECT_UNKNOWN].

Definition drift_info (approved : option ApprovedTarget) (agent_reason : string)
    (first : ScreenDecision) (drifted : list ScreenDecision) : dict pyval :=
  [("type", VStr "target_change");
   ("summary", VStr ("Target change detected: " +:+ sd_reason first));
   ("reason", VStr (sd_reason first)); ("agent_reason", VStr agent_reason);
   ("original", VDict (_format_approved_for_card approved));
   ("proposed", VDict (match sd_effective first with
                       | Some e => _format_effective_for_card e
                       | None => []
                       end));
   ("tool_calls", VList (map (λ d, VDict [("name", VStr (sd_name d));
                                          ("reason", VStr (sd_reason d))]) drifted))].

Definition route (r : string) : dict pyval := [("screener_route", VStr r)].

(** The drift path: [first] is the first drifted decision. *)
Definition on_drift (state : dict pyval) (content reasoning : pyval)
    (approved : option ApprovedTarget) (rejections : list Message) (first : ScreenDecision)
    (drifted : list ScreenDecision) : Exc Delta :=
  count ← py_int (py_get "drift_reject_count" state);
  let rejected :=
    mkDelta rejections (route SCREENER_ROUTE_RETRY ++ [("drift_reject_count", VInt (count + 1))]) in
  if (1 <=? count)%Z
  then Some (mkDelta rejections (route SCREENER_ROUTE_RETRY ++
         fail_state USER_REJECTED "Target drift persists after user rejection; terminating." []))
  else if eq_str (py_get "interaction_mode" state) "cli" then Some rejected
  else
    agent_reason ← _extract_agent_reason content reasoning;
    if eq_str (resume (drift_info approved agent_reason first drifted)) "approved" then
      spec_delta ← _apply_drift_correction (blacklist_namespaces cfg) state (sd_effective first);
      Some (mkDelta [] (route SCREENER_ROUTE_PASS ++ [("drift_reject_count", VInt 0)] ++ spec_delta))
    else Some rejected.

Definition screen_calls (state : dict pyval) (content reasoning : pyval) (calls : list ToolCall)
    : Exc Delta :=
  approved ← approved_from_dict (py_get "approved_target" state);
  let decisions := map (screen_call approved) calls in
  let any_reject := existsb is_drift decisions || existsb is_other_reject decisions in
  if negb (target_guard_enforcing cfg) || negb any_reject
  then Some (mkDelta [] (route SCREENER_ROUTE_PASS))
  else
    let missing := match approved with None => true | Some _ => false end in
    let rejections := map (rejection_message missing) decisions in
    match List.filter is_drift decisions with
    | first :: _ =>
        on_drift state content reasoning approved rejections first (List.filter is_drift decisions)
    | [] => Some (mkDelta rejections (route SCREENER_ROUTE_RETRY))
    end.

Definition tool_screener (messages : list Message) (state : dict pyval) : Exc Delta :=
  match last messages with
  | Some (AIMessage content reasoning ((_ :: _) as calls)) =>
      screen_calls state content reasoning calls
  | _ => Some (mkDelta [] (route SCREENER_ROUTE_PASS))
  end.

Definition route_after_screener (state : dict pyval) : string :=
  let r := py_or (py_get "screener_route" state) (VStr SCREENER_ROUTE_PASS) in
  if eq_str r SCREENER_ROUTE_REPLAN then "replan"
  else if eq_str r SCREENER_ROUTE_RETRY then "retry"
  else "pass".
End screener.

(** ** The phase-1 screener *)

Definition _make_violation_message (tool_name reason tc_id : string) : Message :=
  ToolMessage
    ("Error: phase1_readonly_violation" +:+ newline +:+ newline +:+
     "Tool '" +:+ tool_name +:+ "' would mutate cluster state in this call." +:+ newline +:+
     "Reason: " +:+ reason +:+ newline +:+ newline +:+
     "Phase 1 (planning) is read-only by runtime enforcement. " +:+
     "Mutation tools (blade_create, blade_destroy, full kubectl " +:+
     "with exec/delete/patch/...) are bound automatically in " +:+
     "Phase 2 after your plan is approved by the user." +:+ newline +:+ newline +:+
     "DO NOT retry with `kubectl exec ... blade create` or any " +:+
     "other equivalent path — all mutation paths are blocked " +:+
     "here by the same classifier." +:+ newline +:+ newline +:+
     "To advance to Phase 2: finish your planning observations, " +:+
     "then emit a final summary text WITHOUT any tool_calls. The " +:+
     "system runs safety_check → confirmation_gate → " +:+
     "execute_loop automatically once you stop calling tools.")
    tool_name tc_id true.

Definition _make_skipped_message (tool_name tc_id : string) : Message :=
  ToolMessage
    ("(skipped — a sibling tool_call in this batch violated " +:+
     "Phase 1 read-only enforcement; resolve the violation and " +:+
     "re-issue this call alone in the next turn if still needed)")
    tool_name tc_id false.

Definition message_id (m : Message) : string :=
  match m with ToolMessage _ _ i _ => i | _ => "" end.

Section phase1.
Context {G : TargetGuardOps}.
Context (cfg : ScreenSettings).

(** [tc_args if tc_args is not None else {}]. *)
Definition args_or_empty (v : pyval) : pyval := match v with VNone => VDict [] | _ => v end.

Definition phase1_reason (e : EffectiveTarget) : string :=
  if String.eqb (e_scope e) SCOPE_BANNED then
    "banned operation — " +:+ py_take 200
      (str_or (e_raw_command e)
         ("operation classified as banned (e.g. exec ... blade " +:+
          "create, apply -f chaosblade.yaml, ...)"))
  else if String.eqb (e_scope e) SCOPE_UNKNOWN then
    "unclassifiable call (defensive reject — Phase 1 cannot " +:+
    "verify the call is read-only without classifier signal)"
  else "call would mutate " +:+ e_scope e +:+ " resources " +:+
       "(classifier verdict: destructive)".

(** The rejection of one call, or [None] for a legitimate one. *)
Definition phase1_call (tc : ToolCall) : option Message :=
  match classify (tc_name tc) (args_or_empty (tc_args tc)) (skill_script_default_allow cfg) with
  | None => None
  | Some e =>
      if String.eqb (e_scope e) SCOPE_READONLY then None
      else Some (_make_violation_message (tc_name tc) (phase1_reason e) (call_id tc))
  end.

Definition phase1_rejections (calls : list ToolCall) : list Message :=
  omap phase1_call calls.

Definition phase1_legitimate (calls : list ToolCall) : list (string * string) :=
  map (λ tc, (tc_name tc, call_id tc))
      (List.filter (λ tc, match phase1_call tc with None => true | Some _ => false end) calls).

Definition phase1_screener (messages : list Message) : Delta :=
  match last messages with
  | Some (AIMessage _ _ ((_ :: _) as calls)) =>
      match phase1_rejections calls with
      | [] => mkDelta [] (route SCREENER_ROUTE_PASS)
      | rejections =>
          if negb (phase1_screener_enforcing cfg) then mkDelta [] (route SCREENER_ROUTE_PASS)
          else
            let rejected_ids := map message_id rejections in
            let skipped :=
              map (λ p, _make_skipped_message p.1 p.2)
                  (List.filter (λ p, negb (p.2 ∈? rejected_ids)) (phase1_legitimate calls)) in
            mkDelta (rejections ++ skipped) (route SCREENER_ROUTE_RETRY)
      end
  | _ => mkDelta [] (route SCREENER_ROUTE_PASS)
  end.

(** [state.get("screener_route", "pass")]. *)
Definition route_after_phase1_screener (state : dict pyval) : pyval :=
  default (VStr SCREENER_ROUTE_PASS) (dict_get "screener_route" state).
End phase1.

(** ** What passes the phase-2 screener *)

Definition routed (d : Delta) (r : string) : Prop :=
  dict_get "screener_route" (dl_values d) = Some (VStr r).

Lemma pass_not_retry d : routed d SCREENER_ROUTE_PASS → routed d SCREENER_ROUTE_RETRY → False.
Proof. unfold routed. intros -> H. discriminate H. Qed.

Lemma verdict_drift v : verdict_value v = verdict_value REJECT_DRIFT ↔ v = REJECT_DRIFT.
Proof. by destruct v. Qed.

Section screened.
Context {G : TargetGuardOps} {L : TargetGuardLaws G}.
Context (cfg : ScreenSettings) (exc_text : string → pyval → string)
        (resume : dict pyval → pyval).

(** The call raised in the classifier, or the guard let it through. *)
Definition call_ok (approved : option ApprovedTarget) (tc : ToolCall) : Prop :=
  match classify (tc_name tc) (tc_args tc) (skill_script_default_allow cfg) with
  | None => True
  | Some e => is_allow (judge e approved) = true
  end.

Lemma screen_call_ok approved tc :
  is_drift (screen_call cfg exc_text approved tc) = false →
  is_other_reject (screen_call cfg exc_text approved tc) = false → call_ok approved tc.
Proof.
  unfold is_drift, is_other_reject, screen_call, call_ok.
  destruct (classify _ _ _) as [e|]; [|done]. cbn. unfold is_allow.
  by destruct (d_verdict (judge e approved)).
Qed.

Lemma screen_no_reject approved calls :
  existsb is_drift (map (screen_call cfg exc_text approved) calls)
    || existsb is_other_reject (map (screen_call cfg exc_text approved) calls) = false →
  Forall (call_ok approved) calls.
Proof.
  intros [H1 H2]%orb_false_iff. induction calls as [|tc calls IH]; [constructor|].
  cbn [map existsb] in *. apply orb_false_iff in H1 as [H1 H1'], H2 as [H2 H2'].
  constructor; [by apply screen_call_ok | by apply IH].
Qed.

(** The user was asked about a drift and approved it. *)
Definition drift_approved (state : dict pyval) (approved : option ApprovedTarget)
    (calls : list ToolCall) : Prop :=
  (∃ tc, tc ∈ calls ∧ is_drift (screen_call cfg exc_text approved tc) = true) ∧
  (∃ info, eq_str (resume info) "approved" = true) ∧
  eq_str (py_get "interaction_mode" state) "cli" = false ∧
  (∃ n, py_int (py_get "drift_reject_count" state) = Some n ∧ (n < 1)%Z).

Lemma route_app r d : routed (mkDelta d (route r)) r.
Proof. done. Qed.

Lemma on_drift_cases state content reasoning approved msgs first drifted d :
  on_drift cfg resume state content reasoning approved msgs first drifted = Some d →
  (routed d SCREENER_ROUTE_RETRY ∧ dl_messages d = msgs) ∨
  (routed d SCREENER_ROUTE_PASS ∧ dl_messages d = [] ∧
   (∃ info, eq_str (resume info) "approved" = true) ∧
   eq_str (py_get "interaction_mode" state) "cli" = false ∧
   ∃ n, py_int (py_get "drift_reject_count" state) = Some n ∧ (n < 1)%Z).
Proof.
  unfold on_drift. intros (n & Hn & H)%bind_Some. cbv zeta in H.
  destruct (Z.leb_spec 1 n); [injection H as <-; by left|].
  destruct (eq_str (py_get "interaction_mode" state) "cli") eqn:Em; [injection H as <-; by left|].
  apply bind_Some in H as (reason & _ & H).
  destruct (eq_str (resume _) "approved") eqn:Er; [|injection H as <-; by left].
  apply bind_Some in H as (sd & _ & H). injection H as <-. right.
  split; [done|]. split; [done|]. split; [by eexists|]. split; [done|]. by exists n.
Qed.

Lemma screen_calls_cases state content reasoning calls d :
  target_guard_enforcing cfg = true →
  screen_calls cfg exc_text resume state content reasoning calls = Some d →
  ∃ approved, approved_from_dict (py_get "approved_target" state) = Some approved ∧
  ((routed d SCREENER_ROUTE_PASS ∧ dl_messages d = [] ∧
    (Forall (call_ok approved) calls ∨ drift_approved state approved calls)) ∨
   (routed d SCREENER_ROUTE_RETRY ∧
    dl_messages d = map (rejection_message (match approved with None => true | Some _ => false end))
                      (map (screen_call cfg exc_text approved) calls))).
Proof.
  intros He. unfold screen_calls. intros (approved & Ha & H)%bind_Some. exists approved.
  split; [done|]. cbv zeta in H. rewrite He in H. cbn [negb orb] in H.
  destruct (existsb is_drift _ || existsb is_other_reject _) eqn:Er; cbn [negb] in H.
  - destruct (List.filter is_drift (map (screen_call cfg exc_text approved) calls))
      as [|first drifted] eqn:Ef; [injection H as <-; by right|].
    apply on_drift_cases in H as [[H1 H2]|(H1 & H2 & Hi & Hm & Hn)]; [by right|left].
    split; [done|]. split; [done|]. right. split; [|done].
    assert (Hin : In first (List.filter is_drift (map (screen_call cfg exc_text approved) calls)))
      by (rewrite Ef; by left).
    apply filter_In in Hin as [Hin Hd]. apply in_map_iff in Hin as (tc & <- & Hin).
    exists tc. split; [by apply list_elem_of_In | done].
  - injection H as <-. left. split; [done|]. split; [done|]. left. by apply screen_no_reject in Er.
Qed.
End screened.

(** C30. Soundness of a pass: in enforcing mode, when the screener lets a
    batch through, then for every call of the batch the classifier raised
    or the guard allowed it, unless a human was asked about a drift outside
    CLI mode, with no earlier drift rejection on record, and approved it. *)
Theorem screener_pass_sound {G : TargetGuardOps} cfg exc_text resume state content reasoning calls
    before d :
  target_guard_enforcing cfg = true → calls ≠ [] →
  tool_screener cfg exc_text resume (before ++ [AIMessage content reasoning calls]) state = Some d →
  routed d SCREENER_ROUTE_PASS →
  ∃ approved, approved_from_dict (py_get "approved_target" state) = Some approved ∧
    (Forall (call_ok cfg approved) calls ∨
     drift_approved cfg exc_text resume state approved calls).
Proof.
  intros He Hne H Hr. unfold tool_screener in H. rewrite last_snoc in H.
  destruct calls as [|tc calls]; [done|].
  apply screen_calls_cases in H as (approved & Ha & [(_ & _ & H)|[H _]]); [|by destruct (pass_not_retry d)|done].
  by exists approved.
Qed.

Definition strict : ScreenSettings := mkSettings true false true [].
Definition no_text (_ : string) (_ : pyval) : string := "".
Definition human_says (s : string) (_ : dict pyval) : pyval := VStr s.

(** A state with an approval on record. *)
Definition approved_state : dict pyval :=
  [("approved_target", VDict (approved_to_dict sample_approved));
   ("fault_spec", VDict (to_dict cli_spec)); ("interaction_mode", VStr "tui")].

Definition allowed_call : ToolCall :=
  mkCall "kubectl" (kubectl_call "delete" ["pod"; "cart-1"; "-n"; "shop"]) (Some "c1").
Definition readonly_call : ToolCall :=
  mkCall "kubectl" (kubectl_call "get" ["pods"]) (Some "c2").
Definition drifted_call : ToolCall :=
  mkCall "kubectl" (kubectl_call "delete" ["pod"; "billing-1"; "-n"; "shop"]) (Some "c3").
Definition banned_call : ToolCall :=
  mkCall "kubectl" (kubectl_call "proxy" []) (Some "c4").

Lemma screener_pass_sound_witness :
  ∃ approved, approved_from_dict (py_get "approved_target" approved_state) = Some approved ∧
    (Forall (call_ok strict approved) [allowed_call; readonly_call] ∨
     drift_approved strict no_text (human_says "no") approved_state approved
       [allowed_call; readonly_call]).
Proof.
  eapply (screener_pass_sound strict no_text (human_says "no") approved_state VNone VNone
           [allowed_call; readonly_call] [HumanMessage "inject"]).
  - reflexivity.
  - done.
  - vm_compute. reflexivity.
  - reflexivity.
Defined.

(** With enforcement on and no approval on record, a batch passes only if the
    classifier raised on a call or took it as read-only, for every call. *)
Lemma unapproved_pass_cases cfg exc_text resume state content reasoning calls before d :
  target_guard_enforcing cfg = true → calls ≠ [] →
  approved_from_dict (py_get "approved_target" state) = Some None →
  tool_screener cfg exc_text resume (before ++ [AIMessage content reasoning calls]) state = Some d →
  routed d SCREENER_ROUTE_PASS →
  ∀ tc, tc ∈ calls →
    infer_effective_target (tc_name tc) (tc_args tc) (skill_script_default_allow cfg) = Raise ∨
    ∃ e, infer_effective_target (tc_name tc) (tc_args tc) (skill_script_default_allow cfg) = Some e ∧
         e_scope e = SCOPE_READONLY.
Proof.
  intros He Hne Hnone H Hr tc Htc. unfold tool_screener in H. rewrite last_snoc in H.
  destruct calls as [|tc0 calls]; [done|].
  apply screen_calls_cases in H as (approved & Ha & [(_ & _ & H)|[H _]]);
    [|by destruct (pass_not_retry d)|done].
  rewrite Hnone in Ha. injection Ha as <-. destruct H as [H|[(tc' & Hin & Hd) _]].
  - rewrite Forall_forall in H. specialize (H tc Htc). unfold call_ok in H. cbn [classify target_guard_ops] in H.
    destruct (infer_effective_target _ _ _) as [e|]; [|by left]. right. exists e. split; [done|].
    by apply judge_no_approval in H.
  - exfalso. unfold is_drift, screen_call in Hd.
    destruct (classify _ _ _) as [e|]; [|done]. cbn [sd_verdict] in Hd.
    apply String.eqb_eq, verdict_drift, judge_drift_approval in Hd as [a Hn]. done.
Qed.

(** Default deny, end to end: with enforcement on and no approval on
    record, a batch of calls with well-shaped arguments passes only if every
    call is read-only. *)
Theorem unapproved_pass_readonly cfg exc_text resume state content reasoning calls before d :
  target_guard_enforcing cfg = true → calls ≠ [] →
  approved_from_dict (py_get "approved_target" state) = Some None →
  (∀ tc, tc ∈ calls → args_ok (tc_name tc) (tc_args tc)) →
  tool_screener cfg exc_text resume (before ++ [AIMessage content reasoning calls]) state = Some d →
  routed d SCREENER_ROUTE_PASS →
  ∀ tc, tc ∈ calls → ∃ e,
    infer_effective_target (tc_name tc) (tc_args tc) (skill_script_default_allow cfg) = Some e ∧
    e_scope e = SCOPE_READONLY.
Proof.
  intros He Hne Hnone Hok H Hr tc Htc. destruct (unapproved_pass_cases _ _ _ _ _ _ _ _ _ He Hne Hnone H Hr tc Htc) as [Hx|?]; [|done].
  destruct (infer_total _ _ (skill_script_default_allow cfg) (Hok tc Htc)) as [e Ee]. rewrite Ee in Hx. discriminate Hx.
Qed.

Lemma unapproved_pass_readonly_witness :
  ∃ e, infer_effective_target "kubectl" (tc_args readonly_call) false = Some e ∧
       e_scope e = SCOPE_READONLY.
Proof.
  eapply (unapproved_pass_readonly strict no_text (human_says "no") [] VNone VNone
            [readonly_call] [] _ eq_refl) with (tc := readonly_call).
  - done.
  - reflexivity.
  - intros tc Htc. apply list_elem_of_singleton in Htc as ->.
    split; [intros E; discriminate E|]. intros _ Ht. vm_compute in Ht. discriminate Ht.
  - vm_compute. reflexivity.
  - reflexivity.
  - by apply list_elem_of_singleton.
Defined.

(** A well-formed conversation: when the screener sends a batch back,
    it answers every call of the batch, in order, with an error message
    that carries the call's id and name; when it passes the batch on, it
    adds no message. *)
Theorem screener_answers_every_call {G : TargetGuardOps} cfg exc_text resume state content reasoning
    calls before d :
  target_guard_enforcing cfg = true → calls ≠ [] →
  tool_screener cfg exc_text resume (before ++ [AIMessage content reasoning calls]) state = Some d →
  (routed d SCREENER_ROUTE_PASS ∧ dl_messages d = []) ∨
  (routed d SCREENER_ROUTE_RETRY ∧
   Forall2 (λ m tc, ∃ text, m = ToolMessage text (tc_name tc) (call_id tc) true) (dl_messages d) calls).
Proof.
  intros He Hne H. unfold tool_screener in H. rewrite last_snoc in H.
  destruct calls as [|tc0 calls0]; [done|]. revert H. generalize (tc0 :: calls0) as calls.
  intros calls H. apply screen_calls_cases in H as (approved & Ha & [(H1 & H2 & _)|[H1 H2]]);
    [by left| |done].
  right. split; [done|]. rewrite H2. rewrite map_map. clear.
  induction calls as [|tc calls IH]; [constructor|]. cbn [map]. constructor; [|done].
  unfold rejection_message, screen_call. destruct (classify _ _ _); by eexists.
Qed.

Lemma screener_answers_every_call_witness :
  ∃ d, tool_screener strict no_text (human_says "no")
         [AIMessage VNone VNone [drifted_call; readonly_call]] approved_state = Some d ∧
       ((routed d SCREENER_ROUTE_PASS ∧ dl_messages d = []) ∨
        (routed d SCREENER_ROUTE_RETRY ∧
         Forall2 (λ m tc, ∃ text, m = ToolMessage text (tc_name tc) (call_id tc) true)
           (dl_messages d) [drifted_call; readonly_call])).
Proof.
  eexists. split; [vm_compute; reflexivity|].
  eapply (screener_answers_every_call strict no_text (human_says "no") approved_state VNone VNone
            [drifted_call; readonly_call] []).
  - reflexivity.
  - done.
  - vm_compute. reflexivity.
Defined.

(** ** The drift budget *)

(** The state after a node's update. *)
Definition apply_delta (state : dict pyval) (d : Delta) : dict pyval :=
  dict_update state (dl_values d).

Definition drift_count (state : dict pyval) : Exc Z := py_int (py_get "drift_reject_count" state).

Lemma py_int_VInt z : py_int (VInt z) = Some z.
Proof. unfold py_int, py_or. simpl. destruct (Z.eqb_spec z 0); simpl; congruence. Qed.

Lemma drift_correction_shape bl state eff sd :
  _apply_drift_correction bl state eff = Some sd →
  sd = [] ∨ ∃ spec eff' approved, eff = Some eff' ∧ read_fault_spec state = Some (Some spec) ∧
    freeze_spec (correct_spec bl spec eff') = Some approved ∧
    sd = [("fault_spec", VDict (to_dict (correct_spec bl spec eff')));
          ("approved_target", opt_dict approved)].
Proof.
  unfold _apply_drift_correction. intros (spec & Hs & H)%bind_Some.
  destruct spec as [spec|], eff as [eff|]; try (injection H as <-; by left).
  cbv zeta in H. apply bind_Some in H as (a & Ha & H). injection H as <-. right.
  by exists spec, eff, a.
Qed.

Section budget.
Context {G : TargetGuardOps}.
Context (cfg : ScreenSettings) (exc_text : string → pyval → string)
        (resume : dict pyval → pyval).

(** A run of the screener on some conversation. *)
Inductive screener_step : dict pyval → dict pyval → Prop :=
  | screener_runs messages state d :
      tool_screener cfg exc_text resume messages state = Some d →
      screener_step state (apply_delta state d).

Definition within_budget (state : dict pyval) : Prop :=
  drift_count state = Some 0%Z ∨ drift_count state = Some 1%Z.

(** What a run does to the counter. *)
Lemma screener_count messages state d :
  tool_screener cfg exc_text resume messages state = Some d →
  drift_count (apply_delta state d) = drift_count state ∨
  (∃ n, drift_count state = Some n ∧ (n < 1)%Z ∧
        (drift_count (apply_delta state d) = Some (n + 1)%Z ∨
         drift_count (apply_delta state d) = Some 0%Z)).
Proof.
  assert (Hpass : ∀ ms r, drift_count (apply_delta state (mkDelta ms (route r))) = drift_count state).
  { intros. unfold drift_count, apply_delta. cbn. by rewrite py_get_set. }
  unfold tool_screener.
  destruct (last messages) as [[content reasoning [|tc calls]| | |]|];
    try (intros [= <-]; left; apply Hpass).
  unfold screen_calls. intros (approved & _ & H)%bind_Some. cbv zeta in H.
  case_if_in H; [injection H as <-; left; apply Hpass|].
  destruct (List.filter is_drift _) as [|first drifted]; [injection H as <-; left; apply Hpass|].
  unfold on_drift in H. apply bind_Some in H as (n & Hn & H). cbv zeta in H.
  assert (Hinc : (n < 1)%Z → ∀ ms, drift_count (apply_delta state (mkDelta ms
    (route SCREENER_ROUTE_RETRY ++ [("drift_reject_count", VInt (n + 1))]))) = Some (n + 1)%Z).
  { intros _ ms. unfold drift_count, apply_delta. cbn -[py_int]. rewrite py_get_set. cbn -[py_int].
    apply py_int_VInt. }
  destruct (Z.leb_spec 1 n) as [Hle|Hlt].
  { injection H as <-. left. unfold drift_count, apply_delta. cbn -[py_int].
    by rewrite !py_get_set. }
  right. exists n. split; [done|]. split; [done|].
  case_if_in H; [injection H as <-; left; by apply Hinc|].
  apply bind_Some in H as (reason & _ & H).
  case_if_in H; [|injection H as <-; left; by apply Hinc].
  apply bind_Some in H as (sd & Hsd & H). injection H as <-. right.
  unfold drift_count, apply_delta.
  apply drift_correction_shape in Hsd as [-> | (spec & eff & a & _ & _ & _ & ->)];
    cbn -[py_int to_dict]; rewrite !py_get_set; reflexivity.
Qed.

Lemma screener_steps_budget s s' : rtc screener_step s s' → within_budget s → within_budget s'.
Proof.
  induction 1 as [s | s s1 s' [messages state d Hd] _ IH]; [done|]. intros Hb. apply IH.
  destruct (screener_count _ _ _ Hd) as [Hc | (n & Hn & Hlt & Hc)].
  - unfold within_budget. by rewrite Hc.
  - destruct Hb as [Hb|Hb]; rewrite Hb in Hn; injection Hn as <-; [|lia].
    destruct Hc as [Hc|Hc]; [by right | by left].
Qed.
End budget.

(** One second chance: along any sequence of screener runs from a
    fresh counter, the drift counter never exceeds one; and when it is one,
    a further drift, in enforcing mode, ends the task with a
    user-rejection failure instead of asking or retrying again. *)
Theorem drift_budget {G : TargetGuardOps} cfg exc_text resume s0 s content reasoning tc calls before
    approved :
  rtc (screener_step cfg exc_text resume) s0 s → drift_count s0 = Some 0%Z →
  within_budget s ∧
  (drift_count s = Some 1%Z → target_guard_enforcing cfg = true →
   approved_from_dict (py_get "approved_target" s) = Some approved →
   tc ∈ calls → is_drift (screen_call cfg exc_text approved tc) = true →
   ∃ d, tool_screener cfg exc_text resume (before ++ [AIMessage content reasoning calls]) s = Some d ∧
        routed d SCREENER_ROUTE_RETRY ∧
        dict_get "error" (dl_values d) =
          Some (VStr "user_rejected: Target drift persists after user rejection; terminating.")).
Proof.
  intros Hs H0. split; [eapply screener_steps_budget; [done | by left]|].
  intros Hc He Ha Hin Hd. unfold tool_screener. rewrite last_snoc.
  destruct calls as [|c0 calls0]; [by apply elem_of_nil in Hin|].
  unfold screen_calls. rewrite Ha. cbn [mbind option_bind]. cbv zeta. rewrite He. cbn [negb orb].
  set (ds := map (screen_call cfg exc_text approved) (c0 :: calls0)).
  assert (Hds : In (screen_call cfg exc_text approved tc) (List.filter is_drift ds)).
  { apply filter_In. split; [|done]. apply in_map. by apply list_elem_of_In. }
  assert (Hex : existsb is_drift ds = true).
  { apply existsb_exists. exists (screen_call cfg exc_text approved tc).
    by apply filter_In in Hds. }
  rewrite Hex. cbn [negb orb]. destruct (List.filter is_drift ds) as [|f r]; [done|].
  unfold on_drift. unfold drift_count in Hc. rewrite Hc. cbn [mbind option_bind].
  eexists. split; [reflexivity|]. split; reflexivity.
Qed.

Lemma drift_budget_witness :
  within_budget (("drift_reject_count", VInt 0) :: approved_state).
Proof.
  eapply (drift_budget strict no_text (human_says "no") (("drift_reject_count", VInt 0) :: approved_state)
           _ VNone VNone drifted_call [drifted_call] [] None).
  - apply rtc_refl.
  - reflexivity.
Defined.

(** An approved drift never moves the specification into a blacklisted
    namespace, keeps the kind and the type of the fault, and stores the
    approval frozen from the corrected specification. *)
Theorem drift_correction_respects_blacklist bl state eff sd :
  _apply_drift_correction bl state eff = Some sd → sd ≠ [] →
  ∃ spec spec' approved,
    read_fault_spec state = Some (Some spec) ∧
    dict_get "fault_spec" sd = Some (VDict (to_dict spec')) ∧
    freeze_spec spec' = Some approved ∧ dict_get "approved_target" sd = Some (opt_dict approved) ∧
    (s_namespace spec' = s_namespace spec ∨ s_namespace spec' ∉ bl) ∧
    s_scope spec' = s_scope spec ∧ s_blade_target spec' = s_blade_target spec ∧
    s_blade_action spec' = s_blade_action spec ∧ s_params spec' = s_params spec.
Proof.
  intros H Hne. apply drift_correction_shape in H as [H | (spec & e & a & _ & Hs & Hf & ->)]; [done|].
  exists spec, (correct_spec bl spec e), a. split; [done|]. split; [done|]. split; [done|].
  split; [done|]. split; [|done]. unfold correct_spec. cbn.
  case_if; [|by left]. bool_to_prop. by right.
Qed.

(** A drift into a blacklisted namespace, approved by the user. *)
Definition blacklisted_drift : dict pyval :=
  default [] (_apply_drift_correction ["kube-system"] approved_state
                (Some (named_target "pod" "kube-system" ["dns-1"] ""))).

Lemma drift_correction_respects_blacklist_witness :
  ∃ spec spec' approved,
    read_fault_spec approved_state = Some (Some spec) ∧
    dict_get "fault_spec" blacklisted_drift = Some (VDict (to_dict spec')) ∧
    freeze_spec spec' = Some approved ∧
    dict_get "approved_target" blacklisted_drift = Some (opt_dict approved) ∧
    (s_namespace spec' = s_namespace spec ∨ s_namespace spec' ∉ ["kube-system"]) ∧
    s_scope spec' = s_scope spec ∧ s_blade_target spec' = s_blade_target spec ∧
    s_blade_action spec' = s_blade_action spec ∧ s_params spec' = s_params spec.
Proof.
  apply (drift_correction_respects_blacklist ["kube-system"] approved_state
           (Some (named_target "pod" "kube-system" ["dns-1"] "")) blacklisted_drift).
  - vm_compute. reflexivity.
  - vm_compute. discriminate.
Defined.

(** ** What passes the phase-1 screener *)

Section phase1_props.
Context {G : TargetGuardOps}.
Context (cfg : ScreenSettings).

Lemma phase1_call_None tc :
  phase1_call cfg tc = None ↔
  ∀ e, classify (tc_name tc) (args_or_empty (tc_args tc)) (skill_script_default_allow cfg) = Some e →
       e_scope e = SCOPE_READONLY.
Proof.
  unfold phase1_call. destruct (classify _ _ _) as [e|]; [|naive_solver].
  destruct (String.eqb_spec (e_scope e) SCOPE_READONLY); naive_solver.
Qed.

Lemma phase1_call_id tc m :
  phase1_call cfg tc = Some m → message_id m = call_id tc.
Proof.
  unfold phase1_call. destruct (classify _ _ _) as [e|]; [|done].
  case_if; [done|]. by intros [= <-].
Qed.

Lemma phase1_rejections_nil calls :
  phase1_rejections cfg calls = [] ↔ ∀ tc, tc ∈ calls → phase1_call cfg tc = None.
Proof.
  unfold phase1_rejections. induction calls as [|tc calls IH]; cbn; [set_solver|].
  destruct (phase1_call cfg tc) eqn:E.
  - split; [done|]. intros H. specialize (H tc (list_elem_of_here _ _)). congruence.
  - rewrite IH. setoid_rewrite elem_of_cons. naive_solver.
Qed.

(** The ids of the rejected and of the legitimate calls make up the batch. *)
Lemma phase1_ids_perm calls :
  map message_id (phase1_rejections cfg calls) ++ map snd (phase1_legitimate cfg calls)
    ≡ₚ map call_id calls.
Proof.
  unfold phase1_rejections, phase1_legitimate. induction calls as [|tc calls IH]; [done|].
  cbn [omap list_omap List.filter map]. destruct (phase1_call cfg tc) as [m|] eqn:E.
  - cbn [map app]. rewrite (phase1_call_id _ _ E). by apply Permutation_cons.
  - cbn [map snd]. rewrite <- Permutation_middle. by apply Permutation_cons.
Qed.

(** With distinct ids, no legitimate call shares the id of a rejected one. *)
Lemma phase1_skips_all calls :
  NoDup (map call_id calls) →
  List.filter (λ p, negb (p.2 ∈? map message_id (phase1_rejections cfg calls)))
    (phase1_legitimate cfg calls) = phase1_legitimate cfg calls.
Proof.
  intros Hnd. rewrite <- (phase1_ids_perm calls) in Hnd.
  apply NoDup_app in Hnd as (_ & Hdis & _). apply forallb_filter_id, forallb_forall.
  intros p Hp. apply negb_true_iff, str_in_false. intros Hin. apply (Hdis _ Hin).
  apply list_elem_of_fmap. exists p. split; [done | by apply list_elem_of_In].
Qed.
End phase1_props.

(** Planning is read-only: in enforcing mode a batch passes the phase-1
    screener only if every call whose arguments are well-shaped is
    classified read-only. *)
Theorem phase1_pass_readonly cfg content reasoning calls before tc :
  phase1_screener_enforcing cfg = true → tc ∈ calls →
  args_ok (tc_name tc) (args_or_empty (tc_args tc)) →
  routed (phase1_screener cfg (before ++ [AIMessage content reasoning calls])) SCREENER_ROUTE_PASS →
  ∃ e, infer_effective_target (tc_name tc) (args_or_empty (tc_args tc))
         (skill_script_default_allow cfg) = Some e ∧ e_scope e = SCOPE_READONLY.
Proof.
  intros He Hin Hok. unfold phase1_screener. rewrite last_snoc.
  destruct calls as [|c0 calls0]; [by apply elem_of_nil in Hin|].
  destruct (infer_total _ _ (skill_script_default_allow cfg) Hok) as [e Ee].
  destruct (phase1_rejections cfg (c0 :: calls0)) as [|m ms] eqn:Er.
  - intros _. exists e. split; [done|].
    rewrite phase1_rejections_nil in Er. specialize (Er tc Hin).
    rewrite phase1_call_None in Er. by apply Er.
  - rewrite He. intros H. discriminate H.
Qed.

Lemma phase1_pass_readonly_witness :
  ∃ e, infer_effective_target "kubectl" (tc_args readonly_call) false = Some e ∧
       e_scope e = SCOPE_READONLY.
Proof.
  apply (phase1_pass_readonly strict VNone VNone [readonly_call] [HumanMessage "inject"] readonly_call).
  - reflexivity.
  - by apply list_elem_of_singleton.
  - split; [intros E; discriminate E|]. intros _ Ht. vm_compute in Ht. discriminate Ht.
  - vm_compute. reflexivity.
Defined.

(** A rejected planning batch is answered completely: when the ids of
    the calls are distinct, the messages carry exactly these ids, each
    once. *)
Theorem phase1_answers_every_call {G : TargetGuardOps} cfg content reasoning calls before :
  NoDup (map call_id calls) →
  let d := phase1_screener cfg (before ++ [AIMessage content reasoning calls]) in
  (routed d SCREENER_ROUTE_PASS ∧ dl_messages d = []) ∨
  (routed d SCREENER_ROUTE_RETRY ∧ map message_id (dl_messages d) ≡ₚ map call_id calls).
Proof.
  intros Hnd. unfold phase1_screener. rewrite last_snoc.
  destruct calls as [|c0 calls0]; [by left|].
  destruct (phase1_rejections cfg (c0 :: calls0)) as [|m ms] eqn:Er; [by left|].
  destruct (phase1_screener_enforcing cfg); [|by left]. right. split; [done|].
  cbn [negb dl_messages]. rewrite <- Er, phase1_skips_all by done.
  rewrite map_app, map_map. cbn [message_id _make_skipped_message].
  rewrite <- (phase1_ids_perm cfg (c0 :: calls0)). done.
Qed.

Lemma phase1_answers_every_call_witness :
  let d := phase1_screener strict ([] ++ [AIMessage VNone VNone [drifted_call; readonly_call]]) in
  (routed d SCREENER_ROUTE_PASS ∧ dl_messages d = []) ∨
  (routed d SCREENER_ROUTE_RETRY ∧
   map message_id (dl_messages d) ≡ₚ map call_id [drifted_call; readonly_call]).
Proof.
  apply (phase1_answers_every_call strict VNone VNone [drifted_call; readonly_call] []).
  by apply (bool_decide_unpack _), I.
Defined.

(** ** Two ways around the phase-2 screener *)

(** Approving a drift passes the whole batch on, a banned call included. *)
Lemma drift_approval_releases_banned :
  ∃ d, tool_screener strict no_text (human_says "approved")
         [AIMessage VNone VNone [drifted_call; banned_call]] approved_state = Some d ∧
       routed d SCREENER_ROUTE_PASS.
Proof. eexists. split; [vm_compute; reflexivity | reflexivity]. Qed.

(** A [blade_create] whose labels are a list crashes the classifier and
    passes unscreened, also without an approval on record. *)
Lemma list_labels_fail_open :
  ∃ d, tool_screener strict no_text (human_says "no")
         [AIMessage VNone VNone
            [mkCall "blade_create" (VDict [("scope", VStr "node"); ("target", VStr "cpu");
               ("action", VStr "fullload"); ("labels", VList [VStr "a=b"])]) (Some "x")]] [] = Some d ∧
       routed d SCREENER_ROUTE_PASS.
Proof. eexists. split; [vm_compute; reflexivity | reflexivity]. Qed.

(** ** The keys a screener writes *)

Definition SCREENER_KEYS : list string :=
  ["drift_reject_count"; "fault_spec"; "approved_target"; "failure_detail"; "error"].

Lemma tool_screener_shape {G : TargetGuardOps} cfg exc_text resume messages state d :
  tool_screener cfg exc_text resume messages state = Some d →
  ∃ r rest, dl_values d = route r ++ rest ∧ ∀ k, k ∈ dict_keys rest → k ∈ SCREENER_KEYS.
Proof.
  assert (Hplain : ∀ r, ∃ r' rest, route r = route r' ++ rest ∧
    ∀ k, k ∈ dict_keys rest → k ∈ SCREENER_KEYS).
  { intros r. exists r, []. split; [done|]. intros k Hk. by apply elem_of_nil in Hk. }
  assert (Hkeys : ∀ r rest, forallb (λ k, k ∈? SCREENER_KEYS) (dict_keys rest) = true →
    ∃ r' rest', route r ++ rest = route r' ++ rest' ∧ ∀ k, k ∈ dict_keys rest' → k ∈ SCREENER_KEYS).
  { intros r rest Hf. exists r, rest. split; [done|]. rewrite forallb_forall in Hf.
    intros k Hk. by apply str_in_spec, Hf, list_elem_of_In. }
  unfold tool_screener.
  destruct (last messages) as [[content reasoning [|tc calls]| | |]|]; try (intros [= <-]; apply Hplain).
  unfold screen_calls. intros (approved & _ & H)%bind_Some. cbv zeta in H.
  case_if_in H; [injection H as <-; apply Hplain|].
  destruct (List.filter is_drift _) as [|first drifted]; [injection H as <-; apply Hplain|].
  unfold on_drift in H. apply bind_Some in H as (n & _ & H). cbv zeta in H.
  case_if_in H; [injection H as <-; by apply Hkeys|].
  case_if_in H; [injection H as <-; by apply Hkeys|].
  apply bind_Some in H as (reason & _ & H).
  case_if_in H; [|injection H as <-; by apply Hkeys].
  apply bind_Some in H as (sd & Hsd & H). injection H as <-.
  apply drift_correction_shape in Hsd as [-> | (spec & eff & a & _ & _ & _ & ->)]; by apply Hkeys.
Qed.

Lemma phase1_screener_shape {G : TargetGuardOps} cfg messages :
  ∃ r, dl_values (phase1_screener cfg messages) = route r.
Proof.
  unfold phase1_screener.
  destruct (last messages) as [[content reasoning [|tc calls]| | |]|]; try by eexists.
  destruct (phase1_rejections cfg (tc :: calls)); [by eexists|].
  destruct (phase1_screener_enforcing cfg); by eexists.
Qed.
