(* ===== verification/Router.v ===== *)
(** * The conditional edges (agent/router.py)

    Every router is a function of the graph state; [None] is an exception.
    The clock is an argument. *)

From stdpp Require Import base list strings sets.
From Stdlib Require Import ZArith Ascii SpecFloat.
From S2P Require Import Prelude.
From S2P Require Import PyValue.
From S2P Require Import PyFloat.
From S2P Require Import FaultSpec.
From S2P Require Import Failure.

(** The graph state: the conversation, and the other keys. *)
Record GState := mkState {
  g_messages : list Message;
  g_values : dict pyval;
}.

Record RouterSettings := mkRouter {
  max_inject_seconds : Z;
  max_replan_count : Z;
  replan_auto_trigger : bool;
  max_agent_loop : Z;
  max_execute_loop : Z;
  max_verifier_loop : Z;
  max_recover_verifier_loop : Z;
}.

Definition END : string := "__end__".

(** ** Reading the state *)

Definition get (k : string) (s : GState) : pyval := py_get k (g_values s).

(** [state.get(k) == lit] for a string literal, and [if state.get(k)]. *)
Definition is_str (k lit : string) (s : GState) : bool :=
  match get k s with VStr t => String.eqb t lit | _ => false end.

Definition on (k : string) (s : GState) : bool := py_truthy (get k s).

(** [x >= z] and [x > z] of a float and an integer, exactly. *)
Definition float_ge_Z (x : spec_float) (z : Z) : bool :=
  match x with
  | S754_zero _ => (z <=? 0)%Z
  | S754_infinity s => negb s
  | S754_nan => false
  | S754_finite s m e =>
      let a := (if s then Zneg m else Zpos m) in
      if (0 <=? e)%Z then (z <=? a * 2 ^ e)%Z else (z * 2 ^ (- e) <=? a)%Z
  end.

Definition float_gt_Z (x : spec_float) (z : Z) : bool :=
  match x with
  | S754_zero _ => (z <? 0)%Z
  | S754_infinity s => negb s
  | S754_nan => false
  | S754_finite s m e =>
      let a := (if s then Zneg m else Zpos m) in
      if (0 <=? e)%Z then (z <? a * 2 ^ e)%Z else (z * 2 ^ (- e) <? a)%Z
  end.

(** [state.get(k, 0) >= n]; comparing anything but a number raises. *)
Definition count_ge (k : string) (s : GState) (n : Z) : Exc bool :=
  match dict_get k (g_values s) with
  | None => Some (n <=? 0)%Z
  | Some (VInt z) => Some (n <=? z)%Z
  | Some (VBool b) => Some (n <=? (if b then 1 else 0))%Z
  | Some (VFloat r) => Some (float_ge_Z (float_of_repr r) n)
  | Some _ => Raise
  end.

(** [float(v or 0.0)]. *)
Definition py_float (v : pyval) : Exc spec_float :=
  let of_Z z := binary_normalize prec emax z 0 false in
  match py_or v (VFloat "0.0") with
  | VFloat r => Some (float_of_repr r)
  | VInt z => Some (of_Z z)
  | VBool b => Some (of_Z (if b then 1 else 0)%Z)
  | VStr s => py_float_of_string (strip s)
  | _ => Raise
  end.

(** The tool calls of the last message; [last_ai] says whether it is an AI
    message. *)
Definition last_calls (s : GState) : list ToolCall :=
  match last (g_messages s) with Some (AIMessage _ _ calls) => calls | _ => [] end.

Definition has_calls (s : GState) : bool := match last_calls s with [] => false | _ => true end.

Definition last_ai (s : GState) : bool :=
  match last (g_messages s) with Some (AIMessage _ _ _) => true | _ => false end.

Section routers.
Context (cfg : RouterSettings) (now : spec_float).

Definition _wall_clock_exceeded (s : GState) : Exc bool :=
  let budget := max_inject_seconds cfg in
  if (budget <=? 0)%Z then Some false
  else
    started ← py_float (get "pipeline_started_at" s);
    if negb (float_gt_Z started 0) then Some false
    else Some (float_gt_Z (SFsub prec emax now started) budget).

(** [result.get(k)] and the two writes of [mark_wall_clock_timeout]. *)
Definition mark_wall_clock_timeout (s : GState) (result : dict pyval) : Exc (dict pyval) :=
  exceeded ← _wall_clock_exceeded s;
  if negb exceeded then Some result
  else
    let budget := str_of_Z (max_inject_seconds cfg) in
    let r1 := if py_truthy (py_get "error" result) then result
              else dict_set "error" (VStr ("wall-clock timeout (" +:+ budget +:+ "s)")) result in
    if py_truthy (py_get "failure_detail" r1) then Some r1
    else
      let detail := py_get "failure_detail" (fail_state WALL_CLOCK_TIMEOUT ("budget=" +:+ budget +:+ "s") []) in
      Some (if dict_mem "failure_detail" r1 then r1 else dict_set "failure_detail" detail r1).

(** [error_msg] is [VNone] or the error of the state; classifying an error
    that is no text raises. *)
Definition _should_replan (s : GState) (error_msg : pyval) : Exc bool :=
  over ← count_ge "replan_count" s (max_replan_count cfg);
  if (over : bool) then Some false
  else if on "replan_requested" s then Some true
  else if py_truthy error_msg && replan_auto_trigger cfg then
    match error_msg with
    | VStr m => Some (should_auto_replan m)
    | _ => Raise
    end
  else Some false.

Definition should_continue_agent_loop (s : GState) : Exc string :=
  timeout ← _wall_clock_exceeded s;
  if (timeout : bool) then Some "reject"
  else
    over ← count_ge "agent_loop_count" s (max_agent_loop cfg);
    if (over : bool) then Some "reject"
    else if is_str "safety_status" "rejected" s then Some "reject"
    else if on "error" s then Some "reject"
    else if has_calls s then Some "continue"
    else if last_ai s then
      Some (if on "skill_name" s then "extract_planning_metadata" else "continue")
    else if on "plan" s && on "skill_name" s then Some "extract_planning_metadata"
    else Some "continue".

(** The loop over the trailing tool messages of a batch: [decide] answers
    for a message that is no error. *)
Fixpoint scan_tools (verdict : string → option string) (fallback : string)
    (l : list Message) : string :=
  match l with
  | ToolMessage _ name _ is_error :: l' =>
      if (is_error : bool) then scan_tools verdict fallback l'
      else match verdict name with
           | Some r => r
           | None => scan_tools verdict fallback l'
           end
  | _ => fallback
  end.

Definition route_after_phase1_tools (s : GState) : string :=
  scan_tools
    (λ name,
      if name ∈? ["finish_planning"; "save_fault_plan"] then Some "extract_planning_metadata"
      else if String.eqb name "propose_plan_change" && on "replan_context" s
      then Some "plan_change_confirm" else None)
    "agent_loop" (rev (g_messages s)).

Definition should_continue_execute_loop (s : GState) : Exc string :=
  timeout ← _wall_clock_exceeded s;
  if (timeout : bool) then Some "end"
  else
    over ← count_ge "execute_loop_count" s (max_execute_loop cfg);
    replan ← _should_replan s VNone;
    if (over : bool) then Some (if (replan : bool) then "replan" else "end")
    else if (replan : bool) then Some "replan"
    else if on "error" s then
      replan' ← _should_replan s (get "error" s);
      Some (if (replan' : bool) then "replan" else "end")
    else if has_calls s then Some "continue"
    else if last_ai s then
      Some (if on "blade_uid" s then "verifier"
            else if on "injection_method" s then "verifier" else "continue")
    else Some "continue".

Definition route_after_safety (s : GState) : string :=
  if is_str "safety_status" "rejected" s then "reject"
  else if on "dry_run" s then "confirmation_gate"
  else if on "needs_confirmation" s then "confirmation_gate"
  else if is_str "safety_status" "safe" s then "baseline_capture"
  else "confirmation_gate".

Definition route_after_confirmation (s : GState) : string :=
  if is_str "safety_status" "rejected" s then "reject"
  else if on "dry_run" s then "end"
  else "baseline_capture".

Definition route_after_baseline (s : GState) : string :=
  if on "direct" s then "direct_execute" else "execute_loop".

Definition should_continue_verifier (s : GState) : Exc string :=
  if on "verification" s then Some "done"
  else
    timeout ← _wall_clock_exceeded s;
    if (timeout : bool) then Some "done"
    else
      over ← count_ge "verifier_loop_count" s (max_verifier_loop cfg);
      if (over : bool) then Some "finalize"
      else if has_calls s then Some "continue"
      else if last_ai s then Some "finalize"
      else Some "continue".

Definition route_after_verifier_tools (s : GState) : string :=
  scan_tools (λ name, if String.eqb name "submit_verification" then Some "finalize" else None)
    "verifier_loop" (rev (g_messages s)).

Definition route_after_finalize (s : GState) : string :=
  if on "verification" s then "se_detect" else "verifier_loop".

Definition should_continue_recover_verifier (s : GState) : Exc string :=
  if on "recover_verification" s then Some "done"
  else
    timeout ← _wall_clock_exceeded s;
    if (timeout : bool) then Some "done"
    else
      over ← count_ge "verifier_loop_count" s (max_recover_verifier_loop cfg);
      if (over : bool) then Some (if on "layer2_context_added" s then "finalize" else "done")
      else if has_calls s then Some "continue"
      else if last_ai s then
        Some (if on "layer2_context_added" s then "finalize" else "continue")
      else Some "continue".

Definition route_after_recover_verifier_tools (s : GState) : string :=
  scan_tools
    (λ name, if String.eqb name "submit_recover_verification" then Some "finalize" else None)
    "recover_verifier_loop" (rev (g_messages s)).

Definition route_after_recover_finalize (s : GState) : string :=
  if on "recover_verification" s then "done" else "recover_verifier_loop".

Definition _spec_ready_for_execute (s : GState) : Exc bool :=
  if negb (on "plan_confirmed" s) then Some false
  else if negb (on "skill_name" s) then Some false
  else
    spec ← read_fault_spec (g_values s);
    Some (match spec with Some sp => is_complete sp | None => false end).

Definition route_after_load_memory (s : GState) : Exc string :=
  if on "direct" s then Some "direct_setup"
  else if on "dry_run" s && is_str "interaction_mode" "tui" s then Some "plan_builder"
  else
    ready ← (if negb (on "dry_run" s) && is_str "interaction_mode" "tui" s
             then _spec_ready_for_execute s else Some false);
    if (ready : bool) then Some "safety_check"
    else if is_str "interaction_mode" "tui" s then Some "intent_clarification"
    else Some "agent_loop".

Definition route_after_intent_clarification (s : GState) : string :=
  if is_str "confirmed_intent" "inject" s then "agent_loop"
  else if is_str "confirmed_intent" "recover" s then "recover_handler"
  else if is_str "confirmed_intent" "chat" s then "save_memory"
  else "intent_clarification".

Definition should_continue_intent_clarification (s : GState) : string :=
  if is_str "confirmed_intent" "inject" s then "intent_confirm"
  else if is_str "confirmed_intent" "recover" s then "recover_handler"
  else if is_str "confirmed_intent" "chat" s then "save_memory"
  else if has_calls s then "continue"
  else END.

Definition should_continue_plan_builder (s : GState) : string :=
  if has_calls s then "continue" else END.

Definition route_after_intent_confirm (s : GState) : string :=
  if is_str "confirmed_intent" "inject" s && on "fault_spec" s then "agent_loop" else END.

Definition route_after_direct_execute (s : GState) : string :=
  if on "blade_uid" s then "verifier"
  else if on "error" s then "end"
  else "verifier".
End routers.
