(* ===== verification/Graph.v ===== *)
(** * The inject and recover graphs (agent/graph.py)

    The wiring of the nodes as a step relation: a configuration is the node
    about to run and the state; a step runs the node and follows the edge
    the router picks on the updated state.  The two screeners run as
    modelled; the other nodes may do anything to the state.  [None] of an
    edge function is an exception: a router that raises, or a result that is
    no key of the edge map. *)

From stdpp Require Import base list strings sets relations.
From Stdlib Require Import ZArith Ascii SpecFloat.
From S2P Require Import Prelude.
From S2P Require Import PyValue.
From S2P Require Import PyFloat.
From S2P Require Import TargetTypes.
From S2P Require Import Classifier.
From S2P Require Import Freeze.
From S2P Require Import FaultSpec.
From S2P Require Import Failure.
From S2P Require Import Screener.
From S2P Require Import Router.

Inductive Node :=
  | N_load_memory | N_intent_clarification | N_plan_builder | N_clarification_tools
  | N_plan_builder_tools | N_agent_loop | N_phase1_screener | N_phase1_tools
  | N_extract_planning_metadata | N_plan_change_confirm | N_direct_setup | N_baseline_capture
  | N_se_snapshot | N_safety_check | N_confirmation_gate | N_execute_loop | N_direct_execute
  | N_tool_screener | N_phase2_tools | N_verifier_loop | N_finalize_verification
  | N_verifier_tools | N_se_detect | N_save_memory | N_reject | N_recover_handler
  | N_intent_confirm
  | N_recover_verifier_loop | N_finalize_recover_verification | N_recover_verifier_tools
  | N_end.

#[global] Instance Node_eq_dec : EqDecision Node.
Proof. solve_decision. Defined.

(** An edge map: from the router's answers to nodes. *)
Abbreviation edge_map := (list (string * Node)).

Definition follow (m : edge_map) (r : Exc string) : Exc Node := k ← r; dict_get k m.

Section graph.
Context (rcfg : RouterSettings) (now : spec_float).
(** Whether the graph was built with clarification and verifier tools. *)
Context (clarification_tools verifier_tools : bool).

(** ** Edges of the inject graph: intent and planning *)

Definition load_memory_edges : edge_map :=
  [("agent_loop", N_agent_loop); ("direct_setup", N_direct_setup);
   ("intent_clarification", N_intent_clarification); ("plan_builder", N_plan_builder);
   ("safety_check", N_safety_check)].

Definition intent_clarification_next (s : GState) : Exc Node :=
  if clarification_tools
  then follow [("continue", N_clarification_tools); ("intent_confirm", N_intent_confirm);
               ("recover_handler", N_recover_handler); ("save_memory", N_save_memory);
               (END, N_end)]
              (Some (should_continue_intent_clarification s))
  else follow [("agent_loop", N_agent_loop); ("recover_handler", N_recover_handler);
               ("save_memory", N_save_memory); ("intent_clarification", N_intent_clarification)]
              (Some (route_after_intent_clarification s)).

Definition plan_builder_next (s : GState) : Exc Node :=
  if clarification_tools
  then follow [("continue", N_plan_builder_tools); (END, N_end)]
              (Some (should_continue_plan_builder s))
  else Some N_end.

Definition agent_loop_edges : edge_map :=
  [("continue", N_phase1_screener); ("extract_planning_metadata", N_extract_planning_metadata);
   ("reject", N_reject)].

(** The router of the phase-1 screener returns the state value itself. *)
Definition phase1_screener_next (s : GState) : Exc Node :=
  match route_after_phase1_screener (g_values s) with
  | VStr r => follow [("pass", N_phase1_tools); ("retry", N_agent_loop)] (Some r)
  | _ => Raise
  end.

Definition phase1_tools_edges : edge_map :=
  [("agent_loop", N_agent_loop); ("extract_planning_metadata", N_extract_planning_metadata);
   ("plan_change_confirm", N_plan_change_confirm)].

(** The lambda behind [extract_planning_metadata]. *)
Definition after_planning_metadata (s : GState) : string :=
  if on "error" s then "reject"
  else if on "planning_rejected" s then "agent_loop" else "safety_check".

Definition planning_metadata_edges : edge_map :=
  [("agent_loop", N_agent_loop); ("safety_check", N_safety_check); ("reject", N_reject)].

(** ** Edges of the inject graph: safety, execution, verification *)

Definition safety_edges : edge_map :=
  [("confirmation_gate", N_confirmation_gate); ("baseline_capture", N_baseline_capture);
   ("reject", N_reject)].

Definition confirmation_edges : edge_map :=
  [("baseline_capture", N_baseline_capture); ("reject", N_reject); ("end", N_end)].

Definition execute_loop_edges : edge_map :=
  [("continue", N_tool_screener); ("verifier", N_verifier_loop); ("end", N_save_memory);
   ("replan", N_agent_loop)].

Definition tool_screener_edges : edge_map :=
  [("pass", N_phase2_tools); ("replan", N_agent_loop); ("retry", N_execute_loop)].

Definition baseline_edges : edge_map :=
  [("direct_execute", N_direct_execute); ("execute_loop", N_execute_loop)].

Definition direct_execute_edges : edge_map :=
  [("verifier", N_verifier_loop); ("end", N_save_memory)].

Definition verifier_edges : edge_map :=
  [("continue", if verifier_tools then N_verifier_tools else N_finalize_verification);
   ("finalize", N_finalize_verification); ("done", N_se_detect)].

Definition verifier_tools_edges : edge_map :=
  [("verifier_loop", N_verifier_loop); ("finalize", N_finalize_verification)].

Definition finalize_edges : edge_map :=
  [("verifier_loop", N_verifier_loop); ("se_detect", N_se_detect)].

(** [build_inject_graph]: the edge out of a node, on the state it left. *)
Definition inject_next (n : Node) (s : GState) : Exc Node :=
  match n with
  | N_load_memory => follow load_memory_edges (route_after_load_memory s)
  | N_intent_clarification => intent_clarification_next s
  | N_clarification_tools => if clarification_tools then Some N_intent_clarification else Raise
  | N_plan_builder => plan_builder_next s
  | N_plan_builder_tools => if clarification_tools then Some N_plan_builder else Raise
  | N_intent_confirm =>
      follow [("agent_loop", N_agent_loop); (END, N_end)] (Some (route_after_intent_confirm s))
  | N_direct_setup => Some N_safety_check
  | N_agent_loop => follow agent_loop_edges (should_continue_agent_loop rcfg now s)
  | N_phase1_screener => phase1_screener_next s
  | N_phase1_tools => follow phase1_tools_edges (Some (route_after_phase1_tools s))
  | N_plan_change_confirm => Some N_agent_loop
  | N_extract_planning_metadata =>
      follow planning_metadata_edges (Some (after_planning_metadata s))
  | N_safety_check => follow safety_edges (Some (route_after_safety s))
  | N_confirmation_gate => follow confirmation_edges (Some (route_after_confirmation s))
  | N_execute_loop => follow execute_loop_edges (should_continue_execute_loop rcfg now s)
  | N_tool_screener =>
      follow tool_screener_edges (Some (route_after_screener (g_values s)))
  | N_phase2_tools => Some N_execute_loop
  | N_baseline_capture => Some N_se_snapshot
  | N_se_snapshot => follow baseline_edges (Some (route_after_baseline s))
  | N_direct_execute => follow direct_execute_edges (Some (route_after_direct_execute s))
  | N_verifier_loop => follow verifier_edges (should_continue_verifier rcfg now s)
  | N_verifier_tools =>
      if verifier_tools
      then follow verifier_tools_edges (Some (route_after_verifier_tools s)) else Raise
  | N_finalize_verification => follow finalize_edges (Some (route_after_finalize s))
  | N_se_detect => Some N_save_memory
  | N_save_memory => Some N_end
  | N_recover_handler => Some N_save_memory
  | N_reject => Some N_end
  | _ => Raise
  end.

End graph.

(** ** Running

    The parameters of a deployment are fixed, the clock is read anew at
    every edge. *)

(** The update of a node applied to the state: messages are appended. *)
Definition update (s : GState) (d : Delta) : GState :=
  mkState (g_messages s ++ dl_messages d) (dict_update (g_values s) (dl_values d)).

Definition Config : Type := Node * GState.

Section running.
Context (rcfg : RouterSettings) (clarification_tools verifier_tools : bool).
Context (scfg : ScreenSettings) (exc_text : string → pyval → string)
        (resume : dict pyval → pyval).
(** What the nodes other than the screeners may do to the state. *)
Context (node_effect : Node → GState → GState → Prop).

Inductive runs : Node → GState → GState → Prop :=
  | runs_tool_screener s d :
      tool_screener scfg exc_text resume (g_messages s) (g_values s) = Some d →
      runs N_tool_screener s (update s d)
  | runs_phase1_screener s :
      runs N_phase1_screener s (update s (phase1_screener scfg (g_messages s)))
  | runs_other n s s' :
      n ≠ N_tool_screener → n ≠ N_phase1_screener → node_effect n s s' → runs n s s'.

Inductive inject_step : Config → Config → Prop :=
  | inject_steps now n s s' n' :
      runs n s s' →
      inject_next rcfg now clarification_tools verifier_tools n s' = Some n' →
      inject_step (n, s) (n', s').


(** A run from the entry point, with the configurations passed so far, the
    latest first. *)
Inductive inject_run (s0 : GState) : list Config → Config → Prop :=
  | run_start : inject_run s0 [] (N_load_memory, s0)
  | run_step h c c' : inject_run s0 h c → inject_step c c' → inject_run s0 (c :: h) c'.

(** *** Where edges lead *)

Definition inject_targets (n : Node) : list Node :=
  match n with
  | N_load_memory => map snd load_memory_edges
  | N_intent_clarification =>
      [N_clarification_tools; N_intent_confirm; N_recover_handler; N_save_memory; N_end;
       N_agent_loop; N_intent_clarification]
  | N_clarification_tools => [N_intent_clarification]
  | N_plan_builder => [N_plan_builder_tools; N_end]
  | N_plan_builder_tools => [N_plan_builder]
  | N_intent_confirm => [N_agent_loop; N_end]
  | N_direct_setup => [N_safety_check]
  | N_agent_loop => map snd agent_loop_edges
  | N_phase1_screener => [N_phase1_tools; N_agent_loop]
  | N_phase1_tools => map snd phase1_tools_edges
  | N_plan_change_confirm => [N_agent_loop]
  | N_extract_planning_metadata => map snd planning_metadata_edges
  | N_safety_check => map snd safety_edges
  | N_confirmation_gate => map snd confirmation_edges
  | N_execute_loop => map snd execute_loop_edges
  | N_tool_screener => map snd tool_screener_edges
  | N_phase2_tools => [N_execute_loop]
  | N_baseline_capture => [N_se_snapshot]
  | N_se_snapshot => map snd baseline_edges
  | N_direct_execute => map snd direct_execute_edges
  | N_verifier_loop => [N_verifier_tools; N_finalize_verification; N_se_detect]
  | N_verifier_tools => map snd verifier_tools_edges
  | N_finalize_verification => map snd finalize_edges
  | N_se_detect | N_recover_handler => [N_save_memory]
  | N_save_memory | N_reject => [N_end]
  | _ => []
  end.

Lemma follow_target m r n : follow m r = Some n → n ∈ map snd m.
Proof.
  unfold follow. intros (k & _ & H)%bind_Some. apply dict_get_In in H.
  apply list_elem_of_fmap. by exists (k, n).
Qed.

Lemma inject_next_target now n s n' :
  inject_next rcfg now clarification_tools verifier_tools n s = Some n' → n' ∈ inject_targets n.
Proof.
  destruct n; cbn [inject_next inject_targets]; intros H; try done;
    try (injection H as <-; apply list_elem_of_singleton; done);
    try (apply follow_target in H; exact H).
  - unfold intent_clarification_next in H.
    destruct clarification_tools; apply follow_target in H; cbn in H; set_solver.
  - unfold plan_builder_next in H.
    destruct clarification_tools; [apply follow_target in H; exact H | injection H as <-; set_solver].
  - destruct clarification_tools; [injection H as <-; set_solver | done].
  - destruct clarification_tools; [injection H as <-; set_solver | done].
  - unfold phase1_screener_next in H.
    destruct (route_after_phase1_screener _); try done. by apply follow_target in H.
  - apply follow_target in H. destruct verifier_tools; cbn in H; set_solver.
  - destruct verifier_tools; [|done]. by apply follow_target in H.
Qed.

(** *** The way to execution *)

(** The nodes behind the baseline: those that can act on the cluster, and
    the ones between them. *)
Definition EXECUTION : list Node :=
  [N_se_snapshot; N_execute_loop; N_tool_screener; N_phase2_tools; N_direct_execute].

Lemma execution_pred n n' :
  n' ∈ inject_targets n → n' ∈ EXECUTION → n ∈ EXECUTION ∨ n = N_baseline_capture.
Proof.
  intros Ht He. assert (Hb : existsb (λ x, bool_decide (x = n')) (inject_targets n) = true).
  { apply existsb_exists. exists n'. split; [by apply list_elem_of_In | by apply bool_decide_true]. }
  assert (Hc : existsb (λ x, bool_decide (x = n')) EXECUTION = true).
  { apply existsb_exists. exists n'. split; [by apply list_elem_of_In | by apply bool_decide_true]. }
  clear Ht He. destruct n, n'; try discriminate Hb; try discriminate Hc;
    (by right) || (left; rewrite list_elem_of_In; cbn; tauto).
Qed.

Lemma baseline_pred n : N_baseline_capture ∈ inject_targets n → n = N_safety_check ∨ n = N_confirmation_gate.
Proof.
  intros Ht. assert (Hb : existsb (λ x, bool_decide (x = N_baseline_capture)) (inject_targets n) = true).
  { apply existsb_exists. exists N_baseline_capture.
    split; [by apply list_elem_of_In | by apply bool_decide_true]. }
  clear Ht. destruct n; try discriminate Hb; auto.
Qed.

(** Neither rejected nor a dry run. *)
Definition cleared (s : GState) : Prop :=
  is_str "safety_status" "rejected" s = false ∧ on "dry_run" s = false.

(** What the gate in front of the baseline established: a confirmation,
    or a check that found the request safe and asked for none. *)
Definition gate_passed (p : Node) (s : GState) : Prop :=
  cleared s ∧
  (p = N_confirmation_gate ∨
   p = N_safety_check ∧ is_str "safety_status" "safe" s = true ∧
   on "needs_confirmation" s = false).

Lemma baseline_gate now p s :
  inject_next rcfg now clarification_tools verifier_tools p s = Some N_baseline_capture →
  gate_passed p s.
Proof.
  intros H. pose proof (baseline_pred p (inject_next_target _ _ _ _ H)) as Hp.
  destruct Hp as [-> | ->]; cbn [inject_next] in H; unfold gate_passed, cleared.
  - unfold route_after_safety in H.
    destruct (is_str "safety_status" "rejected" s) eqn:E1; [discriminate H|].
    destruct (on "dry_run" s) eqn:E2; [discriminate H|].
    destruct (on "needs_confirmation" s) eqn:E3; [discriminate H|].
    destruct (is_str "safety_status" "safe" s) eqn:E4; [|discriminate H]. auto.
  - unfold route_after_confirmation in H.
    destruct (is_str "safety_status" "rejected" s) eqn:E1; [discriminate H|].
    destruct (on "dry_run" s) eqn:E2; [discriminate H|]. auto.
Qed.

(** The gate is on the path. *)
Definition gate_on_path (h : list Config) : Prop :=
  ∃ h1 s1 p sp h2, h = h1 ++ (N_baseline_capture, s1) :: (p, sp) :: h2 ∧ gate_passed p s1.

Lemma gate_on_path_cons c h : gate_on_path h → gate_on_path (c :: h).
Proof. intros (h1 & s1 & p & sp & h2 & -> & Hg). by exists (c :: h1), s1, p, sp, h2. Qed.

Lemma run_gate s0 h n s :
  inject_run s0 h (n, s) →
  (n ∈ EXECUTION → gate_on_path h) ∧
  (n = N_baseline_capture → ∃ p sp h', h = (p, sp) :: h' ∧ gate_passed p s).
Proof.
  intros Hr. remember (n, s) as c eqn:Ec. revert n s Ec.
  induction Hr as [|h c c' Hr IH Hs]; intros n s Ec.
  - injection Ec as <- <-. split; [|done]. rewrite list_elem_of_In. cbn. intuition discriminate.
  - destruct Hs as [now n1 s1 s1' n1' Hruns Hnext]. injection Ec as -> ->.
    destruct (IH n1 s1 eq_refl) as [IH1 IH2]. split.
    + intros He. destruct (execution_pred n1 n) as [Hn | ->];
        [by eapply inject_next_target | done | by apply gate_on_path_cons, IH1 |].
      destruct (IH2 eq_refl) as (p & sp & h' & -> & Hg). by exists [], s1, p, sp, h'.
    + intros ->. exists n1, s1, h. split; [done|]. by eapply baseline_gate.
Qed.
End running.

(** Nothing executes without clearance: on every run of the inject
    graph, whatever the nodes do to the state, an execution node is reached
    only behind a baseline capture that was entered from the confirmation
    gate or from a safety check that found the request safe, in a state that
    was neither rejected nor a dry run. *)
Theorem execution_requires_clearance rcfg ct vt scfg exc_text resume node_effect s0 h n s :
  inject_run rcfg ct vt scfg exc_text resume node_effect s0 h (n, s) →
  n ∈ EXECUTION →
  ∃ h1 s1 p sp h2,
    h = h1 ++ (N_baseline_capture, s1) :: (p, sp) :: h2 ∧
    is_str "safety_status" "rejected" s1 = false ∧ on "dry_run" s1 = false ∧
    (p = N_confirmation_gate ∨
     p = N_safety_check ∧ is_str "safety_status" "safe" s1 = true ∧
     on "needs_confirmation" s1 = false).
Proof.
  intros Hr He. destruct (run_gate _ _ _ _ _ _ _ _ _ _ _ Hr) as [Hg _].
  destruct (Hg He) as (h1 & s1 & p & sp & h2 & -> & [[Hc1 Hc2] Hp]).
  exists h1, s1, p, sp, h2. auto.
Qed.

(** Nodes that leave the state alone, a direct-mode request found safe, and
    the run it takes. *)
Definition idle_effect (_ : Node) (s s' : GState) : Prop := s' = s.

Definition default_router : RouterSettings := mkRouter 1800 2 true 100 100 60 60.

Definition direct_state : GState :=
  mkState [] [("direct", VBool true); ("safety_status", VStr "safe")].

Definition direct_history : list Config :=
  [(N_se_snapshot, direct_state); (N_baseline_capture, direct_state);
   (N_safety_check, direct_state); (N_direct_setup, direct_state); (N_load_memory, direct_state)].

(** One step of the sample runs. *)
Ltac idle_step :=
  eapply run_step;
  [| eapply (inject_steps _ _ _ _ _ _ _ (S754_zero false));
     [apply runs_other; [discriminate | discriminate | reflexivity] | vm_compute; reflexivity]].

Lemma direct_run :
  inject_run default_router true true strict no_text (human_says "no") idle_effect direct_state
    direct_history (N_direct_execute, direct_state).
Proof. unfold direct_history. do 5 idle_step. apply run_start. Defined.

Lemma execution_requires_clearance_witness :
  ∃ h1 s1 p sp h2,
    direct_history = h1 ++ (N_baseline_capture, s1) :: (p, sp) :: h2 ∧
    is_str "safety_status" "rejected" s1 = false ∧ on "dry_run" s1 = false ∧
    (p = N_confirmation_gate ∨
     p = N_safety_check ∧ is_str "safety_status" "safe" s1 = true ∧
     on "needs_confirmation" s1 = false).
Proof.
  eapply (execution_requires_clearance default_router true true strict no_text (human_says "no")
            idle_effect direct_state direct_history N_direct_execute direct_state).
  - exact direct_run.
  - rewrite list_elem_of_In. cbn. tauto.
Defined.

(** ** Tools run behind their screener *)

(** The route a delta sets is the route of the updated state. *)
Lemma update_route s d r rest :
  dl_values d = route r ++ rest → "screener_route" ∉ dict_keys rest →
  py_get "screener_route" (g_values (update s d)) = VStr r.
Proof.
  intros Hd Hr. unfold py_get, update. cbn [g_values]. rewrite Hd.
  change (route r ++ rest) with (("screener_route", VStr r) :: rest).
  change (dict_update ?x (?kv :: rest)) with (dict_update (dict_set kv.1 kv.2 x) rest).
  rewrite update_get_notin by done. rewrite dict_get_set. done.
Qed.

Lemma update_routed s d r :
  routed d r → (∃ r' rest, dl_values d = route r' ++ rest ∧
                ∀ k, k ∈ dict_keys rest → k ∈ SCREENER_KEYS) →
  py_get "screener_route" (g_values (update s d)) = VStr r.
Proof.
  intros Hr (r' & rest & Hd & Hk).
  rewrite (update_route s d r' rest Hd).
  - unfold routed in Hr. rewrite Hd in Hr. cbn in Hr. congruence.
  - intros H. apply Hk, str_in_spec in H. discriminate H.
Qed.

Lemma last_calls_update s d : dl_messages d = [] → last_calls (update s d) = last_calls s.
Proof. intros Hd. unfold last_calls, update. cbn. by rewrite Hd, app_nil_r. Qed.

Lemma last_calls_snoc s :
  last_calls s ≠ [] →
  ∃ before content reasoning, g_messages s = before ++ [AIMessage content reasoning (last_calls s)].
Proof.
  unfold last_calls. destruct (last (g_messages s)) as [[c r calls| | |]|] eqn:E; try done.
  intros _. apply last_Some in E as [before ->]. by exists before, c, r.
Qed.

Section screened_tools.
Context (rcfg : RouterSettings) (ct vt : bool) (scfg : ScreenSettings)
        (exc_text : string → pyval → string) (resume : dict pyval → pyval)
        (node_effect : Node → GState → GState → Prop).

Lemma phase2_pred n : N_phase2_tools ∈ inject_targets n → n = N_tool_screener.
Proof. rewrite list_elem_of_In. destruct n; cbn; intuition discriminate. Qed.

Lemma phase1_pred n : N_phase1_tools ∈ inject_targets n → n = N_phase1_screener.
Proof. rewrite list_elem_of_In. destruct n; cbn; intuition discriminate. Qed.

Lemma last_step s0 h n s :
  inject_run rcfg ct vt scfg exc_text resume node_effect s0 h (n, s) → n ≠ N_load_memory →
  ∃ n0 s1 h' now, h = (n0, s1) :: h' ∧ runs scfg exc_text resume node_effect n0 s1 s ∧
    inject_next rcfg now ct vt n0 s = Some n.
Proof.
  intros Hr Hn. remember (n, s) as c eqn:Ec. destruct Hr as [|h c0 c' Hr Hs].
  - injection Ec as <- <-. done.
  - destruct Hs as [now n1 s1 s1' n1' Hruns Hnext]. injection Ec as -> ->.
    by exists n1, s1, h, now.
Qed.

(** The screener's verdict on the batch that reaches the tools. *)
Lemma tool_screener_entry s1 s now :
  target_guard_enforcing scfg = true →
  runs scfg exc_text resume node_effect N_tool_screener s1 s →
  inject_next rcfg now ct vt N_tool_screener s = Some N_phase2_tools →
  last_calls s = last_calls s1 ∧
  (last_calls s = [] ∨
   ∃ approved, approved_from_dict (get "approved_target" s1) = Some approved ∧
     (Forall (call_ok scfg approved) (last_calls s) ∨
      drift_approved scfg exc_text resume (g_values s1) approved (last_calls s))).
Proof.
  intros He Hrun Hnext. inversion Hrun as [s1' d Hd E1 E2 | |n' ? ? Hne]; subst; [|done].
  destruct (last_calls s1) as [|tc calls] eqn:Ec.
  { unfold tool_screener in Hd. unfold last_calls in Ec.
    destruct (last (g_messages s1)) as [[c r cl| | |]|] eqn:El; try (injection Hd as <-);
      try (subst cl; injection Hd as <-); rewrite last_calls_update by done;
      unfold last_calls; rewrite El; auto. }
  destruct (last_calls_snoc s1) as (before & c & r & Hm); [by rewrite Ec|].
  assert (Hcalls : last_calls s1 ≠ []) by (by rewrite Ec).
  pose proof (tool_screener_shape _ _ _ _ _ _ Hd) as Hshape.
  unfold tool_screener in Hd. rewrite Hm, last_snoc, Ec in Hd.
  apply screen_calls_cases in Hd as (approved & Ha & [(Hr & Hmsg & Hok)|[Hr _]]); [| |done].
  - rewrite last_calls_update, Ec by done. split; [done|]. right. by exists approved.
  - exfalso. pose proof (update_routed s1 d _ Hr Hshape) as Hget.
    cbn [inject_next] in Hnext. unfold route_after_screener in Hnext. rewrite Hget in Hnext.
    discriminate Hnext.
Qed.
End screened_tools.

(** C1. Every tool call that reaches the execution tools was screened: on
    every run of the inject graph in enforcing mode, when the execution tools
    are entered, the last node was the tool screener, and for each pending
    call the classifier raised or the guard allowed it against the approval
    on record, unless a human approved a drift. *)
Theorem phase2_tools_screened rcfg ct vt scfg exc_text resume node_effect s0 h s :
  target_guard_enforcing scfg = true →
  inject_run rcfg ct vt scfg exc_text resume node_effect s0 h (N_phase2_tools, s) →
  ∃ s1 h', h = (N_tool_screener, s1) :: h' ∧ last_calls s = last_calls s1 ∧
    (last_calls s = [] ∨
     ∃ approved, approved_from_dict (get "approved_target" s1) = Some approved ∧
       (Forall (call_ok scfg approved) (last_calls s) ∨
        drift_approved scfg exc_text resume (g_values s1) approved (last_calls s))).
Proof.
  intros He Hr.
  destruct (last_step _ _ _ _ _ _ _ _ _ _ _ Hr) as (n0 & s1 & h' & now & -> & Hrun & Hnext); [done|].
  assert (n0 = N_tool_screener) as -> by (by eapply phase2_pred, inject_next_target).
  exists s1, h'. split; [done|]. by eapply tool_screener_entry.
Qed.

(** A run of the natural-language mode up to the execution tools: the state
    carries an approval and a pending read-only call. *)
Definition pending_state : GState :=
  mkState [AIMessage VNone VNone [allowed_call; readonly_call]]
    (("safety_status", VStr "safe") :: ("direct", VBool false) :: ("skill_name", VStr "pod-cpu") ::
     ("plan_confirmed", VBool true) :: approved_state).

Definition screened_state : GState :=
  update pending_state (mkDelta [] (route SCREENER_ROUTE_PASS)).

Definition pending_history : list Config :=
  [(N_tool_screener, pending_state); (N_execute_loop, pending_state);
   (N_se_snapshot, pending_state); (N_baseline_capture, pending_state);
   (N_safety_check, pending_state); (N_load_memory, pending_state)].

Lemma pending_run :
  inject_run default_router true true strict no_text (human_says "no") idle_effect pending_state
    pending_history (N_phase2_tools, screened_state).
Proof.
  unfold pending_history. eapply run_step.
  2: { eapply (inject_steps _ _ _ _ _ _ _ (S754_zero false));
         [apply runs_tool_screener; vm_compute; reflexivity | vm_compute; reflexivity]. }
  do 5 idle_step. apply run_start.
Defined.

Lemma phase2_tools_screened_witness :
  ∃ s1 h', pending_history = (N_tool_screener, s1) :: h' ∧
    last_calls screened_state = last_calls s1 ∧
    (last_calls screened_state = [] ∨
     ∃ approved, approved_from_dict (get "approved_target" s1) = Some approved ∧
       (Forall (call_ok strict approved) (last_calls screened_state) ∨
        drift_approved strict no_text (human_says "no") (g_values s1) approved
          (last_calls screened_state))).
Proof. eapply phase2_tools_screened; [reflexivity | exact pending_run]. Defined.

(** ** Planning tools are read-only *)

Lemma phase1_rejects_seen {G : TargetGuardOps} cfg before c r calls tc e :
  phase1_screener_enforcing cfg = true → tc ∈ calls →
  classify (tc_name tc) (args_or_empty (tc_args tc)) (skill_script_default_allow cfg) = Some e →
  e_scope e ≠ SCOPE_READONLY →
  routed (phase1_screener cfg (before ++ [AIMessage c r calls])) SCREENER_ROUTE_RETRY.
Proof.
  intros He Hin Hc Hs. unfold phase1_screener. rewrite last_snoc.
  destruct calls as [|c0 cs]; [by apply elem_of_nil in Hin|].
  destruct (phase1_rejections cfg (c0 :: cs)) as [|m ms] eqn:Er; [|by rewrite He].
  rewrite phase1_rejections_nil in Er. specialize (Er tc Hin).
  rewrite phase1_call_None in Er. by destruct Hs; apply Er.
Qed.

Lemma phase1_cases {G : TargetGuardOps} cfg messages :
  let d := phase1_screener cfg messages in
  routed d SCREENER_ROUTE_PASS ∧ dl_messages d = [] ∨ routed d SCREENER_ROUTE_RETRY.
Proof.
  unfold phase1_screener.
  destruct (last messages) as [[c r [|c0 cs]| | |]|]; try by left.
  destruct (phase1_rejections cfg (c0 :: cs)); [by left|].
  destruct (phase1_screener_enforcing cfg); [by right | by left].
Qed.

(** The planning tools are entered on a pass only. *)
Lemma phase1_entry {G : TargetGuardOps} scfg s1 :
  let d := phase1_screener scfg (g_messages s1) in
  phase1_screener_next (update s1 d) = Some N_phase1_tools →
  routed d SCREENER_ROUTE_PASS ∧ dl_messages d = [].
Proof.
  cbv zeta. intros Hnext. destruct (phase1_cases scfg (g_messages s1)) as [H|Hr]; [done|exfalso].
  destruct (phase1_screener_shape scfg (g_messages s1)) as [r0 Hv].
  assert (Hget : py_get "screener_route"
    (g_values (update s1 (phase1_screener scfg (g_messages s1)))) = VStr SCREENER_ROUTE_RETRY).
  { apply update_routed; [done|]. exists r0, []. rewrite app_nil_r. split; [done|].
    intros k Hk. by apply elem_of_nil in Hk. }
  unfold phase1_screener_next, route_after_phase1_screener in Hnext. unfold py_get in Hget.
  destruct (dict_get "screener_route" _) as [v|]; [|done]. subst v. discriminate Hnext.
Qed.

(** C33. Planning never mutates: on every run of the inject graph with the
    phase-1 screener enforcing, a call that reaches the planning tools is
    classified read-only, or the classifier raised on it. *)
Theorem phase1_tools_readonly rcfg ct vt scfg exc_text resume node_effect s0 h s tc e :
  phase1_screener_enforcing scfg = true →
  inject_run rcfg ct vt scfg exc_text resume node_effect s0 h (N_phase1_tools, s) →
  tc ∈ last_calls s →
  infer_effective_target (tc_name tc) (args_or_empty (tc_args tc))
    (skill_script_default_allow scfg) = Some e →
  e_scope e = SCOPE_READONLY.
Proof.
  intros He Hr Hin Hc.
  destruct (last_step _ _ _ _ _ _ _ _ _ _ _ Hr) as (n0 & s1 & h' & now & -> & Hrun & Hnext); [done|].
  assert (n0 = N_phase1_screener) as -> by (by eapply phase1_pred, inject_next_target).
  inversion Hrun as [|s1' E1 E2|n' ? ? _ Hne]; subst; [|done].
  destruct (phase1_entry scfg s1 Hnext) as [Hpass Hmsg].
  rewrite last_calls_update in Hin by done.
  destruct (String.eqb_spec (e_scope e) SCOPE_READONLY) as [|Hs]; [done|exfalso].
  destruct (last_calls_snoc s1) as (before & c & r & Hm).
  { intros E. rewrite E in Hin. by apply elem_of_nil in Hin. }
  rewrite Hm in Hpass. apply (pass_not_retry _ Hpass). by eapply phase1_rejects_seen.
Qed.

Definition planning_state : GState :=
  mkState [AIMessage VNone VNone [readonly_call]] [("interaction_mode", VStr "cli")].

Lemma planning_run :
  inject_run default_router true true strict no_text (human_says "no") idle_effect planning_state
    [(N_phase1_screener, planning_state); (N_agent_loop, planning_state);
     (N_load_memory, planning_state)]
    (N_phase1_tools, update planning_state (mkDelta [] (route SCREENER_ROUTE_PASS))).
Proof.
  eapply run_step.
  2: { eapply (inject_steps _ _ _ _ _ _ _ (S754_zero false));
         [apply runs_phase1_screener | vm_compute; reflexivity]. }
  do 2 idle_step. apply run_start.
Defined.

Lemma phase1_tools_readonly_witness :
  e_scope (readonly_target (_format_raw_command "kubectl" (tc_args readonly_call))) = SCOPE_READONLY.
Proof.
  eapply (phase1_tools_readonly _ _ _ strict _ _ _ _ _ _ readonly_call).
  - reflexivity.
  - exact planning_run.
  - by apply list_elem_of_singleton.
  - vm_compute. reflexivity.
Defined.

(** ** Dry runs *)

Lemma update_keeps s d k :
  (∃ r rest, dl_values d = route r ++ rest ∧ ∀ k, k ∈ dict_keys rest → k ∈ SCREENER_KEYS) →
  k ∉ "screener_route" :: SCREENER_KEYS → get k (update s d) = get k s.
Proof.
  intros (r & rest & Hd & Hk) Hn. unfold get, py_get, update. cbn [g_values].
  rewrite update_get_notin; [done|]. rewrite Hd. unfold dict_keys, route. cbn [map app fst].
  intros [->|Hin]%elem_of_cons; [destruct Hn; by left|]. destruct Hn. right. by apply Hk.
Qed.

Section dry_run.
Context (rcfg : RouterSettings) (ct vt : bool) (scfg : ScreenSettings)
        (exc_text : string → pyval → string) (resume : dict pyval → pyval)
        (node_effect : Node → GState → GState → Prop).
(** No node writes the [dry_run] flag of the request. *)
Hypothesis keeps_dry_run :
  ∀ n s s', node_effect n s s' → get "dry_run" s' = get "dry_run" s.

Lemma runs_keeps_dry_run n s s' :
  runs scfg exc_text resume node_effect n s s' → get "dry_run" s' = get "dry_run" s.
Proof using keeps_dry_run.
  destruct 1 as [s d Hd | s | n s s' _ _ He].
  - apply update_keeps; [by eapply tool_screener_shape | by apply str_in_false].
  - apply update_keeps; [|by apply str_in_false].
    destruct (phase1_screener_shape scfg (g_messages s)) as [r ->]. exists r, [].
    rewrite app_nil_r. split; [done|]. intros k Hk. by apply elem_of_nil in Hk.
  - by eapply keeps_dry_run.
Qed.

Lemma run_dry s0 h c :
  inject_run rcfg ct vt scfg exc_text resume node_effect s0 h c →
  get "dry_run" c.2 = get "dry_run" s0 ∧ Forall (λ c', get "dry_run" c'.2 = get "dry_run" s0) h.
Proof using keeps_dry_run.
  induction 1 as [|h c c' Hr [IH1 IH2] Hs]; [by split|].
  destruct Hs as [now n s s' n' Hruns _]. cbn in *. split; [|by constructor].
  by rewrite (runs_keeps_dry_run _ _ _ Hruns).
Qed.

(** A dry run never executes: since no node changes the [dry_run]
    flag, a run that starts with it set never reaches an execution node. *)
Theorem dry_run_never_executes s0 h n s :
  on "dry_run" s0 = true →
  inject_run rcfg ct vt scfg exc_text resume node_effect s0 h (n, s) → n ∉ EXECUTION.
Proof using keeps_dry_run.
  intros Hd Hr Hn. destruct (run_dry _ _ _ Hr) as [_ Hh].
  destruct (proj1 (run_gate _ _ _ _ _ _ _ _ _ _ _ Hr) Hn)
    as (h1 & s1 & p & sp & h2 & -> & [[_ Hdry] _]).
  apply Forall_app in Hh as [_ Hh]. apply Forall_cons in Hh as [Hs1 _]. cbn in Hs1.
  unfold on in *. rewrite Hs1, Hd in Hdry. discriminate Hdry.
Qed.
End dry_run.

Definition dry_state : GState := mkState [] [("direct", VBool true); ("dry_run", VBool true)].

Lemma dry_run_never_executes_witness : N_confirmation_gate ∉ EXECUTION.
Proof.
  eapply (dry_run_never_executes default_router true true strict no_text (human_says "no") idle_effect)
    with (s0 := dry_state) (s := dry_state)
         (h := [(N_safety_check, dry_state); (N_direct_setup, dry_state); (N_load_memory, dry_state)]).
  - intros n s s' ->. reflexivity.
  - reflexivity.
  - do 3 idle_step. apply run_start.
Defined.

(** ** The recover graph *)



