(* ===== verification/LoopBounds.v ===== *)
(** * The planning-loop budget (agent/nodes/agent_loop.py)

    The counter part of the planning node: the iteration count it computes,
    the reset after a replan, and the node's own limit check.  Together with
    the router this bounds the number of planning iterations, as long as no
    replan has happened. *)

From stdpp Require Import base list strings sets.
From Stdlib Require Import ZArith Ascii SpecFloat.
From S2P Require Import Prelude.
From S2P Require Import PyValue.
From S2P Require Import PyFloat.
From S2P Require Import Failure.
From S2P Require Import Screener.
From S2P Require Import Router.
From S2P Require Import Graph.

(** [state.get(k, 0)] of a counter of the state. *)
Definition counter (k : string) (s : GState) : Z :=
  match dict_get k (g_values s) with Some (VInt z) => z | Some (VBool true) => 1 | _ => 0 end.

(** [replan_context is not None and replan_count > 0]. *)
Definition is_replan (s : GState) : bool :=
  match get "replan_context" s with VNone => false | _ => true end &&
  (0 <? counter "replan_count" s)%Z.

Definition next_agent_loop_count (s : GState) : Z :=
  if is_replan s then 1 else (counter "agent_loop_count" s + 1)%Z.

(** What the node writes: beyond the limit a rejection, otherwise the new
    count.  [max_loop] is [MAX_AGENT_LOOP]. *)
Definition agent_loop_counts (max_loop : Z) (s s' : GState) : Prop :=
  let count := next_agent_loop_count s in
  if (max_loop <? count)%Z
  then is_str "safety_status" "rejected" s' = true
  else dict_get "agent_loop_count" (g_values s') = Some (VInt count).

Definition is_agent_loop (c : Config) : bool := bool_decide (c.1 = N_agent_loop).

Definition planning_iterations (h : list Config) : Z :=
  Z.of_nat (length (List.filter is_agent_loop h)).

Lemma planning_iterations_cons n s h :
  planning_iterations ((n, s) :: h) =
  ((if bool_decide (n = N_agent_loop) then 1 else 0) + planning_iterations h)%Z.
Proof.
  unfold planning_iterations. cbn [List.filter]. unfold is_agent_loop at 1. cbn [fst].
  destruct (bool_decide (n = N_agent_loop)); cbn [length]; lia.
Qed.

Section bound.
Context (rcfg : RouterSettings) (ct vt : bool) (scfg : ScreenSettings)
        (exc_text : string → pyval → string) (resume : dict pyval → pyval)
        (node_effect : Node → GState → GState → Prop).
Hypothesis agent_loop_effect :
  ∀ s s', node_effect N_agent_loop s s' → agent_loop_counts (max_agent_loop rcfg) s s'.
(** The other nodes do not write the counter. *)
Hypothesis count_frame :
  ∀ n s s', n ≠ N_agent_loop → node_effect n s s' →
            counter "agent_loop_count" s' = counter "agent_loop_count" s.

Lemma counter_update s d k :
  (∃ r rest, dl_values d = route r ++ rest ∧ ∀ k, k ∈ dict_keys rest → k ∈ SCREENER_KEYS) →
  k ∉ "screener_route" :: SCREENER_KEYS → counter k (update s d) = counter k s.
Proof using.
  intros (r & rest & Hd & Hk) Hn. unfold counter, update. cbn [g_values].
  rewrite update_get_notin; [done|]. rewrite Hd. unfold dict_keys, route. cbn [map app fst].
  intros [->|Hin]%elem_of_cons; [destruct Hn; by left|]. destruct Hn. right. by apply Hk.
Qed.

Lemma runs_count n s s' :
  n ≠ N_agent_loop → runs scfg exc_text resume node_effect n s s' →
  counter "agent_loop_count" s' = counter "agent_loop_count" s.
Proof using count_frame.
  intros Hn Hr. destruct Hr as [s d Hd | s | n s s' _ _ He].
  - apply counter_update; [by eapply tool_screener_shape | by apply str_in_false].
  - apply counter_update; [|by apply str_in_false].
    destruct (phase1_screener_shape scfg (g_messages s)) as [r ->]. exists r, [].
    rewrite app_nil_r. split; [done|]. intros k Hk. by apply elem_of_nil in Hk.
  - by eapply count_frame.
Qed.

(** After its last allowed iteration the planning node is left for the
    rejection. *)
Lemma agent_loop_exit now s' n' :
  counter "agent_loop_count" s' = max_agent_loop rcfg → (0 < max_agent_loop rcfg)%Z →
  inject_next rcfg now ct vt N_agent_loop s' = Some n' → n' = N_reject.
Proof using.
  intros Hc Hm Hnext. cbn [inject_next] in Hnext. unfold follow in Hnext.
  apply bind_Some in Hnext as (r & Hr & Hd). unfold should_continue_agent_loop in Hr.
  apply bind_Some in Hr as (t & _ & Hr). destruct t; [injection Hr as <-; by injection Hd|].
  apply bind_Some in Hr as (o & Ho & Hr).
  assert (o = true) as ->.
  { unfold count_ge in Ho. unfold counter in Hc.
    destruct (dict_get "agent_loop_count" (g_values s')) as [[|[]| | | | | |]|]; cbv iota in Hc, Ho; try lia;
      injection Ho as <-; rewrite Hc; apply Z.leb_refl. }
  injection Hr as <-. by injection Hd.
Qed.

Definition done_node (n : Node) : Prop := n = N_reject ∨ n = N_end.

Lemma done_next now n s n' :
  done_node n → inject_next rcfg now ct vt n s = Some n' → done_node n' ∧ n ≠ N_agent_loop.
Proof using.
  intros [-> | ->]; cbn; [|done]. intros [= <-]. split; [by right | done].
Qed.

Lemma planning_invariant s0 h c :
  (1 <= max_agent_loop rcfg)%Z → counter "agent_loop_count" s0 = 0%Z →
  inject_run rcfg ct vt scfg exc_text resume node_effect s0 h c →
  Forall (λ c', is_replan c'.2 = false) h →
  counter "agent_loop_count" c.2 = planning_iterations h ∧
  (done_node c.1 ∧ (planning_iterations h <= max_agent_loop rcfg)%Z ∨
   (planning_iterations h < max_agent_loop rcfg)%Z).
Proof using agent_loop_effect count_frame.
  intros Hm H0. induction 1 as [|h c c' Hr IH Hs]; intros Hf.
  { split; [done|]. right. change (planning_iterations []) with 0%Z. lia. }
  apply Forall_cons in Hf as [Hc Hf]. destruct (IH Hf) as [Hcnt Hb]. clear IH.
  destruct Hs as [now n s s' n' Hruns Hnext]. cbn [fst snd] in *.
  rewrite planning_iterations_cons. destruct (bool_decide (n = N_agent_loop)) eqn:En.
  - apply bool_decide_eq_true in En as ->.
    destruct Hb as [[[Hd|Hd] _]|Hlt]; [discriminate Hd | discriminate Hd |].
    inversion Hruns as [| |n1 ? ? _ _ He]; subst.
    pose proof (agent_loop_effect _ _ He) as Hw. unfold agent_loop_counts in Hw.
    unfold next_agent_loop_count in Hw. rewrite Hc, Hcnt in Hw.
    rewrite (proj2 (Z.ltb_ge _ _)) in Hw by lia.
    assert (Hcnt' : counter "agent_loop_count" s' = (1 + planning_iterations h)%Z)
      by (unfold counter; rewrite Hw; lia).
    split; [done|].
    destruct (Z.eq_dec (counter "agent_loop_count" s') (max_agent_loop rcfg)) as [E|E].
    + left. split; [|lia]. left. eapply agent_loop_exit; [done|lia|done].
    + right. lia.
  - apply bool_decide_eq_false in En. rewrite (runs_count _ _ _ En Hruns). split; [done|].
    destruct Hb as [[Hd Hle]|Hlt]; [|by right]. left. split; [|done].
    by eapply done_next.
Qed.
End bound.

(** Planning terminates: as long as no replan is under way, a run
    visits the planning loop at most [max_agent_loop] times. *)
Theorem planning_loop_bounded rcfg ct vt scfg exc_text resume node_effect s0 h c :
  (∀ s s', node_effect N_agent_loop s s' → agent_loop_counts (max_agent_loop rcfg) s s') →
  (∀ n s s', n ≠ N_agent_loop → node_effect n s s' →
             counter "agent_loop_count" s' = counter "agent_loop_count" s) →
  (1 <= max_agent_loop rcfg)%Z → counter "agent_loop_count" s0 = 0%Z →
  inject_run rcfg ct vt scfg exc_text resume node_effect s0 h c →
  Forall (λ c', is_replan c'.2 = false) h →
  (planning_iterations h <= max_agent_loop rcfg)%Z.
Proof.
  intros He Hf Hm H0 Hr Hn.
  destruct (planning_invariant rcfg ct vt scfg exc_text resume node_effect He Hf s0 h c Hm H0 Hr Hn)
    as [_ [[_ H]|H]]; [done | lia].
Qed.

(** The effect of the nodes in the sample runs: the planning node counts,
    the others leave the state alone. *)
Definition counting_effect (max_loop : Z) (n : Node) (s s' : GState) : Prop :=
  match n with
  | N_agent_loop =>
      s' = if (max_loop <? next_agent_loop_count s)%Z
           then mkState (g_messages s) (dict_set "safety_status" (VStr "rejected") (g_values s))
           else mkState (g_messages s)
                  (dict_set "agent_loop_count" (VInt (next_agent_loop_count s)) (g_values s))
  | _ => s' = s
  end.

Lemma counting_effect_agent max_loop s s' :
  counting_effect max_loop N_agent_loop s s' → agent_loop_counts max_loop s s'.
Proof.
  cbn. intros ->. unfold agent_loop_counts. destruct (max_loop <? next_agent_loop_count s)%Z.
  - unfold is_str, get, py_get. cbn [g_values]. by rewrite dict_get_set.
  - cbn [g_values]. by rewrite dict_get_set.
Qed.

Lemma counting_effect_frame max_loop n s s' :
  n ≠ N_agent_loop → counting_effect max_loop n s s' →
  counter "agent_loop_count" s' = counter "agent_loop_count" s.
Proof. destruct n; cbn; try done; by intros _ ->. Qed.

Definition one_iteration : RouterSettings := mkRouter 0 2 true 1 100 60 60.

Lemma planning_loop_bounded_witness :
  (planning_iterations [(N_agent_loop, planning_state); (N_load_memory, planning_state)] <= 1)%Z.
Proof.
  apply (planning_loop_bounded one_iteration true true strict no_text (human_says "no")
           (counting_effect 1) planning_state _
           (N_reject, mkState (g_messages planning_state)
              (dict_set "agent_loop_count" (VInt 1) (g_values planning_state)))).
  - apply counting_effect_agent.
  - apply counting_effect_frame.
  - reflexivity.
  - reflexivity.
  - eapply run_step.
    2: { eapply (inject_steps _ _ _ _ _ _ _ (S754_zero false));
           [apply runs_other; [discriminate | discriminate | reflexivity] | vm_compute; reflexivity]. }
    eapply run_step.
    2: { eapply (inject_steps _ _ _ _ _ _ _ (S754_zero false));
           [apply runs_other; [discriminate | discriminate | reflexivity] | vm_compute; reflexivity]. }
    apply run_start.
  - repeat constructor.
Defined.

(** A state in the middle of a replan, with a pending read-only call. *)
Definition replan_state : GState :=
  mkState [AIMessage VNone VNone [readonly_call]]
    [("interaction_mode", VStr "cli"); ("replan_context", VDict [("error_summary", VStr "not found")]);
     ("replan_count", VInt 1); ("agent_loop_count", VInt 1); ("screener_route", VStr "pass")].

Definition default_budget : RouterSettings := mkRouter 0 2 true 100 100 60 60.

Lemma planning_cycle h :
  inject_run default_budget true true strict no_text (human_says "no") (counting_effect 100)
    replan_state h (N_agent_loop, replan_state) →
  inject_run default_budget true true strict no_text (human_says "no") (counting_effect 100)
    replan_state
    ((N_phase1_tools, replan_state) :: (N_phase1_screener, replan_state) ::
     (N_agent_loop, replan_state) :: h) (N_agent_loop, replan_state).
Proof.
  intros Hr. eapply run_step.
  2: { eapply (inject_steps _ _ _ _ _ _ _ (S754_zero false));
         [apply runs_other; [discriminate | discriminate | reflexivity] | vm_compute; reflexivity]. }
  eapply run_step.
  2: { eapply (inject_steps _ _ _ _ _ _ _ (S754_zero false) _ _ replan_state);
         [apply (runs_phase1_screener _ _ _ _ replan_state) | vm_compute; reflexivity]. }
  eapply run_step.
  2: { eapply (inject_steps _ _ _ _ _ _ _ (S754_zero false) _ _ replan_state);
         [apply runs_other; [discriminate | discriminate | reflexivity] | vm_compute; reflexivity]. }
  exact Hr.
Qed.

(** After a replan the planning bound is gone: the replan context stays
    in the state, so the planning node resets its counter to one on every
    iteration, and with the wall-clock budget disabled (the default) there
    are runs with any number of planning iterations. *)
Theorem planning_unbounded_after_replan (k : nat) :
  ∃ h, inject_run default_budget true true strict no_text (human_says "no") (counting_effect 100)
         replan_state h (N_agent_loop, replan_state) ∧ planning_iterations h = Z.of_nat k.
Proof.
  induction k as [|k (h & Hr & Hn)].
  - eexists. split; [|shelve]. eapply run_step; [apply run_start|].
    eapply (inject_steps _ _ _ _ _ _ _ (S754_zero false));
      [apply runs_other; [discriminate | discriminate | reflexivity] | vm_compute; reflexivity].
    Unshelve. reflexivity.
  - exists ((N_phase1_tools, replan_state) :: (N_phase1_screener, replan_state) ::
            (N_agent_loop, replan_state) :: h).
    split; [by apply planning_cycle|]. rewrite !planning_iterations_cons, Hn.
    rewrite !bool_decide_false by done. rewrite bool_decide_true by done. lia.
Qed.
