(* ===== verification/SafetyScore.v ===== *)
(** * The safety score (agent/safety_score.py)

    Four dimension scores, their weighted sum in binary64 arithmetic, and
    the escalation of the safety status.  The caller's context dict is the
    record [ScoreContext]; the current time enters as the hour and the
    weekday of the Beijing wall clock. *)

From stdpp Require Import base list strings sets.
From Stdlib Require Import ZArith Ascii SpecFloat.
From S2P Require Import Prelude.
From S2P Require Import PyValue.
From S2P Require Import PyFloat.
From S2P Require Import FaultSpec.

(** ** Tables *)

(** A decimal literal of the source as a binary64 value. *)
Definition lit (s : string) : spec_float := float_of_repr s.

Definition DEFAULT_WEIGHTS : dict spec_float :=
  [("blast_radius", lit "0.40"); ("topology", lit "0.30"); ("frequency", lit "0.20");
   ("time", lit "0.10")].

Definition _SCOPE_BASE : dict Z :=
  [("container", 10%Z); ("pod", 30%Z); ("deployment", 50%Z); ("service", 50%Z); ("node", 70%Z);
   ("namespace", 80%Z); ("cluster", 100%Z)].

Definition _PRODUCTION_NS_PATTERNS : list string := ["prod"; "production"; "live"].

Definition _CRITICAL_NAME_PATTERNS : list string :=
  ["api"; "db"; "database"; "redis"; "kafka"; "auth"; "gateway"; "ingress"].

Definition _CLUSTER_SCOPED_SCOPES : list string := ["node"; "cluster"].

(** [re.compile("[-_./]+").split]: the separators, then the tokens. *)
Definition name_sep (c : ascii) : bool :=
  Ascii.eqb c "-" || Ascii.eqb c "_" || Ascii.eqb c "." || Ascii.eqb c "/".

Fixpoint tokens_go (cur : string) (s : string) : list string :=
  match s with
  | EmptyString => if truthy cur then [cur] else []
  | String c s' =>
      if name_sep c
      then (if truthy cur then [cur] else []) ++ tokens_go EmptyString s'
      else tokens_go (cur +:+ String c EmptyString) s'
  end.

Definition _name_tokens (name : string) : list string := tokens_go EmptyString (lower name).

(** ** Records *)

Record DimensionScore := mkDim {
  value : Z;
  explanation : string;
}.

Record SafetyScore := mkScore {
  blast_radius : DimensionScore;
  frequency : DimensionScore;
  time_score : DimensionScore;
  topology : DimensionScore;
  overall : Z;
  level : string;
  weights : dict spec_float;
}.

Record ScoreContext := mkContext {
  c_conflicts : nat;
  c_attempt : Z;
  c_hour : Z;
  c_weekday : Z;
  c_deep : option (Z * string);
  c_br_scope : string;
  c_br_detail : string;
}.

Definition dim_dict (d : DimensionScore) : pyval :=
  VDict [("value", VInt (value d)); ("explanation", VStr (explanation d))].

Definition score_to_dict (s : SafetyScore) : dict pyval :=
  [("blast_radius", dim_dict (blast_radius s)); ("frequency", dim_dict (frequency s));
   ("time", dim_dict (time_score s)); ("topology", dim_dict (topology s));
   ("overall", VInt (overall s)); ("level", VStr (level s));
   ("weights", VDict (map (λ kv, (kv.1, VFloat (float_repr kv.2))) (weights s)))].

Definition _score_to_level (score : Z) : string :=
  if (score <? 30)%Z then "low"
  else if (score <? 60)%Z then "medium"
  else if (score <? 80)%Z then "high"
  else "critical".

(** ** Dimensions *)

Definition target_count (spec : FaultSpec) : Z * string :=
  if is_namespace_wide spec then (30%Z, "namespace-wide")
  else
    let n := length (s_names spec) in
    if Nat.leb n 1 then (0%Z, str_of_nat n +:+ " target")
    else if Nat.leb n 5 then (10%Z, str_of_nat n +:+ " targets")
    else if Nat.leb n 20 then (25%Z, str_of_nat n +:+ " targets")
    else (40%Z, str_of_nat n +:+ " targets").

Definition _score_blast_radius (spec : FaultSpec) (ctx : ScoreContext) : DimensionScore :=
  if negb (truthy (s_scope spec)) then mkDim 0 "no scope specified"
  else
    let scope_base := default 30%Z (dict_get (s_scope spec) _SCOPE_BASE) in
    let '(count_mod, count_desc) := target_count spec in
    let v := Z.min 100 (scope_base + count_mod) in
    let text := "scope=" +:+ s_scope spec +:+ " (" +:+ str_of_Z scope_base +:+ "), " +:+
                count_desc +:+ " (+" +:+ str_of_Z count_mod +:+ ")" in
    let detail := if truthy (c_br_detail ctx) then " [" +:+ c_br_detail ctx +:+ "]" else "" in
    if String.eqb (c_br_scope ctx) "cluster-wide" && (v <? 90)%Z
    then mkDim 90 (text +:+ "; execution=" +:+ c_br_scope ctx +:+ " (override→90)" +:+ detail)
    else if String.eqb (c_br_scope ctx) "namespace-wide" && (v <? 60)%Z
    then mkDim 60 (text +:+ "; execution=" +:+ c_br_scope ctx +:+ " (override→60)" +:+ detail)
    else mkDim v text.

Definition _score_frequency (ctx : ScoreContext) : DimensionScore :=
  let n := Z.of_nat (c_conflicts ctx) in
  let score := (Z.min 60 (n * 20) + (if 1 <=? c_attempt ctx then 30 else 0)
                + (if 3 <=? c_attempt ctx then 20 else 0))%Z in
  let parts :=
    (if (0 <? n)%Z then [str_of_Z n +:+ " active conflict(s)"] else []) ++
    (if (0 <? c_attempt ctx)%Z then ["attempt " +:+ str_of_Z (c_attempt ctx)] else []) in
  mkDim (Z.min 100 score)
    (join ", " (match parts with [] => ["no conflicts, first attempt"] | _ => parts end)).

(** [f"{hour:02d}"]. *)
Definition pad2 (z : Z) : string :=
  if ((0 <=? z) && (z <? 10))%Z then "0" +:+ str_of_Z z else str_of_Z z.

Definition _score_time (spec : FaultSpec) (ctx : ScoreContext) : DimensionScore :=
  let hour := c_hour ctx in
  let at_hour := " (" +:+ pad2 hour +:+ ":xx)" in
  let '(s1, p1) :=
    if ((9 <=? hour) && (hour <? 18))%Z then (50%Z, "business hours" +:+ at_hour)
    else if (((6 <=? hour) && (hour <? 9)) || ((18 <=? hour) && (hour <? 22)))%Z
    then (20%Z, "extended hours" +:+ at_hour)
    else (0%Z, "off-hours" +:+ at_hour) in
  let '(s2, p2) := if (c_weekday ctx <? 5)%Z then (20%Z, "weekday") else (0%Z, "weekend") in
  let duration := s_duration_seconds spec in
  let secs := " (" +:+ str_of_Z duration +:+ "s)" in
  let '(s3, p3) :=
    if (duration =? 0)%Z then (30%Z, "permanent injection")
    else if (600 <? duration)%Z then (20%Z, "long duration" +:+ secs)
    else if (60 <? duration)%Z then (10%Z, "moderate duration" +:+ secs)
    else (0%Z, "short duration" +:+ secs) in
  mkDim (Z.min 100 (s1 + s2 + s3)) (join ", " [p1; p2; p3]).

(** The first name one of whose tokens is a critical pattern; [lower] of a
    name that is no text raises. *)
Fixpoint critical_hit (names : list pyval) : Exc (option string) :=
  match names with
  | [] => Some None
  | VStr n :: names' =>
      if existsb (λ t, t ∈? _CRITICAL_NAME_PATTERNS) (_name_tokens n) then Some (Some n)
      else critical_hit names'
  | _ :: _ => Raise
  end.

Definition _score_topology (spec : FaultSpec) (ctx : ScoreContext) : Exc DimensionScore :=
  hit ← critical_hit (s_names spec);
  let production := existsb (λ p, contains p (lower (s_namespace spec))) _PRODUCTION_NS_PATTERNS in
  let cluster := s_scope spec ∈? _CLUSTER_SCOPED_SCOPES in
  let '(bonus, desc) :=
    match c_deep ctx with
    | Some (b, d) => if (0 <? b)%Z then (b, d) else (0%Z, "")
    | None => (0%Z, "")
    end in
  let parts :=
    (if production then ["production namespace '" +:+ s_namespace spec +:+ "'"] else []) ++
    (match hit with Some n => ["critical component '" +:+ n +:+ "'"] | None => [] end) ++
    (if cluster then ["cluster-scoped (" +:+ s_scope spec +:+ ")"] else []) ++
    (if truthy desc then [desc] else []) in
  let score := ((if production then 40 else 0) + (match hit with Some _ => 30 | None => 0 end)
                + (if cluster then 30 else 0) + bonus)%Z in
  Some (mkDim (Z.min 100 score)
          (join ", " (match parts with [] => ["no critical markers"] | _ => parts end))).

(** ** The weighted sum *)

Definition float_of_Z (z : Z) : spec_float := binary_normalize prec emax z 0 false.

(** [round(x)]: to the nearest integer, ties to even; it raises on
    infinities and NaN. *)
Definition float_round (x : spec_float) : Exc Z :=
  match x with
  | S754_zero _ => Some 0%Z
  | S754_finite s m e =>
      let a := (if 0 <=? e then Zpos m * 2 ^ e else div_round_even (Zpos m) (2 ^ (- e)))%Z in
      Some (if s then - a else a)%Z
  | _ => Raise
  end.

Definition weight (w : dict spec_float) (k : string) : spec_float :=
  match dict_get k w with
  | Some x => x
  | None => default S754_nan (dict_get k DEFAULT_WEIGHTS)
  end.

Definition raw_score (w : dict spec_float) (br fr tm tp : Z) : spec_float :=
  let mul v k := SFmul prec emax (float_of_Z v) (weight w k) in
  SFadd prec emax
    (SFadd prec emax (SFadd prec emax (mul br "blast_radius") (mul fr "frequency")) (mul tm "time"))
    (mul tp "topology").

Definition compute_safety_score (spec : FaultSpec) (ctx : ScoreContext)
    (ws : option (dict spec_float)) : Exc SafetyScore :=
  let w := match ws with Some ((_ :: _) as w) => w | _ => DEFAULT_WEIGHTS end in
  let br := _score_blast_radius spec ctx in
  let fr := _score_frequency ctx in
  let tm := _score_time spec ctx in
  tp ← _score_topology spec ctx;
  r ← float_round (raw_score w (value br) (value fr) (value tm) (value tp));
  let o := Z.max 0 (Z.min 100 r) in
  Some (mkScore br fr tm tp o (_score_to_level o) w).

Definition maybe_escalate_status (current : string) (score warning_thresh confirm_thresh : Z) : string :=
  if current ∈? ["rejected"; "confirm_required"] then current
  else if (confirm_thresh <=? score)%Z then "confirm_required"
  else if String.eqb current "safe" && (warning_thresh <=? score)%Z then "warning"
  else current.

(** ** Bounds *)

Definition in_range (d : DimensionScore) : Prop := (0 <= value d <= 100)%Z.

Lemma scope_base_bounds s : (0 <= default 30 (dict_get s _SCOPE_BASE) <= 100)%Z.
Proof.
  destruct (dict_get s _SCOPE_BASE) as [b|] eqn:E; [|simpl; lia].
  apply dict_get_In in E. unfold _SCOPE_BASE in E. rewrite !elem_of_cons, elem_of_nil in E.
  simpl. naive_solver lia.
Qed.

Lemma blast_radius_bounds spec ctx : in_range (_score_blast_radius spec ctx).
Proof.
  unfold _score_blast_radius, in_range. case_if; [simpl; lia|]. cbv zeta.
  pose proof (scope_base_bounds (s_scope spec)) as Hb.
  assert (Hc : (0 <= (target_count spec).1)%Z) by (unfold target_count; split_ifs; simpl; lia).
  destruct (target_count spec) as [m d]. cbn [fst] in Hc.
  split_ifs; cbn [value]; lia.
Qed.

Lemma frequency_bounds ctx : in_range (_score_frequency ctx).
Proof. unfold _score_frequency, in_range. cbv zeta. cbn [value]. split_ifs; lia. Qed.

Lemma time_bounds spec ctx : in_range (_score_time spec ctx).
Proof. unfold _score_time, in_range. cbv zeta. split_ifs; cbn [value]; lia. Qed.

Lemma topology_bounds spec ctx d : _score_topology spec ctx = Some d → in_range d.
Proof.
  unfold _score_topology, in_range. intros (hit & _ & H)%bind_Some. cbv zeta in H.
  assert (Hb : (0 <= (match c_deep ctx with
    | Some (b, d) => if (0 <? b)%Z then (b, d) else (0%Z, "") | None => (0%Z, "") end).1)%Z).
  { destruct (c_deep ctx) as [[b t]|]; [|simpl; lia].
    destruct (Z.ltb_spec 0 b); simpl; lia. }
  destruct (match c_deep ctx with Some _ => _ | None => _ end) as [bonus desc]. cbn [fst] in Hb.
  injection H as <-. cbn [value]. destruct hit; split_ifs; lia.
Qed.

(** Every dimension of a safety score and the overall score lie between
    0 and 100, for any specification, context and weights, and the level is
    the band of the overall score. *)
Theorem safety_score_bounds spec ctx ws s :
  compute_safety_score spec ctx ws = Some s →
  in_range (blast_radius s) ∧ in_range (frequency s) ∧ in_range (time_score s) ∧
  in_range (topology s) ∧ (0 <= overall s <= 100)%Z ∧ level s = _score_to_level (overall s).
Proof.
  unfold compute_safety_score. intros H. apply bind_Some in H as (tp & Ht & H).
  apply bind_Some in H as (r & _ & H). injection H as <-. cbn.
  split; [apply blast_radius_bounds|]. split; [apply frequency_bounds|].
  split; [apply time_bounds|]. split; [by eapply topology_bounds|]. split; [lia | done].
Qed.

Definition quiet_context : ScoreContext := mkContext 2 1 10 2 None "cluster-wide" "taints all nodes".

Lemma safety_score_bounds_witness :
  match compute_safety_score cli_spec quiet_context None with
  | Some s => in_range (blast_radius s) ∧ in_range (frequency s) ∧ in_range (time_score s) ∧
              in_range (topology s) ∧ (0 <= overall s <= 100)%Z ∧ level s = _score_to_level (overall s)
  | None => False
  end.
Proof.
  destruct (compute_safety_score cli_spec quiet_context None) as [s|] eqn:E.
  - exact (safety_score_bounds cli_spec quiet_context None s E).
  - vm_compute in E. discriminate E.
Defined.

(** ** Escalation *)

(** Severity of a status. *)
Definition rank (status : string) : Z :=
  if String.eqb status "rejected" then 3
  else if String.eqb status "confirm_required" then 2
  else if String.eqb status "warning" then 1
  else 0.

Lemma escalation_rank current score wt ct :
  (rank current <= rank (maybe_escalate_status current score wt ct))%Z.
Proof.
  unfold maybe_escalate_status.
  destruct (current ∈? ["rejected"; "confirm_required"]) eqn:E; [lia|]. bool_to_prop.
  destruct (ct <=? score)%Z.
  - change (rank "confirm_required") with 2%Z. unfold rank.
    destruct (String.eqb_spec current "rejected") as [->|]; [|split_ifs; lia].
    destruct E. by left.
  - destruct (String.eqb_spec current "safe") as [->|]; simpl; [|lia].
    destruct (wt <=? score)%Z; [vm_compute; discriminate | lia].
Qed.

(** Escalation only tightens: it never lowers the severity of a status,
    never produces or lifts a rejection, and at or above the confirmation
    threshold every other status asks for a confirmation. *)
Theorem escalation_only_tightens current score wt ct :
  (rank current <= rank (maybe_escalate_status current score wt ct))%Z ∧
  (maybe_escalate_status current score wt ct = "rejected" ↔ current = "rejected") ∧
  ((ct <= score)%Z → current ≠ "rejected" →
   maybe_escalate_status current score wt ct = "confirm_required").
Proof.
  split; [apply escalation_rank|]. unfold maybe_escalate_status.
  destruct (current ∈? ["rejected"; "confirm_required"]) eqn:E; bool_to_prop.
  - split; [done|]. intros _ Hr. set_solver.
  - split.
    + split; [|intros ->; destruct E; by left].
      split_ifs; try discriminate; done.
    + intros Hs _. by rewrite (proj2 (Z.leb_le _ _) Hs).
Qed.
