(* ===== verification/FaultContext.v ===== *)
(** * The fault context adaptation table (utils/fault_context.py)

    The declarative rules that let a node adapt to the fault at hand, their
    lookup by rule type and priority, and the safe block size of a disk
    burn.  A rule's condition may raise; the lookup skips such a rule. *)

From stdpp Require Import base list strings sets sorting.
From Stdlib Require Import ZArith Ascii.
From S2P Require Import Prelude.
From S2P Require Import PyValue.
From S2P Require Import PyFloat.
From S2P Require Import Router.

(** ** The safe burn size *)

Definition _BURN_DEFAULT_SIZE : Z := 100.
Definition _BURN_MINIMUM_SIZE : Z := 20.
Definition _OOMKILL_RISK_THRESHOLD_MB : Z := 512.

Definition compute_safe_burn_size (pod_memory_limit_mb pod_memory_usage_mb : option Z) : Z :=
  match pod_memory_limit_mb with
  | None => _BURN_MINIMUM_SIZE
  | Some limit =>
      if (limit <=? 0)%Z then _BURN_MINIMUM_SIZE
      else
        let by_limit :=
          Z.min _BURN_DEFAULT_SIZE (Z.max _BURN_MINIMUM_SIZE (limit / 7)) in
        match pod_memory_usage_mb with
        | Some usage =>
            if (0 <? usage)%Z
            then
              let available := (limit - usage)%Z in
              if (available <=? 0)%Z then _BURN_MINIMUM_SIZE
              else Z.min _BURN_DEFAULT_SIZE (Z.max _BURN_MINIMUM_SIZE (available / 3))
            else by_limit
        | None => by_limit
        end
  end.

(** The size lies between the minimum and the default, and a size above the
    minimum fits: three blocks in the memory that is free when the usage is
    known, seven in the limit when it is not. *)
Lemma safe_burn_size_fits limit usage :
  let size := compute_safe_burn_size limit usage in
  (_BURN_MINIMUM_SIZE <= size <= _BURN_DEFAULT_SIZE)%Z ∧
  ((_BURN_MINIMUM_SIZE < size)%Z →
   ∃ l, limit = Some l ∧
        match usage with
        | Some u => if (0 <? u)%Z then (3 * size <= l - u)%Z else (7 * size <= l)%Z
        | None => (7 * size <= l)%Z
        end).
Proof.
  cbv zeta. unfold compute_safe_burn_size, _BURN_MINIMUM_SIZE, _BURN_DEFAULT_SIZE.
  destruct limit as [l|]; [|split; lia].
  destruct (Z.leb_spec l 0); [split; lia|].
  pose proof (Z.mul_div_le l 7 eq_refl) as H7.
  destruct usage as [u|]; [|split; [lia|]; intros; exists l; split; [done | lia]].
  destruct (Z.ltb_spec 0 u); [|split; [lia|]; intros; exists l; split; [done | lia]].
  destruct (Z.leb_spec (l - u) 0); [split; lia|].
  pose proof (Z.mul_div_le (l - u) 3 eq_refl) as H3.
  split; [lia|]. intros. exists l. split; [done | lia].
Qed.

(** ** Rules *)

Record AdaptationDirective := mkDirective {
  a_id : string;
  a_target_node : string;
  a_mode : string;
  a_rule_type : string;
  a_condition : string → string → string → dict pyval → Exc bool;
  a_action : dict pyval;
  a_priority : Z;
  a_description : string;
  a_combines_with : list string;
}.

(** [m.get(k) is None or m.get(k) < n]; ordering anything but a number
    raises. *)
Definition none_or_less (k : string) (n : Z) (m : dict pyval) : Exc bool :=
  match py_get k m with
  | VNone => Some true
  | VInt z => Some (z <? n)%Z
  | VBool b => Some ((if b then 1 else 0) <? n)%Z
  | VFloat r =>
      let x := float_of_repr r in
      Some (negb (float_ge_Z x n) && negb (String.eqb r "nan"))
  | _ => Raise
  end.

Definition low_memory_burn (s t a : string) (m : dict pyval) : Exc bool :=
  if String.eqb s "pod" && String.eqb t "disk" && String.eqb a "burn"
  then none_or_less "pod_memory_limit_mb" _OOMKILL_RISK_THRESHOLD_MB m
  else Some false.

Definition _FAULT_CONTEXT_ADAPTATIONS : list AdaptationDirective :=
  [mkDirective "P0-param-safety-burn-lowmem" "direct_execute" "both" "param_override"
     low_memory_burn
     [("param_overrides", VDict [("size", VStr "auto")]);
      ("safety_rationale", VStr "burn --size exceeds pod memory safety boundary")]
     10 "Low-memory pod: auto-reduce burn --size to prevent OOMKill" ["P0-evidence-snapshot"];
   mkDirective "P0-evidence-snapshot" "direct_execute" "both" "param_override"
     low_memory_burn
     [("evidence_capture", VBool true);
      ("snapshot_commands", VList [VStr "ls -lah /tmp"; VStr "df -h"]);
      ("snapshot_delay_seconds", VInt 3);
      ("safety_rationale",
       VStr "low-mem pod may OOMKill during burn, capture evidence before potential crash")]
     5 "Low-memory pod: capture quick evidence snapshot after blade_create"
     ["P0-param-safety-burn-lowmem"];
   mkDirective "P1-same-target-same-action-confirm" "safety_check" "both" "conflict_escalation"
     (λ _ _ _ _, Some true)
     [("escalation", VStr "confirm_required");
      ("reason", VStr "Same target with same action already has an active experiment")]
     10 "Same-target same-action overlay: escalate from warning to confirm_required" [];
   mkDirective "P2-verification-integrity-guard" "verifier" "both" "verification_integrity_guard"
     (λ _ _ _ _, Some true)
     [("enforce_step_coverage", VBool true); ("detect_layer1_contradiction", VBool true);
      ("detect_layer2_layer1_conflict", VBool true); ("max_reverify_attempts", VInt 1)]
     0 "Verification integrity guard: auto-reverify on step gaps or evidence contradictions" [];
   mkDirective "P3-baseline-enrich-disk-io" "baseline_capture" "both" "baseline_supplement"
     (λ _ t a _, Some (String.eqb t "disk" && String.eqb a "burn"))
     [("dimensions", VList [VStr "io_utilization"; VStr "io_iowait"]);
      ("knowledge_source", VStr "fault-verification-strategies.md#L483-514")]
     5 "Disk-burn: supplement baseline with I/O metrics from knowledge doc" []].

(** ** Lookup *)

Definition rule_matches (scope target action : string) (meta : dict pyval) (rule_type : option string)
    (r : AdaptationDirective) : bool :=
  match rule_type with
  | Some t => negb (truthy t) || String.eqb (a_rule_type r) t
  | None => true
  end && default false (a_condition r scope target action meta).

(** [results.sort(key=priority, reverse=True)]: stable, highest first. *)
Fixpoint insert_rule (r : AdaptationDirective) (l : list AdaptationDirective)
    : list AdaptationDirective :=
  match l with
  | [] => [r]
  | r' :: l' => if (a_priority r' <=? a_priority r)%Z then r :: l else r' :: insert_rule r l'
  end.

Definition sort_rules (l : list AdaptationDirective) : list AdaptationDirective :=
  foldr insert_rule [] l.

Definition lookup_adaptations (scope target action : string) (meta : dict pyval)
    (rule_type : option string) : list AdaptationDirective :=
  sort_rules (List.filter (rule_matches scope target action meta rule_type)
                _FAULT_CONTEXT_ADAPTATIONS).

Lemma elem_of_insert_rule x r l : x ∈ insert_rule r l ↔ x = r ∨ x ∈ l.
Proof.
  induction l as [|r' l IH]; simpl; [by rewrite list_elem_of_singleton, elem_of_nil; tauto|].
  case_if; rewrite !elem_of_cons, ?IH; tauto.
Qed.

Lemma elem_of_sort_rules x l : x ∈ sort_rules l ↔ x ∈ l.
Proof.
  induction l as [|r l IH]; simpl; [done|].
  by rewrite elem_of_insert_rule, IH, elem_of_cons.
Qed.

(** A lookup by type answers exactly the rules of that type whose condition
    holds. *)
Lemma elem_of_lookup scope target action meta t r :
  t ≠ "" →
  r ∈ lookup_adaptations scope target action meta (Some t) ↔
  r ∈ _FAULT_CONTEXT_ADAPTATIONS ∧ a_rule_type r = t ∧
  a_condition r scope target action meta = Some true.
Proof.
  intros Ht. unfold lookup_adaptations. rewrite elem_of_sort_rules, !list_elem_of_In, filter_In.
  apply and_iff_compat_l. unfold rule_matches. rewrite andb_true_iff, orb_true_iff.
  rewrite (proj2 (truthy_spec t) Ht), String.eqb_eq. simpl.
  destruct (a_condition r scope target action meta) as [[]|]; simpl; naive_solver.
Qed.

(** The escalation of same-target same-action overlays is always on. *)
Lemma escalation_registered scope target action meta :
  lookup_adaptations scope target action meta (Some "conflict_escalation") ≠ [].
Proof.
  assert (H : ∃ r, r ∈ lookup_adaptations scope target action meta (Some "conflict_escalation")).
  { eexists. apply elem_of_lookup; [done|].
    split; [unfold _FAULT_CONTEXT_ADAPTATIONS; do 2 apply list_elem_of_further; apply list_elem_of_here|].
    split; reflexivity. }
  destruct H as [r Hr]. intros E. rewrite E in Hr. by apply elem_of_nil in Hr.
Qed.
