(* ===== verification/Conflict.v ===== *)
(** * Conflict detection (agent/nodes/_conflict_check.py)

    Before an injection the active ChaosBlade experiments of the cluster are
    listed and compared with the request.  The command runner is a parameter
    (its standard output, or [None] when it raises); everything that is read
    out of the output is modelled: the pod table, the JSON report, the blade
    command line inside it, the filters and the overlap analysis. *)

From stdpp Require Import base list strings sets.
From Stdlib Require Import ZArith Ascii.
From S2P Require Import Prelude.
From S2P Require Import PyValue.
From S2P Require Import Json.

(** ** Text helpers *)

(** The longest prefix without blanks. *)
Fixpoint word (s : string) : string :=
  match s with
  | EmptyString => EmptyString
  | String c s' => if py_isspace c then EmptyString else String c (word s')
  end.

(** The rest of [s] after the prefix [p]. *)
Fixpoint after_prefix (p s : string) : option string :=
  match p, s with
  | EmptyString, _ => Some s
  | String a p', String b s' => if Ascii.eqb a b then after_prefix p' s' else None
  | String _ _, EmptyString => None
  end.

(** The first suffix at which [f] answers: [re.search]. *)
Fixpoint search_at (f : string → option string) (s : string) : option string :=
  match f s with
  | Some x => Some x
  | None => match s with EmptyString => None | String _ s' => search_at f s' end
  end.

(** [s.splitlines()] on ASCII line boundaries. *)
Definition line_break (c : ascii) : bool :=
  let n := nat_of_ascii c in
  (Nat.leb 10 n && Nat.leb n 13) || (Nat.leb 28 n && Nat.leb n 30).

Fixpoint splitlines_go (cur : string) (s : string) : list string :=
  match s with
  | EmptyString => if truthy cur then [cur] else []
  | String c s' =>
      if line_break c
      then cur :: match s' with
                  | String d s'' =>
                      if Ascii.eqb c "013" && Ascii.eqb d "010" then splitlines_go EmptyString s''
                      else splitlines_go EmptyString s'
                  | EmptyString => []
                  end
      else splitlines_go (cur +:+ String c EmptyString) s'
  end.

Definition splitlines (s : string) : list string := splitlines_go EmptyString s.

(** [sorted(set(l))]. *)
Fixpoint insert_sorted (x : string) (l : list string) : list string :=
  match l with
  | [] => [x]
  | y :: l' => if String.eqb x y then l
               else if String.leb x y then x :: l else y :: insert_sorted x l'
  end.

Definition sorted_set (l : list string) : list string := foldr insert_sorted [] l.

(** The members two comma-separated lists share. *)
Definition shared (a b : string) : list string :=
  sorted_set (List.filter (λ x, x ∈? csv_names b) (csv_names a)).

(** ** Reading the cluster's answers *)

Definition _TOOL_POD_LABEL_SELECTOR : string := "app=otel-c-tool".
Definition _TOOL_POD_NAMESPACE : string := "chaosblade".

(** The pods whose third column is [Running]. *)
Definition running_pod (line : string) : list string :=
  match split_ws (strip line) with
  | name :: _ :: status :: _ => if String.eqb status "Running" then [name] else []
  | _ => []
  end.

Definition discover_tool_pods (kubectl_output : string) : list string :=
  match splitlines (strip kubectl_output) with
  | _ :: rest => concat (map running_pod rest)
  | [] => []
  end.

(** ** The blade command line *)

Record ConflictInfo := mkConflict {
  ci_uid : pyval;
  ci_flag : string;
  ci_namespace : string;
  ci_names : string;
  ci_labels : string;
  ci_scope_target_action : string;
  ci_same_action : bool;
  ci_overlaps : bool;
  ci_reason : string;
}.

(** At the start of [s]: the parameter, then an equals sign or blanks, then
    the word that is its value. *)
Definition param_at (bare s : string) : option string :=
  match after_prefix ("--" +:+ bare) s with
  | Some (String c rest) =>
      let w := if Ascii.eqb c "=" then word rest
               else if py_isspace c then word (lstrip rest) else "" in
      if truthy w then Some w else None
  | _ => None
  end.

(** [param_name.lstrip("-")]. *)
Fixpoint lstrip_dashes (s : string) : string :=
  match s with
  | String "-" s' => lstrip_dashes s'
  | _ => s
  end.

Definition _extract_param_from_flag (flag param_name : string) : string :=
  default "" (search_at (param_at (lstrip_dashes param_name)) flag).

(** At the start of [s]: [k8s] and two words, blanks between them. *)
Definition k8s_at (s : string) : option string :=
  match after_prefix "k8s" s with
  | Some (String c rest) =>
      if py_isspace c
      then match split_ws rest with a :: b :: _ => Some (a +:+ "-" +:+ b) | _ => None end
      else None
  | _ => None
  end.

Definition _parse_scope_target_action_from_flag (flag : string) : string :=
  match search_at k8s_at flag with
  | Some x => x
  | None =>
      match split_ws (strip flag) with
      | a :: b :: _ => if startswith a "--" then "" else a +:+ "-" +:+ b
      | _ => ""
      end
  end.

(** ** Overlap with the request *)

Record Request := mkRequest {
  rq_namespace : string;
  rq_labels : string;
  rq_names : string;
  rq_scope_target_action : string;
}.

Definition ns_match (c : ConflictInfo) (rq : Request) : bool :=
  truthy (ci_namespace c) && truthy (rq_namespace rq) && String.eqb (ci_namespace c) (rq_namespace rq).

Definition overlap_names (c : ConflictInfo) (rq : Request) : list string :=
  if ns_match c rq && truthy (ci_names c) && truthy (rq_names rq)
  then shared (ci_names c) (rq_names rq) else [].

Definition overlap_labels (c : ConflictInfo) (rq : Request) : list string :=
  if ns_match c rq && truthy (ci_labels c) && truthy (rq_labels rq)
  then shared (ci_labels c) (rq_labels rq) else [].

Definition _analyze_overlap (c : ConflictInfo) (rq : Request) : ConflictInfo :=
  let sta := _parse_scope_target_action_from_flag (ci_flag c) in
  let same := truthy sta && truthy (rq_scope_target_action rq)
              && String.eqb sta (rq_scope_target_action rq) in
  let part what l :=
    match l with
    | [] => []
    | _ => ["same " +:+ what +:+ join "," l]
    end in
  let reasons :=
    part ("target: ns/" +:+ ci_namespace c +:+ " name/") (overlap_names c rq) ++
    part ("labels: ns/" +:+ ci_namespace c +:+ " labels/") (overlap_labels c rq) in
  let hit := match reasons with [] => false | _ => true end in
  mkConflict (ci_uid c) (ci_flag c) (ci_namespace c) (ci_names c) (ci_labels c)
    (if truthy sta then sta else ci_scope_target_action c)
    (if same then true else ci_same_action c)
    (if hit then true else ci_overlaps c)
    (if hit then join "; " reasons else ci_reason c).

(** ** The report of [blade status] *)

(** The filter on namespace and labels. *)
Definition passes_filter (c : ConflictInfo) (rq : Request) : bool :=
  negb (truthy (rq_namespace rq) && negb (String.eqb (ci_namespace c) (rq_namespace rq))) &&
  negb (truthy (rq_labels rq) && negb (String.eqb (ci_labels c) (rq_labels rq))
        && match shared (rq_labels rq) (ci_labels c) with [] => true | _ => false end).

Definition bare_conflict (uid : pyval) (flag : string) : ConflictInfo :=
  mkConflict uid flag (_extract_param_from_flag flag "--namespace")
    (_extract_param_from_flag flag "--names") (_extract_param_from_flag flag "--labels")
    "" false false "".

(** [status in ("Destroyed", "Revoked")]. *)
Definition inactive (v : pyval) : bool :=
  match v with VStr s => s ∈? ["Destroyed"; "Revoked"] | _ => false end.

(** One entry of the report: [None] when reading it raises (a command line
    that is no text), [Some None] when it is skipped. *)
Definition read_experiment (rq : Request) (exp : pyval) : Exc (option ConflictInfo) :=
  match exp with
  | VDict d =>
      let get k := default (VStr "") (dict_get k d) in
      if negb (py_truthy (get "Uid")) then Some None
      else if inactive (get "Status") then Some None
      else
        match get "Flag" with
        | VStr flag =>
            let c := bare_conflict (get "Uid") flag in
            if negb (passes_filter c rq) then Some None
            else Some (Some (if truthy (rq_names rq) || truthy (rq_labels rq)
                             then _analyze_overlap c rq else c))
        | _ => Raise
        end
  | _ => Some None
  end.

(** The loop over the entries: an exception ends it and is swallowed, the
    conflicts found so far are kept. *)
Fixpoint read_experiments (rq : Request) (exps : list pyval) : list ConflictInfo :=
  match exps with
  | [] => []
  | exp :: exps' =>
      match read_experiment rq exp with
      | None => []
      | Some None => read_experiments rq exps'
      | Some (Some c) => c :: read_experiments rq exps'
      end
  end.

(** [re.findall] of runs of sixteen lower-case hexadecimal digits. *)
Definition hex_char (c : ascii) : bool :=
  let n := nat_of_ascii c in
  (Nat.leb 48 n && Nat.leb n 57) || (Nat.leb 97 n && Nat.leb n 102).

Fixpoint hex_uids (cur : string) (s : string) : list string :=
  match s with
  | EmptyString => []
  | String c s' =>
      if hex_char c
      then let cur' := cur +:+ String c EmptyString in
           if Nat.eqb (String.length cur') 16 then cur' :: hex_uids EmptyString s'
           else hex_uids cur' s'
      else hex_uids EmptyString s'
  end.

Definition fallback_conflicts (raw : string) : list ConflictInfo :=
  map (λ uid, mkConflict (VStr uid) "" "" "" "" "" false false "") (hex_uids EmptyString raw).

Definition parse_status (rq : Request) (raw : string) : list ConflictInfo :=
  if truthy (strip raw)
  then match json_loads raw with
       | JOk (VDict data) =>
           if py_truthy (py_get "success" data)
           then match default (VList []) (dict_get "result" data) with
                | VList exps => read_experiments rq exps
                | _ => fallback_conflicts raw
                end
           else fallback_conflicts raw
       | _ => fallback_conflicts raw
       end
  else fallback_conflicts raw.

(** ** The check *)

Definition _build_kubectl_global_args (kubeconfig_path kube_context : string)
    (kubeconfig : pyval) : list pyval :=
  let kc := py_or kubeconfig (VStr kubeconfig_path) in
  (if py_truthy kc then [VStr "--kubeconfig"; kc] else []) ++
  (if truthy kube_context then [VStr "--context"; VStr kube_context] else []).

Definition is_text (v : pyval) : bool := match v with VStr _ => true | _ => false end.

Section conflict_check.
Context (kubeconfig_path kube_context : string).
Context (run : list pyval → Exc string).

Definition discover_cmd (kubeconfig : pyval) : list pyval :=
  map VStr ["kubectl"; "get"; "pods"; "-n"; _TOOL_POD_NAMESPACE; "-l"; _TOOL_POD_LABEL_SELECTOR]
  ++ _build_kubectl_global_args kubeconfig_path kube_context kubeconfig.

Definition status_cmd (pod : string) (kubeconfig : pyval) : list pyval :=
  map VStr ["kubectl"; "exec"; pod; "-n"; _TOOL_POD_NAMESPACE]
  ++ _build_kubectl_global_args kubeconfig_path kube_context kubeconfig
  ++ map VStr ["--"; "blade"; "status"; "--type"; "create"].

(** The body of the [try]: [None] is an exception.  Reporting the result to
    the tracker joins the first five identifiers, which raises when one of
    them is no text. *)
Definition find_conflicts (kubeconfig task_id : pyval) (rq : Request) : Exc (list ConflictInfo) :=
  pods_out ← run (discover_cmd kubeconfig);
  match discover_tool_pods pods_out with
  | [] => Some []
  | pod :: _ =>
      raw ← run (status_cmd pod kubeconfig);
      let l := parse_status rq raw in
      if py_truthy task_id && negb (forallb is_text (take 5 (map ci_uid l))) then Raise else Some l
  end.

Definition check_blade_conflicts (kubeconfig task_id : pyval) (rq : Request)
    : list pyval * list ConflictInfo :=
  let l := default [] (find_conflicts kubeconfig task_id rq) in (map ci_uid l, l).
End conflict_check.

(** ** The overlap analysis is exact *)

Lemma elem_of_insert_sorted x y l : x ∈ insert_sorted y l ↔ x = y ∨ x ∈ l.
Proof.
  induction l as [|z l IH]; simpl; [by rewrite list_elem_of_singleton, elem_of_nil; tauto|].
  destruct (String.eqb_spec y z) as [->|]; [rewrite elem_of_cons; tauto|].
  case_if; rewrite !elem_of_cons, ?IH; tauto.
Qed.

Lemma elem_of_sorted_set x l : x ∈ sorted_set l ↔ x ∈ l.
Proof.
  induction l as [|y l IH]; simpl; [done|].
  by rewrite elem_of_insert_sorted, IH, elem_of_cons.
Qed.

Lemma elem_of_shared x a b : x ∈ shared a b ↔ x ∈ csv_names a ∧ x ∈ csv_names b.
Proof.
  unfold shared. rewrite elem_of_sorted_set, list_elem_of_In, filter_In, str_in_spec.
  pose proof (list_elem_of_In (csv_names a) x). tauto.
Qed.

Lemma shared_nonempty a b : shared a b ≠ [] ↔ ∃ x, x ∈ csv_names a ∧ x ∈ csv_names b.
Proof.
  setoid_rewrite <- elem_of_shared. split.
  - destruct (shared a b) as [|x l]; [done|]. exists x. apply list_elem_of_here.
  - intros (x & Hx) E. rewrite E in Hx. by apply elem_of_nil in Hx.
Qed.

Lemma csv_names_empty x : x ∉ csv_names "".
Proof. change (csv_names "") with (@nil string). apply not_elem_of_nil. Qed.

(** Two selectors of the same namespace share a name or a label. *)
Definition same_resource (c : ConflictInfo) (rq : Request) : Prop :=
  rq_namespace rq ≠ "" ∧ ci_namespace c = rq_namespace rq ∧
  ((∃ n, n ∈ csv_names (ci_names c) ∧ n ∈ csv_names (rq_names rq)) ∨
   (∃ l, l ∈ csv_names (ci_labels c) ∧ l ∈ csv_names (rq_labels rq))).

Lemma ns_match_spec c rq :
  ns_match c rq = true ↔ rq_namespace rq ≠ "" ∧ ci_namespace c = rq_namespace rq.
Proof.
  unfold ns_match. rewrite !andb_true_iff, !truthy_spec, String.eqb_eq. split; [tauto|].
  intros [H1 H2]. by rewrite H2.
Qed.

Lemma guarded_shared (g : bool) a b :
  (if g && truthy a && truthy b then shared a b else []) ≠ [] ↔
  g = true ∧ ∃ x, x ∈ csv_names a ∧ x ∈ csv_names b.
Proof.
  rewrite <- shared_nonempty. destruct g; [|simpl; naive_solver]. simpl.
  destruct (truthy a && truthy b) eqn:E; [naive_solver|]. split; [done|].
  rewrite shared_nonempty. intros (_ & x & Ha & Hb).
  apply andb_false_iff in E. rewrite !truthy_false in E.
  destruct E as [-> | ->]; by eapply csv_names_empty in Ha || by eapply csv_names_empty in Hb.
Qed.

Lemma analyze_overlaps c rq :
  ci_overlaps c = false →
  ci_overlaps (_analyze_overlap c rq) = true ↔ same_resource c rq.
Proof.
  intros Hc. unfold _analyze_overlap. cbn [ci_overlaps]. rewrite Hc.
  assert (Hn : overlap_names c rq ≠ [] ↔ ns_match c rq = true ∧
    ∃ x, x ∈ csv_names (ci_names c) ∧ x ∈ csv_names (rq_names rq)) by apply guarded_shared.
  assert (Hl : overlap_labels c rq ≠ [] ↔ ns_match c rq = true ∧
    ∃ x, x ∈ csv_names (ci_labels c) ∧ x ∈ csv_names (rq_labels rq)) by apply guarded_shared.
  rewrite ns_match_spec in Hn, Hl. unfold same_resource.
  transitivity (overlap_names c rq ≠ [] ∨ overlap_labels c rq ≠ []).
  - destruct (overlap_names c rq), (overlap_labels c rq); simpl; naive_solver.
  - rewrite Hn, Hl. tauto.
Qed.

(** Without a namespace, as for a node, no overlap is ever found. *)
Lemma no_namespace_no_overlap c rq :
  rq_namespace rq = "" → ci_overlaps c = false → ci_overlaps (_analyze_overlap c rq) = false.
Proof.
  intros Hn Hc. apply not_true_iff_false. rewrite analyze_overlaps by done.
  unfold same_resource. tauto.
Qed.

(** ** Completeness of the report *)

Lemma read_experiments_elem rq exps exp c :
  Forall (λ e, read_experiment rq e ≠ None) exps → exp ∈ exps →
  read_experiment rq exp = Some (Some c) → c ∈ read_experiments rq exps.
Proof.
  induction 1 as [|e exps He Hes IH]; [by intros ?%elem_of_nil|].
  intros [-> | Hin]%elem_of_cons Hr; simpl.
  - rewrite Hr. apply list_elem_of_here.
  - destruct (read_experiment rq e) as [[c'|]|]; [| by apply IH | done].
    apply list_elem_of_further. by apply IH.
Qed.

(** An active experiment on a resource of the request passes the filter. *)
Lemma same_resource_passes c rq :
  same_resource c rq → rq_labels rq = "" ∨ (∃ l, l ∈ csv_names (ci_labels c) ∧ l ∈ csv_names (rq_labels rq)) →
  passes_filter c rq = true.
Proof.
  intros (Hn & Hc & _) Hl. unfold passes_filter. rewrite Hc, String.eqb_refl, andb_false_r.
  cbn [negb andb]. destruct Hl as [-> | (l & H1 & H2)]; [done|].
  destruct (shared (rq_labels rq) (ci_labels c)) as [|x t] eqn:E; [|by rewrite andb_false_r].
  exfalso. revert E. apply shared_nonempty. by exists l.
Qed.

Lemma same_resource_selects c rq : same_resource c rq → truthy (rq_names rq) || truthy (rq_labels rq) = true.
Proof.
  intros (_ & _ & H). apply orb_true_iff. rewrite !truthy_spec.
  destruct H as [(n & _ & Hn) | (l & _ & Hl)]; [left | right]; intros E;
    rewrite E in *; by eapply csv_names_empty.
Qed.

Lemma read_same_resource rq d uid flag :
  dict_get "Uid" d = Some (VStr uid) → uid ≠ "" →
  inactive (default (VStr "") (dict_get "Status" d)) = false →
  dict_get "Flag" d = Some (VStr flag) →
  same_resource (bare_conflict (VStr uid) flag) rq →
  rq_labels rq = "" ∨
    (∃ l, l ∈ csv_names (_extract_param_from_flag flag "--labels") ∧ l ∈ csv_names (rq_labels rq)) →
  read_experiment rq (VDict d) = Some (Some (_analyze_overlap (bare_conflict (VStr uid) flag) rq)).
Proof.
  intros Hu Hne Hs Hf Hsame Hl. unfold read_experiment. rewrite Hu, Hf. cbn [from_option id].
  cbn [py_truthy]. rewrite (proj2 (truthy_spec uid) Hne), Hs. cbn [negb].
  rewrite (same_resource_passes (bare_conflict (VStr uid) flag)) by done. cbn [negb].
  by rewrite (same_resource_selects (bare_conflict (VStr uid) flag)) by done.
Qed.

Lemma forallb_take_true {A} (p : A → bool) l n : forallb p l = true → forallb p (take n l) = true.
Proof.
  rewrite <- (take_drop n l) at 1. rewrite forallb_app. by intros [H _]%andb_true_iff.
Qed.

(** Conflict detection is complete: when a tool pod runs and the status
    report is well formed, an active experiment on a resource of the request
    (same namespace and a name or a label in common; a label in common when
    the request selects by labels) is reported as overlapping, with the
    same-action mark exactly when its command line carries the request's
    scope, target and action. *)
Theorem same_target_reported kcp kctx run kubeconfig task_id rq out pod pods raw data exps d uid flag :
  run (discover_cmd kcp kctx kubeconfig) = Some out →
  discover_tool_pods out = pod :: pods →
  run (status_cmd kcp kctx pod kubeconfig) = Some raw →
  truthy (strip raw) = true → json_loads raw = JOk (VDict data) →
  py_truthy (py_get "success" data) = true → dict_get "result" data = Some (VList exps) →
  Forall (λ e, read_experiment rq e ≠ None) exps →
  forallb is_text (map ci_uid (read_experiments rq exps)) = true →
  VDict d ∈ exps →
  dict_get "Uid" d = Some (VStr uid) → uid ≠ "" →
  inactive (default (VStr "") (dict_get "Status" d)) = false →
  dict_get "Flag" d = Some (VStr flag) →
  same_resource (bare_conflict (VStr uid) flag) rq →
  rq_labels rq = "" ∨
    (∃ l, l ∈ csv_names (_extract_param_from_flag flag "--labels") ∧ l ∈ csv_names (rq_labels rq)) →
  ∃ c, c ∈ (check_blade_conflicts kcp kctx run kubeconfig task_id rq).2 ∧
       VStr uid ∈ (check_blade_conflicts kcp kctx run kubeconfig task_id rq).1 ∧
       ci_uid c = VStr uid ∧ ci_overlaps c = true ∧
       (ci_same_action c = true ↔
        rq_scope_target_action rq ≠ "" ∧
        _parse_scope_target_action_from_flag flag = rq_scope_target_action rq).
Proof.
  intros Hd Hp Hr Hraw Hj Hs Hres Hall Htext Hin Hu Hne Hst Hf Hsame Hl.
  pose proof (read_same_resource rq d uid flag Hu Hne Hst Hf Hsame Hl) as Hread.
  pose proof (read_experiments_elem _ _ _ _ Hall Hin Hread) as Hc.
  assert (E : find_conflicts kcp kctx run kubeconfig task_id rq = Some (read_experiments rq exps)).
  { unfold find_conflicts. rewrite Hd. cbn [mbind option_bind]. rewrite Hp, Hr. cbn [mbind option_bind].
    assert (Hps : parse_status rq raw = read_experiments rq exps).
    { unfold parse_status. by rewrite Hraw, Hj, Hs, Hres. }
    rewrite Hps. rewrite (forallb_take_true _ _ 5 Htext). by rewrite andb_false_r. }
  unfold check_blade_conflicts. rewrite E. cbn [from_option id fst snd].
  eexists. split; [exact Hc|]. split; [|split; [reflexivity|]; split].
  - apply (list_elem_of_fmap_2 ci_uid) in Hc. exact Hc.
  - by apply analyze_overlaps.
  - cbn [_analyze_overlap ci_same_action bare_conflict ci_flag].
    destruct (truthy (_parse_scope_target_action_from_flag flag)
              && truthy (rq_scope_target_action rq)
              && String.eqb (_parse_scope_target_action_from_flag flag)
                   (rq_scope_target_action rq)) eqn:Es.
    + rewrite !andb_true_iff, !truthy_spec, String.eqb_eq in Es. tauto.
    + split; [done|]. intros [H1 H2]. rewrite H2 in Es.
      by rewrite (proj2 (truthy_spec _) H1), String.eqb_refl in Es.
Qed.

(** A cluster with one running tool pod and one active experiment. *)
Definition sample_pods : string :=
  "NAME READY STATUS RESTARTS AGE" +:+ newline +:+ "otel-c-tool-abc 1/1 Running 0 1d".

Definition sample_flag : string := "k8s pod-cpu fullload --namespace shop --names=cart-1,cart-2".

(** The report as JSON text: strings are written with [dquote]. *)
Definition jstr (s : string) : string := dquote +:+ s +:+ dquote.

Definition jexp (uid flag : string) : string :=
  "{" +:+ jstr "Uid" +:+ ":" +:+ jstr uid +:+ "," +:+ jstr "Flag" +:+ ":" +:+ flag +:+ "," +:+
  jstr "Status" +:+ ":" +:+ jstr "Success" +:+ "}".

Definition jreport (exps : list string) : string :=
  "{" +:+ jstr "success" +:+ ":true," +:+ jstr "result" +:+ ":[" +:+ join "," exps +:+ "]}".

Definition sample_raw : string := jreport [jexp "1a2b" (jstr sample_flag)].

Definition sample_exp : dict pyval :=
  [("Uid", VStr "1a2b"); ("Flag", VStr sample_flag); ("Status", VStr "Success")].

(** The cluster answers the pod query with [out], any other with [raw]. *)
Definition cluster (out raw : string) (cmd : list pyval) : Exc string :=
  match cmd with
  | _ :: VStr "get" :: _ => Some out
  | _ => Some raw
  end.

Definition sample_request : Request := mkRequest "shop" "" "cart-2" "pod-cpu-fullload".

Lemma same_target_reported_witness :
  ∃ c, c ∈ (check_blade_conflicts "" "" (cluster sample_pods sample_raw) (VStr "kc") (VStr "t1")
              sample_request).2 ∧
       VStr "1a2b" ∈ (check_blade_conflicts "" "" (cluster sample_pods sample_raw) (VStr "kc")
                        (VStr "t1") sample_request).1 ∧
       ci_uid c = VStr "1a2b" ∧ ci_overlaps c = true ∧
       (ci_same_action c = true ↔
        rq_scope_target_action sample_request ≠ "" ∧
        _parse_scope_target_action_from_flag sample_flag = rq_scope_target_action sample_request).
Proof.
  apply (same_target_reported "" "" (cluster sample_pods sample_raw) (VStr "kc") (VStr "t1")
           sample_request sample_pods "otel-c-tool-abc" [] sample_raw
           [("success", VBool true); ("result", VList [VDict sample_exp])]
           [VDict sample_exp] sample_exp "1a2b" sample_flag).
  - reflexivity.
  - vm_compute. reflexivity.
  - reflexivity.
  - vm_compute. reflexivity.
  - vm_compute. reflexivity.
  - reflexivity.
  - reflexivity.
  - constructor; [vm_compute; discriminate | constructor].
  - vm_compute. reflexivity.
  - apply list_elem_of_here.
  - reflexivity.
  - discriminate.
  - reflexivity.
  - reflexivity.
  - split; [discriminate|]. split; [vm_compute; reflexivity|]. left. exists "cart-2".
    rewrite <- !str_in_spec. split; vm_compute; reflexivity.
  - left. reflexivity.
Defined.

(** ** Experiments that stay unseen *)

(** An entry whose command line is null ends the loop: the experiments
    behind it are lost, and so is the announced search for identifiers. *)
Lemma null_flag_hides_later :
  check_blade_conflicts "" ""
    (cluster sample_pods (jreport [jexp "0" "null"; jexp "1a2b" (jstr sample_flag)]))
    (VStr "kc") (VStr "t1") sample_request = ([], []).
Proof. vm_compute. reflexivity. Qed.

(** A request that selects by names and by labels does not see an experiment
    on the very same pod that was started by name alone. *)
Lemma labels_hide_same_pod :
  check_blade_conflicts "" "" (cluster sample_pods sample_raw) (VStr "kc") (VStr "t1")
    (mkRequest "shop" "app=cart" "cart-2" "pod-cpu-fullload") = ([], []).
Proof. vm_compute. reflexivity. Qed.
