(* ===== verification/InjectionDetection.v ===== *)
(** * Detection of injections in a conversation
    (agent/nodes/_injection_detection.py)

    Which tool calls of the conversation injected a fault: ChaosBlade through
    kubectl exec, a kubectl verb used instead, or a failed blade_create; the
    pod an injection went through; and the steps of a skill case that were
    not executed. *)

From stdpp Require Import base list strings sets.
From Stdlib Require Import ZArith Ascii.
From S2P Require Import Prelude PyValue PyOps PyText PyRe Json Failure Conflict.

Definition _KUBECTL_INJECT_SUBCOMMANDS : list string :=
  ["scale"; "patch"; "cordon"; "taint"; "set"; "delete"; "drain"; "label"].

(** ** Arguments of the calls by identifier *)

Definition lookup_call (d : dict pyval) (tc : ToolCall) : dict pyval :=
  match tc_id tc with
  | Some i => if truthy i then dict_set i (tc_args tc) d else d
  | None => d
  end.

Definition message_calls (m : Message) : list ToolCall :=
  match m with AIMessage _ _ calls => calls | _ => [] end.

Definition _build_tool_call_args_lookup (messages : list Message) : dict pyval :=
  fold_left lookup_call (concat (map message_calls messages)) [].

(** ** ChaosBlade through kubectl exec *)

(** The text parses as a ChaosBlade response that reports success. *)
Definition is_blade_success (v : pyval) : bool :=
  match v with
  | VDict data =>
      match py_get "success" data, py_get "result" data with
      | VBool true, VStr r => eq_int (py_get "code" data) 200 && truthy r
      | _, _ => false
      end
  | _ => false
  end.

Definition blade_success_json (content : string) : Exc bool :=
  match json_loads content with
  | JOk v => Some (is_blade_success v)
  | JDecodeError => Some false
  | JValueError => Raise
  end.

(** The call behind the message was [kubectl exec] of [blade ... create]. *)
Definition is_blade_exec (args : pyval) : Exc bool :=
  subcommand ← vget_d "subcommand" (VStr "") args;
  v_args ← vget_d "v_args" (VStr "") args;
  if eqs subcommand "exec" then
    b ← py_in "blade" v_args;
    if (b : bool) then py_in "create" v_args else Some false
  else Some false.

Definition found_call (lookup : dict pyval) (i : string) : option pyval :=
  if truthy i then dict_get i lookup else None.

Fixpoint blade_injection_in (lookup : dict pyval) (l : list Message) : Exc bool :=
  match l with
  | [] => Some false
  | ToolMessage content name i _ :: l' =>
      if String.eqb name "kubectl" then
        ok ← blade_success_json content;
        if (ok : bool) then
          match found_call lookup i with
          | Some args =>
              b ← is_blade_exec args;
              if (b : bool) then Some true else blade_injection_in lookup l'
          | None => Some true
          end
        else blade_injection_in lookup l'
      else blade_injection_in lookup l'
  | _ :: l' => blade_injection_in lookup l'
  end.

Definition _was_kubectl_blade_injection_successful (messages : list Message) : Exc bool :=
  blade_injection_in (_build_tool_call_args_lookup messages) (rev messages).

(** ** kubectl verbs used instead *)

Definition is_blade_create (m : Message) : bool :=
  match m with ToolMessage _ name _ _ => String.eqb name "blade_create" | _ => false end.

(** The elements after the last one that passes a test; all when none does. *)
Fixpoint after_last {A} (test : A → bool) (l : list A) : list A :=
  match l with
  | [] => []
  | x :: l' => if existsb test l' then after_last test l' else if test x then l' else l
  end.

(** A kubectl answer of a write verb that is no error. *)
Definition is_kubectl_write (lookup : dict pyval) (m : Message) : Exc bool :=
  match m with
  | ToolMessage content name i _ =>
      if String.eqb name "kubectl" then
        match found_call lookup i with
        | Some args =>
            subcommand ← vget_d "subcommand" (VStr "") args;
            b ← in_set subcommand _KUBECTL_INJECT_SUBCOMMANDS;
            Some (b && negb (startswith content "Error:"))
        | None => Some false
        end
      else Some false
  | _ => Some false
  end.

Fixpoint any_exc {A} (f : A → Exc bool) (l : list A) : Exc bool :=
  match l with
  | [] => Some false
  | x :: l' => b ← f x; if (b : bool) then Some true else any_exc f l'
  end.

Definition _was_kubectl_injection_attempted (messages : list Message) : Exc bool :=
  any_exc (is_kubectl_write (_build_tool_call_args_lookup messages)) (after_last is_blade_create messages).

(** A blade_create was tried and no other injection succeeded. *)
Definition _was_blade_create_attempted (messages : list Message) : Exc bool :=
  a ← _was_kubectl_blade_injection_successful messages;
  if (a : bool) then Some false
  else
    b ← _was_kubectl_injection_attempted messages;
    if (b : bool) then Some false else Some (existsb is_blade_create messages).

(** ** Tool pods with their nodes *)

Definition _COLUMNS_RE : pattern := Eval vm_compute in
  get_pattern (compile no_flags "\s{2,}") ltac:(vm_compute; discriminate).

Definition running_pod_with_node (line : string) : list (string * string) :=
  match re_split _COLUMNS_RE (strip line) with
  | pod :: _ :: status :: _ :: _ :: _ :: node :: _ =>
      if String.eqb status "Running" then [(pod, node)] else []
  | _ => []
  end.

Definition discover_tool_pods_with_nodes (kubectl_output : string) : list (string * string) :=
  match splitlines (strip kubectl_output) with
  | _ :: rest => concat (map running_pod_with_node rest)
  | [] => []
  end.

(** ** The pod of an injection *)

Definition _POD_NAME_RE : pattern := Eval vm_compute in
  get_pattern (compile no_flags "^[a-z0-9]([a-z0-9-]*[a-z0-9])?$") ltac:(vm_compute; discriminate).

Definition _parse_pod_name_from_v_args (v_args : string) : option string :=
  match split_ws v_args with
  | [] => None
  | first :: _ =>
      if startswith first "-" then None
      else match re_match _POD_NAME_RE first with Some _ => Some first | None => None end
  end.

(** [args.get("v_args", "") or ""]: a text, or a value on which [in] or
    [strip] raises. *)
Definition exec_pod_name (hint : string) (args : pyval) : Exc (option string) :=
  subcommand ← vget_d "subcommand" (VStr "") args;
  v_args ← vget_d "v_args" (VStr "") args;
  let v_args := py_or v_args (VStr "") in
  if eqs subcommand "exec" then
    a ← py_in hint v_args;
    b ← (if (a : bool) then py_in "create" v_args else Some false);
    if (b : bool) then t ← as_str v_args; Some (_parse_pod_name_from_v_args t) else Some None
  else Some None.

Fixpoint first_exc {A B} (f : A → Exc (option B)) (l : list A) : Exc (option B) :=
  match l with
  | [] => Some None
  | x :: l' => r ← f x; match r with Some y => Some (Some y) | None => first_exc f l' end
  end.

Definition _find_pod_name_from_aimessages (messages : list Message) (hint : string) : Exc (option string) :=
  first_exc (λ m, first_exc (λ tc, if String.eqb (tc_name tc) "kubectl"
                                   then exec_pod_name hint (tc_args tc) else Some None)
                    (rev (message_calls m)))
    (rev messages).

Definition pod_of_message (messages : list Message) (lookup : dict pyval) (m : Message)
    : Exc (option string) :=
  match m with
  | ToolMessage content name i _ =>
      if String.eqb name "kubectl" then
        ok ← blade_success_json content;
        if (ok : bool) then
          match found_call lookup i with
          | Some args => exec_pod_name "blade" args
          | None => if truthy i then Some None else _find_pod_name_from_aimessages messages "blade"
          end
        else Some None
      else Some None
  | _ => Some None
  end.

Definition _extract_kubectl_exec_pod_name (messages : list Message) : Exc (option string) :=
  first_exc (pod_of_message messages (_build_tool_call_args_lookup messages)) (rev messages).

(** ** Steps of a skill case that were not executed

    The sets of verbs are listed in the order of the source; Python iterates
    over them in an arbitrary order, which only permutes the lines of the
    reminder. *)

Definition _STEP_KUBECTL_VERBS : list string :=
  ["cordon"; "uncordon"; "taint"; "delete"; "scale"; "patch"; "drain"; "label"; "annotate"].

Definition _SECTION_RE : pattern := Eval vm_compute in
  get_pattern (compile no_flags "\n\*\*[^*]+\*\*") ltac:(vm_compute; discriminate).
Definition _NUMBERED_RE : pattern := Eval vm_compute in
  get_pattern (compile re_M "^\s*\d+\.\s+(.+)") ltac:(vm_compute; discriminate).

(** The text up to the start of a match, [s[:m.start()]]. *)
Definition upto (p : pattern) (s : string) : string :=
  match re_search p s with
  | Some m => unchars (take (mo_start m) (uchars s))
  | None => s
  end.

Definition _extract_drill_steps (skill_case : string) : list string :=
  match cut_str "演练步骤" skill_case with
  | None => []
  | Some (_, r) =>
      match cut "010" r with
      | None => []
      | Some (_, body) =>
          map (λ s, strip (first_line s))
            (List.filter (λ s, truthy (strip s))
               (findall1 _NUMBERED_RE (upto _SECTION_RE (newline +:+ body))))
      end
  end.

Definition _CHINESE_VERB_MAP : dict string :=
  [("删除", "delete"); ("缩容", "scale"); ("扩容", "scale"); ("标记为不可调度", "cordon");
   ("取消不可调度", "uncordon"); ("添加污点", "taint"); ("移除污点", "taint")].

Definition _extract_kubectl_verbs_from_step (step_text : string) : list string :=
  remove_dups
    (List.filter (λ v, contains v (lower step_text)) _STEP_KUBECTL_VERBS ++
     map snd (List.filter (λ ce, contains ce.1 step_text) _CHINESE_VERB_MAP)).

(** The write verb a message executed. *)
Definition executed_verb (lookup : dict pyval) (m : Message) : Exc (list string) :=
  match m with
  | ToolMessage content name i _ =>
      if String.eqb name "kubectl" && negb (startswith content "Error:") then
        match found_call lookup i with
        | Some args =>
            sub ← vget_d "subcommand" (VStr "") args;
            b ← in_set sub _KUBECTL_INJECT_SUBCOMMANDS;
            match sub with VStr v => Some (if (b : bool) then [v] else []) | _ => Some [] end
        | None => Some []
        end
      else Some []
  | _ => Some []
  end.

Definition _get_executed_kubectl_verbs (messages : list Message) : Exc (list string) :=
  l ← mapM (executed_verb (_build_tool_call_args_lookup messages)) messages; Some (concat l).

(** The part of a skill case before its recovery sections. *)
Fixpoint before_markers (markers : list string) (s : string) : string :=
  match markers with
  | [] => s
  | m :: rest => match cut_str m s with Some (a, _) => a | None => before_markers rest s end
  end.

Definition required_verbs (skill_case : string) : dict string :=
  match _extract_drill_steps skill_case with
  | [] =>
      let content := before_markers ["注入恢复"; "恢复验证"; "**注入恢复**"; "**恢复验证**"] skill_case in
      dict_update [] (map (λ v, (v, "kubectl " +:+ v +:+ " (from skill case)"))
                        (_extract_kubectl_verbs_from_step content))
  | steps =>
      fold_left (λ d step,
          dict_update d (map (λ v, (v, strip (first_line step))) (_extract_kubectl_verbs_from_step step)))
        steps []
  end.

Definition missing_verbs (required : dict string) (executed : list string) : dict string :=
  List.filter (λ vd, negb (vd.1 ∈? executed)) required.

Definition check_injection_step_completeness (skill_case : string) (messages : list Message)
    : Exc (option string) :=
  if negb (truthy skill_case) then Some None
  else
    match required_verbs skill_case with
    | [] => Some None
    | required =>
        executed ← _get_executed_kubectl_verbs messages;
        match missing_verbs required executed with
        | [] => Some None
        | missing =>
            Some (Some (join newline
              (("**INCOMPLETE INJECTION**: The skill case requires multiple " +:+
                "injection steps, but you only completed some of them. " +:+
                "You MUST execute the remaining steps before concluding:" +:+ newline) ::
               map (λ vd, "- **" +:+ vd.1 +:+ "**: " +:+ vd.2) missing ++
               [newline +:+ "Execute these remaining steps now using kubectl. " +:+
                "Do NOT skip any step — each is required to produce the full fault effect."])))
        end
    end.

(** ** The lookup finds the last call with an identifier *)

Definition call_has_id (i : string) (tc : ToolCall) : bool :=
  match tc_id tc with Some j => String.eqb i j | None => false end.

(** The reference: search the calls from the last to the first. *)
Definition last_call_args (i : string) (calls : list ToolCall) : option pyval :=
  tc_args <$> List.find (call_has_id i) (rev calls).

Lemma lookup_fold i calls d :
  i ≠ "" →
  dict_get i (fold_left lookup_call calls d) =
    match last_call_args i calls with Some v => Some v | None => dict_get i d end.
Proof.
  intros Hi. induction calls as [|tc calls IH] using rev_ind; [done|].
  rewrite fold_left_app. cbn [fold_left]. unfold last_call_args in *.
  rewrite rev_app_distr. cbn [rev app List.find].
  unfold lookup_call at 1, call_has_id at 1. destruct (tc_id tc) as [j|]; [|exact IH].
  destruct (truthy j) eqn:Ej.
  - rewrite dict_get_set. by destruct (String.eqb i j).
  - apply truthy_false in Ej as ->. by rewrite (proj2 (String.eqb_neq i "")) by done.
Qed.

(** The arguments behind a tool answer are those of the last call with its
    identifier. *)
Lemma found_call_last messages i :
  found_call (_build_tool_call_args_lookup messages) i =
    if truthy i then last_call_args i (concat (map message_calls messages)) else None.
Proof.
  unfold found_call, _build_tool_call_args_lookup. destruct (truthy i) eqn:E; [|done].
  apply truthy_spec in E. rewrite lookup_fold by done. by destruct (last_call_args _ _).
Qed.

(** ** A detected injection is in the conversation *)

Lemma blade_injection_sound lookup l :
  blade_injection_in lookup l = Some true →
  ∃ content i e, ToolMessage content "kubectl" i e ∈ l ∧ blade_success_json content = Some true ∧
    (found_call lookup i = None ∨
     ∃ args, found_call lookup i = Some args ∧ is_blade_exec args = Some true).
Proof.
  induction l as [|m l IH]; cbn [blade_injection_in]; [done|].
  assert (Hnext : blade_injection_in lookup l = Some true → ∃ content i e,
    ToolMessage content "kubectl" i e ∈ m :: l ∧ blade_success_json content = Some true ∧
    (found_call lookup i = None ∨
     ∃ args, found_call lookup i = Some args ∧ is_blade_exec args = Some true)).
  { intros (c & i & e & ? & ?)%IH. exists c, i, e. split; [by right | done]. }
  destruct m as [|content name i e| |]; try exact Hnext.
  destruct (String.eqb_spec name "kubectl") as [->|]; [|exact Hnext].
  intros (ok & Hok & H)%bind_Some. destruct ok; [|by apply Hnext].
  destruct (found_call lookup i) as [args|] eqn:Ef.
  - apply bind_Some in H as (b & Hb & H). destruct b; [|by apply Hnext].
    exists content, i, e. split; [by left|]. split; [done|]. right. eauto.
  - exists content, i, e. split; [by left|]. split; [done|]. by left.
Qed.

(** ChaosBlade is found injected through kubectl exec only when a
    kubectl answer of the conversation is a ChaosBlade response that reports
    success, and the last call with the identifier of that answer, where
    there is one, is an exec of [blade create]. *)
Theorem blade_injection_evidence messages :
  _was_kubectl_blade_injection_successful messages = Some true →
  ∃ content i e, ToolMessage content "kubectl" i e ∈ messages ∧
    blade_success_json content = Some true ∧
    ∀ args, i ≠ "" → last_call_args i (concat (map message_calls messages)) = Some args →
      is_blade_exec args = Some true.
Proof.
  intros (content & i & e & Hin & Hok & Hf)%blade_injection_sound.
  exists content, i, e. split; [by apply list_elem_of_In, in_rev, list_elem_of_In|]. split; [done|].
  intros args Hi Ha. rewrite found_call_last, (proj2 (truthy_spec i) Hi), Ha in Hf.
  destruct Hf as [|(args' & [= ->] & ?)]; done.
Qed.

Definition blade_exec_messages : list Message :=
  [AIMessage (VStr "") VNone
     [mkCall "kubectl" (VDict [("subcommand", VStr "exec");
        ("v_args", VStr "otel-c-tool-x1 -n chaosblade -- blade create k8s pod-cpu load")]) (Some "c1")];
   ToolMessage ("{" +:+ dquote +:+ "code" +:+ dquote +:+ ":200," +:+ dquote +:+ "success" +:+ dquote +:+
     ":true," +:+ dquote +:+ "result" +:+ dquote +:+ ":" +:+ dquote +:+ "0a1b2c3d" +:+ dquote +:+ "}")
     "kubectl" "c1" false].

Lemma blade_injection_evidence_witness :
  ∃ content i e, ToolMessage content "kubectl" i e ∈ blade_exec_messages ∧
    blade_success_json content = Some true ∧
    ∀ args, i ≠ "" → last_call_args i (concat (map message_calls blade_exec_messages)) = Some args →
      is_blade_exec args = Some true.
Proof. apply (blade_injection_evidence blade_exec_messages). vm_compute. reflexivity. Defined.

Example blade_exec_pod :
  _extract_kubectl_exec_pod_name blade_exec_messages = Some (Some "otel-c-tool-x1").
Proof. vm_compute. reflexivity. Qed.

(** ** Completeness of the steps *)

Lemma mapM_concat_elem {A} (f : A → Exc (list string)) l ls x :
  mapM f l = Some ls → x ∈ concat ls → ∃ a r, a ∈ l ∧ f a = Some r ∧ x ∈ r.
Proof.
  intros H%mapM_Some. induction H as [|a r l ls Ha _ IH]; simpl; [set_solver|].
  intros [?|Hx]%elem_of_app; [exists a, r; split; [by left | done]|].
  destruct (IH Hx) as (a' & r' & ? & ?). exists a', r'. split; [by right | done].
Qed.

Lemma executed_verb_known lookup m r v :
  executed_verb lookup m = Some r → v ∈ r → v ∈ _KUBECTL_INJECT_SUBCOMMANDS.
Proof.
  destruct m as [|content name i e| |]; simpl; try (intros [= <-]; set_solver).
  case_if; [|intros [= <-]; set_solver].
  destruct (found_call lookup i); [|intros [= <-]; set_solver].
  intros (sub & _ & (b & Hb & H)%bind_Some)%bind_Some.
  destruct sub; try (injection H as <-; set_solver). simpl in Hb. injection Hb as <-.
  injection H as <-. case_if; [|set_solver]. intros ->%list_elem_of_singleton.
  by apply str_in_spec.
Qed.

(** Only write verbs of the injection list are ever counted as executed. *)
Lemma executed_verbs_known messages l v :
  _get_executed_kubectl_verbs messages = Some l → v ∈ l → v ∈ _KUBECTL_INJECT_SUBCOMMANDS.
Proof.
  intros (ls & Hls & [= <-])%bind_Some Hv.
  destruct (mapM_concat_elem _ _ _ _ Hls Hv) as (m & r & _ & Hr & Hin).
  by eapply executed_verb_known.
Qed.

Lemma missing_nil required executed :
  missing_verbs required executed = [] ↔ ∀ v, v ∈ dict_keys required → v ∈ executed.
Proof.
  unfold missing_verbs. induction required as [|[v d] r IH]; simpl; [set_solver|].
  destruct (v ∈? executed) eqn:E; simpl.
  - apply str_in_spec in E. rewrite IH. set_solver.
  - apply str_in_false in E. split; [done|]. intros H. destruct E. apply H. by left.
Qed.

(** The check is silent exactly when every required verb was executed. *)
Lemma completeness_spec skill_case messages executed :
  _get_executed_kubectl_verbs messages = Some executed → skill_case ≠ "" →
  (check_injection_step_completeness skill_case messages = Some None ↔
   ∀ v, v ∈ dict_keys (required_verbs skill_case) → v ∈ executed).
Proof.
  intros He Hne. unfold check_injection_step_completeness.
  rewrite (proj2 (truthy_spec _) Hne). cbn [negb]. rewrite <- missing_nil.
  destruct (required_verbs skill_case) as [|r0 required]; [done|].
  rewrite He. cbn [mbind option_bind].
  by destruct (missing_verbs (r0 :: required) executed).
Qed.

(** ** A divergence

    [uncordon] and [annotate] are verbs a step can require, but they are not
    among the verbs counted as executed: a skill case that names one of them
    is reported incomplete whatever was executed. *)
Lemma uncordon_never_complete skill_case messages v :
  v ∈ dict_keys (required_verbs skill_case) → v ∉ _KUBECTL_INJECT_SUBCOMMANDS → skill_case ≠ "" →
  check_injection_step_completeness skill_case messages ≠ Some None.
Proof.
  intros Hv Hn Hne Hc. destruct (_get_executed_kubectl_verbs messages) as [ex|] eqn:E.
  - rewrite (completeness_spec _ _ _ E Hne) in Hc.
    apply Hn. eapply executed_verbs_known; [done | by apply Hc].
  - unfold check_injection_step_completeness in Hc. rewrite (proj2 (truthy_spec _) Hne) in Hc.
    cbn [negb] in Hc. destruct (required_verbs skill_case); [set_solver|]. by rewrite E in Hc.
Qed.

Example uncordon_required :
  dict_keys (required_verbs ("**演练步骤**" +:+ newline +:+ "1. kubectl uncordon node-1" +:+ newline))
  = ["cordon"; "uncordon"].
Proof. vm_compute. reflexivity. Qed.
