(* ===== verification/Verdict.v ===== *)
(** * Verdicts (agent/verdict.py, agent/nodes/_verifier_shared.py)

    The closed vocabularies of the verification layers, the result of the
    first layer, the status keyword of a line of free text and the
    confidence in the baseline.  [model_dump] and [model_validate] are those
    of the model class: the second belongs to a library and is a parameter
    where it is used. *)

From stdpp Require Import base list strings sets.
From Stdlib Require Import ZArith Ascii.
From S2P Require Import Prelude PyValue PyOps PyText Failure Router.

(** ** Vocabularies *)

Inductive InjectVerdict := IV_VERIFIED | IV_PARTIAL | IV_UNVERIFIED.

Definition inject_verdict_value (v : InjectVerdict) : string :=
  match v with IV_VERIFIED => "verified" | IV_PARTIAL => "partial" | IV_UNVERIFIED => "unverified" end.

Inductive RecoverVerdict := RV_RECOVERED | RV_PARTIAL | RV_FAILED.

Definition recover_verdict_value (v : RecoverVerdict) : string :=
  match v with RV_RECOVERED => "recovered" | RV_PARTIAL => "partial" | RV_FAILED => "failed" end.

Inductive Layer1Status := L1_PASSED | L1_FAILED | L1_WARNING | L1_ERROR | L1_SKIPPED | L1_UNKNOWN.

#[global] Instance Layer1Status_eq_dec : EqDecision Layer1Status.
Proof. solve_decision. Defined.

Definition layer1_status_value (s : Layer1Status) : string :=
  match s with
  | L1_PASSED => "passed" | L1_FAILED => "failed" | L1_WARNING => "warning"
  | L1_ERROR => "error" | L1_SKIPPED => "skipped" | L1_UNKNOWN => "unknown"
  end.

(** An enum member in a format string appears with the name of its class. *)
Definition layer1_status_text (s : Layer1Status) : string :=
  "Layer1Status." +:+
  match s with
  | L1_PASSED => "PASSED" | L1_FAILED => "FAILED" | L1_WARNING => "WARNING"
  | L1_ERROR => "ERROR" | L1_SKIPPED => "SKIPPED" | L1_UNKNOWN => "UNKNOWN"
  end.

(** [Layer1Status(value)]; [None] is a [ValueError]. *)
Definition layer1_status_of (s : string) : option Layer1Status :=
  List.find (λ x, String.eqb (layer1_status_value x) s)
    [L1_PASSED; L1_FAILED; L1_WARNING; L1_ERROR; L1_SKIPPED; L1_UNKNOWN].

Inductive Layer2Status :=
  | L2_PASSED | L2_PARTIAL | L2_FAILED | L2_SKIPPED | L2_RECOVERED_BEFORE_OBSERVATION | L2_UNKNOWN.

Definition layer2_status_value (s : Layer2Status) : string :=
  match s with
  | L2_PASSED => "passed" | L2_PARTIAL => "partial" | L2_FAILED => "failed"
  | L2_SKIPPED => "skipped"
  | L2_RECOVERED_BEFORE_OBSERVATION => "recovered_before_observation"
  | L2_UNKNOWN => "unknown"
  end.

Inductive WarningCode :=
  | LAYER2_SKIPPED | EXPERIMENT_EXPIRED | CHECKLIST_HAS_SKIPPED | CHECKLIST_RECOVERED_BEFORE_OBS
  | NO_CHECKLIST_DETECTED | CONTRADICTION_OVERRIDE | CHECKLIST_CONCLUSION_INCONSISTENCY
  | PRIMARY_EVIDENCE_NOT_OBSERVED | COVERAGE_INCOMPLETE | CROSS_CHECK_CONTRADICTION
  | CROSS_CHECK_DOWNGRADED | BASELINE_AVAILABLE_NOT_USED | SEE_VERIFICATION_DETAILS.

#[global] Instance WarningCode_eq_dec : EqDecision WarningCode.
Proof. solve_decision. Defined.

Record StructuredWarning := mkWarning { w_code : WarningCode; w_detail : string }.

(** [add_warning] and [has_warning] of the results. *)
Definition add_warning (c : WarningCode) (detail : string) (l : list StructuredWarning) :=
  l ++ [mkWarning c detail].
Definition has_warning (c : WarningCode) (l : list StructuredWarning) : bool :=
  existsb (λ w, bool_decide (w_code w = c)) l.

(** ** The result of layer 1 *)

Record Layer1Result := mkLayer1 {
  l1_status : Layer1Status;
  l1_details : string;
  l1_raw_output : string;
  l1_resource_statuses : list pyval;
  l1_affected_count : Z;
  l1_expired : bool;
}.

(** [Layer1Result()], and the result with only a status, details and raw
    output. *)
Definition layer1_default : Layer1Result := mkLayer1 L1_UNKNOWN "" "" [] 0 false.
Definition layer1_of (s : Layer1Status) (details raw : string) : Layer1Result :=
  mkLayer1 s details raw [] 0 false.

Definition is_passed (r : Layer1Result) : bool := bool_decide (l1_status r = L1_PASSED).

Definition is_terminal (r : Layer1Result) : bool :=
  if l1_expired r then false
  else match l1_status r with L1_FAILED | L1_ERROR => true | _ => false end.

(** [result.model_dump()]. *)
Definition _layer1_to_dict (r : Layer1Result) : dict pyval :=
  [("status", VStr (layer1_status_value (l1_status r))); ("details", VStr (l1_details r));
   ("raw_output", VStr (l1_raw_output r)); ("resource_statuses", VList (l1_resource_statuses r));
   ("affected_count", VInt (l1_affected_count r)); ("expired", VBool (l1_expired r))].

(** What the program relies on of the validation of the model class: a dump
    is accepted and gives the result back. *)
Class Layer1Model := {
  model_validate : dict pyval → Exc Layer1Result;
  validate_dump r : model_validate (_layer1_to_dict r) = Some r;
}.

(** ** Status keywords in free text *)

Definition _has_negative_prefix (text keyword : string) : bool :=
  match cut_str keyword text with
  | None | Some (EmptyString, _) => false
  | Some (prefix, _) =>
      let prefix := rstrip prefix in endswith prefix "not" || endswith prefix "un"
  end.

Definition status_keywords : list string :=
  ["recovered_before_observation"; "passed"; "failed"; "skipped"; "partial"].

Fixpoint _parse_status_keyword (text : string) (keywords : list string) : string :=
  match keywords with
  | [] => "unknown"
  | kw :: rest =>
      if contains kw text then
        if _has_negative_prefix text kw
        then if kw ∈? ["passed"; "skipped"] then "failed" else "passed"
        else kw
      else _parse_status_keyword text rest
  end.

(** The statuses the parser can give. *)
Lemma parse_status_range text kws :
  _parse_status_keyword text kws ∈ kws ++ ["unknown"; "failed"; "passed"].
Proof.
  induction kws as [|kw kws IH]; simpl; [by left|].
  repeat case_if; set_solver.
Qed.

(** ** Confidence in the baseline *)

Definition _compute_baseline_confidence (s : GState) : Exc string :=
  let baseline := get "baseline_data" s in
  if negb (py_truthy baseline) then Some "none"
  else
    b ← as_dict baseline;
    let success_count := get_d "success_count" (VInt 0) b in
    none ← py_le success_count (VInt 0);
    if (none : bool) then Some "none"
    else
      obs ← py_iter (get_d "observations" (VList []) b);
      let total := get_d "total_count" (VInt (Z.of_nat (length obs))) b in
      positive ← py_gt total (VInt 0);
      covered ← (if (positive : bool) then py_ge success_count total else Some false);
      Some (if (covered : bool) then "high" else "partial").

(** With counts as the capture writes them: high confidence is a nonempty
    baseline all of whose commands succeeded. *)
Lemma baseline_confidence_high ms vals b sc tot :
  dict_get "baseline_data" vals = Some (VDict b) → b ≠ [] →
  dict_get "success_count" b = Some (VInt sc) → dict_get "total_count" b = Some (VInt tot) →
  dict_get "observations" b = Some (VList []) →
  _compute_baseline_confidence (mkState ms vals) =
    Some (if (sc <=? 0)%Z then "none"
          else if (0 <? tot)%Z && (tot <=? sc)%Z then "high" else "partial").
Proof.
  intros Hb Hne Hs Ht Ho. unfold _compute_baseline_confidence, get, py_get. simpl. rewrite Hb. simpl.
  destruct b as [|x b]; [done|]. simpl negb. cbv iota. simpl as_dict. cbn [mbind option_bind].
  unfold get_d. rewrite Hs, Ht, Ho. cbn [default id].
  rewrite py_le_int. cbn [mbind option_bind]. destruct (sc <=? 0)%Z; [done|].
  cbn [mbind option_bind py_iter]. rewrite py_gt_int. cbn [mbind option_bind].
  destruct (0 <? tot)%Z; [|done]. rewrite py_ge_int. done.
Qed.

(** ** A model class that accepts fields of the declared types, with their
    defaults *)

Definition read_layer1 (d : dict pyval) : Exc Layer1Result :=
  match get_d "status" (VStr "unknown") d, get_d "details" (VStr "") d, get_d "raw_output" (VStr "") d,
        get_d "resource_statuses" (VList []) d, get_d "affected_count" (VInt 0) d,
        get_d "expired" (VBool false) d with
  | VStr st, VStr de, VStr ra, VList re, VInt af, VBool ex =>
      s ← layer1_status_of st; Some (mkLayer1 s de ra re af ex)
  | _, _, _, _, _, _ => Raise
  end.

Lemma read_layer1_dump r : read_layer1 (_layer1_to_dict r) = Some r.
Proof. by destruct r as [[] de ra re af ex]. Qed.

Definition strict_layer1 : Layer1Model := Build_Layer1Model read_layer1 read_layer1_dump.
