(* ===== verification/Layer1.v ===== *)
(** * Layer 1 of the verification
    (agent/nodes/_verifier_layer1.py, agent/nodes/_recover_layer1.py)

    Layer 1 asks ChaosBlade itself: [blade status] and [blade query k8s] after
    an injection, [blade destroy] and [blade status] for a recovery, on the
    host or through a tool pod.  The answers of the commands are arguments; a
    command answers with its output or raises with a text, and [exc_text] is
    the text of an exception raised by the interpreter itself. *)

From stdpp Require Import base list strings sets.
From Stdlib Require Import ZArith Ascii.
From S2P Require Import Prelude PyValue PyOps PyText Json Failure Router Conflict.
From S2P Require Import InjectionDetection Verdict.

(** ** Reading [blade status] *)

Definition _EXPIRED_STATES : list string :=
  ["Destroyed"; "destroyed"; "Revoked"; "revoked"; "Completed"; "completed"].
Definition _RUNNING_STATES : list string := ["Running"; "running"; "Success"; "success"].

(** [data.get("success") or data.get("code") == 200]. *)
Definition response_ok (data : dict pyval) : bool :=
  py_truthy (py_get "success" data) || eq_int (py_get "code" data) 200.

Definition _parse_blade_status_output (raw : string) : Exc (Layer1Status * string * bool) :=
  match json_loads raw with
  | JValueError => Raise
  | JDecodeError =>
      if existsb (λ s, contains s raw) _RUNNING_STATES
      then Some (L1_PASSED, "blade_status: Running (raw match)", false)
      else Some (L1_FAILED, py_take 200 raw, false)
  | JOk v =>
      data ← as_dict v;
      if negb (response_ok data) then Some (L1_FAILED, py_take 200 raw, false)
      else
        match get_d "result" (VDict []) data with
        | VDict res =>
            let exp_status := get_d "Status" (get_d "status" (VStr "") res) res in
            running ← in_set exp_status _RUNNING_STATES;
            if (running : bool)
            then Some (L1_PASSED, "blade_status: " +:+ py_str exp_status +:+ " (experiment running)", false)
            else
              expired ← in_set exp_status _EXPIRED_STATES;
              if (expired : bool) then
                Some (L1_FAILED,
                      "Experiment status: " +:+ py_str exp_status +:+
                      " — the fault has already expired (likely " +:+
                      "due to --timeout being too short). Verification cannot observe fault effects " +:+
                      "because they have already dissipated. Recommend increasing --duration to >= 60s.",
                      true)
              else
                error_msg ← as_str (get_d "Error" (VStr "") res);
                if contains "please wait" (lower error_msg) then
                  Some (L1_WARNING,
                        "Experiment in transient state (" +:+ error_msg +:+ "). " +:+
                        "Layer 2 will verify actual cluster state.", false)
                else Some (L1_FAILED, "Experiment status: " +:+ py_str exp_status, false)
        | _ => Some (L1_PASSED, "blade_status: Success (experiment running)", false)
        end
  end.

(** ** Reading [blade query k8s] *)

Record QueryK8sResult := mkQuery {
  q_status : Layer1Status; q_details : string; q_resource_statuses : list pyval;
  q_affected_count : Z; q_expired : bool }.

Definition query_empty : QueryK8sResult := mkQuery L1_UNKNOWN "" [] 0 false.

Definition resource_names (l : list pyval) : Exc string :=
  names ← mapM (vget_d "name" (VStr "?")) l; Some (py_repr (VList names)).

(** [[s for s in l if test(s)]] where the test may raise. *)
Fixpoint filter_exc {A} (f : A → Exc bool) (l : list A) : Exc (list A) :=
  match l with
  | [] => Some []
  | x :: l' =>
      b ← f x; r ← filter_exc f l'; Some (if (b : bool) then x :: r else r)
  end.

Definition _parse_blade_query_k8s_output (raw : string) : Exc QueryK8sResult :=
  let unknown d := mkQuery L1_UNKNOWN d [] 0 false in
  if negb (truthy raw) || startswith raw "Error" then
    Some (if contains "not found" raw
          then unknown "blade_query_k8s: CRD not yet ready (will be available shortly)"
          else query_empty)
  else
    match json_loads raw with
    | JValueError => Raise
    | JDecodeError => Some query_empty
    | JOk v =>
        data ← as_dict v;
        if negb (response_ok data) then
          err ← as_str (get_d "error" (VStr "") data);
          Some (if contains "not found" (lower err)
                then unknown "blade_query_k8s: CRD not found (experiment may still be initializing)"
                else query_empty)
        else
          qresult ← as_dict (get_d "result" (VDict []) data);
          let statuses := get_d "statuses" (VList []) qresult in
          if py_truthy statuses then
            l ← py_iter statuses;
            expired ← filter_exc (λ s, st ← vget_d "state" (VStr "") s; in_set st _EXPIRED_STATES) l;
            let n := Z.of_nat (length l) in
            if nonempty expired then
              names ← resource_names expired;
              Some (mkQuery L1_FAILED
                ("blade query k8s: experiment expired (state: Destroyed/Revoked): " +:+ names) l n true)
            else
              failed ← filter_exc (λ s, ok ← vget_d "success" (VBool true) s;
                                       Some (negb (py_truthy ok))) l;
              if nonempty failed then
                names ← resource_names failed;
                Some (mkQuery L1_FAILED ("blade query k8s: failed resources: " +:+ names) l n false)
              else Some (mkQuery L1_PASSED
                ("blade query k8s: all " +:+ str_of_Z n +:+ " resource(s) Success") l n false)
          else if py_truthy (get_d "success" (VBool true) qresult)
          then Some (mkQuery L1_PASSED "blade query k8s: confirmed" [] 0 false)
          else Some query_empty
    end.

(** ** Evidence in the conversation *)

Definition query_evidence (blade_uid : string) (m : Message) : Exc (option string) :=
  match m with
  | ToolMessage content name _ _ =>
      if String.eqb name "kubectl" && contains blade_uid content &&
         contains (dquote +:+ "success" +:+ dquote) content then
        match json_loads content with
        | JValueError => Raise
        | JOk (VDict data) =>
            match py_get "success" data, get_d "result" (VDict []) data with
            | VBool true, VDict result =>
                Some (if eqs (py_get "uid" result) blade_uid then Some content else None)
            | _, _ => Some None
            end
        | _ => Some None
        end
      else Some None
  | _ => Some None
  end.

(** The empty text stands for nothing found. *)
Definition _find_blade_query_in_messages (messages : list Message) (blade_uid : string) : Exc string :=
  r ← first_exc (query_evidence blade_uid) (rev messages); Some (default "" r).

Definition _map_query_k8s_to_layer1 (q : QueryK8sResult) (raw pod_name source : string) : Layer1Result :=
  let status := match q_status q with
                | L1_PASSED => L1_PASSED
                | s => if q_expired q then L1_FAILED else s
                end in
  mkLayer1 status
    ("blade query k8s via kubectl exec (" +:+ pod_name +:+ ", " +:+ source +:+ "): " +:+ q_details q)
    raw (q_resource_statuses q) (q_affected_count q) (q_expired q).

(** ** Through a tool pod *)

Section kubectl_exec.
Context (kubeconfig_args : list pyval).
Context (run : list pyval → outcome string).
Context (exc_text : string).

Definition exec_cmd (pod : string) (blade_args : list string) : list pyval :=
  map VStr ["kubectl"; "exec"; pod; "-n"; _TOOL_POD_NAMESPACE] ++ kubeconfig_args ++
  map VStr ("--" :: "blade" :: blade_args).

Definition query_cmd (pod uid : string) := exec_cmd pod ["query"; "k8s"; "create"; uid].
Definition status_cmd_of (pod uid : string) := exec_cmd pod ["status"; uid].
Definition discover_pods_cmd : list pyval :=
  map VStr ["kubectl"; "get"; "pods"; "-n"; _TOOL_POD_NAMESPACE; "-l"; _TOOL_POD_LABEL_SELECTOR] ++
  kubeconfig_args.

Definition has_any (l : list string) (raw : string) : bool := existsb (λ x, contains x raw) l.

(** The query on the original pod: a usable result or nothing; exceptions
    are swallowed. *)
Definition original_query (pod uid : string) : option Layer1Result :=
  match
    raw ← run (query_cmd pod uid);
    if truthy raw && negb (has_any ["unknown command"; "command not found";
                                    "error: unable to upgrade connection"] raw) then
      q ← with_text exc_text (_parse_blade_query_k8s_output raw);
      Ret (match q_status q with
           | L1_UNKNOWN => None
           | _ => Some (_map_query_k8s_to_layer1 q raw pod "original")
           end)
    else Ret None
  with Ret r => r | Exn _ => None end.

Definition original_status (pod uid : string) : option Layer1Result :=
  match
    raw ← run (status_cmd_of pod uid);
    if truthy raw && negb (has_any ["not found"; "error: unable to upgrade connection";
                                    "No such file"] raw) then
      '(status, details, expired) ← with_text exc_text (_parse_blade_status_output raw);
      Ret (Some (mkLayer1 status
                   ("blade_status via kubectl exec (" +:+ pod +:+ ", original): " +:+ details)
                   raw [] 0 expired))
    else Ret None
  with Ret r => r | Exn _ => None end.

(** One discovered pod: a result, or the text of the last error, if the pod
    sets one. *)
Inductive pod_result := PodResult (r : Layer1Result) | PodError (text : string).

Definition pod_status (pod uid : string) : pod_result :=
  match
    raw ← run (status_cmd_of pod uid);
    if negb (truthy raw) || has_any ["command not found"; "No such file"] raw
    then Ret (PodError ("blade binary not found in pod " +:+ pod))
    else if contains "error: unable to upgrade connection" raw
    then Ret (PodError ("cannot exec into pod " +:+ pod))
    else
      '(status, details, expired) ← with_text exc_text (_parse_blade_status_output raw);
      Ret (PodResult (mkLayer1 status
             ("blade_status via kubectl exec (" +:+ pod +:+ "): " +:+ details) raw [] 0 expired))
  with Ret r => r | Exn t => PodError t end.

Definition try_pod (pod uid : string) : pod_result :=
  match
    raw ← run (query_cmd pod uid);
    if negb (truthy raw) || contains "error: unable to upgrade connection" raw
    then Ret (Some (PodError ("cannot exec into pod " +:+ pod)))
    else if negb (has_any ["unknown command"; "command not found"; "No such file"] raw) then
      q ← with_text exc_text (_parse_blade_query_k8s_output raw);
      Ret (match q_status q with
           | L1_UNKNOWN => None
           | _ => Some (PodResult (_map_query_k8s_to_layer1 q raw pod "discovered"))
           end)
    else Ret None
  with Ret (Some r) => r | _ => pod_status pod uid end.

Fixpoint try_pods (pods : list string) (uid : string) (last_error : option string) : Layer1Result :=
  match pods with
  | [] =>
      layer1_of L1_SKIPPED
        ("kubectl exec: could not execute blade status in any tool pod (" +:+
         default "None" last_error +:+ ") -- infrastructure issue, not experiment failure") ""
  | pod :: rest =>
      match try_pod pod uid with
      | PodResult r => r
      | PodError t => try_pods rest uid (Some t)
      end
  end.

Definition _run_layer1_via_kubectl_exec (blade_uid : string) (injection_pod : option string)
    : Layer1Result :=
  let first :=
    match injection_pod with
    | Some pod =>
        if truthy pod then
          match original_query pod blade_uid with
          | Some r => Some r
          | None => original_status pod blade_uid
          end
        else None
    | None => None
    end in
  match first with
  | Some r => r
  | None =>
      match run discover_pods_cmd with
      | Exn e =>
          layer1_of L1_SKIPPED
            ("kubectl exec verification error: " +:+ e +:+
             " -- infrastructure issue, allowing Layer 2 to proceed") ""
      | Ret out =>
          match discover_tool_pods out with
          | [] =>
              layer1_of L1_SKIPPED
                ("kubectl exec: no running tool pods found, cannot verify blade status" +:+
                 " (infrastructure issue, not experiment failure)") ""
          | pods => try_pods (take 2 pods) blade_uid None
          end
      end
  end.
End kubectl_exec.

(** ** On the host

    [status_out] is the answer of [blade status], [query_first] and
    [query_second] those of the first and the second [blade query k8s], and
    [nodes_out] that of [kubectl get nodes]; [via_exec] is the check through
    a tool pod. *)

Section host.
Context (status_out query_first query_second nodes_out : outcome string).
Context (via_exec : string → option string → Layer1Result).
Context (exc_text : string).

(** The state of the check: status, details, resources, count and expiry. *)
Record host_state := mkHost {
  h_status : Layer1Status; h_details : string; h_resources : list pyval;
  h_affected : Z; h_expired : bool }.

(** The query that stands in for a host database without the record; any
    exception leaves the status as it is. *)
Definition query_fallback (raw : string) (h : host_state) : host_state * bool :=
  match h_status h with
  | L1_FAILED =>
      if contains "record not found" (lower raw) then
        match q_raw ← query_first; with_text exc_text (_parse_blade_query_k8s_output q_raw) with
        | Ret q =>
            match q_status q with
            | L1_UNKNOWN => (h, false)
            | s => (mkHost s ("blade_query_k8s fallback: " +:+ q_details q)
                      (q_resource_statuses q) (q_affected_count q) (q_expired q), true)
            end
        | Exn _ => (h, false)
        end
      else (h, false)
  | _ => (h, false)
  end.

(** The second look five seconds after a first success. *)
Definition settle_guard (q : QueryK8sResult) (h : host_state) : host_state :=
  match q_raw ← query_second; with_text exc_text (_parse_blade_query_k8s_output q_raw) with
  | Exn _ => mkHost (h_status h) ("blade_status: Running, " +:+ q_details q)
               (h_resources h) (h_affected h) (h_expired h)
  | Ret recheck =>
      match q_status recheck with
      | L1_FAILED =>
          mkHost L1_FAILED
            ("blade_status: Running, but re-check after 5s: " +:+ q_details recheck)
            (q_resource_statuses recheck) (q_affected_count recheck) (h_expired h)
      | _ =>
          if q_expired recheck
          then mkHost (h_status h) (h_details h) (h_resources h) (h_affected h) true
          else mkHost (h_status h)
                 ("blade_status: Running, " +:+ q_details q +:+ " (confirmed after re-check)")
                 (h_resources h) (h_affected h) (h_expired h)
      end
  end.

(** The check of each resource when the experiment is running. *)
Definition query_step (h : host_state) : host_state :=
  match h_status h with
  | L1_PASSED =>
      match q_raw ← query_first; with_text exc_text (_parse_blade_query_k8s_output q_raw) with
      | Exn _ => h
      | Ret q =>
          let h' := mkHost (h_status h) (h_details h) (q_resource_statuses q) (q_affected_count q)
                      (q_expired q || h_expired h) in
          match q_status q with
          | L1_FAILED => mkHost L1_FAILED ("blade_status: Running, but " +:+ q_details q)
                           (h_resources h') (h_affected h') (h_expired h')
          | L1_PASSED => settle_guard q h'
          | _ => mkHost (h_status h')
                   (if truthy (h_details h') then h_details h'
                    else "blade_status: Running (blade_query_k8s unavailable)")
                   (h_resources h') (h_affected h') (h_expired h')
          end
      end
  | _ => h
  end.

Definition with_status (s : Layer1Status) (details : string) (h : host_state) : host_state :=
  mkHost s details (h_resources h) (h_affected h) (h_expired h).

Definition evidence_details : string :=
  "blade_status unavailable (host blade error), " +:+
  "but blade query k8s from kubectl exec confirmed injection success".

(** A failure against which the conversation has evidence. *)
Definition message_fallback (uid : string) (messages : list Message) (h : host_state) : Exc host_state :=
  match h_status h, messages with
  | L1_FAILED, _ :: _ =>
      ev ← _find_blade_query_in_messages messages uid;
      if truthy ev then Some (with_status L1_PASSED evidence_details h)
      else
        inj ← _was_kubectl_blade_injection_successful messages;
        Some (if (inj : bool)
              then with_status L1_SKIPPED
                     ("blade_status/blade_query_k8s reported failure, " +:+
                      "but blade_uid=" +:+ uid +:+ " was extracted from kubectl exec injection output. " +:+
                      "Host blade binary may be incompatible.") h
              else h)
  | _, _ => Some h
  end.

Definition _conn_keywords : list string :=
  ["connection refused"; "connection timed out"; "unreachable"; "dial tcp"; "i/o timeout"].

(** A failure that the fault itself explains: the node is gone. *)
Definition self_destructive (raw : string) (h : host_state) : host_state :=
  match h_status h with
  | L1_FAILED =>
      if has_any _conn_keywords (lower (h_details h +:+ raw)) then
        match nodes_out with
        | Ret out =>
            if contains "NotReady" out
            then with_status L1_SKIPPED
                   ("blade_status unreachable (node connectivity lost), " +:+
                    "but target node is NotReady — consistent with a " +:+
                    "self-destructive fault (e.g. containerd/kubelet stop). " +:+
                    "Layer 2 will verify the actual fault effect.") h
            else h
        | Exn _ => h
        end
      else h
  | _ => h
  end.

Definition host_check (uid : string) (messages : list Message) : outcome Layer1Result :=
  raw ← status_out;
  '(status, details, expired) ← with_text exc_text (_parse_blade_status_output raw);
  let '(h, used) := query_fallback raw (mkHost status details [] 0 expired) in
  let h := if (used : bool) then h else query_step h in
  h ← with_text exc_text (message_fallback uid messages h);
  let h := self_destructive raw h in
  Ret (mkLayer1 (h_status h) (h_details h) raw (h_resources h) (h_affected h) (h_expired h)).

Definition host_failed (uid : string) (messages : list Message) (e : string) : Exc Layer1Result :=
  ev ← (match messages with [] => Some "" | _ => _find_blade_query_in_messages messages uid end);
  Some (if truthy ev then layer1_of L1_PASSED evidence_details ev
        else layer1_of L1_SKIPPED
               ("blade_status/blade_query_k8s unavailable (" +:+ e +:+ "), " +:+
                "but blade_uid=" +:+ uid +:+ " was extracted from injection output") e).

Definition _run_layer1_verification (uid : string) (messages : list Message)
    (injection_method : string) (injection_pod : option string) : Exc Layer1Result :=
  if negb (truthy uid) then
    tried ← (match messages with [] => Some false | _ => _was_blade_create_attempted messages end);
    Some (if (tried : bool)
          then layer1_of L1_WARNING
                 ("blade_create was called but reported error — " +:+
                  "fault may still be in effect via fallback mechanisms. " +:+
                  "Layer 2 will verify actual cluster state.") ""
          else layer1_of L1_SKIPPED
                 "Non-ChaosBlade fault (no blade_create used), Layer 1 not applicable" "")
  else if String.eqb injection_method "kubectl_exec" then Some (via_exec uid injection_pod)
  else if String.eqb injection_method "kubectl_native" then
    Some (layer1_of L1_SKIPPED
            "kubectl-native injection (no blade experiment), Layer 1 not applicable" "")
  else
    match host_check uid messages with
    | Ret r => Some r
    | Exn e => host_failed uid messages e
    end.
End host.

(** ** Recovery: destroy, then check *)

Definition _DESTROYED_STATES : list string := ["Destroyed"; "destroyed"].

Definition _parse_blade_destroy_output (raw : string) : Exc (Layer1Status * string) :=
  if negb (truthy raw) || startswith raw "Error"
  then Some (L1_FAILED, "blade_destroy returned error: " +:+ py_take 200 raw)
  else
    match json_loads raw with
    | JValueError => Raise
    | JDecodeError =>
        if contains "success" (lower raw) || contains "destroy" (lower raw)
        then Some (L1_PASSED, "blade_destroy completed (non-JSON output)")
        else Some (L1_FAILED, py_take 200 raw)
    | JOk v =>
        data ← as_dict v;
        if response_ok data then Some (L1_PASSED, "blade_destroy: success")
        else Some (L1_FAILED, "blade_destroy failed: " +:+
                                py_str (get_d "error" (VStr (py_take 200 raw)) data))
    end.

Definition _parse_blade_status_destroyed (raw : string) : Exc (Layer1Status * string) :=
  match json_loads raw with
  | JValueError => Raise
  | JDecodeError =>
      if has_any _DESTROYED_STATES raw
      then Some (L1_PASSED, "blade_status confirms: Destroyed")
      else Some (L1_UNKNOWN, "Could not parse blade_status output")
  | JOk v =>
      data ← as_dict v;
      if negb (response_ok data) then
        if eq_int (py_get "code" data) 406
        then Some (L1_PASSED, "blade_status: experiment data not found (already destroyed)")
        else Some (L1_FAILED, "blade_status check failed: " +:+ py_take 200 raw)
      else
        match get_d "result" (VDict []) data with
        | VDict res =>
            let exp_status := get_d "Status" (get_d "status" (VStr "") res) res in
            destroyed ← in_set exp_status _DESTROYED_STATES;
            if (destroyed : bool) then Some (L1_PASSED, "blade_status confirms: Destroyed")
            else if one_of exp_status ["Running"; "running"]
            then Some (L1_FAILED, "blade_status: experiment still Running (destroy may have failed)")
            else Some (L1_FAILED, "blade_status: unexpected status '" +:+ py_str exp_status +:+ "'")
        | _ => Some (L1_PASSED, "blade_status: Destroyed")
        end
  end.

(** The recovery summary of the model, when there is no experiment. *)
Definition recovery_status (text : string) : Layer1Status :=
  let t := lower text in
  if contains "status: success" t || contains "status:  success" t then L1_PASSED
  else if contains "status: failed" t || contains "status:  failed" t then L1_FAILED
  else if contains "recovery_execution_result" t then
    if contains "error" t || contains "failed" t then L1_FAILED else L1_PASSED
  else L1_PASSED.

Definition recovery_detail_line (line : string) : string :=
  let l := lower (strip line) in
  if startswith l "actions:" || startswith l "details:" then strip line +:+ "; " else "".

Definition _parse_layer1_recovery_result (text : string) : Layer1Result :=
  let details := join "" (map recovery_detail_line (lines text)) in
  let details := if truthy details then details else py_take 300 (strip text) in
  layer1_of (recovery_status text)
    (if truthy details then rstrip_of "; " details else "Recovery execution completed")
    (py_take 500 (strip text)).

Section recover.
Context (destroy_out status_out : outcome string).
Context (exc_text : string).

(** The status check after a destroy: exceptions do not count against it. *)
Definition destroyed_check (destroy_details destroy_raw : string) : Layer1Result :=
  match
    raw ← status_out;
    '(status, details) ← with_text exc_text (_parse_blade_status_destroyed raw);
    let both := "destroy: " +:+ destroy_raw +:+ newline +:+ "status: " +:+ raw in
    Ret (match status with
         | L1_FAILED => layer1_of L1_FAILED (destroy_details +:+ ", but " +:+ details) both
         | _ => layer1_of L1_PASSED (destroy_details +:+ ", " +:+ details) both
         end)
  with
  | Ret r => r
  | Exn _ => layer1_of L1_PASSED (destroy_details +:+ " (status check unavailable)") destroy_raw
  end.

Definition _run_recover_layer1 (uid : string) (messages : list Message) : Exc Layer1Result :=
  if negb (truthy uid) then
    tried ← (match messages with [] => Some false | _ => _was_blade_create_attempted messages end);
    Some (if (tried : bool)
          then layer1_of L1_FAILED
                 "blade_create was called during injection but no UID available for recovery" ""
          else layer1_of L1_SKIPPED
                 "Non-ChaosBlade fault (no blade_uid), Layer 1 recovery not applicable" "")
  else
    Some match
      raw ← destroy_out;
      '(status, details) ← with_text exc_text (_parse_blade_destroy_output raw);
      Ret (match status with
           | L1_FAILED => layer1_of L1_FAILED details raw
           | _ => destroyed_check details raw
           end)
    with
    | Ret r => r
    | Exn e => layer1_of L1_ERROR e e
    end.
End recover.

(** ** An infrastructure failure is not an experiment failure *)

Definition parsed_failed (out : string) : Prop :=
  (∃ d, _parse_blade_status_output out = Some (L1_FAILED, d, false)) ∨
  (∃ q, _parse_blade_query_k8s_output out = Some q ∧ q_status q = L1_FAILED ∧ q_expired q = false).

(** Statuses the parsers give. *)
Lemma parse_status_cases raw st d ex :
  _parse_blade_status_output raw = Some (st, d, ex) →
  match st with
  | L1_PASSED | L1_WARNING => ex = false
  | L1_FAILED => True
  | _ => False
  end.
Proof.
  unfold _parse_blade_status_output.
  destruct (json_loads raw) as [v| |]; [|case_if; by intros [= <- _ <-] | done].
  intros (data & _ & H)%bind_Some. case_if_in H; [by injection H as <- _ <-|].
  destruct (get_d _ _ data) as [| | | | | | |res]; try by injection H as <- _ <-.
  apply bind_Some in H as (r & _ & H). case_if_in H; [by injection H as <- _ <-|].
  apply bind_Some in H as (e & _ & H). case_if_in H; [by injection H as <- _ <-|].
  apply bind_Some in H as (m & _ & H). case_if_in H; by injection H as <- _ <-.
Qed.

Lemma parse_query_cases raw q :
  _parse_blade_query_k8s_output raw = Some q →
  match q_status q with
  | L1_PASSED | L1_UNKNOWN => q_expired q = false
  | L1_FAILED => True
  | _ => False
  end.
Proof.
  unfold _parse_blade_query_k8s_output. cbv zeta.
  case_if; [case_if; by intros [= <-]|].
  destruct (json_loads raw) as [v| |]; [|by intros [= <-] | done].
  intros (data & _ & H)%bind_Some. case_if_in H.
  { apply bind_Some in H as (err & _ & H). case_if_in H; by injection H as <-. }
  apply bind_Some in H as (qr & _ & H). case_if_in H; [|case_if_in H; by injection H as <-].
  apply bind_Some in H as (l & _ & H). apply bind_Some in H as (ex & _ & H).
  case_if_in H; [apply bind_Some in H as (n & _ & H); by injection H as <-|].
  apply bind_Some in H as (f & _ & H).
  case_if_in H; [apply bind_Some in H as (n & _ & H)|]; by injection H as <-.
Qed.

Lemma map_query_terminal q raw pod src :
  is_terminal (_map_query_k8s_to_layer1 q raw pod src) = true →
  q_status q = L1_FAILED ∧ q_expired q = false ∨ q_status q = L1_ERROR.
Proof.
  unfold is_terminal, _map_query_k8s_to_layer1. cbn.
  destruct (q_expired q); [done|]. destruct (q_status q); naive_solver.
Qed.

Section exec_props.
Context (kubeconfig_args : list pyval) (run : list pyval → outcome string) (exc_text : string).

Definition seen_failed : Prop := ∃ cmd out, run cmd = Ret out ∧ parsed_failed out.

Lemma query_terminal cmd raw q pod src :
  run cmd = Ret raw → _parse_blade_query_k8s_output raw = Some q →
  is_terminal (_map_query_k8s_to_layer1 q raw pod src) = true → seen_failed.
Proof.
  intros Hr Hq Ht. pose proof (parse_query_cases _ _ Hq) as Hc.
  apply map_query_terminal in Ht as [[Hs He]|Hs]; [|by rewrite Hs in Hc].
  exists cmd, raw. split; [done|]. right. eauto.
Qed.

Lemma status_terminal cmd raw st d ex d' :
  run cmd = Ret raw → _parse_blade_status_output raw = Some (st, d, ex) →
  is_terminal (mkLayer1 st d' raw [] 0 ex) = true → seen_failed.
Proof.
  intros Hr Hs Ht. pose proof (parse_status_cases _ _ _ _ Hs) as Hc.
  unfold is_terminal in Ht. cbn in Ht. destruct ex; [done|].
  destruct st; try done. exists cmd, raw. split; [done|]. left. eauto.
Qed.

(** Unfolds [with_text exc_text x = Ret y]. *)
Lemma with_text_ret {A} (x : Exc A) y : with_text exc_text x = Ret y → x = Some y.
Proof. destruct x; simpl; [by intros [= ->] | done]. Qed.

Ltac exec_step H :=
  match type of H with
  | match ?x with _ => _ end = _ => let E := fresh "E" in destruct x eqn:E
  end.

Lemma original_query_terminal pod uid r :
  original_query kubeconfig_args run exc_text pod uid = Some r → is_terminal r = true → seen_failed.
Proof.
  unfold original_query. intros H Ht. exec_step H; [|done]. subst.
  apply outcome_bind_ret in E as (raw & Hraw & E). case_if_in E; [|done].
  apply outcome_bind_ret in E as (q & Hq%with_text_ret & E).
  destruct (q_status q) eqn:Es; try done; injection E as <-; by eapply query_terminal.
Qed.

Lemma original_status_terminal pod uid r :
  original_status kubeconfig_args run exc_text pod uid = Some r → is_terminal r = true → seen_failed.
Proof.
  unfold original_status. intros H Ht. exec_step H; [|done]. subst.
  apply outcome_bind_ret in E as (raw & Hraw & E). case_if_in E; [|done].
  apply outcome_bind_ret in E as ([[st d] ex] & Hs%with_text_ret & E).
  injection E as <-. by eapply status_terminal.
Qed.

Lemma pod_status_terminal pod uid r :
  pod_status kubeconfig_args run exc_text pod uid = PodResult r → is_terminal r = true → seen_failed.
Proof.
  unfold pod_status. intros H Ht. exec_step H; [|done]. subst.
  apply outcome_bind_ret in E as (raw & Hraw & E).
  case_if_in E; [done|]. case_if_in E; [done|].
  apply outcome_bind_ret in E as ([[st d] ex] & Hs%with_text_ret & E).
  injection E as <-. by eapply status_terminal.
Qed.

Lemma try_pod_terminal pod uid r :
  try_pod kubeconfig_args run exc_text pod uid = PodResult r → is_terminal r = true → seen_failed.
Proof.
  unfold try_pod. intros H Ht. exec_step H; [|by eapply pod_status_terminal].
  destruct a as [p|]; [|by eapply pod_status_terminal]. subst.
  apply outcome_bind_ret in E as (raw & Hraw & E).
  case_if_in E; [done|]. case_if_in E; [|done].
  apply outcome_bind_ret in E as (q & Hq%with_text_ret & E).
  destruct (q_status q) eqn:Es; try done; injection E as <-; by eapply query_terminal.
Qed.

Lemma try_pods_terminal pods uid e :
  is_terminal (try_pods kubeconfig_args run exc_text pods uid e) = true → seen_failed.
Proof.
  revert e. induction pods as [|pod pods IH]; intros e; cbn [try_pods]; [done|].
  destruct (try_pod _ _ _ pod uid) eqn:E; [by eapply try_pod_terminal | apply IH].
Qed.

(** Through a tool pod, layer 1 blocks the verification (a terminal
    result) only when a command answered and its answer says that the
    experiment failed and has not expired: pods that cannot be found or
    reached, empty answers and exceptions never do. *)
Theorem exec_terminal_means_failed uid pod :
  is_terminal (_run_layer1_via_kubectl_exec kubeconfig_args run exc_text uid pod) = true →
  ∃ cmd out, run cmd = Ret out ∧ parsed_failed out.
Proof.
  unfold _run_layer1_via_kubectl_exec. cbv zeta.
  set (first := match pod with Some _ => _ | None => _ end).
  destruct first as [r|] eqn:Ef.
  - intros Ht. unfold first in Ef. destruct pod as [pod|]; [|done]. case_if_in Ef; [|done].
    destruct (original_query _ _ _ pod uid) eqn:Eq.
    + injection Ef as <-. by eapply original_query_terminal.
    + by eapply original_status_terminal.
  - destruct (run _) as [out|t]; [|done].
    destruct (discover_tool_pods out) eqn:Ed; [done | apply try_pods_terminal].
Qed.
End exec_props.

(** A cluster whose tool pod reports a failed resource. *)
Definition failed_query : string :=
  "{" +:+ dquote +:+ "success" +:+ dquote +:+ ":true," +:+ dquote +:+ "result" +:+ dquote +:+ ":{" +:+
  dquote +:+ "statuses" +:+ dquote +:+ ":[{" +:+ dquote +:+ "name" +:+ dquote +:+ ":" +:+ dquote +:+ "web-0" +:+
  dquote +:+ "," +:+ dquote +:+ "success" +:+ dquote +:+ ":false}]}}".

Definition answer_query (cmd : list pyval) : outcome string := Ret failed_query.

Lemma exec_terminal_means_failed_witness :
  is_terminal (_run_layer1_via_kubectl_exec [] answer_query "" "u1" (Some "tool-1")) = true ∧
  ∃ cmd out, answer_query cmd = Ret out ∧ parsed_failed out.
Proof.
  split; [vm_compute; reflexivity|].
  apply (exec_terminal_means_failed [] answer_query "" "u1" (Some "tool-1")).
  vm_compute. reflexivity.
Defined.

(** ** Recovery *)

(** Layer 1 of a recovery passes only when [blade destroy] answered and
    its answer was read as a success, and the status check, where it answered
    with something readable, did not contradict it. *)
Theorem recover_layer1_passed destroy_out status_out exc_text uid messages r :
  _run_recover_layer1 destroy_out status_out exc_text uid messages = Some r →
  l1_status r = L1_PASSED →
  uid ≠ "" ∧
  (∃ raw d, destroy_out = Ret raw ∧ _parse_blade_destroy_output raw = Some (L1_PASSED, d)) ∧
  (∀ raw d, status_out = Ret raw → _parse_blade_status_destroyed raw ≠ Some (L1_FAILED, d)).
Proof.
  unfold _run_recover_layer1. destruct (truthy uid) eqn:Eu; cbn [negb].
  - apply truthy_spec in Eu. intros H Hp. split; [done|]. injection H as <-. revert Hp.
    destruct destroy_out as [raw|t]; simpl; [|done].
    destruct (_parse_blade_destroy_output raw) as [[st d]|] eqn:Ed; simpl; [|done].
    assert (Hst : st = L1_PASSED ∨ st = L1_FAILED).
    { revert Ed. unfold _parse_blade_destroy_output. case_if; [intros [= <-]; auto|].
      destruct (json_loads raw); [|case_if; intros [= <-]; auto | done].
      intros (data & _ & H)%bind_Some. case_if_in H; injection H as <-; auto. }
    destruct Hst as [-> | ->]; [|done]. intros Hp. split; [eauto|].
    intros raw2 d2 -> Hf. unfold destroyed_check in Hp. simpl in Hp. by rewrite Hf in Hp.
  - intros (tried & _ & H)%bind_Some. destruct tried; injection H as <-; done.
Qed.

Definition destroyed_ok : string :=
  "{" +:+ dquote +:+ "code" +:+ dquote +:+ ":200," +:+ dquote +:+ "success" +:+ dquote +:+ ":true}".

Lemma recover_layer1_passed_witness :
  "u1" ≠ "" ∧
  (∃ raw d, @Ret string destroyed_ok = Ret raw ∧ _parse_blade_destroy_output raw = Some (L1_PASSED, d)) ∧
  (∀ raw d, Ret "Destroyed" = Ret raw → _parse_blade_status_destroyed raw ≠ Some (L1_FAILED, d)).
Proof.
  eapply (recover_layer1_passed (Ret destroyed_ok) (Ret "Destroyed") "" "u1" []).
  - vm_compute. reflexivity.
  - reflexivity.
Defined.

(** The second layer always gets its turn after an unreadable environment:
    on the host an exception is never terminal. *)
Lemma host_exception_not_terminal uid messages e r :
  host_failed uid messages e = Some r → is_terminal r = false.
Proof. unfold host_failed. intros (ev & _ & [= <-])%bind_Some. by case_if. Qed.

(** ** Divergences *)

(** Text that is not JSON counts as a running experiment when a word of it
    contains "running" or "success", whatever it says. *)
Example not_running_passes :
  _parse_blade_status_output "error: experiment is not running"
  = Some (L1_PASSED, "blade_status: Running (raw match)", false).
Proof. vm_compute. reflexivity. Qed.

(** A destroy that failed counts as completed when its message, which is not
    JSON, contains the word "destroy". *)
Example failed_destroy_passes :
  _parse_blade_destroy_output "failed to destroy experiment: connection refused"
  = Some (L1_PASSED, "blade_destroy completed (non-JSON output)").
Proof. vm_compute. reflexivity. Qed.

(** An expired answer of the query is always a failed one... *)
Lemma query_expired_failed raw q :
  _parse_blade_query_k8s_output raw = Some q → q_expired q = true → q_status q = L1_FAILED.
Proof.
  intros H%parse_query_cases He. destruct (q_status q); try done; congruence.
Qed.

(** ...so the branch of the settle guard for an expired experiment is never
    taken, and an experiment that expires between the two queries is reported
    as failed without the mark of expiry. *)
Lemma settle_guard_loses_expiry exc_text q h raw recheck :
  _parse_blade_query_k8s_output raw = Some recheck → q_expired recheck = true →
  h_status (settle_guard (Ret raw) exc_text q h) = L1_FAILED ∧
  h_expired (settle_guard (Ret raw) exc_text q h) = h_expired h.
Proof.
  intros H He. pose proof (query_expired_failed _ _ H He) as Hs.
  unfold settle_guard. simpl. rewrite H. simpl. by rewrite Hs.
Qed.
