(* ===== verification/VerdictParse.v ===== *)
(** * Reading the verdict of the model (agent/nodes/_verifier_layer2_parse.py)

    The verifier's conclusion arrives as JSON, as free text or (in
    [Finalize]) as the arguments of a tool call.  Here: the checklist and the
    fields of a text, the JSON form, the comparison of a checklist with its
    conclusion, the comparison of cited numbers with the observed ones, and
    the steps of a skill case.  A verdict is a dict, as in the source. *)

From stdpp Require Import base list strings sets.
From Stdlib Require Import ZArith Ascii SpecFloat.
From S2P Require Import Prelude PyValue PyFloat PyOps PyText PyRe Json Failure Router.
From S2P Require Import InjectionDetection Layer1 Verdict.

Definition verdict := dict pyval.

(** [d.setdefault("warnings", []).append(w)]: another type than a list has no
    [append]. *)
Definition append_warning (w : string) (d : verdict) : Exc verdict :=
  match dict_get "warnings" d with
  | None => Some (dict_set "warnings" (VList [VStr w]) d)
  | Some (VList l) => Some (dict_set "warnings" (VList (l ++ [VStr w])) d)
  | Some _ => Raise
  end.

Definition status_of (item : pyval) : Exc pyval := vget "status" item.
Definition non_passed_statuses : list string := ["failed"; "partial"; "recovered_before_observation"].
Definition has_status (l : list string) (item : pyval) : Exc bool :=
  s ← status_of item; Some (one_of s l).

(** [v.get("layer2", {}).get("status", "unknown")] and
    [(v.get("layer2") or {}).get("status")]. *)
Definition layer2_field (k : string) (dflt : pyval) (d : verdict) : Exc pyval :=
  vget_d k dflt (get_d "layer2" (VDict []) d).
Definition layer2_field_or (k : string) (dflt : pyval) (d : verdict) : Exc pyval :=
  vget_d k dflt (or_empty (py_get "layer2" d)).

(** ** Cited numbers against observed ones *)

Definition _DELTA_PATTERN : pattern := Eval vm_compute in
  get_pattern (compile re_I
    ("(?P<base>\d+(?:\.\d+)?)\s*(?:%|m|Mi|Gi|Ki)?\s*(?:→|->|to|—>)\s*" +:+
     "(?P<post>\d+(?:\.\d+)?)\s*(?:%|m|Mi|Gi|Ki)?")) ltac:(vm_compute; discriminate).

Definition _METRIC_CONTEXT_LOOKBACK : nat := 80.

Definition _NUMERIC_RE : pattern := Eval vm_compute in
  get_pattern (compile no_flags "^\s*(\d+(?:\.\d+)?)") ltac:(vm_compute; discriminate).

Definition _parse_numeric (value : pyval) : Exc (option spec_float) :=
  if negb (py_truthy value) then Some None
  else
    s ← as_str value;
    Some (m ← re_match _NUMERIC_RE s; t ← group 1 m; py_float_of_string t).

Definition _PARENS_RE : pattern := Eval vm_compute in
  get_pattern (compile no_flags "\s*\([^)]*\)") ltac:(vm_compute; discriminate).

Definition _metric_alias (name : string) : string := lower (strip (re_sub _PARENS_RE "" name)).

Definition truth_table := dict (spec_float * spec_float).

Definition _pick_metric_by_context (context_lc : string) (truth : truth_table) : option string :=
  match List.find (λ m, contains (lower m) context_lc) (dict_keys truth) with
  | Some m => Some m
  | None =>
      match List.filter (λ m, contains (_metric_alias m) context_lc) (dict_keys truth) with
      | [m] => Some m
      | _ => None
      end
  end.

Definition _collect_evidence_text (result : verdict) : Exc string :=
  l2 ← layer2_field_or "details" (VStr "") result;
  items ← vget_d "items" (VList []) (or_empty (py_get "checklist" result));
  items ← py_iter (py_or items (VList []));
  evs ← mapM (vget_d "evidence" (VStr "")) items;
  join_vals newline (List.filter py_truthy (l2 :: evs)).

(** [int(v)]. *)
Definition py_int_strict (v : pyval) : Exc Z :=
  match v with
  | VInt z => Some z
  | VBool b => Some (if b then 1 else 0)%Z
  | VFloat r => match float_trunc (float_of_repr r) with TInt z => Some z | _ => Raise end
  | VStr s => py_int_of_string (strip s)
  | _ => Raise
  end.

(** A stable sort by iteration. *)
Fixpoint insert_by_iteration (x : Z * pyval) (l : list (Z * pyval)) : list (Z * pyval) :=
  match l with
  | [] => [x]
  | y :: l' => if (x.1 <? y.1)%Z then x :: l else y :: insert_by_iteration x l'
  end.
Definition sort_by_iteration (l : list (Z * pyval)) : list (Z * pyval) :=
  fold_left (λ acc x, insert_by_iteration x acc) l [].

Definition add_metrics (by_metric : dict (list (Z * pyval))) (obs : pyval)
    : Exc (dict (list (Z * pyval))) :=
  o ← as_dict obs;
  iteration ← py_int_strict (get_d "iteration" (VInt 0) o);
  metrics ← as_dict (or_empty (py_get "metrics" o));
  Some (fold_left (λ d nv, dict_set nv.1 (default [] (dict_get nv.1 d) ++ [(iteration, nv.2)]) d)
          metrics by_metric).

Fixpoint fold_exc {A B} (f : A → B → Exc A) (a : A) (l : list B) : Exc A :=
  match l with
  | [] => Some a
  | x :: l' => a' ← f a x; fold_exc f a' l'
  end.

(** The first and the last value of a metric, where both are numbers. *)
Definition metric_delta (values : list (Z * pyval)) : Exc (option (spec_float * spec_float)) :=
  match sort_by_iteration values with
  | first :: ((_ :: _) as rest) =>
      base ← _parse_numeric first.2;
      post ← _parse_numeric (List.last rest first).2;
      Some match base, post with Some b, Some p => Some (b, p) | _, _ => None end
  | _ => Some None
  end.

Definition _build_truth_deltas (observations : pyval) : Exc truth_table :=
  obs ← py_iter (py_or observations (VList []));
  by_metric ← fold_exc add_metrics [] obs;
  fold_exc (λ d nv, r ← metric_delta nv.2;
                    Some (match r with Some bp => dict_set nv.1 bp d | None => d end)) [] by_metric.

(** What a citation says of a metric, if it contradicts the observations. *)
Definition contradiction (evidence : list char) (truth : truth_table) (n_obs : Z) (m : mobj)
    : option string :=
  base_str ← group 1 m;
  post_str ← group 2 m;
  llm_base ← py_float_of_string base_str;
  llm_post ← py_float_of_string post_str;
  let llm_delta := float_sub llm_post llm_base in
  if float_is_zero llm_delta then None
  else
    let start := mo_start m in
    let context :=
      take (Nat.min start _METRIC_CONTEXT_LOOKBACK) (drop (start - _METRIC_CONTEXT_LOOKBACK) evidence) in
    metric ← _pick_metric_by_context (lower (unchars context)) truth;
    '(truth_base, truth_post) ← dict_get metric truth;
    if float_is_zero (float_sub truth_post truth_base) then
      Some ("LLM evidence cites " +:+ metric +:+ " " +:+ base_str +:+ "→" +:+ post_str +:+
            " (Δ=" +:+ format_g true llm_delta +:+ "), " +:+
            "but observation timeline shows no change " +:+
            "(stayed at " +:+ format_g false truth_base +:+ " across " +:+ str_of_Z n_obs +:+ " iteration(s))")
    else None.

Definition _find_contradictions (evidence : string) (truth : truth_table) (n_obs : Z) : list string :=
  omap (contradiction (uchars evidence) truth n_obs) (finditer _DELTA_PATTERN evidence).

Definition _apply_contradiction_downgrade (result : verdict) (contradictions : list string)
    : Exc verdict :=
  r ← fold_exc (λ d c, append_warning c d) result contradictions;
  st ← layer2_field_or "status" VNone r;
  r ← (if eqs st "passed" then set_in "layer2" "status" (VStr "partial") r else Some r);
  if eqs (py_get "level" r) "verified" then
    append_warning
      ("Verdict downgraded verified→partial due to evidence/timeline " +:+
       "contradiction(s) above. Objective metric measurements override " +:+
       "the LLM's stated conclusion.") (dict_set "level" (VStr "partial") r)
  else Some r.

Definition cross_check_evidence (result : verdict) (observations : pyval) : Exc verdict :=
  if negb (py_truthy observations) then Some result
  else
    truth ← _build_truth_deltas observations;
    if negb (nonempty truth) then Some result
    else
      evidence ← _collect_evidence_text result;
      if negb (truthy evidence) then Some result
      else
        obs ← py_iter observations;
        match _find_contradictions evidence truth (Z.of_nat (length obs)) with
        | [] => Some result
        | cs => _apply_contradiction_downgrade result cs
        end.

(** ** Levels *)

Definition _determine_level (l1_status l2_status : string) : string :=
  if String.eqb l2_status "recovered_before_observation" then "partial"
  else if String.eqb l1_status "passed" && String.eqb l2_status "passed" then "verified"
  else if String.eqb l1_status "skipped" && String.eqb l2_status "passed" then "verified"
  else if String.eqb l1_status "passed" && (l2_status ∈? ["partial"; "skipped"]) then "partial"
  else if String.eqb l1_status "skipped" && String.eqb l2_status "partial" then "partial"
  else "unverified".

Definition _CONTRADICTION_INDICATORS : dict (list string) :=
  [("cpu", ["cpu usage high"; "cpu utilization"; "cpu at"]);
   ("network", ["packet loss"; "network delay"; "latency increased"; "connection refused";
                "network loss"]);
   ("disk", ["disk usage"; "disk full"; "no space left"]);
   ("process", ["restart count"; "crashloop"; "oomkilled"])].

(** ** The checklist of a text *)

Definition _CHECKLIST_PATTERNS : list pattern := Eval vm_compute in
  [get_pattern (compile re_IM
     ("(?:step|check)\s*(\d+)\s*[:.)]\s*\[?(passed|failed|skipped|recovered_before_observation|expected)\]?" +:+
      "(?:\s*[—–-]\s*(.+?))?\s*$")) ltac:(vm_compute; discriminate);
   get_pattern (compile re_I "(?<!\d[.:)]\s)\[SKIPPED\]\s*(?:step\s*)?(\d+)?")
     ltac:(vm_compute; discriminate);
   get_pattern (compile re_IM
     ("^\s*(\d+)\s*[.:)]\s*\[?(passed|failed|skipped|recovered_before_observation|expected)\]?" +:+
      "(?:\s*[—–-]\s*(.+?))?\s*$")) ltac:(vm_compute; discriminate)].

Record checkitem := mkItem { i_step : Z; i_status : string; i_evidence : option string }.

(** The step number of a match as text, and its status. *)
Definition match_step (seen : nat) (m : mobj) : string * string :=
  if contains "[skipped]" (lower (mo_text m)) then
    (match group 1 m with
     | Some s => str_or s (str_of_nat (S seen))
     | None => str_of_nat (S seen)
     end, "skipped")
  else (default "" (group 1 m), lower (default "" (group 2 m))).

Definition match_evidence (m : mobj) : option string :=
  match lastindex m with
  | Some n =>
      if Nat.leb 3 n then
        match group 3 m with
        | Some e => if truthy e then Some (strip e) else None
        | None => None
        end
      else None
  | None => None
  end.

(** One match: an item, unless its step has been seen. *)
Definition add_match (st : list checkitem * list string) (m : mobj) : list checkitem * list string :=
  let '(items, seen) := st in
  let '(step_str, status) := match_step (length seen) m in
  if step_str ∈? seen then st
  else
    let num := match py_int_of_string step_str with
               | Some n => n
               | None => Z.of_nat (S (length items))
               end in
    (items ++ [mkItem num status (match_evidence m)], seen ++ [step_str]).

Definition checklist_section (start_mark end_mark text : string) : string :=
  match cut_str start_mark text with
  | Some (_, r) => before_str end_mark r
  | None => text
  end.

Definition _parse_checklist_items (text : string) : list checkitem :=
  let section := checklist_section "VERIFICATION_CHECKLIST:" "VERIFICATION_RESULT:" text in
  (fold_left (λ st p, fold_left add_match (finditer p section) st) _CHECKLIST_PATTERNS ([], [])).1.

Definition item_dict (i : checkitem) : pyval :=
  VDict ([("step", VInt (i_step i)); ("status", VStr (i_status i))] ++
         match i_evidence i with Some e => [("evidence", VStr e)] | None => [] end).

Definition _has_checklist (text : string) : bool :=
  contains "VERIFICATION_CHECKLIST:" text ||
  existsb (λ p, match re_search p text with Some _ => true | None => false end) _CHECKLIST_PATTERNS.

(** ** A checklist against its conclusion *)

Definition _INJECT_ABSENCE_PHRASES : list string :=
  ["no change"; "no increase"; "no increase observed"; "not observed";
   "not elevated"; "not increased"; "no effect"; "not affected";
   "remains at"; "remains normal"; "unchanged"; "no fill";
   "still normal"; "no observable"; "not yet observable";
   "far below"; "well below"; "at 1%"; "at 2%"; "at 3%";
   "at 4%"; "at 5%"; "at 6%"; "at 7%"; "at 8%"; "at 9%";
   "at 10%"; "at 11%"; "at 12%"; "at 13%"; "at 14%"; "at 15%";
   "at 16%"; "at 17%"; "at 18%"; "at 19%"; "at 20%";
   "below threshold"; "under threshold"].

(** [f"Step(s) {[i.get('step', '?') for i in items]} marked '...'"], when
    there are such items. *)
Definition marked (status : string) (items : list pyval) : Exc (list string) :=
  match items with
  | [] => Some []
  | _ =>
      steps ← mapM (vget_d "step" (VStr "?")) items;
      Some ["Step(s) " +:+ py_repr (VList steps) +:+ " marked '" +:+ status +:+ "'"]
  end.

Definition _detect_checklist_conclusion_inconsistency (items : list pyval) (l2_status : pyval)
    (failed_evidence : string) : Exc (option string * bool) :=
  if negb (eqs l2_status "passed") || negb (nonempty items) then Some (None, false)
  else
    non_passed ← filter_exc (has_status non_passed_statuses) items;
    failed ← filter_exc (has_status ["failed"]) non_passed;
    partial ← filter_exc (has_status ["partial"]) non_passed;
    recovered ← filter_exc (has_status ["recovered_before_observation"]) non_passed;
    if negb (nonempty failed) && negb (nonempty partial) then Some (None, false)
    else
      evs ← mapM (vget_d "evidence" (VStr "")) non_passed;
      all_evidence ← join_vals " " evs;
      let all_evidence := if truthy failed_evidence then all_evidence +:+ " " +:+ failed_evidence
                          else all_evidence in
      let has_absence := has_any _INJECT_ABSENCE_PHRASES (lower all_evidence) in
      f ← marked "failed" failed;
      p ← marked "partial" partial;
      r ← marked "recovered_before_observation" recovered;
      let warning := "Checklist-conclusion inconsistency: " +:+ join "; " (f ++ p ++ r) +:+ " " +:+
                     "but Layer2 concluded 'passed'. " in
      Some (Some (warning +:+
        (if has_absence
         then "Failed steps contain absence evidence (metric far below threshold). " +:+
              "Auto-downgrading to 'partial' — objective measurement overrides subjective judgment."
         else "The LLM may have determined these failures are benign (e.g., timing delays). " +:+
              "Overall field is the final authority.")), has_absence).

(** ** The steps of a skill case *)

(** [s[:3 + m.start()]] for the first match [m] in [s[3:]]: the section of a
    skill case that starts with a heading. *)
Definition skill_section (p : pattern) (s : string) : string :=
  unchars (take 3 (uchars s)) +:+ upto p (unchars (drop 3 (uchars s))).

Definition _STEP_NUMBER_RE : pattern := Eval vm_compute in
  get_pattern (compile re_M "^\s*(\d+)\.\s") ltac:(vm_compute; discriminate).
Definition _BULLET_RE : pattern := Eval vm_compute in
  get_pattern (compile re_M "^\s*[-*]\s") ltac:(vm_compute; discriminate).
Definition _BULLET_TEXT_RE : pattern := Eval vm_compute in
  get_pattern (compile re_M "^\s*[-*]\s+(.+)") ltac:(vm_compute; discriminate).
Definition _COLON_END_RE : pattern := Eval vm_compute in
  get_pattern (compile no_flags "[：:]$") ltac:(vm_compute; discriminate).

(** The section under a heading, [content[content.index(heading):]] up to the
    next heading. *)
Definition section_under (heading content : string) : option string :=
  match cut_str heading content with
  | Some (_, r) => Some (skill_section _SECTION_RE (heading +:+ r))
  | None => None
  end.

Definition count_steps (section : string) : nat :=
  match findall1 _STEP_NUMBER_RE section with
  | [] => length (findall _BULLET_RE section)
  | l => length (remove_dups l)
  end.

Definition _count_verification_steps_in_skill_case (content : string) : nat :=
  match section_under "注入验证" content with
  | Some section => count_steps section
  | None => 0
  end.

Definition _has_injection_verification_section (content : string) : bool :=
  contains "注入验证" content.

Definition _CANDIDATE_SPLIT_RE : pattern := Eval vm_compute in
  get_pattern (compile re_M "^---\s*Candidate\s+\d+\s*:.*?---\s*$") ltac:(vm_compute; discriminate).

(** The texts between the end of a marker and the start of the next. *)
Fixpoint candidate_bodies (content : list char) (markers : list mobj) : list string :=
  match markers with
  | [] => []
  | m :: rest =>
      let stop := match rest with m' :: _ => mo_start m' | [] => length content end in
      strip (unchars (take (stop - mo_end m) (drop (mo_end m) content))) ::
      candidate_bodies content rest
  end.

Definition _split_candidates (content : string) : list string :=
  match finditer _CANDIDATE_SPLIT_RE content with
  | (_ :: _ :: _) as markers => candidate_bodies (uchars content) markers
  | _ => [content]
  end.

Definition _extract_verification_step_descriptions (content : string) : list string :=
  match section_under "注入验证" content with
  | None => []
  | Some section =>
      match findall1 _NUMBERED_RE section with
      | [] => map (λ b, rstrip_of "：:" (strip (first_line b))) (findall1 _BULLET_TEXT_RE section)
      | l => map (λ d, strip (re_sub _COLON_END_RE "" (strip (first_line d)))) l
      end
  end.

(** [1..n] without the executed numbers, in order. *)
Definition missing_steps (n : nat) (executed : list Z) : list Z :=
  List.filter (λ k, negb (existsb (Z.eqb k) executed)) (map Z.of_nat (seq 1 n)).

Definition step_number (item : pyval) : Exc (option Z) :=
  s ← vget "step" item;
  Some match s with VInt z => Some z | VBool b => Some (if b then 1 else 0)%Z | _ => None end.

Definition is_deviated (item : pyval) : Exc bool :=
  s ← vget "step" item;
  if is_int s then
    ev ← vget_d "evidence" (VStr "") item;
    ev ← as_str ev;
    Some (contains "deviation:" (lower ev))
  else Some false.

Definition _validate_step_number_coverage (skill_case_content : string) (items : list pyval)
    : Exc (list Z * list pyval) :=
  match _extract_verification_step_descriptions skill_case_content with
  | [] => Some ([], [])
  | descs =>
      nums ← mapM step_number items;
      deviated ← filter_exc is_deviated items;
      steps ← mapM (vget "step") deviated;
      Some (missing_steps (length descs) (omap id nums), steps)
  end.

(** ** The JSON form *)

Definition checklist_dict (items : list pyval) : Exc pyval :=
  skipped ← filter_exc (has_status ["skipped"]) items;
  non_passed ← filter_exc (has_status non_passed_statuses) items;
  let n := VInt (Z.of_nat (length items)) in
  Some (VDict [("items", VList items); ("skipped_count", VInt (Z.of_nat (length skipped)));
               ("non_passed_count", VInt (Z.of_nat (length non_passed)));
               ("total_count", n); ("total_executed", n)]).

(** The evidence of the items that did not pass, joined. *)
Definition non_passed_evidence (items : list pyval) : Exc string :=
  non_passed ← filter_exc (has_status non_passed_statuses) items;
  evs ← mapM (vget_d "evidence" (VStr "")) non_passed;
  join_vals " " evs.

(** The comparison of a checklist with a conclusion, and its effect. *)
Definition note_inconsistency (items : list pyval) (l2 : pyval) (r : verdict) : Exc verdict :=
  ev ← non_passed_evidence items;
  '(warning, downgrade) ← _detect_checklist_conclusion_inconsistency items l2 ev;
  match warning with
  | Some w =>
      r ← append_warning w r;
      if (downgrade : bool) then set_in "layer2" "status" (VStr "partial") r else Some r
  | None => Some r
  end.

(** A partial second layer makes the level partial. *)
Definition sync_partial (r : verdict) : Exc verdict :=
  st ← layer2_field "status" VNone r;
  Some (if eqs st "partial" && one_of (py_get "level" r) ["verified"; "unverified"]
        then dict_set "level" (VStr "partial") r else r).

(** The verdict a JSON object states. *)
Definition json_base (data : dict pyval) : verdict :=
  [("level", get_d "overall" (VStr "unverified") data);
   ("layer1", VDict [("status", get_d "layer1" (VStr "unknown") data); ("details", VStr "")]);
   ("layer2", VDict [("status", get_d "layer2" (VStr "unknown") data);
                     ("details", get_d "layer2_details" (VStr "") data)]);
   ("warnings", get_d "warnings" (VList []) data)].

Definition json_checklist (data : dict pyval) (r : verdict) : Exc verdict :=
  let l2 := get_d "layer2" (VStr "unknown") data in
  match py_get "verification_checklist" data with
  | VList ((_ :: _) as items) =>
      cl ← checklist_dict items;
      let r := dict_set "checklist" cl r in
      if eqs l2 "passed" then note_inconsistency items l2 r else Some r
  | _ => Some r
  end.

Definition json_verdict (data : dict pyval) : Exc (option verdict) :=
  if negb (one_of (get_d "layer2" (VStr "unknown") data)
             ["passed"; "failed"; "skipped"; "partial"; "recovered_before_observation"]) ||
     negb (one_of (get_d "overall" (VStr "unverified") data) ["verified"; "partial"; "unverified"])
  then Some None
  else
    r ← json_checklist data (json_base data);
    r ← sync_partial r;
    Some (Some r).

Definition _try_parse_json (content : string) : Exc (option verdict) :=
  match json_loads content with
  | JValueError => Raise
  | JOk (VDict data) => json_verdict data
  | _ => Some None
  end.

Definition _has_format_reminder (messages : list Message) : bool :=
  existsb (λ m, match m with
                | HumanMessage c => contains "缺少要求的 VERIFICATION_RESULT 格式" c
                | _ => false
                end) messages.

(** ** The free text *)

(** What the parser knows so far: the fields of its result. *)
Record textv := mkText {
  t_level : string; t_l1 : string; t_l2 : string; t_details : string;
  t_warnings : list string; t_baseline : option bool }.

Definition warn (w : string) (v : textv) : textv :=
  mkText (t_level v) (t_l1 v) (t_l2 v) (t_details v) (t_warnings v ++ [w]) (t_baseline v).
Definition set_level (l : string) (v : textv) : textv :=
  mkText l (t_l1 v) (t_l2 v) (t_details v) (t_warnings v) (t_baseline v).
Definition set_l2 (s : string) (v : textv) : textv :=
  mkText (t_level v) (t_l1 v) s (t_details v) (t_warnings v) (t_baseline v).
Definition warn_if (b : bool) (w : string) (v : textv) : textv := if b then warn w v else v.

(** The line after a keyword, [tl.split(kw, 1)[1].split("\n")[0]]. *)
Definition line_after (kw tl : string) : string := first_line (after_str kw tl).

Definition text_layer1 (tl : string) : string :=
  if contains "layer1" tl
  then _parse_status_keyword (before_str "layer2" (after_str "layer1" tl)) status_keywords
  else "unknown".

(** The details after the first status keyword of the line. *)
Definition text_details (line : string) : string :=
  match List.find (λ kw, contains kw line)
          ["recovered_before_observation"; "passed"; "failed"; "partial"; "skipped"] with
  | Some kw => lstrip_of "-: " (strip (after_str kw line))
  | None => ""
  end.

Definition text_layers (tl : string) : textv :=
  let v0 := mkText "unverified" (text_layer1 tl) "unknown" "" [] None in
  if contains "layer2" tl then
    let line := line_after "layer2" tl in
    let l2 := _parse_status_keyword line status_keywords in
    let v := mkText "unverified" (text_layer1 tl) l2 (text_details line) [] None in
    warn_if (String.eqb l2 "skipped")
      "Layer 2 skipped: LLM could not design a verification plan" v
  else v0.

Definition count_status (s : string) (items : list checkitem) : Z :=
  count_if (λ i, String.eqb (i_status i) s) items.

(** Warnings about the checklist.  The level is still the initial one, so the
    reset for a checklist that is wholly recovered changes nothing. *)
Definition text_checklist (text : string) (items : list checkitem) (v : textv) : textv :=
  let skipped := count_status "skipped" items in
  let recovered := count_status "recovered_before_observation" items in
  let v := warn_if (String.eqb (t_l2 v) "passed" && (0 <? skipped)%Z)
    ("Verification Checklist has " +:+ str_of_Z skipped +:+ " skipped step(s). " +:+
     "These checks were not executable. Executed checks all passed.") v in
  let v := if (0 <? recovered)%Z then
             let v := warn
               ("Verification Checklist has " +:+ str_of_Z recovered +:+ " step(s) marked " +:+
                "'recovered_before_observation'. The fault effect had already " +:+
                "dissipated before verification could observe it.") v in
             if (recovered =? Z.of_nat (length items))%Z && negb (String.eqb (t_level v) "unverified")
             then set_level "unverified" v else v
           else v in
  warn_if ((t_l2 v ∈? ["passed"; "partial"]) && negb (_has_checklist text))
    ("No Verification Checklist detected in LLM output. " +:+
     "Verification completeness cannot be confirmed.") v.

Definition _ABSENCE_PHRASES : list string :=
  ["no change"; "no increase"; "no increase observed"; "not observed";
   "not elevated"; "not increased"; "no effect"; "not affected";
   "remains at"; "remains normal"; "unchanged"; "no fill";
   "still normal"; "at 16%"; "at 17%"; "at 18%"; "at 19%";
   "no observable"; "not yet observable"].

(** A failed second layer whose details describe the fault. *)
Definition text_contradiction (v : textv) : textv :=
  if String.eqb (t_l2 v) "failed" && truthy (t_details v) &&
     negb (has_any _ABSENCE_PHRASES (lower (t_details v))) &&
     existsb (λ ki, has_any ki.2 (t_details v)) _CONTRADICTION_INDICATORS
  then set_l2 "partial"
         (warn ("Contradiction: Layer2 concluded 'failed' but details describe " +:+
                "observable fault effects. Overriding to 'partial'.") v)
  else v.

Definition text_inconsistency (items : list checkitem) (v : textv) : Exc textv :=
  match items with
  | [] => Some v
  | _ =>
      let l := map item_dict items in
      ev ← non_passed_evidence l;
      '(warning, downgrade) ← _detect_checklist_conclusion_inconsistency l (VStr (t_l2 v)) ev;
      Some match warning with
           | Some w => let v := warn w v in if (downgrade : bool) then set_l2 "partial" v else v
           | None => v
           end
  end.

(** The stated overall verdict, or the one the layers give. *)
Definition text_level (tl : string) (v : textv) : textv :=
  if contains "overall:" tl then
    let overall := strip (line_after "overall:" tl) in
    if contains "verified" overall && negb (contains "partial" overall) &&
       negb (contains "unverified" overall) then set_level "verified" v
    else if contains "partial" overall then set_level "partial" v
    else if contains "unverified" overall then set_level "unverified" v
    else v
  else set_level (_determine_level (t_l1 v) (t_l2 v)) v.

Definition text_sync (v : textv) : textv :=
  if String.eqb (t_l2 v) "partial" && (t_level v ∈? ["verified"; "unverified"])
  then set_level "partial" v else v.

(** [PrimaryEvidenceObserved: ...]; [None] when the text does not say. *)
Definition text_flag (kw tl : string) : option bool :=
  if contains kw tl then Some (contains "true" (strip (line_after kw tl))) else None.

Definition text_primary (tl : string) (v : textv) : textv :=
  if String.eqb (t_level v) "verified" &&
     match text_flag "primaryevidenceobserved:" tl with Some false => true | _ => false end
  then warn ("Verdict 'verified' is incompatible with PrimaryEvidenceObserved=false. " +:+
             "Cannot confirm fault effectiveness without direct primary evidence. " +:+
             "Downgraded to 'partial'.") (set_level "partial" v)
  else v.

Definition text_end (tl : string) (v : textv) : textv :=
  let v := warn_if (existsb (λ line, startswith (strip line) "warnings:" &&
                                      negb (contains "none" (strip line))) (lines tl))
             "See verification details for warnings" v in
  let v := mkText (t_level v) (t_l1 v) (t_l2 v) (t_details v) (t_warnings v)
             (text_flag "baselineused:" tl) in
  if String.eqb (t_l2 v) "skipped" then
    warn ("Layer 2 (fault-specific) verification was skipped. " +:+
          "Only general blade_status verification was performed.") v
  else
    warn_if (String.eqb (t_l2 v) "unknown")
      ("Layer 2 (fault-specific) verification result is unknown. " +:+
       "The LLM did not produce a clear verification conclusion. " +:+
       "Only general blade_status verification was confirmed.") v.

Definition text_verdict (text : string) (items : list checkitem) : Exc textv :=
  let tl := lower text in
  v ← text_inconsistency items (text_contradiction (text_checklist text items (text_layers tl)));
  Some (text_end tl (text_primary tl (text_sync (text_level tl v)))).

Definition text_checklist_dict (items : list checkitem) : verdict :=
  match items with
  | [] => []
  | _ =>
      let n := VInt (Z.of_nat (length items)) in
      [("checklist", VDict
          [("items", VList (map item_dict items));
           ("skipped_count", VInt (count_status "skipped" items));
           ("non_passed_count", VInt (count_if (λ i, i_status i ∈? non_passed_statuses) items));
           ("total_count", n); ("total_executed", n)])]
  end.

Definition text_dict (v : textv) (items : list checkitem) : verdict :=
  [("level", VStr (t_level v));
   ("layer1", VDict [("status", VStr (t_l1 v)); ("details", VStr "")]);
   ("layer2", VDict [("status", VStr (t_l2 v)); ("details", VStr (t_details v))]);
   ("warnings", VList (map VStr (t_warnings v)));
   ("baseline_used", match t_baseline v with Some b => VBool b | None => VNone end)]
  ++ text_checklist_dict items.

Definition _parse_verification_result (text : string) : Exc verdict :=
  let items := _parse_checklist_items text in
  v ← text_verdict text items; Some (text_dict v items).

(** ** Well-formed checklists never raise *)

(** An item that is a dict with a text, or nothing, as evidence. *)
Definition good_item (item : pyval) : Prop :=
  ∃ d s, item = VDict d ∧ get_d "evidence" (VStr "") d = VStr s.

Lemma item_dict_good i : good_item (item_dict i).
Proof. destruct i as [n st [e|]]; [by eexists _, e | by eexists _, ""]. Qed.

Lemma filter_exc_total {A} (P : A → Prop) (f : A → Exc bool) l :
  Forall P l → (∀ x, P x → is_Some (f x)) → ∃ r, filter_exc f l = Some r ∧ Forall P r.
Proof.
  intros Hl Hf. induction Hl as [|x l Hx Hl IH]; simpl; [by exists []|].
  destruct (Hf x Hx) as [b ->]. destruct IH as (r & -> & Hr). simpl.
  eexists. split; [done|]. destruct b; [by constructor | done].
Qed.

Lemma filter_exc_subset {A} (f : A → Exc bool) l r x :
  filter_exc f l = Some r → x ∈ r ↔ x ∈ l ∧ f x = Some true.
Proof.
  revert r. induction l as [|y l IH]; intros r; simpl; [intros [= <-]; set_solver|].
  intros (b & Hb & (r' & Hr & [= <-])%bind_Some)%bind_Some.
  destruct b; rewrite ?elem_of_cons, (IH r' Hr), ?elem_of_cons; naive_solver.
Qed.

Lemma mapM_total {A B} (P : A → Prop) (f : A → Exc B) l :
  Forall P l → (∀ x, P x → is_Some (f x)) → is_Some (mapM f l).
Proof.
  intros Hl Hf. rewrite mapM_is_Some. eapply Forall_impl; [done | exact Hf].
Qed.

Lemma has_status_good l x : good_item x → is_Some (has_status l x).
Proof. intros (d & s & -> & _). unfold has_status, status_of, vget, vget_d. simpl. eauto. Qed.

Lemma evidence_join_good sep l :
  Forall good_item l → ∃ evs t, mapM (vget_d "evidence" (VStr "")) l = Some evs ∧
                                join_vals sep evs = Some t.
Proof.
  intros H. assert (Hm : ∃ ts, mapM (vget_d "evidence" (VStr "")) l = Some (map VStr ts)).
  { induction H as [|x l (d & s & -> & Hs) _ [ts IH]]; [by exists []|].
    exists (s :: ts). simpl in *. unfold vget_d in *. simpl. by rewrite Hs, IH. }
  destruct Hm as [ts Hm]. exists (map VStr ts), (join sep ts). split; [done|].
  unfold join_vals. assert (mapM as_str (map VStr ts) = Some ts) as ->; [|done].
  clear. induction ts as [|t ts IH]; simpl; [done|]. by rewrite IH.
Qed.

Lemma marked_good s l : Forall good_item l → is_Some (marked s l).
Proof.
  intros H. destruct l as [|x l]; [by eexists|].
  destruct (mapM_total good_item (vget_d "step" (VStr "?")) (x :: l) H) as [r Hr].
  { intros y (d & e & -> & _). unfold vget_d. simpl. eauto. }
  unfold marked. rewrite Hr. simpl. eauto.
Qed.

Lemma non_passed_evidence_good l : Forall good_item l → is_Some (non_passed_evidence l).
Proof.
  intros H. unfold non_passed_evidence.
  destruct (filter_exc_total good_item (has_status non_passed_statuses) l H (has_status_good _))
    as (r & -> & Hr). simpl.
  destruct (evidence_join_good " " r Hr) as (evs & t & -> & Ht). simpl. eauto.
Qed.

Lemma detect_good l l2 ev :
  Forall good_item l → is_Some (_detect_checklist_conclusion_inconsistency l l2 ev).
Proof.
  intros H. unfold _detect_checklist_conclusion_inconsistency. case_if; [eauto|].
  destruct (filter_exc_total good_item (has_status non_passed_statuses) l H (has_status_good _))
    as (np & -> & Hnp). cbn [mbind option_bind].
  destruct (filter_exc_total good_item (has_status ["failed"]) np Hnp (has_status_good _))
    as (f & -> & Hf). cbn [mbind option_bind].
  destruct (filter_exc_total good_item (has_status ["partial"]) np Hnp (has_status_good _))
    as (p & -> & Hp). cbn [mbind option_bind].
  destruct (filter_exc_total good_item (has_status ["recovered_before_observation"]) np Hnp
              (has_status_good _)) as (r & -> & Hr). cbn [mbind option_bind].
  case_if; [eauto|].
  destruct (evidence_join_good " " np Hnp) as (evs & t & -> & Ht). cbn [mbind option_bind].
  rewrite Ht. cbn [mbind option_bind].
  destruct (marked_good "failed" f Hf) as [? ->], (marked_good "partial" p Hp) as [? ->],
    (marked_good "recovered_before_observation" r Hr) as [? ->]. cbn [mbind option_bind]. eauto.
Qed.

Definition level_ok (l : string) : Prop := l ∈ ["verified"; "partial"; "unverified"].

Lemma level_verified : level_ok "verified". Proof. by left. Qed.
Lemma level_partial : level_ok "partial". Proof. right. by left. Qed.
Lemma level_unverified : level_ok "unverified". Proof. right. right. by left. Qed.
#[local] Hint Resolve level_verified level_partial level_unverified : core.

Lemma text_start_level text items :
  t_level (text_contradiction (text_checklist text items (text_layers (lower text)))) = "unverified".
Proof.
  set (v0 := text_layers _).
  assert (H0 : t_level v0 = "unverified") by (unfold v0, text_layers, warn_if; by repeat case_if).
  clearbody v0. set (v1 := text_checklist _ _ _).
  assert (H1 : t_level v1 = "unverified")
    by (unfold v1, text_checklist, warn_if; repeat case_if; done).
  clearbody v1. unfold text_contradiction. by case_if.
Qed.

Lemma text_inconsistency_total items v :
  ∃ v', text_inconsistency items v = Some v' ∧ t_level v' = t_level v.
Proof.
  unfold text_inconsistency. destruct items as [|i l]; [by exists v|].
  assert (Hg : Forall good_item (map item_dict (i :: l)))
    by (apply Forall_forall; intros x (y & -> & _)%list_elem_of_fmap; apply item_dict_good).
  destruct (non_passed_evidence_good _ Hg) as [ev ->]. cbn [mbind option_bind].
  destruct (detect_good _ (VStr (t_l2 v)) ev Hg) as [[w dg] ->]. cbn [mbind option_bind].
  eexists. split; [done|]. destruct w as [w|]; [|done]. by destruct dg.
Qed.

Lemma determine_level_ok a b : level_ok (_determine_level a b).
Proof. unfold _determine_level. repeat case_if; auto. Qed.

Lemma text_level_ok tl v : level_ok (t_level v) → level_ok (t_level (text_level tl v)).
Proof.
  intros H. unfold text_level. case_if; [|apply determine_level_ok].
  repeat (case_if; [by cbn|]). exact H.
Qed.

(** The level is one of the three, and partial when layer 2 is. *)
Definition level_synced (v : textv) : Prop :=
  level_ok (t_level v) ∧ (t_l2 v = "partial" → t_level v = "partial").

Lemma text_sync_synced v : level_ok (t_level v) → level_synced (text_sync v).
Proof.
  intros H. unfold text_sync, level_synced. case_if; [by cbn|]. split; [done|]. intros Hp.
  apply andb_false_iff in Heqb as [Hb|Hb]; [by rewrite Hp in Hb|].
  apply str_in_false in Hb. unfold level_ok in H. set_solver.
Qed.

Lemma text_primary_synced tl v : level_synced v → level_synced (text_primary tl v).
Proof. unfold text_primary, level_synced. intros H. case_if; [by cbn | done]. Qed.

Lemma text_end_fields tl v :
  t_level (text_end tl v) = t_level v ∧ t_l2 (text_end tl v) = t_l2 v.
Proof. unfold text_end, warn_if. by repeat case_if. Qed.

(** C37. Free text never stops the verifier: every text, whatever the model
    wrote, is read as a verdict with one of the three levels, and a second
    layer that is partial makes it partial. *)
Theorem parse_verification_total text :
  ∃ v items, _parse_verification_result text = Some (text_dict v items) ∧ level_synced v.
Proof.
  unfold _parse_verification_result. set (items := _parse_checklist_items text).
  unfold text_verdict. pose proof (text_start_level text items) as H0.
  destruct (text_inconsistency_total items
    (text_contradiction (text_checklist text items (text_layers (lower text))))) as (v1 & -> & H1).
  cbn [mbind option_bind]. rewrite H0 in H1.
  assert (Hs : level_synced (text_primary (lower text) (text_sync (text_level (lower text) v1)))).
  { apply text_primary_synced, text_sync_synced, text_level_ok. by rewrite H1. }
  eexists _, items. split; [done|]. unfold level_synced.
  destruct (text_end_fields (lower text)
    (text_primary (lower text) (text_sync (text_level (lower text) v1)))) as [-> ->]. exact Hs.
Qed.

(** ** What the steps leave alone *)

Lemma append_warning_other w d d' k :
  append_warning w d = Some d' → k ≠ "warnings" → dict_get k d' = dict_get k d.
Proof.
  unfold append_warning. intros H Hne.
  destruct (dict_get "warnings" d) as [[]|]; try discriminate; injection H as <-;
    by rewrite dict_get_set_ne by done.
Qed.

Lemma fold_append_other ws d d' k :
  fold_exc (λ d c, append_warning c d) d ws = Some d' → k ≠ "warnings" →
  dict_get k d' = dict_get k d.
Proof.
  revert d. induction ws as [|w ws IH]; intros d; simpl; [by intros [= ->]|].
  intros (d1 & H1 & H2)%bind_Some Hne. rewrite (IH _ H2 Hne). by eapply append_warning_other.
Qed.

Lemma note_inconsistency_other items l2 r r' k :
  note_inconsistency items l2 r = Some r' → k ≠ "warnings" → k ≠ "layer2" →
  dict_get k r' = dict_get k r.
Proof.
  unfold note_inconsistency. intros (ev & _ & ([w dg] & _ & H)%bind_Some)%bind_Some Hw Hl.
  destruct w as [w|]; [|by injection H as ->].
  apply bind_Some in H as (r1 & H1 & H2). rewrite <- (append_warning_other _ _ _ k H1 Hw).
  destruct dg; [by eapply set_in_other | by injection H2 as ->].
Qed.

Lemma sync_partial_other r r' k :
  sync_partial r = Some r' → k ≠ "level" → dict_get k r' = dict_get k r.
Proof.
  unfold sync_partial. intros (st & _ & [= <-])%bind_Some Hne. case_if; [|done].
  by rewrite dict_get_set_ne by done.
Qed.

(** The level of a verdict. *)
Definition level_of (r : verdict) : pyval := py_get "level" r.

Lemma py_get_eq k (d d' : dict pyval) : dict_get k d' = dict_get k d → py_get k d' = py_get k d.
Proof. unfold py_get. by intros ->. Qed.

(** A verdict that is verified after synchronisation was verified before, and
    its second layer is not partial. *)
Lemma sync_partial_verified r r' :
  sync_partial r = Some r' → level_of r' = VStr "verified" →
  r' = r ∧ layer2_field "status" VNone r ≠ Some (VStr "partial").
Proof.
  unfold sync_partial, level_of. intros (st & Hst & [= <-])%bind_Some. case_if.
  - by rewrite py_get_set.
  - intros Hv. split; [done|]. rewrite Hst. intros [= ->]. by rewrite Hv in Heqb.
Qed.

Lemma cross_check_inv r obs r' :
  cross_check_evidence r obs = Some r' →
  r' = r ∨ ∃ cs, _apply_contradiction_downgrade r cs = Some r'.
Proof.
  unfold cross_check_evidence. case_if; [intros [= ->]; by left|].
  intros (truth & _ & H)%bind_Some. case_if_in H; [injection H as ->; by left|].
  apply bind_Some in H as (ev & _ & H). case_if_in H; [injection H as ->; by left|].
  apply bind_Some in H as (l & _ & H).
  destruct (_find_contradictions _ _ _) as [|c cs]; [injection H as ->; by left | right; eauto].
Qed.

(** The downgrade: warnings and the second layer first, then the level. *)
Lemma downgrade_inv r cs r' :
  _apply_contradiction_downgrade r cs = Some r' →
  ∃ r2, (∀ k, k ∉ ["warnings"; "layer2"] → dict_get k r2 = dict_get k r) ∧
    (r' = r2 ∨ (level_of r2 = VStr "verified" ∧
                ∃ w, append_warning w (dict_set "level" (VStr "partial") r2) = Some r')).
Proof.
  unfold _apply_contradiction_downgrade. intros (r1 & H1 & H)%bind_Some.
  apply bind_Some in H as (st & _ & H). apply bind_Some in H as (r2 & H2 & H).
  exists r2. split.
  - intros k Hk. rewrite <- (fold_append_other _ _ _ k H1) by set_solver.
    case_if_in H2; [eapply set_in_other; [done | set_solver] | by injection H2 as ->].
  - destruct (eqs (py_get "level" r2) "verified") eqn:E; [right | left; congruence].
    apply eqs_true in E. split; [exact E|]. eauto.
Qed.

(** The comparison with the observations never raises the level. *)
Lemma cross_check_level r obs r' :
  cross_check_evidence r obs = Some r' →
  level_of r' = level_of r ∨ (level_of r = VStr "verified" ∧ level_of r' = VStr "partial").
Proof.
  intros [->|[cs H]]%cross_check_inv; [by left|].
  apply downgrade_inv in H as (r2 & Hk & H).
  assert (E : level_of r2 = level_of r) by (apply py_get_eq, Hk; set_solver).
  destruct H as [->|[Hv [w Hw]]]; [by left | right]. split; [congruence|].
  unfold level_of. rewrite (py_get_eq _ _ _ (append_warning_other _ _ _ "level" Hw ltac:(done))).
  by rewrite py_get_set.
Qed.

Lemma cross_check_other r obs r' k :
  cross_check_evidence r obs = Some r' → k ∉ ["warnings"; "layer2"; "level"] →
  dict_get k r' = dict_get k r.
Proof.
  intros [->|[cs H]]%cross_check_inv Hk; [done|].
  apply downgrade_inv in H as (r2 & Hk2 & H).
  assert (E : dict_get k r2 = dict_get k r) by (apply Hk2; set_solver).
  destruct H as [->|[_ [w Hw]]]; [done|].
  rewrite (append_warning_other _ _ _ k Hw) by set_solver. by rewrite dict_get_set_ne by set_solver.
Qed.
