(* ===== verification/SafetyGate.v ===== *)
(** * The gates in front of an injection
    (agent/nodes/safety_check.py, confirmation_gate.py, reject.py)

    The three nodes that decide whether a request reaches the cluster.  What
    they learn from outside is a parameter: the command runner, the health
    and feasibility assessments, the Beijing wall clock, the plan text, the
    answer to the interrupt and the time stamp.  A node answers the update of
    the graph state, or [None] when it raises.  Progress tracking, logging and
    the copy of the update into the task store are left out. *)

From stdpp Require Import base list strings sets.
From Stdlib Require Import ZArith Ascii SpecFloat.
From S2P Require Import Prelude.
From S2P Require Import PyValue.
From S2P Require Import PyFloat.
From S2P Require Import Json.
From S2P Require Import Coerce.
From S2P Require Import TargetTypes.
From S2P Require Import Freeze.
From S2P Require Import FaultSpec.
From S2P Require Import Failure.
From S2P Require Import Screener.
From S2P Require Import Router.
From S2P Require Import Graph.
From S2P Require Import FaultContext.
From S2P Require Import Conflict.
From S2P Require Import SafetyScore.

(** ** Settings and assessments *)

Record SafetySettings := mkSafety {
  safety_blacklist_namespaces : string;
  kubeconfig_path : string;
  kube_context : string;
  kubectl_path : string;
  safety_score_routing_enabled : bool;
  safety_score_warning_threshold : Z;
  safety_score_confirm_threshold : Z;
  safety_score_topology_deep : bool;
  target_health_check_enabled : bool;
  target_health_check_block_on_blocker : bool;
  feasibility_check_enabled : bool;
  feasibility_check_block_on_impossible : bool;
}.

Definition blacklist_namespaces (cfg : SafetySettings) : list string :=
  csv_names (safety_blacklist_namespaces cfg).

Inductive HealthSeverity := OK | WARN | BLOCK.

Definition severity_value (s : HealthSeverity) : string :=
  match s with OK => "ok" | WARN => "warn" | BLOCK => "block" end.

Record HealthIssue := mkIssue {
  i_severity : HealthSeverity;
  i_code : string;
  i_message : string;
  i_duration_hint : string;
}.

Record HealthReport := mkHealth {
  h_target : dict pyval;
  h_overall : HealthSeverity;
  h_issues : list HealthIssue;
  h_checked_detail : string;
}.

Definition is_blocking (h : HealthReport) : bool :=
  match h_overall h with BLOCK => true | _ => false end.

Definition summary (h : HealthReport) : string :=
  match h_issues h with
  | [] => "healthy"
  | l => join "; " (map (λ i, i_code i +:+ "(" +:+ severity_value (i_severity i) +:+ ")") l)
  end.

Definition issue_dict (i : HealthIssue) : pyval :=
  VDict [("severity", VStr (severity_value (i_severity i))); ("code", VStr (i_code i));
         ("message", VStr (i_message i)); ("duration_hint", VStr (i_duration_hint i))].

Definition health_to_dict (h : HealthReport) : dict pyval :=
  [("target", VDict (h_target h)); ("overall", VStr (severity_value (h_overall h)));
   ("issues", VList (map issue_dict (h_issues h))); ("summary", VStr (summary h));
   ("checked_detail", VStr (h_checked_detail h))].

Inductive FeasibilitySeverity := F_OK | F_TIGHT | F_IMPOSSIBLE | F_SKIPPED.

Definition feasibility_value (f : FeasibilitySeverity) : string :=
  match f with
  | F_OK => "ok" | F_TIGHT => "tight" | F_IMPOSSIBLE => "impossible" | F_SKIPPED => "skipped"
  end.

Record FeasibilityReport := mkFeas {
  fr_severity : FeasibilitySeverity;
  fr_headroom : spec_float;
  fr_current_value : string;
  fr_limit_value : string;
  fr_target_value : string;
  fr_message : string;
  fr_recommendation : string;
}.

(** [round(x, 4)]: the exact value to four decimals, ties to even, read back
    as a float. *)
Definition round4 (x : spec_float) : spec_float :=
  match x with
  | S754_finite s m e =>
      let n := (if 0 <=? e then Zpos m * 2 ^ e * 10000
                else div_round_even (Zpos m * 10000) (2 ^ (- e)))%Z in
      float_of_decimal s n (-4) (Z.of_nat (String.length (digits_of n)))
  | _ => x
  end.

Definition feasibility_to_dict (f : FeasibilityReport) : dict pyval :=
  [("severity", VStr (feasibility_value (fr_severity f)));
   ("headroom", VFloat (float_repr (round4 (fr_headroom f))));
   ("current_value", VStr (fr_current_value f)); ("limit_value", VStr (fr_limit_value f));
   ("target_value", VStr (fr_target_value f)); ("message", VStr (fr_message f));
   ("recommendation", VStr (fr_recommendation f))].

Lemma round4_examples :
  map (λ t, float_repr (round4 (float_of_repr t))) ["0.053999"; "0.00005"; "12.5"; "-0.12345"; "0.0"]
  = ["0.054"; "0.0001"; "12.5"; "-0.1235"; "0.0"].
Proof. vm_compute. reflexivity. Qed.

(** [FaultSpec()]. *)
Definition empty_spec : FaultSpec := mkSpec "" "" [] [] "" "" [] [] 0 "" "".

Definition state_spec (s : GState) : Exc FaultSpec :=
  spec ← read_fault_spec (g_values s); Some (default empty_spec spec).

(** [",".join(names)] and [", ".join(uids)]: every element must be text. *)
Definition join_text (sep : string) (l : list pyval) : Exc string :=
  texts ← mapM (λ v, match v with VStr s => Some s | _ => Raise end) l;
  Some (join sep texts).

(** [len(v or [])]. *)
Definition py_length (v : pyval) : Exc nat :=
  match py_or v (VList []) with
  | VList l | VTuple l => Some (length l)
  | VStr s => Some (py_len s)
  | VDict d => Some (length d)
  | _ => Raise
  end.

(** The target dict of a specification, and its approval. *)
Definition target_dict (spec : FaultSpec) : dict pyval :=
  [("namespace", VStr (s_namespace spec)); ("names", VList (s_names spec));
   ("labels", VDict (s_labels spec)); ("resource_type", VStr (s_scope spec))].

Definition freeze_owned (spec : FaultSpec) (owner_names : list string) : Exc (option (dict pyval)) :=
  freeze_approved_target (Some (target_dict spec)) (Some (s_params spec)) (VStr (s_scope spec))
    (VStr (s_blade_target spec)) (VStr (s_blade_action spec)) true owner_names.

(** ** The safety check *)

Section safety.
Context (cfg : SafetySettings).
(** [run_command]: exit code and standard output, [None] when it raises. *)
Context (run : list string → Exc (Z * string)).
(** [create_subprocess_exec] and its output; [None] also on a time-out. *)
Context (exec : list string → Exc (Z * string)).
Context (assess_target_health : string → dict pyval → pyval → Exc HealthReport).
Context (assess_feasibility : FaultSpec → pyval → Exc (option FeasibilityReport)).
(** Hour and weekday of the Beijing wall clock. *)
Context (hour weekday : Z).

Definition _resolve_kubeconfig (s : GState) : Exc pyval :=
  let kc := get "kubeconfig" s in
  if py_truthy kc then Some kc
  else
    spec ← read_fault_spec (g_values s);
    let param := match spec with
                 | Some spec => default (VStr "") (dict_get "kubeconfig" (s_params spec))
                 | None => VStr ""
                 end in
    Some (if py_truthy param then param else VStr (kubeconfig_path cfg)).

(** A command with an argument that is no text cannot be started. *)
Definition start (f : list string → Exc (Z * string)) (cmd : list pyval) : Exc (Z * string) :=
  words ← mapM (λ v, match v with VStr s => Some s | _ => Raise end) cmd; f words.

(** [int(stdout.strip() or 0)], any exception giving no signal. *)
Definition _get_topology_deep_signal (spec : FaultSpec) (kubeconfig : pyval) : Z * string :=
  match py_truthy kubeconfig && String.eqb (s_scope spec) "deployment", s_names spec with
  | true, name :: _ =>
      match start exec ([VStr "kubectl"; VStr "--kubeconfig"; kubeconfig; VStr "get";
                         VStr "deployment"; name; VStr "-n"; VStr (s_namespace spec); VStr "-o";
                         VStr "jsonpath={.spec.replicas}"]) with
      | Some (0%Z, out) =>
          match (if truthy (strip out) then py_int_of_string (strip out) else Some 0%Z) with
          | Some 1%Z => (20%Z, "deployment has 1 replica (SPOF)")
          | Some 2%Z => (10%Z, "deployment has 2 replicas (limited redundancy)")
          | _ => (0%Z, "")
          end
      | _ => (0%Z, "")
      end
  | _, _ => (0%Z, "")
  end.

(** *** The score *)

Definition score_context (result : dict pyval) (s : GState) (deep : option (Z * string))
    : Exc ScoreContext :=
  n ← py_length (py_or (py_get "conflict_uids" result) (get "conflict_uids" s));
  attempt ← py_int (get "pipeline_attempt" s);
  let br_scope := match get "blast_radius_scope" s with VStr t => t | _ => "" end in
  let br_detail := if on "blast_radius_scope" s && on "blast_radius_detail" s
                   then py_str (get "blast_radius_detail" s) else "" in
  Some (mkContext n attempt hour weekday deep br_scope br_detail).

(** [result.get("safety_status") or state.get("safety_status") or "safe"];
    every result carries a status text. *)
Definition current_status (result : dict pyval) (s : GState) : string :=
  py_str (py_or (py_or (py_get "safety_status" result) (get "safety_status" s)) (VStr "safe")).

Definition escalate_score (result : dict pyval) (s : GState) (overall : Z) : dict pyval :=
  if safety_score_routing_enabled cfg
  then
    let current := current_status result s in
    let new := maybe_escalate_status current overall (safety_score_warning_threshold cfg)
                 (safety_score_confirm_threshold cfg) in
    if String.eqb new current then result else dict_set "safety_status" (VStr new) result
  else result.

Definition br_warning (s : GState) : string :=
  "Cluster-wide blast radius: execution will mutate resources beyond the target scope." +:+
  (if on "blast_radius_detail" s then " " +:+ py_str (get "blast_radius_detail" s) else "").

Definition escalate_blast_radius (result : dict pyval) (s : GState) : dict pyval :=
  if is_str "blast_radius_scope" "cluster-wide" s && String.eqb (current_status result s) "safe"
  then
    let reason := py_get "safety_reason" result in
    let text := if py_truthy reason then py_str reason +:+ "; " +:+ br_warning s else br_warning s in
    let detail := py_str (py_or (py_get "safety_checked_detail" result) (VStr "")) in
    dict_set "safety_checked_detail" (VStr (detail +:+ ", 爆炸半径: cluster-wide"))
      (dict_set "safety_reason" (VStr text) (dict_set "safety_status" (VStr "warning") result))
  else result.

Definition _attach_safety_score (result : dict pyval) (spec : FaultSpec) (s : GState)
    (deep : option (Z * string)) : Exc (dict pyval) :=
  ctx ← score_context result s deep;
  score ← compute_safety_score spec ctx None;
  let r := dict_set "safety_score" (VDict (score_to_dict score)) result in
  Some (escalate_blast_radius (escalate_score r s (overall score)) s).

(** *** Conflicts *)

Record Assessment := mkAssessment {
  as_status : option string;
  as_reason : string;
  as_uids : list pyval;
  as_extra : dict pyval;
}.

Definition no_conflict : Assessment := mkAssessment None "" [] [].

Definition request_of (spec : FaultSpec) : Exc Request :=
  names ← join_text "," (s_names spec);
  let sta := if truthy (s_scope spec) && truthy (s_blade_target spec) && truthy (s_blade_action spec)
             then s_scope spec +:+ "-" +:+ s_blade_target spec +:+ "-" +:+ s_blade_action spec
             else "" in
  Some (mkRequest (s_namespace spec)
          (join "," (map (λ kv, kv.1 +:+ "=" +:+ py_str kv.2) (s_labels spec))) names sta).

Definition conflicts_of (s : GState) (kubeconfig : pyval) (rq : Request)
    : list pyval * list ConflictInfo :=
  check_blade_conflicts (kubeconfig_path cfg) (kube_context cfg)
    (λ cmd, r ← start run cmd; Some r.2) kubeconfig
    (default (VStr "unknown") (dict_get "task_id" (g_values s))) rq.

Definition same_overlaps (l : list ConflictInfo) : list ConflictInfo :=
  List.filter (λ c, ci_same_action c && ci_overlaps c) l.

Definition overlay_reason (spec : FaultSpec) (n : nat) : string :=
  str_of_nat n +:+ " active experiment(s) with the SAME action (" +:+ s_scope spec +:+ "-" +:+
  s_blade_target spec +:+ "-" +:+ s_blade_action spec +:+ ") already target this resource. " +:+
  "Compound effects make individual verification impossible. Use --force-override to proceed anyway.".

Definition warning_reason (uids : list pyval) (overlapping : list ConflictInfo) : Exc string :=
  let n := str_of_nat (length uids) in
  match overlapping with
  | [] =>
      first ← join_text ", " (take 5 uids);
      Some (n +:+ " active ChaosBlade experiment(s) already exist on this cluster: " +:+ first +:+
            ". No direct target overlap detected, but compound effects are possible. " +:+
            "Consider destroying existing experiments first before proceeding.")
  | _ =>
      all ← join_text ", " (map ci_uid overlapping);
      Some (n +:+ " active ChaosBlade experiment(s) already exist on this cluster. WARNING: " +:+
            str_of_nat (length overlapping) +:+ " of them target the SAME resource(s): " +:+
            join "; " (map ci_reason overlapping) +:+
            ". Overlapping injections on the same target produce unpredictable " +:+
            "compound effects and cannot be individually verified. " +:+
            "Consider destroying the conflicting experiment(s) first: " +:+ all)
  end.

(** The metadata dict of the state with the active experiments noted in it. *)
Definition noted_metadata (s : GState) (same : list ConflictInfo) : Exc (dict pyval) :=
  match py_or (get "target_metadata" s) (VDict []) with
  | VDict m => Some (dict_set "active_same_action_experiments" (VList (map ci_uid same)) m)
  | _ => Raise
  end.

Definition metadata_view (s : GState) : dict pyval :=
  match get "target_metadata" s with VDict m => m | _ => [] end.

Definition assess_conflicts (s : GState) (spec : FaultSpec) (kubeconfig : pyval) : Exc Assessment :=
  if negb (py_truthy kubeconfig) then Some no_conflict
  else
    rq ← request_of spec;
    let '(uids, details) := conflicts_of s kubeconfig rq in
    match uids with
    | [] => Some no_conflict
    | _ =>
        let same := same_overlaps details in
        let rules := lookup_adaptations (s_scope spec) (s_blade_target spec) (s_blade_action spec)
                       (metadata_view s) (Some "conflict_escalation") in
        match same, rules with
        | _ :: _, _ :: _ =>
            meta ← noted_metadata s same;
            Some (mkAssessment (Some "confirm_required") (overlay_reason spec (length same)) uids
                    [("target_metadata", VDict meta)])
        | _, _ =>
            reason ← warning_reason uids (List.filter ci_overlaps details);
            Some (mkAssessment (Some "warning") reason uids [])
        end
    end.

(** *** Health and feasibility; an exception counts as no report *)

Definition health_of (spec : FaultSpec) (kubeconfig : pyval) : option HealthReport :=
  if target_health_check_enabled cfg
  then assess_target_health (s_scope spec) (target_dict spec) (py_or kubeconfig (VStr ""))
  else None.

Definition feasibility_of (spec : FaultSpec) (kubeconfig : pyval) : option FeasibilityReport :=
  if feasibility_check_enabled cfg
  then default None (assess_feasibility spec (py_or kubeconfig (VStr "")))
  else None.

Definition health_rejected (h : option HealthReport) : bool :=
  match h with
  | Some h => is_blocking h && target_health_check_block_on_blocker cfg
  | None => false
  end.

Definition feas_rejected (f : option FeasibilityReport) : bool :=
  match f with
  | Some f => match fr_severity f with F_IMPOSSIBLE => true | _ => false end
              && feasibility_check_block_on_impossible cfg
  | None => false
  end.

Definition reject_reasons (h : option HealthReport) (f : option FeasibilityReport)
    (conflict_reason : string) : list string :=
  (match h with
   | Some hr => if health_rejected h
                then ["Target health blocker: " +:+ summary hr +:+
                      ". Set BLADE_AI_TARGET_HEALTH_CHECK_BLOCK=0 to override."] else []
   | None => []
   end) ++
  (match f with
   | Some fr => if feas_rejected f
                then ["Injection not feasible: " +:+ fr_message fr +:+ ". " +:+ fr_recommendation fr]
                else []
   | None => []
   end) ++
  (if truthy conflict_reason then ["Also: " +:+ conflict_reason] else []).

(** *** The verdict: rejected, then confirmation, then warning, then safe *)

Definition verdict (spec : FaultSpec) (kubeconfig : pyval) (a : Assessment)
    (h : option HealthReport) (f : option FeasibilityReport) : dict pyval :=
  let compliant := "namespace=" +:+ s_namespace spec +:+ " 合规, " in
  let n := str_of_nat (length (as_uids a)) in
  if health_rejected h || feas_rejected f
  then dict_update
         [("safety_status", VStr "rejected");
          ("safety_reason", VStr (join " " (reject_reasons h f (as_reason a))));
          ("conflict_uids", VList (as_uids a))] (as_extra a)
  else if match as_status a with Some t => String.eqb t "confirm_required" | None => false end
  then dict_update
         [("safety_status", VStr "confirm_required"); ("safety_reason", VStr (as_reason a));
          ("safety_checked_detail", VStr (compliant +:+ n +:+ " 冲突实验 (同目标同动作)"));
          ("conflict_uids", VList (as_uids a))] (as_extra a)
  else if match as_status a with Some t => String.eqb t "warning" | None => false end
  then [("safety_status", VStr "warning"); ("safety_reason", VStr (as_reason a));
        ("safety_checked_detail", VStr (compliant +:+ n +:+ " 活跃实验 (非同动作)"));
        ("conflict_uids", VList (as_uids a))]
  else if negb (py_truthy kubeconfig)
  then [("safety_status", VStr "warning");
        ("safety_reason", VStr "冲突检测跳过 (无 kubeconfig)，无法确认集群上是否存在活跃实验");
        ("safety_checked_detail", VStr (compliant +:+ "冲突检测跳过 (无 kubeconfig)"));
        ("conflict_uids", VList [])]
  else [("safety_status", VStr "safe"); ("safety_reason", VNone);
        ("safety_checked_detail", VStr (compliant +:+ "无冲突实验"));
        ("conflict_uids", VList [])].

(** The reports of the confirmation card. *)
Definition attach_reports (r : dict pyval) (h : option HealthReport) (f : option FeasibilityReport)
    : dict pyval :=
  let r1 := match h with
            | Some h => dict_set "target_health_report" (VDict (health_to_dict h)) r
            | None => r
            end in
  match f with
  | Some f => dict_set "feasibility_report" (VDict (feasibility_to_dict f)) r1
  | None => r1
  end.

(** The owners of the target, queried with the state's kubeconfig. *)
Definition owners_of (s : GState) (spec : FaultSpec) : list string :=
  match py_or (get "kubeconfig" s) (VStr "") with
  | VStr kc =>
      discover_owner_names (λ cmd, run cmd)
        (kubectl_path cfg ::
           map py_str (_build_kubectl_global_args (kubeconfig_path cfg) (kube_context cfg) (VStr kc)))
        (s_scope spec) (s_namespace spec) (map (λ kv, (kv.1, py_str kv.2)) (s_labels spec))
  | _ => []
  end.

(** A rejection before any assessment. *)
Definition early_reject (s : GState) (spec : FaultSpec) (reason : string) (c : FailureCategory)
    (context : string) : Exc (dict pyval) :=
  _attach_safety_score
    (dict_update [("safety_status", VStr "rejected"); ("safety_reason", VStr reason)]
       (fail_state c context []))
    spec s None.

Definition safety_check (s : GState) : Exc (dict pyval) :=
  spec ← state_spec s;
  let namespace := s_namespace spec in
  if namespace ∈? blacklist_namespaces cfg
  then early_reject s spec ("Namespace '" +:+ namespace +:+ "' is in the safety blacklist")
         SAFETY_REJECTED ("namespace=" +:+ namespace)
  else if negb (on "skill_name" s)
  then early_reject s spec "No skill activated" PREREQUISITE_FAILED "no skill activated"
  else if negb (truthy (s_scope spec))
  then early_reject s spec "No target specified" PREREQUISITE_FAILED "no target specified"
  else
    kubeconfig ← _resolve_kubeconfig s;
    let deep := if safety_score_topology_deep cfg
                then Some (_get_topology_deep_signal spec (py_or kubeconfig (VStr "")))
                else None in
    a ← assess_conflicts s spec kubeconfig;
    let h := health_of spec kubeconfig in
    let f := feasibility_of spec kubeconfig in
    let r := attach_reports (verdict spec kubeconfig a h f) h f in
    approved ← freeze_owned spec (owners_of s spec);
    _attach_safety_score (dict_set "approved_target" (opt_dict approved) r) spec s deep.
End safety.

(** ** The confirmation gate *)

Section gate.
(** [generate_injection_plan], and the answer to the interrupt. *)
Context (generate_injection_plan : GState → string).
Context (interrupt : dict pyval → pyval).

(** [_freeze_from_state]: the approval of the state's specification, with the
    owners that the safety check found. *)
Definition _freeze_from_state (s : GState) : Exc (option (dict pyval)) :=
  spec ← read_fault_spec (g_values s);
  match spec with
  | None => Some None
  | Some spec =>
      existing ← py_dict (get "approved_target" s);
      owners ← py_tuple (py_get "owner_names" existing);
      freeze_owned spec (map py_str owners)
  end.

(** [plan[:500] if plan else ""]. *)
Definition plan_summary (s : GState) : Exc pyval :=
  match get "plan" s with
  | VStr p => Some (VStr (py_take 500 p))
  | VList l => Some (match l with [] => VStr "" | _ => VList (take 500 l) end)
  | VTuple l => Some (match l with [] => VStr "" | _ => VTuple (take 500 l) end)
  | v => if py_truthy v then Raise else Some (VStr "")
  end.

Definition fault_intent_brief (spec : FaultSpec) : pyval :=
  if truthy (fault_type spec)
  then VDict [("fault_type", VStr (fault_type spec)); ("scope", VStr (s_scope spec));
              ("target", VStr (s_blade_target spec)); ("action", VStr (s_blade_action spec))]
  else VNone.

(** The value of [state.get(k, d)]. *)
Definition get_or (k : string) (d : pyval) (s : GState) : pyval :=
  default d (dict_get k (g_values s)).

Definition confirmation_info (s : GState) (spec : FaultSpec) : Exc (dict pyval) :=
  plan ← plan_summary s;
  uids ← py_iter (py_or (get "conflict_uids" s) (VList []));
  attempt ← py_int (get "pipeline_attempt" s);
  Some [("skill_name", get_or "skill_name" (VStr "") s); ("fault_intent", fault_intent_brief spec);
        ("target", VDict (target_dict spec)); ("plan_summary", plan);
        ("safety_status", get_or "safety_status" (VStr "safe") s);
        ("safety_reason", get "safety_reason" s);
        ("safety_checked_detail", get "safety_checked_detail" s);
        ("params", VDict (s_params spec)); ("target_health_report", get "target_health_report" s);
        ("conflict_uids", VList uids); ("pipeline_attempt", VInt attempt);
        ("is_complex", VBool (on "is_complex" s));
        ("plan_path", py_or (get "plan_path" s) (VStr ""));
        ("safety_score", get "safety_score" s);
        ("feasibility_report", get "feasibility_report" s)].

Definition says (v : pyval) (t : string) : bool :=
  match v with VStr x => String.eqb x t | _ => false end.

Definition approved_update (s : GState) : Exc Delta :=
  approved ← _freeze_from_state s;
  Some (mkDelta [] [("needs_confirmation", VBool false); ("approved_target", opt_dict approved)]).

Definition confirmation_gate (s : GState) : Exc Delta :=
  spec ← state_spec s;
  let confirm_required := says (get_or "safety_status" (VStr "safe") s) "confirm_required" in
  if on "dry_run" s
  then
    let plan_text := generate_injection_plan s in
    Some (mkDelta [AIMessage (VStr plan_text) VNone []]
            [("needs_confirmation", VBool false); ("plan_summary", VStr plan_text)])
  else if confirm_required && on "force_override" s then approved_update s
  else
    info ← confirmation_info s spec;
    if confirm_required && is_str "interaction_mode" "cli" s
    then
      let reason := py_str (get_or "safety_reason" (VStr "") s) in
      Some (mkDelta []
              (dict_update
                 [("safety_status", VStr "rejected");
                  ("safety_reason", VStr (reason +:+ " Add --force-override to proceed."));
                  ("needs_confirmation", VBool false)]
                 (fail_state SAFETY_REJECTED
                    ("confirm_required without --force-override; " +:+ reason) [])))
    else if says (interrupt info) "approved" then approved_update s
    else
      Some (mkDelta []
              (dict_update
                 [("safety_status", VStr "rejected");
                  ("safety_reason", VStr "User rejected the execution");
                  ("needs_confirmation", VBool false)]
                 (fail_state USER_REJECTED "User rejected the execution at confirmation gate" []
                  ++ [("approved_target", VNone)]))).
End gate.

(** ** The reject node *)

(** [state.get("agent_loop_count", 0) > 0]. *)
Definition loop_count_positive (s : GState) : Exc bool :=
  match get_or "agent_loop_count" (VInt 0) s with
  | VInt z => Some (0 <? z)%Z
  | VBool b => Some b
  | VFloat r => Some (float_gt_Z (float_of_repr r) 0)
  | _ => Raise
  end.

Definition _infer_failure_detail (s : GState) : Exc (dict pyval) :=
  let safety_reason := py_or (get "safety_reason" s) (VStr "") in
  if says (get_or "safety_status" (VStr "") s) "rejected"
  then
    match safety_reason with
    | VStr reason =>
        Some (if contains "user" (lower reason) || contains "reject" (lower reason)
              then fail_state USER_REJECTED reason []
              else fail_state SAFETY_REJECTED reason [])
    | _ => Raise
    end
  else
    positive ← loop_count_positive s;
    if (positive : bool) then Some (fail_state PLANNING_TIMEOUT "max_iterations exceeded" [])
    else
      match safety_reason with
      | VStr reason => Some (fail_state SAFETY_REJECTED (str_or reason "Unknown rejection reason") [])
      | _ => Raise
      end.

Definition reject (now_iso : string) (s : GState) : Exc (dict pyval) :=
  let reason := get_or "safety_reason" (VStr "Unknown reason") s in
  let error_val := get_or "error" reason s in
  detail ← (if on "failure_detail" s then Some (get "failure_detail" s)
            else fs ← _infer_failure_detail s; Some (py_get "failure_detail" fs));
  Some [("result", VDict [("status", VStr "rejected"); ("reason", error_val)]);
        ("error", error_val); ("failure_detail", detail); ("finished_at", VStr now_iso)].

(** ** The status of a result *)

Section safety_facts.
Context (cfg : SafetySettings) (run exec : list string → Exc (Z * string)).
Context (ah : string → dict pyval → pyval → Exc HealthReport).
Context (af : FaultSpec → pyval → Exc (option FeasibilityReport)).
Context (hour weekday : Z).

(** The escalations in one function of the status. *)
Definition escalated (t : string) (s : GState) (o : Z) : string :=
  let t1 := if safety_score_routing_enabled cfg
            then maybe_escalate_status t o (safety_score_warning_threshold cfg)
                   (safety_score_confirm_threshold cfg) else t in
  if is_str "blast_radius_scope" "cluster-wide" s && String.eqb t1 "safe" then "warning" else t1.

Lemma escalate_nonempty t o wt ct : t ≠ "" → maybe_escalate_status t o wt ct ≠ "".
Proof. intros Ht. unfold maybe_escalate_status. split_ifs; done. Qed.

Lemma current_status_of r s t : py_get "safety_status" r = VStr t → t ≠ "" → current_status r s = t.
Proof.
  intros Hr Ht. unfold current_status, py_or. rewrite Hr. cbn [py_truthy].
  rewrite (proj2 (truthy_spec t) Ht). cbn [py_truthy]. by rewrite (proj2 (truthy_spec t) Ht).
Qed.

Lemma escalate_score_status r s o t :
  py_get "safety_status" r = VStr t → t ≠ "" →
  py_get "safety_status" (escalate_score cfg r s o) =
  VStr (if safety_score_routing_enabled cfg
        then maybe_escalate_status t o (safety_score_warning_threshold cfg)
               (safety_score_confirm_threshold cfg) else t).
Proof.
  intros Hr Ht. unfold escalate_score. destruct (safety_score_routing_enabled cfg); [|done].
  cbv zeta. rewrite (current_status_of _ _ t) by done.
  destruct (String.eqb_spec (maybe_escalate_status t o (safety_score_warning_threshold cfg)
    (safety_score_confirm_threshold cfg)) t) as [E|E]; [by rewrite E|].
  by rewrite py_get_set.
Qed.

Lemma blast_radius_status r s t :
  py_get "safety_status" r = VStr t → t ≠ "" →
  py_get "safety_status" (escalate_blast_radius r s) =
  VStr (if is_str "blast_radius_scope" "cluster-wide" s && String.eqb t "safe" then "warning" else t).
Proof.
  intros Hr Ht. unfold escalate_blast_radius. rewrite (current_status_of _ _ t) by done.
  case_if; [|done]. cbv zeta. by rewrite !py_get_set.
Qed.

(** Attaching the score: the status is the escalated one, and the other keys
    of the result stay. *)
Lemma attach_status r spec s deep r' t :
  _attach_safety_score cfg hour weekday r spec s deep = Some r' →
  py_get "safety_status" r = VStr t → t ≠ "" →
  ∃ ctx sc, score_context hour weekday r s deep = Some ctx ∧
    compute_safety_score spec ctx None = Some sc ∧
    py_get "safety_status" r' = VStr (escalated t s (overall sc)).
Proof.
  unfold _attach_safety_score. intros H Hr Ht.
  apply bind_Some in H as (ctx & Hc & H). apply bind_Some in H as (sc & Hs & H). injection H as <-.
  exists ctx, sc. split; [done|]. split; [done|].
  assert (H1 : py_get "safety_status" (dict_set "safety_score" (VDict (score_to_dict sc)) r) = VStr t)
    by (by rewrite py_get_set).
  pose proof (escalate_score_status _ s (overall sc) t H1 Ht) as H2.
  rewrite (blast_radius_status _ s _ H2); [done|].
  destruct (safety_score_routing_enabled cfg); [by apply escalate_nonempty | done].
Qed.

Lemma attach_other r spec s deep r' k :
  _attach_safety_score cfg hour weekday r spec s deep = Some r' →
  k ∉ ["safety_score"; "safety_status"; "safety_reason"; "safety_checked_detail"] →
  dict_get k r' = dict_get k r.
Proof.
  unfold _attach_safety_score. intros H Hk.
  apply bind_Some in H as (ctx & _ & H). apply bind_Some in H as (sc & _ & H). injection H as <-.
  rewrite !not_elem_of_cons in Hk. destruct Hk as (H1 & H2 & H3 & H4 & _).
  apply String.eqb_neq in H1, H2, H3, H4.
  unfold escalate_blast_radius, escalate_score. cbv zeta.
  split_ifs; rewrite ?dict_get_set, ?H1, ?H2, ?H3, ?H4; done.
Qed.

(** Escalation only tightens, so a safe result was safe before it. *)
Lemma escalated_safe t s o :
  escalated t s o = "safe" →
  t = "safe" ∧ is_str "blast_radius_scope" "cluster-wide" s = false ∧
  (safety_score_routing_enabled cfg = true →
   (o < safety_score_warning_threshold cfg)%Z ∧ (o < safety_score_confirm_threshold cfg)%Z).
Proof.
  clear run exec ah af hour weekday.
  unfold escalated, maybe_escalate_status. cbv zeta. intros H.
  destruct (safety_score_routing_enabled cfg).
  - destruct (t ∈? ["rejected"; "confirm_required"]) eqn:E1.
    { case_if_in H; [discriminate H|]. subst t. discriminate E1. }
    destruct (Z.leb_spec (safety_score_confirm_threshold cfg) o) as [|Hc].
    { case_if_in H; discriminate H. }
    destruct (String.eqb_spec t "safe") as [->|]; [|case_if_in H; [discriminate H | done]].
    destruct (Z.leb_spec (safety_score_warning_threshold cfg) o) as [|Hw]; cbn [andb] in H.
    { case_if_in H; discriminate H. }
    destruct (is_str "blast_radius_scope" "cluster-wide" s); [discriminate H | auto].
  - destruct (is_str "blast_radius_scope" "cluster-wide" s); [|by repeat split].
    destruct (String.eqb_spec t "safe"); [discriminate H | done].
Qed.

Lemma escalated_strict t s o : t ∈ ["rejected"; "confirm_required"] → escalated t s o = t.
Proof.
  clear run exec ah af hour weekday.
  intros Ht. unfold escalated, maybe_escalate_status. rewrite (proj2 (str_in_spec _ _) Ht).
  assert (E : String.eqb t "safe" = false).
  { apply String.eqb_neq. intros ->. set_solver. }
  cbv zeta. destruct (safety_score_routing_enabled cfg); by rewrite E, andb_false_r.
Qed.

(** *** The verdict *)

Definition verdict_status (kc : pyval) (a : Assessment) (h : option HealthReport)
    (f : option FeasibilityReport) : string :=
  if health_rejected cfg h || feas_rejected cfg f then "rejected"
  else match as_status a with
       | Some t => if t ∈? ["confirm_required"; "warning"] then t
                   else if py_truthy kc then "safe" else "warning"
       | None => if py_truthy kc then "safe" else "warning"
       end.

Lemma verdict_get_status spec kc a h f :
  "safety_status" ∉ dict_keys (as_extra a) →
  py_get "safety_status" (verdict cfg spec kc a h f) = VStr (verdict_status kc a h f).
Proof.
  clear run exec ah af hour weekday.
  intros Hk. unfold verdict, verdict_status. cbv zeta.
  destruct (health_rejected cfg h || feas_rejected cfg f).
  { unfold py_get. by rewrite update_get_notin by done. }
  destruct (as_status a) as [t|]; [|by destruct (py_truthy kc)].
  destruct (String.eqb_spec t "confirm_required") as [->|H1].
  { unfold py_get. by rewrite update_get_notin by done. }
  destruct (String.eqb_spec t "warning") as [->|H2]; [done|].
  replace (t ∈? ["confirm_required"; "warning"]) with false; [by destruct (py_truthy kc)|].
  symmetry. apply str_in_false. set_solver.
Qed.

Lemma attach_reports_status r h f :
  py_get "safety_status" (attach_reports r h f) = py_get "safety_status" r.
Proof. unfold attach_reports. destruct h, f; by rewrite ?py_get_set. Qed.

Lemma verdict_status_nonempty kc a h f : verdict_status kc a h f ≠ "".
Proof.
  clear run exec ah af hour weekday.
  unfold verdict_status. case_if; [done|]. destruct (as_status a) as [t|]; [|case_if; done].
  destruct (t ∈? ["confirm_required"; "warning"]) eqn:E; [|case_if; done].
  bool_to_prop. set_solver.
Qed.

(** What an assessment says. *)
Lemma assess_cases s spec kc a :
  assess_conflicts cfg run s spec kc = Some a →
  ("safety_status" ∉ dict_keys (as_extra a)) ∧
  (py_truthy kc = true → ∃ rq, request_of spec = Some rq ∧
     (let '(uids, details) := conflicts_of cfg run s kc rq in
      (uids = [] ∧ as_status a = None) ∨
      (uids ≠ [] ∧ as_status a = Some (match same_overlaps details with
                                       | [] => "warning" | _ => "confirm_required" end)))).
Proof.
  clear exec ah af hour weekday.
  unfold assess_conflicts. intros H. destruct (py_truthy kc); cbn [negb] in H;
    [|injection H as <-; split; [apply not_elem_of_nil | done]].
  apply bind_Some in H as (rq & Hrq & H).
  destruct (conflicts_of cfg run s kc rq) as [uids details] eqn:Ec.
  assert (Hrules := escalation_registered (s_scope spec) (s_blade_target spec) (s_blade_action spec)
                      (metadata_view s)).
  destruct uids as [|u uids].
  { injection H as <-. split; [apply not_elem_of_nil|]. intros _. exists rq. rewrite Ec. auto. }
  destruct (lookup_adaptations _ _ _ _ _) as [|rule rules]; [done|].
  destruct (same_overlaps details) as [|c l] eqn:Es; apply bind_Some in H as (x & _ & H);
    injection H as <-; (split; [cbn; set_solver|]); intros _; exists rq; rewrite Ec, Es; auto.
Qed.

(** *** The node *)

Definition passes_rules (s : GState) (spec : FaultSpec) : Prop :=
  (s_namespace spec ∉ blacklist_namespaces cfg) ∧ on "skill_name" s = true ∧ s_scope spec ≠ "".

(** What the node went through when it got past the three rules. *)
Definition assessed (s : GState) (spec : FaultSpec) (kc : pyval) (a : Assessment) (sc : SafetyScore)
    (r : dict pyval) : Prop :=
  _resolve_kubeconfig cfg s = Some kc ∧
  assess_conflicts cfg run s spec kc = Some a ∧
  (∃ ctx, compute_safety_score spec ctx None = Some sc) ∧
  py_get "safety_score" r = VDict (score_to_dict sc) ∧
  (∃ d, freeze_owned spec (owners_of cfg run s spec) = Some d ∧
     dict_get "approved_target" r = Some (opt_dict d)) ∧
  py_get "safety_status" r =
    VStr (escalated (verdict_status kc a (health_of cfg ah spec kc) (feasibility_of cfg af spec kc))
            s (overall sc)).

Lemma attach_score r spec s deep r' :
  _attach_safety_score cfg hour weekday r spec s deep = Some r' →
  ∃ ctx sc, compute_safety_score spec ctx None = Some sc ∧
            py_get "safety_score" r' = VDict (score_to_dict sc) ∧
            ∀ t, py_get "safety_status" r = VStr t → t ≠ "" →
                 py_get "safety_status" r' = VStr (escalated t s (overall sc)).
Proof.
  intros H. pose proof H as H0. unfold _attach_safety_score in H.
  apply bind_Some in H as (ctx & Hc & H). apply bind_Some in H as (sc & Hs & H). injection H as Hr.
  exists ctx, sc. split; [done|]. split.
  - rewrite <- Hr. unfold escalate_blast_radius, escalate_score. cbv zeta.
    split_ifs; by rewrite !py_get_set.
  - intros t Ht Hne. destruct (attach_status _ _ _ _ _ _ H0 Ht Hne) as (ctx' & sc' & Hc' & Hs' & E).
    rewrite Hc in Hc'. injection Hc' as <-. rewrite Hs in Hs'. by injection Hs' as <-.
Qed.

Lemma early_rejected s spec reason c context r :
  early_reject cfg hour weekday s spec reason c context = Some r →
  py_get "safety_status" r = VStr "rejected".
Proof.
  unfold early_reject. intros H. apply attach_score in H as (ctx & sc & _ & _ & H).
  rewrite (H "rejected"); [|reflexivity | discriminate].
  rewrite escalated_strict; [done | apply list_elem_of_here].
Qed.

Lemma safety_check_cases s r :
  safety_check cfg run exec ah af hour weekday s = Some r →
  ∃ spec, state_spec s = Some spec ∧
    ((¬ passes_rules s spec ∧ py_get "safety_status" r = VStr "rejected") ∨
     (passes_rules s spec ∧ ∃ kc a sc, assessed s spec kc a sc r)).
Proof.
  unfold safety_check, passes_rules. intros H. apply bind_Some in H as (spec & Hs & H).
  exists spec. split; [done|]. cbv zeta in H.
  destruct (s_namespace spec ∈? blacklist_namespaces cfg) eqn:E1;
    [left; bool_to_prop; split; [tauto | by eapply early_rejected] |].
  destruct (on "skill_name" s) eqn:E2; cbn [negb] in H;
    [|left; split; [intuition discriminate | by eapply early_rejected]].
  destruct (truthy (s_scope spec)) eqn:E3; cbn [negb] in H; bool_to_prop;
    [|left; split; [tauto | by eapply early_rejected]].
  right. split; [done|].
  apply bind_Some in H as (kc & Hk & H). apply bind_Some in H as (a & Ha & H).
  apply bind_Some in H as (d & Hd & H).
  pose proof (attach_other _ _ _ _ _ "approved_target" H ltac:(set_solver)) as Hap.
  apply attach_score in H as (ctx & sc & Hc & Hsc & Hst).
  exists kc, a, sc. repeat (split; [by eauto|]). split.
  - exists d. split; [done|]. rewrite Hap. by rewrite dict_get_set.
  - apply Hst; [|apply verdict_status_nonempty].
    rewrite py_get_set. cbn [String.eqb Ascii.eqb Bool.eqb]. rewrite attach_reports_status.
    apply verdict_get_status, (assess_cases s spec kc a Ha).
Qed.

(** A verdict of safe is the last branch of the decision. *)
Lemma verdict_safe kc a h f :
  verdict_status kc a h f = "safe" →
  health_rejected cfg h = false ∧ feas_rejected cfg f = false ∧ py_truthy kc = true ∧
  (∀ t, as_status a = Some t → t ∉ ["confirm_required"; "warning"]).
Proof.
  clear run exec ah af hour weekday.
  unfold verdict_status. intros H.
  destruct (health_rejected cfg h), (feas_rejected cfg f); try discriminate H. cbn [orb] in H.
  destruct (as_status a) as [t|]; [|by destruct (py_truthy kc)].
  destruct (t ∈? ["confirm_required"; "warning"]) eqn:E; bool_to_prop.
  { subst t. set_solver. }
  destruct (py_truthy kc); [|discriminate H]. repeat (split; [done|]). intros t' Ht'. by injection Ht' as <-.
Qed.

Lemma assess_unreported s spec kc a :
  assess_conflicts cfg run s spec kc = Some a → py_truthy kc = true →
  (∀ t, as_status a = Some t → t ∉ ["confirm_required"; "warning"]) →
  ∃ rq, request_of spec = Some rq ∧ conflicts_of cfg run s kc rq = ([], []).
Proof.
  clear exec ah af hour weekday.
  intros Ha Hk Hn. destruct (proj2 (assess_cases s spec kc a Ha) Hk) as (rq & Hrq & Hc).
  exists rq. split; [done|]. unfold conflicts_of, check_blade_conflicts in *. cbv zeta in *.
  destruct (default [] _) as [|c l]; [done|]. exfalso.
  destruct Hc as [[Hc _] | [_ Hc]]; [discriminate Hc|].
  apply (Hn _ Hc). destruct (same_overlaps (c :: l)); set_solver.
Qed.

Lemma overlay_verdict s spec kc a rq c h f :
  assess_conflicts cfg run s spec kc = Some a → py_truthy kc = true →
  request_of spec = Some rq → c ∈ (conflicts_of cfg run s kc rq).2 →
  ci_same_action c = true → ci_overlaps c = true →
  verdict_status kc a h f ∈ ["rejected"; "confirm_required"].
Proof.
  clear exec ah af hour weekday.
  intros Ha Hk Hrq Hc Hsame Hov.
  destruct (proj2 (assess_cases s spec kc a Ha) Hk) as (rq' & Hrq' & H).
  rewrite Hrq in Hrq'. injection Hrq' as <-.
  assert (Hin : c ∈ same_overlaps (conflicts_of cfg run s kc rq).2).
  { apply list_elem_of_In, filter_In. rewrite <- list_elem_of_In, Hsame, Hov. auto. }
  assert (Hu : (conflicts_of cfg run s kc rq).1 = map ci_uid (conflicts_of cfg run s kc rq).2) by done.
  destruct (conflicts_of cfg run s kc rq) as [uids details]. cbn [fst snd] in *. subst uids.
  destruct H as [[H _] | [_ H]].
  { apply map_eq_nil in H. subst details. by apply elem_of_nil in Hc. }
  destruct (same_overlaps details) as [|x l]; [by apply elem_of_nil in Hin|].
  unfold verdict_status. rewrite H. case_if; set_solver.
Qed.
End safety_facts.

(** ** Results as updates of the state *)

(** Literal results have distinct keys. *)
Ltac wf_keys := unfold dict_wf; apply (bool_decide_unpack _); vm_compute; exact I.

Lemma attach_wf cfg hour weekday r spec s deep r' :
  _attach_safety_score cfg hour weekday r spec s deep = Some r' → dict_wf r → dict_wf r'.
Proof.
  unfold _attach_safety_score. intros H Hr.
  apply bind_Some in H as (ctx & _ & H). apply bind_Some in H as (sc & _ & H). injection H as <-.
  unfold escalate_blast_radius, escalate_score. cbv zeta. split_ifs; auto 8 with py.
Qed.

Lemma verdict_wf cfg spec kc a h f : dict_wf (verdict cfg spec kc a h f).
Proof.
  unfold verdict. cbv zeta. split_ifs; try (apply dict_update_wf); wf_keys.
Qed.

Lemma attach_reports_wf r h f : dict_wf r → dict_wf (attach_reports r h f).
Proof. intros Hr. unfold attach_reports. destruct h, f; auto with py. Qed.

Lemma safety_check_wf cfg run exec ah af hour weekday s r :
  safety_check cfg run exec ah af hour weekday s = Some r → dict_wf r.
Proof.
  assert (He : ∀ spec reason c context r',
    early_reject cfg hour weekday s spec reason c context = Some r' → dict_wf r').
  { unfold early_reject. intros. eapply attach_wf; [done|]. apply dict_update_wf. wf_keys. }
  unfold safety_check. intros H. apply bind_Some in H as (spec & _ & H). cbv zeta in H.
  case_if_in H; [by eapply He|]. case_if_in H; [by eapply He|]. case_if_in H; [by eapply He|].
  apply bind_Some in H as (kc & _ & H). apply bind_Some in H as (a & _ & H).
  apply bind_Some in H as (d & _ & H). eapply attach_wf; [exact H|].
  apply dict_set_wf, attach_reports_wf, verdict_wf.
Qed.

(** A key that a well-formed update sets is read from it. *)
Lemma get_update k s d v :
  dict_wf (dl_values d) → dict_get k (dl_values d) = Some v → get k (update s d) = v.
Proof.
  intros Hwf Hk. unfold get, py_get, update. cbn [g_values].
  by rewrite dict_get_update, Hk by done.
Qed.

Lemma get_update_other k s d :
  dict_get k (dl_values d) = None → get k (update s d) = get k s.
Proof.
  intros Hk. unfold get, py_get, update. cbn [g_values].
  rewrite update_get_notin; [done|]. by apply dict_get_None.
Qed.

Lemma status_update s r t :
  dict_wf r → py_get "safety_status" r = VStr t →
  get "safety_status" (update s (mkDelta [] r)) = VStr t.
Proof.
  intros Hwf Hr. unfold py_get in Hr. destruct (dict_get "safety_status" r) as [v|] eqn:E; [|done].
  subst v. by eapply get_update.
Qed.

(** C7. A verdict of "safe" is earned: the namespace of the request is on no
    blacklist, a skill and a scope are there, a kubeconfig was found, the
    conflict check reported no experiment, neither the health check nor the
    feasibility check blocked, no cluster-wide blast radius was declared, the
    score stays under both thresholds when it routes, and the approval in the
    result is the frozen specification. *)
Theorem safe_verdict_sound cfg run exec ah af hour weekday s r :
  safety_check cfg run exec ah af hour weekday s = Some r →
  py_get "safety_status" r = VStr "safe" →
  ∃ spec kc rq sc d,
    state_spec s = Some spec ∧ passes_rules cfg s spec ∧
    _resolve_kubeconfig cfg s = Some kc ∧ py_truthy kc = true ∧
    request_of spec = Some rq ∧ conflicts_of cfg run s kc rq = ([], []) ∧
    health_rejected cfg (health_of cfg ah spec kc) = false ∧
    feas_rejected cfg (feasibility_of cfg af spec kc) = false ∧
    is_str "blast_radius_scope" "cluster-wide" s = false ∧
    py_get "safety_score" r = VDict (score_to_dict sc) ∧
    (safety_score_routing_enabled cfg = true →
     (overall sc < safety_score_warning_threshold cfg)%Z ∧
     (overall sc < safety_score_confirm_threshold cfg)%Z) ∧
    freeze_owned spec (owners_of cfg run s spec) = Some d ∧
    dict_get "approved_target" r = Some (opt_dict d).
Proof.
  intros H Hsafe. apply safety_check_cases in H as (spec & Hs & [[_ Hr] | [Hp H]]).
  { rewrite Hsafe in Hr. discriminate Hr. }
  destruct H as (kc & a & sc & Hk & Ha & _ & Hsc & (d & Hd & Hap) & Hst).
  rewrite Hsafe in Hst. injection Hst as Hst. symmetry in Hst.
  apply escalated_safe in Hst as (Hv & Hbr & Hth).
  apply verdict_safe in Hv as (Hh & Hf & Hkt & Hn).
  destruct (assess_unreported cfg run s spec kc a Ha Hkt Hn) as (rq & Hrq & Hc).
  exists spec, kc, rq, sc, d. repeat (split; [done|]). done.
Qed.

(** A request on the pods of a shop, default settings with one blacklisted
    namespace, a healthy target and no assessment of feasibility. *)
Definition shop_spec : FaultSpec :=
  mkSpec "shop" "pod" [VStr "cart-2"] [] "cpu" "fullload" [] [] 60 "cli_structured" "".

Definition shop_state (extra : dict pyval) : GState :=
  mkState [] ([("fault_spec", VDict (to_dict shop_spec)); ("skill_name", VStr "k8s-pod-cpu");
               ("kubeconfig", VStr "/kc")] ++ extra).

Definition default_safety : SafetySettings :=
  mkSafety "kube-system, default" "" "" "kubectl" true 70 90 false true false true false.

Definition healthy (_ : string) (t : dict pyval) (_ : pyval) : Exc HealthReport :=
  Some (mkHealth t OK [] "Running").

Definition unassessed (_ : FaultSpec) (_ : pyval) : Exc (option FeasibilityReport) := Some None.

(** A cluster without tool pods, and one with a running experiment. *)
Definition quiet_run (_ : list string) : Exc (Z * string) := Some (0%Z, "").

Definition busy_run (cmd : list string) : Exc (Z * string) :=
  out ← cluster sample_pods sample_raw (map VStr cmd); Some (0%Z, out).

Definition safe_result : dict pyval :=
  default [] (safety_check default_safety quiet_run quiet_run healthy unassessed 3 6 (shop_state [])).

Lemma safe_verdict_sound_witness :
  ∃ spec kc rq sc d,
    state_spec (shop_state []) = Some spec ∧ passes_rules default_safety (shop_state []) spec ∧
    _resolve_kubeconfig default_safety (shop_state []) = Some kc ∧ py_truthy kc = true ∧
    request_of spec = Some rq ∧
    conflicts_of default_safety quiet_run (shop_state []) kc rq = ([], []) ∧
    health_rejected default_safety (health_of default_safety healthy spec kc) = false ∧
    feas_rejected default_safety (feasibility_of default_safety unassessed spec kc) = false ∧
    is_str "blast_radius_scope" "cluster-wide" (shop_state []) = false ∧
    py_get "safety_score" safe_result = VDict (score_to_dict sc) ∧
    (safety_score_routing_enabled default_safety = true →
     (overall sc < safety_score_warning_threshold default_safety)%Z ∧
     (overall sc < safety_score_confirm_threshold default_safety)%Z) ∧
    freeze_owned spec (owners_of default_safety quiet_run (shop_state []) spec) = Some d ∧
    dict_get "approved_target" safe_result = Some (opt_dict d).
Proof.
  apply (safe_verdict_sound default_safety quiet_run quiet_run healthy unassessed 3 6 (shop_state [])
           safe_result); vm_compute; reflexivity.
Defined.

(** An overlay of the same action on the same target is never let
    through silently: when the conflict check reports an overlapping
    experiment with the request's action, the safety check either rejects
    (on a blacklist, a missing skill or scope, or a blocking report) or asks
    for a confirmation, whatever the score says, and the graph does not go
    on to the baseline. *)
Theorem overlay_needs_confirmation cfg run exec ah af hour weekday s r spec kc rq c :
  safety_check cfg run exec ah af hour weekday s = Some r →
  state_spec s = Some spec → _resolve_kubeconfig cfg s = Some kc → py_truthy kc = true →
  request_of spec = Some rq → c ∈ (conflicts_of cfg run s kc rq).2 →
  ci_same_action c = true → ci_overlaps c = true →
  (py_get "safety_status" r = VStr "rejected" ∨ py_get "safety_status" r = VStr "confirm_required") ∧
  route_after_safety (update s (mkDelta [] r)) ≠ "baseline_capture".
Proof.
  intros H Hs Hk Hkt Hrq Hc Hsame Hov. pose proof (safety_check_wf _ _ _ _ _ _ _ _ _ H) as Hwf.
  assert (Hst : py_get "safety_status" r = VStr "rejected" ∨
                py_get "safety_status" r = VStr "confirm_required").
  { apply safety_check_cases in H as (spec' & Hs' & [[_ Hr] | [_ H]]); [by left|].
    rewrite Hs in Hs'. injection Hs' as <-.
    destruct H as (kc' & a & sc & Hk' & Ha & _ & _ & _ & Hst).
    rewrite Hk in Hk'. injection Hk' as <-.
    pose proof (overlay_verdict cfg run s spec kc a rq c (health_of cfg ah spec kc)
                  (feasibility_of cfg af spec kc) Ha Hkt Hrq Hc Hsame Hov) as Hv.
    rewrite Hst, escalated_strict by done.
    apply elem_of_cons in Hv as [-> | ->%list_elem_of_singleton]; auto. }
  split; [done|]. unfold route_after_safety, is_str.
  destruct Hst as [Hst | Hst]; rewrite (status_update s r _ Hwf Hst); [discriminate|].
  cbn. split_ifs; discriminate.
Qed.

Definition overlay_result : dict pyval :=
  default [] (safety_check default_safety busy_run quiet_run healthy unassessed 3 6 (shop_state [])).

Definition shop_request : Request := mkRequest "shop" "" "cart-2" "pod-cpu-fullload".

Lemma overlay_needs_confirmation_witness :
  (py_get "safety_status" overlay_result = VStr "rejected" ∨
   py_get "safety_status" overlay_result = VStr "confirm_required") ∧
  route_after_safety (update (shop_state []) (mkDelta [] overlay_result)) ≠ "baseline_capture".
Proof.
  apply (overlay_needs_confirmation default_safety busy_run quiet_run healthy unassessed 3 6
           (shop_state []) overlay_result shop_spec (VStr "/kc") shop_request
           (_analyze_overlap (bare_conflict (VStr "1a2b") sample_flag) shop_request)).
  - vm_compute. reflexivity.
  - vm_compute. reflexivity.
  - reflexivity.
  - reflexivity.
  - vm_compute. reflexivity.
  - replace (conflicts_of default_safety busy_run (shop_state []) (VStr "/kc") shop_request).2
      with [_analyze_overlap (bare_conflict (VStr "1a2b") sample_flag) shop_request]
      by (vm_compute; reflexivity).
    apply list_elem_of_here.
  - vm_compute. reflexivity.
  - vm_compute. reflexivity.
Defined.

(** ** Where the rules are weaker than they read *)

(** The blacklist compares the namespace as written, the approval strips it
    and fills in the default: a padded or empty namespace passes the
    blacklist and is approved for the blacklisted one. *)
Definition padded_state (ns : string) : GState :=
  mkState [] [("blade_scope", VStr "pod"); ("blade_target", VStr "cpu");
              ("blade_action", VStr "fullload"); ("skill_name", VStr "k8s-pod-cpu");
              ("kubeconfig", VStr "/kc");
              ("target", VDict [("namespace", VStr ns); ("names", VList [VStr "cart-2"])])].

Definition approved_namespace (r : dict pyval) : pyval :=
  match py_get "approved_target" r with VDict a => py_get "namespace" a | _ => VNone end.

Lemma blacklist_bypassed :
  (∃ r, safety_check default_safety quiet_run quiet_run healthy unassessed 3 6
          (padded_state " kube-system") = Some r ∧
        py_get "safety_status" r = VStr "safe" ∧ approved_namespace r = VStr "kube-system") ∧
  (∃ r, safety_check default_safety quiet_run quiet_run healthy unassessed 3 6
          (padded_state "") = Some r ∧
        py_get "safety_status" r = VStr "safe" ∧ approved_namespace r = VStr "default").
Proof.
  split; eexists; (split; [vm_compute; reflexivity|]); split; reflexivity.
Qed.

(** A rejection by the health check carries no failure detail, and the
    reject node guesses it from the words of the reason: a conflicting pod
    named after users turns it into a rejection by the user. *)
Definition user_state : GState :=
  mkState [] [("fault_spec", VDict (to_dict (mkSpec "shop" "pod" [VStr "user-db-0"] [] "cpu"
                                               "fullload" [] [] 60 "cli_structured" "")));
              ("skill_name", VStr "k8s-pod-cpu"); ("kubeconfig", VStr "/kc")].

Definition user_run (cmd : list string) : Exc (Z * string) :=
  out ← cluster sample_pods
          (jreport [jexp "1a2b" (jstr "k8s pod-mem load --namespace shop --names user-db-0")])
          (map VStr cmd);
  Some (0%Z, out).

Definition evicted (_ : string) (t : dict pyval) (_ : pyval) : Exc HealthReport :=
  Some (mkHealth t BLOCK [mkIssue BLOCK "pod.evicted" "evicted" ""] "").

Definition blocking_safety : SafetySettings :=
  mkSafety "kube-system" "" "" "kubectl" false 70 90 false true true true false.

Definition detail_category (r : option (dict pyval)) : pyval :=
  match option_map (py_get "failure_detail") r with
  | Some (VDict d) => py_get "category" d
  | _ => VNone
  end.

Lemma health_rejection_misread :
  ∃ r, safety_check blocking_safety user_run quiet_run evicted unassessed 3 6 user_state = Some r ∧
       py_get "safety_status" r = VStr "rejected" ∧
       detail_category (reject "now" (update user_state (mkDelta [] r))) = VStr "user_rejected".
Proof. eexists. split; [vm_compute; reflexivity|]. split; vm_compute; reflexivity. Qed.

(** ** The confirmation gate *)

(** What lets a request through the gate: the answer to the interrupt, or the
    override of a required confirmation. *)
Definition gate_cleared (interrupt : dict pyval → pyval) (s : GState) : Prop :=
  (∃ spec info, state_spec s = Some spec ∧ confirmation_info s spec = Some info ∧
     interrupt info = VStr "approved" ∧
     ¬ (is_str "safety_status" "confirm_required" s = true ∧ is_str "interaction_mode" "cli" s = true)) ∨
  (is_str "safety_status" "confirm_required" s = true ∧ on "force_override" s = true).

Lemma says_status s t : t ≠ "safe" → says (get_or "safety_status" (VStr "safe") s) t = is_str "safety_status" t s.
Proof.
  intros Ht. unfold is_str, get, get_or, py_get.
  destruct (dict_get "safety_status" (g_values s)); [done|].
  cbn [from_option id says]. apply String.eqb_neq. congruence.
Qed.

(** A gate that rejects says so in the updated state. *)
Lemma rejecting_update s l rest :
  dict_wf l → dict_get "safety_status" l = Some (VStr "rejected") →
  is_str "safety_status" "rejected" (update s (mkDelta rest l)) = true.
Proof.
  intros Hwf Hl. unfold is_str. by rewrite (get_update _ s (mkDelta rest l) _ Hwf Hl).
Qed.

Lemma approved_update_spec s d :
  approved_update s = Some d →
  ∃ frozen, _freeze_from_state s = Some frozen ∧ get "approved_target" (update s d) = opt_dict frozen ∧
            get "dry_run" (update s d) = get "dry_run" s.
Proof.
  unfold approved_update. intros (frozen & Hf & H)%bind_Some. injection H as <-.
  exists frozen. split; [done|]. split; [|by apply get_update_other].
  apply get_update; [wf_keys | done].
Qed.

Lemma gate_spec plan interrupt s d :
  confirmation_gate plan interrupt s = Some d →
  is_str "safety_status" "rejected" (update s d) = false → on "dry_run" (update s d) = false →
  gate_cleared interrupt s ∧
  ∃ frozen, _freeze_from_state s = Some frozen ∧ get "approved_target" (update s d) = opt_dict frozen.
Proof.
  unfold confirmation_gate. intros H Hr Hd. apply bind_Some in H as (spec & Hs & H). cbv zeta in H.
  rewrite says_status in H by done.
  destruct (on "dry_run" s) eqn:E1.
  { injection H as <-. unfold on in *. rewrite get_update_other in Hd by done. congruence. }
  destruct (is_str "safety_status" "confirm_required" s && on "force_override" s) eqn:E2.
  { apply andb_true_iff in E2. apply approved_update_spec in H as (f & Hf & Ha & _).
    split; [by right | by exists f]. }
  apply bind_Some in H as (info & Hi & H).
  destruct (is_str "safety_status" "confirm_required" s && is_str "interaction_mode" "cli" s) eqn:E3.
  { injection H as <-. rewrite rejecting_update in Hr; [done | wf_keys | done]. }
  destruct (says (interrupt info) "approved") eqn:E4.
  - apply approved_update_spec in H as (f & Hf & Ha & _). split; [|by exists f].
    left. exists spec, info. repeat (split; [done|]). split.
    + unfold says in E4. destruct (interrupt info); try done. by apply String.eqb_eq in E4 as ->.
    + rewrite <- andb_true_iff, E3. done.
  - injection H as <-. rewrite rejecting_update in Hr; [done | wf_keys | done].
Qed.
