(* ===== verification/GatedRun.v ===== *)
(** * Runs of the inject graph through the modelled gates

    The inject graph with its safety check, confirmation gate and reject
    node as modelled, every other node still free to do anything to the
    state.  The cluster, the assessments and the clock may answer differently
    at every visit, and so may the human. *)

From stdpp Require Import base list strings sets.
From Stdlib Require Import ZArith Ascii SpecFloat.
From S2P Require Import Prelude.
From S2P Require Import PyValue.
From S2P Require Import Freeze.
From S2P Require Import FaultSpec.
From S2P Require Import Failure.
From S2P Require Import Screener.
From S2P Require Import Router.
From S2P Require Import Graph.
From S2P Require Import FaultContext.
From S2P Require Import Conflict.
From S2P Require Import SafetyScore.
From S2P Require Import SafetyGate.

(** What one visit of the safety check sees of the world. *)
Record World := mkWorld {
  w_run : list string → Exc (Z * string);
  w_exec : list string → Exc (Z * string);
  w_health : string → dict pyval → pyval → Exc HealthReport;
  w_feasibility : FaultSpec → pyval → Exc (option FeasibilityReport);
  w_hour : Z;
  w_weekday : Z;
}.

Definition check_in (cfg : SafetySettings) (w : World) (s : GState) : Exc (dict pyval) :=
  safety_check cfg (w_run w) (w_exec w) (w_health w) (w_feasibility w) (w_hour w) (w_weekday w) s.

Section gated.
Context (cfg : SafetySettings).
(** [answers info a]: asked with the card [info], the human may answer [a]. *)
Context (answers : dict pyval → pyval → Prop).
(** What the remaining nodes may do. *)
Context (other : Node → GState → GState → Prop).

Inductive gated_effect : Node → GState → GState → Prop :=
  | ge_safety_check w s r :
      check_in cfg w s = Some r → gated_effect N_safety_check s (update s (mkDelta [] r))
  | ge_confirmation_gate plan a s d :
      (∀ spec info, state_spec s = Some spec → confirmation_info s spec = Some info → answers info a) →
      confirmation_gate plan (λ _, a) s = Some d →
      gated_effect N_confirmation_gate s (update s d)
  | ge_reject now s r :
      reject now s = Some r → gated_effect N_reject s (update s (mkDelta [] r))
  | ge_other n s s' :
      n ∉ [N_safety_check; N_confirmation_gate; N_reject] → other n s s' → gated_effect n s s'.
End gated.

(** ** Reading the specification depends on its own keys only *)

Definition SPEC_KEYS : list string :=
  ["fault_spec"; "target"; "blade_scope"; "blade_target"; "blade_action"; "params"; "params_flags";
   "duration"].

Lemma read_fault_spec_ext d d' :
  (∀ k, k ∈ SPEC_KEYS → py_get k d' = py_get k d) → read_fault_spec d' = read_fault_spec d.
Proof.
  intros H. unfold read_fault_spec, legacy_fault_spec.
  rewrite !H by (apply str_in_spec; vm_compute; reflexivity). done.
Qed.

(** ** The keys of a safety result *)

Definition RESULT_KEYS : list string :=
  ["safety_status"; "safety_reason"; "safety_checked_detail"; "conflict_uids"; "target_metadata";
   "target_health_report"; "feasibility_report"; "approved_target"; "safety_score";
   "failure_detail"; "error"].

Definition keys_in (d : dict pyval) : Prop := ∀ k, k ∈ dict_keys d → k ∈ RESULT_KEYS.

Lemma keys_in_set k v d : k ∈ RESULT_KEYS → keys_in d → keys_in (dict_set k v d).
Proof.
  unfold keys_in. intros Hk Hd k'. rewrite dict_set_keys.
  destruct (dict_mem k d); [apply Hd|]. rewrite elem_of_app, list_elem_of_singleton.
  intros [? | ->]; auto.
Qed.

Lemma keys_in_update d1 d2 : keys_in d1 → keys_in d2 → keys_in (dict_update d1 d2).
Proof.
  revert d1. induction d2 as [|[k v] d2 IH]; intros d1 H1 H2; [done|].
  unfold dict_update in *. cbn [fold_left fst snd]. apply IH.
  - apply keys_in_set; [|done]. apply H2. apply list_elem_of_here.
  - intros k' Hk'. apply H2. by apply list_elem_of_further.
Qed.

(** Keys written out are in the list. *)
Lemma keys_in_dec d : forallb (λ k, k ∈? RESULT_KEYS) (dict_keys d) = true → keys_in d.
Proof.
  rewrite forallb_forall. intros H k Hk. apply str_in_spec, H. by apply list_elem_of_In.
Qed.

Ltac known_keys :=
  lazymatch goal with
  | |- keys_in _ => apply keys_in_dec; vm_compute; reflexivity
  | |- _ ∈ _ => apply str_in_spec; vm_compute; reflexivity
  | |- _ ∉ _ => apply str_in_false; vm_compute; reflexivity
  end.

Lemma attach_keys cfg hour weekday r spec s deep r' :
  _attach_safety_score cfg hour weekday r spec s deep = Some r' → keys_in r → keys_in r'.
Proof.
  unfold _attach_safety_score. intros H Hr.
  apply bind_Some in H as (ctx & _ & H). apply bind_Some in H as (sc & _ & H). injection H as <-.
  unfold escalate_blast_radius, escalate_score. cbv zeta.
  split_ifs; repeat (apply keys_in_set; [known_keys|]); done.
Qed.

Lemma assess_extra_keys cfg run s spec kc a :
  assess_conflicts cfg run s spec kc = Some a → keys_in (as_extra a).
Proof.
  unfold assess_conflicts. intros H. case_if_in H; [injection H as <-; known_keys|].
  apply bind_Some in H as (rq & _ & H). destruct (conflicts_of _ _ _ _ _) as [uids details].
  destruct uids; [injection H as <-; known_keys|].
  destruct (same_overlaps details); [|destruct (lookup_adaptations _ _ _ _ _)];
    apply bind_Some in H as (x & _ & H); injection H as <-; known_keys.
Qed.

Lemma verdict_keys cfg spec kc a h f : keys_in (as_extra a) → keys_in (verdict cfg spec kc a h f).
Proof.
  intros Ha. unfold verdict. cbv zeta.
  split_ifs; try (apply keys_in_update; [known_keys | done]); known_keys.
Qed.

Lemma check_keys cfg w s r : check_in cfg w s = Some r → keys_in r.
Proof.
  unfold check_in. intros H.
  assert (He : ∀ hour weekday spec reason c context r',
    early_reject cfg hour weekday s spec reason c context = Some r' → keys_in r').
  { unfold early_reject. intros. eapply attach_keys; [done|].
    apply keys_in_update; known_keys. }
  unfold safety_check in H. apply bind_Some in H as (spec & _ & H). cbv zeta in H.
  case_if_in H; [by eapply He|]. case_if_in H; [by eapply He|]. case_if_in H; [by eapply He|].
  apply bind_Some in H as (kc & _ & H). apply bind_Some in H as (a & Ha & H).
  apply bind_Some in H as (d & _ & H). eapply attach_keys; [exact H|].
  apply keys_in_set; [known_keys|]. unfold attach_reports.
  pose proof (verdict_keys cfg spec kc a (health_of cfg (w_health w) spec kc)
                (feasibility_of cfg (w_feasibility w) spec kc) (assess_extra_keys _ _ _ _ _ _ Ha)).
  destruct (health_of _ _ _ _), (feasibility_of _ _ _ _);
    repeat (apply keys_in_set; [known_keys|]); done.
Qed.

(** The safety check leaves the request alone. *)
Lemma check_keeps cfg w s r k :
  check_in cfg w s = Some r → k ∉ RESULT_KEYS → get k (update s (mkDelta [] r)) = get k s.
Proof.
  intros H Hk. apply get_update_other. cbn [dl_values]. apply dict_get_None.
  intros Hin. by apply Hk, (check_keys _ _ _ _ H).
Qed.

Lemma check_keeps_spec cfg w s r :
  check_in cfg w s = Some r → state_spec (update s (mkDelta [] r)) = state_spec s.
Proof.
  intros H. unfold state_spec. rewrite (read_fault_spec_ext (g_values s)); [done|].
  intros k Hk. apply (check_keeps cfg w s r k H). unfold SPEC_KEYS in Hk.
  repeat (apply elem_of_cons in Hk as [-> | Hk]; [known_keys|]). by apply elem_of_nil in Hk.
Qed.

(** ** Consecutive configurations of a run *)

Section gated_runs.
Context (rcfg : RouterSettings) (ct vt : bool) (scfg : ScreenSettings).
Context (exc_text : string → pyval → string) (resume : dict pyval → pyval).
Context (cfg : SafetySettings) (answers : dict pyval → pyval → Prop).
Context (other : Node → GState → GState → Prop).

Abbreviation step := (inject_step rcfg ct vt scfg exc_text resume (gated_effect cfg answers other)).
Abbreviation run_to := (inject_run rcfg ct vt scfg exc_text resume (gated_effect cfg answers other)).

(** Neighbours of the history are steps, and the oldest is the entry. *)
Lemma run_adjacent s0 h c h1 c1 c2 h2 :
  run_to s0 h c → c :: h = h1 ++ c1 :: c2 :: h2 → step c2 c1.
Proof.
  intros Hr. revert h1. induction Hr as [|h c c' Hr IH Hs]; intros h1 E.
  - destruct h1 as [|x [|y h1]]; discriminate E.
  - destruct h1 as [|x h1]; [by injection E as -> -> ->|].
    injection E as _ E. by apply (IH h1).
Qed.

Lemma run_oldest s0 h c h1 n s :
  run_to s0 h c → c :: h = h1 ++ [(n, s)] → n = N_load_memory.
Proof.
  intros Hr. revert h1. induction Hr as [|h c c' Hr IH Hs]; intros h1 E.
  - destruct h1 as [|x [|y h1]]; [by injection E as -> | discriminate E | discriminate E].
  - destruct h1 as [|x h1]; [discriminate E|]. injection E as _ E. by apply (IH h1).
Qed.

(** The steps of the two gates. *)
Lemma gate_step_safety sp n s1 :
  step (N_safety_check, sp) (n, s1) →
  ∃ w r now, check_in cfg w sp = Some r ∧ s1 = update sp (mkDelta [] r) ∧
             inject_next rcfg now ct vt N_safety_check s1 = Some n.
Proof.
  inversion 1 as [now n1 s s' n' Hruns Hnext]; subst.
  inversion Hruns as [| |n1 s s' _ _ He]; subst.
  inversion He as [w s s1' Hc E1| | |n1 s s' Hn]; subst; [by exists w, s1', now|].
  destruct Hn. apply list_elem_of_here.
Qed.

Lemma gate_step_confirmation sp n s1 :
  step (N_confirmation_gate, sp) (n, s1) →
  ∃ plan a d, (∀ spec info, state_spec sp = Some spec → confirmation_info sp spec = Some info →
                 answers info a) ∧
              confirmation_gate plan (λ _, a) sp = Some d ∧ s1 = update sp d.
Proof.
  inversion 1 as [now n1 s s' n' Hruns Hnext]; subst.
  inversion Hruns as [| |n1 s s' _ _ He]; subst.
  inversion He as [|plan a s d Ha Hd| |n1 s s' Hn]; subst; [by exists plan, a, d|].
  destruct Hn. by apply list_elem_of_further, list_elem_of_here.
Qed.

(** Only the safety check leads to the confirmation gate. *)
Lemma confirmation_pred n : N_confirmation_gate ∈ inject_targets n → n = N_safety_check.
Proof.
  intros Ht. assert (Hb : existsb (λ x, bool_decide (x = N_confirmation_gate)) (inject_targets n) = true).
  { apply existsb_exists. exists N_confirmation_gate.
    split; [by apply list_elem_of_In | by apply bool_decide_true]. }
  clear Ht. destruct n; try discriminate Hb; auto.
Qed.

(** A safety check that does not lead to a rejection passed its rules. *)
Lemma unrejected_rules w s r :
  check_in cfg w s = Some r → is_str "safety_status" "rejected" (update s (mkDelta [] r)) = false →
  ∃ spec, state_spec s = Some spec ∧ passes_rules cfg s spec.
Proof.
  intros H Hr. pose proof (safety_check_wf _ _ _ _ _ _ _ _ _ H) as Hwf.
  apply safety_check_cases in H as (spec & Hs & [[_ E] | [Hp _]]); [|by exists spec].
  unfold is_str in Hr. by rewrite (status_update s r _ Hwf E) in Hr.
Qed.

(** The confirmation gate is entered with a request that passed the rules. *)
Lemma confirmation_entered s0 h1 sp h2 n s :
  run_to s0 (h1 ++ (N_confirmation_gate, sp) :: h2) (n, s) →
  ∃ spec, state_spec sp = Some spec ∧ passes_rules cfg sp spec.
Proof.
  intros Hr. destruct h2 as [|[q sq] h2].
  { apply (run_oldest _ _ _ ((n, s) :: h1) N_confirmation_gate sp) in Hr; done. }
  pose proof (run_adjacent _ _ _ ((n, s) :: h1) _ (q, sq) h2 Hr eq_refl) as Hs.
  assert (q = N_safety_check) as ->.
  { inversion Hs as [now n1 s1 s' n' _ Hnext]; subst. apply confirmation_pred.
    by eapply inject_next_target. }
  apply gate_step_safety in Hs as (w & r & now & Hc & -> & Hnext).
  cbn [inject_next] in Hnext.
  destruct (unrejected_rules w sq r Hc) as (spec & Hspec & Hrules).
  { unfold route_after_safety in Hnext.
    destruct (is_str "safety_status" "rejected" _); [discriminate Hnext | done]. }
  exists spec. split; [by rewrite (check_keeps_spec cfg w)|].
  destruct Hrules as (Hns & Hsk & Hsc). split; [done|]. split; [|done].
  unfold on. rewrite (check_keeps cfg w) by (done || known_keys). exact Hsk.
Qed.
End gated_runs.

(** What a visit of the safety check established when it let a request go to
    the baseline on its own. *)
Definition found_safe (cfg : SafetySettings) (w : World) (s : GState) (spec : FaultSpec) : Prop :=
  ∃ kc rq, _resolve_kubeconfig cfg s = Some kc ∧ py_truthy kc = true ∧ request_of spec = Some rq ∧
    conflicts_of cfg (w_run w) s kc rq = ([], []) ∧
    health_rejected cfg (health_of cfg (w_health w) spec kc) = false ∧
    feas_rejected cfg (feasibility_of cfg (w_feasibility w) spec kc) = false ∧
    is_str "blast_radius_scope" "cluster-wide" s = false.

(** The decision in front of the baseline: the verdict of the check, the
    approval of a human who saw the card, or the override flag. *)
Definition decided (cfg : SafetySettings) (answers : dict pyval → pyval → Prop) (p : Node)
    (s : GState) (spec : FaultSpec) : Prop :=
  (p = N_safety_check ∧ ∃ w, found_safe cfg w s spec) ∨
  (p = N_confirmation_gate ∧
   ((∃ info, confirmation_info s spec = Some info ∧ answers info (VStr "approved")) ∨
    (is_str "safety_status" "confirm_required" s = true ∧ on "force_override" s = true))).

Lemma safety_baseline cfg answers w s r :
  check_in cfg w s = Some r → is_str "safety_status" "safe" (update s (mkDelta [] r)) = true →
  ∃ spec owners frozen, state_spec s = Some spec ∧ passes_rules cfg s spec ∧
    freeze_owned spec owners = Some frozen ∧
    get "approved_target" (update s (mkDelta [] r)) = opt_dict frozen ∧
    decided cfg answers N_safety_check s spec.
Proof.
  intros H Hsafe. pose proof (safety_check_wf _ _ _ _ _ _ _ _ _ H) as Hwf.
  apply safety_check_cases in H as (spec & Hs & [[_ Hr] | [Hp H]]).
  { unfold is_str in Hsafe. by rewrite (status_update s r _ Hwf Hr) in Hsafe. }
  destruct H as (kc & a & sc & Hk & Ha & _ & _ & (d & Hd & Hap) & Hst).
  unfold is_str in Hsafe. rewrite (status_update s r _ Hwf Hst) in Hsafe.
  apply String.eqb_eq, escalated_safe in Hsafe as (Hv & Hbr & _).
  apply verdict_safe in Hv as (Hh & Hf & Hkt & Hn).
  destruct (assess_unreported cfg (w_run w) s spec kc a Ha Hkt Hn) as (rq & Hrq & Hc).
  exists spec, (owners_of cfg (w_run w) s spec), d. repeat (split; [done|]). split.
  - by eapply get_update.
  - left. split; [done|]. exists w, kc, rq. repeat (split; [done|]). done.
Qed.

Lemma confirmation_baseline cfg (answers : dict pyval → pyval → Prop) plan a s d spec :
  state_spec s = Some spec → passes_rules cfg s spec →
  (∀ spec info, state_spec s = Some spec → confirmation_info s spec = Some info → answers info a) →
  confirmation_gate plan (λ _, a) s = Some d → cleared (update s d) →
  ∃ owners frozen, freeze_owned spec owners = Some frozen ∧
    get "approved_target" (update s d) = opt_dict frozen ∧
    decided cfg answers N_confirmation_gate s spec.
Proof.
  intros Hs Hp Ha Hg [Hr Hd]. destruct (gate_spec _ _ _ _ Hg Hr Hd) as (Hc & frozen & Hf & Hap).
  unfold _freeze_from_state in Hf. pose proof Hs as Hs'. unfold state_spec in Hs'.
  apply bind_Some in Hs' as (os & Hos & E). injection E as E. rewrite Hos in Hf. cbn [mbind option_bind] in Hf.
  destruct os as [spec'|]; cbn [from_option id] in E; subst spec; [|by destruct Hp as (_ & _ & [])].
  apply bind_Some in Hf as (existing & _ & Hf). apply bind_Some in Hf as (owners & _ & Hf).
  exists (map py_str owners), frozen. repeat (split; [done|]). right. split; [done|].
  destruct Hc as [(spec2 & info & Hs2 & Hi & Happ & _) | Hforce]; [left | by right].
  rewrite Hs in Hs2. injection Hs2 as <-. exists info. split; [done|]. rewrite <- Happ. by eapply Ha.
Qed.

(** C2. Nothing executes undecided: on every run of the inject graph whose
    safety check and confirmation gate behave as written, whatever the other
    nodes, the cluster and the human do, an execution node is reached only
    behind a baseline capture entered for a request that is on no blacklist
    and has a skill and a scope, that was either found safe (kubeconfig, no
    conflicts, no blocking report, no cluster-wide blast radius), approved by
    the human on its card, or forced past a required confirmation, and the
    approval handed to the screener is the frozen specification. *)
Theorem execution_requires_decision rcfg ct vt scfg exc_text resume cfg answers other s0 h n s :
  inject_run rcfg ct vt scfg exc_text resume (gated_effect cfg answers other) s0 h (n, s) →
  n ∈ EXECUTION →
  ∃ h1 s1 p sp h2 spec owners frozen,
    h = h1 ++ (N_baseline_capture, s1) :: (p, sp) :: h2 ∧ on "dry_run" s1 = false ∧
    state_spec sp = Some spec ∧ passes_rules cfg sp spec ∧
    freeze_owned spec owners = Some frozen ∧ get "approved_target" s1 = opt_dict frozen ∧
    decided cfg answers p sp spec.
Proof.
  intros Hr He. destruct (run_gate _ _ _ _ _ _ _ _ _ _ _ Hr) as [Hg _].
  destruct (Hg He) as (h1 & s1 & p & sp & h2 & -> & [Hcl Hp]).
  pose proof (run_adjacent _ _ _ _ _ _ _ _ _ _ _ _ ((n, s) :: h1) _ _ h2 Hr eq_refl) as Hs.
  exists h1, s1, p, sp, h2. destruct Hp as [-> | (-> & Hsafe & _)].
  - destruct (confirmation_entered rcfg ct vt scfg exc_text resume cfg answers other s0 (h1 ++ [(N_baseline_capture, s1)]) sp h2 n s)
      as (spec & Hspec & Hrules); [rewrite <- (assoc_L (++)); exact Hr|].
    apply gate_step_confirmation in Hs as (plan & a & d & Ha & Hd & ->).
    destruct (confirmation_baseline cfg answers plan a sp d spec Hspec Hrules Ha Hd Hcl)
      as (owners & frozen & H1 & H2 & H3).
    exists spec, owners, frozen. destruct Hcl. auto 10.
  - apply gate_step_safety in Hs as (w & r & now & Hc & -> & _).
    destruct (safety_baseline cfg answers w sp r Hc Hsafe) as (spec & owners & frozen & H1 & H2 & H3 & H4 & H5).
    exists spec, owners, frozen. destruct Hcl. auto 10.
Qed.

(** A direct request for the shop, on a quiet cluster. *)
Definition quiet_world : World := mkWorld quiet_run quiet_run healthy unassessed 3 6.

Definition direct_shop : GState := shop_state [("direct", VBool true)].

Definition direct_result : dict pyval := default [] (check_in default_safety quiet_world direct_shop).

Definition checked_shop : GState := update direct_shop (mkDelta [] direct_result).

Definition shop_history : list Config :=
  [(N_se_snapshot, checked_shop); (N_baseline_capture, checked_shop); (N_safety_check, direct_shop);
   (N_direct_setup, direct_shop); (N_load_memory, direct_shop)].

Definition silent (_ : dict pyval) (_ : pyval) : Prop := False.

(** One step of a node that is no gate and leaves the state alone. *)
Ltac free_step :=
  eapply run_step;
  [| eapply (inject_steps _ _ _ _ _ _ _ (S754_zero false));
     [apply runs_other; [discriminate | discriminate |
        apply ge_other; [by apply (bool_decide_unpack _) | reflexivity]]
     | vm_compute; reflexivity]].

Lemma shop_run :
  inject_run default_router true true strict no_text (human_says "no")
    (gated_effect default_safety silent idle_effect) direct_shop shop_history
    (N_direct_execute, checked_shop).
Proof.
  unfold shop_history. do 2 free_step. eapply run_step.
  - do 2 free_step. apply run_start.
  - eapply (inject_steps _ _ _ _ _ _ _ (S754_zero false)).
    + apply runs_other; [discriminate | discriminate |].
      apply (ge_safety_check _ _ _ quiet_world). vm_compute. reflexivity.
    + vm_compute. reflexivity.
Defined.

Lemma execution_requires_decision_witness :
  ∃ h1 s1 p sp h2 spec owners frozen,
    shop_history = h1 ++ (N_baseline_capture, s1) :: (p, sp) :: h2 ∧ on "dry_run" s1 = false ∧
    state_spec sp = Some spec ∧ passes_rules default_safety sp spec ∧
    freeze_owned spec owners = Some frozen ∧ get "approved_target" s1 = opt_dict frozen ∧
    decided default_safety silent p sp spec.
Proof.
  eapply (execution_requires_decision default_router true true strict no_text (human_says "no")
            default_safety silent idle_effect direct_shop shop_history N_direct_execute checked_shop).
  - exact shop_run.
  - rewrite list_elem_of_In. cbn. tauto.
Defined.
