(* ===== verification/Finalize.v ===== *)
(** * The finalisation of a verification (agent/nodes/_verifier_finalize.py)

    [finalize_verification] takes the verdict from the arguments of
    submit_verification or from the last text of the model, compares it with
    the observations, the disk check and the skill case, asks for one more
    round when there are gaps, and otherwise writes the verdict into the
    state.  The conversation is shared by reference in the source: an item of
    a checklist that is overridden is also changed in the message it came
    from, which is not modelled. *)

From stdpp Require Import base list strings sets.
From Stdlib Require Import ZArith Ascii SpecFloat.
From S2P Require Import Prelude PyValue PyFloat PyOps PyText PyRe Json FaultSpec Failure.
From S2P Require Import Screener Router FaultContext Conflict InjectionDetection Layer1 Verdict VerdictParse.

Definition SUBMIT_VERIFICATION_TOOL_NAME : string := "submit_verification".
Definition SUBMIT_RECOVER_VERIFICATION_TOOL_NAME : string := "submit_recover_verification".

(** ** Debug pods *)

Definition _DEBUGGER_RE : pattern := Eval vm_compute in
  get_pattern (compile no_flags "pod\s+(node-debugger-\S+)") ltac:(vm_compute; discriminate).
Definition _DEBUG_POD_RE : pattern := Eval vm_compute in
  get_pattern (compile no_flags "pod[/\s]+(\S+?-debug-\S+)") ltac:(vm_compute; discriminate).
Definition _DEBUG_CREATED_RE : pattern := Eval vm_compute in
  get_pattern (compile no_flags "(\S+-debug-\S+)\s+created") ltac:(vm_compute; discriminate).

Definition first_group (p : pattern) (s : string) : option string := m ← re_search p s; group 1 m.

Definition _parse_debug_pod_name (output : string) : string :=
  match first_group _DEBUGGER_RE output with
  | Some n => rstrip_of ".,;:" n
  | None =>
      match first_group _DEBUG_POD_RE output with
      | Some n => n
      | None => default "" (first_group _DEBUG_CREATED_RE output)
      end
  end.

Definition debug_pod_of (m : Message) : list string :=
  match m with
  | ToolMessage content name _ _ =>
      if String.eqb name "kubectl" then
        let pod := _parse_debug_pod_name content in if truthy pod then [pod] else []
      else []
  | _ => []
  end.

(** The pods to delete, and the update that remembers them. *)
Definition _cleanup_debug_pods (s : GState) (update : dict pyval) : Exc (list string * dict pyval) :=
  cleaned ← py_iter (py_or (get "cleaned_debug_pods" s) (VList []));
  cleaned ← mapM as_str cleaned;
  let to_delete := List.filter (λ p, negb (p ∈? cleaned))
                     (remove_dups (concat (map debug_pod_of (g_messages s)))) in
  Some (to_delete,
        match to_delete with
        | [] => update
        | _ => dict_set "cleaned_debug_pods" (VList (map VStr (sorted_set (cleaned ++ to_delete)))) update
        end).

(** ** The verdict in a tool call *)

Definition _overall_to_level (overall : pyval) : pyval :=
  if one_of overall ["verified"; "partial"; "unverified"] then overall else VStr "unverified".

(** The checklist of a submitted verdict: the dicts of a list. *)
Definition submitted_items (args : dict pyval) : option (list pyval) :=
  match py_or (py_get "checklist" args) (VList []) with
  | VList ((_ :: _) as l) => Some (List.filter is_dict l)
  | _ => None
  end.

Definition primary_warning : string :=
  "Verdict 'verified' is incompatible with PrimaryEvidenceObserved=false. " +:+
  "Downgraded to 'partial'.".
Definition failed_warning : string :=
  "Verdict 'verified' is incompatible with Layer2='failed' (fault effect not observed). " +:+
  "Downgraded to 'unverified'.".

(** A verified level needs primary evidence. *)
Definition need_primary (r : verdict) : Exc verdict :=
  if eqs (py_get "level" r) "verified" && negb (py_truthy (py_get "primary_evidence_observed" r))
  then append_warning primary_warning (dict_set "level" (VStr "partial") r)
  else Some r.

(** A failed second layer is not verified. *)
Definition sync_failed (r : verdict) : Exc verdict :=
  st ← layer2_field "status" VNone r;
  if eqs st "failed" && eqs (py_get "level" r) "verified"
  then append_warning failed_warning (dict_set "level" (VStr "unverified") r)
  else Some r.

Definition submitted_base (args : dict pyval) (warnings : list pyval) : verdict :=
  let overall := get_d "overall" (VStr "unverified") args in
  [("level", _overall_to_level overall);
   ("layer1", VDict [("status", VStr "unknown"); ("details", VStr "")]);
   ("layer2", VDict [("status", get_d "layer2_status" (VStr "unknown") args);
                     ("details", get_d "layer2_details" (VStr "") args)]);
   ("warnings", VList warnings);
   ("overall", overall);
   ("primary_evidence_observed",
    VBool (py_truthy (get_d "primary_evidence_observed" (VBool false) args)));
   ("baseline_used", VBool (py_truthy (get_d "baseline_used" (VBool false) args)))].

(** The checklist of the arguments with its effect on the second layer. *)
Definition submitted_checklist (args : dict pyval) (r : verdict) : Exc verdict :=
  let l2 := get_d "layer2_status" (VStr "unknown") args in
  match submitted_items args with
  | None => Some r
  | Some items =>
      cl ← checklist_dict items;
      let r := dict_set "checklist" cl r in
      if eqs l2 "passed" then note_inconsistency items l2 r else Some r
  end.

Definition _verification_from_submit_args (args : dict pyval) : Exc verdict :=
  warnings ← py_iter (py_or (py_get "warnings" args) (VList []));
  r ← submitted_checklist args (submitted_base args warnings);
  r ← need_primary r;
  r ← sync_failed r;
  sync_partial r.

(** ** Finding the verdict in the conversation *)

(** The messages after the last prompt of this node, if there is one. *)
Definition is_marked (marks : list string) (m : Message) : bool :=
  match m with HumanMessage c => has_any marks c | _ => false end.

(** The arguments of the first call with the name in a message. *)
Definition call_args_of (name : string) (m : Message) : option pyval :=
  (λ tc, or_empty (tc_args tc)) <$>
    List.find (λ tc, String.eqb (tc_name tc) name) (message_calls m).

Fixpoint first_some {A B} (f : A → option B) (l : list A) : option B :=
  match l with
  | [] => None
  | x :: l' => match f x with Some y => Some y | None => first_some f l' end
  end.

Definition extract_args (name : string) (marks : list string) (messages : list Message) : option pyval :=
  first_some (call_args_of name) (rev (after_last (is_marked marks) messages)).

Definition reverify_marks : list string := ["Verification gaps"; "re-verification"].

Definition _extract_submit_args (messages : list Message) : option pyval :=
  extract_args SUBMIT_VERIFICATION_TOOL_NAME reverify_marks messages.

Definition ai_text (m : Message) : option string :=
  match m with
  | AIMessage content _ _ => if py_truthy content then Some (py_str content) else None
  | _ => None
  end.

Definition _last_ai_text (messages : list Message) : string :=
  default "" (first_some ai_text (rev messages)).

(** The verdict and, where it was submitted, the arguments. *)
Definition source_verdict (messages : list Message) : Exc (verdict * dict pyval) :=
  match _extract_submit_args messages with
  | Some a =>
      args ← as_dict a;
      v ← _verification_from_submit_args args;
      Some (v, args)
  | None =>
      let content := _last_ai_text messages in
      j ← _try_parse_json content;
      match j with
      | Some v => Some (v, [])
      | None => v ← _parse_verification_result content; Some (v, [])
      end
  end.

(** ** The disk check overrides the model *)

Definition bad_statuses : list string := ["failed"; "recovered_before_observation"; "partial"].

Definition partition_text (p : pyval) : Exc string :=
  d ← as_dict p;
  name ← dict_get "name" d;
  rate ← dict_get "write_throughput_mb_s" d;
  Some (py_str name +:+ ": ~" +:+ py_str rate +:+ " MB/s").

Definition override_item (parts : string) (item : pyval) : Exc (pyval * bool) :=
  d ← as_dict item;
  if one_of (py_get "status" d) bad_statuses then
    Some (VDict (dict_set "evidence"
            (VStr ("[OVERRIDE] Programmatic I/O check confirmed ACTIVE " +:+
                   "(write throughput: " +:+ parts +:+ "). " +:+
                   "Fault is still in effect — LLM observation was insufficient, " +:+
                   "not evidence of recovery."))
            (dict_set "status" (VStr "passed") d)), true)
  else Some (item, false).

(** [verification.get("checklist", {}).get("items", [])]. *)
Definition checklist_items (v : verdict) : Exc (list pyval) :=
  items ← vget_d "items" (VList []) (get_d "checklist" (VDict []) v); py_iter items.

(** The items are changed in place; a verdict without a checklist has none. *)
Definition store_items (items : list pyval) (v : verdict) : Exc verdict :=
  match dict_get "checklist" v with
  | Some _ => set_in "checklist" "items" (VList items) v
  | None => Some v
  end.

Definition override_layer2 (parts : string) (v : verdict) : Exc verdict :=
  l2 ← layer2_field "status" (VStr "unknown") v;
  if one_of l2 bad_statuses then
    v ← set_in "layer2" "status" (VStr "passed") v;
    v ← set_in "layer2" "details"
          (VStr ("Programmatic I/O check: disk burn ACTIVE " +:+
                 "(write throughput: " +:+ parts +:+ "). LLM conclusion overridden.")) v;
    append_warning
      ("Programmatic override: disk_burn_post_check confirmed I/O ACTIVE " +:+
       "(write throughput: " +:+ parts +:+ "), but LLM concluded " +:+
       (if eqs l2 "failed" then "the fault was absent"
        else if eqs l2 "recovered_before_observation"
        then "the fault effect had already dissipated before observation"
        else "the fault effect was only partially confirmed") +:+
       " (original status: '" +:+ py_str l2 +:+ "').") v
  else
    append_warning
      ("Programmatic override: disk_burn_post_check confirmed I/O ACTIVE " +:+
       "(write throughput: " +:+ parts +:+ ") " +:+
       "(LLM Layer2 concluded '" +:+ py_str l2 +:+ "'; override applied to checklist steps only).") v.

(** The level after an override. *)
Definition override_level (v : verdict) : Exc verdict :=
  items ← checklist_items v;
  if nonempty items then
    bad ← filter_exc (has_status bad_statuses) items;
    l2 ← layer2_field "status" VNone v;
    Some (if eqs l2 "passed"
          then dict_set "level" (VStr (if nonempty bad then "partial" else "verified")) v
          else v)
  else Some v.

Definition burn_parts (b : dict pyval) : Exc string :=
  parts ← as_list (get_d "active_partitions" (VList []) b);
  texts ← mapM partition_text (take 3 parts);
  Some (str_or (join ", " texts) "measured").

(** The verdict after the disk check, and whether it was overridden. *)
Definition enforce_burn (s : GState) (v : verdict) : Exc (verdict * bool) :=
  let burn := get "disk_burn_post_check" s in
  if py_truthy burn then
    b ← as_dict burn;
    if py_truthy (py_get "burn_io_detected" b) then
      parts ← burn_parts b;
      items ← checklist_items v;
      res ← mapM (override_item parts) items;
      if existsb snd res then
        v ← store_items (map fst res) v;
        v ← override_layer2 parts v;
        v ← override_level v;
        Some (v, true)
      else Some (v, false)
    else Some (v, false)
  else Some (v, false).

(** ** Coverage of the skill case *)

(** The candidate of the skill case the model says it followed. *)
Definition chosen_case (args : dict pyval) (skill_case : string) : string :=
  match get_d "chosen_candidate" (VInt 0) args with
  | VInt n =>
      if (0 <? n)%Z then default skill_case (_split_candidates skill_case !! Z.to_nat (n - 1)) else skill_case
  | VBool true => default skill_case (head (_split_candidates skill_case))
  | _ => skill_case
  end.

Record coverage := mkCoverage { c_missing : list Z; c_expected : Z; c_executed : pyval }.

Definition no_coverage : coverage := mkCoverage [] 0 (VInt 0).

(** A verified verdict with a passed second layer becomes partial. *)
Definition downgrade_partial (v : verdict) : Exc verdict :=
  l2 ← dict_get "layer2" v;
  l2 ← as_dict l2;
  st ← dict_get "status" l2;
  if eqs st "passed" then
    v ← set_in "layer2" "status" (VStr "partial") v;
    Some (if eqs (py_get "level" v) "verified" then dict_set "level" (VStr "partial") v else v)
  else Some v.

(** [executed < expected], once there is an expectation. *)
Definition short_of_steps (c : coverage) : Exc bool :=
  if (0 <? c_expected c)%Z then py_lt (c_executed c) (VInt (c_expected c)) else Some false.

Definition py_minus (z : Z) (v : pyval) : Exc pyval :=
  match v with
  | VInt n => Some (VInt (z - n))
  | VBool b => Some (VInt (z - (if b then 1 else 0)))
  | VFloat r => Some (VFloat (float_repr (float_sub (binary_normalize prec emax z 0 false) (float_of_repr r))))
  | _ => Raise
  end.

Definition coverage_of (args : dict pyval) (skill_case : string) (v : verdict) : Exc coverage :=
  let case := chosen_case args skill_case in
  cl ← dict_get "checklist" v;
  executed ← vget_d "total_executed" (VInt 0) cl;
  items ← vget_d "items" (VList []) cl;
  items ← py_iter items;
  '(missing, _) ← _validate_step_number_coverage case items;
  Some (mkCoverage missing (Z.of_nat (_count_verification_steps_in_skill_case case)) executed).

Definition check_coverage (s : GState) (args : dict pyval) (enforced : bool) (v : verdict)
    : Exc (verdict * coverage) :=
  let skill_case := get "skill_case_content" s in
  if py_truthy skill_case && py_truthy (py_get "checklist" v) then
    case ← as_str skill_case;
    c ← coverage_of args case v;
    if nonempty (c_missing c) then
      v ← append_warning
            ("Step coverage: steps " +:+ join ", " (map str_of_Z (c_missing c)) +:+ " from skill case " +:+
             "are missing from the verification checklist. " +:+
             "Verification may be incomplete.") v;
      v ← (if enforced then Some v else downgrade_partial v);
      Some (v, c)
    else
      short ← short_of_steps c;
      if (short : bool) then
        missing ← py_minus (c_expected c) (c_executed c);
        v ← append_warning
              ("Step coverage: " +:+ py_str (c_executed c) +:+ "/" +:+ str_of_Z (c_expected c) +:+
               " steps executed. " +:+
               py_str missing +:+ " step(s) never attempted. Verification may be incomplete.") v;
        v ← (if enforced then Some v else downgrade_partial v);
        Some (v, c)
      else Some (v, c)
  else Some (v, no_coverage).

(** A warning when the experiment reached fewer resources than were named. *)
Definition coverage_warning (affected : Z) (names : nat) (v : verdict) : Exc verdict :=
  if (0 <? affected)%Z && (affected <? Z.of_nat names)%Z then
    let w := "Coverage: " +:+ str_of_Z affected +:+ "/" +:+ str_of_nat names +:+
             " target resources " +:+ "affected by ChaosBlade experiment." in
    let warnings := get_d "warnings" (VList []) v in
    present ← py_in w warnings;
    if (present : bool) then Some v
    else l ← as_list warnings; Some (dict_set "warnings" (VList (l ++ [VStr w])) v)
  else Some v.

(** ** Gaps *)

Inductive gap :=
  | StepGap (description : string) (missing : list Z)
  | Layer1Contradiction
  | Layer2Layer1Conflict
  | BaselineUsedCheck
  | PrimaryEvidenceConsistency.

Definition gap_type (g : gap) : string :=
  match g with
  | StepGap _ _ => "step_gap"
  | Layer1Contradiction => "layer1_contradiction"
  | Layer2Layer1Conflict => "layer2_layer1_conflict"
  | BaselineUsedCheck => "baseline_used_check"
  | PrimaryEvidenceConsistency => "primary_evidence_consistency"
  end.

Definition gap_instruction (g : gap) : string :=
  match g with
  | StepGap _ missing =>
      "- STEP GAP: Skill case steps [" +:+
      (match missing with [] => "unknown" | _ => join ", " (map str_of_Z missing) end) +:+
      "] are missing from your " +:+ "checklist. Add each missing step with status and evidence."
  | Layer1Contradiction =>
      "- LAYER1 CONTRADICTION: blade reports Success but 0 resources " +:+
      "affected. Explain consistency with your Layer2 conclusion."
  | Layer2Layer1Conflict =>
      "- LAYER2/LAYER1 CONFLICT: Layer2=passed but container restarts " +:+
      "detected. Reconcile: fault evidence, or destroyed primary evidence?"
  | BaselineUsedCheck =>
      "- BASELINE NOT USED: Include " +:+ dquote +:+ "baseline: X → current: Y (ΔZ)" +:+ dquote +:+ " " +:+
      "comparisons and set BaselineUsed: true."
  | PrimaryEvidenceConsistency =>
      "- EVIDENCE/CONCLUSION CONFLICT: PrimaryEvidenceObserved=false but " +:+
      "Overall=verified. Use 'partial' or 'unverified'."
  end.

Definition step_gaps (enforced : bool) (c : coverage) : Exc (list gap) :=
  if enforced then Some []
  else if nonempty (c_missing c) then
    Some [StepGap ("Steps " +:+ py_repr (VList (map VInt (c_missing c))) +:+
                   " from skill case missing from checklist") (c_missing c)]
  else
    short ← short_of_steps c;
    if (short : bool) then
      missing ← py_minus (c_expected c) (c_executed c);
      Some [StepGap (py_str (c_executed c) +:+ "/" +:+ str_of_Z (c_expected c) +:+
                     " steps executed, " +:+ py_str missing +:+ " missing") []]
    else Some [].

Definition baseline_available (s : GState) : Exc bool :=
  let b := get "baseline_data" s in
  if py_truthy b then d ← as_dict b; py_gt (get_d "success_count" (VInt 0) d) (VInt 0)
  else Some false.

Definition find_gaps (s : GState) (layer1 : Layer1Result) (enforced : bool) (c : coverage) (v : verdict)
    : Exc (list gap) :=
  steps ← step_gaps enforced c;
  l2 ← layer2_field "status" (VStr "unknown") v;
  restarts ← vget_d "container_restarts" (VBool false) (or_empty (py_get "side_effects" v));
  baseline ← baseline_available s;
  Some (steps ++
    (if bool_decide (l1_status layer1 = L1_PASSED) && (l1_affected_count layer1 =? 0)%Z
     then [Layer1Contradiction] else []) ++
    (if eqs l2 "passed" && py_truthy restarts then [Layer2Layer1Conflict] else []) ++
    (if baseline && negb (py_truthy (get_d "baseline_used" (VBool false) v))
     then [BaselineUsedCheck] else []) ++
    (if negb (py_truthy (get_d "primary_evidence_observed" (VBool false) v)) &&
        eqs (get_d "overall" (VStr "") v) "verified"
     then [PrimaryEvidenceConsistency] else [])).

(** [x + 1]. *)
Definition py_succ (v : pyval) : Exc pyval :=
  match v with
  | VInt n => Some (VInt (n + 1))
  | VBool b => Some (VInt (if b then 2 else 1))
  | VFloat r => Some (VFloat (float_repr (SFadd prec emax (float_of_repr r) (binary_normalize prec emax 1 0 false))))
  | _ => Raise
  end.

Definition max_reverify_attempts (s : GState) : Exc pyval :=
  spec ← read_fault_spec (g_values s);
  let part f := match spec with Some x => f x | None => "" end in
  let meta := default [] (as_dict (or_empty (get "target_metadata" s))) in
  Some match lookup_adaptations (part s_scope) (part s_blade_target) (part s_blade_action) meta
               (Some "verification_integrity_guard") with
       | r :: _ => get_d "max_reverify_attempts" (VInt 1) (a_action r)
       | [] => VInt 1
       end.

Definition reverify_message (gaps : list gap) : string :=
  "Verification gaps detected:" +:+ newline +:+ join newline (map gap_instruction gaps) +:+
  newline +:+ newline +:+
  "Re-attempt verification and call submit_verification again with ALL " +:+ "gaps addressed.".

(** ** The verdict that is written *)

Definition with_baseline (s : GState) (v : verdict) : Exc verdict :=
  v ← (if dict_mem "baseline_confidence" v then Some v
       else c ← _compute_baseline_confidence s; Some (dict_set "baseline_confidence" (VStr c) v));
  let conf := get_d "baseline_confidence" (VStr "none") v in
  let used := py_get "baseline_used" v in
  if one_of conf ["high"; "partial"] && negb (py_truthy used) then
    append_warning
      ("Programmatic override: BaselineUsed forced to true — pre-injection " +:+
       "baseline was available (confidence=" +:+ py_str conf +:+ ") but LLM declared " +:+
       "BaselineUsed=" +:+ py_str used +:+ ".") (dict_set "baseline_used" (VBool true) v)
  else Some v.

Definition get_or_empty (k : string) (s : GState) : pyval := get_d k (VStr "") (g_values s).

Definition summary_of (v : verdict) : Exc (option string) :=
  details ← layer2_field "details" (VStr "") v;
  st ← layer2_field "status" (VStr "unknown") v;
  Some (if py_truthy details
        then Some ("Layer2=" +:+ py_str st +:+ ", " +:+ "Details=" +:+ py_str details) else None).

(** The status line joins the warnings, which must be texts. *)
Definition warnings_are_text (v : verdict) : Exc unit :=
  let w := get_d "warnings" (VList []) v in
  if py_truthy w then l ← py_iter w; _ ← join_vals "; " l; Some () else Some ().

Section finalize.
Context {M : Layer1Model} (cfg : RouterSettings) (now : spec_float).

Definition _restore_layer1_from_state (s : GState) : Exc Layer1Result :=
  let cache := or_empty (get "inject_layer1_cache" s) in
  if py_truthy cache then d ← as_dict cache; model_validate d else Some layer1_default.

(** The update that ends the verification, and the pods that are deleted. *)
Definition write_verdict (s : GState) (update : dict pyval) (v : verdict)
    : Exc (list string * dict pyval) :=
  v ← with_baseline s v;
  level ← dict_get "level" v;
  summary ← summary_of v;
  _ ← warnings_are_text v;
  let result := VDict [("task_id", get_or_empty "task_id" s); ("skill", get_or_empty "skill_name" s);
                       ("blade_uid", get_or_empty "blade_uid" s);
                       ("verified", VBool (eqs level "verified"))] in
  let update := dict_set "verification" (VDict v) (dict_set "result" result update) in
  let update := match summary with
                | Some t => dict_set "inject_verification_summary" (VStr t) update
                | None => update
                end in
  '(pods, update) ← _cleanup_debug_pods s update;
  update ← mark_wall_clock_timeout cfg now s update;
  Some (pods, update).

(** What the node does: one more round, or the verdict with the pods to
    delete. *)
Inductive finalized := Reverify (d : Delta) | Verdict_ (pods : list string) (d : Delta).

Definition cleared_gaps (s : GState) : dict pyval :=
  if on "reverify_gaps" s then [("reverify_gaps", VNone)] else [].

(** The verdict of the conversation after all checks. *)
Definition checked_verdict (s : GState) (layer1 : Layer1Result) : Exc (verdict * bool * coverage) :=
  '(v, args) ← source_verdict (g_messages s);
  v ← cross_check_evidence v (get "metric_observations" s);
  let v := dict_set "layer1" (VDict (_layer1_to_dict layer1)) v in
  '(v, enforced) ← enforce_burn s v;
  '(v, c) ← check_coverage s args enforced v;
  spec ← read_fault_spec (g_values s);
  v ← coverage_warning (l1_affected_count layer1)
        (length (match spec with Some x => s_names x | None => [] end)) v;
  Some (v, enforced, c).

Definition finalize_verification (s : GState) : Exc finalized :=
  layer1 ← _restore_layer1_from_state s;
  '(v, enforced, c) ← checked_verdict s layer1;
  gaps ← find_gaps s layer1 enforced c v;
  let count := get_d "reverify_count" (VInt 0) (g_values s) in
  again ← (match gaps with
           | [] => Some false
           | _ => limit ← max_reverify_attempts s; py_lt count limit
           end);
  if (again : bool) then
    count' ← py_succ count;
    Some (Reverify (mkDelta [HumanMessage (reverify_message gaps)]
      [("reverify_gaps", VList (map (λ g, VStr (gap_type g)) gaps)); ("reverify_count", count')]))
  else
    '(pods, update) ← write_verdict s (cleared_gaps s) v;
    Some (Verdict_ pods (mkDelta [] update)).
End finalize.

(** ** What a submitted verdict may claim *)

Lemma need_primary_verified r r' :
  need_primary r = Some r' → level_of r' = VStr "verified" →
  r' = r ∧ py_truthy (py_get "primary_evidence_observed" r) = true.
Proof.
  unfold need_primary, level_of. intros H Hv.
  destruct (eqs (py_get "level" r) "verified") eqn:E; simpl in H.
  - destruct (py_truthy (py_get "primary_evidence_observed" r)) eqn:Ep; simpl in H; [by injection H as ->|].
    rewrite (py_get_eq _ _ _ (append_warning_other _ _ _ "level" H ltac:(done))), py_get_set in Hv. done.
  - injection H as ->. by rewrite Hv in E.
Qed.

Lemma sync_failed_verified r r' :
  sync_failed r = Some r' → level_of r' = VStr "verified" →
  r' = r ∧ layer2_field "status" VNone r ≠ Some (VStr "failed").
Proof.
  unfold sync_failed, level_of. intros (st & Hst & H)%bind_Some Hv.
  destruct (eqs st "failed") eqn:E; simpl in H.
  - destruct (eqs (py_get "level" r) "verified") eqn:El; [|injection H as ->; by rewrite Hv in El].
    rewrite (py_get_eq _ _ _ (append_warning_other _ _ _ "level" H ltac:(done))), py_get_set in Hv. done.
  - injection H as ->. split; [done|]. rewrite Hst. intros [= ->]. done.
Qed.

Lemma layer2_field_eq k dflt r r' :
  dict_get "layer2" r' = dict_get "layer2" r → layer2_field k dflt r' = layer2_field k dflt r.
Proof. unfold layer2_field, get_d. by intros ->. Qed.

(** The comparison of checklist and conclusion leaves the status of the
    second layer or makes it partial. *)
Lemma note_inconsistency_status items l2 r r' :
  note_inconsistency items l2 r = Some r' →
  layer2_field "status" VNone r' = layer2_field "status" VNone r ∨
  layer2_field "status" VNone r' = Some (VStr "partial").
Proof.
  unfold note_inconsistency. intros (ev & _ & ([w dg] & _ & H)%bind_Some)%bind_Some.
  destruct w as [w|]; [|injection H as ->; by left].
  apply bind_Some in H as (r1 & H1 & H2).
  pose proof (append_warning_other _ _ _ "layer2" H1 ltac:(done)) as E1.
  destruct dg; [right | left; injection H2 as <-; by apply layer2_field_eq].
  apply set_in_get in H2 as (i & _ & Hi). unfold layer2_field, get_d. rewrite Hi. simpl.
  unfold vget_d. simpl. unfold get_d. by rewrite dict_get_set, String.eqb_refl.
Qed.

Lemma submitted_checklist_other args r r' k :
  submitted_checklist args r = Some r' → k ∉ ["checklist"; "warnings"; "layer2"] →
  dict_get k r' = dict_get k r.
Proof.
  unfold submitted_checklist. intros H Hk.
  destruct (submitted_items args) as [items|]; [|by injection H as ->].
  apply bind_Some in H as (cl & _ & H).
  assert (E : dict_get k (dict_set "checklist" cl r) = dict_get k r).
  { by rewrite dict_get_set_ne by set_solver. }
  rewrite <- E. case_if_in H; [|by injection H as ->].
  eapply note_inconsistency_other; [done | set_solver..].
Qed.

Lemma submitted_checklist_status args r r' :
  submitted_checklist args r = Some r' →
  layer2_field "status" VNone r' = layer2_field "status" VNone r ∨
  layer2_field "status" VNone r' = Some (VStr "partial").
Proof.
  unfold submitted_checklist. intros H.
  destruct (submitted_items args) as [items|]; [|injection H as ->; by left].
  apply bind_Some in H as (cl & _ & H).
  assert (E : layer2_field "status" VNone (dict_set "checklist" cl r) = layer2_field "status" VNone r)
    by (apply layer2_field_eq; by rewrite dict_get_set).
  rewrite <- E. case_if_in H; [by eapply note_inconsistency_status | injection H as ->; by left].
Qed.

Definition submitted_l2 (args : dict pyval) : pyval := get_d "layer2_status" (VStr "unknown") args.
Definition submitted_overall (args : dict pyval) : pyval := get_d "overall" (VStr "unverified") args.

(** A submitted verdict that is verified: the model said so, saw primary
    evidence, and its second layer neither failed nor was partial. *)
Definition evidence_claimed (args : dict pyval) : Prop :=
  submitted_overall args = VStr "verified" ∧
  py_truthy (get_d "primary_evidence_observed" (VBool false) args) = true ∧
  submitted_l2 args ≠ VStr "failed" ∧ submitted_l2 args ≠ VStr "partial".

Lemma submit_verified args r :
  _verification_from_submit_args args = Some r → level_of r = VStr "verified" → evidence_claimed args.
Proof.
  unfold _verification_from_submit_args. intros (ws & _ & H)%bind_Some Hv.
  apply bind_Some in H as (r1 & H1 & H). apply bind_Some in H as (r2 & H2 & H).
  apply bind_Some in H as (r3 & H3 & H4).
  apply sync_partial_verified in H4 as [-> Hpart]; [|done].
  apply sync_failed_verified in H3 as [-> Hfail]; [|done].
  apply need_primary_verified in H2 as [-> Hprim]; [|done].
  assert (Hlv : level_of r1 = _overall_to_level (submitted_overall args)).
  { unfold level_of. by rewrite (py_get_eq _ _ _ (submitted_checklist_other _ _ _ "level" H1 ltac:(set_solver))). }
  assert (Hpr : py_get "primary_evidence_observed" r1 =
    VBool (py_truthy (get_d "primary_evidence_observed" (VBool false) args))).
  { by rewrite (py_get_eq _ _ _ (submitted_checklist_other _ _ _ "primary_evidence_observed" H1 ltac:(set_solver))). }
  assert (Hst : layer2_field "status" VNone r1 = Some (submitted_l2 args)).
  { by destruct (submitted_checklist_status _ _ _ H1) as [-> | E]. }
  rewrite Hst in Hpart, Hfail. rewrite Hpr in Hprim. rewrite Hlv in Hv.
  unfold evidence_claimed. split.
  - unfold _overall_to_level in Hv. case_if_in Hv; [done | discriminate].
  - split; [exact Hprim|]. split; congruence.
Qed.

(** ** The later checks do not raise the level *)

Lemma downgrade_partial_verified v v' :
  downgrade_partial v = Some v' → level_of v' = VStr "verified" → level_of v = VStr "verified".
Proof.
  unfold downgrade_partial, level_of. intros (l & _ & (l2 & _ & (st & _ & H)%bind_Some)%bind_Some)%bind_Some Hv.
  case_if_in H; [|congruence]. apply bind_Some in H as (v1 & H1 & [= <-]).
  rewrite <- (py_get_eq _ _ _ (set_in_other _ _ _ _ _ "level" H1 ltac:(done))).
  case_if_in Hv; [|done]. by rewrite py_get_set in Hv.
Qed.

(** An incomplete checklist: warned about, and downgraded unless overridden. *)
Lemma incomplete_verified (enforced : bool) w v v1 v' :
  append_warning w v = Some v1 → (if enforced then Some v1 else downgrade_partial v1) = Some v' →
  level_of v' = VStr "verified" → level_of v = VStr "verified".
Proof.
  intros H1 H2 Hv. unfold level_of.
  rewrite <- (py_get_eq _ _ _ (append_warning_other _ _ _ "level" H1 ltac:(done))).
  destruct enforced; [by injection H2 as <- | by eapply downgrade_partial_verified].
Qed.

Lemma check_coverage_verified s args enforced v v' c :
  check_coverage s args enforced v = Some (v', c) → level_of v' = VStr "verified" →
  level_of v = VStr "verified".
Proof.
  unfold check_coverage. intros H Hv. case_if_in H; [|by injection H as <- _].
  apply bind_Some in H as (case & _ & H). apply bind_Some in H as (c0 & _ & H). case_if_in H.
  - apply bind_Some in H as (v1 & H1 & H). apply bind_Some in H as (v2 & H2 & [= <- _]).
    by eapply incomplete_verified.
  - apply bind_Some in H as (sh & _ & H). destruct sh; [|by injection H as <- _].
    apply bind_Some in H as (m & _ & H). apply bind_Some in H as (v1 & H1 & H).
    apply bind_Some in H as (v2 & H2 & [= <- _]). by eapply incomplete_verified.
Qed.

Lemma coverage_warning_other n m v v' k :
  coverage_warning n m v = Some v' → k ≠ "warnings" → dict_get k v' = dict_get k v.
Proof.
  unfold coverage_warning. intros H Hk. case_if_in H; [|congruence].
  apply bind_Some in H as (b & _ & H). destruct b; [congruence|].
  apply bind_Some in H as (l & _ & [= <-]). by rewrite dict_get_set_ne by done.
Qed.

Lemma with_baseline_other s v v' k :
  with_baseline s v = Some v' → k ∉ ["baseline_confidence"; "baseline_used"; "warnings"] →
  dict_get k v' = dict_get k v.
Proof.
  unfold with_baseline. intros (v1 & H1 & H)%bind_Some Hk.
  assert (E : dict_get k v1 = dict_get k v).
  { case_if_in H1; [congruence|]. apply bind_Some in H1 as (c & _ & [= <-]). by rewrite dict_get_set_ne by set_solver. }
  rewrite <- E. case_if_in H; [|congruence].
  rewrite (append_warning_other _ _ _ k H) by set_solver. by rewrite dict_get_set_ne by set_solver.
Qed.

(** The disk check either leaves the verdict or saw the fault itself. *)
Definition disk_io_confirmed (s : GState) : Prop :=
  ∃ b, get "disk_burn_post_check" s = VDict b ∧ py_truthy (py_get "burn_io_detected" b) = true.

Lemma enforce_burn_cases s v v' enforced :
  enforce_burn s v = Some (v', enforced) →
  (enforced = false ∧ v' = v) ∨ (enforced = true ∧ disk_io_confirmed s).
Proof.
  unfold enforce_burn. intros H. case_if_in H; [|injection H as <- <-; by left].
  apply bind_Some in H as (b & Hb & H). case_if_in H; [|injection H as <- <-; by left].
  apply bind_Some in H as (p & _ & H). apply bind_Some in H as (items & _ & H).
  apply bind_Some in H as (res & _ & H). case_if_in H; [|injection H as <- <-; by left].
  apply bind_Some in H as (v1 & _ & H). apply bind_Some in H as (v2 & _ & H).
  apply bind_Some in H as (v3 & _ & [= <- <-]). right. split; [done|]. exists b.
  split; [|done]. destruct (get _ s); try discriminate. by injection Hb as ->.
Qed.

Lemma checked_verified s layer1 v enforced c :
  checked_verdict s layer1 = Some (v, enforced, c) → level_of v = VStr "verified" →
  disk_io_confirmed s ∨
  ∃ v0 args, source_verdict (g_messages s) = Some (v0, args) ∧ level_of v0 = VStr "verified".
Proof.
  unfold checked_verdict. intros ([v0 args] & H0 & H)%bind_Some Hv.
  apply bind_Some in H as (v1 & H1 & H). apply bind_Some in H as ([v2 e] & H2 & H).
  apply bind_Some in H as ([v3 c3] & H3 & H). apply bind_Some in H as (spec & _ & H).
  apply bind_Some in H as (v4 & H4 & [= <- <- <-]).
  unfold level_of in Hv. rewrite (py_get_eq _ _ _ (coverage_warning_other _ _ _ _ "level" H4 ltac:(done))) in Hv.
  apply (check_coverage_verified _ _ _ _ _ _ H3) in Hv.
  apply enforce_burn_cases in H2 as [[_ ->]|[_ ?]]; [|by left]. right. exists v0, args. split; [done|].
  assert (E : level_of (dict_set "layer1" (VDict (_layer1_to_dict layer1)) v1) = level_of v1)
    by (unfold level_of; by rewrite py_get_set).
  destruct (cross_check_level _ _ _ H1) as [E1|[? _]]; congruence.
Qed.

(** The verification an update writes. *)
Definition written_verdict (update : dict pyval) : option verdict :=
  match py_get "verification" update with VDict v => Some v | _ => None end.

Lemma mark_timeout_other cfg now s u u' k :
  mark_wall_clock_timeout cfg now s u = Some u' → k ≠ "error" → k ≠ "failure_detail" →
  dict_get k u' = dict_get k u.
Proof.
  unfold mark_wall_clock_timeout. intros (e & _ & H)%bind_Some He Hf.
  destruct e; simpl in H; [|congruence].
  assert (E : ∀ b : bool, dict_get k (if b then u else dict_set "error"
    (VStr ("wall-clock timeout (" +:+ str_of_Z (max_inject_seconds cfg) +:+ "s)")) u) = dict_get k u).
  { intros []; [done|]. by rewrite dict_get_set_ne by done. }
  case_if_in H; injection H as <-; [apply E|]. case_if; [apply E|].
  rewrite dict_get_set, (proj2 (String.eqb_neq k _) Hf). apply E.
Qed.

Lemma cleanup_other s u pods u' k :
  _cleanup_debug_pods s u = Some (pods, u') → k ≠ "cleaned_debug_pods" → dict_get k u' = dict_get k u.
Proof.
  unfold _cleanup_debug_pods. intros (c & _ & (cs & _ & [= <- <-])%bind_Some)%bind_Some Hk.
  destruct (List.filter _ _); [done|]. by rewrite dict_get_set_ne by done.
Qed.

Lemma write_verdict_written cfg now s u v pods u' :
  write_verdict cfg now s u v = Some (pods, u') →
  ∃ v', with_baseline s v = Some v' ∧ dict_get "verification" u' = Some (VDict v') ∧
    dict_get "result" u' = Some (VDict
      [("task_id", get_or_empty "task_id" s); ("skill", get_or_empty "skill_name" s);
       ("blade_uid", get_or_empty "blade_uid" s); ("verified", VBool (eqs (level_of v') "verified"))]).
Proof.
  unfold write_verdict. intros (v' & Hb & H)%bind_Some.
  apply bind_Some in H as (level & Hl & H). apply bind_Some in H as (summary & _ & H).
  apply bind_Some in H as (? & _ & H). cbv zeta in H. apply bind_Some in H as ([p u1] & H1 & H).
  apply bind_Some in H as (u2 & H2 & [= <- <-]). exists v'. split; [done|].
  assert (El : level_of v' = level) by (unfold level_of, py_get; by rewrite Hl).
  rewrite El.
  assert (E : ∀ k, k ∉ ["error"; "failure_detail"; "cleaned_debug_pods"; "inject_verification_summary"] →
    dict_get k u2 = dict_get k (dict_set "verification" (VDict v')
      (dict_set "result" (VDict [("task_id", get_or_empty "task_id" s); ("skill", get_or_empty "skill_name" s);
       ("blade_uid", get_or_empty "blade_uid" s); ("verified", VBool (eqs level "verified"))]) u))).
  { intros k Hk. rewrite (mark_timeout_other _ _ _ _ _ k H2), (cleanup_other _ _ _ _ k H1) by set_solver.
    destruct summary; [|done]. by rewrite dict_get_set_ne by set_solver. }
  rewrite !E by set_solver. split; by rewrite !dict_get_set.
Qed.

(** ** The verdict of the node *)

Section node_props.
Context {M : Layer1Model} (cfg : RouterSettings) (now : spec_float).

Lemma finalize_verdict_inv s pods d :
  finalize_verification cfg now s = Some (Verdict_ pods d) →
  ∃ layer1 v enforced c gaps v', _restore_layer1_from_state s = Some layer1 ∧
    checked_verdict s layer1 = Some (v, enforced, c) ∧ find_gaps s layer1 enforced c v = Some gaps ∧
    with_baseline s v = Some v' ∧ dict_get "verification" (dl_values d) = Some (VDict v') ∧
    dict_get "result" (dl_values d) = Some (VDict
      [("task_id", get_or_empty "task_id" s); ("skill", get_or_empty "skill_name" s);
       ("blade_uid", get_or_empty "blade_uid" s); ("verified", VBool (eqs (level_of v') "verified"))]).
Proof.
  unfold finalize_verification. intros (layer1 & Hl & H)%bind_Some.
  apply bind_Some in H as ([[v enforced] c] & Hc & H). apply bind_Some in H as (gaps & Hg & H).
  cbv zeta in H. apply bind_Some in H as (again & _ & H). destruct again.
  { by apply bind_Some in H as (n & _ & [=]). }
  apply bind_Some in H as ([p u] & Hw & [= <- <-]).
  apply write_verdict_written in Hw as (v' & Hb & Hv & Hr).
  exists layer1, v, enforced, c, gaps, v'. by repeat split.
Qed.

(** C24. A verification ends as verified only with evidence: when the model
    submitted its verdict, the written verdict is verified only if the
    submission says so, declares that primary evidence was observed and does
    not report a second layer that failed or is partial, or if the disk check
    saw the fault itself; and the result of the task says verified exactly
    when the verdict does. *)
Theorem verified_needs_evidence s pods d args :
  finalize_verification cfg now s = Some (Verdict_ pods d) →
  _extract_submit_args (g_messages s) = Some (VDict args) →
  ∃ v res, dict_get "verification" (dl_values d) = Some (VDict v) ∧
    dict_get "result" (dl_values d) = Some (VDict res) ∧
    (py_get "verified" res = VBool true ↔ level_of v = VStr "verified") ∧
    (level_of v = VStr "verified" → disk_io_confirmed s ∨ evidence_claimed args).
Proof.
  intros (layer1 & v & e & c & g & v' & _ & Hc & _ & Hb & Hv & Hr)%finalize_verdict_inv Ha.
  eexists v', _. split; [done|]. split; [done|]. split.
  - cbn. rewrite <- eqs_true. split; [by intros [= ->] | by intros ->].
  - intros Hlv.
    assert (E : level_of v' = level_of v)
      by (apply py_get_eq; eapply with_baseline_other; [done | set_solver]).
    rewrite E in Hlv. destruct (checked_verified _ _ _ _ _ Hc Hlv) as [?|(v0 & a0 & Hs & H0)]; [by left|].
    right. unfold source_verdict in Hs. rewrite Ha in Hs. simpl in Hs.
    apply bind_Some in Hs as (r & Hr' & [= -> ->]). by eapply submit_verified.
Qed.

(** ** At most one more round *)

Definition reverify_count (s : GState) : pyval := get_d "reverify_count" (VInt 0) (g_values s).

(** The rule that limits the rounds is always on and allows one. *)
Lemma max_reverify_one s limit : max_reverify_attempts s = Some limit → limit = VInt 1.
Proof.
  unfold max_reverify_attempts. by intros (spec & _ & [= <-])%bind_Some.
Qed.

Lemma reverify_counts s d n :
  finalize_verification cfg now s = Some (Reverify d) → reverify_count s = VInt n →
  (n < 1)%Z ∧ dict_get "reverify_count" (dl_values d) = Some (VInt (n + 1)).
Proof.
  unfold finalize_verification. intros (layer1 & _ & H)%bind_Some Hn.
  apply bind_Some in H as ([[v enforced] c] & _ & H). apply bind_Some in H as (gaps & _ & H).
  cbv zeta in H. apply bind_Some in H as (again & Ha & H).
  unfold reverify_count in Hn. rewrite Hn in *. destruct again.
  - apply bind_Some in H as (n' & [= <-] & [= <-]). split; [|done].
    destruct gaps; [discriminate|]. apply bind_Some in Ha as (limit & Hl%max_reverify_one & Ha).
    subst limit. rewrite py_lt_int in Ha. injection Ha as Ha. by apply Z.ltb_lt.
  - by apply bind_Some in H as ([p u] & _ & [=]).
Qed.

(** The rounds of a verification: the node asks for another round [n] times
    before it ends; in between, the other nodes may change everything but the
    counter. *)
Inductive verification_rounds : GState → nat → Prop :=
  | rounds_end s pods d :
      finalize_verification cfg now s = Some (Verdict_ pods d) → verification_rounds s 0
  | rounds_more s d s' n :
      finalize_verification cfg now s = Some (Reverify d) →
      reverify_count s' = py_get "reverify_count" (dl_values d) →
      verification_rounds s' n → verification_rounds s (S n).

(** C26. A verification is repeated at most once: from a state whose counter
    is not negative, whatever the model and the other nodes do to the rest of
    the state, the node asks for at most one more round. *)
Theorem reverify_at_most_once s n k :
  verification_rounds s n → reverify_count s = VInt k → (0 <= k)%Z → (n ≤ 1)%nat.
Proof.
  intros H. revert k. induction H as [s pods d H|s d s' n H Hc Hr IH]; intros k Hk H0; [lia|].
  destruct (reverify_counts _ _ _ H Hk) as [Hlt Hd].
  assert (Hk' : reverify_count s' = VInt (k + 1)) by (rewrite Hc; unfold py_get; by rewrite Hd).
  inversion Hr as [|? d2 s2 m H2]; subst; [lia|].
  destruct (reverify_counts _ _ _ H2 Hk') as [Hlt2 _]. lia.
Qed.

(** A written verdict is not empty. *)
Lemma with_baseline_nonempty s v v' : with_baseline s v = Some v' → v' ≠ [].
Proof.
  unfold with_baseline. intros (v1 & H1 & H)%bind_Some.
  assert (Hs : is_Some (dict_get "baseline_confidence" v1)).
  { case_if_in H1.
    - injection H1 as <-. unfold dict_mem in Heqb. destruct (dict_get _ v); [eauto | done].
    - apply bind_Some in H1 as (cc & _ & [= <-]). rewrite dict_get_set. simpl. eauto. }
  assert (Hx : is_Some (dict_get "baseline_confidence" v')).
  { case_if_in H; [|by injection H as <-].
    rewrite (append_warning_other _ _ _ _ H) by done. rewrite dict_get_set. simpl. done. }
  intros ->. by destruct Hx.
Qed.

Lemma write_verdict_wf s u v pods u' :
  write_verdict cfg now s u v = Some (pods, u') → dict_wf u → dict_wf u'.
Proof.
  unfold write_verdict. intros (v' & _ & H)%bind_Some Hu.
  apply bind_Some in H as (level & _ & H). apply bind_Some in H as (summary & _ & H).
  apply bind_Some in H as (? & _ & H). cbv zeta in H. apply bind_Some in H as ([p u1] & H1 & H).
  apply bind_Some in H as (u2 & H2 & [= <- <-]).
  assert (W1 : dict_wf u1).
  { unfold _cleanup_debug_pods in H1. apply bind_Some in H1 as (c & _ & H1).
    apply bind_Some in H1 as (cs & _ & [= <- <-]).
    destruct (List.filter _ _); destruct summary; repeat apply dict_set_wf; done. }
  unfold mark_wall_clock_timeout in H2. apply bind_Some in H2 as (e & _ & H2).
  destruct e; simpl in H2; [|by injection H2 as <-].
  case_if_in H2; injection H2 as <-; repeat case_if; repeat apply dict_set_wf; done.
Qed.

(** The edge after the node: a verdict leaves the loop. *)
Lemma verdict_leaves_loop s pods d :
  finalize_verification cfg now s = Some (Verdict_ pods d) →
  route_after_finalize (mkState (g_messages s ++ dl_messages d) (dict_update (g_values s) (dl_values d)))
    = "se_detect".
Proof.
  intros H. pose proof H as Hi.
  apply finalize_verdict_inv in Hi as (layer1 & v & e & c & g & v' & _ & Hc & _ & Hb & Hv & Hr).
  assert (Hwf : dict_wf (dl_values d)).
  { unfold finalize_verification in H. apply bind_Some in H as (l1 & _ & H).
    apply bind_Some in H as ([[? ?] ?] & _ & H). apply bind_Some in H as (gaps & _ & H).
    cbv zeta in H. apply bind_Some in H as (again & _ & H). destruct again.
    { by apply bind_Some in H as (n & _ & [=]). }
    apply bind_Some in H as ([p u] & Hw & [= <- <-]). cbn. eapply write_verdict_wf; [done|].
    unfold cleared_gaps. case_if; [apply NoDup_singleton | apply NoDup_nil_2]. }
  unfold route_after_finalize, on, get, py_get. cbn [g_values].
  rewrite dict_get_update by done. rewrite Hv. cbn.
  pose proof (with_baseline_nonempty _ _ _ Hb). by destruct v'.
Qed.
End node_props.

(** ** The two structured forms agree

    A verdict can be submitted by a tool call or written as JSON.  [sb] is
    what the model says in either form. *)

Record submission := mkSubmission {
  sb_l2 : string; sb_overall : string; sb_details : string;
  sb_items : list (dict pyval); sb_warnings : list pyval }.

Definition as_args (sb : submission) (primary baseline : bool) : dict pyval :=
  [("checklist", VList (map VDict (sb_items sb))); ("layer2_status", VStr (sb_l2 sb));
   ("overall", VStr (sb_overall sb)); ("layer2_details", VStr (sb_details sb));
   ("warnings", VList (sb_warnings sb)); ("primary_evidence_observed", VBool primary);
   ("baseline_used", VBool baseline)].

Definition as_json (sb : submission) : dict pyval :=
  [("layer2", VStr (sb_l2 sb)); ("overall", VStr (sb_overall sb));
   ("layer2_details", VStr (sb_details sb)); ("warnings", VList (sb_warnings sb));
   ("verification_checklist", VList (map VDict (sb_items sb)))].

Definition verdict_keys : list string := ["level"; "layer2"; "warnings"; "checklist"].

(** Two verdicts say the same. *)
Definition agree (r1 r2 : verdict) : Prop :=
  ∀ k, k ∈ verdict_keys → dict_get k r1 = dict_get k r2.

Lemma agree_set k v r1 r2 : agree r1 r2 → agree (dict_set k v r1) (dict_set k v r2).
Proof. intros H k' Hk. rewrite !dict_get_set. case_if; [done | by apply H]. Qed.

Lemma agree_get k r1 r2 : agree r1 r2 → k ∈ verdict_keys → dict_get k r1 = dict_get k r2.
Proof. intros H. apply H. Qed.

Lemma append_warning_agree w r1 r2 :
  agree r1 r2 → option_Forall2 agree (append_warning w r1) (append_warning w r2).
Proof.
  intros H. unfold append_warning. rewrite (agree_get "warnings" _ _ H) by set_solver.
  destruct (dict_get "warnings" r2) as [[]|]; constructor; by apply agree_set.
Qed.

Lemma set_in_agree k2 v r1 r2 :
  agree r1 r2 → option_Forall2 agree (set_in "layer2" k2 v r1) (set_in "layer2" k2 v r2).
Proof.
  intros H. unfold set_in. rewrite (agree_get "layer2" _ _ H) by set_solver.
  destruct (dict_get "layer2" r2) as [[]|]; constructor; by apply agree_set.
Qed.

Lemma note_inconsistency_agree items l2 r1 r2 :
  agree r1 r2 →
  option_Forall2 agree (note_inconsistency items l2 r1) (note_inconsistency items l2 r2).
Proof.
  intros H. unfold note_inconsistency.
  destruct (non_passed_evidence items) as [ev|]; [|constructor]. cbn [mbind option_bind].
  destruct (_detect_checklist_conclusion_inconsistency items l2 ev) as [[[w|] dg]|];
    cbn [mbind option_bind]; [|by constructor|constructor].
  destruct (append_warning_agree w r1 r2 H) as [d1 d2 Hd|]; [|constructor]. cbn [mbind option_bind].
  destruct dg; [by apply set_in_agree | by constructor].
Qed.

Lemma sync_partial_agree r1 r2 :
  agree r1 r2 → option_Forall2 agree (sync_partial r1) (sync_partial r2).
Proof.
  intros H. unfold sync_partial, layer2_field, get_d, py_get.
  rewrite (agree_get "layer2" _ _ H), (agree_get "level" _ _ H) by set_solver.
  destruct (vget_d _ _ _) as [st|]; constructor. case_if; [by apply agree_set | done].
Qed.

Lemma filter_dicts l : List.filter is_dict (map VDict l) = map VDict l.
Proof. induction l as [|d l IH]; simpl; [done | by rewrite IH]. Qed.

(** The two ways to record the checklist. *)
Lemma checklist_agree sb p b r1 r2 :
  agree r1 r2 →
  option_Forall2 agree (submitted_checklist (as_args sb p b) r1) (json_checklist (as_json sb) r2).
Proof.
  intros H. unfold submitted_checklist, json_checklist, submitted_items, py_or, py_get. cbn.
  destruct (map VDict (sb_items sb)) as [|i l] eqn:E; [by constructor|]. cbn [py_truthy].
  rewrite <- E, filter_dicts, E. destruct (checklist_dict (i :: l)) as [cl|]; [|constructor].
  cbn [mbind option_bind]. case_if; [|constructor; by apply agree_set].
  by apply note_inconsistency_agree, agree_set.
Qed.

(** With primary evidence and no contradiction in the claim the extra checks
    of the tool call change nothing. *)
Lemma need_primary_id r : py_get "primary_evidence_observed" r = VBool true → need_primary r = Some r.
Proof. unfold need_primary. intros ->. cbn. by rewrite andb_false_r. Qed.

Lemma sync_failed_id r st :
  layer2_field "status" VNone r = Some st →
  st ≠ VStr "failed" ∨ level_of r ≠ VStr "verified" → sync_failed r = Some r.
Proof.
  unfold sync_failed. intros -> H. cbn [mbind option_bind].
  destruct (eqs st "failed") eqn:E1; [|done]. destruct (eqs (py_get "level" r) "verified") eqn:E2; [|done].
  apply eqs_true in E1, E2. destruct H as [H|H]; by destruct H.
Qed.

Lemma submitted_checklist_fields sb p b r :
  submitted_checklist (as_args sb p b) (submitted_base (as_args sb p b) (sb_warnings sb)) = Some r →
  py_get "primary_evidence_observed" r = VBool p ∧
  level_of r = _overall_to_level (VStr (sb_overall sb)) ∧
  ∃ st, layer2_field "status" VNone r = Some st ∧ (st = VStr (sb_l2 sb) ∨ st = VStr "partial").
Proof.
  intros H. split; [|split].
  - by rewrite (py_get_eq _ _ _ (submitted_checklist_other _ _ _ "primary_evidence_observed" H ltac:(set_solver))).
  - unfold level_of.
    by rewrite (py_get_eq _ _ _ (submitted_checklist_other _ _ _ "level" H ltac:(set_solver))).
  - destruct (submitted_checklist_status _ _ _ H) as [-> | ->]; eexists; split; eauto.
Qed.

(** C25. The same claim gives the same verdict: a conclusion submitted by the
    tool call, with primary evidence and not at once "failed" and "verified",
    and the same conclusion written as JSON either both raise or agree on the
    level, the second layer, the warnings and the checklist. *)
Theorem submit_json_equivalent sb baseline :
  sb_l2 sb ∈ ["passed"; "failed"; "skipped"; "partial"; "recovered_before_observation"] →
  sb_overall sb ∈ ["verified"; "partial"; "unverified"] →
  ¬ (sb_l2 sb = "failed" ∧ sb_overall sb = "verified") →
  option_Forall2 (λ r1 o, ∃ r2, o = Some r2 ∧ agree r1 r2)
    (_verification_from_submit_args (as_args sb true baseline)) (json_verdict (as_json sb)).
Proof.
  intros Hl2 Hov Hnot. unfold _verification_from_submit_args, json_verdict.
  assert (Hov' : one_of (VStr (sb_overall sb)) ["verified"; "partial"; "unverified"] = true)
    by (by apply str_in_spec).
  assert (Hj : negb (one_of (get_d "layer2" (VStr "unknown") (as_json sb))
      ["passed"; "failed"; "skipped"; "partial"; "recovered_before_observation"]) ||
     negb (one_of (get_d "overall" (VStr "unverified") (as_json sb)) ["verified"; "partial"; "unverified"])
     = false).
  { unfold get_d. cbn -[one_of]. rewrite Hov'. apply str_in_spec in Hl2. unfold one_of. by rewrite Hl2. }
  rewrite Hj. clear Hj.
  assert (Hw : py_iter (py_or (py_get "warnings" (as_args sb true baseline)) (VList [])) = Some (sb_warnings sb)).
  { unfold py_or, py_get. cbn. by destruct (sb_warnings sb). }
  rewrite Hw. cbn [mbind option_bind].
  assert (Hbase : agree (submitted_base (as_args sb true baseline) (sb_warnings sb)) (json_base (as_json sb))).
  { intros k Hk. unfold submitted_base, json_base, _overall_to_level, get_d. cbn -[one_of].
    rewrite Hov'. unfold verdict_keys in Hk.
    repeat (apply elem_of_cons in Hk as [->|Hk]; [reflexivity|]). by apply elem_of_nil in Hk. }
  pose proof (checklist_agree sb true baseline _ _ Hbase) as Hcl.
  destruct (submitted_checklist _ _) as [r1|] eqn:E1, (json_checklist _ _) as [r2|];
    inversion Hcl as [? ? Hr|]; subst; cbn [mbind option_bind]; [|constructor].
  destruct (submitted_checklist_fields _ _ _ _ E1) as (Hp & Hlv & st & Hst & Hcase).
  rewrite (need_primary_id r1 Hp). cbn [mbind option_bind].
  rewrite (sync_failed_id r1 st Hst).
  - cbn [mbind option_bind]. destruct (sync_partial_agree r1 r2 Hr); constructor. eauto.
  - rewrite Hlv. unfold _overall_to_level. rewrite Hov'.
    destruct (decide (sb_l2 sb = "failed")) as [Hf|Hf].
    + right. intros [= Hv]. by destruct Hnot.
    + left. intros ->. destruct Hcase as [[= ?]|]; [congruence | done].
Qed.

(** ** Concrete runs *)

Definition one_step_items : list (dict pyval) :=
  [[("step", VInt 1); ("status", VStr "passed"); ("evidence", VStr "cpu 5% -> 90%")]].

Definition good_submission : submission :=
  mkSubmission "passed" "verified" "cpu at 90%" one_step_items [].

Definition submit_messages (args : dict pyval) : list Message :=
  [HumanMessage "verify";
   AIMessage (VStr "") VNone [mkCall SUBMIT_VERIFICATION_TOOL_NAME (VDict args) (Some "c1")];
   ToolMessage "recorded" SUBMIT_VERIFICATION_TOOL_NAME "c1" false].

Definition layer1_cached (affected : Z) : string * pyval :=
  ("inject_layer1_cache", VDict (_layer1_to_dict (mkLayer1 L1_PASSED "" "" [] affected false))).

Definition verified_state : GState :=
  mkState (submit_messages (as_args good_submission true true)) [layer1_cached 1].

(** A passed first layer that reached nothing is a gap. *)
Definition gapped_state (count : Z) : GState :=
  mkState (submit_messages (as_args good_submission true true))
    [layer1_cached 0; ("reverify_count", VInt count)].

Definition no_limits : RouterSettings := mkRouter 0 3 true 100 100 60 60.

Definition run_finalize (s : GState) : Exc finalized :=
  @finalize_verification strict_layer1 no_limits (S754_zero false) s.

(** The level a node wrote. *)
Definition final_level (f : Exc finalized) : option pyval :=
  match f with
  | Some (Verdict_ _ d) => level_of <$> written_verdict (dl_values d)
  | _ => None
  end.

Lemma verified_needs_evidence_witness :
  ∃ pods d, run_finalize verified_state = Some (Verdict_ pods d) ∧
  ∃ v res, dict_get "verification" (dl_values d) = Some (VDict v) ∧
    dict_get "result" (dl_values d) = Some (VDict res) ∧
    (py_get "verified" res = VBool true ↔ level_of v = VStr "verified") ∧
    (level_of v = VStr "verified" →
     disk_io_confirmed verified_state ∨ evidence_claimed (as_args good_submission true true)).
Proof.
  destruct (run_finalize verified_state) as [[d|pods d]|] eqn:E;
    [vm_compute in E; discriminate | | vm_compute in E; discriminate].
  exists pods, d. split; [reflexivity|].
  apply (@verified_needs_evidence strict_layer1 no_limits (S754_zero false) verified_state pods d
           (as_args good_submission true true) E).
  vm_compute. reflexivity.
Defined.

Example verified_state_verified : final_level (run_finalize verified_state) = Some (VStr "verified").
Proof. vm_compute. reflexivity. Qed.

(** One more round, then the verdict. *)
Lemma gapped_rounds :
  @verification_rounds strict_layer1 no_limits (S754_zero false) (gapped_state 0) 1.
Proof.
  destruct (run_finalize (gapped_state 0)) as [[d|pods d]|] eqn:E;
    [ | vm_compute in E; discriminate | vm_compute in E; discriminate].
  destruct (run_finalize (gapped_state 1)) as [[d2|pods d2]|] eqn:E2;
    [vm_compute in E2; discriminate | | vm_compute in E2; discriminate].
  apply (@rounds_more strict_layer1 no_limits (S754_zero false) (gapped_state 0) d (gapped_state 1) 0 E).
  - vm_compute in E. injection E as <-. reflexivity.
  - exact (@rounds_end strict_layer1 no_limits (S754_zero false) (gapped_state 1) pods d2 E2).
Qed.

Lemma reverify_at_most_once_witness : (1 ≤ 1)%nat.
Proof.
  apply (@reverify_at_most_once strict_layer1 no_limits (S754_zero false) (gapped_state 0) 1 0%Z gapped_rounds).
  - reflexivity.
  - lia.
Defined.

Lemma submit_json_equivalent_witness :
  option_Forall2 (λ r1 o, ∃ r2, o = Some r2 ∧ agree r1 r2)
    (_verification_from_submit_args (as_args good_submission true false))
    (json_verdict (as_json good_submission)).
Proof.
  apply (submit_json_equivalent good_submission false).
  - by left.
  - by left.
  - by intros [? _].
Defined.

(** ** Divergences *)

(** When the budget is used up the node announces that it degrades the
    verdict to partial, but leaves it verified. *)
Example exhausted_budget_not_degraded :
  final_level (run_finalize (gapped_state 1)) = Some (VStr "verified").
Proof. vm_compute. reflexivity. Qed.

(** A second layer that failed is compatible with a verified verdict when the
    conclusion is written as JSON, unlike in the tool call. *)
Definition failed_verified : submission := mkSubmission "failed" "verified" "" [] [].

Example json_failed_verified :
  option_map (option_map level_of) (json_verdict (as_json failed_verified))
    = Some (Some (VStr "verified")) ∧
  option_map level_of (_verification_from_submit_args (as_args failed_verified true true))
    = Some (VStr "unverified").
Proof. split; vm_compute; reflexivity. Qed.

Definition text_result (l : list string) : Exc pyval :=
  option_map level_of (_parse_verification_result (join newline l)).

(** Free text has no negation: "not verified" is read as verified. *)
Example not_verified_is_verified :
  text_result ["VERIFICATION_RESULT:"; "- Layer1: passed"; "- Layer2: failed"; "- Overall: not verified"]
  = Some (VStr "verified").
Proof. vm_compute. reflexivity. Qed.

(** Free text may be verified although the second layer failed and no
    primary evidence is declared. *)
Example text_failed_verified :
  text_result ["VERIFICATION_RESULT:"; "- Layer1: passed"; "- Layer2: failed"; "- Overall: verified"]
  = Some (VStr "verified").
Proof. vm_compute. reflexivity. Qed.

(** A failed step whose evidence quotes the skip marker counts as skipped
    (and the quote as one more skipped step). *)
Example failed_step_hidden :
  map i_status (_parse_checklist_items "Step 1: failed — see the [skipped] list") = ["skipped"; "skipped"].
Proof. vm_compute. reflexivity. Qed.

(** The reset for a checklist all of whose steps were recovered before they
    could be observed runs before the level is read. *)
Example all_recovered_verified :
  text_result ["VERIFICATION_CHECKLIST:"; "Step 1: recovered_before_observation";
               "VERIFICATION_RESULT:"; "- Layer1: passed"; "- Layer2: passed"; "- Overall: verified"]
  = Some (VStr "verified").
Proof. vm_compute. reflexivity. Qed.

(** ** A gap that is never found

    The restarts of containers are read from a field that none of the forms
    of a verdict has, so the conflict of the two layers is never reported. *)

Lemma submit_other args r k :
  _verification_from_submit_args args = Some r →
  k ∉ ["level"; "layer1"; "layer2"; "warnings"; "overall"; "primary_evidence_observed";
       "baseline_used"; "checklist"] → dict_get k r = None.
Proof.
  unfold _verification_from_submit_args. intros (ws & _ & H)%bind_Some Hk.
  apply bind_Some in H as (r1 & H1 & H). apply bind_Some in H as (r2 & H2 & H).
  apply bind_Some in H as (r3 & H3 & H4).
  assert (Hset : ∀ (v : pyval) d, dict_get k (dict_set "level" v d) = dict_get k d).
  { intros. by rewrite dict_get_set_ne by set_solver. }
  rewrite (sync_partial_other _ _ k H4) by set_solver.
  transitivity (dict_get k r2).
  { unfold sync_failed in H3. apply bind_Some in H3 as (st & _ & H3). case_if_in H3; [|congruence].
    by rewrite (append_warning_other _ _ _ k H3) by set_solver. }
  transitivity (dict_get k r1).
  { unfold need_primary in H2. case_if_in H2; [|congruence].
    by rewrite (append_warning_other _ _ _ k H2) by set_solver. }
  rewrite (submitted_checklist_other _ _ _ k H1) by set_solver.
  apply dict_get_None. unfold submitted_base. cbn. set_solver.
Qed.

Lemma json_other data r k :
  json_verdict data = Some (Some r) →
  k ∉ ["level"; "layer1"; "layer2"; "warnings"; "checklist"] → dict_get k r = None.
Proof.
  unfold json_verdict. intros H Hk. case_if_in H; [discriminate|].
  apply bind_Some in H as (r1 & H1 & H). apply bind_Some in H as (r2 & H2 & [= <-]).
  rewrite (sync_partial_other _ _ k H2) by set_solver.
  assert (Hb : dict_get k (json_base data) = None) by (apply dict_get_None; unfold json_base; cbn; set_solver).
  rewrite <- Hb. unfold json_checklist in H1.
  destruct (py_get _ data) as [| | | | |[|i l]| |]; try congruence.
  apply bind_Some in H1 as (cl & _ & H1).
  assert (Hset : dict_get k (dict_set "checklist" cl (json_base data)) = dict_get k (json_base data)).
  { by rewrite dict_get_set_ne by set_solver. }
  rewrite <- Hset. case_if_in H1; [|congruence].
  by rewrite (note_inconsistency_other _ _ _ _ k H1) by set_solver.
Qed.

Lemma text_other v items k :
  k ∉ ["level"; "layer1"; "layer2"; "warnings"; "baseline_used"; "checklist"] →
  dict_get k (text_dict v items) = None.
Proof.
  intros Hk. apply dict_get_None. unfold text_dict, text_checklist_dict. destruct items; cbn; set_solver.
Qed.

Lemma source_side_effects messages v args :
  source_verdict messages = Some (v, args) → dict_get "side_effects" v = None.
Proof.
  unfold source_verdict. destruct (_extract_submit_args messages) as [a|].
  - intros (d & _ & (r & Hr & [= -> ->])%bind_Some)%bind_Some.
    eapply submit_other; [done | set_solver].
  - intros (j & Hj & H)%bind_Some. destruct j as [r|].
    + injection H as -> <-. unfold _try_parse_json in Hj.
      destruct (json_loads _) as [w| |]; try discriminate. destruct w; try discriminate.
      eapply json_other; [done | set_solver].
    + apply bind_Some in H as (r & Hr & [= -> <-]). unfold _parse_verification_result in Hr.
      apply bind_Some in Hr as (t & _ & [= <-]). apply text_other. set_solver.
Qed.
