(* ===== verification/RecoverFinalize.v ===== *)
(** * Verdicts on a recovery: the parsers and the finalize node *)

From stdpp Require Import base list strings sets.
From Stdlib Require Import ZArith Ascii SpecFloat.
From S2P Require Import Prelude PyText PyRe PyValue PyFloat PyOps Json Failure Screener Router Conflict InjectionDetection Verdict Layer1 VerdictParse Finalize.

(** * Reading the verdict of a recovery
    (agent/nodes/_recover_layer2_parse.py)

    The counterpart of [VerdictParse] for the recover graph: the checklist and
    the fields of a free text, and the three contradictions between them that
    change the verdict. *)

(** ** The checklist *)

Definition _RECOVERY_CHECKLIST_PATTERNS : list pattern := Eval vm_compute in
  [get_pattern (compile re_I
     "(?:step|check)\s*(\d+)\s*[:.)]\s*\[?(passed|failed|skipped|partial|expected)\]?")
     ltac:(vm_compute; discriminate);
   get_pattern (compile re_I "(?<!\d[.:)]\s)\[SKIPPED\]\s*(?:step\s*)?(\d+)?")
     ltac:(vm_compute; discriminate);
   get_pattern (compile re_IM
     "^\s*(\d+)\s*[.:)]\s*\[?(passed|failed|skipped|partial|expected)\]?")
     ltac:(vm_compute; discriminate)].

Definition _RECOVERY_CONTRADICTION_INDICATORS : dict (list string) :=
  [("cpu", ["cpu usage normal"; "cpu back to normal"; "cpu utilization normal";
            "cpu utilization back to"; "cpu returned to normal"]);
   ("network", ["connectivity restored"; "network recovered"; "network back to normal";
                "latency back to normal"; "latency back to baseline";
                "no packet loss"; "no network delay"; "packet loss resolved"]);
   ("disk", ["disk usage back to"; "diskpressure is false"; "diskpressure false";
             "disk usage normal"; "disk back to normal"; "no disk pressure"]);
   ("process", ["pod running"; "pod is running"; "no restarts";
                "pod healthy"; "restart count 0"; "no crashloop"])].

Definition _RECOVERY_ABSENCE_PHRASES : list string :=
  ["still elevated"; "remains high"; "still at 95%"; "not recovered";
   "still present"; "persisting"; "not yet recovered";
   "still high"; "remains elevated"; "at 95%"; "at 90%"; "at 85%"; "at 80%";
   "diskpressure is true"; "diskpressure true";
   "still not"; "not yet"; "still active";
   "still stressed"; "remains at 95%"; "remains at 90%"; "remains at 85%"].

(** The patterns have no evidence group: an item is a step and a status. *)
Definition _parse_recovery_checklist_items (text : string) : list checkitem :=
  let section := checklist_section "RECOVERY_VERIFICATION_CHECKLIST:" "RECOVERY_VERIFICATION_RESULT:" text in
  (fold_left (λ st p, fold_left add_match (finditer p section) st)
     _RECOVERY_CHECKLIST_PATTERNS ([], [])).1.

Definition found (p : pattern) (text : string) : bool :=
  match re_search p text with Some _ => true | None => false end.

Definition _has_recovery_checklist (text : string) : bool :=
  contains "RECOVERY_VERIFICATION_CHECKLIST:" text ||
  match _RECOVERY_CHECKLIST_PATTERNS with
  | [p0; _; p2] => found p0 text || found p2 text
  | _ => false
  end.

(** ** Skill cases *)

Definition _count_recovery_steps_in_skill_case (content : string) : nat :=
  match section_under "恢复验证" content with
  | Some section => count_steps section
  | None => 0
  end.

Definition _RECOVER_HEAD_RE : pattern := Eval vm_compute in
  get_pattern (compile no_flags "\*\*恢复验证\*\*[：:]") ltac:(vm_compute; discriminate).
Definition _INJECT_HEAD_RE : pattern := Eval vm_compute in
  get_pattern (compile no_flags "\*\*注入验证\*\*[：:]") ltac:(vm_compute; discriminate).
Definition _NEXT_HEAD_RE : pattern := Eval vm_compute in
  get_pattern (compile no_flags "\n\*\*[^*]+\*\*[：:]") ltac:(vm_compute; discriminate).

(** The text between a heading and the next one. *)
Definition body_after (head : pattern) (content : string) : option string :=
  m ← re_search head content;
  Some (strip (upto _NEXT_HEAD_RE (unchars (drop (mo_end m) (uchars content))))).

Definition cross_ref_keywords : list string :=
  ["同注入验证"; "再次执行"; "注入验证中的"; "Pod 级验证方法中的"].

Definition _extract_recovery_verification_section (content : string) : string :=
  match body_after _RECOVER_HEAD_RE content with
  | None => ""
  | Some section =>
      let referenced :=
        if has_any cross_ref_keywords section then
          match body_after _INJECT_HEAD_RE content with
          | Some inject => newline +:+ newline +:+ "**注入验证参考**（恢复验证中引用了此段落):" +:+
                           newline +:+ inject
          | None => ""
          end
        else "" in
      "**恢复验证**：" +:+ newline +:+ section +:+ referenced
  end.

(** ** Contradictions *)

Definition incomplete_statuses : list string := ["skipped"; "partial"; "failed"].

Definition _detect_recovery_checklist_inconsistency (items : list checkitem) (l2 : string)
    : option string :=
  if negb (String.eqb l2 "passed") then None
  else
    match List.filter (λ i, i_status i ∈? incomplete_statuses) items with
    | [] => None
    | incomplete =>
        Some ("Recovery checklist-conclusion inconsistency: Step(s) " +:+
              py_repr (VList (map (λ i, VInt (i_step i)) incomplete)) +:+ " " +:+
              "marked " +:+ repr_str_list (sorted_set (map i_status incomplete)) +:+
              " but Layer2 concluded 'passed'. " +:+
              "For recovery, unverified or failed steps mean incomplete confirmation — " +:+
              "auto-downgrading to 'partial'.")
    end.

Definition _detect_recovery_contradiction (details : string) (items : list checkitem) : option string :=
  let dl := lower details in
  if has_any _RECOVERY_ABSENCE_PHRASES dl then None
  else if nonempty items && forallb (λ i, String.eqb (i_status i) "passed") items then
    Some (if truthy details
          then "Contradiction: Layer2 concluded 'failed' but ALL checklist steps " +:+
               "are 'passed' and details describe no ongoing fault. " +:+
               "Overriding to 'partial'."
          else "Contradiction: Layer2 concluded 'failed' but ALL checklist steps " +:+
               "are 'passed'. Overriding to 'partial'.")
  else if truthy details && existsb (λ ki, has_any ki.2 dl) _RECOVERY_CONTRADICTION_INDICATORS then
    Some ("Contradiction: Layer2 concluded 'failed' but details describe " +:+
          "observable recovery effects. Overriding to 'partial'.")
  else None.

Definition _GENERIC_HEALTH_INDICATORS : list string :=
  ["pod running"; "pod is running"; "pods running"; "no new restarts"; "restart count"; "restarts: 0";
   "healthy"; "health check"; "healthcheck"; "pod status: running"; "status: running"; "phase: running";
   "ready"; "1/1"; "pods ready"; "deployment available"; "no errors"; "no error"; "error-free";
   "service responding"; "responding"; "reachable"; "uptime"; "container running"; "containers running";
   "no crash"; "no oom"; "not evicted"; "not restarting"; "node ready"; "nodes ready"].

Definition _FAULT_SPECIFIC_EVIDENCE : list string :=
  ["cpu usage"; "cpu percent"; "cpu load"; "cpu back"; "cpu returned"; "cpu normal"; "cpu baseline";
   "cpu utilization"; "cpu metric"; "top node"; "top pod";
   "disk usage"; "disk percent"; "disk fill"; "disk back"; "disk returned"; "disk normal";
   "disk baseline"; "disk utilization"; "disk metric"; "diskpressure"; "diskpressure=false";
   "diskpressure false"; "/proc/diskstats"; "iowait"; "io wait"; "%util"; "disk io";
   "storage usage"; "volume usage";
   "memory usage"; "memory percent"; "memory back"; "memory returned"; "memory normal";
   "memory baseline"; "memory utilization"; "memorypressure"; "memorypressure=false"; "rss"; "working set";
   "latency"; "packet loss"; "delay"; "network delay"; "rtt"; "connectivity restored"; "packet drop";
   "dns resolution"; "networkpolicy"; "network back"; "network normal";
   "process killed"; "process removed"; "blade process"; "chaosblade process";
   "restart observed"; "pod restarted"; "pod recreated"; "finalizers removed"; "finalizer removed";
   "io throughput"; "read latency"; "write latency"; "iops"; "throughput"].

Definition _detect_primary_evidence_generic_contradiction (primary_observed : bool)
    (details skill_name : string) : option string :=
  let dl := lower details in
  if negb primary_observed || (lower skill_name ∈? ["pod-kill"; "pod-terminating"; "pod-delete"]) ||
     has_any _FAULT_SPECIFIC_EVIDENCE dl || negb (has_any _GENERIC_HEALTH_INDICATORS dl) then None
  else
    Some ("PrimaryEvidenceObserved=true contradicts evidence: all evidence items are " +:+
          "generic health indicators (pod Running, no restarts, etc.) rather than " +:+
          "fault-specific metrics (CPU/disk/memory/network returned to baseline). " +:+
          "Per prompt rules, PrimaryEvidenceObserved should be false when only generic " +:+
          "indicators are observed. Downgrading to 'partial'.").

(** ** The free text *)

Definition recover_start : textv := mkText "unrecovered" "passed" "unknown" "" [] None.

(** The model answered in the format of the first layer. *)
Definition wrong_format (tl : string) : bool :=
  contains "recovery_execution_result" tl && negb (contains "recovery_verification_result" tl).

Definition wrong_format_verdict (tl : string) : textv :=
  if contains "status: success" tl || contains "status:  success" tl then
    warn ("Layer 2 LLM used RECOVERY_EXECUTION_RESULT format instead of " +:+
          "RECOVERY_VERIFICATION_RESULT; inferred Layer2=passed from Status: success")
      (set_level "recovered" (set_l2 "passed" recover_start))
  else warn "Layer 2 LLM used RECOVERY_EXECUTION_RESULT format with non-success status"
         (set_l2 "failed" recover_start).

Definition recover_details (line : string) : string :=
  match List.find (λ kw, contains kw line) ["passed"; "failed"; "partial"; "skipped"] with
  | Some kw => lstrip_of "-: " (strip (after_str kw line))
  | None => ""
  end.

Definition recover_layer2 (tl : string) : textv :=
  if contains "layer2" tl then
    let line := line_after "layer2" tl in
    let l2 := _parse_status_keyword line status_keywords in
    warn_if (String.eqb l2 "skipped") "Layer 2 skipped: LLM could not design a verification plan"
      (mkText "unrecovered" "passed" l2 (recover_details line) [] None)
  else recover_start.

(** A warning that makes the second layer partial. *)
Definition override_partial (w : option string) (v : textv) : textv :=
  match w with Some w => set_l2 "partial" (warn w v) | None => v end.

Definition recover_checks (text : string) (items : list checkitem) (v : textv) : textv :=
  let v := override_partial (_detect_recovery_checklist_inconsistency items (t_l2 v)) v in
  let v := warn_if ((t_l2 v ∈? ["passed"; "partial"]) && negb (_has_recovery_checklist text))
    ("No Recovery Verification Checklist detected in LLM output. " +:+
     "Recovery verification completeness cannot be confirmed.") v in
  if String.eqb (t_l2 v) "failed"
  then override_partial (_detect_recovery_contradiction (t_details v) items) v else v.

Definition recover_level (tl : string) (v : textv) : textv :=
  if contains "overall:" tl then
    let overall := strip (line_after "overall:" tl) in
    if (contains "recovered" overall || contains "verified" overall) &&
       negb (_has_negative_prefix overall "recovered") && negb (contains "partial" overall) &&
       negb (contains "unrecovered" overall) then set_level "recovered" v
    else if (_has_negative_prefix overall "recovered" || _has_negative_prefix overall "verified") &&
            negb (contains "unrecovered" overall) then set_level "unrecovered" v
    else if contains "partial" overall then set_level "partial" v
    else if contains "unrecovered" overall then set_level "unrecovered" v
    else v
  else if t_l2 v ∈? ["passed"; "skipped"] then set_level "recovered" v
  else if String.eqb (t_l2 v) "partial" then set_level "partial" v
  else v.

Definition recover_sync (v : textv) : textv :=
  if String.eqb (t_l2 v) "partial" && (t_level v ∈? ["recovered"; "unrecovered"])
  then set_level "partial" v else v.

(** A recovered verdict against the declared primary evidence. *)
Definition recover_primary (tl skill_name : string) (v : textv) : textv :=
  let primary := text_flag "primaryevidenceobserved:" tl in
  let v := if String.eqb (t_level v) "recovered" && match primary with Some false => true | _ => false end
           then warn ("Verdict 'recovered' is incompatible with PrimaryEvidenceObserved=false. " +:+
                      "Cannot confirm recovery effectiveness without direct evidence " +:+
                      "that fault effects are gone. Downgraded to 'partial'.") (set_level "partial" v)
           else v in
  if String.eqb (t_level v) "recovered" && match primary with Some true => true | _ => false end
  then match _detect_primary_evidence_generic_contradiction true (t_details v) skill_name with
       | Some w => warn w (set_level "partial" v)
       | None => v
       end
  else v.

Definition recover_end (tl : string) (v : textv) : textv :=
  let v := mkText (t_level v) (t_l1 v) (t_l2 v) (t_details v) (t_warnings v)
             (text_flag "baselineused:" tl) in
  let v := warn_if (existsb (λ line, startswith (strip line) "warnings:" &&
                                      negb (contains "none" (strip line))) (lines tl))
             "See recovery verification details for warnings" v in
  warn_if (String.eqb (t_l2 v) "unknown")
    ("Layer 2 (fault-specific) recovery verification result is unknown. " +:+
     "The LLM did not produce a clear verification conclusion.") v.

Definition recover_checklist_dict (items : list checkitem) : verdict :=
  match items with
  | [] => []
  | _ =>
      [("checklist", VDict
          [("items", VList (map item_dict items));
           ("skipped_count", VInt (count_status "skipped" items));
           ("partial_count", VInt (count_status "partial" items));
           ("failed_count", VInt (count_status "failed" items));
           ("total_count", VInt (Z.of_nat (length items)))])]
  end.

(** The verdict dict of the fields. *)
Definition recover_dict (v : textv) (checklist : verdict) : verdict := text_dict v [] ++ checklist.

Definition _parse_recovery_verification_result (text skill_name : string) : verdict :=
  let tl := lower text in
  if wrong_format tl then recover_dict (wrong_format_verdict tl) []
  else
    let items := _parse_recovery_checklist_items text in
    let v := recover_sync (recover_level tl (recover_checks text items (recover_layer2 tl))) in
    recover_dict (recover_end tl (recover_primary tl skill_name v)) (recover_checklist_dict items).

(** ** What a recovered verdict means *)

Lemma recover_dict_level v cl : level_of (recover_dict v cl) = VStr (t_level v).
Proof. done. Qed.

Lemma recover_end_fields tl v :
  t_level (recover_end tl v) = t_level v ∧ t_l2 (recover_end tl v) = t_l2 v.
Proof. unfold recover_end, warn_if. by repeat case_if. Qed.

Lemma recover_primary_recovered tl sk v :
  t_level (recover_primary tl sk v) = "recovered" →
  recover_primary tl sk v = v ∧ t_level v = "recovered" ∧
  text_flag "primaryevidenceobserved:" tl ≠ Some false.
Proof.
  unfold recover_primary. destruct (String.eqb (t_level v) "recovered") eqn:E.
  - apply String.eqb_eq in E. destruct (text_flag _ tl) as [[]|]; cbn [andb].
    + rewrite (proj2 (String.eqb_eq _ _) E). cbn [andb].
      destruct (_detect_primary_evidence_generic_contradiction _ _ _); [done | by intros _].
    + done.
    + rewrite (proj2 (String.eqb_eq _ _) E). cbn [andb]. by intros _.
  - cbn [andb]. rewrite E. cbn [andb]. intros H. by rewrite H in E.
Qed.

Lemma recover_sync_recovered v :
  t_level (recover_sync v) = "recovered" → recover_sync v = v ∧ t_l2 v ≠ "partial".
Proof.
  unfold recover_sync. destruct (String.eqb_spec (t_l2 v) "partial") as [E|E]; cbn [andb].
  - case_if; [done|]. intros H. rewrite H in Heqb. by apply str_in_false in Heqb as []; left.
  - done.
Qed.

Lemma recover_level_l2 tl v : t_l2 (recover_level tl v) = t_l2 v.
Proof. unfold recover_level. by repeat case_if. Qed.

(** After the checks a passed second layer has a complete checklist. *)
Lemma recover_checks_passed text items v :
  t_l2 (recover_checks text items v) = "passed" →
  Forall (λ i, i_status i ∉ incomplete_statuses) items.
Proof.
  unfold recover_checks. set (v1 := override_partial _ v). set (v2 := warn_if _ _ v1).
  assert (E2 : t_l2 v2 = t_l2 v1) by (unfold v2, warn_if; by case_if).
  assert (Hc : t_l2 v1 = "passed" → Forall (λ i, i_status i ∉ incomplete_statuses) items).
  { unfold v1, _detect_recovery_checklist_inconsistency.
    destruct (String.eqb_spec (t_l2 v) "passed") as [Ep|Ep]; cbn [negb]; [|by intros ?].
    destruct (List.filter _ items) as [|i l] eqn:Ef; [|done]. intros _.
    apply Forall_forall. intros i Hi Hs.
    assert (Hin : In i (List.filter (λ i, i_status i ∈? incomplete_statuses) items))
      by (apply filter_In; split; [by apply list_elem_of_In | by apply str_in_spec]).
    by rewrite Ef in Hin. }
  case_if.
  - apply String.eqb_eq in Heqb. unfold override_partial at 1.
    destruct (_detect_recovery_contradiction _ _); [done | congruence].
  - intros H. apply Hc. congruence.
Qed.

(** A recovery that free text (in its own format) reports as recovered is
    consistent: the second layer is not partial, the text does not deny primary
    evidence, and where the second layer passed no step of the checklist is
    skipped, partial or failed. *)
Theorem recovered_text_consistent text skill :
  wrong_format (lower text) = false →
  level_of (_parse_recovery_verification_result text skill) = VStr "recovered" →
  ∃ v, _parse_recovery_verification_result text skill
         = recover_dict v (recover_checklist_dict (_parse_recovery_checklist_items text)) ∧
    t_l2 v ≠ "partial" ∧ text_flag "primaryevidenceobserved:" (lower text) ≠ Some false ∧
    (t_l2 v = "passed" →
     Forall (λ i, i_status i ∉ incomplete_statuses) (_parse_recovery_checklist_items text)).
Proof.
  unfold _parse_recovery_verification_result. intros ->. set (items := _parse_recovery_checklist_items text).
  set (v0 := recover_checks _ _ _). set (v1 := recover_level _ v0).
  rewrite recover_dict_level. destruct (recover_end_fields (lower text)
    (recover_primary (lower text) skill (recover_sync v1))) as [El E2]. rewrite El.
  intros [= H]. apply recover_primary_recovered in H as (Hp & Hr & Hflag).
  apply recover_sync_recovered in Hr as (Hs & Hpart).
  eexists. split; [reflexivity|]. rewrite E2, Hp, Hs. split; [done|]. split; [done|].
  intros Hl2. unfold v1 in Hl2. rewrite recover_level_l2 in Hl2. by eapply recover_checks_passed.
Qed.

Definition recovered_text : string :=
  join newline ["RECOVERY_VERIFICATION_CHECKLIST:"; "Step 1: passed"; "RECOVERY_VERIFICATION_RESULT:";
                "- Layer2: passed - cpu usage back to 4%"; "- Overall: recovered";
                "- PrimaryEvidenceObserved: true"].

Lemma recovered_text_consistent_witness :
  ∃ v, _parse_recovery_verification_result recovered_text ""
         = recover_dict v (recover_checklist_dict (_parse_recovery_checklist_items recovered_text)) ∧
    t_l2 v ≠ "partial" ∧ text_flag "primaryevidenceobserved:" (lower recovered_text) ≠ Some false ∧
    (t_l2 v = "passed" →
     Forall (λ i, i_status i ∉ incomplete_statuses) (_parse_recovery_checklist_items recovered_text)).
Proof.
  apply (recovered_text_consistent recovered_text ""); vm_compute; reflexivity.
Defined.

(** ** Divergences *)

Definition recover_text (l : list string) : pyval :=
  level_of (_parse_recovery_verification_result (join newline l) "").

(** The test for a negated "verified" stands behind a test that such texts
    already pass: both of these are read as recovered. *)
Example unverified_is_recovered :
  recover_text ["- Layer2: failed - cpu at 95%"; "- Overall: unverified"] = VStr "recovered" ∧
  recover_text ["- Layer2: failed - cpu at 95%"; "- Overall: not verified"] = VStr "recovered".
Proof. split; vm_compute; reflexivity. Qed.

(** A second layer that failed is compatible with a recovered verdict in free
    text, unlike in the tool call. *)
Example failed_recovered :
  recover_text ["- Layer2: failed - cpu at 95%"; "- Overall: recovered"] = VStr "recovered".
Proof. vm_compute. reflexivity. Qed.

(** * The finalisation of a recovery (agent/nodes/_recover_finalize.py)

    [finalize_recover_verification] takes the verdict from
    submit_recover_verification or from free text, rejects a conclusion
    without a check of the current state, retries the recovery once when the
    fault is still there, and otherwise writes the verdict.  The retry of
    [blade destroy] answers with a text or raises; the clock is an argument. *)

Definition _GUARD_MARKER : string := "RECOVERY VERIFICATION GUARD".
Definition _RETRY_MARKER : string := "recovery retry".

(** ** The verdict in a tool call *)

Definition recover_overall (args : dict pyval) : pyval :=
  let overall := get_d "overall" (VStr "unrecovered") args in
  if one_of overall ["recovered"; "partial"; "unrecovered"] then overall else VStr "unrecovered".

Definition recover_l2 (args : dict pyval) : pyval := get_d "layer2_status" (VStr "unknown") args.

(** The level agrees with the second layer. *)
Definition recover_synced_level (args : dict pyval) : pyval :=
  let level := recover_overall args in
  if eqs (recover_l2 args) "failed" && eqs level "recovered" then VStr "unrecovered"
  else if eqs (recover_l2 args) "partial" && eqs level "recovered" then VStr "partial"
  else level.

Definition _recover_verification_from_submit_args (args : dict pyval) : Exc verdict :=
  warnings ← py_iter (py_or (py_get "warnings" args) (VList []));
  let checklist :=
    match py_or (py_get "checklist" args) (VList []) with
    | VList ((_ :: _) as l) =>
        let n := VInt (Z.of_nat (length l)) in
        [("checklist", VDict [("items", VList l); ("total_count", n); ("total_executed", n)])]
    | _ => []
    end in
  Some ([("level", recover_synced_level args);
         ("layer1", VDict [("status", VStr "unknown"); ("details", VStr "")]);
         ("layer2", VDict [("status", recover_l2 args);
                           ("details", get_d "layer2_details" (VStr "") args)]);
         ("warnings", VList warnings);
         ("baseline_used", VBool (py_truthy (get_d "baseline_used" (VBool false) args)))] ++ checklist).

Definition recover_marks : list string := [_GUARD_MARKER; _RETRY_MARKER].

Definition _extract_recover_submit_args (messages : list Message) : option pyval :=
  extract_args SUBMIT_RECOVER_VERIFICATION_TOOL_NAME recover_marks messages.

Definition _phrase_in_messages (messages : list Message) (phrase : string) : bool :=
  existsb (is_marked [phrase]) messages.

Definition recover_source (s : GState) : Exc verdict :=
  match _extract_recover_submit_args (g_messages s) with
  | Some a => args ← as_dict a; _recover_verification_from_submit_args args
  | None =>
      skill ← as_str (get_or_empty "skill_name" s);
      Some (_parse_recovery_verification_result (_last_ai_text (g_messages s)) skill)
  end.

(** ** The prompts *)

Definition guard_message : Message :=
  HumanMessage ("⚠️ " +:+ _GUARD_MARKER +:+ ": Your recovery verdict was rejected because you did NOT " +:+
    "execute any kubectl verification commands to observe the CURRENT post-recovery " +:+
    "state. Baseline / injection-phase data is NOT current." +:+ newline +:+ newline +:+
    "You MUST run kubectl commands now (e.g. kubectl exec to check disk/CPU, " +:+
    "kubectl describe to check pod status), observe the CURRENT state, and only " +:+
    "THEN call submit_recover_verification.").

Definition destroyed_message (output : string) : Message :=
  HumanMessage ("**" +:+ _RETRY_MARKER +:+ " executed**" +:+ newline +:+
    "blade_destroy output: " +:+ py_take 500 output +:+ newline +:+ newline +:+
    "Please verify again whether the fault has been removed, then call " +:+
    "submit_recover_verification.").

Definition retry_message : Message :=
  HumanMessage ("**" +:+ _RETRY_MARKER +:+ " required**: The fault effect is STILL PRESENT." +:+ newline +:+
    "Re-attempt recovery using alternative methods (e.g. if kubectl patch failed, " +:+
    "try kubectl delete --force --grace-period=0). After re-attempting, verify again " +:+
    "and call submit_recover_verification.").

Definition baseline_warning : string :=
  "Pre-injection baseline was available (confidence=high) but LLM did not " +:+
  "perform baseline comparison. Verification relies on absolute thresholds " +:+
  "instead of more reliable before/after delta.".

Definition recover_baseline (s : GState) (v : verdict) : Exc verdict :=
  v ← (if dict_mem "baseline_confidence" v then Some v
       else c ← _compute_baseline_confidence s; Some (dict_set "baseline_confidence" (VStr c) v));
  if eqs (py_get "baseline_confidence" v) "high" && negb (py_truthy (py_get "baseline_used" v))
  then append_warning baseline_warning v else Some v.

(** The first layer was [blade destroy] on the host. *)
Definition layer1_is_deterministic (s : GState) : bool :=
  match get "recover_layer1_type" s with
  | VNone => on "blade_uid" s
  | v => eqs v "deterministic"
  end.

Section finalize_recover.
Context {M : Layer1Model} (cfg : RouterSettings).
Context (destroy_again : outcome string) (now_iso : string).

Definition recover_layer1_of (s : GState) : Exc Layer1Result :=
  cache ← as_dict (or_empty (get "recover_layer1_cache" s));
  model_validate [("status", get_d "status" (VStr "unknown") cache);
                  ("details", get_d "details" (VStr "") cache);
                  ("raw_output", get_d "raw_output" (VStr "") cache)].

Inductive recover_finalized :=
  | BackToLoop (d : Delta)
  | RecoverVerdict_ (pods : list string) (d : Delta).

(** One more attempt at the recovery, where there is one. *)
Definition retry (s : GState) : option Message :=
  if on "blade_uid" s && layer1_is_deterministic s then
    match destroy_again with
    | Ret output => Some (destroyed_message output)
    | Exn _ => None
    end
  else Some retry_message.

(** The fault is still active, nothing was retried and a turn is left. *)
Definition may_retry (s : GState) (l2 : pyval) : Exc bool :=
  if eqs l2 "failed" && negb (_phrase_in_messages (g_messages s) _RETRY_MARKER)
  then py_lt (get_d "verifier_loop_count" (VInt 0) (g_values s))
         (VInt (max_recover_verifier_loop cfg - 1))
  else Some false.

Definition write_recover_verdict (s : GState) (layer1 : Layer1Result) (l2 : pyval) (v : verdict)
    : Exc recover_finalized :=
  level ← dict_get "level" v;
  let recovered := one_of level ["recovered"; "partial"] in
  let result := VDict [("task_id", get_or_empty "task_id" s); ("skill", get_or_empty "skill_name" s);
                       ("blade_uid", get_or_empty "blade_uid" s); ("recovered", VBool recovered);
                       ("recovery_level", level)] in
  let update := [("result", result); ("recover_verification", VDict v); ("finished_at", VStr now_iso)] in
  let update :=
    if recovered then update
    else dict_update update
           (fail_state RECOVERY_FAILED
              ("Layer1=" +:+ layer1_status_text (l1_status layer1) +:+ ", Layer2=" +:+ py_str l2 +:+
               ", level=" +:+ py_str level) []) in
  '(pods, update) ← _cleanup_debug_pods s update;
  Some (RecoverVerdict_ pods (mkDelta [] update)).

Definition finalize_recover_verification (s : GState) : Exc recover_finalized :=
  layer1 ← recover_layer1_of s;
  v ← recover_source s;
  if on "recover_layer2_first" s then Some (BackToLoop (mkDelta [guard_message] []))
  else
    v ← recover_baseline s (dict_set "layer1" (VDict (_layer1_to_dict layer1)) v);
    l2 ← layer2_field "status" (VStr "unknown") v;
    again ← may_retry s l2;
    match (if (again : bool) then retry s else None) with
    | Some m => Some (BackToLoop (mkDelta [m] []))
    | None => write_recover_verdict s layer1 l2 v
    end.
End finalize_recover.

(** ** The written verdict *)

Section recover_props.
Context {M : Layer1Model} (cfg : RouterSettings) (destroy_again : outcome string) (now_iso : string).

Abbreviation finalize := (finalize_recover_verification cfg destroy_again now_iso).

Lemma recover_baseline_other s v v' k :
  recover_baseline s v = Some v' → k ∉ ["baseline_confidence"; "warnings"] →
  dict_get k v' = dict_get k v.
Proof.
  unfold recover_baseline. intros (v1 & H1 & H)%bind_Some Hk.
  assert (E : dict_get k v1 = dict_get k v).
  { case_if_in H1; [congruence|]. apply bind_Some in H1 as (c & _ & [= <-]).
    by rewrite dict_get_set_ne by set_solver. }
  rewrite <- E. case_if_in H; [|congruence]. by rewrite (append_warning_other _ _ _ k H) by set_solver.
Qed.

Lemma recover_inv s pods d :
  finalize s = Some (RecoverVerdict_ pods d) →
  ∃ layer1 v0 v l2, recover_source s = Some v0 ∧
    recover_baseline s (dict_set "layer1" (VDict (_layer1_to_dict layer1)) v0) = Some v ∧
    layer2_field "status" (VStr "unknown") v = Some l2 ∧
    write_recover_verdict now_iso s layer1 l2 v = Some (RecoverVerdict_ pods d).
Proof.
  unfold finalize_recover_verification. intros (layer1 & _ & H)%bind_Some.
  apply bind_Some in H as (v0 & H0 & H). case_if_in H; [discriminate|].
  apply bind_Some in H as (v & H1 & H). apply bind_Some in H as (l2 & H2 & H).
  apply bind_Some in H as (again & _ & H).
  destruct (if again then _ else None) as [m|]; [discriminate|]. eauto 10.
Qed.

Lemma submit_recover_level args v :
  _recover_verification_from_submit_args args = Some v → level_of v = recover_synced_level args.
Proof. unfold _recover_verification_from_submit_args. by intros (ws & _ & [= <-])%bind_Some. Qed.

(** What the update of the node records: the level, whether it counts as
    recovered, and the failure when it does not. *)
Definition recorded (d : Delta) (level : pyval) : Prop :=
  ∃ v res, dict_get "recover_verification" (dl_values d) = Some (VDict v) ∧ level_of v = level ∧
    dict_get "result" (dl_values d) = Some (VDict res) ∧ py_get "recovery_level" res = level ∧
    py_get "recovered" res = VBool (one_of level ["recovered"; "partial"]) ∧
    (one_of level ["recovered"; "partial"] = false →
     ∃ e, dict_get "error" (dl_values d) = Some (VStr e)).

Lemma write_recover_recorded s layer1 l2 v pods d :
  write_recover_verdict now_iso s layer1 l2 v = Some (RecoverVerdict_ pods d) → recorded d (level_of v).
Proof.
  unfold write_recover_verdict. intros (level & Hl & H)%bind_Some. cbv zeta in H.
  apply bind_Some in H as ([p u] & Hu & [= <- <-]).
  assert (El : level_of v = level) by (unfold level_of, py_get; by rewrite Hl). rewrite El.
  pose proof (λ k Hk, cleanup_other _ _ _ _ k Hu Hk) as Hk.
  unfold recorded. cbn [dl_values]. rewrite !Hk by done.
  destruct (one_of level ["recovered"; "partial"]) eqn:E; eexists v, _.
  - cbn. do 5 (split; [done|]). done.
  - cbn. do 5 (split; [done|]). intros _. cbn. eauto.
Qed.

(** The verdict of a recovery: when the model submitted it, the level that
    is written is the submitted one with the second layer taken into account,
    so that it is recovered only if the second layer neither failed nor is
    partial; the result counts recovered and partial as recovered, and any
    other level records a failure. *)
Theorem recover_verdict_recorded s pods d args :
  finalize s = Some (RecoverVerdict_ pods d) →
  _extract_recover_submit_args (g_messages s) = Some (VDict args) →
  recorded d (recover_synced_level args) ∧
  (recover_synced_level args = VStr "recovered" →
   recover_overall args = VStr "recovered" ∧ recover_l2 args ≠ VStr "failed" ∧
   recover_l2 args ≠ VStr "partial").
Proof.
  intros (layer1 & v0 & v & l2 & H0 & Hb & _ & Hw)%recover_inv Ha. split.
  - apply write_recover_recorded in Hw. unfold recover_source in H0. rewrite Ha in H0. simpl in H0.
    apply submit_recover_level in H0. rewrite <- H0.
    assert (E : level_of v = level_of v0); [|by rewrite <- E].
    apply py_get_eq. rewrite (recover_baseline_other _ _ _ "level" Hb) by set_solver.
    by rewrite dict_get_set_ne.
  - unfold recover_synced_level. intros H.
    destruct (eqs (recover_l2 args) "failed") eqn:Ef.
    + apply eqs_true in Ef. destruct (eqs (recover_overall args) "recovered") eqn:Er; [discriminate|].
      cbn in H. rewrite andb_false_r in H. by rewrite H in Er.
    + destruct (eqs (recover_l2 args) "partial") eqn:Ep; cbn in H.
      * destruct (eqs (recover_overall args) "recovered") eqn:Er; [discriminate|]. by rewrite H in Er.
      * split; [done|]. split; intros E; by rewrite E in Ef, Ep.
Qed.

End recover_props.

(** ** Concrete runs *)

Definition recover_args (l2 overall : string) : dict pyval :=
  [("layer2_status", VStr l2); ("overall", VStr overall); ("layer2_details", VStr "cpu at 4%")].

Definition recover_submit (args : dict pyval) : Message :=
  AIMessage (VStr "") VNone
    [mkCall SUBMIT_RECOVER_VERIFICATION_TOOL_NAME (VDict args) (Some "c1")].

Definition recover_state (first : bool) (messages : list Message) : GState :=
  mkState messages
    [("blade_uid", VStr ""); ("layer2_context_added", VBool true);
     ("recover_layer2_first", VBool first); ("recover_layer1_cache", VDict [("status", VStr "passed")])].

Definition run_recover (s : GState) : Exc recover_finalized :=
  @finalize_recover_verification strict_layer1 no_limits (Exn "no blade") "2026-01-01T00:00:00+08:00" s.

Definition recovered_state : GState :=
  recover_state false [recover_submit (recover_args "passed" "recovered")].

Lemma recover_verdict_recorded_witness :
  ∃ pods d, run_recover recovered_state = Some (RecoverVerdict_ pods d) ∧
  recorded d (recover_synced_level (recover_args "passed" "recovered")) ∧
  (recover_synced_level (recover_args "passed" "recovered") = VStr "recovered" →
   recover_overall (recover_args "passed" "recovered") = VStr "recovered" ∧
   recover_l2 (recover_args "passed" "recovered") ≠ VStr "failed" ∧
   recover_l2 (recover_args "passed" "recovered") ≠ VStr "partial").
Proof.
  destruct (run_recover recovered_state) as [[d|pods d]|] eqn:E;
    [vm_compute in E; discriminate | | vm_compute in E; discriminate].
  exists pods, d. split; [reflexivity|].
  apply (@recover_verdict_recorded strict_layer1 no_limits (Exn "no blade")
           "2026-01-01T00:00:00+08:00" recovered_state pods d _ E).
  vm_compute. reflexivity.
Defined.
