(* ===== verification/AttemptTracker.v ===== *)
(** * Pipeline attempts (agent/attempt_tracker.py)

    The counter of attempts and their history: [begin_attempt] opens an entry,
    [end_attempt] closes the last one, [detect_target_switch] tells whether two
    targets differ.  Both return the update that the caller merges into the
    state; the clock is an argument. *)

From stdpp Require Import base list strings sets.
From Stdlib Require Import ZArith Ascii.
From S2P Require Import Prelude PyValue PyFloat PyOps FaultSpec.

Definition REASON_INITIAL : string := "initial".
Definition REASON_GRAPH_REPLAN : string := "graph_replan".
Definition REASON_LLM_TARGET_SWITCH : string := "llm_target_switch".
Definition REASON_USER_RERUN : string := "user_rerun".

(** ** Equality of values: [a == b] *)

Definition num_eqb (a b : pyval) : bool :=
  match num_of a, num_of b with
  | Some x, Some y => match num_compare x y with Some Eq => true | _ => false end
  | _, _ => false
  end.

Fixpoint py_eqb (a b : pyval) {struct a} : bool :=
  let list_eqb := fix list_eqb (l m : list pyval) : bool :=
    match l, m with
    | [], [] => true
    | x :: l', y :: m' => py_eqb x y && list_eqb l' m'
    | _, _ => false
    end in
  match a, b with
  | VNone, VNone => true
  | VStr s, VStr t => String.eqb s t
  | VList l, VList m => list_eqb l m
  | VTuple l, VTuple m => list_eqb l m
  | VDict d, VDict e =>
      Nat.eqb (length d) (length e) &&
      (fix sub (d : dict pyval) : bool :=
         match d with
         | [] => true
         | (k, v) :: d' =>
             match dict_get k e with Some w => py_eqb v w | None => false end && sub d'
         end) d
  | _, _ => num_eqb a b
  end.

(** ** The operations *)

Definition attempt_entry (seq : Z) (target : pyval) (reason notes : string) (now : pyval) : dict pyval :=
  [("seq", VInt seq); ("target", if py_truthy target then target else VNone);
   ("reason", VStr reason); ("notes", VStr notes); ("started_at", now);
   ("ended_at", VNone); ("outcome", VNone)].

Definition history_of (state : dict pyval) : Exc (list pyval) :=
  py_iter (py_or (py_get "pipeline_attempts_history" state) (VList [])).

Definition begin_attempt (state : dict pyval) (target : pyval) (reason notes : string) (now : pyval)
    : Exc (dict pyval) :=
  cur ← py_int (py_get "pipeline_attempt" state);
  history ← history_of state;
  Some [("pipeline_attempt", VInt (cur + 1));
        ("pipeline_attempts_history",
         VList (history ++ [VDict (attempt_entry (cur + 1) target reason notes now)]))].

(** [(last.get("notes") or "") + f" | {notes}" if last.get("notes") else notes]. *)
Definition joined_notes (last : dict pyval) (notes : string) : Exc pyval :=
  let old := py_get "notes" last in
  if py_truthy old then t ← as_str old; Some (VStr (t +:+ " | " +:+ notes)) else Some (VStr notes).

Definition close_entry (last : dict pyval) (outcome notes : string) (now : pyval) : Exc (dict pyval) :=
  let last := dict_set "outcome" (VStr outcome) (dict_set "ended_at" now last) in
  if truthy notes then n ← joined_notes last notes; Some (dict_set "notes" n last) else Some last.

Definition end_attempt (state : dict pyval) (outcome notes : string) (now : pyval) : Exc (dict pyval) :=
  history ← history_of state;
  match rev history with
  | [] => Some []
  | last :: before =>
      d ← as_dict last;
      d ← close_entry d outcome notes now;
      Some [("pipeline_attempts_history", VList (rev before ++ [VDict d]))]
  end.

(** [list(v or [])]. *)
Definition names_list (target : dict pyval) : Exc (list pyval) :=
  py_iter (py_or (py_get "names" target) (VList [])).

Definition detect_target_switch (prev_target new_target : pyval) : Exc bool :=
  if negb (py_truthy prev_target) || negb (py_truthy new_target) then Some false
  else
    match prev_target, new_target with
    | VDict p, VDict n =>
        a ← names_list p;
        b ← names_list n;
        Some (negb (py_eqb (VList a) (VList b)) ||
              negb (py_eqb (py_or (py_get "namespace" p) (VStr "")) (py_or (py_get "namespace" n) (VStr ""))) ||
              negb (py_eqb (or_empty (py_get "labels" p)) (or_empty (py_get "labels" n))))
    | _, _ => Some false
    end.

(** ** The history is the list of attempts *)

(** The state as the two operations leave it: [n] entries numbered from one,
    and the counter at [n]. *)
Definition numbered (history : list pyval) : Prop :=
  ∀ i e, history !! i = Some e →
    ∃ d, e = VDict d ∧ dict_wf d ∧ py_get "seq" d = VInt (Z.of_nat (S i)).

Definition attempts_ok (state : dict pyval) : Prop :=
  ∃ history, (dict_get "pipeline_attempts_history" state = Some (VList history) ∨
              (dict_get "pipeline_attempts_history" state = None ∧ history = [])) ∧
    numbered history ∧
    (dict_get "pipeline_attempt" state = Some (VInt (Z.of_nat (length history))) ∨
     (dict_get "pipeline_attempt" state = None ∧ history = [])).

Inductive attempt_op :=
  | Begin (target : pyval) (reason notes : string) (now : pyval)
  | End (outcome notes : string) (now : pyval).

Definition run_op (state : dict pyval) (op : attempt_op) : Exc (dict pyval) :=
  delta ← (match op with
           | Begin t r n now => begin_attempt state t r n now
           | End o n now => end_attempt state o n now
           end);
  Some (dict_update state delta).

Fixpoint run_ops (state : dict pyval) (ops : list attempt_op) : Exc (dict pyval) :=
  match ops with
  | [] => Some state
  | op :: ops' => s ← run_op state op; run_ops s ops'
  end.

Lemma history_of_ok state history :
  dict_get "pipeline_attempts_history" state = Some (VList history) ∨
  (dict_get "pipeline_attempts_history" state = None ∧ history = []) →
  history_of state = Some history.
Proof.
  unfold history_of, py_get, py_or. intros [-> | [-> ->]]; [|done]. simpl. by destruct history.
Qed.

Lemma counter_ok state n :
  dict_get "pipeline_attempt" state = Some (VInt (Z.of_nat n)) ∨
  (dict_get "pipeline_attempt" state = None ∧ n = 0) →
  py_int (py_get "pipeline_attempt" state) = Some (Z.of_nat n).
Proof.
  unfold py_get, py_int, py_or. intros [-> | [-> ->]]; [|done]. simpl. by destruct n.
Qed.

Lemma numbered_snoc history d :
  numbered history → dict_wf d → py_get "seq" d = VInt (Z.of_nat (S (length history))) →
  numbered (history ++ [VDict d]).
Proof.
  intros H Hwf Hd i e. rewrite lookup_app. destruct (history !! i) as [x|] eqn:E.
  - intros [= <-]. by apply H.
  - apply lookup_ge_None in E. intros Hi. apply list_lookup_singleton_Some in Hi as [Hi <-].
    assert (i = length history) as -> by lia. eauto.
Qed.

Lemma begin_ok state t r n now :
  attempts_ok state → ∃ s, run_op state (Begin t r n now) = Some s ∧ attempts_ok s.
Proof.
  intros (h & Hh & Hn & Hc).
  assert (Hc' : py_int (py_get "pipeline_attempt" state) = Some (Z.of_nat (length h))).
  { apply counter_ok. destruct Hc as [?|[? ->]]; auto. }
  unfold run_op, begin_attempt. rewrite Hc', (history_of_ok _ _ Hh). cbn [mbind option_bind].
  eexists. split; [done|]. eexists (h ++ [_]). unfold dict_update. cbn [fold_left fst snd].
  rewrite !dict_get_set. cbn. split; [by left|]. split.
  - apply numbered_snoc; [done | | unfold py_get; cbn; f_equal; lia].
    unfold dict_wf. cbn. apply NoDup_ListNoDup. repeat constructor; cbn; intuition discriminate.
  - left. rewrite length_app. cbn. do 2 f_equal. lia.
Qed.

Lemma close_entry_seq d o n now d' :
  close_entry d o n now = Some d' → dict_wf d → dict_wf d' ∧ py_get "seq" d' = py_get "seq" d.
Proof.
  unfold close_entry. intros H Hwf. assert (W : dict_wf (dict_set "outcome" (VStr o) (dict_set "ended_at" now d)))
    by (by repeat apply dict_set_wf).
  case_if_in H.
  - apply bind_Some in H as (x & _ & [= <-]). split; [by apply dict_set_wf | by rewrite !py_get_set].
  - injection H as <-. split; [done | by rewrite !py_get_set].
Qed.

Lemma end_ok state o n now s :
  attempts_ok state → run_op state (End o n now) = Some s → attempts_ok s.
Proof.
  intros (h & Hh & Hn & Hc). unfold run_op, end_attempt. rewrite (history_of_ok _ _ Hh).
  cbn [mbind option_bind]. destruct (rev h) as [|last before] eqn:E.
  { intros [= <-]. exists h. auto. }
  assert (Eh : h = rev before ++ [last]) by (rewrite <- (rev_involutive h), E; done). subst h.
  intros (delta & Hd & [= <-])%bind_Some. apply bind_Some in Hd as (d & Hd & Hs).
  apply bind_Some in Hs as (d' & Hd' & [= <-]).
  destruct (Hn (length (rev before)) last) as (d0 & -> & Hwf & Hseq).
  { rewrite lookup_app_r by done. by rewrite Nat.sub_diag. }
  injection Hd as <-. apply close_entry_seq in Hd' as [Hwf' Hseq']; [|done].
  exists (rev before ++ [VDict d']). unfold dict_update. cbn [fold_left fst snd].
  rewrite !dict_get_set. cbn. split; [by left|]. split.
  - apply numbered_snoc; [|done | congruence].
    intros i e Hi. apply (Hn i e). by rewrite lookup_app_l by (by eapply lookup_lt_Some).
  - rewrite length_app in *. cbn in *. destruct Hc as [?|[? Hc]]; [by left|].
    by destruct (rev before).
Qed.

(** The attempts of a task are numbered: from a fresh state, after any
    sequence of beginnings and ends that returns, the counter is the number of
    entries of the history and the entries carry the numbers 1, 2, and so on
    in order. *)
Theorem attempts_numbered state ops s :
  dict_get "pipeline_attempts_history" state = None → dict_get "pipeline_attempt" state = None →
  run_ops state ops = Some s → attempts_ok s.
Proof.
  intros Hh Hc. assert (H0 : attempts_ok state) by (exists []; split; [auto|]; split; [done | auto]).
  clear Hh Hc. revert state H0. induction ops as [|op ops IH]; intros state H0; cbn [run_ops].
  - by intros [= <-].
  - intros (s1 & H1 & H)%bind_Some. apply (IH s1); [|done]. destruct op as [t r n now|o n now].
    + destruct (begin_ok state t r n now H0) as (s2 & E & ?). congruence.
    + by eapply end_ok.
Qed.

Definition two_attempts : list attempt_op :=
  [Begin (VDict [("names", VList [VStr "web-0"])]) REASON_INITIAL "" (VFloat "1.0");
   Begin VNone REASON_GRAPH_REPLAN "" (VFloat "2.0"); End "success" "done" (VFloat "3.0")].

Definition after_two : dict pyval := default [] (run_ops [] two_attempts).

Lemma attempts_numbered_witness : attempts_ok after_two ∧ py_get "pipeline_attempt" after_two = VInt 2.
Proof.
  split; [|reflexivity]. apply (attempts_numbered [] two_attempts after_two); vm_compute; reflexivity.
Defined.

(** A target does not differ from itself in its names. *)
Example same_target_no_switch :
  detect_target_switch (VDict [("names", VList [VStr "a"]); ("namespace", VNone)])
                       (VDict [("namespace", VStr ""); ("names", VList [VStr "a"]); ("params", VInt 1)])
  = Some false.
Proof. reflexivity. Qed.

(** ** Divergences *)

(** Beginning an attempt leaves the previous one open, and only the last one
    is ever ended: the first of the two attempts stays without an outcome. *)
Example superseded_stays_open :
  match py_get "pipeline_attempts_history" after_two with
  | VList [VDict a; VDict b] => Some (py_get "outcome" a, py_get "outcome" b)
  | _ => None
  end = Some (VNone, VStr "success").
Proof. reflexivity. Qed.

(** Adding a second name counts as a switch although the first is the same. *)
Example refined_names_switch :
  detect_target_switch (VDict [("names", VList [VStr "a"])]) (VDict [("names", VList [VStr "a"; VStr "b"])])
  = Some true.
Proof. reflexivity. Qed.
