(* ===== verification/Tokens.v ===== *)
(** * Token counts (memory/tokens.py)

    The count of a text by the best tokenizer at hand, with its quality and a
    safety margin, and the count of a conversation.  The tokenizers belong to
    other packages and are parameters: an encoding has a name and counts the
    tokens of a text or raises. *)

From stdpp Require Import base list strings sets.
From Stdlib Require Import ZArith Ascii SpecFloat.
From S2P Require Import Prelude PyValue PyFloat PyOps PyText PyRe Failure.

(** ** Floats of the counters *)

Definition float_of_Z (z : Z) : spec_float := binary_normalize prec emax z 0 false.
Definition float_mul (x y : spec_float) : spec_float := SFmul prec emax x y.
Definition float_add (x y : spec_float) : spec_float := SFadd prec emax x y.

(** [a / b] of integers, correctly rounded. *)
Definition int_div (a b : Z) : spec_float :=
  let raw z := match z with
               | Z0 => S754_zero false
               | Zpos p => S754_finite false p 0
               | Zneg p => S754_finite true p 0
               end in
  SFdiv prec emax (raw a) (raw b).

(** [math.ceil(x)], [int(x)] and [round(x)] of a finite float. *)
Definition float_ceil (x : spec_float) : Exc Z :=
  match x with
  | S754_zero _ => Some 0%Z
  | S754_finite s m e =>
      let a := (if s then Zneg m else Zpos m) in
      Some (if 0 <=? e then a * 2 ^ e else - ((- a) / 2 ^ (- e)))%Z
  | _ => Raise
  end.

Definition float_int (x : spec_float) : Exc Z :=
  match float_trunc x with TInt z => Some z | _ => Raise end.

Definition float_round (x : spec_float) : Exc Z :=
  match x with
  | S754_zero _ => Some 0%Z
  | S754_finite s m e =>
      let a := (if 0 <=? e then Zpos m * 2 ^ e else div_round_even (Zpos m) (2 ^ (- e)))%Z in
      Some (if s then - a else a)%Z
  | _ => Raise
  end.

(** ** Counts *)

Inductive TokenCountQuality := EXACT | APPROXIMATE | HEURISTIC.

Definition _QUALITY_RANK (q : TokenCountQuality) : nat :=
  match q with EXACT => 0 | APPROXIMATE => 1 | HEURISTIC => 2 end.
Definition _RANK_TO_QUALITY (n : nat) : TokenCountQuality :=
  match n with 0 => EXACT | 1 => APPROXIMATE | _ => HEURISTIC end.

Record TokenCount := mkCount {
  count : Z; quality : TokenCountQuality; encoding_used : string; safety_margin : spec_float }.

Definition f_1_0 : spec_float := Eval vm_compute in float_of_repr "1.0".
Definition f_1_02 : spec_float := Eval vm_compute in float_of_repr "1.02".
Definition f_1_05 : spec_float := Eval vm_compute in float_of_repr "1.05".
Definition f_1_10 : spec_float := Eval vm_compute in float_of_repr "1.1".
Definition f_1_20 : spec_float := Eval vm_compute in float_of_repr "1.2".
Definition f_1_5 : spec_float := Eval vm_compute in float_of_repr "1.5".

Definition safe_count (t : TokenCount) : Exc Z :=
  float_ceil (float_mul (float_of_Z (count t)) (safety_margin t)).

Definition empty_count : TokenCount := mkCount 0 EXACT "empty" f_1_0.

(** ** Families of models *)

Definition family (p : option pattern) (H : p ≠ None) (enc : string) (margin : spec_float) :=
  (get_pattern p H, enc, margin).

Definition _FAMILY_PREFIXES : list (pattern * string * spec_float) := Eval vm_compute in
  [family (compile no_flags "^(gpt-5|gpt-4\.5|gpt-4\.1|chatgpt-4o|gpt-4o|o[134])")
     ltac:(vm_compute; discriminate) "o200k_base" f_1_0;
   family (compile no_flags "^(gpt-4|gpt-3\.5|gpt-35)") ltac:(vm_compute; discriminate) "cl100k_base" f_1_0;
   family (compile no_flags "^qwen3") ltac:(vm_compute; discriminate) "o200k_base" f_1_05;
   family (compile no_flags "^qwen2") ltac:(vm_compute; discriminate) "cl100k_base" f_1_02;
   family (compile no_flags "^qwen") ltac:(vm_compute; discriminate) "o200k_base" f_1_10;
   family (compile no_flags "^deepseek-(v3|r1|reasoner)") ltac:(vm_compute; discriminate) "o200k_base" f_1_05;
   family (compile no_flags "^deepseek") ltac:(vm_compute; discriminate) "cl100k_base" f_1_10;
   family (compile no_flags "^claude") ltac:(vm_compute; discriminate) "cl100k_base" f_1_10;
   family (compile no_flags "^glm-") ltac:(vm_compute; discriminate) "cl100k_base" f_1_10;
   family (compile no_flags "^yi-") ltac:(vm_compute; discriminate) "cl100k_base" f_1_10;
   family (compile no_flags "^moonshot|^kimi-") ltac:(vm_compute; discriminate) "cl100k_base" f_1_10;
   family (compile no_flags "^baichuan") ltac:(vm_compute; discriminate) "cl100k_base" f_1_10;
   family (compile no_flags "^abab|^minimax") ltac:(vm_compute; discriminate) "cl100k_base" f_1_10].

Definition _SKIP_TIKTOKEN_PREFIXES : list string :=
  ["llama"; "meta-"; "mistral"; "mixtral"; "gemini"; "gemma"; "phi-"; "command-"; "stable-"; "falcon"].

(** ** The heuristic *)

Definition _is_cjk (ch : char) : bool :=
  let code := code_point ch in
  (((12288 <=? code) && (code <=? 12351)) || ((13312 <=? code) && (code <=? 19903)) ||
   ((19968 <=? code) && (code <=? 40959)) || ((65280 <=? code) && (code <=? 65519)))%Z.

(** [int(cjk / 1.5 + ascii / 4)]: the sums of text lengths are finite. *)
Definition _heuristic_count (text : string) : Z :=
  let chars := uchars text in
  let cjk := Z.of_nat (length (List.filter _is_cjk chars)) in
  let ascii := (Z.of_nat (length chars) - cjk)%Z in
  default 0%Z (float_int (float_add (SFdiv prec emax (float_of_Z cjk) f_1_5) (int_div ascii 4))).

(** ** Tokenizers and settings *)

Record encoding := mkEncoding { enc_name : string; enc_encode : string → option Z }.

Record TokenBackends := mkBackends {
  has_tiktoken : bool;
  encoding_for_model : string → option encoding;
  get_encoding : string → option encoding;
  hf_enabled : bool;
  hf_tokenizer : string → option (string → option Z);
  tokenizer_model_override : string;
  model_name : string }.

Section counting.
Context (B : TokenBackends).

Definition _resolve_model (model : string) : string :=
  lower (strip (str_or (tokenizer_model_override B) (str_or model (model_name B)))).

Definition _layer3_or_4 (text resolved : string) : TokenCount :=
  let heuristic := mkCount (_heuristic_count text) HEURISTIC "heuristic-cjk" f_1_20 in
  if hf_enabled B && contains "/" resolved then
    match hf_tokenizer B resolved with
    | Some tok =>
        match tok text with
        | Some n => mkCount n EXACT ("hf:" +:+ resolved) f_1_0
        | None => heuristic
        end
    | None => heuristic
    end
  else heuristic.

(** The first family of the model; a matching family without an encoder ends
    the search. *)
Definition layer2 (text resolved : string) : option TokenCount :=
  if has_tiktoken B && truthy resolved then
    match List.find (λ pem, match re_match pem.1.1 resolved with Some _ => true | None => false end)
            _FAMILY_PREFIXES with
    | Some (_, name, margin) =>
        enc ← get_encoding B name;
        n ← enc_encode enc text;
        Some (mkCount n (if same_float margin f_1_0 then EXACT else APPROXIMATE) name margin)
    | None => None
    end
  else None.

Definition layer1 (text resolved : string) : option TokenCount :=
  if has_tiktoken B && truthy resolved then
    enc ← encoding_for_model B resolved;
    n ← enc_encode enc text;
    Some (mkCount n EXACT (enc_name enc) f_1_0)
  else None.

Definition count_tokens (text model : string) : TokenCount :=
  if negb (truthy text) then empty_count
  else
    let resolved := _resolve_model model in
    if existsb (λ p, startswith resolved p) _SKIP_TIKTOKEN_PREFIXES then _layer3_or_4 text resolved
    else
      match layer1 text resolved with
      | Some t => t
      | None =>
          match layer2 text resolved with
          | Some t => t
          | None => _layer3_or_4 text resolved
          end
      end.

(** ** Conversations *)

(** The texts of the content of a message. *)
Definition content_texts (content : pyval) : Exc (list string) :=
  match content with
  | VStr s => Some [s]
  | VList items =>
      texts ← mapM (λ item,
          match item with
          | VDict d =>
              if dict_mem "text" d then t ← as_str (py_or (py_get "text" d) (VStr "")); Some [t] else Some []
          | _ => Some []
          end) items;
      Some (concat texts)
  | _ => Some []
  end.

Definition message_content (m : Message) : pyval :=
  match m with
  | AIMessage c _ _ => c
  | ToolMessage c _ _ _ | HumanMessage c | SystemMessage c => VStr c
  end.

(** What a batch has seen so far: tokens, the worst quality and its encoding,
    the largest margin. *)
Record seen := mkSeen { sn_tokens : Z; sn_rank : nat; sn_encoding : string; sn_margin : spec_float }.

Definition _absorb (model : string) (s : seen) (text : string) : seen :=
  if negb (truthy text) then s
  else
    let tc := count_tokens text model in
    let rank := _QUALITY_RANK (quality tc) in
    mkSeen (sn_tokens s + count tc)
      (if Nat.ltb (sn_rank s) rank then rank else sn_rank s)
      (if Nat.ltb (sn_rank s) rank then encoding_used tc
       else if Nat.eqb (sn_rank s) 0 && String.eqb (sn_encoding s) "empty" then encoding_used tc
       else sn_encoding s)
      (match SFcompare (safety_margin tc) (sn_margin s) with
       | Some Gt => safety_margin tc
       | _ => sn_margin s
       end).

(** One message: its tokens and one envelope, when it has any. *)
Definition absorb_message (model : string) (st : seen * Z) (m : Message) : Exc (seen * Z) :=
  let '(s, total) := st in
  texts ← content_texts (message_content m);
  let s' := fold_left (_absorb model) texts (mkSeen 0 (sn_rank s) (sn_encoding s) (sn_margin s)) in
  Some (s', if (0 <? sn_tokens s')%Z then (total + sn_tokens s' + 4)%Z else total).

Fixpoint absorb_all (model : string) (st : seen * Z) (l : list Message) : Exc (seen * Z) :=
  match l with
  | [] => Some st
  | m :: l' => st' ← absorb_message model st m; absorb_all model st' l'
  end.

Definition count_tokens_messages (messages : list Message) (model : string) : Exc TokenCount :=
  match messages with
  | [] => Some empty_count
  | _ =>
      '(s, total) ← absorb_all model (mkSeen 0 0 "empty" f_1_0, 0%Z) messages;
      Some (mkCount (total + 2) (_RANK_TO_QUALITY (sn_rank s)) (sn_encoding s) (sn_margin s))
  end.
End counting.

(** What a client of the counters relies on. *)
Class TokenOps := { count_messages : list Message → Exc TokenCount }.

#[global] Instance token_ops (B : TokenBackends) : TokenOps :=
  {| count_messages l := count_tokens_messages B l "" |}.

(** * Properties *)

(** ** A conversation is counted conservatively *)

(** The margins the counters use; they are ordered. *)
Definition margins : list spec_float := [f_1_0; f_1_02; f_1_05; f_1_10; f_1_20].

Lemma margins_ordered x y :
  x ∈ margins → y ∈ margins →
  SFleb x (match SFcompare y x with Some Gt => y | _ => x end) = true ∧
  SFleb y (match SFcompare y x with Some Gt => y | _ => x end) = true ∧
  match SFcompare y x with Some Gt => y | _ => x end ∈ margins.
Proof.
  intros Hx Hy.
  assert (H : forallb (λ a, forallb (λ b,
     let z := match SFcompare b a with Some Gt => b | _ => a end in
     SFleb a z && SFleb b z && existsb (same_float z) margins) margins) margins = true) by reflexivity.
  rewrite forallb_forall in H. apply list_elem_of_In in Hx as Hx'. specialize (H _ Hx'). cbv beta in H.
  rewrite forallb_forall in H. apply list_elem_of_In in Hy as Hy'. specialize (H _ Hy'). cbv beta in H.
  apply andb_prop in H as [H _]. apply andb_prop in H as [H1 H2].
  split; [done|]. split; [done|]. by destruct (SFcompare y x) as [[]|].
Qed.

Lemma margins_trans x y z :
  x ∈ margins → y ∈ margins → z ∈ margins → SFleb x y = true → SFleb y z = true → SFleb x z = true.
Proof.
  intros Hx Hy Hz.
  assert (H : forallb (λ a, forallb (λ b, forallb (λ c,
     implb (SFleb a b && SFleb b c) (SFleb a c)) margins) margins) margins = true) by reflexivity.
  rewrite forallb_forall in H. apply list_elem_of_In in Hx. specialize (H _ Hx). cbv beta in H.
  rewrite forallb_forall in H. apply list_elem_of_In in Hy. specialize (H _ Hy). cbv beta in H.
  rewrite forallb_forall in H. apply list_elem_of_In in Hz. specialize (H _ Hz). cbv beta in H.
  intros H1 H2. by rewrite H1, H2 in H.
Qed.

Section counting_props.
Context (B : TokenBackends).

Lemma layer3_margin text resolved : safety_margin (_layer3_or_4 B text resolved) ∈ margins.
Proof. unfold _layer3_or_4. repeat case_match; set_solver. Qed.

Lemma family_margins : Forall (λ pem, pem.2 ∈ margins) _FAMILY_PREFIXES.
Proof. repeat apply Forall_cons_2; try constructor; cbn [snd]; set_solver. Qed.

Lemma count_tokens_margin text model : safety_margin (count_tokens B text model) ∈ margins.
Proof.
  unfold count_tokens. case_match; [set_solver|]. case_match; [apply layer3_margin|].
  destruct (layer1 B text _) as [t|] eqn:E1.
  { revert E1. unfold layer1. case_match; [|done]. intros (e & _ & (n & _ & [= <-])%bind_Some)%bind_Some.
    set_solver. }
  destruct (layer2 B text _) as [t|] eqn:E2; [|apply layer3_margin].
  revert E2. unfold layer2. case_match; [|done].
  destruct (List.find _ _) as [[[p name] margin]|] eqn:Ef; [|done].
  intros (e & _ & (n & _ & [= <-])%bind_Some)%bind_Some. simpl.
  apply find_some in Ef as [Ef _]. apply list_elem_of_In in Ef.
  apply (proj1 (Forall_forall _ _) family_margins _ Ef).
Qed.

(** A batch covers a count: its quality is no better and its margin no
    smaller. *)
Definition covers (s : seen) (t : TokenCount) : Prop :=
  (_QUALITY_RANK (quality t) ≤ sn_rank s)%nat ∧ SFleb (safety_margin t) (sn_margin s) = true.

(** Later batches are more cautious. *)
Definition grows (s s' : seen) : Prop :=
  (sn_rank s ≤ sn_rank s')%nat ∧ SFleb (sn_margin s) (sn_margin s') = true ∧
  sn_margin s ∈ margins ∧ sn_margin s' ∈ margins ∧ ((sn_rank s ≤ 2)%nat → (sn_rank s' ≤ 2)%nat).

Lemma grows_refl s s' : sn_rank s = sn_rank s' → sn_margin s = sn_margin s' → sn_margin s ∈ margins → grows s s'.
Proof.
  intros Hr Hm Hin. unfold grows. rewrite <- Hr, <- Hm. repeat split; try done.
  pose proof (margins_ordered _ _ Hin Hin) as (H & _ & _). by destruct (SFcompare _ _) as [[]|].
Qed.

Lemma grows_trans s1 s2 s3 : grows s1 s2 → grows s2 s3 → grows s1 s3.
Proof.
  intros (?&?&?&?&?) (?&?&?&?&?). unfold grows. split_and!; [lia | by eapply (margins_trans _ (sn_margin s2)) | done | done | auto].
Qed.

Lemma covers_grows s s' t : safety_margin t ∈ margins → covers s t → grows s s' → covers s' t.
Proof. intros Ht [??] (?&?&?&?&?). split; [lia | by eapply (margins_trans _ (sn_margin s))]. Qed.

Lemma absorb_step model s text :
  sn_margin s ∈ margins →
  grows s (_absorb B model s text) ∧
  (truthy text = true → covers (_absorb B model s text) (count_tokens B text model)).
Proof.
  intros Hs. unfold _absorb. destruct (truthy text) eqn:Et; cbn [negb].
  2:{ split; [by apply grows_refl | done]. }
  pose proof (count_tokens_margin text model) as Hm.
  destruct (count_tokens B text model) as [c q e mg]; cbn [safety_margin quality count encoding_used] in *.
  destruct (margins_ordered _ _ Hs Hm) as (H1 & H2 & H3).
  split; [|intros _; split; cbn [sn_rank sn_margin quality safety_margin]; [|done]].
  - split; [|split; [done|split; [done|split; [done|]]]]; cbn [sn_rank];
      destruct (Nat.ltb_spec (sn_rank s) (_QUALITY_RANK q)); try lia. destruct q; simpl; lia.
  - destruct (Nat.ltb_spec (sn_rank s) (_QUALITY_RANK q)); lia.
Qed.

Lemma absorb_texts model texts s :
  sn_margin s ∈ margins →
  grows s (fold_left (_absorb B model) texts s) ∧
  ∀ t, t ∈ texts → truthy t = true → covers (fold_left (_absorb B model) texts s) (count_tokens B t model).
Proof.
  revert s. induction texts as [|x texts IH]; intros s Hs; simpl.
  { split; [by apply grows_refl | set_solver]. }
  destruct (absorb_step model s x Hs) as [Hg Hc].
  destruct (IH (_absorb B model s x)) as [Hg' Hc']; [apply Hg|].
  split; [by eapply grows_trans|]. intros t [->|Ht]%elem_of_cons Htr; [|by apply Hc'].
  eapply covers_grows; [apply count_tokens_margin | by apply Hc | done].
Qed.

(** A text of a message. *)
Definition text_of (m : Message) (t : string) : Prop :=
  ∃ texts, content_texts (message_content m) = Some texts ∧ t ∈ texts.

Lemma absorb_all_covers model l st st' :
  absorb_all B model st l = Some st' → sn_margin st.1 ∈ margins →
  grows st.1 st'.1 ∧
  ∀ m t, m ∈ l → text_of m t → truthy t = true → covers st'.1 (count_tokens B t model).
Proof.
  revert st. induction l as [|m l IH]; intros [s total]; cbn [absorb_all].
  { intros [= <-] Hs. split; [by apply grows_refl | set_solver]. }
  intros (st1 & Hm & Hl)%bind_Some Hs. cbn [fst] in Hs.
  unfold absorb_message in Hm. apply bind_Some in Hm as (texts & Ht & [= <-]).
  destruct (absorb_texts model texts (mkSeen 0 (sn_rank s) (sn_encoding s) (sn_margin s)) Hs) as [Hg Hc].
  destruct (IH _ Hl) as [Hg' Hc']; [apply Hg|]. cbn [fst] in *.
  split; [eapply grows_trans; [|exact Hg']; exact Hg|].
  intros m' t [->|Hin]%elem_of_cons (texts' & Ht' & Hin') Htr.
  - rewrite Ht in Ht'. injection Ht' as <-.
    eapply covers_grows; [apply count_tokens_margin | by apply Hc | done].
  - apply (Hc' m' t); [done | by exists texts' | done].
Qed.

(** The count of a conversation is as cautious as its weakest part: for every
    text of every message, the quality of the whole is no better and its
    safety margin no smaller than those of the text alone. *)
Theorem batch_count_conservative messages model tc m t :
  count_tokens_messages B messages model = Some tc →
  m ∈ messages → text_of m t → truthy t = true →
  (_QUALITY_RANK (quality (count_tokens B t model)) ≤ _QUALITY_RANK (quality tc))%nat ∧
  SFleb (safety_margin (count_tokens B t model)) (safety_margin tc) = true.
Proof.
  unfold count_tokens_messages. destruct messages as [|m0 l]; [set_solver|].
  intros ([s total] & Ha & [= <-])%bind_Some Hm Ht Htr.
  apply absorb_all_covers in Ha as [Hg Hc]; [|cbn; set_solver].
  destruct (Hc m t Hm Ht Htr) as [H1 H2]. cbn [quality safety_margin fst] in *. split; [|done].
  destruct Hg as (_ & _ & _ & _ & Hr). cbn in Hr. specialize (Hr ltac:(lia)).
  destruct (sn_rank s) as [|[|[|]]]; simpl; lia.
Qed.
End counting_props.

(** Without a tokenizer every text is counted by the heuristic. *)
Definition no_backends : TokenBackends :=
  mkBackends false (λ _, None) (λ _, None) false (λ _, None) "" "qwen-max".

Definition two_messages : list Message := [HumanMessage "restart the pod"; AIMessage (VStr "done") VNone []].

Lemma batch_count_conservative_witness :
  SFleb (safety_margin (count_tokens no_backends "done" "")) f_1_20 = true.
Proof.
  destruct (count_tokens_messages no_backends two_messages "") as [tc|] eqn:E; [|by vm_compute in E].
  pose proof (batch_count_conservative no_backends two_messages "" tc (AIMessage (VStr "done") VNone []) "done" E)
    as H.
  vm_compute in E. injection E as <-. apply H; [set_solver | by exists ["done"]; split; [|set_solver] | done].
Defined.

Example two_messages_counted :
  count <$> count_tokens_messages no_backends two_messages "" = Some 14%Z.
Proof. reflexivity. Qed.
