(* ===== verification/ContextManager.v ===== *)
(** * The context window (memory/context_manager.py)

    The thresholds of the token budget, the split of a conversation into the
    messages to compact and the messages to keep, the grouping by rounds and
    the truncation of large tool outputs.  Token counts come through the class
    [TokenOps]. *)

From stdpp Require Import base list strings sorting sets.
From Stdlib Require Import ZArith Ascii SpecFloat.
From S2P Require Import Prelude PyValue PyFloat PyOps PyText Failure Tokens.

(** ** Thresholds *)

Inductive CompactLevel := NORMAL | WARNING | ERROR | AUTO_COMPACT | BLOCKING.

Record TokenWarningState := mkWarning {
  percent_left : Z; level : CompactLevel; is_above_warning : bool; is_above_error : bool;
  is_above_auto_compact : bool; is_at_blocking : bool }.

Definition AUTOCOMPACT_BUFFER_TOKENS : Z := 13000.
Definition WARNING_BUFFER_TOKENS : Z := 20000.
Definition ERROR_BUFFER_TOKENS : Z := 20000.
Definition BLOCKING_BUFFER_TOKENS : Z := 3000.
Definition MAX_CONSECUTIVE_COMPACT_FAILURES : Z := 3.

Record CompactTrackingState := mkTracking {
  compacted : bool; turn_count : Z; consecutive_failures : Z }.

Definition f_0_5 : spec_float := Eval vm_compute in float_of_repr "0.5".
Definition f_0_85 : spec_float := Eval vm_compute in float_of_repr "0.85".
Definition f_0_95 : spec_float := Eval vm_compute in float_of_repr "0.95".
Definition f_100 : spec_float := Eval vm_compute in float_of_repr "100.0".

(** [int(n * ratio)]. *)
Definition scaled (n : Z) (ratio : spec_float) : Exc Z := float_int (float_mul (float_of_Z n) ratio).

(** The division by a zero threshold raises. *)
Definition percent_of (threshold usage : Z) : Exc Z :=
  if (threshold =? 0)%Z then Raise
  else p ← float_round (float_mul (int_div (threshold - usage) threshold) f_100); Some (Z.max 0 p).

Definition auto_compact_threshold (max_tokens : Z) (enabled : bool) (ratio : spec_float) : Exc Z :=
  if enabled then
    by_ratio ← scaled max_tokens ratio;
    floor ← scaled max_tokens f_0_5;
    Some (Z.max (Z.min (max_tokens - AUTOCOMPACT_BUFFER_TOKENS) by_ratio) floor)
  else Some max_tokens.

Definition calculate_token_warning_state (token_usage max_tokens : Z) (auto_compact_enabled : bool)
    (compact_ratio : spec_float) : Exc TokenWarningState :=
  threshold ← auto_compact_threshold max_tokens auto_compact_enabled compact_ratio;
  percent ← percent_of threshold token_usage;
  near_full ← scaled max_tokens f_0_95;
  let warning_threshold := Z.max (threshold - WARNING_BUFFER_TOKENS) 0 in
  let error_threshold := Z.max (threshold - ERROR_BUFFER_TOKENS) 0 in
  let blocking_limit := Z.max (max_tokens - BLOCKING_BUFFER_TOKENS) near_full in
  Some (mkWarning percent
    (if blocking_limit <=? token_usage then BLOCKING
     else if auto_compact_enabled && (threshold <=? token_usage) then AUTO_COMPACT
     else if error_threshold <=? token_usage then ERROR
     else if warning_threshold <=? token_usage then WARNING
     else NORMAL)%Z
    (warning_threshold <=? token_usage)%Z
    (error_threshold <=? token_usage)%Z
    (auto_compact_enabled && (threshold <=? token_usage)%Z)
    (blocking_limit <=? token_usage)%Z).

(** ** Pairs and rounds *)

Definition is_ai (m : Message) : bool := match m with AIMessage _ _ _ => true | _ => false end.
Definition is_tool (m : Message) : bool := match m with ToolMessage _ _ _ _ => true | _ => false end.
Definition has_tool_calls (m : Message) : bool :=
  match m with AIMessage _ _ (_ :: _) => true | _ => false end.

(** [to_keep.insert(0, to_compact.pop())] when the last message to compact
    calls tools. *)
Definition ensure_pair_integrity (to_compact to_keep : list Message) : list Message * list Message :=
  match last to_compact with
  | Some m => if has_tool_calls m then (removelast to_compact, m :: to_keep) else (to_compact, to_keep)
  | None => (to_compact, to_keep)
  end.

Definition flush (current : list Message) : list (list Message) :=
  match current with [] => [] | _ => [current] end.

Fixpoint group_go (current : list Message) (l : list Message) : list (list Message) :=
  match l with
  | [] => flush current
  | m :: l' =>
      if is_ai m && has_tool_calls m && nonempty current then current :: group_go [m] l'
      else if is_ai m && negb (has_tool_calls m) && nonempty current then current :: group_go [m] l'
      else group_go (current ++ [m]) l'
  end.

Definition group_messages_by_round (messages : list Message) : list (list Message) :=
  match messages with [] => [] | _ => group_go [] messages end.

Definition COMPRESSED_HISTORY_PREFIX : string := "[Compressed History]".

Definition _is_compressed_history (m : Message) : bool :=
  match message_content m with
  | VStr s => startswith s COMPRESSED_HISTORY_PREFIX
  | _ => false
  end.

(** ** The manager *)

Record ContextManager := mkManager {
  max_tokens : Z; compact_ratio : spec_float; compact_threshold : Z; reserve_tokens : Z }.

Definition context_manager_init (max_tokens : Z) (ratio : spec_float) : Exc ContextManager :=
  t ← scaled max_tokens ratio; Some (mkManager max_tokens ratio t 20000).

(** The messages of a conversation are distinct objects: a message stands
    with its position, which is what [id] tells apart. *)
Abbreviation placed := (nat * Message)%type.

Definition place (l : list Message) : list placed := imap pair l.

Definition is_summary (m : placed) : bool := _is_compressed_history m.2.

#[local] Instance earlier_dec : RelDecision (λ x y : placed, (x.1 ≤ y.1)%nat).
Proof. intros x y. apply _. Defined.

Section check.
Context `{TokenOps} (cm : ContextManager).

Definition tokens_of (m : placed) : Exc Z := t ← count_messages [m.2]; Some (count t).

Fixpoint summary_tokens (l : list placed) : Exc Z :=
  match l with
  | [] => Some 0%Z
  | m :: l' => n ← tokens_of m; r ← summary_tokens l'; Some (n + r)%Z
  end.

(** From the newest message on, while the reserve lasts. *)
Fixpoint keep_recent (kept : Z) (newest_first acc : list placed) : Exc (list placed) :=
  match newest_first with
  | [] => Some acc
  | m :: l =>
      if is_summary m then keep_recent kept l acc
      else
        n ← tokens_of m;
        if (reserve_tokens cm <? kept + n)%Z then Some acc else keep_recent (kept + n) l (m :: acc)
  end.

(** Summaries and recent messages in their original order, and the rest. *)
Definition split_context (messages : list Message) : Exc (list Message * list Message) :=
  let all := place messages in
  let summaries := List.filter is_summary all in
  kept ← summary_tokens summaries;
  recent ← keep_recent kept (rev all) [];
  let to_keep := merge_sort (λ x y : placed, (x.1 ≤ y.1)%nat) (summaries ++ recent) in
  Some (map snd (List.filter (λ m, negb (existsb (λ k : placed, Nat.eqb k.1 m.1) to_keep)) all),
        map snd to_keep).

(** A tool result without its caller goes back. *)
Definition return_orphan (to_compact to_keep : list Message) : list Message * list Message :=
  match to_compact, to_keep with
  | _ :: _, m :: l => if is_tool m then (to_compact ++ [m], l) else (to_compact, to_keep)
  | _, _ => (to_compact, to_keep)
  end.

Definition circuit_open (tracking : option CompactTrackingState) : bool :=
  match tracking with
  | Some t => (MAX_CONSECUTIVE_COMPACT_FAILURES <=? consecutive_failures t)%Z
  | None => false
  end.

Definition check_context (messages : list Message) (tracking : option CompactTrackingState)
    (force : bool) : Exc (list Message * list Message * bool) :=
  tc ← count_messages messages;
  total_tokens ← safe_count tc;
  w ← calculate_token_warning_state total_tokens (max_tokens cm) true (compact_ratio cm);
  if negb force && circuit_open tracking then Some ([], messages, false)
  else if negb force && negb (is_above_auto_compact w) then Some ([], messages, true)
  else
    '(to_compact, to_keep) ← split_context messages;
    let '(to_compact, to_keep) := return_orphan to_compact to_keep in
    let '(to_compact, to_keep) := ensure_pair_integrity to_compact to_keep in
    Some (to_compact, to_keep, negb (is_at_blocking w)).
End check.

(** ** Large outputs *)

Definition STRIP_HEAD_CHARS : nat := 500.
Definition STRIP_TAIL_CHARS : nat := 500.
Definition STRIP_THRESHOLD_CHARS : nat := 2000.
Definition STRIP_MARKER : string := String "010" "... [output truncated] ..." +:+ String "010" "".

Definition last_chars (n : nat) (s : string) : string :=
  let cs := uchars s in unchars (drop (length cs - n) cs).

Definition truncated (content : string) : string :=
  unchars (take STRIP_HEAD_CHARS (uchars content)) +:+ STRIP_MARKER +:+ last_chars STRIP_TAIL_CHARS content.

Definition strip_message (threshold : nat) (m : Message) : Message :=
  match m with
  | ToolMessage content name id err =>
      if Nat.leb (length (uchars content)) threshold then m
      else ToolMessage (truncated content) name id err
  | _ => m
  end.

Definition strip_large_outputs (messages : list Message) (threshold : nat) : list Message :=
  map (strip_message threshold) messages.

(** The update after a compaction, and the task whose cached environment is
    dropped. *)
Definition post_compact_cleanup (state : dict pyval) : dict pyval * option pyval :=
  let task_id := get_d "task_id" (VStr "") state in
  ([("_compacted_this_turn", VBool true)], if py_truthy task_id then Some task_id else None).

(** * Properties *)

(** ** The split loses nothing *)

Lemma place_snd l : map snd (place l) = l.
Proof.
  unfold place. apply list_eq. intros i. change (map snd) with (fmap (M:=list) (@snd nat Message)).
  rewrite list_lookup_fmap, list_lookup_imap. by destruct (l !! i).
Qed.

Lemma place_nodup l : NoDup (map fst (place l)).
Proof.
  unfold place. replace (map fst (imap pair l)) with (seq 0 (length l)); [apply NoDup_seq|].
  apply list_eq. intros i. change (map fst) with (fmap (M:=list) (@fst nat Message)).
  rewrite list_lookup_fmap, list_lookup_imap.
  destruct (l !! i) eqn:E; simpl.
  - apply lookup_seq. split; [done|]. by apply lookup_lt_Some in E.
  - apply lookup_seq_ge. by apply lookup_ge_None in E.
Qed.

Lemma keep_recent_spec `{TokenOps} cm kept l acc r :
  keep_recent cm kept l acc = Some r →
  ∃ n, r = rev (List.filter (λ m, negb (is_summary m)) (take n l)) ++ acc.
Proof.
  revert kept acc. induction l as [|m l IH]; intros kept acc; cbn [keep_recent].
  - intros [= <-]. by exists 0%nat.
  - destruct (is_summary m) eqn:Es.
    + intros [n ->]%IH. exists (S n). simpl. by rewrite Es.
    + destruct (tokens_of m) as [t|]; [cbn|done].
      destruct (reserve_tokens cm <? kept + t)%Z; [intros [= <-]; by exists 0%nat|].
      intros [n ->]%IH. exists (S n). simpl. rewrite Es. simpl. by rewrite <- app_assoc.
Qed.

Lemma nodup_filter_bool {A} (f : A → bool) l : NoDup l → NoDup (List.filter f l).
Proof. intros. by apply NoDup_ListNoDup, List.NoDup_filter, NoDup_ListNoDup. Qed.

Lemma filter_keys_perm (l k : list placed) :
  NoDup (map fst l) → NoDup k → (∀ x, x ∈ k → x ∈ l) →
  List.filter (λ m, negb (existsb (λ j : placed, Nat.eqb j.1 m.1) k)) l ++ k ≡ₚ l.
Proof.
  intros Hl Hk Hsub.
  assert (Hin : ∀ x, x ∈ l → existsb (λ j : placed, Nat.eqb j.1 x.1) k = true ↔ x ∈ k).
  { intros x Hx. rewrite existsb_exists. split.
    - intros (j & Hj & Ej). apply list_elem_of_In in Hj. apply Nat.eqb_eq in Ej.
      assert (j = x) as ->; [|done]. apply Hsub in Hj.
      apply list_elem_of_lookup in Hx as [a Ha]. apply list_elem_of_lookup in Hj as [b Hb].
      assert (a = b) as ->.
      { apply (NoDup_lookup _ _ _ x.1 Hl);
          change (map fst) with (fmap (M:=list) (@fst nat Message)); rewrite list_lookup_fmap;
          [by rewrite Ha |]. rewrite Hb. simpl. by rewrite Ej. }
      congruence.
    - intros Hj. exists x. rewrite <- list_elem_of_In. by rewrite Nat.eqb_refl. }
  apply NoDup_fmap_1 in Hl.
  apply NoDup_Permutation; [|done|].
  - apply NoDup_app. repeat split; [|intros x [Hx He]%list_elem_of_In%filter_In |done].
    + by apply nodup_filter_bool.
    + intros Hxk. apply list_elem_of_In in Hx. apply Hin in Hxk; [|done]. by rewrite Hxk in He.
  - intros x. rewrite elem_of_app, list_elem_of_In, filter_In, <- list_elem_of_In. split.
    + intros [[??]|?]; auto.
    + intros Hx. destruct (existsb _ k) eqn:E; [right; by apply Hin | by left].
Qed.

Lemma kept_nodup (l : list placed) n :
  NoDup l →
  NoDup (List.filter is_summary l ++ rev (List.filter (λ m, negb (is_summary m)) (take n (rev l)))).
Proof.
  intros Hl. apply NoDup_app. repeat split.
  - by apply nodup_filter_bool.
  - intros x. rewrite !list_elem_of_In, <- in_rev, !filter_In. intros [_ ->] [_ ?]. done.
  - rewrite <- Permutation_rev. apply nodup_filter_bool.
    eapply sublist_NoDup; [|apply sublist_take]. by rewrite <- Permutation_rev.
Qed.

Lemma kept_subset (l : list placed) n x :
  x ∈ List.filter is_summary l ++ rev (List.filter (λ m, negb (is_summary m)) (take n (rev l))) → x ∈ l.
Proof.
  rewrite elem_of_app, !list_elem_of_In, <- in_rev, !filter_In, <- !list_elem_of_In.
  intros [[??]|[H _]]; [done|]. apply elem_of_take in H as (i & H & _).
  apply list_elem_of_lookup_2 in H. by rewrite list_elem_of_In, <- in_rev, <- list_elem_of_In in H.
Qed.

Lemma split_context_perm `{TokenOps} cm messages c k :
  split_context cm messages = Some (c, k) → c ++ k ≡ₚ messages.
Proof.
  unfold split_context. intros Hs.
  destruct (summary_tokens _) as [kept|]; [cbn in Hs|done].
  destruct (keep_recent _ _ _ _) as [recent|] eqn:Er; [cbn in Hs|done].
  apply keep_recent_spec in Er as [n ->]. injection Hs as <- <-.
  rewrite app_nil_r, <- map_app. etransitivity; [apply Permutation_map | by rewrite place_snd].
  pose proof (place_nodup messages) as Hnd.
  apply filter_keys_perm; [done| |].
  - rewrite merge_sort_Permutation. apply kept_nodup. by apply NoDup_fmap_1 in Hnd.
  - intros x. rewrite merge_sort_Permutation. apply kept_subset.
Qed.

Lemma return_orphan_perm c k c' k' : return_orphan c k = (c', k') → c' ++ k' ≡ₚ c ++ k.
Proof.
  unfold return_orphan. destruct c as [|a c], k as [|m k]; try by intros [= <- <-].
  destruct (is_tool m); intros [= <- <-]; [|done]. by rewrite app_comm_cons, <- app_assoc.
Qed.

Lemma last_removelast {A} (l : list A) x : last l = Some x → l = removelast l ++ [x].
Proof. intros [l' ->]%last_Some. by rewrite removelast_last. Qed.

Lemma pair_integrity_perm c k c' k' : ensure_pair_integrity c k = (c', k') → c' ++ k' ≡ₚ c ++ k.
Proof.
  unfold ensure_pair_integrity. destruct (last c) as [m|] eqn:El; [|by intros [= <- <-]].
  destruct (has_tool_calls m); intros [= <- <-]; [|done].
  rewrite (last_removelast _ _ El) at 2. by rewrite <- app_assoc.
Qed.

(** The three outcomes of a check. *)
Lemma check_context_cases `{TokenOps} cm messages tracking force c k valid :
  check_context cm messages tracking force = Some (c, k, valid) →
  (c = [] ∧ k = messages) ∨
  ∃ c0 k0 c1 k1, split_context cm messages = Some (c0, k0) ∧ return_orphan c0 k0 = (c1, k1) ∧
    ensure_pair_integrity c1 k1 = (c, k).
Proof.
  unfold check_context. intros Hc.
  apply bind_Some in Hc as (tc & _ & Hc). apply bind_Some in Hc as (n & _ & Hc).
  apply bind_Some in Hc as (w & _ & Hc).
  destruct (negb force && circuit_open tracking); [injection Hc as <- <- _; by left|].
  destruct (negb force && _); [injection Hc as <- <- _; by left|].
  apply bind_Some in Hc as ([c0 k0] & Hs & Hc).
  destruct (return_orphan c0 k0) as [c1 k1] eqn:Eo.
  destruct (ensure_pair_integrity c1 k1) as [c2 k2] eqn:Ep.
  injection Hc as -> -> _. right. by exists c0, k0, c1, k1.
Qed.

(** A check of the context loses no message and invents none: the messages
    to compact and the messages to keep are together the conversation. *)
Theorem check_context_partition `{TokenOps} cm messages tracking force c k valid :
  check_context cm messages tracking force = Some (c, k, valid) → c ++ k ≡ₚ messages.
Proof.
  intros [[-> ->]|(c0 & k0 & c1 & k1 & Hs & Ho & Hp)]%check_context_cases; [done|].
  rewrite (pair_integrity_perm _ _ _ _ Hp), (return_orphan_perm _ _ _ _ Ho).
  by apply split_context_perm in Hs.
Qed.

(** ** Summaries survive *)

Lemma split_keeps_summaries `{TokenOps} cm messages c k m :
  split_context cm messages = Some (c, k) → m ∈ messages → _is_compressed_history m = true → m ∈ k.
Proof.
  unfold split_context. intros Hs Hm Hc.
  destruct (summary_tokens _) as [kept|]; [cbn in Hs|done].
  destruct (keep_recent _ _ _ _) as [recent|]; [cbn in Hs|done]. injection Hs as _ <-.
  rewrite <- (place_snd messages), list_elem_of_In, in_map_iff in Hm. destruct Hm as (p & <- & Hp).
  rewrite list_elem_of_In. apply in_map. rewrite <- list_elem_of_In, merge_sort_Permutation, elem_of_app.
  left. by rewrite list_elem_of_In, filter_In.
Qed.

(** A summary of earlier history is kept by every compaction, so that it is
    never compressed again (a tool output that starts like one aside). *)
Theorem summaries_kept `{TokenOps} cm messages tracking force c k valid m :
  check_context cm messages tracking force = Some (c, k, valid) →
  m ∈ messages → _is_compressed_history m = true → is_tool m = false → m ∈ k.
Proof.
  intros [[-> ->]|(c0 & k0 & c1 & k1 & Hs & Ho & Hp)]%check_context_cases Hm Hc Ht; [done|].
  pose proof (split_keeps_summaries _ _ _ _ _ Hs Hm Hc) as Hk.
  assert (Hk1 : m ∈ k1).
  { revert Ho. unfold return_orphan. destruct c0 as [|a c0], k0 as [|m0 k0]; try by intros [= <- <-].
    destruct (is_tool m0) eqn:E0; intros [= _ <-]; [|done].
    apply elem_of_cons in Hk as [->|?]; [congruence|done]. }
  revert Hp. unfold ensure_pair_integrity. destruct (last c1) as [m1|]; [|by intros [= _ <-]].
  destruct (has_tool_calls m1); intros [= _ <-]; [|done]. by apply elem_of_cons; right.
Qed.

(** ** The reserve *)

(** The recent messages kept fit in the reserve beside the summaries. *)
Lemma keep_recent_bound `{TokenOps} cm kept l acc r a :
  keep_recent cm kept l acc = Some r → summary_tokens acc = Some a →
  ∃ b, summary_tokens r = Some (a + b)%Z ∧ (kept + b ≤ Z.max kept (reserve_tokens cm))%Z.
Proof.
  revert kept acc a. induction l as [|m l IH]; intros kept acc a; cbn [keep_recent].
  - intros [= <-] ->. exists 0%Z. split; [by rewrite Z.add_0_r | lia].
  - destruct (is_summary m); [apply IH|].
    destruct (tokens_of m) as [t|] eqn:Et; [cbn|done].
    destruct (Z.ltb_spec (reserve_tokens cm) (kept + t)).
    { intros [= <-] ->. exists 0%Z. split; [by rewrite Z.add_0_r | lia]. }
    intros Hr Ha.
    destruct (IH (kept + t)%Z (m :: acc) (t + a)%Z Hr) as (b & Hb & Hle).
    { simpl. by rewrite Et, Ha. }
    exists (t + b)%Z. split; [rewrite Hb; f_equal; lia | lia].
Qed.

(** ** Rounds *)

Lemma group_go_concat cur l : concat (group_go cur l) = cur ++ l.
Proof.
  revert cur. induction l as [|m l IH]; intros cur; cbn [group_go].
  - destruct cur; simpl; by rewrite ?app_nil_r.
  - destruct (is_ai m && has_tool_calls m && nonempty cur); [simpl; by rewrite IH|].
    destruct (is_ai m && negb (has_tool_calls m) && nonempty cur); [simpl; by rewrite IH|].
    rewrite IH, <- app_assoc. done.
Qed.

(** A group holds at most one assistant message, at its head. *)
Definition round (g : list Message) : Prop := g ≠ [] ∧ Forall (λ m, is_ai m = false) (tail g).

(** The first group starts with the group under way. *)
Lemma group_go_head cur l : cur ≠ [] → (head <$> head (group_go cur l)) = Some (head cur).
Proof.
  revert cur. induction l as [|m l IH]; intros [|a cur]; try done.
  intros _. cbn [group_go]. destruct (is_ai m && has_tool_calls m); simpl; [done|].
  destruct (is_ai m && negb _); simpl; [done|]. by apply (IH (a :: cur ++ [m])).
Qed.

Lemma group_go_rounds cur l :
  (cur = [] ∨ round cur) →
  Forall round (group_go cur l) ∧
  Forall (λ g, is_ai <$> head g = Some true) (tail (group_go cur l)).
Proof.
  revert cur. induction l as [|m l IH]; intros cur Hcur; cbn [group_go].
  { destruct cur; simpl; [by split|]. destruct Hcur as [|?]; [done|]. split; [by apply Forall_singleton | constructor]. }
  assert (Hm : round [m]) by (split; [done|constructor]).
  assert (Hstart : is_ai m = true → nonempty cur = true →
    Forall round (cur :: group_go [m] l) ∧
    Forall (λ g, is_ai <$> head g = Some true) (tail (cur :: group_go [m] l))).
  { intros Hai Hne. destruct (IH [m]) as [H1 H2]; [by right|]. destruct Hcur as [->|?]; [done|].
    split; [by constructor|]. simpl.
    pose proof (group_go_head [m] l ltac:(done)) as E.
    destruct (group_go [m] l) as [|g gs]; [done|]. simpl in *. constructor; [|done].
    injection E as ->. simpl. by rewrite Hai. }
  destruct (nonempty cur) eqn:Hne.
  - rewrite !andb_true_r. destruct (is_ai m) eqn:Hai; simpl.
    + destruct (has_tool_calls m); by apply Hstart.
    + apply IH. right. destruct Hcur as [->|[? Hf]]; [done|]. split; [by destruct cur|].
      destruct cur; [done|]. simpl in *. apply Forall_app. split; [done|]. by repeat constructor.
  - rewrite !andb_false_r. destruct cur; [|done]. apply IH. by right.
Qed.

(** Grouping by rounds keeps the conversation and its order; a group holds at
    most one assistant message, and every group but the first starts with
    one: the results of a call stay in the group of the call. *)
Theorem rounds_keep_pairs messages :
  concat (group_messages_by_round messages) = messages ∧
  Forall round (group_messages_by_round messages) ∧
  Forall (λ g, is_ai <$> head g = Some true) (tail (group_messages_by_round messages)).
Proof.
  unfold group_messages_by_round. destruct messages as [|m l]; [by repeat split|].
  split; [apply group_go_concat|]. apply group_go_rounds. by left.
Qed.

(** ** Truncation *)

Lemma truncated_len s : (length (uchars (truncated s)) ≤ 1028)%nat.
Proof.
  unfold truncated, last_chars.
  pose proof (uchars_app_len (unchars (take STRIP_HEAD_CHARS (uchars s)))
    (STRIP_MARKER +:+ unchars (drop (length (uchars s) - STRIP_TAIL_CHARS) (uchars s)))).
  pose proof (uchars_app_len STRIP_MARKER
    (unchars (drop (length (uchars s) - STRIP_TAIL_CHARS) (uchars s)))).
  pose proof (take_chars_len STRIP_HEAD_CHARS s).
  pose proof (drop_chars_len (length (uchars s) - STRIP_TAIL_CHARS) s).
  assert (length (uchars STRIP_MARKER) = 28%nat) by reflexivity.
  unfold STRIP_HEAD_CHARS, STRIP_TAIL_CHARS in *. lia.
Qed.

(** Truncated outputs are short, and truncating again changes nothing. *)
Lemma strip_idempotent messages threshold :
  (1028 ≤ threshold)%nat →
  strip_large_outputs (strip_large_outputs messages threshold) threshold =
  strip_large_outputs messages threshold.
Proof.
  intros Ht. unfold strip_large_outputs. rewrite map_map. apply map_ext. intros [| content ? ? ? | |]; simpl; try done.
  destruct (Nat.leb (length (uchars content)) threshold) eqn:E; simpl; [by rewrite E|].
  pose proof (truncated_len content). by rewrite (proj2 (Nat.leb_le _ _)) by lia.
Qed.

(** ** The circuit breaker *)

(** With the breaker open nothing is compacted and the context counts as
    blocked; a compaction the user asks for ignores the breaker. *)
Lemma breaker_stops_compaction `{TokenOps} cm messages t r :
  (MAX_CONSECUTIVE_COMPACT_FAILURES ≤ consecutive_failures t)%Z →
  check_context cm messages (Some t) false = Some r → r = ([], messages, false).
Proof.
  intros Ht. unfold check_context. intros (tc & _ & (n & _ & (w & _ & Hr)%bind_Some)%bind_Some)%bind_Some.
  revert Hr. simpl. rewrite (proj2 (Z.leb_le _ _) Ht). by intros [= <-].
Qed.

(** ** Divergences *)

(** The buffers of the warning and of the error level are equal, so the
    warning level never shows. *)
Lemma warning_level_unreachable usage n enabled ratio w :
  calculate_token_warning_state usage n enabled ratio = Some w → level w ≠ WARNING.
Proof.
  unfold calculate_token_warning_state.
  intros (t & _ & (p & _ & (f & _ & [= <-])%bind_Some)%bind_Some)%bind_Some. cbn [level].
  unfold WARNING_BUFFER_TOKENS, ERROR_BUFFER_TOKENS. by repeat case_match.
Qed.

Section examples.
(** A counter for the examples: tool results are large. *)
#[local] Instance example_ops : TokenOps :=
  {| count_messages l := Some (mkCount (foldr Z.add 0%Z
       (map (λ m, if is_tool m then 9000 else if is_ai m then 8000 else 100)%Z l)) EXACT "example" f_1_0) |}.

Definition example_manager : ContextManager := mkManager 128000 f_0_85 108800 20000.
Definition call (i : string) : ToolCall := mkCall "kubectl" (VDict []) (Some i).
Definition calls : Message := AIMessage (VStr "") VNone [call "a"; call "b"].
Definition result (i : string) : Message := ToolMessage "ok" "kubectl" i false.
Definition goal : Message := HumanMessage "inject".
Definition summary : Message := HumanMessage "[Compressed History] earlier".

(** Only the first result goes back to its caller: the second one is kept
    without it. *)
Example orphan_result_kept :
  check_context example_manager [goal; calls; result "a"; result "b"] None true =
  Some ([goal; calls; result "a"], [result "b"], true).
Proof. reflexivity. Qed.

(** A summary in front of the kept messages hides the orphan, and the caller
    is put before the summary, apart from its results. *)
Example pair_torn_by_summary :
  check_context example_manager [summary; goal; calls; result "a"; result "b"] None true =
  Some ([goal], [calls; summary; result "a"; result "b"], true).
Proof. reflexivity. Qed.

Lemma check_context_partition_witness :
  [goal] ++ [calls; summary; result "a"; result "b"] ≡ₚ [summary; goal; calls; result "a"; result "b"].
Proof. by apply (check_context_partition example_manager _ None true _ _ true). Defined.

Lemma summaries_kept_witness : summary ∈ [calls; summary; result "a"; result "b"].
Proof.
  apply (summaries_kept example_manager [summary; goal; calls; result "a"; result "b"] None true
           [goal] _ true summary); [reflexivity | set_solver | reflexivity | reflexivity].
Defined.
End examples.
