(* ===== verification/FaultType.v ===== *)
(** * Fault types (utils/fault_type.py)

    Validation of scope, target and action, the arguments of a blade_create
    call, the flags worth reading back, the minimum durations, and the
    quantities of memory. *)

From stdpp Require Import base list strings sets sorting.
From Stdlib Require Import ZArith Ascii SpecFloat.
From S2P Require Import Prelude PyText PyValue Shlex PyFloat PyOps Tokens.

Definition VALID_SCOPES : list string := ["node"; "pod"; "container"].

Definition VALID_TARGETS : list (string * list string) :=
  [("pod", ["cpu"; "network"; "disk"; "process"; "pod"; "mem"; "file"; "script"]);
   ("node", ["cpu"; "network"; "disk"; "process"; "mem"]);
   ("container", ["cpu"; "network"; "disk"; "process"; "mem"])].

(** [f"{sorted(set)}"] of a set of texts. *)
Definition sorted_text (l : list string) : string :=
  py_str (VList (map VStr (merge_sort String.le l))).

Definition validate_blade_params (scope target action : string) : bool * string :=
  if negb (scope ∈? VALID_SCOPES)
  then (false, "Invalid scope '" +:+ scope +:+ "', must be one of " +:+ sorted_text VALID_SCOPES)
  else
    let valid := default [] (dict_get scope VALID_TARGETS) in
    if negb (target ∈? valid)
    then (false, "Invalid target '" +:+ target +:+ "' for scope '" +:+ scope +:+
                 "', must be one of " +:+ sorted_text valid)
    else if negb (truthy action) then (false, "action is required")
    else (true, "").

(** ** Arguments of blade_create *)

(** [params] is changed in place when it holds a timeout: the second result
    is the dict the caller sees afterwards. *)
Definition build_blade_create_args (scope target action namespace names labels kubeconfig : string)
    (params : dict pyval) (params_flags : list string) (duration : Z) : dict pyval * dict pyval :=
  let has_timeout := dict_mem "timeout" params in
  let params :=
    if (0 <? duration)%Z && nonempty params && has_timeout
    then dict_set "timeout" (VStr (str_of_Z duration)) params else params in
  let parts :=
    concat (map (λ kv, ["--" +:+ kv.1; py_str kv.2]) params) ++
    map (λ f, "--" +:+ f) params_flags ++
    (if (0 <? duration)%Z && (negb (nonempty params) || negb (dict_mem "timeout" params))
     then ["--timeout"; str_of_Z duration] else []) in
  ([("scope", VStr scope); ("target", VStr target); ("action", VStr action);
    ("namespace", VStr namespace); ("names", VStr names); ("labels", VStr labels);
    ("kubeconfig", VStr kubeconfig); ("evict_count", VStr ""); ("evict_percent", VStr "");
    ("flags", VStr (join " " parts))], params).

Definition KEY_PARAMS : list string :=
  ["path"; "percent"; "size"; "timeout"; "time"; "cpu-percent"; "mem-percent"].

(** [token[2:]] of a token that starts with two dashes. *)
Definition flag_key (token : string) : option string :=
  if startswith token "--" then Some (String.substring 2 (String.length token) token) else None.

Fixpoint read_flags (acc : dict string) (tokens : list string) : dict string :=
  match tokens with
  | [] => acc
  | t :: l =>
      match flag_key t, l with
      | Some k, v :: l' => if k ∈? KEY_PARAMS then read_flags (dict_set k v acc) l' else read_flags acc l
      | _, _ => read_flags acc l
      end
  end.

Definition parse_blade_flags (flags : string) : dict string :=
  if negb (truthy flags) then []
  else match shlex_split flags with Some tokens => read_flags [] tokens | None => [] end.

(** ** Durations *)

Definition _FAULT_TYPE_MIN_DURATION : list (string * string * string * Z) :=
  [("node", "disk", "fill", 600); ("node", "network", "drop", 600); ("node", "cpu", "fullload", 600);
   ("node", "mem", "load", 600); ("node", "disk", "burn", 600); ("pod", "cpu", "fullload", 600);
   ("pod", "mem", "load", 600); ("pod", "network", "drop", 600); ("pod", "disk", "fill", 600);
   ("pod", "disk", "burn", 600); ("pod", "process", "kill", 600); ("container", "cpu", "fullload", 600);
   ("container", "mem", "load", 600); ("container", "network", "drop", 600)]%Z.

Definition _DEFAULT_MIN_DURATION : Z := 600.

Definition get_recommended_duration (scope target action : string) : Z :=
  match List.find (λ e : string * string * string * Z,
          let '(s, t, a, _) := e in String.eqb s scope && String.eqb t target && String.eqb a action)
          _FAULT_TYPE_MIN_DURATION with
  | Some (_, _, _, n) => n
  | None => _DEFAULT_MIN_DURATION
  end.

Definition str_true (o : option string) : bool := match o with Some s => truthy s | None => false end.

(** [int(str(timeout_value).strip()) if timeout_value else 0], 0 when that
    is no integer. *)
Definition requested_duration (timeout_value : pyval) : Z :=
  if py_truthy timeout_value then default 0%Z (py_int_of_string (strip (py_str timeout_value))) else 0%Z.

Definition ensure_min_duration (timeout_value : pyval) (scope target action : option string) : Z :=
  let recommended :=
    match scope, target, action with
    | Some s, Some t, Some a =>
        if truthy s && truthy t && truthy a then get_recommended_duration s t a
        else _DEFAULT_MIN_DURATION
    | _, _, _ => _DEFAULT_MIN_DURATION
    end in
  let current := requested_duration timeout_value in
  if (current <? recommended)%Z then recommended else current.

(** ** Categories *)

Definition extract_fault_type (category : string) : string :=
  let any l := existsb (λ k, contains k (lower category)) l in
  if any ["node"; "节点"; "宿主机"] then "Node"
  else if any ["workload"; "副本"; "deployment"; "扩容"; "缩容"] then "Workload"
  else if any ["service"; "服务发现"; "负载均衡"; "endpoints"; "conditions"] then "Service"
  else if any ["pod"; "容器"; "崩溃"; "重启"; "oom"; "cpu"; "内存"; "镜像"; "挂载"; "terminating";
               "initializing"; "creating"] then "Pod"
  else if contains "_" category then before_str "_" category else category.

(** ** Memory quantities *)

Definition _BINARY_SUFFIXES : list (string * Z) :=
  [("Ki", 1024); ("Mi", 1024 ^ 2); ("Gi", 1024 ^ 3); ("Ti", 1024 ^ 4)]%Z.
Definition _DECIMAL_SUFFIXES : list (string * Z) := [("k", 1000); ("M", 1000 ^ 2); ("G", 1000 ^ 3)]%Z.

Definition drop_suffix (suffix s : string) : string :=
  String.substring 0 (String.length s - String.length suffix) s.

(** [max(1, int(float(digits) * multiplier / unit))]; text that is no number
    (and a number that is no quantity) gives [None], an infinity raises. *)
Definition quantity (digits : string) (multiplier unit : Z) : Exc (option Z) :=
  match py_float_of_string (strip digits) with
  | None => Some None
  | Some num =>
      match float_trunc (SFdiv prec emax (float_mul num (float_of_Z multiplier)) (float_of_Z unit)) with
      | TInt z => Some (Some (Z.max 1 z))
      | TValueError => Some None
      | TOverflow => Raise
      end
  end.

Definition parse_k8s_memory_to_mb (value0 : string) : Exc (option Z) :=
  let value := strip value0 in
  if negb (truthy value) then Some None
  else
    match List.find (λ e : string * Z, endswith value e.1) _BINARY_SUFFIXES with
    | Some (suffix, m) => quantity (drop_suffix suffix value) m (1024 ^ 2)
    | None =>
        match List.find (λ e : string * Z, endswith value e.1) _DECIMAL_SUFFIXES with
        | Some (suffix, m) => quantity (drop_suffix suffix value) m (1000 ^ 2)
        | None =>
            match py_int_of_string value with
            | Some b => Some (if (b <=? 0)%Z then None else Some (Z.max 1 (b / 1024 ^ 2)))
            | None => Some None
            end
        end
    end.

(** * Properties *)

(** No duration is shorter than ten minutes or than what was asked for. *)
Lemma min_duration_bounds t s g a :
  (600 ≤ ensure_min_duration t s g a ∧ requested_duration t ≤ ensure_min_duration t s g a)%Z.
Proof.
  assert (Hrec : ∀ x y z, get_recommended_duration x y z = 600%Z).
  { intros x y z. unfold get_recommended_duration.
    destruct (List.find _ _) as [[[[? ?] ?] n]|] eqn:E; [|done].
    apply find_some in E as [E _]. apply list_elem_of_In in E.
    assert (H : Forall (λ e, e.2 = 600%Z) _FAULT_TYPE_MIN_DURATION) by (repeat constructor).
    exact (proj1 (Forall_forall _ _) H _ E). }
  unfold ensure_min_duration.
  set (r := match s with Some _ => _ | None => _ end).
  assert (Hr : r = 600%Z) by (unfold r; repeat case_match; auto).
  destruct (Z.ltb_spec (requested_duration t) r); lia.
Qed.

(** ** Flags are read back *)

(** A parameter that survives the command line: plain words, and a value that
    does not look like a flag. *)
Definition plain_param (kv : string * string) : bool :=
  plain kv.1 && plain kv.2 && negb (startswith kv.2 "--").

Definition flag_words (params : dict string) : list string :=
  concat (map (λ kv, ["--" +:+ kv.1; kv.2]) params).

Definition key_params (params : dict string) : dict string :=
  List.filter (λ kv : string * string, kv.1 ∈? KEY_PARAMS) params.

Lemma flag_key_dashes k : flag_key ("--" +:+ k) = Some k.
Proof.
  unfold flag_key. replace (startswith ("--" +:+ k) "--") with true by (by destruct k).
  f_equal. exact (substring_drop "--" k).
Qed.

Lemma flag_key_value v : startswith v "--" = false → flag_key v = None.
Proof. unfold flag_key. by intros ->. Qed.

Lemma read_flags_words acc params :
  Forall (λ kv, plain_param kv = true) params →
  read_flags acc (flag_words params) = fold_left (λ d kv, dict_set kv.1 kv.2 d) (key_params params) acc.
Proof.
  intros H. revert acc. induction H as [|[k v] params Hkv _ IH]; intros acc; [done|].
  unfold flag_words in *. cbn [map concat app]. cbn [read_flags fst snd].
  rewrite flag_key_dashes. unfold key_params. cbn [List.filter fst].
  destruct (k ∈? KEY_PARAMS) eqn:Ek; [by rewrite IH|].
  rewrite <- IH.
  assert (Hv : flag_key v = None).
  { apply flag_key_value. unfold plain_param in Hkv. cbn [fst snd] in Hkv.
    apply andb_prop in Hkv as [_ Hkv]. by apply negb_true_iff in Hkv. }
  cbn [read_flags]. rewrite Hv. by destruct (concat _).
Qed.

Lemma plain_dashes k : plain k = true → plain ("--" +:+ k) = true.
Proof. unfold plain. intros [_ H]%andb_true_iff. simpl. exact H. Qed.

Lemma fold_set_fresh (l d : dict string) :
  NoDup (map fst l) → (∀ k, k ∈ map fst l → k ∉ map fst d) →
  fold_left (λ d kv, dict_set kv.1 kv.2 d) l d = d ++ l.
Proof.
  revert d. induction l as [|[k v] l IH]; intros d Hnd Hf; cbn [fold_left]; [by rewrite app_nil_r|].
  apply NoDup_cons in Hnd as [Hk Hnd].
  assert (E : dict_set k v d = d ++ [(k, v)]).
  { assert (Hkd : k ∉ map fst d) by (apply Hf; cbn; set_solver). clear -Hkd.
    induction d as [|[k' v'] d IH]; [done|]. cbn in *.
    rewrite (proj2 (String.eqb_neq k k')) by set_solver. rewrite IH by set_solver. done. }
  cbn [fst snd]. rewrite E, IH; [by rewrite <- app_assoc | done |].
  intros k' Hk'. rewrite map_app. cbn. cbn in Hf.
  intros [H|H%list_elem_of_singleton]%elem_of_app; [|by subst].
  by apply (Hf k'); [set_solver|].
Qed.

Lemma key_params_nodup params : NoDup (map fst params) → NoDup (map fst (key_params params)).
Proof.
  unfold key_params. induction params as [|[k v] l IH]; intros H; [done|].
  apply NoDup_cons in H as [Hk H]. cbn [List.filter]. case_match; [|by apply IH].
  cbn. apply NoDup_cons. split; [|by apply IH].
  rewrite list_elem_of_In, in_map_iff. intros ([k' v'] & <- & Hin). apply filter_In in Hin as [Hin _].
  apply Hk. apply list_elem_of_In, in_map_iff. by exists (k', v').
Qed.

(** The flags built for blade_create are read back: the parameters the
    verifier knows come back with their values, in order. *)
Theorem blade_flags_roundtrip scope target action params :
  NoDup (map fst params) → Forall (λ kv, plain_param kv = true) params →
  parse_blade_flags
    (py_str (py_get "flags" (build_blade_create_args scope target action "" "" "" ""
       (map (λ kv, (kv.1, VStr kv.2)) params) [] 0).1)) = key_params params.
Proof.
  intros Hnd Hp. unfold build_blade_create_args, py_get. cbn -[join].
  rewrite !app_nil_r, map_map. cbn [py_str fst snd].
  change (concat (map (λ x : string * string, [String "-" (String "-" x.1); x.2]) params)) with (flag_words params).
  unfold parse_blade_flags.
  rewrite shlex_split_join.
  - rewrite read_flags_words, fold_set_fresh.
    + destruct params as [|[k v] params]; [done|]. cbn. by destruct params.
    + by apply key_params_nodup.
    + set_solver.
    + done.
  - apply Forall_concat, Forall_map. eapply Forall_impl; [done|]. intros [k v] Hkv.
    unfold plain_param in Hkv. cbn [fst snd] in Hkv. apply andb_prop in Hkv as [Hkv _].
    apply andb_prop in Hkv as [? ?].
    apply Forall_cons; split; [by apply plain_dashes|]. by apply Forall_singleton.
Qed.

Definition disk_params : dict string := [("path", "/tmp"); ("percent", "85"); ("reserve", "1024")].

Lemma blade_flags_roundtrip_witness :
  parse_blade_flags
    (py_str (py_get "flags" (build_blade_create_args "node" "disk" "fill" "" "" "" ""
       (map (λ kv, (kv.1, VStr kv.2)) disk_params) [] 0).1)) = [("path", "/tmp"); ("percent", "85")].
Proof.
  apply (blade_flags_roundtrip "node" "disk" "fill" disk_params).
  - apply (bool_decide_unpack (NoDup (map fst disk_params))). vm_compute. exact I.
  - repeat constructor.
Defined.

Example memory_samples :
  map parse_k8s_memory_to_mb ["200Mi"; "1Gi"; "131072Ki"; "1073741824"; ""; "12x"; "0"]
  = [Some (Some 200); Some (Some 1024); Some (Some 128); Some (Some 1024); Some None; Some None; Some None]%Z.
Proof. vm_compute. reflexivity. Qed.

(** ** Divergences *)

(** The documentation promises [None] on every failure; an infinite quantity
    raises instead. *)
Example infinite_memory_raises : parse_k8s_memory_to_mb "infMi" = Raise.
Proof. vm_compute. reflexivity. Qed.
