(* ===== verification/Kubectl.v ===== *)
(** * The kubectl tools and the command runner
    (tools/kubectl.py, tools/shell.py)

    The command line a kubectl call becomes, the guard in front of the
    subprocess, and what is appended to the output.  The subprocess itself is
    a parameter: from the command, its time-out and its standard input to an
    exit code and two texts, or an exception. *)

From stdpp Require Import base list strings sets.
From Stdlib Require Import ZArith Ascii.
From S2P Require Import Prelude PyText PyRe PyValue Shlex PyFloat PyOps ToolGuard GuardParser TargetTypes Classifier TargetGuard Freeze FaultType.

Record ToolSettings := mkToolSettings {
  t_kubectl_path : string;
  t_kubeconfig_path : string;
  t_kube_context : string;
  timeout_kubectl : Z;
  timeout_kubectl_exec : Z;
  timeout_default : Z;
  kubectl_max_output_bytes : Z }.

Record CommandResult := mkResult { exit_code : Z; stdout : string; stderr : string }.

(** ** The runner *)

Section tools.
Context (cfg : ToolSettings) (guard : ToolGuard).
Context (spawn : list string → Z → string → outcome CommandResult).

(** [timeout or settings.timeout_default]. *)
Definition run_command (cmd : list string) (timeout : option Z) (skip_guard : bool) (stdin_data : string)
    : outcome CommandResult :=
  let '(allowed, reason) := if skip_guard then (true, "") else check guard cmd in
  if negb allowed then Exn reason
  else spawn cmd (match timeout with Some t => if (t =? 0)%Z then timeout_default cfg else t
                  | None => timeout_default cfg end) stdin_data.

(** ** Arguments *)

Definition _split_args (args : string) : list string :=
  if truthy args then shlex_or_split args else [].

Definition _build_kubectl_global_args (kubeconfig context cluster : string) : list string :=
  let kc := str_or kubeconfig (t_kubeconfig_path cfg) in
  let ctx := str_or context (t_kube_context cfg) in
  (if truthy kc then ["--kubeconfig"; kc] else []) ++
  (if truthy ctx then ["--context"; ctx] else []) ++
  (if truthy cluster then ["--cluster"; cluster] else []).

(** [part.split("=", 1)[-1] if "=" in part else part[2:]]. *)
Definition output_format (part : string) : string :=
  if contains "=" part then after_str "=" part else String.substring 2 (String.length part) part.

Fixpoint json_output (parts : list string) : bool :=
  match parts with
  | [] => false
  | part :: rest =>
      match rest with
      | fmt :: _ =>
          if String.eqb part "-o" then String.eqb fmt "json"
          else if startswith part "-o=" || startswith part "-ojson" then String.eqb (output_format part) "json"
          else json_output rest
      | [] =>
          if startswith part "-o=" || startswith part "-ojson" then String.eqb (output_format part) "json"
          else false
      end
  end.

Definition _is_json_output (v_args : string) : bool := json_output (_split_args v_args).

Definition _KUBECONFIG_RE : pattern := Eval vm_compute in
  get_pattern (compile no_flags "--kubeconfig\s+\S+") ltac:(vm_compute; discriminate).
Definition selector_pattern : pattern := Eval vm_compute in
  get_pattern (compile no_flags "(?:^|\s)(-l|--selector)\s+\S+") ltac:(vm_compute; discriminate).
Definition _BLADE_CREATE_RE : pattern := Eval vm_compute in
  get_pattern (compile no_flags "\bblade\s+create\b") ltac:(vm_compute; discriminate).
Definition _FAULT_RE : pattern := Eval vm_compute in
  get_pattern (compile no_flags "blade\s+create\s+k8s\s+(pod|node|container)-(\w+)\s+(\w+)")
    ltac:(vm_compute; discriminate).
Definition _TIMEOUT_RE : pattern := Eval vm_compute in
  get_pattern (compile no_flags "--timeout\s+(\d+)") ltac:(vm_compute; discriminate).

Definition found (p : pattern) (s : string) : bool :=
  match re_search p s with Some _ => true | None => false end.

(** The arguments as they are used, and whether a selector was removed. *)
Definition clean_args (subcommand v_args : string) : string * bool :=
  let v_args := if contains "--kubeconfig" v_args
                then strip (re_sub _KUBECONFIG_RE "" v_args) else v_args in
  if String.eqb subcommand "exec" && found selector_pattern v_args
  then (strip (re_sub selector_pattern "" v_args), true)
  else (v_args, false).

(** [for i, token in enumerate(cmd)]: the first [--timeout] with the given
    value gets the new one. *)
Fixpoint boost_timeout (old new : string) (cmd : list string) : list string :=
  match cmd with
  | t :: ((v :: rest) as tl) =>
      if String.eqb t "--timeout" && String.eqb v old then t :: new :: rest
      else t :: boost_timeout old new tl
  | _ => cmd
  end.

(** Duration of a [blade create] behind [kubectl exec]. *)
Definition with_timeout (v_args : string) (cmd : list string) : list string :=
  let m := re_search _FAULT_RE v_args in
  let part n := match m with Some o => group n o | None => None end in
  let least v := ensure_min_duration v (part 1) (part 2) (part 3) in
  if negb (contains "--timeout" v_args)
  then cmd ++ ["--timeout"; str_of_Z (least VNone)]
  else
    match re_search _TIMEOUT_RE v_args with
    | Some o =>
        let cur := default "" (group 1 o) in
        let effective := least (VStr cur) in
        match py_int_of_string cur with
        | Some n => if (effective =? n)%Z then cmd else boost_timeout cur (str_of_Z effective) cmd
        | None => cmd
        end
    | None => cmd
    end.

(** The command line and the arguments it was built from. *)
Definition kubectl_command (subcommand v_args kubeconfig context cluster : string)
    : list string * string * option bool :=
  let head := t_kubectl_path cfg :: _build_kubectl_global_args kubeconfig context cluster ++ [subcommand] in
  if truthy v_args then
    let '(used, removed) := clean_args subcommand v_args in
    let cmd := head ++ _split_args used in
    (if String.eqb subcommand "exec" && truthy used && found _BLADE_CREATE_RE used
     then with_timeout used cmd else cmd, used, Some removed)
  else (head, v_args, None).

(** ** Output *)

Definition nl2 : string := String "010" (String "010" "").
Definition line (s : string) : string := s +:+ String "010" "".

Definition large_hint (bytes : Z) : string :=
  nl2 +:+ line ("⚠️ LARGE_OUTPUT: Output is large (" +:+ str_of_Z (bytes / 1024) +:+ "KB). Narrow the scope using:")
  +:+ line "- Use --field-selector to filter (e.g., --field-selector spec.nodeName=<node>)"
  +:+ line "- Use -o name to get resource names only"
  +:+ line "- Specify a resource name to query a single resource"
  +:+ "- Use -o jsonpath to extract specific fields".

Definition selector_hint : string :=
  nl2 +:+ "⚠️ kubectl exec does NOT support -l/--selector. The flag was removed from your command. Use kubectl(subcommand='get') to discover the pod name first, then use kubectl(subcommand='exec', v_args='<pod-name> -n <ns> -- <command>').".

Definition debug_hint : string :=
  nl2 +:+ "💡 The debug container is ephemeral. If you are done with debugging, clean up with: kubectl(subcommand='delete', v_args='pod <debug-pod-name> -n <ns>'). The debug pod name usually starts with the target node/pod name followed by '-debug'.".

Definition label_hint : string :=
  nl2 +:+ "💡 No resources matched the label selector. Try running without -l to discover available pods, then inspect their actual labels with: kubectl(subcommand='get', v_args='pod <name> -n <ns> -o jsonpath={.metadata.labels}')".

Definition annotate (subcommand v_args : string) (removed : bool) (output : string) : string :=
  let bytes := Z.of_nat (String.length output) in
  let output :=
    if String.eqb subcommand "get" && _is_json_output v_args && (0 <? kubectl_max_output_bytes cfg)%Z
       && (kubectl_max_output_bytes cfg <? bytes)%Z
    then output +:+ large_hint bytes else output in
  let output := if String.eqb subcommand "exec" && removed then output +:+ selector_hint else output in
  let output := if String.eqb subcommand "debug" then output +:+ debug_hint else output in
  if String.eqb subcommand "get" && negb (truthy (strip output))
     && (contains "-l " v_args || contains "--selector " v_args)
  then output +:+ label_hint else output.

(** Without arguments the variable that [exec] tests is not bound. *)
Definition _kubectl_impl (subcommand v_args kubeconfig context cluster stdin_data : string) : outcome string :=
  let '(cmd, used, removed) := kubectl_command subcommand v_args kubeconfig context cluster in
  let failed text := Ret ("Error: kubectl " +:+ subcommand +:+ " failed: " +:+ text) in
  match run_command cmd (Some (if subcommand ∈? ["exec"; "debug"] then timeout_kubectl_exec cfg
                               else timeout_kubectl cfg)) false stdin_data with
  | Exn e => failed e
  | Ret r =>
      if negb (exit_code r =? 0)%Z then failed (stderr r)
      else if String.eqb subcommand "exec" && bool_decide (removed = None)
      then Exn "cannot access local variable 'selector_removed'"
      else Ret (annotate subcommand used (default false removed) (stdout r))
  end.

Definition kubectl (subcommand v_args stdin_data kubeconfig context cluster : string) : outcome string :=
  _kubectl_impl subcommand v_args kubeconfig context cluster stdin_data.

Definition PHASE1_READONLY_SUBCOMMANDS : list string :=
  ["get"; "describe"; "top"; "logs"; "version"; "cluster-info"; "api-resources"; "explain"; "auth"].

Definition VERIFIER_SUBCOMMANDS : list string := PHASE1_READONLY_SUBCOMMANDS ++ ["exec"].

Definition kubectl_ro (subcommand v_args kubeconfig context cluster : string) : outcome string :=
  if negb (subcommand ∈? PHASE1_READONLY_SUBCOMMANDS)
  then Ret (line ("Error: kubectl_ro does not accept subcommand '" +:+ subcommand +:+ "'.")
            +:+ line ("Phase 1 (planning) is read-only by enforcement. Allowed subcommands: "
                      +:+ join ", " PHASE1_READONLY_SUBCOMMANDS +:+ ".")
            +:+ "Mutation subcommands (exec/delete/patch/apply/scale/...) are bound in Phase 2 after your plan is approved.")
  else _kubectl_impl subcommand v_args kubeconfig context cluster "".

Definition kubectl_verify (subcommand v_args kubeconfig context cluster : string) : outcome string :=
  if negb (subcommand ∈? VERIFIER_SUBCOMMANDS)
  then Ret (line ("Error: kubectl_verify does not accept subcommand '" +:+ subcommand +:+ "'.")
            +:+ line ("The verifier phase is observation-only. Allowed subcommands: "
                      +:+ join ", " VERIFIER_SUBCOMMANDS +:+ ".")
            +:+ "Mutation subcommands (scale/delete/patch/...) are only available in the execution phase.")
  else _kubectl_impl subcommand v_args kubeconfig context cluster "".
End tools.

(** * Properties *)

(** A command line of [kubectl] with the subcommand [sub] behind the global
    flags of the call. *)
Definition runs_sub (cfg : ToolSettings) (sub kubeconfig context cluster : string) (cmd : list string) : Prop :=
  ∃ rest, cmd = t_kubectl_path cfg :: _build_kubectl_global_args cfg kubeconfig context cluster ++ sub :: rest.

Section tool_props.
Context (cfg : ToolSettings) (guard : ToolGuard).

Lemma command_runs_sub sub v kc ctx cl :
  sub ≠ "exec" → runs_sub cfg sub kc ctx cl (kubectl_command cfg sub v kc ctx cl).1.1.
Proof.
  intros Hs. unfold kubectl_command, runs_sub. apply String.eqb_neq in Hs. destruct (truthy v).
  - destruct (clean_args sub v) as [used removed]. rewrite Hs. cbn [fst]. cbn [andb].
    exists (_split_args used). by rewrite app_comm_cons, <- app_assoc.
  - by exists [].
Qed.

(** The tool only looks at the subprocess through the command it builds. *)
Lemma impl_same_spawn spawn1 spawn2 sub v kc ctx cl stdin :
  (∀ t, (check guard (kubectl_command cfg sub v kc ctx cl).1.1).1 = true →
        spawn1 (kubectl_command cfg sub v kc ctx cl).1.1 t stdin =
        spawn2 (kubectl_command cfg sub v kc ctx cl).1.1 t stdin) →
  _kubectl_impl cfg guard spawn1 sub v kc ctx cl stdin = _kubectl_impl cfg guard spawn2 sub v kc ctx cl stdin.
Proof.
  intros H. unfold _kubectl_impl, run_command.
  destruct (kubectl_command cfg sub v kc ctx cl) as [[cmd used] removed]. cbn [fst] in H.
  destruct (check guard cmd) as [allowed reason]. cbn [fst] in H.
  destruct allowed; cbn [negb]; [|done]. by rewrite H.
Qed.

(** C32. The planning tool cannot change the cluster: the only commands it hands to
    the operating system are kubectl commands with a read-only subcommand
    that the command guard accepted.  Two systems that agree on those
    commands cannot be told apart through it. *)
Theorem readonly_tool_confined spawn1 spawn2 sub v kc ctx cl :
  (∀ cmd t, (check guard cmd).1 = true → sub ∈ PHASE1_READONLY_SUBCOMMANDS →
            runs_sub cfg sub kc ctx cl cmd → spawn1 cmd t "" = spawn2 cmd t "") →
  kubectl_ro cfg guard spawn1 sub v kc ctx cl = kubectl_ro cfg guard spawn2 sub v kc ctx cl.
Proof.
  intros H. unfold kubectl_ro. destruct (sub ∈? PHASE1_READONLY_SUBCOMMANDS) eqn:Es; cbn [negb]; [|done].
  apply str_in_spec in Es. apply impl_same_spawn. intros t Hc.
  apply H; [done | done |]. apply command_runs_sub. intros ->. by apply str_in_spec in Es.
Qed.

(** An experiment started through [kubectl exec] without a duration gets one:
    the command ends with a time-out of at least ten minutes. *)
Theorem exec_blade_timeout v kc ctx cl used removed :
  truthy v = true → clean_args "exec" v = (used, removed) → truthy used = true →
  found _BLADE_CREATE_RE used = true → contains "--timeout" used = false →
  ∃ pre n, (kubectl_command cfg "exec" v kc ctx cl).1.1 = pre ++ ["--timeout"; str_of_Z n] ∧ (600 ≤ n)%Z.
Proof.
  intros Hv Hc Hu Hb Ht. unfold kubectl_command. rewrite Hv, Hc, Hu, Hb. cbn [fst String.eqb andb].
  unfold with_timeout. rewrite Ht. cbn [negb]. eexists _, _. split; [done|]. apply min_duration_bounds.
Qed.
End tool_props.

(** ** Concrete calls *)

Definition default_tools : ToolSettings := mkToolSettings "kubectl" "" "" 30 180 60 32768.
Definition silent (_ : list string) (_ : Z) (_ : string) : outcome CommandResult := Ret (mkResult 0 "" "").
Definition answers (out : string) (_ : list string) (_ : Z) (_ : string) : outcome CommandResult :=
  Ret (mkResult 0 out "").

Lemma readonly_tool_confined_witness :
  kubectl_ro default_tools default_guard silent "delete" "pod cart-1" "" "" "" =
  kubectl_ro default_tools default_guard (answers "deleted") "delete" "pod cart-1" "" "" "".
Proof.
  apply (readonly_tool_confined default_tools default_guard silent (answers "deleted")).
  intros cmd t _ H. exfalso. revert H. rewrite <- str_in_spec. by vm_compute.
Defined.

Definition blade_exec : string := "tool-1 -n chaosblade -- blade create k8s pod-cpu fullload --names cart-1".

Lemma exec_blade_timeout_witness :
  ∃ pre n, (kubectl_command default_tools "exec" blade_exec "" "" "").1.1 = pre ++ ["--timeout"; str_of_Z n] ∧
           (600 ≤ n)%Z.
Proof.
  apply (exec_blade_timeout default_tools blade_exec "" "" "" blade_exec false); vm_compute; reflexivity.
Defined.

Example boosted :
  (kubectl_command default_tools "exec" (blade_exec +:+ " --timeout 60") "" "" "").1.1 =
  ["kubectl"; "exec"; "tool-1"; "-n"; "chaosblade"; "--"; "blade"; "create"; "k8s"; "pod-cpu"; "fullload";
   "--names"; "cart-1"; "--timeout"; "600"].
Proof. vm_compute. reflexivity. Qed.

(** ** Divergences *)

(** A duration written with an equals sign is neither boosted nor replaced. *)
Example short_timeout_kept :
  last (kubectl_command default_tools "exec" (blade_exec +:+ " --timeout=5") "" "" "").1.1 = Some "--timeout=5".
Proof. vm_compute. reflexivity. Qed.

(** Five of the nine subcommands of the planning tool are refused by the
    command guard, which every command passes. *)
Example readonly_subcommands_blocked :
  map (λ sub, kubectl_ro default_tools default_guard (answers "ok") sub "" "" "" "") PHASE1_READONLY_SUBCOMMANDS
  = map Ret ["ok"; "ok"; "ok"; "ok";
     "Error: kubectl version failed: kubectl subcommand not allowed: version";
     "Error: kubectl cluster-info failed: kubectl subcommand not allowed: cluster-info";
     "Error: kubectl api-resources failed: kubectl subcommand not allowed: api-resources";
     "Error: kubectl explain failed: kubectl subcommand not allowed: explain";
     "Error: kubectl auth failed: kubectl subcommand not allowed: auth"].
Proof. vm_compute. reflexivity. Qed.

(** An embedded kubeconfig is removed only when a blank separates it from its
    value. *)
Example embedded_kubeconfig_kept :
  (kubectl_command default_tools "get" "pods --kubeconfig=/tmp/other" "/etc/approved" "" "").1.1 =
  ["kubectl"; "--kubeconfig"; "/etc/approved"; "get"; "pods"; "--kubeconfig=/tmp/other"].
Proof. vm_compute. reflexivity. Qed.

(** The arguments are rewritten after they were judged, without regard to
    quotes: the guard sees the deletion of an approved pod, the command
    deletes another one as well. *)
Definition torn_args : string :=
  "--kubeconfig " +:+ dquote +:+ "x pod payment-1 -n shop" +:+ dquote +:+ " pod cart-1 -n shop".

Example judged_and_run_differ :
  (e ← infer_effective_target "kubectl"
         (VDict [("subcommand", VStr "delete"); ("v_args", VStr torn_args)]) true;
   Some (e_names e, d_verdict (target_drift_guard e (Some sample_approved)))) = Some (["cart-1"], ALLOW) ∧
  (kubectl_command default_tools "delete" torn_args "" "" "").1.1 =
  ["kubectl"; "delete"; "pod"; "payment-1"; "-n"; "shop" +:+ dquote; "pod"; "cart-1"; "-n"; "shop"] ∧
  (check default_guard (kubectl_command default_tools "delete" torn_args "" "" "").1.1).1 = true.
Proof. split; [|split]; vm_compute; reflexivity. Qed.
