(* ===== verification/TargetHealth.v ===== *)
(** * Health of a target (agent/target_health.py)

    The checks of nodes and pods in front of a confirmation.  They read the
    cluster through the class [KubectlOps], which the kubectl tool
    implements, and the age of a condition through [elapsed]: what
    [datetime.fromisoformat] and the clock make of a time stamp. *)

From stdpp Require Import base list strings sets.
From Stdlib Require Import ZArith Ascii.
From S2P Require Import Prelude PyText PyValue PyFloat PyOps Json Coerce ToolGuard FaultSpec Router.
From S2P Require Import SafetyGate FaultType Kubectl.

(** ** What the checks see *)

(** [_kubectl_impl(subcommand, v_args, kubeconfig)]. *)
Class KubectlOps := { kubectl_run : string → string → pyval → outcome string }.

(** A kubeconfig that is no text fails inside the tool, which reports it. *)
#[global] Instance kubectl_ops (cfg : ToolSettings) (guard : ToolGuard)
    (spawn : list string → Z → string → outcome CommandResult) : KubectlOps :=
  {| kubectl_run sub v kc :=
       match kc with
       | VStr kc => _kubectl_impl cfg guard spawn sub v kc "" "" ""
       | _ => if py_truthy kc then Ret ("Error: kubectl " +:+ sub +:+ " failed: not a text")
              else _kubectl_impl cfg guard spawn sub v "" "" "" ""
       end |}.

(** A time stamp read against the clock: unreadable, without a time zone (the
    difference to the clock raises), or so many microseconds ago. *)
Inductive age := Unreadable | Naive | Since (us : Z).

Record HealthSettings := mkHealthSettings {
  blade_agent_check_enabled : bool; blade_agent_namespace : string; blade_agent_label : string }.

Definition has_warnings (h : HealthReport) : bool := match h_overall h with OK => false | _ => true end.

(** [len(checker results)] in decimal. *)
Definition count_text {A} (l : list A) : string := str_of_Z (Z.of_nat (length l)).

Section health.
Context `{KubectlOps} (cfg : HealthSettings) (elapsed : string → age).

(** ** Nodes *)

Definition _NODE_BLOCKING_CONDITIONS : dict string :=
  [("DiskPressure", "node.disk_pressure"); ("MemoryPressure", "node.memory_pressure");
   ("NetworkUnavailable", "node.network_unavailable"); ("PIDPressure", "node.pid_pressure")].

Definition format_age (us : Z) : string :=
  let days := (us / 86400000000)%Z in
  let hours := (us / 3600000000)%Z in
  if (1 <=? days)%Z then str_of_Z days +:+ "d"
  else if (1 <=? hours)%Z then str_of_Z hours +:+ "h"
  else str_of_Z (us / 60000000) +:+ "m".

Definition _format_condition_duration (stamp : pyval) : Exc string :=
  if negb (py_truthy stamp) then Some ""
  else match stamp with
       | VStr s =>
           match elapsed (replace "Z" "+00:00" s) with
           | Unreadable => Some ""
           | Naive => Raise
           | Since us => Some (format_age us)
           end
       | _ => Some ""
       end.

(** A key of a dict of texts. *)
Definition hashed (v : pyval) : Exc (option string) :=
  match v with VStr s => Some (Some s) | VList _ | VDict _ => Raise | _ => Some None end.

Definition condition_issue (cond : pyval) : Exc (list HealthIssue) :=
  ctype ← vget_d "type" (VStr "") cond;
  cstatus ← vget_d "status" (VStr "") cond;
  stamp ← vget_d "lastTransitionTime" (VStr "") cond;
  if eqs ctype "Ready" && negb (eqs cstatus "True") then
    duration ← _format_condition_duration stamp;
    Some [mkIssue BLOCK "node.not_ready"
            ("Node is NotReady for " +:+ str_or duration "unknown duration") duration]
  else if negb (eqs cstatus "True") then Some []
  else
    key ← hashed ctype;
    match (k ← key; dict_get k _NODE_BLOCKING_CONDITIONS) with
    | None => Some []
    | Some code =>
        duration ← _format_condition_duration stamp;
        Some [mkIssue BLOCK code
                ("Node has " +:+ py_str ctype +:+ "=True for " +:+ str_or duration "unknown duration") duration]
    end.

Definition _build_node_report (target : dict pyval) (conditions : list pyval) : Exc HealthReport :=
  issues ← mapM condition_issue conditions;
  let issues := concat issues in
  Some (mkHealth target (if nonempty issues then BLOCK else OK) issues "").

(** [.status] of a JSON object, where it is one. *)
Definition status_of_object (data : pyval) : option (dict pyval) :=
  match data with
  | VDict d => match py_get "status" d with VDict st => Some st | _ => None end
  | _ => None
  end.

Definition _query_node_conditions (node_name kubeconfig : pyval) : Exc (list pyval) :=
  if negb (py_truthy node_name) then Some []
  else match kubectl_run "get" ("node " +:+ py_str node_name +:+ " -o json") (py_or kubeconfig (VStr "")) with
       | Exn _ => Some []
       | Ret raw =>
           let s := strip raw in
           if negb (truthy raw) || startswith s "Error" then Some []
           else match json_loads s with
                | JDecodeError => Some []
                | JValueError => Raise
                | JOk data =>
                    Some match status_of_object data with
                         | Some st => match py_or (py_get "conditions" st) (VList []) with VList l => l | _ => [] end
                         | None => []
                         end
                end
       end.

Definition _query_blade_agent_on_node (node_name kubeconfig : pyval) : bool :=
  match kubectl_run "get" ("pod -n " +:+ blade_agent_namespace cfg +:+ " --field-selector=spec.nodeName=" +:+
          py_str node_name +:+ ",status.phase=Running -l " +:+ blade_agent_label cfg +:+ " --no-headers")
          (py_or kubeconfig (VStr "")) with
  | Exn _ => true
  | Ret raw => truthy (strip raw)
  end.

Definition node_healthy : string := "Node Ready, 无 DiskPressure/MemoryPressure/PIDPressure/NetworkUnavailable".

(** The DaemonSet pod of the tool, and the summary of a healthy node. *)
Definition with_tool_check (node kubeconfig : pyval) (report : HealthReport) : HealthReport :=
  let checked := blade_agent_check_enabled cfg && py_truthy kubeconfig in
  let report :=
    if checked && negb (_query_blade_agent_on_node node kubeconfig)
    then mkHealth (h_target report) BLOCK
           (h_issues report ++ [mkIssue BLOCK "node.chaosblade_tool_missing"
              ("chaosblade-tool pod not found on node " +:+ py_str node) ""]) (h_checked_detail report)
    else report in
  match h_overall report with
  | OK => mkHealth (h_target report) OK (h_issues report)
            (node_healthy +:+ (if checked then ", chaosblade-tool 在线" else ""))
  | _ => report
  end.

Definition node_check (target : dict pyval) (kubeconfig : pyval) : Exc HealthReport :=
  names ← coerce_to_list (py_get "names" target);
  match names with
  | [] => Some (mkHealth target OK [] "node 无目标")
  | node :: _ =>
      conditions ← _query_node_conditions node kubeconfig;
      report ← _build_node_report target conditions;
      Some (with_tool_check node kubeconfig report)
  end.

(** ** Pods *)

(** [names[0] if names else "unknown"]. *)
Definition first_name (names : pyval) : Exc pyval :=
  if negb (py_truthy names) then Some (VStr "unknown")
  else match names with
       | VList (x :: _) | VTuple (x :: _) => Some x
       | VStr s => match uchars s with c :: _ => Some (VStr c) | [] => Raise end
       | _ => Raise
       end.

Definition namespace_missing (target : dict pyval) : HealthReport :=
  let ns := py_str (get_d "namespace" (VStr "unknown") target) in
  mkHealth target BLOCK
    [mkIssue BLOCK "pod.namespace_not_found" ("Namespace '" +:+ ns +:+ "' does not exist in the cluster") ""]
    ("Namespace '" +:+ ns +:+ "' not found").

Definition pod_missing (target : dict pyval) : Exc HealthReport :=
  name ← first_name (get_d "names" (VList []) target);
  let ns := py_str (get_d "namespace" (VStr "default") target) in
  Some (mkHealth target BLOCK
    [mkIssue BLOCK "pod.not_found" ("Pod '" +:+ py_str name +:+ "' not found in namespace '" +:+ ns +:+ "'") ""]
    ("Pod '" +:+ py_str name +:+ "' not found in '" +:+ ns +:+ "'")).

Definition phase_issues (phase reason : pyval) : Exc (list HealthIssue) :=
  bad ← in_set phase ["Pending"; "Failed"; "Unknown"];
  Some (if (bad : bool)
        then [mkIssue (if eqs phase "Pending" then WARN else BLOCK) ("pod.phase." +:+ lower (py_str phase))
                ("Pod phase is " +:+ py_str phase +:+
                 (if py_truthy reason then " (reason: " +:+ py_str reason +:+ ")" else "")) ""]
        else []).

Definition reason_issues (reason : pyval) : Exc (list HealthIssue) :=
  bad ← in_set reason ["Evicted"; "CrashLoopBackOff"; "ImagePullBackOff"];
  Some (if (bad : bool)
        then [mkIssue BLOCK ("pod.reason." +:+ lower (py_str reason)) ("Pod reason: " +:+ py_str reason) ""]
        else []).

Definition is_block (s : HealthSeverity) : bool := match s with BLOCK => true | _ => false end.

Definition worst_of (issues : list HealthIssue) : HealthSeverity :=
  match issues with
  | [] => OK
  | _ => if existsb (λ i, is_block (i_severity i)) issues then BLOCK else WARN
  end.

Definition _build_pod_report (target status : dict pyval) : Exc HealthReport :=
  let err := py_get "_error" status in
  if eqs err "namespace_not_found" then Some (namespace_missing target)
  else if eqs err "resource_not_found" then pod_missing target
  else
    let phase := get_d "phase" (VStr "") status in
    let reason := get_d "reason" (VStr "") status in
    i1 ← phase_issues phase reason;
    i2 ← reason_issues reason;
    Some (mkHealth target (worst_of (i1 ++ i2)) (i1 ++ i2) "").

Definition selector_of (labels : dict pyval) : string :=
  join "," (map (λ kv, kv.1 +:+ "=" +:+ py_str kv.2) labels).

Definition running_pods (raw : string) : list string :=
  let stripped := strip_of ("'" +:+ dquote) (strip raw) in
  if negb (truthy stripped) || contains "💡" stripped || contains "No resources" stripped
  then [] else split_ws stripped.

Definition _resolve_pod_names (target : dict pyval) (kubeconfig : pyval) : Exc (list pyval) :=
  let labels := or_empty (py_get "labels" target) in
  names ← coerce_to_list (py_get "names" target);
  if py_truthy labels then
    labels ← as_dict labels;
    let v_args := "pod -l " +:+ selector_of labels +:+ " -n " +:+
      py_str (get_d "namespace" (VStr "default") target) +:+
      " --field-selector=status.phase=Running -o jsonpath='{range .items[*]}{.metadata.name} {end}'" in
    Some match kubectl_run "get" v_args (py_or kubeconfig (VStr "")) with
         | Exn _ => names
         | Ret raw => match running_pods raw with [] => names | l => map VStr l end
         end
  else Some names.

(** The reason of the first container that waits for one of three. *)
Fixpoint waiting_reason (l : list pyval) : Exc (option pyval) :=
  match l with
  | [] => Some None
  | cs :: l' =>
      state ← vget "state" cs;
      waiting ← vget "waiting" (or_empty state);
      r ← vget_d "reason" (VStr "") (or_empty waiting);
      bad ← in_set r ["CrashLoopBackOff"; "ImagePullBackOff"; "ErrImagePull"];
      if (bad : bool) then Some (Some r) else waiting_reason l'
  end.

Definition eviction_reason (data : pyval) : Exc pyval :=
  meta ← vget_d "metadata" (VDict []) data;
  ann ← vget_d "annotations" (VDict []) meta;
  vget_d "kubernetes.io/eviction-reason" (VStr "") ann.

Definition pod_status_dict (data : pyval) (st : dict pyval) : Exc (dict pyval) :=
  let top := get_d "reason" (VStr "") st in
  reason ← (if py_truthy top then Some top else eviction_reason data);
  containers ← py_iter (py_or (py_get "containerStatuses" st) (VList []));
  waiting ← waiting_reason containers;
  Some [("phase", get_d "phase" (VStr "") st); ("reason", default reason waiting);
        ("conditions", py_or (py_get "conditions" st) (VList []))].

Definition query_error (kind : string) : dict pyval :=
  [("_error", VStr kind); ("phase", VStr ""); ("reason", VStr "")].

Definition read_pod_answer (raw : string) : Exc (dict pyval) :=
  let s := strip raw in
  if negb (truthy raw) then Some []
  else if startswith s "Error" then
    let missing := contains "not found" (lower s) in
    Some (if missing && contains "namespace" (lower s) then query_error "namespace_not_found"
          else if missing then query_error "resource_not_found" else [])
  else match json_loads s with
       | JDecodeError => Some []
       | JValueError => Raise
       | JOk data => match status_of_object data with
                     | Some st => pod_status_dict data st
                     | None => Some []
                     end
       end.

Definition _query_pod_status (pod_name namespace kubeconfig : pyval) : Exc (dict pyval) :=
  if negb (py_truthy pod_name) then Some []
  else
    let args := "pod " +:+ py_str pod_name +:+
      (if py_truthy namespace then " -n " +:+ py_str namespace else "") +:+ " -o json" in
    match kubectl_run "get" args (py_or kubeconfig (VStr "")) with
    | Exn _ => Some []
    | Ret raw => read_pod_answer raw
    end.

Definition _SEV_ORDER (s : HealthSeverity) : nat := match s with OK => 0 | WARN => 1 | BLOCK => 2 end.

Definition worse (a b : HealthSeverity) : HealthSeverity :=
  if Nat.ltb (_SEV_ORDER a) (_SEV_ORDER b) then b else a.

Definition tag_issue (pod : pyval) (i : HealthIssue) : HealthIssue :=
  mkIssue (i_severity i) (i_code i) ("[" +:+ py_str pod +:+ "] " +:+ i_message i) (i_duration_hint i).

Fixpoint check_pods (target : dict pyval) (namespace kubeconfig : pyval) (acc : HealthSeverity * list HealthIssue)
    (pods : list pyval) : Exc (HealthSeverity * list HealthIssue) :=
  match pods with
  | [] => Some acc
  | pod :: rest =>
      status ← _query_pod_status pod namespace kubeconfig;
      report ← _build_pod_report target status;
      check_pods target namespace kubeconfig
        (worse acc.1 (h_overall report), acc.2 ++ map (tag_issue pod) (h_issues report)) rest
  end.

Definition pod_check (target : dict pyval) (kubeconfig : pyval) : Exc HealthReport :=
  let namespace := get_d "namespace" (VStr "default") target in
  pods ← _resolve_pod_names target kubeconfig;
  match pods with
  | [] => Some (mkHealth target OK [] "pod 无可解析目标")
  | _ =>
      '(worst, issues) ← check_pods target namespace kubeconfig (OK, []) pods;
      Some (mkHealth target worst issues
        (match worst with
         | OK => count_text pods +:+ " pod(s) checked, 无 Evicted/CrashLoopBackOff/ImagePullBackOff"
         | _ => count_text issues +:+ " issue(s) across " +:+ count_text pods +:+ " pod(s)"
         end))
  end.

(** ** The registry *)

Definition checker : Type := dict pyval → pyval → Exc HealthReport.

Definition _REGISTRY : dict checker := [("node", node_check); ("pod", pod_check)].

Definition register_health_checker (scope : string) (c : checker) (r : dict checker) : dict checker :=
  dict_set scope c r.

(** Never raises: an unknown scope and a checker that raises count as
    healthy. *)
Definition assess_target_health (registry : dict checker) (scope : string) (target : dict pyval)
    (kubeconfig : pyval) : HealthReport :=
  match dict_get scope registry with
  | None => mkHealth target OK [] ""
  | Some check => default (mkHealth target OK [] "") (check target kubeconfig)
  end.

(** The assessment as the safety check calls it. *)
Definition health_assessor (scope : string) (target : dict pyval) (kubeconfig : pyval) : Exc HealthReport :=
  Some (assess_target_health _REGISTRY scope target kubeconfig).
End health.

(** * Properties *)

Section health_props.
Context `{KubectlOps} (cfg : HealthSettings) (elapsed : string → age).

(** A condition that speaks against an injection: the node is not ready, or
    one of the four pressures is on. *)
Definition pressing (c : dict pyval) : Prop :=
  (get_d "type" (VStr "") c = VStr "Ready" ∧ get_d "status" (VStr "") c ≠ VStr "True") ∨
  (∃ t, get_d "type" (VStr "") c = VStr t ∧ t ∈ dict_keys _NODE_BLOCKING_CONDITIONS ∧
        get_d "status" (VStr "") c = VStr "True").

Lemma blocking_key t : is_Some (dict_get t _NODE_BLOCKING_CONDITIONS) ↔ t ∈ dict_keys _NODE_BLOCKING_CONDITIONS.
Proof.
  rewrite <- not_eq_None_Some. rewrite dict_get_None. split; [|auto].
  intros Hn. destruct (decide (t ∈ dict_keys _NODE_BLOCKING_CONDITIONS)); [done | by destruct Hn].
Qed.

Lemma condition_issue_pressing cond issues :
  condition_issue elapsed cond = Some issues →
  ∃ c, cond = VDict c ∧ (nonempty issues = true ↔ pressing c).
Proof.
  unfold condition_issue, vget_d. destruct cond as [| | | | | | |c]; try done. cbn [as_dict mbind option_bind].
  intros Hi. exists c. split; [done|]. unfold pressing.
  set (ct := get_d "type" (VStr "") c) in *. set (cs := get_d "status" (VStr "") c) in *.
  destruct (eqs ct "Ready") eqn:Er; cbn [andb] in Hi.
  - apply eqs_true in Er. rewrite Er in *. destruct (eqs cs "True") eqn:Es; cbn [negb] in Hi.
    + apply eqs_true in Es. cbn in Hi. injection Hi as <-. split; [done|].
      intros [[_ Hn]|(t & [= <-] & Ht & _)]; [done | set_solver].
    + apply bind_Some in Hi as (d & _ & [= <-]). split; [intros _|done]. left. split; [done|].
      intros E. by rewrite E in Es.
  - assert (Hnr : ct ≠ VStr "Ready") by (intros E; by rewrite E in Er).
    destruct (eqs cs "True") eqn:Es; cbn [negb] in Hi.
    2:{ injection Hi as <-. split; [done|]. intros [[? _]|(t & _ & _ & E)]; [done|]. by rewrite E in Es. }
    apply eqs_true in Es. apply bind_Some in Hi as (key & Hk & Hi).
    destruct (k ← key; dict_get k _NODE_BLOCKING_CONDITIONS) as [code|] eqn:Ec.
    + apply bind_Some in Hi as (d & _ & [= <-]). split; [intros _|done]. right.
      apply bind_Some in Ec as (t & -> & Ec). exists t. unfold hashed in Hk.
      destruct ct; try discriminate. injection Hk as ->. split; [done|]. split; [|done].
      apply blocking_key. by rewrite Ec.
    + injection Hi as <-. split; [done|]. intros [[? _]|(t & E & Ht & _)]; [done|].
      rewrite E in Hk. injection Hk as <-. change (dict_get t _NODE_BLOCKING_CONDITIONS = None) in Ec. apply blocking_key in Ht as [? Ht]. congruence.
Qed.

Lemma node_report_overall target conds r :
  _build_node_report elapsed target conds = Some r →
  h_overall r = (if nonempty (h_issues r) then BLOCK else OK) ∧
  (h_overall r = BLOCK ↔ ∃ c, VDict c ∈ conds ∧ pressing c).
Proof.
  unfold _build_node_report. intros (iss & Hm & [= <-])%bind_Some. cbn [h_overall h_issues].
  split; [done|]. apply mapM_Some in Hm.
  transitivity (nonempty (concat iss) = true); [by destruct (nonempty (concat iss))|].
  induction Hm as [|cond i conds iss Hi _ IH]; cbn [concat].
  { split; [done|]. intros (? & ? & _). set_solver. }
  apply condition_issue_pressing in Hi as (c & -> & Hc). split.
  - intros Hne. destruct i as [|x i].
    + apply IH in Hne as (c' & ? & ?). exists c'. set_solver.
    + exists c. split; [set_solver | by apply Hc].
  - intros (c' & [[= ->]|Hin]%elem_of_cons & Hp).
    + apply Hc in Hp. by destruct i.
    + destruct i; [|done]. apply IH. eauto.
Qed.

Definition tool_missing (node kubeconfig : pyval) : Prop :=
  blade_agent_check_enabled cfg = true ∧ py_truthy kubeconfig = true ∧
  _query_blade_agent_on_node cfg node kubeconfig = false.

Lemma with_tool_overall node kc r :
  h_overall r = (if nonempty (h_issues r) then BLOCK else OK) →
  h_overall (with_tool_check cfg node kc r) = BLOCK ↔ h_overall r = BLOCK ∨ tool_missing node kc.
Proof.
  intros Hr. unfold with_tool_check, tool_missing.
  destruct (blade_agent_check_enabled cfg), (py_truthy kc),
    (_query_blade_agent_on_node cfg node kc); cbn [andb negb];
    (destruct (h_overall r) eqn:E; cbn; [naive_solver | by destruct (nonempty (h_issues r)) | naive_solver]).
Qed.

(** A node is reported as blocked exactly when it is not ready, one of its
    pressure conditions is on, or the tool pod is missing on it. *)
Theorem node_blocked_iff target kc node rest conds r :
  coerce_to_list (py_get "names" target) = Some (node :: rest) →
  _query_node_conditions node kc = Some conds →
  node_check cfg elapsed target kc = Some r →
  h_overall r = BLOCK ↔ (∃ c, VDict c ∈ conds ∧ pressing c) ∨ tool_missing node kc.
Proof.
  intros Hn Hq. unfold node_check. rewrite Hn. cbn [mbind option_bind]. rewrite Hq. cbn [mbind option_bind].
  intros (rep & Hr & [= <-])%bind_Some. apply node_report_overall in Hr as [Hov Hiff].
  rewrite (with_tool_overall _ _ _ Hov). by rewrite Hiff.
Qed.

(** ** Pods *)

Lemma worse_block a b : worse a b = BLOCK ↔ a = BLOCK ∨ b = BLOCK.
Proof. destruct a, b; cbn; naive_solver. Qed.

(** A pod that blocks. *)
Definition pod_blocks (target : dict pyval) (ns kc pod : pyval) : Prop :=
  ∃ st rep, _query_pod_status pod ns kc = Some st ∧ _build_pod_report target st = Some rep ∧ h_overall rep = BLOCK.

(** The worst pod decides. *)
Lemma check_pods_block target ns kc acc pods w iss :
  check_pods target ns kc acc pods = Some (w, iss) →
  w = BLOCK ↔ acc.1 = BLOCK ∨ ∃ pod, pod ∈ pods ∧ pod_blocks target ns kc pod.
Proof.
  revert acc. induction pods as [|pod pods IH]; intros acc; cbn [check_pods].
  - intros [= ->]. cbn. split; [by left | intros [?|(? & ? & _)]; [done | set_solver]].
  - intros (st & Hst & (rep & Hrep & Hc)%bind_Some)%bind_Some. rewrite (IH _ Hc). cbn [fst].
    rewrite worse_block. split.
    + intros [[?|?]|(p & ? & ?)]; [by left | right; exists pod; split; [set_solver|]; by exists st, rep
                                  | right; exists p; set_solver].
    + intros [?|(p & [->|?]%elem_of_cons & Hb)]; [by do 2 left | | right; eauto].
      left. right. destruct Hb as (st' & rep' & ? & ? & ?). congruence.
Qed.

Lemma pod_check_block target kc pods r :
  _resolve_pod_names target kc = Some pods → pod_check target kc = Some r →
  h_overall r = BLOCK ↔ ∃ pod, pod ∈ pods ∧ pod_blocks target (get_d "namespace" (VStr "default") target) kc pod.
Proof.
  intros Hp. unfold pod_check. rewrite Hp. cbn [mbind option_bind]. destruct pods as [|p l].
  { intros [= <-]. cbn. split; [done | intros (? & ? & _); set_solver]. }
  intros ([w iss] & Hc & [= <-])%bind_Some. rewrite (check_pods_block _ _ _ _ _ _ _ Hc). cbn. naive_solver.
Qed.
End health_props.

(** ** The safety check with these checkers *)

(** With hard blocking on, the safety check never answers safe for a node that
    the cluster reports as not ready or under pressure. *)
Theorem safe_node_not_pressed `{KubectlOps} hcfg elapsed cfg run exec af hour weekday s r spec kc node rest conds h :
  safety_check cfg run exec (health_assessor hcfg elapsed) af hour weekday s = Some r →
  py_get "safety_status" r = VStr "safe" →
  target_health_check_enabled cfg = true → target_health_check_block_on_blocker cfg = true →
  state_spec s = Some spec → s_scope spec = "node" → s_names spec = node :: rest →
  _resolve_kubeconfig cfg s = Some kc →
  _query_node_conditions node (py_or kc (VStr "")) = Some conds →
  node_check hcfg elapsed (target_dict spec) (py_or kc (VStr "")) = Some h →
  ∀ c, VDict c ∈ conds → ¬ pressing c.
Proof.
  intros Hsc Hsafe He Hb Hspec Hscope Hnames Hkc Hq Hn c Hc Hp.
  apply safety_check_cases in Hsc as (spec' & Hs' & [[_ Hr] | [_ H']]).
  { rewrite Hsafe in Hr. discriminate Hr. }
  rewrite Hspec in Hs'. injection Hs' as <-.
  destruct H' as (kc' & a & sc & Hk' & _ & _ & _ & _ & Hst).
  rewrite Hkc in Hk'. injection Hk' as <-. rewrite Hsafe in Hst. injection Hst as Hst. symmetry in Hst.
  apply escalated_safe in Hst as (Hv & _ & _). apply verdict_safe in Hv as (Hh & _).
  assert (Hov : h_overall h = BLOCK).
  { unfold node_check in Hn. cbn in Hn. rewrite Hnames in Hn. cbn [mbind option_bind] in Hn.
    rewrite Hq in Hn. cbn [mbind option_bind] in Hn. apply bind_Some in Hn as (rep & Hrep & [= <-]).
    apply node_report_overall in Hrep as [Hov Hiff]. apply (with_tool_overall _ _ _ _ Hov). left.
    apply Hiff. eauto. }
  assert (Ha : health_of cfg (health_assessor hcfg elapsed) spec kc = Some h).
  { unfold health_of, health_assessor, assess_target_health. rewrite He, Hscope.
    change (Some (default (mkHealth (target_dict spec) OK [] "")
      (node_check hcfg elapsed (target_dict spec) (py_or kc (VStr "")))) = Some h). by rewrite Hn. }
  rewrite Ha in Hh. unfold health_rejected, is_blocking in Hh. by rewrite Hov, Hb in Hh.
Qed.

(** ** Concrete clusters *)

Definition json_text (s : string) : string := replace "'" dquote s.

(** A cluster that answers every command with one text. *)
Definition one_answer (out : string) : KubectlOps :=
  kubectl_ops (mkToolSettings "kubectl" "" "" 30 180 60 32768) default_guard (answers out).

Definition agent_on : HealthSettings := mkHealthSettings true "chaosblade" "app=chaosblade-tool".
Definition three_days (_ : string) : age := Since (3 * 86400000000 + 5).

Definition node_answer (conditions : string) : string :=
  json_text ("{'status': {'conditions': [" +:+ conditions +:+ "]}}").
Definition ready_condition : string := "{'type': 'Ready', 'status': 'True'}".
Definition disk_condition : string :=
  "{'type': 'DiskPressure', 'status': 'True', 'lastTransitionTime': '2026-02-08T12:34:56Z'}".

Definition node_target : dict pyval := [("names", VList [VStr "n1"])].
Definition disk_cond : dict pyval :=
  [("type", VStr "DiskPressure"); ("status", VStr "True"); ("lastTransitionTime", VStr "2026-02-08T12:34:56Z")].
Definition ready_cond : dict pyval := [("type", VStr "Ready"); ("status", VStr "True")].

Example disk_pressure_report :
  (@node_check (one_answer (node_answer (ready_condition +:+ "," +:+ disk_condition))) agent_on three_days
     node_target (VStr "/kc")) =
  Some (mkHealth node_target BLOCK
    [mkIssue BLOCK "node.disk_pressure" "Node has DiskPressure=True for 3d" "3d"] "").
Proof. vm_compute. reflexivity. Qed.

Lemma node_blocked_iff_witness :
  (BLOCK = BLOCK ↔
   (∃ c, VDict c ∈ [VDict ready_cond; VDict disk_cond] ∧ pressing c) ∨
   @tool_missing (one_answer (node_answer (ready_condition +:+ "," +:+ disk_condition))) agent_on (VStr "n1") (VStr "/kc")).
Proof.
  apply (@node_blocked_iff (one_answer (node_answer (ready_condition +:+ "," +:+ disk_condition))) agent_on three_days
    node_target (VStr "/kc") (VStr "n1") [] [VDict ready_cond; VDict disk_cond]
    (mkHealth node_target BLOCK [mkIssue BLOCK "node.disk_pressure" "Node has DiskPressure=True for 3d" "3d"] ""));
    vm_compute; reflexivity.
Defined.

Definition node_spec : FaultSpec :=
  mkSpec "" "node" [VStr "n1"] [] "cpu" "fullload" [] [] 60 "cli_structured" "".
Definition node_state : GState :=
  mkState [] [("fault_spec", VDict (to_dict node_spec)); ("skill_name", VStr "k8s-node-cpu"); ("kubeconfig", VStr "/kc")].
Definition blocking_safety : SafetySettings :=
  mkSafety (safety_blacklist_namespaces default_safety) (kubeconfig_path default_safety) (kube_context default_safety)
    (kubectl_path default_safety) false 40 70 false true true false false.
Definition healthy_cluster : KubectlOps := one_answer (node_answer ready_condition).
Definition node_result : dict pyval :=
  default [] (safety_check blocking_safety quiet_run quiet_run (@health_assessor healthy_cluster agent_on three_days)
    unassessed 3 6 node_state).

Lemma safe_node_not_pressed_witness : py_get "safety_status" node_result = VStr "safe" ∧ ¬ pressing ready_cond.
Proof.
  split; [vm_compute; reflexivity|].
  apply (@safe_node_not_pressed healthy_cluster agent_on three_days blocking_safety quiet_run quiet_run unassessed 3 6
    node_state node_result node_spec (VStr "/kc") (VStr "n1") [] [VDict ready_cond]
    (mkHealth (target_dict node_spec) OK [] (node_healthy +:+ ", chaosblade-tool 在线")));
    first [vm_compute; reflexivity | apply list_elem_of_here].
Defined.

(** ** Divergences *)

(** A node without the tool pod is not noticed: to an empty answer for a label
    selector the kubectl tool appends a hint, which counts as a pod. *)
Example missing_tool_unnoticed :
  @_query_blade_agent_on_node (one_answer "") agent_on (VStr "n1") (VStr "/kc") = true.
Proof. vm_compute. reflexivity. Qed.

(** A node that is not ready counts as healthy when the time stamp of the
    condition carries no time zone: the checker raises. *)
Example naive_timestamp_healthy :
  h_overall (assess_target_health (@_REGISTRY (one_answer (node_answer
      "{'type': 'Ready', 'status': 'False', 'lastTransitionTime': '2026-02-08T12:34:56'}"))
      agent_on (λ _, Naive)) "node" node_target (VStr "/kc")) = OK.
Proof. vm_compute. reflexivity. Qed.

(** A container that cannot pull its image (ErrImagePull) is looked for, but
    the reason it leaves behind is not among those that are reported. *)
Example err_image_pull_healthy :
  (st ← @read_pod_answer (json_text
     "{'metadata': {}, 'status': {'phase': 'Running', 'containerStatuses': [{'state': {'waiting': {'reason': 'ErrImagePull'}}}]}}");
   rep ← _build_pod_report [] st; Some (py_get "reason" st, h_overall rep)) = Some (VStr "ErrImagePull", OK).
Proof. vm_compute. reflexivity. Qed.

(** A pod whose annotations are null counts as healthy: reading them raises. *)
Example null_annotations_raise :
  read_pod_answer (json_text "{'metadata': {'annotations': null}, 'status': {'phase': 'Failed'}}") = Raise.
Proof. vm_compute. reflexivity. Qed.
