(* ===== verification/Feasibility.v ===== *)
(** * Feasibility of an injection
    (agent/feasibility.py, agent/_feasibility_checkers.py)

    Whether an injection can have an effect, measured against the current
    usage of the target.  Commands go through a parameter (exit code and the
    two outputs, or an exception); the monotonic clock is an argument, and the
    cached answer of the metrics probe is passed along. *)

From stdpp Require Import base list strings sets.
From Stdlib Require Import ZArith Ascii SpecFloat.
From S2P Require Import Prelude PyText PyRe PyValue PyFloat PyOps Json FaultSpec Conflict InjectionDetection.
From S2P Require Import SafetyGate Tokens FaultType Kubectl TargetHealth.

(** ** Numbers *)

(** [a / b] of integers; a result out of range raises. *)
Definition true_div (a b : Z) : Exc spec_float :=
  if (b =? 0)%Z then Raise else match int_div a b with S754_infinity _ => Raise | x => Some x end.

Definition float_of_int (z : Z) : Exc spec_float :=
  match float_of_Z z with S754_infinity _ => Raise | x => Some x end.

(** [round(x, 1)]. *)
Definition round1 (x : spec_float) : spec_float :=
  match x with
  | S754_finite s m e =>
      let n := (if 0 <=? e then Zpos m * 2 ^ e * 10 else div_round_even (Zpos m * 10) (2 ^ (- e)))%Z in
      float_of_decimal s n (-1) (Z.of_nat (String.length (digits_of n)))
  | _ => x
  end.

(** [f"{x:.0%}"]. *)
Definition percent_text (x : spec_float) : string :=
  match float_round (float_mul x (float_of_Z 100)) with Some z => str_of_Z z +:+ "%" | None => "inf%" end.

Definition f_0_05 : spec_float := Eval vm_compute in float_of_repr "0.05".
Definition f_0_20 : spec_float := Eval vm_compute in float_of_repr "0.2".
Definition f_0_5 : spec_float := Eval vm_compute in float_of_repr "0.5".

Definition _HEADROOM_IMPOSSIBLE : spec_float := f_0_05.
Definition _HEADROOM_TIGHT : spec_float := f_0_20.

(** [max(0.0, x)]. *)
Definition max0 (x : spec_float) : spec_float := if SFltb (S754_zero false) x then x else S754_zero false.

Definition unquote (s : string) : string := strip_of ("'" +:+ dquote) (strip s).

(** [int(value)] of a parameter: what is no integer gives [None], an infinity
    raises. *)
Definition _parse_int_param (value : pyval) : Exc (option Z) :=
  if negb (py_truthy value) then Some None
  else match value with
       | VInt z => Some (Some z)
       | VBool b => Some (Some (if b then 1 else 0)%Z)
       | VStr s => Some (py_int_of_string (strip s))
       | VFloat r => match float_trunc (float_of_repr r) with
                     | TInt z => Some (Some z)
                     | TValueError => Some None
                     | TOverflow => Raise
                     end
       | _ => Some None
       end.

(** A tagged answer: confirmed, refuted or unknown, with a detail. *)
Definition probe : Type := option bool * string.

Section feasibility.
Context (cfg : ToolSettings).
Context (run : list string → Z → outcome CommandResult).
(** The text of the exception for a command with an argument that is no
    text. *)
Context (bad_argument : string).

(** ** Commands *)

Definition kubectl_words (kubeconfig : pyval) (args : list pyval) : list pyval :=
  VStr (t_kubectl_path cfg) ::
  Conflict._build_kubectl_global_args (t_kubeconfig_path cfg) (t_kube_context cfg) kubeconfig ++ args.

Definition run_words (cmd : list pyval) (timeout : Z) : outcome CommandResult :=
  match mapM as_str cmd with Some words => run words timeout | None => Exn bad_argument end.

Definition _run_kubectl (args : list pyval) (kubeconfig : pyval) (timeout : Z) : option string :=
  match run_words (kubectl_words kubeconfig args) timeout with
  | Ret r => if negb (exit_code r =? 0)%Z || negb (truthy (stdout r)) then None else Some (strip (stdout r))
  | Exn _ => None
  end.

(** An answer that is not empty. *)
Definition answer (o : option string) : option string :=
  match o with Some s => if truthy s then Some s else None | None => None end.

Definition words (l : list string) : list pyval := map VStr l.

Definition _METRICS_PROBE_TTL : spec_float := float_of_Z 300.

Definition probe_metrics (kubeconfig : pyval) : bool :=
  match _run_kubectl (words ["top"; "node"; "--no-headers"]) kubeconfig 5 with
  | Some s => truthy (strip s)
  | None => false
  end.

(** The answer, and the cache afterwards; [now] is the monotonic clock. *)
Definition is_metrics_server_available (cache : option (bool * spec_float)) (now : spec_float) (kubeconfig : pyval)
    : bool * option (bool * spec_float) :=
  let probed := (probe_metrics kubeconfig, Some (probe_metrics kubeconfig, now)) in
  match cache with
  | Some (b, at_) => if SFltb (float_sub now at_) _METRICS_PROBE_TTL then (b, cache) else probed
  | None => probed
  end.

Definition _resolve_first_pod (spec : FaultSpec) (kubeconfig : pyval) : option pyval :=
  let named := head (s_names spec) in
  if nonempty (s_labels spec) then
    let args := words ["get"; "pod"; "-l"; selector_of (s_labels spec); "-n"; str_or (s_namespace spec) "default";
                       "--field-selector=status.phase=Running"; "-o"; "jsonpath={.items[0].metadata.name}"] in
    let pod := unquote (default "" (_run_kubectl args kubeconfig 5)) in
    if truthy pod then Some (VStr pod) else named
  else named.

(** ** Usage and limits *)

Fixpoint memory_of (parts : list string) : Exc (option Z) :=
  match parts with
  | [] => Some None
  | p :: rest =>
      let u := upper p in
      if endswith u "MI" || endswith u "MIB" then
        match py_int_of_string (strip (rstrip_of "MI" (rstrip_of "MIB" u))) with
        | Some z => Some (Some z)
        | None => memory_of rest
        end
      else if endswith u "GI" || endswith u "GIB" then
        match py_float_of_string (strip (rstrip_of "GI" (rstrip_of "GIB" u))) with
        | Some x => match float_trunc (float_mul x (float_of_Z 1024)) with
                    | TInt z => Some (Some z)
                    | TValueError => memory_of rest
                    | TOverflow => Raise
                    end
        | None => memory_of rest
        end
      else memory_of rest
  end.

Definition _fetch_memory_usage_mb (pod : pyval) (namespace : string) (kubeconfig : pyval) : Exc (option Z) :=
  match answer (_run_kubectl [VStr "top"; VStr "pod"; pod; VStr "-n"; VStr namespace; VStr "--no-headers"]
                  kubeconfig 8) with
  | Some out => memory_of (tail (split_ws out))
  | None => Some None
  end.

Definition get_json_path (kind : string) (name : pyval) (ns : list string) (path : string) (kubeconfig : pyval)
    : option string :=
  out ← answer (_run_kubectl (VStr "get" :: VStr kind :: name :: words (ns ++ ["-o"; "jsonpath={" +:+ path +:+ "}"]))
                  kubeconfig 8);
  answer (Some (unquote out)).

Definition _fetch_memory_limit_mb (pod : pyval) (namespace : string) (kubeconfig : pyval) : Exc (option Z) :=
  match get_json_path "pod" pod ["-n"; namespace] ".spec.containers[0].resources.limits.memory" kubeconfig with
  | Some raw => parse_k8s_memory_to_mb raw
  | None => Some None
  end.

(** [p[:-1]]. *)
Definition but_last (s : string) : string := drop_suffix "m" s.

Fixpoint cpu_of (parts : list string) : Exc (option Z) :=
  match parts with
  | [] => Some None
  | p :: rest =>
      match (if endswith p "m" then py_int_of_string (strip (but_last p)) else None) with
      | Some z => Some (Some z)
      | None =>
          match py_float_of_string (strip p) with
          | Some x => if SFltb (S754_zero false) x && SFltb x (float_of_Z 200)
                      then z ← float_int (float_mul x (float_of_Z 1000)); Some (Some z)
                      else cpu_of rest
          | None => cpu_of rest
          end
      end
  end.

Definition _fetch_cpu_usage_millicores (name : pyval) (namespace : string) (kubeconfig : pyval) (is_node : bool)
    : Exc (option Z) :=
  let args := if is_node then [VStr "top"; VStr "node"; name; VStr "--no-headers"]
              else [VStr "top"; VStr "pod"; name; VStr "-n"; VStr namespace; VStr "--no-headers"] in
  match answer (_run_kubectl args kubeconfig 8) with
  | Some out => cpu_of (tail (split_ws out))
  | None => Some None
  end.

(** A CPU quantity in millicores. *)
Definition millicores (raw : string) : Exc (option Z) :=
  if endswith raw "m" then Some (py_int_of_string (strip (but_last raw)))
  else match py_float_of_string (strip raw) with
       | Some x => match float_trunc (float_mul x (float_of_Z 1000)) with
                   | TInt z => Some (Some z)
                   | TValueError => Some None
                   | TOverflow => Raise
                   end
       | None => Some None
       end.

Definition _fetch_cpu_limit_millicores (pod : pyval) (namespace : string) (kubeconfig : pyval) : Exc (option Z) :=
  match get_json_path "pod" pod ["-n"; namespace] ".spec.containers[0].resources.limits.cpu" kubeconfig with
  | Some raw => millicores raw
  | None => Some None
  end.

Definition _fetch_node_cpu_capacity_millicores (node kubeconfig : pyval) : Exc (option Z) :=
  match get_json_path "node" node [] ".status.capacity.cpu" kubeconfig with
  | Some raw => millicores raw
  | None => Some None
  end.

(** ** Headroom *)

Record measure := mkMeasure { me_usage : Z; me_limit : Z; me_percent : Z }.

(** [(limit * percent / 100, that minus usage over limit)]. *)
Definition target_amount (m : measure) : Exc spec_float := true_div (me_limit m * me_percent m) 100.

Definition headroom_of (m : measure) : Exc spec_float :=
  t ← target_amount m;
  u ← float_of_int (me_usage m);
  l ← float_of_int (me_limit m);
  Some (SFdiv prec emax (float_sub t u) l).

Definition current_percent (m : measure) : Exc string :=
  q ← true_div (me_usage m) (me_limit m);
  Some (float_repr (round1 (float_mul q (float_of_Z 100)))).

Definition severity_of (headroom : spec_float) : FeasibilitySeverity :=
  if SFleb headroom _HEADROOM_IMPOSSIBLE then F_IMPOSSIBLE
  else if SFleb headroom _HEADROOM_TIGHT then F_TIGHT else F_OK.

(** The report on memory ([unit] "Mi") and on processors ([unit] "m"). *)
Definition headroom_report (what unit lower_hint : string) (m : measure) : Exc FeasibilityReport :=
  t ← target_amount m;
  h ← headroom_of m;
  cur ← current_percent m;
  t_int ← float_int t;
  u ← float_of_int (me_usage m);
  delta ← float_int (float_sub t u);
  let usage := str_of_Z (me_usage m) +:+ unit in
  let limit := str_of_Z (me_limit m) +:+ unit in
  let percent := str_of_Z (me_percent m) +:+ "%" in
  let at_ := what +:+ " at " +:+ cur +:+ "% (" +:+ usage +:+ "/" +:+ limit +:+ "), target " +:+ percent in
  let room := str_of_Z (Z.max 0 delta) +:+ unit in
  let report sev h msg rec :=
    Some (mkFeas sev h (usage +:+ " (" +:+ cur +:+ "%)") limit
            (str_of_Z t_int +:+ unit +:+ " (" +:+ percent +:+ ")") msg rec) in
  match severity_of h with
  | F_IMPOSSIBLE => report F_IMPOSSIBLE (max0 h) (at_ +:+ " — only " +:+ room +:+ " headroom") lower_hint
  | F_TIGHT => report F_TIGHT h (at_ +:+ " — " +:+ room +:+ " headroom (tight)")
                 "Injection may succeed but effect could be marginal"
  | sev => report sev h ("Sufficient headroom (" +:+ percent_text h +:+ ")") ""
  end.

Definition positive (o : option Z) : option Z :=
  match o with Some z => if (0 <? z)%Z then Some z else None | None => None end.
Definition nonzero (o : option Z) : option Z :=
  match o with Some z => if (z =? 0)%Z then None else Some z | None => None end.

(** Memory. *)
Definition memory_assess (spec : FaultSpec) (kubeconfig : pyval) : Exc (option FeasibilityReport) :=
  if negb (truthy (s_namespace spec)) then Some None
  else
    percent ← _parse_int_param (py_get "mem-percent" (s_params spec));
    match positive percent, _resolve_first_pod spec kubeconfig with
    | Some percent, Some pod =>
        if negb (py_truthy pod) then Some None
        else
          usage ← _fetch_memory_usage_mb pod (s_namespace spec) kubeconfig;
          limit ← _fetch_memory_limit_mb pod (s_namespace spec) kubeconfig;
          match usage, nonzero limit with
          | Some u, Some l =>
              r ← headroom_report "Memory" "Mi" "Pick a Pod with lower memory usage" (mkMeasure u l percent);
              Some (Some r)
          | _, _ => Some None
          end
    | _, _ => Some None
    end.

(** Processors. *)
Definition cpu_percent (spec : FaultSpec) : Exc (option Z) :=
  percent ← _parse_int_param (py_get "cpu-percent" (s_params spec));
  Some match positive percent with
       | Some z => Some z
       | None => if s_blade_action spec ∈? ["fullload"; "burn"] then Some 100%Z else None
       end.

Definition cpu_assess (spec : FaultSpec) (kubeconfig : pyval) : Exc (option FeasibilityReport) :=
  percent ← cpu_percent spec;
  let is_node := String.eqb (s_scope spec) "node" in
  let name := if is_node then head (s_names spec)
              else p ← _resolve_first_pod spec kubeconfig; if py_truthy p then Some p else None in
  match percent, name with
  | Some percent, Some name =>
      usage ← _fetch_cpu_usage_millicores name (s_namespace spec) kubeconfig is_node;
      match usage with
      | None => Some None
      | Some u =>
          capacity ← (if is_node then _fetch_node_cpu_capacity_millicores name kubeconfig
                      else _fetch_cpu_limit_millicores name (s_namespace spec) kubeconfig);
          match nonzero capacity with
          | Some l =>
              r ← headroom_report "CPU" "m" "Pick a target with lower CPU usage" (mkMeasure u l percent);
              Some (Some r)
          | None => Some None
          end
      end
  | _, _ => Some None
  end.

(** ** Network *)

Definition _fetch_pod_phase (pod : pyval) (namespace : string) (kubeconfig : pyval) : option string :=
  answer (_run_kubectl [VStr "get"; VStr "pod"; pod; VStr "-n"; VStr namespace; VStr "-o";
                        VStr "jsonpath={.status.phase}"] kubeconfig 8).

(** A command in the pod that succeeds, or fails with a mark of absence. *)
Definition exec_probe (mark : string) (pod : pyval) (namespace : string) (command : list string) (kubeconfig : pyval)
    : probe :=
  match run_words (kubectl_words kubeconfig
          ([VStr "exec"; pod; VStr "-n"; VStr namespace; VStr "--"] ++ words command)) 10 with
  | Ret r =>
      if (exit_code r =? 0)%Z then (Some true, "")
      else
        let err := strip (stderr r) in
        if contains mark (lower err) then (Some false, err)
        else (None, str_or err ("exit code " +:+ str_of_Z (exit_code r)))
  | Exn e => (None, e)
  end.

Definition _check_interface_exists (pod : pyval) (namespace interface : string) (kubeconfig : pyval) : probe :=
  exec_probe "no such file or directory" pod namespace ["cat"; "/sys/class/net/" +:+ interface +:+ "/operstate"] kubeconfig.

Definition _check_iptables_available (pod : pyval) (namespace : string) (kubeconfig : pyval) : probe :=
  exec_probe "not found" pod namespace ["iptables"; "--version"] kubeconfig.

(** [any] over a list whose test may raise, from the left. *)
Fixpoint exists_exc {A} (f : A → Exc bool) (l : list A) : Exc bool :=
  match l with [] => Some false | x :: l' => b ← f x; if (b : bool) then Some true else exists_exc f l' end.

Definition names_pod (pod : pyval) (namespace : string) (rs : pyval) : Exc bool :=
  identifier ← vget_d "identifier" (VStr "") rs;
  identifier ← as_str identifier;
  Some match split_str "/" identifier with
       | ns :: _ :: p :: _ => String.eqb ns namespace && eqs pod p
       | _ => false
       end.

Definition network_on_pod (pod : pyval) (namespace : string) (item : pyval) : Exc bool :=
  st ← vget_d "status" (VDict []) item;
  phase ← vget "phase" st;
  if negb (eqs phase "Running") then Some false
  else
    exps ← vget_d "expStatuses" (VList []) st;
    exps ← py_iter exps;
    exists_exc (λ e,
      t ← vget "target" e;
      if negb (eqs t "network") then Some false
      else rss ← vget_d "resourceStatuses" (VList []) e; rss ← py_iter rss;
           exists_exc (names_pod pod namespace) rss) exps.

Definition _check_active_network_experiment (pod : pyval) (namespace : string) (kubeconfig : pyval) : Exc bool :=
  match answer (_run_kubectl (words ["get"; "chaosblade"; "-o"; "json"]) kubeconfig 8) with
  | None => Some false
  | Some out =>
      match json_loads out with
      | JOk data => items ← vget_d "items" (VList []) data; items ← py_iter items;
                    exists_exc (network_on_pod pod namespace) items
      | _ => Some false
      end
  end.

Definition plain_report (sev : FeasibilitySeverity) (h : spec_float) (cur lim target msg rec : string)
    : Exc (option FeasibilityReport) := Some (Some (mkFeas sev h cur lim target msg rec)).

Definition network_probes (spec : FaultSpec) (pod : pyval) (kubeconfig : pyval) : Exc (option FeasibilityReport) :=
  let ns := s_namespace spec in
  let p := py_str pod in
  let interface := py_str (get_d "interface" (VStr "eth0") (s_params spec)) in
  match _check_interface_exists pod ns interface kubeconfig with
  | (Some false, _) =>
      plain_report F_IMPOSSIBLE (S754_zero false) ("interface=" +:+ interface +:+ " not found") ""
        ("--interface " +:+ interface) ("Interface '" +:+ interface +:+ "' not found in Pod " +:+ p)
        ("Check available interfaces: kubectl exec " +:+ p +:+ " -n " +:+ ns +:+ " -- ip link show")
  | (None, d) =>
      plain_report F_TIGHT f_0_5 ("interface check failed: " +:+ d) "" ("--interface " +:+ interface)
        ("Cannot verify interface '" +:+ interface +:+ "' in Pod " +:+ p +:+ ": " +:+ d)
        ("Verify: kubectl exec " +:+ p +:+ " -n " +:+ ns +:+ " -- cat /sys/class/net/" +:+ interface +:+ "/operstate")
  | (Some true, _) =>
      match _check_iptables_available pod ns kubeconfig with
      | (Some false, _) =>
          plain_report F_IMPOSSIBLE (S754_zero false) "iptables not found" "" ""
            ("iptables not available in Pod " +:+ p +:+ " — ChaosBlade network faults require iptables")
            "Use a container image that includes iptables, or consider CNI-level network policy injection"
      | (None, d) =>
          plain_report F_TIGHT f_0_5 ("iptables check failed: " +:+ d) "" ""
            ("Cannot verify iptables in Pod " +:+ p +:+ ": " +:+ d)
            ("Network injection may fail if iptables is missing. Verify: kubectl exec " +:+ p +:+ " -n " +:+ ns +:+
             " -- iptables --version")
      | (Some true, _) =>
          conflict ← _check_active_network_experiment pod ns kubeconfig;
          if (conflict : bool)
          then plain_report F_TIGHT f_0_20 "active network experiment exists" "" ""
                 ("Pod " +:+ p +:+ " already has active network fault injection — stacking may cause unpredictable behavior")
                 "Destroy existing network experiment before injecting a new one"
          else plain_report F_OK f_1_0 ("phase=Running, interface=" +:+ interface +:+ " present, iptables available")
                 "" "" "Network injection feasible" ""
      end
  end.

Definition network_assess (spec : FaultSpec) (kubeconfig : pyval) : Exc (option FeasibilityReport) :=
  if negb (truthy (s_namespace spec)) || (negb (nonempty (s_names spec)) && negb (nonempty (s_labels spec)))
     || String.eqb (s_scope spec) "node"
  then Some None
  else
    match _resolve_first_pod spec kubeconfig with
    | Some pod =>
        if negb (py_truthy pod) then Some None
        else match _fetch_pod_phase pod (s_namespace spec) kubeconfig with
             | None => Some None
             | Some phase =>
                 if String.eqb phase "Running" then network_probes spec pod kubeconfig
                 else plain_report F_IMPOSSIBLE (S754_zero false) ("phase=" +:+ phase) "Running" ""
                        ("Pod " +:+ py_str pod +:+ " is " +:+ phase +:+ ", not Running — network injection ineffective")
                        "Wait for Pod to be Running before injecting network faults"
             end
    | None => Some None
    end.

(** ** Disk *)

(** The usage in percent and the size in gigabytes. *)
Definition _parse_df_output (df_out : option string) : Exc (option (Z * spec_float)) :=
  match answer df_out with
  | None => Some None
  | Some out =>
      let ls := splitlines (strip out) in
      match last ls with
      | Some row =>
          match Nat.ltb (length ls) 2, split_ws row with
          | false, _ :: total :: _ :: _ :: pct :: _ =>
              match py_int_of_string (strip total) with
              | None => Some None
              | Some kb =>
                  q ← true_div kb 1024;
                  let gb := round1 (SFdiv prec emax q (float_of_Z 1024)) in
                  Some (u ← py_int_of_string (strip (replace "%" "" pct)); Some (u, gb))
              end
          | _, _ => Some None
          end
      | None => Some None
      end
  end.

Definition df_in (pod : pyval) (namespace : string) (path kubeconfig : pyval) : Exc (option (Z * spec_float)) :=
  _parse_df_output (_run_kubectl ([VStr "exec"; pod; VStr "-n"; VStr namespace; VStr "--"; VStr "df"; VStr "-P"; path])
    kubeconfig 10).

Definition tool_pod_on (node : pyval) (out : string) : option string :=
  head (omap (λ line, match re_split _COLUMNS_RE (strip line) with
                      | pod :: _ :: status :: _ :: _ :: _ :: n :: _ =>
                          if String.eqb status "Running" && eqs node n then Some pod else None
                      | _ => None
                      end) (splitlines (strip out))).

Definition _fetch_node_disk_usage (node path kubeconfig : pyval) : Exc (option (Z * spec_float)) :=
  match answer (_run_kubectl (words ["get"; "pods"; "-n"; "chaosblade"; "-l"; "app=otel-c-tool"; "-o"; "wide";
                                     "--no-headers"]) kubeconfig 8) with
  | None => Some None
  | Some out => match answer (tool_pod_on node out) with
                | Some pod => df_in (VStr pod) "chaosblade" path kubeconfig
                | None => Some None
                end
  end.

Definition _fetch_pod_disk_usage (pod : pyval) (namespace : string) (path kubeconfig : pyval)
    : Exc (option (Z * spec_float)) := df_in pod namespace path kubeconfig.

Definition fill_report (path : pyval) (usage target : Z) (total : string) : Exc (option FeasibilityReport) :=
  h ← true_div (target - usage) 100;
  let cur := str_of_Z usage +:+ "% (path=" +:+ py_str path +:+ ")" in
  let at_ := "Disk at " +:+ str_of_Z usage +:+ "% on " +:+ py_str path +:+ ", target " +:+ str_of_Z target +:+ "% " in
  let tv := str_of_Z target +:+ "%" in
  match severity_of h with
  | F_IMPOSSIBLE => plain_report F_IMPOSSIBLE (max0 h) cur total tv (at_ +:+ "— already near/above target")
                      "Choose a path with more free space"
  | F_TIGHT => plain_report F_TIGHT h cur total tv (at_ +:+ "— tight headroom")
                 "Injection may succeed but fill amount is small"
  | sev => plain_report sev h cur total tv ("Sufficient disk headroom (" +:+ percent_text h +:+ ")") ""
  end.

Definition disk_usage (spec : FaultSpec) (path kubeconfig : pyval) : Exc (option (Z * spec_float)) :=
  if String.eqb (s_scope spec) "node" then
    match s_names spec with node :: _ => _fetch_node_disk_usage node path kubeconfig | [] => Some None end
  else
    match _resolve_first_pod spec kubeconfig with
    | Some pod => if py_truthy pod
                  then _fetch_pod_disk_usage pod (str_or (s_namespace spec) "default") path kubeconfig
                  else Some None
    | None => Some None
    end.

Definition disk_assess (spec : FaultSpec) (kubeconfig : pyval) : Exc (option FeasibilityReport) :=
  let path := get_d "path" (VStr "/") (s_params spec) in
  usage ← disk_usage spec path kubeconfig;
  match usage with
  | None => Some None
  | Some (usage, gb) =>
      let total := if float_is_zero gb then "?" else float_repr gb +:+ "G" in
      if String.eqb (s_blade_action spec) "fill" then
        percent ← _parse_int_param (py_get "percent" (s_params spec));
        fill_report path usage (default 90%Z percent) total
      else
        q ← true_div usage 100;
        plain_report F_OK (float_sub f_1_0 q) (str_of_Z usage +:+ "% (path=" +:+ py_str path +:+ ")") total
          ("IO burn on " +:+ py_str path) ("Disk burn feasible, current usage " +:+ str_of_Z usage +:+ "%") ""
  end.

(** ** The registry *)

Definition feasibility_checker : Type := FaultSpec → pyval → Exc (option FeasibilityReport).

Definition register_all : dict feasibility_checker :=
  [("mem", memory_assess); ("cpu", cpu_assess); ("network", network_assess); ("disk", disk_assess)].

Definition register_feasibility_checker (target : string) (c : feasibility_checker) (r : dict feasibility_checker)
    : dict feasibility_checker := dict_set target c r.

Definition skipped_report : FeasibilityReport :=
  mkFeas F_SKIPPED (S754_zero false) "" "" "" "metrics-server unavailable — headroom check skipped"
    "Install metrics-server for pre-injection feasibility assessment".

(** Never raises; the second result is the cache of the metrics probe. *)
Definition assess_feasibility (registry : dict feasibility_checker) (cache : option (bool * spec_float))
    (now : spec_float) (spec : FaultSpec) (kubeconfig : pyval)
    : option FeasibilityReport * option (bool * spec_float) :=
  match dict_get (s_blade_target spec) registry with
  | None => (None, cache)
  | Some assess =>
      if s_blade_target spec ∈? ["mem"; "cpu"] then
        let '(ok, cache') := is_metrics_server_available cache now kubeconfig in
        (if ok : bool then default None (assess spec kubeconfig) else Some skipped_report, cache')
      else (default None (assess spec kubeconfig), cache)
  end.

(** The assessment as the safety check calls it. *)
Definition feasibility_assessor (cache : option (bool * spec_float)) (now : spec_float) (spec : FaultSpec)
    (kubeconfig : pyval) : Exc (option FeasibilityReport) :=
  Some (assess_feasibility register_all cache now spec kubeconfig).1.
End feasibility.

(** * Properties *)

(** ** A cluster that cannot be read blocks nothing *)

Section feasibility_props.
Context (cfg : ToolSettings) (run : list string → Z → outcome CommandResult) (bad_argument : string).
Hypothesis unreadable : ∀ cmd t, ∃ e, run cmd t = Exn e.

Lemma unreadable_run args kc t : _run_kubectl cfg run bad_argument args kc t = None.
Proof.
  unfold _run_kubectl, run_words. destruct (mapM as_str _) as [ws|]; [|done].
  by destruct (unreadable ws t) as [e ->].
Qed.

Lemma unreadable_memory spec kc r :
  memory_assess cfg run bad_argument spec kc = Some r → r = None.
Proof.
  unfold memory_assess, _fetch_memory_usage_mb. case_if; [by intros [= <-]|].
  intros (p & _ & H)%bind_Some. destruct (positive p); [|by injection H as <-].
  destruct (_resolve_first_pod _ _ _ _ _); [|by injection H as <-].
  case_if_in H; [by injection H as <-|]. rewrite unreadable_run in H. cbn in H.
  apply bind_Some in H as (l & _ & H). by injection H as <-.
Qed.

Lemma unreadable_cpu spec kc r : cpu_assess cfg run bad_argument spec kc = Some r → r = None.
Proof.
  unfold cpu_assess, _fetch_cpu_usage_millicores. intros (p & _ & H)%bind_Some. revert H. cbv zeta.
  destruct p as [p|]; [|by intros [= <-]].
  set (name := if String.eqb _ _ then _ else _). clearbody name. destruct name; [|by intros [= <-]].
  rewrite unreadable_run. cbn. by intros [= <-].
Qed.

Lemma unreadable_network spec kc r : network_assess cfg run bad_argument spec kc = Some r → r = None.
Proof.
  unfold network_assess, _fetch_pod_phase. case_if; [by intros [= <-]|].
  destruct (_resolve_first_pod _ _ _ _ _); [|by intros [= <-]]. case_if; [by intros [= <-]|].
  rewrite unreadable_run. by intros [= <-].
Qed.

Lemma unreadable_disk spec kc r : disk_assess cfg run bad_argument spec kc = Some r → r = None.
Proof.
  unfold disk_assess. intros (u & Hu & H)%bind_Some. revert Hu.
  unfold disk_usage, _fetch_node_disk_usage, _fetch_pod_disk_usage, df_in. rewrite !unreadable_run. cbn.
  intros Hu. assert (u = None) as ->; [|by injection H as <-].
  repeat case_match; simplify_eq; try done; rewrite unreadable_run in *; cbn in *; congruence.
Qed.

(** The feasibility check fails open: when no command can be run, whatever the
    fault and the cached probe, it gives no report or says that it was
    skipped, and so never rejects a request. *)
Theorem feasibility_fails_open scfg cache now spec kc :
  feas_rejected scfg (feasibility_of scfg (feasibility_assessor cfg run bad_argument cache now) spec kc) = false ∧
  ∀ r, (assess_feasibility cfg run bad_argument (register_all cfg run bad_argument) cache now spec kc).1 = Some r →
       r = skipped_report.
Proof.
  assert (Hall : ∀ kc' r,
    (assess_feasibility cfg run bad_argument (register_all cfg run bad_argument) cache now spec kc').1 = Some r →
    r = skipped_report).
  { intros kc' r. unfold assess_feasibility.
    destruct (dict_get (s_blade_target spec) _) as [f|] eqn:Ef; [|done].
    assert (Hf : ∀ x, f spec kc' = Some x → x = None).
    { apply dict_get_In in Ef. unfold register_all in Ef.
      repeat (apply elem_of_cons in Ef as [[= _ ->]|Ef]); [intros x; apply unreadable_memory
        | intros x; apply unreadable_cpu | intros x; apply unreadable_network
        | intros x; apply unreadable_disk | by apply elem_of_nil in Ef]. }
    assert (Hd : default None (f spec kc') = None).
    { destruct (f spec kc') as [x|] eqn:E; [|done]. by rewrite (Hf _ eq_refl). }
    rewrite Hd. destruct (_ ∈? _); [|done].
    destruct (is_metrics_server_available _ _ _ _ _ _) as [[] c']; cbn; congruence. }
  split; [|apply Hall].
  unfold feasibility_of, feasibility_assessor. destruct (feasibility_check_enabled scfg); [|done]. cbn [default].
  destruct (assess_feasibility _ _ _ _ _ _ _ _).1 as [r|] eqn:E; [|done]. by rewrite (Hall _ _ E).
Qed.
End feasibility_props.

Definition cut_off (_ : list string) (_ : Z) : outcome CommandResult := Exn "connection refused".

Lemma feasibility_fails_open_witness :
  feas_rejected default_safety
    (feasibility_of default_safety (feasibility_assessor default_tools cut_off "" None (S754_zero false)) shop_spec (VStr "/kc"))
  = false ∧
  ∀ r, (assess_feasibility default_tools cut_off "" (register_all default_tools cut_off "") None (S754_zero false)
          shop_spec (VStr "/kc")).1 = Some r → r = skipped_report.
Proof. apply (feasibility_fails_open default_tools cut_off "" (λ _ _, ex_intro _ _ eq_refl)). Defined.

(** ** Concrete measurements *)

(** A pod that uses nearly all of its memory. *)
Definition full_pod (cmd : list string) (_ : Z) : outcome CommandResult :=
  Ret (mkResult 0 (if existsb (String.eqb "top") cmd then "cart-2 12m 940Mi" else "1000Mi") "").

Definition mem_spec (percent : string) : FaultSpec :=
  mkSpec "shop" "pod" [VStr "cart-2"] [] "mem" "load" [("mem-percent", VStr percent)] [] 60 "cli_structured" "".

Example full_pod_impossible :
  option_map (λ r, (fr_severity r, fr_message r))
    (assess_feasibility default_tools full_pod "" (register_all default_tools full_pod "") None (S754_zero false)
       (mem_spec "98") (VStr "/kc")).1
  = Some (F_IMPOSSIBLE, "Memory at 94.0% (940Mi/1000Mi), target 98% — only 40Mi headroom").
Proof. vm_compute. reflexivity. Qed.

Definition busy_pod (cmd : list string) (_ : Z) : outcome CommandResult :=
  Ret (mkResult 0 (if existsb (String.eqb "top") cmd then "cart-2 12m 800Mi" else "1000Mi") "").

Example busy_pod_tight :
  option_map fr_severity
    (assess_feasibility default_tools busy_pod "" (register_all default_tools busy_pod "") None (S754_zero false)
       (mem_spec "98") (VStr "/kc")).1 = Some F_TIGHT.
Proof. vm_compute. reflexivity. Qed.

(** ** Divergences *)

(** The cached answer of the metrics probe is used for any cluster: a probe
    that failed on one makes the check on another be skipped. *)
Example probe_cache_ignores_cluster :
  (assess_feasibility default_tools full_pod "" (register_all default_tools full_pod "")
     (Some (false, S754_zero false)) (float_of_Z 10) (mem_spec "98") (VStr "/other")).1 = Some skipped_report.
Proof. vm_compute. reflexivity. Qed.
