(* ===== verification/Effects.v ===== *)
(** * Programs that run commands

    A node that talks to the cluster is a program: a tree whose inner nodes
    are the subprocesses it starts, each branching on what the subprocess
    answers, and whose leaves are its result or its exception.  A program is
    run in a world that answers each command knowing everything that was run
    before, so that the same command may answer differently when it is run
    again.  [wp] is the weakest precondition of a program for a condition on
    the commands run and the result; it holds in every world. *)

From stdpp Require Import base list strings.
From Stdlib Require Import ZArith.
From S2P Require Import Prelude PyValue PyOps ToolGuard Kubectl.

(** A subprocess: its command line, time-out, the variables added to its
    environment, and its standard input. *)
Record Spawn := mkSpawn {
  sp_cmd : list string;
  sp_timeout : Z;
  sp_env : dict string;
  sp_stdin : string }.

Inductive prog (A : Type) :=
  | Done (r : outcome A)
  | Run (s : Spawn) (k : outcome CommandResult → prog A).
#[global] Arguments Done {A} _.
#[global] Arguments Run {A} _ _.

(** What follows a program, also when it raises. *)
Fixpoint and_then {A B} (p : prog A) (f : outcome A → prog B) : prog B :=
  match p with
  | Done r => f r
  | Run s k => Run s (λ o, and_then (k o) f)
  end.

#[global] Instance prog_ret : MRet prog := λ A a, Done (Ret a).
#[global] Instance prog_bind : MBind prog := λ A B f p,
  and_then p (λ o, match o with Ret a => f a | Exn t => Done (Exn t) end).

#[global] Instance prog_fmap : FMap prog := λ A B f p, p ≫= λ a, mret (f a).

(** [try: p except Exception as e: h(e)]. *)
Definition catch {A} (p : prog A) (h : string → prog A) : prog A :=
  and_then p (λ o, match o with Ret a => Done (Ret a) | Exn t => h t end).

(** A pure computation that may raise, with a text the model leaves open. *)
Definition lift {A} (text : string) (x : Exc A) : prog A := Done (with_text text x).

(** ** Running *)

Definition history : Type := list (Spawn * outcome CommandResult).
Definition world : Type := history → Spawn → outcome CommandResult.

Fixpoint execute {A} (w : world) (h : history) (p : prog A) : outcome A * history :=
  match p with
  | Done r => (r, h)
  | Run s k => let o := w h s in execute w (h ++ [(s, o)]) (k o)
  end.

Lemma execute_and_then {A B} w h (p : prog A) (f : outcome A → prog B) :
  execute w h (and_then p f) = let '(r, h') := execute w h p in execute w h' (f r).
Proof. revert h. induction p as [r|s k IH]; intros h; simpl; [done | apply IH]. Qed.

Lemma execute_bind {A B} w h (p : prog A) (f : A → prog B) :
  execute w h (p ≫= f) =
  match execute w h p with (Ret a, h') => execute w h' (f a) | (Exn t, h') => (Exn t, h') end.
Proof.
  unfold mbind, prog_bind. rewrite execute_and_then. by destruct (execute w h p) as [[a|t] h'].
Qed.

(** ** The weakest precondition *)

Fixpoint wp {A} (p : prog A) (Q : history → outcome A → Prop) (h : history) : Prop :=
  match p with
  | Done r => Q h r
  | Run s k => ∀ o, wp (k o) Q (h ++ [(s, o)])
  end.

Lemma wp_sound {A} (p : prog A) Q h w :
  wp p Q h → Q (execute w h p).2 (execute w h p).1.
Proof. revert h. induction p as [r|s k IH]; intros h; simpl; [done|]. intros H. by apply IH. Qed.

Lemma wp_mono {A} (p : prog A) (Q R : history → outcome A → Prop) h :
  wp p Q h → (∀ h r, Q h r → R h r) → wp p R h.
Proof. intros H HQR. revert h H. induction p as [r|s k IH]; intros h; simpl; [apply HQR|]. eauto. Qed.

Lemma wp_and_then {A B} (p : prog A) (f : outcome A → prog B) Q h :
  wp (and_then p f) Q h ↔ wp p (λ h r, wp (f r) Q h) h.
Proof.
  revert h. induction p as [r|s k IH]; intros h; simpl; [done|].
  split; intros H o; by apply IH.
Qed.

Lemma wp_bind {A B} (p : prog A) (f : A → prog B) Q h :
  wp (p ≫= f) Q h ↔ wp p (λ h r, match r with Ret a => wp (f a) Q h | Exn t => Q h (Exn t) end) h.
Proof.
  unfold mbind, prog_bind. rewrite wp_and_then.
  split; intros H; (eapply wp_mono; [exact H|]); by intros h' [].
Qed.

Lemma wp_catch {A} (p : prog A) (g : string → prog A) Q h :
  wp (catch p g) Q h ↔ wp p (λ h r, match r with Ret a => Q h (Ret a) | Exn t => wp (g t) Q h end) h.
Proof.
  unfold catch. rewrite wp_and_then.
  split; intros H; (eapply wp_mono; [exact H|]); by intros h' [].
Qed.

Lemma wp_and {A} (p : prog A) (Q R : history → outcome A → Prop) h :
  wp p Q h → wp p R h → wp p (λ h r, Q h r ∧ R h r) h.
Proof. revert h. induction p as [r|s k IH]; intros h; simpl; [done|]. eauto. Qed.

(** Nothing that was run is forgotten. *)
Lemma wp_extends {A} (p : prog A) h : wp p (λ h' _, ∃ l, h' = h ++ l) h.
Proof.
  revert h. induction p as [r|s k IH]; intros h; simpl; [exists []; by rewrite app_nil_r|].
  intros o. eapply wp_mono; [apply IH|]. intros h' _ [l ->]. exists ((s, o) :: l). by rewrite <- app_assoc.
Qed.

Lemma wp_lift {A B} text (x : Exc A) (f : A → prog B) Q h :
  (∀ a, x = Some a → wp (f a) Q h) → (∀ t, Q h (Exn t)) → wp (lift text x ≫= f) Q h.
Proof. intros H He. destruct x as [a|]; [by apply H | apply He]. Qed.

(** ** Programs whose commands satisfy a condition *)

Definition runs {A} (P : Spawn → Prop) (p : prog A) : Prop :=
  ∀ h, wp p (λ h' _, ∃ l, h' = h ++ l ∧ Forall (λ e, P e.1) l) h.

Lemma runs_done {A} P (r : outcome A) : runs P (Done r).
Proof. intros h. exists []. by rewrite app_nil_r. Qed.

Lemma runs_run {A} P s (k : outcome CommandResult → prog A) :
  P s → (∀ o, runs P (k o)) → runs P (Run s k).
Proof.
  intros Hs Hk h o. eapply wp_mono; [apply Hk|]. intros h' _ (l & -> & Hl).
  exists ((s, o) :: l). rewrite <- app_assoc. split; [done | by constructor].
Qed.

Lemma runs_and_then {A B} P (p : prog A) (f : outcome A → prog B) :
  runs P p → (∀ r, runs P (f r)) → runs P (and_then p f).
Proof.
  intros Hp Hf h. rewrite wp_and_then. eapply wp_mono; [apply Hp|].
  intros h1 r (l1 & -> & H1). eapply wp_mono; [apply Hf|].
  intros h2 _ (l2 & -> & H2). exists (l1 ++ l2). rewrite (assoc_L app). split; [done | by apply Forall_app].
Qed.

Lemma runs_bind {A B} P (p : prog A) (f : A → prog B) :
  runs P p → (∀ a, runs P (f a)) → runs P (p ≫= f).
Proof. intros Hp Hf. apply runs_and_then; [done|]. intros []; [apply Hf | apply runs_done]. Qed.

Lemma runs_catch {A} P (p : prog A) g : runs P p → (∀ t, runs P (g t)) → runs P (catch p g).
Proof. intros Hp Hg. apply runs_and_then; [done|]. intros []; [apply runs_done | apply Hg]. Qed.

Lemma runs_lift {A B} P text (x : Exc A) (f : A → prog B) :
  (∀ a, x = Some a → runs P (f a)) → runs P (lift text x ≫= f).
Proof. intros H. destruct x as [a|]; [by apply H | apply runs_done]. Qed.

Lemma runs_mono {A} (P P' : Spawn → Prop) (p : prog A) :
  runs P p → (∀ s, P s → P' s) → runs P' p.
Proof.
  intros Hp H h. eapply wp_mono; [apply Hp|]. intros h' _ (l & -> & Hl).
  exists l. split; [done|]. eapply Forall_impl; [exact Hl|]. simpl. auto.
Qed.

Lemma runs_sound {A} P (p : prog A) w :
  runs P p → Forall (λ e, P e.1) (execute w [] p).2.
Proof. intros H. destruct (wp_sound p _ [] w (H [])) as (l & -> & Hl). done. Qed.

Create HintDb effects.
#[export] Hint Resolve runs_done : effects.

(** Splits a goal [runs P p] along the structure of [p]. *)
Ltac runs_step :=
  match goal with
  | |- runs _ (Done _) => apply runs_done
  | |- runs _ (mret _) => apply runs_done
  | |- runs _ (lift _ _) => apply runs_done
  | |- runs _ (mbind _ (lift _ _)) => apply runs_lift; intros ? ?
  | |- runs _ (mbind _ _) => apply runs_bind; [|intros ?]
  | |- runs _ (fmap _ _) => apply runs_bind; [|intros ?]
  | |- runs _ (catch _ _) => apply runs_catch; [|intros ?]
  | |- runs _ (and_then _ _) => apply runs_and_then; [|intros ?]
  | |- runs _ (if ?b then _ else _) => destruct b eqn:?
  | |- runs _ (match ?x with _ => _ end) => destruct x eqn:?
  end.

(** ** The command runner (tools/shell.py) *)

Section runner.
Context (cfg : ToolSettings) (guard : ToolGuard).

(** [run_command(cmd, timeout, env_override=env)]. *)
Definition command (cmd : list string) (timeout : Z) (env : dict string) : prog CommandResult :=
  let '(allowed, reason) := check guard cmd in
  if negb allowed then Done (Exn reason)
  else Run (mkSpawn cmd (if (timeout =? 0)%Z then timeout_default cfg else timeout) env "") Done.

Lemma command_runs (P : Spawn → Prop) cmd timeout env :
  ((check guard cmd).1 = true → ∀ t, P (mkSpawn cmd t env "")) → runs P (command cmd timeout env).
Proof.
  intros H. unfold command. destruct (check guard cmd) as [allowed reason]. cbn in *.
  destruct allowed; cbn; [|apply runs_done]. apply runs_run; [by apply H|]. intros o. apply runs_done.
Qed.

Lemma wp_command cmd timeout env Q h :
  ((check guard cmd).1 = false → Q h (Exn (check guard cmd).2)) →
  (∀ t o, (check guard cmd).1 = true → Q (h ++ [(mkSpawn cmd t env "", o)]) o) →
  wp (command cmd timeout env) Q h.
Proof.
  unfold command. destruct (check guard cmd) as [[] reason]; cbn; intros Hr Ho; [intros o; by apply Ho | by apply Hr].
Qed.

(** In a world without memory the runner is the one of the kubectl tools. *)
Lemma command_stateless spawn cmd timeout h :
  (execute (λ _ s, spawn (sp_cmd s) (sp_timeout s) (sp_stdin s)) h (command cmd timeout [])).1
  = run_command cfg guard spawn cmd (Some timeout) false "".
Proof. unfold command, run_command. by destruct (check guard cmd) as [[] reason]. Qed.
End runner.
