(* ===== verification/Blade.v ===== *)
(** * The blade tools (tools/blade.py)

    The five tools around the ChaosBlade binary: creating, destroying and
    querying experiments, each a program that runs one command.  Installing
    the binary before the first use is left out; it never changes the answer
    of the tool other than through the command. *)

From stdpp Require Import base list strings sets.
From Stdlib Require Import ZArith Ascii.
From S2P Require Import Prelude PyText PyRe PyValue Shlex PyFloat PyOps ToolGuard GuardParser TargetTypes Classifier TargetGuard FaultType Kubectl Effects.

Record BladeSettings := mkBlade {
  b_tools : ToolSettings;
  b_blade_path : string;
  b_bundled_path : string;
  timeout_blade : Z }.

Section blade.
Context (cfg : BladeSettings) (guard : ToolGuard).

Definition _get_blade_path : string := str_or (b_blade_path cfg) (b_bundled_path cfg).

Definition _build_kubeconfig_arg (kubeconfig : string) : list string :=
  let kc := str_or kubeconfig (t_kubeconfig_path (b_tools cfg)) in
  if truthy kc then ["--kubeconfig"; kc] else [].

(** [None] and the empty dict add nothing to the environment. *)
Definition _build_kubeconfig_env (kubeconfig : string) : dict string :=
  let kc := str_or kubeconfig (t_kubeconfig_path (b_tools cfg)) in
  if truthy kc then [("KUBECONFIG", kc)] else [].

Definition blade_run (cmd : list string) (timeout : Z) (env : dict string) : prog CommandResult :=
  command (b_tools cfg) guard cmd timeout env.

(** ** Creating an experiment *)

(** The flags that select the target; a node is selected by name only. *)
Definition selector_args (scope namespace names labels : string) : list string :=
  (if truthy namespace && negb (String.eqb scope "node") then ["--namespace"; namespace] else []) ++
  (if truthy names then ["--names"; names] else []) ++
  (if truthy labels && negb (String.eqb scope "node") then ["--labels"; labels] else []).

(** The value behind the first [--timeout] is raised to the minimum; a value
    that is no integer raises. *)
Fixpoint raise_timeout (minimum : string → Z) (cmd : list string) : Exc (list string) :=
  match cmd with
  | [] => Some []
  | word :: rest =>
      if String.eqb word "--timeout" then
        match rest with
        | [] => Some [word]
        | v :: rest' =>
            current ← py_int_of_string (strip v);
            Some (word :: (if (minimum v =? current)%Z then v else str_of_Z (minimum v)) :: rest')
        end
      else rest ← raise_timeout minimum rest; Some (word :: rest)
  end.

Definition bounded_timeout (scope target action : string) (cmd : list string) : Exc (list string) :=
  if negb ("--timeout" ∈? cmd)
  then Some (cmd ++ ["--timeout"; str_of_Z (ensure_min_duration VNone (Some scope) (Some target) (Some action))])
  else raise_timeout (λ v, ensure_min_duration (VStr v) (Some scope) (Some target) (Some action)) cmd.

Definition create_command (scope target action namespace names labels kubeconfig evict_count evict_percent flags : string)
    : Exc (list string) :=
  bounded_timeout scope target action
    ([_get_blade_path; "create"; "k8s"; scope +:+ "-" +:+ target; action] ++
     selector_args scope namespace names labels ++
     _build_kubeconfig_arg kubeconfig ++
     (if truthy evict_count then ["--evict-count"; evict_count] else []) ++
     (if truthy evict_percent then ["--evict-percent"; evict_percent] else []) ++
     (if truthy flags then _split_args flags else [])).

Definition _UID_IN_ERROR_RE : pattern := Eval vm_compute in
  get_pattern (compile no_flags (dquote +:+ "uid" +:+ dquote +:+ "\s*:\s*" +:+ dquote +:+ "([a-f0-9]{16,})" +:+ dquote))
    ltac:(vm_compute; discriminate).

(** Both streams, without those that are blank. *)
Definition combined_output (r : CommandResult) : string :=
  match List.filter truthy [strip (stdout r); strip (stderr r)] with
  | [] => "(no output)"
  | parts => join newline parts
  end.

Definition warning_text (code : Z) (uid combined : string) : string :=
  "Warning: blade create returned error (exit " +:+ str_of_Z code +:+ ") " +:+
  "but experiment CRD was created (UID: " +:+ uid +:+ "). " +:+
  "The experiment MAY be in effect despite the error " +:+
  "(ChaosBlade operator may retry with fallback mechanisms). " +:+
  "Do NOT conclude failure or attempt alternative injection methods. " +:+
  "Instead, POLL the cluster state repeatedly to check if the " +:+
  "fault takes effect (the operator needs time to retry):" +:+ newline +:+
  "  1. Call time_wait(seconds=30) to give the operator time to retry" +:+ newline +:+
  "  2. Check the target's actual status with kubectl get node/pod" +:+ newline +:+
  "  3. If fault effect is visible, the injection SUCCEEDED " +:+
  "— report success with UID " +:+ uid +:+ newline +:+
  "  4. If not visible, call time_wait(seconds=30) once more " +:+ "and check again" +:+ newline +:+
  "  5. Only after 2 waits + checks with NO fault effect, " +:+ "conclude failure" +:+ newline +:+
  "  6. Do NOT try alternative injection methods before " +:+ "completing these checks" +:+ newline +:+
  "Raw output: " +:+ combined.

Definition create_answer (r : CommandResult) : string :=
  if negb (exit_code r =? 0)%Z then
    let combined := combined_output r in
    match (m ← re_search _UID_IN_ERROR_RE combined; group 1 m) with
    | Some uid => warning_text (exit_code r) uid combined
    | None => "Error: blade create failed (exit " +:+ str_of_Z (exit_code r) +:+ "): " +:+ combined
    end
  else stdout r.

(** [bad_int] is the text of the exception of [int()]. *)
Definition blade_create (bad_int scope target action namespace names labels kubeconfig evict_count evict_percent flags : string)
    : prog string :=
  cmd ← lift bad_int (create_command scope target action namespace names labels kubeconfig evict_count evict_percent flags);
  and_then (blade_run cmd (timeout_blade cfg) [])
    (λ o, match o with
          | Exn e => mret ("Error: blade create failed: " +:+ e)
          | Ret r => mret (create_answer r)
          end).

(** ** The other tools *)

Definition blade_destroy (uid kubeconfig : string) : prog string :=
  and_then (blade_run ([_get_blade_path; "destroy"; uid] ++ _build_kubeconfig_arg kubeconfig) (timeout_blade cfg) [])
    (λ o, match o with
          | Exn e => mret ("Error: blade destroy failed: " +:+ e)
          | Ret r =>
              mret (if negb (exit_code r =? 0)%Z
                    then "Error: blade destroy failed (exit " +:+ str_of_Z (exit_code r) +:+ "): " +:+ stderr r
                    else stdout r)
          end).

Definition blade_status (uid kubeconfig : string) : prog string :=
  and_then (blade_run ([_get_blade_path; "status"] ++ (if truthy uid then ["--uid"; uid] else []))
              (timeout_blade cfg) (_build_kubeconfig_env kubeconfig))
    (λ o, match o with
          | Exn e => mret ("Error: blade status failed: " +:+ e)
          | Ret r => mret (stdout r)
          end).

Definition help_tokens (subcommand : string) : list string :=
  List.filter (λ t, negb (t ∈? ["-h"; "--help"]) && negb (startswith t "--")) (_split_args subcommand).

Definition blade_help (subcommand : string) : prog string :=
  and_then (blade_run ([_get_blade_path] ++ help_tokens subcommand ++ ["-h"]) 10 [])
    (λ o, match o with
          | Exn e => mret ("Error: blade help failed: " +:+ e)
          | Ret r =>
              let output := strip (stdout r) in
              mret (str_or (if negb (truthy output) && truthy (stderr r) then strip (stderr r) else output)
                      "(no help output)")
          end).

Definition query_answer (r : CommandResult) : string :=
  let out := strip (stdout r) in
  let err := strip (stderr r) in
  if negb (exit_code r =? 0)%Z then
    let combined := str_or out err in
    if truthy combined && negb (startswith combined "Error") && negb (startswith combined "`") then combined
    else if truthy err
    then "Error: blade query k8s failed (exit " +:+ str_of_Z (exit_code r) +:+ "): " +:+ err
    else ""
  else if negb (truthy out) && truthy (stderr r) && negb (startswith (stderr r) "Error") then err
  else out.

Definition blade_query_k8s (uid kubeconfig : string) : prog string :=
  and_then (blade_run ([_get_blade_path; "query"; "k8s"] ++ (if truthy uid then ["create"; uid] else []) ++
                       _build_kubeconfig_arg kubeconfig)
              (timeout_blade cfg) (_build_kubeconfig_env kubeconfig))
    (λ o, match o with
          | Exn e => mret ("Error: blade query k8s failed: " +:+ e)
          | Ret r => mret (query_answer r)
          end).
End blade.

(** * Properties *)

(** A value that reads as a duration of at least ten minutes. *)
Definition long_enough (v : string) : Prop :=
  ∃ n, (600 ≤ n)%Z ∧ (v = str_of_Z n ∨ py_int_of_string (strip v) = Some n).

Lemma raise_timeout_bound minimum cmd cmd' :
  (∀ v, (600 ≤ minimum v)%Z) → raise_timeout minimum cmd = Some cmd' → "--timeout" ∈ cmd →
  last cmd' = Some "--timeout" ∨
  ∃ pre v post, cmd' = pre ++ "--timeout" :: v :: post ∧ ("--timeout" ∉ pre) ∧ long_enough v.
Proof.
  intros Hmin. revert cmd'. induction cmd as [|word rest IH]; intros cmd'; [by intros _ ?%elem_of_nil|].
  cbn [raise_timeout]. destruct (String.eqb_spec word "--timeout") as [->|Hne].
  - destruct rest as [|v rest']; [intros [= <-]; by left|].
    intros (n & Hn & [= <-])%bind_Some _. right. eexists [], _, rest'. split; [done|]. split; [by apply not_elem_of_nil|].
    destruct (Z.eqb_spec (minimum v) n) as [<-|_]; eexists; (split; [apply (Hmin v)|]); auto.
  - intros (r & Hr & [= <-])%bind_Some [Heq|Hin]%elem_of_cons; [congruence|].
    destruct (IH _ Hr Hin) as [Hl|(pre & v & post & -> & Hp & Hv)].
    + left. by destruct r.
    + right. exists (word :: pre), v, post. split; [done|]. split; [|done]. by apply not_elem_of_cons.
Qed.

(** Every experiment is bounded in time: whatever the flags, the command that
    creates it carries a time-out, and the first one is a number of at least
    ten minutes, unless the flag ends the command without a value. *)
Theorem create_bounded cfg scope target action ns names labels kc ec ep flags cmd :
  create_command cfg scope target action ns names labels kc ec ep flags = Some cmd →
  last cmd = Some "--timeout" ∨
  ∃ pre v post, cmd = pre ++ "--timeout" :: v :: post ∧ ("--timeout" ∉ pre) ∧ long_enough v.
Proof.
  unfold create_command, bounded_timeout. set (l := _ ++ _). intros H. revert H.
  destruct ("--timeout" ∈? l) eqn:E; cbn [negb].
  - intros H. eapply raise_timeout_bound; [|exact H | by apply str_in_spec]. intros v. apply min_duration_bounds.
  - intros [= <-]. right. eexists l, _, []. split; [done|]. split; [by apply str_in_false|].
    eexists. split; [apply min_duration_bounds | by left].
Qed.

Definition default_blade : BladeSettings := mkBlade default_tools "blade" "" 60.

Lemma create_bounded_witness :
  create_command default_blade "pod" "cpu" "fullload" "shop" "cart-1" "" "" "" "" "--cpu-percent 80 --timeout 5"
    = Some ["blade"; "create"; "k8s"; "pod-cpu"; "fullload"; "--namespace"; "shop"; "--names"; "cart-1";
            "--cpu-percent"; "80"; "--timeout"; "600"] ∧
  (last ["blade"; "create"; "k8s"; "pod-cpu"; "fullload"; "--namespace"; "shop"; "--names"; "cart-1";
         "--cpu-percent"; "80"; "--timeout"; "600"] = Some "--timeout" ∨
   ∃ pre v post,
     ["blade"; "create"; "k8s"; "pod-cpu"; "fullload"; "--namespace"; "shop"; "--names"; "cart-1";
      "--cpu-percent"; "80"; "--timeout"; "600"] = pre ++ "--timeout" :: v :: post ∧
     ("--timeout" ∉ pre) ∧ long_enough v).
Proof.
  split; [vm_compute; reflexivity|].
  apply (create_bounded default_blade "pod" "cpu" "fullload" "shop" "cart-1" "" "" "" "" "--cpu-percent 80 --timeout 5").
  vm_compute. reflexivity.
Defined.

(** ** Divergences *)

(** The flag is documented not to allow less than the minimum; only its first
    occurrence is raised, a later one is passed on as it is. *)
Example second_timeout_kept :
  create_command default_blade "pod" "cpu" "fullload" "shop" "cart-1" "" "" "" "" "--timeout 900 --timeout 5"
  = Some ["blade"; "create"; "k8s"; "pod-cpu"; "fullload"; "--namespace"; "shop"; "--names"; "cart-1";
          "--timeout"; "900"; "--timeout"; "5"].
Proof. vm_compute. reflexivity. Qed.

(** A time-out that is no number of seconds raises out of the tool, which
    answers every other problem with a text. *)
Example duration_text_raises :
  create_command default_blade "pod" "cpu" "fullload" "shop" "cart-1" "" "" "" "" "--timeout 10m" = Raise.
Proof. vm_compute. reflexivity. Qed.

(** The drift guard judges the names and the namespace of a call, not its
    flags, which follow them on the command line: the call stays approved while the
    command names another pod. *)
Example flags_escape_approval :
  let call := [("scope", VStr "pod"); ("target", VStr "cpu"); ("action", VStr "fullload");
               ("namespace", VStr "shop"); ("names", VStr "cart-1");
               ("flags", VStr "--namespace kube-system --names coredns-1")] in
  let approved := mkApproved "pod" "shop" ["cart-1"] [] false "cpu" "fullload" true [] [] "shop" in
  (d_verdict <$> ((λ e, target_drift_guard e (Some approved)) <$> infer_effective_target "blade_create" (VDict call) true)
   = Some ALLOW) ∧
  create_command default_blade "pod" "cpu" "fullload" "shop" "cart-1" "" "" "" ""
    "--namespace kube-system --names coredns-1"
  = Some ["blade"; "create"; "k8s"; "pod-cpu"; "fullload"; "--namespace"; "shop"; "--names"; "cart-1";
          "--namespace"; "kube-system"; "--names"; "coredns-1"; "--timeout"; "600"].
Proof. split; vm_compute; reflexivity. Qed.
