(* ===== verification/DirectExecute.v ===== *)
(** * Direct execution (agent/nodes/direct_execute.py, direct_setup.py)

    The node that injects a fault without the language model: it completes
    the parameters of the specification, runs blade_create, retries without a
    namespace, falls back to blade inside a tool pod, and checks disk faults
    afterwards.  Its calls do not pass the screener, so what they may touch
    rests on this code alone.  The node in front of it activates the skill and
    collects the metadata of the target.  Both are programs over [Effects]; the texts
    of exceptions the source does not spell out and the clock are arguments.
    Tracking, the session store and waiting are left out. *)

From stdpp Require Import base list strings sets.
From Stdlib Require Import ZArith Ascii SpecFloat.
From S2P Require Import Prelude PyText PyRe PyValue Shlex PyFloat PyOps ToolGuard GuardParser TargetTypes Classifier TargetGuard Freeze Coerce FaultSpec FaultContext Failure Screener Router BladeUid Conflict InjectionDetection SafetyGate Tokens FaultType Kubectl Feasibility Effects Blade.

(** ** Parameters *)

Definition _REQUIRED_PARAMS : list (string * string * string * (dict string * list string)) :=
  [("pod", "mem", "load", ([("mode", "ram")], []));
   ("node", "mem", "load", ([("mode", "ram")], ["include-buffer-cache"; "avoid-being-killed"]));
   ("container", "mem", "load", ([("mode", "ram")], []));
   ("pod", "disk", "burn", ([], ["read"; "write"]));
   ("node", "disk", "burn", ([], ["read"; "write"]))].

Definition required_params (scope target action : string) : option (dict string * list string) :=
  snd <$> List.find (λ e : string * string * string * _, let '(s, t, a, _) := e in
            String.eqb s scope && String.eqb t target && String.eqb a action) _REQUIRED_PARAMS.

(** The completed parameters and flags; what is present is left alone. *)
Definition _auto_complete_params (scope target action : string) (params : dict pyval) (flags : list pyval)
    : dict pyval * list pyval :=
  match required_params scope target action with
  | None => (params, flags)
  | Some (kv, bare) =>
      (fold_left (λ d e, if dict_mem e.1 d then d else dict_set e.1 (VStr e.2) d) kv params,
       fold_left (λ l f, if existsb (λ v, eqs v f) l then l else l ++ [VStr f]) bare flags)
  end.

Definition _auto_boost_burn_params (params : dict pyval) (size_ceiling : option Z) : dict pyval :=
  if dict_mem "size" params then params
  else dict_set "size"
         (VStr (match size_ceiling with None => "100" | Some c => str_of_Z (Z.min 100 c) end)) params.

(** A number of the target's metadata. *)
Definition metadata_int (k : string) (meta : dict pyval) : Exc (option Z) :=
  match py_get k meta with VNone => Some None | VInt z => Some (Some z) | _ => Raise end.

Definition asks_auto_size (a : AdaptationDirective) : bool :=
  match dict_get "param_overrides" (a_action a) with
  | Some (VDict o) => eqs (py_get "size" o) "auto"
  | _ => false
  end.

(** The largest safe size of a disk burn.  Without a known memory usage the
    source looks up a name it never binds, which raises. *)
Definition burn_ceiling (scope target action : string) (meta : dict pyval) : Exc (option Z) :=
  match List.find asks_auto_size (lookup_adaptations scope target action meta (Some "param_override")) with
  | None => Some None
  | Some _ =>
      usage ← metadata_int "pod_memory_usage_mb" meta;
      match usage with
      | None => Raise
      | Some u =>
          limit ← metadata_int "pod_memory_limit_mb" meta;
          Some (Some (compute_safe_burn_size limit (Some u)))
      end
  end.

Definition is_disk_burn (target action : string) : bool := String.eqb target "disk" && String.eqb action "burn".

(** The parameters and bare flags the experiment is created with. *)
Definition effective_params (spec : FaultSpec) (meta : dict pyval) : Exc (dict pyval * list pyval) :=
  let '(params, flags) :=
    _auto_complete_params (s_scope spec) (s_blade_target spec) (s_blade_action spec) (s_params spec) (s_params_flags spec) in
  if is_disk_burn (s_blade_target spec) (s_blade_action spec) then
    ceiling ← burn_ceiling (s_scope spec) (s_blade_target spec) (s_blade_action spec) meta;
    Some (_auto_boost_burn_params params ceiling, flags)
  else Some (params, flags).

Definition label_text (labels : dict pyval) : string :=
  join "," (map (λ kv, kv.1 +:+ "=" +:+ py_str kv.2) labels).

(** The arguments of blade_create for a specification, with the parameters
    the later checks read. *)
Definition direct_args (spec : FaultSpec) (meta : dict pyval) (names kubeconfig : string)
    : Exc (dict pyval * dict pyval) :=
  '(params, flags) ← effective_params spec meta;
  let duration := ensure_min_duration (VInt (s_duration_seconds spec)) (Some (s_scope spec))
                    (Some (s_blade_target spec)) (Some (s_blade_action spec)) in
  Some (build_blade_create_args (s_scope spec) (s_blade_target spec) (s_blade_action spec) (s_namespace spec)
          names (label_text (s_labels spec)) kubeconfig params (map py_str flags) duration).

Definition arg (k : string) (args : dict pyval) : string := py_str (get_d k (VStr "") args).

Definition _parse_blade_uid_from_content (content : string) : Exc string :=
  uid ← extract_blade_uid content; Some (default "" uid).

(** The blade command for a tool pod: the same flags, without a kubeconfig. *)
Definition _build_blade_command_for_exec (scope target action namespace names labels flags : string) : Exc string :=
  words ← bounded_timeout scope target action
    (["blade"; "create"; "k8s"; scope +:+ "-" +:+ target; action] ++ selector_args scope namespace names labels ++
     (if truthy flags then shlex_or_split flags else []));
  Some (join " " words).

(** The names of a comma-separated list. *)
Definition target_nodes (names : string) : list string := csv_names names.

Section direct.
Context (cfg : BladeSettings) (guard : ToolGuard) (raised : string) (now : pyval).

Definition kubectl_prefix (kubeconfig : string) : list string :=
  t_kubectl_path (b_tools cfg) :: Kubectl._build_kubectl_global_args (b_tools cfg) kubeconfig "" "".

Definition run_kubectl (kubeconfig : string) (args : list string) (timeout : Z) : prog CommandResult :=
  command (b_tools cfg) guard (kubectl_prefix kubeconfig ++ args) timeout [].

Definition short : Z := timeout_kubectl (b_tools cfg).

(** ** Memory of the target *)

Definition MEMORY_LIMIT_PATH : string := ".spec.containers[0].resources.limits.memory}".

Definition memory_limit_args (namespace : string) (names : list pyval) (labels : dict pyval) : Exc (option (list string)) :=
  match names, labels with
  | n :: _, _ =>
      pod ← (match n with VStr s => Some (before "," s) | _ => Raise end);
      Some (Some ["get"; "pod"; pod; "-n"; namespace; "-o"; "jsonpath={" +:+ MEMORY_LIMIT_PATH])
  | [], _ :: _ =>
      Some (Some ["get"; "pods"; "-n"; namespace; "-l"; label_text labels; "-o"; "jsonpath={.items[0]" +:+ MEMORY_LIMIT_PATH])
  | [], [] => Some None
  end.

Definition failed (r : CommandResult) : bool := negb (exit_code r =? 0)%Z || negb (truthy (stdout r)).

Definition _fetch_pod_memory_limit_mb (namespace : string) (names : list pyval) (labels : dict pyval) (kubeconfig : string)
    : prog (option Z) :=
  if negb (truthy namespace) then mret None
  else catch
    (args ← lift raised (memory_limit_args namespace names labels);
     match args with
     | None => mret None
     | Some args =>
         r ← run_kubectl kubeconfig args short;
         let out := unquote (stdout r) in
         if failed r || negb (truthy out) then mret None else lift raised (parse_k8s_memory_to_mb out)
     end)
    (λ _, mret None).

Definition _fetch_pod_memory_usage_mb (namespace : string) (names : list pyval) (kubeconfig : string) : prog (option Z) :=
  match names with
  | [] => mret None
  | n :: _ =>
      if negb (truthy namespace) then mret None
      else catch
        (pod ← lift raised (match n with VStr s => Some (before "," s) | _ => Raise end);
         r ← run_kubectl kubeconfig ["top"; "pod"; pod; "-n"; namespace; "--no-headers"] short;
         if failed r then mret None else lift raised (memory_of (split_ws (strip (stdout r)))))
        (λ _, mret None)
  end.

(** ** The fallback through a tool pod *)

Definition list_tool_pods (kubeconfig : string) : prog CommandResult :=
  run_kubectl kubeconfig ["get"; "pods"; "-n"; _TOOL_POD_NAMESPACE; "-l"; _TOOL_POD_LABEL_SELECTOR; "-o"; "wide"] short.

(** The tool pod to use: for a node the one on a target node, if any. *)
Definition choose_tool_pod (scope names listing : string) : option string :=
  match discover_tool_pods listing with
  | [] => None
  | first :: _ =>
      if String.eqb scope "node" && truthy names then
        match List.find (λ p, p.2 ∈? target_nodes names) (discover_tool_pods_with_nodes listing) with
        | Some (pod, _) => Some pod
        | None => Some first
        end
      else Some first
  end.

Record fallback := mkFallback { fb_uid : string; fb_pod : string; fb_output : string }.

Definition exec_args (pod blade_cmd : string) : list string :=
  "exec" :: _split_args (pod +:+ " -n chaosblade -- " +:+ blade_cmd).

(** A second time-out, should the command hold none. *)
Definition exec_timeout (scope target action v_args : string) : list string :=
  if found _BLADE_CREATE_RE v_args && negb (contains "--timeout" v_args)
  then ["--timeout"; str_of_Z (ensure_min_duration VNone (Some scope) (Some target) (Some action))] else [].

Definition exec_answer (pod : string) (r : CommandResult) : prog (option fallback) :=
  out ← lift raised (_parse_blade_uid_from_content (stdout r));
  if truthy out then mret (Some (mkFallback out pod (stdout r)))
  else
    err ← lift raised (_parse_blade_uid_from_content (stderr r));
    mret (if truthy err then Some (mkFallback err pod (stderr r)) else None).

Definition _try_kubectl_exec_fallback (scope target action namespace names labels kubeconfig flags : string)
    : prog (option fallback) :=
  and_then (list_tool_pods kubeconfig)
    (λ o, match o with
          | Exn _ => mret None
          | Ret listing =>
              if negb (exit_code listing =? 0)%Z then mret None
              else match choose_tool_pod scope names (stdout listing) with
                   | None => mret None
                   | Some pod =>
                       blade_cmd ← lift raised (_build_blade_command_for_exec scope target action namespace names labels flags);
                       and_then
                         (run_kubectl kubeconfig
                            (exec_args pod blade_cmd ++
                             exec_timeout scope target action (pod +:+ " -n chaosblade -- " +:+ blade_cmd))
                            (timeout_kubectl_exec (b_tools cfg)))
                         (λ o, match o with Exn _ => mret None | Ret r => exec_answer pod r end)
                   end
          end).

(** ** Checks after a disk fault *)

(** The tool pod that runs on a node. *)
Definition tool_pod_of (node listing : string) : option string :=
  fst <$> List.find (λ p, String.eqb p.2 node) (discover_tool_pods_with_nodes listing).

Definition pod_exec (kubeconfig pod namespace rest : string) : prog CommandResult :=
  run_kubectl kubeconfig ("exec" :: _split_args (pod +:+ " -n " +:+ namespace +:+ " -- " +:+ rest)) short.

(** [None] when the listing raises or names no pod on the node. *)
Definition find_tool_pod (kubeconfig node : string) : prog (option string) :=
  and_then (list_tool_pods kubeconfig)
    (λ o, match o with Exn _ => mret None | Ret listing => mret (tool_pod_of node (stdout listing)) end).

Definition fill_file_found (listing : string) : bool := contains "chaos_fill" listing || contains "chaosblade" listing.

Definition _verify_disk_fill_effect (scope target action names kubeconfig : string) (params : dict pyval) (blade_uid : string)
    : prog (option (dict pyval)) :=
  let fill_path := py_str (get_d "path" (VStr "/tmp") params) in
  if negb (String.eqb scope "node" && String.eqb target "disk" && String.eqb action "fill") || negb (truthy names)
  then mret None
  else
    pod ← find_tool_pod kubeconfig names;
    match pod with
    | None => mret None
    | Some pod =>
        and_then (pod_exec kubeconfig pod _TOOL_POD_NAMESPACE ("ls -lh " +:+ fill_path +:+ "/"))
          (λ o, match o with
                | Exn _ => mret None
                | Ret ls =>
                    and_then (pod_exec kubeconfig pod _TOOL_POD_NAMESPACE ("df -h " +:+ fill_path))
                      (λ o, mret (Some
                         [("fill_file_found", VBool (fill_file_found (stdout ls)));
                          ("target_pod", VStr pod); ("node", VStr names);
                          ("ls_output", VStr (py_take 500 (stdout ls)));
                          ("df_output", VStr (match o with Ret df => py_take 500 (stdout df) | Exn _ => "" end));
                          ("blade_uid", VStr blade_uid)]))
                end)
    end.

Definition _PARTITION_RE : pattern := Eval vm_compute in
  get_pattern (compile no_flags "^(vd|sd|xvd)\D+\d+$") ltac:(vm_compute; discriminate).
Definition _NVME_PARTITION_RE : pattern := Eval vm_compute in
  get_pattern (compile no_flags "^nvme\d+n\d+p\d+$") ltac:(vm_compute; discriminate).

Definition matches (p : pattern) (s : string) : bool := match re_match p s with Some _ => true | None => false end.

(** One line of /proc/diskstats: a whole device with its sectors written. *)
Definition diskstats_line (line : string) : option (string * Z) :=
  let fields := split_ws line in
  match fields !! 2%nat, fields !! 9%nat with
  | Some name, Some written =>
      if matches _PARTITION_RE name || matches _NVME_PARTITION_RE name then None
      else n ← py_int_of_string (strip written); Some (name, n)
  | _, _ => None
  end.

Definition _parse_diskstats (text : string) : dict Z :=
  fold_left (λ d line, match diskstats_line line with Some (name, n) => dict_set name n d | None => d end)
    (splitlines (strip text)) [].

Definition f_0_1 : spec_float := Eval vm_compute in float_of_repr "0.1".

(** [delta * 512 / (1024 * 1024) / 5]. *)
Definition throughput (delta : Z) : Exc spec_float :=
  x ← true_div (delta * 512) (1024 * 1024); Some (SFdiv prec emax x (float_of_Z 5)).

Definition throughputs (stats1 stats2 : dict Z) : Exc (list (string * spec_float)) :=
  l ← mapM (λ e : string * Z,
    match dict_get e.1 stats1 with
    | Some before => if (e.2 - before <? 0)%Z then Some [] else t ← throughput (e.2 - before); Some [(e.1, t)]
    | None => Some []
    end) stats2;
  Some (concat l).

Fixpoint insert_active (x : string * spec_float) (l : list (string * spec_float)) : list (string * spec_float) :=
  match l with
  | [] => [x]
  | y :: l' => if SFltb x.2 y.2 then y :: insert_active x l' else x :: l
  end.

(** The devices with measurable traffic, rounded, the busiest first. *)
Definition active_partitions (l : list (string * spec_float)) : list (string * spec_float) :=
  foldr insert_active [] (map (λ e, (e.1, round1 e.2)) (List.filter (λ e, SFltb f_0_1 e.2) l)).

Definition burn_io_detected (l : list (string * spec_float)) : bool :=
  existsb (λ e, SFltb (float_of_Z 10) e.2) l.

Definition partition_dict (e : string * spec_float) : pyval :=
  VDict [("name", VStr e.1); ("write_throughput_mb_s", VFloat (float_repr e.2))].

(** Where to sample: pod, namespace and node. *)
Definition pod_node (kubeconfig pod namespace : string) : prog string :=
  and_then (run_kubectl kubeconfig ["get"; "pod"; pod; "-n"; namespace; "-o"; "jsonpath={.spec.nodeName}"] short)
    (λ o, match o with
          | Ret r => mret (if failed r then "" else strip (stdout r))
          | Exn _ => mret ""
          end).

Definition sample_place (scope names namespace kubeconfig : string) : prog (option (string * string * string)) :=
  if String.eqb scope "node" then
    pod ← find_tool_pod kubeconfig names;
    mret (p ← pod; Some (p, _TOOL_POD_NAMESPACE, names))
  else if String.eqb scope "pod" then
    let pod := strip (before "," names) in
    let ns := str_or namespace "default" in
    and_then (pod_exec kubeconfig pod ns "cat /proc/diskstats")
      (λ o, if (match o with Ret r => negb (failed r) | Exn _ => false end) && truthy pod
            then mret (Some (pod, ns, ""))
            else
              node ← pod_node kubeconfig pod ns;
              if negb (truthy node) then mret None
              else
                tool ← find_tool_pod kubeconfig node;
                mret (t ← tool; Some (t, _TOOL_POD_NAMESPACE, node)))
  else mret None.

Definition burn_report (scope blade_uid pod node text1 text2 : string) : Exc (dict pyval) :=
  l ← throughputs (_parse_diskstats text1) (_parse_diskstats text2);
  Some [("burn_io_detected", VBool (burn_io_detected l));
        ("active_partitions", VList (map partition_dict (active_partitions l)));
        ("target_pod", VStr pod); ("node", VStr node); ("scope", VStr scope);
        ("blade_uid", VStr blade_uid); ("sample_interval_seconds", VInt 5)].

Definition _verify_disk_burn_effect (scope target action names kubeconfig blade_uid namespace : string)
    : prog (option (dict pyval)) :=
  if negb (is_disk_burn target action) || negb (truthy names) then mret None
  else
    place ← sample_place scope names namespace kubeconfig;
    match place with
    | None => mret None
    | Some (pod, ns, node) =>
        let sample := pod_exec kubeconfig pod ns "cat /proc/diskstats" in
        and_then sample
          (λ o, match o with
                | Exn _ => mret None
                | Ret s1 =>
                    and_then sample
                      (λ o, match o with
                            | Exn _ => mret None
                            | Ret s2 => Some <$> lift raised (burn_report scope blade_uid pod node (stdout s1) (stdout s2))
                            end)
                end)
    end.

Definition post_checks (spec : FaultSpec) (names kubeconfig : string) (params : dict pyval) (uid : string)
    : prog (dict pyval) :=
  let '(scope, target, action) := (s_scope spec, s_blade_target spec, s_blade_action spec) in
  fill ← _verify_disk_fill_effect scope target action names kubeconfig params uid;
  burn ← _verify_disk_burn_effect scope target action names kubeconfig uid (s_namespace spec);
  mret (match fill with Some d => [("disk_fill_post_check", VDict d)] | None => [] end ++
        match burn with Some d => [("disk_burn_post_check", VDict d)] | None => [] end).

(** ** Evidence right after the injection

    The commands of a rule are handed to the runner as one text, and its
    answer is unpacked as a triple: both raise, so that a rule with commands
    gives nothing and the next one is tried. *)

Fixpoint capture (l : list AdaptationDirective) : option (dict pyval) :=
  match l with
  | [] => None
  | a :: l' => match get_d "snapshot_commands" (VList []) (a_action a) with VList [] => Some [] | _ => capture l' end
  end.

Definition _capture_evidence_snapshot (scope target action : string) (meta : dict pyval) : option (dict pyval) :=
  capture (List.filter (λ a, py_truthy (py_get "evidence_capture" (a_action a)))
             (lookup_adaptations scope target action meta (Some "param_override"))).

Definition snapshot_entry (spec : FaultSpec) (meta : dict pyval) : dict pyval :=
  match _capture_evidence_snapshot (s_scope spec) (s_blade_target spec) (s_blade_action spec) meta with
  | Some ((_ :: _) as d) => [("evidence_snapshot", VDict d)]
  | _ => []
  end.

(** ** The node *)

Definition result_params (spec : FaultSpec) (names : string) : dict pyval :=
  [("scope", VStr (s_scope spec)); ("target", VStr (s_blade_target spec)); ("action", VStr (s_blade_action spec));
   ("namespace", VStr (s_namespace spec)); ("names", VStr names); ("labels", VStr (label_text (s_labels spec)))].

(** The target nodes without a running tool pod; none when the listing
    raises. *)
Definition preflight (scope names kubeconfig : string) : prog (list string) :=
  if String.eqb scope "node" && truthy names then
    and_then (list_tool_pods kubeconfig)
      (λ o, match o with
            | Exn _ => mret []
            | Ret r =>
                let available := map snd (discover_tool_pods_with_nodes (stdout r)) in
                mret (List.filter (λ n, negb (n ∈? available)) (target_nodes names))
            end)
  else mret [].

Definition TOOL_SCOPES : list string := ["pod"; "container"; "node"].

(** The tool with its arguments checked against its signature. *)
Definition invoke_create (args : dict pyval) : prog string :=
  if negb (arg "scope" args ∈? TOOL_SCOPES) then Done (Exn raised)
  else blade_create cfg guard raised (arg "scope" args) (arg "target" args) (arg "action" args) (arg "namespace" args)
         (arg "names" args) (arg "labels" args) (arg "kubeconfig" args) (arg "evict_count" args)
         (arg "evict_percent" args) (arg "flags" args).

Definition namespace_unsupported (out : string) : bool := contains "unknown flag" out && contains "--namespace" out.

(** The output of the last call and the identifier in it. *)
Definition host_create (args : dict pyval) : prog (string * string) :=
  out ← invoke_create args;
  uid ← lift raised (_parse_blade_uid_from_content out);
  if truthy uid || negb (namespace_unsupported out) then mret (out, uid)
  else
    out ← invoke_create (dict_set "namespace" (VStr "") args);
    uid ← lift raised (_parse_blade_uid_from_content out);
    mret (out, uid).

Definition parsed_flags (flags : string) : pyval :=
  match parse_blade_flags flags with
  | [] => VNone
  | d => VDict (map (λ kv, (kv.1, VStr kv.2)) d)
  end.

(** What every result says of the call. *)
Definition call_entries (params : dict pyval) (flags : string) : dict pyval :=
  [("params", VDict (dict_set "flags" (VStr flags) params)); ("blade_parsed_flags", parsed_flags flags);
   ("execute_loop_count", VInt 1)].

Definition create_message (out : string) : Message := ToolMessage out "blade_create" "direct" false.

Definition prerequisite_failure (s : GState) (params : dict pyval) (missing : list string) : Delta :=
  mkDelta []
    (fail_state PREREQUISITE_FAILED
       ("no running ChaosBlade DaemonSet pod on target node(s) " +:+ join ", " missing) (g_messages s) ++
     [("params", VDict params); ("execute_loop_count", VInt 1)]).

Definition execution_failure (s : GState) (params : dict pyval) (flags out : string) : Delta :=
  mkDelta
    [HumanMessage ("[Injection Phase] blade_create failed and kubectl exec fallback also failed: " +:+
                   py_take 200 (py_take 500 out));
     create_message out]
    (fail_state EXECUTION_FAILED "blade_create failed (and kubectl exec fallback also failed)" (g_messages s) ++
     [("injection_method", VStr "host_blade")] ++ call_entries params flags).

Definition host_success (params : dict pyval) (flags out uid : string) : Delta :=
  mkDelta
    [HumanMessage ("[Injection Phase] blade_create succeeded: blade_uid=" +:+ uid +:+ " " +:+
                   "(injection_method=host_blade)");
     create_message out]
    ([("blade_uid", VStr uid); ("injection_method", VStr "host_blade"); ("injection_start_time", now)] ++
     call_entries params flags).

Definition exec_success (params : dict pyval) (flags out : string) (f : fallback) : Delta :=
  mkDelta
    [HumanMessage ("[Injection Phase] kubectl exec fallback succeeded via pod " +:+ fb_pod f +:+ ": " +:+
                   "blade_uid=" +:+ fb_uid f +:+ " (injection_method=kubectl_exec)");
     create_message out; ToolMessage (fb_output f) "kubectl" "direct_fallback" false]
    ([("blade_uid", VStr (fb_uid f)); ("injection_method", VStr "kubectl_exec"); ("injection_start_time", now);
      ("kubectl_exec_pod_name", VStr (fb_pod f))] ++ call_entries params flags).

(** A success with the evidence and the checks added. *)
Definition with_checks (spec : FaultSpec) (meta : dict pyval) (names kubeconfig : string) (params : dict pyval)
    (uid : string) (d : Delta) : prog Delta :=
  checks ← post_checks spec names kubeconfig params uid;
  mret (mkDelta (dl_messages d) (dl_values d ++ snapshot_entry spec meta ++ checks)).

(** The specification, its names, the kubeconfig and the metadata. *)
Definition direct_input (s : GState) : Exc (FaultSpec * string * string * dict pyval) :=
  spec ← state_spec s;
  names ← join_text "," (s_names spec);
  kubeconfig ← as_str (py_or (get "kubeconfig" s) (VStr ""));
  meta ← as_dict (or_empty (get "target_metadata" s));
  Some (spec, names, kubeconfig, meta).

Definition inject (s : GState) (spec : FaultSpec) (names kubeconfig : string) (meta args params : dict pyval)
    : prog Delta :=
  let rp := result_params spec names in
  let flags := arg "flags" args in
  '(out, uid) ← host_create args;
  if truthy uid then with_checks spec meta names kubeconfig params uid (host_success rp flags out uid)
  else
    f ← _try_kubectl_exec_fallback (s_scope spec) (s_blade_target spec) (s_blade_action spec) (s_namespace spec) names
          (arg "labels" args) kubeconfig flags;
    match f with
    | Some f => with_checks spec meta names kubeconfig params (fb_uid f) (exec_success rp flags out f)
    | None => mret (execution_failure s rp flags out)
    end.

Definition direct_execute (s : GState) : prog Delta :=
  '(spec, names, kubeconfig, meta) ← lift raised (direct_input s);
  '(args, params) ← lift raised (direct_args spec meta names kubeconfig);
  missing ← preflight (s_scope spec) names kubeconfig;
  match missing with
  | _ :: _ => mret (prerequisite_failure s (result_params spec names) missing)
  | [] => inject s spec names kubeconfig meta args params
  end.
End direct.

(** * Direct setup *)

Definition _DIRECT_SKILL_NAME : string := "k8s-chaos-skills".

Section setup.
Context (cfg : BladeSettings) (guard : ToolGuard) (raised : string).
(** The skill registry: the content of a skill ([None] when there is none of
    that name), the use cases of a fault, the text of a resource. *)
Context (activate : string → option string).
Context (match_use_cases : string → string → string → Exc (list string)).
Context (read_resource : string → string → Exc string).

Definition _collect_context (s : GState) : prog (dict pyval) :=
  spec ← lift raised (state_spec s);
  kubeconfig ← lift raised (as_str (py_or (get "kubeconfig" s) (VStr "")));
  if String.eqb (s_scope spec) "pod" && String.eqb (lower (s_blade_target spec)) "mem" && truthy kubeconfig then
    limit ← _fetch_pod_memory_limit_mb cfg guard raised (s_namespace spec) (s_names spec) (s_labels spec) kubeconfig;
    mret (match limit with Some z => [("pod_memory_limit_mb", VInt z)] | None => [] end)
  else mret [].

Definition direct_plan (spec : FaultSpec) : Exc string :=
  names ← join_text "," (s_names spec);
  flags ← join_text " " (s_params_flags spec);
  let params := join ", " (map (λ kv, kv.1 +:+ "=" +:+ py_str kv.2) (List.filter (λ kv, py_truthy kv.2) (s_params spec))) in
  Some ("Direct blade injection: blade create k8s " +:+ s_scope spec +:+ "-" +:+ s_blade_target spec +:+ " " +:+
        s_blade_action spec +:+ newline +:+
        "Namespace: " +:+ s_namespace spec +:+ ", Names: " +:+ names +:+ newline +:+
        (if truthy params then "Parameters: " +:+ params +:+ newline else "") +:+
        (if truthy flags then "Flags: " +:+ flags +:+ newline else "") +:+
        "Scope: " +:+ s_scope spec +:+ ", Target: " +:+ s_blade_target spec +:+ ", Action: " +:+ s_blade_action spec).

(** [path.split("/")[-1].replace(".md", "")]. *)
Definition case_label (path : string) : string := replace ".md" "" (List.last (split_on "/" path) path).

(** The candidates that can be read, numbered by their place. *)
Fixpoint candidates (i : nat) (paths : list string) : list string :=
  match paths with
  | [] => []
  | p :: rest =>
      match read_resource _DIRECT_SKILL_NAME p with
      | Some content =>
          ("--- Candidate " +:+ str_of_nat i +:+ ": " +:+ case_label p +:+ " ---" +:+ newline +:+ content)
          :: candidates (S i) rest
      | None => candidates (S i) rest
      end
  end.

Definition skill_case_content (spec : FaultSpec) : string :=
  match match_use_cases (s_scope spec) (s_blade_target spec) (s_blade_action spec) with
  | Some [p] => default "" (read_resource _DIRECT_SKILL_NAME p)
  | Some ((_ :: _) as paths) =>
      "Multiple skill cases match this injection (" +:+ str_of_nat (length paths) +:+ " candidates). " +:+
      "Read ALL candidates below and choose the verification steps " +:+
      "most relevant to the ACTUAL cluster state (e.g. check if HPA " +:+
      "exists before using HPA verification steps)." +:+ newline +:+ newline +:+
      join (newline +:+ newline) (candidates 1 paths)
  | _ => ""
  end.

Definition direct_setup (s : GState) : prog Delta :=
  match activate _DIRECT_SKILL_NAME with
  | None =>
      mret (mkDelta [] (fail_state PREREQUISITE_FAILED ("skill=" +:+ _DIRECT_SKILL_NAME +:+ " not found") [] ++
                        [("skill_name", VStr "")]))
  | Some content =>
      spec ← lift raised (state_spec s);
      plan ← lift raised (direct_plan spec);
      let case := skill_case_content spec in
      meta ← _collect_context s;
      mret (mkDelta [HumanMessage ("[Skill Instructions]" +:+ newline +:+ py_take 2000 content)]
              [("skill_name", VStr _DIRECT_SKILL_NAME); ("plan", VStr plan);
               ("skill_case_content", if truthy case then VStr case else VNone); ("target_metadata", VDict meta)])
  end.
End setup.
