(* ===== verification/DirectProps.v ===== *)
(** * What direct execution guarantees

    The theorems on the programs of [DirectExecute]: in every world the node
    runs nothing but looks at the cluster and the creation of its own
    specification, reports what a creation answered, stops at a node without
    a tool pod, and asks for what the drift guard would allow. *)

From stdpp Require Import base list strings sets.
From Stdlib Require Import ZArith Ascii SpecFloat.
From S2P Require Import Prelude PyText PyRe PyValue Shlex PyFloat PyOps ToolGuard GuardParser TargetTypes Classifier TargetGuard Freeze Coerce FaultSpec FaultContext Failure Screener Router BladeUid Conflict InjectionDetection SafetyGate Tokens FaultType Kubectl Feasibility Effects Blade DirectExecute.

(** ** What the node runs *)

Section confined.
Context (cfg : BladeSettings) (guard : ToolGuard) (raised : string) (now : pyval).
Context (spec : FaultSpec) (names kubeconfig : string) (args : dict pyval).

(** A look at the cluster: a listing, or a command that prints, in a pod. *)
Definition observation (s : Spawn) : Prop :=
  (∃ rest, sp_cmd s = kubectl_prefix cfg kubeconfig ++ "get" :: rest) ∨
  (∃ pod ns path, ∃ shown, shown ∈ ["cat /proc/diskstats"; "ls -lh " +:+ path +:+ "/"; "df -h " +:+ path] ∧
     sp_cmd s = kubectl_prefix cfg kubeconfig ++ "exec" :: _split_args (pod +:+ " -n " +:+ ns +:+ " -- " +:+ shown)).

(** The fault of the specification, created on the host for a namespace. *)
Definition creation_in (ns : string) (s : Spawn) : Prop :=
  create_command cfg (s_scope spec) (s_blade_target spec) (s_blade_action spec) ns names (label_text (s_labels spec))
    kubeconfig "" "" (arg "flags" args) = Some (sp_cmd s).

(** The experiment of the specification, in its namespace. *)
Definition host_creation (s : Spawn) : Prop := creation_in (s_namespace spec) s.

(** Not that experiment: the same fault with the namespace left out, which the
    node tries when blade does not know the flag. *)
Definition namespace_retry (s : Spawn) : Prop := creation_in "" s.

(** What blade_create answers for an outcome of its command. *)
Definition answer_text (o : outcome CommandResult) : string :=
  match o with Ret r => create_answer r | Exn e => "Error: blade create failed: " +:+ e end.

(** The experiment was asked for in its namespace, and blade did not know the
    flag. *)
Definition namespace_refused (h : history) : Prop :=
  ∃ s o, (s, o) ∈ h ∧ host_creation s ∧ namespace_unsupported (answer_text o) = true.

(** The experiment of the specification, created inside a tool pod. *)
Definition pod_creation (s : Spawn) : Prop :=
  ∃ pod blade_cmd,
    _build_blade_command_for_exec (s_scope spec) (s_blade_target spec) (s_blade_action spec) (s_namespace spec) names
      (label_text (s_labels spec)) (arg "flags" args) = Some blade_cmd ∧
    sp_cmd s = kubectl_prefix cfg kubeconfig ++ exec_args pod blade_cmd ++
               exec_timeout (s_scope spec) (s_blade_target spec) (s_blade_action spec)
                 (pod +:+ " -n chaosblade -- " +:+ blade_cmd).

Definition confined (s : Spawn) : Prop :=
  (check guard (sp_cmd s)).1 = true ∧ (observation s ∨ host_creation s ∨ pod_creation s).

(** What the node may have run: looks at the cluster and creations of the
    specification, in any order, and the retry without the namespace once a
    creation in the namespace was answered with the unknown flag. *)
Inductive within : history → Prop :=
  | within_start : within []
  | within_run h s o : within h → confined s → within (h ++ [(s, o)])
  | within_retry h s o :
      within h → (check guard (sp_cmd s)).1 = true → namespace_retry s → namespace_refused h → within (h ++ [(s, o)]).

Lemma within_more h l : within h → Forall (λ e, confined e.1) l → within (h ++ l).
Proof.
  revert h. induction l as [|[s o] l IH]; intros h Hh Hl; [by rewrite app_nil_r|]. apply Forall_cons in Hl as [Hs Hl].
  change (h ++ (s, o) :: l) with (h ++ [(s, o)] ++ l). rewrite app_assoc. apply IH; [by apply within_run | done].
Qed.

Lemma runs_within {A} (p : prog A) h : runs confined p → within h → wp p (λ h' _, within h') h.
Proof. intros Hp Hh. eapply wp_mono; [apply Hp|]. intros h' _ (l & -> & Hl). by apply within_more. Qed.

Lemma run_kubectl_confined rest t :
  (∀ u, observation (mkSpawn (kubectl_prefix cfg kubeconfig ++ rest) u [] "") ∨
        pod_creation (mkSpawn (kubectl_prefix cfg kubeconfig ++ rest) u [] "")) →
  runs confined (run_kubectl cfg guard kubeconfig rest t).
Proof.
  intros H. apply command_runs. intros Hc u. split; [done|]. destruct (H u); auto.
Qed.

Lemma list_tool_pods_confined : runs confined (list_tool_pods cfg guard kubeconfig).
Proof. apply run_kubectl_confined. intros u. left. left. by eexists. Qed.

Lemma pod_exec_confined pod ns path shown :
  shown ∈ ["cat /proc/diskstats"; "ls -lh " +:+ path +:+ "/"; "df -h " +:+ path] →
  runs confined (pod_exec cfg guard kubeconfig pod ns shown).
Proof. intros H. apply run_kubectl_confined. intros u. left. right. exists pod, ns, path, shown. done. Qed.

Lemma find_tool_pod_confined node : runs confined (find_tool_pod cfg guard kubeconfig node).
Proof. unfold find_tool_pod. repeat runs_step. apply list_tool_pods_confined. Qed.
Hint Resolve list_tool_pods_confined find_tool_pod_confined : effects.

Lemma disk_fill_confined target action params uid :
  runs confined (_verify_disk_fill_effect cfg guard (s_scope spec) target action names kubeconfig params uid).
Proof.
  unfold _verify_disk_fill_effect. repeat runs_step; auto with effects;
    eapply pod_exec_confined; rewrite !elem_of_cons; eauto.
Qed.

Lemma sample_place_confined scope ns : runs confined (sample_place cfg guard scope names ns kubeconfig).
Proof.
  unfold sample_place, pod_node. repeat runs_step; auto with effects.
  - eapply (pod_exec_confined _ _ ""). by left.
  - apply run_kubectl_confined. intros u. left. left. by eexists.
Qed.
Hint Resolve sample_place_confined disk_fill_confined : effects.

Lemma disk_burn_confined scope target action uid ns :
  runs confined (_verify_disk_burn_effect cfg guard raised scope target action names kubeconfig uid ns).
Proof.
  unfold _verify_disk_burn_effect. repeat runs_step; auto with effects;
    eapply (pod_exec_confined _ _ ""); by left.
Qed.
Hint Resolve disk_burn_confined : effects.

Lemma with_checks_confined meta params uid d :
  runs confined (with_checks cfg guard raised spec meta names kubeconfig params uid d).
Proof. unfold with_checks, post_checks. repeat runs_step; auto with effects. Qed.
Hint Resolve with_checks_confined : effects.

Definition of_spec : Prop :=
  ∃ flags, args =
    [("scope", VStr (s_scope spec)); ("target", VStr (s_blade_target spec)); ("action", VStr (s_blade_action spec));
     ("namespace", VStr (s_namespace spec)); ("names", VStr names); ("labels", VStr (label_text (s_labels spec)));
     ("kubeconfig", VStr kubeconfig); ("evict_count", VStr ""); ("evict_percent", VStr ""); ("flags", VStr flags)].

Lemma direct_args_of_spec meta params : direct_args spec meta names kubeconfig = Some (args, params) → of_spec.
Proof. intros ([p f] & _ & [= <- _])%bind_Some. by eexists. Qed.

Hypothesis args_of_spec : of_spec.

(** A call of blade_create for the specification, with a namespace: it raises,
    or is refused by the guard, or runs its command. *)
Lemma wp_invoke_create ns (Q : history → outcome string → Prop) h :
  (∀ t, Q h (Exn t)) →
  (∀ s, creation_in ns s → (check guard (sp_cmd s)).1 = false → Q h (Ret (answer_text (Exn (check guard (sp_cmd s)).2)))) →
  (∀ s o, creation_in ns s → (check guard (sp_cmd s)).1 = true → Q (h ++ [(s, o)]) (Ret (answer_text o))) →
  wp (invoke_create cfg guard raised (dict_set "namespace" (VStr ns) args)) Q h.
Proof using args_of_spec.
  intros He Hr Ho. destruct args_of_spec as [flags E]. unfold invoke_create. case_if; [apply He|].
  apply wp_lift; [|apply He]. intros cmd Hcmd. apply wp_and_then.
  assert (Hc : ∀ t e i, creation_in ns (mkSpawn cmd t e i)) by (intros; unfold creation_in; rewrite E in Hcmd |- *; exact Hcmd).
  apply wp_command.
  - intros Hf. specialize (Hr _ (Hc 0%Z [] "") Hf). exact Hr.
  - intros t o Ht. specialize (Ho _ o (Hc t [] "") Ht). destruct o as [r|e]; exact Ho.
Qed.

Hypothesis blade_named : path_name (_get_blade_path cfg) = "blade".

Lemma create_command_blade ns kc flags cmd :
  create_command cfg (s_scope spec) (s_blade_target spec) (s_blade_action spec) ns names (label_text (s_labels spec))
    kc "" "" flags = Some cmd →
  ∃ rest, cmd = _get_blade_path cfg :: rest.
Proof using blade_named.
  unfold create_command, bounded_timeout. case_if; [intros [= <-]; by eexists|].
  cbn [app raise_timeout]. destruct (String.eqb_spec (_get_blade_path cfg) "--timeout") as [E|_].
  - rewrite E in blade_named. discriminate blade_named.
  - intros (rest & _ & [= <-])%bind_Some. by eexists.
Qed.

(** A refusal of the guard, as an answer of the tool. *)
Lemma refusal_text rest :
  (check guard (_get_blade_path cfg :: rest)).1 = false →
  (check guard (_get_blade_path cfg :: rest)).2 ∈ ["Command not allowed: blade"; "Dangerous pattern detected in command"].
Proof using blade_named.
  unfold check. rewrite blade_named. case_if; [by left|]. change (String.eqb "blade" "kubectl") with false. cbv iota zeta.
  destruct (existsb _ _); cbn [fst snd]; [by right; left | done].
Qed.

Lemma refusal_supported s ns :
  creation_in ns s → (check guard (sp_cmd s)).1 = false →
  namespace_unsupported (answer_text (Exn (check guard (sp_cmd s)).2)) = false.
Proof using blade_named.
  intros (rest & ->)%create_command_blade Hf%refusal_text. rewrite !elem_of_cons, elem_of_nil in Hf.
  by destruct Hf as [->|[->|[]]].
Qed.

Lemma host_create_within h : within h → wp (host_create cfg guard raised args) (λ h' _, within h') h.
Proof using args_of_spec blade_named.
  intros Hh. assert (Hsame : dict_set "namespace" (VStr (s_namespace spec)) args = args)
    by (destruct args_of_spec as [flags ->]; reflexivity).
  unfold host_create. apply wp_bind.
  assert (wp (invoke_create cfg guard raised args)
    (λ h' r, within h' ∧ match r with Ret out => namespace_unsupported out = true → namespace_refused h' | Exn _ => True end) h) as H1.
  { rewrite <- Hsame. apply wp_invoke_create.
    - done.
    - intros s Hs Hf. split; [done|]. by rewrite (refusal_supported _ _ Hs Hf).
    - intros s o Hs Ht. split; [apply within_run; [done|]; split; [done|]; by right; left|].
      intros Hu. exists s, o. split; [|done]. apply elem_of_app. right. by left. }
  eapply wp_mono; [exact H1|]. intros h1 [out|t] [Hw Hr]; [|done]. apply wp_lift; [|done]. intros uid _.
  destruct (truthy uid || negb (namespace_unsupported out)) eqn:E; [done|].
  apply orb_false_iff in E as [_ E]. apply negb_false_iff in E. specialize (Hr E). apply wp_bind, wp_invoke_create; [done| |].
  - intros s _ _. by apply wp_lift.
  - intros s o Hs Ht. pose proof (within_retry h1 s o Hw Ht Hs Hr). by apply wp_lift.
Qed.

Lemma fallback_confined :
  runs confined (_try_kubectl_exec_fallback cfg guard raised (s_scope spec) (s_blade_target spec) (s_blade_action spec)
    (s_namespace spec) names (arg "labels" args) kubeconfig (arg "flags" args)).
Proof using args_of_spec.
  unfold _try_kubectl_exec_fallback, exec_answer. repeat runs_step; auto with effects.
  apply run_kubectl_confined. intros u. right. do 2 eexists. split; [|done].
  destruct args_of_spec as [flags E]. by rewrite E in *.
Qed.

Lemma inject_within s meta params h :
  within h → wp (inject cfg guard raised now s spec names kubeconfig meta args params) (λ h' _, within h') h.
Proof using args_of_spec blade_named.
  intros Hh. unfold inject. apply wp_bind. eapply wp_mono; [by apply host_create_within|]. intros h1 [[out uid]|t] H1; [|done].
  apply runs_within; [|done]. repeat runs_step; auto using fallback_confined with effects.
Qed.
End confined.

(** C10. Direct execution stays within the specification: in every world, with a
    blade whose file is named blade, each command the node runs was accepted
    by the command guard and is a look at the cluster or creates the
    experiment of the specification, on the host or inside a tool pod; or it
    is the same fault with the namespace left out, which is not the
    experiment of the specification and which the drift guard would refuse
    ([namespace_retry_not_allowed]), and then a creation in the namespace was
    run before and answered that the flag is unknown. *)
Theorem direct_execute_confined cfg guard raised now s spec names kc meta args params w :
  path_name (_get_blade_path cfg) = "blade" →
  direct_input s = Some (spec, names, kc, meta) →
  direct_args spec meta names kc = Some (args, params) →
  within cfg guard spec names kc args (execute w [] (direct_execute cfg guard raised now s)).2.
Proof.
  intros Hb Hi Ha. apply (wp_sound _ (λ h _, within cfg guard spec names kc args h)). unfold direct_execute. rewrite Hi. cbn [lift with_text].
  apply wp_lift; [|constructor]. intros x [= <-]. apply wp_lift; [|constructor]. intros y Hy. rewrite Ha in Hy. injection Hy as <-.
  apply wp_bind. eapply wp_mono.
  { apply runs_within; [|constructor]. unfold preflight. repeat runs_step. apply list_tool_pods_confined. }
  intros h1 [[|n missing]|t] H1; [| exact H1 | exact H1]. eapply inject_within; [eapply direct_args_of_spec, Ha | done..].
Qed.

(** ** What the node reports *)

Section reported.
Context (cfg : BladeSettings) (guard : ToolGuard) (raised : string) (now : pyval).
Context (spec : FaultSpec) (names kubeconfig : string) (args : dict pyval).
Hypothesis blade_allowed : path_name (_get_blade_path cfg) = "blade" ∧ "blade" ∈ allowed_commands guard.
Hypothesis args_of_spec : of_spec spec names kubeconfig args.

(** A creation that was run reported the identifier. *)
Definition reported (h : history) (uid : string) : Prop :=
  ∃ s o, (s, o) ∈ h ∧
    ((host_creation cfg spec names kubeconfig args s ∨ namespace_retry cfg spec names kubeconfig args s) ∧
       _parse_blade_uid_from_content (answer_text o) = Some uid ∨
     pod_creation cfg spec names kubeconfig args s ∧
       ∃ r, o = Ret r ∧ (_parse_blade_uid_from_content (stdout r) = Some uid ∨
                         _parse_blade_uid_from_content (stderr r) = Some uid)).

Lemma reported_more h l uid : reported h uid → reported (h ++ l) uid.
Proof. intros (s & o & Hs & H). exists s, o. split; [|done]. apply elem_of_app. by left. Qed.

(** A refused creation gives no identifier. *)
Lemma refusal_silent rest uid :
  (check guard (_get_blade_path cfg :: rest)).1 = false →
  _parse_blade_uid_from_content (answer_text (Exn (check guard (_get_blade_path cfg :: rest)).2)) = Some uid → uid = "".
Proof using blade_allowed.
  destruct blade_allowed as [Hb _]. intros Hf%refusal_text; [|done]. rewrite !elem_of_cons, elem_of_nil in Hf.
  destruct Hf as [->|[->|[]]]; vm_compute; by intros [= <-].
Qed.

Lemma wp_create_reported ns h :
  ns = s_namespace spec ∨ ns = "" →
  wp (invoke_create cfg guard raised (dict_set "namespace" (VStr ns) args))
    (λ h' r, match r with
             | Ret out => ∀ uid, _parse_blade_uid_from_content out = Some uid → uid ≠ "" → reported h' uid
             | Exn _ => True
             end) h.
Proof using args_of_spec blade_allowed.
  intros Hns. apply (wp_invoke_create _ _ _ spec names kubeconfig); [done..| |].
  - intros s Hs Hf uid Hu Hne. destruct Hne. apply (create_command_blade cfg spec names) in Hs as [rest E]; [|apply blade_allowed].
    rewrite E in *. by eapply refusal_silent.
  - intros s o Hs Ht uid Hu _. exists s, o. split; [apply elem_of_app; right; by left|]. left. split; [|done].
    by destruct Hns as [->| ->]; [left|right].
Qed.

Lemma wp_host_create h :
  wp (host_create cfg guard raised args)
    (λ h' r, match r with Ret (_, uid) => uid ≠ "" → reported h' uid | Exn _ => True end) h.
Proof using args_of_spec blade_allowed.
  assert (Hsame : dict_set "namespace" (VStr (s_namespace spec)) args = args)
    by (destruct args_of_spec as [flags ->]; reflexivity).
  unfold host_create. apply wp_bind. eapply wp_mono.
  { pose proof (wp_create_reported (s_namespace spec) h (or_introl eq_refl)) as H. rewrite Hsame in H. exact H. }
  intros h1 [out|t] H1; [|done]. apply wp_lift; [|done]. intros uid Hu.
  case_if; [exact (H1 uid Hu)|]. apply wp_bind. eapply wp_mono; [apply wp_create_reported; by right|].
  intros h2 [out2|t] H2; [|done]. apply wp_lift; [|done]. intros uid2 Hu2. exact (H2 uid2 Hu2).
Qed.

Lemma wp_fallback h :
  wp (_try_kubectl_exec_fallback cfg guard raised (s_scope spec) (s_blade_target spec) (s_blade_action spec)
        (s_namespace spec) names (arg "labels" args) kubeconfig (arg "flags" args))
    (λ h' r, match r with Ret (Some f) => fb_uid f ≠ "" ∧ reported h' (fb_uid f) | _ => True end) h.
Proof using args_of_spec.
  assert (Hl : arg "labels" args = label_text (s_labels spec)) by (destruct args_of_spec as [flags ->]; reflexivity).
  unfold _try_kubectl_exec_fallback. rewrite Hl. apply wp_and_then. eapply wp_mono; [apply wp_extends|].
  intros h1 [listing|e] _; [|done]. case_if; [done|].
  destruct (choose_tool_pod _ _ _) as [pod|]; [|done]. apply wp_lift; [|done]. intros blade_cmd Hb.
  apply wp_and_then, wp_command; [done|]. intros t [r|e] _; [|done]. unfold exec_answer.
  assert (Hrep : ∀ uid, uid ≠ "" → _parse_blade_uid_from_content (stdout r) = Some uid ∨
                        _parse_blade_uid_from_content (stderr r) = Some uid →
    reported (h1 ++ [(mkSpawn (kubectl_prefix cfg kubeconfig ++ exec_args pod blade_cmd ++
      exec_timeout (s_scope spec) (s_blade_target spec) (s_blade_action spec) (pod +:+ " -n chaosblade -- " +:+ blade_cmd))
      t [] "", Ret r)]) uid).
  { intros uid _ Hu. eexists _, _. split; [apply elem_of_app; right; apply list_elem_of_here|]. right.
    split; [by exists pod, blade_cmd | by exists r]. }
  apply wp_lift; [|done]. intros out Hout. case_if.
  { unfold mret, prog_ret. cbn [wp fb_uid]. bool_to_prop. eauto. }
  apply wp_lift; [|done]. intros err Herr. unfold mret, prog_ret. cbn [wp].
  destruct (truthy err) eqn:Ee; [|done]. cbn [fb_uid]. bool_to_prop. eauto.
Qed.

(** A success: an identifier that a creation reported. *)
Definition succeeds (h : history) (d : Delta) : Prop :=
  ∃ uid, py_get "blade_uid" (dl_values d) = VStr uid ∧ uid ≠ "" ∧ reported h uid.

(** A failure: no identifier, and the reason. *)
Definition fails (d : Delta) : Prop :=
  py_get "blade_uid" (dl_values d) = VNone ∧
  ∃ c, c ∈ [PREREQUISITE_FAILED; EXECUTION_FAILED] ∧
    ∃ detail, py_get "failure_detail" (dl_values d) = VDict detail ∧
              py_get "category" detail = VStr (category_value c).

Lemma wp_with_checks meta params uid d h :
  succeeds h d →
  wp (with_checks cfg guard raised spec meta names kubeconfig params uid d)
    (λ h' r, match r with Ret d' => succeeds h' d' | Exn _ => True end) h.
Proof using.
  intros (u & Hu & Hne & Hr). unfold with_checks. apply wp_bind. eapply wp_mono; [apply wp_extends|].
  intros h' [checks|e] [l ->]; [|done]. unfold mret, prog_ret. cbn [wp].
  exists u. split; [|split; [done | by apply reported_more]].
  unfold py_get in *. cbn [dl_values] in *. rewrite dict_get_app. by destruct (dict_get "blade_uid" (dl_values d)).
Qed.

Lemma wp_inject s meta params h :
  wp (inject cfg guard raised now s spec names kubeconfig meta args params)
    (λ h' r, match r with Ret d => succeeds h' d ∨ fails d | Exn _ => True end) h.
Proof using args_of_spec blade_allowed.
  unfold inject. apply wp_bind. eapply wp_mono; [apply wp_host_create|]. intros h1 [[out uid]|e] H1; [|done].
  destruct (truthy uid) eqn:Eu.
  - bool_to_prop. eapply wp_mono; [apply wp_with_checks; exists uid; auto|]. intros h' [] H; auto.
  - apply wp_bind. eapply wp_mono; [apply wp_fallback|]. intros h2 [[f|]|e] H2; [| |done].
    + destruct H2 as [Hne Hr]. eapply wp_mono; [apply wp_with_checks; exists (fb_uid f); auto|]. intros h' [] H; auto.
    + right. split; [done|]. exists EXECUTION_FAILED. split; [set_solver|]. by eexists.
Qed.
End reported.

(** C12. Direct execution reports what happened: with a blade whose file is named
    blade and which the command guard lists, in every world in which it returns,
    either the identifier it records was reported by a creation that it ran,
    or it records no identifier and the reason of the failure. *)
Theorem direct_outcome cfg guard raised now s spec names kc meta args params w d h :
  path_name (_get_blade_path cfg) = "blade" → "blade" ∈ allowed_commands guard →
  direct_input s = Some (spec, names, kc, meta) →
  direct_args spec meta names kc = Some (args, params) →
  execute w [] (direct_execute cfg guard raised now s) = (Ret d, h) →
  succeeds cfg spec names kc args h d ∨ fails d.
Proof.
  intros Hb Hal Hi Ha Hx.
  assert (H : wp (direct_execute cfg guard raised now s)
    (λ h' r, match r with Ret d => succeeds cfg spec names kc args h' d ∨ fails d | Exn _ => True end) []).
  { unfold direct_execute. apply wp_lift; [|done]. rewrite Hi. intros x [= <-].
    apply wp_lift; [|done]. rewrite Ha. intros y [= <-].
    apply wp_bind. eapply wp_mono; [apply wp_extends|]. intros h1 [[|n missing]|e] _; [| |done].
    - by eapply wp_inject, direct_args_of_spec.
    - right. split; [done|]. exists PREREQUISITE_FAILED. split; [set_solver|]. by eexists. }
  apply (wp_sound _ _ _ w) in H. by rewrite Hx in H.
Qed.

(** ** Node faults without a tool pod *)

Lemma target_nodes_truthy names n : n ∈ target_nodes names → truthy names = true.
Proof. destruct names; [|done]. unfold target_nodes. cbn. by intros ?%elem_of_nil. Qed.

(** A node without a running tool pod is never injected: when the listing of
    the tool pods misses a target node, the node records the failed
    prerequisite and the listing is all it has run. *)
Theorem missing_pod_blocks cfg guard raised now s spec names kc meta args params w r h n :
  direct_input s = Some (spec, names, kc, meta) →
  direct_args spec meta names kc = Some (args, params) →
  s_scope spec = "node" → n ∈ target_nodes names →
  execute w [] (list_tool_pods cfg guard kc) = (Ret r, h) →
  n ∉ map snd (discover_tool_pods_with_nodes (stdout r)) →
  ∃ d, execute w [] (direct_execute cfg guard raised now s) = (Ret d, h) ∧ fails d.
Proof.
  intros Hi Ha Hs Hn Hl Hm. unfold direct_execute. rewrite execute_bind, Hi. cbn [lift with_text execute].
  rewrite execute_bind, Ha. cbn [lift with_text execute]. rewrite execute_bind. unfold preflight.
  rewrite Hs, (target_nodes_truthy _ _ Hn). change (String.eqb "node" "node" && true) with true. cbv iota. rewrite execute_and_then, Hl.
  unfold mret, prog_ret. cbn [execute].
  assert (Hf : n ∈ List.filter (λ n, negb (n ∈? map snd (discover_tool_pods_with_nodes (stdout r)))) (target_nodes names)).
  { apply list_elem_of_In, filter_In. split; [by apply list_elem_of_In|]. apply str_in_false in Hm. by rewrite Hm. }
  destruct (List.filter _ _) as [|m l] eqn:El; [by apply elem_of_nil in Hf|].
  eexists. split; [done|]. split; [done|]. exists PREREQUISITE_FAILED. split; [set_solver|]. by eexists.
Qed.

(** ** The call against the approval *)

(** A name whose text survives a comma-separated list. *)
Definition plain_name (n : string) : Prop := n ≠ "" ∧ strip n = n ∧ has_char "," n = false.

Lemma csv_join l : Forall plain_name l → csv_names (join "," l) = l.
Proof.
  intros H. rewrite csv_names_filter. destruct (decide (l = [])) as [->|Hne]; [done|]. rewrite split_join; [|done|].
  2: { eapply Forall_impl; [exact H|]. by intros x (_ & _ & ?). }
  clear Hne. induction H as [|x l (Hx & Hs & _) _ IH]; [done|]. cbn [map List.filter].
  rewrite Hs. apply truthy_spec in Hx. rewrite Hx. by f_equal.
Qed.

Lemma names_kept l : Forall plain_name l → plan_names l = l.
Proof.
  unfold plan_names. induction 1 as [|x l (Hx & _) _ IH]; [done|]. cbn [map List.filter py_truthy].
  apply truthy_spec in Hx. rewrite Hx. cbn [map py_str]. by f_equal.
Qed.

Lemma parse_label_text labels :
  Forall plain_label labels →
  _parse_label_string (join "," (map (λ kv, kv.1 +:+ "=" +:+ kv.2) labels)) = plan_labels labels.
Proof.
  intros H. destruct (decide (labels = [])) as [->|Hne]; [done|]. unfold _parse_label_string, plan_labels.
  rewrite split_join; [| by destruct labels |].
  - rewrite (fold_pieces _ id) by (try done; intros d [k v] (_ & Hk & Hq & _ & Hv & _ & Hkv); cbn [fst snd] in *;
      change (k +:+ "=" +:+ v) with (k +:+ String "=" v) in *; rewrite Hkv, cut_first by done; by rewrite Hk, Hv).
    by rewrite map_map.
  - apply Forall_map. eapply Forall_impl; [exact H|]. intros kv' ?. by apply label_no_comma.
Qed.

Lemma or_text s v : s ≠ "" → py_or (VStr s) v = VStr s.
Proof. intros H. apply truthy_spec in H. unfold py_or. cbn [py_truthy]. by rewrite H. Qed.

Section approved.
Context (spec : FaultSpec) (names : list string) (labels : dict string) (kubeconfig flags : string).
Hypothesis spec_names : s_names spec = map VStr names.
Hypothesis spec_labels : s_labels spec = map (λ kv, (kv.1, VStr kv.2)) labels.
Hypothesis names_plain : Forall plain_name names.
Hypothesis labels_plain : Forall plain_label labels.
Hypothesis spec_scope : s_scope spec ∈ ["pod"; "container"; "node"].
Hypothesis spec_fault : s_blade_target spec ≠ "" ∧ s_blade_action spec ≠ "".

Definition spec_call (namespace : string) : dict pyval :=
  [("scope", VStr (s_scope spec)); ("target", VStr (s_blade_target spec)); ("action", VStr (s_blade_action spec));
   ("namespace", VStr namespace); ("names", VStr (join "," names)); ("labels", VStr (label_text (s_labels spec)));
   ("kubeconfig", VStr kubeconfig); ("evict_count", VStr ""); ("evict_percent", VStr ""); ("flags", VStr flags)].

Lemma label_text_plain : label_text (s_labels spec) = join "," (map (λ kv, kv.1 +:+ "=" +:+ kv.2) labels).
Proof using spec_labels. unfold label_text. rewrite spec_labels, map_map. done. Qed.

Lemma classify_spec_call ns raw :
  _classify_blade_create (spec_call ns) raw =
  Some (plan_effective (s_scope spec) (s_blade_target spec) (s_blade_action spec) ns names labels raw).
Proof using spec_names spec_labels names_plain labels_plain spec_scope.
  rewrite <- classify_plan by done. unfold _classify_blade_create.
  rewrite call_plan_names, call_plan_labels, names_kept by done.
  assert (Hn : blade_create_names (spec_call ns) = Some names).
  { unfold blade_create_names, spec_call. cbn [py_get dict_get String.eqb Ascii.eqb Bool.eqb default].
    change (py_get "names" _) with (VStr (join "," names)). unfold py_or. cbn [py_truthy].
    destruct (truthy (join "," names)) eqn:E; [by rewrite csv_join by done|]. apply truthy_false in E.
    pose proof (csv_join _ names_plain) as Hc. rewrite E in Hc. by rewrite <- Hc. }
  assert (Hl : blade_create_labels (spec_call ns) = Some (plan_labels labels)).
  { unfold blade_create_labels, spec_call. change (py_get "labels" _) with (VStr (label_text (s_labels spec))).
    rewrite label_text_plain. unfold py_or. cbn [py_truthy].
    destruct (truthy (join "," (map _ labels))) eqn:E; [by rewrite parse_label_text by done|]. apply truthy_false in E.
    pose proof (parse_label_text _ labels_plain) as Hc. rewrite E in Hc. by rewrite <- Hc. }
  rewrite Hn, Hl. reflexivity.
Qed.

Lemma freeze_spec owners :
  freeze_record (target_dict spec) (s_params spec) (VStr (s_scope spec)) (VStr (s_blade_target spec))
    (VStr (s_blade_action spec)) true owners =
  Some (Some (plan_approved (s_scope spec) (s_blade_target spec) (s_blade_action spec) (s_namespace spec) names labels true owners)).
Proof using spec_names spec_labels spec_scope spec_fault.
  rewrite <- freeze_plan by done. destruct spec_fault as [Ht Ha].
  assert (Hq : s_scope spec ≠ "")
    by (intros E; rewrite E in spec_scope; rewrite !elem_of_cons, elem_of_nil in spec_scope; naive_solver).
  assert (Hs : freeze_scope (target_dict spec) (s_params spec) (VStr (s_scope spec)) =
               freeze_scope (plan_target (s_namespace spec) names labels) [] (VStr (s_scope spec))).
  { unfold freeze_scope, target_dict, plan_target.
    change (py_get "resource_type" [_; _; _; ("resource_type", ?v)]) with v.
    change (py_get "resource_type" [_; _; _]) with VNone. change (py_get "scope" []) with VNone.
    change (py_or (py_or VNone VNone) ?v) with v. by rewrite !or_text. }
  unfold freeze_record. rewrite Hs, !(or_text (s_blade_target spec)), !(or_text (s_blade_action spec)) by done.
  unfold freeze_names, freeze_labels, freeze_namespace, target_dict, plan_target. rewrite spec_names, spec_labels.
  reflexivity.
Qed.
End approved.

(** The classifier's view of the call, from the arguments. *)
Lemma classify_args spec names labels kc flags ns allow :
  s_names spec = map VStr names → s_labels spec = map (λ kv, (kv.1, VStr kv.2)) labels →
  Forall plain_name names → Forall plain_label labels → s_scope spec ∈ ["pod"; "container"; "node"] →
  ∃ raw, infer_effective_target "blade_create" (VDict (spec_call spec names kc flags ns)) allow =
         Some (plan_effective (s_scope spec) (s_blade_target spec) (s_blade_action spec) ns names labels raw).
Proof. intros. eexists. by apply classify_spec_call. Qed.

(** C11. What direct execution first asks blade for is what was approved: for a
    specification of a pod, container or node with plain names and labels and
    a fault whose target has no blanks around it, the arguments of its first
    call of blade_create are classified as a target that the drift guard
    allows under the approval frozen from the same specification, although
    the call never meets the guard.  The retry without the namespace is not
    such a call ([namespace_retry_not_allowed]). *)
Theorem direct_call_allowed spec names labels meta kc args params owners allow :
  s_names spec = map VStr names → s_labels spec = map (λ kv, (kv.1, VStr kv.2)) labels →
  Forall plain_name names → Forall plain_label labels → s_scope spec ∈ ["pod"; "container"; "node"] →
  s_blade_target spec ≠ "" ∧ s_blade_action spec ≠ "" → strip (s_blade_target spec) = s_blade_target spec →
  direct_args spec meta (join "," names) kc = Some (args, params) →
  ∃ d a e, freeze_owned spec owners = Some (Some d) ∧ approved_from_dict (VDict d) = Some (Some a) ∧
    infer_effective_target "blade_create" (VDict args) allow = Some e ∧
    d_verdict (target_drift_guard e (Some a)) = ALLOW.
Proof.
  intros Hn Hl Hnp Hlp Hs Hf Hbt Ha.
  destruct (direct_args_of_spec _ _ _ _ _ _ Ha) as [flags ->].
  destruct (classify_args spec names labels kc flags (s_namespace spec) allow) as [raw He]; [done..|].
  pose proof (freeze_spec spec names labels Hn Hl Hs Hf owners) as Hz.
  eexists _, _, _. split; [unfold freeze_owned, freeze_approved_target; cbn [from_option id]; by rewrite Hz|].
  split; [by eapply from_to_dict, frozen_wf|]. split; [exact He|].
  apply guard_allow_spec. eexists. split; [done|]. split; [|split; [|by apply plan_permitted]].
  - unfold real_scope, plan_effective, plan_kind. cbn. destruct (String.eqb (s_scope spec) "node"); by apply str_in_false.
  - unfold plan_effective. cbn. by destruct (plan_names names), (plan_labels labels).
Qed.

(** ** Divergences *)

(** The retry without a namespace, which the node makes when blade does not
    know the flag, is a call the drift guard would not allow. *)
Lemma namespace_retry_not_allowed spec names labels kc flags owners allow :
  s_names spec = map VStr names → s_labels spec = map (λ kv, (kv.1, VStr kv.2)) labels →
  Forall plain_name names → Forall plain_label labels → s_scope spec ∈ ["pod"; "container"] →
  s_blade_target spec ≠ "" ∧ s_blade_action spec ≠ "" →
  strip (s_namespace spec) ∉ [""; "default"] →
  ∃ a e, freeze_record (target_dict spec) (s_params spec) (VStr (s_scope spec)) (VStr (s_blade_target spec))
           (VStr (s_blade_action spec)) true owners = Some (Some a) ∧
    infer_effective_target "blade_create" (VDict (spec_call spec names kc flags "")) allow = Some e ∧
    d_verdict (target_drift_guard e (Some a)) ≠ ALLOW.
Proof.
  intros Hn Hl Hnp Hlp Hs Hf Hns.
  assert (Hs' : s_scope spec ∈ ["pod"; "container"; "node"]) by set_solver.
  destruct (classify_args spec names labels kc flags "" allow) as [raw He]; [done..|].
  eexists _, _. split; [by apply (freeze_spec spec names labels)|]. split; [exact He|].
  assert (Hnode : String.eqb (s_scope spec) "node" = false)
    by (apply String.eqb_neq; intros E; rewrite E, !elem_of_cons, elem_of_nil in Hs; naive_solver).
  intros (a & [= <-] & _ & _ & [Hp _])%guard_allow_spec. revert Hp.
  unfold permitted_same, permitted_owner, permitted_secondary, plan_approved, plan_effective, plan_kind.
  rewrite Hnode. cbn -[CLUSTER_SCOPED_KINDS norm_ns plan_ns].
  intros [(_ & Hsn & _)|[(? & _)|(? & _)]]; [|done..]. revert Hsn. unfold same_namespace. cbn -[CLUSTER_SCOPED_KINDS norm_ns plan_ns].
  intros [Hc|[?|Hc]]; [by apply str_in_spec in Hc | done|]. apply Hns. revert Hc. unfold plan_ns.
  change (truthy (strip "")) with false. cbn [negb]. destruct (truthy (strip (s_namespace spec))) eqn:E; cbn [negb].
  - unfold norm_ns, str_or. rewrite E, strip_idem. intros ->. vm_compute. by right; left.
  - apply truthy_false in E. rewrite E. intros _. by left.
Qed.

(** A disk burn in a pod whose memory usage is not known raises before
    anything is run: the source asks for the usage with a name it never
    binds. *)
Lemma burn_without_usage_raises cfg guard raised now w s spec names kc meta :
  direct_input s = Some (spec, names, kc, meta) →
  s_scope spec = "pod" → s_blade_target spec = "disk" → s_blade_action spec = "burn" →
  py_get "pod_memory_limit_mb" meta = VNone → py_get "pod_memory_usage_mb" meta = VNone →
  execute w [] (direct_execute cfg guard raised now s) = (Exn raised, []).
Proof.
  intros Hi Hs Ht Ha Hl Hu. unfold direct_execute. rewrite execute_bind, Hi. cbn [lift with_text execute].
  rewrite execute_bind.
  assert (E : direct_args spec meta names kc = Raise); [|by rewrite E].
  assert (Hc : burn_ceiling "pod" "disk" "burn" meta = Raise).
  { unfold burn_ceiling, lookup_adaptations. unfold low_memory_burn, none_or_less, metadata_int.
    assert (Hm : List.filter (rule_matches "pod" "disk" "burn" meta (Some "param_override")) _FAULT_CONTEXT_ADAPTATIONS
                 = take 2 _FAULT_CONTEXT_ADAPTATIONS).
    { cbn. unfold rule_matches, low_memory_burn, none_or_less. cbn. by rewrite Hl. }
    rewrite Hm. cbn. by rewrite Hu. }
  unfold direct_args, effective_params. rewrite Hs, Ht, Ha.
  destruct (_auto_complete_params _ _ _ _ _) as [p f]. cbn [is_disk_burn String.eqb Ascii.eqb Bool.eqb andb].
  change (is_disk_burn "disk" "burn") with true. cbv iota. by rewrite Hc.
Qed.

(** The evidence snapshot is never taken: of the rules of the table none
    that asks for one has no commands. *)
Lemma evidence_never_captured spec meta : snapshot_entry spec meta = [].
Proof.
  unfold snapshot_entry, _capture_evidence_snapshot.
  assert (H : ∀ l, (∀ a, a ∈ l → a ∈ _FAULT_CONTEXT_ADAPTATIONS) →
    capture (List.filter (λ a, py_truthy (py_get "evidence_capture" (a_action a))) l) = None).
  { induction l as [|a l IH]; intros Hl; [done|]. cbn [List.filter].
    assert (Ha : a ∈ _FAULT_CONTEXT_ADAPTATIONS) by (apply Hl; by left).
    assert (IHl := IH (λ x Hx, Hl x (list_elem_of_further _ _ _ Hx))).
    unfold _FAULT_CONTEXT_ADAPTATIONS in Ha. rewrite !elem_of_cons, elem_of_nil in Ha.
    destruct Ha as [->|[->|[->|[->|[->|[]]]]]]; cbn; exact IHl. }
  rewrite H; [done|]. intros a Ha. unfold lookup_adaptations in Ha. rewrite elem_of_sort_rules in Ha.
  by apply list_elem_of_In, filter_In in Ha as [Ha%list_elem_of_In _].
Qed.

(** ** Examples *)

Definition json_of (s : string) : string := replace "'" dquote s.

(** A world that answers by the program and the subcommand. *)
Definition by_command (blade get exec : CommandResult) : world := λ _ s,
  match sp_cmd s with
  | program :: sub :: _ =>
      Ret (if String.eqb program "blade" then blade else if String.eqb sub "get" then get else exec)
  | _ => Exn ""
  end.

Definition created (uid : string) : CommandResult :=
  mkResult 0 (json_of ("{'code':200,'success':true,'result':'" +:+ uid +:+ "'}")) "".
Definition half_created : CommandResult :=
  mkResult 1 (json_of "{'code':54000,'success':false,'error':'see resStatus','result':{'uid':'aaaaaaaaaaaaaaaa'}}") "".
Definition pod_listing : CommandResult :=
  mkResult 0 ("NAME  READY  STATUS" +:+ newline +:+ "tool-1  1/1  Running  0  1d  10.0.0.1  n1") "".

Definition cpu_spec : FaultSpec :=
  mkSpec "shop" "pod" [VStr "cart-1"] [] "cpu" "fullload" [("cpu-percent", VStr "80")] [] 0 "cli" "".
Definition node_cpu_spec : FaultSpec :=
  mkSpec "" "node" [VStr "n2"] [] "cpu" "fullload" [] [] 0 "cli" "".
Definition burn_spec : FaultSpec :=
  mkSpec "shop" "pod" [VStr "cart-1"] [] "disk" "burn" [] [] 0 "cli" "".
Definition direct_state (spec : FaultSpec) : GState := mkState [] [("fault_spec", VDict (to_dict spec))].

Definition direct_run (w : world) (spec : FaultSpec) : outcome Delta * history :=
  execute w [] (direct_execute default_blade default_guard "raised" (VStr "now") (direct_state spec)).
Definition cpu_args : dict pyval := (default ([], []) (direct_args cpu_spec [] "cart-1" "")).1.
Definition cpu_params : dict pyval := (default ([], []) (direct_args cpu_spec [] "cart-1" "")).2.
Definition retried : world := by_command half_created pod_listing (created "bbbbbbbbbbbbbbbb").
Definition result_of (r : outcome Delta * history) : Delta := match r.1 with Ret d => d | Exn _ => mkDelta [] [] end.

Lemma direct_execute_confined_witness :
  length (direct_run retried cpu_spec).2 = 3%nat ∧
  within default_blade default_guard cpu_spec "cart-1" "" cpu_args (direct_run retried cpu_spec).2.
Proof.
  split; [vm_compute; reflexivity|].
  apply (direct_execute_confined default_blade default_guard "raised" (VStr "now") (direct_state cpu_spec) cpu_spec
    "cart-1" "" [] cpu_args cpu_params retried); vm_compute; reflexivity.
Defined.

Lemma direct_outcome_witness :
  py_get "blade_uid" (dl_values (result_of (direct_run retried cpu_spec))) = VStr "bbbbbbbbbbbbbbbb" ∧
  (succeeds default_blade cpu_spec "cart-1" "" cpu_args (direct_run retried cpu_spec).2
     (result_of (direct_run retried cpu_spec)) ∨
   fails (result_of (direct_run retried cpu_spec))).
Proof.
  split; [vm_compute; reflexivity|].
  apply (direct_outcome default_blade default_guard "raised" (VStr "now") (direct_state cpu_spec) cpu_spec
    "cart-1" "" [] cpu_args cpu_params retried); [vm_compute; reflexivity | by apply str_in_spec | vm_compute; reflexivity..].
Defined.

Definition node_args : dict pyval * dict pyval := default ([], []) (direct_args node_cpu_spec [] "n2" "").
Definition listing_spawn : Spawn :=
  mkSpawn ["kubectl"; "get"; "pods"; "-n"; "chaosblade"; "-l"; "app=otel-c-tool"; "-o"; "wide"] 30 [] "".

Lemma missing_pod_blocks_witness :
  ∃ d, direct_run retried node_cpu_spec = (Ret d, [(listing_spawn, Ret pod_listing)]) ∧ fails d.
Proof.
  apply (missing_pod_blocks default_blade default_guard "raised" (VStr "now") (direct_state node_cpu_spec) node_cpu_spec
    "n2" "" [] node_args.1 node_args.2 retried pod_listing [(listing_spawn, Ret pod_listing)] "n2");
    try (vm_compute; reflexivity); [by apply str_in_spec | by apply str_in_false].
Defined.

Lemma direct_call_allowed_witness :
  ∃ d a e, freeze_owned cpu_spec [] = Some (Some d) ∧ approved_from_dict (VDict d) = Some (Some a) ∧
    infer_effective_target "blade_create" (VDict cpu_args) true = Some e ∧
    d_verdict (target_drift_guard e (Some a)) = ALLOW.
Proof.
  apply (direct_call_allowed cpu_spec ["cart-1"] [] [] "" cpu_args cpu_params [] true);
    try (vm_compute; reflexivity); [|constructor|by apply str_in_spec | done].
  constructor; [|constructor]. repeat split; [done | vm_compute; reflexivity..].
Defined.

(** Blade reports that the experiment was created although it failed, and the
    tool warns against another attempt: the node makes one, and records only
    the second of the two experiments. *)
Example first_experiment_lost :
  let r := direct_run retried cpu_spec in
  (py_get "blade_uid" (dl_values (result_of r)), map (λ e, take 2 (sp_cmd e.1)) r.2) =
  (VStr "bbbbbbbbbbbbbbbb", [["blade"; "create"]; ["kubectl"; "get"]; ["kubectl"; "exec"]]) ∧
  contains "experiment CRD was created (UID: aaaaaaaaaaaaaaaa)" (create_answer half_created) = true.
Proof. split; vm_compute; reflexivity. Qed.

(** An error of blade that names an experiment counts as a success. *)
Example error_read_as_success :
  let refused := mkResult 1 "" "chaosblades.chaosblade.io chaosblade-0123abcd is being deleted" in
  let d := result_of (direct_run (by_command refused pod_listing refused) cpu_spec) in
  (py_get "blade_uid" (dl_values d), py_get "error" (dl_values d)) = (VStr "chaosblade-0123abcd", VNone).
Proof. vm_compute. reflexivity. Qed.

Example burn_raises : direct_run retried burn_spec = (Exn "raised", []).
Proof. vm_compute. reflexivity. Qed.

(** In direct mode the memory limit is collected for memory faults only, so
    that a disk burn in a pod depends on the usage that the baseline found:
    after the setup alone it raises. *)
Lemma setup_then_burn_raises cfg guard raised now act cases res w1 w2 s d h spec names kc :
  execute w1 [] (direct_setup cfg guard raised act cases res s) = (Ret d, h) →
  act _DIRECT_SKILL_NAME ≠ None → state_spec s = Some spec →
  s_scope spec = "pod" → s_blade_target spec = "disk" → s_blade_action spec = "burn" →
  let s' := mkState (g_messages s ++ dl_messages d) (dict_update (g_values s) (dl_values d)) in
  direct_input s' = Some (spec, names, kc, []) →
  py_get "target_metadata" (dl_values d) = VDict [] ∧
  execute w2 [] (direct_execute cfg guard raised now s') = (Exn raised, []).
Proof.
  intros Hd Hact Hspec Hs Ht Ha s' Hi. split.
  - revert Hd. unfold direct_setup. destruct (act _DIRECT_SKILL_NAME) as [content|]; [|done].
    rewrite execute_bind, Hspec. cbn [lift with_text execute]. rewrite execute_bind.
    destruct (direct_plan spec) as [plan|]; cbn [lift with_text execute]; [|done].
    rewrite execute_bind. unfold _collect_context. rewrite execute_bind, Hspec. cbn [lift with_text execute].
    rewrite execute_bind. destruct (as_str _) as [kc'|]; cbn [lift with_text execute]; [|done].
    rewrite Hs, Ht. cbn. by intros [= <- _].
  - by eapply burn_without_usage_raises.
Qed.
