(* ===== verification/PlanningMetadata.v ===== *)
(** * Extraction of planning metadata (agent/nodes/extract_planning_metadata.py)

    Between the planning loop and the safety check this node reads the
    conversation: the outcome of planning, the use case the plan follows and,
    where the specification is incomplete, its scope, target and action.  It
    rejects a plan that rests on no use case and on no look at the catalogue. *)

From stdpp Require Import base list strings sets.
From Stdlib Require Import ZArith Ascii.
From S2P Require Import Prelude PyText PyRe PyValue PyFloat PyOps TargetTypes Classifier TargetGuard Freeze FaultSpec Failure Screener Router Graph SafetyGate AttemptTracker.

Definition _CB_SCOPE_TARGET_ACTION_RE : pattern := Eval vm_compute in
  get_pattern (compile no_flags
    "(?:blade\s+create\s+k8s\s+)?(?P<scope>pod|node|container)-(?P<target>\w+)\s+(?P<action>\w+)")
    ltac:(vm_compute; discriminate).

Definition _USE_CASE_MARKERS : list string := ["**故障现象**"; "**注入验证**"; "**恢复验证**"].

Definition _DIR_PREFIX_SCOPE_MAP : dict string :=
  [("Pod", "pod"); ("Node", "node"); ("Workload", "pod"); ("workload", "pod"); ("Service", "pod"); ("PVC", "pod");
   ("DaemonSet", "pod"); ("HPA", "pod"); ("DNS", "pod"); ("节点容器运行时", "node")].

Definition _CASE_NAME_RE : pattern := Eval vm_compute in
  get_pattern (compile (Flags false true false) "\*\*用例名称\*\*\s*(.+?)\s*$") ltac:(vm_compute; discriminate).

Definition marked (content : string) : bool := existsb (λ m, contains m content) _USE_CASE_MARKERS.

(** The calls of the assistant messages, in order. *)
Definition calls_of (m : Message) : list ToolCall := match m with AIMessage _ _ calls => calls | _ => [] end.
Definition all_calls (messages : list Message) : list ToolCall := concat (map calls_of messages).

(** The first answer a partial test gives along a list. *)
Fixpoint first_exc {A B} (f : A → Exc (option B)) (l : list A) : Exc (option B) :=
  match l with
  | [] => Some None
  | x :: l' => r ← f x; match r with Some b => Some (Some b) | None => first_exc f l' end
  end.

(** ** The use case *)

Definition PLANNING_EXITS : list string := ["finish_planning"; "save_fault_plan"].

Definition chosen_path (c : ToolCall) : Exc (option pyval) :=
  if tc_name c ∈? PLANNING_EXITS then
    path ← vget_d "skill_case_resource" (VStr "") (tc_args c);
    Some (if py_truthy path then Some path else None)
  else Some None.

Definition _extract_chosen_skill_case_path (messages : list Message) : Exc pyval :=
  p ← first_exc chosen_path (all_calls (rev messages)); Some (default (VStr "") p).

(** The first marked answer to a call. *)
Fixpoint answer_to (id : string) (messages : list Message) : option string :=
  match messages with
  | [] => None
  | ToolMessage content _ i _ :: rest =>
      if String.eqb i id && truthy content && marked content then Some content else answer_to id rest
  | _ :: rest => answer_to id rest
  end.

Definition case_of_call (messages : list Message) (path : pyval) (c : ToolCall) : Exc (option string) :=
  if String.eqb (tc_name c) "read_skill_resource" then
    p ← vget_d "resource_path" (VStr "") (tc_args c);
    Some (if py_eqb p path
          then i ← tc_id c; if truthy i then answer_to i messages else None
          else None)
  else Some None.

Definition _find_skill_case_by_path (messages : list Message) (path : pyval) : Exc string :=
  c ← first_exc (case_of_call messages path) (all_calls messages); Some (default "" c).

Definition candidate (m : Message) : list string :=
  match m with
  | ToolMessage content name _ _ =>
      if String.eqb name "read_skill_resource" && negb (startswith (strip content) "Directory:")
         && negb (startswith (strip content) "Contents:") && marked content
      then [content] else []
  | _ => []
  end.

(** The name of a case, its cause and its symptom. *)
Definition case_keys (content : string) : list string :=
  match (m ← re_search _CASE_NAME_RE content; group 1 m) with
  | Some full => full :: match cut_str " 导致 " full with Some (cause, symptom) => [cause; symptom] | None => [] end
  | None => []
  end.

(** The texts to look in: the plan, then the assistant messages, the last
    one first. *)
Definition ai_text (m : Message) : list pyval :=
  match m with AIMessage content _ _ => if py_truthy content then [content] else [] | _ => [] end.

Definition reference_texts (messages : list Message) (plan : pyval) : list pyval :=
  (if py_truthy plan then [plan] else []) ++ concat (map ai_text (rev messages)).

Definition names_case (ref : pyval) (content : string) : Exc (option string) :=
  k ← first_exc (λ k, if truthy k then b ← py_in k ref; Some (if (b : bool) then Some tt else None) else Some None)
        (case_keys content);
  Some (match k with Some _ => Some content | None => None end).

Definition _extract_skill_case_from_messages (messages : list Message) (plan : pyval) : Exc string :=
  match concat (map candidate messages) with
  | [] => Some ""
  | [c] => Some c
  | (c :: _) as l =>
      hit ← first_exc (λ ref, first_exc (names_case ref) l) (reference_texts messages plan);
      Some (default c hit)
  end.

(** ** Scope, target and action *)

Definition _derive_scope_target_action (skill_case : string) : string * string * string :=
  match re_search _CB_SCOPE_TARGET_ACTION_RE skill_case with
  | Some m => (default "" (group 1 m), default "" (group 2 m), default "" (group 3 m))
  | None => ("", "", "")
  end.

Definition part_scope (part : string) : option string :=
  snd <$> List.find (λ e, startswith part e.1) _DIR_PREFIX_SCOPE_MAP.

Fixpoint path_scope (parts : list string) : option string :=
  match parts with
  | [] => None
  | p :: rest => match part_scope p with Some s => Some s | None => path_scope rest end
  end.

Definition call_scope (c : ToolCall) : Exc (option string) :=
  if String.eqb (tc_name c) "read_skill_resource" then
    path ← vget_d "resource_path" (VStr "") (tc_args c);
    if py_truthy path then s ← as_str path; Some (path_scope (split_on "/" s)) else Some None
  else Some None.

Definition _derive_scope_from_resource_path (messages : list Message) : Exc string :=
  s ← first_exc call_scope (concat (map calls_of (rev messages))); Some (default "" s).

Definition browses (c : ToolCall) : Exc (option unit) :=
  if String.eqb (tc_name c) "read_skill_resource" then
    path ← vget_d "resource_path" (VStr "") (tc_args c);
    b ← py_in "catalogue" path; Some (if (b : bool) then Some tt else None)
  else Some None.

Definition _has_browsed_catalogue (messages : list Message) : Exc bool :=
  b ← first_exc browses (all_calls messages); Some (match b with Some _ => true | None => false end).

(** ** The end of planning *)

(** The last planning exit among the tool messages at the end, by name and
    content. *)
Fixpoint exit_message (reversed : list Message) : option (string * string) :=
  match reversed with
  | ToolMessage content name _ is_error :: rest =>
      if negb is_error && (name ∈? PLANNING_EXITS) then Some (name, content) else exit_message rest
  | _ => None
  end.

Definition _find_planning_exit_tool_message (messages : list Message) : option (string * string) :=
  exit_message (rev messages).

Definition REJECTION_NUDGE : string :=
  "**REJECTION NOT ACCEPTED**: You concluded this fault " +:+
  "scenario is unsupported WITHOUT browsing the skill " +:+
  "catalogue. The catalogue contains kubectl-native " +:+
  "injection use cases beyond ChaosBlade primitives." +:+ newline +:+ newline +:+
  "You MUST first browse the catalogue:" +:+ newline +:+
  "1. `read_skill_resource(resource_path='references/catalogue/')`" +:+ newline +:+
  "2. Find the directory matching the fault symptom" +:+ newline +:+
  "3. Read the specific use-case .md file" +:+ newline +:+ newline +:+
  "If a matching use case exists, follow it. " +:+
  "If no matching use case exists, design your own " +:+
  "injection plan based on the fault description and " +:+
  "proceed with `finish_planning`.".

Definition NO_CASE_MESSAGE : string :=
  "[PLANNING REJECTED] No catalogue use-case was loaded during planning." +:+ newline +:+ newline +:+
  "You must either:" +:+ newline +:+
  "  1. Follow the skill discovery flow described in SKILL.md: " +:+
  "use read_skill_resource to browse the catalogue directory, " +:+
  "locate a matching use-case file, and load its full content." +:+ newline +:+
  "  2. If no matching use case exists, design your own injection " +:+
  "plan and proceed with finish_planning." +:+ newline +:+ newline +:+
  "Do NOT proceed with a plan based solely on general command references.".

(** What the exit message settles: a final result, or entries to go on
    with. *)
Inductive planning_exit := Stop (d : Delta) | Continue (entries : dict pyval).

Definition plan_entry (s : GState) (plan : string) : dict pyval :=
  if truthy plan && negb (py_truthy (get "plan" s)) then [("plan", VStr plan)] else [].

Definition finish_exit (s : GState) (content : string) : Exc planning_exit :=
  if startswith content "Planning rejected" then
    browsed ← _has_browsed_catalogue (g_messages s);
    if negb browsed && negb (py_truthy (get "_catalogue_rejection_nudged" s))
    then Some (Stop (mkDelta [HumanMessage REJECTION_NUDGE]
                 [("_catalogue_rejection_nudged", VBool true); ("planning_rejected", VBool true)]))
    else Some (Stop (mkDelta [] (fail_state PLANNING_REJECTED
                 (replace "Planning rejected. Reason: " "" content) (g_messages s))))
  else Some (Continue
    (if startswith content "Planning finalized"
     then plan_entry s (replace "Planning finalized. Summary: " "" content) else [])).

Definition save_exit (s : GState) (content : string) : planning_exit :=
  if negb (startswith content "Plan saved to ") then Stop (mkDelta [] [("planning_rejected", VBool true)])
  else
    let body := match cut_str (newline +:+ newline) content with Some (_, b) => b | None => "" end in
    Continue ([("is_complex", VBool true);
               ("plan_path", VStr (strip (replace "Plan saved to " "" (first_line content))))] ++ plan_entry s body).

(** The last assistant message as a plan, when it makes no call. *)
Fixpoint last_ai (reversed : list Message) : Exc (dict pyval) :=
  match reversed with
  | [] => Some []
  | AIMessage content _ calls :: _ =>
      text ← as_str (py_or content (VStr ""));
      Some (if truthy (strip text) && negb (nonempty calls) then [("plan", VStr (strip text))] else [])
  | _ :: rest => last_ai rest
  end.

Definition read_exit (s : GState) : Exc planning_exit :=
  match _find_planning_exit_tool_message (g_messages s) with
  | Some (name, content) =>
      if String.eqb name "finish_planning" then finish_exit s content else Some (save_exit s content)
  | None =>
      if negb (py_truthy (get "plan" s)) && py_truthy (get "skill_name" s)
      then e ← last_ai (rev (g_messages s)); Some (Continue e)
      else Some (Continue [])
  end.

(** ** The node *)

Definition find_case (s : GState) (entries : dict pyval) : Exc (dict pyval) :=
  if py_truthy (get "skill_case_content" s) then Some entries
  else
    path ← _extract_chosen_skill_case_path (g_messages s);
    case ← (if py_truthy path then _find_skill_case_by_path (g_messages s) path
            else _extract_skill_case_from_messages (g_messages s)
                   (py_or (py_or (py_get "plan" entries) (get "plan" s)) (VStr "")));
    Some (if truthy case then entries ++ [("skill_case_content", VStr case)] else entries).

(** The scope and names after the case was read. *)
Definition derive_scope (spec : FaultSpec) (from_blade from_path : string) : string * list pyval :=
  if truthy from_blade then
    if String.eqb (s_scope spec) from_blade then (s_scope spec, s_names spec) else (from_blade, [])
  else if truthy from_path && negb (truthy (s_scope spec)) then (from_path, s_names spec)
  else (s_scope spec, s_names spec).

Definition derived_spec (spec : FaultSpec) (from_blade target action from_path : string) : FaultSpec :=
  let '(scope, names) := derive_scope spec from_blade from_path in
  mkSpec (s_namespace spec) scope names (s_labels spec) (str_or (s_blade_target spec) target)
    (str_or (s_blade_action spec) action) (s_params spec) (s_params_flags spec) (s_duration_seconds spec)
    (s_source spec) (s_user_description spec).

(** An update is due when a derived value differs in the way the source
    tests. *)
Definition updates_spec (spec : FaultSpec) (from_blade target action from_path : string) : bool :=
  (truthy from_blade && negb (String.eqb (s_scope spec) from_blade)) ||
  (negb (truthy from_blade) && truthy from_path && negb (truthy (s_scope spec))) ||
  (truthy target && negb (truthy (s_blade_target spec))) ||
  (truthy action && negb (truthy (s_blade_action spec))).

Definition spec_entry (s : GState) (entries : dict pyval) : Exc (dict pyval) :=
  spec ← read_fault_spec (g_values s);
  match spec with
  | Some spec =>
      if truthy (s_scope spec) && truthy (s_blade_target spec) && truthy (s_blade_action spec) then Some []
      else
        case ← as_str (py_or (py_or (py_get "skill_case_content" entries) (get "skill_case_content" s)) (VStr ""));
        let '(scope, target, action) := _derive_scope_target_action case in
        from_path ← (if truthy scope then Some "" else _derive_scope_from_resource_path (g_messages s));
        Some (if updates_spec spec scope target action from_path
              then [("fault_spec", VDict (to_dict (derived_spec spec scope target action from_path)))] else [])
  | None => Some []
  end.

Definition has_case (s : GState) (entries : dict pyval) : bool :=
  py_truthy (py_or (py_get "skill_case_content" entries) (get "skill_case_content" s)).

Definition extract_planning_metadata (s : GState) : Exc Delta :=
  e ← read_exit s;
  match e with
  | Stop d => Some d
  | Continue entries =>
      entries ← find_case s entries;
      browsed ← (if nonempty (g_messages s) && negb (has_case s entries)
                 then _has_browsed_catalogue (g_messages s) else Some true);
      if negb browsed
      then Some (mkDelta [SystemMessage NO_CASE_MESSAGE] (entries ++ [("planning_rejected", VBool true)]))
      else
        more ← spec_entry s entries;
        Some (mkDelta [] (entries ++ more))
  end.

(** * Properties *)

(** The keys an exit message can add. *)
Lemma exit_keys s e :
  read_exit s = Some (Continue e) →
  dict_keys e ∈ [[]; ["plan"]; ["is_complex"; "plan_path"]; ["is_complex"; "plan_path"; "plan"]].
Proof.
  assert (Hp : ∀ plan, dict_keys (plan_entry s plan) ∈ [[]; ["plan"]]).
  { intros plan. unfold plan_entry. destruct (truthy plan && negb (py_truthy (get "plan" s))); [by right; left | by left]. }
  assert (Hl : ∀ l e, last_ai l = Some e → dict_keys e ∈ [[]; ["plan"]]).
  { intros l. induction l as [|m l IH]; [intros ? [= <-]; by left|]. intros e'. destruct m; cbn [last_ai]; try apply IH.
    intros (t & _ & [= <-])%bind_Some. case_if; [by right; left | by left]. }
  unfold read_exit. destruct (_find_planning_exit_tool_message (g_messages s)) as [[name content]|].
  - destruct (String.eqb name "finish_planning").
    + unfold finish_exit. case_if; [intros (b & _ & H)%bind_Some; revert H; case_if; by intros [=]|].
      intros [= <-]. case_if; [|by left]. specialize (Hp (replace "Planning finalized. Summary: " "" content)). set_solver.
    + unfold save_exit. cbv zeta. case_if; intros [= <-].
      set (body := match cut_str _ _ with Some _ => _ | None => _ end).
      unfold plan_entry. destruct (truthy body && negb (py_truthy (get "plan" s))); set_solver.
  - case_if; [intros (e' & He & [= <-])%bind_Some; apply Hl in He; set_solver | intros [= <-]; by left].
Qed.

Lemma exit_fresh s e k :
  read_exit s = Some (Continue e) → k ∉ ["plan"; "is_complex"; "plan_path"] → dict_get k e = None.
Proof.
  intros Hk%exit_keys Hn. apply dict_get_None.
  rewrite !elem_of_cons, elem_of_nil in Hk. destruct Hk as [->|[->|[->|[->|[]]]]]; set_solver.
Qed.

Lemma find_case_keys s e e' :
  find_case s e = Some e' →
  e' = e ∨ ∃ case, truthy case = true ∧ e' = e ++ [("skill_case_content", VStr case)].
Proof.
  unfold find_case. case_if; [intros [= <-]; by left|]. intros (p & _ & (c & _ & [= <-])%bind_Some)%bind_Some.
  destruct (truthy c) eqn:E; [right; by exists c | by left].
Qed.

(** The keys of a result are distinct. *)
Lemma planning_values_wf s e e' more :
  read_exit s = Some (Continue e) → find_case s e = Some e' →
  dict_keys more ∈ [[]; ["planning_rejected"]; ["fault_spec"]] → dict_wf (e' ++ more).
Proof.
  intros Hk%exit_keys Hf Hm. unfold dict_wf, dict_keys in *.
  set (ks := [[]; ["plan"]; ["is_complex"; "plan_path"]; ["is_complex"; "plan_path"; "plan"]]) in *.
  set (all := flat_map (λ k, [k; k ++ ["skill_case_content"]]) ks).
  assert (Hk' : In (map fst e') all).
  { apply find_case_keys in Hf as [->|(c & _ & ->)]; rewrite ?map_app; apply in_flat_map;
      (eexists; split; [apply list_elem_of_In, Hk|]; simpl; auto). }
  assert (Ht : forallb (λ a, forallb (λ b, bool_decide (NoDup (a ++ b)))
                 [[]; ["planning_rejected"]; ["fault_spec"]]) all = true) by (vm_compute; reflexivity).
  rewrite forallb_forall in Ht. specialize (Ht _ Hk'). rewrite forallb_forall in Ht.
  rewrite map_app. apply list_elem_of_In in Hm. exact (bool_decide_eq_true_1 _ (Ht _ Hm)).
Qed.

Lemma spec_entry_keys s e m : spec_entry s e = Some m → dict_keys m ∈ [[]; ["planning_rejected"]; ["fault_spec"]].
Proof.
  intros ([spec|] & _ & H)%bind_Some; [|injection H as <-; by left]. revert H. case_if; [intros [= <-]; by left|].
  intros (c & _ & H)%bind_Some. destruct (_derive_scope_target_action c) as [[sc t] a].
  apply bind_Some in H as (p & _ & [= <-]). destruct (updates_spec _ _ _ _ _); set_solver.
Qed.

Lemma get_after k s d : dict_wf (dl_values d) →
  get k (update s d) = match dict_get k (dl_values d) with Some v => v | None => get k s end.
Proof.
  intros H. unfold get, update, py_get. cbn [g_values]. rewrite dict_get_update by done.
  by destruct (dict_get k (dl_values d)).
Qed.

(** The keys of an explicit dict are distinct. *)
Ltac wf_keys :=
  unfold dict_wf, dict_keys, fail_state; cbn [dl_values map fst];
  refine (bool_decide_eq_true_1 _ _); vm_compute; reflexivity.

(** A value a result sets is the one the state holds afterwards. *)
Lemma get_updated k v s d : dict_wf (dl_values d) → (k, v) ∈ dl_values d → get k (update s d) = v.
Proof. intros Hw Hin. rewrite get_after by done. by rewrite (dict_wf_get k v). Qed.

Lemma reason_truthy d : py_truthy (VStr (to_reason_string d)) = true.
Proof.
  unfold to_reason_string. destruct d as [c ctx a]. cbn [f_context f_category f_llm_analysis].
  by destruct c, (truthy ctx), (truthy a).
Qed.

Lemma stop_not_safe s d :
  read_exit s = Some (Stop d) → after_planning_metadata (update s d) ≠ "safety_check".
Proof.
  assert (Hrej : ∀ d, dict_wf (dl_values d) → ("planning_rejected", VBool true) ∈ dl_values d →
                      after_planning_metadata (update s d) ≠ "safety_check").
  { intros d' Hw Hin. unfold after_planning_metadata, on. rewrite (get_updated _ _ _ _ Hw Hin). by case_if. }
  unfold read_exit. destruct (_find_planning_exit_tool_message _) as [[name content]|].
  - destruct (String.eqb name "finish_planning").
    + unfold finish_exit. case_if; [|by intros [=]]. intros (b & _ & H)%bind_Some. revert H.
      case_if; intros [= <-].
      * apply Hrej; [wf_keys | set_solver].
      * unfold after_planning_metadata, on. erewrite get_updated; [|wf_keys|].
        2: { right. left. }
        rewrite reason_truthy. done.
    + unfold save_exit. cbv zeta. case_if; [|by intros [=]]. intros [= <-].
      apply Hrej; [wf_keys | set_solver].
  - case_if; [by intros (? & _ & [=])%bind_Some | by intros [=]].
Qed.

(** No plan without a source: with a conversation on record, the graph goes
    from this node to the safety check only if a use case is on record or the
    catalogue was looked at. *)
Theorem planning_needs_case s d :
  g_messages s ≠ [] → extract_planning_metadata s = Some d →
  after_planning_metadata (update s d) = "safety_check" →
  py_truthy (get "skill_case_content" (update s d)) = true ∨ _has_browsed_catalogue (g_messages s) = Some true.
Proof.
  intros Hm Hx Ha. apply bind_Some in Hx as (ex & Hex & Hx). destruct ex as [d'|e].
  { injection Hx as ->. by apply stop_not_safe in Hex. }
  apply bind_Some in Hx as (e' & Hf & Hx). apply bind_Some in Hx as (b & Hb & Hx). destruct b; cbn [negb] in Hx.
  2: { injection Hx as <-. exfalso. revert Ha. unfold after_planning_metadata, on.
       erewrite (get_updated "planning_rejected" (VBool true)); [by case_if | eapply planning_values_wf; [done | done | set_solver]|].
       cbn [dl_values]. set_solver. }
  apply bind_Some in Hx as (more & Hs & [= <-]).
  destruct (nonempty (g_messages s)) eqn:En; [|by destruct (g_messages s)]. cbn [andb] in Hb.
  destruct (has_case s e') eqn:Ec; cbn [negb] in Hb; [|by right]. left.
  assert (Hw : dict_wf (e' ++ more)) by (eapply planning_values_wf; [done | done | by eapply spec_entry_keys]).
  rewrite get_after by done. cbn [dl_values]. unfold has_case, py_get in Ec. rewrite dict_get_app.
  destruct (dict_get "skill_case_content" e') as [v|] eqn:Ev.
  - assert (Hn : dict_get "skill_case_content" e = None) by (by eapply exit_fresh, str_in_false).
    apply find_case_keys in Hf as [->|(c & Hc & ->)]; [congruence|].
    rewrite dict_get_app, Hn in Ev. cbn in Ev. by injection Ev as <-.
  - assert (Hn : dict_get "skill_case_content" more = None).
    { apply dict_get_None. apply spec_entry_keys in Hs. rewrite !elem_of_cons, elem_of_nil in Hs.
      destruct Hs as [->|[->|[->|[]]]]; set_solver. }
    by rewrite Hn.
Qed.

(** ** The specification *)

(** What the derivation may change: the scope, with the names cleared, and
    the fields that were empty. *)
Definition refines_spec (spec spec' : FaultSpec) : Prop :=
  s_namespace spec' = s_namespace spec ∧ s_labels spec' = s_labels spec ∧ s_params spec' = s_params spec ∧
  s_params_flags spec' = s_params_flags spec ∧ s_duration_seconds spec' = s_duration_seconds spec ∧
  s_source spec' = s_source spec ∧ s_user_description spec' = s_user_description spec ∧
  (s_blade_target spec ≠ "" → s_blade_target spec' = s_blade_target spec) ∧
  (s_blade_action spec ≠ "" → s_blade_action spec' = s_blade_action spec) ∧
  (s_names spec' = s_names spec ∨ s_names spec' = [] ∧ s_scope spec' ≠ s_scope spec).

Lemma derived_refines spec b t a p : refines_spec spec (derived_spec spec b t a p).
Proof.
  unfold refines_spec, derived_spec. destruct (derive_scope spec b p) as [scope names] eqn:E. cbn.
  do 7 (split; [done|]).
  split; [intros H; by apply truthy_spec in H; unfold str_or; rewrite H|].
  split; [intros H; by apply truthy_spec in H; unfold str_or; rewrite H|].
  revert E. unfold derive_scope. destruct (truthy b); [destruct (String.eqb_spec (s_scope spec) b)|case_if];
    intros [= <- <-]; auto.
Qed.

Lemma derived_wf spec b t a p : spec_wf spec → spec_wf (derived_spec spec b t a p).
Proof.
  unfold spec_wf, derived_spec, derive_scope. intros (Hn & Hl & Hp).
  split_ifs; cbn; auto.
Qed.

Lemma spec_entry_value s e m spec :
  read_fault_spec (g_values s) = Some (Some spec) → spec_entry s e = Some m →
  m = [] ∨
  (s_scope spec = "" ∨ s_blade_target spec = "" ∨ s_blade_action spec = "") ∧
  ∃ b t a p, m = [("fault_spec", VDict (to_dict (derived_spec spec b t a p)))].
Proof.
  intros Hr. unfold spec_entry. rewrite Hr. cbn [mbind option_bind]. case_if; [intros [= <-]; by left|].
  intros (c & _ & H)%bind_Some. destruct (_derive_scope_target_action c) as [[sc t] a].
  apply bind_Some in H as (p & _ & [= <-]). destruct (updates_spec _ _ _ _ _); [right | by left].
  split; [|by eexists _, _, _, _].
  destruct (truthy (s_scope spec)) eqn:E1, (truthy (s_blade_target spec)) eqn:E2, (truthy (s_blade_action spec)) eqn:E3;
    try discriminate; apply truthy_false in E1 || apply truthy_false in E2 || apply truthy_false in E3; auto.
Qed.

Lemma stop_keys s d : read_exit s = Some (Stop d) → dict_wf (dl_values d) ∧ dict_get "fault_spec" (dl_values d) = None.
Proof.
  unfold read_exit. destruct (_find_planning_exit_tool_message _) as [[name content]|].
  - destruct (String.eqb name "finish_planning").
    + unfold finish_exit. case_if; [|by intros [=]]. intros (b & _ & H)%bind_Some. revert H.
      case_if; intros [= <-]; (split; [wf_keys | done]).
    + unfold save_exit. cbv zeta. case_if; [|by intros [=]]. intros [= <-]. split; [wf_keys | done].
  - case_if; [by intros (? & _ & [=])%bind_Some | by intros [=]].
Qed.

Lemma planning_fault_spec s d spec :
  read_fault_spec (g_values s) = Some (Some spec) → extract_planning_metadata s = Some d →
  dict_wf (dl_values d) ∧
  (dict_get "fault_spec" (dl_values d) = None ∨
   (s_scope spec = "" ∨ s_blade_target spec = "" ∨ s_blade_action spec = "") ∧
   ∃ b t a p, dict_get "fault_spec" (dl_values d) = Some (VDict (to_dict (derived_spec spec b t a p)))).
Proof.
  intros Hr (ex & Hex & Hx)%bind_Some. destruct ex as [d'|e].
  { injection Hx as ->. apply stop_keys in Hex as [? ?]. auto. }
  apply bind_Some in Hx as (e' & Hf & Hx). apply bind_Some in Hx as (b & Hb & Hx).
  assert (Hn : dict_get "fault_spec" e' = None).
  { assert (He : dict_get "fault_spec" e = None) by (by eapply exit_fresh, str_in_false).
    apply find_case_keys in Hf as [->|(c & _ & ->)]; [done | by rewrite dict_get_app, He]. }
  destruct b; cbn [negb] in Hx.
  - apply bind_Some in Hx as (more & Hs & [= <-]). cbn [dl_values]. rewrite dict_get_app, Hn.
    split; [eapply planning_values_wf; [done | done | by eapply spec_entry_keys]|].
    destruct (spec_entry_value _ _ _ _ Hr Hs) as [->|(Hi & b & t & a & p & ->)]; [by left|].
    right. split; [done|]. by eexists _, _, _, _.
  - injection Hx as <-. cbn [dl_values]. rewrite dict_get_app, Hn.
    split; [eapply planning_values_wf; [done | done | set_solver] | by left].
Qed.

(** C19. Planning fills gaps and nothing else: whatever the conversation says, the
    specification in the state after the node has the namespace, labels,
    parameters, duration and fault of the one before where these were set; a
    complete specification is left as it is, and names are dropped only
    together with a change of scope. *)
Theorem planning_keeps_spec s d spec :
  from_dict (py_get "fault_spec" (g_values s)) = Some spec → extract_planning_metadata s = Some d →
  ∃ spec', read_fault_spec (g_values (update s d)) = Some (Some spec') ∧ refines_spec spec spec' ∧
    (s_scope spec ≠ "" → s_blade_target spec ≠ "" → s_blade_action spec ≠ "" → spec' = spec).
Proof.
  intros Hf Hx. assert (Hr : read_fault_spec (g_values s) = Some (Some spec)) by (unfold read_fault_spec; by rewrite Hf).
  destruct (planning_fault_spec _ _ _ Hr Hx) as [Hw Hv].
  assert (Hg : ∀ spec', from_dict (match dict_get "fault_spec" (dl_values d) with
                 Some v => v | None => get "fault_spec" s end) = Some spec' →
               read_fault_spec (g_values (update s d)) = Some (Some spec')).
  { intros spec' H. unfold read_fault_spec. change (py_get "fault_spec" (g_values (update s d))) with (get "fault_spec" (update s d)).
    by rewrite get_after, H. }
  destruct Hv as [Hn|(Hi & b & t & a & p & Hn)]; rewrite Hn in Hg.
  - exists spec. split; [by apply Hg|]. split; [|done]. unfold refines_spec. naive_solver.
  - exists (derived_spec spec b t a p).
    split; [apply Hg, from_to_dict_wf, derived_wf, entry_spec_wf; by eapply entry_dict|].
    split; [apply derived_refines|]. intros. naive_solver.
Qed.

(** ** Examples *)

Definition case_text (command : string) : string :=
  "**用例名称** CPU 满载 导致 Pod_CPU过高" +:+ newline +:+ "**故障现象** " +:+ command.

Definition read_case (path id : string) : ToolCall :=
  mkCall "read_skill_resource" (VDict [("resource_path", VStr path)]) (Some id).

Definition planned_messages (command : string) : list Message :=
  [AIMessage (VStr "") VNone [read_case "references/catalogue/Pod_CPU/a.md" "c1"];
   ToolMessage (case_text command) "read_skill_resource" "c1" false;
   AIMessage (VStr "") VNone [mkCall "finish_planning" (VDict []) (Some "c2")];
   ToolMessage "Planning finalized. Summary: load the CPU" "finish_planning" "c2" false].

Definition open_spec : FaultSpec :=
  mkSpec "shop" "pod" [VStr "cart-1"] [] "" "" [] [] 0 "cli_nl" "load the CPU of cart-1".

Definition planned_state (command : string) : GState :=
  mkState (planned_messages command) [("fault_spec", VDict (to_dict open_spec))].

Definition planned (command : string) : Delta := default (mkDelta [] []) (extract_planning_metadata (planned_state command)).
Definition spec_after (command : string) : FaultSpec :=
  match read_fault_spec (g_values (update (planned_state command) (planned command))) with
  | Some (Some spec) => spec
  | _ => open_spec
  end.

Example planned_pod :
  (py_get "plan" (dl_values (planned "blade create k8s pod-cpu fullload")),
   s_scope (spec_after "blade create k8s pod-cpu fullload"), s_names (spec_after "blade create k8s pod-cpu fullload"),
   fault_type (spec_after "blade create k8s pod-cpu fullload")) =
  (VStr "load the CPU", "pod", [VStr "cart-1"], "pod-cpu-fullload").
Proof. vm_compute. reflexivity. Qed.

Lemma planning_needs_case_witness :
  py_truthy (get "skill_case_content" (update (planned_state "pod-cpu fullload") (planned "pod-cpu fullload"))) = true ∨
  _has_browsed_catalogue (g_messages (planned_state "pod-cpu fullload")) = Some true.
Proof. apply (planning_needs_case (planned_state "pod-cpu fullload") (planned "pod-cpu fullload")); [done | vm_compute; reflexivity..]. Defined.

Lemma planning_keeps_spec_witness :
  ∃ spec', read_fault_spec (g_values (update (planned_state "pod-cpu fullload") (planned "pod-cpu fullload")))
             = Some (Some spec') ∧ refines_spec open_spec spec' ∧
    (s_scope open_spec ≠ "" → s_blade_target open_spec ≠ "" → s_blade_action open_spec ≠ "" → spec' = open_spec).
Proof. apply (planning_keeps_spec (planned_state "pod-cpu fullload") (planned "pod-cpu fullload")); vm_compute; reflexivity. Defined.

(** ** Divergences *)

(** A use case whose text mentions another scope first, here a node, replaces
    the scope and clears the names.  Without names the approval is for every
    resource of the scope: a call on any node is then allowed. *)
Example cleared_names_widen :
  let spec := spec_after "unlike node-cpu fullload, this case loads one pod: pod-cpu fullload" in
  (s_scope spec, s_names spec, is_namespace_wide spec) = ("node", [], true) ∧
  match freeze_record (target_dict spec) (s_params spec) (VStr (s_scope spec)) (VStr (s_blade_target spec))
          (VStr (s_blade_action spec)) true [],
        infer_effective_target "blade_create"
          (VDict [("scope", VStr "node"); ("target", VStr "cpu"); ("action", VStr "fullload"); ("names", VStr "any-node")]) true with
  | Some (Some a), Some e => d_verdict (target_drift_guard e (Some a)) = ALLOW
  | _, _ => False
  end.
Proof. split; vm_compute; reflexivity. Qed.

(** A use case that the plan names but that was not read does not fall back to
    the cases that were: the state ends up without one. *)
Example named_case_lost :
  let s := mkState
    [AIMessage (VStr "") VNone [read_case "references/catalogue/Pod_CPU/a.md" "c1"];
     ToolMessage (case_text "pod-cpu fullload") "read_skill_resource" "c1" false;
     AIMessage (VStr "") VNone
       [mkCall "finish_planning" (VDict [("skill_case_resource", VStr "catalogue/Pod_CPU/a.md")]) (Some "c2")];
     ToolMessage "Planning finalized. Summary: x" "finish_planning" "c2" false]
    [("fault_spec", VDict (to_dict open_spec))] in
  dl_values <$> extract_planning_metadata s =
  Some [("plan", VStr "x")].
Proof. vm_compute. reflexivity. Qed.
