(* ===== verification/SideEffects.v ===== *)
(** * Side effects of an injection
    (agent/nodes/_side_effect_detectors.py, se_snapshot.py, se_detect.py)

    Before the injection the pods and endpoints of the namespace are recorded,
    after the verification they are read again, and eight detectors report
    what changed for the worse.  Sets are lists without an order that matters:
    only membership is asked.  [fromisoformat] reads a time stamp as an
    instant, with a mark for one without a zone, which cannot be compared with
    the others. *)

From stdpp Require Import base list strings sets.
From Stdlib Require Import ZArith Ascii.
From S2P Require Import Prelude PyText PyRe PyValue Shlex PyFloat PyOps Json ToolGuard FaultSpec Failure Screener Router Conflict Kubectl Effects Blade.

(** ** Records *)

Record PodSnapshot := mkPod {
  ps_name : string;
  ps_namespace : pyval;
  ps_phase : pyval;
  ps_restart_counts : dict pyval;
  ps_oom_killed : list string;
  ps_crash_loop : list string;
  ps_evicted : bool }.

Record EndpointSnapshot := mkEndpoint { es_service : string; es_ready_count : Z }.

Record SideEffectSnapshot := mkSnapshot {
  ss_captured_at : pyval;
  ss_namespace : pyval;
  ss_pods : dict PodSnapshot;
  ss_endpoints : dict EndpointSnapshot }.

Record PostInjectState := mkAfter {
  pi_pods : pyval;
  pi_events : pyval;
  pi_endpoints : pyval;
  pi_logs : string;
  pi_captured_at : pyval }.

Record DetectionContext := mkDetection { dc_targets : list pyval; dc_start : pyval }.

Definition strings_val (l : list string) : pyval := VList (map VStr l).

Definition pod_to_dict (p : PodSnapshot) : dict pyval :=
  [("name", VStr (ps_name p)); ("namespace", ps_namespace p); ("phase", ps_phase p);
   ("restart_counts", VDict (ps_restart_counts p)); ("oom_killed_containers", strings_val (ps_oom_killed p));
   ("crash_loop_containers", strings_val (ps_crash_loop p)); ("evicted", VBool (ps_evicted p))].

(** A set of texts. *)
Definition text_set (v : pyval) : Exc (list string) := l ← py_iter v; mapM as_str l.

Definition pod_from_dict (v : pyval) : Exc PodSnapshot :=
  d ← as_dict v;
  name ← dict_get "name" d; name ← as_str name;
  counts ← as_dict (get_d "restart_counts" (VDict []) d);
  oom ← text_set (get_d "oom_killed_containers" (VList []) d);
  crash ← text_set (get_d "crash_loop_containers" (VList []) d);
  Some (mkPod name (get_d "namespace" (VStr "") d) (get_d "phase" (VStr "") d) counts oom crash
          (py_truthy (get_d "evicted" (VBool false) d))).

Definition endpoint_to_dict (e : EndpointSnapshot) : dict pyval :=
  [("service", VStr (es_service e)); ("ready_count", VInt (es_ready_count e))].

(** The numbers of the cluster's answers are integers. *)
Definition as_int (v : pyval) : Exc Z := match v with VInt z => Some z | _ => Raise end.

Definition endpoint_from_dict (v : pyval) : Exc EndpointSnapshot :=
  d ← as_dict v;
  service ← dict_get "service" d; service ← as_str service;
  n ← as_int (get_d "ready_count" (VInt 0) d);
  Some (mkEndpoint service n).

Definition to_dict (s : SideEffectSnapshot) : dict pyval :=
  [("captured_at", ss_captured_at s); ("namespace", ss_namespace s);
   ("pods", VDict (map (λ kv, (kv.1, VDict (pod_to_dict kv.2))) (ss_pods s)));
   ("endpoints", VDict (map (λ kv, (kv.1, VDict (endpoint_to_dict kv.2))) (ss_endpoints s)))].

Definition each_value {A} (f : pyval → Exc A) (v : pyval) : Exc (dict A) :=
  d ← as_dict v; mapM (λ kv : string * pyval, a ← f kv.2; Some (kv.1, a)) d.

Definition from_dict (v : pyval) : Exc SideEffectSnapshot :=
  d ← as_dict v;
  pods ← each_value pod_from_dict (get_d "pods" (VDict []) d);
  endpoints ← each_value endpoint_from_dict (get_d "endpoints" (VDict []) d);
  Some (mkSnapshot (get_d "captured_at" (VStr "") d) (get_d "namespace" (VStr "") d) pods endpoints).

(** ** Reading the cluster *)

(** [x.get(k) or {}]. *)
Definition sub_dict (k : string) (v : pyval) : Exc pyval := x ← vget k v; Some (or_empty x).

(** [(cs.get(outer) or {}).get(inner) or {}]. *)
Definition container_state (outer inner : string) (cs : pyval) : Exc pyval := x ← sub_dict outer cs; sub_dict inner x.

Definition add_once (x : string) (l : list string) : list string := if x ∈? l then l else l ++ [x].

(** One container: its name, count, and whether it was killed or loops. *)
Definition read_container (cs : pyval) : Exc (string * pyval * bool * bool) :=
  name ← vget_d "name" (VStr "") cs; name ← as_str name;
  count ← vget_d "restartCount" (VInt 0) cs;
  terminated ← container_state "lastState" "terminated" cs; reason ← vget "reason" terminated;
  waiting ← container_state "state" "waiting" cs; why ← vget "reason" waiting;
  Some (name, count, eqs reason "OOMKilled", eqs why "CrashLoopBackOff").

Definition add_container (p : PodSnapshot) (c : string * pyval * bool * bool) : PodSnapshot :=
  let '(name, count, oom, crash) := c in
  mkPod (ps_name p) (ps_namespace p) (ps_phase p) (dict_set name count (ps_restart_counts p))
    (if oom then add_once name (ps_oom_killed p) else ps_oom_killed p)
    (if crash then add_once name (ps_crash_loop p) else ps_crash_loop p) (ps_evicted p).

Definition item_name (item : pyval) : Exc pyval :=
  m ← vget_d "metadata" (VDict []) item; vget_d "name" (VStr "") m.

Definition item_status (item : pyval) : Exc pyval := vget_d "status" (VDict []) item.

Definition containers_of (item : pyval) : Exc (list pyval) :=
  st ← item_status item; l ← vget_d "containerStatuses" (VList []) st; py_iter l.

Definition is_evicted (st : pyval) : Exc bool :=
  phase ← vget_d "phase" (VStr "") st; reason ← vget_d "reason" (VStr "") st;
  Some (eqs phase "Failed" && eqs reason "Evicted").

Definition _parse_pod_snapshot (item : pyval) (namespace : string) : Exc (option PodSnapshot) :=
  name ← item_name item;
  if negb (py_truthy name) then Some None
  else
    name ← as_str name;
    st ← item_status item;
    phase ← vget_d "phase" (VStr "") st;
    evicted ← is_evicted st;
    l ← containers_of item;
    cs ← mapM read_container l;
    Some (Some (fold_left add_container cs (mkPod name (VStr namespace) phase [] [] [] evicted))).

Definition ready_addresses (item : pyval) : Exc Z :=
  subsets ← vget_d "subsets" (VList []) item; subsets ← py_iter subsets;
  ns ← mapM (λ s, a ← vget "addresses" s; l ← py_iter (py_or a (VList [])); Some (Z.of_nat (length l))) subsets;
  Some (foldr Z.add 0%Z ns).

Definition _parse_endpoint_snapshot (item : pyval) : Exc (option EndpointSnapshot) :=
  name ← item_name item;
  if negb (py_truthy name) then Some None
  else name ← as_str name; n ← ready_addresses item; Some (Some (mkEndpoint name n)).

Definition items_of (v : pyval) : Exc (list pyval) := l ← vget_d "items" (VList []) v; py_iter l.

(** A dict of the parsed items, a later one of the same name winning. *)
Fixpoint collect {A} (parse : pyval → Exc (option A)) (key : A → string) (acc : dict A) (items : list pyval)
    : Exc (dict A) :=
  match items with
  | [] => Some acc
  | i :: rest => a ← parse i; collect parse key (match a with Some a => dict_set (key a) a acc | None => acc end) rest
  end.

(** [None] of a text that is no JSON. *)
Definition load (text : string) : Exc (option pyval) :=
  match json_loads text with JOk v => Some (Some v) | JDecodeError => Some None | JValueError => Raise end.

Definition read_answer {A} (parse : pyval → Exc (option A)) (key : A → string) (r : CommandResult) : Exc (dict A) :=
  if negb (exit_code r =? 0)%Z || negb (truthy (stdout r)) then Some []
  else
    v ← load (stdout r);
    match v with
    | None => Some []
    | Some v => items ← items_of v; collect parse key [] items
    end.

Section capture.
Context (cfg : ToolSettings) (guard : ToolGuard) (raised : string) (now : pyval).

(** The global arguments are joined and split again at blanks. *)
Definition se_command (kubeconfig : string) (rest : list string) : list string :=
  t_kubectl_path cfg :: split_ws (join " " (_build_kubectl_global_args cfg kubeconfig "" "")) ++ rest.

Definition se_run (kubeconfig : string) (rest : list string) : prog CommandResult :=
  command cfg guard (se_command kubeconfig rest) (timeout_kubectl cfg) [].

Definition get_json (kubeconfig kind namespace : string) : prog CommandResult :=
  se_run kubeconfig ["get"; kind; "-n"; namespace; "-o"; "json"].

Definition capture_snapshot (namespace kubeconfig : string) : prog (option SideEffectSnapshot) :=
  and_then (get_json kubeconfig "pods" namespace) (λ p,
  and_then (get_json kubeconfig "endpoints" namespace) (λ e,
    match p, e with
    | Ret p, Ret e =>
        pods ← lift raised (read_answer (λ i, _parse_pod_snapshot i namespace) ps_name p);
        endpoints ← lift raised (read_answer _parse_endpoint_snapshot es_service e);
        mret (Some (mkSnapshot now (VStr namespace) pods endpoints))
    | _, _ => mret None
    end)).

Definition _safe_json (o : outcome CommandResult) : pyval :=
  match o with
  | Exn _ => VDict []
  | Ret r =>
      if negb (exit_code r =? 0)%Z || negb (truthy (stdout r)) then VDict []
      else match json_loads (stdout r) with JOk v => v | _ => VDict [] end
  end.

Definition _safe_text (o : outcome CommandResult) : string :=
  match o with Ret r => if (exit_code r =? 0)%Z then stdout r else "" | Exn _ => "" end.

(** Names that are no texts cannot be put on a command line. *)
Definition fetch_logs (kubeconfig namespace start : string) (targets : list pyval) : prog string :=
  match targets with
  | [] => mret ""
  | t :: _ =>
      and_then (t ← lift raised (as_str t);
                se_run kubeconfig ["logs"; t; "-n"; namespace; "--since-time=" +:+ start; "--tail=200"])
        (λ o, mret (_safe_text o))
  end.

Definition fetch_post_inject_state (namespace kubeconfig start : string) (targets : list pyval) : prog PostInjectState :=
  and_then (get_json kubeconfig "pods" namespace) (λ p,
  and_then (get_json kubeconfig "events" namespace) (λ ev,
  and_then (get_json kubeconfig "endpoints" namespace) (λ e,
    logs ← fetch_logs kubeconfig namespace start targets;
    mret (mkAfter (_safe_json p) (_safe_json ev) (_safe_json e) logs now)))).
End capture.

(** ** Detectors *)

Section detectors.
Context (fromisoformat : string → option (bool * Z)).

Definition _parse_iso_timestamp (ts : string) : option string :=
  if truthy ts then Some (if contains "Z" ts then replace "Z" "+00:00" ts else ts) else None.

Definition _is_after_injection (ts start : pyval) : bool :=
  match ts, start with
  | VStr t, VStr i =>
      match _parse_iso_timestamp t ≫= fromisoformat, _parse_iso_timestamp i ≫= fromisoformat with
      | Some (zoned1, a), Some (zoned2, b) => Bool.eqb zoned1 zoned2 && (b <=? a)%Z
      | _, _ => false
      end
  | _, _ => false
  end.

(** [finished_at and not _is_after_injection(finished_at, start)]. *)
Definition too_early (finished start : pyval) : bool := py_truthy finished && negb (_is_after_injection finished start).

Context (before : option SideEffectSnapshot) (after : PostInjectState) (ctx : DetectionContext).

Definition pod_before (name : pyval) : option PodSnapshot :=
  match name, before with VStr n, Some s => dict_get n (ss_pods s) | _, _ => None end.

Definition baseline_count (name : pyval) (container : string) : Exc Z :=
  match pod_before name with
  | Some p => as_int (get_d container (VInt 0) (ps_restart_counts p))
  | None => Some 0%Z
  end.

(** One report per element the step reports on. *)
Definition reports {A} (step : A → Exc (option (dict pyval))) (l : list A) : Exc (list (dict pyval)) :=
  l ← mapM step l; Some (omap id l).

Definition over_pods (step : pyval → Exc (list (dict pyval))) : Exc (list (dict pyval)) :=
  items ← items_of (pi_pods after); l ← mapM step items; Some (concat l).

(** A step over the containers of a named pod. *)
Definition over_containers (skip : pyval → bool) (step : pyval → pyval → Exc (option (dict pyval))) : Exc (list (dict pyval)) :=
  over_pods (λ item,
    name ← item_name item;
    if negb (py_truthy name) || skip name then Some []
    else cs ← containers_of item; reports (step name) cs).

Definition restart_step (pod cs : pyval) : Exc (option (dict pyval)) :=
  cname ← vget_d "name" (VStr "") cs; cname ← as_str cname;
  current ← vget_d "restartCount" (VInt 0) cs; current ← as_int current;
  baseline ← baseline_count pod cname;
  if (current - baseline <=? 0)%Z then Some None
  else
    terminated ← container_state "lastState" "terminated" cs;
    reason ← vget_d "reason" (VStr "") terminated;
    finished ← vget_d "finishedAt" (VStr "") terminated;
    Some (if too_early finished (dc_start ctx) then None
          else Some [("pod", pod); ("container", VStr cname); ("restart_delta", VInt (current - baseline));
                     ("restart_count", VInt current); ("reason", reason); ("finished_at", finished)]).

Definition ContainerRestartDetector : Exc (list (dict pyval)) := over_containers (λ _, false) restart_step.

Definition evicted_step (item : pyval) : Exc (list (dict pyval)) :=
  name ← item_name item;
  st ← item_status item;
  evicted ← is_evicted st;
  if negb evicted || match pod_before name with Some p => ps_evicted p | None => false end then Some []
  else message ← vget_d "message" (VStr "") st;
       Some [[("pod", name); ("reason", VStr "Evicted"); ("message", message)]].

Definition EvictedPodDetector : Exc (list (dict pyval)) := over_pods evicted_step.

Definition is_target (name : pyval) : bool := match name with VStr n => existsb (λ t, eqs t n) (dc_targets ctx) | _ => false end.

Definition oom_step (pod cs : pyval) : Exc (option (dict pyval)) :=
  cname ← vget_d "name" (VStr "") cs; cname ← as_str cname;
  terminated ← container_state "lastState" "terminated" cs;
  reason ← vget "reason" terminated;
  if negb (eqs reason "OOMKilled") then Some None
  else
    finished ← vget_d "finishedAt" (VStr "") terminated;
    let known := match pod_before pod with Some p => cname ∈? ps_oom_killed p | None => false end in
    Some (if (known && negb (_is_after_injection finished (dc_start ctx))) || too_early finished (dc_start ctx) then None
          else Some [("pod", pod); ("container", VStr cname); ("finished_at", finished)]).

Definition OOMKilledSiblingDetector : Exc (list (dict pyval)) := over_containers is_target oom_step.

Definition crash_step (pod cs : pyval) : Exc (option (dict pyval)) :=
  cname ← vget_d "name" (VStr "") cs; cname ← as_str cname;
  waiting ← container_state "state" "waiting" cs;
  reason ← vget "reason" waiting;
  if negb (eqs reason "CrashLoopBackOff") || match pod_before pod with Some p => cname ∈? ps_crash_loop p | None => false end
  then Some None
  else
    current ← vget_d "restartCount" (VInt 0) cs; current ← as_int current;
    baseline ← baseline_count pod cname;
    Some (Some [("pod", pod); ("container", VStr cname); ("restart_delta", VInt (current - baseline))]).

Definition CrashLoopDetector : Exc (list (dict pyval)) := over_containers (λ _, false) crash_step.

(** The ready addresses of each service now. *)
Definition current_endpoints : Exc (dict Z) :=
  items ← items_of (pi_endpoints after);
  es ← collect _parse_endpoint_snapshot es_service [] items;
  Some (map (λ kv, (kv.1, es_ready_count kv.2)) es).

Definition lost_endpoint (now : dict Z) (e : string * EndpointSnapshot) : option (dict pyval) :=
  let was := es_ready_count e.2 in
  let left := default 0%Z (dict_get e.1 now) in
  if (was =? 0)%Z || negb (left <? was)%Z then None
  else Some [("service", VStr e.1); ("before", VInt was); ("after", VInt left)].

Definition EndpointRemovalDetector : Exc (list (dict pyval)) :=
  match before with
  | None => Some []
  | Some s => now ← current_endpoints; Some (omap (lost_endpoint now) (ss_endpoints s))
  end.

(** ** Events and logs *)

Definition event_after (reason : string) (item : pyval) : Exc bool :=
  r ← vget "reason" item;
  if negb (eqs r reason) then Some false
  else
    last ← vget "lastTimestamp" item; time ← vget "eventTime" item;
    Some (_is_after_injection (py_or (py_or last time) (VStr "")) (dc_start ctx)).

Definition involved_name (item : pyval) : Exc pyval :=
  o ← vget_d "involvedObject" (VDict []) item; vget_d "name" (VStr "") o.

Definition _RESCALE_RE : pattern := Eval vm_compute in
  get_pattern (compile no_flags "from (\d+) to (\d+)") ltac:(vm_compute; discriminate).

(** A number of more digits than the interpreter reads raises. *)
Definition _parse_rescale_message (message : string) : Exc (Z * Z) :=
  match re_search _RESCALE_RE message with
  | Some m => a ← py_int_of_string (default "" (group 1 m)); b ← py_int_of_string (default "" (group 2 m)); Some (a, b)
  | None => Some (0, 0)%Z
  end.

Definition hpa_step (item : pyval) : Exc (option (dict pyval)) :=
  hit ← event_after "SuccessfulRescale" item;
  if negb hit then Some None
  else
    name ← involved_name item;
    message ← vget_d "message" (VStr "") item; text ← as_str message;
    '(old, new) ← _parse_rescale_message text;
    Some (Some [("hpa", name); ("old_replicas", VInt old); ("new_replicas", VInt new); ("message", message)]).

Definition HPAScaleDetector : Exc (list (dict pyval)) := items ← items_of (pi_events after); reports hpa_step items.

Definition probe_type (message : string) : string :=
  let m := lower message in
  if contains "liveness" m then "Liveness" else if contains "startup" m then "Startup" else "Readiness".

(** The pod and the probe of a failure that counts. *)
Definition probe_failure (item : pyval) : Exc (option (pyval * string)) :=
  hit ← event_after "Unhealthy" item;
  if negb hit then Some None
  else
    name ← involved_name item;
    if is_target name then Some None
    else message ← vget_d "message" (VStr "") item; text ← as_str message; Some (Some (name, probe_type text)).

Definition count_probe (acc : dict (pyval * string * Z)) (p : pyval * string) : dict (pyval * string * Z) :=
  let key := py_str p.1 +:+ ":" +:+ p.2 in
  match dict_get key acc with
  | Some (pod, probe, n) => dict_set key (pod, probe, (n + 1)%Z) acc
  | None => dict_set key (p.1, p.2, 1%Z) acc
  end.

Definition ProbeFailureDetector : Exc (list (dict pyval)) :=
  items ← items_of (pi_events after);
  l ← mapM probe_failure items;
  Some (map (λ kv, let '(pod, probe, n) := kv.2 in
                   [("pod", pod); ("probe_type", VStr probe); ("count", VInt n)])
          (fold_left count_probe (omap id l) [])).

Definition _DEPENDENCY_PATTERNS : list string :=
  ["connection refused"; "connection timed out"; "upstream connect error"; "no healthy upstream";
   "ETIMEDOUT"; "ECONNREFUSED"; "ECONNRESET"; "502"; "503"; "504"].

Definition numeric_pattern (p : string) : option pattern := compile no_flags ("\b" +:+ p +:+ "\b").

Definition _match_dependency_pattern (line pattern : string) : bool :=
  if truthy pattern && all_chars is_digit pattern && Nat.leb (String.length pattern) 3
  then match numeric_pattern pattern with
       | Some p => match re_search p line with Some _ => true | None => false end
       | None => false
       end
  else contains pattern line.

Definition dependency_report (lines : list string) (pattern : string) : list (dict pyval) :=
  match List.filter (λ l, _match_dependency_pattern l pattern) lines with
  | [] => []
  | (first :: _) as l =>
      [[("pattern", VStr pattern); ("count", VInt (Z.of_nat (length l))); ("sample_line", VStr (py_take 200 first))]]
  end.

Definition DependencyErrorDetector : Exc (list (dict pyval)) :=
  Some (concat (map (dependency_report (splitlines (pi_logs after))) _DEPENDENCY_PATTERNS)).

(** ** The registry *)

Definition _DETECTORS : list (string * Exc (list (dict pyval))) :=
  [("container_restarts", ContainerRestartDetector); ("evicted_pods", EvictedPodDetector);
   ("oom_killed_pods", OOMKilledSiblingDetector); ("crash_loop_pods", CrashLoopDetector);
   ("endpoint_removals", EndpointRemovalDetector); ("hpa_scaling", HPAScaleDetector);
   ("probe_failures", ProbeFailureDetector); ("dependency_errors", DependencyErrorDetector)].

(** A detector that raises, or has nothing to report, leaves no entry. *)
Definition detector_entry (d : string * Exc (list (dict pyval))) : dict pyval :=
  match d.2 with Some ((_ :: _) as l) => [(d.1, VList (map VDict l))] | _ => [] end.

Definition run_all_detectors : dict pyval := concat (map detector_entry _DETECTORS).
End detectors.

(** ** The nodes *)

Section nodes.
Context (cfg : ToolSettings) (guard : ToolGuard) (raised : string) (now : pyval).
Context (fromisoformat : string → option (bool * Z)).

Definition spec_of (s : GState) : prog (option FaultSpec) := lift raised (read_fault_spec (g_values s)).

Definition text_of (k : string) (s : GState) : prog string := lift raised (as_str (py_or (get k s) (VStr ""))).

Definition se_snapshot_node (s : GState) : prog (dict pyval) :=
  spec ← spec_of s;
  let namespace := match spec with Some p => s_namespace p | None => "" end in
  if negb (truthy namespace) then mret []
  else
    kubeconfig ← text_of "kubeconfig" s;
    and_then (capture_snapshot cfg guard raised now namespace kubeconfig)
      (λ o, match o with
            | Ret (Some snapshot) => mret [("se_snapshot", VDict (to_dict snapshot))]
            | _ => mret []
            end).

(** The side effects found are added to those on record. *)
Definition with_side_effects (s : GState) (detected : dict pyval) : Exc (dict pyval) :=
  verification ← as_dict (or_empty (get "verification" s));
  existing ← as_dict (or_empty (py_get "side_effects" verification));
  Some [("verification", VDict (dict_set "side_effects" (VDict (dict_update existing detected)) verification))].

(** [timed_out] says that the queries took longer than they may. *)
Definition se_detect_node (timed_out : bool) (s : GState) : prog (dict pyval) :=
  spec ← spec_of s;
  let namespace := match spec with Some p => s_namespace p | None => "" end in
  let names := match spec with Some p => s_names p | None => [] end in
  let start := get_d "injection_start_time" (VStr "") (g_values s) in
  if negb (truthy namespace) || negb (py_truthy start) then mret []
  else
    kubeconfig ← text_of "kubeconfig" s;
    start_text ← lift raised (as_str start);
    before ← lift raised (if on "se_snapshot" s then Some <$> from_dict (get "se_snapshot" s) else Some None);
    after ← fetch_post_inject_state cfg guard raised now namespace kubeconfig start_text names;
    if (timed_out : bool) then mret []
    else match run_all_detectors fromisoformat before after (mkDetection names start) with
         | [] => mret []
         | detected => lift raised (with_side_effects s detected)
         end.
End nodes.

(** * Properties *)

(** ** The round trip *)

Lemma text_set_strings l : text_set (strings_val l) = Some l.
Proof. unfold text_set, strings_val. cbn. induction l as [|x l IH]; [done|]. cbn. by rewrite IH. Qed.

Lemma pod_roundtrip p : pod_from_dict (VDict (pod_to_dict p)) = Some p.
Proof.
  destruct p as [n ns ph rc oom crash ev]. unfold pod_from_dict, pod_to_dict.
  cbn -[text_set strings_val py_truthy]. rewrite !text_set_strings. by destruct ev.
Qed.

Lemma endpoint_roundtrip e : endpoint_from_dict (VDict (endpoint_to_dict e)) = Some e.
Proof. by destruct e. Qed.

Lemma each_value_map {A} (f : pyval → Exc A) (g : A → pyval) (d : dict A) :
  (∀ a, f (g a) = Some a) → each_value f (VDict (map (λ kv, (kv.1, g kv.2)) d)) = Some d.
Proof.
  intros H. unfold each_value. cbn. induction d as [|[k a] d IH]; [done|]. cbn. by rewrite H, IH.
Qed.

(** A recorded snapshot is read back as it was taken. *)
Theorem snapshot_roundtrip s : from_dict (VDict (to_dict s)) = Some s.
Proof.
  destruct s as [c n p e]. unfold from_dict, to_dict. cbn -[each_value pod_to_dict endpoint_to_dict].
  rewrite (each_value_map _ (λ a, VDict (pod_to_dict a)) p pod_roundtrip). cbn -[each_value endpoint_to_dict].
  by rewrite (each_value_map _ (λ a, VDict (endpoint_to_dict a)) e endpoint_roundtrip).
Qed.

(** ** Nothing changed, nothing reported *)

(** Nothing found, or the detector raised. *)
Definition quiet {A} (x : Exc (list A)) : Prop := default [] x = [].

Lemma quiet_concat {A B} (step : A → Exc (list B)) l :
  (∀ x, x ∈ l → quiet (step x)) → quiet (l ← mapM step l; Some (concat l)).
Proof.
  unfold quiet. induction l as [|x l IH]; intros H; [done|]. cbn [mapM].
  assert (Hx := H x (list_elem_of_here _ _)). destruct (step x) as [y|]; [|done]. cbn in Hx. subst y.
  specialize (IH (λ z Hz, H z (list_elem_of_further _ _ _ Hz))). cbn. destruct (mapM step l) as [r|]; [|done].
  exact IH.
Qed.

Lemma quiet_reports {A} (step : A → Exc (option (dict pyval))) l :
  (∀ x, x ∈ l → default None (step x) = None) → quiet (reports step l).
Proof.
  unfold quiet, reports. induction l as [|x l IH]; intros H; [done|]. cbn [mapM].
  assert (Hx := H x (list_elem_of_here _ _)). destruct (step x) as [y|]; [|done]. cbn in Hx. subst y.
  specialize (IH (λ z Hz, H z (list_elem_of_further _ _ _ Hz))). cbn. destruct (mapM step l) as [r|]; [|done].
  exact IH.
Qed.

(** What [collect] holds of an item. *)
Lemma collect_other {A} parse (key : A → string) acc items d k :
  collect parse key acc items = Some d → (∀ i a, i ∈ items → parse i = Some (Some a) → key a ≠ k) →
  dict_get k d = dict_get k acc.
Proof.
  revert acc. induction items as [|i items IH]; intros acc; [by intros [= ->]|].
  intros (a & Ha & H)%bind_Some Hk.
  rewrite (IH _ H) by (intros j b Hj; apply Hk; by right). destruct a as [a|]; [|done].
  apply dict_get_set_ne. intros ->. by apply (Hk i a (list_elem_of_here _ _) Ha).
Qed.

(** The keys of the items are those of different items only once. *)
Definition distinct {A} (parse : pyval → Exc (option A)) (key : A → string) (items : list pyval) : Prop :=
  ∀ i j l1 l2 l3 a b, items = l1 ++ i :: l2 ++ j :: l3 → parse i = Some (Some a) → parse j = Some (Some b) → key a ≠ key b.

Lemma collect_get {A} parse (key : A → string) acc items d i a :
  collect parse key acc items = Some d → distinct parse key items → i ∈ items → parse i = Some (Some a) →
  dict_get (key a) d = Some a.
Proof.
  revert acc. induction items as [|x items IH]; intros acc; [by intros _ _ ?%elem_of_nil|].
  intros (y & Hy & H)%bind_Some Hd Hin Ha.
  assert (Hd' : distinct parse key items).
  { intros i' j' l1 l2 l3 a' b' ->. apply (Hd i' j' (x :: l1) l2 l3). done. }
  apply elem_of_cons in Hin as [->|Hin]; [|by eapply IH].
  rewrite Ha in Hy. injection Hy as <-. erewrite collect_other; [by rewrite dict_get_set, String.eqb_refl | exact H|].
  intros j b Hj Hb E. apply list_elem_of_split in Hj as (l2 & l3 & ->).
  by apply (Hd x j [] l2 l3 a b eq_refl Ha Hb).
Qed.

(** What a pod keeps of its containers. *)
Definition c_name (c : string * pyval * bool * bool) : string := c.1.1.1.

Lemma fold_fixed cs p :
  ps_name (fold_left add_container cs p) = ps_name p ∧ ps_evicted (fold_left add_container cs p) = ps_evicted p.
Proof. revert p. induction cs as [|[[[n c] o] k] cs IH]; intros p; [done|]. cbn [fold_left]. by destruct (IH (add_container p (n, c, o, k))) as [-> ->]. Qed.

Lemma fold_count_other cs p n :
  n ∉ map c_name cs → dict_get n (ps_restart_counts (fold_left add_container cs p)) = dict_get n (ps_restart_counts p).
Proof.
  revert p. induction cs as [|[[[m c] o] k] cs IH]; intros p Hn; [done|]. cbn [fold_left map c_name fst] in *.
  apply not_elem_of_cons in Hn as [Hm Hn]. rewrite IH by done. cbn. by apply dict_get_set_ne.
Qed.

Lemma fold_count cs p c :
  c ∈ cs → NoDup (map c_name cs) →
  dict_get (c_name c) (ps_restart_counts (fold_left add_container cs p)) = Some c.1.1.2.
Proof.
  revert p. induction cs as [|[[[m v] o] k] cs IH]; intros p; [by intros ?%elem_of_nil|].
  cbn [fold_left map c_name fst snd]. intros [->|Hin]%elem_of_cons [Hn Hd]%NoDup_cons; [|by apply IH].
  rewrite fold_count_other by done. cbn. by rewrite dict_get_set, String.eqb_refl.
Qed.

Lemma add_once_in x l : x ∈ add_once x l.
Proof. unfold add_once. destruct (x ∈? l) eqn:E; [by apply str_in_spec | set_solver]. Qed.

Lemma add_once_keep x y l : y ∈ l → y ∈ add_once x l.
Proof. unfold add_once. case_if; set_solver. Qed.

Lemma fold_crash_keep cs p n : n ∈ ps_crash_loop p → n ∈ ps_crash_loop (fold_left add_container cs p).
Proof.
  revert p. induction cs as [|[[[m v] o] k] cs IH]; intros p Hn; [done|]. cbn [fold_left]. apply IH. cbn.
  destruct k; [by apply add_once_keep | done].
Qed.

Lemma fold_crash cs p c : c ∈ cs → c.2 = true → c_name c ∈ ps_crash_loop (fold_left add_container cs p).
Proof.
  revert p. induction cs as [|[[[m v] o] k] cs IH]; intros p; [by intros ?%elem_of_nil|].
  intros [->|Hin]%elem_of_cons Hc; [|by apply IH]. cbn in Hc. subst k. cbn [fold_left c_name fst].
  apply fold_crash_keep. cbn. apply add_once_in.
Qed.

Lemma collect_parsed {A} parse (key : A → string) acc items d i :
  collect parse key acc items = Some d → i ∈ items → ∃ r, parse i = Some r.
Proof.
  revert acc. induction items as [|x items IH]; intros acc; [by intros _ ?%elem_of_nil|].
  intros (y & Hy & H)%bind_Some [->|Hin]%elem_of_cons; eauto.
Qed.

Lemma read_container_name cs c :
  read_container cs = Some c →
  (n ← vget_d "name" (VStr "") cs; as_str n) = Some (c_name c) ∧ vget_d "restartCount" (VInt 0) cs = Some c.1.1.2 ∧
  c.2 = match (w ← container_state "state" "waiting" cs; vget "reason" w) with Some r => eqs r "CrashLoopBackOff" | None => false end.
Proof.
  unfold read_container. intros (n & Hn & H)%bind_Some. apply bind_Some in H as (m & Hm & H).
  apply bind_Some in H as (k & Hk & H). apply bind_Some in H as (t & _ & H). apply bind_Some in H as (r & _ & H).
  apply bind_Some in H as (w & Hw & H). apply bind_Some in H as (y & Hy & [= <-]).
  rewrite Hn, Hk, Hw. cbn. by rewrite Hm, Hy.
Qed.

Lemma container_read l cs x : mapM read_container l = Some cs → x ∈ l → ∃ c, c ∈ cs ∧ read_container x = Some c.
Proof.
  revert cs. induction l as [|y l IH]; intros cs; [by intros _ ?%elem_of_nil|]. cbn [mapM].
  intros (c & Hc & H)%bind_Some. apply bind_Some in H as (r & Hr & [= <-]).
  intros [->|Hin]%elem_of_cons; [by exists c; split; [left|]|].
  destruct (IH _ Hr Hin) as (c' & ? & ?). exists c'. split; [by right | done].
Qed.

Lemma collect_wf {A} parse (key : A → string) acc items d :
  collect parse key acc items = Some d → dict_wf acc → dict_wf d.
Proof.
  revert acc. induction items as [|i items IH]; intros acc; [by intros [= ->]|].
  intros (a & _ & H)%bind_Some Hw. apply (IH _ H). destruct a; [by apply dict_set_wf | done].
Qed.

Lemma dict_get_map {A B} (f : A → B) k (d : dict A) :
  dict_get k (map (λ kv, (kv.1, f kv.2)) d) = f <$> dict_get k d.
Proof. induction d as [|[k' a] d IH]; [done|]. cbn. by destruct (String.eqb k k'). Qed.

Lemma omap_nil {A B} (f : A → option B) l : (∀ x, x ∈ l → f x = None) → omap f l = [].
Proof.
  induction l as [|x l IH]; intros H; [done|]. cbn. rewrite (H x) by left. apply IH. intros. apply H. by right.
Qed.

(** A key whose detectors are quiet has no entry. *)
Lemma detectors_get k l :
  (∀ d, d ∈ l → d.1 = k → quiet d.2) → dict_get k (concat (map detector_entry l)) = None.
Proof.
  induction l as [|[n x] l IH]; intros H; [done|]. cbn [map concat]. rewrite dict_get_app, IH by (intros; apply H; [by right | done]).
  specialize (H (n, x) (list_elem_of_here _ _)). unfold detector_entry, quiet in *. cbn [fst snd] in *.
  destruct x as [[|r rs]|]; [done| |done]. cbn. destruct (String.eqb k n) eqn:E; [|done].
  apply String.eqb_eq in E. by specialize (H (eq_sym E)).
Qed.

Section unchanged.
Context (fromisoformat : string → option (bool * Z)) (namespace : string) (captured : pyval) (ctx : DetectionContext).
Context (vp ve events : pyval) (logs : string) (time : pyval) (ps es : list pyval).
Context (pods : dict PodSnapshot) (endpoints : dict EndpointSnapshot).
Hypothesis pods_items : items_of vp = Some ps.
Hypothesis pods_taken : collect (λ i, _parse_pod_snapshot i namespace) ps_name [] ps = Some pods.
Hypothesis endpoints_items : items_of ve = Some es.
Hypothesis endpoints_taken : collect _parse_endpoint_snapshot es_service [] es = Some endpoints.
Hypothesis pods_distinct : distinct (λ i, _parse_pod_snapshot i namespace) ps_name ps.
Hypothesis containers_distinct : ∀ i l cs, i ∈ ps → containers_of i = Some l → mapM read_container l = Some cs →
  NoDup (map c_name cs).

Hypothesis pods_named : ∀ i, i ∈ ps → ∃ name, item_name i = Some name ∧ py_truthy name = true.

Local Abbreviation before := (Some (mkSnapshot captured (VStr namespace) pods endpoints)).
Local Abbreviation after := (mkAfter vp events ve logs time).

(** A named pod is on record with its containers. *)
Lemma pod_on_record i name :
  i ∈ ps → item_name i = Some name → py_truthy name = true →
  ∃ p st l cs base, pod_before before name = Some p ∧ item_status i = Some st ∧ is_evicted st = Some (ps_evicted p) ∧
    containers_of i = Some l ∧ mapM read_container l = Some cs ∧ p = fold_left add_container cs base.
Proof using pods_taken pods_distinct.
  intros Hi Hn Ht. destruct (collect_parsed _ _ _ _ _ _ pods_taken Hi) as [r Hr].
  pose proof Hr as Hr'. unfold _parse_pod_snapshot in Hr. rewrite Hn in Hr. cbn [mbind option_bind] in Hr.
  rewrite Ht in Hr. cbn [negb] in Hr. apply bind_Some in Hr as (n & Hname & Hr).
  apply bind_Some in Hr as (st & Hst & Hr). apply bind_Some in Hr as (ph & _ & Hr).
  apply bind_Some in Hr as (ev & Hev & Hr). apply bind_Some in Hr as (l & Hl & Hr).
  apply bind_Some in Hr as (cs & Hcs & [= <-]).
  pose proof (collect_get _ _ _ _ _ _ _ pods_taken pods_distinct Hi Hr') as Hg.
  set (base := mkPod n (VStr namespace) ph [] [] [] ev) in *.
  destruct (fold_fixed cs base) as [En Ee]. rewrite En in Hg. destruct name; try discriminate. injection Hname as ->.
  exists (fold_left add_container cs base), st, l, cs, base. rewrite Ee. split; [exact Hg|]. done.
Qed.

(** A container of it, as the detectors look it up. *)
Lemma container_on_record i name l x cname current :
  i ∈ ps → item_name i = Some name → py_truthy name = true → containers_of i = Some l → x ∈ l →
  (n ← vget_d "name" (VStr "") x; as_str n) = Some cname → vget_d "restartCount" (VInt 0) x = Some current →
  baseline_count before name cname = as_int current ∧
  ∃ p, pod_before before name = Some p ∧
    ((w ← container_state "state" "waiting" x; vget "reason" w) = Some (VStr "CrashLoopBackOff") → cname ∈ ps_crash_loop p).
Proof using pods_taken pods_distinct containers_distinct.
  intros Hi Hn Ht Hl Hx Hc Hv. destruct (pod_on_record i name Hi Hn Ht) as (p & st & l' & cs & base & Hp & _ & _ & Hl' & Hcs & ->).
  rewrite Hl in Hl'. injection Hl' as <-. pose proof (containers_distinct i l cs Hi Hl Hcs) as Hnd.
  destruct (container_read _ _ _ Hcs Hx) as (c & Hin & Hc').
  apply read_container_name in Hc' as (Hname & Hcount & Hloop). rewrite Hname in Hc. injection Hc as <-.
  rewrite Hcount in Hv. injection Hv as <-. split.
  - unfold baseline_count. rewrite Hp. unfold get_d. by rewrite (fold_count _ _ _ Hin Hnd).
  - eexists. split; [exact Hp|]. intros Hw. rewrite Hw in Hloop. by apply fold_crash.
Qed.

Lemma quiet_containers step :
  (∀ i name l x, i ∈ ps → item_name i = Some name → py_truthy name = true → containers_of i = Some l → x ∈ l →
     default None (step name x) = None) →
  quiet (over_containers after (λ _, false) step).
Proof using pods_items.
  intros H. unfold over_containers, over_pods. cbn [pi_pods]. rewrite pods_items. cbn [mbind option_bind].
  apply quiet_concat. intros i Hi. destruct (item_name i) as [name|] eqn:Hn; [|done]. cbn [mbind option_bind].
  rewrite orb_false_r. destruct (py_truthy name) eqn:Ht; [|done]. cbn [negb].
  destruct (containers_of i) as [l|] eqn:Hl; [|done]. cbn [mbind option_bind]. apply quiet_reports. eauto.
Qed.

Lemma quiet_restarts : quiet (ContainerRestartDetector fromisoformat before after ctx).
Proof using pods_items pods_taken pods_distinct containers_distinct.
  apply quiet_containers. intros i name l x Hi Hn Ht Hl Hx. unfold restart_step.
  destruct (vget_d "name" (VStr "") x) as [n|] eqn:En; [|done]. cbn [mbind option_bind].
  destruct (as_str n) as [cname|] eqn:Ec; [|done]. cbn [mbind option_bind].
  destruct (vget_d "restartCount" (VInt 0) x) as [v|] eqn:Ev; [|done]. cbn [mbind option_bind].
  destruct (container_on_record i name l x cname v Hi Hn Ht Hl Hx) as [-> _]; [by rewrite En | done|].
  destruct (as_int v) as [z|]; [|done]. cbn. by rewrite Z.sub_diag.
Qed.

Lemma quiet_crashes : quiet (CrashLoopDetector before after).
Proof using pods_items pods_taken pods_distinct containers_distinct.
  apply quiet_containers. intros i name l x Hi Hn Ht Hl Hx. unfold crash_step.
  destruct (vget_d "name" (VStr "") x) as [n|] eqn:En; [|done]. cbn [mbind option_bind].
  destruct (as_str n) as [cname|] eqn:Ec; [|done]. cbn [mbind option_bind].
  destruct (container_state "state" "waiting" x) as [w|] eqn:Ew; [|done]. cbn [mbind option_bind].
  destruct (vget "reason" w) as [r|] eqn:Er; [|done]. cbn [mbind option_bind].
  destruct (eqs r "CrashLoopBackOff") eqn:Eq; [|done]. destruct (vget_d "restartCount" (VInt 0) x) as [v|] eqn:Ev; [|by case_if].
  destruct (container_on_record i name l x cname v Hi Hn Ht Hl Hx) as (_ & p & -> & Hp); [by rewrite En | done|].
  rewrite Ew in Hp. cbn [mbind option_bind] in Hp. rewrite Er in Hp.
  destruct r; try discriminate. apply String.eqb_eq in Eq. subst. specialize (Hp eq_refl).
  apply str_in_spec in Hp. by rewrite Hp.
Qed.

Lemma quiet_evictions : quiet (EvictedPodDetector before after).
Proof using pods_items pods_taken pods_distinct pods_named.
  unfold EvictedPodDetector, over_pods. cbn [pi_pods]. rewrite pods_items. cbn [mbind option_bind].
  apply quiet_concat. intros i Hi. destruct (pods_named i Hi) as (name & Hn & Ht). unfold evicted_step. rewrite Hn.
  destruct (pod_on_record i name Hi Hn Ht) as (p & st & l & cs & base & Hp & Hst & He & _). cbn [mbind option_bind].
  rewrite Hst. cbn [mbind option_bind]. rewrite He. cbn [mbind option_bind]. rewrite Hp. by destruct (ps_evicted p).
Qed.

Lemma quiet_endpoints : quiet (EndpointRemovalDetector before after).
Proof using endpoints_items endpoints_taken.
  unfold EndpointRemovalDetector, current_endpoints. cbn [pi_endpoints]. rewrite endpoints_items.
  cbn [mbind option_bind]. rewrite endpoints_taken. cbn. unfold quiet. cbn.
  assert (Hw : dict_wf endpoints) by (eapply collect_wf; [exact endpoints_taken | apply NoDup_nil_2]).
  apply omap_nil. intros [k e] Hin. unfold lost_endpoint. cbn [fst snd]. rewrite dict_get_map.
  rewrite (dict_wf_get _ _ _ Hw Hin). cbn. by rewrite Z.ltb_irrefl, orb_true_r.
Qed.

(** When the namespace reads as it did for the snapshot, no restart, eviction, crash loop
    or endpoint removal is reported, whatever the events, the logs and the times. *)
Theorem quiet_namespace k :
  k ∈ ["container_restarts"; "evicted_pods"; "crash_loop_pods"; "endpoint_removals"] →
  dict_get k (run_all_detectors fromisoformat before after ctx) = None.
Proof using All.
  intros Hk. apply detectors_get. intros d Hd <-.
  pose proof quiet_restarts. pose proof quiet_crashes. pose proof quiet_evictions. pose proof quiet_endpoints.
  unfold _DETECTORS in Hd. repeat (apply elem_of_cons in Hd as [->|Hd]; [try done; cbn in Hk; set_solver|]).
  by apply elem_of_nil in Hd.
Qed.
End unchanged.

(** Two containers, one of which restarted twice and waits in a crash loop. *)
Definition web_pod : pyval := VDict
  [("metadata", VDict [("name", VStr "web-0")]);
   ("status", VDict [("phase", VStr "Running"); ("containerStatuses", VList
     [VDict [("name", VStr "app"); ("restartCount", VInt 2);
             ("state", VDict [("waiting", VDict [("reason", VStr "CrashLoopBackOff")])])];
      VDict [("name", VStr "proxy"); ("restartCount", VInt 0)]])])].

Definition web_pods : pyval := VDict [("items", VList [web_pod])].

Definition web_endpoints : pyval := VDict
  [("items", VList [VDict [("metadata", VDict [("name", VStr "web")]);
     ("subsets", VList [VDict [("addresses", VList [VDict []; VDict []])]])]])].

Definition taken {A} (x : Exc (dict A)) : dict A := default [] x.

Definition web_taken : dict PodSnapshot := taken (collect (λ i, _parse_pod_snapshot i "shop") ps_name [] [web_pod]).

Definition web_counts : dict EndpointSnapshot :=
  taken (items ← items_of web_endpoints; collect _parse_endpoint_snapshot es_service [] items).

Lemma quiet_namespace_witness :
  dict_get "crash_loop_pods"
    (run_all_detectors (λ _, None) (Some (mkSnapshot VNone (VStr "shop") web_taken web_counts))
       (mkAfter web_pods VNone web_endpoints "" VNone) (mkDetection [] (VStr "2024-01-01T00:00:00Z"))) = None.
Proof.
  apply quiet_namespace with (ps := [web_pod]) (es := default [] (items_of web_endpoints)).
  - reflexivity.
  - vm_compute. reflexivity.
  - vm_compute. reflexivity.
  - vm_compute. reflexivity.
  - intros i j l1 l2 l3 a b H. destruct l1 as [|? [|? ?]]; try discriminate. injection H as H1 H. by destruct l2.
  - intros i l cs [->|H]%elem_of_cons; [|by apply elem_of_nil in H]. vm_compute. intros [= <-]. intros [= <-].
    apply (bool_decide_unpack (NoDup ["app"; "proxy"])). vm_compute. exact I.
  - intros i [->|H]%elem_of_cons; [|by apply elem_of_nil in H]. by exists (VStr "web-0").
  - right; right; left.
Defined.

(** A restart since the snapshot is reported with the number of restarts. *)
Example restart_reported :
  (λ l, map (dict_get "restart_delta") l) <$>
    ContainerRestartDetector (λ _, None) None (mkAfter web_pods VNone web_endpoints "" VNone) (mkDetection [] VNone)
  = Some [Some (VInt 2)].
Proof. vm_compute. reflexivity. Qed.

(** A path with a blank is torn by the split of the joined arguments. *)
Theorem kubeconfig_torn cfg :
  t_kubectl_path cfg = "kubectl" → t_kubeconfig_path cfg = "" → t_kube_context cfg = "" →
  se_command cfg "/etc/my cluster/config" ["get"] = ["kubectl"; "--kubeconfig"; "/etc/my"; "cluster/config"; "get"].
Proof. unfold se_command, _build_kubectl_global_args. intros -> -> ->. vm_compute. reflexivity. Qed.
