(* ===== verification/JsonDump.v ===== *)
(** * [json.dumps]

    The encoder of the Python standard library with [ensure_ascii=False] and
    the default separators, as the stores and the prompts use it, and its
    round trip with the decoder of [Json]. *)

From stdpp Require Import base list sets strings pretty.
From Stdlib Require Import ZArith Ascii.
From S2P Require Import Prelude PyValue PyFloat Json.

(** ** The encoder *)

Definition hex_char (n : nat) : ascii := hex_digit n.

Definition escape_char (c : ascii) : string :=
  let n := nat_of_ascii c in
  if Ascii.eqb c "034" then String "\" (chr "034")
  else if Ascii.eqb c "\" then String "\" (chr "\")
  else if Ascii.eqb c "010" then "\n"
  else if Ascii.eqb c "013" then "\r"
  else if Ascii.eqb c "009" then "\t"
  else if Ascii.eqb c "012" then "\f"
  else if Ascii.eqb c "008" then "\b"
  else if Nat.ltb n 32 then "\u00" +:+ String (hex_char (n / 16)) (chr (hex_char (n mod 16)))
  else chr c.

Fixpoint escape (s : string) : string :=
  match s with
  | EmptyString => EmptyString
  | String c s' => escape_char c +:+ escape s'
  end.

Definition dump_str (s : string) : string := dquote +:+ escape s +:+ dquote.

Definition dump_float (r : string) : string :=
  if String.eqb r "nan" then "NaN"
  else if String.eqb r "inf" then "Infinity"
  else if String.eqb r "-inf" then "-Infinity"
  else r.

Fixpoint json_dumps (v : pyval) : string :=
  match v with
  | VNone => "null"
  | VBool true => "true"
  | VBool false => "false"
  | VInt z => str_of_Z z
  | VFloat r => dump_float r
  | VStr s => dump_str s
  | VList l | VTuple l => "[" +:+ join ", " (map json_dumps l) +:+ "]"
  | VDict d => "{" +:+ join ", " (map (λ kv, dump_str kv.1 +:+ ": " +:+ json_dumps kv.2) d) +:+ "}"
  end.

Example dumped :
  json_dumps (VDict [("a", VList [VInt (-12); VBool true; VNone]); ("b", VStr (String "010" (String "001" "é")))]) =
  "{" +:+ dump_str "a" +:+ ": [-12, true, null], " +:+ dump_str "b" +:+ ": " +:+ dquote +:+ "\n\u0001é" +:+ dquote +:+ "}".
Proof. vm_compute. reflexivity. Qed.

(** ** Induction on values *)

Section pyval_ind.
Context (P : pyval → Prop).
Hypothesis scalar : ∀ v, match v with VList _ | VTuple _ | VDict _ => True | _ => P v end.
Hypothesis list_case : ∀ l, Forall P l → P (VList l).
Hypothesis tuple_case : ∀ l, Forall P l → P (VTuple l).
Hypothesis dict_case : ∀ d, Forall (λ kv, P kv.2) d → P (VDict d).

Fixpoint pyval_nested (v : pyval) : P v :=
  let fix go (l : list pyval) : Forall P l :=
    match l with [] => Forall_nil_2 P | x :: l' => Forall_cons_2 P x l' (pyval_nested x) (go l') end in
  match v return P v with
  | VNone => scalar VNone
  | VBool b => scalar (VBool b)
  | VInt z => scalar (VInt z)
  | VFloat r => scalar (VFloat r)
  | VStr s => scalar (VStr s)
  | VList l => list_case l (go l)
  | VTuple l => tuple_case l (go l)
  | VDict d => dict_case d
      ((fix god (d : list (string * pyval)) : Forall (λ kv, P kv.2) d :=
          match d with
          | [] => Forall_nil_2 _
          | kv :: d' => Forall_cons_2 (λ kv, P kv.2) kv d' (pyval_nested kv.2) (god d')
          end) d)
  end.
End pyval_ind.

(** ** What is read back

    Tuples come back as lists; floats are those in the form [repr] gives
    them, integers short enough for the interpreter to read. *)

Definition delimiter (c : ascii) : bool := json_space c || json_punct c || Ascii.eqb c "034".

Fixpoint plain (s : string) : bool :=
  match s with EmptyString => true | String c s' => negb (delimiter c) && plain s' end.

Definition plain_word (s : string) : bool := truthy s && plain s.

Inductive jsonable : pyval → Prop :=
  | j_none : jsonable VNone
  | j_bool b : jsonable (VBool b)
  | j_int z : (String.length (str_of_Z (Z.abs z)) ≤ MAX_STR_DIGITS)%nat → jsonable (VInt z)
  | j_float r : plain_word (dump_float r) = true → json_word (dump_float r) = JOk (VFloat r) → jsonable (VFloat r)
  | j_str s : jsonable (VStr s)
  | j_list l : Forall jsonable l → jsonable (VList l)
  | j_dict d : dict_wf d → Forall (λ kv, jsonable kv.2) d → jsonable (VDict d).

(** *** Integers *)

Definition digit (c : ascii) : Prop := is_digit c = true.

Fixpoint all_digits (s : string) : Prop :=
  match s with EmptyString => True | String c s' => digit c ∧ all_digits s' end.

Lemma pretty_char x : (x < 10)%N → digit (pretty_N_char x) ∧ digit_val (pretty_N_char x) = Z.of_N x.
Proof.
  intros H. assert (Hx : (x = 0 ∨ x = 1 ∨ x = 2 ∨ x = 3 ∨ x = 4 ∨ x = 5 ∨ x = 6 ∨ x = 7 ∨ x = 8 ∨ x = 9)%N) by lia.
  by repeat destruct Hx as [->|Hx]; [..|subst].
Qed.

Lemma pretty_go x s :
  all_digits s → ∃ p, pretty_N_go x s = p +:+ s ∧ all_digits p ∧ (∀ a, digits_val a (p +:+ s) = digits_val (a * 10 ^ Z.of_nat (String.length p) + Z.of_N x) s) ∧
    ((0 < x)%N → ∃ c p', p = String c p' ∧ c ≠ "0"%char).
Proof.
  revert s. induction (N.lt_wf_0 x) as [x _ IH]; intros s Hs.
  destruct (decide (x = 0)%N) as [->|Hx].
  { exists "". split; [done|]. split; [done|]. split; [|lia]. intros a. cbn [String.append String.length]. f_equal. cbn. lia. }
  rewrite pretty_N_go_step by lia. destruct (pretty_char (x `mod` 10)) as [Hd Hv]; [by apply N.mod_lt|].
  destruct (IH (x `div` 10)%N ltac:(apply N.div_lt; lia) (String (pretty_N_char (x `mod` 10)) s)) as (p & Hp & Ha & Hval & Hhead); [by split|].
  exists (p +:+ String (pretty_N_char (x `mod` 10)) ""). rewrite Hp, append_assoc. cbn [String.append]. split; [done|].
  split; [|split].
  - clear -Ha Hd. induction p as [|c p IHp]; [done|]. destruct Ha. split; [done | by apply IHp].
  - intros a. rewrite Hval. cbn [digits_val]. rewrite Hv. f_equal.
    assert (Hl : String.length (p +:+ String (pretty_N_char (x `mod` 10)) "") = S (String.length p)).
    { clear. induction p as [|c p IHp]; [done|]. cbn. by rewrite IHp. }
    rewrite Hl, Nat2Z.inj_succ, Z.pow_succ_r by lia. rewrite N2Z.inj_div, N2Z.inj_mod.
    change (Z.of_N 10) with 10%Z. pose proof (Z.div_mod (Z.of_N x) 10 ltac:(done)). lia.
  - intros _. destruct (decide (0 < x `div` 10)%N) as [H|H].
    + destruct (Hhead H) as (c & p' & -> & Hc). exists c, (p' +:+ String (pretty_N_char (x `mod` 10)) ""). done.
    + assert (Hlt : (x < 10)%N) by (apply N.div_small_iff; [done|]; by apply N.le_0_r, N.nlt_ge). rewrite N.div_small in Hp by done. rewrite pretty_N_go_0 in Hp.
      assert (p = "") as ->. { destruct p as [|c p]; [done|]. apply (f_equal String.length) in Hp. cbn in Hp. rewrite length_append in Hp. cbn in Hp. lia. }
      eexists _, "". split; [done|]. rewrite N.mod_small by done.
      assert (Hx' : (x = 1 ∨ x = 2 ∨ x = 3 ∨ x = 4 ∨ x = 5 ∨ x = 6 ∨ x = 7 ∨ x = 8 ∨ x = 9)%N) by lia. by repeat destruct Hx' as [->|Hx']; [..|subst].
Qed.

Lemma take_all_digits p : all_digits p → take_digits p = (p, "").
Proof. induction p as [|c p IH]; [done|]. intros [Hc Hp]. cbn. unfold digit in Hc. by rewrite Hc, IH. Qed.

(** A natural number in decimal: digits, with no zero in front. *)
Definition decimal (p : string) : Prop :=
  all_digits p ∧ ((∃ c p', p = String c p' ∧ c ≠ "0"%char) ∨ p = "0") ∧ (String.length p ≤ MAX_STR_DIGITS)%nat.

Lemma starts_other c d s : c ≠ d → startswith (String c s) (String d "") = false.
Proof. intros H. unfold startswith. cbn. destruct (ascii_dec d c); [congruence | done]. Qed.

Lemma decimal_number p : decimal p → json_number p = Some (p, false) ∧ json_number (String "-" p) = Some (p, false).
Proof.
  intros (Hd & Hh & _). assert (H0 : negb (truthy p) || (startswith p "0" && Nat.ltb 1 (String.length p)) = false).
  { destruct Hh as [(c & p' & -> & Hc)| -> ]; [|done]. by rewrite starts_other by done. }
  assert (Hn : match p with String "-" r => r | _ => p end = p).
  { destruct p as [|c p]; [done|]. destruct Hd as [Hc _]. by destruct c as [[] [] [] [] [] [] [] []]. }
  unfold json_number. rewrite Hn, take_all_digits by done. by rewrite H0.
Qed.

Lemma decimal_words p : decimal p →
  json_word p = JOk (VInt (digits_val 0 p)) ∧ json_word (String "-" p) = JOk (VInt (- digits_val 0 p)).
Proof.
  intros Hp. destruct (decimal_number p Hp) as [H1 H2]. destruct Hp as (Hd & Hh & Hl).
  assert (Hc : ∃ c p', p = String c p' ∧ digit c) by (destruct Hh as [(c & p' & -> & _)| -> ]; destruct Hd; eauto).
  destruct Hc as (c & p' & -> & Hc). apply Nat.leb_le in Hl.
  assert (Hne : ∀ w, match w with String d _ => is_digit d = false | EmptyString => True end → String.eqb (String c p') w = false).
  { intros [|d w] Hw; [done|]. apply String.eqb_neq. intros [= -> _]. unfold digit in Hc. congruence. }
  split; unfold json_word.
  - rewrite !Hne by done. rewrite H1, Hl. assert (Hs : startswith (String c p') "-" = false).
    { apply starts_other. intros ->. by unfold digit in Hc. }
    by rewrite Hs.
  - assert (Hi : String.eqb (String "-" (String c p')) "-Infinity" = false).
    { apply String.eqb_neq. intros [= -> _]. by unfold digit in Hc. }
    rewrite Hi. cbn [String.eqb Ascii.eqb Bool.eqb]. by rewrite H2, Hl.
Qed.

Lemma pretty_decimal x : (String.length (pretty x) ≤ MAX_STR_DIGITS)%nat → decimal (pretty (x : N)) ∧ digits_val 0 (pretty x) = Z.of_N x.
Proof.
  unfold pretty, pretty_N. case_decide as Hx; [subst; intros _; split; [|done]; split_and!; [done | by right|]|].
  { apply Nat.leb_le. vm_compute. done. }
  intros Hl. destruct (pretty_go x "" I) as (p & Hp & Ha & Hv & Hh). rewrite append_empty_r in Hp. rewrite Hp in *.
  specialize (Hv 0%Z). rewrite append_empty_r in Hv. cbn in Hv. split; [|by rewrite Hv].
  split_and!; [done | left; apply Hh; lia | done].
Qed.

Lemma int_word z : jsonable (VInt z) → json_word (str_of_Z z) = JOk (VInt z).
Proof.
  intros H. inversion H as [| |? Hl| | | |]; subst. destruct z as [|p|p]; [done|..]; cbn [Z.abs] in Hl.
  - destruct (pretty_decimal (Npos p) Hl) as [Hd Hv]. apply decimal_words in Hd as [Hw _].
    change (str_of_Z (Zpos p)) with (pretty (Npos p)). by rewrite Hw, Hv.
  - destruct (pretty_decimal (Npos p) Hl) as [Hd Hv]. apply decimal_words in Hd as [_ Hw].
    change (str_of_Z (Zneg p)) with (String "-" (pretty (Npos p))). by rewrite Hw, Hv.
Qed.

(** *** Texts *)

Lemma lex_escaped acc c s : lex (LStr acc None) (escape_char c +:+ s) = lex (LStr (acc +:+ chr c) None) s.
Proof. by destruct c as [[] [] [] [] [] [] [] []]. Qed.

Lemma lex_escape s acc rest :
  lex (LStr acc None) (escape s +:+ String "034" rest) = TStr (acc +:+ s) :: lex LIdle rest.
Proof.
  revert acc. induction s as [|c s IH]; intros acc; [by cbn|]. cbn [escape].
  by rewrite append_assoc, lex_escaped, IH, append_assoc.
Qed.

Lemma lex_str s rest : lex LIdle (dump_str s +:+ rest) = TStr s :: lex LIdle rest.
Proof.
  unfold dump_str. rewrite !append_assoc. exact (lex_escape s "" rest).
Qed.

(** *** Words *)

(** What follows a value in the output: nothing, or a separator. *)
Definition ended (rest : string) : Prop :=
  match rest with EmptyString => True | String c _ => delimiter c = true end.

Lemma lex_word_end w rest : ended rest → lex (LWord w) rest = TWord w :: lex LIdle rest.
Proof. destruct rest as [|c rest]; [done|]. intros H. cbn [lex]. unfold ended, delimiter in H. by rewrite H. Qed.

Lemma lex_word_go w acc rest :
  plain w = true → ended rest → lex (LWord acc) (w +:+ rest) = TWord (acc +:+ w) :: lex LIdle rest.
Proof.
  revert acc. induction w as [|c w IH]; intros acc Hp Hr.
  - rewrite append_empty_r. by apply lex_word_end.
  - cbn [plain] in Hp. apply andb_true_iff in Hp as [Hc Hp]. apply negb_true_iff in Hc. unfold delimiter in Hc.
    cbn [String.append lex]. rewrite Hc, IH by done. by rewrite append_assoc.
Qed.

Lemma lex_word w rest : plain_word w = true → ended rest → lex LIdle (w +:+ rest) = TWord w :: lex LIdle rest.
Proof.
  unfold plain_word. destruct w as [|c w]; [done|]. intros Hp Hr. cbn [truthy] in Hp.
  apply andb_true_iff in Hp as [_ Hp]. cbn [plain] in Hp. apply andb_true_iff in Hp as [Hc Hp].
  apply negb_true_iff in Hc. apply orb_false_iff in Hc as [Hc Hq]. apply orb_false_iff in Hc as [Hs Hpu].
  cbn [String.append lex]. rewrite Hs, Hpu, Hq. by rewrite lex_word_go.
Qed.

Lemma digits_plain p : all_digits p → plain p = true.
Proof.
  induction p as [|c p IH]; [done|]. intros [Hc Hp]. cbn [plain]. rewrite IH by done. unfold digit in Hc.
  by destruct c as [[] [] [] [] [] [] [] []].
Qed.

Lemma decimal_plain p : decimal p → plain_word p = true ∧ plain_word (String "-" p) = true.
Proof.
  intros (Hd & Hh & _). apply digits_plain in Hd. unfold plain_word. cbn [plain]. rewrite Hd.
  by destruct Hh as [(c & p' & -> & _)| -> ].
Qed.

Lemma int_plain z : jsonable (VInt z) → plain_word (str_of_Z z) = true.
Proof.
  intros H. inversion H as [| |? Hl| | | |]; subst. destruct z as [|p|p]; [done|..]; cbn [Z.abs] in Hl;
    destruct (pretty_decimal (Npos p) Hl) as [Hd _]; apply decimal_plain in Hd as [H1 H2]; done.
Qed.

(** ** The tokens of a value *)

Fixpoint commas (l : list (list jtok)) : list jtok :=
  match l with
  | [] => []
  | [x] => x
  | x :: l' => x ++ TPunct "," :: commas l'
  end.

Fixpoint tokens (v : pyval) : list jtok :=
  match v with
  | VNone => [TWord "null"]
  | VBool b => [TWord (if b then "true" else "false")]
  | VInt z => [TWord (str_of_Z z)]
  | VFloat r => [TWord (dump_float r)]
  | VStr s => [TStr s]
  | VList l | VTuple l => TPunct "[" :: commas (map tokens l) ++ [TPunct "]"]
  | VDict d => TPunct "{" :: commas (map (λ kv, TStr kv.1 :: TPunct ":" :: tokens kv.2) d) ++ [TPunct "}"]
  end.

(** A separator of items: it ends what precedes it and is read as a comma. *)
Definition separates (sep : string) : Prop :=
  ∀ x, ended (sep +:+ x) ∧ lex LIdle (sep +:+ x) = TPunct "," :: lex LIdle x.

(** Texts that are lexed on their own, joined by commas. *)
Lemma lex_join {A} sep (f : A → string) (g : A → list jtok) l rest :
  separates sep →
  (∀ x rest, x ∈ l → ended rest → lex LIdle (f x +:+ rest) = g x ++ lex LIdle rest) → ended rest →
  lex LIdle (join sep (map f l) +:+ rest) = commas (map g l) ++ lex LIdle rest.
Proof.
  intros Hsep Hl Hr. induction l as [|x [|y l] IH]; [done|..].
  - apply Hl; [set_solver | done].
  - cbn [map join commas]. rewrite !append_assoc, Hl, <- app_assoc; [|set_solver | apply Hsep]. f_equal.
    rewrite (proj2 (Hsep _)). cbn [app]. f_equal. apply IH. intros z r Hz. apply Hl. set_solver.
Qed.

Lemma comma_separates : separates ", ".
Proof. by intros x. Qed.

Lemma lex_dumps v : jsonable v → ∀ rest, ended rest → lex LIdle (json_dumps v +:+ rest) = tokens v ++ lex LIdle rest.
Proof.
  revert v. apply (pyval_nested (λ v, jsonable v → ∀ rest, ended rest → _)); [intros v; destruct v as [|[]|z|r|s|l|l|d]; try done|intros l IH|intros l IH|intros d IH];
    intros Hj rest Hr.
  1-3: by apply lex_word.
  - cbn. by rewrite lex_word by auto using int_plain.
  - inversion Hj as [| | |? Hp Hw| | |]; subst. cbn. by rewrite lex_word.
  - apply lex_str.
  - inversion Hj as [| | | | |? Hl|]; subst. cbn [json_dumps tokens]. rewrite Forall_forall in IH, Hl.
    rewrite !append_assoc. change (lex LIdle ("[" +:+ ?x)) with (TPunct "[" :: lex LIdle x). cbn [app]. f_equal.
    rewrite (lex_join _ _ tokens); [by rewrite <- app_assoc | apply comma_separates | | done]. intros x r Hx ?. by apply IH; [|apply Hl|].
  - inversion Hj.
  - inversion Hj as [| | | | | |? _ Hl]; subst. cbn [json_dumps tokens]. rewrite Forall_forall in IH, Hl.
    rewrite !append_assoc. change (lex LIdle ("{" +:+ ?x)) with (TPunct "{" :: lex LIdle x). cbn [app]. f_equal.
    rewrite (lex_join _ _ (λ kv, TStr kv.1 :: TPunct ":" :: tokens kv.2)); [by rewrite <- app_assoc | apply comma_separates | | done].
    intros kv r Hx ?. rewrite !append_assoc, lex_str. cbn [app]. f_equal.
    change (lex LIdle (": " +:+ ?x)) with (TPunct ":" :: lex LIdle x). f_equal. by apply IH; [|apply (Hl kv)|].
Qed.

(** ** Parsing the tokens back *)

Definition resume (ms : jmode * list frame) : list jtok → json_result := parse ms.1 ms.2.

Lemma parse_word w v stack toks : json_word w = JOk v → parse PValue stack (TWord w :: toks) = resume (complete v stack) toks.
Proof. intros H. cbn [parse]. by rewrite H. Qed.

(** The first item of a list is read as any other. *)
Lemma parse_first v stack toks :
  parse PArrFirst stack (tokens v ++ toks) = parse PValue (FArr [] :: stack) (tokens v ++ toks).
Proof. by destruct v as [|[]| | | | | |]. Qed.

Definition parses (v : pyval) : Prop := ∀ stack toks, parse PValue stack (tokens v ++ toks) = resume (complete v stack) toks.

(** The rest of a list after [items] and the item [v]. *)
Lemma parse_items l : Forall parses l → ∀ v items stack toks, parses v →
  parse PValue (FArr items :: stack) (commas (tokens v :: map tokens l) ++ TPunct "]" :: toks) =
  resume (complete (VList (items ++ v :: l)) stack) toks.
Proof.
  induction 1 as [|w l Hw _ IH]; intros v items stack toks Hv; cbn [map].
  - cbn [commas]. by rewrite Hv.
  - change (commas (tokens v :: tokens w :: map tokens l)) with (tokens v ++ TPunct "," :: commas (tokens w :: map tokens l)).
    rewrite <- app_assoc, Hv. cbn [complete resume fst snd app parse]. rewrite IH by done. by rewrite <- app_assoc.
Qed.

Definition pair_tokens (kv : string * pyval) : list jtok := TStr kv.1 :: TPunct ":" :: tokens kv.2.

Lemma parse_pairs d : Forall (λ kv, parses kv.2) d → ∀ kv acc stack toks, parses kv.2 →
  parse (PKey acc) stack (commas (pair_tokens kv :: map pair_tokens d) ++ TPunct "}" :: toks) =
  resume (complete (VDict (dict_update acc (kv :: d))) stack) toks.
Proof.
  induction 1 as [|[k' w] d Hw _ IH]; intros [k v] acc stack toks Hv; cbn [map].
  - cbn [commas pair_tokens fst snd app parse]. by rewrite Hv.
  - change (commas (pair_tokens (k, v) :: pair_tokens (k', w) :: map pair_tokens d))
      with (pair_tokens (k, v) ++ TPunct "," :: commas (pair_tokens (k', w) :: map pair_tokens d)).
    rewrite <- app_assoc. cbn [pair_tokens fst snd app parse]. rewrite Hv. cbn [complete resume fst snd app parse].
    by rewrite IH.
Qed.

Lemma tokens_parse v : jsonable v → parses v.
Proof.
  revert v. apply (pyval_nested (λ v, jsonable v → parses v));
    [intros v; destruct v as [|[]|z|r|s|l|l|d]; try done|intros l IH|intros l IH|intros d IH]; intros Hj.
  - intros stack toks. by apply parse_word, int_word.
  - inversion Hj as [| | |? Hp Hw| | |]; subst. intros stack toks. by apply parse_word.
  - inversion Hj as [| | | | |? Hl|]; subst. assert (Hi : Forall parses l) by (decompose_Forall; auto).
    intros stack toks. destruct l as [|v l]; [done|]. apply Forall_cons in Hi as [Hv Hi].
    transitivity (parse PArrFirst stack (commas (tokens v :: map tokens l) ++ TPunct "]" :: toks)).
    { cbn [tokens map app]. by rewrite <- app_assoc. }
    transitivity (parse PValue (FArr [] :: stack) (commas (tokens v :: map tokens l) ++ TPunct "]" :: toks)).
    { destruct l as [|w l]; [apply parse_first|]. cbn [map commas]. rewrite <- app_assoc. apply parse_first. }
    by apply parse_items.
  - inversion Hj.
  - inversion Hj as [| | | | | |? Hwf Hl]; subst. assert (Hi : Forall (λ kv, parses kv.2) d) by (decompose_Forall; auto).
    intros stack toks. destruct d as [|kv d]; [done|]. apply Forall_cons in Hi as [Hv Hi].
    transitivity (parse (PKey []) stack (commas (pair_tokens kv :: map pair_tokens d) ++ TPunct "}" :: toks)).
    { cbn [tokens map app parse fst snd]. rewrite <- app_assoc. by destruct d. }
    rewrite parse_pairs by done. do 3 f_equal.
    exact (dict_update_fresh [] (kv :: d) Hwf ltac:(set_solver)).
Qed.

(** A value written by [json.dumps] is read back by [json.loads]. *)
Theorem json_roundtrip v : jsonable v → json_loads (json_dumps v) = JOk v.
Proof.
  intros Hj. unfold json_loads. rewrite <- (append_empty_r (json_dumps v)), (lex_dumps v Hj "" I).
  by rewrite (tokens_parse v Hj).
Qed.

Lemma json_roundtrip_witness :
  let v := VDict [("error", VStr (String "010" (String "034" "é"))); ("failed", VList [VDict [("code", VInt (-12))]; VFloat "0.5"; VNone])] in
  jsonable v ∧ json_loads (json_dumps v) = JOk v.
Proof.
  assert (Hj : jsonable (VDict [("error", VStr (String "010" (String "034" "é")));
    ("failed", VList [VDict [("code", VInt (-12))]; VFloat "0.5"; VNone])])).
  { repeat first [ apply Nat.leb_le; vm_compute; reflexivity | constructor | set_solver | vm_compute; reflexivity ]. }
  split; [exact Hj | exact (json_roundtrip _ Hj)].
Defined.
