(* ===== verification/ReactHelpers.v ===== *)
(** * Helpers of the reasoning loops
    (agent/nodes/react_helpers.py, _kubeconfig_inject.py, memory/hook.py)

    What the loops read off the conversation before they ask the language
    model again: the same call made over and over, one tool called in a row,
    errors of tools; the kubeconfig put into the calls of an answer; the
    updates of the memory hook merged into those of a node.  The messages of
    the hook that delete others are handled by the reducer of the graph state
    and are not among the messages here. *)

From stdpp Require Import base list strings sets sorting.
From Stdlib Require Import ZArith Ascii.
From S2P Require Import Prelude PyText PyRe PyValue PyOps Failure Screener Conflict InjectionDetection.

Record LoopSettings := mkLoop {
  loop_detection_window : Z;
  loop_detection_threshold : Z;
  stagnation_threshold : Z;
  idle_turn_threshold : Z }.

(** ** Fingerprints *)

Definition _FINGERPRINT_EXCLUDE_PARAMS : list string := ["kubeconfig"; "context"; "cluster"].

(** The keys of a dict are distinct, so sorting its items sorts by key. *)
Definition key_le (a b : string * pyval) : Prop := String.le a.1 b.1.

#[export] Instance key_le_dec a b : Decision (key_le a b) := decide (String.le a.1 b.1).

Definition _fingerprint_tool_call (name : string) (args : pyval) : Exc string :=
  d ← as_dict args;
  let core := List.filter (λ kv, negb (kv.1 ∈? _FINGERPRINT_EXCLUDE_PARAMS) && py_truthy kv.2) d in
  Some (name +:+ "(" +:+ join ", " (map (λ kv, kv.1 +:+ "=" +:+ py_str kv.2) (merge_sort key_le core)) +:+ ")").

(** ** The same call over and over *)

Section loops.
Context (cfg : LoopSettings).

(** [messages[-window:] if len(messages) > window else messages]. *)
Definition recent_messages (messages : list Message) : list Message :=
  let n := Z.of_nat (length messages) in
  let w := loop_detection_window cfg in
  if (w <? n)%Z then drop (Z.to_nat (if (0 <? w)%Z then n - w else - w)%Z) messages else messages.

(** What one scan collects: how often a fingerprint occurs, the identifiers
    of its calls, and the outputs by identifier. *)
Record Scan := mkScan {
  sc_counts : dict Z;
  sc_ids : dict (list string);
  sc_outputs : dict string }.

Definition scan_call (s : Scan) (tc : ToolCall) : Exc Scan :=
  if negb (truthy (tc_name tc)) then Some s
  else
    fp ← _fingerprint_tool_call (tc_name tc) (tc_args tc);
    let counts := dict_set fp (default 0 (dict_get fp (sc_counts s)) + 1)%Z (sc_counts s) in
    let i := default "" (tc_id tc) in
    Some (mkScan counts
            (if truthy i then dict_set fp (default [] (dict_get fp (sc_ids s)) ++ [i]) (sc_ids s) else sc_ids s)
            (sc_outputs s)).

Fixpoint scan_calls (s : Scan) (l : list ToolCall) : Exc Scan :=
  match l with
  | [] => Some s
  | tc :: l' => s ← scan_call s tc; scan_calls s l'
  end.

Fixpoint scan_messages (s : Scan) (l : list Message) : Exc Scan :=
  match l with
  | [] => Some s
  | ToolMessage content _ i _ :: l' =>
      scan_messages (if truthy i then mkScan (sc_counts s) (sc_ids s) (dict_set i content (sc_outputs s)) else s) l'
  | AIMessage _ _ calls :: l' => s ← scan_calls s calls; scan_messages s l'
  | _ :: l' => scan_messages s l'
  end.

Definition _compare_tool_outputs (fp : string) (s : Scan) : bool * bool :=
  let outputs := omap (λ i, (λ c, py_take 500 (strip c)) <$> dict_get i (sc_outputs s))
                   (default [] (dict_get fp (sc_ids s))) in
  match outputs with
  | first :: ((_ :: _) as rest) => (forallb (λ o, String.eqb o first) rest, true)
  | _ => (true, nonempty outputs)
  end.

Definition _is_observation_command (tool_name : string) (args : dict pyval) : bool :=
  (tool_name ∈? ["kubectl"; "kubectl_ro"]) &&
  one_of (get_d "subcommand" (VStr "") args) ["get"; "describe"; "top"; "exec"; "logs"; "debug"].

Definition suggest_verify_command (tool_name : string) : string :=
  if contains "blade" tool_name then
    "Run `blade <subcommand> -h` to check supported flags (via kubectl exec if host blade is unavailable)"
  else if contains "kubectl" tool_name then "Run `kubectl <subcommand> --help` to check supported flags"
  else "Check the actual interface of `" +:+ tool_name +:+
       "` — the error message itself is the best clue about what went wrong".

Definition _build_strategy_hints (tool_name : string) (subcommand : pyval) (args : dict pyval) : string :=
  if nonempty args && _is_observation_command tool_name args then
    join newline
      ["- Repeating the same observation command will NOT produce different results.";
       "- Check a DIFFERENT metric, partition, resource, or namespace.";
       "- Use a different kubectl subcommand (describe vs get vs exec vs top).";
       "- Check a different scope (pod vs node vs namespace vs cluster).";
       "- If the fault effect is not observable with current tools, conclude based on available evidence."]
  else if (tool_name ∈? ["kubectl"; "kubectl_ro"]) && eqs subcommand "get" then
    join newline
      ["- 使用 --field-selector 缩小范围（如 --field-selector spec.nodeName=<node>）";
       "- 使用 -o name 仅获取资源名称";
       "- 使用 -o jsonpath 提取特定字段";
       "- 指定资源名称查询单个资源"]
  else if String.eqb tool_name "execute_skill_script" then
    join newline
      ["- 检查脚本名称是否正确（使用 list_scripts 查看可用脚本）";
       "- 尝试使用其他可用脚本";
       "- 直接使用 kubectl 工具代替"]
  else if tool_name ∈? ["blade_create"; "blade_destroy"] then
    join newline
      ["- " +:+ suggest_verify_command tool_name;
       "- If a parameter was rejected, do NOT retry — remove it and verify";
       "- Runtime errors override documentation — trust the tool, not the docs";
       "- Use blade_query_k8s to check existing experiments";
       "- Simplify parameters — use only what the tool actually supports"]
  else
    join newline
      ["- 尝试换用其他工具或不同的参数组合";
       "- 如果结果已足够，直接给出结论";
       "- 如果需要更多信息，尝试不同角度的查询"].

(** The arguments of a call with this fingerprint; the search goes on while
    the call has no subcommand. *)
Fixpoint first_matching (tool_name fp : string) (l : list ToolCall) : Exc (option (dict pyval)) :=
  match l with
  | [] => Some None
  | tc :: l' =>
      if String.eqb (tc_name tc) tool_name then
        f ← _fingerprint_tool_call (tc_name tc) (tc_args tc);
        if String.eqb f fp then d ← as_dict (tc_args tc); Some (Some d) else first_matching tool_name fp l'
      else first_matching tool_name fp l'
  end.

Fixpoint matched_args (tool_name fp : string) (found : dict pyval) (l : list Message) : Exc (dict pyval) :=
  match l with
  | [] => Some found
  | m :: l' =>
      d ← first_matching tool_name fp (message_calls m);
      match d with
      | Some d => if py_truthy (py_get "subcommand" d) then Some d else matched_args tool_name fp d l'
      | None => matched_args tool_name fp found l'
      end
  end.

Definition loop_hint_text (fp : string) (have_outputs : bool) (hints : string) : string :=
  "**LOOP DETECTED**: 你已用相同参数调用 " +:+ fp +:+ " 超过 " +:+ str_of_Z (loop_detection_threshold cfg) +:+ " 次，" +:+
  "每次调用返回的结果" +:+ (if have_outputs then "基本一致" else "无法获取") +:+ "。" +:+
  "当前方法无效，必须换策略：" +:+ newline +:+ hints.

(** The second pass: the first fingerprint that is repeated without progress. *)
Definition is_stuck (s : Scan) (c : string * Z) : bool :=
  negb (c.2 <? loop_detection_threshold cfg)%Z &&
  (let '(identical, have) := _compare_tool_outputs c.1 s in negb (have && negb identical)).

Definition detect_repeated_tool_calls (messages : list Message) : Exc (option string) :=
  let recent := recent_messages messages in
  s ← scan_messages (mkScan [] [] []) recent;
  match List.find (is_stuck s) (sc_counts s) with
  | None => Some None
  | Some (fp, _) =>
      let tool_name := before "(" fp in
      args ← (if tool_name ∈? ["kubectl"; "kubectl_ro"] then matched_args tool_name fp [] recent else Some []);
      Some (Some (loop_hint_text fp (snd (_compare_tool_outputs fp s))
                    (_build_strategy_hints tool_name (py_get "subcommand" args) args)))
  end.

(** ** One tool in a row *)

(** kubectl is told apart by its subcommand. *)
Definition call_key (tc : ToolCall) : string :=
  let name := tc_name tc in
  if name ∈? ["kubectl"; "kubectl_ro"; "kubectl_verify"] then
    match tc_args tc with
    | VDict d => let sub := get_d "subcommand" (VStr "") d in
                 if py_truthy sub then name +:+ ":" +:+ py_str sub else name
    | _ => name
    end
  else name.

Fixpoint streak_of (tool : option string) (n : Z) (l : list Message) : option string * Z :=
  match l with
  | [] => (tool, n)
  | AIMessage _ _ [tc] :: l' =>
      if negb (truthy (tc_name tc)) then (tool, n)
      else
        let t := default (call_key tc) tool in
        if String.eqb (call_key tc) t then streak_of (Some t) (n + 1)%Z l' else (Some t, n)
  | AIMessage _ _ _ :: _ => (tool, n)
  | _ :: l' => streak_of tool n l'
  end.

Definition stagnation_text (tool : string) (streak : Z) : string :=
  if contains ":" tool then
    "**ACTION_STAGNATION**: You have called `" +:+ tool +:+ "` " +:+ str_of_Z streak +:+ " consecutive times " +:+
    "with no progress. Stop using this subcommand. " +:+
    "You can still use `" +:+ before ":" tool +:+ "` with other subcommands to proceed." +:+ newline +:+
    "Do NOT call `" +:+ tool +:+ "` again."
  else
    "**ACTION_STAGNATION**: You have called `" +:+ tool +:+ "` " +:+ str_of_Z streak +:+ " consecutive times " +:+
    "with no progress. This tool has been temporarily removed. " +:+
    "You MUST now either:" +:+ newline +:+
    "- Call `finish_planning` to finalize your plan and proceed to execution phase." +:+ newline +:+
    "- Use a DIFFERENT tool if you need additional information." +:+ newline +:+
    "Do NOT attempt to call `" +:+ tool +:+ "` again.".

Definition detect_action_stagnation (messages : list Message) (threshold : option Z) : option (string * string) :=
  let threshold := default (stagnation_threshold cfg) threshold in
  if (threshold <? 2)%Z then None
  else
    match streak_of None 0 (rev (recent_messages messages)) with
    | (Some tool, streak) =>
        if (threshold <=? streak)%Z && truthy tool then Some (stagnation_text tool streak, tool) else None
    | (None, _) => None
    end.
End loops.

(** ** Answers of the language model *)

Record Response := mkResponse {
  r_content : pyval;
  r_reasoning : pyval;
  r_calls : list ToolCall }.

Definition response_message (r : Response) : Message := AIMessage (r_content r) (r_reasoning r) (r_calls r).

Definition clip (n : nat) (s : string) : string := if Nat.ltb n (py_len s) then py_take n s +:+ "..." else s.

Definition shown_args (d : dict pyval) : string :=
  join ", " (omap (λ kv : string * pyval,
    let sv := py_str kv.2 in
    if truthy sv && negb (String.eqb sv "None") then Some (kv.1 +:+ "=" +:+ clip 50 sv) else None) d).

Definition summarize_llm_response (r : Response) : Exc (string * list string) :=
  tools ← mapM (λ tc, d ← as_dict (tc_args tc); Some ("  🔧 tool: " +:+ tc_name tc +:+ "(" +:+ shown_args d +:+ ")")) (r_calls r);
  let thinking := match r_reasoning r with VStr t => if truthy t then ["  💭 thinking: " +:+ clip 300 t] else [] | _ => [] end in
  let answer := match r_content r with VStr t => if truthy t then ["  💬 response: " +:+ clip 200 t] else [] | _ => [] end in
  let lines := tools ++ thinking ++ answer in
  Some (if nonempty lines then join newline lines else "(empty response)", map tc_name (r_calls r)).

(** Messages that a loop made up itself. *)
Definition is_synthetic (ids : list string) (m : Message) : bool :=
  match m with
  | AIMessage _ _ calls => existsb (λ tc, match tc_id tc with Some i => i ∈? ids | None => false end) calls
  | ToolMessage _ _ i _ => i ∈? ids
  | _ => false
  end.

Definition extract_synthetic_messages (messages : list Message) (ids : list string) : list Message :=
  List.filter (is_synthetic ids) messages.

(** ** Errors of tools *)

Definition _NON_INTERFACE_ERRORS : list ErrorClass :=
  [INFRA_TRANSIENT; INFRA_PERSISTENT; AUTH_DENIED; TARGET_GONE; QUOTA_EXCEEDED].

Definition _REJECTED_PARAM_PATTERNS : list pattern := Eval vm_compute in
  [get_pattern (compile no_flags "unknown flag:\s*(\S+)") ltac:(vm_compute; discriminate);
   get_pattern (compile no_flags "unknown shorthand flag:\s*'(\S+)'") ltac:(vm_compute; discriminate);
   get_pattern (compile no_flags "flag provided but not defined:\s*(\S+)") ltac:(vm_compute; discriminate);
   get_pattern (compile no_flags "(?:invalid|illegal) option[:\s]+[-]*([\w-]+)") ltac:(vm_compute; discriminate);
   get_pattern (compile no_flags "unrecognized arguments?:\s*(\S+)") ltac:(vm_compute; discriminate);
   get_pattern (compile no_flags "(?:unsupported|unknown|invalid)\s+(?:flag|option|parameter|argument)[:\s]+(\S+)")
     ltac:(vm_compute; discriminate)].

Definition _HINT_MARKER : string := "TOOL ERROR — VERIFY BEFORE RETRY".

Definition _should_trigger_introspection (c : ErrorClass) : bool := bool_decide (c ∉ _NON_INTERFACE_ERRORS).

(** [val] once it is not found yet. *)
Definition add_new (l : list string) (x : string) : list string := if x ∈? l then l else l ++ [x].

Definition rejected_value (m : mobj) : string :=
  rstrip_of ".,;:!?)" (strip_of ("'" +:+ dquote) (default "" (group 1 m))).

Definition extract_rejected_params (error_text : string) : list string :=
  fold_left add_new
    (List.filter truthy (map rejected_value (concat (map (λ p, finditer p error_text) _REJECTED_PARAM_PATTERNS)))) [].

Definition _build_introspection_hint (tool_name error_content : string) (rejected : list string) : string :=
  join newline
    (["**" +:+ _HINT_MARKER +:+ "**: `" +:+ tool_name +:+ "` returned an error."; py_take 200 error_content; "";
      "Runtime feedback overrides documentation. Before retrying:"] ++
     (if nonempty rejected
      then ["- Parameter(s) " +:+ join ", " (map (λ f, "`" +:+ f +:+ "`") rejected) +:+
            " were REJECTED — do NOT retry with them"] else []) ++
     ["- " +:+ suggest_verify_command tool_name;
      "- Adapt your approach to match what the tool actually supports";
      "- If documentation says X is supported but the tool rejects it, the tool is right"]).

Definition hinted (tool_name : string) (m : Message) : bool :=
  match m with
  | HumanMessage t => contains _HINT_MARKER t && contains ("`" +:+ tool_name +:+ "`") t
  | _ => false
  end.

Definition error_hint (recent : list Message) (m : Message) : option string :=
  match m with
  | ToolMessage content name _ _ =>
      if startswith content "Error" && _should_trigger_introspection (error_class (classify_error (Some content))) &&
         negb (existsb (hinted name) recent)
      then Some (_build_introspection_hint name content (extract_rejected_params content)) else None
  | _ => None
  end.

(** The first answer of a list. *)
Fixpoint first_of {A B} (f : A → option B) (l : list A) : option B :=
  match l with
  | [] => None
  | x :: l' => match f x with Some y => Some y | None => first_of f l' end
  end.

Definition last_n {A} (n : nat) (l : list A) : list A := drop (length l - n) l.

Definition detect_tool_error_hint (messages : list Message) : option string :=
  let recent := last_n 10 messages in first_of (error_hint recent) (rev recent).

(** ** The kubeconfig of the calls *)

Definition with_kubeconfig (kubeconfig : pyval) (tc : ToolCall) : Exc ToolCall :=
  if startswith (tc_name tc) "kubectl" || startswith (tc_name tc) "blade" then
    d ← as_dict (tc_args tc);
    Some (if py_truthy (get_d "kubeconfig" (VStr "") d) then tc
          else mkCall (tc_name tc) (VDict (dict_set "kubeconfig" kubeconfig d)) (tc_id tc))
  else Some tc.

Definition inject_kubeconfig_into_tool_calls (kubeconfig : pyval) (calls : list ToolCall) : Exc (list ToolCall) :=
  if negb (py_truthy kubeconfig) then Some calls else mapM (with_kubeconfig kubeconfig) calls.

(** ** Updates of the hook *)

Definition merge_hook_updates (result hook_updates : Delta) : Delta :=
  mkDelta (dl_messages hook_updates ++ dl_messages result) (dict_update (dl_values result) (dl_values hook_updates)).

(** * Properties *)

(** ** Repeated calls

    The reference: a call is repeated without progress when its fingerprint
    occurs often enough among the recent messages and no two answers to its
    calls differ. *)

Definition calls_of (l : list Message) : list ToolCall := concat (map message_calls l).

Definition has_fp (fp : string) (tc : ToolCall) : bool :=
  truthy (tc_name tc) &&
  match _fingerprint_tool_call (tc_name tc) (tc_args tc) with Some f => String.eqb fp f | None => false end.

Definition occurrences (fp : string) (l : list Message) : Z := count_if (has_fp fp) (calls_of l).

Definition ids_with (fp : string) (calls : list ToolCall) : list string :=
  List.filter truthy (map (λ tc, default "" (tc_id tc)) (List.filter (has_fp fp) calls)).

(** The latest answer to a call. *)
Fixpoint answer_to (i : string) (l : list Message) : option string :=
  match l with
  | [] => None
  | m :: l' =>
      match answer_to i l' with
      | Some c => Some c
      | None => match m with
                | ToolMessage c _ j _ => if truthy j && String.eqb i j then Some c else None
                | _ => None
                end
      end
  end.

(** No two recorded answers to the calls differ, as far as the code compares
    them: blanks at the ends aside, in their first 500 characters. *)
Definition same_answers (fp : string) (l : list Message) : Prop :=
  ∀ i j c d, i ∈ ids_with fp (calls_of l) → j ∈ ids_with fp (calls_of l) →
    answer_to i l = Some c → answer_to j l = Some d → py_take 500 (strip c) = py_take 500 (strip d).

Lemma count_if_cons {A} (f : A → bool) x l : count_if f (x :: l) = ((if f x then 1 else 0) + count_if f l)%Z.
Proof. unfold count_if. cbn [List.filter]. destruct (f x); cbn [length]; lia. Qed.

Lemma count_if_app {A} (f : A → bool) l k : count_if f (l ++ k) = (count_if f l + count_if f k)%Z.
Proof. unfold count_if. rewrite List.filter_app, length_app. lia. Qed.

Lemma ids_with_app fp l k : ids_with fp (l ++ k) = ids_with fp l ++ ids_with fp k.
Proof. unfold ids_with. by rewrite List.filter_app, map_app, List.filter_app. Qed.

(** What the scan has collected of a list of calls. *)
Definition collected (s s' : Scan) (calls : list ToolCall) : Prop :=
  (∀ fp, dict_get fp (sc_counts s') =
     let n := count_if (has_fp fp) calls in
     if (0 <? n)%Z then Some (default 0 (dict_get fp (sc_counts s)) + n)%Z else dict_get fp (sc_counts s)) ∧
  (∀ fp, default [] (dict_get fp (sc_ids s')) = default [] (dict_get fp (sc_ids s)) ++ ids_with fp calls).

Lemma count_if_nonneg {A} (f : A → bool) l : (0 <= count_if f l)%Z.
Proof. unfold count_if. lia. Qed.

Lemma collected_trans s s1 s2 l k : collected s s1 l → collected s1 s2 k → collected s s2 (l ++ k).
Proof.
  intros [C1 I1] [C2 I2]. split; intros fp; [|by rewrite I2, I1, ids_with_app, app_assoc].
  rewrite C2, C1, count_if_app. cbn zeta. pose proof (count_if_nonneg (has_fp fp) l). pose proof (count_if_nonneg (has_fp fp) k).
  destruct (0 <? count_if (has_fp fp) k)%Z eqn:Ek, (0 <? count_if (has_fp fp) l)%Z eqn:El,
    (0 <? count_if (has_fp fp) l + count_if (has_fp fp) k)%Z eqn:E; cbn; try (f_equal; lia); try lia; try done;
    f_equal; lia.
Qed.

Lemma collected_nil s : collected s s [].
Proof. split; intros fp; [done|]. by rewrite app_nil_r. Qed.

Lemma scan_call_collected s tc s' : scan_call s tc = Some s' → collected s s' [tc] ∧ sc_outputs s' = sc_outputs s.
Proof.
  unfold scan_call, collected, ids_with, has_fp. destruct (truthy (tc_name tc)) eqn:Et; cbn [negb].
  - intros (fp & Hf & [= <-])%bind_Some. cbn [sc_counts sc_ids sc_outputs]. split; [|done].
    split; intros g; rewrite ?count_if_cons; cbn [List.filter]; rewrite Et, Hf; cbn [andb count_if List.filter length].
    + rewrite dict_get_set. by destruct (String.eqb g fp) eqn:E; [apply String.eqb_eq in E as -> |].
    + destruct (String.eqb g fp) eqn:E; cbn [map List.filter].
      * apply String.eqb_eq in E as ->. destruct (truthy (default "" (tc_id tc))); [|by rewrite app_nil_r].
        by rewrite dict_get_set, String.eqb_refl.
      * rewrite app_nil_r. case_if; [|done]. rewrite dict_get_set, E. done.
  - intros [= <-]. split; [|done]. split; intros g; rewrite ?count_if_cons; cbn [List.filter]; rewrite Et; cbn; [done|].
    by rewrite app_nil_r.
Qed.

Lemma scan_calls_collected s calls s' :
  scan_calls s calls = Some s' → collected s s' calls ∧ sc_outputs s' = sc_outputs s.
Proof.
  revert s. induction calls as [|tc calls IH]; intros s; [by intros [= <-]; split; [apply collected_nil|]|].
  intros (s1 & H1 & H)%bind_Some. apply scan_call_collected in H1 as [H1 O1]. apply IH in H as [H O].
  split; [by apply (collected_trans _ _ _ [tc] calls H1 H) | by rewrite O].
Qed.

Lemma scan_messages_collected s l s' :
  scan_messages s l = Some s' →
  collected s s' (calls_of l) ∧ ∀ i, dict_get i (sc_outputs s') = match answer_to i l with Some c => Some c | None => dict_get i (sc_outputs s) end.
Proof.
  revert s. induction l as [|m l IH]; intros s; [by intros [= <-]; split; [apply collected_nil|]|].
  destruct m as [c r calls|c n j e|c|c]; cbn [scan_messages answer_to]; unfold calls_of in *; cbn [map message_calls concat].
  - intros (s1 & H1 & H)%bind_Some. apply scan_calls_collected in H1 as [H1 O1]. apply IH in H as [H O].
    split; [by eapply collected_trans|]. intros i. rewrite O, O1. by destruct (answer_to i l).
  - intros [H O]%IH. split; [destruct (truthy j); exact H|]. intros i. rewrite O. destruct (answer_to i l); [done|].
    destruct (truthy j); cbn [andb sc_outputs]; [|done]. rewrite dict_get_set. by destruct (String.eqb i j).
  - intros [H O]%IH. split; [done|]. intros i. rewrite O. by destruct (answer_to i l).
  - intros [H O]%IH. split; [done|]. intros i. rewrite O. by destruct (answer_to i l).
Qed.

Lemma scan_calls_wf s calls s' : scan_calls s calls = Some s' → dict_wf (sc_counts s) → dict_wf (sc_counts s').
Proof.
  revert s. induction calls as [|tc calls IH]; intros s; [by intros [= <-]|].
  intros (s1 & H1 & H)%bind_Some Hw. apply (IH _ H). unfold scan_call in H1. case_if_in H1; [by injection H1 as <-|].
  apply bind_Some in H1 as (fp & _ & [= <-]). by apply dict_set_wf.
Qed.

Lemma scan_messages_wf s l s' : scan_messages s l = Some s' → dict_wf (sc_counts s) → dict_wf (sc_counts s').
Proof.
  revert s. induction l as [|m l IH]; intros s; [by intros [= <-]|].
  destruct m as [c r calls|c n j e|c|c]; cbn [scan_messages]; [|intros H Hw; apply (IH _ H); by case_if | by intros; eapply IH..].
  intros (s1 & H1 & H)%bind_Some Hw. apply (IH _ H). by eapply scan_calls_wf.
Qed.

(** No difference among the outputs: none is unlike the first. *)
Lemma compare_outputs_spec fp s :
  (let '(identical, have) := _compare_tool_outputs fp s in negb (have && negb identical)) = true ↔
  ∀ i j c d, i ∈ default [] (dict_get fp (sc_ids s)) → j ∈ default [] (dict_get fp (sc_ids s)) →
    dict_get i (sc_outputs s) = Some c → dict_get j (sc_outputs s) = Some d → py_take 500 (strip c) = py_take 500 (strip d).
Proof.
  unfold _compare_tool_outputs. set (ids := default [] _). set (norm := λ c, py_take 500 (strip c)).
  set (outs := omap _ ids).
  assert (Ho : ∀ o, o ∈ outs ↔ ∃ i c, i ∈ ids ∧ dict_get i (sc_outputs s) = Some c ∧ o = norm c).
  { intros o. unfold outs. rewrite list_elem_of_omap. split.
    - intros (i & Hi & (c & Hc & ->)%fmap_Some). by exists i, c.
    - intros (i & c & Hi & Hc & ->). exists i. split; [done|]. cbn. by rewrite Hc. }
  transitivity (∀ a b, a ∈ outs → b ∈ outs → a = b).
  - destruct outs as [|a [|b outs]]; [by split; [intros _ ?? ?%elem_of_nil|] | split; [|done] |].
    + intros _ x y [->|?%elem_of_nil]%elem_of_cons [->|?%elem_of_nil]%elem_of_cons; done.
    + cbn [andb negb]. rewrite negb_involutive, forallb_forall. split.
      * intros H x y. assert (E : ∀ z, z ∈ a :: b :: outs → z = a).
        { intros z [->|Hz]%elem_of_cons; [done|]. apply String.eqb_eq, H. by apply list_elem_of_In. }
        intros ->%E ->%E. done.
      * intros H x Hx%list_elem_of_In. apply String.eqb_eq, H; set_solver.
  - split.
    + intros H i j c d Hi Hj Hc Hd. apply H; apply Ho; eauto 10.
    + intros H a b (i & c & Hi & Hc & ->)%Ho (j & d & Hj & Hd & ->)%Ho. exact (H i j c d Hi Hj Hc Hd).
Qed.

(** C34. When the detector does not raise, the hint of a loop is given exactly when
    some call among the recent messages occurs at least as often as the
    threshold says and no two of its recorded answers differ in their first
    500 characters, blanks at the ends aside; answers that differ only behind
    these count as the same ([late_difference_unseen]). *)
Theorem repeated_calls_detected cfg messages r :
  detect_repeated_tool_calls cfg messages = Some r →
  (r ≠ None ↔ ∃ fp, (0 < occurrences fp (recent_messages cfg messages))%Z ∧
     (loop_detection_threshold cfg <= occurrences fp (recent_messages cfg messages))%Z ∧
     same_answers fp (recent_messages cfg messages)).
Proof.
  intros (s & Hs & H)%bind_Some. set (l := recent_messages cfg messages) in *.
  assert (Hw : dict_wf (sc_counts s)) by (eapply scan_messages_wf; [exact Hs | apply NoDup_nil_2]).
  apply scan_messages_collected in Hs as [[Hc Hi] Ho]. cbn [sc_counts sc_ids sc_outputs dict_get default] in *.
  assert (Ho' : ∀ i, dict_get i (sc_outputs s) = answer_to i l) by (intros i; rewrite Ho; by destruct (answer_to i l)).
  assert (Hstuck : ∀ fp n, is_stuck cfg s (fp, n) = true ↔ (loop_detection_threshold cfg <= n)%Z ∧ same_answers fp l).
  { intros fp n. unfold is_stuck. cbn [fst snd]. rewrite andb_true_iff, compare_outputs_spec, negb_true_iff, Z.ltb_ge.
    unfold same_answers. rewrite Hi. cbn [default app]. by setoid_rewrite Ho'. }
  assert (Hr : r ≠ None ↔ ∃ c, List.find (is_stuck cfg s) (sc_counts s) = Some c).
  { destruct (List.find _ _) as [[fp n]|]; [|injection H as <-; by split; [|intros [? ?]]].
    apply bind_Some in H as (a & _ & [= <-]). split; [by eexists | done]. }
  rewrite Hr. split.
  - intros [[fp n] Hf]. pose proof (find_some _ _ Hf) as [Hin Hst]. apply Hstuck in Hst as [Hn Hsame].
    exists fp. assert (Hg : dict_get fp (sc_counts s) = Some n).
    { apply dict_wf_get; [done | by apply list_elem_of_In]. }
    rewrite Hc in Hg. cbn in Hg. fold (occurrences fp l) in Hg. destruct (0 <? occurrences fp l)%Z eqn:E; [|done].
    injection Hg as <-. split; [lia|]. by split.
  - intros (fp & Hp & Hn & Hsame). assert (Hg : dict_get fp (sc_counts s) = Some (occurrences fp l)).
    { rewrite Hc. cbn. fold (occurrences fp l). by destruct (0 <? occurrences fp l)%Z eqn:E; [|lia]. }
    apply dict_get_In, list_elem_of_In in Hg. destruct (List.find _ _) as [c|] eqn:Hf; [eauto|].
    apply (List.find_none _ _ Hf) in Hg. assert (is_stuck cfg s (fp, occurrences fp l) = true) by by apply Hstuck. congruence.
Qed.


(** ** One tool in a row *)

Definition is_ai (m : Message) : bool := match m with AIMessage _ _ _ => true | _ => false end.

(** The message makes one call, of this tool. *)
Definition one_call (tool : string) (m : Message) : bool :=
  match m with AIMessage _ _ [tc] => truthy (tc_name tc) && String.eqb (call_key tc) tool | _ => false end.

Fixpoint run_length {A} (f : A → bool) (l : list A) : nat :=
  match l with x :: l' => if f x then S (run_length f l') else 0 | [] => 0 end.

Lemma run_length_ge {A} (f : A → bool) l k :
  (k ≤ run_length f l)%nat ↔ (k ≤ length l)%nat ∧ Forall (λ x, f x = true) (take k l).
Proof.
  revert k. induction l as [|x l IH]; intros [|k]; cbn [run_length length take].
  - by repeat split.
  - split; [lia | intros [? _]; lia].
  - split; [intros _; split; [lia | done] | lia].
  - destruct (f x) eqn:E; [|split; [lia | intros [_ H%Forall_cons]; destruct H; congruence]].
    rewrite Forall_cons, <- Nat.succ_le_mono, IH, <- Nat.succ_le_mono. naive_solver.
Qed.

Lemma streak_run tool n l :
  streak_of (Some tool) n l = (Some tool, n + Z.of_nat (run_length (one_call tool) (List.filter is_ai l)))%Z.
Proof.
  revert n. induction l as [|m l IH]; intros n; [cbn; by rewrite Z.add_0_r|].
  destruct m as [c r [|tc [|tc' calls]]| | |]; cbn; rewrite ?Z.add_0_r; try done.
  destruct (truthy (tc_name tc)); cbn; rewrite ?Z.add_0_r; [|done].
  destruct (String.eqb (call_key tc) tool); cbn; rewrite ?Z.add_0_r; [|done]. rewrite IH. f_equal. lia.
Qed.

Lemma streak_start l tool n :
  streak_of None 0 l = (Some tool, n) → n = Z.of_nat (run_length (one_call tool) (List.filter is_ai l)).
Proof.
  induction l as [|m l IH]; [done|]. destruct m as [c r [|tc [|tc' calls]]| | |]; cbn; try done.
  destruct (truthy (tc_name tc)) eqn:Et; cbn; [|done]. rewrite String.eqb_refl, streak_run. intros [= <- <-].
  rewrite String.eqb_refl. lia.
Qed.

Lemma streak_found l tool :
  (0 < run_length (one_call tool) (List.filter is_ai l))%nat → ∃ n, streak_of None 0 l = (Some tool, n).
Proof.
  induction l as [|m l IH]; [cbn; lia|]. destruct m as [c r [|tc [|tc' calls]]| | |]; cbn; try lia; try done.
  destruct (truthy (tc_name tc)) eqn:Et; cbn; [|lia]. destruct (String.eqb (call_key tc) tool) eqn:E; [|lia].
  apply String.eqb_eq in E as <-. rewrite String.eqb_refl, streak_run. eauto.
Qed.

(** A tool is stagnant exactly when each of the latest answers in the window,
    as many as the threshold says, makes one call and that of this tool. *)
Theorem stagnation_detected cfg messages threshold tool :
  let k := default (stagnation_threshold cfg) threshold in
  let answers := List.filter is_ai (rev (recent_messages cfg messages)) in
  snd <$> detect_action_stagnation cfg messages threshold = Some tool ↔
  (2 <= k)%Z ∧ truthy tool = true ∧ (Z.to_nat k ≤ length answers)%nat ∧
  Forall (λ m, one_call tool m = true) (take (Z.to_nat k) answers).
Proof.
  cbn zeta. unfold detect_action_stagnation. set (k := default _ _). set (l := rev _). destruct (k <? 2)%Z eqn:Ek.
  { split; [done | lia]. }
  rewrite <- (run_length_ge (one_call tool)). split.
  - destruct (streak_of None 0 l) as [[t|] n] eqn:Es; [|done].
    destruct ((k <=? n)%Z && truthy t) eqn:E; [|done]. intros [= ->]. apply andb_true_iff in E as [E1 E2].
    apply streak_start in Es. subst n. split; [lia|]. split; [done | lia].
  - intros (Hk & Ht & Hr). destruct (streak_found l tool) as [n Hs]; [lia|]. rewrite Hs.
    apply streak_start in Hs. rewrite Ht, andb_true_r. destruct (k <=? n)%Z eqn:E; [done | lia].
Qed.

(** ** The kubeconfig of the calls *)

Definition needs_kubeconfig (tc : ToolCall) : bool := startswith (tc_name tc) "kubectl" || startswith (tc_name tc) "blade".

Definition call_kubeconfig (tc : ToolCall) : pyval :=
  match tc_args tc with VDict d => get_d "kubeconfig" (VStr "") d | _ => VNone end.

(** Every kubectl and blade call names a cluster afterwards, the one the
    model chose where it chose one, and nothing else changes. *)
Lemma kubeconfig_injected kc calls calls' :
  py_truthy kc = true → inject_kubeconfig_into_tool_calls kc calls = Some calls' →
  Forall2 (λ tc tc',
    tc_name tc' = tc_name tc ∧ tc_id tc' = tc_id tc ∧
    (needs_kubeconfig tc = false → tc' = tc) ∧
    (needs_kubeconfig tc = true →
       call_kubeconfig tc' = py_or (call_kubeconfig tc) kc ∧
       ∃ d d', tc_args tc = VDict d ∧ tc_args tc' = VDict d' ∧ ∀ k, k ≠ "kubeconfig" → dict_get k d' = dict_get k d))
    calls calls'.
Proof.
  intros Hk. unfold inject_kubeconfig_into_tool_calls. rewrite Hk. cbn [negb]. intros H%mapM_Some_1.
  eapply Forall2_impl; [exact H|]. intros tc tc'. unfold with_kubeconfig. fold (needs_kubeconfig tc).
  destruct (needs_kubeconfig tc); [|by intros [= <-]]. intros (d & Hd & [= <-])%bind_Some.
  unfold call_kubeconfig. destruct (tc_args tc) as [| | | | | | |] eqn:Ea; try discriminate. injection Hd as ->.
  unfold py_or. destruct (py_truthy (get_d "kubeconfig" (VStr "") d)) eqn:E; cbn [tc_name tc_id tc_args].
  - rewrite Ea. naive_solver.
  - rewrite get_d_set, String.eqb_refl. split_and!; [done..|]. intros _. split; [done|]. eexists d, _.
    split_and!; [done..|]. intros k Hne. by apply dict_get_set_ne.
Qed.

Definition thrash (sub : string) : Message :=
  AIMessage (VStr "") VNone [mkCall "kubectl" (VDict [("subcommand", VStr sub)]) (Some "c")].

Example five_in_a_row :
  snd <$> detect_action_stagnation (mkLoop 10 3 5 3) (map thrash ["get"; "get"; "get"; "get"; "get"]) None = Some "kubectl:get".
Proof. vm_compute. reflexivity. Qed.

Example rejected_flags :
  extract_rejected_params "Error: unknown flag: --foo. unsupported flag: '--bar', invalid option: --baz" = ["--foo"; "baz"; "--bar'"; "--baz"].
Proof. vm_compute. reflexivity. Qed.

Example repeated_twice :
  detect_repeated_tool_calls (mkLoop 10 2 5 3) (map thrash ["get"; "get"]) ≠ Some None.
Proof. vm_compute. discriminate. Qed.

Definition polling (out1 out2 out3 : string) : list Message :=
  concat (imap (λ i o, [AIMessage (VStr "") VNone [mkCall "kubectl" (VDict [("subcommand", VStr "get")]) (Some (str_of_nat i))];
                        ToolMessage o "kubectl" (str_of_nat i) false]) [out1; out2; out3]).

(** Answers that differ only behind their first 500 characters are taken as
    identical: a fault that progresses there gets the hint of a loop. *)
Fixpoint long_text (n : nat) : string := match n with O => "" | S n => String "a" (long_text n) end.

Example late_difference_unseen :
  let out d := long_text 500 +:+ d in
  detect_repeated_tool_calls (mkLoop 10 3 5 3) (polling (out "10%") (out "50%") (out "90%")) ≠ Some None ∧
  out "10%" ≠ out "50%".
Proof. split; vm_compute; discriminate. Qed.

Lemma repeated_calls_detected_witness :
  (∃ fp, (0 < occurrences fp (recent_messages (mkLoop 10 3 5 3) (polling "0%" "0%" "0%")))%Z ∧
     (3 <= occurrences fp (recent_messages (mkLoop 10 3 5 3) (polling "0%" "0%" "0%")))%Z ∧
     same_answers fp (recent_messages (mkLoop 10 3 5 3) (polling "0%" "0%" "0%"))) ∧
  detect_repeated_tool_calls (mkLoop 10 3 5 3) (polling "0%" "50%" "90%") = Some None.
Proof.
  split; [|vm_compute; reflexivity].
  destruct (detect_repeated_tool_calls (mkLoop 10 3 5 3) (polling "0%" "0%" "0%")) as [r|] eqn:E; [|vm_compute in E; discriminate].
  apply (repeated_calls_detected _ _ _ E). intros ->. vm_compute in E. discriminate.
Defined.
