(* ===== verification/ExecuteLoop.v ===== *)
(** * The execution loop (agent/nodes/execute_loop.py)

    One run of the node: the limits, the hints put before the language model,
    what is read off the conversation and off the answer, and what happens
    when the answer or an error asks for a new plan.  The language model is a
    function of the messages and of the tools bound to it, or absent; the
    memory hook a function of the state, or absent.  Counters are integers.
    The marks that keep time_wait from being called twice in a row, tracking,
    the session store and the copy into the task store are left out. *)

From stdpp Require Import base list strings sets relations.
From Stdlib Require Import ZArith Ascii SpecFloat.
From S2P Require Import TargetTypes Classifier ClassifierProps TargetGuard Freeze.
From S2P Require Import Prelude PyText PyRe PyValue PyFloat PyOps Json FaultSpec Failure Screener Router Conflict FaultContext SafetyGate InjectionDetection BladeUid AttemptTracker FaultType Blade DirectExecute PlanningMetadata ReactHelpers Graph.

Definition REPLAN_MARKER : string := "[REPLAN]".

(** ** Reading the conversation *)

Definition _REPLICAS_JSON_RE : pattern := Eval vm_compute in
  get_pattern (compile no_flags (dquote +:+ "replicas" +:+ dquote +:+ "\s*:\s*(\d+)")) ltac:(vm_compute; discriminate).

(** The count a kubectl answer that names the resource shows. *)
Definition shown_replicas (resource_name : string) (m : Message) : Exc (option Z) :=
  match m with
  | ToolMessage content name _ _ =>
      if String.eqb name "kubectl" && contains resource_name content &&
         contains (dquote +:+ "replicas" +:+ dquote) content
      then match re_search _REPLICAS_JSON_RE content with
           | Some x =>
               count ← py_int_of_string (default "" (group 1 x));
               Some (if (0 <? count)%Z && (count <=? 1000)%Z then Some count else None)
           | None => Some None
           end
      else Some None
  | _ => Some None
  end.

Definition _extract_original_replicas_from_messages (messages : list Message) (resource_name : string) : Exc (option Z) :=
  first_exc (shown_replicas resource_name) messages.

(** The identifiers of the kubectl calls that may create an experiment. *)
Definition blade_exec_call_id (tc : ToolCall) : Exc (option string) :=
  match tc_args tc with
  | VDict d =>
      if String.eqb (tc_name tc) "kubectl" then
        let v_args := get_d "v_args" (VStr "") d in
        b ← py_in "blade" v_args;
        c ← (if (b : bool) then py_in "create" v_args else Some false);
        Some (if (c : bool) then tc_id tc else None)
      else Some None
  | _ => Some None
  end.

Definition blade_exec_call_ids (messages : list Message) : Exc (list string) :=
  l ← mapM blade_exec_call_id (concat (map message_calls messages)); Some (omap id l).

(** From the latest message on: an answer of blade_create wins over an
    earlier found one of kubectl. *)
Fixpoint scan_uids (ids : list string) (kubectl_uid : option string) (l : list Message) : Exc (option string) :=
  match l with
  | [] => Some kubectl_uid
  | ToolMessage content name i _ :: l' =>
      if String.eqb name "blade_create" then
        uid ← extract_blade_uid content;
        match uid with
        | Some u => if truthy u then Some (Some u) else scan_uids ids kubectl_uid l'
        | None => scan_uids ids kubectl_uid l'
        end
      else if String.eqb name "kubectl" && negb (str_true kubectl_uid) && (i ∈? ids) then
        uid ← extract_blade_uid content; scan_uids ids uid l'
      else scan_uids ids kubectl_uid l'
  | _ :: l' => scan_uids ids kubectl_uid l'
  end.

Definition _extract_blade_uid_from_messages (messages : list Message) : Exc (option string) :=
  ids ← blade_exec_call_ids messages; scan_uids ids None (rev messages).

Definition _BLADE_CREATE_K8S_RE : pattern := Eval vm_compute in
  get_pattern (compile no_flags "blade\s+create\s+k8s\s+(\w+)-(\w+)\s+(\w+)") ltac:(vm_compute; discriminate).

(** [v_args[match.end():].strip()] of a command that creates an experiment. *)
Definition _parse_blade_create_from_v_args (v_args : string) : option (string * string * string * string) :=
  m ← re_search _BLADE_CREATE_K8S_RE v_args;
  let g n := default "" (group n m) in
  Some (g 1, g 2, g 3, strip (unchars (m_rest (mo_after m)))).

(** What a parsed answer of blade_create is. *)
Inductive CreateAnswer := CreateFailed | Created (uid : pyval) | Neither.

Definition create_answer_of (content : string) : Exc CreateAnswer :=
  match json_loads content with
  | JOk v =>
      ok ← vget_d "success" (VBool true) v;
      if negb (py_truthy ok) then Some CreateFailed
      else uid ← vget_d "result" (VStr "") v; Some (if py_truthy uid then Created uid else Neither)
  | JDecodeError => Some (if contains "error" (lower content) || contains "fail" (lower content) then CreateFailed else Neither)
  | JValueError => Raise
  end.

(** Newest first, until five failures are found. *)
Fixpoint collect_failures (failed : list (string * string)) (uids : list pyval) (l : list Message)
    : Exc (list (string * string) * list pyval) :=
  match l with
  | [] => Some (failed, uids)
  | ToolMessage content name _ _ :: l' =>
      a ← (if String.eqb name "blade_create" then create_answer_of content
           else Some (if startswith content "Error" then CreateFailed else Neither));
      let failed' := match a with CreateFailed => failed ++ [(name, py_take 500 content)] | _ => failed end in
      let uids' := match a with Created u => uids ++ [u] | _ => uids end in
      if Nat.leb 5 (length failed') then Some (failed', uids') else collect_failures failed' uids' l'
  | _ :: l' => collect_failures failed uids l'
  end.

Definition call_dict (c : string * string) : pyval := VDict [("name", VStr c.1); ("error", VStr c.2)].

Definition _build_replan_context (s : GState) (error_summary : string) : Exc (dict pyval) :=
  '(failed, uids) ← collect_failures [] [] (rev (g_messages s));
  let rejected := extract_rejected_params error_summary ++ concat (map (λ c, extract_rejected_params c.2) failed) in
  Some [("error_summary", VStr (py_take 1000 (strip (replace REPLAN_MARKER "" error_summary))));
        ("failed_tool_calls", VList (map call_dict failed));
        ("existing_blade_uids", VList uids);
        ("iteration_at_failure", get_d "execute_loop_count" (VInt 0) (g_values s));
        ("rejected_params", VList (map VStr (fold_left add_new rejected [])));
        ("failed_tool_names", VList (map VStr (sorted_set (List.filter truthy (map fst failed)))))].

(** An error of the tools for which the plan is made anew. *)
Definition replanable_error (m : Message) : Exc (option string) :=
  match m with
  | ToolMessage content name _ _ =>
      if (name ∈? ["blade_create"; "blade_query_k8s"]) || (String.eqb name "kubectl" && contains "kubectl exec failed" content)
      then
        let text (e : string) := if should_auto_replan e then Some (name +:+ ": " +:+ py_take 500 e) else None in
        match json_loads content with
        | JOk v =>
            ok ← vget_d "success" (VBool true) v;
            if negb (py_truthy ok) then
              e ← vget_d "error" (VStr "") v; r ← vget_d "result" (VStr "") v;
              e ← as_str (py_or (py_or e r) (VStr content));
              Some (text e)
            else Some None
        | JDecodeError => Some (text content)
        | JValueError => Raise
        end
      else Some None
  | _ => Some None
  end.

Definition _detect_replanable_tool_error (messages : list Message) : Exc (option string) :=
  first_exc replanable_error (rev (last_n 5 messages)).

Definition _BLADE_ERROR_COOLDOWN_TURNS : Z := 3.

Definition is_blade_error (m : Message) : bool :=
  match m with
  | ToolMessage content name _ is_error =>
      (name ∈? ["blade_create"; "blade_query_k8s"]) &&
      (is_error || contains "failed" (lower content) || contains "error" (lower content))
  | _ => false
  end.

(** An error of blade among the latest answers of the model. *)
Fixpoint error_within (turns : Z) (l : list Message) : bool :=
  match l with
  | [] => false
  | AIMessage _ _ _ :: l' =>
      if (_BLADE_ERROR_COOLDOWN_TURNS <? turns + 1)%Z then false else error_within (turns + 1)%Z l'
  | m :: l' => if is_blade_error m then true else error_within turns l'
  end.

Definition _is_llm_handling_blade_error (messages : list Message) : bool := error_within 0 (rev messages).

(** ** Idle turns *)

Definition idle (m : Message) : bool := match m with AIMessage _ _ (_ :: _) => false | _ => true end.

(** [(content or "").strip()]. *)
Definition content_text (m : Message) : Exc string :=
  match m with AIMessage c _ _ => t ← as_str (py_or c (VStr "")); Some (strip t) | _ => Some "" end.

Definition same_start (a b : Message) : Exc bool :=
  if idle a && idle b then
    c ← content_text a; d ← content_text b;
    Some (truthy c && truthy d && String.eqb (py_take 50 c) (py_take 50 d))
  else Some false.

Definition idle_text (threshold : Z) (replan_exhausted : bool) : string :=
  if replan_exhausted then
    "**STUCK LOOP DETECTED + REPLAN EXHAUSTED**: You have produced " +:+ str_of_Z threshold +:+
    " consecutive responses without any tool calls AND the system has already burned through every available replan attempt. " +:+
    "`[REPLAN]` is no longer a valid action — emitting it again will have no effect." +:+ newline +:+ newline +:+
    "**Required action** (choose ONE):" +:+ newline +:+
    "1. If there is still a viable approach you have NOT tried, use a tool to attempt it ONCE." +:+ newline +:+
    "2. Otherwise, provide a concise final conclusion stating the specific reason why injection is impossible. " +:+
    "Do NOT include `[REPLAN]` in your response." +:+ newline +:+
    "3. Do NOT repeat the same text you have already output in previous turns."
  else
    "**STUCK LOOP DETECTED**: You have produced " +:+ str_of_Z threshold +:+
    " consecutive responses without any tool calls. You appear to be repeating the same conclusion without making progress." +:+
    newline +:+ newline +:+
    "**Required action** (choose ONE):" +:+ newline +:+
    "1. If there is still a viable approach you have NOT tried, use a tool to attempt it." +:+ newline +:+
    "2. If you have exhausted all options and the fault CANNOT be injected, output `[REPLAN]` to request a new plan from Phase 1, " +:+
    "or provide a concise final conclusion stating the specific reason why injection is impossible." +:+ newline +:+
    "3. Do NOT repeat the same text you have already output in previous turns.".

Definition _detect_consecutive_idle_turns (threshold : Z) (messages : list Message) (replan_exhausted : bool)
    : Exc (option string) :=
  let recent := take (Z.to_nat (Z.max 1 threshold)) (List.filter is_ai (rev messages)) in
  dup ← (match recent with a :: b :: _ => same_start a b | _ => Some false end);
  Some (if dup || (negb (Z.of_nat (length recent) <? threshold)%Z && forallb idle recent)
        then Some (idle_text threshold replan_exhausted) else None).

(** ** How the fault was injected *)

Definition blade_answer (m : Message) : Exc (option string) :=
  match m with
  | ToolMessage content name _ _ =>
      if name ∈? ["blade_create"; "kubectl"] then
        uid ← extract_blade_uid content;
        Some (if str_true uid then Some (if String.eqb name "blade_create" then "host_blade" else "kubectl_exec") else None)
      else Some None
  | _ => Some None
  end.

Definition _detect_injection_method (messages : list Message) (blade_uid : option string) : Exc (option string) :=
  found ← first_exc blade_answer (rev messages);
  match found with
  | Some f => Some (Some f)
  | None =>
      if str_true blade_uid then Some None
      else b ← _was_kubectl_injection_attempted messages; Some (if (b : bool) then Some "kubectl_native" else None)
  end.

(** ** The node *)

(** [state.get(k, 0)] of a counter. *)
Definition counter_of (k : string) (s : GState) : Exc Z :=
  match dict_get k (g_values s) with
  | None => Some 0%Z
  | Some (VInt z) => Some z
  | Some (VBool b) => Some (if b then 1 else 0)%Z
  | Some _ => Raise
  end.

(** The plain node, without a language model. *)
Definition execute_loop (max_execute : Z) (s : GState) : Exc (dict pyval) :=
  n ← counter_of "execute_loop_count" s;
  Some (if (max_execute <? n + 1)%Z
        then fail_state EXECUTION_TIMEOUT ("max_iterations=" +:+ str_of_Z max_execute) []
        else [("execute_loop_count", VInt (n + 1))]).

Section node.
Context (cfg : RouterSettings) (loops : LoopSettings) (sc : SafetySettings) (replan_reset_execute_count : bool).
(** The system prompt, and the model: what it answers to a conversation with
    the tools bound to it. *)
Context (prompt : GState → Exc string).
Context (llm : option (list Message → list string → Exc Response)) (tools : list string).
Context (hook : option (GState → Exc Delta)).
(** [time.time()] and [now_iso()]. *)
Context (now : spec_float) (now_iso : pyval).

Local Abbreviation MAX_EXECUTE_LOOP := (max_execute_loop cfg).

(** A replan was asked for that the router will never follow. *)
Definition zombie_replan (s : GState) : Exc bool :=
  n ← counter_of "replan_count" s;
  Some (on "replan_requested" s && (max_replan_count cfg <=? n)%Z && negb (on "blade_uid" s)).

Definition zombie_result (s : GState) (count : Z) : Exc (dict pyval) :=
  n ← counter_of "replan_count" s;
  Some (fail_state REPLAN_EXHAUSTED ("attempts=" +:+ str_of_Z n) (g_messages s) ++
        [("replan_requested", VBool false); ("execute_loop_count", VInt count)]).

(** *** Hints *)

Definition exec_hint (tool : string) : string :=
  "**ACTION_STAGNATION**: You have called `" +:+ tool +:+ "` multiple consecutive times with no progress. " +:+
  (if contains ":" tool then
     "Stop using this subcommand. You can still use `" +:+ before ":" tool +:+ "` " +:+
     "with OTHER subcommands (patch, delete, scale, etc.) to complete remaining injection steps." +:+ newline +:+
     "Do NOT call `" +:+ tool +:+ "` again."
   else
     "This tool has been temporarily removed. You MUST now either:" +:+ newline +:+
     "- Use a DIFFERENT tool to achieve the injection goal." +:+ newline +:+
     "- Output your conclusion if injection already succeeded (include blade_uid if available)." +:+ newline +:+
     "- Output [REPLAN] if the current approach is not working." +:+ newline +:+
     "Do NOT attempt to call `" +:+ tool +:+ "` again.").

Definition conflict_hint (s : GState) : Exc (list Message) :=
  let uids := get_d "conflict_uids" (VList []) (g_values s) in
  if negb (py_truthy uids) then Some []
  else
    l ← as_list uids;
    shown ← join_vals ", " (take 5 l);
    Some [HumanMessage
      ("**Residual Experiments Detected**: " +:+ str_of_nat (length l) +:+ " active ChaosBlade experiment(s) " +:+
       "already exist on this cluster (UIDs: " +:+ shown +:+ "). " +:+
       "The user was informed and chose to proceed. You MUST:" +:+ newline +:+
       "1. Be aware of potential compound effects with these existing experiments." +:+ newline +:+
       "2. Include a note about existing experiments in your conclusion." +:+ newline +:+
       "3. Only destroy your own experiment (blade_uid from your blade_create call) " +:+
       "during recovery. Do NOT destroy the listed residual experiments unless " +:+
       "explicitly requested by the user.")].

Definition budget_hint (count : Z) : list Message :=
  let c := str_of_Z count in
  let m := str_of_Z MAX_EXECUTE_LOOP in
  if (MAX_EXECUTE_LOOP - 5 <=? count)%Z && (count <? MAX_EXECUTE_LOOP - 1)%Z then
    [HumanMessage
      ("**Iteration Progress**: You are on iteration " +:+ c +:+ " of max " +:+ m +:+
       " (" +:+ str_of_Z (MAX_EXECUTE_LOOP - count) +:+ " remaining). " +:+
       "If fault injection has not succeeded yet, focus on completing the blade_create call " +:+
       "with correct parameters. If repeated attempts fail, consider outputting [REPLAN] " +:+
       "to request a revised plan from Phase 1.")]
  else if (count =? MAX_EXECUTE_LOOP - 1)%Z then
    [HumanMessage
      ("**CRITICAL WARNING**: This is iteration " +:+ c +:+ " of max " +:+ m +:+ " — " +:+
       "your SECOND-TO-LAST iteration." +:+ newline +:+
       "If fault injection has not succeeded:" +:+ newline +:+
       "  - Make ONE final attempt with blade_create using the correct parameters." +:+ newline +:+
       "  - If you cannot succeed, output [REPLAN] to request a new plan, " +:+
       "or provide a brief conclusion explaining the failure." +:+ newline +:+
       "If injection already succeeded (blade_create returned a UID), " +:+
       "output a brief summary and stop calling tools.")]
  else if (MAX_EXECUTE_LOOP <=? count)%Z then
    [HumanMessage
      ("**FINAL ITERATION**: This is iteration " +:+ c +:+ " of max " +:+ m +:+ ". " +:+
       "NO more iterations are available. Tools are no longer available." +:+ newline +:+
       "You MUST provide a definitive conclusion NOW:" +:+ newline +:+
       "1. **If injection succeeded** (a blade_uid was obtained in earlier iterations): " +:+
       "State the blade_uid and confirm what fault was injected." +:+ newline +:+
       "2. **If injection failed**: Explain the specific failure reason — " +:+
       "what you attempted, what errors occurred, and why injection could not be completed." +:+ newline +:+
       "3. **If you need a new plan**: Output [REPLAN] to request Phase 1 re-planning." +:+ newline +:+ newline +:+
       "Your response will be recorded as the final execution result.")]
  else [].

Definition human (o : option string) : list Message := match o with Some t => [HumanMessage t] | None => [] end.

(** What the model is shown, and the tool taken from it. *)
Definition hinted_messages (s : GState) (count : Z) : Exc (list Message * option string) :=
  let m0 := g_messages s in
  loop ← detect_repeated_tool_calls loops m0;
  let m1 := m0 ++ human loop in
  let stagnant := snd <$> detect_action_stagnation loops m1 None in
  let m2 := m1 ++ human (exec_hint <$> stagnant) in
  let m3 := m2 ++ human (detect_tool_error_hint m2) in
  n ← counter_of "replan_count" s;
  idle_hint ← _detect_consecutive_idle_turns (idle_turn_threshold loops) m3 (max_replan_count cfg <=? n)%Z;
  conflict ← conflict_hint s;
  Some (m3 ++ human idle_hint ++ conflict ++ budget_hint count, stagnant).

(** The last iteration has no tools; a tool that stagnates is taken away. *)
Definition bound_tools (count : Z) (stagnant : option string) : list string :=
  if (MAX_EXECUTE_LOOP <=? count)%Z then []
  else match stagnant with
       | Some t => if contains ":" t then tools else List.filter (λ n, negb (String.eqb n t)) tools
       | None => tools
       end.

Definition ask (s : GState) (count : Z) : Exc (option Response) :=
  match llm with
  | None => Some None
  | Some model =>
      '(messages, stagnant) ← hinted_messages s count;
      p ← prompt s;
      r ← model (SystemMessage p :: messages) (bound_tools count stagnant);
      Some (Some r)
  end.

(** *** What the conversation shows *)

Definition opt_val (o : option string) : pyval := match o with Some t => VStr t | None => VNone end.

Definition uid_entries (s : GState) (uid : option string) (e : dict pyval) : dict pyval :=
  match uid with
  | Some u =>
      if truthy u && negb (eqs (get "blade_uid" s) u) then
        let e := dict_set "blade_uid" (VStr u) e in
        if on "injection_start_time" s then e else dict_set "injection_start_time" now_iso e
      else e
  | None => e
  end.

Definition method_entries (s : GState) (detected : option string) (e : dict pyval) : dict pyval :=
  let current := get "injection_method" s in
  match detected with
  | Some m =>
      if eqs current m then e
      else
        let e := if (eqs current "kubectl_native" && (m ∈? ["host_blade"; "kubectl_exec"])) || negb (py_truthy current)
                 then dict_set "injection_method" (VStr m) e else e in
        if negb (on "injection_start_time" s) && negb (dict_mem "injection_start_time" e)
        then dict_set "injection_start_time" now_iso e else e
  | None => e
  end.

Definition case_message (m : Message) : option string :=
  match m with
  | ToolMessage content name _ _ => if String.eqb name "read_skill_resource" && marked content then Some content else None
  | _ => None
  end.

Definition observed (s : GState) (e : dict pyval) : Exc (dict pyval) :=
  let messages := g_messages s in
  uid ← _extract_blade_uid_from_messages messages;
  let e := uid_entries s uid e in
  detected ← _detect_injection_method messages uid;
  let e := method_entries s detected e in
  pod ← (if on "kubectl_exec_pod_name" s then Some None else _extract_kubectl_exec_pod_name messages);
  let e := if str_true pod then dict_set "kubectl_exec_pod_name" (opt_val pod) e else e in
  Some (if on "skill_case_content" s then e
        else match first_of case_message (rev messages) with Some c => dict_set "skill_case_content" (VStr c) e | None => e end).

(** *** What the answer asks for *)

Definition flags_entry (flags : string) (entries : dict pyval) : dict pyval :=
  match parse_blade_flags flags with
  | [] => entries
  | parsed => dict_set "blade_parsed_flags" (VDict (map (λ kv, (kv.1, VStr kv.2)) parsed)) entries
  end.

(** The value of a field, a value that is no text standing for none that a
    rule compares with. *)
Definition text_or_empty (v : pyval) : string := match v with VStr t => t | _ => "" end.

Definition spec_or_arg (field : FaultSpec → string) (k : string) (spec : option FaultSpec) (args : dict pyval) : string :=
  let v := match spec with Some p => field p | None => "" end in
  if truthy v then v else text_or_empty (get_d k (VStr "") args).

Definition override_param (limit : option Z) (args : dict pyval) (kv : string * pyval) : dict pyval :=
  dict_set kv.1 (if String.eqb kv.1 "size" && eqs kv.2 "auto" then VStr (str_of_Z (compute_safe_burn_size limit None)) else kv.2) args.

Definition apply_directive (limit : option Z) (args : dict pyval) (a : AdaptationDirective) : dict pyval :=
  if a_mode a ∈? ["llm"; "both"] then
    match dict_get "param_overrides" (a_action a) with
    | Some (VDict o) => fold_left (override_param limit) o args
    | _ => args
    end
  else args.

(** The arguments of a creation, adapted to the target. *)
Definition adapted_args (s : GState) (args : dict pyval) : Exc (dict pyval) :=
  meta ← as_dict (or_empty (get "target_metadata" s));
  spec ← read_fault_spec (g_values s);
  let rules := lookup_adaptations (spec_or_arg s_scope "scope" spec args) (spec_or_arg s_blade_target "target" spec args)
                 (spec_or_arg s_blade_action "action" spec args) meta (Some "param_override") in
  limit ← (if nonempty rules then metadata_int "pod_memory_limit_mb" meta else Some None);
  Some (fold_left (apply_directive limit) rules args).

Definition _REPLICAS_RE : pattern := Eval vm_compute in
  get_pattern (compile no_flags "--replicas=(\d+)") ltac:(vm_compute; discriminate).

Definition _SCALED_RE : pattern := Eval vm_compute in
  get_pattern (compile no_flags "(?:deployment|statefulset)\s+(\S+)") ltac:(vm_compute; discriminate).

(** The resource a scale command names, with the new count. *)
Definition scaled (v_args : string) : Exc (option (string * Z)) :=
  match re_search _REPLICAS_RE v_args, re_search _SCALED_RE v_args with
  | Some r, Some n => z ← py_int_of_string (default "" (group 1 r)); Some (Some (default "" (group 1 n), z))
  | _, _ => Some None
  end.

(** What the loop over the calls threads: the update, and the replica counts
    on record, which are one shared dict when the state has some and a fresh
    one each time otherwise. *)
Record Harvest := mkHarvest { h_entries : dict pyval; h_replicas : option (dict pyval) }.

Definition record_scale (s : GState) (h : Harvest) (v_args : string) : Exc Harvest :=
  r ← scaled v_args;
  match r with
  | None => Some h
  | Some (name, new) =>
      let existing := default [] (h_replicas h) in
      if dict_mem name existing then Some h
      else
        orig ← _extract_original_replicas_from_messages (g_messages s) name;
        match orig with
        | Some o =>
            if (o =? new)%Z then Some h
            else
              let existing' := dict_set name (VInt o) existing in
              Some (mkHarvest (dict_set "original_replicas" (VDict existing') (h_entries h))
                      (match h_replicas h with Some _ => Some existing' | None => None end))
        | None => Some h
        end
  end.

Definition harvest_kubectl (s : GState) (h : Harvest) (args : dict pyval) : Exc Harvest :=
  let sub := py_get "subcommand" args in
  if eqs sub "exec" then
    let v := py_or (get_d "v_args" (VStr "") args) (VStr "") in
    b ← py_in "blade" v;
    c ← (if (b : bool) then py_in "create" v else Some false);
    if (c : bool) then
      t ← as_str v;
      Some (match _parse_blade_create_from_v_args t with
            | Some (_, _, _, flags) => if truthy flags then mkHarvest (flags_entry flags (h_entries h)) (h_replicas h) else h
            | None => h
            end)
    else Some h
  else if eqs sub "scale" then
    t ← as_str (get_d "v_args" (VStr "") args); record_scale s h t
  else Some h.

Definition harvest_call (s : GState) (h : Harvest) (tc : ToolCall) : Exc (Harvest * ToolCall) :=
  if String.eqb (tc_name tc) "blade_create" then
    args ← as_dict (tc_args tc);
    let flags := get_d "flags" (VStr "") args in
    h ← (if py_truthy flags then t ← as_str flags; Some (mkHarvest (flags_entry t (h_entries h)) (h_replicas h)) else Some h);
    args ← adapted_args s args;
    Some (h, mkCall (tc_name tc) (VDict args) (tc_id tc))
  else if String.eqb (tc_name tc) "kubectl" then
    args ← as_dict (tc_args tc);
    h ← harvest_kubectl s h args; Some (h, tc)
  else Some (h, tc).

Fixpoint harvest_calls (s : GState) (h : Harvest) (calls : list ToolCall) : Exc (Harvest * list ToolCall) :=
  match calls with
  | [] => Some (h, [])
  | tc :: rest =>
      '(h, tc) ← harvest_call s h tc;
      '(h, rest) ← harvest_calls s h rest;
      Some (h, tc :: rest)
  end.

Definition recorded_replicas (s : GState) : Exc (option (dict pyval)) :=
  let v := get "original_replicas" s in
  if py_truthy v then d ← as_dict v; Some (Some d) else Some None.

Definition answered (s : GState) (entries : dict pyval) (r : Response) : Exc Delta :=
  kc ← _resolve_kubeconfig sc s;
  calls ← inject_kubeconfig_into_tool_calls kc (r_calls r);
  replicas ← recorded_replicas s;
  '(h, calls) ← harvest_calls s (mkHarvest entries replicas) calls;
  Some (mkDelta [AIMessage (r_content r) (r_reasoning r) calls] (h_entries h)).

(** *** Conclusions *)

Definition put (k : string) (v : pyval) (d : Delta) : Delta := mkDelta (dl_messages d) (dict_set k v (dl_values d)).
Definition amend (e : dict pyval) (d : Delta) : Delta := mkDelta (dl_messages d) (dict_update (dl_values d) e).
Definition say (t : string) (d : Delta) : Delta := mkDelta (dl_messages d ++ [HumanMessage t]) (dl_values d).

(** [result.get(k) or state.get(k)]. *)
Definition either (k : string) (s : GState) (d : Delta) : pyval := py_or (py_get k (dl_values d)) (get k s).

Definition EXECUTION_REQUIRED : string :=
  "**EXECUTION REQUIRED**: You output text instead of calling a tool. You are in Phase 2 (execution) — " +:+
  "the plan is already approved. You MUST call `kubectl` or `blade_create` NOW to inject the fault. " +:+
  "Do NOT output plans, summaries, or wait for confirmation. Execute immediately.".

Definition response_text (r : Response) : Exc string := as_str (py_or (r_content r) (VStr "")).

(** A text instead of a call, with nothing injected. *)
Definition conclude_text (s : GState) (r : Response) (d : Delta) : Exc Delta :=
  t ← response_text r;
  Some (if negb (nonempty (r_calls r)) && negb (py_truthy (either "blade_uid" s d)) &&
           negb (py_truthy (py_get "error" (dl_values d))) && truthy (strip t) &&
           negb (contains REPLAN_MARKER (strip t)) && negb (py_truthy (either "injection_method" s d))
        then
          if negb (on "_execute_text_nudged" s) then put "_execute_text_nudged" (VBool true) (say EXECUTION_REQUIRED d)
          else amend (fail_state EXECUTION_FAILED "LLM concluded without tool use" (g_messages s ++ dl_messages d)) d
        else d).

(** Steps of the use case that were not carried out. *)
Definition conclude_steps (s : GState) (r : Response) (method : pyval) (d : Delta) : Exc Delta :=
  if negb (nonempty (r_calls r)) && eqs method "kubectl_native" && negb (on "_kubectl_step_nudged" s) then
    case ← as_str (py_or (either "skill_case_content" s d) (VStr ""));
    nudge ← check_injection_step_completeness case (g_messages s ++ dl_messages d);
    Some (match nudge with
          | Some t => if truthy t then put "_kubectl_step_nudged" (VBool true) (put "injection_method" VNone (say t d)) else d
          | None => d
          end)
  else Some d.

Definition conclude (s : GState) (response : option Response) (d : Delta) : Exc Delta :=
  match response with
  | None => Some d
  | Some r => let method := either "injection_method" s d in d' ← conclude_text s r d; conclude_steps s r method d'
  end.

Definition last_iteration (s : GState) (count : Z) (d : Delta) : Delta :=
  if (MAX_EXECUTE_LOOP <=? count)%Z && negb (py_truthy (either "blade_uid" s d))
  then amend (fail_state EXECUTION_TIMEOUT ("max_iterations=" +:+ str_of_Z MAX_EXECUTE_LOOP) (g_messages s ++ dl_messages d)) d
  else d.

(** *** Replanning *)

Definition asked_replan (s : GState) (response : option Response) : Exc (option (dict pyval)) :=
  asked ← (match response with
           | Some r => t ← response_text r; Some (if contains REPLAN_MARKER t then Some t else None)
           | None => Some None
           end);
  match asked with
  | Some t => c ← _build_replan_context s t; Some (Some c)
  | None =>
      e ← _detect_replanable_tool_error (g_messages s);
      match e with
      | Some e => if _is_llm_handling_blade_error (g_messages s) then Some None else c ← _build_replan_context s e; Some (Some c)
      | None => Some None
      end
  end.

Definition summary_of (context : dict pyval) : string := text_or_empty (get_d "error_summary" (VStr "") context).

Definition history_entry (n : Z) (context : dict pyval) : pyval :=
  VDict [("attempt", VInt n); ("original_error", get_d "error_summary" (VStr "") context);
         ("action_taken", VStr "(pending Phase 1 analysis)")].

Definition fire_replan (s : GState) (n : Z) (context : dict pyval) (d : Delta) : Exc Delta :=
  history ← py_iter (py_or (get "replan_history" s) (VList []));
  let d1 := put "replan_count" (VInt (n + 1)) (put "replan_context" (VDict context) (put "replan_requested" (VBool true) d)) in
  let d2 := if replan_reset_execute_count then put "execute_loop_count" (VInt 0) d1 else d1 in
  let d3 := put "approved_target" VNone (put "error" VNone d2) in
  let d4 := if py_truthy (py_get "existing_blade_uids" context) then d3 else put "blade_uid" VNone d3 in
  let d5 := put "replan_history" (VList (history ++ [history_entry (n + 1) context])) d4 in
  attempt ← begin_attempt (dict_update (g_values s) (dl_values d5)) (get "fault_spec" s) REASON_GRAPH_REPLAN
              (py_take 200 (summary_of context)) (VFloat (float_repr now));
  Some (amend attempt d5).

Definition replan (s : GState) (context : dict pyval) (d : Delta) : Exc Delta :=
  n ← counter_of "replan_count" s;
  if (n <? max_replan_count cfg)%Z then fire_replan s n context d
  else
    Some (put "replan_requested" (VBool false)
      (amend (fail_state REPLAN_EXHAUSTED
                ("attempts=" +:+ str_of_Z n +:+ ", last_error=" +:+ py_take 200 (summary_of context))
                (g_messages s ++ dl_messages d)) d)).

(** *** One run *)

Definition run_hook (s : GState) : Exc Delta := match hook with Some h => h s | None => Some (mkDelta [] []) end.

Definition iterate (s : GState) (count : Z) : Exc Delta :=
  updates ← run_hook s;
  response ← ask s count;
  entries ← observed s [("execute_loop_count", VInt count)];
  d ← (match response with Some r => answered s entries r | None => Some (mkDelta [] entries) end);
  d ← conclude s response (merge_hook_updates d updates);
  let d := last_iteration s count d in
  context ← asked_replan s response;
  d ← (match context with Some c => replan s c d | None => Some d end);
  values ← mark_wall_clock_timeout cfg now s (dl_values d);
  Some (mkDelta (dl_messages d) values).

Definition _execute_loop_with_llm (s : GState) : Exc Delta :=
  n ← counter_of "execute_loop_count" s;
  let count := (n + 1)%Z in
  if (MAX_EXECUTE_LOOP <? count)%Z then
    Some (mkDelta [] (fail_state EXECUTION_TIMEOUT ("max_iterations=" +:+ str_of_Z MAX_EXECUTE_LOOP) (g_messages s)))
  else
    z ← zombie_replan s;
    if (z : bool) then values ← zombie_result s count; Some (mkDelta [] values)
    else iterate s count.
End node.
