(* ===== verification/ExecuteProps.v ===== *)
(** * Properties of the execution loop

    The node takes its place in the graph: with the router it ends after a
    bounded number of turns whatever the model answers, a new plan drops the
    approval of the old one, and what the node records is what the
    conversation shows. *)

From stdpp Require Import base list strings sets relations.
From Stdlib Require Import ZArith Ascii SpecFloat.
From S2P Require Import TargetTypes Classifier ClassifierProps TargetGuard Freeze.
From S2P Require Import Prelude PyText PyRe PyValue PyFloat PyOps Json FaultSpec Failure Screener Router Conflict FaultContext SafetyGate InjectionDetection BladeUid AttemptTracker FaultType Blade DirectExecute PlanningMetadata ReactHelpers Graph JsonDump ExecuteLoop.

(** ** What a stage of the node leaves alone *)

(** [d'] has the entries of [d] but for the keys [ks]. *)
Definition within (ks : list string) (d d' : Delta) : Prop :=
  (∀ k, k ∉ ks → dict_get k (dl_values d') = dict_get k (dl_values d)) ∧
  (dict_wf (dl_values d) → dict_wf (dl_values d')).

#[export] Instance within_refl ks : Reflexive (within ks).
Proof. by split. Qed.

#[export] Instance within_trans ks : Transitive (within ks).
Proof. intros a b c [H1 W1] [H2 W2]. split; [|auto]. intros k Hk. by rewrite H2, H1. Qed.

Lemma within_mono ks ks' d d' : ks ⊆ ks' → within ks d d' → within ks' d d'.
Proof. intros Hs [H W]. split; [|done]. intros k Hk. apply H. set_solver. Qed.

Lemma put_within ks k v d : k ∈ ks → within ks d (put k v d).
Proof.
  intros Hk. split; [|by intros; apply dict_set_wf]. intros j Hj. cbn. apply dict_get_set_ne. set_solver.
Qed.

Lemma amend_within ks e d : (∀ k, k ∈ dict_keys e → k ∈ ks) → within ks d (amend e d).
Proof.
  intros Hk. split; [|by intros; apply dict_update_wf]. intros j Hj. cbn. apply update_get_notin. intros H. by apply Hj, Hk.
Qed.

Lemma say_within ks t d : within ks d (say t d).
Proof. by split. Qed.

Lemma fail_within ks c t m d : "failure_detail" ∈ ks → "error" ∈ ks → within ks d (amend (fail_state c t m) d).
Proof. intros H1 H2. apply amend_within. intros k Hk. cbn in Hk. set_solver. Qed.

Ltac in_list := apply str_in_spec; reflexivity.

#[export] Hint Resolve say_within : core.
#[export] Hint Extern 1 (within _ _ (put _ _ _)) => apply put_within; in_list : core.
#[export] Hint Extern 1 (within _ _ (amend (fail_state _ _ _) _)) => apply fail_within; in_list : core.

Definition COUNTERS : list string := ["execute_loop_count"; "replan_count"; "replan_requested"].

(** The keys the loop over the calls of an answer writes. *)
Lemma flags_entry_get flags e k : k ≠ "blade_parsed_flags" → dict_get k (flags_entry flags e) = dict_get k e.
Proof. intros Hk. unfold flags_entry. destruct (parse_blade_flags flags); [done|]. by apply dict_get_set_ne. Qed.

Lemma flags_entry_wf flags e : dict_wf e → dict_wf (flags_entry flags e).
Proof. unfold flags_entry. destruct (parse_blade_flags flags); [done|]. apply dict_set_wf. Qed.

Definition harvested (h h' : Harvest) : Prop :=
  (∀ k, k ≠ "blade_parsed_flags" → k ≠ "original_replicas" → dict_get k (h_entries h') = dict_get k (h_entries h)) ∧
  (dict_wf (h_entries h) → dict_wf (h_entries h')).

#[export] Instance harvested_refl : Reflexive harvested.
Proof. by split. Qed.

Lemma flags_harvested flags h : harvested h (mkHarvest (flags_entry flags (h_entries h)) (h_replicas h)).
Proof. split; [intros; by apply flags_entry_get | apply flags_entry_wf]. Qed.

Lemma scale_harvested s h v h' : record_scale s h v = Some h' → harvested h h'.
Proof.
  intros (r & _ & H)%bind_Some. destruct r as [[name new]|]; [|by injection H as <-]. head_if H; [by injection H as <-|].
  apply bind_Some in H as (o & _ & H). destruct o as [o|]; [|by injection H as <-]. head_if H; [by injection H as <-|].
  injection H as <-. split; [|by intros; apply dict_set_wf]. intros. by apply dict_get_set_ne.
Qed.

Lemma kubectl_harvested s h args h' : harvest_kubectl s h args = Some h' → harvested h h'.
Proof.
  unfold harvest_kubectl. intros H. head_if H.
  - apply bind_Some in H as (b & _ & H). apply bind_Some in H as (c & _ & H). head_if H; [|by injection H as <-].
    apply bind_Some in H as (t & _ & [= <-]). destruct (_parse_blade_create_from_v_args t) as [[[[? ?] ?] f]|]; [|done].
    case_if; [apply flags_harvested | done].
  - head_if H; [|by injection H as <-]. apply bind_Some in H as (t & _ & H). by apply scale_harvested in H.
Qed.

Lemma call_harvested s h tc h' tc' : harvest_call s h tc = Some (h', tc') → harvested h h'.
Proof.
  unfold harvest_call. intros H. head_if H.
  - apply bind_Some in H as (args & _ & H). apply bind_Some in H as (h1 & H1 & H). apply bind_Some in H as (a & _ & [= <- <-]).
    head_if H1; [|by injection H1 as <-]. apply bind_Some in H1 as (t & _ & [= <-]). apply flags_harvested.
  - head_if H; [|by injection H as <- <-]. apply bind_Some in H as (args & _ & H).
    apply bind_Some in H as (h1 & H1 & [= <- <-]). by eapply kubectl_harvested.
Qed.

Lemma calls_harvested s h calls h' calls' : harvest_calls s h calls = Some (h', calls') → harvested h h'.
Proof.
  revert h calls'. induction calls as [|tc calls IH]; intros h calls'; [by intros [= <- <-]|].
  intros ([h1 tc1] & H1 & H)%bind_Some. apply bind_Some in H as ([h2 rest] & H2 & [= <- <-]).
  apply call_harvested in H1 as [G1 W1]. apply IH in H2 as [G2 W2]. split; [|auto]. intros. by rewrite G2, G1.
Qed.

Section node_props.
Context (cfg : RouterSettings) (loops : LoopSettings) (sc : SafetySettings) (reset : bool).
Context (prompt : GState → Exc string) (llm : option (list Message → list string → Exc Response)) (tools : list string).
Context (hook : option (GState → Exc Delta)) (now : spec_float) (now_iso : pyval).

Local Abbreviation node := (_execute_loop_with_llm cfg loops sc reset prompt llm tools hook now now_iso).

(** The hook writes none of these. *)
Definition hook_keeps (ks : list string) : Prop :=
  ∀ h s d, hook = Some h → h s = Some d → dict_wf (dl_values d) ∧ ∀ k, k ∈ ks → k ∉ dict_keys (dl_values d).

(** *** The stages *)

Definition OBSERVED : list string :=
  ["blade_uid"; "injection_start_time"; "injection_method"; "kubectl_exec_pod_name"; "skill_case_content"].

(** Dicts as the values of an update, so that the lemmas on stages apply. *)
Definition entries (e : dict pyval) : Delta := mkDelta [] e.

Lemma set_within ks k v e : k ∈ ks → within ks (entries e) (entries (dict_set k v e)).
Proof. apply (put_within ks k v (entries e)). Qed.

(** A chain of writes, from the last one back. *)
Ltac within_sets :=
  repeat (case_match; try reflexivity);
  repeat first [reflexivity | etrans; [|apply set_within; in_list] | etrans; [|apply put_within; in_list]].

Lemma uid_within s uid e : within OBSERVED (entries e) (entries (uid_entries now_iso s uid e)).
Proof.
  unfold uid_entries. within_sets.
Qed.

Lemma method_within s m e : within OBSERVED (entries e) (entries (method_entries now_iso s m e)).
Proof.
  unfold method_entries. within_sets.
Qed.

Lemma observed_within s e e' : observed now_iso s e = Some e' → within OBSERVED (entries e) (entries e').
Proof.
  intros (uid & _ & H)%bind_Some. apply bind_Some in H as (m & _ & H). apply bind_Some in H as (p & _ & [= <-]).
  etrans; [apply (uid_within s uid)|]. etrans; [apply (method_within s m)|].
  within_sets.
Qed.

Lemma answered_within s e r d :
  answered sc s e r = Some d → within ["blade_parsed_flags"; "original_replicas"] (entries e) d.
Proof.
  intros (kc & _ & H)%bind_Some. apply bind_Some in H as (calls & _ & H). apply bind_Some in H as (rep & _ & H).
  apply bind_Some in H as ([h cs] & H & [= <-]). apply calls_harvested in H as [G W]. split; [|exact W].
  intros k Hk. cbn. apply G; set_solver.
Qed.

Definition CONCLUDED : list string :=
  ["_execute_text_nudged"; "_kubectl_step_nudged"; "injection_method"; "failure_detail"; "error"].

Lemma text_within s r d d' : conclude_text s r d = Some d' → within CONCLUDED d d'.
Proof.
  intros (t & _ & [= <-])%bind_Some. destruct (_ && _); [|done]. destruct (negb _); [|auto].
  etrans; [|apply put_within; in_list]. auto.
Qed.

Lemma steps_within s r m d d' : conclude_steps s r m d = Some d' → within CONCLUDED d d'.
Proof.
  unfold conclude_steps. intros H. head_if H; [|by injection H as <-].
  apply bind_Some in H as (c & _ & H). apply bind_Some in H as (n & _ & [= <-]).
  destruct n as [t|]; [|done]. destruct (truthy t); [|done].
  etrans; [|apply put_within; in_list]. etrans; [|apply put_within; in_list]. auto.
Qed.

Lemma conclude_within s r d d' : conclude s r d = Some d' → within CONCLUDED d d'.
Proof.
  destruct r as [r|]; [|by intros [= <-]]. intros (d1 & H1%text_within & H2%steps_within)%bind_Some. by etrans.
Qed.

Lemma last_within s count d : within ["failure_detail"; "error"] d (last_iteration cfg s count d).
Proof. unfold last_iteration. destruct (_ && _); [auto | done]. Qed.

Lemma mark_within s e e' :
  mark_wall_clock_timeout cfg now s e = Some e' → within ["failure_detail"; "error"] (entries e) (entries e').
Proof.
  intros (b & _ & H)%bind_Some. destruct b; cbn [negb] in H; [|by injection H as <-].
  cbv zeta in H. repeat case_match; injection H as <-;
    repeat first [reflexivity | etrans; [|apply set_within; in_list]].
Qed.

Lemma merge_within ks d u :
  (∀ k, k ∈ dict_keys (dl_values u) → k ∈ ks) → within ks d (merge_hook_updates d u).
Proof. intros H. split; [|apply dict_update_wf]. intros k Hk. cbn. apply update_get_notin. intros ?. by apply Hk, H. Qed.

(** *** A run that does not fail early *)

Definition UNCOUNTED : list string :=
  OBSERVED ++ ["blade_parsed_flags"; "original_replicas"] ++ CONCLUDED.

Definition REPLANNED : list string :=
  ["replan_requested"; "replan_context"; "replan_count"; "execute_loop_count"; "error"; "approved_target"; "blade_uid";
   "replan_history"; "pipeline_attempt"; "pipeline_attempts_history"; "failure_detail"].

(** The counters and flags after a replan was asked for. *)
Definition replanned (s : GState) (d d' : Delta) : Prop :=
  ∃ n, counter_of "replan_count" s = Some n ∧
  if (n <? max_replan_count cfg)%Z then
    dict_get "replan_count" (dl_values d') = Some (VInt (n + 1)) ∧
    dict_get "replan_requested" (dl_values d') = Some (VBool true) ∧
    dict_get "approved_target" (dl_values d') = Some VNone ∧
    dict_get "error" (dl_values d') = Some VNone ∧
    dict_get "execute_loop_count" (dl_values d') =
      (if reset then Some (VInt 0) else dict_get "execute_loop_count" (dl_values d))
  else
    dict_get "replan_count" (dl_values d') = dict_get "replan_count" (dl_values d) ∧
    dict_get "replan_requested" (dl_values d') = Some (VBool false) ∧
    dict_get "execute_loop_count" (dl_values d') = dict_get "execute_loop_count" (dl_values d) ∧
    py_truthy (py_get "error" (dl_values d')) = true.

Lemma begin_keys st t r n i a :
  begin_attempt st t r n i = Some a → dict_keys a = ["pipeline_attempt"; "pipeline_attempts_history"].
Proof. intros (c & _ & H)%bind_Some. by apply bind_Some in H as (h & _ & [= <-]). Qed.

Ltac read_put := repeat (rewrite dict_get_set; cbn [String.eqb Ascii.eqb Bool.eqb]).

Lemma fire_replanned s n c d d' :
  counter_of "replan_count" s = Some n → (n <? max_replan_count cfg)%Z = true →
  fire_replan reset now s n c d = Some d' → replanned s d d' ∧ (dict_wf (dl_values d) → dict_wf (dl_values d')).
Proof.
  intros Hn Hlt (h & _ & H)%bind_Some. apply bind_Some in H as (a & Ha & [= <-]). apply begin_keys in Ha.
  split; [|intros Hw; cbn; apply dict_update_wf; destruct (py_truthy _), reset; cbn; repeat apply dict_set_wf; exact Hw].
  exists n. split; [done|]. rewrite Hlt.
  cbn [amend dl_values]. rewrite !update_get_notin by (rewrite Ha; apply str_in_false; reflexivity).
  cbn [put dl_values]. destruct (py_truthy _), reset; cbn [put dl_values]; read_put; done.
Qed.

Lemma fail_state_error c t m d : py_truthy (py_get "error" (dl_values (amend (fail_state c t m) d))) = true.
Proof.
  unfold amend, fail_state, py_get. cbn [dl_values]. unfold dict_update. cbn [fold_left fst snd]. rewrite dict_get_set. cbn.
  unfold to_reason_string. cbn [f_context f_category f_llm_analysis]. by destruct c; repeat case_if.
Qed.

Lemma replan_replanned s c d d' :
  replan cfg reset now s c d = Some d' → replanned s d d' ∧ (dict_wf (dl_values d) → dict_wf (dl_values d')).
Proof.
  intros (n & Hn & H)%bind_Some. destruct (n <? max_replan_count cfg)%Z eqn:E; [by eapply fire_replanned|].
  injection H as <-. set (f := fail_state _ _ _).
  assert (Hw : within ["failure_detail"; "error"] d (amend f d)) by (apply fail_within; in_list).
  split; [|intros; apply dict_set_wf; by apply Hw].
  exists n. split; [done|]. rewrite E. cbn [put dl_values]. destruct Hw as [Hw _]. unfold py_get. read_put.
  rewrite !Hw by (apply str_in_false; reflexivity). split_and!; [done..|]. apply fail_state_error.
Qed.

(** Where a run that reaches the model ends. *)
Inductive iterated (s : GState) (count : Z) (d : Delta) : option (dict pyval) → Prop :=
  | it_plain :
      dict_get "execute_loop_count" (dl_values d) = Some (VInt count) →
      dict_get "replan_count" (dl_values d) = None → dict_get "replan_requested" (dl_values d) = None →
      iterated s count d None
  | it_fired n c :
      counter_of "replan_count" s = Some n → (n < max_replan_count cfg)%Z →
      dict_get "execute_loop_count" (dl_values d) = Some (VInt (if reset then 0 else count)) →
      dict_get "replan_count" (dl_values d) = Some (VInt (n + 1)) →
      dict_get "replan_requested" (dl_values d) = Some (VBool true) →
      dict_get "approved_target" (dl_values d) = Some VNone →
      iterated s count d (Some c)
  | it_exhausted n c :
      counter_of "replan_count" s = Some n → (max_replan_count cfg <= n)%Z →
      dict_get "execute_loop_count" (dl_values d) = Some (VInt count) →
      dict_get "replan_count" (dl_values d) = None → dict_get "replan_requested" (dl_values d) = Some (VBool false) →
      py_truthy (py_get "error" (dl_values d)) = true →
      iterated s count d (Some c).

Lemma subset_bool (l k : list string) : forallb (λ x, x ∈? k) l = true → l ⊆ k.
Proof. rewrite forallb_forall. intros H x Hx%list_elem_of_In. by apply str_in_spec, H. Qed.

Lemma uncounted_subset l u : forallb (λ x, x ∈? UNCOUNTED) l = true → l ⊆ UNCOUNTED ++ u.
Proof. intros H%subset_bool x Hx. apply elem_of_app. auto. Qed.

Lemma mark_error s e e' :
  mark_wall_clock_timeout cfg now s e = Some e' → py_truthy (py_get "error" e) = true → py_truthy (py_get "error" e') = true.
Proof.
  intros (b & _ & H)%bind_Some He. destruct b; cbn [negb] in H; [|by injection H as <-]. cbv zeta in H. rewrite He in H.
  head_if H; injection H as <-; [done|]. case_if; [done|]. unfold py_get. by rewrite dict_get_set_ne.
Qed.

Lemma within_get ks d d' k : within ks d d' → (k ∈? ks) = false → dict_get k (dl_values d') = dict_get k (dl_values d).
Proof. intros [H _] Hk. apply H. by apply str_in_false. Qed.

Lemma before_replan s count response e d0 u d1 :
  observed now_iso s [("execute_loop_count", VInt count)] = Some e →
  match response with Some r => answered sc s e r | None => Some (entries e) end = Some d0 →
  conclude s response (merge_hook_updates d0 u) = Some d1 →
  dict_wf (dl_values u) → (∀ k, k ∈ COUNTERS → k ∉ dict_keys (dl_values u)) →
  let d := last_iteration cfg s count d1 in
  dict_get "execute_loop_count" (dl_values d) = Some (VInt count) ∧ dict_get "replan_count" (dl_values d) = None ∧
  dict_get "replan_requested" (dl_values d) = None ∧ dict_wf (dl_values d).
Proof.
  intros He Hd Hc Hwu Hu. set (ks := UNCOUNTED ++ dict_keys (dl_values u)).
  assert (H0 : within ks (entries e) d0).
  { destruct response; [|by injection Hd as <-]. apply answered_within in Hd. eapply within_mono; [|exact Hd]. by apply uncounted_subset. }
  assert (H : within ks (entries [("execute_loop_count", VInt count)]) (last_iteration cfg s count d1)).
  { apply observed_within in He. etrans; [eapply within_mono; [|exact He]; by apply uncounted_subset|].
    etrans; [exact H0|]. etrans; [apply (merge_within ks _ u); intros k Hk; apply elem_of_app; by right|].
    apply conclude_within in Hc. etrans; [eapply within_mono; [|exact Hc]; by apply uncounted_subset|].
    eapply within_mono; [|apply last_within]. by apply uncounted_subset. }
  destruct H as [H W]. cbn zeta.
  assert (Hk : ∀ k, (k ∈? COUNTERS) = true → (k ∈? UNCOUNTED) = false → k ∉ ks).
  { intros k Hk%str_in_spec Hn%str_in_false [Hi|Hi]%elem_of_app; [done | by apply (Hu k)]. }
  rewrite !H by (apply Hk; reflexivity). split_and!; [done..|]. apply W, NoDup_singleton.
Qed.

Lemma iterate_cases s count d :
  hook_keeps COUNTERS → iterate cfg loops sc reset prompt llm tools hook now now_iso s count = Some d →
  dict_wf (dl_values d) ∧
  ∃ response c, ask cfg loops prompt llm tools s count = Some response ∧ asked_replan s response = Some c ∧ iterated s count d c.
Proof.
  intros Hh (u & Hu & H)%bind_Some. apply bind_Some in H as (response & Hr & H).
  apply bind_Some in H as (e & He & H). apply bind_Some in H as (d0 & Hd0 & H).
  apply bind_Some in H as (d1 & Hd1 & H). apply bind_Some in H as (c & Hc & H).
  apply bind_Some in H as (d2 & Hd2 & H). apply bind_Some in H as (values & Hv & [= <-]).
  assert (Hhk : dict_wf (dl_values u) ∧ ∀ k, k ∈ COUNTERS → k ∉ dict_keys (dl_values u)).
  { unfold run_hook in Hu. destruct hook as [h|] eqn:Eh; [by eapply Hh|]. injection Hu as <-. split; [apply NoDup_nil_2|]. set_solver. }
  destruct (before_replan s count response e d0 u d1 He Hd0 Hd1) as (E1 & E2 & E3 & W); [apply Hhk..|].
  pose proof (mark_error _ _ _ Hv) as He'. apply mark_within in Hv as [Hg Wv].
  assert (Hg' : ∀ k, (k ∈? ["failure_detail"; "error"]) = false → dict_get k values = dict_get k (dl_values d2)).
  { intros k Hk%str_in_false. by apply Hg. }
  cbn [dl_values]. destruct c as [c|].
  - apply replan_replanned in Hd2 as [(n & Hn & H) W2]. split; [by apply Wv, W2|]. exists response, (Some c).
    split_and!; [done..|]. destruct (n <? max_replan_count cfg)%Z eqn:El.
    + destruct H as (H1 & H2 & H3 & _ & H5). apply (it_fired _ _ _ n); [done | lia | ..]; cbn [dl_values]; rewrite Hg'; try done.
      rewrite H5. by destruct reset.
    + destruct H as (H1 & H2 & H3 & H4). apply (it_exhausted _ _ _ n); [done | lia | ..]; cbn [dl_values]; rewrite ?Hg'; try done.
      * by rewrite H3.
      * by rewrite H1.
      * by apply He'.
  - injection Hd2 as <-. split; [by apply Wv|]. exists response, None. split_and!; [done..|].
    apply it_plain; cbn [dl_values]; by rewrite Hg'.
Qed.
End node_props.

(** ** The loop ends *)

(** [state.get(k, 0)] after an update. *)
Lemma counter_of_update k s d v :
  dict_wf (dl_values d) → dict_get k (dl_values d) = Some (VInt v) → counter_of k (update s d) = Some v.
Proof. intros Hw Hg. unfold counter_of, update. cbn [g_values]. by rewrite dict_get_update, Hg. Qed.

Lemma counter_of_keep k s d :
  dict_wf (dl_values d) → dict_get k (dl_values d) = None → counter_of k (update s d) = counter_of k s.
Proof. intros Hw Hg. unfold counter_of, update. cbn [g_values]. by rewrite dict_get_update, Hg. Qed.

Lemma count_ge_counter k s n z : counter_of k s = Some z → count_ge k s n = Some (n <=? z)%Z.
Proof. unfold counter_of, count_ge. intros H. repeat case_match; simplify_eq; done. Qed.

Lemma on_update k s d v :
  dict_wf (dl_values d) → dict_get k (dl_values d) = Some v → on k (update s d) = py_truthy v.
Proof. intros Hw Hg. unfold on, get, py_get, update. cbn [g_values]. by rewrite dict_get_update, Hg. Qed.

Lemma on_keep k s d : dict_wf (dl_values d) → dict_get k (dl_values d) = None → on k (update s d) = on k s.
Proof. intros Hw Hg. unfold on, get, py_get, update. cbn [g_values]. by rewrite dict_get_update, Hg. Qed.

Lemma fail_error_on s c t m : on "error" (update s (mkDelta [] (fail_state c t m))) = true.
Proof.
  erewrite on_update; [|apply NoDup_cons; split; [by apply str_in_false | apply NoDup_singleton] | reflexivity].
  apply reason_truthy.
Qed.

Section termination.
Context (cfg : RouterSettings) (loops : LoopSettings) (sc : SafetySettings) (reset : bool).
Context (prompt : GState → Exc string) (tools : list string) (hook : option (GState → Exc Delta)).

(** From one run of the node to the next.  After "continue" the screener and
    the tools run, which leave the counters and the request alone; after
    "replan" the planning loop has run, which takes the request back.  The
    answers of the model and the clock are new every time. *)
Inductive turn (s s' : GState) : Prop :=
  | turn_continue llm now now_iso d t :
      _execute_loop_with_llm cfg loops sc reset prompt llm tools hook now now_iso s = Some d →
      should_continue_execute_loop cfg t (update s d) = Some "continue" →
      (∀ k, k ∈ COUNTERS → dict_get k (g_values s') = dict_get k (g_values (update s d))) → turn s s'
  | turn_replan llm now now_iso d t :
      _execute_loop_with_llm cfg loops sc reset prompt llm tools hook now now_iso s = Some d →
      should_continue_execute_loop cfg t (update s d) = Some "replan" →
      dict_get "execute_loop_count" (g_values s') = dict_get "execute_loop_count" (g_values (update s d)) →
      dict_get "replan_count" (g_values s') = dict_get "replan_count" (g_values (update s d)) →
      on "replan_requested" s' = false → turn s s'.

(** A request that is still open cannot be followed any more. *)
Definition settled (s : GState) : Prop :=
  on "replan_requested" s = true → ∃ r, counter_of "replan_count" s = Some r ∧ (max_replan_count cfg <= r)%Z.

Lemma settled_no_replan s e : settled s → _should_replan cfg s e = Some true → py_truthy e = true.
Proof.
  intros Hs (o & Ho & H)%bind_Some. destruct o; [done|]. destruct (on "replan_requested" s) eqn:Eo.
  - destruct (Hs Eo) as (r & Hr & ?). rewrite (count_ge_counter _ _ _ _ Hr) in Ho. injection Ho as Ho. lia.
  - by destruct (py_truthy e).
Qed.

(** Without an error the router plans anew only on an open request. *)
Lemma replan_asked t s :
  should_continue_execute_loop cfg t s = Some "replan" → on "error" s = false → ¬ settled s.
Proof.
  intros H He Hs. apply bind_Some in H as (b & _ & H). destruct b; [done|]. apply bind_Some in H as (o & _ & H).
  apply bind_Some in H as (p & Hp & H). destruct p; [by apply settled_no_replan in Hp|]. destruct o; [done|].
  rewrite He in H. by repeat case_if_in H.
Qed.

(** The router ends a failed run whose replans are used up. *)
Lemma exhausted_ends t s r x :
  counter_of "replan_count" s = Some r → (max_replan_count cfg <= r)%Z → on "error" s = true →
  should_continue_execute_loop cfg t s = Some x → x = "end".
Proof.
  intros Hr Hl He H. apply bind_Some in H as (b & _ & H). destruct b; [congruence|].
  apply bind_Some in H as (o & _ & H). assert (Hn : ∀ e, _should_replan cfg s e = Some false).
  { intros e. unfold _should_replan. rewrite (count_ge_counter _ _ _ _ Hr). cbn. by destruct (max_replan_count cfg <=? r)%Z eqn:E; [|lia]. }
  rewrite !Hn in H. cbn in H. destruct o; [congruence|]. rewrite He in H. cbn in H. congruence.
Qed.

(** Past the limit the router ends as well, when nothing is asked for. *)
Lemma over_ends t s n x :
  settled s → counter_of "execute_loop_count" s = Some n → (max_execute_loop cfg <= n)%Z →
  should_continue_execute_loop cfg t s = Some x → x = "end".
Proof.
  intros Hs Hn Hl H. apply bind_Some in H as (b & _ & H). destruct b; [congruence|].
  rewrite (count_ge_counter _ _ _ _ Hn) in H. cbn [mbind option_bind] in H. apply bind_Some in H as (p & Hp & H).
  destruct (max_execute_loop cfg <=? n)%Z eqn:E; [|lia]. destruct p; [|congruence]. by apply settled_no_replan in Hp.
Qed.

(** What the router says of an open request. *)
Lemma continue_settled t s r :
  counter_of "replan_count" s = Some r → should_continue_execute_loop cfg t s = Some "continue" → settled s.
Proof.
  intros Hr H Ho. exists r. split; [done|]. apply bind_Some in H as (b & _ & H). destruct b; [done|].
  apply bind_Some in H as (o & _ & H). apply bind_Some in H as (p & Hp & H). unfold _should_replan in Hp.
  rewrite (count_ge_counter _ _ _ _ Hr) in Hp. cbn [mbind option_bind] in Hp. rewrite Ho in Hp.
  destruct (max_replan_count cfg <=? r)%Z eqn:El; [lia|]. injection Hp as <-. by destruct o.
Qed.

Hypothesis hook_frame : hook_keeps hook COUNTERS.
Hypothesis max_nonneg : (0 <= max_execute_loop cfg)%Z.

(** How much of the budget is left. *)
Definition budget (n r : Z) : Z :=
  (Z.max 0 (max_replan_count cfg - r) * (max_execute_loop cfg + 1) + (max_execute_loop cfg - n))%Z.

(** One run: it fails for good, or it gets to ask the model. *)
Lemma node_cases llm now now_iso s d :
  settled s → _execute_loop_with_llm cfg loops sc reset prompt llm tools hook now now_iso s = Some d →
  on "error" (update s d) = true ∧ (∀ t x, should_continue_execute_loop cfg t (update s d) = Some x → x = "end") ∨
  dict_wf (dl_values d) ∧
  ∃ n response c, counter_of "execute_loop_count" s = Some n ∧ (n < max_execute_loop cfg)%Z ∧
    ask cfg loops prompt llm tools s (n + 1) = Some response ∧ asked_replan s response = Some c ∧
    iterated cfg reset s (n + 1) d c.
Proof.
  intros Hs H. apply bind_Some in H as (n & Hn & H). head_if H.
  { left. injection H as <-. set (d := mkDelta [] _). assert (Hw : dict_wf (dl_values d)).
    { apply NoDup_cons; split; [by apply str_in_false | apply NoDup_singleton]. }
    split; [apply fail_error_on|]. intros t x. apply (over_ends t _ n); [|by rewrite counter_of_keep | lia].
    intros Ho. rewrite on_keep in Ho by done. rewrite counter_of_keep by done. by apply Hs. }
  apply bind_Some in H as (z & Hz & H). apply bind_Some in Hz as (r & Hr & [= Hz]). destruct z.
  - left. apply bind_Some in H as (v & Hv & [= <-]). unfold zombie_result in Hv. rewrite Hr in Hv. injection Hv as <-.
    apply andb_true_iff in Hz as [Hz _]. apply andb_true_iff in Hz as [_ Hz].
    set (d := mkDelta [] _). assert (Hw : dict_wf (dl_values d)).
    { repeat (apply NoDup_cons; split; [by apply str_in_false|]). apply NoDup_nil_2. }
    assert (He : on "error" (update s d) = true).
    { erewrite on_update; [|exact Hw | reflexivity]. apply reason_truthy. }
    split; [done|]. intros t x. apply (exhausted_ends t _ r); [by rewrite counter_of_keep | lia | done].
  - right. apply iterate_cases in H as [Hw (response & c & Ha & Hq & H)]; [|exact hook_frame].
    split; [done|]. exists n, response, c. split_and!; try done. lia.
Qed.

(** A request made when no replan is left ends the run. *)
Lemma iterated_exhausted s count d c r :
  dict_wf (dl_values d) → counter_of "replan_count" s = Some r → (max_replan_count cfg <= r)%Z → iterated cfg reset s count d (Some c) →
  on "error" (update s d) = true ∧ ∀ t x, should_continue_execute_loop cfg t (update s d) = Some x → x = "end".
Proof.
  intros Hw Hr Hl H. inversion H as [|r' c' H0 Hl' | r' c' H0 Hl' H1 H2 H3 H4]; simplify_eq; [lia|].
  assert (He : on "error" (update s d) = true).
  { unfold on, get, py_get, update in *. cbn [g_values]. rewrite dict_get_update by done. by destruct (dict_get "error" (dl_values d)). }
  split; [done|]. intros t x. apply (exhausted_ends t _ r); [by rewrite counter_of_keep | lia | done].
Qed.

(** The counters after a run that does not end the loop. *)
Lemma node_progress llm now now_iso s d n r :
  settled s → counter_of "execute_loop_count" s = Some n → counter_of "replan_count" s = Some r → (0 <= n)%Z →
  _execute_loop_with_llm cfg loops sc reset prompt llm tools hook now now_iso s = Some d →
  (∀ t x, should_continue_execute_loop cfg t (update s d) = Some x → x = "end") ∨
  ∃ n' r', counter_of "execute_loop_count" (update s d) = Some n' ∧ counter_of "replan_count" (update s d) = Some r' ∧
    (0 <= n' <= max_execute_loop cfg)%Z ∧ (budget n' r' < budget n r)%Z.
Proof.
  intros Hs Hn Hr Hpos H. apply node_cases in H as [[_ H]|[Hw (n0 & response & c & Hn0 & Hl & _ & _ & H)]]; [by left| |done].
  simplify_eq. pose proof H as Hit. unfold budget. destruct H as [H1 H2 H3 | r' c H0 Hl' H1 H2 H3 H4 | r' c H0 Hl' H1 H2 H3 H4].
  - right. exists (n + 1)%Z, r. erewrite counter_of_update by done. rewrite counter_of_keep by done. split_and!; [done..| | |]; nia.
  - right. simplify_eq. exists (if reset then 0 else n + 1)%Z, (r + 1)%Z.
    erewrite !counter_of_update by done. split_and!; [done..| | |]; destruct reset; nia.
  - left. simplify_eq. intros t x. by eapply (iterated_exhausted s (n + 1)).
Qed.

Lemma turn_progress s s' n r :
  settled s → counter_of "execute_loop_count" s = Some n → counter_of "replan_count" s = Some r → (0 <= n)%Z → turn s s' →
  settled s' ∧ ∃ n' r', counter_of "execute_loop_count" s' = Some n' ∧ counter_of "replan_count" s' = Some r' ∧
    (0 <= n' <= max_execute_loop cfg)%Z ∧ (budget n' r' < budget n r)%Z.
Proof.
  intros Hs Hn Hr Hp [llm now iso d t Hd Hc Hk | llm now iso d t Hd Hc Hk1 Hk2 Ho];
    (destruct (node_progress _ _ _ _ _ _ _ Hs Hn Hr Hp Hd) as [He | (n' & r' & Hn' & Hr' & Hb)];
     [by apply He in Hc|]).
  - assert (Hsame : ∀ k, k ∈ COUNTERS → counter_of k s' = counter_of k (update s d)) by (intros k Hin; unfold counter_of; by rewrite Hk).
    split; [|exists n', r'; rewrite !Hsame by in_list; done].
    pose proof (continue_settled _ _ _ Hr' Hc) as Hset. intros Ho. rewrite Hsame by in_list. apply Hset.
    unfold on, get, py_get in *. rewrite <- Hk by in_list. done.
  - split; [intros Ho'; congruence|]. exists n', r'. unfold counter_of in *. by rewrite Hk1, Hk2.
Qed.

Lemma turns_progress k s s' n r :
  settled s → counter_of "execute_loop_count" s = Some n → counter_of "replan_count" s = Some r → (0 <= n)%Z →
  nsteps turn k s s' → (Z.of_nat k <= Z.max 0 (budget n r))%Z.
Proof.
  intros Hs Hn Hr Hp H. revert n r Hs Hn Hr Hp. induction H as [s|k s s1 s2 H1 H2 IH]; intros n r Hs Hn Hr Hp; [lia|].
  destruct (turn_progress _ _ _ _ Hs Hn Hr Hp H1) as [Hs1 (n1 & r1 & Hn1 & Hr1 & Hr2 & Hb)].
  specialize (IH n1 r1 Hs1 Hn1 Hr1 (proj1 Hr2)). unfold budget in *. nia.
Qed.

(** C16. From a state in which nothing is counted yet, with a hook that does not
    write the counters, however the model answers
    and whatever the clock shows, the node is entered again at most
    [max_execute_loop] times for the first plan and once more than that for
    each replan that is allowed. *)
Theorem execute_loop_bounded s0 s k :
  (∀ c, c ∈ COUNTERS → dict_get c (g_values s0) = None) → nsteps turn k s0 s →
  (Z.of_nat k <= (Z.max 0 (max_replan_count cfg) + 1) * (max_execute_loop cfg + 1))%Z.
Proof.
  intros H0 H. assert (Hz : ∀ c, c ∈ COUNTERS → counter_of c s0 = Some 0%Z) by (intros c Hc; unfold counter_of; by rewrite H0).
  apply (turns_progress k s0 s 0 0) in H; [unfold budget in H; nia | | apply Hz; in_list.. | lia].
  intros Ho. unfold on, get, py_get in Ho. rewrite H0 in Ho by in_list. done.
Qed.
End termination.

(** A model that looks at the pods and one that asks for a new plan. *)
Definition look : Response :=
  mkResponse (VStr "") VNone [mkCall "kubectl" (VDict [("subcommand", VStr "get"); ("v_args", VStr "pods")]) (Some "c1")].

Definition ask_replan : Response := mkResponse (VStr "[REPLAN] the flag is not known") VNone [].

Definition no_prompt (_ : GState) : Exc string := Some "execute".

Definition three_each : RouterSettings := mkRouter 0 2 true 3 3 3 3.

Definition plain_safety : SafetySettings := mkSafety "" "/kc" "" "kubectl" false 0 0 false false false false false.

Definition run_with (r : Response) (s : GState) : Exc Delta :=
  _execute_loop_with_llm three_each (mkLoop 10 3 5 3) plain_safety true no_prompt (Some (λ _ _, Some r))
    ["kubectl"; "blade_create"] None S754_nan VNone s.

Definition after_run (r : Response) (s : GState) : GState := update s (default (mkDelta [] []) (run_with r s)).

Definition second_update : Delta := default (mkDelta [] []) (run_with ask_replan (after_run look (mkState [] []))).

Lemma execute_loop_bounded_witness :
  (Z.of_nat 2 <= (Z.max 0 (max_replan_count three_each) + 1) * (max_execute_loop three_each + 1))%Z.
Proof.
  eapply (execute_loop_bounded three_each (mkLoop 10 3 5 3) plain_safety true no_prompt ["kubectl"; "blade_create"] None)
    with (s0 := mkState [] []) (s := mkState [] [("replan_count", VInt 1); ("execute_loop_count", VInt 0)]).
  - intros h s d [=].
  - vm_compute. discriminate.
  - intros c Hc. reflexivity.
  - apply (nsteps_l _ _ _ (after_run look (mkState [] []))).
    + eapply (turn_continue _ _ _ _ _ _ _ _ _ (Some (λ _ _, Some look)) S754_nan VNone _ S754_nan); [vm_compute; reflexivity..|].
      intros k _. reflexivity.
    + eapply nsteps_l; [|apply nsteps_O].
      apply (turn_replan _ _ _ _ _ _ _ _ _ (Some (λ _ _, Some ask_replan)) S754_nan VNone second_update S754_nan); vm_compute; reflexivity.
Defined.

(** ** A replan gives up the approval *)

(** Without an error, the router goes back to planning only on a request the
    node has just made, and that takes the approval back. *)
Lemma fired_approval cfg loops sc reset prompt llm tools hook now now_iso s d t :
  hook_keeps hook COUNTERS → settled cfg s →
  _execute_loop_with_llm cfg loops sc reset prompt llm tools hook now now_iso s = Some d →
  should_continue_execute_loop cfg t (update s d) = Some "replan" → on "error" (update s d) = false →
  py_get "approved_target" (g_values (update s d)) = VNone.
Proof.
  intros Hh Hs Hd Ht He. apply node_cases in Hd as [[_ Hd]|[Hw (n & response & c & _ & _ & _ & _ & H)]]; [by apply Hd in Ht| |done..].
  destruct H as [H1 H2 H3 | r c H0 Hl H1 H2 H3 H4 | r c H0 Hl H1 H2 H3 H4].
  - exfalso. apply replan_asked in Ht; [|done]. apply Ht. intros Ho. rewrite on_keep in Ho by done.
    rewrite counter_of_keep by done. by apply Hs.
  - unfold py_get, update. cbn [g_values]. by rewrite dict_get_update, H4.
  - unfold on, get, py_get, update in *. cbn [g_values] in *. rewrite dict_get_update in He by done.
    destruct (dict_get "error" (dl_values d)); cbn in *; [congruence | done].
Qed.


(** C6. When the node asks for a new plan and the router follows it, with no
    error on record, no older request that could still be followed ([settled])
    and a hook that leaves the counters of the loop alone,
    the approval is taken back: whatever the planning phase does to the rest
    of the state, until a new approval is frozen the enforcing screener passes
    a batch only if every call of it is read-only or makes the classifier
    raise. *)
Theorem replan_drops_approval cfg loops sc reset prompt llm tools hook now now_iso s d t s' scfg exc_text resume
    content reasoning calls before d' :
  hook_keeps hook COUNTERS → settled cfg s →
  _execute_loop_with_llm cfg loops sc reset prompt llm tools hook now now_iso s = Some d →
  should_continue_execute_loop cfg t (update s d) = Some "replan" → on "error" (update s d) = false →
  get "approved_target" s' = get "approved_target" (update s d) →
  target_guard_enforcing scfg = true → calls ≠ [] →
  tool_screener scfg exc_text resume (before ++ [AIMessage content reasoning calls]) (g_values s') = Some d' →
  routed d' SCREENER_ROUTE_PASS →
  ∀ tc, tc ∈ calls →
    infer_effective_target (tc_name tc) (tc_args tc) (skill_script_default_allow scfg) = Raise ∨
    ∃ e, infer_effective_target (tc_name tc) (tc_args tc) (skill_script_default_allow scfg) = Some e ∧
         e_scope e = SCOPE_READONLY.
Proof.
  intros Hh Hs Hd Ht He Ha. intros. eapply unapproved_pass_cases; try done.
  unfold get in Ha. rewrite Ha. by rewrite (fired_approval cfg loops sc reset prompt llm tools hook now now_iso s d t Hh Hs Hd Ht He).
Qed.

Definition dropped_state : GState := after_run ask_replan (mkState [] [("approved_target", VDict [("scope", VStr "pod")])]).

Definition readonly_batch : list ToolCall := [readonly_call].

Lemma replan_drops_approval_witness :
  infer_effective_target "kubectl" (tc_args readonly_call) false = Raise ∨
  ∃ e, infer_effective_target "kubectl" (tc_args readonly_call) false = Some e ∧ e_scope e = SCOPE_READONLY.
Proof.
  eapply (replan_drops_approval three_each (mkLoop 10 3 5 3) plain_safety true no_prompt (Some (λ _ _, Some ask_replan))
    ["kubectl"; "blade_create"] None S754_nan VNone (mkState [] [("approved_target", VDict [("scope", VStr "pod")])]) _ S754_nan
    dropped_state strict no_text (human_says "no") VNone VNone readonly_batch [] _) with (tc := readonly_call).
  - intros h s d [=].
  - intros [=].
  - vm_compute. reflexivity.
  - vm_compute. reflexivity.
  - vm_compute. reflexivity.
  - vm_compute. reflexivity.
  - reflexivity.
  - done.
  - vm_compute. reflexivity.
  - reflexivity.
  - by apply list_elem_of_singleton.
Defined.

(** ** A request that cannot be met is an honest failure *)

(** C17. Once the replans are used up, with turns left and a hook that does not
    write the counters, an answer that asks for another plan ends
    the run, with the failure on record. *)
Theorem exhausted_request_ends cfg loops sc reset prompt llm tools hook now now_iso s d n r response text :
  hook_keeps hook COUNTERS → settled cfg s →
  counter_of "execute_loop_count" s = Some n → counter_of "replan_count" s = Some r →
  (n < max_execute_loop cfg)%Z → (max_replan_count cfg <= r)%Z →
  ask cfg loops prompt llm tools s (n + 1) = Some (Some response) → response_text response = Some text →
  contains REPLAN_MARKER text = true →
  _execute_loop_with_llm cfg loops sc reset prompt llm tools hook now now_iso s = Some d →
  on "error" (update s d) = true ∧ ∀ t x, should_continue_execute_loop cfg t (update s d) = Some x → x = "end".
Proof.
  intros Hh Hs Hn Hr Hl Hm Ha Ht Hc Hd. 
  apply node_cases in Hd as [[He Hd]|[Hw (n' & rs & c & Hn' & _ & Ha' & Hq & H)]]; [by split; [|apply Hd]| |done..].
  simplify_eq. unfold asked_replan in Hq. rewrite Ht in Hq. cbn [mbind option_bind] in Hq. rewrite Hc in Hq. cbn [mbind option_bind] in Hq.
  apply bind_Some in Hq as (c' & _ & [= <-]). by eapply iterated_exhausted.
Qed.

Definition no_replan_left : GState := mkState [] [("replan_count", VInt 2)].

Lemma exhausted_request_ends_witness :
  on "error" (after_run ask_replan no_replan_left) = true ∧
  ∀ t x, should_continue_execute_loop three_each t (after_run ask_replan no_replan_left) = Some x → x = "end".
Proof.
  apply (exhausted_request_ends three_each (mkLoop 10 3 5 3) plain_safety true no_prompt (Some (λ _ _, Some ask_replan))
    ["kubectl"; "blade_create"] None S754_nan VNone no_replan_left (default (mkDelta [] []) (run_with ask_replan no_replan_left)) 0 2 ask_replan
    "[REPLAN] the flag is not known").
  - intros h st d [=].
  - intros [=].
  - reflexivity.
  - reflexivity.
  - reflexivity.
  - vm_compute. discriminate.
  - vm_compute. reflexivity.
  - reflexivity.
  - reflexivity.
  - vm_compute. reflexivity.
Defined.

(** ** Identifiers come from answers *)

(** A kubectl call that runs blade create. *)
Definition creates_in_pod (i : string) (tc : ToolCall) : Prop :=
  tc_name tc = "kubectl" ∧ tc_id tc = Some i ∧
  ∃ d, tc_args tc = VDict d ∧ py_in "blade" (get_d "v_args" (VStr "") d) = Some true ∧
       py_in "create" (get_d "v_args" (VStr "") d) = Some true.

Lemma blade_exec_ids messages ids i :
  blade_exec_call_ids messages = Some ids → i ∈ ids → ∃ tc, tc ∈ concat (map message_calls messages) ∧ creates_in_pod i tc.
Proof.
  intros (l & Hl & [= <-])%bind_Some (o & Ho & Hi)%list_elem_of_omap. cbn in Hi. subst o.
  apply mapM_Some_1 in Hl. apply list_elem_of_lookup in Ho as [j Hj].
  destruct (Forall2_lookup_r _ _ _ _ _ Hl Hj) as (tc & Htc & Hb). exists tc. split; [by eapply list_elem_of_lookup_2|].
  unfold blade_exec_call_id in Hb. destruct (tc_args tc) as [| | | | | | |d] eqn:Ea; try done.
  destruct (String.eqb (tc_name tc) "kubectl") eqn:En; [|done]. apply String.eqb_eq in En.
  apply bind_Some in Hb as (b & Hb1 & Hb). apply bind_Some in Hb as (c & Hb2 & Hb). destruct c; [|done]. injection Hb as Hb.
  destruct b; [|done]. split_and!; [done..|]. by exists d.
Qed.

(** Where a found identifier comes from. *)
Definition answered_uid (ids : list string) (l : list Message) (u : string) : Prop :=
  ∃ content name i e, ToolMessage content name i e ∈ l ∧ extract_blade_uid content = Some (Some u) ∧
    (name = "blade_create" ∨ name = "kubectl" ∧ i ∈ ids).

Lemma scan_uids_sound ids k l u :
  scan_uids ids k l = Some (Some u) → k = Some u ∨ answered_uid ids l u.
Proof.
  assert (Hmore : ∀ m l', answered_uid ids l' u → answered_uid ids (m :: l') u).
  { intros m l' (c & n & i & e & Hin & H). exists c, n, i, e. split; [by right | done]. }
  revert k. induction l as [|m l IH]; intros k; [intros [= ->]; by left|].
  destruct m as [c r calls|content name i e|c|c]; cbn [scan_uids]; [by intros [?|?]%IH; auto| |by intros [?|?]%IH; auto..].
  destruct (String.eqb name "blade_create") eqn:En.
  - intros (uid & Hu & H)%bind_Some. destruct uid as [u'|]; [|by apply IH in H as [?|?]; auto]. case_if_in H; [|by apply IH in H as [?|?]; auto].
    injection H as ->. right. exists content, name, i, e. split; [by left|]. split; [done|]. left. by apply String.eqb_eq.
  - destruct (String.eqb name "kubectl" && negb (str_true k) && (i ∈? ids)) eqn:Ec; [|by intros [?|?]%IH; auto].
    intros (uid & Hu & [->|H]%IH)%bind_Some; [|by auto]. right. exists content, name, i, e. split; [by left|]. split; [done|].
    right. apply andb_true_iff in Ec as [Ec Hi]. apply andb_true_iff in Ec as [Ec _]. split; [by apply String.eqb_eq | by apply str_in_spec].
Qed.

(** The identifier the loop records was reported by a tool: by blade_create,
    or by kubectl for a call that ran blade create. *)
Theorem recorded_uid_answered messages u :
  _extract_blade_uid_from_messages messages = Some (Some u) →
  ∃ content name i e, ToolMessage content name i e ∈ messages ∧ extract_blade_uid content = Some (Some u) ∧
    (name = "blade_create" ∨ name = "kubectl" ∧ ∃ tc, tc ∈ concat (map message_calls messages) ∧ creates_in_pod i tc).
Proof.
  intros (ids & Hids & H)%bind_Some. apply scan_uids_sound in H as [?|(c & n & i & e & Hin & Hu & Hn)]; [done|].
  exists c, n, i, e. split; [|split; [done|]].
  - apply list_elem_of_In. apply in_rev. by apply list_elem_of_In.
  - destruct Hn as [->|[-> Hi]]; [by left|]. right. split; [done|]. by eapply blade_exec_ids.
Qed.

Definition exec_created : list Message :=
  [AIMessage (VStr "") VNone [mkCall "kubectl" (VDict [("subcommand", VStr "exec"); ("v_args", VStr "otel-c-tool -- blade create cpu fullload")]) (Some "c1")];
   ToolMessage (json_dumps (VDict [("code", VInt 200); ("success", VBool true); ("result", VStr "a1b2c3d4e5f60718")])) "kubectl" "c1" false].

Lemma recorded_uid_answered_witness :
  ∃ content name i e, ToolMessage content name i e ∈ exec_created ∧ extract_blade_uid content = Some (Some "a1b2c3d4e5f60718") ∧
    (name = "blade_create" ∨ name = "kubectl" ∧ ∃ tc, tc ∈ concat (map message_calls exec_created) ∧ creates_in_pod i tc).
Proof. apply (recorded_uid_answered exec_created "a1b2c3d4e5f60718"). vm_compute. reflexivity. Defined.

(** ** The calls are passed on *)

(** The same call: at most the cluster and the size of a burn differ. *)
Definition same_call (tc tc' : ToolCall) : Prop :=
  tc_name tc' = tc_name tc ∧ tc_id tc' = tc_id tc ∧
  (tc_args tc' = tc_args tc ∨
   ∃ d d', tc_args tc = VDict d ∧ tc_args tc' = VDict d' ∧
     ∀ k, k ≠ "kubeconfig" → k ≠ "size" → dict_get k d' = dict_get k d).

#[export] Instance same_call_trans : Transitive same_call.
Proof.
  intros a b c (N1 & I1 & A1) (N2 & I2 & A2). split_and!; [congruence..|].
  destruct A1 as [A1|(d & d' & E1 & E2 & G)], A2 as [A2|(e & e' & F1 & F2 & G')]; [left; congruence | right..].
  - exists e, e'. by rewrite <- A1.
  - exists d, d'. by rewrite A2.
  - exists d, e'. split_and!; [done..|]. intros k H1 H2. rewrite E2 in F1. injection F1 as <-. by rewrite G', G.
Qed.

Lemma overrides_are_size r k v o :
  r ∈ _FAULT_CONTEXT_ADAPTATIONS → dict_get "param_overrides" (a_action r) = Some (VDict o) → (k, v) ∈ o → k = "size".
Proof.
  intros Hr Ho Hk. unfold _FAULT_CONTEXT_ADAPTATIONS in Hr.
  repeat (apply elem_of_cons in Hr as [->|Hr]; [vm_compute in Ho; simplify_eq; set_solver|]). by apply elem_of_nil in Hr.
Qed.

Lemma directives_only_size limit rules args k :
  (∀ r, r ∈ rules → r ∈ _FAULT_CONTEXT_ADAPTATIONS) → k ≠ "size" →
  dict_get k (fold_left (apply_directive limit) rules args) = dict_get k args.
Proof.
  intros Hr Hk. revert args. induction rules as [|r rules IH]; intros args; [done|]. cbn [fold_left].
  rewrite IH by (intros; apply Hr; by right). unfold apply_directive. case_if; [|done].
  destruct (dict_get "param_overrides" (a_action r)) as [[| | | | | | |o]|] eqn:Eo; try done.
  assert (Ho : ∀ x, x ∈ o → x.1 = "size") by (intros [k' v] Hx; eapply overrides_are_size; [apply Hr; by left | exact Eo | exact Hx]).
  clear -Ho Hk. revert args. induction o as [|x o IH]; intros args; [done|]. cbn [fold_left].
  rewrite IH by (intros; apply Ho; by right). unfold override_param. apply dict_get_set_ne. rewrite Ho by left. done.
Qed.

Lemma adapted_only_size s args args' k :
  adapted_args s args = Some args' → k ≠ "size" → dict_get k args' = dict_get k args.
Proof.
  intros (meta & _ & H)%bind_Some. apply bind_Some in H as (spec & _ & H). apply bind_Some in H as (limit & _ & [= <-]).
  intros Hk. apply directives_only_size; [|done]. intros r Hin. apply elem_of_lookup in Hin; [apply Hin | done].
Qed.

Lemma harvest_same s h tc h' tc' : harvest_call s h tc = Some (h', tc') → same_call tc tc'.
Proof.
  unfold harvest_call. intros H. head_if H.
  - apply bind_Some in H as (args & Ha & H). apply bind_Some in H as (h1 & _ & H). apply bind_Some in H as (a & Hd & [= <- <-]).
    split_and!; [done..|]. right. destruct (tc_args tc) as [| | | | | | |d]; try done. injection Ha as ->. exists args, a.
    split_and!; [done..|]. intros. by eapply adapted_only_size.
  - assert (tc' = tc) as ->; [|split_and!; by try left]. head_if H; [|congruence].
    apply bind_Some in H as (args & _ & H). apply bind_Some in H as (h1 & _ & H). congruence.
Qed.

Lemma harvest_calls_same s h calls h' calls' : harvest_calls s h calls = Some (h', calls') → Forall2 same_call calls calls'.
Proof.
  revert h calls'. induction calls as [|tc calls IH]; intros h calls'; [by intros [= <- <-]; constructor|].
  intros ([h1 tc1] & H1%harvest_same & H)%bind_Some. apply bind_Some in H as ([h2 rest] & H2 & [= <- <-]). constructor; [done | by eapply IH].
Qed.

Lemma injected_same kc calls calls' : inject_kubeconfig_into_tool_calls kc calls = Some calls' → Forall2 same_call calls calls'.
Proof.
  destruct (py_truthy kc) eqn:Ek.
  - intros H%(kubeconfig_injected _ _ _ Ek). eapply Forall2_impl; [exact H|]. intros tc tc' (N & I & F & T). split_and!; [done..|].
    destruct (needs_kubeconfig tc); [|left; by rewrite F]. destruct (T eq_refl) as [_ (d & d' & ? & ? & ?)]. right. exists d, d'. auto.
  - unfold inject_kubeconfig_into_tool_calls. rewrite Ek. intros [= <-]. apply Forall_Forall2_diag, Forall_true. intros x. split_and!; [done..|]. by left.
Qed.

(** Whatever the model answers, the message the node adds makes the same
    calls in the same order: a cluster is added where none was named, the
    size of a burn is adapted, and no other argument changes. *)
Theorem answer_passed_on sc s e r d :
  answered sc s e r = Some d →
  ∃ calls, dl_messages d = [AIMessage (r_content r) (r_reasoning r) calls] ∧ Forall2 same_call (r_calls r) calls.
Proof.
  intros (kc & _ & H)%bind_Some. apply bind_Some in H as (c1 & H1%injected_same & H). apply bind_Some in H as (rep & _ & H).
  apply bind_Some in H as ([h c2] & H2%harvest_calls_same & [= <-]). exists c2. split; [done|]. by apply (transitivity (R := Forall2 same_call) H1 H2).
Qed.

Definition creation : ToolCall :=
  mkCall "blade_create" (VDict [("scope", VStr "pod"); ("target", VStr "cpu"); ("action", VStr "fullload"); ("names", VStr "web-0")]) (Some "c1").

Definition passed_on : Delta :=
  default (mkDelta [] []) (answered plain_safety (mkState [] []) [] (mkResponse (VStr "") VNone [creation])).

Lemma answer_passed_on_witness :
  ∃ calls, dl_messages passed_on = [AIMessage (VStr "") VNone calls] ∧ Forall2 same_call [creation] calls.
Proof. apply (answer_passed_on plain_safety (mkState [] []) [] (mkResponse (VStr "") VNone [creation])). vm_compute. reflexivity. Defined.

(** ** Divergences *)

(** A listing of pods in JSON holds an identifier that reads like one of an
    experiment: the loop records an injection through kubectl exec, and the
    next text of the model goes on to the verification. *)
Definition listing : string :=
  "{" +:+ dquote +:+ "uid" +:+ dquote +:+ ": " +:+ dquote +:+ "0f8fad5b-d9cb-469f-a165-70867728950e" +:+ dquote +:+ "}".

Definition looked : list Message :=
  [response_message look; ToolMessage listing "kubectl" "c1" false].

Example listing_is_injection :
  _detect_injection_method looked None = Some (Some "kubectl_exec") ∧
  should_continue_execute_loop three_each S754_nan
    (after_run (mkResponse (VStr "nothing was injected") VNone []) (mkState looked [])) = Some "verifier".
Proof. vm_compute. done. Qed.

(** Two scale commands in one answer: with no count on record, only the
    second original count is kept. *)
Definition replicas_of (name : string) (n : Z) : Message :=
  ToolMessage (name +:+ " " +:+ dquote +:+ "replicas" +:+ dquote +:+ ": " +:+ str_of_Z n) "kubectl" "q" false.

Definition scale_call (name : string) : ToolCall :=
  mkCall "kubectl" (VDict [("subcommand", VStr "scale"); ("v_args", VStr ("deployment " +:+ name +:+ " --replicas=0"))]) (Some name).

Example second_scale_wins :
  get "original_replicas"
    (after_run (mkResponse (VStr "") VNone [scale_call "cart"; scale_call "shop"])
       (mkState [replicas_of "cart" 3; replicas_of "shop" 5] [])) = VDict [("shop", VInt 5)].
Proof. vm_compute. reflexivity. Qed.

(** The last replan the settings allow is counted but not followed. *)
Example last_replan_refused :
  let s := after_run ask_replan (mkState [] [("replan_count", VInt 1)]) in
  (get "replan_count" s, get "replan_requested" s, should_continue_execute_loop three_each S754_nan s) =
  (VInt 2, VBool true, Some "continue").
Proof. vm_compute. reflexivity. Qed.

(** An error of blade_create asks for a new plan by itself only when the four
    messages after it are answers of the model without any result. *)
Lemma within_ai turns l m k :
  error_within turns l = false → l !! k = Some m → is_blade_error m = true →
  (Z.of_nat (length (List.filter is_ai (take k l))) + turns > _BLADE_ERROR_COOLDOWN_TURNS)%Z.
Proof.
  revert turns k. induction l as [|x l IH]; intros turns k; [done|]. destruct k as [|k]; cbn [lookup list_lookup take].
  - intros H [= ->] Hm. destruct m; try done. cbn [error_within] in H. by rewrite Hm in H.
  - destruct x as [c r calls| | |]; cbn [error_within List.filter is_ai]; [|intros H; case_if_in H; [done|]; by apply IH..].
    intros H Hl Hm. cbn [length]. destruct (_BLADE_ERROR_COOLDOWN_TURNS <? turns + 1)%Z eqn:E; [lia|].
    specialize (IH (turns + 1)%Z k H Hl Hm). lia.
Qed.

Lemma auto_replan_after_silence messages m :
  _is_llm_handling_blade_error messages = false → m ∈ last_n 5 messages → is_blade_error m = true →
  ∃ before a b c d, messages = before ++ [m; a; b; c; d] ∧ Forall (λ x, is_ai x = true) [a; b; c; d].
Proof.
  unfold _is_llm_handling_blade_error, last_n. intros Hw Hin Hm. set (n := (length messages - 5)%nat) in *.
  apply list_elem_of_lookup in Hin as [j Hj]. set (tail := drop n messages) in *.
  assert (Hlen : (length tail ≤ 5)%nat) by (unfold tail, n; rewrite length_drop; lia).
  pose proof (lookup_lt_Some _ _ _ Hj) as Hjl. destruct (list_elem_of_split_length tail j m Hj) as (t1 & t2 & Ht & Hl1).
  assert (Hm2 : messages = (take n messages ++ t1) ++ m :: t2).
  { rewrite <- app_assoc, <- Ht. unfold tail. by rewrite take_drop. }
  assert (Hk : rev messages !! length t2 = Some m).
  { rewrite Hm2, rev_app_distr. cbn [rev]. rewrite <- app_assoc. rewrite lookup_app_r; rewrite length_rev; [|done]. by rewrite Nat.sub_diag. }
  pose proof (within_ai 0 _ _ _ Hw Hk Hm) as Ha. rewrite Hm2, rev_app_distr in Ha. cbn [rev] in Ha. rewrite <- app_assoc in Ha.
  rewrite take_app_length' in Ha by by rewrite length_rev. rewrite Ht, length_app in Hlen. cbn [length] in Hlen.
  assert (Hf : (length (List.filter is_ai (rev t2)) ≤ length t2)%nat) by (rewrite <- (length_rev t2); apply List.filter_length_le).
  unfold _BLADE_ERROR_COOLDOWN_TURNS in Ha. destruct t1; [|cbn [length] in Hlen; lia].
  destruct t2 as [|a [|b [|c [|d [|]]]]]; cbn [length] in *; try lia.
  rewrite app_nil_r in Hm2. exists (take n messages), a, b, c, d. split; [done|].
  cbn in Ha. destruct (is_ai a) eqn:?, (is_ai b) eqn:?, (is_ai c) eqn:?, (is_ai d) eqn:?; cbn in Ha; try lia. repeat (constructor; [done|]). constructor.
Qed.
