(* ===== verification/AgentLoop.v ===== *)
(** * The planning loop (agent/nodes/agent_loop.py)

    One run of the planning node: the iteration limit, what the model is
    shown, and what its answer and the answered queries say about the fault.
    The language model is a function of the conversation and of the tools
    bound to it, or absent; the memory hook a function of the state, or
    absent; the search of the use-case catalogue and the system prompt are
    parameters.  Counters are integers.  Tracking, the session store and the
    copy into the task store are left out. *)

From stdpp Require Import base list strings sets.
From Stdlib Require Import ZArith Ascii SpecFloat.
From S2P Require Import Prelude PyText PyValue PyFloat PyOps Shlex FaultSpec Failure Screener Router Conflict SafetyGate InjectionDetection BladeUid AttemptTracker PlanningMetadata ReactHelpers Graph JsonDump ExecuteLoop.

(** ** What a query says about the target *)

(** [_split_args] of the value of an argument. *)
Definition split_value (v : pyval) : Exc (list string) :=
  if py_truthy v then t ← as_str v; Some (shlex_or_split t) else Some [].

(** The value of a flag at the head of [p :: rest]: the next word after one
    of [names], or the text behind [prefix]. *)
Definition flag_value (names : list string) (prefix p : string) (rest : list string) : option string :=
  match rest with
  | v :: _ => if p ∈? names then Some v else if startswith p prefix then Some (after "=" p) else None
  | [] => if startswith p prefix then Some (after "=" p) else None
  end.

Fixpoint namespace_in (blacklist l : list string) : option string :=
  match l with
  | [] => None
  | p :: rest =>
      match flag_value ["-n"; "--namespace"] "--namespace=" p rest with
      | Some ns => if truthy ns && negb (ns ∈? blacklist) then Some ns else namespace_in blacklist rest
      | None => namespace_in blacklist rest
      end
  end.

(** One piece [k=v] of a selector. *)
Definition add_label (labels : dict pyval) (piece : string) : dict pyval :=
  if contains "=" piece then dict_set (strip (before "=" piece)) (VStr (strip (after "=" piece))) labels else labels.

(** The first selector decides, even when it holds no label. *)
Fixpoint labels_in (l : list string) : option (dict pyval) :=
  match l with
  | [] => None
  | p :: rest =>
      match flag_value ["-l"; "--selector"] "--selector=" p rest with
      | Some sel =>
          match fold_left add_label (map strip (split_on "," sel)) [] with [] => None | d => Some d end
      | None => labels_in rest
      end
  end.

Definition _SCOPE_ALIASES : list (string * string) :=
  [("pods", "pod"); ("pod", "pod"); ("po", "pod"); ("nodes", "node"); ("node", "node"); ("no", "node");
   ("deployments", "deployment"); ("deployment", "deployment"); ("deploy", "deployment");
   ("services", "service"); ("service", "service"); ("svc", "service")].

Definition _SHELL_OPERATORS : list string := ["|"; "||"; "&&"; ";"; ">"; ">>"; "<"].

Definition _VALUED_FLAGS : list string :=
  ["-n"; "--namespace"; "-l"; "--selector"; "-o"; "--output"; "--field-selector"; "--kubeconfig"].

(** Flags are skipped, some with the word that follows them. *)
Fixpoint positionals_in (l : list string) : list string :=
  match l with
  | [] => []
  | p :: rest =>
      if p ∈? _SHELL_OPERATORS then []
      else if (p ∈? _VALUED_FLAGS) || (startswith p "--" && negb (contains "=" p))
      then match rest with _ :: rest' => positionals_in rest' | [] => [] end
      else if startswith p "-" then positionals_in rest
      else p :: positionals_in rest
  end.

(** The fields a query gives, each if it could be read. *)
Record Derived := mkDerived {
  d_namespace : option string;
  d_labels : option (dict pyval);
  d_scope : option string;
  d_names : option (list string) }.

(** A kind without names and labels is a probe, not a target. *)
Definition _derive_spec_fields_from_kubectl_get (v_args : pyval) (blacklist : list string) : Exc Derived :=
  v_parts ← split_value v_args;
  let labels := labels_in v_parts in
  let target :=
    match positionals_in v_parts with
    | kind :: others =>
        match dict_get (lower kind) _SCOPE_ALIASES with
        | Some canonical =>
            match List.filter (λ n, negb (startswith n "-")) others, labels with
            | [], None => (None, None)
            | [], Some _ => (Some canonical, None)
            | names, _ => (Some canonical, Some names)
            end
        | None => (None, None)
        end
    | [] => (None, None)
    end in
  Some (mkDerived (namespace_in blacklist v_parts) labels target.1 target.2).

(** ** Labels that a query found resources for *)

(** The arguments of the queries with a selector, by the identifier of the
    call; the last call with an identifier wins. *)
Definition note_selector (acc : Exc (dict pyval)) (tc : ToolCall) : Exc (dict pyval) :=
  d ← acc;
  match tc_args tc with
  | VDict args =>
      if match py_get "subcommand" args with VStr t => t ∈? ["get"; "describe"; "top"] | _ => false end then
        let v_args := get_d "v_args" (VStr "") args in
        l ← py_in "-l " v_args;
        sel ← (if (l : bool) then Some true else py_in "--selector" v_args);
        Some (match tc_id tc with Some i => if (sel : bool) then dict_set i v_args d else d | None => d end)
      else Some d
  | _ => Some d
  end.

Definition selector_calls (messages : list Message) : Exc (dict pyval) :=
  fold_left note_selector (concat (map message_calls messages)) (Some []).

Definition no_result (content : string) : bool :=
  negb (truthy (strip content)) || contains "No resources" content || startswith content "Error:" ||
  Nat.ltb (py_len content) 20.

Fixpoint selector_labels (parts : list string) : option (dict pyval) :=
  match parts with
  | p :: ((v :: _) as rest) =>
      if p ∈? ["-l"; "--selector"] then
        match fold_left add_label (split_on "," v) [] with [] => selector_labels rest | d => Some d end
      else selector_labels rest
  | _ => None
  end.

Definition validated_by (calls : dict pyval) (m : Message) : Exc (option (dict pyval)) :=
  match m with
  | ToolMessage content _ i _ =>
      match dict_get i calls with
      | Some v_args => if no_result content then Some None else parts ← split_value v_args; Some (selector_labels parts)
      | None => Some None
      end
  | _ => Some None
  end.

Definition _extract_validated_labels_from_history (messages : list Message) : Exc (option (dict pyval)) :=
  calls ← selector_calls messages; first_exc (validated_by calls) (rev messages).

(** ** The plain node *)

(** The state as the node leaves it (it writes into the dict it is given)
    and the update it returns. *)
Definition agent_loop (cfg : RouterSettings) (now : spec_float) (now_val stamp : pyval) (s : GState) : Exc (GState * dict pyval) :=
  n ← counter_of "agent_loop_count" s;
  let v1 := if on "pipeline_started_at" s then g_values s else dict_set "pipeline_started_at" now_val (g_values s) in
  attempt ← py_int (py_get "pipeline_attempt" v1);
  v2 ← (if (attempt =? 0)%Z
        then delta ← begin_attempt v1 (py_get "fault_spec" v1) REASON_INITIAL "" stamp; Some (dict_update v1 delta)
        else Some v1);
  let s' := mkState (g_messages s) v2 in
  if (max_agent_loop cfg <? n + 1)%Z then
    Some (s', ("safety_status", VStr "rejected") ::
              fail_state PLANNING_TIMEOUT ("max_iterations=" +:+ str_of_Z (max_agent_loop cfg)) [])
  else r ← mark_wall_clock_timeout cfg now s' [("agent_loop_count", VInt (n + 1))]; Some (s', r).

(** ** The node with a language model *)

Section node.
Context (cfg : RouterSettings) (loops : LoopSettings) (sc : SafetySettings).
(** The system prompt of a first plan and of a new one. *)
Context (prompt : GState → bool → Exc string).
Context (llm : option (list Message → list string → Exc Response)) (tools : list string).
Context (hook : option (GState → Exc Delta)).
(** [registry.match_use_cases] of scope, target and action. *)
Context (match_use_cases : option (string → string → string → list string)).

Local Abbreviation MAX_AGENT_LOOP := (max_agent_loop cfg).

Definition replan_entry (s : GState) : Exc bool :=
  match get "replan_context" s with
  | VNone => Some false
  | _ => n ← counter_of "replan_count" s; Some (0 <? n)%Z
  end.

(** *** What the model is shown *)

Definition with_labels (spec : FaultSpec) (labels : dict pyval) : FaultSpec :=
  mkSpec (s_namespace spec) (s_scope spec) (s_names spec) labels (s_blade_target spec) (s_blade_action spec)
    (s_params spec) (s_params_flags spec) (s_duration_seconds spec) (s_source spec) (s_user_description spec).

Definition pending_label_spec (s : GState) : Exc (option (dict pyval)) :=
  labels ← _extract_validated_labels_from_history (g_messages s);
  match labels with
  | Some l =>
      spec ← read_fault_spec (g_values s);
      Some (match spec with
            | Some sp => if py_eqb (VDict (s_labels sp)) (VDict l) then None else Some (to_dict (with_labels sp l))
            | None => None
            end)
  | None => Some None
  end.

Definition replan_message (s : GState) : Exc Message :=
  c ← as_dict (get "replan_context" s);
  Some (HumanMessage (
    "[REPLAN CONTEXT] Phase 2 execution failed. Please analyze the error and generate a corrected plan." +:+ newline +:+ newline +:+
    "Error: " +:+ py_str (get_d "error_summary" (VStr "Unknown") c) +:+ newline +:+
    "Failed tool calls: " +:+ json_dumps (get_d "failed_tool_calls" (VList []) c) +:+ newline +:+
    "Existing blade UIDs: " +:+ py_str (get_d "existing_blade_uids" (VList []) c) +:+ newline)).

(** [v or '?']. *)
Definition shown (t : string) : string := if truthy t then t else "?".

Definition intent_lines (spec : FaultSpec) : Exc (list string) :=
  names ← mapM as_str (s_names spec);
  Some (
    ["[FAULT INTENT — collected from user dialogue]";
     "Fault type: " +:+ shown (fault_type spec); "Scope: " +:+ shown (s_scope spec);
     "Target: " +:+ shown (s_blade_target spec); "Action: " +:+ shown (s_blade_action spec);
     "Namespace: " +:+ shown (s_namespace spec)] ++
    (match s_labels spec with [] => [] | l => ["Labels: " +:+ py_str (VDict l)] end) ++
    (match names with [] => [] | _ => ["Names: " +:+ join ", " names] end) ++
    (match s_params spec with [] => [] | p => ["Params: " +:+ json_dumps (VDict p)] end) ++
    (if truthy (s_user_description spec) then ["User request: " +:+ s_user_description spec] else [])).

(** [p.rsplit("/", 1)[0]]. *)
Definition directory_of (p : string) : string :=
  join "/" (match split_on "/" p with [x] => [x] | l => removelast l end).

(** [p.split("/")[-1].replace(".md", "")]. *)
Definition case_label (p : string) : string := replace ".md" "" (List.last (split_on "/" p) "").

Definition several_lines (matches : list string) : list string :=
  (newline +:+ "Multiple catalogue cases match this fault (" +:+ str_of_Z (Z.of_nat (length matches)) +:+ " candidates):") ::
  map (λ p, "  - " +:+ p +:+ "  (" +:+ case_label p +:+ ")") matches ++
  [newline +:+ "→ Read each candidate with read_skill_resource to decide which verification methodology fits the user's actual scenario. For example, if the user wants to test HPA scaling, choose the HPA case even though the injection command is pod-cpu-fullload.";
   newline +:+ "Proceed: activate the matching skill, read the best-fit use-case, verify the target, and generate your execution plan."].

Definition matched_lines (path : string) : list string :=
  [newline +:+ "Matched catalogue directory: " +:+ directory_of path +:+ "/" +:+ newline +:+ "Best match: " +:+ path +:+ newline +:+
   "→ List the directory with read_skill_resource to see all available cases, then read the one that best matches the user's scenario.";
   newline +:+ "Proceed: activate the matching skill, verify the target if not already verified, and generate your execution plan."].

Definition unmatched_lines : list string :=
  [newline +:+ "⚠️ No matching catalogue case found for this fault type." +:+ newline +:+
   "You MUST follow the discovery flow in SKILL.md: use read_skill_resource to browse the catalogue, locate a matching use-case, and load it." +:+ newline +:+
   "If no match exists after discovery, inform the user this scenario is not currently supported and STOP."].

(** The case the state names, or the first the catalogue has; the lines that
    present the candidates. *)
Definition use_case (s : GState) (spec : FaultSpec) : Exc (pyval * list string) :=
  let path := get "matched_use_case_path" s in
  let found := if py_truthy path then [] else
    match match_use_cases with Some f => f (s_scope spec) (s_blade_target spec) (s_blade_action spec) | None => [] end in
  let path := match found with p :: _ => VStr p | [] => path end in
  lines ← (match found with
           | _ :: _ :: _ => Some (several_lines found)
           | _ => if py_truthy path then t ← as_str path; Some (matched_lines t) else Some unmatched_lines
           end);
  Some (path, lines).

(** The first plan of a complete specification starts with the intent: the
    resolved case, and the message that stays in the conversation. *)
Definition intent_message (s : GState) (count : Z) (is_replan : bool) : Exc (pyval * list Message) :=
  spec ← read_fault_spec (g_values s);
  match spec with
  | Some sp =>
      if (count =? 1)%Z && negb is_replan && is_complete sp then
        lines ← intent_lines sp;
        '(path, more) ← use_case s sp;
        Some (path, [HumanMessage (join newline (lines ++ more))])
      else Some (VNone, [])
  | None => Some (VNone, [])
  end.

(** The three tiers of reminders as the budget runs out. *)
Definition convergence_hint (count : Z) : list Message :=
  let c := str_of_Z count in
  let m := str_of_Z MAX_AGENT_LOOP in
  if (MAX_AGENT_LOOP - 5 <=? count)%Z && (count <? MAX_AGENT_LOOP - 1)%Z then
    [HumanMessage ("**Iteration Progress**: You are on iteration " +:+ c +:+ " of max " +:+ m +:+ " (" +:+
       str_of_Z (MAX_AGENT_LOOP - count) +:+ " remaining). If you have already activated a skill and verified the target, call `finish_planning` with a brief summary to proceed to execution. If you have determined the request cannot be fulfilled (safety violation, no matching use-case), call `finish_planning` with `rejected=True` and `rejection_reason`. Do not repeat queries you have already made.")]
  else if (count =? MAX_AGENT_LOOP - 1)%Z then
    [HumanMessage ("**CRITICAL WARNING**: This is iteration " +:+ c +:+ " of max " +:+ m +:+ " — your SECOND-TO-LAST iteration." +:+ newline +:+
       "If a skill is activated and you have gathered enough context:" +:+ newline +:+
       "  - Call `finish_planning` with a summary NOW (preferred)." +:+ newline +:+
       "If the request is infeasible:" +:+ newline +:+
       "  - Call `finish_planning(rejected=True, rejection_reason=" +:+ dquote +:+ "..." +:+ dquote +:+ ")` now." +:+ newline +:+
       "If you absolutely need one more piece of information:" +:+ newline +:+
       "  - Make ONE final tool call — you MUST conclude on the next iteration." +:+ newline +:+
       "Do NOT repeat any previous queries.")]
  else if (MAX_AGENT_LOOP <=? count)%Z then
    [HumanMessage ("**FINAL ITERATION**: This is iteration " +:+ c +:+ " of max " +:+ m +:+ ". NO more iterations are available. Tools are no longer available." +:+ newline +:+
       "You MUST provide your final planning summary NOW:" +:+ newline +:+
       "1. What skill was activated and what fault type is being injected" +:+ newline +:+
       "2. What target was identified (namespace, resource, names)" +:+ newline +:+
       "3. What execution steps should be followed" +:+ newline +:+ newline +:+
       "Your response will be used to proceed to the execution phase.")]
  else [].

(** What goes to the model but not into the state. *)
Definition shown_messages (s : GState) (count : Z) (is_replan : bool) (intent : list Message)
    : Exc (list Message * option string) :=
  context ← (if is_replan then m ← replan_message s; Some [m] else Some []);
  let m0 := g_messages s ++ context ++ intent in
  loop ← detect_repeated_tool_calls loops m0;
  let m1 := m0 ++ human loop in
  let stagnation := detect_action_stagnation loops m1 None in
  let m2 := m1 ++ human (fst <$> stagnation) in
  let m3 := m2 ++ human (detect_tool_error_hint m2) in
  Some (m3 ++ convergence_hint count, snd <$> stagnation).

(** The last iteration has no tools; a tool that stagnates is taken away. *)
Definition tools_this_iter (count : Z) (stagnant : option string) : list string :=
  if (MAX_AGENT_LOOP <=? count)%Z then []
  else match stagnant with
       | Some t => if contains ":" t then tools else List.filter (λ n, negb (String.eqb n t)) tools
       | None => tools
       end.

(** *** What the answer says *)

(** [if not current: updates[k] = v], for each field but the labels. *)
Definition write_once (spec : FaultSpec) (d : Derived) : option FaultSpec :=
  let namespace := if truthy (s_namespace spec) then None else d_namespace d in
  let scope := if truthy (s_scope spec) then None else d_scope d in
  let names := match s_names spec with [] => d_names d | _ => None end in
  match namespace, scope, names with
  | None, None, None => None
  | _, _, _ =>
      Some (mkSpec (default (s_namespace spec) namespace) (default (s_scope spec) scope)
              (default (s_names spec) (map VStr <$> names)) (s_labels spec) (s_blade_target spec) (s_blade_action spec)
              (s_params spec) (s_params_flags spec) (s_duration_seconds spec) (s_source spec) (s_user_description spec))
  end.

(** The specification the calls of this answer build on. *)
Definition spec_now (s : GState) (e : dict pyval) : Exc (option FaultSpec) :=
  match dict_get "fault_spec" e with Some v => Some (from_dict v) | None => read_fault_spec (g_values s) end.

Definition derive_from (s : GState) (args e : dict pyval) : Exc (dict pyval) :=
  spec ← spec_now s e;
  match spec with
  | Some sp =>
      if is_complete sp then Some e
      else
        d ← _derive_spec_fields_from_kubectl_get (get_d "v_args" (VStr "") args) (blacklist_namespaces sc);
        Some (match write_once sp d with Some sp' => dict_set "fault_spec" (VDict (to_dict sp')) e | None => e end)
  | None => Some e
  end.

Definition set_if (k : string) (v : pyval) (e : dict pyval) : dict pyval := if py_truthy v then dict_set k v e else e.

Definition note_call (s : GState) (e : dict pyval) (tc : ToolCall) : Exc (dict pyval) :=
  let name := tc_name tc in
  if String.eqb name "activate_skill" then
    args ← as_dict (tc_args tc); Some (set_if "skill_name" (py_get "skill_name" args) e)
  else if String.eqb name "finish_planning" then
    args ← as_dict (tc_args tc);
    Some (set_if "blast_radius_detail" (get_d "blast_radius_detail" (VStr "") args)
            (set_if "blast_radius_scope" (get_d "blast_radius_scope" (VStr "") args) e))
  else if name ∈? ["kubectl"; "kubectl_ro"] then
    args ← as_dict (tc_args tc);
    if match py_get "subcommand" args with VStr t => t ∈? ["get"; "describe"; "top"] | _ => false end
    then derive_from s args e else Some e
  else Some e.

Fixpoint note_calls (s : GState) (e : dict pyval) (calls : list ToolCall) : Exc (dict pyval) :=
  match calls with [] => Some e | tc :: l => e' ← note_call s e tc; note_calls s e' l end.

(** *** One run *)

Definition first_entries (count : Z) (is_replan : bool) (pending : option (dict pyval)) (path : pyval) : dict pyval :=
  let e := [("agent_loop_count", VInt count); ("planning_rejected", VBool false)] in
  let e := match pending with Some d => dict_set "fault_spec" (VDict d) e | None => e end in
  let e := set_if "matched_use_case_path" path e in
  if is_replan then
    dict_update e [("safety_status", VStr "pending"); ("needs_confirmation", VBool false); ("replan_requested", VBool false);
                   ("blast_radius_scope", VNone); ("blast_radius_detail", VNone)]
  else e.

(** A text without a skill is a refusal to plan. *)
Definition concluded (s : GState) (r : Response) (d : Delta) : Exc Delta :=
  match r_calls r with
  | _ :: _ => Some d
  | [] =>
      if py_truthy (py_or (py_get "skill_name" (dl_values d)) (get "skill_name" s)) || py_truthy (py_get "error" (dl_values d))
      then Some d
      else
        t ← response_text r;
        Some (if truthy (strip t)
              then amend (fail_state PLANNING_TIMEOUT "LLM concluded without tool use or skill activation"
                            (g_messages s ++ dl_messages d)) d
              else d)
  end.

Definition plan (model : list Message → list string → Exc Response) (s : GState) (count : Z) (is_replan : bool)
    (updates : Delta) : Exc Delta :=
  pending ← pending_label_spec s;
  '(path, intent) ← intent_message s count is_replan;
  '(messages, stagnant) ← shown_messages s count is_replan intent;
  p ← prompt s is_replan;
  r ← model (SystemMessage p :: messages) (tools_this_iter count stagnant);
  kc ← _resolve_kubeconfig sc s;
  calls ← inject_kubeconfig_into_tool_calls kc (r_calls r);
  values ← note_calls s (first_entries count is_replan pending path) calls;
  concluded s r (merge_hook_updates (mkDelta (intent ++ [AIMessage (r_content r) (r_reasoning r) calls]) values) updates).

(** Without a model the node reads a variable that was never set. *)
Definition _agent_loop_with_llm (s : GState) : Exc Delta :=
  n ← counter_of "agent_loop_count" s;
  is_replan ← replan_entry s;
  let count := if (is_replan : bool) then 1%Z else (n + 1)%Z in
  if (MAX_AGENT_LOOP <? count)%Z then
    Some (mkDelta [] (("safety_status", VStr "rejected") ::
            fail_state PLANNING_TIMEOUT ("max_iterations=" +:+ str_of_Z MAX_AGENT_LOOP) (g_messages s)))
  else
    updates ← run_hook hook s;
    match llm with
    | Some model => plan model s count is_replan updates
    | None => Raise
    end.
End node.
