(* ===== verification/AgentProps.v ===== *)
(** * Properties of the planning loop

    The node keeps to its iteration budget and hands on a specification that
    extends the one it was given. *)

From stdpp Require Import base list strings sets.
From Stdlib Require Import ZArith Ascii SpecFloat.
From S2P Require Import Prelude PyText PyValue PyFloat PyOps Shlex Coerce FaultSpec Failure Screener Router Conflict SafetyGate InjectionDetection BladeUid AttemptTracker PlanningMetadata ReactHelpers Graph LoopBounds JsonDump ExecuteLoop ExecuteProps AgentLoop.

(** ** Counting *)

Lemma counter_of_counter k s n : counter_of k s = Some n → counter k s = n.
Proof.
  unfold counter_of, counter. destruct (dict_get k (g_values s)) as [[|[]| | | | | |]|]; intros H; try done; by injection H as <-.
Qed.

Lemma replan_entry_is s b : replan_entry s = Some b → is_replan s = b.
Proof.
  unfold replan_entry, is_replan. destruct (get "replan_context" s); try (intros H; apply bind_Some in H as (n & Hn & [= <-]);
    by rewrite (counter_of_counter _ _ _ Hn)). by intros [= <-].
Qed.

Section node_props.
Context (cfg : RouterSettings) (loops : LoopSettings) (sc : SafetySettings) (prompt : GState → bool → Exc string).
Context (llm : option (list Message → list string → Exc Response)) (tools : list string).
Context (hook : option (GState → Exc Delta)) (cases : option (string → string → string → list string)).

Local Abbreviation node := (_agent_loop_with_llm cfg loops sc prompt llm tools hook cases).

(** What the calls of an answer may write. *)
Definition NOTED : list string := ["skill_name"; "blast_radius_scope"; "blast_radius_detail"; "fault_spec"].

Lemma set_if_within k v e ks : k ∈ ks → within ks (entries e) (entries (set_if k v e)).
Proof. intros Hk. unfold set_if. destruct (py_truthy v); [by apply set_within | reflexivity]. Qed.

Lemma derive_within s args e e' : derive_from sc s args e = Some e' → within NOTED (entries e) (entries e').
Proof.
  intros (spec & _ & H)%bind_Some. destruct spec as [sp|]; [|by injection H as <-].
  destruct (is_complete sp); [by injection H as <-|]. apply bind_Some in H as (d & _ & [= <-]).
  destruct (write_once sp d); [|reflexivity]. apply set_within. in_list.
Qed.

Lemma note_within s e tc e' : note_call sc s e tc = Some e' → within NOTED (entries e) (entries e').
Proof.
  intros H. unfold note_call in H. head_if H.
  { apply bind_Some in H as (a & _ & [= <-]). apply set_if_within. in_list. }
  head_if H.
  { apply bind_Some in H as (a & _ & [= <-]). transitivity (entries (set_if "blast_radius_scope" (get_d "blast_radius_scope" (VStr "") a) e)); apply set_if_within; in_list. }
  head_if H; [|by injection H as <-].
  apply bind_Some in H as (a & _ & H). head_if H; [by eapply derive_within | by injection H as <-].
Qed.

Lemma notes_within s calls e e' : note_calls sc s e calls = Some e' → within NOTED (entries e) (entries e').
Proof.
  revert e. induction calls as [|tc calls IH]; intros e H; cbn [note_calls] in H; [by injection H as <-|].
  apply bind_Some in H as (e1 & H1 & H2). etransitivity; [by eapply note_within | by eapply IH].
Qed.

Lemma concluded_within s r d d' : concluded s r d = Some d' → within ["failure_detail"; "error"] d d'.
Proof.
  unfold concluded. destruct (r_calls r); [|by intros [= <-]]. intros H. head_if H; [by injection H as <-|].
  apply bind_Some in H as (t & _ & [= <-]). destruct (truthy (strip t)); [|reflexivity]. apply fail_within; in_list.
Qed.

(** The parts of a run that does not fail. *)
Lemma turn_cases s d :
  node s = Some d →
  ∃ n b, counter_of "agent_loop_count" s = Some n ∧ replan_entry s = Some b ∧
  let count := if b then 1%Z else (n + 1)%Z in
  if (max_agent_loop cfg <? count)%Z then
    d = mkDelta [] (("safety_status", VStr "rejected") ::
          fail_state PLANNING_TIMEOUT ("max_iterations=" +:+ str_of_Z (max_agent_loop cfg)) (g_messages s))
  else ∃ model u pending path intent r calls values,
    llm = Some model ∧ run_hook hook s = Some u ∧ pending_label_spec s = Some pending ∧
    intent_message cases s count b = Some (path, intent) ∧
    note_calls sc s (first_entries count b pending path) calls = Some values ∧
    concluded s r (merge_hook_updates (mkDelta (intent ++ [AIMessage (r_content r) (r_reasoning r) calls]) values) u) = Some d.
Proof.
  intros (n & Hn & H)%bind_Some. apply bind_Some in H as (b & Hb & H). exists n, b. do 2 (split; [done|]). cbv zeta in *.
  destruct (max_agent_loop cfg <? _)%Z; [by injection H as <-|].
  apply bind_Some in H as (u & Hu & H). destruct llm as [model|]; [|done]. unfold plan in H.
  apply bind_Some in H as (pending & Hp & H). apply bind_Some in H as ([path intent] & Hi & H).
  apply bind_Some in H as ([ms st] & _ & H). apply bind_Some in H as (p & _ & H). apply bind_Some in H as (r & _ & H).
  apply bind_Some in H as (kc & _ & H). apply bind_Some in H as (calls & _ & H). apply bind_Some in H as (values & Hv & H).
  by exists model, u, pending, path, intent, r, calls, values.
Qed.

Lemma first_count count b pending path : dict_get "agent_loop_count" (first_entries count b pending path) = Some (VInt count).
Proof.
  unfold first_entries. destruct b.
  - rewrite update_get_notin by (apply str_in_false; reflexivity). unfold set_if.
    destruct (py_truthy path), pending; by rewrite ?dict_get_set_ne by done.
  - unfold set_if. destruct (py_truthy path), pending; by rewrite ?dict_get_set_ne by done.
Qed.

(** What is written before the hook's updates reaches the result, unless the
    hook or the conclusion writes it. *)
Lemma merged_get s r ms values u d k :
  hook_keeps hook [k] → run_hook hook s = Some u → k ∉ ["failure_detail"; "error"] →
  concluded s r (merge_hook_updates (mkDelta ms values) u) = Some d → dict_get k (dl_values d) = dict_get k values.
Proof.
  intros Hk Hu Hn Hd. apply concluded_within in Hd as [Hd _]. rewrite Hd by done. unfold merge_hook_updates. cbn [dl_values].
  apply update_get_notin. unfold run_hook in Hu. destruct hook as [h|]; [|injection Hu as <-; by apply not_elem_of_nil].
  destruct (Hk h s u eq_refl Hu) as [_ H]. apply H. by left.
Qed.

Lemma first_wf count b pending path : dict_wf (first_entries count b pending path).
Proof.
  assert (H0 : dict_wf [("agent_loop_count", VInt count); ("planning_rejected", VBool false)])
    by (unfold dict_wf; cbn; rewrite !NoDup_cons; split_and!; [set_solver..| apply NoDup_nil_2]).
  unfold first_entries, set_if. destruct b, (py_truthy path), pending; repeat first [apply dict_update_wf | apply dict_set_wf | exact H0].
Qed.

Lemma fail_wf c t m : dict_wf (("safety_status", VStr "rejected") :: fail_state c t m).
Proof. unfold dict_wf, fail_state. cbn. rewrite !NoDup_cons. split_and!; [set_solver..| apply NoDup_nil_2]. Qed.

Lemma node_wf s d : node s = Some d → dict_wf (dl_values d).
Proof.
  intros (n & b & _ & _ & H)%turn_cases. cbv zeta in H. destruct (max_agent_loop cfg <? _)%Z; [subst; apply fail_wf|].
  destruct H as (model & u & pending & path & intent & r & calls & values & _ & Hu & _ & _ & Hv & Hd).
  apply concluded_within in Hd as [_ Hd]. apply Hd. cbn. apply dict_update_wf.
  apply notes_within in Hv as [_ Hv]. apply Hv, first_wf.
Qed.

(** *** The node counts as its budget says *)

Lemma node_counts s d :
  hook_keeps hook ["agent_loop_count"] → node s = Some d → agent_loop_counts (max_agent_loop cfg) s (update s d).
Proof.
  intros Hk Hd. pose proof (node_wf _ _ Hd) as Hw. apply turn_cases in Hd as (n & b & Hn & Hb & H).
  unfold agent_loop_counts, next_agent_loop_count. rewrite (replan_entry_is _ _ Hb), (counter_of_counter _ _ _ Hn).
  cbv zeta in *. destruct (max_agent_loop cfg <? _)%Z.
  - subst d. unfold is_str. by rewrite get_after.
  - destruct H as (model & u & pending & path & intent & r & calls & values & _ & Hu & _ & _ & Hv & Hd).
    cbn [update g_values]. rewrite dict_get_update by done.
    rewrite (merged_get _ _ _ _ _ _ _ Hk Hu ltac:(apply str_in_false; reflexivity) Hd).
    apply notes_within in Hv as [Hv _]. cbn [entries dl_values] in Hv.
    rewrite (Hv "agent_loop_count") by (apply str_in_false; reflexivity). by rewrite first_count.
Qed.
End node_props.

(** C35. The planning loop of a run whose planning node is this one, with any
    model, tools and catalogue at each step and any hook that does not write
    the counter, while the other nodes leave the counter alone too: from a
    count of zero it is entered at most [max_agent_loop] times while no
    replan is under way. *)
Theorem planning_run_bounded cfg ct vt scfg exc_text resume node_effect s0 h c :
  (∀ s s', node_effect N_agent_loop s s' → ∃ loops sc prompt llm tools hook cases d,
     hook_keeps hook ["agent_loop_count"] ∧
     _agent_loop_with_llm cfg loops sc prompt llm tools hook cases s = Some d ∧ s' = update s d) →
  (∀ n s s', n ≠ N_agent_loop → node_effect n s s' →
     counter "agent_loop_count" s' = counter "agent_loop_count" s) →
  (1 <= max_agent_loop cfg)%Z → counter "agent_loop_count" s0 = 0%Z →
  inject_run cfg ct vt scfg exc_text resume node_effect s0 h c →
  Forall (λ c', is_replan c'.2 = false) h →
  (planning_iterations h <= max_agent_loop cfg)%Z.
Proof.
  intros Hn Hf Hm H0 Hr Hp. assert (He : ∀ s s', node_effect N_agent_loop s s' → agent_loop_counts (max_agent_loop cfg) s s').
  { intros s s' H. destruct (Hn s s' H) as (loops & sc & prompt & llm & tools & hook & cases & d & Hk & Hd & ->).
    by eapply node_counts. }
  destruct (planning_invariant cfg ct vt scfg exc_text resume node_effect He Hf s0 h c Hm H0 Hr Hp) as [_ [[_ H]|H]]; [done | lia].
Qed.

(** ** The specification is extended, never overwritten *)

(** [sp'] differs from [sp] only in fields [sp] leaves open; a namespace that
    was filled in is not on the blacklist. *)
Record spec_extends (blacklist : list string) (sp sp' : FaultSpec) : Prop := mkExtends {
  ext_fixed : (s_labels sp', s_blade_target sp', s_blade_action sp', s_params sp', s_params_flags sp',
               s_duration_seconds sp', s_source sp', s_user_description sp') =
              (s_labels sp, s_blade_target sp, s_blade_action sp, s_params sp, s_params_flags sp,
               s_duration_seconds sp, s_source sp, s_user_description sp);
  ext_namespace : s_namespace sp' = s_namespace sp ∨ s_namespace sp = "" ∧ s_namespace sp' ∉ blacklist;
  ext_scope : s_scope sp' = s_scope sp ∨ s_scope sp = "";
  ext_names : s_names sp' = s_names sp ∨ s_names sp = [] }.

#[export] Instance extends_refl b : Reflexive (spec_extends b).
Proof. intros sp. split; auto. Qed.

#[export] Instance extends_trans b : Transitive (spec_extends b).
Proof.
  intros a x c [F1 N1 S1 M1] [F2 N2 S2 M2]. split; [congruence|..].
  - destruct N1 as [E|[E H]], N2 as [E'|[E' H']]; rewrite ?E' in *; rewrite ?E in *; auto.
  - destruct S1 as [E|E], S2 as [E'|E']; rewrite ?E' in *; rewrite ?E in *; auto.
  - destruct M1 as [E|E], M2 as [E'|E']; rewrite ?E' in *; rewrite ?E in *; auto.
Qed.

Lemma namespace_allowed blacklist l ns : namespace_in blacklist l = Some ns → ns ∉ blacklist.
Proof.
  induction l as [|p l IH]; [done|]. cbn [namespace_in]. destruct (flag_value _ _ p l) as [x|]; [|done].
  destruct (truthy x && negb (x ∈? blacklist)) eqn:E; [|done]. intros [= <-].
  apply andb_true_iff in E as [_ E]. apply negb_true_iff in E. by apply str_in_false.
Qed.

(** The names are stripped when the specification is stored and read. *)
Definition with_names (sp : FaultSpec) (l : list pyval) : FaultSpec :=
  mkSpec (s_namespace sp) (s_scope sp) l (s_labels sp) (s_blade_target sp) (s_blade_action sp)
    (s_params sp) (s_params_flags sp) (s_duration_seconds sp) (s_source sp) (s_user_description sp).

Lemma stored_names sp l :
  s_names sp = map VStr l → str_dict (s_labels sp) → str_dict (s_params sp) →
  from_dict (VDict (to_dict sp)) = Some (with_names sp (map VStr (List.filter truthy (map strip l)))).
Proof.
  intros Hn Hl Hp. unfold from_dict, to_dict, from_dict_body.
  change (py_get "names" _) with (VList (s_names sp)).
  change (py_get "labels" _) with (VDict (s_labels sp)).
  change (py_get "params" _) with (VDict (s_params sp)).
  rewrite normalise_str_labels, normalise_str_params by done. rewrite Hn. unfold _normalise_names.
  cbn [coerce_to_list mbind option_bind]. rewrite map_map. cbn [py_str]. by destruct sp.
Qed.

Lemma truthy_empty (t : string) : truthy t = false → t = "".
Proof. by destruct t. Qed.

Lemma write_once_fields sp d sp' :
  write_once sp d = Some sp' →
  sp' = mkSpec (default (s_namespace sp) (if truthy (s_namespace sp) then None else d_namespace d))
    (default (s_scope sp) (if truthy (s_scope sp) then None else d_scope d))
    (default (s_names sp) (map VStr <$> match s_names sp with [] => d_names d | _ => None end))
    (s_labels sp) (s_blade_target sp) (s_blade_action sp) (s_params sp) (s_params_flags sp) (s_duration_seconds sp)
    (s_source sp) (s_user_description sp).
Proof.
  unfold write_once. destruct (if truthy (s_namespace sp) then _ else _), (if truthy (s_scope sp) then _ else _), (match s_names sp with [] => _ | _ => _ end);
    intros H; by simplify_eq.
Qed.

Lemma write_once_extends b v sp d sp' :
  spec_wf sp → _derive_spec_fields_from_kubectl_get v b = Some d → write_once sp d = Some sp' →
  ∃ sp'', from_dict (VDict (to_dict sp')) = Some sp'' ∧ spec_extends b sp sp''.
Proof.
  intros (Hn & Hl & Hp) Hd ->%write_once_fields.
  assert (Hns : ∀ ns, d_namespace d = Some ns → ns ∉ b).
  { apply bind_Some in Hd as (parts & _ & [= <-]). apply namespace_allowed. }
  set (sp' := mkSpec _ _ _ _ _ _ _ _ _ _ _).
  assert (H1 : s_namespace sp' = s_namespace sp ∨ s_namespace sp = "" ∧ s_namespace sp' ∉ b).
  { subst sp'. cbn. destruct (truthy (s_namespace sp)) eqn:E; [by left|]. destruct (d_namespace d) eqn:E1; [|by left].
    right. split; [by apply truthy_empty | by apply Hns]. }
  assert (H2 : s_scope sp' = s_scope sp ∨ s_scope sp = "").
  { subst sp'. cbn. destruct (truthy (s_scope sp)) eqn:E; [by left|]. right. by apply truthy_empty. }
  assert (H3 : (∃ l, s_names sp = [] ∧ s_names sp' = map VStr l) ∨ s_names sp' = s_names sp).
  { subst sp'. cbn. destruct (s_names sp); [destruct (d_names d) as [l|]|]; eauto. }
  destruct H3 as [(l & E & H3)|H3].
  - eexists. split; [by apply (stored_names sp' l)|]. split; cbn; [done.. | by right].
  - exists sp'. split; [apply from_to_dict_wf; unfold spec_wf; by rewrite H3|]. split; [done.. | by left].
Qed.

(** *** Validated labels *)

Lemma labels_str l d : str_dict d → str_dict (fold_left add_label l d).
Proof.
  revert d. induction l as [|p l IH]; intros d Hd; [done|]. apply IH. unfold add_label.
  destruct (contains "=" p); [|done]. destruct Hd as [Hw Hs]. split; [by apply dict_set_wf|].
  apply (forall_dict_set (λ v, ∃ s, v = VStr s)); [eauto | done].
Qed.

Lemma selector_str parts d : selector_labels parts = Some d → str_dict d.
Proof.
  induction parts as [|p [|v parts] IH]; [done..|]. cbn [selector_labels]. destruct (p ∈? _); [|done].
  pose proof (labels_str (split_on "," v) [] str_dict_nil) as Hs. destruct (fold_left _ _ _) as [|x l]; [done|].
  by intros [= <-].
Qed.

Lemma first_exc_in {A B} (f : A → Exc (option B)) l b :
  first_exc f l = Some (Some b) → ∃ a, a ∈ l ∧ f a = Some (Some b).
Proof.
  induction l as [|a l IH]; [done|]. cbn [first_exc]. intros ([x|] & H & H')%bind_Some.
  - injection H' as <-. exists a. split; [by left | done].
  - destruct (IH H') as (a' & ? & ?). exists a'. split; [by right | done].
Qed.

Lemma validated_str messages d : _extract_validated_labels_from_history messages = Some (Some d) → str_dict d.
Proof.
  intros (calls & _ & H)%bind_Some. apply first_exc_in in H as (m & _ & H). destruct m; try done. cbn in H.
  destruct (dict_get _ calls); [|done]. destruct (no_result _); [done|].
  apply bind_Some in H as (parts & _ & [= H]). by eapply selector_str.
Qed.

(** *** Through the calls of an answer *)

(** The specification after the entries [e]. *)
Definition spec_with (s : GState) (e : dict pyval) : option FaultSpec :=
  from_dict (match dict_get "fault_spec" e with Some v => v | None => py_get "fault_spec" (g_values s) end).

Lemma spec_now_with s e sp : spec_with s e = Some sp → spec_now s e = Some (Some sp).
Proof. unfold spec_with, spec_now, read_fault_spec. destruct (dict_get "fault_spec" e); intros H; by rewrite H. Qed.

Lemma set_if_spec s k v e : k ≠ "fault_spec" → spec_with s (set_if k v e) = spec_with s e.
Proof.
  intros Hk. unfold spec_with, set_if. destruct (py_truthy v); [|done]. by rewrite dict_get_set_ne.
Qed.

Section spec.
Context (sc : SafetySettings) (s : GState).
Local Abbreviation extends := (spec_extends (blacklist_namespaces sc)).

Lemma from_dict_wf v sp : from_dict v = Some sp → spec_wf sp.
Proof. intros H. by eapply entry_spec_wf, entry_dict. Qed.

Lemma derive_spec args e e' sp :
  spec_with s e = Some sp → derive_from sc s args e = Some e' → ∃ sp', spec_with s e' = Some sp' ∧ extends sp sp'.
Proof.
  intros Hs H. unfold derive_from in H. rewrite (spec_now_with _ _ _ Hs) in H. cbn [mbind option_bind] in H.
  destruct (is_complete sp); [injection H as <-; by exists sp|]. apply bind_Some in H as (d & Hd & [= <-]).
  destruct (write_once sp d) as [sp1|] eqn:Ew; [|by exists sp].
  destruct (write_once_extends _ _ _ _ _ (from_dict_wf _ _ Hs) Hd Ew) as (sp2 & H2 & Hx).
  exists sp2. split; [|done]. unfold spec_with. by rewrite dict_get_set.
Qed.

Lemma note_spec e tc e' sp :
  spec_with s e = Some sp → note_call sc s e tc = Some e' → ∃ sp', spec_with s e' = Some sp' ∧ extends sp sp'.
Proof.
  intros Hs H. unfold note_call in H. head_if H.
  { apply bind_Some in H as (a & _ & [= <-]). exists sp. by rewrite set_if_spec. }
  head_if H.
  { apply bind_Some in H as (a & _ & [= <-]). exists sp. by rewrite !set_if_spec. }
  head_if H; [|injection H as <-; by exists sp].
  apply bind_Some in H as (a & _ & H). head_if H; [by eapply derive_spec | injection H as <-; by exists sp].
Qed.

Lemma notes_spec calls e e' sp :
  spec_with s e = Some sp → note_calls sc s e calls = Some e' → ∃ sp', spec_with s e' = Some sp' ∧ extends sp sp'.
Proof.
  revert e sp. induction calls as [|tc calls IH]; intros e sp Hs H; cbn [note_calls] in H; [injection H as <-; by exists sp|].
  apply bind_Some in H as (e1 & H1 & H2). destruct (note_spec _ _ _ _ Hs H1) as (sp1 & Hs1 & Hx).
  destruct (IH _ _ Hs1 H2) as (sp2 & Hs2 & Hx'). exists sp2. split; [done|]. by etransitivity.
Qed.

Lemma pending_spec count b pending path sp :
  from_dict (get "fault_spec" s) = Some sp → pending_label_spec s = Some pending →
  ∃ labels, spec_with s (first_entries count b pending path) = Some (with_labels sp labels) ∧
    (labels = s_labels sp ∨ _extract_validated_labels_from_history (g_messages s) = Some (Some labels)).
Proof.
  intros Hs Hp. apply bind_Some in Hp as (labels & Hl & Hp).
  assert (He : spec_with s (first_entries count b pending path) =
               from_dict (match pending with Some d => VDict d | None => get "fault_spec" s end)).
  { unfold spec_with, first_entries, set_if. f_equal. destruct b.
    - rewrite update_get_notin by (apply str_in_false; reflexivity).
      destruct (py_truthy path), pending; rewrite ?dict_get_set_ne by done; by rewrite ?dict_get_set.
    - destruct (py_truthy path), pending; rewrite ?dict_get_set_ne by done; by rewrite ?dict_get_set. }
  rewrite He. assert (Hsame : with_labels sp (s_labels sp) = sp) by by destruct sp.
  destruct labels as [l|]; [|injection Hp as <-; exists (s_labels sp); rewrite Hsame; auto].
  unfold read_fault_spec in Hp. unfold get in Hs. rewrite Hs in Hp. cbn [mbind option_bind] in Hp. injection Hp as <-.
  case_if; [exists (s_labels sp); rewrite Hsame; auto|]. exists l. split; [|by right].
  destruct (from_dict_wf _ _ Hs) as (Hn & _ & Hpar). apply validated_str in Hl. by apply from_to_dict_wf.
Qed.
End spec.

(** A planning turn extends the specification it was given: target, action,
    parameters and origin stay, namespace, scope and names are only filled in
    where they were open, no blacklisted namespace gets in, and other labels
    come from a query that found resources. *)
Theorem planning_extends_spec cfg loops sc prompt llm tools hook cases s d sp :
  from_dict (get "fault_spec" s) = Some sp → hook_keeps hook ["fault_spec"] →
  _agent_loop_with_llm cfg loops sc prompt llm tools hook cases s = Some d →
  ∃ labels sp', read_fault_spec (g_values (update s d)) = Some (Some sp') ∧
    spec_extends (blacklist_namespaces sc) (with_labels sp labels) sp' ∧
    (labels = s_labels sp ∨ _extract_validated_labels_from_history (g_messages s) = Some (Some labels)).
Proof.
  intros Hs Hk Hd. pose proof (node_wf _ _ _ _ _ _ _ _ _ _ Hd) as Hw. unfold read_fault_spec.
  change (py_get "fault_spec" (g_values (update s d))) with (get "fault_spec" (update s d)). rewrite get_after by done.
  apply turn_cases in Hd as (n & b & _ & _ & H). cbv zeta in H. destruct (max_agent_loop cfg <? _)%Z.
  { subst d. exists (s_labels sp), sp. cbn. rewrite Hs. split; [done|]. split; [by destruct sp | by left]. }
  destruct H as (model & u & pending & path & intent & r & calls & values & _ & Hu & Hp & _ & Hv & Hd).
  rewrite (merged_get _ _ _ _ _ _ _ _ Hk Hu ltac:(apply str_in_false; reflexivity) Hd).
  destruct (pending_spec s (if b then 1 else n + 1) b pending path sp Hs Hp) as (labels & H1 & Hlab).
  destruct (notes_spec _ _ _ _ _ _ H1 Hv) as (sp' & H2 & Hx). exists labels, sp'. split; [|done].
  unfold spec_with in H2. unfold get. by rewrite H2.
Qed.

(** *** A planning turn that fills in the target *)

Definition open_spec : FaultSpec := placeholder_nl (VStr "load the cpu of web-0") SOURCE_CLI_NL.

Definition open_state : GState := mkState [HumanMessage "load the cpu of web-0"] [("fault_spec", VDict (to_dict open_spec))].

(** The model looks at a protected namespace first, then at the target. *)
Definition probe : Response :=
  mkResponse (VStr "") VNone
    [mkCall "kubectl" (VDict [("subcommand", VStr "get"); ("v_args", VStr "nodes -n kube-system")]) (Some "c0");
     mkCall "kubectl" (VDict [("subcommand", VStr "get"); ("v_args", VStr "pod web-0 -n shop")]) (Some "c1")].

Definition protected : SafetySettings := mkSafety "kube-system, default" "/kc" "" "kubectl" false 0 0 false false false false false.

Definition two_turns : RouterSettings := mkRouter 0 2 true 2 3 3 3.

Definition planned_by (r : Response) (s : GState) : Exc Delta :=
  _agent_loop_with_llm two_turns (mkLoop 10 3 5 3) protected (λ _ _, Some "plan") (Some (λ _ _, Some r)) ["kubectl"] None None s.

Definition first_turn : Delta := default (mkDelta [] []) (planned_by probe open_state).

Lemma planning_extends_spec_witness :
  ∃ labels sp', read_fault_spec (g_values (update open_state first_turn)) = Some (Some sp') ∧
    spec_extends ["kube-system"; "default"] (with_labels open_spec labels) sp' ∧
    (labels = [] ∨ _extract_validated_labels_from_history (g_messages open_state) = Some (Some labels)).
Proof.
  apply (planning_extends_spec two_turns (mkLoop 10 3 5 3) protected (λ _ _, Some "plan") (Some (λ _ _, Some probe)) ["kubectl"]
           None None open_state first_turn open_spec); [vm_compute; reflexivity | intros h s d [=] | vm_compute; reflexivity].
Defined.

Example filled_in :
  (λ sp, (s_namespace sp, s_scope sp, s_names sp)) <$> from_dict (get "fault_spec" (update open_state first_turn)) =
  Some ("shop", "pod", [VStr "web-0"]).
Proof. vm_compute. reflexivity. Qed.

(** ** The budget at its end *)

Definition planning_effect (n : Node) (s s' : GState) : Prop :=
  match n with
  | N_agent_loop => ∃ d, planned_by probe s = Some d ∧ s' = update s d
  | _ => s' = s
  end.

Lemma planning_run_bounded_witness :
  (planning_iterations [(N_agent_loop, open_state); (N_load_memory, open_state)] <= 2)%Z.
Proof.
  apply (planning_run_bounded two_turns true true strict no_text (human_says "no") planning_effect open_state _
           (N_phase1_screener, update open_state first_turn)).
  - intros s s' (d & Hd & ->). exists (mkLoop 10 3 5 3), protected, (λ _ _, Some "plan"), (Some (λ _ _, Some probe)), ["kubectl"], None, None, d.
    split; [intros h t x [=] | done].
  - intros [] s s' Hn; cbn; try done; by intros ->.
  - vm_compute. discriminate.
  - reflexivity.
  - eapply run_step.
    2: { eapply (inject_steps _ _ _ _ _ _ _ (S754_zero false));
           [apply runs_other; [discriminate | discriminate | exists first_turn; vm_compute; split; reflexivity] | vm_compute; reflexivity]. }
    eapply run_step.
    2: { eapply (inject_steps _ _ _ _ _ _ _ (S754_zero false));
           [apply runs_other; [discriminate | discriminate | reflexivity] | vm_compute; reflexivity]. }
    apply run_start.
  - repeat constructor.
Defined.

Section budget.
Context (cfg : RouterSettings) (loops : LoopSettings) (sc : SafetySettings) (prompt : GState → bool → Exc string).
Context (llm : option (list Message → list string → Exc Response)) (tools : list string).
Context (hook : option (GState → Exc Delta)) (cases : option (string → string → string → list string)).
Local Abbreviation node := (_agent_loop_with_llm cfg loops sc prompt llm tools hook cases).

(** The answer of the last iteration is never used, although the model is
    told it will be: the router rejects the task. *)
Lemma final_plan_rejected s d n now route :
  hook_keeps hook ["agent_loop_count"] → counter_of "agent_loop_count" s = Some n → replan_entry s = Some false →
  (n + 1 = max_agent_loop cfg)%Z → node s = Some d →
  should_continue_agent_loop cfg now (update s d) = Some route → route = "reject".
Proof.
  intros Hk Hn Hr Hm Hd H. apply (node_counts _ _ _ _ _ _ _ _ _ _ Hk) in Hd. unfold agent_loop_counts, next_agent_loop_count in Hd.
  rewrite (replan_entry_is _ _ Hr), (counter_of_counter _ _ _ Hn), Hm in Hd. cbv zeta in Hd. rewrite Z.ltb_irrefl in Hd.
  apply bind_Some in H as (t & _ & H). destruct t; [by injection H as <-|].
  apply bind_Some in H as (o & Ho & H). unfold count_ge in Ho. rewrite Hd in Ho. injection Ho as <-. rewrite Z.leb_refl in H.
  by injection H as <-.
Qed.

(** The node never stamps the start of the task, so the wall-clock budget
    does not apply. *)
Lemma planning_unstamped s d now :
  hook_keeps hook ["pipeline_started_at"] → node s = Some d → dict_get "pipeline_started_at" (g_values s) = None →
  _wall_clock_exceeded cfg now (update s d) = Some false.
Proof.
  intros Hk Hd H0. pose proof (node_wf _ _ _ _ _ _ _ _ _ _ Hd) as Hw.
  assert (Hg : get "pipeline_started_at" (update s d) = VNone).
  { rewrite get_after by done. replace (dict_get "pipeline_started_at" (dl_values d)) with (@None pyval);
      [unfold get, py_get; by rewrite H0|].
    apply turn_cases in Hd as (n & b & _ & _ & H). cbv zeta in H. destruct (max_agent_loop cfg <? _)%Z; [by subst d|].
    destruct H as (model & u & pending & path & intent & r & calls & values & _ & Hu & _ & _ & Hv & Hd).
    rewrite (merged_get _ _ _ _ _ _ _ _ Hk Hu ltac:(apply str_in_false; reflexivity) Hd).
    apply notes_within in Hv as [Hv _]. cbn [entries dl_values] in Hv.
    rewrite (Hv "pipeline_started_at") by (apply str_in_false; reflexivity). symmetry.
    unfold first_entries, set_if. destruct b; rewrite ?update_get_notin by (apply str_in_false; reflexivity);
      destruct (py_truthy path), pending; by rewrite ?dict_get_set_ne by done. }
  unfold _wall_clock_exceeded. destruct (max_inject_seconds cfg <=? 0)%Z; [done|]. rewrite Hg. done.
Qed.
End budget.

(** ** Divergences *)

(** A query for other pods overwrites the labels of a specification that was
    complete. *)
Definition labelled : FaultSpec :=
  mkSpec "shop" "pod" [] [("app", VStr "web")] "cpu" "fullload" [] [] 0 SOURCE_CLI_STRUCTURED "".

Definition helper_listed : GState :=
  mkState [AIMessage (VStr "") VNone [mkCall "kubectl" (VDict [("subcommand", VStr "get"); ("v_args", VStr "pods -n chaosblade -l app=chaosblade-tool")]) (Some "c0")];
           ToolMessage "chaosblade-tool-x7k2p   1/1   Running" "kubectl" "c0" false]
    [("fault_spec", VDict (to_dict labelled)); ("agent_loop_count", VInt 0)].

Example helper_labels_win :
  s_labels <$> (d ← planned_by probe helper_listed; from_dict (get "fault_spec" (update helper_listed d))) =
  Some [("app", VStr "chaosblade-tool")].
Proof. vm_compute. reflexivity. Qed.

(** With a hook and no model, the node raises. *)
Example no_model_raises : _agent_loop_with_llm two_turns (mkLoop 10 3 5 3) protected (λ _ _, Some "plan") None [] (Some (λ _, Some (mkDelta [] []))) None open_state = Raise.
Proof. vm_compute. reflexivity. Qed.

(** A selector with an inequality becomes a label with an odd key. *)
Example inequality_read : labels_in ["pods"; "-l"; "app!=web"] = Some [("app!", VStr "web")].
Proof. vm_compute. reflexivity. Qed.

(** A flag without a value of its own swallows the next word, here the
    kind. *)
Example bare_flag_swallows : positionals_in ["--show-labels"; "pod"; "web-0"] = ["web-0"].
Proof. vm_compute. reflexivity. Qed.
