(* ===== verification/BaselineCommands.v ===== *)
(** * Baseline commands (agent/nodes/baseline_capture.py, agent/baseline_extractors.py)

    Before a fault is injected the target's metrics are collected with a few
    kubectl commands.  This file holds what is pure about them: the tables of
    commands, the template variables, the check of the commands a language
    model proposes, the reading of its answer, and the extraction of numbers
    from the output of kubectl top.  A command that comes from the model may
    hold any value where a text is expected, so those fields are values. *)

From stdpp Require Import base list strings sets.
From Stdlib Require Import ZArith Ascii SpecFloat.
From S2P Require Import Prelude PyText PyRe PyValue PyFloat PyOps Json FaultSpec FaultContext Router Conflict Tokens DirectExecute.

(** ** Quantities (baseline_extractors.py) *)

Definition _CPU_MC_RE : pattern := Eval vm_compute in
  get_pattern (compile no_flags "^(\d+(?:\.\d+)?)(m?)$") ltac:(vm_compute; discriminate).

(** [float(text)] of digits never fails to parse. *)
Definition float_of (text : option string) : Exc spec_float := py_float_of_string (default "" text).

(** Millicores; [None] inside when the text is not recognised, [Raise] when
    the number is too large for an integer of a float. *)
Definition _parse_cpu_text_to_mc (text : string) : Exc (option Z) :=
  match re_match _CPU_MC_RE (strip text) with
  | None => Some None
  | Some m =>
      n ← float_of (group 1 m);
      Some <$> float_int (if String.eqb (default "" (group 2 m)) "m" then n else float_mul n (float_of_Z 1000))
  end.

Definition _MEM_SUFFIX_MIB : dict spec_float := Eval vm_compute in
  [("Ki", int_div 1 1024); ("Mi", float_of_Z 1); ("Gi", float_of_Z 1024); ("Ti", float_of_Z (1024 * 1024));
   ("K", int_div 1000 (1024 * 1024)); ("M", int_div (1000 * 1000) (1024 * 1024));
   ("G", int_div (1000 * 1000 * 1000) (1024 * 1024)); ("T", int_div (1000 * 1000 * 1000 * 1000) (1024 * 1024));
   ("", int_div 1 (1024 * 1024))]%Z.

Definition _MEM_RE : pattern := Eval vm_compute in
  get_pattern (compile no_flags "^(\d+(?:\.\d+)?)\s*([KMGT]i?)?$") ltac:(vm_compute; discriminate).

Definition _parse_mem_text_to_mb (text : string) : Exc (option Z) :=
  match re_match _MEM_RE (strip text) with
  | None => Some None
  | Some m =>
      n ← float_of (group 1 m);
      match dict_get (default "" (group 2 m)) _MEM_SUFFIX_MIB with
      | None => Some None
      | Some mul => Some <$> float_int (float_mul n mul)
      end
  end.

Definition metric (k : string) (v : option Z) : dict pyval :=
  match v with Some z => [(k, VInt z)] | None => [] end.

(** The row of the target in the output of kubectl top pod. *)
Fixpoint target_row (target : pyval) (rows : list string) : Exc (dict pyval) :=
  match rows with
  | [] => Some []
  | raw :: rows =>
      let line := strip raw in
      if negb (truthy line) || startswith line "NAME" then target_row target rows
      else match split_ws line with
           | pod :: cpu :: mem :: _ =>
               if negb (eqs target pod) then target_row target rows
               else
                 cpu_mc ← _parse_cpu_text_to_mc cpu;
                 mem_mb ← _parse_mem_text_to_mb mem;
                 Some (metric "pod_cpu_usage_mc" cpu_mc ++ metric "pod_memory_usage_mb" mem_mb)
           | _ => target_row target rows
           end
  end.

Definition extract_pod_top_metrics (out : string) (s : GState) : Exc pyval :=
  spec ← read_fault_spec (g_values s);
  match spec with
  | Some p =>
      match s_names p with
      | [] => Some (VDict [])
      | target :: _ => VDict <$> target_row target (splitlines out)
      end
  | None => Some (VDict [])
  end.

(** ** Commands *)

Definition Extractor : Type := string → GState → Exc pyval.

Record BaselineCommand := mkBC {
  bc_description : pyval;
  bc_subcommand : string;
  bc_template : pyval;
  bc_mode : pyval;
  bc_extractors : list Extractor }.

Definition simple (d sub t : string) : BaselineCommand := mkBC (VStr d) sub (VStr t) (VStr "simple") [].
Definition two_step (d sub t : string) : BaselineCommand := mkBC (VStr d) sub (VStr t) (VStr "debug_two_step") [].
Definition with_metrics (d sub t : string) : BaselineCommand :=
  mkBC (VStr d) sub (VStr t) (VStr "simple") [extract_pod_top_metrics].

Definition in_debug_pod (cmd : string) : string := "{debug_pod} -n " +:+ _TOOL_POD_NAMESPACE +:+ " -- " +:+ cmd.

(** The keys are tuples of one to three texts. *)
Definition BASELINE_COMMANDS : list (list string * list BaselineCommand) :=
  [(["node"; "disk"; "fill"],
    [simple "Node DiskPressure" "describe" "node {node_name}";
     two_step "Node disk usage" "exec" (in_debug_pod "df -h")]);
   (["node"; "disk"; "burn"],
    [simple "Node conditions" "describe" "node {node_name}";
     two_step "Node disk IO" "exec" (in_debug_pod "iostat -xd 1 3")]);
   (["pod"; "process"; "kill"],
    [simple "Service endpoints" "get" "endpoints -n {namespace} {label_selector}";
     simple "Pod status/restarts" "get" "pods -n {namespace} {label_selector} -o wide";
     simple "Pod events" "describe" "pod {pod_name} -n {namespace}"]);
   (["pod"; "network"; "drop"],
    [simple "Service endpoints" "get" "endpoints -n {namespace}";
     simple "Pod conditions" "describe" "pod {pod_name} -n {namespace}"]);
   (["pod"; "cpu"],
    [with_metrics "Pod CPU/Memory" "top" "pod -n {namespace} {label_selector}";
     simple "Pod conditions/restarts" "describe" "pod {pod_name} -n {namespace}"]);
   (["pod"; "mem"],
    [with_metrics "Pod CPU/Memory" "top" "pod -n {namespace} {label_selector}";
     simple "Pod OOM events" "describe" "pod {pod_name} -n {namespace}"]);
   (["pod"; "disk"],
    [simple "Container disk usage" "exec" "{pod_name} -n {namespace} -- df -h"]);
   (["pod"; "network"],
    [simple "Service endpoints" "get" "endpoints -n {namespace}";
     simple "Pod conditions" "describe" "pod {pod_name} -n {namespace}"]);
   (["pod"; "process"],
    [simple "Pod status" "get" "pods -n {namespace} {label_selector}";
     simple "Pod events" "describe" "pod {pod_name} -n {namespace}"]);
   (["node"; "cpu"],
    [simple "Node resource usage" "top" "node {node_name}";
     simple "Node conditions" "describe" "node {node_name}"]);
   (["node"; "mem"],
    [simple "Node resource usage" "top" "node {node_name}";
     simple "Node MemoryPressure" "describe" "node {node_name}"]);
   (["node"; "disk"],
    [simple "Node DiskPressure" "describe" "node {node_name}";
     two_step "Node disk usage" "exec" (in_debug_pod "df -h")]);
   (["node"; "network"],
    [simple "Node conditions" "describe" "node {node_name}";
     simple "Pods on node" "get" "pods -o wide -A --field-selector spec.nodeName={node_name}"]);
   (["node"; "process"],
    [simple "Node conditions" "describe" "node {node_name}";
     simple "Pods on node" "get" "pods -o wide -A --field-selector spec.nodeName={node_name}"])].

Definition _SCOPE_FALLBACK : dict (list BaselineCommand) :=
  [("node", [simple "Node resource usage" "top" "node {node_name}"]);
   ("pod", [simple "Pod resource usage" "top" "pod -n {namespace} {label_selector}"]);
   ("deployment",
    [simple "Deployment status" "get" "deployment -n {namespace} -o wide";
     simple "Pod status" "get" "pods -n {namespace} {label_selector} -o wide"])].

Definition _FCAT_DIMENSION_COMMANDS : dict (dict BaselineCommand) :=
  [("io_utilization",
    [("pod", simple "Container disk IO utilization" "exec" "{pod_name} -n {namespace} -- iostat -xd 1 3");
     ("node", two_step "Node disk IO utilization" "exec" (in_debug_pod "iostat -xd 1 3"))]);
   ("io_iowait",
    [("pod", simple "Container CPU iowait" "exec" "{pod_name} -n {namespace} -- iostat -c 1 3");
     ("node", two_step "Node CPU iowait" "exec" (in_debug_pod "iostat -c 1 3"))])].

Definition _IOSTAT_FALLBACK_CHAIN : dict (list string) :=
  [("iostat -xd 1 3", ["iostat -d 1 1"; "cat /proc/diskstats"]);
   ("iostat -c 1 3", ["iostat 1 1"; "cat /proc/stat"])].

Definition _ALLOWED_SUBCOMMANDS : list string := ["get"; "top"; "describe"; "exec"; "debug"].

Definition _ALLOWED_EXEC_COMMANDS : list string :=
  ["df"; "ps"; "ls"; "cat"; "top"; "iostat"; "free"; "uptime"; "hostname"; "mount"; "grep"; "wc"; "du";
   "head"; "tail"; "find"; "stat"; "ip"; "ss"; "netstat"].

(** [d[key]] of a table keyed by tuples. *)
Fixpoint entry_of (key : list string) (t : list (list string * list BaselineCommand)) : option (list BaselineCommand) :=
  match t with
  | [] => None
  | (k, l) :: t => if bool_decide (k = key) then Some l else entry_of key t
  end.

(** The first of the three keys that is in the table. *)
Definition lookup_keys (scope target action : string) : list (list string) :=
  [[scope; target; action]; [scope; target]; [scope]].

Definition matching_key (t : list (list string * list BaselineCommand)) (scope target action : string) : option (list string) :=
  List.find (λ k, match entry_of k t with Some _ => true | None => false end) (lookup_keys scope target action).

Definition _lookup_baseline_commands (t : list (list string * list BaselineCommand)) (scope target action : string)
    : list BaselineCommand :=
  match matching_key t scope target action with
  | Some k => default [] (entry_of k t)
  | None => []
  end.

(** ** Fallbacks of iostat *)

Definition _get_iostat_fallback_chain (v_args stderr : string) : option (list string) :=
  match cut_str "--" v_args with
  | None => None
  | Some (prefix, rest) =>
      match List.find (λ e : string * list string, String.eqb (strip rest) e.1) _IOSTAT_FALLBACK_CHAIN with
      | None => None
      | Some (iostat_cmd, fallbacks) =>
          let result := map (λ fb, prefix +:+ "-- " +:+ fb) fallbacks in
          let err := lower stderr in
          let result :=
            if contains "not found in" err || contains "no such file" err
            then List.filter (λ fb, negb (String.eqb (hd "" (split_ws (after_str "-- " fb)))
                                                     (hd "" (split_ws iostat_cmd)))) result
            else result in
          match result with [] => None | _ => Some result end
      end
  end.

(** ** Template variables *)

(** [s.replace(old, new, 1)]. *)
Definition replace_first (old new s : string) : string :=
  match cut_str old s with Some (a, b) => a +:+ new +:+ b | None => s end.

Definition _NAMESPACE_FLAG_RE : pattern := Eval vm_compute in
  get_pattern (compile no_flags "(-n\s+|--namespace\s+)\S+") ltac:(vm_compute; discriminate).

(** [re.sub(p, new, s, count=1)] with a literal replacement. *)
Definition re_sub_first (p : pattern) (new s : string) : string :=
  sub_go (λ _, new) 0 (take 1 (finditer p s)) (uchars s).

Definition tool_ns_flag : string := "-n " +:+ _TOOL_POD_NAMESPACE.

Definition _normalize_debug_namespace (v_args : string) : string :=
  let before_dash := before_str "--" v_args in
  let after_dash := match cut_str "--" v_args with Some (_, b) => "-- " +:+ b | None => "" end in
  let new_before :=
    match re_search _NAMESPACE_FLAG_RE before_dash with
    | Some _ => re_sub_first _NAMESPACE_FLAG_RE tool_ns_flag before_dash
    | None =>
        if contains "{debug_pod}" before_dash
        then replace_first "{debug_pod}" ("{debug_pod} " +:+ tool_ns_flag) before_dash
        else rstrip before_dash +:+ " " +:+ tool_ns_flag
    end in
  new_before +:+ after_dash.

(** [if var in v_args: if value: v_args = v_args.replace(var, value) else: unresolved = True]. *)
Definition resolve_var (var : string) (value : pyval) (st : pyval * bool) : Exc (pyval * bool) :=
  let '(v_args, unresolved) := st in
  present ← py_in var v_args;
  if negb present then Some st
  else if py_truthy value then
    text ← as_str v_args; new ← as_str value;
    Some (VStr (replace var new text), unresolved)
  else Some (v_args, true).

Definition _VARIABLE_RE : pattern := Eval vm_compute in
  get_pattern (compile no_flags "\{([a-z_]+)\}") ltac:(vm_compute; discriminate).

Definition unknown_vars (v_args : string) : list string :=
  List.filter (λ v, negb (String.eqb v "debug_pod")) (findall1 _VARIABLE_RE v_args).

Record Resolved := mkResolved {
  r_description : pyval;
  r_subcommand : string;
  r_v_args : pyval;
  r_mode : pyval;
  r_unresolved : bool;
  r_node_name : pyval;
  r_extractors : list Extractor }.

Definition first_name (p : FaultSpec) : pyval := hd (VStr "") (s_names p).

Definition is_two_step (mode : pyval) : bool := eqs mode "debug_two_step".

Definition resolve_command (p : FaultSpec) (c : BaselineCommand) : Exc Resolved :=
  let node_name := first_name p in
  let pod_name := if String.eqb (s_scope p) "node" then VStr "" else node_name in
  st ← resolve_var "{namespace}" (VStr (s_namespace p)) (bc_template c, false);
  st ← resolve_var "{node_name}" node_name st;
  st ← resolve_var "{pod_name}" pod_name st;
  '(v_args, unresolved) ← resolve_var "{label_selector}" (VStr (label_text (s_labels p))) st;
  deferred ← py_in "{debug_pod}" v_args;
  let mode := if (deferred : bool) && negb (is_two_step (bc_mode c)) then VStr "debug_two_step" else bc_mode c in
  v_args ← (if is_two_step mode then t ← as_str v_args; Some (VStr (_normalize_debug_namespace t)) else Some v_args);
  unresolved ← (if (unresolved : bool) then Some true
                else t ← as_str v_args; Some (nonempty (unknown_vars t)));
  Some (mkResolved (bc_description c) (bc_subcommand c) v_args mode unresolved node_name (bc_extractors c)).

Definition unresolved_command (c : BaselineCommand) : Resolved :=
  mkResolved (bc_description c) (bc_subcommand c) (bc_template c) (bc_mode c) true (VStr "") (bc_extractors c).

Definition _resolve_templates (commands : list BaselineCommand) (s : GState) : Exc (list Resolved) :=
  spec ← read_fault_spec (g_values s);
  match spec with
  | None => Some (map unresolved_command commands)
  | Some p => mapM (resolve_command p) commands
  end.

Definition viable_count (l : list Resolved) : Z := count_if (λ r, negb (r_unresolved r)) l.

(** ** The model's answer *)

Definition _FENCE_RE : pattern := Eval vm_compute in
  get_pattern (compile re_S "```(?:json)?\s*\n?(.*?)\n?```") ltac:(vm_compute; discriminate).

(** The text from the first [open] to the last [close] after it. *)
Definition bracket_block (text : string) : option string :=
  match cut_str "[" text with
  | Some (_, rest) =>
      match cut_str "]" (str_rev rest) with
      | Some (_, inner) => Some ("[" +:+ str_rev inner +:+ "]")
      | None => None
      end
  | None => None
  end.

(** [json.loads] of a candidate; only a decode error is survived. *)
Definition load_list (text : option string) (next : Exc (list pyval)) : Exc (list pyval) :=
  match text with
  | None => next
  | Some t =>
      match json_loads t with
      | JOk (VList l) => Some l
      | JOk _ | JDecodeError => next
      | JValueError => Raise
      end
  end.

Definition _parse_llm_json_output (raw : pyval) : Exc (list pyval) :=
  if negb (py_truthy raw) then Some []
  else
    r ← as_str raw;
    let text := strip r in
    load_list (Some text)
      (load_list ((λ m, strip (default "" (group 1 m))) <$> re_search _FENCE_RE text)
         (load_list (bracket_block text) (Some []))).

(** The first word of a command line, and whether it is a diagnostic. *)
Definition diagnostic (cmd : string) : bool := hd "" (split_ws cmd) ∈? _ALLOWED_EXEC_COMMANDS.

(** The part of [v_args] after the first "--", where there is one. *)
Definition after_dashes (v_args : pyval) : Exc (option string) :=
  present ← py_in "--" v_args;
  if (present : bool) then t ← as_str v_args; Some (Some (strip (after_str "--" t))) else Some None.

Record Proposal := mkProposal { pr_description : pyval; pr_subcommand : string; pr_template : pyval; pr_mode : pyval }.

(** Phase 1 for one command: [None] when it is rejected. *)
Definition validate_command (v : pyval) : Exc (option Proposal) :=
  match v with
  | VDict cmd =>
      let subcommand := get_d "subcommand" (VStr "") cmd in
      allowed ← in_set subcommand _ALLOWED_SUBCOMMANDS;
      if negb allowed then Some None
      else
        let template := get_d "v_args_template" (VStr "") cmd in
        run ← (if eqs subcommand "exec" then after_dashes template else Some None);
        if match run with Some c => negb (diagnostic c) | None => false end then Some None
        else
          let mode := get_d "mode" (VStr "simple") cmd in
          deferred ← py_in "{debug_pod}" template;
          let mode := if deferred && negb (is_two_step mode) then VStr "debug_two_step" else mode in
          sub ← as_str subcommand;
          Some (Some (mkProposal (get_d "description" (VStr "") cmd) sub template mode))
  | _ => Some None
  end.

Definition runs_in_debug_pod (p : Proposal) : Exc bool :=
  deferred ← py_in "{debug_pod}" (pr_template p); Some (deferred && String.eqb (pr_subcommand p) "exec").

(** [s.rsplit("--", 1)[1]]. *)
Definition after_last_dashes (s : string) : string := str_rev (before_str "--" (str_rev s)).

(** Phase 2 for one command. *)
Definition convert_command (redundant : bool) (p : Proposal) : Exc (list BaselineCommand) :=
  if String.eqb (pr_subcommand p) "debug" then
    if redundant then Some []
    else
      present ← py_in "--" (pr_template p);
      if negb present then Some []
      else
        t ← as_str (pr_template p);
        let cmd := strip (after_last_dashes t) in
        if diagnostic cmd
        then Some [mkBC (pr_description p) "exec" (VStr (in_debug_pod cmd)) (VStr "debug_two_step") []]
        else Some []
  else Some [mkBC (pr_description p) (pr_subcommand p) (pr_template p) (pr_mode p) []].

Definition _validate_and_filter_commands (commands : list pyval) : Exc (list BaselineCommand) :=
  checked ← mapM validate_command commands;
  let validated := omap id checked in
  shared ← mapM runs_in_debug_pod validated;
  converted ← mapM (convert_command (existsb id shared)) validated;
  Some (concat converted).
