(* ===== verification/BaselineCapture.v ===== *)
(** * Baseline capture (agent/nodes/baseline_capture.py)

    The node that collects the target's metrics before the injection: it takes
    its commands from the language model, from the registry or from the
    fallback of the scope, adds the commands the fault context asks for, runs
    them, in a debug pod where one is needed, lets the model correct what
    failed, and stores the observations.  The commands are programs over
    [Effects].  The language model is a parameter that answers its n-th
    request; the tables of commands are passed in and out because the node
    appends to the lists they hold.  The order in which the nodes of a set are
    visited is that of the commands.  Tracking, the session store and waiting
    are left out. *)

From stdpp Require Import base list strings sets.
From Stdlib Require Import ZArith Ascii.
From S2P Require Import Prelude PyText PyRe PyValue PyOps ToolGuard Failure FaultSpec FaultContext Router Conflict InjectionDetection AttemptTracker Finalize SafetyGate Kubectl Effects DirectExecute SideEffects BaselineCommands.

(** ** Observations *)

Record Observation := mkObs {
  o_description : pyval;
  o_command : string;
  o_exit_code : Z;
  o_stdout : string;
  o_stderr : string }.

Definition obs_dict (o : Observation) : pyval :=
  VDict [("description", o_description o); ("command", VStr (o_command o)); ("exit_code", VInt (o_exit_code o));
         ("stdout", VStr (o_stdout o)); ("stderr", VStr (o_stderr o))].

Definition observed_as (description : pyval) (cmd : list string) (r : CommandResult) : Observation :=
  mkObs description (join " " cmd) (exit_code r) (stdout r) (stderr r).

Definition not_run (description : pyval) (why : string) : Observation := mkObs description "" (-1) "" why.

Definition succeeded (o : Observation) : bool := (o_exit_code o =? 0)%Z.

(** The namespace of an exec in a pod the node chose itself. *)
Definition defend_namespace (pod v_args : string) : string :=
  let has_ns := contains "-n " v_args || contains "--namespace " v_args in
  let correct := contains tool_ns_flag v_args || contains ("--namespace " +:+ _TOOL_POD_NAMESPACE) v_args in
  if has_ns && negb correct then re_sub_first _NAMESPACE_FLAG_RE tool_ns_flag v_args
  else if negb has_ns then replace_first pod (pod +:+ " " +:+ tool_ns_flag) v_args
  else v_args.

Definition _DEBUG_CONTAINER_NAME : string := "debugger".

(** Values a set or the keys of a dict may hold. *)
Fixpoint hashable (v : pyval) : bool :=
  match v with
  | VList _ | VDict _ => false
  | VTuple l => forallb hashable l
  | _ => true
  end.

(** A dict from node names to pods. *)
Definition Pods : Type := list (pyval * string).

Definition pod_of (node : pyval) (pods : Pods) : option string :=
  snd <$> List.find (λ e, py_eqb e.1 node) pods.

(** ** Running commands *)

Section capture.
Context (cfg : ToolSettings) (guard : ToolGuard) (raised : string).

Definition kubectl_line (kubeconfig : string) (args : list string) : list string :=
  t_kubectl_path cfg :: _build_kubectl_global_args cfg kubeconfig "" "" ++ args.

Definition kubectl_run (kubeconfig : string) (args : list string) (timeout : Z) : prog CommandResult :=
  command cfg guard (kubectl_line kubeconfig args) timeout [].

Definition long : Z := timeout_kubectl_exec cfg.
Definition quick : Z := timeout_kubectl cfg.

(** The fallbacks of iostat, up to the first that succeeds. *)
Fixpoint try_fallbacks (kubeconfig : string) (args_of : string → list string) (l : list string)
    : prog (option (list string * CommandResult)) :=
  match l with
  | [] => mret None
  | fb :: l =>
      r ← kubectl_run kubeconfig (args_of fb) long;
      if (exit_code r =? 0)%Z then mret (Some (kubectl_line kubeconfig (args_of fb), r))
      else try_fallbacks kubeconfig args_of l
  end.

(** Runs [sub :: args] and, for an exec that fails, the fallbacks. *)
Definition observe (description : pyval) (kubeconfig : string) (args_of : string → list string) (v_args : string)
    (timeout : Z) (fallback : bool) : prog Observation :=
  let cmd := kubectl_line kubeconfig (args_of v_args) in
  r ← kubectl_run kubeconfig (args_of v_args) timeout;
  better ← (if negb (exit_code r =? 0)%Z && fallback
            then try_fallbacks kubeconfig args_of (default [] (_get_iostat_fallback_chain v_args (stderr r)))
            else mret None);
  mret (match better with
        | Some (fb_cmd, fb) => observed_as description fb_cmd fb
        | None => observed_as description cmd r
        end).

Definition _exec_simple (c : Resolved) (kubeconfig : string) : prog Observation :=
  v_args ← lift raised (as_str (r_v_args c));
  let is_exec := String.eqb (r_subcommand c) "exec" in
  observe (r_description c) kubeconfig (λ v, r_subcommand c :: _split_args v) v_args
    (if is_exec then long else quick) is_exec.

Definition debug_exec (v : string) : list string := "exec" :: "-c" :: _DEBUG_CONTAINER_NAME :: _split_args v.

(** An exec in a pod of the tool namespace. *)
Definition exec_in_pod (c : Resolved) (kubeconfig pod : string) (args_of : string → list string) : prog Observation :=
  v_args ← lift raised (as_str (r_v_args c));
  observe (r_description c) kubeconfig args_of (defend_namespace pod (replace "{debug_pod}" pod v_args)) long true.

Definition _exec_in_tool_pod (c : Resolved) (kubeconfig pod : string) : prog Observation :=
  exec_in_pod c kubeconfig pod (λ v, "exec" :: _split_args v).

Definition _exec_in_debug_pod (c : Resolved) (kubeconfig : string) (pods : Pods) : prog Observation :=
  let pod := default "" (pod_of (r_node_name c) pods) in
  if negb (truthy pod) then mret (not_run (r_description c) ("No debug pod for node " +:+ py_str (r_node_name c)))
  else exec_in_pod c kubeconfig pod debug_exec.

(** ** Debug pods *)

Definition debug_args (node : pyval) : list string :=
  ["debug"; "node/" +:+ py_str node; "-n"; _TOOL_POD_NAMESPACE; "--image=busybox"; "--"; "sleep"; "3600"].

Definition wait_args (pod : string) (timeout : Z) : list string :=
  ["wait"; "--for=condition=Ready"; "pod/" +:+ pod; "-n"; _TOOL_POD_NAMESPACE; "--timeout=" +:+ str_of_Z timeout +:+ "s"].

Definition poll_args (pod : string) : list string :=
  ["get"; pod; "-n"; _TOOL_POD_NAMESPACE; "-o"; "jsonpath={.status.containerStatuses[0].ready}"].

Definition delete_args (pod : string) : list string :=
  ["delete"; "pod"; pod; "-n"; _TOOL_POD_NAMESPACE; "--force"; "--grace-period=0"].

(** [except (ToolGuardError, ToolTimeoutError)]: a refusal of the guard or a
    time-out is survived, anything else is not. *)
Definition tolerant (kubeconfig : string) (args : list string) (timeout : Z) : prog (option CommandResult) :=
  and_then (kubectl_run kubeconfig args timeout)
    (λ o, match o with
          | Ret r => mret (Some r)
          | Exn t =>
              if negb (check guard (kubectl_line kubeconfig args)).1 || startswith t "Command timed out after "
              then mret None else Done (Exn t)
          end).

Fixpoint poll_ready (n : nat) (pod kubeconfig : string) : prog bool :=
  match n with
  | 0 => mret false
  | S n =>
      r ← tolerant kubeconfig (poll_args pod) quick;
      match r with
      | Some r => if String.eqb (strip (stdout r)) "true" then mret true else poll_ready n pod kubeconfig
      | None => poll_ready n pod kubeconfig
      end
  end.

Definition _wait_for_debug_pod_ready (pod kubeconfig : string) (timeout : Z) : prog bool :=
  r ← tolerant kubeconfig (wait_args pod timeout) (timeout + 10);
  match r with
  | Some r => if (exit_code r =? 0)%Z then mret true else poll_ready 6 pod kubeconfig
  | None => poll_ready 6 pod kubeconfig
  end.

Definition _create_and_wait_debug_pod (node : pyval) (kubeconfig : string) : prog (option string) :=
  r ← kubectl_run kubeconfig (debug_args node) long;
  if negb (exit_code r =? 0)%Z then mret None
  else
    let pod := _parse_debug_pod_name (stdout r) in
    if negb (truthy pod) then mret None
    else _ ← _wait_for_debug_pod_ready pod kubeconfig 60; mret (Some pod).

Definition _delete_debug_pod (pod kubeconfig : string) : prog unit :=
  and_then (kubectl_run kubeconfig (delete_args pod) 30) (λ _, mret tt).

Definition _discover_tool_pod_on_node (node : pyval) (kubeconfig : string) : prog (option string) :=
  catch
    (r ← kubectl_run kubeconfig ["get"; "pods"; "-n"; _TOOL_POD_NAMESPACE; "-l"; "app=otel-c-tool"; "-o"; "wide"] quick;
     mret (if (exit_code r =? 0)%Z
           then fst <$> List.find (λ e : string * string, eqs node e.2) (discover_tool_pods_with_nodes (stdout r))
           else None))
    (λ _, mret None).

(** The stand-alone form: a debug pod for one command. *)
Definition _exec_debug_two_step (c : Resolved) (kubeconfig : string) : prog Observation :=
  if negb (py_truthy (r_node_name c)) then mret (not_run (r_description c) "No node_name for debug_two_step")
  else
    let cmd := kubectl_line kubeconfig (debug_args (r_node_name c)) in
    r ← kubectl_run kubeconfig (debug_args (r_node_name c)) long;
    if negb (exit_code r =? 0)%Z then mret (observed_as (r_description c) cmd r)
    else
      let pod := _parse_debug_pod_name (stdout r) in
      if negb (truthy pod)
      then mret (mkObs (r_description c) (join " " cmd) (-1) (stdout r) "Failed to parse debug pod name from output")
      else
        _ ← _wait_for_debug_pod_ready pod kubeconfig 60;
        and_then (exec_in_pod c kubeconfig pod debug_exec)
          (λ o, _ ← _delete_debug_pod pod kubeconfig; Done o).

(** ** Executing the commands *)

(** The distinct nodes that need a debug pod. *)
Fixpoint add_nodes (l acc : list pyval) : Exc (list pyval) :=
  match l with
  | [] => Some acc
  | v :: l =>
      if negb (hashable v) then Raise
      else add_nodes l (if existsb (λ w, py_eqb w v) acc then acc else acc ++ [v])
  end.

Definition debug_nodes (commands : list Resolved) : Exc (list pyval) :=
  l ← add_nodes (map r_node_name (List.filter (λ c, is_two_step (r_mode c)) commands)) [];
  Some (List.filter (λ v, negb (eqs v "")) l).

(** A debug pod for each node, or else a tool pod that runs there. *)
Fixpoint prepare (nodes : list pyval) (kubeconfig : string) (debug tools : Pods) : prog (Pods * Pods) :=
  match nodes with
  | [] => mret (debug, tools)
  | node :: nodes =>
      pod ← _create_and_wait_debug_pod node kubeconfig;
      match pod with
      | Some p => prepare nodes kubeconfig (debug ++ [(node, p)]) tools
      | None =>
          tool ← _discover_tool_pod_on_node node kubeconfig;
          prepare nodes kubeconfig debug
            (match tool with Some t => if truthy t then tools ++ [(node, t)] else tools | None => tools end)
      end
  end.

Definition execute_one (debug tools : Pods) (kubeconfig : string) (c : Resolved) : prog Observation :=
  if is_two_step (r_mode c) then
    match pod_of (r_node_name c) debug with
    | Some _ => _exec_in_debug_pod c kubeconfig debug
    | None =>
        match pod_of (r_node_name c) tools with
        | Some t => _exec_in_tool_pod c kubeconfig t
        | None => mret (not_run (r_description c)
                          ("No debug pod or tool pod available for node " +:+ py_str (r_node_name c)))
        end
    end
  else _exec_simple c kubeconfig.

Fixpoint execute_all (debug tools : Pods) (kubeconfig : string) (commands : list Resolved) : prog (list Observation) :=
  match commands with
  | [] => mret []
  | c :: commands =>
      if r_unresolved c then execute_all debug tools kubeconfig commands
      else
        o ← catch (execute_one debug tools kubeconfig c) (λ t, mret (not_run (r_description c) t));
        rest ← execute_all debug tools kubeconfig commands;
        mret (o :: rest)
  end.

Fixpoint delete_all (pods : list string) (kubeconfig : string) : prog unit :=
  match pods with
  | [] => mret tt
  | p :: pods => _ ← _delete_debug_pod p kubeconfig; delete_all pods kubeconfig
  end.

Definition _execute_observations (commands : list Resolved) (kubeconfig : string) : prog (list Observation) :=
  nodes ← lift raised (debug_nodes commands);
  '(debug, tools) ← prepare nodes kubeconfig [] [];
  and_then (execute_all debug tools kubeconfig commands)
    (λ o, _ ← delete_all (map snd debug) kubeconfig; Done o).

(** ** The language model *)

Inductive reply := Answer (content : pyval) | LlmFailed | LlmTimedOut.

(** The model's answer to its n-th request of the run. *)
Definition Llm : Type := nat → list Message → reply.

(** The prompts write a double quote as a tilde. *)
Definition quotes (s : string) : string := str_map (λ c, if Ascii.eqb c "~" then "034" else c)%char s.

Definition _BASELINE_SYSTEM_PROMPT : string :=
  quotes ("You are a chaos engineering baseline collection strategist. " +:+
  "Derive the pre-injection baseline metrics for before/after comparison." +:+ nl2 +:+
  "### CRITICAL RULES (mandatory — violations produce unexecutable commands)" +:+ nl2 +:+
  "1. **Scope→Variables mapping** — node-scope uses {node_name}, {debug_pod}; " +:+
  "pod/container-scope uses {pod_name}, {namespace}, {label_selector}. " +:+
  "Using wrong scope variables (e.g., {pod_name} in node-scope) makes " +:+
  "commands unexecutable after template resolution." +:+ nl2 +:+
  "2. **{debug_pod} → debug_two_step** — If v_args_template contains " +:+
  "{debug_pod}, mode MUST be 'debug_two_step'. This variable is only " +:+
  "resolved by the debug_two_step execution path." +:+ nl2 +:+
  "3. **exec command whitelist** — For kubectl exec, the command after -- " +:+
  "MUST be a read-only diagnostic command. " +:+
  "Allowed: " +:+ join ", " (sorted_set _ALLOWED_EXEC_COMMANDS) +:+ "." +:+ nl2 +:+
  "4. **Output format** — Output ONLY a JSON list, no other text. " +:+
  line "Each element:" +:+
  "  {~description~: ~...~, ~subcommand~: ~get|top|describe|exec|debug~, " +:+
  "~v_args_template~: ~...~, ~mode~: ~simple|debug_two_step~}" +:+ nl2 +:+
  "5. **Conciseness** — 2-4 commands maximum. Focus on metrics most " +:+
  "relevant to the fault type." +:+ nl2 +:+
  line "### Output Schema Details" +:+
  "- description: short metric label (e.g., 'Node disk usage', " +:+
  line "'Pod CPU/Memory')" +:+
  line "- subcommand: kubectl subcommand (allowed: get, top, describe, exec, debug)" +:+
  line "- v_args_template: kubectl arguments with template variables" +:+
  "- mode: 'simple' or 'debug_two_step'" +:+ nl2 +:+
  line "### Template Variables" +:+
  "Available: {namespace}, {node_name}, {pod_name}, " +:+
  "{label_selector}, {debug_pod}" +:+ nl2 +:+
  line "### REMINDER (critical rules recap)" +:+
  "1. Scope→variables: node={node_name},{debug_pod}; " +:+
  line "pod={pod_name},{namespace},{label_selector}" +:+
  line "2. {debug_pod} → mode MUST be debug_two_step" +:+
  line "3. Only output the JSON list, no other text").

Definition _build_scope_specific_examples (scope : string) : string :=
  quotes (
  if String.eqb scope "node" then
    line "Examples:" +:+
    "[{~description~: ~Node disk IO~, ~subcommand~: ~exec~, " +:+
    "~v_args_template~: ~{debug_pod} -n " +:+ _TOOL_POD_NAMESPACE +:+ " -- iostat -xd 1 3~, " +:+
    line "~mode~: ~debug_two_step~}," +:+
    "{~description~: ~Node conditions~, ~subcommand~: ~describe~, " +:+
    "~v_args_template~: ~node {node_name}~, " +:+
    "~mode~: ~simple~}]"
  else
    line "Examples:" +:+
    "[{~description~: ~Pod CPU/Memory~, ~subcommand~: ~top~, " +:+
    "~v_args_template~: ~pod -n {namespace} {label_selector}~, " +:+
    line "~mode~: ~simple~}," +:+
    "{~description~: ~Pod conditions~, ~subcommand~: ~describe~, " +:+
    "~v_args_template~: ~pod {pod_name} -n {namespace}~, " +:+
    line "~mode~: ~simple~}," +:+
    "{~description~: ~Container disk usage~, ~subcommand~: ~exec~, " +:+
    "~v_args_template~: ~{pod_name} -n {namespace} -- df -h~, " +:+
    line "~mode~: ~simple~}," +:+
    "{~description~: ~Container disk IO~, ~subcommand~: ~exec~, " +:+
    "~v_args_template~: ~{pod_name} -n {namespace} -- iostat -xd 1 3~, " +:+
    "~mode~: ~simple~}]").

(** What the prompts say about the target. *)
Definition target_context (scope target action namespace : string) (names : list pyval) (labels : dict pyval) : Exc string :=
  shown ← join_vals ", " (take 5 names);
  let first := hd (VStr "") names in
  let named := py_truthy first in
  let is_node := String.eqb scope "node" in
  let selector := label_text labels in
  Some (join newline
    (["Fault type: " +:+ scope +:+ "-" +:+ target +:+ "-" +:+ action; "Fault scope: " +:+ scope] ++
     (if truthy namespace then ["Namespace: " +:+ namespace] else []) ++
     (if nonempty names then ["Resource names: " +:+ shown] else []) ++
     (if nonempty labels
      then ["Label selector: " +:+ join ", " (map (λ kv, kv.1 +:+ "=" +:+ py_str kv.2) labels)] else []) ++
     [newline +:+ "Template variable values (use these in v_args_template):"] ++
     (if truthy namespace then ["  {namespace} → " +:+ namespace] else []) ++
     (if named && negb is_node then ["  {pod_name} → " +:+ py_str first] else []) ++
     (if named && is_node then ["  {node_name} → " +:+ py_str first] else []) ++
     (if truthy selector
      then ["  {label_selector} → " +:+ selector +:+
            " (raw value — always use with -l flag, e.g. -l {label_selector})"] else []))).

Definition skill_block (context : string) (skill_case : pyval) : string :=
  context +:+ nl2 +:+ line "<skill-case>" +:+ line (py_str skill_case) +:+ "</skill-case>" +:+ nl2.

(** What a spec tells the model; without one every field is empty. *)
Definition context_of (spec : option FaultSpec) : Exc string :=
  match spec with
  | Some p => target_context (s_scope p) (s_blade_target p) (s_blade_action p) (s_namespace p) (s_names p) (s_labels p)
  | None => target_context "" "" "" "" [] []
  end.

Definition scope_of (spec : option FaultSpec) : string := match spec with Some p => s_scope p | None => "" end.
Definition target_of (spec : option FaultSpec) : string := match spec with Some p => s_blade_target p | None => "" end.
Definition action_of (spec : option FaultSpec) : string := match spec with Some p => s_blade_action p | None => "" end.

(** The commands of an answer; [None] after a time-out. *)
Definition read_reply (r : reply) : option (list BaselineCommand) :=
  match r with
  | LlmTimedOut => None
  | LlmFailed => Some []
  | Answer raw => Some (default [] (_parse_llm_json_output raw ≫= _validate_and_filter_commands))
  end.

Definition _llm_derive_baseline_commands (llm : Llm) (skill_case : pyval) (spec : option FaultSpec)
    : Exc (option (list BaselineCommand)) :=
  if negb (py_truthy skill_case) then Some (Some [])
  else
    context ← context_of spec;
    Some (read_reply (llm 0
      [SystemMessage _BASELINE_SYSTEM_PROMPT;
       HumanMessage (skill_block context skill_case +:+
         "Based on the skill-case content above, derive pre-injection baseline " +:+
         "metrics. Focus primarily on baseline_facts and symptoms sections; " +:+
         "injection verification also provides useful hints about expected " +:+
         "changes." +:+ nl2 +:+ _build_scope_specific_examples (scope_of spec))])).

Definition failure_report (o : Observation) : string :=
  line ("- Command: `" +:+ o_command o +:+ "`") +:+
  line ("  exit_code=" +:+ str_of_Z (o_exit_code o)) +:+
  "  stderr: " +:+ unchars (take 300 (uchars (o_stderr o))).

Definition _llm_retry_failed_commands (llm : Llm) (n : nat) (skill_case : pyval) (spec : option FaultSpec)
    (failed : list Observation) : Exc (option (list BaselineCommand)) :=
  if negb (nonempty failed) then Some (Some [])
  else
    context ← context_of spec;
    Some (read_reply (llm n
      [SystemMessage _BASELINE_SYSTEM_PROMPT;
       HumanMessage (skill_block context skill_case +:+
         "The following baseline commands FAILED during execution:" +:+ nl2 +:+
         join newline (map failure_report failed) +:+ nl2 +:+
         "Analyze the errors and generate CORRECTED replacement commands. " +:+
         "Output ONLY the corrected commands as a JSON list." +:+ nl2 +:+
         _build_scope_specific_examples (scope_of spec))])).

(** ** The node *)

Record Tables := mkTables {
  t_registry : list (list string * list BaselineCommand);
  t_fallback : dict (list BaselineCommand) }.

Definition initial_tables : Tables := mkTables BASELINE_COMMANDS _SCOPE_FALLBACK.

(** Where the list of the chosen commands lives. *)
Inductive origin := FromModel | FromRegistry (key : list string) | FromFallback (scope : string) | FromNothing.

Definition source_of (o : origin) : string :=
  match o with
  | FromModel => "llm" | FromRegistry _ => "registry" | FromFallback _ => "scope_fallback" | FromNothing => "none"
  end.

Definition _llm_strategy (llm : option Llm) (skill_case : pyval) (spec : option FaultSpec) : list BaselineCommand :=
  match llm with
  | Some m => default [] (default (Some []) (_llm_derive_baseline_commands m skill_case spec))
  | None => []
  end.

Definition strategy_chain (llm : option Llm) (t : Tables) (skill_case : pyval) (spec : option FaultSpec)
    : list (origin * list BaselineCommand) :=
  let scope := scope_of spec in
  [(FromModel, _llm_strategy llm skill_case spec);
   (match matching_key (t_registry t) scope (target_of spec) (action_of spec) with
    | Some k => FromRegistry k | None => FromNothing end,
    _lookup_baseline_commands (t_registry t) scope (target_of spec) (action_of spec));
   (FromFallback scope, default [] (dict_get scope (t_fallback t)))].

(** The first strategy with a command that can be executed. *)
Fixpoint first_viable (s : GState) (chain : list (origin * list BaselineCommand)) : Exc (origin * list BaselineCommand) :=
  match chain with
  | [] => Some (FromNothing, [])
  | (o, commands) :: chain =>
      if negb (nonempty commands) then first_viable s chain
      else
        preview ← _resolve_templates commands s;
        if (0 <? viable_count preview)%Z then Some (o, commands) else first_viable s chain
  end.

(** The command of a dimension for a scope. *)
Definition dimension_command (scope : string) (dim : pyval) : option BaselineCommand :=
  match dim with
  | VStr d =>
      let cmds := default [] (dict_get d _FCAT_DIMENSION_COMMANDS) in
      match dict_get scope cmds with Some c => Some c | None => dict_get "pod" cmds end
  | _ => None
  end.

Definition same_description (c d : BaselineCommand) : bool := py_eqb (bc_description c) (bc_description d).

Definition add_dimension (scope : string) (commands : list BaselineCommand) (dim : pyval) : list BaselineCommand :=
  match dimension_command scope dim with
  | Some c => if existsb (λ d, same_description d c) commands then commands else commands ++ [c]
  | None => commands
  end.

Definition dimensions_of (a : AdaptationDirective) : list pyval :=
  match dict_get "dimensions" (a_action a) with Some (VList l) => l | _ => [] end.

Definition supplements (s : GState) (scope target action : string) : list AdaptationDirective :=
  if on "target_metadata" s || (truthy scope && truthy target && truthy action)
  then lookup_adaptations scope target action (SafetyGate.metadata_view s) (Some "baseline_supplement")
  else [].

Definition supplement (s : GState) (spec : option FaultSpec) (commands : list BaselineCommand) : list BaselineCommand :=
  fold_left (add_dimension (scope_of spec))
    (concat (map dimensions_of (supplements s (scope_of spec) (target_of spec) (action_of spec)))) commands.

Definition same_key (key key' : list string) : bool := bool_decide (key' = key).

Definition set_entry (key : list string) (l : list BaselineCommand) (t : list (list string * list BaselineCommand))
    : list (list string * list BaselineCommand) :=
  map (λ e, if same_key key e.1 then (e.1, l) else e) t.

(** [commands.append]: the chosen list is the one in the table. *)
Definition write_back (o : origin) (l : list BaselineCommand) (t : Tables) : Tables :=
  match o with
  | FromRegistry k => mkTables (set_entry k l (t_registry t)) (t_fallback t)
  | FromFallback sc => mkTables (t_registry t) (map (λ e, if String.eqb e.1 sc then (e.1, l) else e) (t_fallback t))
  | FromModel | FromNothing => t
  end.

Definition pairs : Type := list (Resolved * Observation).

(** The failed commands are given back to the model at most [n] times. *)
Fixpoint retry_failed (llm : Llm) (s : GState) (spec : option FaultSpec) (kubeconfig : string) (n attempt : nat) (all : pairs)
    : prog pairs :=
  match n with
  | 0 => mret all
  | S n =>
      let failed := List.filter (λ o, negb (succeeded o)) (map snd all) in
      if negb (nonempty failed) then mret all
      else
        answer ← lift raised (_llm_retry_failed_commands llm attempt (get_d "skill_case_content" (VStr "") (g_values s)) spec failed);
        match answer with
        | None | Some [] => mret all
        | Some commands =>
            resolved ← lift raised (_resolve_templates commands s);
            if (viable_count resolved =? 0)%Z then mret all
            else
              obs ← _execute_observations resolved kubeconfig;
              retry_failed llm s spec kubeconfig n (S attempt)
                (List.filter (λ e, succeeded e.2) all ++ zip resolved obs)
        end
  end.

Definition _LLM_BASELINE_MAX_RETRIES : nat := 2.

(** The fields the extractors of a command find in its output. *)
Definition extract_fields (s : GState) (e : Resolved * Observation) : list (dict pyval) :=
  if negb (succeeded e.2) then []
  else omap (λ x : Extractor, match x (o_stdout e.2) s with Some (VDict d) => Some d | _ => None end) (r_extractors e.1).

Definition extracted_metadata (s : GState) (resolved : list Resolved) (obs : list Observation) : dict pyval :=
  fold_left dict_update (concat (map (extract_fields s) (zip resolved obs))) [].

Definition baseline_data (now : pyval) (source : string) (obs : list Observation) : pyval :=
  VDict [("captured_at", now); ("source", VStr source); ("observations", VList (map obs_dict obs));
         ("success_count", VInt (count_if succeeded obs))].

Definition capture_with (llm : option Llm) (now : pyval) (s : GState) (spec : option FaultSpec) (source : string)
    (commands : list BaselineCommand) : prog (dict pyval) :=
  kubeconfig ← text_of raised "kubeconfig" s;
  resolved ← lift raised (_resolve_templates commands s);
  obs ← _execute_observations resolved kubeconfig;
  all ← (match llm with
         | Some m =>
             if String.eqb source "llm"
             then Some <$> retry_failed m s spec kubeconfig _LLM_BASELINE_MAX_RETRIES 1 (zip resolved obs)
             else mret None
         | None => mret None
         end);
  let '(resolved, obs) := match all with Some l => (map fst l, map snd l) | None => (resolved, obs) end in
  let found := extracted_metadata s resolved obs in
  metadata ← lift raised (if nonempty found
                          then m ← as_dict (or_empty (get "target_metadata" s));
                               Some [("target_metadata", VDict (dict_update m found))]
                          else Some []);
  mret (("baseline_data", baseline_data now source obs) :: metadata).

Definition error_result (now : pyval) : dict pyval := [("baseline_data", baseline_data now "error" [])].

Definition baseline_capture (llm : option Llm) (now : pyval) (t : Tables) (s : GState) : prog (Tables * dict pyval) :=
  match (spec ← read_fault_spec (g_values s);
         chosen ← first_viable s (strategy_chain llm t (get_d "skill_case_content" (VStr "") (g_values s)) spec);
         Some (spec, chosen)) with
  | None => mret (t, error_result now)
  | Some (spec, (o, chosen)) =>
      let commands := supplement s spec chosen in
      let t' := write_back o commands t in
      catch (r ← capture_with llm now s spec (source_of o) commands; mret (t', r))
            (λ _, mret (t', error_result now))
  end.
End capture.
