(* ===== verification/BaselineProps.v ===== *)
(** * What baseline capture may do (agent/nodes/baseline_capture.py)

    Whatever the language model proposes and whatever the cluster answers, the
    node runs only reading subcommands and execs (whose inner command it does
    not confine), and the pods it creates to observe a node are the only
    ones it deletes; they are deleted again; the model is asked at most three
    times; the node always answers; and the tables of commands, whose lists
    it extends in place, stay within a fixed bound. *)

From stdpp Require Import base list strings sets relations.
From Stdlib Require Import ZArith Ascii.
From S2P Require Import Prelude PyText PyRe PyValue PyOps ToolGuard Failure FaultSpec FaultContext Router Conflict InjectionDetection AttemptTracker Finalize SafetyGate Kubectl Effects DirectExecute SideEffects BaselineCommands BaselineCapture.

(** ** The commands a model may propose *)

(** The subcommands a proposal may have.  The first three only read; an exec
    runs whatever it is given inside a container. *)
Definition READING : list string := ["get"; "top"; "describe"].
Definition LISTED : list string := READING ++ ["exec"].

(** An exec either names its command after "--", and it is a diagnostic, or
    names none. *)
Definition diagnostic_exec (c : BaselineCommand) : Prop :=
  bc_subcommand c = "exec" →
  match bc_template c with
  | VStr t => ∀ a b, cut_str "--" t = Some (a, b) → diagnostic (strip b) = true
  | _ => True
  end.

Definition listed (c : BaselineCommand) : Prop := bc_subcommand c ∈ LISTED.
#[local] Instance listed_dec c : Decision (listed c).
Proof. unfold listed. apply _. Defined.

Lemma in_set_text v l : in_set v l = Some true → ∃ t, v = VStr t ∧ t ∈ l.
Proof. intros H. apply one_of_true. destruct v; try discriminate H; by injection H. Qed.

(** What phase 1 lets through. *)
Definition proposal_ok (p : Proposal) : Prop :=
  pr_subcommand p ∈ _ALLOWED_SUBCOMMANDS ∧
  (pr_subcommand p = "exec" →
   match pr_template p with
   | VStr t => ∀ a b, cut_str "--" t = Some (a, b) → diagnostic (strip b) = true
   | _ => True
   end).

Lemma after_dashes_cut t r a b : after_dashes (VStr t) = Some r → cut_str "--" t = Some (a, b) → r = Some (strip b).
Proof.
  unfold after_dashes. cbn [py_in mbind option_bind as_str]. intros H Hc.
  assert (contains "--" t = true) as Ht
    by (destruct (contains "--" t) eqn:E; [done | apply cut_str_None in E; congruence]).
  rewrite Ht in H. injection H as <-. unfold after_str. by rewrite Hc.
Qed.

Lemma validate_command_ok v p : validate_command v = Some (Some p) → proposal_ok p.
Proof.
  destruct v as [| | | | | | |cmd]; try discriminate. cbn [validate_command].
  intros (allowed & Ha & H)%bind_Some. destruct allowed; [|discriminate]. cbn [negb] in H.
  apply in_set_text in Ha as (sub & Hs & Hin). rewrite Hs in H.
  apply bind_Some in H as (run & Hrun & H).
  destruct (match run with Some c => negb (diagnostic c) | None => false end) eqn:Hd; [discriminate|].
  apply bind_Some in H as (deferred & _ & H). cbn in H. injection H as <-. split; [exact Hin|]. cbn.
  intros ->. cbn in Hrun. destruct (get_d "v_args_template" (VStr "") cmd) as [| | | |t| | |]; try done.
  intros a b Hc. rewrite (after_dashes_cut _ _ _ _ Hrun Hc) in Hd. by apply negb_false_iff in Hd.
Qed.

Lemma debug_template_cut cmd a b : cut_str "--" (in_debug_pod cmd) = Some (a, b) → b = " " +:+ cmd.
Proof.
  change (in_debug_pod cmd) with ("{debug_pod} -n chaosblade " +:+ "--" +:+ (" " +:+ cmd)).
  cbn -[String.substring]. pose proof (substring_drop "--" (" " +:+ cmd)) as E. cbn -[String.substring] in E.
  rewrite E. by intros [= _ <-].
Qed.

Lemma convert_command_ok redundant p l :
  proposal_ok p → convert_command redundant p = Some l → Forall (λ c, listed c ∧ diagnostic_exec c) l.
Proof.
  unfold convert_command. intros [Hs Hd] H. destruct (String.eqb_spec (pr_subcommand p) "debug") as [E|E].
  - destruct redundant; [by injection H as <-|]. apply bind_Some in H as (present & _ & H).
    destruct present; [|by injection H as <-]. apply bind_Some in H as (t & _ & H). cbn zeta in H.
    destruct (diagnostic (strip (after_last_dashes t))) eqn:D; injection H as <-; [|by constructor].
    constructor; [|by constructor]. split; [unfold listed, LISTED; cbn; set_solver|].
    intros _. cbn [bc_template]. intros a b ->%debug_template_cut.
    change (strip (" " +:+ strip (after_last_dashes t))) with (strip (strip (after_last_dashes t))).
    by rewrite strip_idem.
  - injection H as <-. constructor; [|by constructor]. split; [|exact Hd].
    unfold listed, LISTED, _ALLOWED_SUBCOMMANDS in *. cbn. set_solver.
Qed.

(** Every command taken from the model's answer has a listed subcommand;
    "debug" is converted or dropped, and a named exec is a diagnostic. *)
Lemma validated_listed commands l :
  _validate_and_filter_commands commands = Some l → Forall (λ c, listed c ∧ diagnostic_exec c) l.
Proof.
  unfold _validate_and_filter_commands. intros (checked & Hc & (shared & _ & (converted & Hv & [= <-])%bind_Some)%bind_Some)%bind_Some.
  apply Forall_concat.
  apply mapM_Some in Hc, Hv.
  assert (Forall proposal_ok (omap id checked)) as Hok.
  { clear Hv. induction Hc as [|v [p|] commands checked Hp Hc IH]; cbn; [constructor| |exact IH].
    constructor; [by eapply validate_command_ok | exact IH]. }
  revert Hok. induction Hv as [|p r ps rs Hr Hv IH]; intros Hok; [constructor|].
  inversion_clear Hok. constructor; [by eapply convert_command_ok | by apply IH].
Qed.

Lemma reply_listed r l : read_reply r = Some l → Forall listed l.
Proof.
  destruct r as [raw| |]; cbn; intros [= <-]; [|constructor].
  destruct (_parse_llm_json_output raw) as [cmds|]; cbn; [|constructor].
  destruct (_validate_and_filter_commands cmds) as [l|] eqn:E; cbn; [|constructor].
  eapply Forall_impl; [by eapply validated_listed|]. by intros c [].
Qed.

Lemma resolve_command_sub p c r : resolve_command p c = Some r → r_subcommand r = bc_subcommand c.
Proof.
  unfold resolve_command. intros H. by repeat (apply bind_Some in H as (? & _ & H); repeat case_match; simplify_eq).
Qed.

(** Resolution keeps the subcommands. *)
Lemma resolve_listed commands s l :
  Forall listed commands → _resolve_templates commands s = Some l → Forall (λ r, r_subcommand r ∈ LISTED) l.
Proof.
  intros Hc. unfold _resolve_templates. intros (spec & _ & H)%bind_Some. destruct spec as [p|].
  - apply mapM_Some in H. induction H as [|c r cs rs Hr H IH]; [constructor|]. inversion_clear Hc.
    constructor; [|by apply IH]. by rewrite (resolve_command_sub _ _ _ Hr).
  - injection H as <-. induction Hc; constructor; done.
Qed.

(** ** The tables *)

Definition tables_listed (t : Tables) : Prop :=
  Forall (λ e, Forall listed e.2) (t_registry t) ∧ Forall (λ e, Forall listed e.2) (t_fallback t).

Lemma initial_listed : tables_listed initial_tables.
Proof. split; apply (bool_decide_unpack _); by vm_compute. Qed.

Lemma entry_of_elem key t l : entry_of key t = Some l → (key, l) ∈ t.
Proof.
  induction t as [|[k l'] t IH]; cbn; [done|]. case_bool_decide as E; [intros [= ->]; subst; left|].
  intros H%IH. by right.
Qed.

Lemma dimension_listed scope dim c : dimension_command scope dim = Some c → listed c.
Proof.
  assert (Forall (λ e, Forall (λ e', listed e'.2) e.2) _FCAT_DIMENSION_COMMANDS) as Hall
    by (apply (bool_decide_unpack _); by vm_compute).
  unfold dimension_command. destruct dim as [| | | |d| | |]; try discriminate.
  destruct (dict_get d _FCAT_DIMENSION_COMMANDS) as [cmds|] eqn:Ed; cbn [default]; [|discriminate].
  apply dict_get_In in Ed. pose proof (proj1 (Forall_forall _ _) Hall _ Ed) as Hc. rewrite Forall_forall in Hc.
  case_match eqn:Es; intros [=]; subst; [apply dict_get_In in Es; exact (Hc _ Es)|].
  by match goal with H : dict_get "pod" _ = _ |- _ => apply dict_get_In in H; exact (Hc _ H) end.
Qed.

Lemma supplement_listed s spec l : Forall listed l → Forall listed (supplement s spec l).
Proof.
  unfold supplement. generalize (concat (map dimensions_of (supplements s (scope_of spec) (target_of spec) (action_of spec)))).
  intros dims. revert l. induction dims as [|dim dims IH]; intros l Hl; cbn; [done|]. apply IH.
  unfold add_dimension. destruct (dimension_command _ dim) as [c|] eqn:E; [|done]. case_match; [done|].
  apply Forall_app. split; [done|]. constructor; [by eapply dimension_listed | constructor].
Qed.

(** The commands of the chosen strategy. *)
Lemma chain_listed llm t skill spec :
  tables_listed t → Forall (λ e, Forall listed e.2) (strategy_chain llm t skill spec).
Proof.
  intros [Hr Hf]. unfold strategy_chain. repeat constructor; cbn.
  - unfold _llm_strategy. destruct llm as [m|]; [|constructor]. unfold _llm_derive_baseline_commands.
    case_match; cbn; [constructor|]. destruct (context_of spec); cbn; [|constructor].
    destruct (read_reply _) eqn:E; cbn; [|constructor]. by eapply reply_listed.
  - unfold _lookup_baseline_commands. destruct (matching_key _ _ _ _); [|constructor].
    destruct (entry_of _ _) eqn:E; cbn; [|constructor]. apply entry_of_elem in E.
    by apply (proj1 (Forall_forall _ _) Hr _ E).
  - destruct (dict_get _ (t_fallback t)) eqn:E; cbn; [|constructor]. apply dict_get_In in E.
    by apply (proj1 (Forall_forall _ _) Hf _ E).
Qed.

Lemma first_viable_elem s chain o l :
  first_viable s chain = Some (o, l) → (o, l) ∈ chain ∨ (o = FromNothing ∧ l = []).
Proof.
  induction chain as [|[o' l'] chain IH]; cbn [first_viable]; [intros [= <- <-]; by right|].
  destruct (nonempty l'); cbn [negb].
  - intros (preview & _ & H)%bind_Some. case_match; [injection H as <- <-; left; left|].
    destruct (IH H); [left; by right | by right].
  - intros [?|?]%IH; [left; by right | by right].
Qed.

Lemma chosen_listed s llm t skill spec o l :
  tables_listed t → first_viable s (strategy_chain llm t skill spec) = Some (o, l) → Forall listed l.
Proof.
  intros Ht [H|[_ ->]]%first_viable_elem; [|constructor].
  exact (proj1 (Forall_forall _ _) (chain_listed llm t skill spec Ht) _ H).
Qed.

(** ** What is run *)

Section confined.
Context (cfg : ToolSettings) (guard : ToolGuard) (raised kc : string).

Local Abbreviation line_of := (kubectl_line cfg kc).

(** A debug pod the node has created. *)
Definition created (h : history) (pod : string) : Prop :=
  ∃ node t r, (mkSpawn (line_of (debug_args node)) t [] "", Ret r) ∈ h ∧
              exit_code r = 0%Z ∧ pod = _parse_debug_pod_name (stdout r) ∧ truthy pod = true.

(** What may follow a log. *)
Inductive step_of (h : history) : list string → Prop :=
  | S_read sub rest : sub ∈ READING → step_of h (sub :: rest)
  | S_exec rest : step_of h ("exec" :: rest)
  | S_debug node : step_of h (debug_args node)
  | S_wait pod : created h pod → step_of h (wait_args pod 60)
  | S_delete pod : created h pod → step_of h (delete_args pod).

Lemma S_listed h sub rest : sub ∈ LISTED → step_of h (sub :: rest).
Proof. intros [H|H]%elem_of_app; [by apply S_read|]. apply list_elem_of_singleton in H as ->. apply S_exec. Qed.

Inductive confined : history → Prop :=
  | C_nil : confined []
  | C_snoc h args t o :
      confined h → step_of h args → (check guard (line_of args)).1 = true →
      confined (h ++ [(mkSpawn (line_of args) t [] "", o)]).

Lemma created_mono h h' pod : h `prefix_of` h' → created h pod → created h' pod.
Proof. intros [l ->] (node & t & r & H & ?). exists node, t, r. split; [|done]. by apply elem_of_app; left. Qed.

(** The program only takes allowed steps; [Q] holds of what it returns. *)
Definition keep {A} (h : history) (p : prog A) (Q : history → A → Prop) : Prop :=
  confined h → wp p (λ h' r, confined h' ∧ h `prefix_of` h' ∧ match r with Ret a => Q h' a | Exn _ => True end) h.

Lemma keep_ret {A} h (a : A) (Q : history → A → Prop) : Q h a → keep h (mret a) Q.
Proof. intros H Hc. by cbn. Qed.

Lemma keep_and_then {A B} h (p : prog A) (f : outcome A → prog B) Q R :
  keep h p Q →
  (∀ h' o, h `prefix_of` h' → match o with Ret a => Q h' a | Exn _ => True end → keep h' (f o) R) →
  keep h (and_then p f) R.
Proof.
  intros Hp Hf Hc. apply wp_and_then. eapply wp_mono; [by apply Hp|]. intros h1 o (H1 & Hx & HQ).
  eapply wp_mono; [by eapply (Hf h1 o)|]. intros h2 r (H2 & Hy & HR). split; [done|]. split; [by etrans | done].
Qed.

Lemma keep_bind {A B} h (p : prog A) (f : A → prog B) Q R :
  keep h p Q → (∀ h' a, h `prefix_of` h' → Q h' a → keep h' (f a) R) → keep h (p ≫= f) R.
Proof. intros Hp Hf. eapply keep_and_then; [exact Hp|]. intros h' [a|t] Hx HQ; [by apply Hf | by intros Hc]. Qed.

Lemma keep_catch {A} h (p : prog A) g Q :
  keep h p Q → (∀ h' t, h `prefix_of` h' → keep h' (g t) Q) → keep h (catch p g) Q.
Proof. intros Hp Hg. eapply keep_and_then; [exact Hp|]. intros h' [a|t] Hx HQ; [by intros Hc | by apply Hg]. Qed.

Lemma keep_lift {A B} h (x : Exc A) (f : A → prog B) R :
  (∀ a, x = Some a → keep h (f a) R) → keep h (lift raised x ≫= f) R.
Proof. destruct x as [a|]; intros H; [by apply H | by intros Hc]. Qed.

Lemma keep_mono {A} h (p : prog A) (Q R : history → A → Prop) :
  keep h p Q → (∀ h' a, h `prefix_of` h' → Q h' a → R h' a) → keep h p R.
Proof.
  intros Hp HR Hc. eapply wp_mono; [by apply Hp|]. intros h' [a|t] (H1 & H2 & H3); [|done].
  split; [done|]. split; [done|]. by apply HR.
Qed.

Definition answered (args : list string) (h : history) (r : CommandResult) : Prop :=
  ∃ t, (mkSpawn (line_of args) t [] "", Ret r) ∈ h.

Lemma keep_run h args t : step_of h args → keep h (kubectl_run cfg guard kc args t) (answered args).
Proof.
  intros Hs Hc. apply wp_command; [done|]. intros u o Hg. split; [by constructor|]. split; [by eexists|].
  destruct o as [r|]; [|done]. exists u. apply elem_of_app. right. by apply list_elem_of_singleton.
Qed.

Lemma keep_listed h sub rest t : sub ∈ LISTED → keep h (kubectl_run cfg guard kc (sub :: rest) t) (λ _ _, True).
Proof. intros H. eapply keep_mono; [by apply keep_run, S_listed | done]. Qed.

Definition observes (args_of : string → list string) : Prop :=
  ∀ v, ∃ sub rest, args_of v = sub :: rest ∧ sub ∈ LISTED.

Lemma keep_observes h args_of v t : observes args_of → keep h (kubectl_run cfg guard kc (args_of v) t) (λ _ _, True).
Proof. intros H. destruct (H v) as (sub & rest & -> & Hs). by apply keep_listed. Qed.

Lemma fallbacks_keep args_of l h : observes args_of → keep h (try_fallbacks cfg guard kc args_of l) (λ _ _, True).
Proof.
  intros Hs. revert h. induction l as [|fb l IH]; intros h; cbn; [by apply keep_ret|].
  eapply keep_bind; [by apply keep_observes|]. intros h' r _ _. case_match; [by apply keep_ret | apply IH].
Qed.

Lemma observe_keep d args_of v t b h : observes args_of → keep h (observe cfg guard d kc args_of v t b) (λ _ _, True).
Proof.
  intros Hs. unfold observe. eapply keep_bind; [by apply keep_observes|]. intros h1 r _ _.
  eapply (keep_bind _ _ _ (λ _ _, True)); [|intros; by apply keep_ret].
  case_match; [by apply fallbacks_keep | by apply keep_ret].
Qed.

Lemma exec_observes f : observes (λ v, "exec" :: f v).
Proof. intros v. do 2 eexists. split; [done|]. unfold LISTED. set_solver. Qed.

Lemma exec_in_pod_keep c pod args_of h :
  observes args_of → keep h (exec_in_pod cfg guard raised c kc pod args_of) (λ _ _, True).
Proof. intros H. apply keep_lift. intros v _. by apply observe_keep. Qed.

Lemma execute_one_keep debug tools c h :
  r_subcommand c ∈ LISTED → keep h (execute_one cfg guard raised debug tools kc c) (λ _ _, True).
Proof.
  intros Hc. unfold execute_one. case_match; [case_match; [|case_match; [|by apply keep_ret]]|].
  - unfold _exec_in_debug_pod. case_match; [by apply keep_ret|]. apply exec_in_pod_keep, exec_observes.
  - apply exec_in_pod_keep, exec_observes.
  - apply keep_lift. intros v _. apply observe_keep. intros u. by do 2 eexists.
Qed.

Lemma execute_all_keep debug tools l h :
  Forall (λ c, r_subcommand c ∈ LISTED) l → keep h (execute_all cfg guard raised debug tools kc l) (λ _ _, True).
Proof.
  intros Hl. revert h. induction Hl as [|c l Hc Hl IH]; intros h; cbn; [by apply keep_ret|].
  case_match; [apply IH|]. eapply keep_bind.
  - eapply keep_catch; [by apply execute_one_keep|]. intros. by apply keep_ret.
  - intros h1 o _ _. eapply keep_bind; [apply IH|]. intros. by apply keep_ret.
Qed.

Lemma tolerant_keep h args t : step_of h args → keep h (tolerant cfg guard kc args t) (λ _ _, True).
Proof.
  intros Hs. eapply keep_and_then; [by apply keep_run|]. intros h' [r|e] _ _; [by apply keep_ret|].
  case_match; [by apply keep_ret | by intros Hc].
Qed.

Lemma poll_keep n pod h : keep h (poll_ready cfg guard n pod kc) (λ _ _, True).
Proof.
  revert h. induction n as [|n IH]; intros h; cbn; [by apply keep_ret|].
  eapply keep_bind; [apply tolerant_keep, S_listed; unfold LISTED; set_solver|].
  intros h' r _ _. repeat case_match; try apply IH. by apply keep_ret.
Qed.

Lemma wait_keep pod h : created h pod → keep h (_wait_for_debug_pod_ready cfg guard pod kc 60) (λ _ _, True).
Proof.
  intros Hp. eapply keep_bind; [by apply tolerant_keep, S_wait|]. intros h' r _ _.
  repeat case_match; try apply poll_keep. by apply keep_ret.
Qed.

Definition made (h : history) (o : option string) : Prop := ∀ pod, o = Some pod → created h pod.

Lemma create_keep node h : keep h (_create_and_wait_debug_pod cfg guard node kc) made.
Proof.
  eapply keep_bind; [apply keep_run, S_debug|]. intros h1 r Hx [t Hr].
  destruct (Z.eqb_spec (exit_code r) 0) as [E|E]; cbn [negb]; [|by apply keep_ret].
  destruct (truthy _) eqn:Ht; cbn [negb]; [|by apply keep_ret].
  assert (created h1 (_parse_debug_pod_name (stdout r))) as Hc by (exists node, t, r; split_and!; done).
  eapply keep_bind; [by apply wait_keep|]. intros h2 b Hy _. apply keep_ret. intros pod [= <-]. by eapply created_mono.
Qed.

Lemma discover_keep node h : keep h (_discover_tool_pod_on_node cfg guard node kc) (λ _ _, True).
Proof.
  eapply keep_catch; [|intros; by apply keep_ret].
  eapply keep_bind; [apply keep_listed; unfold LISTED; set_solver|]. intros. by apply keep_ret.
Qed.

Lemma delete_all_keep pods h : Forall (created h) pods → keep h (delete_all cfg guard pods kc) (λ _ _, True).
Proof.
  revert h. induction pods as [|pod pods IH]; intros h Hp; cbn; [by apply keep_ret|]. inversion_clear Hp as [|? ? H0 H1].
  eapply (keep_bind _ _ _ (λ _ _, True)).
  - eapply keep_and_then; [by apply keep_run, S_delete|]. intros. by apply keep_ret.
  - intros h' [] Hx _. apply IH. eapply Forall_impl; [exact H1|]. intros. by eapply created_mono.
Qed.

Lemma prepare_keep nodes debug tools h :
  Forall (created h) (map snd debug) →
  keep h (prepare cfg guard nodes kc debug tools) (λ h' r, Forall (created h') (map snd r.1)).
Proof.
  revert debug tools h. induction nodes as [|node nodes IH]; intros debug tools h Hd; cbn; [by apply keep_ret|].
  eapply keep_bind; [apply create_keep|]. intros h1 [pod|] Hx Hm.
  - apply IH. rewrite map_app. apply Forall_app. split; [|constructor; [by apply Hm | constructor]].
    eapply Forall_impl; [exact Hd|]. intros. by eapply created_mono.
  - eapply keep_bind; [apply discover_keep|]. intros h2 tool Hy _. apply IH.
    eapply Forall_impl; [exact Hd|]. intros. eapply created_mono; [by transitivity h1 | done].
Qed.

Lemma observations_keep l h :
  Forall (λ c, r_subcommand c ∈ LISTED) l → keep h (_execute_observations cfg guard raised l kc) (λ _ _, True).
Proof.
  intros Hl. apply keep_lift. intros nodes _. eapply keep_bind; [apply prepare_keep; constructor|].
  intros h1 [debug tools] _ Hd. eapply keep_and_then; [by apply execute_all_keep|]. intros h2 o Hx _.
  eapply keep_bind.
  - apply delete_all_keep. eapply Forall_impl; [exact Hd|]. intros. by eapply created_mono.
  - intros h3 [] _ _. destruct o; by intros Hc.
Qed.

Lemma retry_keep llm s spec n attempt all h :
  keep h (retry_failed cfg guard raised llm s spec kc n attempt all) (λ _ _, True).
Proof.
  revert attempt all h. induction n as [|n IH]; intros attempt all h; cbn -[get_d]; [by apply keep_ret|].
  case_match; [by apply keep_ret|]. apply keep_lift. intros answer Ha.
  destruct answer as [[|c commands]|] eqn:Eans; try (by apply keep_ret). apply keep_lift. intros resolved Hr.
  case_match; [by apply keep_ret|]. eapply keep_bind; [|intros h' obs _ _; apply IH].
  apply observations_keep. eapply resolve_listed; [|exact Hr].
  unfold _llm_retry_failed_commands in Ha. case_match; [by injection Ha as ?|].
  apply bind_Some in Ha as (context & _ & Ha). injection Ha as Ha. by eapply reply_listed.
Qed.

Lemma capture_keep llm now s spec source commands h :
  as_str (py_or (get "kubeconfig" s) (VStr "")) = Some kc → Forall listed commands →
  keep h (capture_with cfg guard raised llm now s spec source commands) (λ _ _, True).
Proof.
  intros Hkc Hc. unfold capture_with, text_of. rewrite Hkc. apply keep_lift. intros kc' [= <-].
  apply keep_lift. intros resolved Hr. eapply keep_bind; [apply observations_keep; by eapply resolve_listed|].
  intros h1 obs _ _. eapply (keep_bind _ _ _ (λ _ _, True)).
  - destruct llm as [m|]; [|by apply keep_ret]. case_match; [|by apply keep_ret].
    eapply keep_bind; [apply retry_keep|]. intros. by apply keep_ret.
  - intros h2 all _ _. case_match. apply keep_lift. intros metadata _. by apply keep_ret.
Qed.
End confined.

Definition kubeconfig_of (s : GState) : string := default "" (as_str (py_or (get "kubeconfig" s) (VStr ""))).

(** C13. Whatever the language model answers and whatever the cluster does, when the
    tables of commands hold only listed subcommands (those of the source do,
    [initial_listed]), every command the baseline node runs was accepted by
    the command guard and is a kubectl get, top or describe, an exec, the
    creation of a debug pod in the tool namespace, or the wait for or deletion
    of a pod that the node itself created earlier in the run.  What an exec
    runs inside its container is not confined: the read-only diagnostics the
    source promises are not enforced ([whitelist_bypassed]). *)
Theorem baseline_confined cfg guard raised llm now t s w :
  tables_listed t →
  confined cfg guard (kubeconfig_of s) (execute w [] (baseline_capture cfg guard raised llm now t s)).2.
Proof.
  intros Ht. unfold baseline_capture.
  destruct (spec ← read_fault_spec (g_values s); _) as [[spec [o chosen]]|] eqn:E; [|constructor].
  apply bind_Some in E as (spec' & _ & E). apply bind_Some in E as (chosen' & Hf & [= -> ->]).
  pose proof (chosen_listed _ _ _ _ _ _ _ Ht Hf) as Hc. apply (supplement_listed s spec) in Hc.
  destruct (as_str (py_or (get "kubeconfig" s) (VStr ""))) as [kc|] eqn:Hk.
  - assert (kubeconfig_of s = kc) as -> by (unfold kubeconfig_of; by rewrite Hk).
    apply (wp_sound _ (λ h _, confined cfg guard kc h)).
    assert (keep cfg guard kc [] (catch
      (r ← capture_with cfg guard raised llm now s spec (source_of o) (supplement s spec chosen);
       mret (write_back o (supplement s spec chosen) t, r))
      (λ _, mret (write_back o (supplement s spec chosen) t, error_result now))) (λ _ _, True)) as Hkeep.
    { apply keep_catch; [|intros; by apply keep_ret].
      eapply keep_bind; [by apply capture_keep|]. intros. by apply keep_ret. }
    eapply wp_mono; [apply Hkeep; constructor|]. by intros h r [].
  - unfold capture_with, text_of. rewrite Hk. constructor.
Qed.

(** ** The shared lists *)

(** What the fault context may add for a scope. *)
Definition addition (scope : string) (c : BaselineCommand) : Prop := ∃ dim, dimension_command scope dim = Some c.

Definition grown (scope : string) (l0 l : list BaselineCommand) : Prop :=
  ∃ extra, l = l0 ++ extra ∧ Forall (addition scope) extra ∧ NoDup (map bc_description extra).

Lemma grown_refl scope l : grown scope l l.
Proof. exists []. rewrite app_nil_r. by repeat constructor. Qed.

Definition additions (scope : string) : list pyval :=
  map bc_description (omap (λ e, dimension_command scope (VStr e.1)) _FCAT_DIMENSION_COMMANDS).

Lemma addition_text scope c : addition scope c → bc_description c ∈ additions scope ∧ ∃ d, bc_description c = VStr d.
Proof.
  intros [dim H]. destruct dim as [| | | |d| | |]; try discriminate. split.
  - unfold additions. apply list_elem_of_In, in_map. apply list_elem_of_In, list_elem_of_omap.
    unfold dimension_command in H. destruct (dict_get d _FCAT_DIMENSION_COMMANDS) as [cmds|] eqn:E; [|discriminate].
    exists (d, cmds). split; [by apply dict_get_In|]. cbn [fst]. unfold dimension_command. by rewrite E.
  - assert (Forall (λ e, Forall (λ e', ∃ d, bc_description e'.2 = VStr d) e.2) _FCAT_DIMENSION_COMMANDS) as Hall
      by (unfold _FCAT_DIMENSION_COMMANDS; repeat constructor; by eexists).
    unfold dimension_command in H. destruct (dict_get d _) as [cmds|] eqn:E; cbn in H; [|discriminate].
    apply dict_get_In in E. pose proof (proj1 (Forall_forall _ _) Hall _ E) as Hc. rewrite Forall_forall in Hc.
    destruct (dict_get scope cmds) as [c'|] eqn:Es; [injection H as ->; exact (Hc _ (dict_get_In _ _ _ Es))|].
    exact (Hc _ (dict_get_In _ _ _ H)).
Qed.

(** A list never grows by more than the dimensions there are. *)
Lemma grown_bounded scope l0 l : grown scope l0 l → (length l ≤ length l0 + 2)%nat.
Proof.
  intros (extra & -> & Ha & Hn). rewrite length_app. apply Nat.add_le_mono_l.
  transitivity (length (additions scope)).
  - rewrite <- (length_map bc_description extra). apply submseteq_length, NoDup_submseteq; [done|].
    intros d Hd. apply list_elem_of_In, in_map_iff in Hd as (c & <- & Hc). apply list_elem_of_In in Hc.
    apply addition_text. by apply (proj1 (Forall_forall _ _) Ha).
  - unfold additions, dimension_command. cbn. repeat case_match; cbn; lia.
Qed.

Lemma add_dimension_grown scope l0 l dim : grown scope l0 l → grown scope l0 (add_dimension scope l dim).
Proof.
  intros (extra & -> & Ha & Hn). unfold add_dimension.
  destruct (dimension_command scope dim) as [c|] eqn:E; [|by exists extra].
  destruct (existsb _ (l0 ++ extra)) eqn:Ex; [by exists extra|].
  exists (extra ++ [c]). rewrite (assoc_L app). split; [done|]. split.
  - apply Forall_app. split; [done|]. constructor; [by exists dim | constructor].
  - rewrite map_app. apply NoDup_app. split; [done|]. split; [|repeat constructor; by intros ?%elem_of_nil].
    intros d Hd ->%list_elem_of_singleton. apply list_elem_of_In, in_map_iff in Hd as (c' & Hd & Hc).
    assert (existsb (λ d, same_description d c) (l0 ++ extra) = true); [|congruence].
    apply existsb_exists. exists c'. split; [apply in_app_iff; by right|]. unfold same_description. rewrite Hd.
    destruct (addition_text scope c) as [_ [t ->]]; [by exists dim|]. cbn. apply String.eqb_refl.
Qed.

Lemma supplement_grown s spec l0 l :
  grown (scope_of spec) l0 l → grown (scope_of spec) l0 (supplement s spec l).
Proof.
  unfold supplement. generalize (concat (map dimensions_of (supplements s (scope_of spec) (target_of spec) (action_of spec)))).
  intros dims. revert l. induction dims as [|dim dims IH]; intros l Hl; cbn; [done|]. by apply IH, add_dimension_grown.
Qed.

(** The tables of a running process: the lists of the source, each with some
    additions of its own scope. *)
Definition tables_grown (t : Tables) : Prop :=
  Forall2 (λ e0 e, e.1 = e0.1 ∧ grown (hd "" e0.1) e0.2 e.2) BASELINE_COMMANDS (t_registry t) ∧
  Forall2 (λ e0 e, e.1 = e0.1 ∧ grown e0.1 e0.2 e.2) _SCOPE_FALLBACK (t_fallback t).

Lemma initial_grown : tables_grown initial_tables.
Proof. split; apply Forall_Forall2_diag, Forall_forall; intros e _; (split; [done | apply grown_refl]). Qed.

Lemma matching_key_scope t scope target action k : matching_key t scope target action = Some k → hd "" k = scope.
Proof.
  unfold matching_key, lookup_keys. intros [H _]%find_some.
  repeat destruct H as [<-|H]; try done.
Qed.

(** Replacing the value of a key in a table that refines another. *)
Lemma set_value_grown {K V} (test : K → bool) (R : K → V → V → Prop) (l : V) (t0 t : list (K * V)) :
  Forall2 (λ e0 e, e.1 = e0.1 ∧ R e0.1 e0.2 e.2) t0 t →
  (∀ k v0 v, (k, v0) ∈ t0 → (k, v) ∈ t → test k = true → R k v0 v → R k v0 l) →
  Forall2 (λ e0 e, e.1 = e0.1 ∧ R e0.1 e0.2 e.2) t0 (map (λ e, if test e.1 then (e.1, l) else e) t).
Proof.
  intros H Hl. induction H as [|[k v0] [k' v] t0 t [E Hr] H IH]; cbn; [constructor|]. cbn in E, Hr. subst k'.
  constructor.
  - destruct (test k) eqn:Ek; cbn; [|done]. split; [done|]. eapply Hl; [left | left | done | exact Hr].
  - apply IH. intros k' u0 u Hu0 Hu. apply Hl; by right.
Qed.

Lemma registry_keys t : tables_grown t → map fst (t_registry t) = map fst BASELINE_COMMANDS.
Proof.
  intros [H _]. induction H as [|e0 e t0 t' [E _] H IH]; [done|]. cbn. by rewrite E, IH.
Qed.

Lemma registry_distinct : NoDup (map fst BASELINE_COMMANDS).
Proof. apply (bool_decide_unpack _). by vm_compute. Qed.

Lemma entry_of_distinct t k l l' : NoDup (map fst t) → entry_of k t = Some l → (k, l') ∈ t → l' = l.
Proof.
  intros Hn H%entry_of_elem H'. induction t as [|[k0 l0] t IH]; [by apply elem_of_nil in H|].
  cbn in Hn. apply NoDup_cons in Hn as [Hx Hn].
  assert (∀ u, (k, u) ∈ t → k ∈ map fst t) as Hin
    by (intros u Hu; apply list_elem_of_In, (in_map fst _ (k, u)), list_elem_of_In, Hu).
  apply elem_of_cons in H as [E|H], H' as [E'|H']; simplify_eq; eauto; exfalso; eauto.
Qed.

Lemma fallback_distinct t : tables_grown t → dict_wf (t_fallback t).
Proof.
  intros [_ H]. unfold dict_wf, dict_keys.
  assert (map fst (t_fallback t) = map fst _SCOPE_FALLBACK) as ->
    by (induction H as [|e0 e t0 t' [E _] H IH]; [done|]; cbn; by rewrite E, IH).
  apply (bool_decide_unpack _). by vm_compute.
Qed.

(** A run leaves the tables as they are but for additions to the list it chose. *)
Lemma write_back_grown s llm skill spec t o l :
  tables_grown t → first_viable s (strategy_chain llm t skill spec) = Some (o, l) →
  tables_grown (write_back o (supplement s spec l) t).
Proof.
  intros Ht [H|[-> _]]%first_viable_elem; [|exact Ht]. pose proof Ht as [Hr Hf].
  unfold strategy_chain in H. rewrite !elem_of_cons, elem_of_nil in H. destruct H as [H|[H|[H|[]]]]; injection H as -> ->.
  - exact Ht.
  - unfold _lookup_baseline_commands. destruct (matching_key _ _ _ _) as [k|] eqn:Ek; [|exact Ht]. split; [|exact Hf].
    apply (set_value_grown (same_key k) (λ k, grown (hd "" k))); [exact Hr|].
    intros k' v0 v _ Hv Hk Hg. apply bool_decide_eq_true in Hk as ->.
    rewrite (matching_key_scope _ _ _ _ _ Ek) in *. apply supplement_grown.
    apply find_some in Ek as [_ Ek]. destruct (entry_of k (t_registry t)) as [l|] eqn:El; [|discriminate]. cbn.
    by rewrite <- (entry_of_distinct _ _ _ _ (eq_ind_r NoDup registry_distinct (registry_keys t Ht)) El Hv).
  - split; [exact Hr|]. cbn.
    apply (set_value_grown (λ k', String.eqb k' (scope_of spec)) grown); [exact Hf|].
    intros k' v0 v _ Hv Hk Hg. apply String.eqb_eq in Hk as ->. apply supplement_grown.
    by rewrite (dict_wf_get _ _ _ (fallback_distinct t Ht) Hv).
Qed.

(** One run of the node in one process. *)
Definition capture_step (t t' : Tables) : Prop :=
  ∃ cfg guard raised llm now s w r, (execute w [] (baseline_capture cfg guard raised llm now t s)).1 = Ret (t', r).

Lemma run_tables cfg guard raised llm now t s w t' r :
  (execute w [] (baseline_capture cfg guard raised llm now t s)).1 = Ret (t', r) →
  t' = t ∨ ∃ spec o l, first_viable s (strategy_chain llm t (get_d "skill_case_content" (VStr "") (g_values s)) spec) = Some (o, l) ∧
                       t' = write_back o (supplement s spec l) t.
Proof.
  unfold baseline_capture. destruct (spec ← read_fault_spec (g_values s); _) as [[spec [o chosen]]|] eqn:E.
  - apply bind_Some in E as (spec' & _ & E). apply bind_Some in E as (chosen' & Hf & [= -> ->]).
    unfold catch. rewrite execute_and_then, execute_bind. intros H. right. exists spec, o, chosen. split; [exact Hf|].
    destruct (execute w [] (capture_with _ _ _ _ _ _ _ _ _)) as [[d|text] h]; cbn in H; by injection H as <- _.
  - cbn. intros [= <- _]. by left.
Qed.

(** C14. After any number of runs in one process, each list of the registry is
    the list of the source followed by at most two commands of the fault
    context for the scope of its key, with distinct descriptions. *)
Theorem shared_lists_bounded t key l :
  rtc capture_step initial_tables t → entry_of key (t_registry t) = Some l →
  ∃ l0 extra, (key, l0) ∈ BASELINE_COMMANDS ∧ l = l0 ++ extra ∧
    (length extra ≤ 2)%nat ∧ Forall (addition (hd "" key)) extra ∧ NoDup (map bc_description extra).
Proof.
  intros Hr He. assert (tables_grown t) as [H _].
  { revert Hr. apply (rtc_ind_r (λ t, tables_grown t)); [apply initial_grown|].
    intros t1 t2 _ (cfg & guard & raised & llm & now & s & w & r & Hx) H1.
    apply run_tables in Hx as [->|(spec & o & l' & Hv & ->)]; [done | by eapply write_back_grown]. }
  apply entry_of_elem in He. apply list_elem_of_lookup in He as [i Hi].
  destruct (Forall2_lookup_r _ _ _ _ _ H Hi) as ([k0 l0] & H0 & E & Hg). cbn in E, Hg. subst k0.
  pose proof (grown_bounded _ _ _ Hg) as Hb. destruct Hg as (extra & -> & Ha & Hn).
  exists l0, extra. split; [by eapply list_elem_of_lookup_2|]. split; [done|]. rewrite length_app in Hb.
  split; [lia|]. done.
Qed.

(** ** Debug pods are deleted again *)

Section cleanup.
Context (cfg : ToolSettings) (guard : ToolGuard) (raised kc : string).

Local Abbreviation line_of := (kubectl_line cfg kc).

(** The deletion was run, or the guard refused it. *)
Definition deletion_tried (h : history) (pod : string) : Prop :=
  (check guard (line_of (delete_args pod))).1 = false ∨
  ∃ t o, (mkSpawn (line_of (delete_args pod)) t [] "", o) ∈ h.

(** No command of the program creates a debug pod. *)
Definition creates_none (s : Spawn) : Prop := ∀ node, sp_cmd s ≠ line_of (debug_args node).

Lemma line_args args args' : line_of args = line_of args' → args = args'.
Proof. unfold kubectl_line. intros [= H]. by apply app_inv_head in H. Qed.

Lemma run_creates_none args t : hd "" args ≠ "debug" → runs creates_none (kubectl_run cfg guard kc args t).
Proof. intros H. apply command_runs. intros _ u node E%line_args. by rewrite E in H. Qed.

Lemma created_only h l pod :
  Forall (λ e, creates_none e.1) l → created cfg kc (h ++ l) pod → created cfg kc h pod.
Proof.
  intros Hl (node & t & r & [H|H]%elem_of_app & Hrest); [by exists node, t, r|].
  by destruct (proj1 (Forall_forall _ _) Hl _ H node).
Qed.

Lemma fallbacks_create_none args_of l :
  (∀ v, hd "" (args_of v) ≠ "debug") → runs creates_none (try_fallbacks cfg guard kc args_of l).
Proof.
  intros H. induction l as [|fb l IH]; cbn; [apply runs_done|].
  apply runs_bind; [by apply run_creates_none|]. intros r. case_match; [apply runs_done | exact IH].
Qed.

Lemma observe_creates_none d args_of v t b :
  (∀ v, hd "" (args_of v) ≠ "debug") → runs creates_none (observe cfg guard d kc args_of v t b).
Proof.
  intros H. apply runs_bind; [by apply run_creates_none|]. intros r.
  apply runs_bind; [|intros; apply runs_done]. case_match; [by apply fallbacks_create_none | apply runs_done].
Qed.

Lemma execute_one_creates_none debug tools c :
  r_subcommand c ∈ LISTED → runs creates_none (execute_one cfg guard raised debug tools kc c).
Proof.
  intros Hc. assert (r_subcommand c ≠ "debug") as Hd by (intros E; rewrite E in Hc; unfold LISTED in Hc; set_solver).
  unfold execute_one, _exec_in_debug_pod, _exec_in_tool_pod, exec_in_pod, _exec_simple.
  repeat case_match; try apply runs_done; (apply runs_lift; intros v _; by apply observe_creates_none).
Qed.

Lemma execute_all_creates_none debug tools l :
  Forall (λ c, r_subcommand c ∈ LISTED) l → runs creates_none (execute_all cfg guard raised debug tools kc l).
Proof.
  induction 1 as [|c l Hc Hl IH]; cbn; [apply runs_done|]. case_match; [exact IH|].
  apply runs_bind; [apply runs_catch; [by apply execute_one_creates_none | intros; apply runs_done]|].
  intros o. apply runs_bind; [exact IH|]. intros. apply runs_done.
Qed.

Lemma tolerant_creates_none args t : hd "" args ≠ "debug" → runs creates_none (tolerant cfg guard kc args t).
Proof. intros H. apply runs_and_then; [by apply run_creates_none|]. intros []; [|case_match]; apply runs_done. Qed.

Lemma poll_creates_none n pod : runs creates_none (poll_ready cfg guard n pod kc).
Proof.
  induction n as [|n IH]; cbn; [apply runs_done|]. apply runs_bind; [by apply tolerant_creates_none|].
  intros r. repeat case_match; try exact IH. apply runs_done.
Qed.

Lemma wait_creates_none pod : runs creates_none (_wait_for_debug_pod_ready cfg guard pod kc 60).
Proof.
  apply runs_bind; [by apply tolerant_creates_none|]. intros r.
  repeat case_match; try apply poll_creates_none. apply runs_done.
Qed.

Lemma discover_creates_none node : runs creates_none (_discover_tool_pod_on_node cfg guard node kc).
Proof.
  apply runs_catch; [|intros; apply runs_done]. apply runs_bind; [by apply run_creates_none|]. intros. apply runs_done.
Qed.

(** Every debug pod of the log is on record. *)
Definition on_record (h : history) (pods : list string) : Prop := ∀ pod, created cfg kc h pod → pod ∈ pods.

Lemma record_runs {A} (p : prog A) h pods :
  runs creates_none p → on_record h pods → wp p (λ h' _, on_record h' pods) h.
Proof.
  intros Hp Hr. eapply wp_mono; [apply Hp|]. intros h' _ (l & -> & Hl) pod H. by eapply Hr, created_only.
Qed.

Lemma create_record node h pods :
  on_record h pods →
  wp (_create_and_wait_debug_pod cfg guard node kc)
     (λ h' r, ∀ o, r = Ret o → on_record h' (pods ++ option_list o)) h.
Proof.
  intros Hr. apply wp_bind, wp_command; [done|]. intros t [r|e] Hg; [|done].
  assert (on_record (h ++ [(mkSpawn (line_of (debug_args node)) t [] "", Ret r)])
            (pods ++ (if (exit_code r =? 0)%Z && truthy (_parse_debug_pod_name (stdout r))
                      then [_parse_debug_pod_name (stdout r)] else []))) as H1.
  { intros pod (node' & t' & r' & [H|H%list_elem_of_singleton]%elem_of_app & He & Hp & Ht).
    - apply elem_of_app. left. apply Hr. by exists node', t', r'.
    - injection H as _ _ ->. apply elem_of_app. right. rewrite He, <- Hp, Ht. by apply list_elem_of_singleton. }
  destruct (exit_code r =? 0)%Z; cbn [negb andb] in *; [|by intros o [= <-]].
  destruct (truthy _); cbn [negb] in *; [|by intros o [= <-]].
  apply wp_bind. eapply wp_mono; [apply record_runs; [apply wait_creates_none | exact H1]|].
  intros h2 [b|e'] H2; [by intros o [= <-] | done].
Qed.

Lemma prepare_record nodes debug tools h :
  on_record h (map snd debug) →
  wp (prepare cfg guard nodes kc debug tools) (λ h' r, ∀ d t, r = Ret (d, t) → on_record h' (map snd d)) h.
Proof.
  revert debug tools h. induction nodes as [|node nodes IH]; intros debug tools h Hr; cbn; [by intros d t [= <- <-]|].
  apply wp_bind. eapply wp_mono; [by apply create_record|]. intros h1 [o|e] H1; [|done]. specialize (H1 o eq_refl).
  destruct o as [pod|]; cbn [option_list] in H1; [|rewrite app_nil_r in H1].
  - apply IH. by rewrite map_app.
  - apply wp_bind. eapply wp_mono; [apply record_runs; [apply discover_creates_none | exact H1]|].
    intros h2 [tool|e] H2; [by apply IH | done].
Qed.

Lemma delete_all_tries pods h :
  wp (delete_all cfg guard pods kc) (λ h' r, r = Ret tt ∧ (∃ l, h' = h ++ l) ∧ Forall (deletion_tried h') pods) h.
Proof.
  revert h. induction pods as [|pod pods IH]; intros h; cbn; [split; [done|]; split; [exists []; by rewrite app_nil_r | constructor]|].
  unfold _delete_debug_pod. apply wp_bind, wp_and_then, wp_command.
  - intros Hg. cbn. eapply wp_mono; [apply IH|]. intros h' r (-> & Hx & Hp). do 2 (split; [done|]). constructor; [by left | done].
  - intros t o Hg. cbn. eapply wp_mono; [apply IH|]. intros h' r (-> & [l ->] & Hp). split; [done|].
    split; [rewrite <- (assoc_L app); by eexists|]. constructor; [|done]. right. exists t, o. set_solver.
Qed.

Lemma delete_all_creates_none pods : runs creates_none (delete_all cfg guard pods kc).
Proof.
  induction pods as [|pod pods IH]; cbn; [apply runs_done|].
  apply runs_bind; [apply runs_and_then; [by apply run_creates_none | intros; apply runs_done] | by intros []].
Qed.
End cleanup.

(** When the execution of the observations returns, every debug pod it
    created has been asked to be deleted, unless the guard refused that,
    whatever the commands in between answered or raised. *)
Theorem debug_pods_deleted cfg guard raised kc commands w obs h pod :
  Forall (λ c, r_subcommand c ∈ LISTED) commands →
  execute w [] (_execute_observations cfg guard raised commands kc) = (Ret obs, h) →
  created cfg kc h pod → deletion_tried cfg guard kc h pod.
Proof.
  intros Hc Hx.
  assert (wp (_execute_observations cfg guard raised commands kc)
            (λ h r, ∀ o, r = Ret o → ∀ pod, created cfg kc h pod → deletion_tried cfg guard kc h pod) []) as Hwp.
  { unfold _execute_observations. apply wp_lift; [|done]. intros nodes _. apply wp_bind.
    eapply wp_mono; [apply (prepare_record cfg guard kc nodes [] []); by intros p (? & ? & ? & ?%elem_of_nil & _)|].
    intros h1 [[debug tools]|e] H1; [|done]. specialize (H1 _ _ eq_refl). apply wp_and_then.
    eapply wp_mono; [apply record_runs; [by apply execute_all_creates_none | exact H1]|]. intros h2 o H2.
    apply wp_bind. eapply wp_mono.
    { apply wp_and; [apply delete_all_tries | apply record_runs; [apply delete_all_creates_none | exact H2]]. }
    intros h3 r ((-> & _ & Hd) & H3). cbn. intros o' -> p Hp. apply (proj1 (Forall_forall _ _) Hd). by apply H3. }
  pose proof (wp_sound _ _ _ w Hwp) as H. rewrite Hx in H. by apply (H obs eq_refl).
Qed.

(** ** The model is asked at most three times *)

Section asked.
Context (cfg : ToolSettings) (guard : ToolGuard) (raised : string).

(** Two models that give the same answers to the first [n] requests. *)
Definition agree (n : nat) (m1 m2 : Llm) : Prop := ∀ i msgs, (i < n)%nat → m1 i msgs = m2 i msgs.

Lemma execute_lift {A B} w h (x : Exc A) (f g : A → prog B) :
  (∀ a, execute w h (f a) = execute w h (g a)) →
  execute w h (lift raised x ≫= f) = execute w h (lift raised x ≫= g).
Proof. intros H. destruct x as [a|]; [exact (H a) | done]. Qed.

Lemma execute_cong {A B} w h (p : prog A) (f g : A → prog B) :
  (∀ h a, execute w h (f a) = execute w h (g a)) → execute w h (p ≫= f) = execute w h (p ≫= g).
Proof. intros H. rewrite !execute_bind. destruct (execute w h p) as [[a|t] h']; [apply H | done]. Qed.

Lemma retry_same m1 m2 w s spec kc n attempt all h :
  agree (attempt + n) m1 m2 →
  execute w h (retry_failed cfg guard raised m1 s spec kc n attempt all) =
  execute w h (retry_failed cfg guard raised m2 s spec kc n attempt all).
Proof.
  revert attempt all h. induction n as [|n IH]; intros attempt all h Ha; cbn -[get_d]; [done|]. case_match; [done|].
  assert (∀ failed, _llm_retry_failed_commands m1 attempt (get_d "skill_case_content" (VStr "") (g_values s)) spec failed =
                    _llm_retry_failed_commands m2 attempt (get_d "skill_case_content" (VStr "") (g_values s)) spec failed) as ->.
  { intros failed. unfold _llm_retry_failed_commands. case_match; [done|]. destruct (context_of spec); [|done]. cbn.
    by rewrite Ha by lia. }
  apply execute_lift. intros [[|c l]|]; try done. apply execute_lift. intros resolved.
  case_match; [done|]. apply execute_cong. intros h' obs. apply IH. intros i msgs Hi. apply Ha. lia.
Qed.

Lemma capture_same m1 m2 w now s spec source commands h :
  agree 3 m1 m2 →
  execute w h (capture_with cfg guard raised (Some m1) now s spec source commands) =
  execute w h (capture_with cfg guard raised (Some m2) now s spec source commands).
Proof.
  intros Ha. unfold capture_with, text_of. apply execute_lift. intros kc. apply execute_lift. intros resolved.
  apply execute_cong. intros h1 obs. destruct (String.eqb source "llm"); [|done].
  unfold fmap, prog_fmap. rewrite !execute_bind. by rewrite (retry_same m1 m2).
Qed.
End asked.

(** The run depends on the first three answers of the language model only:
    one derivation and two corrections. *)
Theorem model_asked_three_times cfg guard raised now t s w m1 m2 :
  agree 3 m1 m2 →
  execute w [] (baseline_capture cfg guard raised (Some m1) now t s) =
  execute w [] (baseline_capture cfg guard raised (Some m2) now t s).
Proof.
  intros Ha. unfold baseline_capture.
  assert (∀ skill spec, strategy_chain (Some m1) t skill spec = strategy_chain (Some m2) t skill spec) as Hchain.
  { intros skill spec. unfold strategy_chain, _llm_strategy, _llm_derive_baseline_commands. do 4 f_equal.
    case_match; [done|]. destruct (context_of spec); [|done]. cbn. by rewrite Ha by lia. }
  destruct (read_fault_spec (g_values s)) as [spec|]; cbn [mbind option_bind]; [|done]. rewrite Hchain.
  destruct (first_viable s _) as [[o chosen]|]; cbn [mbind option_bind]; [|done].
  unfold catch. rewrite !execute_and_then, !execute_bind. by rewrite (capture_same cfg guard raised m1 m2).
Qed.

(** ** The node always answers *)

Lemma wp_bind_any {A B} (p : prog A) (f : A → prog B) Q h :
  (∀ h a, wp (f a) Q h) → (∀ h t, Q h (Exn t)) → wp (p ≫= f) Q h.
Proof.
  intros Hf He. apply wp_bind. eapply wp_mono; [apply (wp_extends p)|]. intros h' [a|t] _; [apply Hf | apply He].
Qed.

Lemma capture_shape cfg guard raised llm now s spec source commands w h d h' :
  execute w h (capture_with cfg guard raised llm now s spec source commands) = (Ret d, h') →
  ∃ source obs metadata, d = ("baseline_data", baseline_data now source obs) :: metadata ∧
    (∀ k, k ∈ dict_keys metadata → k = "target_metadata").
Proof.
  intros Hx. eapply (wp_sound _ (λ _ r, ∀ d, r = Ret d → ∃ source obs metadata,
    d = ("baseline_data", baseline_data now source obs) :: metadata ∧
    (∀ k, k ∈ dict_keys metadata → k = "target_metadata")) h w); [|by rewrite Hx].
  unfold capture_with. do 4 (apply wp_bind_any; [intros ? ?|done]). case_match.
  apply wp_lift; [|done]. intros metadata Hm d' [= <-]. do 3 eexists. split; [done|].
  destruct (nonempty _); [|injection Hm as <-; by intros k ?%elem_of_nil].
  apply bind_Some in Hm as (m & _ & [= <-]). by intros k ->%list_elem_of_singleton.
Qed.

(** Whatever goes wrong, the node answers, with baseline data and nothing
    but baseline data and target metadata. *)
Lemma capture_always_answers cfg guard raised llm now t s w :
  ∃ t' r source obs,
    (execute w [] (baseline_capture cfg guard raised llm now t s)).1 = Ret (t', r) ∧
    dict_get "baseline_data" r = Some (baseline_data now source obs) ∧
    (∀ k, k ∈ dict_keys r → k = "baseline_data" ∨ k = "target_metadata").
Proof.
  unfold baseline_capture. destruct (spec ← read_fault_spec (g_values s); _) as [[spec [o chosen]]|].
  - unfold catch. rewrite execute_and_then, execute_bind.
    destruct (execute w [] (capture_with _ _ _ _ _ _ _ _ _)) as [[d|text] h] eqn:E; cbn.
    + apply capture_shape in E as (source & obs & metadata & -> & Hm). do 4 eexists. split; [done|]. split; [done|].
      intros k [->|H]%elem_of_cons; [by left|]. right. by apply Hm.
    + do 4 eexists. split; [done|]. split; [done|]. intros k ->%list_elem_of_singleton. by left.
  - do 4 eexists. split; [done|]. split; [done|]. intros k ->%list_elem_of_singleton. by left.
Qed.

(** ** Runs *)

Definition spec_state (spec : FaultSpec) : GState :=
  mkState [] [("fault_spec", VDict (FaultSpec.to_dict spec)); ("skill_case_content", VStr "case")].

Definition run_capture (w : world) (llm : option Llm) (t : Tables) (spec : FaultSpec) : outcome (Tables * dict pyval) * history :=
  execute w [] (baseline_capture default_tools default_guard "raised" llm (VStr "now") t (spec_state spec)).

Definition commands_run (r : outcome (Tables * dict pyval) * history) : list string := map (λ e, join " " (sp_cmd e.1)) r.2.
Definition tables_after (t : Tables) (r : outcome (Tables * dict pyval) * history) : Tables :=
  match r.1 with Ret (t', _) => t' | Exn _ => t end.

Definition base_burn : FaultSpec := mkSpec "shop" "pod" [VStr "cart-1"] [("app", VStr "web")] "disk" "burn" [] [] 600 "cli" "".
Definition base_fill : FaultSpec := mkSpec "shop" "pod" [VStr "cart-1"] [] "disk" "fill" [] [] 600 "cli" "".
Definition base_cpu : FaultSpec := mkSpec "shop" "pod" [VStr "cart-1"] [("app", VStr "web")] "cpu" "fullload" [] [] 600 "cli" "".
Definition base_node : FaultSpec := mkSpec "" "node" [VStr "node-1"] [] "disk" "fill" [] [] 600 "cli" "".

Definition debug_answer : CommandResult :=
  mkResult 0 "Creating debugging pod node-debugger-x1 with container debugger on node node-1." "".
Definition debugging : world :=
  λ _ s, Ret (if str_in "debug" (sp_cmd s) then debug_answer else mkResult 0 "ok" "").
(** The same, but kubectl wait cannot be started. *)
Definition wait_breaks : world :=
  λ h s, if str_in "wait" (sp_cmd s) then Exn "[Errno 12] Cannot allocate memory" else debugging h s.

(** A model that hides a command behind the subcommand "get". *)
Definition hiding : Llm :=
  λ _ _, Answer (VStr (quotes "[{~subcommand~: ~get~, ~v_args_template~: ~{debug_pod} -- chroot /host systemctl stop kubelet~}]")).

Lemma baseline_confined_witness :
  length (run_capture debugging (Some hiding) initial_tables base_node).2 = 4%nat ∧
  confined default_tools default_guard (kubeconfig_of (spec_state base_node))
    (run_capture debugging (Some hiding) initial_tables base_node).2.
Proof. split; [by vm_compute|]. apply baseline_confined, initial_listed. Defined.

(** The list of diagnostics is checked for the subcommand "exec" only, but in
    a debug pod every subcommand is run as an exec: the model can run any
    command on the node. *)
Lemma whitelist_bypassed :
  commands_run (run_capture debugging (Some hiding) initial_tables base_node) =
    ["kubectl debug node/node-1 -n chaosblade --image=busybox -- sleep 3600";
     "kubectl wait --for=condition=Ready pod/node-debugger-x1 -n chaosblade --timeout=60s";
     "kubectl exec -c debugger node-debugger-x1 -n chaosblade -- chroot /host systemctl stop kubelet";
     "kubectl delete pod node-debugger-x1 -n chaosblade --force --grace-period=0"].
Proof. by vm_compute. Qed.

Definition node_commands : list Resolved :=
  default [] (_resolve_templates (_lookup_baseline_commands BASELINE_COMMANDS "node" "disk" "fill") (spec_state base_node)).
Definition node_run (w : world) : outcome (list Observation) * history :=
  execute w [] (_execute_observations default_tools default_guard "raised" node_commands "").
Definition observations_of (r : outcome (list Observation) * history) : list Observation :=
  match r.1 with Ret l => l | Exn _ => [] end.

Lemma debug_pods_deleted_witness :
  length (observations_of (node_run debugging)) = 2%nat ∧
  deletion_tried default_tools default_guard "" (node_run debugging).2 "node-debugger-x1".
Proof.
  split; [by vm_compute|].
  apply (debug_pods_deleted default_tools default_guard "raised" "" node_commands debugging
           (observations_of (node_run debugging)) (node_run debugging).2).
  - apply (bool_decide_unpack _). by vm_compute.
  - by vm_compute.
  - exists (VStr "node-1"), 180%Z, debug_answer. split; [|by vm_compute].
    apply (list_elem_of_lookup_2 _ 0). by vm_compute.
Defined.

(** When the wait fails for another reason than a time-out, the pod stays. *)
Lemma failed_wait_leaks :
  commands_run (run_capture wait_breaks None initial_tables base_node) =
    ["kubectl debug node/node-1 -n chaosblade --image=busybox -- sleep 3600";
     "kubectl wait --for=condition=Ready pod/node-debugger-x1 -n chaosblade --timeout=60s"].
Proof. by vm_compute. Qed.

(** ** Findings about the registry *)

Definition tables_after_burn : Tables := tables_after initial_tables (run_capture debugging None initial_tables base_burn).

Lemma burn_step : capture_step initial_tables tables_after_burn.
Proof.
  assert (match (run_capture debugging None initial_tables base_burn).1 with Ret _ => true | Exn _ => false end = true) as H
    by (by vm_compute).
  unfold tables_after_burn, tables_after. destruct (run_capture _ _ _ _).1 as [[t r]|text] eqn:Er; [|discriminate].
  do 7 eexists. exists r. exact Er.
Qed.

Lemma shared_lists_bounded_witness :
  ∃ l l0 extra, entry_of ["pod"; "disk"] (t_registry tables_after_burn) = Some l ∧
    (["pod"; "disk"], l0) ∈ BASELINE_COMMANDS ∧ l = l0 ++ extra ∧
    (length extra ≤ 2)%nat ∧ Forall (addition "pod") extra ∧ NoDup (map bc_description extra).
Proof.
  assert (length <$> entry_of ["pod"; "disk"] (t_registry tables_after_burn) = Some 3%nat) as Hlen by (by vm_compute).
  destruct (entry_of ["pod"; "disk"] (t_registry tables_after_burn)) as [l|] eqn:E; [|discriminate].
  exists l. destruct (shared_lists_bounded tables_after_burn ["pod"; "disk"] l) as (l0 & extra & H);
    [apply rtc_once, burn_step | exact E | exists l0, extra; exact (conj eq_refl H)].
Defined.

(** The burn of a pod's disk adds its two commands to the list of every pod
    disk fault: a later fill runs them too. *)
Lemma registry_polluted :
  commands_run (run_capture debugging None initial_tables base_fill) = ["kubectl exec cart-1 -n shop -- df -h"] ∧
  commands_run (run_capture debugging None tables_after_burn base_fill) =
    ["kubectl exec cart-1 -n shop -- df -h"; "kubectl exec cart-1 -n shop -- iostat -xd 1 3";
     "kubectl exec cart-1 -n shop -- iostat -c 1 3"].
Proof. by vm_compute. Qed.

(** The selector stands where kubectl expects a name. *)
Lemma selector_without_flag :
  commands_run (run_capture debugging None initial_tables base_cpu) =
    ["kubectl top pod -n shop app=web"; "kubectl describe pod cart-1 -n shop"].
Proof. by vm_compute. Qed.

Definition unlabelled : GState :=
  spec_state (mkSpec "shop" "pod" [VStr "cart-1"] [] "cpu" "fullload" [] [] 600 "cli" "").

(** A command that is not resolved yields no observation, so the next
    command's output is paired with it and its extractors. *)
Lemma observations_shifted :
  match _resolve_templates (_lookup_baseline_commands BASELINE_COMMANDS "pod" "cpu" "fullload") unlabelled with
  | Some resolved =>
      map (λ e, (r_description e.1, o_description e.2))
        (zip resolved (observations_of (execute debugging [] (_execute_observations default_tools default_guard "raised" resolved ""))))
      = [(VStr "Pod CPU/Memory", VStr "Pod conditions/restarts")]
  | None => False
  end.
Proof. by vm_compute. Qed.

Lemma model_asked_three_times_witness :
  agree 3 hiding (λ n m, if Nat.leb 3 n then LlmFailed else hiding n m) ∧
  run_capture debugging (Some hiding) initial_tables base_node =
  run_capture debugging (Some (λ n m, if Nat.leb 3 n then LlmFailed else hiding n m)) initial_tables base_node.
Proof.
  assert (agree 3 hiding (λ n m, if Nat.leb 3 n then LlmFailed else hiding n m)) as Ha.
  { intros i msgs Hi. by rewrite (proj2 (Nat.leb_gt 3 i)) by lia. }
  split; [exact Ha|]. by apply (model_asked_three_times _ _ _ _ _ _ _ hiding).
Defined.
