(* ===== verification/MetricExtractor.v ===== *)
(** * Metrics in the output of tools (agent/nodes/_metric_extractor.py)

    The numbers the verifier compares with the baseline are read off the
    output of df, du, kubectl describe, get, top and logs and of two files of
    /proc.  The command decides which parsers run; what they find is merged in
    their order.  A value is a text, except where the JSON of the API server
    holds something else. *)

From stdpp Require Import base list strings sets.
From Stdlib Require Import ZArith Ascii SpecFloat.
From S2P Require Import Prelude PyText PyRe PyValue PyFloat PyOps Json Conflict Tokens Feasibility.

(** ** Tables *)

Fixpoint each_line (f : dict pyval → list string → dict pyval) (m : dict pyval) (l : list string) : dict pyval :=
  match l with [] => m | x :: l => each_line f (f m (split_ws x)) l end.

(** [df -h]: overlay and node file system. *)
Definition df_row (m : dict pyval) (parts : list string) : dict pyval :=
  match parts with
  | fs :: size :: used :: _ :: use_pct :: mount :: _ =>
      let v := VStr (use_pct +:+ " (" +:+ used +:+ "/" +:+ size +:+ ")") in
      if String.eqb fs "Filesystem" then m
      else if String.eqb mount "/" || startswith fs "overlay" then dict_set "Disk usage (overlay)" v m
      else if String.eqb mount "/host" then dict_set "Disk usage (nodefs)" v m
      else m
  | _ => m
  end.

Definition _parse_df_h (out : string) : dict pyval := each_line df_row [] (splitlines (strip out)).

Definition _READY_RE : pattern := Eval vm_compute in
  get_pattern (compile no_flags "^\s*Ready\s+(True|False)\b") ltac:(vm_compute; discriminate).

Definition termination_reasons : list string := ["OOMKilled"; "Error"; "Completed"; "Evicted"].

Definition describe_line (m : dict pyval) (raw : string) : dict pyval :=
  let s := strip raw in
  let m := if contains "Restart Count" s
           then match py_int_of_string (List.last (split_ws s) "") with
                | Some n => dict_set "RestartCount" (VStr (str_of_Z n)) m
                | None => m
                end
           else m in
  let m := match re_search _READY_RE s with
           | Some x => dict_set "Pod Ready" (VStr (default "" (group 1 x))) m
           | None => m
           end in
  if contains "Reason:" s
  then match List.find (λ kw, contains kw s) termination_reasons with
       | Some kw => dict_set "Last termination reason" (VStr kw) m
       | None => m
       end
  else m.

Definition _parse_describe_pod (out : string) : dict pyval := fold_left describe_line (splitlines out) [].

(** ** The JSON of a pod *)

(** The first element of a nonempty list; a dict has no key 0, and the rest
    of the code needs a dict. *)
Definition first_status (v : pyval) : Exc (dict pyval) :=
  match v with
  | VList (VDict d :: _) | VTuple (VDict d :: _) => Some d
  | _ => Raise
  end.

Definition container_metrics (cs : dict pyval) (m : dict pyval) : Exc (dict pyval) :=
  let m := if dict_mem "restartCount" cs
           then dict_set "RestartCount" (VStr (py_str (get_d "restartCount" (VInt 0) cs))) m else m in
  let m := if dict_mem "ready" cs
           then dict_set "Pod Ready" (VStr (if py_truthy (py_get "ready" cs) then "True" else "False")) m else m in
  last_state ← as_dict (or_empty (py_get "lastState" cs));
  terminated ← as_dict (or_empty (py_get "terminated" last_state));
  Some (if py_truthy (py_get "reason" terminated)
        then dict_set "Last termination reason" (py_get "reason" terminated) m else m).

Definition ready_condition (m : dict pyval) (cond : pyval) : dict pyval :=
  match cond with
  | VDict c => if eqs (py_get "type" c) "Ready" then dict_set "Pod Ready" (get_d "status" (VStr "Unknown") c) m else m
  | _ => m
  end.

Definition pod_metrics (m : dict pyval) (pod : pyval) : Exc (dict pyval) :=
  match pod with
  | VDict p =>
      status ← as_dict (or_empty (py_get "status" p));
      let statuses := py_or (py_get "containerStatuses" status) (VList []) in
      m ← (if py_truthy statuses then cs ← first_status statuses; container_metrics cs m else Some m);
      let m := if py_truthy (py_get "phase" status) then dict_set "Pod phase" (py_get "phase" status) m else m in
      conditions ← py_iter (py_or (py_get "conditions" status) (VList []));
      Some (fold_left ready_condition conditions m)
  | _ => Some m
  end.

Fixpoint pods_metrics (m : dict pyval) (l : list pyval) : Exc (dict pyval) :=
  match l with [] => Some m | p :: l => m' ← pod_metrics m p; pods_metrics m' l end.

Definition _parse_get_pod_json (out : string) : Exc (dict pyval) :=
  match json_loads out with
  | JDecodeError => Some []
  | JValueError => Raise
  | JOk data =>
      items ← (match data with
               | VDict d => if eqs (py_get "kind" d) "PodList" then py_iter (get_d "items" (VList []) d) else Some [data]
               | _ => Some [data]
               end);
      pods_metrics [] items
  end.

(** ** kubectl top, /proc and du *)

Definition is_digits (s : string) : bool :=
  truthy s && forallb (λ c, is_digit_cp (Z.of_nat (nat_of_ascii c))) (String.list_ascii_of_string s).

(** [cpu[-1] in "mn" or cpu.replace(".", "").isdigit()]. *)
Definition cpu_text (cpu : string) : bool :=
  endswith cpu "m" || endswith cpu "n" || is_digits (replace "." "" cpu).

Definition memory_text (mem : string) : bool :=
  existsb (endswith (lower mem)) ["mi"; "gi"; "ki"].

Fixpoint first_row (rows : list string) : dict pyval :=
  match rows with
  | [] => []
  | row :: rows =>
      match split_ws row with
      | name :: cpu :: mem :: _ =>
          if upper name ∈? ["NAME"; "POD"; "NODE"] then first_row rows
          else (if cpu_text cpu then [("CPU usage", VStr cpu)] else []) ++
               (if memory_text mem then [("Memory usage", VStr mem)] else [])
      | _ => first_row rows
      end
  end.

Definition _parse_kubectl_top (out : string) : dict pyval :=
  let l := splitlines (strip out) in if Nat.ltb (length l) 2 then [] else first_row l.

Fixpoint disk_row (rows : list string) : dict pyval :=
  match rows with
  | [] => []
  | row :: rows =>
      let parts := split_ws row in
      let name := nth 2 parts "" in
      if Nat.leb 11 (length parts) && (startswith name "vdb" || startswith name "sdb")
      then [("Disk writes (" +:+ name +:+ ")", VStr (nth 9 parts "" +:+ " sectors"))]
      else disk_row rows
  end.

Definition _parse_diskstats (out : string) : dict pyval := disk_row (splitlines (strip out)).

(** [round(iowait / max(idle + iowait, 1) * 100, 1)]. *)
Definition iowait_text (idle iowait : Z) : Exc string :=
  q ← true_div iowait (Z.max (idle + iowait) 1);
  Some (float_repr (round1 (float_mul q (Tokens.float_of_Z 100))) +:+ "%").

Fixpoint stat_row (rows : list string) : Exc (dict pyval) :=
  match rows with
  | [] => Some []
  | row :: rows =>
      let parts := split_ws row in
      if startswith row "cpu " && negb (startswith row "cpu0") && Nat.leb 6 (length parts) then
        match py_int_of_string (nth 4 parts ""), py_int_of_string (nth 5 parts "") with
        | Some idle, Some iowait => t ← iowait_text idle iowait; Some [("CPU iowait %", VStr t)]
        | _, _ => stat_row rows
        end
      else stat_row rows
  end.

Definition _parse_proc_stat (out : string) : Exc (dict pyval) := stat_row (splitlines (strip out)).

Fixpoint size_row (rows : list string) : dict pyval :=
  match rows with
  | [] => []
  | row :: rows =>
      match split_ws row with
      | size :: _ :: _ => [("Target path size", VStr size)]
      | _ => size_row rows
      end
  end.

Definition _parse_du_sh (out : string) : dict pyval := size_row (splitlines (strip out)).

(** ** Logs *)

Definition _ERR_PATTERNS : list string :=
  ["OOMKilled"; "CrashLoopBackOff"; "panic:"; "connection refused"; "no space left"; "DiskPressure"; "MemoryPressure"; "Evicted"].

(** [s.count(sub)]. *)
Definition str_count (sub s : string) : Z := (Z.of_nat (length (split_str sub s)) - 1)%Z.

Definition _parse_kubectl_logs (out : string) : dict pyval :=
  omap (λ p, let n := str_count p out in
             if (0 <? n)%Z then Some ("Log: " +:+ p +:+ " count", VStr (str_of_Z n)) else None) _ERR_PATTERNS.

(** ** Dispatch on the command *)

Definition _DU_RE : pattern := Eval vm_compute in
  get_pattern (compile no_flags "\bdu\b") ltac:(vm_compute; discriminate).

Definition any_in (l : list string) (s : string) : bool := existsb (λ x, contains x s) l.

Definition when (b : bool) (f : Exc (dict pyval)) (m : dict pyval) : Exc (dict pyval) :=
  if b then found ← f; Some (dict_update m found) else Some m.

Definition extract_metrics (command out : string) : Exc (dict pyval) :=
  if negb (truthy (strip out)) then Some []
  else
    let cmd := lower command in
    m ← when (any_in ["df -h"; "df --human"] cmd) (Some (_parse_df_h out)) [];
    m ← when (any_in ["describe pod"; "describe po "] cmd) (Some (_parse_describe_pod out)) m;
    m ← when (any_in ["get pod"; "get po "] cmd && any_in ["-o json"; "-ojson"; "--output=json"] cmd) (_parse_get_pod_json out) m;
    m ← when (any_in ["top pod"; "top node"] cmd) (Some (_parse_kubectl_top out)) m;
    m ← when (contains "diskstats" cmd) (Some (_parse_diskstats out)) m;
    m ← when (contains "/proc/stat" cmd) (_parse_proc_stat out) m;
    m ← when (match re_search _DU_RE cmd with Some _ => contains "-s" cmd | None => false end) (Some (_parse_du_sh out)) m;
    when (contains " logs " (" " +:+ cmd +:+ " ") || startswith cmd "logs ") (Some (_parse_kubectl_logs out)) m.

(** ** The baseline *)

Definition _ALWAYS_KEEP : list string :=
  ["RestartCount"; "Pod Ready"; "Pod phase"; "Last termination reason"; "Target path size"].

Definition _FAULT_METRICS : dict (list string) :=
  [("disk", ["Disk usage"; "Disk writes"; "CPU iowait"; "Target path size"]);
   ("cpu", ["CPU usage"; "Memory usage"; "CPU iowait"]);
   ("mem", ["Memory usage"; "CPU usage"]);
   ("network", ["Memory usage"; "CPU usage"]);
   ("process", ["RestartCount"; "Pod Ready"])].

Definition relevant (prefixes : list string) (k : string) : bool :=
  (k ∈? _ALWAYS_KEEP) || existsb (λ p, startswith (lower k) (lower p)) prefixes.

Definition _filter_metrics_by_fault (metrics : dict pyval) (blade_target : string) : dict pyval :=
  match dict_get (lower blade_target) _FAULT_METRICS with
  | None => metrics
  | Some prefixes => List.filter (λ kv, relevant prefixes kv.1) metrics
  end.

(** The metrics of one observation that succeeded. *)
Definition observation_metrics (m : dict pyval) (obs : pyval) : Exc (dict pyval) :=
  o ← as_dict obs;
  if negb (eq_int (py_get "exit_code" o) 0) then Some m
  else
    let out := py_or (get_d "stdout" (VStr "") o) (VStr "") in
    if negb (py_truthy out) then Some m
    else
      text ← as_str out;
      cmd ← as_str (py_or (py_or (py_get "command" o) (get_d "description" (VStr "") o)) (VStr ""));
      found ← extract_metrics cmd text;
      Some (dict_update m found).

Fixpoint observations_metrics (m : dict pyval) (l : list pyval) : Exc (dict pyval) :=
  match l with [] => Some m | o :: l => m' ← observation_metrics m o; observations_metrics m' l end.

Definition extract_baseline_metrics (baseline : dict pyval) (blade_target : string) : Exc (dict pyval) :=
  match baseline with
  | [] => Some []
  | _ =>
      obs ← py_iter (py_or (get_d "observations" (VList []) baseline) (VList []));
      m ← observations_metrics [] obs;
      Some (_filter_metrics_by_fault m blade_target)
  end.
