(* ===== verification/VerifierHints.v ===== *)
(** * Hints for the verification (agent/nodes/_verifier_hints.py, _verifier_shared.py)

    What the verifier is told about a kind of fault: the file system a fill is
    likely to hit, the transience of a burn, the tool pod, the topology of the
    disks.  The texts are those of the source. *)

From stdpp Require Import base list strings sets.
From Stdlib Require Import ZArith Ascii SpecFloat.
From S2P Require Import Prelude PyText PyValue PyFloat PyOps FaultSpec Kubectl BaselineCapture.

(** ** The file system of a fill *)

Definition _IMAGEFS_PATHS : list string :=
  ["/tmp"; "/var/log"; "/var/run"; "/run"; "/tmp/"; "/var/log/"; "/var/run/"; "/run/"].
Definition _NODEFS_PATHS : list string :=
  ["/var/lib/docker"; "/var/lib/containerd"; "/var/lib/kubelet"; "/var/lib/docker/"; "/var/lib/containerd/";
   "/var/lib/kubelet/"; "/etc"; "/etc/"; "/root"; "/root/"; "/home"; "/home/"].

Definition under (paths : list string) (path : string) : bool :=
  (path ∈? paths) || existsb (λ p, startswith path (rstrip_of "/" p +:+ "/")) paths.

Definition partition_of (path : string) : option string :=
  if under _IMAGEFS_PATHS path then Some "imagefs" else if under _NODEFS_PATHS path then Some "nodefs" else None.

Definition _derive_disk_fill_partition (flags : dict pyval) : Exc (option string) :=
  raw ← as_str (get_d "path" (VStr "") flags);
  let path := rstrip_of "/" raw in
  Some (if truthy path then partition_of path else None).

Definition _COMMAND_PRIORITY_HINT : string :=
  "- COMMAND PRIORITY: Your FIRST disk check MUST be `df -h` (bare, no path argument) to identify ALL partitions " +:+
  "and their usage. Do NOT run `df -h /host` or `df -h /host/<path>` as your first command — these may show only " +:+
  "one partition and give you an incomplete baseline. After `df -h` (bare) reveals all partitions, you know which " +:+
  line "one to monitor for changes.".

Definition unknown_path_hint (path : string) : string :=
  "⚠ PARTITION DERIVATION: --path " +:+ path +:+
  " — unable to determine target partition automatically. This path may be on imagefs (container overlay) or " +:+
  line "nodefs (root filesystem) depending on the mount configuration." +:+
  _COMMAND_PRIORITY_HINT +:+
  "- YOU MUST use `df -h` (bare, no path) to list ALL mounted filesystems and identify which partition shows " +:+
  line "increased usage." +:+
  line "- Do NOT assume the fill target without checking — verify which partition changed." +:+
  "- BASELINE INTEGRITY: Record which partition shows increased usage and use THAT SAME partition for all " +:+
  line "before/after comparisons. Do not compare different partitions' percentages.".

Definition imagefs_baseline_hint : string :=
  _COMMAND_PRIORITY_HINT +:+
  "- BASELINE INTEGRITY: You must compare disk usage on the SAME partition before/after injection. If your only " +:+
  "baseline is from a different partition (e.g., nodefs /dev/vda3 at 16% but the fill targets imagefs), do NOT use " +:+
  line (quotes "it as the comparison baseline — state ~No pre-injection baseline available for imagefs~ instead.") +:+
  "- FIRST-CHECK-AS-BASELINE: If no pre-injection baseline exists for the target partition, your first `df -h` " +:+
  "check IS the baseline. Record the target partition's usage % and partition identity, then wait 5-10 seconds and " +:+
  "re-check. If the value is stable near the expected fill percentage (e.g., --percent 85 → observed 84%), the " +:+
  "fill has completed — this IS evidence the fault is in effect. If the value is increasing, the fill is still " +:+
  line "active.".

Definition nodefs_baseline_hint : string :=
  _COMMAND_PRIORITY_HINT +:+
  "- BASELINE INTEGRITY: You must compare disk usage on the SAME partition before/after injection. If your only " +:+
  "baseline is from imagefs/overlay but the fill targets nodefs, do NOT use it as the comparison baseline — state " +:+
  line (quotes "~No pre-injection baseline available for nodefs~ instead.") +:+
  "- FIRST-CHECK-AS-BASELINE: If no pre-injection baseline exists for the target partition, your first `df -h " +:+
  line "/host` check IS the baseline. Record the usage % and re-check after 5-10 seconds.".

Definition partition_hint (path partition_type partition_desc verify_cmd false_negative baseline_hint : string) : string :=
  line "⚠ PROGRAMMATIC PARTITION DERIVATION (override generic hints for this specific injection):" +:+
  "- Fill path: " +:+ line (path) +:+
  "- Likely target partition: " +:+ partition_type +:+ " (" +:+ partition_desc +:+ line ") — verify with `df -h`" +:+
  "- CORRECT verification: " +:+ line (verify_cmd) +:+
  "- FALSE NEGATIVE: " +:+ line (false_negative) +:+
  "- If df shows NO partition with increased usage, check kubectl describe node for DiskPressure condition as " +:+
  "alternative evidence, but DiskPressure alone is NOT sufficient to conclude the primary metric (disk usage >85%) " +:+
  line "is met." +:+
  baseline_hint.

Definition _disk_fill_param_hints (flags : dict pyval) : Exc (option string) :=
  partition ← _derive_disk_fill_partition flags;
  path ← as_str (get_d "path" (VStr "") flags);
  Some match partition with
       | None => if truthy (rstrip_of "/" path) then Some (unknown_path_hint path) else None
       | Some t =>
           Some (if String.eqb t "imagefs" then
                   partition_hint path t
                     "container overlay filesystem (typically backed by a separate disk like /dev/vdb)"
                     "df -h (bare, no path argument) → find the overlay/imagefs partition with increased usage"
                     "df -h /host or df -h /host/<path> → shows nodefs ONLY, will NOT show imagefs change"
                     imagefs_baseline_hint
                 else
                   partition_hint path t
                     "root filesystem (typically /dev/vda3 mounted at /host)"
                     "df -h /host → shows nodefs usage. You can also use df -h (bare) to confirm"
                     "df -h (bare, looking at overlay) → shows imagefs, which is NOT the target partition"
                     nodefs_baseline_hint)
       end.

(** ** Burns *)

Definition _BURN_ITERATIONS : Z := 100.

(** [int(v)] where a [ValueError] and a [TypeError] are caught: they give
    [None], an infinity raises. *)
Definition int_or_none (v : pyval) : Exc (option Z) :=
  match v with
  | VInt z => Some (Some z)
  | VBool b => Some (Some (if b then 1 else 0)%Z)
  | VStr s => Some (py_int_of_string (strip s))
  | VFloat r => match float_trunc (float_of_repr r) with
                | TInt z => Some (Some z)
                | TValueError => Some None
                | TOverflow => Raise
                end
  | _ => Some None
  end.

Definition total_write_mb (size : pyval) : Exc Z :=
  n ← int_or_none size; Some (match n with Some z => (z * _BURN_ITERATIONS)%Z | None => 1000%Z end).

Definition node_burn_hint (path size : pyval) (total : Z) : string :=
  line "⚠ node-disk-burn TRANSIENT FAULT GUIDANCE:" +:+
  "- Burn path: " +:+ line (py_str path) +:+
  "- Block size: " +:+ py_str size +:+ "MB (estimated " +:+ str_of_Z total +:+ "MB total write, " +:+ str_of_Z _BURN_ITERATIONS +:+
  line " iterations hardcoded by ChaosBlade)" +:+
  "- CRITICAL: node-disk-burn in CRD mode creates I/O pressure via dd processes running inside the container " +:+
  "overlay. The I/O appears on the overlay's backing partition (typically imagefs/vdb), NOT on the nodefs " +:+
  "partition (vda3) where /host" +:+ py_str path +:+ line " resides." +:+
  line "- Verification strategy:" +:+
  "  1. **PRIMARY**: Check the Injection Engine Post-Check above — if burn I/O was already detected " +:+
  line "programmatically, that is AUTHORITATIVE evidence." +:+
  "  2. Compare two /proc/diskstats samples (3-5s apart) — calculate write throughput delta on ALL partitions. If " +:+
  line "any partition shows >10MB/s sustained write → burn IS in effect." +:+
  "  3. DO NOT check /host" +:+ py_str path +:+
  line "/ for burn files — they exist in the container overlay, not on the host filesystem." +:+
  "  4. df -h is USELESS for burn — burn creates I/O pressure, not data accumulation. Only use df -h as " +:+
  line "supplementary evidence if burn is still active (temporary files may increase overlay usage)." +:+
  line "  5. If burn I/O was detected on any partition → 'passed'." +:+
  "  6. If experiment completed and I/O has stopped but was previously detected → 'recovered_before_observation', " +:+
  line "NOT 'failed'." +:+
  line "  7. If NO I/O detected on ANY partition AND no burn evidence → 'failed'." +:+
  "- Note: The agent auto-boosts burn --size for direct mode to ensure a wider observable effect window.".

Definition pod_burn_hint (path size : pyval) (total : Z) : string :=
  line "⚠ pod-disk-burn TRANSIENT FAULT GUIDANCE:" +:+
  "- Burn path: " +:+ line (py_str path) +:+
  "- Block size: " +:+ py_str size +:+ "MB (estimated " +:+ str_of_Z total +:+ "MB total write, " +:+ str_of_Z _BURN_ITERATIONS +:+
  line " iterations hardcoded by ChaosBlade)" +:+
  "- CRITICAL: pod-disk-burn creates TEMPORARY files that are automatically deleted when the experiment completes. " +:+
  line "If experiment state is 'Success', the burn files have probably been cleaned up." +:+
  line "- Verification strategy:" +:+
  "  1. Compare df -h " +:+ py_str path +:+ " against baseline — a usage increase (" +:+ str_of_Z total +:+
  line "MB+) is INDIRECT evidence the burn occurred, even if files are gone" +:+
  "  2. Check for burn file remnants: `ls -lah " +:+ py_str path +:+ line "/`" +:+
  "  3. If files gone BUT df -h shows significant increase from baseline → 'recovered_before_observation', NOT " +:+
  line "'failed'" +:+
  line "  4. If NO df change AND no files → 'failed' (burn likely never executed)" +:+
  "- Note: The agent auto-boosts burn --size for direct mode to ensure a wider observable effect window.".

Definition _disk_burn_param_hints (flags : dict pyval) (scope : string) : Exc string :=
  let path := get_d "path" (VStr "/") flags in
  let size := get_d "size" (VStr "10") flags in
  total ← total_write_mb size;
  Some (if String.eqb scope "node" then node_burn_hint path size total else pod_burn_hint path size total).

(** The generators by target and action; only that of a burn looks at the
    scope. *)
Definition param_hint (target action : string) (flags : dict pyval) (scope : string) : Exc (option string) :=
  match flags with
  | [] => Some None
  | _ =>
      if negb (String.eqb target "disk") then Some None
      else if String.eqb action "fill" then _disk_fill_param_hints flags
      else if String.eqb action "burn" then t ← _disk_burn_param_hints flags scope; Some (Some t)
      else Some None
  end.

Definition fill_observability : string :=
  "Disk fill verification: the 'size' parameter must be large enough to produce observable effects. A small fill " +:+
  "(e.g., 100MB on a 100GB disk, ~0.1%) will NOT trigger DiskPressure (>85%) or show visible df -h percentage " +:+
  "change. For observable verification, prefer using 'percent' parameter (e.g., percent=85) or a size large enough " +:+
  "to push usage past 85%.".

Definition burn_observability : string :=
  "Disk burn verification: pod-disk-burn creates TEMPORARY files that are automatically deleted when the " +:+
  line "experiment completes. The fault effect is TRANSIENT by design. Verification strategy:" +:+
  "1. Compare df -h output against baseline — a usage increase (1-2GB+) is indirect evidence the burn occurred, " +:+
  line "even if files are now cleaned up." +:+
  "2. If experiment state is 'Success' (experiment completed, files cleaned up) but df -h shows significant " +:+
  line "increase from baseline → use 'recovered_before_observation', NOT 'failed'." +:+
  line "3. Check for burn file remnants: `ls -lah <path>/` in target pod." +:+
  "4. For direct mode: the agent auto-boosts burn --size to widen the observable effect window — even if files are " +:+
  line "cleaned up, the larger I/O volume leaves stronger residual evidence in df -h." +:+
  "5. ⚠ OOM KILL IS A SIDE EFFECT: burn I/O may trigger OOMKill via page cache exhaustion on memory-constrained " +:+
  "pods. If the pod restarted during or after injection, the restart will wipe all burn evidence. Classify as " +:+
  "'recovered_before_observation'. The OOMKill is CONSISTENT WITH the fault but does NOT confirm it — pre-existing " +:+
  "OOMKill history (check baseline) is a confounding factor. Set PrimaryEvidenceObserved: false.".

Definition dns_observability : string :=
  "DNS fault mechanism: ChaosBlade pod-network dns modifies /etc/hosts (adds '<forged-ip> <domain> #chaosblade' " +:+
  line "entry), NOT the DNS server. Verification MUST use tools that respect /etc/hosts:" +:+
  line "1. `cat /etc/hosts` — direct evidence of injection (look for #chaosblade entry)" +:+
  line "2. `ping -c 1 <domain>` — shows resolved IP from /etc/hosts" +:+
  line "3. `wget/curl <domain>` — application-level DNS resolution" +:+
  "DO NOT use `nslookup` or `dig` — they bypass /etc/hosts and query DNS directly, so they CANNOT detect this " +:+
  "fault type. If the target application does NOT use the hijacked domain, mark application impact verification as " +:+
  "'skipped' with a note recommending the user choose a domain the app actually depends on.".

Definition _PARAM_OBSERVABILITY_HINTS : list (string * string * string) :=
  [("disk", "fill", fill_observability); ("disk", "burn", burn_observability); ("network", "dns", dns_observability)].

Definition observability_hint (target action : string) : list string :=
  omap (λ e, if String.eqb e.1.1 target && String.eqb e.1.2 action then Some e.2 else None) _PARAM_OBSERVABILITY_HINTS.

(** ** Disks of a node *)

Definition topology_base : string :=
  "Multi-disk node topology: A K8s node may have separate filesystems for nodefs (root partition, e.g. /dev/vda3) " +:+
  line "and imagefs (container runtime data, e.g. /dev/vdb). Kubelet monitors both independently for DiskPressure." +:+
  "- In ChaosBlade K8s CRD mode: `--path /tmp` or `--path /var/log` is inside the container overlay, TYPICALLY " +:+
  "backed by imagefs (if the node has a separate imagefs; otherwise on nodefs). `--path /var/lib/docker` or host " +:+
  "root paths are TYPICALLY on nodefs. The actual partition depends on the node's mount layout — verify with `df " +:+
  line "-h` (bare).".

Definition topology_fill : string :=
  "- `df -h /host` inside kubectl debug shows nodefs ONLY. If the fill targeted imagefs, this command shows NO " +:+
  line "change even though fill succeeded — this is a FALSE NEGATIVE, not a failed injection." +:+
  "- YOUR FIRST CHECK MUST BE `df -h` (bare, no path) to list ALL mounted filesystems, then identify which " +:+
  "partition shows increased usage. Do NOT use `df -h /host` as the sole disk check — it will give a false " +:+
  "negative for imagefs-targeted fills. Match the partition against the 'path' parameter in Blade key parameters " +:+
  line "above.".

Definition topology_burn : string :=
  line "For node-disk-burn (I/O stress, NOT data accumulation):" +:+
  "- df -h is USELESS for burn verification — burn creates temporary I/O pressure, not persistent data. Do NOT use " +:+
  line "df -h as your primary burn check." +:+
  "- CORRECT verification: compare two /proc/diskstats samples (3-5s apart) and calculate write throughput delta " +:+
  line "on ALL partitions (not just the partition containing --path)." +:+
  "- The dd processes write to the container overlay (typically on imagefs/vdb), so the I/O will appear on the " +:+
  line "overlay's backing partition, NOT on the nodefs partition where /host/tmp resides." +:+
  "- If any partition shows >10MB/s sustained write throughput → burn IS in effect. This is the PRIMARY evidence " +:+
  line "for burn verification." +:+
  "- DO NOT check /host/tmp/ for burn files — they exist in the container overlay, not on the host filesystem. " +:+
  line "Their absence does NOT mean the burn is not working." +:+
  "- If the Injection Engine Post-Check already detected burn I/O, that is AUTHORITATIVE evidence — use it as your " +:+
  line "primary verification and do NOT repeat the diskstats check yourself.".

Definition topology_other : string :=
  "- YOUR FIRST CHECK MUST BE `df -h` (bare, no path) to list ALL mounted filesystems, then identify which " +:+
  "partition shows changes. For fill faults, look for increased usage. For burn faults, `df -h` will NOT show " +:+
  line "changes — use `/proc/diskstats` delta sampling instead.".

Definition _get_node_disk_topology_hints (action : string) : string :=
  topology_base +:+
  (if String.eqb action "fill" then topology_fill else if String.eqb action "burn" then topology_burn else topology_other).

(** ** All hints *)

Definition exec_hint : string :=
  "Injection was performed via kubectl exec (host blade was unavailable). The blade experiment is running inside a " +:+
  "cluster tool pod.".

Definition busybox_hint : string :=
  line "BusyBox Quick Reference (commands via kubectl exec run in a BusyBox container):" +:+
  line "- iostat: NO -x flag. Use `iostat -d -k 1 3` (device stats) + `iostat -c 1 3` (CPU/iowait)" +:+
  line "  NOTE: cumulative counters may overflow (values near 9e18); use interval deltas, NOT absolute values" +:+
  line "- ps: NO -w flag. Use `ps` (bare) or `ps -o pid,args`, NOT `ps -w` or `ps -o PID,USER,TIME,COMMAND`" +:+
  line "- grep: NO -E flag (no extended regex). Use `grep -e pattern1 -e pattern2` or basic regex" +:+
  line "- mount: output differs; use `cat /proc/mounts` as alternative" +:+
  line "- top: may not exist. Use `top -bn1` (batch mode) or `cat /proc/stat`" +:+
  line "- df: `df -h` works normally on BusyBox" +:+
  line "- find: limited but functional. Avoid complex predicates" +:+
  "- awk/sed: BusyBox versions have fewer features; prefer simple grep/cut".

Definition exec_pod_hint (pod : pyval) : string :=
  "Tool pod `" +:+ py_str pod +:+ line "` in `chaosblade` is available for:" +:+
  line "  - ChaosBlade commands (blade status, blade destroy)" +:+
  line "  - kubectl API checks (describe node, top node, get events)" +:+
  "LIMITATION: This pod does NOT mount /host. `df -h` inside it shows the overlay filesystem, not the host disk.".

Definition native_hint : string :=
  "Injection was performed via kubectl-native operations (no ChaosBlade). Verify the configuration change directly " +:+
  "via kubectl.".

Definition _version_skew_note : string :=
  newline +:+
  "kubectl debug version note: kubectl debug node/ uses the EphemeralContainers API, which has breaking changes " +:+
  "between K8s versions. When kubectl client and server versions differ by more than ±1 minor version, the command " +:+
  quotes "may return ~NotFound~. If kubectl debug fails: fall back to API-level checks only (kubectl describe node, " +:+
  "kubectl get events) which are always available. You CANNOT use kubectl run as an alternative — it is not in the " +:+
  "allowed subcommand list. Do not attempt kubectl run.".

Definition node_pod_hint (pod : pyval) : string :=
  line "Node-level fault: Regular pods see OVERLAY filesystem, NOT the host." +:+
  "For host filesystem checks (df -h on host, iostat, du on host paths), use kubectl debug with the TWO-STEP " +:+
  line "approach:" +:+
  line "  Step 1: kubectl(subcommand='debug', v_args='node/<node_name> --image=busybox -- sleep 3600')" +:+
  line "  Step 2: From output, find debug pod name, then:" +:+
  line "    kubectl(subcommand='exec', v_args='<debug-pod> -n default -- <command>')" +:+
  line "CRITICAL: Must include '-- sleep 3600' in Step 1 — bare busybox exits immediately." +:+
  line "Host paths use /host/ prefix (e.g., /host/tmp, /host/var/log)." +:+
  "For API-level checks (describe node, top node), use kubectl directly or the tool pod `" +:+ py_str pod +:+ "`." +:+
  _version_skew_note.

Definition node_hint : string :=
  line "Node-level fault: Regular pods see OVERLAY filesystem, NOT the host." +:+
  line "For API-level checks (describe node, top node), use kubectl directly." +:+
  line "For host filesystem checks (df -h, iostat, du on host paths), use kubectl debug:" +:+
  line "  Step 1: kubectl(subcommand='debug', v_args='node/<node_name> --image=busybox -- sleep 3600')" +:+
  line "  Step 2: From output, find debug pod name, then:" +:+
  line "    kubectl(subcommand='exec', v_args='<debug-pod> -n default -- <command>')" +:+
  line "CRITICAL: Must include '-- sleep 3600' in Step 1 — bare busybox exits immediately." +:+
  "Host paths use /host/ prefix (e.g., /host/tmp, /host/var/log)." +:+ _version_skew_note.

Definition event_hint : string :=
  "Event filtering: When checking kubectl events for DiskPressure, you MUST filter by the target node. Events from " +:+
  "OTHER nodes are from OTHER experiments and are NOT evidence for THIS injection. Use: kubectl(subcommand='get', " +:+
  "v_args='events -A --field-selector involvedObject.name=<TARGET_NODE> --kubeconfig=...') or check `kubectl " +:+
  "describe node <TARGET_NODE>` Conditions section. Do NOT use `kubectl get events -A | grep DiskPressure` — this " +:+
  "returns events from ALL nodes and will include false positives.".

Definition knowledge_hint : string :=
  "For domain-specific verification patterns, data interpretation pitfalls, or kubectl field reference, check the " +:+
  "Domain Knowledge Index and use `read_knowledge_resource` to load relevant documents.".

Definition method_hints (injection_method pod : pyval) : list string :=
  if eqs injection_method "kubectl_exec" then
    [exec_hint; busybox_hint] ++ (if py_truthy pod then [exec_pod_hint pod] else [])
  else if eqs injection_method "kubectl_native" then [native_hint] else [].

(** [known], what is known of the kind of fault. *)
Definition known_metadata (scope target action : string) : list string :=
  (if truthy scope then ["Scope: " +:+ scope] else []) ++ (if truthy target then ["Target: " +:+ target] else []) ++
  (if truthy action then ["Action: " +:+ action] else []).

Definition metadata_hints (scope target action : string) : list string :=
  match known_metadata scope target action with
  | [] => []
  | known =>
      ("Fault metadata: " +:+ join " | " known) ::
      (if truthy scope && truthy target && truthy action
       then ["ChaosBlade scenario: " +:+ scope +:+ "-" +:+ target +:+ " " +:+ action] else [])
  end.

Definition _get_fault_verification_hints (scope target action : string) (injection_method pod : pyval) (flags : dict pyval)
    : Exc string :=
  dynamic ← (if truthy target && truthy action then param_hint target action flags scope else Some None);
  Some (join newline (
    method_hints injection_method pod ++
    (if String.eqb scope "node" then [if py_truthy pod then node_pod_hint pod else node_hint] else []) ++
    metadata_hints scope target action ++
    (if truthy target && truthy action then observability_hint target action else []) ++
    (match dynamic with Some t => if truthy t then [t] else [] | None => [] end) ++
    (if String.eqb target "disk" && String.eqb scope "node" then [_get_node_disk_topology_hints action; event_hint] else []) ++
    [knowledge_hint])).

Definition _BASELINE_INTEGRITY_PROMPT : string :=
  "**BASELINE INTEGRITY** (applies to ALL quantitative metric verification — disk %, CPU %, memory %, latency ms, " +:+
  line "etc. Does NOT apply to qualitative status checks like 'Pod is Running' or 'Service is reachable'):" +:+
  line "1. IDENTIFY the exact resource you are measuring — be specific:" +:+
  line (quotes "   ~imagefs /dev/vdb~, ~node cn-hongkong.10.0.2.69 CPU~, ~pod accounting memory~, ~endpoint /api/health latency~") +:+
  line (quotes "   ~disk~ or ~CPU~ alone is ambiguous — always include the resource identity.") +:+
  line "2. Your FIRST measurement is your BASELINE. Record the resource identity AND value together." +:+
  line "3. ALL comparisons MUST be against the SAME resource. NEVER compare metrics from different resources:" +:+
  line (quotes "   ✅ ~imagefs /dev/vdb: first-check 42% → re-check 84%~ (same partition, valid delta)") +:+
  line (quotes "   ✅ ~node X CPU: 12% → 89%~ (same node, valid delta)") +:+
  quotes "   ❌ ~first-check 16% → re-check 84%~ (different partitions: 16% was nodefs /dev/vda3, 84% was imagefs /dev/vdb " +:+
  line "— INVALID comparison)" +:+
  line "4. If you lack a pre-injection baseline for the target resource, say so explicitly:" +:+
  line (quotes "   ~No pre-injection baseline available for imagefs /dev/vdb. Current value: 84%.~") +:+
  "5. HIGH post-injection values WITHOUT baseline context are ambiguous — the value may be pre-existing, not " +:+
  "fault-caused. Look for corroborating evidence (e.g., DiskPressure condition, recent events, timestamp " +:+
  line "correlation with injection time)." +:+
  "6. If your first-check value already matches the expected injection parameter (e.g., --percent 85 → first-check " +:+
  "shows 84%), this IS evidence the fault is in effect — do NOT conclude 'no change' just because re-check shows " +:+
  line "the same value." +:+
  "7. EXPECTED NEGATIVE RESULTS: If the PRIMARY metric confirms the fault is in effect (e.g., disk usage matches " +:+
  "--percent), but a THRESHOLD-DEPENDENT condition is not met (e.g., DiskPressure=False because usage is 84% vs " +:+
  "85% threshold), mark that step as 'expected' — the negative result is anticipated and does not indicate " +:+
  "injection failure. Do NOT use 'expected' as a synonym for 'failed'.".
