(* ===== verification/VerifierContext.v ===== *)
(** * The first context of the verifier (agent/nodes/_verifier_messages.py)

    The text of the first turn: what the first layer found, what was injected
    and how, the checks the injection engine has already made, how to verify
    by the skill case, and the hints.  The texts are those of the source. *)

From stdpp Require Import base list strings sets.
From Stdlib Require Import ZArith Ascii SpecFloat.
From S2P Require Import Prelude PyText PyValue PyFloat PyOps FaultSpec Failure Screener Router Verdict VerdictParse Kubectl Feasibility BaselineCapture VerifierHints.

(** [f"{x:.1f}"] of a finite float. *)
Definition format_1f (x : spec_float) : string :=
  match x with
  | S754_finite s m e =>
      let n := (if 0 <=? e then Zpos m * 2 ^ e * 10 else div_round_even (Zpos m * 10) (2 ^ (- e)))%Z in
      (if s then "-" else "") +:+ str_of_Z (n / 10) +:+ "." +:+ str_of_Z (n mod 10)
  | S754_zero s => if s then "-0.0" else "0.0"
  | S754_infinity s => if s then "-inf" else "inf"
  | S754_nan => "nan"
  end.

(** ** What the context is about *)

Record Subject := mkSubject {
  su_state : GState;
  su_layer1 : Layer1Result;
  su_uid : pyval;
  su_skill : pyval;
  su_kubeconfig : string;
  su_pod : pyval;
  su_spec : option FaultSpec;
  su_flags : dict pyval;
}.

Definition part_of (f : FaultSpec → string) (x : Subject) : string := match su_spec x with Some p => f p | None => "" end.
Definition scope_text : Subject → string := part_of s_scope.
Definition target_text : Subject → string := part_of s_blade_target.
Definition action_text : Subject → string := part_of s_blade_action.
Definition names_of (x : Subject) : list pyval := match su_spec x with Some p => s_names p | None => [] end.
Definition params_of (x : Subject) : dict pyval := match su_spec x with Some p => s_params p | None => [] end.
Definition method_of (x : Subject) : pyval := get "injection_method" (su_state x).
Definition is_disk (action : string) (x : Subject) : bool :=
  String.eqb (target_text x) "disk" && String.eqb (action_text x) action.

(** ** The first layer *)

Definition self_destructive (r : Layer1Result) : bool :=
  bool_decide (l1_status r = L1_SKIPPED) && contains "self-destructive" (lower (l1_details r)).

Definition unreachable_context (r : Layer1Result) : string :=
  line "## Layer 1 Result (SKIPPED — self-destructive fault)" +:+
  "blade_status unreachable: " +:+ line (l1_details r) +:+
  newline +:+
  line "## WARNING: Target node is NotReady" +:+
  "The target node lost connectivity — this is likely the injection effect itself (e.g. containerd/kubelet " +:+
  line "stopped). Your verification MUST use commands that go through the API server (not the node):" +:+
  line "- `kubectl get nodes` — confirm node NotReady" +:+
  line "- `kubectl get pods` — check for ContainerCreating / Terminating" +:+
  line "- `kubectl describe pod` — check Events for runtime errors" +:+
  line "- `kubectl get events` — check for node-level events" +:+
  line "Do NOT use `kubectl exec` into pods on the affected node (it will fail because the node is unreachable)." +:+
  newline.

Definition layer1_context (x : Subject) : string :=
  let r := su_layer1 x in
  if self_destructive r then unreachable_context r
  else if bool_decide (l1_status r = L1_SKIPPED) then
    line "## Layer 1 Result" +:+
    line "Layer 1 skipped: non-ChaosBlade fault (no blade_uid). Proceed directly to Layer 2 verification." +:+
    newline
  else
    line "## Layer 1 Result (already completed)" +:+
    "blade_status for UID " +:+ py_str (su_uid x) +:+ ": " +:+ line (layer1_status_text (l1_status r)) +:+
    "Details: " +:+ line (py_take 500 (l1_raw_output r)) +:+
    newline.

Definition layer2_instruction (r : Layer1Result) : string :=
  if self_destructive r then
    "This is a self-destructive fault: the injection destroyed the node's communication channel. Verify the EFFECT " +:+
    line "of the fault (node NotReady, pods in abnormal state) rather than the injection mechanism (blade_status)."
  else if bool_decide (l1_status r = L1_SKIPPED) then
    "This is a non-ChaosBlade fault injection. Perform Layer 2 verification: use kubectl tools to verify the fault " +:+
    line "is actually in effect on the target."
  else if l1_expired r then
    "Layer 1 shows the experiment has EXPIRED (status: Destroyed/Revoked). The fault was injected but has already " +:+
    "timed out. You should still perform Layer 2 verification to confirm whether any residual effects remain, but " +:+
    "expect that fault effects have dissipated. If no fault effects are observable, conclude Layer 2 as " +:+
    line "'recovered_before_observation' and add a Warning about the short duration."
  else
    "Layer 1 is PASSED. Now perform Layer 2 verification: use kubectl tools to verify the fault is actually in " +:+
    line "effect on the target.".

Definition resource_line (v : pyval) : Exc string :=
  rs ← as_dict v;
  Some ("  - " +:+ py_str (get_d "identifier" (get_d "id" (VStr "?") rs) rs) +:+ ": " +:+
        py_str (get_d "state" (VStr "?") rs) +:+ line (" (success=" +:+ py_str (get_d "success" (VStr "?") rs) +:+ ")")).

Definition coverage_context (x : Subject) : Exc string :=
  let r := su_layer1 x in
  if (0 <? l1_affected_count r)%Z then
    resources ← mapM resource_line (l1_resource_statuses r);
    Some (
      newline +:+
      line "## Resource Coverage (from blade_query_k8s)" +:+
      "Affected resources: " +:+ line (str_of_Z (l1_affected_count r)) +:+
      (match resources with [] => "" | _ => line "Per-resource details:" +:+ join "" resources end) +:+
      (match names_of x with [] => "" | l => "Target resources from context: " +:+ line (py_str (VList l)) end) +:+
      newline +:+
      "Compare affected_count against the expected number of target resources. If fewer resources are affected than " +:+
      "expected, the fault injection has INCOMPLETE COVERAGE. Investigate and report this in VERIFICATION_RESULT " +:+
      line "Warnings.")
  else Some "".

(** ** The fault *)

Definition fault_context (x : Subject) : string :=
  line "## Fault Context" +:+
  "Skill: " +:+ line (py_str (su_skill x)) +:+
  "Target namespace: " +:+ line (part_of s_namespace x) +:+
  "Target names: " +:+ line (py_str (VList (names_of x))) +:+
  "Blade params: " +:+ line (py_str (VDict (params_of x))) +:+
  "Kubeconfig: " +:+ line (if truthy (su_kubeconfig x) then su_kubeconfig x else "(default)") +:+
  (match su_flags x with [] => "" | f => "Blade key parameters: " +:+ line (py_str (VDict f)) end).

Definition path_note (path : string) : string :=
  match partition_of (rstrip_of "/" path) with
  | Some "imagefs" =>
      "⚠ CRITICAL path semantics: --path " +:+ path +:+
      " in K8s CRD mode fills INSIDE the container overlay (typically backed by imagefs if the node has a separate " +:+
      "imagefs; otherwise on nodefs), NOT the host path /host" +:+ path +:+ ". The fill file will NOT appear at /host" +:+ path +:+
      line "." +:+
      "COMMAND PRIORITY: Your FIRST disk check MUST be `df -h` (bare, no path argument) to identify ALL partitions. " +:+
      "YOU MUST verify with `df -h` (bare) inside kubectl debug to list ALL mounted filesystems. `df -h /host` shows " +:+
      line "nodefs ONLY — if fill targeted imagefs, it shows NO change (false negative)."
  | Some _ =>
      "⚠ CRITICAL path semantics: --path " +:+ path +:+
      " in K8s CRD mode fills typically the nodefs (root filesystem). NOTE: /var/lib/docker and /var/lib/containerd on " +:+
      "a separate disk define imagefs — if this node has a separate imagefs, this path may have been on imagefs " +:+ line "instead." +:+
      "COMMAND PRIORITY: Use `df -h` (bare) first to list all partitions, then `df -h /host` to confirm nodefs. `df -h " +:+
      line "/host` shows the root partition usage."
  | None =>
      "⚠ CRITICAL path semantics: --path " +:+ path +:+
      " — unable to determine target partition automatically. YOU MUST use `df -h` (bare, no path) to list ALL mounted " +:+
      line "filesystems and identify which partition shows increased usage."
  end.

Definition path_notes (x : Subject) : Exc string :=
  if String.eqb (target_text x) "disk" && String.eqb (scope_text x) "node" && dict_mem "path" (su_flags x)
  then path ← as_str (py_get "path" (su_flags x)); Some (path_note path)
  else Some "".

Definition fault_metadata (x : Subject) : string :=
  let known := known_metadata (scope_text x) (target_text x) (action_text x) in
  let method := if py_truthy (method_of x) then ["Injection method: " +:+ py_str (method_of x)] else [] in
  match (known ++ method)%list with
  | [] => ""
  | parts => line (join " | " parts)
  end.

Definition timeout_note (seconds : Z) : string :=
  "ℹ Duration note: --timeout " +:+ str_of_Z seconds +:+
  line "s. If fault effects are not observable, consider that the fault may have timed out rather than failed.".

Definition timeout_notes (x : Subject) : string :=
  let v := py_get "timeout" (su_flags x) in
  if py_truthy v then
    match py_int_of_string (strip (py_str v)) with
    | Some n => if (n <? 600)%Z then timeout_note n else ""
    | None => ""
    end
  else "".

Definition kubeconfig_note (kc : string) : string :=
  if truthy kc then
    "**IMPORTANT**: You MUST pass `kubeconfig='" +:+ kc +:+
    "'` to EVERY kubectl tool call. The default kubeconfig cannot access this cluster. Do NOT omit the kubeconfig " +:+
    line "parameter."
  else "".

Definition has_success (x : Subject) : Exc bool :=
  let b := get "baseline_data" (su_state x) in
  if py_truthy b then d ← as_dict b; py_gt (get_d "success_count" (VInt 0) d) (VInt 0) else Some false.

Definition no_baseline_note : string :=
  newline +:+
  line "## Baseline Data Note" +:+
  "Baseline capture was attempted but produced no usable data. You MUST be cautious when interpreting absolute " +:+
  "metric values — high resource usage does NOT necessarily mean the fault is in effect. Cross-validate with " +:+
  line "multiple independent data points (metrics + events + conditions) before concluding 'verified'.".

Definition fill_criterion : string :=
  "Disk-fill specific: The skill case's '确认超过85%' is a SCENARIO SUCCESS criterion, NOT an injection verification " +:+
  "criterion. If fill data was written (fill file exists OR disk usage increased by ≈size from baseline) but 85% " +:+
  "was not reached → Layer2 = PASSED with Warning: 'Fill verified (X GB written), disk at Y% did not reach " +:+
  line "scenario target of 85%. Consider --percent=85 or increase --size.'".

Definition tool_pod_note (x : Subject) : string :=
  let kc := if truthy (su_kubeconfig x) then su_kubeconfig x else "<path>" in
  if String.eqb (scope_text x) "node" && py_truthy (su_pod x) then
    newline +:+
    line "## Available Tool Pod" +:+
    line "A tool pod is available for cluster-level operations:" +:+
    "- Pod name: `" +:+ py_str (su_pod x) +:+ line "`" +:+
    line "- Namespace: `chaosblade`" +:+
    "- Access: kubectl(subcommand='exec', v_args='" +:+ py_str (su_pod x) +:+ " -n chaosblade -- <command>', kubeconfig='" +:+ kc +:+
    line "')" +:+
    line "- Capabilities: ChaosBlade commands (blade status/destroy), kubectl API checks (describe/top/get)" +:+
    line "- LIMITATION: This pod does NOT mount /host. `df -h` shows overlay filesystem, NOT host disk." +:+
    line "  For host filesystem verification, use kubectl debug (see kubectl tool docs)." +:+
    "  However, for CRD-mode disk fill, the fill file IS in this overlay filesystem — checking it is the PRIMARY " +:+
    line "verification method." +:+
    "- **UID Dual Mapping**: The blade_uid (" +:+ py_str (su_uid x) +:+
    ") is the CRD resource name. Inside the tool pod, `blade status <uid>` searches the LOCAL experiment database " +:+
    line "and will likely return 'record not found' (because the experiment was created via CRD, not via the local CLI)." +:+
    line "  **CORRECT** — query CRD status via API server:" +:+
    "    kubectl(subcommand='exec', v_args='" +:+ py_str (su_pod x) +:+ " -n chaosblade -- /opt/chaosblade/blade query k8s create " +:+
    py_str (su_uid x) +:+ "', kubeconfig='" +:+ kc +:+ line "')" +:+
    line "  **CORRECT** — check CRD directly:" +:+
    "    kubectl(subcommand='get', v_args='chaosblade " +:+ py_str (su_uid x) +:+ quotes " -o jsonpath=~{.status}~', kubeconfig='" +:+
    kc +:+ line "')" +:+
    "  **FORBIDDEN** — NEVER use `blade status` with a CRD UID, it will return 'record not found' and cause a " +:+
    line "false-negative Layer 2 conclusion:" +:+
    "    kubectl(subcommand='exec', v_args='" +:+ py_str (su_pod x) +:+ " -n chaosblade -- /opt/chaosblade/blade status " +:+
    py_str (su_uid x) +:+ "', kubeconfig='" +:+ kc +:+ line "')"
  else "".

(** ** Checks already made *)

(** [state.get(k) or params.get(k)], when it is a nonempty dict. *)
Definition check_of (k : string) (x : Subject) : option (dict pyval) :=
  match py_or (get k (su_state x)) (py_get k (params_of x)) with
  | VDict (e :: d) => Some (e :: d)
  | _ => None
  end.

Definition fenced (text : string) : string := line "```" +:+ line text +:+ line "```".

Definition fill_check (c : dict pyval) : Exc string :=
  ls ← as_str (get_d "ls_output" (VStr "") c);
  df ← (let d := get_d "df_output" (VStr "") c in if py_truthy d then as_str d else Some "");
  Some (
    newline +:+
    line "## Injection Engine Post-Check (already executed)" +:+
    "The injection engine programmatically verified the fill effect on target node via tool pod `" +:+
    py_str (get_d "target_pod" (VStr "unknown") c) +:+ line "`:" +:+
    (if py_truthy (get_d "fill_file_found" (VBool false) c)
     then line "- **Fill file FOUND** in container overlay — injection is WORKING."
     else line "- **Fill file NOT found** in container overlay.") +:+
    line "- `ls` output:" +:+ fenced (py_take 300 ls) +:+
    (if truthy df then line "- `df -h` output:" +:+ fenced (py_take 300 df) else "") +:+
    "Use this as PRIMARY evidence. If fill file was found, you have direct proof the fault is in effect. If not " +:+
    line "found, the fault may not have worked — cross-validate with other checks.").

Definition active_text (v : pyval) : Exc string :=
  p ← as_dict v;
  name ← dict_get "name" p;
  rate ← dict_get "write_throughput_mb_s" p;
  Some (py_str name +:+ ": ~" +:+ py_str rate +:+ " MB/s").

Definition burn_where (c : dict pyval) : string :=
  let node := get_d "node" (VStr "unknown") c in
  let pod := get_d "target_pod" (VStr "unknown") c in
  if eqs (get_d "scope" (VStr "node") c) "pod"
  then "target pod's node `" +:+ py_str node +:+ "` via pod `" +:+ py_str pod +:+ "`"
  else "target node `" +:+ py_str node +:+ "` via tool pod `" +:+ py_str pod +:+ "`".

Definition burn_active (c : dict pyval) (parts : string) : string :=
  newline +:+
  line "## Disk Burn I/O Pre-Check (AUTHORITATIVE)" +:+
  "The injection engine programmatically verified the burn I/O effect on " +:+ burn_where c +:+ line "." +:+
  line "Programmatic check confirmed: disk burn I/O is ACTIVE." +:+
  "Write throughput on partition(s): " +:+ line (parts) +:+
  "This is DEFINITIVE evidence that the disk burn fault is in effect — the dd processes are actively writing to " +:+
  line "the container overlay." +:+
  "The I/O appears on the overlay's backing partition (typically imagefs, e.g. /dev/vdb), NOT on the nodefs " +:+
  "partition (e.g. /dev/vda3) where /host/tmp resides. This is expected: CRD-mode burn writes to the container " +:+
  line "overlay, not the host filesystem." +:+
  quotes "DO NOT conclude ~failed~ based on /host/tmp/ having no burn files or nodefs (vda3) showing no I/O — the burn is " +:+
  line "on a DIFFERENT partition." +:+
  line "You MUST mark the disk I/O verification step as 'passed' in your checklist.".

Definition burn_inactive (c : dict pyval) (parts : list pyval) : string :=
  newline +:+
  line "## Disk Burn I/O Pre-Check" +:+
  "The injection engine programmatically verified the burn I/O effect on " +:+ burn_where c +:+ line "." +:+
  "Burn I/O NOT detected on any partition. Active partitions: " +:+
  line ((match parts with [] => "none with measurable I/O" | _ => py_str (VList parts) end)) +:+
  "The fault may not be in effect despite blade query reporting Success. Cross-validate with other checks (ps | " +:+
  line "grep dd, iostat).".

Definition burn_check (c : dict pyval) : Exc string :=
  all ← as_list (get_d "active_partitions" (VList []) c);
  let parts := take 5 all in
  if py_truthy (get_d "burn_io_detected" (VBool false) c)
  then texts ← mapM active_text parts; Some (burn_active c (join ", " texts))
  else Some (burn_inactive c parts).

Definition snapshot_entry (e : string * pyval) : Exc string :=
  d ← as_dict e.2;
  out ← as_str (py_or (py_get "stdout" d) (VStr ""));
  Some ("- `" +:+ e.1 +:+ "` → rc=" +:+ line (py_str (get_d "rc" (VStr "?") d)) +:+ fenced (py_take 300 out)).

Definition snapshot_check (snap : dict pyval) : Exc string :=
  entries ← mapM snapshot_entry snap;
  Some (
    newline +:+
    line "## Evidence Snapshot (already captured)" +:+
    line "The injection engine captured a quick evidence snapshot 3s after blade_create" +:+
    line "(for low-memory pods at risk of OOMKill before verification):" +:+
    join "" entries +:+
    line "Use this as supplementary evidence. If the pod has since OOMKilled and restarted," +:+
    line "this snapshot preserves the pre-crash state.").

Definition when_some {A} (o : option A) (f : A → Exc string) : Exc string := match o with Some a => f a | None => Some "" end.

Definition snapshot_of (x : Subject) : option (dict pyval) :=
  match get "evidence_snapshot" (su_state x) with VDict (e :: d) => Some (e :: d) | _ => None end.

(** ** The file of a fill and its size *)

Definition size_of (x : Subject) : pyval := py_or (py_get "size" (su_flags x)) (py_get "size" (params_of x)).

Definition fill_file_note (x : Subject) : string :=
  let fill_path := py_str (get_d "path" (VStr "/tmp") (su_flags x)) in
  let kc := if truthy (su_kubeconfig x) then su_kubeconfig x else "<path>" in
  if is_disk "fill" x && String.eqb (scope_text x) "node" && py_truthy (su_pod x) then
    newline +:+
    line "## PRIMARY VERIFICATION: Fill File Check" +:+
    "For node-disk-fill, the MOST RELIABLE verification is checking the fill file directly inside the tool pod's " +:+
    line "container overlay:" +:+
    "1. Run: kubectl(subcommand='exec', v_args='" +:+ py_str (su_pod x) +:+ " -n chaosblade -- ls -lh " +:+ fill_path +:+
    "/', kubeconfig='" +:+ kc +:+ line "')" +:+
    line "2. Look for: chaos_filldisk.log.dat (or similar chaos_fill* pattern)" +:+
    "   - If file EXISTS with size ≈ " +:+ (if py_truthy (size_of x) then py_str (size_of x) else "?") +:+
    line "MB → injection VERIFIED" +:+
    line "   - This is ABSOLUTE evidence — no baseline comparison needed" +:+
    "3. DO NOT check /host" +:+ fill_path +:+
    " for fill files — CRD mode writes to container overlay, NOT host filesystem. Fill files are NEVER visible at " +:+ "/host" +:+
    fill_path +:+ line "." +:+
    "Evidence hierarchy: (1) Fill file = PRIMARY, (2) Disk delta = SECONDARY, (3) Absolute threshold = TERTIARY " +:+
    line "(scenario criterion only)"
  else "".

Definition size_warning (size_mb : Z) (gb : string) : string :=
  newline +:+
  line "## Disk Fill Size Warning" +:+
  "The fill size is " +:+ str_of_Z size_mb +:+ "MB (~" +:+ gb +:+ "GB). On a typical 100GB node disk, this adds ~" +:+ gb +:+
  "% usage. This may be too small to trigger DiskPressure (>85%) or show visible df -h change. Consider using " +:+
  line "'percent' parameter instead for more observable results.".

Definition fill_size_note (x : Subject) : Exc string :=
  if is_disk "fill" x && py_truthy (size_of x) then
    match py_int_of_string (strip (py_str (size_of x))) with
    | Some n => if (n <? 5120)%Z then q ← true_div n 1024; Some (size_warning n (format_1f q)) else Some ""
    | None => Some ""
    end
  else Some "".

(** ** The skill case *)

Definition skill_case_note (skill_case : string) : string :=
  "The following skill use-case defines how to verify this fault. You MUST follow its verification approach as the " +:+
  line "primary reference." +:+
  newline +:+
  line "<skill-case>" +:+
  line (skill_case) +:+
  line "</skill-case>" +:+
  newline.

Definition several_candidates (x : Subject) : string :=
  line "### Verification Strategy (Multi-candidate)" +:+
  line "Multiple skill cases are provided above. You MUST:" +:+
  line "1. Read ALL candidates carefully" +:+
  "2. Choose the ONE most relevant to the actual fault (scope=" +:+ scope_text x +:+ ", target=" +:+ target_text x +:+
  ", action=" +:+ action_text x +:+ line ")" +:+
  line "3. State which candidate you chose and why (one sentence)" +:+
  "4. Follow THAT candidate's **注入验证** steps as your verification checklist. If it has no 注入验证 section, design " +:+
  line "your own checklist based on the candidate's content. Do NOT mix content from different candidates" +:+
  line "5. Output a VERIFICATION_CHECKLIST section with each step and its result before VERIFICATION_RESULT" +:+
  newline +:+
  line "Rules:" +:+
  line "1. Replace [status] with: passed, failed, skipped, recovered_before_observation, or expected" +:+
  line (quotes "2. After [status], write ~ — ~ followed by brief evidence") +:+
  line "3. If a step cannot be executed, mark as skipped with reason" +:+
  "4. **MANDATORY OUTPUT**: You MUST output a 'VERIFICATION_CHECKLIST:' section BEFORE your final " +:+
  line "'VERIFICATION_RESULT:' section." +:+
  "5. **chosen_candidate**: When calling `submit_verification`, you MUST set `chosen_candidate` to the candidate " +:+
  line "number you chose (e.g. `chosen_candidate=2` for Candidate 2).".

Fixpoint numbered (i : nat) (descs : list string) : list string :=
  match descs with
  | [] => []
  | d :: ds => ("- Step " +:+ str_of_Z (Z.of_nat i) +:+ ": [status] — " +:+ d) :: numbered (S i) ds
  end.

Definition template_mode (descs : list string) : string :=
  line "### Verification Strategy (Structured)" +:+
  "The skill case defines the following verification steps. You MUST complete EVERY step. Do NOT invent, merge, " +:+
  line "skip, or reorder steps." +:+
  newline +:+
  line "**Pre-defined Verification Checklist** (fill in [status] and evidence for each):" +:+
  line (join newline (numbered 1 descs)) +:+
  newline +:+
  line "Rules:" +:+
  line "1. Replace [status] with: passed, failed, skipped, recovered_before_observation, or expected" +:+
  line (quotes "2. After [status], write ~ — ~ followed by brief evidence (what command you ran and what you observed)") +:+
  line (quotes "3. If a step cannot be executed, mark as skipped with reason: ~Step N: skipped — <reason>~") +:+
  "4. **MANDATORY**: Your VERIFICATION_CHECKLIST MUST contain ALL " +:+ str_of_Z (Z.of_nat (length descs)) +:+
  line " steps exactly as listed. Omitting steps is a protocol violation." +:+
  "5. **DEVIATION DOCUMENTATION**: If you use a DIFFERENT method than the one specified in a step (e.g., skill " +:+
  quotes "says 'ping' but you use 'wget'), you MUST document the deviation reason: ~Step N: passed — <what you did> " +:+
  line (quotes "(deviation: <why you deviated>)~. If you execute the step as specified, no deviation note is needed.").

Definition guided_mode : string :=
  line "### Verification Strategy (Guided)" +:+
  "The skill case's **注入验证** section above contains verification guidance in prose format (no numbered steps). " +:+
  "Read the section carefully and extract the verification intent. Design your own numbered VERIFICATION_CHECKLIST " +:+
  line "based on the checks described in the prose." +:+
  newline +:+
  line "Rules:" +:+
  line "1. Each checklist item must map to a distinct check described in the 注入验证 section" +:+
  line (quotes "2. Mark steps you cannot execute as: ~Step N: skipped — <reason>~") +:+
  line "3. Do NOT add checks that are not mentioned in the skill case" +:+
  line "4. **Programmatic note**: Step coverage validation is DISABLED for this mode — we trust your extraction" +:+
  "5. **MANDATORY OUTPUT**: You MUST output a 'VERIFICATION_CHECKLIST:' section BEFORE your final " +:+
  line "'VERIFICATION_RESULT:' section.".

Definition free_mode : string :=
  line "### Verification Strategy:" +:+
  "1. Follow the **注入验证** section in the skill case above. You MUST execute EVERY verification step it lists — do " +:+
  line "not skip any step." +:+
  "2. If a step cannot be executed (e.g., no Ingress configured in this cluster), you MUST explicitly note: " +:+
  line "'[SKIPPED] Step N: <reason>'. Do NOT silently omit steps." +:+
  line "3. Before your final conclusion, output a **Verification Checklist** listing each step and its result:" +:+
  line "   - Step 1: passed/failed/skipped — brief evidence" +:+
  line "   - Step 2: passed/failed/skipped — brief evidence" +:+
  line "   - ..." +:+
  "4. If ALL steps pass → Layer2 'passed'. If ANY step fails → Layer2 'failed'. If mandatory steps are skipped " +:+
  line "without equivalent alternatives → Layer2 'partial'." +:+
  "5. **MANDATORY OUTPUT**: You MUST output a 'VERIFICATION_CHECKLIST:' section BEFORE your final " +:+
  "'VERIFICATION_RESULT:' section. This checklist will be parsed programmatically. Without it, your verification " +:+
  line "will be flagged as potentially incomplete and may be downgraded from 'verified' to 'partial'.".

Definition completeness_note (descs : list string) : string :=
  "Note — Step completeness: your VERIFICATION_CHECKLIST MUST cover ALL " +:+ str_of_Z (Z.of_nat (length descs)) +:+
  " steps listed above. Any step not executed must appear as '[SKIPPED] Step N: <reason>'. Omitting steps is a " +:+
  line "protocol violation." +:+
  newline.

Definition strategy (x : Subject) (skill_case : string) : string :=
  if contains "--- Candidate" skill_case then several_candidates x
  else match _extract_verification_step_descriptions skill_case with
       | [] => if _has_injection_verification_section skill_case then guided_mode else free_mode
       | descs => template_mode descs +:+ completeness_note descs
       end.

Definition status_choice : string :=
  line "**Checklist Status Choice**:" +:+
  line "- The checklist reports OBSERVED FACTS, not predictions." +:+
  line "- Did you call a kubectl command for this step? Yes → 'passed' or 'failed'. No → 'skipped'." +:+
  line "- Timing uncertainty belongs in Warnings, not in checklist status." +:+
  "- 'recovered_before_observation': the fault was transient and had dissipated by the time you checked — distinct " +:+
  line "from 'failed' (checked, fault absent)." +:+
  newline.

Definition burn_rules : string :=
  "**Transient fault rules** (disk-burn): burn creates temporary files deleted on experiment completion. If ANY " +:+
  "intermediate observation shows clear fault effects (metrics above baseline, burn files present), mark 'passed' " +:+
  "— even if later observation shows effect dissipated. Use 'recovered_before_observation' ONLY when NO " +:+
  "observation at ANY point showed fault effects. If burn files gone BUT df -h shows usage increase from baseline " +:+
  line "(1-2GB+), use 'recovered_before_observation'. If df -h shows NO change AND no files → 'failed'." +:+
  newline.

Definition restart_rules : string :=
  "**Container Restart Detection**: If the target container restarted during injection (restartCount increased, " +:+
  "lastState.terminated present, OOMKilling events), classify as 'recovered_before_observation' — the restart is a " +:+
  line "SIDE EFFECT, not primary evidence. Set PrimaryEvidenceObserved: false when only a restart is observed." +:+
  newline.

Definition layer_boundary : string :=
  "Note — Layer boundary: VERIFICATION_CHECKLIST must ONLY contain Layer 2 checks (observable fault effects). Do " +:+
  line "NOT include Layer 1 items (blade_status, experiment registration)." +:+
  newline.

Definition no_case_note : string :=
  "No skill use-case content is available. Design verification based on the fault-specific hints below and your " +:+
  line "expertise." +:+
  line "Before your final conclusion, output a **Verification Checklist** listing each check and its result:" +:+
  line "   - Check 1: passed/failed/skipped — brief evidence" +:+
  line "   - ..." +:+
  "**WARNING**: Without skill guidance, verification may be incomplete. At minimum, verify the fault effect is " +:+
  line "observable on the target." +:+
  quotes "**Knowledge docs**: Check the Domain Knowledge Index for documents whose ~When to read~ field covers your " +:+
  "current scenario (e.g., verification strategies, kubectl field reference). Use `read_knowledge_resource` to " +:+
  line "load them before designing your verification plan." +:+
  newline.

Definition case_section (x : Subject) : Exc string :=
  let v := get_d "skill_case_content" (VStr "") (g_values (su_state x)) in
  if py_truthy v then
    skill_case ← as_str v;
    Some (skill_case_note skill_case +:+ strategy x skill_case +:+ status_choice +:+
          (if is_disk "burn" x then burn_rules else "") +:+
          (if target_text x ∈? ["mem"; "process"] then restart_rules else "") +:+
          (if py_truthy (su_uid x) then layer_boundary else ""))
  else Some no_case_note.

(** ** Rules *)

Definition negative_evidence : string :=
  line "**NEGATIVE EVIDENCE ENUMERATION (CRITICAL)**:" +:+
  "Before concluding Layer2 'passed', you MUST include a 'Negative Evidence' section in your reasoning that " +:+
  "explicitly lists EVERY observation contradicting or weakening the conclusion that the fault is in effect. For " +:+
  line "each item, either:" +:+
  line "(a) Dismiss it with factual basis (not speculation), or" +:+
  line "(b) Accept it as valid counter-evidence." +:+
  "If ANY verification criterion is demonstrably NOT met, you MUST conclude Layer2 as 'partial' or 'failed' — NOT " +:+
  line "'passed'." +:+
  newline.

Definition polling : string :=
  "**POLLING STRATEGY (CRITICAL)**: Fault effect may take 5-30s to appear. Check at least 3 times before " +:+
  line "concluding. If any check shows the fault IS in effect, conclude 'passed' immediately." +:+
  "If after 3 checks NO evidence found → Layer2 'failed', Overall 'unverified'. Do NOT conclude 'partial' when NO " +:+
  line "evidence exists." +:+
  newline +:+
  line "**ADAPTIVE VERIFICATION (CRITICAL)**:" +:+
  "If the SAME command produces the SAME result twice → STOP repeating. Switch to a DIFFERENT metric, partition, " +:+
  line "resource, or namespace. Maximum 2 identical checks per method — then pivot." +:+
  newline.

Definition method_note : string :=
  newline +:+
  line "### Injection Method Note" +:+
  "The fault was injected via `kubectl exec` (the standard `blade_create` tool was unavailable). This means the " +:+
  line "injection method may differ from the skill case's recommended approach. You MUST:" +:+
  "1. Check whether the ACTUAL injection method produces the same fault effects described in the skill case's " +:+
  line "verification steps" +:+
  line "2. If the expected fault effect differs, note this as a WARNING and adapt your verification accordingly" +:+
  newline.

Definition layer1_limitation : string :=
  "**Layer 1 Limitation**: Layer 1 only checks whether the ChaosBlade experiment is registered. It does NOT verify " +:+
  line "that the fault effect is observable. Your Layer 2 verification is the ONLY way to confirm the fault is working." +:+
  newline.

Definition busybox_note : string :=
  line "### BusyBox Compatibility (MANDATORY)" +:+
  "You are running verification commands inside a BusyBox container (via kubectl exec on a tool pod). Common Linux " +:+
  "flags/commands may NOT be available — check the BusyBox Quick Reference above BEFORE issuing any command. Do " +:+
  quotes "NOT guess flags. If a command returns ~unrecognized option~ or ~bad usage~, do NOT retry similar commands — " +:+
  line "switch to the BusyBox alternative immediately." +:+
  "If kubectl exec commands consistently fail, fall back to `kubectl describe` for Pod-level metrics (restart " +:+
  line "count, conditions, events) as an alternative." +:+
  newline.

Definition minimal_note : string :=
  "**NOTE**: Some minimal container images lack common shell utilities (top, ps, netstat, etc.). If " +:+
  quotes "kubectl(subcommand='exec', ...) returns empty output or ~command not found~, do NOT retry — use " +:+
  line "kubectl(subcommand='describe', ...) instead." +:+
  newline.

Definition test_pod_note (x : Subject) : string :=
  let namespace := if truthy (part_of s_namespace x) then part_of s_namespace x else "see Fault Context" in
  line "### Test Pod Namespace Selection" +:+
  "When you need a Running application pod for verification tests (DNS resolution, network connectivity, service " +:+
  "calls), do NOT only search the `default` namespace. Search in the TARGET namespace first (" +:+ namespace +:+
  "), then other namespaces with workloads. For cluster-wide faults (DNS, node-level), any Running pod with shell " +:+
  line "access can serve as a test target." +:+
  newline.

Definition cleanup_note : string :=
  line "### Debug Pod Cleanup" +:+
  "If you create a debug pod via `kubectl debug node/...`, you MUST delete it before finishing verification. Add " +:+
  line "cleanup as a final step in your checklist.".

Definition rules (x : Subject) (hints : string) (baseline : bool) : string :=
  layer2_instruction (su_layer1 x) +:+ negative_evidence +:+ polling +:+
  (if truthy hints then newline +:+ line "### Fault-Specific Verification Hints" +:+ hints +:+ nl2 else "") +:+
  (if eqs (method_of x) "kubectl_exec" then method_note else "") +:+
  (if baseline then _BASELINE_INTEGRITY_PROMPT +:+ nl2 else "") +:+
  (if py_truthy (su_uid x) then layer1_limitation else "") +:+
  (if eqs (method_of x) "kubectl_exec" then busybox_note else minimal_note) +:+
  test_pod_note x +:+
  (if String.eqb (scope_text x) "node" then cleanup_note else "").

(** ** The whole text *)

Definition verifier_context (x : Subject) : Exc string :=
  coverage ← coverage_context x;
  path ← path_notes x;
  baseline ← has_success x;
  fill ← when_some (check_of "disk_fill_post_check" x) fill_check;
  burn ← when_some (check_of "disk_burn_post_check" x) burn_check;
  snapshot ← when_some (snapshot_of x) snapshot_check;
  size ← fill_size_note x;
  skill ← case_section x;
  hints ← _get_fault_verification_hints (scope_text x) (target_text x) (action_text x) (method_of x) (su_pod x) (su_flags x);
  Some (layer1_context x +:+ coverage +:+ fault_context x +:+ path +:+ fault_metadata x +:+ timeout_notes x +:+
        kubeconfig_note (su_kubeconfig x) +:+
        (if baseline : bool then "" else no_baseline_note) +:+
        (if is_disk "fill" x then fill_criterion else "") +:+
        tool_pod_note x +:+ fill +:+ burn +:+ snapshot +:+ fill_file_note x +:+ size +:+
        newline +:+ line "## Injection Verification Instructions" +:+ skill +:+ rules x hints baseline).

(** The subject of a state. *)
Definition subject_of (s : GState) (r : Layer1Result) (kubeconfig : string) (pod : pyval) : Exc Subject :=
  spec ← read_fault_spec (g_values s);
  flags ← as_dict (or_empty (get "blade_parsed_flags" s));
  Some (mkSubject s r (get_d "blade_uid" (VStr "") (g_values s)) (get_d "skill_name" (VStr "") (g_values s)) kubeconfig pod spec flags).
