(* ===== verification/Verifier.v ===== *)
(** * The verifier node (agent/nodes/verifier.py, _verifier_messages.py)

    One turn of the verification: the first layer on the first turn and its
    cached result afterwards, the messages put before the language model with
    the baseline as answers of a made-up tool, the hints, the budget of turns,
    and the update that is returned.  The node is a program because it looks
    for a tool pod and deletes debug pods.  The first layer, the language
    model, the hook and the system prompt are parameters, and so is the mark by
    which the first context is recognised in the conversation.  A message of the state that is returned again replaces
    itself, so only new messages are returned here.  Tracking, the session
    store and the copy into the task store are left out. *)

From stdpp Require Import base list strings sets.
From Stdlib Require Import ZArith Ascii SpecFloat.
From S2P Require Import Finalize Prelude PyText PyRe PyValue PyFloat PyOps ToolGuard FaultSpec Failure Screener Router Conflict InjectionDetection Verdict SafetyGate Graph Kubectl Effects ReactHelpers ExecuteLoop BaselineCapture MetricExtractor VerifierHints VerifierContext.

(** ** The baseline as answers of a tool *)

Definition _BASELINE_TOOL_CALL_ID : string := "baseline_collector".
Definition _METRICS_TOOL_CALL_ID : string := "baseline_collector_metrics".
Definition _SYNTHETIC_TOOL_CALL_IDS : list string := [_BASELINE_TOOL_CALL_ID; _METRICS_TOOL_CALL_ID].

(** One observation that succeeded and printed something; the capture stores
    texts. *)
Definition obs_section (obs : pyval) : Exc (list string) :=
  o ← as_dict obs;
  if negb (eq_int (py_get "exit_code" o) 0) || negb (py_truthy (py_get "stdout" o)) then Some []
  else
    out ← as_str (py_get "stdout" o);
    let shown := py_take 1500 out +:+ (if Nat.ltb 1500 (py_len out) then newline +:+ "... (truncated)" else "") in
    Some [line ("### " +:+ py_str (get_d "description" (VStr "unknown metric") o)) +:+
          line ("Command: `" +:+ py_str (get_d "command" (VStr "") o) +:+ "`") +:+
          line "```" +:+ line shown +:+ "```"].

Definition raw_content (b : dict pyval) (sections : list string) : string :=
  ("Pre-injection baseline collected at " +:+ py_str (get_d "captured_at" (VStr "unknown time") b) +:+ " " +:+
    "(strategy: " +:+ py_str (get_d "source" (VStr "unknown") b) +:+ ", " +:+
    py_str (get_d "success_count" (VInt 0) b) +:+ "/" +:+ py_str (get_d "total_count" (VInt 0) b) +:+ " succeeded)." +:+ nl2) +:+
  quotes ("These metrics were captured BEFORE fault injection using the same " +:+
    "kubectl commands you would use for verification. " +:+
    "This is your authoritative reference — compare every post-injection " +:+
    "observation against these values using delta format: " +:+
    "~baseline: X → current: Y (ΔZ)~." +:+ nl2) +:+
  join nl2 sections.

Definition partition_section (flags : dict pyval) : Exc string :=
  ptype ← (match flags with [] => Some None | _ => _derive_disk_fill_partition flags end);
  Some (
    line "### Baseline Partition Target (for disk-fill)" +:+
    line ("Injection --path=" +:+ py_str (get_d "path" (VStr "") flags) +:+ " → target partition: " +:+
          default "unknown (check df -h bare output)" ptype) +:+
    match ptype with
    | Some t =>
        if String.eqb t "imagefs" then
          "In the baseline `df -h` above, find the overlay/imagefs line " +:+
          "(e.g., `/dev/vdb` or similar, typically no `/host` in the mount point). " +:+
          "Compare POST-injection overlay usage against THIS line. " +:+
          line "DO NOT compare against the nodefs (root) line — that partition was NOT targeted."
        else
          "In the baseline `df -h` above, find the nodefs (root) line " +:+
          "(e.g., `/dev/vda3`, typically mounted at `/host`). " +:+
          "Compare POST-injection root usage against THIS line. " +:+
          line "DO NOT compare against the overlay line — that partition was NOT targeted."
    | None =>
        "Partition type could not be determined from --path. " +:+
        "Check ALL partitions in the baseline df -h above. " +:+
        line "Your post-injection df -h (bare) will show which partition changed."
    end).

Definition comparison_rules : string :=
  quotes (line "### Baseline Comparison Rules" +:+
    "You now have PRE-INJECTION baseline data (captured BEFORE the fault was injected). " +:+
    "This is MORE RELIABLE than first-check-as-baseline because the baseline values " +:+
    line "are guaranteed to be unaffected by the fault." +:+
    line "Rules:" +:+
    "- Compare post-injection metrics against the pre-injection baseline above, " +:+
    line "NOT against your first post-injection check." +:+
    "- A significant change from baseline (e.g., disk 10%→13%, CPU 100m→800m, " +:+
    line "RestartCount 7→8) is STRONG evidence the fault is in effect." +:+
    line "- If metrics are SIMILAR to baseline, the fault may not be working." +:+
    "- This PRE-INJECTION baseline takes priority over the general FIRST-CHECK-AS-BASELINE " +:+
    "rule in the Baseline Integrity prompt." +:+ nl2 +:+
    line "**FORMAT REQUIREMENT (mandatory when Pre-Injection Baseline is available)**:" +:+
    line "Each checklist step's evidence MUST include baseline comparison in the format:" +:+
    line "  ~baseline: <metric from above> → post-injection: <metric you observe NOW> (Δ<change>)~" +:+
    "Steps that omit baseline comparison when baseline data is available " +:+
    line "will be flagged as INCOMPLETE and may trigger re-verification." +:+
    line "In your VERIFICATION_RESULT, set BaselineUsed: true.").

(** A call of the made-up tool with its answer. *)
Definition collector (id what content : string) : list Message :=
  [AIMessage (VStr "") VNone
     [mkCall "baseline_collector" (VDict [("phase", VStr "pre-injection"); ("target", VStr what)]) (Some id)];
   ToolMessage content "baseline_collector" id false].

Definition metrics_section (m : dict pyval) : list string :=
  match m with
  | [] => []
  | _ => [line "### Baseline Key Metrics (extracted — compare against these)" +:+
          join newline (map (λ kv, "- " +:+ kv.1 +:+ ": " +:+ py_str kv.2) m)]
  end.

Definition _build_baseline_tool_messages (baseline : dict pyval) (blade_target blade_action : string) (flags : dict pyval)
    : Exc (list Message) :=
  positive ← (match baseline with [] => Some false | _ => py_gt (get_d "success_count" (VInt 0) baseline) (VInt 0) end);
  if negb positive then Some []
  else
    observations ← py_iter (get_d "observations" (VList []) baseline);
    sections ← mapM obs_section observations;
    match concat sections with
    | [] => Some []
    | shown =>
        key_metrics ← extract_baseline_metrics baseline blade_target;
        partition ← (if String.eqb blade_target "disk" && String.eqb blade_action "fill"
                     then t ← partition_section flags; Some [t] else Some []);
        Some (collector _BASELINE_TOOL_CALL_ID "all_metrics" (raw_content baseline shown) ++
              collector _METRICS_TOOL_CALL_ID "key_metrics_summary"
                (join nl2 (metrics_section key_metrics ++ partition ++ [comparison_rules])))
    end.

(** ** The node *)

(** The limits a verdict of this node writes itself. *)
Definition unfinished (level : string) (layer1 : pyval) (status details confidence : string) (warnings : list string) : pyval :=
  VDict [("level", VStr level); ("layer1", layer1); ("layer2", VDict [("status", VStr status); ("details", VStr details)]);
         ("baseline_confidence", VStr confidence); ("warnings", VList (map VStr warnings))].

Definition not_verified (s : GState) (uid : pyval) : pyval :=
  VDict [("task_id", get_d "task_id" (VStr "") (g_values s)); ("skill", get_d "skill_name" (VStr "") (g_values s));
         ("blade_uid", uid); ("verified", VBool false)].

Definition layer1_failure (s : GState) (r : Layer1Result) : dict pyval :=
  fail_state VERIFICATION_FAILED
    ("Layer1=" +:+ layer1_status_text (l1_status r) +:+ ", Layer2=skipped, details=" +:+ py_take 200 (l1_details r)) (g_messages s).

Section verifier.
Context {M : Layer1Model}.
Context (cfg : RouterSettings) (loops : LoopSettings) (sc : SafetySettings) (tool_cfg : ToolSettings) (guard : ToolGuard).
Context (raised : string) (now : spec_float).
(** [_run_layer1_verification] of the uid, the messages, the method and the
    pod of the injection. *)
Context (run_layer1 : pyval → list Message → pyval → pyval → Exc Layer1Result).

Local Abbreviation MAX := (max_verifier_loop cfg).

(** Without a language model only the first layer is checked. *)
Definition simple_level (r : Layer1Result) : string :=
  if bool_decide (l1_status r = L1_SKIPPED) then "unverified"
  else if l1_expired r then "partial"
  else if is_passed r then "partial" else "unverified".

Definition simple_warnings (r : Layer1Result) : list string :=
  if is_passed r then
    ["Layer 2 (fault-specific) verification was skipped. Only general blade_status verification was performed."]
  else if l1_expired r then
    ["Fault experiment expired (Destroyed/Revoked) before verification. " +:+
     "The fault duration (--timeout) was too short for post-injection verification. Recommend --duration >= 60."]
  else if bool_decide (l1_status r = L1_SKIPPED) then
    ["Non-ChaosBlade fault: Layer 1 not applicable, Layer 2 skipped (no LLM). " +:+
     "Fault injection could NOT be verified — the fault may not have been injected."]
  else [].

Definition known_uid (s : GState) : Exc pyval :=
  let uid := get_d "blade_uid" (VStr "") (g_values s) in
  if py_truthy uid then Some uid
  else found ← _extract_blade_uid_from_messages (g_messages s); Some (VStr (default "" found)).

Definition verifier (s : GState) : Exc (dict pyval) :=
  uid ← known_uid s;
  r ← run_layer1 uid (g_messages s) (get "injection_method" s) (get "kubectl_exec_pod_name" s);
  confidence ← _compute_baseline_confidence s;
  let v := unfinished (simple_level r) (VDict (_layer1_to_dict r))
             (if l1_expired r then "recovered_before_observation" else "skipped")
             (if l1_expired r
              then "Fault expired before Layer 2 observation — " +:+
                   "recovered_before_observation (no LLM available for specific verification)"
              else "No LLM available for specific verification")
             confidence (simple_warnings r) in
  mark_wall_clock_timeout cfg now s ([("result", not_verified s uid); ("verification", v)] ++ layer1_failure s r).

(** *** With a language model *)

Context (json_mode : bool).
(** The answer to the messages, with these tools bound, and in JSON mode. *)
Context (llm : list Message → list string → bool → Exc Response) (tools : list string).
Context (hook : option (GState → Exc Delta)) (prompt : string).
(** The mark of the first context. *)
Context (is_context : Message → bool).

Definition _resolve_target_node (s : GState) : Exc pyval :=
  spec ← read_fault_spec (g_values s);
  Some (match spec with Some p => hd VNone (s_names p) | None => VNone end).

Definition _discover_tool_pod_for_verification (kubeconfig : string) (target_node : pyval) : prog (option string) :=
  let args := if truthy kubeconfig then ["--kubeconfig"; kubeconfig] else [] in
  let list_cmd := ["kubectl"; "get"; "pods"; "-n"; _TOOL_POD_NAMESPACE; "-l"; _TOOL_POD_LABEL_SELECTOR] in
  catch
    (if py_truthy target_node then
       r ← command tool_cfg guard (list_cmd ++ ["-o"; "wide"] ++ args) 0 [];
       mret (fst <$> List.find (λ e : string * string, eqs target_node e.2) (discover_tool_pods_with_nodes (stdout r)))
     else
       r ← command tool_cfg guard (list_cmd ++ args) 0 [];
       mret (head (discover_tool_pods (stdout r))))
    (λ _, mret None).

(** The pod the hints name: for a fault on a node, the one on that node. *)
Definition tool_pod_name (s : GState) (kubeconfig : string) : prog pyval :=
  let pod := get "kubectl_exec_pod_name" s in
  spec ← lift raised (read_fault_spec (g_values s));
  if String.eqb (match spec with Some p => s_scope p | None => "" end) "node" then
    node ← lift raised (_resolve_target_node s);
    if py_truthy node then
      found ← _discover_tool_pod_for_verification kubeconfig node;
      mret (match found with
            | Some p => VStr p
            | None => if py_truthy pod then VNone else pod
            end)
    else mret pod
  else mret pod.

Definition progress_hint (count : Z) : string :=
  nl2 +:+ "**Iteration Progress**: You are on iteration " +:+ str_of_Z count +:+ " of max " +:+ str_of_Z MAX +:+ " " +:+
  "(" +:+ str_of_Z (MAX - count) +:+ " remaining). " +:+
  "If you have gathered enough evidence, output the VERIFICATION_RESULT format now. " +:+
  "If you need more data, focus on the most critical checks only.".

Definition deadline_hint (count : Z) : string :=
  nl2 +:+ "**VERIFICATION DEADLINE**: This is iteration " +:+ str_of_Z count +:+ " of max " +:+ str_of_Z MAX +:+ " — " +:+
  line "your SECOND-TO-LAST iteration." +:+
  line "Based on ALL evidence gathered so far:" +:+
  line "  - If you have sufficient data, output the VERIFICATION_RESULT format NOW." +:+
  "  - If you need ONE more check, do it now — but you MUST conclude on the next iteration." +:+ nl2 +:+
  line "Your Overall conclusion must be one of:" +:+
  line "  - **verified**: Fault effect is confirmed present on the target" +:+
  line "  - **partial**: Some evidence supports the fault, but not fully confirmed" +:+
  line "  - **unverified**: Fault effect could NOT be confirmed despite checks".

Definition verifier_convergence_hint (count : Z) : string :=
  if (MAX - 3 <=? count)%Z && (count <? MAX - 1)%Z then progress_hint count
  else if (MAX - 1 <=? count)%Z then deadline_hint count
  else "".

Definition final_prompt (count : Z) : string :=
  quotes (
  "**FINAL VERIFICATION ITERATION**: This is iteration " +:+ str_of_Z count +:+ " of max " +:+ str_of_Z MAX +:+ ". " +:+
  line "NO more iterations available. Tools are no longer available." +:+
  "You MUST provide your final verification conclusion NOW in this EXACT format:" +:+ nl2 +:+
  line "VERIFICATION_CHECKLIST:" +:+
  line "- Step 1: passed/failed/skipped — brief evidence" +:+
  line "- Step 2: passed/failed/skipped — brief evidence" +:+
  "- ..." +:+ nl2 +:+
  line "VERIFICATION_RESULT:" +:+
  line "- Layer1 (blade_status): passed/failed/skipped" +:+
  line "- Layer2 (fault-specific): passed/failed/skipped - evidence summary" +:+
  line "- Overall: verified/partial/unverified" +:+
  line "- BaselineUsed: true/false (whether pre-injection baseline was compared in evidence)" +:+
  "- Warnings: any warnings, or ~none~" +:+ nl2 +:+
  "Layer 2 Status Definitions: 'passed' = fault effect IS observable (injection WORKED); " +:+
  "'failed' = fault effect is NOT observable (injection may not have worked); " +:+
  line "'skipped' = could not verify." +:+
  "Do NOT conclude 'failed' if evidence shows the fault IS in effect." +:+ nl2 +:+
  "If you cannot determine the result, set Overall to ~unverified~ and explain why in Layer2 details.").

Definition has_baseline (l : list Message) : bool :=
  existsb (λ m, match m with ToolMessage _ _ i _ => String.eqb i _BASELINE_TOOL_CALL_ID | _ => false end) l.

(** The baseline messages that are not in the conversation yet. *)
Definition baseline_messages (s : GState) : Exc (list Message) :=
  let baseline := get "baseline_data" s in
  if negb (py_truthy baseline) then Some []
  else
    b ← as_dict baseline;
    positive ← py_gt (get_d "success_count" (VInt 0) b) (VInt 0);
    if negb positive || has_baseline (g_messages s) then Some []
    else
      spec ← read_fault_spec (g_values s);
      flags ← as_dict (or_empty (get "blade_parsed_flags" s));
      _build_baseline_tool_messages b (match spec with Some p => s_blade_target p | None => "" end)
        (match spec with Some p => s_blade_action p | None => "" end) flags.

(** What is added to the conversation: the baseline, the context or the
    reminders. *)
Definition _build_layer2_messages (s : GState) (r : Layer1Result) (kubeconfig : string) (count : Z) (pod : pyval)
    : Exc (list Message * list Message) :=
  baseline ← baseline_messages s;
  main ← (if (count =? 1)%Z then
            x ← subject_of s r kubeconfig pod;
            t ← verifier_context x;
            Some [HumanMessage (t +:+ verifier_convergence_hint count)]
          else Some []);
  Some (baseline,
        main ++
        (if negb (count =? 1)%Z && truthy (verifier_convergence_hint count)
         then [HumanMessage (strip (verifier_convergence_hint count))] else []) ++
        (if (1 <? count)%Z && truthy kubeconfig
         then [HumanMessage ("**Reminder**: You MUST pass kubeconfig='" +:+ kubeconfig +:+ "' to every kubectl tool call.")]
         else []) ++
        (if (MAX <=? count)%Z then [HumanMessage (final_prompt count)] else [])).

Definition verifier_stagnation_text (tool : string) : string :=
  if contains ":" tool then
    "**ACTION_STAGNATION**: You have called `" +:+ tool +:+ "` " +:+
    "multiple consecutive times with no progress. " +:+
    "Stop using this subcommand. You can still use `" +:+ before_str ":" tool +:+ "` " +:+
    "with OTHER subcommands (describe, logs, etc.) " +:+
    line "to gather verification evidence." +:+
    "Do NOT call `" +:+ tool +:+ "` again."
  else
    "**ACTION_STAGNATION**: You have called `" +:+ tool +:+ "` " +:+
    "multiple consecutive times with no progress. " +:+
    line "This tool has been temporarily removed. You MUST now either:" +:+
    line "- Use a DIFFERENT tool or subcommand to gather verification evidence." +:+
    line "- Output your verification conclusion based on evidence already collected." +:+
    "Do NOT attempt to call `" +:+ tool +:+ "` again.".

Definition json_reminder : string :=
  quotes (line "You MUST output valid JSON matching this schema:" +:+
    line "{" +:+
    line "  ~verification_checklist~: [" +:+
    line "    {~step~: 1, ~status~: ~passed|failed|skipped|recovered_before_observation~, ~evidence~: ~brief~}," +:+
    line "    ..." +:+
    line "  ]," +:+
    line "  ~layer1~: ~passed|failed|skipped~," +:+
    line "  ~layer2~: ~passed|failed|skipped|partial|recovered_before_observation~," +:+
    line "  ~layer2_details~: ~evidence summary~," +:+
    line "  ~overall~: ~verified|partial|unverified~," +:+
    line "  ~warnings~: [~warning text~]" +:+
    line "}" +:+
    "layer2: ~passed~ = fault effect IS observable; ~failed~ = NOT observable.").

(** The hints after the messages of the turn, and the tool that stagnates. *)
Definition with_hints (s : GState) (messages : list Message) : Exc (list Message * option string) :=
  loop ← detect_repeated_tool_calls loops (g_messages s);
  let m1 := messages ++ human loop in
  let stagnant := snd <$> detect_action_stagnation loops (g_messages s) None in
  let m2 := m1 ++ human (verifier_stagnation_text <$> stagnant) in
  Some (m2 ++ human (detect_tool_error_hint m2), stagnant).

Definition verifier_tools (count : Z) (stagnant : option string) : list string :=
  if (MAX <=? count)%Z then []
  else match stagnant with
       | Some t => if contains ":" t then tools else List.filter (λ n, negb (String.eqb n t)) tools
       | None => tools
       end.

Definition ask_verifier (messages : list Message) (count : Z) (stagnant : option string) : Exc Response :=
  let json := (MAX <=? count)%Z && json_mode in
  llm (SystemMessage prompt :: messages ++ (if json then [HumanMessage json_reminder] else []))
    (verifier_tools count stagnant) json.

(** Ends the verification and deletes the debug pods of the conversation. *)
Definition end_verification (s : GState) (kubeconfig : string) (values : dict pyval) : prog Delta :=
  '(pods, values) ← lift raised (_cleanup_debug_pods s values);
  _ ← delete_all tool_cfg guard pods kubeconfig;
  mret (mkDelta [] values).

Definition out_of_turns (s : GState) (kubeconfig : string) : prog Delta :=
  confidence ← lift raised (_compute_baseline_confidence s);
  end_verification s kubeconfig
    [("result", not_verified s (get_d "blade_uid" (VStr "") (g_values s)));
     ("verification", unfinished "partial"
        (VDict [("status", VStr "passed"); ("details", VStr "Confirmed in earlier iterations")])
        "skipped" "Max iterations reached, LLM did not produce final summary" confidence
        ["Verifier loop exceeded max iterations - verification may be incomplete"])].

Definition layer1_failed (s : GState) (kubeconfig : string) (r : Layer1Result) : prog Delta :=
  confidence ← lift raised (_compute_baseline_confidence s);
  end_verification s kubeconfig
    ([("result", not_verified s (get_d "blade_uid" (VStr "") (g_values s)));
      ("verification", unfinished "unverified" (VDict (_layer1_to_dict r)) "skipped" "Layer 1 failed, skipping Layer 2"
         confidence ["Layer 1 verification failed: " +:+ l1_details r])] ++ layer1_failure s r).

(** The turn of the language model. *)
Definition layer2_turn (s : GState) (kubeconfig : string) (count : Z) (r : Layer1Result) : prog Delta :=
  updates ← lift raised (match hook with Some h => h s | None => Some (mkDelta [] []) end);
  pod ← tool_pod_name s kubeconfig;
  lift raised (
    '(baseline, added) ← _build_layer2_messages s r kubeconfig count pod;
    '(messages, stagnant) ← with_hints s (g_messages s ++ baseline ++ added);
    answer ← ask_verifier messages count stagnant;
    calls ← inject_kubeconfig_into_tool_calls (VStr kubeconfig) (r_calls answer);
    let main := if existsb is_context (g_messages s) || negb (count =? 1)%Z then [] else take 1 added in
    let d := merge_hook_updates
      (mkDelta (main ++ baseline ++ [AIMessage (r_content answer) (r_reasoning answer) calls])
               [("verifier_loop_count", VInt count); ("inject_layer1_cache", VDict (_layer1_to_dict r))]) updates in
    values ← mark_wall_clock_timeout cfg now s (dl_values d);
    Some (mkDelta (dl_messages d) values)).

Definition _verifier_with_llm (s : GState) : prog Delta :=
  n ← lift raised (counter_of "verifier_loop_count" s);
  kubeconfig ← lift raised (kc ← _resolve_kubeconfig sc s; as_str kc);
  let count := (n + 1)%Z in
  if (MAX <? count)%Z then out_of_turns s kubeconfig
  else
    r ← lift raised
      (if (count =? 1)%Z
       then run_layer1 (get_d "blade_uid" (VStr "") (g_values s)) (g_messages s) (get "injection_method" s)
              (get "kubectl_exec_pod_name" s)
       else _restore_layer1_from_state s);
    if is_terminal r then layer1_failed s kubeconfig r else layer2_turn s kubeconfig count r.
End verifier.
