(* ===== verification/VerifierProps.v ===== *)
(** * What the verifier node guarantees (agent/nodes/verifier.py)

    The node itself never declares an injection verified, and the loop of
    verifier, tools and finalize node ends. *)

From stdpp Require Import base list strings sets relations.
From Stdlib Require Import ZArith Ascii SpecFloat.
From S2P Require Import Finalize Prelude PyText PyRe PyValue PyFloat PyOps ToolGuard FaultSpec Failure Screener Router Conflict InjectionDetection Verdict VerdictParse SafetyGate Graph Kubectl Effects ReactHelpers ExecuteLoop ExecuteProps BaselineCapture BaselineProps MetricExtractor VerifierHints VerifierContext Verifier.

(** ** What the node writes *)

(** An update that ends the verification without a claim. *)
Definition unclaimed (values : dict pyval) : Prop :=
  (∃ r, dict_get "result" values = Some (VDict r) ∧ dict_get "verified" r = Some (VBool false)) ∧
  (∃ v l, dict_get "verification" values = Some (VDict v) ∧ dict_get "level" v = Some (VStr l) ∧ l ∈ ["partial"; "unverified"]).

Lemma unclaimed_same values values' :
  (∀ k, k ∈ ["result"; "verification"] → dict_get k values' = dict_get k values) → unclaimed values → unclaimed values'.
Proof. intros H. unfold unclaimed. by rewrite !H by set_solver. Qed.

Lemma cleanup_wf s u pods u' : _cleanup_debug_pods s u = Some (pods, u') → dict_wf u → dict_wf u'.
Proof.
  unfold _cleanup_debug_pods. intros (c & _ & (cs & _ & [= <- <-])%bind_Some)%bind_Some Hw.
  destruct (List.filter _ _); [done|]. by apply dict_set_wf.
Qed.

Lemma mark_timeout_wf cfg now s u u' : mark_wall_clock_timeout cfg now s u = Some u' → dict_wf u → dict_wf u'.
Proof.
  unfold mark_wall_clock_timeout. intros (e & _ & H)%bind_Some Hw. destruct e; simpl in H; [|congruence].
  repeat case_if_in H; injection H as <-; repeat case_if; repeat apply dict_set_wf; done.
Qed.

Section node.
Context {M : Layer1Model}.
Context (cfg : RouterSettings) (loops : LoopSettings) (sc : SafetySettings) (tool_cfg : ToolSettings) (guard : ToolGuard).
Context (raised : string) (now : spec_float).
Context (run_layer1 : pyval → list Message → pyval → pyval → Exc Layer1Result).
Context (json_mode : bool) (llm : list Message → list string → bool → Exc Response) (tools : list string).
Context (hook : option (GState → Exc Delta)) (prompt : string).
Context (is_context : Message → bool).

Local Abbreviation node :=
  (_verifier_with_llm cfg loops sc tool_cfg guard raised now run_layer1 json_mode llm tools hook prompt is_context).

(** Keys the node relies on. *)
Definition VERIFIER_KEYS : list string := ["result"; "verification"; "verifier_loop_count"].

(** How a run ends: with a verdict of its own, or with one more turn counted. *)
Definition ended (s : GState) (r : outcome Delta) : Prop :=
  ∀ d, r = Ret d → dict_wf (dl_values d) ∧ unclaimed (dl_values d).

Definition turned (s : GState) (n : Z) (r : outcome Delta) : Prop :=
  ∀ d, r = Ret d → dict_wf (dl_values d) ∧ dict_get "verifier_loop_count" (dl_values d) = Some (VInt n) ∧
    dict_get "result" (dl_values d) = None ∧ dict_get "verification" (dl_values d) = None.

Lemma end_verification_ends s kc values h :
  dict_wf values → unclaimed values → wp (end_verification tool_cfg guard raised s kc values) (λ _ r, ended s r) h.
Proof.
  intros Hw Hu. unfold end_verification. apply wp_lift; [|by intros t d]. intros [pods values'] Hc. apply wp_bind.
  eapply wp_mono; [apply wp_extends|]. intros h' [[]|t] _; [|by intros d]. intros d [= <-]. split; [by eapply cleanup_wf|].
  eapply unclaimed_same; [|exact Hu]. intros k Hk. eapply cleanup_other; [exact Hc | set_solver].
Qed.

Lemma out_of_turns_ends s kc h : wp (out_of_turns tool_cfg guard raised s kc) (λ _ r, ended s r) h.
Proof.
  apply wp_lift; [|by intros t d]. intros confidence _. apply end_verification_ends.
  - unfold dict_wf. cbn. rewrite !NoDup_cons. split_and!; [set_solver.. | apply NoDup_nil_2].
  - split; [by eexists | do 2 eexists; split; [done|]; split; [done | set_solver]].
Qed.

Lemma layer1_failed_ends s kc r h : wp (layer1_failed tool_cfg guard raised s kc r) (λ _ o, ended s o) h.
Proof.
  apply wp_lift; [|by intros t d]. intros confidence _. apply end_verification_ends.
  - unfold dict_wf, layer1_failure, fail_state. cbn. rewrite !NoDup_cons. split_and!; [set_solver.. | apply NoDup_nil_2].
  - split; [by eexists | do 2 eexists; split; [done|]; split; [done | set_solver]].
Qed.

Lemma layer2_turns s kc count r h :
  hook_keeps hook VERIFIER_KEYS →
  wp (layer2_turn cfg loops tool_cfg guard raised now json_mode llm tools hook prompt is_context s kc count r)
     (λ _ o, turned s count o) h.
Proof.
  intros Hh. apply wp_lift; [|by intros t d]. intros u Hu.
  assert (dict_wf (dl_values u) ∧ ∀ k, k ∈ VERIFIER_KEYS → k ∉ dict_keys (dl_values u)) as [Hw Hk].
  { destruct hook as [f|] eqn:E; [by eapply Hh|]. injection Hu as <-. split; [apply NoDup_nil_2|]. intros k _. apply not_elem_of_nil. }
  apply wp_bind. eapply wp_mono; [apply wp_extends|]. intros h' [pod|t] _; [|by intros d]. cbn.
  intros d Hd. unfold lift, with_text in Hd. case_match eqn:E; simplify_eq.
  apply bind_Some in E as ([baseline added] & _ & E). apply bind_Some in E as ([messages stagnant] & _ & E).
  apply bind_Some in E as (answer & _ & E). apply bind_Some in E as (calls & _ & E). cbv zeta in E.
  apply bind_Some in E as (values & Hm & [= <-]). cbn [dl_values].
  assert (dict_wf [("verifier_loop_count", VInt count); ("inject_layer1_cache", VDict (_layer1_to_dict r))]) as Hw0
    by (unfold dict_wf; cbn; rewrite !NoDup_cons; split_and!; [set_solver.. | apply NoDup_nil_2]).
  assert (∀ k, k ∈ VERIFIER_KEYS → dict_get k values =
    dict_get k [("verifier_loop_count", VInt count); ("inject_layer1_cache", VDict (_layer1_to_dict r))]) as Hg.
  { intros k Hin. rewrite (mark_timeout_other _ _ _ _ _ k Hm) by (unfold VERIFIER_KEYS in Hin; set_solver).
    cbn [merge_hook_updates dl_values]. by apply update_get_notin, Hk. }
  split; [eapply mark_timeout_wf; [exact Hm | by apply dict_update_wf]|].
  rewrite !Hg by (unfold VERIFIER_KEYS; set_solver). done.
Qed.

(** One run of the node. *)
Lemma node_runs s n h :
  hook_keeps hook VERIFIER_KEYS → counter_of "verifier_loop_count" s = Some n →
  wp (node s) (λ _ r, ended s r ∨ ((n + 1 <= max_verifier_loop cfg)%Z ∧ turned s (n + 1) r)) h.
Proof.
  intros Hh Hn. unfold _verifier_with_llm. apply wp_lift; [|intros t; left; by intros d]. intros n' Hn'. simplify_eq.
  apply wp_lift; [|intros t; left; by intros d]. intros kc _. case_if.
  - eapply wp_mono; [apply out_of_turns_ends|]. by left.
  - apply wp_lift; [|intros t; left; by intros d]. intros r _. case_if.
    + eapply wp_mono; [apply layer1_failed_ends|]. by left.
    + eapply wp_mono; [by apply layer2_turns|]. intros h' o Ho. right. split; [lia | done].
Qed.

(** When the turns are used up nothing else is done. *)
Lemma node_over s n kc v :
  counter_of "verifier_loop_count" s = Some n → (max_verifier_loop cfg <= n)%Z →
  _resolve_kubeconfig sc s = Some v → as_str v = Some kc → node s = out_of_turns tool_cfg guard raised s kc.
Proof.
  intros Hn Hl Hv Hk. unfold _verifier_with_llm. rewrite Hn, Hv. cbn. rewrite Hk. cbn.
  destruct (max_verifier_loop cfg <? n + 1)%Z eqn:E; [done | lia].
Qed.
End node.

(** The node without a language model. *)
Lemma simple_unclaimed {M : Layer1Model} cfg now run_layer1 s u :
  verifier cfg now run_layer1 s = Some u → unclaimed u.
Proof.
  unfold verifier. intros (uid & _ & (r & _ & (c & _ & H)%bind_Some)%bind_Some)%bind_Some.
  eapply unclaimed_same; [intros k Hk; apply (mark_timeout_other _ _ _ _ _ k H); set_solver|].
  split; [by eexists|]. do 2 eexists. split; [done|]. split; [done|]. unfold simple_level. repeat case_if; set_solver.
Qed.

(** ** The loop ends *)

Section loop.
Context {M : Layer1Model}.
Context (cfg : RouterSettings) (loops : LoopSettings) (sc : SafetySettings) (tool_cfg : ToolSettings) (guard : ToolGuard).
Context (json_mode : bool) (tools : list string) (hook : option (GState → Exc Delta)) (prompt : string).
Context (is_context : Message → bool).

(** One run of the node, whatever the cluster, the first layer and the model
    answer. *)
Definition node_result (s : GState) (d : Delta) : Prop :=
  ∃ raised now run_layer1 llm w,
    (execute w [] (_verifier_with_llm cfg loops sc tool_cfg guard raised now run_layer1 json_mode llm tools hook prompt
                     is_context s)).1 = Ret d.

(** The tools add messages and leave the keys of the node alone. *)
Definition tools_ran (s s' : GState) : Prop :=
  ∀ k, k ∈ VERIFIER_KEYS → dict_get k (g_values s') = dict_get k (g_values s).

(** From one run of the node to the next: through the tools, or through the
    finalize node, which asks for another round. *)
Inductive verify_turn (s s' : GState) : Prop :=
  | turn_tools d t :
      node_result s d → should_continue_verifier cfg t (update s d) = Some "continue" → tools_ran (update s d) s' →
      route_after_verifier_tools s' = "verifier_loop" → verify_turn s s'
  | turn_again d t s1 d' now :
      node_result s d →
      (should_continue_verifier cfg t (update s d) = Some "finalize" ∧ s1 = update s d ∨
       should_continue_verifier cfg t (update s d) = Some "continue" ∧ tools_ran (update s d) s1 ∧
       route_after_verifier_tools s1 = "finalize") →
      finalize_verification cfg now s1 = Some (Reverify d') → s' = update s1 d' →
      route_after_finalize s' = "verifier_loop" → verify_turn s s'.

Hypothesis hook_frame : hook_keeps hook VERIFIER_KEYS.

Lemma ended_done s d t :
  dict_wf (dl_values d) → unclaimed (dl_values d) → should_continue_verifier cfg t (update s d) = Some "done".
Proof.
  intros Hw [_ (v & l & Hv & Hl & _)]. unfold should_continue_verifier.
  rewrite (on_update _ _ _ _ Hw Hv). cbn. destruct v; [done|]. done.
Qed.

Lemma reverify_keeps now s d :
  finalize_verification cfg now s = Some (Reverify d) →
  counter_of "verifier_loop_count" (update s d) = counter_of "verifier_loop_count" s.
Proof.
  unfold finalize_verification. intros (r & _ & ([[v e] c] & _ & (g & _ & (again & _ & H)%bind_Some)%bind_Some)%bind_Some)%bind_Some.
  destruct again; [|by apply bind_Some in H as ([pods u] & _ & [=])].
  apply bind_Some in H as (n & _ & [= <-]). apply counter_of_keep; [|done].
  unfold dict_wf. cbn. rewrite !NoDup_cons. split_and!; [set_solver.. | apply NoDup_nil_2].
Qed.

(** A run after which the loop goes on has counted itself within the limit. *)
Lemma run_counts s d n :
  counter_of "verifier_loop_count" s = Some n → node_result s d →
  (∀ t, should_continue_verifier cfg t (update s d) = Some "done") ∨
  (n + 1 <= max_verifier_loop cfg)%Z ∧ counter_of "verifier_loop_count" (update s d) = Some (n + 1)%Z.
Proof.
  intros Hn (raised & now & l1 & llm & w & Hx).
  pose proof (wp_sound _ _ _ w (node_runs cfg loops sc tool_cfg guard raised now l1 json_mode llm tools hook prompt
    is_context s n [] hook_frame Hn)) as H.
  rewrite Hx in H. destruct H as [H|[Hl H]].
  - left. intros t. destruct (H d eq_refl). by apply ended_done.
  - right. split; [done|]. destruct (H d eq_refl) as (Hw & Hc & _). by apply counter_of_update.
Qed.

Lemma turn_counts s s' n :
  counter_of "verifier_loop_count" s = Some n → verify_turn s s' →
  (n + 1 <= max_verifier_loop cfg)%Z ∧ counter_of "verifier_loop_count" s' = Some (n + 1)%Z.
Proof.
  intros Hn [d t Hd Hc Hf _ | d t s1 d' now Hd Hc Hr -> _].
  - destruct (run_counts _ _ _ Hn Hd) as [He|[Hl He]]; [by rewrite He in Hc|]. split; [done|]. rewrite <- He.
    unfold counter_of. by rewrite Hf by (unfold VERIFIER_KEYS; set_solver).
  - rewrite (reverify_keeps _ _ _ Hr). destruct (run_counts _ _ _ Hn Hd) as [He|[Hl He]].
    { rewrite He in Hc. by destruct Hc as [[??]|[??]]. }
    split; [done|]. rewrite <- He. destruct Hc as [[_ ->]|(_ & Hf & _)]; [done|].
    unfold counter_of. by rewrite Hf by (unfold VERIFIER_KEYS; set_solver).
Qed.

Lemma turns_count k s s' n :
  counter_of "verifier_loop_count" s = Some n → nsteps verify_turn k s s' →
  (Z.of_nat k <= Z.max 0 (max_verifier_loop cfg - n))%Z.
Proof.
  intros Hn H. revert n Hn. induction H as [s|k s s1 s2 H1 H2 IH]; intros n Hn; [lia|].
  destruct (turn_counts _ _ _ Hn H1) as [Hl Hn1]. specialize (IH _ Hn1). lia.
Qed.

(** C20. From a state in which nothing is counted yet, with a hook that does not
    write the keys of the verifier, whatever the model, the
    cluster and the clock answer and however often the finalize node asks for
    another round, the verifier is entered again at most [max_verifier_loop]
    times. *)
Theorem verification_bounded s0 s k :
  dict_get "verifier_loop_count" (g_values s0) = None → nsteps verify_turn k s0 s →
  (Z.of_nat k <= Z.max 0 (max_verifier_loop cfg))%Z.
Proof.
  intros H0 H. apply (turns_count k s0 s 0) in H; [by rewrite Z.sub_0_r in H|]. unfold counter_of. by rewrite H0.
Qed.

(** C21. Neither node ever declares the injection verified: what they return on
    their own is at most partial, and a turn of the model leaves the verdict
    to the finalize node. *)
Theorem verifier_never_verifies s d now run_layer1 u r :
  (node_result s d ∧ u = dl_values d ∨ verifier cfg now run_layer1 s = Some u) →
  dict_get "verification" u = Some r →
  unclaimed u.
Proof.
  intros [[(raised & t & l1 & llm & w & Hx) ->]|Hu] Hr; [|by eapply simple_unclaimed].
  destruct (counter_of "verifier_loop_count" s) as [n|] eqn:Hn.
  - pose proof (wp_sound _ _ _ w (node_runs cfg loops sc tool_cfg guard raised t l1 json_mode llm tools hook prompt
      is_context s n [] hook_frame Hn)) as H.
    rewrite Hx in H. destruct H as [H|[_ H]]; [by apply H|]. destruct (H d eq_refl) as (_ & _ & _ & Hv). congruence.
  - unfold _verifier_with_llm in Hx. by rewrite Hn in Hx.
Qed.
End loop.

(** ** Runs *)

Definition two_turns : RouterSettings := mkRouter 0 2 true 3 3 2 2.
Definition reached_nothing : Layer1Result := mkLayer1 L1_PASSED "" "" [] 0 false.
Definition not_applicable : Layer1Result := layer1_of L1_SKIPPED "no experiment" "".

Definition submits : Response :=
  mkResponse (VStr "") VNone
    [mkCall SUBMIT_VERIFICATION_TOOL_NAME (VDict (as_args good_submission true true)) (Some "c2")].

(** A cluster in which every command prints nothing. *)
Definition quiet_world : world := λ _ _, Ret (mkResult 0 "" "").

Definition verify_node (layer1 : Layer1Result) (llm : list Message → list string → bool → Exc Response) (s : GState)
    : outcome Delta * history :=
  execute quiet_world []
    (@_verifier_with_llm strict_layer1 two_turns (mkLoop 10 3 5 3) plain_safety default_tools default_guard "raised" S754_nan
       (λ _ _ _ _, Some layer1) false llm ["kubectl"; "submit_verification"] None "verify" (λ _, false) s).

Definition says (r : Response) (_ : list Message) (_ : list string) (_ : bool) : Exc Response := Some r.

Definition after_verify (layer1 : Layer1Result) (r : Response) (s : GState) : GState :=
  match (verify_node layer1 (says r) s).1 with Ret d => update s d | Exn _ => s end.

(** The tools answer every call. *)
Definition answered (name id : string) (s : GState) : GState :=
  mkState (g_messages s ++ [ToolMessage "ok" name id false]) (g_values s).

Definition looked : GState := answered "kubectl" "c1" (after_verify reached_nothing look (mkState [] [])).
Definition submitted : GState := after_verify reached_nothing submits looked.
Definition asked_again : GState :=
  match @finalize_verification strict_layer1 two_turns S754_nan submitted with
  | Some (Reverify d) => update submitted d
  | _ => submitted
  end.

Local Abbreviation turns :=
  (@verify_turn strict_layer1 two_turns (mkLoop 10 3 5 3) plain_safety default_tools default_guard false
     ["kubectl"; "submit_verification"] None "verify" (λ _, false)).

Lemma verify_node_result layer1 r s :
  (∃ d, (verify_node layer1 (says r) s).1 = Ret d) →
  ∃ d, @node_result strict_layer1 two_turns (mkLoop 10 3 5 3) plain_safety default_tools default_guard false
         ["kubectl"; "submit_verification"] None "verify" (λ _, false) s d ∧
       after_verify layer1 r s = update s d.
Proof.
  intros [d Hd]. exists d. split; [by exists "raised", S754_nan, (λ _ _ _ _, Some layer1), (says r), quiet_world|].
  unfold after_verify. by rewrite Hd.
Qed.

Lemma looked_turn : turns (mkState [] []) looked.
Proof.
  destruct (verify_node_result reached_nothing look (mkState [] [])) as (d & Hd & He); [eexists; vm_compute; reflexivity|].
  apply (turn_tools _ _ _ _ _ _ _ _ _ _ _ _ d S754_nan Hd); rewrite <- ?He; [by vm_compute | by intros k _ | by vm_compute].
Qed.

Lemma asked_again_turn : turns looked asked_again.
Proof.
  destruct (verify_node_result reached_nothing submits looked) as (d & Hd & He); [eexists; vm_compute; reflexivity|].
  destruct (@finalize_verification strict_layer1 two_turns S754_nan submitted) as [[d'|]|] eqn:Ef;
    [|by vm_compute in Ef..].
  apply (turn_again _ _ _ _ _ _ _ _ _ _ _ _ d S754_nan submitted d' S754_nan Hd); rewrite <- ?He.
  - left. by vm_compute.
  - exact Ef.
  - unfold asked_again. by rewrite Ef.
  - by vm_compute.
Qed.

Lemma verification_bounded_witness : (Z.of_nat 2 <= Z.max 0 (max_verifier_loop two_turns))%Z.
Proof.
  eapply (@verification_bounded strict_layer1 two_turns (mkLoop 10 3 5 3) plain_safety default_tools default_guard false
            ["kubectl"; "submit_verification"] None "verify" (λ _, false))
    with (s0 := mkState [] []) (s := asked_again).
  - intros h s d [=].
  - reflexivity.
  - eapply nsteps_l; [exact looked_turn|]. eapply nsteps_l; [exact asked_again_turn|]. apply nsteps_O.
Defined.

(** What the node wrote, and the calls it made. *)
Definition wrote (s : GState) (r : outcome Delta * history) (path : list string) : pyval :=
  match r.1 with
  | Ret d => fold_left (λ v k, match v with VDict m => py_get k m | _ => VNone end) path (VDict (dl_values d))
  | Exn _ => VNone
  end.

Lemma verifier_never_verifies_witness :
  wrote asked_again (verify_node reached_nothing (says submits) asked_again) ["verification"; "level"] = VStr "partial" ∧
  ∃ d, (verify_node reached_nothing (says submits) asked_again).1 = Ret d ∧ unclaimed (dl_values d).
Proof.
  split; [by vm_compute|].
  destruct (verify_node reached_nothing (says submits) asked_again).1 as [d|] eqn:E; [|vm_compute in E; discriminate].
  exists d. split; [reflexivity|].
  eapply (@verifier_never_verifies strict_layer1 two_turns (mkLoop 10 3 5 3) plain_safety default_tools default_guard false
            ["kubectl"; "submit_verification"] None "verify" (λ _, false))
    with (s := asked_again) (d := d) (now := S754_nan) (run_layer1 := λ _ _ _ _, Raise).
  - intros h s d' [=].
  - left. split; [|reflexivity].
    exists "raised", S754_nan, (λ _ _ _ _, Some reached_nothing), (says submits), quiet_world. exact E.
  - vm_compute in E. injection E as <-. vm_compute. reflexivity.
Defined.

(** ** Findings *)

(** A verdict submitted on the last turn that leaves a gap: another round is
    asked for, the node has no turn left for it, and writes that the model gave
    no summary.  Whatever the model concluded, the level is now partial. *)
Definition denies : Response :=
  mkResponse (VStr "") VNone
    [mkCall SUBMIT_VERIFICATION_TOOL_NAME
       (VDict (as_args (mkSubmission "failed" "unverified" "cpu at 5%" one_step_items []) false true)) (Some "c2")].

Lemma last_round_lost :
  match @finalize_verification strict_layer1 two_turns S754_nan (after_verify reached_nothing denies looked) with
  | Some (Reverify d) =>
      let s := update (after_verify reached_nothing denies looked) d in
      let r := verify_node reached_nothing (says denies) s in
      route_after_finalize s = "verifier_loop" ∧
      wrote s r ["verification"; "level"] = VStr "partial" ∧
      wrote s r ["verification"; "layer2"; "details"] =
        VStr "Max iterations reached, LLM did not produce final summary"
  | _ => False
  end.
Proof. vm_compute. done. Qed.

(** Out of turns, the first layer is reported as passed although it was never
    applied. *)
Definition skipped_once : GState := answered "kubectl" "c1" (after_verify not_applicable look (mkState [] [])).
Definition skipped_twice : GState := answered "kubectl" "c1" (after_verify not_applicable look skipped_once).

Lemma skipped_layer_passes :
  get "inject_layer1_cache" skipped_twice = VDict (_layer1_to_dict not_applicable) ∧
  wrote skipped_twice (verify_node not_applicable (says look) skipped_twice) ["verification"; "layer1"; "status"] = VStr "passed".
Proof. by vm_compute. Qed.

(** On its last turn the model is told that it is on the one before. *)
Lemma last_turn_second_to_last cfg s r kc pod baseline added :
  (1 < max_verifier_loop cfg)%Z →
  _build_layer2_messages cfg s r kc (max_verifier_loop cfg) pod = Some (baseline, added) →
  HumanMessage (strip (deadline_hint cfg (max_verifier_loop cfg))) ∈ added ∧
  HumanMessage (final_prompt cfg (max_verifier_loop cfg)) ∈ added.
Proof.
  intros Hm. unfold _build_layer2_messages. intros (b & _ & (m & _ & [= <- <-])%bind_Some)%bind_Some.
  assert (verifier_convergence_hint cfg (max_verifier_loop cfg) = deadline_hint cfg (max_verifier_loop cfg)) as ->.
  { unfold verifier_convergence_hint. set (n := max_verifier_loop cfg) in *.
    destruct (n <? n - 1)%Z eqn:E1; [lia|]. rewrite andb_false_r. destruct (n - 1 <=? n)%Z eqn:E2; [done | lia]. }
  rewrite Z.leb_refl. destruct (max_verifier_loop cfg =? 1)%Z eqn:E; [lia|].
  assert (truthy (deadline_hint cfg (max_verifier_loop cfg)) = true) as -> by done. cbn [negb andb].
  rewrite !elem_of_app, !list_elem_of_singleton. auto.
Qed.

(** The capture writes no number of observations, so the text for the model
    counts the successes out of none. *)
Definition captured : dict pyval :=
  match (run_capture debugging None initial_tables base_fill).1 with
  | Ret (_, u) => match py_get "baseline_data" u with VDict d => d | _ => [] end
  | Exn _ => []
  end.

Lemma succeeded_out_of_zero :
  match _build_baseline_tool_messages captured "disk" "fill" [] with
  | Some (_ :: ToolMessage content _ _ _ :: _) => contains ", 1/0 succeeded)" content = true
  | _ => False
  end.
Proof. by vm_compute. Qed.

(** The text of an API server whose status is not an object stops the
    extraction. *)
Lemma metrics_raise :
  extract_metrics "kubectl get pod a -o json" (quotes "{~status~: ~unknown~}") = Raise.
Proof. by vm_compute. Qed.

(** The share of time spent waiting, which the documentation calls noise, is
    kept for disk faults. *)
Lemma disk_keeps_iowait v : _filter_metrics_by_fault [("CPU iowait %", v)] "disk" = [("CPU iowait %", v)].
Proof. reflexivity. Qed.

(** Every other command is read without an error; in /proc/stat a number may
    still be too large for a float. *)
Definition asks_json (command : string) : bool :=
  any_in ["get pod"; "get po "] (lower command) && any_in ["-o json"; "-ojson"; "--output=json"] (lower command).

Lemma extract_metrics_total command out :
  asks_json command = false → contains "/proc/stat" (lower command) = false → is_Some (extract_metrics command out).
Proof.
  unfold asks_json, extract_metrics. intros Hj Hs. case_if; [by eexists|]. rewrite Hj, Hs. unfold when.
  repeat case_if; by eexists.
Qed.

(** *** What the first context says *)

(** Whatever the first layer found, unless it was skipped or the experiment
    has expired, the model is told that it passed. *)
Lemma told_passed r :
  l1_status r ≠ L1_SKIPPED → l1_expired r = false →
  layer2_instruction r = layer2_instruction (layer1_of L1_PASSED "" "").
Proof.
  intros Hs He. unfold layer2_instruction, self_destructive. rewrite (bool_decide_eq_false_2 _ Hs), He. done.
Qed.

(** A skill case without the section on verification: the model is told to
    follow that section. *)
Lemma missing_section_followed x skill_case :
  contains "--- Candidate" skill_case = false → _extract_verification_step_descriptions skill_case = [] →
  _has_injection_verification_section skill_case = false →
  strategy x skill_case = free_mode ∧
  contains "Follow the **注入验证** section in the skill case above." (strategy x skill_case) = true.
Proof.
  intros Hc Hd Hs. unfold strategy. rewrite Hc, Hd, Hs. split; [done|]. by vm_compute.
Qed.
