(* ===== verification/RecoverLoop.v ===== *)
(** * The recovery verifier (agent/nodes/_recover_verifier_loop.py, _recover_layer1.py)

    One turn of the verification of a recovery.  The first turn executes the
    recovery: [blade destroy] on the host, or the language model with the
    kubectl tools, which may take several turns; then the language model
    verifies that the effect of the fault is gone.  What [blade destroy] and
    [blade status] answer, the language model, the hook, the system prompt of
    the second layer and the clock are parameters, and so are the marks by
    which the injection context and the first context are recognised in the
    conversation.  A message of the state that is returned again replaces
    itself, so only new messages are returned here.  Tracking, the session
    store and the copy into the task store are left out. *)

From stdpp Require Import base list strings sets.
From Stdlib Require Import ZArith Ascii SpecFloat.
From S2P Require Import Finalize Prelude PyText PyRe PyValue PyFloat PyOps FaultSpec Failure Screener Router Conflict InjectionDetection Verdict Layer1 RecoverFinalize SafetyGate Kubectl ReactHelpers ExecuteLoop BaselineCapture VerifierHints VerifierContext Verifier.

(** ** The baseline as the answer of a tool *)

Definition _RECOVER_BASELINE_TOOL_CALL_ID : string := "recover_baseline_collector".

Definition recover_baseline_content (b : dict pyval) (sections : list string) : string :=
  "Pre-injection baseline collected at " +:+ py_str (get_d "captured_at" (VStr "unknown time") b) +:+ " (strategy: " +:+
  py_str (get_d "source" (VStr "unknown") b) +:+ ", " +:+ py_str (get_d "success_count" (VInt 0) b) +:+ "/" +:+
  py_str (get_d "total_count" (VInt 0) b) +:+ line " succeeded)." +:+
  newline +:+
  "These metrics were captured BEFORE fault injection using the same kubectl commands you would use for recovery " +:+
  "verification. Recovery is confirmed when YOUR CURRENT observations return to these baseline levels. Compare " +:+
  quotes "using delta format: ~baseline: X → current: Y (ΔZ)~. If current ≈ baseline → recovery confirmed. If current ≠ " +:+
  line "baseline → fault effect still present." +:+
  newline +:+
  join nl2 sections.

Definition _build_recover_baseline_tool_messages (b : dict pyval) : Exc (list Message) :=
  positive ← (match b with [] => Some false | _ => py_gt (get_d "success_count" (VInt 0) b) (VInt 0) end);
  if negb positive then Some []
  else
    observations ← py_iter (get_d "observations" (VList []) b);
    sections ← mapM obs_section observations;
    Some match concat sections with
         | [] => []
         | shown =>
             [AIMessage (VStr "") VNone
                [mkCall "recover_baseline_collector"
                   (VDict [("phase", VStr "pre-injection"); ("purpose", VStr "recovery_comparison")])
                   (Some _RECOVER_BASELINE_TOOL_CALL_ID)];
              ToolMessage (recover_baseline_content b shown) "recover_baseline_collector" _RECOVER_BASELINE_TOOL_CALL_ID false]
         end.

(** ** The prompt of the first layer *)

Definition exec_recovery_prompt : string :=
  line "You are executing recovery actions for a chaos engineering fault." +:+
  newline +:+
  line "This is a ChaosBlade fault that was injected via `kubectl exec` into a cluster pod" +:+
  line "(e.g., otel-c-tool). Because the host blade binary cannot access experiments created" +:+
  line "inside the cluster, you must destroy the experiment using `kubectl exec` with the" +:+
  line "`blade destroy` command." +:+
  newline +:+
  line "## Recovery Procedure" +:+
  line "1. Find a running tool pod in the chaosblade namespace:" +:+
  line "   `kubectl(subcommand='get', args='pods -n chaosblade -l app=otel-c-tool', kubeconfig='<path>')`" +:+
  line "2. Execute blade destroy on the running pod:" +:+
  "   `kubectl(subcommand='exec', pod='<running-pod>', namespace='chaosblade', command='blade destroy <UID>', " +:+
  line "kubeconfig='<path>')`" +:+
  line (quotes "3. Verify the destroy succeeded (the output should contain ~success~ or ~Success~).") +:+
  newline +:+
  line "## Important Constraints" +:+
  line "- DO NOT use `blade_destroy` or `blade_status` tools — they run on the host and cannot see cluster experiments" +:+
  line "- DO NOT use interactive commands like `kubectl edit` — they do not work in automation" +:+
  line "- DO NOT verify the fault has been removed — that is Layer 2's job, not yours" +:+
  line "- The specific tool pod used for injection may no longer exist (DaemonSet rotation)." +:+
  line "  Always discover a current running pod first." +:+
  newline +:+
  line "## Kubeconfig Requirement" +:+
  line (quotes "If a kubeconfig path is provided, you MUST include `kubeconfig=~<path>~` as a") +:+
  line "parameter in EVERY kubectl tool call. The default kubeconfig cannot access the" +:+
  line "target cluster. Omitting kubeconfig will cause tool calls to connect to the WRONG cluster." +:+
  newline +:+
  line "## Output" +:+
  line "After completing the recovery action (or determining it cannot be completed)," +:+
  line "output a FINAL summary in this EXACT format:" +:+
  newline +:+
  line "RECOVERY_EXECUTION_RESULT:" +:+
  line "- Status: [success/failed]" +:+
  line (quotes "- Actions: [summary of actions taken, e.g., ~destroyed blade experiment via kubectl exec~]") +:+
  line "- Details: [any errors, warnings, or notes]".

Definition native_recovery_prompt : string :=
  line "You are executing recovery actions for a chaos engineering fault." +:+
  newline +:+
  line "This is a non-ChaosBlade fault (created via kubectl). Your task is to EXECUTE" +:+
  line "the recovery actions to remove the fault effect. You are NOT verifying — only executing." +:+
  newline +:+
  line "## Important Constraints" +:+
  line "- DO NOT check for ChaosBlade resources (CRs, blade experiments, etc.) — this is NOT a ChaosBlade fault" +:+
  line "- DO NOT use interactive commands like `kubectl edit` — they do not work in automation" +:+
  line "- DO NOT verify the fault has been removed — that is Layer 2's job, not yours" +:+
  line "- DO NOT use `blade_destroy`, `blade_status`, or any ChaosBlade tool" +:+
  newline +:+
  line "## Available Tools" +:+
  "- `kubectl`: General kubectl — see tool docstring for subcommands, constraints, and recovery patterns " +:+
  line "(patch/delete/taint equivalents for manual operations)" +:+
  line "- `read_skill_resource`: Read skill resource files for additional context" +:+
  newline +:+
  line "## Kubeconfig Requirement" +:+
  line (quotes "If a kubeconfig path is provided, you MUST include `kubeconfig=~<path>~` as a") +:+
  line "parameter in EVERY kubectl tool call. The default kubeconfig cannot access the" +:+
  line "target cluster. Omitting kubeconfig will cause tool calls to connect to the WRONG cluster." +:+
  newline +:+
  line "## Instructions" +:+
  line "1. Read the Recovery Actions provided below — they describe what to do to undo the fault." +:+
  line "2. You can also refer to the injection context in the conversation history to understand" +:+
  line "   what was done during injection — this helps you know exactly what to undo." +:+
  line "3. Execute each recovery action using the available tools, translating interactive" +:+
  line "   commands into programmatic equivalents (see kubectl tool docstring for recovery patterns)." +:+
  line "4. If an action fails, try an alternative approach if possible." +:+
  newline +:+
  line "## Output" +:+
  line "After completing ALL recovery actions (or determining they cannot be completed)," +:+
  line "output a FINAL summary in this EXACT format:" +:+
  newline +:+
  line "RECOVERY_EXECUTION_RESULT:" +:+
  line "- Status: [success/failed]" +:+
  line (quotes "- Actions: [summary of actions taken, e.g., ~removed finalizers from pod/xxx, deleted PVC yyy~]") +:+
  line "- Details: [any errors, warnings, or notes]".

Definition _build_layer1_recovery_prompt (is_kubectl_blade : bool) : string :=
  if is_kubectl_blade then exec_recovery_prompt else native_recovery_prompt.

(** ** Verdicts of the node itself *)

Definition recover_result (s : GState) (uid : pyval) (recovered : bool) : pyval :=
  VDict [("task_id", get_d "task_id" (VStr "") (g_values s)); ("skill", get_d "skill_name" (VStr "") (g_values s));
         ("blade_uid", uid); ("recovered", VBool recovered)].

(** The same as [unfinished], with the warnings in front. *)
Definition warned_first (level : string) (layer1 : pyval) (status details confidence : string) (warnings : list string) : pyval :=
  VDict [("level", VStr level); ("layer1", layer1); ("layer2", VDict [("status", VStr status); ("details", VStr details)]);
         ("warnings", VList (map VStr warnings)); ("baseline_confidence", VStr confidence)].

Definition recovery_failure (r : Layer1Result) : dict pyval :=
  fail_state RECOVERY_FAILED
    ("Layer1=" +:+ layer1_status_text (l1_status r) +:+ ", Layer2=skipped, details=" +:+ py_take 200 (l1_details r)) [].

Section recover_verifier.
Context {M : Layer1Model}.
Context (cfg : RouterSettings) (sc : SafetySettings).
(** What [blade destroy] and [blade status] answer or raise. *)
Context (destroy_out status_out : outcome string) (exc_text : string).
Context (now_iso : string).

Local Abbreviation MAX := (max_recover_verifier_loop cfg).
Local Abbreviation run_layer1 := (_run_recover_layer1 destroy_out status_out exc_text).

(** *** Without a language model *)

Definition simple_layer1 (uid : string) (by_exec : bool) (messages : list Message) : Exc Layer1Result :=
  if truthy uid && by_exec then
    Some (layer1_of L1_SKIPPED
      ("ChaosBlade experiment (uid=" +:+ uid +:+
    ") was created via kubectl exec, host blade_destroy cannot destroy it — LLM-based recovery required") "")
  else if truthy uid then run_layer1 uid messages
  else Some (layer1_of L1_SKIPPED "Non-ChaosBlade fault (no blade_uid), Layer 1 recovery not applicable" "").

Definition simple_recover_warnings (uid : string) (by_exec : bool) (r : Layer1Result) : list string :=
  if by_exec then
    ["ChaosBlade experiment (uid=" +:+ uid +:+
    ") created via kubectl exec cannot be destroyed from host (blade_destroy). Use LLM-based recovery (blade-ai " +:+
    "recover with LLM) to destroy via kubectl exec: kubectl exec <pod> -n chaosblade -- blade destroy " +:+ uid]
  else if negb (truthy uid) then
    ["Non-ChaosBlade fault: Layer 1 not applicable, Layer 2 skipped (no LLM). Recovery could NOT be verified — the " +:+
    "fault may still be active."]
  else if is_passed r then
    ["Layer 2 (fault-specific) recovery verification was skipped. Only blade_destroy + blade_status verification was " +:+
    "performed."]
  else [].

Definition recover_verifier (s : GState) : Exc (dict pyval) :=
  v ← known_uid s;
  uid ← as_str v;
  by_exec ← _was_kubectl_blade_injection_successful (g_messages s);
  r ← simple_layer1 uid by_exec (g_messages s);
  let recovered := negb by_exec && truthy uid && is_passed r in
  confidence ← _compute_baseline_confidence s;
  Some ([("result", recover_result s (VStr uid) recovered);
         ("recover_verification",
            unfinished (if recovered then "recovered" else "unrecovered") (VDict (_layer1_to_dict r)) "skipped"
              "No LLM available for specific verification" confidence (simple_recover_warnings uid by_exec r));
         ("finished_at", VStr now_iso)] ++ (if recovered then [] else recovery_failure r)).

(** *** With a language model *)

Context (max_l1 : Z).
(** The answer to the messages with these tools bound, or an exception with
    its text. *)
Context (llm : list Message → list string → outcome Response) (tools : list string).
Context (hook : option (GState → Exc Delta)) (prompt : bool → string).
Context (is_injection_context is_context : Message → bool).

(** The ends of a recovery that is not confirmed. *)
Definition recover_out_of_turns (s : GState) (uid : string) : Exc Delta :=
  confidence ← _compute_baseline_confidence s;
  Some (mkDelta []
    ([("result", recover_result s (VStr uid) false);
      ("recover_verification",
         unfinished "partial" (VDict [("status", VStr "passed"); ("details", VStr "Confirmed in earlier iterations")])
           "skipped" "Max iterations reached, could not confirm recovery" confidence
           ["Recover verifier loop exceeded max iterations — fault may still be active"]);
      ("finished_at", VStr now_iso)] ++
     fail_state RECOVERY_VERIFICATION_TIMEOUT ("max_iterations=" +:+ str_of_Z MAX) [])).

Definition failed_warning (r : Layer1Result) : list string := ["Layer 1 recovery verification failed: " +:+ l1_details r].

(** After a failed first layer; the branch that follows the first turn puts
    the warnings in front. *)
Definition layer1_end (s : GState) (uid : string) (r : Layer1Result) (first_turn : bool) : Exc (dict pyval) :=
  confidence ← _compute_baseline_confidence s;
  Some ([("result", recover_result s (VStr uid) false);
         ("recover_verification",
            (if first_turn then unfinished else warned_first) "unrecovered" (VDict (_layer1_to_dict r)) "skipped"
              "Layer 1 failed, skipping Layer 2" confidence (failed_warning r));
         ("finished_at", VStr now_iso)] ++ recovery_failure r).

Definition layer1_exhausted (s : GState) (uid : string) : Exc Delta :=
  confidence ← _compute_baseline_confidence s;
  let r := layer1_of L1_ERROR ("Layer 1 recovery execution exceeded max iterations (" +:+ str_of_Z max_l1 +:+ ")") "" in
  Some (mkDelta []
    ([("result", recover_result s (VStr uid) false);
      ("recover_verification",
         unfinished "unrecovered" (VDict (_layer1_to_dict r)) "skipped" "Layer 1 exceeded max iterations" confidence
           ["Layer 1 recovery execution exceeded max iterations"]);
      ("finished_at", VStr now_iso)] ++
     fail_state RECOVERY_FAILED "Layer1=error, Layer2=skipped" [])).

(** **** The first layer, executed by the model *)

Definition pod_hint (pod : pyval) : string :=
  if py_truthy pod then
    "原始注入 Pod: `" +:+ py_str pod +:+ line "`，优先使用该 Pod 执行 blade destroy。" +:+
    line "若该 Pod 已不存在，通过 kubectl get pods 发现当前 running 的 tool pod。"
  else "".

Definition exec_recovery_context (uid : string) (pod : pyval) (kubeconfig : string) : string :=
  let shown := if py_truthy pod then py_str pod else "<pod-with-blade>" in
  let kc := if truthy kubeconfig then kubeconfig else "<path>" in
  newline +:+
  newline +:+
  line "## ChaosBlade Experiment Recovery (kubectl exec)" +:+
  line "The fault was injected using ChaosBlade via `kubectl exec` into a cluster pod." +:+
  "Experiment UID: `" +:+ uid +:+ line "`" +:+
  pod_hint pod +:+ line "To recover, you MUST destroy the experiment using kubectl exec:" +:+
  "  kubectl(subcommand='exec', pod='" +:+ shown +:+ "', namespace='chaosblade', command='blade destroy " +:+ uid +:+
  "', kubeconfig='" +:+ kc +:+ line "')" +:+
  line "If you don't know the pod name, find it:" +:+
  "  kubectl(subcommand='get', args='pods -n chaosblade -l app=otel-c-tool', kubeconfig='" +:+ kc +:+ line "')".

(** What is known of the injection, with instructions when it went through a
    tool pod. *)
Definition layer1_inject_context (s : GState) (uid kubeconfig : string) (by_exec : bool) : Exc pyval :=
  let v := get_d "inject_context" (VStr "") (g_values s) in
  if by_exec && truthy uid then
    t ← as_str v; Some (VStr (t +:+ exec_recovery_context uid (get "kubectl_exec_pod_name" s) kubeconfig))
  else Some v.

Definition expired_context (t : string) : string :=
  line "## Injection Phase Context (EXPIRED — fault-state data, NOT current)" +:+
  "The following context was captured during fault injection. It describes what fault was injected and what was " +:+
  line "observed WHILE THE FAULT WAS ACTIVE." +:+
  line "This data is STALE — it does NOT represent the current post-recovery state." +:+
  line "You MUST re-execute kubectl commands to obtain CURRENT observations." +:+
  newline +:+
  line (t) +:+
  newline.

Definition guidance : string :=
  newline +:+
  line "## Recovery Guidance" +:+
  "Refer to the Injection Phase Context above to understand what was injected and determine the correct recovery " +:+
  line "actions. Execute the recovery using available kubectl tools." +:+
  newline.

Definition kubeconfig_must (kc : string) : string :=
  if truthy kc then
    "**IMPORTANT**: You MUST pass `kubeconfig='" +:+ kc +:+
    "'` to EVERY kubectl tool call. The default kubeconfig cannot access this cluster. Do NOT omit the kubeconfig " +:+
    line "parameter."
  else "".

Definition layer1_request (s : GState) (kubeconfig : string) : Exc string :=
  spec ← read_fault_spec (g_values s);
  let flags := or_empty (get "blade_parsed_flags" s) in
  Some (line "## Fault Context" +:+
    "Skill: " +:+ line (py_str (get_d "skill_name" (VStr "") (g_values s))) +:+
    "Target namespace: " +:+ line (match spec with Some p => s_namespace p | None => "" end) +:+
    "Target names: " +:+ line (py_str (VList (match spec with Some p => s_names p | None => [] end))) +:+
    "Kubeconfig: " +:+ line (if truthy kubeconfig then kubeconfig else "(default)") +:+
    (if py_truthy flags then "Blade key parameters: " +:+ line (py_str flags) else "") +:+
    guidance +:+ kubeconfig_must kubeconfig +:+
    newline +:+
    "Please execute the above recovery actions now. After completing all actions, output your " +:+
    "RECOVERY_EXECUTION_RESULT summary.").

Definition only_iteration : string :=
  line "**RECOVERY EXECUTION DEADLINE**: This is the ONLY iteration available." +:+
  line "Tools are unavailable. You MUST provide your recovery execution conclusion in this EXACT format:" +:+
  newline +:+
  line "RECOVERY_EXECUTION_RESULT:" +:+
  line "- Status: [success/failed]" +:+
  line "- Actions: [summary of all actions taken]" +:+
  line "- Details: [errors, warnings, or notes — if failed, explain WHY recovery could not be completed]" +:+
  newline +:+
  quotes "If you cannot determine the result, set Status to ~failed~ and explain why in Details.".

(** The text of an answer without calls. *)
Definition layer1_answer (r : Response) : Exc Layer1Result :=
  text ← as_str (py_or (r_content r) (VStr "")); Some (_parse_layer1_recovery_result text).

Definition in_progress (system_prompt : string) : pyval :=
  VDict [("status", VStr "in_progress"); ("details", VStr ""); ("raw_output", VStr ""); ("system_prompt", VStr system_prompt)].

(** What the first layer comes to: an update to return, or a result with
    which the node goes on. *)
Inductive first_layer :=
  | Returned (d : Delta)
  | Settled (r : Layer1Result).

Definition answered_message (r : Response) (calls : list ToolCall) : Message := AIMessage (r_content r) (r_reasoning r) calls.

Definition llm_failed (text : string) : Layer1Result := layer1_of L1_ERROR ("LLM call failed: " +:+ text) text.

Definition layer1_start (s : GState) (uid kubeconfig : string) (by_exec : bool) (inject : pyval) : Exc first_layer :=
  let system_prompt := _build_layer1_recovery_prompt by_exec in
  request ← layer1_request s kubeconfig;
  let added := [HumanMessage (expired_context (py_str inject)); HumanMessage request] in
  let is_last := (max_l1 <=? 1)%Z in
  let asked := g_messages s ++ added ++ (if is_last then [HumanMessage only_iteration] else []) in
  match llm (SystemMessage system_prompt :: asked) (if is_last then [] else tools) with
  | Exn t => Some (Settled (llm_failed t))
  | Ret answer =>
      calls ← inject_kubeconfig_into_tool_calls (VStr kubeconfig) (r_calls answer);
      let messages := added ++ [answered_message answer calls] in
      let counted cache := [("verifier_loop_count", VInt 1); ("recover_layer1_cache", cache); ("layer1_iteration_count", VInt 1)] in
      match calls with
      | _ :: _ => Some (Returned (mkDelta messages (counted (in_progress system_prompt))))
      | [] =>
          r ← layer1_answer answer;
          let values := counted (VDict (_layer1_to_dict r)) in
          if is_terminal r then
            ended ← layer1_end s uid r true;
            Some (Returned (mkDelta messages (dict_update values ended)))
          else Some (Returned (mkDelta messages
                 (values ++ [("recover_phase", VStr "layer2_verification"); ("recover_layer1_type", VStr "llm_driven")])))
      end
  end.

Definition layer1_first (s : GState) (uid kubeconfig : string) : Exc first_layer :=
  by_exec ← _was_kubectl_blade_injection_successful (g_messages s);
  if truthy uid && negb by_exec then r ← run_layer1 uid (g_messages s); Some (Settled r)
  else
    attempted ← _was_blade_create_attempted (g_messages s);
    if (attempted : bool) then
      Some (Settled (layer1_of L1_FAILED "blade_create was called during injection but no UID available for recovery" ""))
    else
      inject ← layer1_inject_context s uid kubeconfig by_exec;
      if negb (py_truthy inject)
      then Some (Settled (layer1_of L1_SKIPPED "Non-ChaosBlade fault: no inject context available" ""))
      else layer1_start s uid kubeconfig by_exec inject.

Definition several_actions : string :=
  "You have already executed several recovery actions. If the actions are complete, output your " +:+
  "RECOVERY_EXECUTION_RESULT summary now rather than taking more actions.".

Definition execution_deadline (i : Z) : string :=
  "**RECOVERY EXECUTION DEADLINE**: This is iteration " +:+ str_of_Z i +:+ " of max " +:+ str_of_Z max_l1 +:+ line "." +:+
  line "Based on ALL actions executed so far:" +:+
  line "  - If recovery actions are complete, output the RECOVERY_EXECUTION_RESULT format NOW." +:+
  line "  - This is your last chance to use tools — on the next iteration tools will be unavailable." +:+
  newline +:+
  line "Your Status must be one of:" +:+
  line "  - **success**: Recovery actions have been executed successfully" +:+
  line "  - **failed**: Recovery actions could not be completed — explain why in Details".

Definition final_execution (i : Z) : string :=
  "**FINAL RECOVERY EXECUTION ITERATION**: This is iteration " +:+ str_of_Z i +:+ " of max " +:+ str_of_Z max_l1 +:+
  line ". NO more iterations available. Tools are no longer available." +:+
  line "You MUST provide your final recovery execution conclusion NOW in this EXACT format:" +:+
  newline +:+
  line "RECOVERY_EXECUTION_RESULT:" +:+
  line "- Status: [success/failed]" +:+
  line "- Actions: [summary of all actions taken]" +:+
  line "- Details: [errors, warnings, or notes — if failed, explain WHY recovery could not be completed]" +:+
  newline +:+
  quotes "If you cannot determine the result, set Status to ~failed~ and explain why in Details.".

Definition kubeconfig_reminder (kc : string) : list Message :=
  if truthy kc then
    [HumanMessage (
      "**Reminder**: You MUST pass kubeconfig='" +:+ kc +:+ "' to every kubectl tool call.")]
  else [].

Definition continue_prompt (s : GState) : Exc string :=
  cache ← as_dict (or_empty (get "recover_layer1_cache" s));
  as_str (get_d "system_prompt" (VStr (_build_layer1_recovery_prompt false)) cache).

Definition layer1_continue (s : GState) (uid kubeconfig : string) (count : Z) : Exc first_layer :=
  n ← counter_of "layer1_iteration_count" s;
  let i := (n + 1)%Z in
  if (max_l1 <? i)%Z then d ← layer1_exhausted s uid; Some (Returned d)
  else
    system_prompt ← continue_prompt s;
    let asked := g_messages s ++
      (if (3 <=? i)%Z then [HumanMessage several_actions] else []) ++
      (if (max_l1 - 1 <=? i)%Z then [HumanMessage (execution_deadline i)] else []) ++
      (if (max_l1 <=? i)%Z then [HumanMessage (final_execution i)] else []) ++ kubeconfig_reminder kubeconfig in
    match llm (SystemMessage system_prompt :: asked) (if (max_l1 <=? i)%Z then [] else tools) with
    | Exn t => Some (Settled (llm_failed t))
    | Ret answer =>
        calls ← inject_kubeconfig_into_tool_calls (VStr kubeconfig) (r_calls answer);
        let messages := [answered_message answer calls] in
        let values := [("verifier_loop_count", VInt count); ("layer1_iteration_count", VInt i)] in
        match calls with
        | _ :: _ => Some (Returned (mkDelta messages values))
        | [] =>
            r ← layer1_answer answer;
            if is_terminal r then ended ← layer1_end s uid r false; Some (Returned (mkDelta [] ended))
            else Some (Returned (mkDelta messages
                   (values ++ [("recover_layer1_cache", VDict (_layer1_to_dict r));
                               ("recover_phase", VStr "layer2_verification"); ("recover_layer1_type", VStr "llm_driven")])))
        end
    end.

Definition recover_phase (s : GState) : pyval := get_d "recover_phase" (VStr "layer1_recovery") (g_values s).

Definition first_layer_of (s : GState) (uid kubeconfig : string) (count : Z) : Exc first_layer :=
  let executing := eqs (recover_phase s) "layer1_recovery" in
  if executing && (count =? 1)%Z then layer1_first s uid kubeconfig
  else if executing && (1 <? count)%Z then layer1_continue s uid kubeconfig count
  else r ← recover_layer1_of s; Some (Settled r).

(** **** The second layer *)

Definition deterministic (s : GState) (uid : string) : bool :=
  match get "recover_layer1_type" s with
  | VNone => truthy uid
  | v => eqs v "deterministic"
  end.

Definition injection_context (t : string) : string :=
  line "## Injection Phase Context (EXPIRED — fault-state data, NOT current)" +:+
  line "The following context was captured during fault injection. Use this ONLY to understand what fault was injected." +:+
  line "⚠️ This data is STALE — it does NOT represent the current post-recovery state." +:+
  line "DO NOT use injection-phase kubectl outputs as 'current' evidence." +:+
  line "You MUST re-execute kubectl commands to obtain CURRENT observations." +:+
  newline +:+
  line (t) +:+
  newline.

Definition step_hint (n : nat) : string :=
  if Nat.ltb 0 n then
    newline +:+
    "**Expected Verification Steps**: " +:+ str_of_Z (Z.of_nat n) +:+
    " recovery verification step(s). Your RECOVERY_VERIFICATION_CHECKLIST MUST have at least " +:+ str_of_Z (Z.of_nat n) +:+
    line " items."
  else "".

Definition section_instructions (recovery_section : string) (steps : nat) : string :=
  newline +:+
  line "## Recovery Verification Instructions" +:+
  line "Follow the recovery verification approach below as the primary reference." +:+
  newline +:+
  line "<recovery-verification>" +:+
  line (recovery_section) +:+
  line "</recovery-verification>" +:+
  newline +:+
  line "1. Follow the **恢复验证** section above exactly. Execute every verification step it specifies." +:+
  line "2. If a step cannot be executed, note it and design an equivalent check." +:+
  line "3. If ALL steps pass, conclude Layer2 as 'passed'." +:+
  line "4. If ANY step fails, conclude accordingly." +:+
  line "5. You MUST produce a RECOVERY_VERIFICATION_CHECKLIST with one item per step." +:+
  line (step_hint steps).

Definition case_instructions (skill_case : string) (steps : nat) : string :=
  newline +:+
  line "## Recovery Verification Instructions" +:+
  line "Follow the **恢复验证** section in the skill case as the primary reference." +:+
  newline +:+
  line "<skill-case>" +:+
  line (skill_case) +:+
  line "</skill-case>" +:+
  newline +:+
  line "1. Follow the **恢复验证** section exactly." +:+
  line "2. If a step cannot be executed, note it and design an equivalent check." +:+
  line "3. You MUST produce a RECOVERY_VERIFICATION_CHECKLIST with one item per step." +:+
  line (step_hint steps).

Definition no_case_instructions : string :=
  newline +:+
  line "## Recovery Verification Instructions" +:+
  "No skill use-case content is available. You MUST use `read_skill_resource` to try to load the recovery " +:+
  line "verification instructions, OR design verification based on the fault type and your experience." +:+
  "**WARNING**: Without skill guidance, verification may be incomplete. At minimum, you MUST verify the fault " +:+
  line "effect has been removed from the target." +:+
  quotes "**Knowledge docs**: Check the Domain Knowledge Index for documents whose ~When to read~ field covers your " +:+
  "current scenario (e.g., recovery verification, kubectl field reference). Use `read_knowledge_resource` to load " +:+
  line "them before designing your verification plan." +:+
  "**CHECKLIST REQUIRED**: Even without skill guidance, you MUST produce a RECOVERY_VERIFICATION_CHECKLIST " +:+
  line "covering each aspect you verify. This ensures recovery completeness is tracked." +:+
  newline.

Definition instructions_section (s : GState) : Exc string :=
  let v := get_d "skill_case_content" (VStr "") (g_values s) in
  if py_truthy v then
    skill_case ← as_str v;
    let section := _extract_recovery_verification_section skill_case in
    let steps := _count_recovery_steps_in_skill_case skill_case in
    Some (if truthy section then section_instructions section steps else case_instructions skill_case steps)
  else Some no_case_instructions.

Definition recover_layer1_context (r : Layer1Result) (uid : string) (by_exec is_deterministic : bool) : string :=
  if bool_decide (l1_status r = L1_SKIPPED) then
    if by_exec then
      line "## Layer 1 Result" +:+
      "Layer 1 skipped: ChaosBlade experiment was created via kubectl exec and recovery is being handled through the " +:+
      line "LLM-driven recovery flow." +:+
      newline
    else
      line "## Layer 1 Result" +:+
      "Layer 1 skipped: non-ChaosBlade fault with no recovery actions in skill files. Proceed directly to Layer 2 " +:+
      line "recovery verification." +:+
      newline
  else if negb is_deterministic then
    let fault_type_desc := if by_exec then "ChaosBlade fault (injected via kubectl exec)" else "non-ChaosBlade fault" in
    line "## Layer 1 Result (Recovery Execution)" +:+
    "This is a " +:+ fault_type_desc +:+ ". Recovery actions executed: " +:+ line (layer1_status_text (l1_status r)) +:+
    "Details: " +:+ line (l1_details r) +:+
    newline
  else
    line "## Layer 1 Result (already completed)" +:+
    "blade_destroy for UID " +:+ uid +:+ ": " +:+ line (layer1_status_text (l1_status r)) +:+
    "Details: " +:+ line (l1_details r) +:+
    "Raw output: " +:+ line (py_take 500 (l1_raw_output r)) +:+
    newline.

Definition recover_layer2_instruction (r : Layer1Result) (by_exec is_deterministic : bool) : string :=
  if bool_decide (l1_status r = L1_SKIPPED) then
    if by_exec then
      "This is a ChaosBlade fault that was injected via kubectl exec. Verify the fault effect has been removed using " +:+
      line "kubectl tools."
    else
      line "This is a non-ChaosBlade fault recovery. Verify the fault effect has been removed using kubectl tools."
  else if negb is_deterministic then
    "PHASE TRANSITION: Layer 1 (recovery execution) is COMPLETE. You are now in Layer 2 (VERIFICATION). DO NOT " +:+
    "execute more recovery actions — only VERIFY the fault effect is removed. Use kubectl only to CHECK status, not " +:+
    line "to modify resources. Output RECOVERY_VERIFICATION_RESULT format, NOT RECOVERY_EXECUTION_RESULT."
  else
    "PHASE TRANSITION: Layer 1 PASSED (blade_destroy reported success and blade_status confirms Destroyed). You are " +:+
    "now in Layer 2 (VERIFICATION). Verify the fault effect has ACTUALLY been removed from the target's runtime " +:+
    "state. Use kubectl tools to check the target resource. Output RECOVERY_VERIFICATION_RESULT format, NOT " +:+
    line "RECOVERY_EXECUTION_RESULT.".

Definition recover_path_note (path : string) : string :=
  match partition_of (rstrip_of "/" path) with
  | Some "imagefs" =>
      "⚠ CRITICAL path semantics: --path " +:+ path +:+
      " in K8s CRD mode filled INSIDE the container overlay (typically backed by imagefs if the node has a separate " +:+
      "imagefs; otherwise on nodefs), NOT the host path /host" +:+ path +:+ line "." +:+
      "COMMAND PRIORITY: Your FIRST disk check MUST be `df -h` (bare, no path argument) to identify ALL partitions. " +:+
      "Verify with `df -h` (bare) inside kubectl debug to confirm imagefs usage has dropped. `df -h /host` shows " +:+
      line "nodefs ONLY — if fill targeted imagefs, it is irrelevant for recovery verification."
  | Some _ =>
      "⚠ CRITICAL path semantics: --path " +:+ path +:+
      " in K8s CRD mode filled typically the nodefs (root filesystem). NOTE: /var/lib/docker and /var/lib/containerd " +:+
      "on a separate disk define imagefs — if this node has a separate imagefs, this path may have been on imagefs " +:+
      line "instead." +:+
      "COMMAND PRIORITY: Use `df -h` (bare) first to list all partitions, then `df -h /host` to confirm nodefs " +:+
      line "recovery. `df -h /host` shows the root partition usage."
  | None =>
      "⚠ CRITICAL path semantics: --path " +:+ path +:+
      " — unable to determine target partition automatically. YOU MUST use `df -h` (bare, no path) to list ALL mounted " +:+
      line "filesystems and identify which partition shows decreased usage."
  end.

Definition recover_timeout_note (flags : dict pyval) : string :=
  let v := py_get "timeout" flags in
  if py_truthy v then
    match py_int_of_string (strip (py_str v)) with
    | Some n =>
        if (n <? 600)%Z then
          "ℹ Duration note: Original --timeout was " +:+ str_of_Z n +:+
          "s. The fault may have already auto-expired before manual recovery. If recovery verification shows no residual " +:+
          line "fault effects, this is expected."
        else ""
    | None => ""
    end
  else "".

Definition recover_pod_note (pod : pyval) (uid : string) : string :=
  newline +:+
  line "## Available Tool Pod" +:+
  line "A tool pod is available for cluster-level operations:" +:+
  "- Pod name: `" +:+ py_str pod +:+ line "`" +:+
  line "- Namespace: `chaosblade`" +:+
  line "- Capabilities: ChaosBlade commands, kubectl API checks" +:+
  line "- LIMITATION: This pod does NOT mount /host. `df -h` shows overlay, NOT host disk." +:+
  line "  For host filesystem verification, use kubectl debug ('node/<node_name> --image=busybox -- sleep 3600')." +:+
  (if truthy uid then
     "- **UID Dual Mapping**: The blade_uid (" +:+ uid +:+
     ") is the CRD resource name. Inside the tool pod, `blade status <uid>` searches the LOCAL experiment database " +:+
     "and will likely return 'record not found' (because the experiment was created via CRD, not via the local CLI). " +:+
     "**CORRECT**: `blade query k8s create <uid>` — queries the CRD status via API server. **CORRECT**: `kubectl " +:+
     "describe chaosblade <uid>` — checks the CRD directly. **FORBIDDEN**: `blade status <uid>` inside a tool pod — " +:+
     line "will return 'record not found' and cause false failure. NEVER use this command for CRD-mode experiments."
   else "").

Definition inject_summary_note (summary : pyval) : string :=
  if py_truthy summary then
    newline +:+
    line "## Injection Verification Baseline (for comparison — NOT current state)" +:+
    line "During the injection phase, the following was observed when the fault was active:" +:+
    line (py_str summary) +:+
    newline +:+
    "Compare your CURRENT kubectl observations against this. If the current state matches what was observed during " +:+
    line "injection, the fault has NOT been recovered." +:+
    "**Baseline integrity**: Ensure you compare metrics from the SAME resource (same partition, same node, same " +:+
    line "pod). See BASELINE INTEGRITY rules below."
  else "".

Definition recover_directions (instructions layer2 : string) : string :=
  line (instructions) +:+
  layer2 +:+ "**POLLING STRATEGY (CRITICAL)**: Recovery effects may take seconds to clear. Check at least twice before " +:+
  line "concluding. If first check shows recovery, do ONE confirmation check. If fault persists, re-check every ~10s." +:+
  newline +:+
  "**ADAPTIVE VERIFICATION (CRITICAL)**: If the SAME command produces the SAME result twice → STOP repeating. " +:+
  "Switch to a DIFFERENT metric, partition, resource, or namespace. Maximum 2 identical checks per method — then " +:+
  line "pivot." +:+
  newline +:+
  line "**Minimal containers**: If kubectl exec returns 'command not found', use kubectl describe instead.".

Definition recover_context (s : GState) (r : Layer1Result) (uid kubeconfig : string) : Exc string :=
  spec ← read_fault_spec (g_values s);
  instructions ← instructions_section s;
  by_exec ← _was_kubectl_blade_injection_successful (g_messages s);
  flags ← as_dict (or_empty (get "blade_parsed_flags" s));
  let part f := match spec with Some p => f p | None => "" end in
  path ← (if String.eqb (part s_blade_target) "disk" && String.eqb (part s_scope) "node" && dict_mem "path" flags
          then p ← as_str (py_get "path" flags); Some (recover_path_note p) else Some "");
  dynamic ← param_hint (part s_blade_target) (part s_blade_action) flags "";
  let pod := get "kubectl_exec_pod_name" s in
  Some (recover_layer1_context r uid by_exec (deterministic s uid) +:+
    line "## Fault Context" +:+
    "Skill: " +:+ line (py_str (get_d "skill_name" (VStr "") (g_values s))) +:+
    "Target namespace: " +:+ line (part s_namespace) +:+
    "Target names: " +:+ line (py_str (VList (match spec with Some p => s_names p | None => [] end))) +:+
    "Kubeconfig: " +:+ line (if truthy kubeconfig then kubeconfig else "(default)") +:+
    (match flags with [] => "" | _ => "Blade key parameters: " +:+ line (py_str (VDict flags)) end) +:+
    path +:+
    (match dynamic with Some t => if truthy t then newline +:+ line t else "" | None => "" end) +:+
    recover_timeout_note flags +:+ kubeconfig_must kubeconfig +:+
    (if String.eqb (part s_scope) "node" && py_truthy pod then recover_pod_note pod uid else "") +:+
    (if String.eqb (part s_blade_target) "disk" && String.eqb (part s_scope) "node"
     then newline +:+ line (_get_node_disk_topology_hints (part s_blade_action)) else "") +:+
    inject_summary_note (get_d "inject_verification_summary" (VStr "") (g_values s)) +:+
    recover_directions instructions (recover_layer2_instruction r by_exec (deterministic s uid))).

Definition has_recover_baseline (l : list Message) : bool :=
  existsb (λ m, match m with ToolMessage _ _ i _ => String.eqb i _RECOVER_BASELINE_TOOL_CALL_ID | _ => false end) l.

Definition recover_baseline_messages (s : GState) : Exc (list Message) :=
  let baseline := get "baseline_data" s in
  if negb (py_truthy baseline) then Some []
  else
    b ← as_dict baseline;
    positive ← py_gt (get_d "success_count" (VInt 0) b) (VInt 0);
    if negb positive || has_recover_baseline (g_messages s) then Some [] else _build_recover_baseline_tool_messages b.

(** The injection context, unless it is in the conversation. *)
Definition injection_message (s : GState) (first : bool) : list Message :=
  let inject := get_d "inject_context" (VStr "") (g_values s) in
  if first && py_truthy inject && negb (existsb is_injection_context (g_messages s))
  then [HumanMessage (injection_context (py_str inject))] else [].

Definition enough_evidence : string :=
  "You have gathered sufficient CURRENT (post-recovery) evidence across multiple iterations. If your kubectl " +:+
  "observations clearly show recovery, output RECOVERY_VERIFICATION_RESULT now. Do NOT repeat the same check — " +:+
  "conclude based on evidence already collected in THIS Layer 2 iteration.".

Definition recovery_deadline (count : Z) : string :=
  "**RECOVERY VERIFICATION DEADLINE**: This is iteration " +:+ str_of_Z count +:+ " of max " +:+ str_of_Z MAX +:+ line "." +:+
  line "Based on ALL evidence gathered so far:" +:+
  line "  - If you have sufficient data, output the RECOVERY_VERIFICATION_RESULT format NOW." +:+
  line "  - This is your last chance to use tools — on the next iteration tools will be unavailable." +:+
  newline +:+
  line "Your Overall conclusion must be one of:" +:+
  line "  - **recovered**: Fault effect has been removed, target is back to normal" +:+
  line "  - **unrecovered**: Fault effect is STILL present despite recovery attempt".

Definition final_recovery (count : Z) (uid : string) : string :=
  let layer1_label := if truthy uid then "blade_destroy" else "recovery execution" in
  "**FINAL RECOVERY VERIFICATION ITERATION**: This is iteration " +:+ str_of_Z count +:+ " of max " +:+ str_of_Z MAX +:+
  line ". NO more iterations available. Tools are no longer available." +:+
  line "You MUST provide your final recovery verification conclusion NOW in this EXACT format:" +:+
  newline +:+
  line "RECOVERY_VERIFICATION_RESULT:" +:+
  "- Layer1 (" +:+ layer1_label +:+ line "): passed" +:+
  line "- Layer2 (fault-specific): [passed/failed/skipped] - [details with evidence summary]" +:+
  line "- BaselineUsed: [true/false]" +:+
  line "- Overall: [recovered/unrecovered]" +:+
  line (quotes "- Warnings: [any warnings, or ~none~]") +:+
  newline +:+
  quotes "If you cannot determine the result, set Overall to ~unrecovered~ and explain why in Layer2 details.".

Definition recover_hints (s : GState) (count : Z) (uid kubeconfig : string) : list Message :=
  (if (4 <=? count)%Z then [HumanMessage enough_evidence] else []) ++
  (if (MAX - 1 <=? count)%Z then [HumanMessage (recovery_deadline count)] else []) ++
  (if on "layer2_context_added" s then kubeconfig_reminder kubeconfig else []) ++
  (if (MAX <=? count)%Z then [HumanMessage (final_recovery count uid)] else []).

Definition recover_tools (count : Z) : list string := if (MAX - 1 <=? count)%Z then [] else tools.

Definition recover_layer2_turn (s : GState) (uid kubeconfig : string) (count : Z) (r : Layer1Result) : Exc Delta :=
  updates ← (match hook with Some h => h s | None => Some (mkDelta [] []) end);
  let first := negb (on "layer2_context_added" s) in
  baseline ← recover_baseline_messages s;
  let injection := injection_message s first in
  main ← (if first then t ← recover_context s r uid kubeconfig; Some [HumanMessage t] else Some []);
  let asked := g_messages s ++ baseline ++ injection ++ main ++ recover_hints s count uid kubeconfig in
  match llm (SystemMessage (prompt (deterministic s uid)) :: asked) (recover_tools count) with
  | Exn _ => Raise
  | Ret answer =>
      calls ← inject_kubeconfig_into_tool_calls (VStr kubeconfig) (r_calls answer);
      Some (merge_hook_updates
        (mkDelta ((if existsb is_context (g_messages s) then [] else main) ++ baseline ++ injection ++
                  [answered_message answer calls])
           [("verifier_loop_count", VInt count); ("recover_layer1_cache", VDict (_layer1_to_dict r));
            ("layer2_context_added", VBool true); ("recover_layer2_first", VBool first)]) updates)
  end.

Definition _recover_verifier_with_llm (s : GState) : Exc Delta :=
  v ← known_uid s;
  uid ← as_str v;
  kc ← _resolve_kubeconfig sc s;
  kubeconfig ← as_str kc;
  n ← counter_of "verifier_loop_count" s;
  let count := (n + 1)%Z in
  if (MAX <? count)%Z then recover_out_of_turns s uid
  else
    l ← first_layer_of s uid kubeconfig count;
    match l with
    | Returned d => Some d
    | Settled r =>
        if is_terminal r then ended ← layer1_end s uid r false; Some (mkDelta [] ended)
        else recover_layer2_turn s uid kubeconfig count r
    end.
End recover_verifier.
