(* ===== verification/RecoverProps.v ===== *)
(** * What the recovery verifier guarantees (agent/nodes/_recover_verifier_loop.py)

    The node with a language model never confirms a recovery by itself, the
    one without confirms what [blade destroy] and [blade status] say; the loop
    of verifier, tools and finalize node ends; and the phase that is never
    left after a deterministic recovery keeps the guard of the finalize node
    up. *)

From stdpp Require Import base list strings sets relations.
From Stdlib Require Import ZArith Ascii SpecFloat.
From S2P Require Import Finalize Prelude PyText PyRe PyValue PyFloat PyOps FaultSpec Failure Screener Router Conflict InjectionDetection Verdict Layer1 RecoverFinalize SafetyGate Graph Kubectl ReactHelpers ExecuteLoop ExecuteProps BaselineCapture VerifierHints VerifierContext Verifier RecoverLoop.

(** ** What the node writes *)

(** An update that ends the recovery without a claim. *)
Definition unconfirmed (values : dict pyval) : Prop :=
  (∃ r, dict_get "result" values = Some (VDict r) ∧ dict_get "recovered" r = Some (VBool false)) ∧
  (∃ v l, dict_get "recover_verification" values = Some (VDict v) ∧ dict_get "level" v = Some (VStr l) ∧
     l ∈ ["partial"; "unrecovered"]).

(** Keys the theorems rely on. *)
Definition RECOVER_KEYS : list string :=
  ["result"; "recover_verification"; "verifier_loop_count"; "recover_phase"; "layer2_context_added"; "recover_layer2_first"].

Section node.
Context {M : Layer1Model}.
Context (cfg : RouterSettings) (sc : SafetySettings) (destroy_out status_out : outcome string) (exc_text now_iso : string).
Context (max_l1 : Z) (llm : list Message → list string → outcome Response) (tools : list string).
Context (hook : option (GState → Exc Delta)) (prompt : bool → string) (is_injection_context is_context : Message → bool).

Local Abbreviation node :=
  (_recover_verifier_with_llm cfg sc destroy_out status_out exc_text now_iso max_l1 llm tools hook prompt
     is_injection_context is_context).

(** How a run ends: with a verdict of its own, or with one more turn counted. *)
Definition gave_up (d : Delta) : Prop := dict_wf (dl_values d) ∧ unconfirmed (dl_values d).

Definition counted (n : Z) (d : Delta) : Prop :=
  dict_wf (dl_values d) ∧ dict_get "verifier_loop_count" (dl_values d) = Some (VInt n) ∧
  dict_get "recover_verification" (dl_values d) = None.

Lemma gave_up_intro values m :
  NoDup (dict_keys values) → unconfirmed values → gave_up (mkDelta m values).
Proof. by split. Qed.

Local Ltac dict_nodup := unfold dict_wf, dict_keys; cbn; apply (bool_decide_unpack _); by vm_compute.
Local Ltac no_claim := split; [by eexists | do 2 eexists; split; [done|]; split; [done | set_solver]].

Lemma recover_out_of_turns_gives_up s uid d : recover_out_of_turns cfg now_iso s uid = Some d → gave_up d.
Proof. intros (c & _ & [= <-])%bind_Some. apply gave_up_intro; [dict_nodup | no_claim]. Qed.

Lemma layer1_end_gives_up s uid r b u m :
  layer1_end now_iso s uid r b = Some u → gave_up (mkDelta m u).
Proof.
  intros (c & _ & [= <-])%bind_Some. apply gave_up_intro; [dict_nodup|]. split; [by eexists|].
  destruct b; do 2 eexists; (split; [done|]); (split; [done | set_solver]).
Qed.

Lemma layer1_exhausted_gives_up s uid d : layer1_exhausted now_iso max_l1 s uid = Some d → gave_up d.
Proof. intros (c & _ & [= <-])%bind_Some. apply gave_up_intro; [dict_nodup | no_claim]. Qed.

Lemma update_gives_up values ended m : dict_wf values → gave_up (mkDelta [] ended) → gave_up (mkDelta m (dict_update values ended)).
Proof.
  intros Hw [He [(r & Hr & Hf) (v & l & Hv & Hl)]]. cbn in *. split; [by apply dict_update_wf|].
  split; [exists r | exists v, l]; cbn; by rewrite dict_get_update, ?Hr, ?Hv by done.
Qed.

(** The first turn of a recovery by the model. *)
Lemma start_cases s uid kc by_exec inject l :
  layer1_start now_iso max_l1 llm tools s uid kc by_exec inject = Some l →
  (∃ r, l = Settled r) ∨ ∃ d, l = Returned d ∧ (gave_up d ∨ counted 1 d).
Proof.
  unfold layer1_start. intros (request & _ & H)%bind_Some. cbv zeta in H. case_match; [|left; by eexists (llm_failed _); simplify_eq].
  apply bind_Some in H as (calls & _ & H). right. destruct calls; simplify_eq.
  - apply bind_Some in H as (r & _ & H). case_if_in H.
    + apply bind_Some in H as (ended & He & [= <-]). eexists. split; [done|]. left. apply update_gives_up; [dict_nodup|].
      by eapply layer1_end_gives_up.
    + simplify_eq. eexists. split; [done|]. right. split; [dict_nodup | done].
  - eexists. split; [done|]. right. split; [dict_nodup | done].
Qed.

(** A later turn of it: an exception ends it, and an answer with calls writes
    nothing but the two counters. *)
Lemma continue_cases s uid kc count l :
  layer1_continue now_iso max_l1 llm tools s uid kc count = Some l →
  (∃ r, l = Settled r ∧ is_terminal r = true) ∨
  ∃ d, l = Returned d ∧
    (gave_up d ∨ counted count d ∧
     ∃ asked bound answer i, llm asked bound = Ret answer ∧
       (r_calls answer ≠ [] → dl_values d = [("verifier_loop_count", VInt count); ("layer1_iteration_count", VInt i)])).
Proof.
  unfold layer1_continue. intros (n & _ & H)%bind_Some. cbv zeta in H. case_if_in H.
  { apply bind_Some in H as (d & Hd & [= <-]). right. exists d. split; [done|]. left. by eapply layer1_exhausted_gives_up. }
  apply bind_Some in H as (system_prompt & _ & H). case_match eqn:Ea; [|left; eexists; split; [by injection H as <-|done]].
  apply bind_Some in H as (calls & Hc & H). right. destruct calls as [|c calls]; simplify_eq.
  - apply bind_Some in H as (r & _ & H). case_if_in H.
    + apply bind_Some in H as (ended & He & [= <-]). eexists. split; [done|]. left. by eapply layer1_end_gives_up.
    + simplify_eq. eexists. split; [done|]. right. split; [split; [dict_nodup | done]|].
      eexists _, _, _, 0%Z. split; [exact Ea|]. intros Hn. destruct Hn. unfold inject_kubeconfig_into_tool_calls in Hc.
      case_if_in Hc; [congruence|]. apply length_mapM in Hc. by destruct (r_calls _).
  - eexists. split; [done|]. right. split; [split; [dict_nodup | done]|]. by do 4 eexists.
Qed.

Lemma layer2_counts s uid kc count r d :
  hook_keeps hook RECOVER_KEYS →
  recover_layer2_turn cfg llm tools hook prompt is_injection_context is_context s uid kc count r = Some d →
  counted count d ∧ dict_get "recover_phase" (dl_values d) = None ∧
  dict_get "layer2_context_added" (dl_values d) = Some (VBool true) ∧
  dict_get "recover_layer2_first" (dl_values d) = Some (VBool (negb (on "layer2_context_added" s))).
Proof.
  intros Hh (u & Hu & H)%bind_Some. cbv zeta in H. apply bind_Some in H as (baseline & _ & H).
  apply bind_Some in H as (main & _ & H). case_match; [|done]. apply bind_Some in H as (calls & _ & [= <-]).
  assert (dict_wf (dl_values u) ∧ ∀ k, k ∈ RECOVER_KEYS → k ∉ dict_keys (dl_values u)) as [Hw Hk].
  { destruct hook as [f|]; [by eapply Hh|]. injection Hu as <-. split; [apply NoDup_nil_2|]. intros k _. apply not_elem_of_nil. }
  cbn [merge_hook_updates dl_values]. unfold counted. cbn [merge_hook_updates dl_values].
  rewrite !update_get_notin by (apply Hk; unfold RECOVER_KEYS; set_solver).
  split; [|done]. split; [apply dict_update_wf; dict_nodup | done].
Qed.

(** One run of the node. *)
Lemma recover_node_runs s n d :
  hook_keeps hook RECOVER_KEYS → counter_of "verifier_loop_count" s = Some n → node s = Some d →
  gave_up d ∨ (n + 1 <= max_recover_verifier_loop cfg)%Z ∧ counted (n + 1) d.
Proof.
  intros Hh Hn H. unfold _recover_verifier_with_llm in H. apply bind_Some in H as (v & _ & H).
  apply bind_Some in H as (uid & _ & H). apply bind_Some in H as (k & _ & H). apply bind_Some in H as (kc & _ & H).
  rewrite Hn in H. cbn [mbind option_bind] in H. cbv zeta in H. case_if_in H; [left; by eapply recover_out_of_turns_gives_up|].
  apply bind_Some in H as (l & Hl & H).
  assert (l = Returned d → gave_up d ∨ counted (n + 1) d) as Hr.
  { intros ->. unfold first_layer_of in Hl. cbv zeta in Hl. case_if_in Hl; [|case_if_in Hl].
    - apply andb_true_iff in Heqb0 as [_ Hone%Z.eqb_eq]. rewrite Hone.
      unfold layer1_first in Hl. apply bind_Some in Hl as (b & _ & Hl). case_if_in Hl; [by apply bind_Some in Hl as (r & _ & [=])|].
      apply bind_Some in Hl as (b' & _ & Hl). destruct b'; [done|]. apply bind_Some in Hl as (i & _ & Hl). case_if_in Hl; [done|].
      by apply start_cases in Hl as [[r [=]]|(d' & [= <-] & Hc)].
    - apply continue_cases in Hl as [(r & [=] & _)|(d' & [= <-] & [?|[? _]])]; auto.
    - by apply bind_Some in Hl as (r & _ & [=]). }
  destruct l as [d'|r].
  - injection H as ->. destruct (Hr eq_refl) as [?|?]; [by left | right; split; [lia | done]].
  - case_if_in H.
    + apply bind_Some in H as (e & He & [= <-]). left. by eapply layer1_end_gives_up.
    + right. split; [lia|]. by apply layer2_counts in H as [H _].
Qed.
End node.

(** ** The loop ends *)

Section loop.
Context {M : Layer1Model}.
Context (cfg : RouterSettings) (sc : SafetySettings) (max_l1 : Z) (tools : list string).
Context (hook : option (GState → Exc Delta)) (prompt : bool → string) (is_injection_context is_context : Message → bool).
(** The language models that are considered. *)
Context (Model : (list Message → list string → outcome Response) → Prop).

(** One run of the node, whatever blade and such a model answer. *)
Definition recover_result_of (s : GState) (d : Delta) : Prop :=
  ∃ destroy_out status_out exc_text now_iso llm, Model llm ∧
    _recover_verifier_with_llm cfg sc destroy_out status_out exc_text now_iso max_l1 llm tools hook prompt
      is_injection_context is_context s = Some d.

(** The tools add messages and leave the keys alone. *)
Definition recover_tools_ran (s s' : GState) : Prop :=
  ∀ k, k ∈ RECOVER_KEYS → dict_get k (g_values s') = dict_get k (g_values s).

(** The states the finalize node is run in after [s]: directly, or after the
    tools. *)
Inductive reaches_finalize (s s1 : GState) : Prop :=
  | finalize_now d t :
      recover_result_of s d → should_continue_recover_verifier cfg t (update s d) = Some "finalize" → s1 = update s d →
      reaches_finalize s s1
  | finalize_after_tools d t :
      recover_result_of s d → should_continue_recover_verifier cfg t (update s d) = Some "continue" →
      recover_tools_ran (update s d) s1 → route_after_recover_verifier_tools s1 = "finalize" → reaches_finalize s s1.

(** From one run of the node to the next. *)
Inductive recover_turn (s s' : GState) : Prop :=
  | turn_of_tools d t :
      recover_result_of s d → should_continue_recover_verifier cfg t (update s d) = Some "continue" →
      recover_tools_ran (update s d) s' → route_after_recover_verifier_tools s' = "recover_verifier_loop" → recover_turn s s'
  | turn_sent_back s1 d' destroy_again now_iso :
      reaches_finalize s s1 →
      finalize_recover_verification cfg destroy_again now_iso s1 = Some (BackToLoop d') → s' = update s1 d' →
      recover_turn s s'.

Hypothesis hook_frame : hook_keeps hook RECOVER_KEYS.

Lemma gave_up_done s d t : gave_up d → should_continue_recover_verifier cfg t (update s d) = Some "done".
Proof.
  intros [Hw [_ (v & l & Hv & Hl & _)]]. unfold should_continue_recover_verifier. rewrite (on_update _ _ _ _ Hw Hv). by destruct v.
Qed.

Lemma back_writes_nothing s d destroy_again now_iso :
  finalize_recover_verification cfg destroy_again now_iso s = Some (BackToLoop d) → dl_values d = [].
Proof.
  unfold finalize_recover_verification. intros (layer1 & _ & (v & _ & H)%bind_Some)%bind_Some. case_if_in H; [by injection H as <-|].
  apply bind_Some in H as (v' & _ & H). apply bind_Some in H as (l2 & _ & H). apply bind_Some in H as (again & _ & H).
  destruct (if again then _ else None) as [m|]; [by injection H as <-|]. unfold write_recover_verdict in H.
  apply bind_Some in H as (level & _ & H). cbv zeta in H. by apply bind_Some in H as ([pods u] & _ & [=]).
Qed.

Lemma recover_run_counts s d n :
  counter_of "verifier_loop_count" s = Some n → recover_result_of s d →
  (∀ t, should_continue_recover_verifier cfg t (update s d) = Some "done") ∨
  (n + 1 <= max_recover_verifier_loop cfg)%Z ∧ counter_of "verifier_loop_count" (update s d) = Some (n + 1)%Z.
Proof.
  intros Hn (de & st & ex & iso & llm & _ & H). apply (recover_node_runs _ _ _ _ _ _ _ _ _ _ _ _ _ _ _ _ hook_frame Hn) in H as [H|[Hl H]].
  - left. intros t. by apply gave_up_done.
  - right. split; [done|]. destruct H as (Hw & Hc & _). by apply counter_of_update.
Qed.

Lemma tools_counter s s' : recover_tools_ran s s' → counter_of "verifier_loop_count" s' = counter_of "verifier_loop_count" s.
Proof. intros H. unfold counter_of. by rewrite H by (unfold RECOVER_KEYS; set_solver). Qed.

Lemma recover_turn_counts s s' n :
  counter_of "verifier_loop_count" s = Some n → recover_turn s s' →
  (n + 1 <= max_recover_verifier_loop cfg)%Z ∧ counter_of "verifier_loop_count" s' = Some (n + 1)%Z.
Proof.
  intros Hn [d t Hd Hc Hf _ | s1 d' de iso Hr Hb ->].
  - destruct (recover_run_counts _ _ _ Hn Hd) as [He|[Hl He]]; [by rewrite He in Hc|]. by rewrite (tools_counter _ _ Hf).
  - rewrite counter_of_keep by (rewrite (back_writes_nothing _ _ _ _ Hb); first [apply NoDup_nil_2 | done]).
    destruct Hr as [d t Hd Hc -> | d t Hd Hc Hf _];
      (destruct (recover_run_counts _ _ _ Hn Hd) as [He|[Hl He]]; [by rewrite He in Hc|]); [done|]. by rewrite (tools_counter _ _ Hf).
Qed.

(** C22. From a state in which nothing is counted yet, with a hook that does not
    write the keys of the recovery, whatever the model, the
    cluster and the clock answer, through the execution of the recovery, its
    verification and the rounds the finalize node asks for, the node is
    entered again at most [max_recover_verifier_loop] times. *)
Theorem recovery_bounded s0 s k :
  dict_get "verifier_loop_count" (g_values s0) = None → nsteps recover_turn k s0 s →
  (Z.of_nat k <= Z.max 0 (max_recover_verifier_loop cfg))%Z.
Proof.
  intros H0 H. assert (∀ n, counter_of "verifier_loop_count" s0 = Some n →
    (Z.of_nat k <= Z.max 0 (max_recover_verifier_loop cfg - n))%Z) as Hb.
  { clear H0. induction H as [s|k s s1 s2 H1 H2 IH]; intros n Hn; [lia|].
    destruct (recover_turn_counts _ _ _ Hn H1) as [Hl Hn1]. specialize (IH _ Hn1). lia. }
  specialize (Hb 0%Z). rewrite Z.sub_0_r in Hb. apply Hb. unfold counter_of. by rewrite H0.
Qed.


(** ** The phase that is never left *)

Definition always_calls (llm : list Message → list string → outcome Response) : Prop :=
  ∀ asked bound r, llm asked bound = Ret r → r_calls r ≠ [].

(** A recovery of an experiment on the host that is about to start. *)
Definition on_host (s : GState) : Prop :=
  ∃ uid, known_uid s = Some (VStr uid) ∧ truthy uid = true ∧ _was_kubectl_blade_injection_successful (g_messages s) = Some false ∧
    counter_of "verifier_loop_count" s = Some 0%Z ∧ eqs (recover_phase s) "layer1_recovery" = true ∧
    on "layer2_context_added" s = false.

(** The phase still says that the recovery is being executed, and the guard
    of the finalize node is up. *)
Definition stuck (s : GState) : Prop :=
  ∃ n, counter_of "verifier_loop_count" s = Some n ∧ (0 < n)%Z ∧ eqs (recover_phase s) "layer1_recovery" = true ∧
    on "recover_layer2_first" s = true.

Lemma phase_keep s d :
  dict_wf (dl_values d) → dict_get "recover_phase" (dl_values d) = None → recover_phase (update s d) = recover_phase s.
Proof. intros Hw H. unfold recover_phase, get_d, update. cbn [g_values]. by rewrite dict_get_update, H. Qed.

Lemma first_run_stuck s d : on_host s → recover_result_of s d → gave_up d ∨ stuck (update s d).
Proof.
  intros (uid & Hu & Ht & Hx & Hn & Hp & Hc) (de & st & ex & iso & llm & _ & H). unfold _recover_verifier_with_llm in H.
  rewrite Hu, Hn in H. cbn [mbind option_bind as_str] in H. apply bind_Some in H as (k & _ & H). apply bind_Some in H as (kc & _ & H).
  cbv zeta in H. case_if_in H; [left; by eapply recover_out_of_turns_gives_up|].
  unfold first_layer_of in H. rewrite Hp in H. cbn [andb] in H. change (0 + 1 =? 1)%Z with true in H. cbn match in H.
  unfold layer1_first in H. rewrite Hx, Ht in H. cbn [mbind option_bind andb negb] in H.
  destruct (_run_recover_layer1 de st ex uid (g_messages s)) as [r|]; [|done]. cbn [mbind option_bind] in H.
  case_if_in H; [apply bind_Some in H as (e & He & [= <-]); left; by eapply layer1_end_gives_up|].
  right. apply layer2_counts in H as ((Hw & Hcount & _) & Hph & _ & Hfirst); [|exact hook_frame].
  exists 1%Z. split; [by apply counter_of_update|]. split; [lia|]. split; [by rewrite phase_keep|].
  rewrite (on_update _ _ _ _ Hw Hfirst), Hc. done.
Qed.

Lemma later_run_stuck s d :
  (∀ llm, Model llm → always_calls llm) → stuck s → recover_result_of s d → gave_up d ∨ stuck (update s d).
Proof.
  intros Hm (n & Hn & Hpos & Hp & Hf) (de & st & ex & iso & llm & Hllm & H). unfold _recover_verifier_with_llm in H.
  apply bind_Some in H as (v & _ & H). apply bind_Some in H as (uid & _ & H). apply bind_Some in H as (k & _ & H).
  apply bind_Some in H as (kc & _ & H). rewrite Hn in H. cbn [mbind option_bind] in H. cbv zeta in H.
  case_if_in H; [left; by eapply recover_out_of_turns_gives_up|]. apply bind_Some in H as (l & Hl & H).
  unfold first_layer_of in Hl. rewrite Hp in Hl. cbn [andb] in Hl. destruct (n + 1 =? 1)%Z eqn:E1; [lia|].
  destruct (1 <? n + 1)%Z eqn:E2; [|lia]. cbn match in Hl.
  apply continue_cases in Hl as [(r & -> & Hr)|(d' & -> & Hd)].
  - rewrite Hr in H. apply bind_Some in H as (e & He & [= <-]). left. by eapply layer1_end_gives_up.
  - injection H as ->. destruct Hd as [Hd|[(Hw & Hc & _) (asked & bound & answer & i & Ha & Hv)]]; [by left|]. right.
    specialize (Hv (Hm _ Hllm _ _ _ Ha)). exists (n + 1)%Z. split; [by apply counter_of_update|]. split; [lia|].
    rewrite phase_keep by (done || by rewrite Hv). split; [done|]. by rewrite on_keep by (done || by rewrite Hv).
Qed.

Lemma stuck_frame s s' : recover_tools_ran s s' → stuck s → stuck s'.
Proof.
  intros Hf (n & Hn & Hpos & Hp & Hg). exists n. rewrite (tools_counter _ _ Hf).
  unfold recover_phase, on, get, py_get, get_d in *. by rewrite !Hf by (unfold RECOVER_KEYS; set_solver).
Qed.

Definition host_run (s : GState) : Prop := on_host s ∨ stuck s.

Lemma host_run_step s d t :
  (∀ llm, Model llm → always_calls llm) → host_run s → recover_result_of s d →
  should_continue_recover_verifier cfg t (update s d) ≠ Some "done" → stuck (update s d).
Proof.
  intros Hm Hs Hd Ht. assert (gave_up d ∨ stuck (update s d)) as [Hg|]; [|by rewrite (gave_up_done s d t Hg) in Ht | done].
  destruct Hs; [by apply first_run_stuck | by apply later_run_stuck].
Qed.

Lemma host_run_finalize s s1 : (∀ llm, Model llm → always_calls llm) → host_run s → reaches_finalize s s1 → stuck s1.
Proof.
  intros Hm Hs [d t Hd Hc -> | d t Hd Hc Hf _].
  - by eapply (host_run_step s d t); [..|rewrite Hc].
  - eapply stuck_frame; [exact Hf|]. by eapply (host_run_step s d t); [..|rewrite Hc].
Qed.

Lemma host_run_turn s s' : (∀ llm, Model llm → always_calls llm) → host_run s → recover_turn s s' → host_run s'.
Proof.
  intros Hm Hs [d t Hd Hc Hf _ | s1 d' de iso Hr Hb ->]; right.
  - eapply stuck_frame; [exact Hf|]. by eapply (host_run_step s d t); [..|rewrite Hc].
  - eapply stuck_frame; [|by eapply host_run_finalize]. intros k _. unfold update. cbn [g_values].
    by rewrite (back_writes_nothing _ _ _ _ Hb).
Qed.

(** After a recovery by [blade destroy] on the host, a model that works with
    tool calls, submit_recover_verification included, never gets a verdict
    accepted: the phase is left only by an answer without calls, and until
    then the finalize node rejects every verdict for want of a check, however
    many checks were made. *)
Theorem host_verdict_rejected s0 s s1 f destroy_again now_iso :
  (∀ llm, Model llm → always_calls llm) → on_host s0 → rtc recover_turn s0 s → reaches_finalize s s1 →
  finalize_recover_verification cfg destroy_again now_iso s1 = Some f → f = BackToLoop (mkDelta [guard_message] []).
Proof.
  intros Hm H0 Hr H1 Hf. assert (host_run s) as Hs.
  { assert (host_run s0) as Hs0 by (by left). clear H0. induction Hr; [done|]. apply IHHr; [done|]. by eapply host_run_turn. }
  destruct (host_run_finalize _ _ Hm Hs H1) as (n & _ & _ & _ & Hg). unfold finalize_recover_verification in Hf.
  rewrite Hg in Hf. apply bind_Some in Hf as (layer1 & _ & Hf). by apply bind_Some in Hf as (v & _ & [= <-]).
Qed.
End loop.

(** ** Runs *)

Definition four_turns : RouterSettings := mkRouter 0 2 true 3 3 4 4.
Definition says_always (r : Response) : list Message → list string → outcome Response := λ _ _, Ret r.
Definition checks : Response :=
  mkResponse (VStr "") VNone [mkCall "kubectl" (VDict [("subcommand", VStr "top"); ("v_args", VStr "pods")]) (Some "c1")].
Definition submits_recovered : Response :=
  mkResponse (VStr "") VNone
    [mkCall SUBMIT_RECOVER_VERIFICATION_TOOL_NAME (VDict (recover_args "passed" "recovered")) (Some "c2")].

Definition recover_run (r : Response) (s : GState) : Exc Delta :=
  @_recover_verifier_with_llm strict_layer1 four_turns plain_safety (Ret destroyed_ok) (Ret "Destroyed") "" "now" 4
    (says_always r) ["kubectl"; SUBMIT_RECOVER_VERIFICATION_TOOL_NAME] None (λ _, "verify") (λ _, false) (λ _, false) s.

Definition after_recover (r : Response) (s : GState) : GState := update s (default (mkDelta [] []) (recover_run r s)).
Definition with_answer (name id : string) (s : GState) : GState :=
  mkState (g_messages s ++ [ToolMessage "ok" name id false]) (g_values s).

Definition host_start : GState := mkState [] [("blade_uid", VStr "1a2b3c4d")].
Definition host_checked : GState := with_answer "kubectl" "c1" (after_recover checks host_start).
Definition host_submitted : GState :=
  with_answer SUBMIT_RECOVER_VERIFICATION_TOOL_NAME "c2" (after_recover submits_recovered host_checked).
Definition host_sent_back : GState := update host_submitted (mkDelta [guard_message] []).

Definition one_of_two (llm : list Message → list string → outcome Response) : Prop :=
  llm = says_always checks ∨ llm = says_always submits_recovered.

Local Abbreviation host_turn :=
  (@recover_turn strict_layer1 four_turns plain_safety 4 ["kubectl"; SUBMIT_RECOVER_VERIFICATION_TOOL_NAME] None
     (λ _, "verify") (λ _, false) (λ _, false) one_of_two).
Local Abbreviation host_result :=
  (@recover_result_of strict_layer1 four_turns plain_safety 4 ["kubectl"; SUBMIT_RECOVER_VERIFICATION_TOOL_NAME] None
     (λ _, "verify") (λ _, false) (λ _, false) one_of_two).

Lemma host_result_of r s d : r ∈ [checks; submits_recovered] → recover_run r s = Some d → host_result s d.
Proof.
  intros Hr Hd. exists (Ret destroyed_ok), (Ret "Destroyed"), "", "now", (says_always r). split; [|exact Hd].
  unfold one_of_two. set_solver.
Qed.

Lemma recover_run_after r s : is_Some (recover_run r s) → ∃ d, recover_run r s = Some d ∧ after_recover r s = update s d.
Proof. intros [d Hd]. exists d. unfold after_recover. by rewrite Hd. Qed.

Lemma host_checked_turn : host_turn host_start host_checked.
Proof.
  destruct (recover_run_after checks host_start) as (d & Hd & He); [by vm_compute; eexists|].
  eapply (turn_of_tools _ _ _ _ _ _ _ _ _ _ _ d S754_nan); [eapply host_result_of; [|exact Hd]; set_solver|..];
    rewrite <- ?He; [vm_compute; reflexivity | intros k _; reflexivity | vm_compute; reflexivity].
Qed.

Lemma host_submitted_reached :
  @reaches_finalize strict_layer1 four_turns plain_safety 4 ["kubectl"; SUBMIT_RECOVER_VERIFICATION_TOOL_NAME] None
    (λ _, "verify") (λ _, false) (λ _, false) one_of_two host_checked host_submitted.
Proof.
  destruct (recover_run_after submits_recovered host_checked) as (d & Hd & He); [by vm_compute; eexists|].
  eapply (finalize_after_tools _ _ _ _ _ _ _ _ _ _ _ d S754_nan); [eapply host_result_of; [|exact Hd]; set_solver|..];
    rewrite <- ?He; [vm_compute; reflexivity | intros k _; reflexivity | vm_compute; reflexivity].
Qed.

Definition finalize_host (s : GState) : Exc recover_finalized :=
  @finalize_recover_verification strict_layer1 four_turns (Exn "no blade") "now" s.

Lemma host_sent_back_turn : host_turn host_checked host_sent_back.
Proof.
  eapply (turn_sent_back _ _ _ _ _ _ _ _ _ _ _ host_submitted (mkDelta [guard_message] []) (Exn "no blade") "now").
  - exact host_submitted_reached.
  - by vm_compute.
  - done.
Qed.

Lemma recovery_bounded_witness : (Z.of_nat 2 <= Z.max 0 (max_recover_verifier_loop four_turns))%Z.
Proof.
  eapply (@recovery_bounded strict_layer1 four_turns plain_safety 4 ["kubectl"; SUBMIT_RECOVER_VERIFICATION_TOOL_NAME] None
            (λ _, "verify") (λ _, false) (λ _, false) one_of_two) with (s0 := host_start) (s := host_sent_back).
  - intros h s d [=].
  - reflexivity.
  - eapply nsteps_l; [exact host_checked_turn|]. eapply nsteps_l; [exact host_sent_back_turn|]. apply nsteps_O.
Defined.

(** The experiment is destroyed and the pods were looked at; the verdict is
    rejected for want of a check. *)
Lemma host_verdict_rejected_witness :
  finalize_host host_submitted = Some (BackToLoop (mkDelta [guard_message] [])).
Proof.
  destruct (finalize_host host_submitted) as [f|] eqn:E; [|vm_compute in E; discriminate]. f_equal.
  eapply (@host_verdict_rejected strict_layer1 four_turns plain_safety 4 ["kubectl"; SUBMIT_RECOVER_VERIFICATION_TOOL_NAME] None
            (λ _, "verify") (λ _, false) (λ _, false) one_of_two)
    with (s0 := host_start) (s := host_checked) (s1 := host_submitted) (destroy_again := Exn "no blade") (now_iso := "now").
  - intros h s d [=].
  - intros llm [-> | ->] asked bound r [= <-]; discriminate.
  - exists "1a2b3c4d". split_and!; vm_compute; reflexivity.
  - apply rtc_once, host_checked_turn.
  - exact host_submitted_reached.
  - exact E.
Defined.



(** ** Findings *)

(** A recovery that the model executes itself. *)
Definition model_start : GState := mkState [] [("inject_context", VStr "taint node-1")].
Definition model_acts : Response :=
  mkResponse (VStr "") VNone [mkCall "kubectl" (VDict [("subcommand", VStr "taint"); ("v_args", VStr "node-1")]) (Some "c1")].
Definition model_executing : GState := with_answer "kubectl" "c1" (after_recover model_acts model_start).

(** A verdict submitted while the recovery is being executed goes to the
    finalize node, whose restored first layer has a status that is none. *)
Lemma early_verdict_raises :
  let s := with_answer SUBMIT_RECOVER_VERIFICATION_TOOL_NAME "c2" (after_recover submits_recovered model_executing) in
  route_after_recover_verifier_tools s = "finalize" ∧ finalize_host s = Raise.
Proof. by vm_compute. Qed.

(** A failure reported on a later turn: the answer and the counters are not
    returned, those of a failure on the first turn are. *)
Definition model_fails : Response :=
  mkResponse (VStr "RECOVERY_EXECUTION_RESULT: Status: failed") VNone [].

Lemma late_failure_dropped :
  ((length ∘ dl_messages) <$> recover_run model_fails model_start) = Some 3%nat ∧
  ((λ d, (length (dl_messages d), dict_get "verifier_loop_count" (dl_values d))) <$> recover_run model_fails model_executing)
    = Some (0%nat, None).
Proof. by vm_compute. Qed.

(** Out of turns in the middle of the execution, the first layer is reported
    as passed. *)
Definition model_busy : GState :=
  mkState [] [("inject_context", VStr "taint node-1"); ("verifier_loop_count", VInt 4); ("recover_layer1_cache", in_progress "")].

Lemma unfinished_layer_passes :
  (λ d, match py_get "recover_verification" (dl_values d) with
        | VDict v => match py_get "layer1" v with VDict l => py_get "status" l | _ => VNone end
        | _ => VNone
        end) <$> recover_run model_acts model_busy = Some (VStr "passed").
Proof. by vm_compute. Qed.

(** The model is told that it may use the tools for the last time on a turn
    on which it has none. *)
Lemma last_chance_without_tools cfg tools s uid kc :
  HumanMessage (recovery_deadline cfg (max_recover_verifier_loop cfg - 1)) ∈
    recover_hints cfg s (max_recover_verifier_loop cfg - 1) uid kc ∧
  recover_tools cfg tools (max_recover_verifier_loop cfg - 1) = [].
Proof.
  split.
  - unfold recover_hints. rewrite Z.leb_refl, !elem_of_app, !list_elem_of_singleton. auto.
  - unfold recover_tools. by rewrite Z.leb_refl.
Qed.
