(* ===== verification/JsonStored.v ===== *)
(** * JSON in text files

    The indented encoder of json, how text files are read and written, and the
    values that are read back from them as they were written. *)

From stdpp Require Import base list sets strings pretty.
From Stdlib Require Import ZArith Ascii.
From S2P Require Import Prelude PyText PyValue PyFloat Json JsonDump.

(** * [json.dumps(v, indent=2)] and lines of JSON

    The indented form of the encoder, its round trip with the decoder, and
    what the stores rely on when they write one value per line: the compact
    form of a value has no line break, and that of a dict no space at its
    ends. *)

(** ** The indented encoder *)

Fixpoint spaces (n : nat) : string :=
  match n with O => "" | S n' => String " " (spaces n') end.

(** A new line at a level of nesting. *)
Definition indent (level : nat) : string := newline +:+ spaces (2 * level).

Fixpoint json_indent (level : nat) (v : pyval) : string :=
  let inner := indent (S level) in
  match v with
  | VList [] | VTuple [] => "[]"
  | VDict [] => "{}"
  | VList l | VTuple l =>
      "[" +:+ inner +:+ join ("," +:+ inner) (map (json_indent (S level)) l) +:+ indent level +:+ "]"
  | VDict d =>
      "{" +:+ inner +:+
      join ("," +:+ inner) (map (λ kv, dump_str kv.1 +:+ ": " +:+ json_indent (S level) kv.2) d) +:+
      indent level +:+ "}"
  | v => json_dumps v
  end.

Example indented :
  json_indent 0 (VDict [("a", VList [VInt 1; VDict []]); ("b", VList [])]) =
  join newline
    ["{"; "  " +:+ dump_str "a" +:+ ": ["; "    1,"; "    {}"; "  ],"; "  " +:+ dump_str "b" +:+ ": []"; "}"].
Proof. vm_compute. reflexivity. Qed.

(** ** Round trip *)

Lemma lex_spaces n s : lex LIdle (spaces n +:+ s) = lex LIdle s.
Proof. by induction n. Qed.

Lemma lex_indent n s : lex LIdle (indent n +:+ s) = lex LIdle s.
Proof. unfold indent. rewrite append_assoc. apply lex_spaces. Qed.

Lemma indent_separates n : separates ("," +:+ indent n).
Proof.
  intros x. rewrite append_assoc. split; [done|].
  change (lex LIdle ("," +:+ ?y)) with (TPunct "," :: lex LIdle y). by rewrite lex_indent.
Qed.

Lemma ended_indent n s : ended (indent n +:+ s).
Proof. done. Qed.

(** The text between the brackets of a container that is not empty. *)
Lemma lex_items {A} n m (f : A → string) (g : A → list jtok) l (close : ascii) rest :
  json_punct close = true → json_space close = false →
  (∀ x rest, x ∈ l → ended rest → lex LIdle (f x +:+ rest) = g x ++ lex LIdle rest) →
  lex LIdle (indent n +:+ join ("," +:+ indent n) (map f l) +:+ indent m +:+ String close rest) =
  commas (map g l) ++ TPunct close :: lex LIdle rest.
Proof.
  intros Hp Hs Hl. rewrite lex_indent, (lex_join _ _ g); [|apply indent_separates | done | done].
  f_equal. rewrite lex_indent. cbn [lex]. by rewrite Hs, Hp.
Qed.

Lemma lex_indented v : jsonable v → ∀ n rest, ended rest → lex LIdle (json_indent n v +:+ rest) = tokens v ++ lex LIdle rest.
Proof.
  revert v. apply (pyval_nested (λ v, jsonable v → ∀ n rest, ended rest → _));
    [intros v; destruct v; try done|intros l IH|intros l IH|intros d IH]; intros Hj n rest Hr.
  1-5: by apply lex_dumps.
  - inversion Hj as [| | | | |? Hl|]; subst. rewrite Forall_forall in IH, Hl.
    destruct l as [|v l]; [done|]. remember (v :: l) as vs eqn:Hvs.
    transitivity (lex LIdle (("[" +:+ indent (S n) +:+ join ("," +:+ indent (S n)) (map (json_indent (S n)) vs) +:+ indent n +:+ "]") +:+ rest)); [by rewrite Hvs|].
    rewrite !append_assoc. change (lex LIdle ("[" +:+ ?x)) with (TPunct "[" :: lex LIdle x). cbn [tokens app]. f_equal.
    change ("]" +:+ rest) with (String "]" rest). rewrite (lex_items _ _ _ tokens); [by rewrite <- app_assoc | done..|].
    intros x r Hx ?. by apply IH; [|apply Hl|].
  - inversion Hj.
  - inversion Hj as [| | | | | |? _ Hl]; subst. rewrite Forall_forall in IH, Hl.
    destruct d as [|kv d]; [done|]. remember (kv :: d) as kvs eqn:Hvs.
    transitivity (lex LIdle (("{" +:+ indent (S n) +:+ join ("," +:+ indent (S n)) (map (λ kv, dump_str kv.1 +:+ ": " +:+ json_indent (S n) kv.2) kvs) +:+ indent n +:+ "}") +:+ rest)); [by rewrite Hvs|].
    rewrite !append_assoc. change (lex LIdle ("{" +:+ ?x)) with (TPunct "{" :: lex LIdle x). cbn [tokens app]. f_equal.
    change ("}" +:+ rest) with (String "}" rest). rewrite (lex_items _ _ _ pair_tokens); [by rewrite <- app_assoc | done..|].
    intros p r Hx ?. rewrite !append_assoc, lex_str. unfold pair_tokens. cbn [app]. f_equal.
    change (lex LIdle (": " +:+ ?x)) with (TPunct ":" :: lex LIdle x). f_equal. by apply IH; [|apply (Hl p)|].
Qed.

(** A value written with indentation is read back. *)
Lemma indent_roundtrip n v : jsonable v → json_loads (json_indent n v) = JOk v.
Proof.
  intros Hj. unfold json_loads. rewrite <- (append_empty_r (json_indent n v)), (lex_indented v Hj n "" I).
  by rewrite (tokens_parse v Hj).
Qed.

(** ** One value on one line *)

Definition line_break (c : ascii) : bool := Ascii.eqb c "010" || Ascii.eqb c "013".

Fixpoint one_line (s : string) : bool :=
  match s with EmptyString => true | String c s' => negb (line_break c) && one_line s' end.

Lemma one_line_app a b : one_line (a +:+ b) = one_line a && one_line b.
Proof. induction a as [|c a IH]; [done|]. cbn. by rewrite IH, andb_assoc. Qed.

Lemma plain_one_line s : plain s = true → one_line s = true.
Proof.
  induction s as [|c s IH]; [done|]. cbn [plain one_line]. intros [Hc Hs]%andb_true_iff. rewrite IH by done.
  apply negb_true_iff in Hc. rewrite andb_true_r. by destruct c as [[] [] [] [] [] [] [] []].
Qed.

Lemma word_one_line s : plain_word s = true → one_line s = true.
Proof. unfold plain_word. intros [_ H]%andb_true_iff. by apply plain_one_line. Qed.

Lemma escape_one_line s : one_line (escape s) = true.
Proof.
  induction s as [|c s IH]; [done|]. cbn [escape]. rewrite one_line_app, IH.
  by destruct c as [[] [] [] [] [] [] [] []].
Qed.

Lemma str_one_line s : one_line (dump_str s) = true.
Proof. unfold dump_str. by rewrite !one_line_app, escape_one_line. Qed.

Lemma join_one_line l : Forall (λ s, one_line s = true) l → one_line (join ", " l) = true.
Proof.
  induction 1 as [|x [|y l] Hx Hl IH]; [done | by cbn|].
  change (join ", " (x :: y :: l)) with (x +:+ ", " +:+ join ", " (y :: l)). by rewrite !one_line_app, Hx, IH.
Qed.

(** The compact form has no line break. *)
Lemma dumps_one_line v : jsonable v → one_line (json_dumps v) = true.
Proof.
  revert v. apply (pyval_nested (λ v, jsonable v → one_line (json_dumps v) = true));
    [intros v; destruct v as [|[]|z|r|s| | |]; try done|intros l IH|intros l IH|intros d IH]; intros Hj.
  - by apply word_one_line, int_plain.
  - inversion Hj as [| | |? Hp Hw| | |]; subst. by apply word_one_line.
  - apply str_one_line.
  - inversion Hj as [| | | | |? Hl|]; subst. cbn [json_dumps]. rewrite !one_line_app.
    apply andb_true_iff; split; [done|]. apply andb_true_iff; split; [|done]. apply join_one_line. apply Forall_fmap. rewrite Forall_forall in *. intros v Hv. unfold compose. by apply IH, Hl.
  - inversion Hj.
  - inversion Hj as [| | | | | |? _ Hl]; subst. cbn [json_dumps]. rewrite !one_line_app.
    apply andb_true_iff; split; [done|]. apply andb_true_iff; split; [|done]. apply join_one_line. apply Forall_fmap. rewrite Forall_forall in *. intros kv Hv. unfold compose.
    rewrite !one_line_app, str_one_line. by apply IH, (Hl kv).
Qed.

(** Nothing to strip around the compact form of a dict. *)
Lemma rstrip_end s c : py_isspace c = false → rstrip (s +:+ String c "") = s +:+ String c "".
Proof.
  intros Hc. induction s as [|d s IH]; cbn; [by rewrite Hc|]. rewrite IH.
  by destruct (s +:+ String c "") eqn:E; [destruct s|].
Qed.

Lemma strip_dict d : strip (json_dumps (VDict d)) = json_dumps (VDict d).
Proof.
  unfold strip. cbn [json_dumps]. change (lstrip ("{" +:+ ?x)) with ("{" +:+ x).
  rewrite <- append_assoc. by apply rstrip_end.
Qed.

(** * Text files

    What [open(path, encoding=utf-8)] makes of the bytes of a file: UTF-8 is
    checked, the ends of lines are unified; and the files written by the
    stores, which are read back as they were written. *)

(** ** Decoding of text files *)

(** UTF-8: the number of continuation bytes awaited and the range of the
    next one; [None] after an invalid byte. *)
Definition utf8_state : Type := option (nat * nat * nat).

Definition utf8_start : utf8_state := Some (0, 128, 191)%nat.

Definition utf8_step (st : utf8_state) (c : ascii) : utf8_state :=
  let n := nat_of_ascii c in
  match st with
  | None => None
  | Some (S k, lo, hi) => if Nat.leb lo n && Nat.leb n hi then Some (k, 128, 191)%nat else None
  | Some (O, _, _) =>
      if Nat.ltb n 128 then utf8_start
      else if Nat.ltb n 194 then None
      else if Nat.ltb n 224 then Some (1, 128, 191)%nat
      else if Nat.eqb n 224 then Some (2, 160, 191)%nat
      else if Nat.eqb n 237 then Some (2, 128, 159)%nat
      else if Nat.ltb n 240 then Some (2, 128, 191)%nat
      else if Nat.eqb n 240 then Some (3, 144, 191)%nat
      else if Nat.ltb n 244 then Some (3, 128, 191)%nat
      else if Nat.eqb n 244 then Some (3, 128, 143)%nat
      else None
  end.

Fixpoint utf8_run (st : utf8_state) (s : string) : utf8_state :=
  match s with EmptyString => st | String c s' => utf8_run (utf8_step st c) s' end.

Definition utf8_valid (s : string) : bool := bool_decide (utf8_run utf8_start s = utf8_start).

(** Universal newlines, the default of files opened as text. *)
Fixpoint universal_newlines (s : string) : string :=
  match s with
  | EmptyString => EmptyString
  | String c s' =>
      if Ascii.eqb c "013" then
        match s' with
        | String d s'' => if Ascii.eqb d "010" then String "010" (universal_newlines s'') else String "010" (universal_newlines s')
        | EmptyString => newline
        end
      else String c (universal_newlines s')
  end.

(** The text of a file; bytes that are not UTF-8 raise. *)
Definition decode_text (raw : string) : Exc string :=
  if utf8_valid raw then Some (universal_newlines raw) else Raise.

(** The bytes a write put down before it was cut. *)
Definition bytes_take (k : nat) (s : string) : string := String.substring 0 k s.

(** ** Laws of the decoder *)

Lemma utf8_run_app st a b : utf8_run st (a +:+ b) = utf8_run (utf8_run st a) b.
Proof. revert st. induction a as [|c a IH]; intros st; [done|]. apply IH. Qed.

Lemma utf8_valid_iff s : utf8_valid s = true ↔ utf8_run utf8_start s = utf8_start.
Proof. apply bool_decide_eq_true. Qed.

Lemma utf8_valid_app a b : utf8_valid a = true → utf8_valid (a +:+ b) = utf8_valid b.
Proof. rewrite utf8_valid_iff. intros H. unfold utf8_valid. by rewrite utf8_run_app, H. Qed.

Fixpoint is_ascii (s : string) : bool :=
  match s with EmptyString => true | String c s' => Nat.ltb (nat_of_ascii c) 128 && is_ascii s' end.

Lemma utf8_ascii s : is_ascii s = true → utf8_valid s = true.
Proof.
  rewrite utf8_valid_iff. induction s as [|c s IH]; [done|]. cbn [is_ascii utf8_run]. intros [Hc Hs]%andb_true_iff.
  unfold utf8_start at 1. cbn [utf8_step]. rewrite Hc. by apply IH.
Qed.

Fixpoint no_cr (s : string) : bool :=
  match s with EmptyString => true | String c s' => negb (Ascii.eqb c "013") && no_cr s' end.

Lemma no_cr_app a b : no_cr (a +:+ b) = no_cr a && no_cr b.
Proof. induction a as [|c a IH]; [done|]. cbn. by rewrite IH, andb_assoc. Qed.

Lemma newlines_kept s : no_cr s = true → universal_newlines s = s.
Proof.
  induction s as [|c s IH]; [done|]. cbn [no_cr universal_newlines]. intros [Hc Hs]%andb_true_iff.
  apply negb_true_iff in Hc. by rewrite Hc, IH.
Qed.

Lemma decode_kept s : utf8_valid s = true → no_cr s = true → decode_text s = Some s.
Proof. intros H1 H2. unfold decode_text. by rewrite H1, newlines_kept. Qed.

Lemma one_line_no_cr s : one_line s = true → no_cr s = true.
Proof.
  induction s as [|c s IH]; [done|]. cbn. unfold line_break. intros [Hc Hs]%andb_true_iff.
  rewrite IH by done. apply negb_true_iff, orb_false_iff in Hc as [_ Hc]. by rewrite Hc.
Qed.

Lemma one_line_split s : one_line s = true → split_on "010" s = [s].
Proof.
  intros H. apply split_on_single. induction s as [|c s IH]; [done|]. cbn [has_char one_line] in *. unfold line_break in H.
  apply andb_true_iff in H as [Hc Hs]. rewrite IH by done. apply negb_true_iff, orb_false_iff in Hc as [Hc _].
  by rewrite Ascii.eqb_sym, Hc.
Qed.

Lemma split_first_line a b : one_line a = true → split_on "010" (a +:+ newline +:+ b) = a :: split_on "010" b.
Proof.
  induction a as [|c a IH]; [done|]. intros H. cbn in H. apply andb_true_iff in H as [Hc Ha]. unfold line_break in Hc.
  apply negb_true_iff, orb_false_iff in Hc as [Hc _]. cbn [String.append split_on].
  rewrite Ascii.eqb_sym, Hc, IH by done. done.
Qed.

(** ** Parts of a text *)

Lemma append_split a b p r :
  a +:+ b = p +:+ r → (∃ m, a = p +:+ m ∧ r = m +:+ b) ∨ (∃ m, p = a +:+ m ∧ b = m +:+ r).
Proof.
  revert p. induction a as [|c a IH]; intros [|d p] H; cbn in H.
  - left. by exists "".
  - right. by exists (String d p).
  - left. by exists (String c a).
  - injection H as -> H. destruct (IH p H) as [(m & -> & ->)|(m & -> & ->)]; [left | right]; by exists m.
Qed.

Lemma bytes_take_part k s : ∃ r, s = bytes_take k s +:+ r.
Proof.
  revert s. induction k as [|k IH]; intros s; [exists s; by destruct s|].
  destruct s as [|c s]; [by exists ""|]. destruct (IH s) as [r Hr]. exists r. cbn. f_equal. exact Hr.
Qed.

Lemma one_line_part p r : one_line (p +:+ r) = true → one_line p = true.
Proof. rewrite one_line_app. by intros [H _]%andb_true_iff. Qed.

(** Stripping the end of a text leaves a first part of it. *)
Lemma rstrip_part s : ∃ r, s = rstrip s +:+ r.
Proof.
  induction s as [|c s [r IH]]; [by exists ""|]. cbn [rstrip]. destruct (rstrip s) as [|d t].
  - destruct (py_isspace c); [by exists (String c s) | exists s; done].
  - exists r. cbn in *. by rewrite <- IH.
Qed.

(** * JSON values in files

    Values whose encoding is read back from a file: their texts are UTF-8 and
    their numbers short.  A log line that was cut while it was written is not
    taken for a value. *)

(** ** Storable values *)

Fixpoint storable (v : pyval) : bool :=
  match v with
  | VNone | VBool _ => true
  | VInt z => Nat.leb (String.length (str_of_Z z)) MAX_STR_DIGITS
  | VFloat r => Nat.leb (String.length (dump_float r)) MAX_STR_DIGITS && utf8_valid (dump_float r)
  | VStr s => utf8_valid s
  | VList l | VTuple l => forallb storable l
  | VDict d => forallb (λ kv, utf8_valid kv.1 && storable kv.2) d
  end.

Definition recordable (v : pyval) : Prop := jsonable v ∧ storable v = true.

(** The same, as a test. *)
Fixpoint jsonableb (v : pyval) : bool :=
  match v with
  | VNone | VBool _ | VStr _ => true
  | VInt z => Nat.leb (String.length (str_of_Z (Z.abs z))) MAX_STR_DIGITS
  | VFloat r =>
      plain_word (dump_float r) &&
      match json_word (dump_float r) with JOk (VFloat r') => String.eqb r' r | _ => false end
  | VList l => forallb jsonableb l
  | VTuple _ => false
  | VDict d => bool_decide (NoDup (dict_keys d)) && forallb (λ kv, jsonableb kv.2) d
  end.

Lemma jsonableb_ok v : jsonableb v = true → jsonable v.
Proof.
  revert v. apply (pyval_nested (λ v, jsonableb v = true → jsonable v));
    [intros v; destruct v as [|b|z|r|s| | |]; try done; intros H; try constructor|intros l IH H|intros l IH|intros d IH H]; try done.
  - by apply Nat.leb_le.
  - cbn [jsonableb] in H. by apply andb_true_iff in H as [? _].
  - cbn [jsonableb] in H. apply andb_true_iff in H as [_ H]. destruct (json_word (dump_float r)) as [[]| |]; try done.
    by apply String.eqb_eq in H as ->.
  - constructor. cbn [jsonableb] in H. rewrite forallb_forall in H. rewrite Forall_forall in *. intros x Hx. by apply IH, H, list_elem_of_In.
  - cbn [jsonableb] in H. apply andb_true_iff in H as [Hn H]. constructor; [by apply bool_decide_eq_true in Hn|].
    rewrite forallb_forall in H. rewrite Forall_forall in *. intros x Hx. by apply IH, (H x), list_elem_of_In.
Qed.

Lemma recordableb_ok v : jsonableb v && storable v = true → recordable v.
Proof. intros [H1 H2]%andb_true_iff. split; [by apply jsonableb_ok | done]. Qed.

(** ** What the encodings are made of

    A property of texts that concatenation keeps holds of the encoding of a
    value when it holds of the pieces. *)

Section pieces.
Context (P : string → Prop).
Hypothesis P_app : ∀ a b, P a → P b → P (a +:+ b).
Hypothesis P_digits : ∀ s, all_digits s → P s.
Hypothesis P_words : Forall P ["null"; "true"; "false"; "-"; "["; "]"; "{"; "}"; ","; ", "; ": "; " "; ""; dquote].
Hypothesis P_float : ∀ r, jsonable (VFloat r) → storable (VFloat r) = true → P (dump_float r).
Hypothesis P_escape : ∀ s, utf8_valid s = true → P (escape s).

Lemma P_const s : s ∈ ["null"; "true"; "false"; "-"; "["; "]"; "{"; "}"; ","; ", "; ": "; " "; ""; dquote] → P s.
Proof. by apply Forall_forall. Qed.

Local Ltac const := apply P_const; apply (bool_decide_unpack _); vm_compute; exact I.

Lemma P_str s : utf8_valid s = true → P (dump_str s).
Proof. intros H. unfold dump_str. repeat apply P_app; [const | by apply P_escape | const]. Qed.

Lemma P_join sep l : P sep → Forall P l → P (join sep l).
Proof.
  intros Hsep. induction 1 as [|x [|y l] Hx Hl IH]; [const | done|].
  change (join sep (x :: y :: l)) with (x +:+ sep +:+ join sep (y :: l)). auto.
Qed.

Lemma P_int z : jsonable (VInt z) → P (str_of_Z z).
Proof.
  intros H. inversion H as [| |? Hl| | | |]; subst. destruct z as [|p|p]; [apply P_digits; by vm_compute|..]; cbn [Z.abs] in Hl;
    destruct (pretty_decimal (Npos p) Hl) as [(Hd & _) _].
  - by apply P_digits.
  - change (str_of_Z (Zneg p)) with ("-" +:+ pretty (Npos p)). apply P_app; [const | by apply P_digits].
Qed.

Lemma P_scalar v : match v with VList _ | VTuple _ | VDict _ => False | _ => True end → recordable v → P (json_dumps v).
Proof.
  intros Hv [Hj Hs]. destruct v as [|[]|z|r|s| | |]; try done; [const..| | |].
  - by apply P_int.
  - by apply P_float.
  - by apply P_str.
Qed.

Lemma recordable_list l : recordable (VList l) → Forall recordable l.
Proof.
  intros [Hj Hs]. inversion Hj as [| | | | |? Hl|]; subst. cbn in Hs. rewrite forallb_forall in Hs.
  rewrite Forall_forall in *. intros v Hv. split; [by apply Hl|]. by apply Hs, list_elem_of_In.
Qed.

Lemma recordable_dict d : recordable (VDict d) → Forall (λ kv, utf8_valid kv.1 = true ∧ recordable kv.2) d.
Proof.
  intros [Hj Hs]. inversion Hj as [| | | | | |? _ Hl]; subst. cbn in Hs. rewrite forallb_forall in Hs.
  rewrite Forall_forall in *. intros kv Hv. apply list_elem_of_In in Hv as Hi. apply Hs, andb_true_iff in Hi as [? ?].
  split; [done|]. split; [by apply Hl | done].
Qed.

Lemma P_dumps v : recordable v → P (json_dumps v).
Proof.
  revert v. apply (pyval_nested (λ v, recordable v → P (json_dumps v)));
    [intros v; destruct v; try done; by apply P_scalar|intros l IH|intros l IH|intros d IH]; intros Hr.
  - apply recordable_list in Hr. cbn [json_dumps]. repeat apply P_app; [const | | const].
    apply P_join; [const|]. apply Forall_fmap. decompose_Forall. auto.
  - destruct Hr as [Hj _]. inversion Hj.
  - apply recordable_dict in Hr. cbn [json_dumps]. repeat apply P_app; [const | | const].
    apply P_join; [const|]. apply Forall_fmap. rewrite Forall_forall in *. intros kv Hkv.
    destruct (Hr kv Hkv) as [Hk Hv]. unfold compose. apply P_app; [by apply P_str | apply P_app; [const | by apply IH]].
Qed.

Hypothesis P_newline : P newline.

Lemma P_indent_line n : P (indent n).
Proof.
  unfold indent. apply P_app; [done|]. induction (2 * n)%nat as [|k IH]; [const|].
  change (spaces (S k)) with (" " +:+ spaces k). apply P_app; [const | done].
Qed.

Lemma P_indent v : recordable v → ∀ n, P (json_indent n v).
Proof.
  assert (Hc : ∀ n, P ("," +:+ indent n)) by (intros n; apply P_app; [const | apply P_indent_line]).
  revert v. apply (pyval_nested (λ v, recordable v → ∀ n, P (json_indent n v)));
    [intros v; destruct v; try done; intros Hr n; by apply P_scalar|intros l IH|intros l IH|intros d IH]; intros Hr n.
  - apply recordable_list in Hr. destruct l as [|v l]; [apply (P_app "[" "]"); const|].
    assert (Hl : Forall P (map (json_indent (S n)) (v :: l))) by (apply Forall_fmap; decompose_Forall; unfold compose; auto).
    cbn [json_indent]. apply P_app; [const|]. apply P_app; [apply P_indent_line|]. apply P_app; [by apply P_join|].
    apply P_app; [apply P_indent_line | const].
  - destruct Hr as [Hj _]. inversion Hj.
  - apply recordable_dict in Hr. destruct d as [|kv d]; [apply (P_app "{" "}"); const|].
    assert (Hl : Forall P (map (λ kv, dump_str kv.1 +:+ ": " +:+ json_indent (S n) kv.2) (kv :: d))).
    { apply Forall_fmap. rewrite Forall_forall in *. intros x Hx. destruct (Hr x Hx) as [Hk Hv].
      unfold compose. apply P_app; [by apply P_str | apply P_app; [const | by apply IH]]. }
    cbn [json_indent]. apply P_app; [const|]. apply P_app; [apply P_indent_line|]. apply P_app; [by apply P_join|].
    apply P_app; [apply P_indent_line | const].
Qed.
End pieces.

(** *** The encodings are UTF-8 without carriage returns *)

Definition clean_text (s : string) : Prop := utf8_valid s = true ∧ no_cr s = true.

Lemma clean_app a b : clean_text a → clean_text b → clean_text (a +:+ b).
Proof. intros [? ?] [? ?]. split; [by rewrite utf8_valid_app | rewrite no_cr_app; by apply andb_true_iff]. Qed.

Lemma clean_digits s : all_digits s → clean_text s.
Proof.
  intros H. split; [apply utf8_ascii|]; induction s as [|c s IH]; try done; destruct H as [Hc H]; cbn [is_ascii no_cr];
    rewrite IH by done; unfold digit in Hc; by destruct c as [[] [] [] [] [] [] [] []].
Qed.

(** Escaping changes characters of ASCII only, outside other characters. *)
Lemma escape_run st s : (match st with Some (_, lo, _) => (128 ≤ lo)%nat | None => True end) →
  utf8_run st s = utf8_start → utf8_run st (escape s) = utf8_start.
Proof.
  assert (Hnone : ∀ t, utf8_run None t = None) by (induction t; done).
  revert st. induction s as [|c s IH]; intros st Hst; [done|]. cbn [escape utf8_run]. rewrite utf8_run_app. intros H.
  assert (Hst' : match utf8_step st c with Some (_, lo, _) => (128 ≤ lo)%nat | None => True end).
  { destruct st as [[[[|k] lo] hi]|]; cbn [utf8_step]; unfold utf8_start; repeat case_match; simplify_eq; lia. }
  assert (Hrun : utf8_run st (escape_char c) = utf8_step st c).
  { destruct st as [[[[|k] lo] hi]|]; [| |by rewrite Hnone].
    - by destruct c as [[] [] [] [] [] [] [] []].
    - destruct (Nat.ltb (nat_of_ascii c) 128) eqn:Hc.
      + exfalso. cbn [utf8_step] in H. apply Nat.ltb_lt in Hc.
        rewrite (proj2 (Nat.leb_gt _ _)) in H by lia. cbn in H. by rewrite Hnone in H.
      + clear -Hc. destruct c as [[] [] [] [] [] [] [] []]; try discriminate Hc; done. }
  rewrite Hrun. by apply IH.
Qed.

Lemma clean_escape s : utf8_valid s = true → clean_text (escape s).
Proof.
  intros H. split; [|apply one_line_no_cr, escape_one_line].
  apply utf8_valid_iff, escape_run; [cbn; lia | by apply utf8_valid_iff].
Qed.

Lemma clean_float r : jsonable (VFloat r) → storable (VFloat r) = true → clean_text (dump_float r).
Proof.
  intros Hj [_ Hs]%andb_true_iff. split; [done|]. inversion Hj as [| | |? Hp Hw| | |]; subst.
  by apply one_line_no_cr, word_one_line.
Qed.

Lemma clean_dumps v : recordable v → clean_text (json_dumps v).
Proof.
  apply P_dumps; [exact clean_app | exact clean_digits | | exact clean_float | exact clean_escape].
  repeat constructor.
Qed.

Lemma clean_indent v n : recordable v → clean_text (json_indent n v).
Proof.
  intros Hr. revert n. apply P_indent; [exact clean_app | exact clean_digits | | exact clean_float | exact clean_escape | | done];
  repeat constructor.
Qed.

(** ** Lines that were cut *)

(** Brackets opened and not closed. *)
Definition tok_depth (t : jtok) : Z :=
  match t with
  | TPunct c => if Ascii.eqb c "[" || Ascii.eqb c "{" then 1 else if Ascii.eqb c "]" || Ascii.eqb c "}" then -1 else 0
  | _ => 0
  end.

Fixpoint depth (l : list jtok) : Z := match l with [] => 0 | t :: l' => tok_depth t + depth l' end.

Lemma depth_app a b : depth (a ++ b) = (depth a + depth b)%Z.
Proof. induction a as [|t a IH]; [done|]. cbn. rewrite IH. lia. Qed.

Definition open_frames (mode : jmode) (stack : list frame) : Z :=
  Z.of_nat (length stack) + match mode with PValue | PDone _ => 0 | _ => 1 end.

(** A value is only complete when all brackets are closed. *)
Lemma parse_closed toks mode stack v :
  (∀ w, mode = PDone w → stack = []) → parse mode stack toks = JOk v → (open_frames mode stack + depth toks = 0)%Z.
Proof.
  assert (Hc : ∀ w stack, open_frames (complete w stack).1 (complete w stack).2 = Z.of_nat (length stack) ∧
    (∀ u, (complete w stack).1 = PDone u → (complete w stack).2 = [])).
  { intros w [|[] st]; cbn; split; try done; unfold open_frames; lia. }
  revert mode stack. induction toks as [|t toks IH]; intros mode stack Hd; cbn [parse].
  - destruct mode; try done. intros _. by rewrite (Hd v0).
  - assert (Hgo : ∀ w st, parse (complete w st).1 (complete w st).2 toks = JOk v → (Z.of_nat (length st) + depth toks = 0)%Z).
    { intros w st H. apply IH in H; [|by apply Hc]. by rewrite (proj1 (Hc w st)) in H. }
    assert (Hm : ∀ m st, (∀ w, m ≠ PDone w) → parse m st toks = JOk v → (open_frames m st + depth toks = 0)%Z).
    { intros m st Hne H. apply IH; [|done]. intros w ->. by destruct (Hne w). }
    destruct mode, t as [[[] [] [] [] [] [] [] []]|s|w|]; cbv zeta; try done; try destruct (json_word w) as [x| |]; try done;
      intros H; first [apply Hgo in H | apply Hm in H; [|done]]; unfold open_frames in *; cbn [depth tok_depth Ascii.eqb Bool.eqb orb length fst snd] in *; lia.
Qed.

(** The tokens of a first part of an encoding: no bracket is closed that was
    not opened, and the words are no longer than those of the value. *)
Definition part_ok (toks : list jtok) : Prop := (0 ≤ depth toks)%Z ∧ Forall (short_tok MAX_STR_DIGITS) toks.

Lemma part_ok_app a b : depth a = 0%Z → Forall (short_tok MAX_STR_DIGITS) a → part_ok b → part_ok (a ++ b).
Proof. intros Ha Hs [Hb Hf]. split; [rewrite depth_app; lia | by apply Forall_app]. Qed.

Definition balanced (toks : list jtok) : Prop := depth toks = 0%Z ∧ Forall (short_tok MAX_STR_DIGITS) toks.

Lemma commas_balanced l : Forall balanced l → balanced (commas l).
Proof.
  induction 1 as [|x [|y l] [Hd Hs] Hl [IHd IHs]]; [by repeat constructor | done|].
  change (commas (x :: y :: l)) with (x ++ TPunct "," :: commas (y :: l)).
  split; [rewrite depth_app; cbn [depth tok_depth Ascii.eqb Bool.eqb orb]; lia|].
  apply Forall_app. split; [done|]. by constructor.
Qed.

Lemma bracketed_balanced o c l :
  (tok_depth (TPunct o) + tok_depth (TPunct c) = 0)%Z → balanced l → balanced (TPunct o :: l ++ [TPunct c]).
Proof.
  intros Hoc [Hd Hs]. split; [cbn [depth]; rewrite depth_app; cbn [depth]; lia|].
  constructor; [done|]. apply Forall_app. split; [done | by repeat constructor].
Qed.

Lemma word_balanced w : (String.length w ≤ MAX_STR_DIGITS)%nat → balanced [TWord w].
Proof. intros H. split; [done|]. apply Forall_singleton. exact H. Qed.

Lemma max_digits w : Nat.leb (String.length w) 10 = true → (String.length w ≤ MAX_STR_DIGITS)%nat.
Proof. intros H%Nat.leb_le. transitivity 10%nat; [done|]. apply Nat.leb_le. by vm_compute. Qed.

Lemma tokens_balanced v : recordable v → balanced (tokens v).
Proof.
  revert v. apply (pyval_nested (λ v, recordable v → balanced (tokens v)));
    [intros v; destruct v as [|[]|z|r|s| | |]; try done|intros l IH|intros l IH|intros d IH]; intros Hr.
  1-3: by apply word_balanced, max_digits.
  - destruct Hr as [_ Hs]. cbn [storable] in Hs. apply Nat.leb_le in Hs. by apply word_balanced.
  - destruct Hr as [_ Hs]. cbn [storable] in Hs. apply andb_true_iff in Hs as [Hs _]. apply Nat.leb_le in Hs. by apply word_balanced.
  - by repeat constructor.
  - apply recordable_list in Hr. change (tokens (VList l)) with (TPunct "[" :: commas (map tokens l) ++ [TPunct "]"]).
    apply bracketed_balanced; [done|]. apply commas_balanced, Forall_fmap.
    decompose_Forall. unfold compose. auto.
  - destruct Hr as [Hj _]. inversion Hj.
  - apply recordable_dict in Hr. change (tokens (VDict d)) with (TPunct "{" :: commas (map pair_tokens d) ++ [TPunct "}"]).
    apply bracketed_balanced; [done|]. apply commas_balanced, Forall_fmap.
    rewrite Forall_forall in *. intros kv Hkv. unfold compose. destruct (Hr kv Hkv) as [_ Hv].
    destruct (IH kv Hkv Hv) as [Hd Hs]. unfold pair_tokens. split; [cbn [depth tok_depth Ascii.eqb Bool.eqb orb]; lia|]. by apply Forall_cons; split; [|apply Forall_cons; split].
Qed.

(** *** Cut texts and words *)

Lemma cut_escape s acc p r : escape s = p +:+ r → lex (LStr acc None) p = [TBad].
Proof.
  revert acc p. induction s as [|c s IH]; intros acc p H; cbn [escape] in H.
  - by destruct p.
  - apply append_split in H as [(m & Hc & _)|(m & -> & H)].
    + clear IH. destruct c as [[] [] [] [] [] [] [] []]; cbn in Hc;
        repeat (destruct p as [|? p]; [done|]; injection Hc as <- Hc); by destruct p.
    + rewrite lex_escaped. by apply (IH _ m).
Qed.

Lemma part_bad : part_ok [TBad].
Proof. split; [done | by repeat constructor]. Qed.

Lemma part_nil : part_ok [].
Proof. split; [done | constructor]. Qed.

Lemma cut_str s p r : dump_str s = p +:+ r → part_ok (lex LIdle p).
Proof.
  unfold dump_str. intros H. destruct p as [|c p]; [apply part_nil|]. cbn in H. injection H as <- H.
  change (lex LIdle (String "034" p)) with (lex (LStr "" None) p).
  apply append_split in H as [(m & Hm & _)|(m & -> & H)]; [rewrite (cut_escape s "" p m Hm); apply part_bad|].
  destruct m as [|c m].
  - rewrite append_empty_r, (cut_escape s "" (escape s) ""); [apply part_bad | by rewrite append_empty_r].
  - cbn in H. injection H as <- H. destruct m; [|done]. rewrite lex_escape. split; [done | by repeat constructor].
Qed.

Lemma plain_part p r : plain (p +:+ r) = true → plain p = true.
Proof. induction p as [|c p IH]; [done|]. cbn. intros [-> H]%andb_true_iff. by rewrite IH. Qed.

Lemma cut_word w p r :
  plain_word w = true → (String.length w ≤ MAX_STR_DIGITS)%nat → w = p +:+ r → part_ok (lex LIdle p).
Proof.
  intros [_ Hp]%andb_true_iff Hl ->. destruct p as [|c p]; [apply part_nil|].
  rewrite <- (append_empty_r (String c p)), lex_word; [|unfold plain_word; by rewrite (plain_part _ _ Hp) | done].
  rewrite length_append in Hl. split; [done|]. constructor; [cbn [short_tok] in *; lia | constructor].
Qed.

(** *** Cut containers *)

(** [f x] is lexed on its own, and so is each first part of it. *)
Definition piece {A} (f : A → string) (g : A → list jtok) (x : A) : Prop :=
  (∀ rest, ended rest → lex LIdle (f x +:+ rest) = g x ++ lex LIdle rest) ∧ balanced (g x) ∧
  (∀ p r, f x = p +:+ r → part_ok (lex LIdle p)).

Lemma ended_part p r : ended (p +:+ r) → ended p.
Proof. by destruct p. Qed.

Lemma cut_join {A} (f : A → string) g l p r :
  Forall (piece f g) l → join ", " (map f l) = p +:+ r → part_ok (lex LIdle p).
Proof.
  intros Hl. revert p. induction Hl as [|x [|y l] (Hx & [Hd Hs] & Hp) Hl IH]; intros p H.
  - destruct p; [apply part_nil | done].
  - by apply (Hp p r).
  - change (join ", " (map f (x :: y :: l))) with (f x +:+ ", " +:+ join ", " (map f (y :: l))) in H.
    apply append_split in H as [(m & Hm & _)|(m & -> & H)]; [by apply (Hp p m)|].
    assert (He : ended m) by (apply (ended_part m r); by rewrite <- H).
    rewrite Hx by done. apply part_ok_app; [done..|].
    destruct m as [|c1 m]; [apply part_nil|]. cbn [String.append] in H. injection H as <- H.
    assert (Hm : part_ok (lex LIdle m)).
    { destruct m as [|c2 m]; [apply part_nil|]. cbn [String.append] in H. injection H as <- H. by apply (IH m). }
    destruct Hm as [Hm Hf]. split; [cbn; apply Hm | cbn; by constructor].
Qed.

(** A container cut before its end is still open. *)
Lemma cut_brackets {A} (f : A → string) g l (o c : ascii) p r :
  json_punct o = true → json_space o = false → tok_depth (TPunct o) = 1%Z → delimiter c = true →
  Forall (piece f g) l → String o (join ", " (map f l) +:+ String c "") = p +:+ r → p ≠ "" → r ≠ "" →
  (1 ≤ depth (lex LIdle p))%Z ∧ Forall (short_tok MAX_STR_DIGITS) (lex LIdle p).
Proof.
  intros Ho Hsp Hdo Hc Hl H Hp Hr. destruct p as [|c1 p]; [done|]. cbn [String.append] in H. injection H as <- H.
  assert (Hpart : part_ok (lex LIdle p)).
  { apply append_split in H as [(m & Hm & _)|(m & -> & H)]; [by apply (cut_join f g l p m)|].
    destruct m as [|c2 m]; [|cbn in H; injection H as _ H; by destruct m; cbn in H; subst].
    apply (cut_join f g l _ ""); [done | by rewrite append_empty_r, append_empty_r]. }
  destruct Hpart as [Hd Hf]. cbn [lex]. rewrite Hsp, Ho. split; [cbn [depth]; lia | by constructor].
Qed.

Definition pair_text (kv : string * pyval) : string := dump_str kv.1 +:+ ": " +:+ json_dumps kv.2.

Lemma piece_pair kv : piece json_dumps tokens kv.2 → piece pair_text pair_tokens kv.
Proof.
  destruct kv as [k v]. cbn [snd]. intros (Hl & [Hd Hs] & Hp). unfold pair_text, pair_tokens. cbn [fst snd]. split_and!.
  - intros rest He. rewrite !append_assoc, lex_str. cbn [app]. f_equal.
    change (lex LIdle (": " +:+ ?x)) with (TPunct ":" :: lex LIdle x). f_equal. by apply Hl.
  - split; [cbn [depth tok_depth Ascii.eqb Bool.eqb orb fst snd]; lia|]. by apply Forall_cons; split; [|apply Forall_cons; split].
  - intros p r H. apply append_split in H as [(m & Hm & _)|(m & -> & H)]; [by apply (cut_str k p m)|].
    rewrite lex_str. destruct m as [|c1 m]; [split; [done | by repeat constructor]|].
    cbn [String.append] in H. injection H as <- H.
    assert (Hm : part_ok (lex LIdle m)).
    { destruct m as [|c2 m]; [apply part_nil|]. cbn [String.append] in H. injection H as <- H. by apply (Hp m r). }
    destruct Hm as [Hm Hf]. split; [cbn; apply Hm | cbn; by repeat constructor].
Qed.

Lemma piece_dumps v : recordable v → piece json_dumps tokens v.
Proof.
  intros Hr. split; [apply lex_dumps, Hr|]. split; [by apply tokens_balanced|]. revert v Hr.
  assert (Hpart : ∀ s p r, s = p +:+ r → balanced (lex LIdle s) →
    (p ≠ "" → r ≠ "" → (1 ≤ depth (lex LIdle p))%Z ∧ Forall (short_tok MAX_STR_DIGITS) (lex LIdle p)) → part_ok (lex LIdle p)).
  { intros s p r -> [Hd Hs] H. destruct p as [|c p]; [apply part_nil|]. destruct r as [|c' r].
    - rewrite append_empty_r in Hd, Hs. split; [lia | done].
    - destruct H as [H1 H2]; [done..|]. split; [lia | done]. }
  assert (Hall : ∀ v, recordable v → balanced (lex LIdle (json_dumps v))).
  { intros v Hr. rewrite <- (append_empty_r (json_dumps v)), lex_dumps, app_nil_r by (try apply Hr; done). by apply tokens_balanced. }
  apply (pyval_nested (λ v, recordable v → ∀ p r, json_dumps v = p +:+ r → part_ok (lex LIdle p)));
    [intros v; destruct v as [|b|z|x|s| | |]; try done|intros l IH|intros l IH|intros d IH]; intros Hr p r H.
  - by apply (cut_word "null" p r); [|apply max_digits|].
  - apply (cut_word (json_dumps (VBool b)) p r); [by destruct b | apply max_digits; by destruct b | done].
  - destruct Hr as [Hj Hs]. apply Nat.leb_le in Hs. apply (cut_word (str_of_Z z) p r); [by apply int_plain | done..].
  - destruct Hr as [Hj Hs]. cbn [storable] in Hs. apply andb_true_iff in Hs as [Hs%Nat.leb_le _].
    inversion Hj as [| | |? Hp Hw| | |]; subst. by apply (cut_word (dump_float x) p r).
  - by apply (cut_str s p r).
  - apply (Hpart _ _ _ H); [by apply Hall|]. apply recordable_list in Hr.
    apply (cut_brackets json_dumps tokens l "[" "]"); try done. rewrite Forall_forall in *.
    intros x Hx. destruct (Hr x Hx) as [Hj Hs]. split; [by apply lex_dumps|]. split; [by apply tokens_balanced | by apply IH].
  - destruct Hr as [Hj _]. inversion Hj.
  - apply (Hpart _ _ _ H); [by apply Hall|]. apply recordable_dict in Hr.
    apply (cut_brackets pair_text pair_tokens d "{" "}"); try done.
    rewrite Forall_forall in *. intros kv Hx. destruct (Hr _ Hx) as [_ Hv]. apply piece_pair.
    split; [by apply lex_dumps, Hv|]. split; [by apply tokens_balanced | by apply IH].
Qed.

(** A dict cut before its end is not decoded. *)
Lemma torn_dict d p r :
  recordable (VDict d) → json_dumps (VDict d) = p +:+ r → p ≠ "" → r ≠ "" → json_loads p = JDecodeError.
Proof.
  intros Hr H Hp Hn. assert (Hl : Forall (piece pair_text pair_tokens) d).
  { apply recordable_dict in Hr. rewrite Forall_forall in *. intros kv Hx. by apply piece_pair, piece_dumps, Hr. }
  destruct (cut_brackets pair_text pair_tokens d "{" "}" p r) as [Hd Hs]; try done.
  unfold json_loads. destruct (parse PValue [] (lex LIdle p)) as [v| |] eqn:E; [|done|].
  - apply parse_closed in E; [|done]. unfold open_frames in E. cbn [length] in E. lia.
  - by apply parse_short in E.
Qed.

(** So is what is left of it when the end is stripped. *)
Lemma torn_line d p r :
  recordable (VDict d) → json_dumps (VDict d) = p +:+ r → p ≠ "" → r ≠ "" →
  truthy (strip p) = true ∧ json_loads (strip p) = JDecodeError.
Proof.
  intros Hr H Hp Hn. destruct p as [|c p]; [done|]. assert (c = "{"%char) as -> by (cbn in H; by injection H).
  change (strip (String "{" p)) with (rstrip (String "{" p)). destruct (rstrip_part (String "{" p)) as [q Hq].
  assert (Ht : rstrip (String "{" p) ≠ "") by (cbn [rstrip]; by destruct (rstrip p)).
  split; [by destruct (rstrip (String "{" p))|].
  apply (torn_dict d _ (q +:+ r)); [done | by rewrite <- append_assoc, <- Hq | done | by destruct q, r].
Qed.
