(* ===== verification/SessionMessage.v ===== *)
(** * Messages of the task record (memory/session_store.py)

    How a message of the conversation is written into the record of a task,
    the key by which two writings of one message are recognised, the boundary
    between the clarification of the intent and the execution, and the two
    summaries of a verification. *)

From stdpp Require Import base list strings sets.
From Stdlib Require Import ZArith Ascii.
From S2P Require Import Prelude PyText PyValue PyOps Failure.

(** ** Messages

    The attributes the store reads off a message of the framework, which
    always has them: [content] a text or a list of blocks, [id] a text or
    [None], [additional_kwargs] a dict.  [tool_calls] is empty for messages
    that have no such attribute, [tool_call_id] [None], [name] empty. *)

Inductive msg_class := CRemove | CSystem | COther.

#[export] Instance msg_class_eq : EqDecision msg_class.
Proof. solve_decision. Defined.

Record LcMessage := mkLc {
  lc_class : msg_class;
  lc_type : string;
  lc_name : string;
  lc_content : pyval;
  lc_id : pyval;
  lc_kwargs : dict pyval;
  lc_tool_calls : list (dict pyval);
  lc_tool_call_id : pyval }.

Definition NO_SESSION_MARKER : string := "_no_session".
Definition HANDOFF : string := "[Intent Clarification Summary]".

(** [isinstance(msg, SystemMessage) and content.startswith(HANDOFF)], with
    [content = msg.content or ""]: a list of blocks has no [startswith]. *)
Definition is_handoff (msg : LcMessage) : Exc bool :=
  match lc_class msg with
  | CSystem => c ← as_str (py_or (lc_content msg) (VStr "")); Some (startswith c HANDOFF)
  | _ => Some false
  end.

Definition is_remove (msg : LcMessage) : bool := bool_decide (lc_class msg = CRemove).

Definition _is_intent_dialogue_message (msg : LcMessage) : Exc bool :=
  if is_remove msg then Some false else h ← is_handoff msg; Some (negb h).

(** The index of the first summary. *)
Fixpoint summary_idx (messages : list LcMessage) : Exc (option nat) :=
  match messages with
  | [] => Some None
  | msg :: rest =>
      h ← (if is_remove msg then Some false else is_handoff msg);
      if (h : bool) then Some (Some 0%nat) else i ← summary_idx rest; Some (option_map S i)
  end.

Definition _split_at_handoff (messages : list LcMessage) : Exc (list LcMessage * list LcMessage) :=
  i ← summary_idx messages;
  Some (match i with
        | None => ([], messages)
        | Some i => (List.filter (λ m, negb (is_remove m)) (take i messages), drop i messages)
        end).

(** ** Serialisation *)

(** [if v: result[k] = v]. *)
Definition set_if (k : string) (v : pyval) (d : dict pyval) : dict pyval :=
  if py_truthy v then dict_set k v d else d.

Definition call_entry (tc : dict pyval) : pyval :=
  VDict [("name", get_d "name" (VStr "") tc); ("args", get_d "args" (VDict []) tc); ("id", get_d "id" (VStr "") tc)].

(** [now] is the time of the call. *)
Definition _serialize_message_full (now : string) (msg : LcMessage) : dict pyval :=
  let result := [("type", VStr (lc_type msg))] in
  let result := dict_set "content" (match lc_content msg with VStr s => VStr s | c => VStr (py_str c) end) result in
  let result := set_if "id" (lc_id msg) result in
  let result := set_if "reasoning_content" (py_get "reasoning_content" (lc_kwargs msg)) result in
  let result := set_if "time" (py_get "_ts" (lc_kwargs msg)) result in
  let result := set_if "node" (py_get "_node" (lc_kwargs msg)) result in
  let result :=
    if nonempty (lc_tool_calls msg)
    then dict_set "tool_calls" (VList (map call_entry (lc_tool_calls msg))) result else result in
  let result := set_if "tool_call_id" (lc_tool_call_id msg) result in
  if dict_mem "time" result then result else dict_set "time" (VStr now) result.

(** [additional_kwargs.setdefault("_node", node_name)] on the message itself. *)
Definition set_node (node_name : string) (msg : LcMessage) : LcMessage :=
  if truthy node_name && negb (dict_mem "_node" (lc_kwargs msg))
  then mkLc (lc_class msg) (lc_type msg) (lc_name msg) (lc_content msg) (lc_id msg)
         (dict_set "_node" (VStr node_name) (lc_kwargs msg)) (lc_tool_calls msg) (lc_tool_call_id msg)
  else msg.

Definition _message_dedup_key (msg_dict : dict pyval) : string :=
  let msg_id := py_or (py_get "id" msg_dict) (VStr "") in
  if py_truthy msg_id then "id:" +:+ py_str msg_id
  else
    let msg_type := py_or (py_get "type" msg_dict) (VStr "unknown") in
    let content_raw := py_or (py_get "content" msg_dict) (VStr "") in
    let content_preview := py_take 200 (py_str content_raw) in
    let tool_call_id := py_or (py_get "tool_call_id" msg_dict) (VStr "") in
    py_str msg_type +:+ "|" +:+ content_preview +:+ "|" +:+ py_str tool_call_id.

(** ** Summaries of a verification *)

Definition layer_status (k : string) (verification : dict pyval) : Exc pyval :=
  vget_d "status" (VStr "unknown") (get_d k (VDict []) verification).

Definition build_result_summary (verification : pyval) : Exc string :=
  match verification with
  | VDict ((_ :: _) as v) =>
      let level := get_d "level" (VStr "unknown") v in
      l1 ← layer_status "layer1" v;
      l2 ← layer_status "layer2" v;
      let bc := get_d "baseline_confidence" (VStr "none") v in
      Some (py_str level +:+ " - Layer1: " +:+ py_str l1 +:+ ", Layer2: " +:+ py_str l2 +:+
            ", Baseline: " +:+ py_str bc)
  | _ => Some ""
  end.

Definition evidence_entry (it : dict pyval) : pyval :=
  VDict [("step", py_get "step" it); ("status", py_get "status" it); ("detail", get_d "evidence" (VStr "") it)].

Definition evidence_of (items : list pyval) : list pyval :=
  omap (λ it, match it with VDict d => Some (evidence_entry d) | _ => None end) items.

Definition build_verification_simple (verification : pyval) : Exc (option (dict pyval)) :=
  match verification with
  | VDict ((_ :: _) as v) =>
      let layer1 := get_d "layer1" (VDict []) v in
      let layer2 := get_d "layer2" (VDict []) v in
      s1 ← vget_d "status" (VStr "unknown") layer1;
      s2 ← vget_d "status" (VStr "unknown") layer2;
      let result :=
        [("level", get_d "level" (VStr "unknown") v);
         ("layer1", VDict [("status", s1)]);
         ("layer2", VDict [("status", s2)]);
         ("baseline_confidence", get_d "baseline_confidence" (VStr "none") v);
         ("baseline_used", py_get "baseline_used" v)] in
      let result := set_if "warnings" (py_get "warnings" v) result in
      let items := match get_d "checklist" (VDict []) v with
                   | VDict c => get_d "items" (VList []) c
                   | _ => VList []
                   end in
      result ← (if py_truthy items then
                  l ← py_iter items; Some (dict_set "evidence" (VList (evidence_of l)) result)
                else Some result);
      details ← vget_d "details" (VStr "") layer2;
      Some (Some (set_if "evidence_summary" details result))
  | _ => Some None
  end.

(** ** Laws *)

(** What precedes the summary and what follows is all of the conversation,
    but for the deletions before the summary. *)
Lemma split_at_handoff_covers messages dialogue execution :
  _split_at_handoff messages = Some (dialogue, execution) →
  ∃ before, messages = before ++ execution ∧
            (dialogue = List.filter (λ m, negb (is_remove m)) before).
Proof.
  unfold _split_at_handoff. intros ([i|] & _ & [= <- <-])%bind_Some.
  - exists (take i messages). by rewrite take_drop.
  - by exists [].
Qed.

(** The execution part begins with the summary, and no message of the
    dialogue is one. *)
Lemma split_at_handoff_boundary messages dialogue execution :
  _split_at_handoff messages = Some (dialogue, execution) →
  Forall (λ m, _is_intent_dialogue_message m = Some true) dialogue ∧
  (dialogue ≠ [] → ∃ m rest, execution = m :: rest ∧ is_handoff m = Some true).
Proof.
  unfold _split_at_handoff. intros (i & Hi & [= Hd])%bind_Some.
  destruct i as [i|]; [|injection Hd as <- <-; split; [constructor | done]].
  injection Hd as Hd He. revert i dialogue execution Hi Hd He.
  induction messages as [|m l IH]; intros i dia ex Hi Hd He; [done|]. cbn in Hi.
  apply bind_Some in Hi as (h & Hh & Hi). destruct h.
  { injection Hi as <-. subst. split; [done|]. destruct (is_remove m); [done|]. eauto. }
  apply bind_Some in Hi as (j & Hj & [= Hi]). destruct j as [j|]; [|done]. injection Hi as <-.
  cbn [take drop List.filter] in Hd, He. destruct (IH j _ ex Hj eq_refl He) as [H1 H2].
  destruct (is_remove m) eqn:Hr; cbn in Hd; subst dia; [done|].
  split; [|intros _].
  - constructor; [|done]. unfold _is_intent_dialogue_message. by rewrite Hr, Hh.
  - clear IH H1 H2 Hh. revert j Hj ex He. induction l as [|x l IHl]; intros j Hj ex He; [done|]. cbn in Hj.
    apply bind_Some in Hj as (h & Hh & Hj). destruct h.
    + injection Hj as <-. destruct (is_remove x); [done|]. eauto.
    + apply bind_Some in Hj as (k & Hk & [= Hj]). destruct k as [k|]; [|done]. injection Hj as <-. eauto.
Qed.
