(* ===== verification/SessionStore.v ===== *)
(** * The task record store (memory/session_store.py)

    One record per task: a snapshot [<task>.json], a log [<task>.jsonl] of the
    messages since the snapshot, and the log set aside while a snapshot is
    written, [<task>.jsonl.compacted].  The files are texts; every call to
    the operating system takes the next event of the environment, which lets
    it succeed, fail with an [OSError], or ends the process there.  What a
    failed or interrupted write leaves behind is part of the model. *)

From stdpp Require Import base list strings sets gmap sorting.
From Stdlib Require Import ZArith Ascii.
From S2P Require Import Prelude PyText PyValue PyOps Failure JsonStored Json JsonDump SessionMessage.

(** ** The environment *)

(** What becomes of a call: it succeeds; it fails with an [OSError]; the
    process ends during it.  [0]: the call had no effect; [S k]: it took
    effect, a write up to [k] bytes of its text. *)
Inductive io_event := IoOk | IoErr (n : nat) | IoCrash (n : nat).

(** ** State *)

Record Session := mkSession {
  s_taskId : string;
  s_tui_session_id : string;
  s_parent_task_id : string;
  s_operation : string;
  s_created_at : string;
  s_finished_at : pyval;
  s_status : string;
  s_messages : list (dict pyval);
  s_result_summary : pyval;
  s_baseline_keys : list string }.

(** [st_forward] and [st_dialogue] are the calls made to [add_task] and
    [append_dialogue] of the session store of the terminal interface.
    [st_torn] is set when a call other than the write of a temporary file
    fails or is interrupted part-way in a manner that damages a log: a failed
    append that left some of its text, the interrupted rewriting of a log, an
    append cut inside a character. *)
Record Store := mkStore {
  st_fs : gmap string string;
  st_active : gmap string Session;
  st_counts : gmap string Z;
  st_events : list io_event;
  st_tick : nat;
  st_forward : list (string * string);
  st_dialogue : list (string * list LcMessage);
  st_torn : bool }.

Definition with_fs (f : gmap string string → gmap string string) (st : Store) : Store :=
  mkStore (f (st_fs st)) (st_active st) (st_counts st) (st_events st) (st_tick st) (st_forward st) (st_dialogue st) (st_torn st).
Definition with_active (f : gmap string Session → gmap string Session) (st : Store) : Store :=
  mkStore (st_fs st) (f (st_active st)) (st_counts st) (st_events st) (st_tick st) (st_forward st) (st_dialogue st) (st_torn st).
Definition with_counts (f : gmap string Z → gmap string Z) (st : Store) : Store :=
  mkStore (st_fs st) (st_active st) (f (st_counts st)) (st_events st) (st_tick st) (st_forward st) (st_dialogue st) (st_torn st).
Definition with_torn (b : bool) (st : Store) : Store :=
  mkStore (st_fs st) (st_active st) (st_counts st) (st_events st) (st_tick st) (st_forward st) (st_dialogue st) (st_torn st || b).

(** A new process on the same directory. *)
Definition restart (events : list io_event) (st : Store) : Store :=
  mkStore (st_fs st) ∅ ∅ events (st_tick st) [] [] (st_torn st).

(** ** Effects *)

Inductive res (A : Type) := Done (a : A) | OSErr | Raised | Died.
#[global] Arguments Done {A} _.
#[global] Arguments OSErr {A}.
#[global] Arguments Raised {A}.
#[global] Arguments Died {A}.

Definition io (A : Type) : Type := Store → res A * Store.

#[export] Instance io_ret : MRet io := λ A a st, (Done a, st).
#[export] Instance io_bind : MBind io := λ A B f m st,
  match m st with
  | (Done a, st') => f a st'
  | (OSErr, st') => (OSErr, st')
  | (Raised, st') => (Raised, st')
  | (Died, st') => (Died, st')
  end.

Definition modify (f : Store → Store) : io () := λ st, (Done (), f st).
Definition gets {A} (f : Store → A) : io A := λ st, (Done (f st), st).
Definition lift {A} (x : Exc A) : io A := λ st, (match x with Some a => Done a | None => Raised end, st).

(** [try: m except OSError: h]. *)
Definition except_os {A} (m h : io A) : io A := λ st,
  match m st with (OSErr, st') => h st' | r => r end.

(** [try: m finally: if not success: cleanup]. *)
Definition on_error {A} (m : io A) (cleanup : io ()) : io A := λ st,
  match m st with
  | (OSErr, st') => let '(r, st'') := cleanup st' in (match r with Died => Died | _ => OSErr end, st'')
  | (Raised, st') => let '(r, st'') := cleanup st' in (match r with Died => Died | _ => Raised end, st'')
  | r => r
  end.

(** ** Calls to the operating system *)

Definition next_event : io io_event := λ st,
  match st_events st with
  | [] => (Done IoOk, st)
  | e :: l =>
      (Done e, mkStore (st_fs st) (st_active st) (st_counts st) l (st_tick st) (st_forward st) (st_dialogue st) (st_torn st))
  end.

Definition os_error {A} : io A := λ st, (OSErr, st).
Definition died {A} : io A := λ st, (Died, st).

Definition exists_file (name : string) : io bool := gets (λ st, bool_decide (is_Some (st_fs st !! name))).

(** A call on a directory entry: all of its effect or none. *)
Definition entry_call (f : gmap string string → gmap string string) : io () :=
  e ← next_event;
  match e with
  | IoOk => modify (with_fs f)
  | IoErr _ => os_error
  | IoCrash O => died
  | IoCrash (S _) => modify (with_fs f);; died
  end.

(** A missing file is an [OSError]. *)
Definition unlink (name : string) : io () :=
  t ← gets (λ st, st_fs st !! name);
  match t with Some _ => entry_call (delete name) | None => os_error end.

Definition os_replace (src dst : string) : io () :=
  t ← gets (λ st, st_fs st !! src);
  match t with Some t => entry_call (λ fs, <[dst := t]> (delete src fs)) | None => os_error end.

(** The text of a file, decoded. *)
Definition read_text (name : string) : io string :=
  e ← next_event;
  match e with
  | IoOk =>
      raw ← gets (λ st, st_fs st !! name);
      match raw with Some raw => lift (decode_text raw) | None => os_error end
  | IoErr _ => os_error
  | IoCrash _ => died
  end.

(** Text added at the end of a file, which is created when it is missing. *)
Definition append_text (name text : string) : io () :=
  let add t := modify (with_fs (λ fs, <[name := default "" (fs !! name) +:+ t]> fs)) in
  e ← next_event;
  match e with
  | IoOk => add text
  | IoErr O => os_error
  | IoErr (S k) => add (bytes_take k text);; modify (with_torn true);; os_error
  | IoCrash O => died
  | IoCrash (S k) =>
      add (bytes_take k text);; modify (with_torn (negb (utf8_valid (bytes_take k text))));; died
  end.

(** [write_text]: the file is cut to nothing, then written. *)
Definition write_text (is_log : bool) (name text : string) : io () :=
  let put t := modify (with_fs <[name := t]>) in
  e ← next_event;
  match e with
  | IoOk => put text
  | IoErr O => os_error
  | IoErr (S k) => put (bytes_take k text);; modify (with_torn is_log);; os_error
  | IoCrash O => died
  | IoCrash (S k) => put (bytes_take k text);; modify (with_torn is_log);; died
  end.

(** ** The store *)

Definition _file_path (task_id : string) : string := task_id +:+ ".json".
Definition _jsonl_path (task_id : string) : string := task_id +:+ ".jsonl".
Definition _compacted_path (task_id : string) : string := task_id +:+ ".jsonl.compacted".

Definition has_active (st : Store) (task_id : string) : bool :=
  if negb (truthy task_id) then false else bool_decide (is_Some (st_active st !! task_id)).

(** Without the keys of the baseline. *)
Definition _serialize_for_write (s : Session) : pyval :=
  VDict [("taskId", VStr (s_taskId s)); ("tui_session_id", VStr (s_tui_session_id s));
         ("parent_task_id", VStr (s_parent_task_id s)); ("operation", VStr (s_operation s));
         ("created_at", VStr (s_created_at s)); ("finished_at", s_finished_at s);
         ("status", VStr (s_status s)); ("messages", VList (map VDict (s_messages s)));
         ("result_summary", s_result_summary s)].

Definition with_messages (f : list (dict pyval) → list (dict pyval)) (s : Session) : Session :=
  mkSession (s_taskId s) (s_tui_session_id s) (s_parent_task_id s) (s_operation s) (s_created_at s)
    (s_finished_at s) (s_status s) (f (s_messages s)) (s_result_summary s) (s_baseline_keys s).

Definition finished (finished_at status : string) (result_summary : pyval) (s : Session) : Session :=
  mkSession (s_taskId s) (s_tui_session_id s) (s_parent_task_id s) (s_operation s) (s_created_at s)
    (VStr finished_at) status (s_messages s) result_summary (s_baseline_keys s).

Definition jsonl_line (entry : dict pyval) : string := json_dumps (VDict entry) +:+ newline.

Fixpoint jsonl_text (entries : list (dict pyval)) : string :=
  match entries with [] => "" | e :: l => jsonl_line e +:+ jsonl_text l end.

Section store.
(** The clock, the names [mkstemp] makes up, the settings, and whether the
    session store of the terminal interface is registered. *)
Context (clock : nat → string) (fresh_name : gmap string string → string).
Context (compaction_threshold : Z) (save_system_message tui_registered : bool).

Definition now_iso : io string := λ st,
  (Done (clock (st_tick st)),
   mkStore (st_fs st) (st_active st) (st_counts st) (st_events st) (S (st_tick st)) (st_forward st) (st_dialogue st) (st_torn st)).

Definition _append_to_jsonl (task_id : string) (entries : list (dict pyval)) : io () :=
  append_text (_jsonl_path task_id) (jsonl_text entries);;
  modify (with_counts (λ c, <[task_id := (default 0 (c !! task_id) + Z.of_nat (length entries))%Z]> c)).

Definition _needs_compaction (st : Store) (task_id : string) : bool :=
  (compaction_threshold <=? default 0 (st_counts st !! task_id))%Z.

Definition _atomic_write_json (task_id : string) : io () :=
  session ← gets (λ st, st_active st !! task_id);
  match session with
  | None => mret ()
  | Some session =>
      tmp_path ← gets (λ st, fresh_name (st_fs st) +:+ ".json.tmp");
      entry_call <[tmp_path := ""]>;;
      on_error
        (write_text false tmp_path (json_indent 0 (_serialize_for_write session));;
         os_replace tmp_path (_file_path task_id))
        (except_os (unlink tmp_path) (mret ()))
  end.

(** The three steps of a compaction and the reclaiming of an orphan before
    them; [false] stands for the early [return]s. *)
Definition reclaim_orphan (task_id : string) : io bool :=
  orphan ← exists_file (_compacted_path task_id);
  if (orphan : bool) then
    except_os
      (orphan_content ← read_text (_compacted_path task_id);
       live ← exists_file (_jsonl_path task_id);
       live_content ← (if (live : bool) then read_text (_jsonl_path task_id) else mret "");
       let merged := if truthy orphan_content && negb (endswith orphan_content newline)
                     then orphan_content +:+ newline else orphan_content in
       write_text true (_jsonl_path task_id) (merged +:+ live_content);;
       unlink (_compacted_path task_id);;
       mret true)
      (mret false)
  else mret true.

Definition _compact (task_id : string) : io () :=
  go ← reclaim_orphan task_id;
  if negb go then mret () else
  live ← exists_file (_jsonl_path task_id);
  renamed ← (if (live : bool)
             then except_os (os_replace (_jsonl_path task_id) (_compacted_path task_id);; mret true) (mret false)
             else mret true);
  if negb renamed then mret () else
  written ← except_os (_atomic_write_json task_id;; mret true) (mret false);
  if negb written then mret () else
  orphan ← exists_file (_compacted_path task_id);
  cleaned ← (if (orphan : bool)
             then except_os (unlink (_compacted_path task_id);; mret true) (mret false)
             else mret true);
  if negb cleaned then mret () else
  modify (with_counts <[task_id := 0%Z]>).

(** Messages that are not recorded: deletions, system messages when the
    settings say so, and those with the marker. *)
Definition skipped (msg : LcMessage) : bool :=
  is_remove msg || (bool_decide (lc_class msg = CSystem) && negb save_system_message) ||
  py_truthy (py_get NO_SESSION_MARKER (lc_kwargs msg)).

(** The clock is read once for each message. *)
Fixpoint baseline_keys_of (messages : list LcMessage) : io (list string) :=
  match messages with
  | [] => mret []
  | msg :: rest =>
      if skipped msg then baseline_keys_of rest
      else
        now ← now_iso;
        let key := _message_dedup_key (_serialize_message_full now msg) in
        keys ← baseline_keys_of rest;
        mret (key :: keys)
  end.

(** The entries of the messages whose keys are not among [existing], and the
    messages themselves with the name of the node set on them. *)
Fixpoint new_entries (node_name : string) (existing : list string) (messages : list LcMessage)
    : io (list (dict pyval) * list LcMessage) :=
  match messages with
  | [] => mret ([], [])
  | msg :: rest =>
      if skipped msg then
        r ← new_entries node_name existing rest; mret (r.1, msg :: r.2)
      else
        let msg := set_node node_name msg in
        now ← now_iso;
        let entry := _serialize_message_full now msg in
        let key := _message_dedup_key entry in
        if key ∈? existing then
          r ← new_entries node_name existing rest; mret (r.1, msg :: r.2)
        else
          r ← new_entries node_name (key :: existing) rest; mret (entry :: r.1, msg :: r.2)
  end.

Definition existing_keys (session : Session) : list string :=
  map _message_dedup_key (s_messages session) ++ s_baseline_keys session.

(** The log first, then the memory: [false] for the [return] after a failed
    write. *)
Definition record_entries (task_id : string) (entries : list (dict pyval)) : io () :=
  ok ← except_os (_append_to_jsonl task_id entries;; mret true) (mret false);
  if negb ok then mret () else
  modify (with_active (alter (with_messages (λ l, l ++ entries)) task_id));;
  needs ← gets (λ st, _needs_compaction st task_id);
  if (needs : bool) then _compact task_id else mret ().

Definition append_messages (task_id : string) (messages : list LcMessage) (node_name : string)
    : io (list LcMessage) :=
  session ← gets (λ st, st_active st !! task_id);
  match session with
  | None => mret messages
  | Some session =>
      r ← new_entries node_name (existing_keys session) messages;
      if nonempty r.1 then record_entries task_id r.1;; mret r.2 else mret r.2
  end.

(** The message given is changed too, and is the one kept. *)
Definition append_raw_message (task_id : string) (msg_dict : dict pyval) : io (dict pyval) :=
  session ← gets (λ st, st_active st !! task_id);
  match session with
  | None => mret msg_dict
  | Some _ =>
      msg_dict ← (if dict_mem "time" msg_dict then mret msg_dict
                  else now ← now_iso; mret (dict_set "time" (VStr now) msg_dict));
      record_entries task_id [msg_dict];;
      mret msg_dict
  end.

Definition INTENT_CLARIFICATION : string := "intent_clarification".

Definition create_session (task_id operation tui_session_id parent_task_id : string)
    (baseline_messages initial_messages : list LcMessage) : io () :=
  ts ← now_iso;
  keys ← baseline_keys_of baseline_messages;
  let session_data :=
    mkSession task_id tui_session_id parent_task_id operation ts VNone "active" [] VNone keys in
  modify (with_active <[task_id := session_data]>);;
  except_os (_atomic_write_json task_id) (modify (with_active (delete task_id));; os_error);;
  (if nonempty initial_messages
   then _ ← append_messages task_id initial_messages INTENT_CLARIFICATION; mret ()
   else mret ());;
  if truthy tui_session_id && tui_registered then
    modify (λ st, mkStore (st_fs st) (st_active st) (st_counts st) (st_events st) (st_tick st)
                    (st_forward st ++ [(tui_session_id, task_id)]) (st_dialogue st) (st_torn st))
  else mret ().

(** [if p.exists(): p.unlink()], an error logged. *)
Definition discard (name : string) : io () :=
  e ← exists_file name;
  if (e : bool) then except_os (unlink name) (mret ()) else mret ().

(** The end of [finalize_session], after the remaining messages: the outcome,
    the last snapshot, and the logs removed once it is written. *)
Definition close_session (task_id : string) (result_summary : pyval) (status : string) : io () :=
  now ← now_iso;
  modify (with_active (alter (finished now status (py_or result_summary VNone)) task_id));;
  snapshot_ok ← except_os (_atomic_write_json task_id;; mret true) (mret false);
  (if (snapshot_ok : bool)
   then discard (_jsonl_path task_id);; discard (_compacted_path task_id)
   else mret ());;
  modify (with_counts (delete task_id));;
  modify (with_active (delete task_id)).

Definition finalize_session (task_id : string) (remaining_messages : list LcMessage)
    (result_summary : pyval) (status : string) : io () :=
  session ← gets (λ st, st_active st !! task_id);
  match session with
  | None => mret ()
  | Some session =>
      (if nonempty remaining_messages then
         parts ← lift (_split_at_handoff remaining_messages);
         (if nonempty parts.1 && truthy (s_tui_session_id session) && tui_registered then
            modify (λ st, mkStore (st_fs st) (st_active st) (st_counts st) (st_events st) (st_tick st)
                      (st_forward st) (st_dialogue st ++ [(s_tui_session_id session, parts.1)]) (st_torn st))
          else mret ());;
         _ ← append_messages task_id parts.2 ""; mret ()
       else mret ());;
      close_session task_id result_summary status
  end.

(** ** Reading *)

(** The values on the lines of a log; corrupt lines are left out, but an
    integer too long for the interpreter raises. *)
Fixpoint replay_lines (lines : list string) : Exc (list pyval) :=
  match lines with
  | [] => Some []
  | line :: rest =>
      let line := strip line in
      if negb (truthy line) then replay_lines rest
      else match json_loads line with
           | JOk v => l ← replay_lines rest; Some (v :: l)
           | JDecodeError => replay_lines rest
           | JValueError => Raise
           end
  end.

Definition _replay_jsonl_file (name : string) : io (list pyval) :=
  except_os
    (text ← read_text name; lift (replay_lines (split_on "010" text)))
    (mret []).

(** First seen first; what is not a dict has no [get]. *)
Fixpoint dedup_entries (seen : list string) (l : list pyval) : Exc (list (dict pyval)) :=
  match l with
  | [] => Some []
  | v :: rest =>
      msg ← as_dict v;
      let key := _message_dedup_key msg in
      if key ∈? seen then dedup_entries seen rest
      else r ← dedup_entries (key :: seen) rest; Some (msg :: r)
  end.

(** [json.loads(path.read_text())], [None] for the errors that are caught. *)
Definition load_snapshot (task_id : string) : io (option (dict pyval)) :=
  except_os
    (text ← read_text (_file_path task_id);
     match json_loads text with
     | JOk v => d ← lift (as_dict v); mret (Some d)
     | JDecodeError => mret None
     | JValueError => lift Raise
     end)
    (mret None).

Definition read_session (task_id : string) : io (option (dict pyval)) :=
  e ← exists_file (_file_path task_id);
  if negb e then mret None else
  data ← load_snapshot task_id;
  match data with
  | None => mret None
  | Some data =>
      snapshot ← lift (py_iter (get_d "messages" (VList []) data));
      orphan ← exists_file (_compacted_path task_id);
      set_aside ← (if (orphan : bool)
                   then l ← _replay_jsonl_file (_compacted_path task_id);
                        except_os (unlink (_compacted_path task_id)) (mret ());;
                        mret l
                   else mret []);
      live ← exists_file (_jsonl_path task_id);
      increments ← (if (live : bool) then _replay_jsonl_file (_jsonl_path task_id) else mret []);
      deduped ← lift (dedup_entries [] (snapshot ++ set_aside ++ increments));
      mret (Some (dict_set "messages" (VList (map VDict deduped)) data))
  end.

(** Names matching [task-*.json], in order, without the suffix. *)
Definition list_tasks (st : Store) : list string :=
  map (λ n, String.substring 0 (String.length n - 5) n)
    (merge_sort String.le (List.filter (λ n, startswith n "task-" && endswith n ".json")
                             (elements (dom (st_fs st))))).
End store.
