(* ===== verification/SessionLog.v ===== *)
(** * The files of a task record

    Which messages a record on disk holds: first occurrences by key, the names
    of the files, what a log reads as, also when its last write was cut, and
    what [read_session] returns. *)

From stdpp Require Import base list strings sets gmap.
From Stdlib Require Import ZArith Ascii.
From S2P Require Import Prelude PyText PyValue PyOps Failure JsonStored Json JsonDump SessionMessage SessionStore.

(** ** The order of first occurrences *)

Section first_seen.
Implicit Types (l : list (dict pyval)) (seen : list string).

Definition keys l : list string := map _message_dedup_key l.

Fixpoint first_seen seen l : list (dict pyval) :=
  match l with
  | [] => []
  | e :: l' =>
      let k := _message_dedup_key e in
      if k ∈? seen then first_seen seen l' else e :: first_seen (k :: seen) l'
  end.

Lemma dedup_entries_seen seen l : dedup_entries seen (map VDict l) = Some (first_seen seen l).
Proof.
  revert seen. induction l as [|e l IH]; intros seen; [done|]. cbn [map dedup_entries first_seen as_dict].
  cbn [mbind option_bind]. destruct (_ ∈? seen); [apply IH|]. by rewrite IH.
Qed.

(** Only the members of [seen] matter. *)
Lemma first_seen_ext s1 s2 l : (∀ k, k ∈ s1 ↔ k ∈ s2) → first_seen s1 l = first_seen s2 l.
Proof.
  revert s1 s2. induction l as [|e l IH]; intros s1 s2 Hs; [done|]. cbn [first_seen].
  assert (Hk : (_message_dedup_key e ∈? s1) = (_message_dedup_key e ∈? s2)).
  { apply eq_true_iff_eq. rewrite !str_in_spec. apply Hs. }
  rewrite Hk. destruct (_ ∈? s2); [by apply IH|]. f_equal. apply IH. set_solver.
Qed.

Lemma first_seen_app seen a b : first_seen seen (a ++ b) = first_seen seen a ++ first_seen (keys a ++ seen) b.
Proof.
  revert seen. induction a as [|e a IH]; intros seen; [done|]. cbn [app first_seen].
  destruct (_ ∈? seen) eqn:E; cbn [app]; rewrite IH; f_equal; [|f_equal]; apply first_seen_ext; cbn; [|set_solver].
  intros k. rewrite !list_elem_of_In. apply str_in_spec, list_elem_of_In in E. cbn. intuition (subst; auto).
  apply in_or_app. by right.
Qed.

Lemma first_seen_keys seen l k : k ∈ keys (first_seen seen l) ↔ k ∈ keys l ∧ k ∉ seen.
Proof.
  revert seen. induction l as [|e l IH]; intros seen; cbn [first_seen keys map]; [set_solver|].
  destruct (_ ∈? seen) eqn:E.
  - apply str_in_spec in E. rewrite IH. unfold keys. set_solver.
  - apply not_true_iff_false in E. rewrite str_in_spec in E. unfold keys in *. cbn [map].
    rewrite !elem_of_cons, IH. destruct (decide (k = _message_dedup_key e)) as [->|]; set_solver.
Qed.

Lemma first_seen_absorb seen l : (∀ k, k ∈ keys l → k ∈ seen) → first_seen seen l = [].
Proof.
  induction l as [|e l IH]; intros H; [done|]. cbn [first_seen].
  rewrite (proj2 (str_in_spec _ _)) by (apply H; cbn; set_solver). apply IH. set_solver.
Qed.

Lemma first_seen_nodup seen l : NoDup (keys (first_seen seen l)).
Proof.
  revert seen. induction l as [|e l IH]; intros seen; cbn [first_seen]; [constructor|].
  destruct (_ ∈? seen); [apply IH|]. constructor; [|apply IH]. change (map _message_dedup_key ?x) with (keys x).
  rewrite first_seen_keys. set_solver.
Qed.

(** Lists read as the same messages. *)
Definition same_messages (a b : list (dict pyval)) : Prop := first_seen [] a = first_seen [] b.

#[export] Instance same_messages_equiv : Equivalence same_messages.
Proof. unfold same_messages. split; repeat intros ?; congruence. Qed.

Lemma same_keys a b : same_messages a b → ∀ k, k ∈ keys a ↔ k ∈ keys b.
Proof.
  intros H k. pose proof (first_seen_keys [] a k). pose proof (first_seen_keys [] b k).
  unfold same_messages in H. rewrite H in *. set_solver.
Qed.

#[export] Instance app_same : Proper (same_messages ==> eq ==> same_messages) (app (A := dict pyval)).
Proof.
  intros a b H c ? <-. unfold same_messages in *. rewrite !first_seen_app, H. f_equal.
  apply first_seen_ext. intros k. rewrite !app_nil_r. by apply same_keys.
Qed.

(** Messages already there are not read again. *)
Lemma same_absorb a b : (∀ k, k ∈ keys b → k ∈ keys a) → same_messages (a ++ b) a.
Proof.
  intros H. unfold same_messages. rewrite first_seen_app, (first_seen_absorb _ b), app_nil_r; [done|].
  rewrite app_nil_r. apply H.
Qed.

Lemma keys_app a b : keys (a ++ b) = keys a ++ keys b.
Proof. apply map_app. Qed.
(** Messages with different keys are all first occurrences. *)
Lemma first_seen_distinct seen l : NoDup (keys l) → (∀ k, k ∈ keys l → k ∉ seen) → first_seen seen l = l.
Proof.
  revert seen. induction l as [|e l IH]; intros seen Hnd Hs; [done|]. cbn [keys map first_seen] in *. apply NoDup_cons in Hnd as [Hn Hnd].
  rewrite (proj2 (str_in_false _ seen)) by (apply Hs; by left). f_equal. apply IH; [done|]. intros k Hk [->|Hin]%elem_of_cons; [done|].
  by apply (Hs k); [right|].
Qed.
End first_seen.

(** ** Names of files *)

Definition extensions : list string := [".json"; ".jsonl"; ".jsonl.compacted"; ".json.tmp"].

Fixpoint last_char (s : string) : option ascii :=
  match s with EmptyString => None | String c s' => match last_char s' with None => Some c | r => r end end.

Lemma last_char_app a b : b ≠ "" → last_char (a +:+ b) = last_char b.
Proof.
  intros Hb. induction a as [|c a IH]; [done|]. cbn. rewrite IH.
  destruct b as [|d b]; [done|]. cbn. by destruct (last_char b).
Qed.

Lemma append_cancel a b s : a +:+ s = b +:+ s → a = b.
Proof.
  intros H. assert (Hm : ∀ m, s = m +:+ s → m = "").
  { intros m Hm. apply (f_equal String.length) in Hm. rewrite length_append in Hm. destruct m; [done|]. cbn in Hm. lia. }
  apply append_split in H as [(m & -> & Hs)|(m & -> & Hs)]; by rewrite (Hm m Hs), append_empty_r.
Qed.

(** A task and a kind of file determine the name. *)
Lemma name_inj a b e1 e2 : e1 ∈ extensions → e2 ∈ extensions → a +:+ e1 = b +:+ e2 → a = b ∧ e1 = e2.
Proof.
  intros H1 H2 H. assert (He : e1 = e2).
  { pose proof (f_equal last_char H) as Hl.
    rewrite !last_char_app in Hl by (intros ->; by apply (bool_decide_unpack _) in H1 || set_solver).
    unfold extensions in *. repeat (apply elem_of_cons in H1 as [->|H1]); repeat (apply elem_of_cons in H2 as [->|H2]); set_solver. }
  subst. split; [by apply (append_cancel _ _ e2) | done].
Qed.

(** ** Logs *)

Definition entry_ok (e : dict pyval) : Prop := recordable (VDict e).

Lemma clean_log J : Forall entry_ok J → clean_text (jsonl_text J).
Proof.
  induction 1 as [|e J He _ IH]; [done|]. cbn [jsonl_text]. unfold jsonl_line.
  apply clean_app; [apply clean_app; [by apply clean_dumps | done] | done].
Qed.

(** One line holds one entry. *)
Lemma replay_entry e rest : entry_ok e → replay_lines (json_dumps (VDict e) :: rest) = l ← replay_lines rest; Some (VDict e :: l).
Proof. intros [Hj _]. cbn [replay_lines]. by rewrite strip_dict, json_roundtrip. Qed.

Lemma replay_log J tail : Forall entry_ok J →
  replay_lines (split_on "010" (jsonl_text J +:+ tail)) = l ← replay_lines (split_on "010" tail); Some (map VDict J ++ l).
Proof.
  induction 1 as [|e J He _ IH]; [cbn; by destruct (replay_lines _)|].
  cbn [jsonl_text]. unfold jsonl_line. rewrite !append_assoc, split_first_line by (apply dumps_one_line, He).
  rewrite replay_entry by done. rewrite IH. by destruct (replay_lines (split_on "010" tail)).
Qed.

Lemma replay_whole J : Forall entry_ok J → replay_lines (split_on "010" (jsonl_text J)) = Some (map VDict J).
Proof.
  intros H. rewrite <- (append_empty_r (jsonl_text J)), (replay_log J "" H). cbn. by rewrite app_nil_r.
Qed.

(** What an append that was cut leaves reads as the first of its entries. *)
Lemma replay_cut B p r : Forall entry_ok B → jsonl_text B = p +:+ r →
  ∃ B', B' `prefix_of` B ∧ replay_lines (split_on "010" p) = Some (map VDict B').
Proof.
  intros HB. revert p. induction HB as [|e B He _ IH]; intros p H; [by destruct p; [exists []|]|].
  assert (Ho : one_line (json_dumps (VDict e)) = true) by (apply dumps_one_line, He).
  assert (Hfull : ∃ B', B' `prefix_of` e :: B ∧ replay_lines (split_on "010" (json_dumps (VDict e))) = Some (map VDict B')).
  { exists [e]. split; [by exists B|]. by rewrite one_line_split, replay_entry. }
  cbn [jsonl_text] in H. unfold jsonl_line in H. rewrite append_assoc in H.
  apply append_split in H as [(m & Hm & _)|(m & -> & H)].
  - destruct m as [|c m]; [by rewrite append_empty_r in Hm; rewrite <- Hm|].
    exists []. split; [apply prefix_nil|]. rewrite one_line_split by (apply (one_line_part p (String c m)); by rewrite <- Hm).
    destruct p as [|d p]; [done|]. cbn [replay_lines]. destruct (torn_line e (String d p) (String c m)) as [-> ->]; done.
  - destruct m as [|c m]; [by rewrite append_empty_r|]. cbn in H. injection H as <- H.
    destruct (IH m H) as (B' & [B'' ->] & HB'). exists (e :: B'). split; [by exists B''|].
    change (String "010" m) with (newline +:+ m). by rewrite split_first_line, replay_entry, HB' by done.
Qed.

(** ** Records on disk *)

Definition log_is (fs : gmap string string) (name : string) (l : list (dict pyval)) : Prop :=
  Forall entry_ok l ∧ ((fs !! name = None ∧ l = []) ∨ fs !! name = Some (jsonl_text l)).

Definition log_reads (fs : gmap string string) (name : string) (l : list (dict pyval)) : Prop :=
  (fs !! name = None ∧ l = []) ∨
  ∃ raw text, fs !! name = Some raw ∧ decode_text raw = Some text ∧ replay_lines (split_on "010" text) = Some (map VDict l).

Definition snapshot_is (fs : gmap string string) (t : string) (s : Session) : Prop :=
  recordable (_serialize_for_write s) ∧ fs !! _file_path t = Some (json_indent 0 (_serialize_for_write s)).

(** The snapshot [s], the log set aside [C] and the live log [J]. *)
Record on_disk (fs : gmap string string) (t : string) (s : Session) (C J : list (dict pyval)) : Prop := {
  disk_snapshot : snapshot_is fs t s;
  disk_aside : log_is fs (_compacted_path t) C;
  disk_live : log_is fs (_jsonl_path t) J }.

(** The record reads as the messages [l]. *)
Definition disk_reads (fs : gmap string string) (t : string) (l : list (dict pyval)) : Prop :=
  ∃ s C J, snapshot_is fs t s ∧ log_reads fs (_compacted_path t) C ∧ log_reads fs (_jsonl_path t) J ∧
           l = s_messages s ++ C ++ J.

Lemma log_is_reads fs name l : log_is fs name l → log_reads fs name l.
Proof.
  intros [Hl [H|H]]; [by left|]. right. exists (jsonl_text l), (jsonl_text l).
  destruct (clean_log l Hl). split; [done|]. by rewrite decode_kept, replay_whole.
Qed.

Lemma on_disk_reads fs t s C J : on_disk fs t s C J → disk_reads fs t (s_messages s ++ C ++ J).
Proof. intros [Hs HC HJ]. exists s, C, J. auto using log_is_reads. Qed.

(** A log after an append that was cut at a character. *)
Lemma log_cut fs name J B k :
  log_is fs name J → Forall entry_ok B → utf8_valid (bytes_take k (jsonl_text B)) = true →
  ∃ B', B' `prefix_of` B ∧ log_reads (<[name := default "" (fs !! name) +:+ bytes_take k (jsonl_text B)]> fs) name (J ++ B').
Proof.
  intros [HJ Hf] HB Hu. destruct (bytes_take_part k (jsonl_text B)) as [r Hr].
  destruct (replay_cut B _ r HB Hr) as (B' & Hp & HB'). exists B'. split; [done|]. right.
  set (tail := bytes_take k (jsonl_text B)) in *. exists (jsonl_text J +:+ tail), (jsonl_text J +:+ tail).
  assert (Hd : default "" (fs !! name) = jsonl_text J) by (by destruct Hf as [[-> ->]| -> ]).
  rewrite lookup_insert_eq, Hd. split; [done|]. split.
  - destruct (clean_log J HJ) as [H1 H2]. apply decode_kept; [by rewrite utf8_valid_app|].
    destruct (clean_log B HB) as [_ H3]. rewrite Hr, no_cr_app in H3. apply andb_true_iff in H3 as [H3 _].
    by rewrite no_cr_app, H2.
  - by rewrite replay_log, HB', map_app.
Qed.

Lemma jsonl_text_app a b : jsonl_text (a ++ b) = jsonl_text a +:+ jsonl_text b.
Proof. induction a as [|e a IH]; [done|]. cbn [jsonl_text app]. by rewrite append_assoc, IH. Qed.

Lemma log_append fs name J B :
  log_is fs name J → Forall entry_ok B → log_is (<[name := default "" (fs !! name) +:+ jsonl_text B]> fs) name (J ++ B).
Proof.
  intros [HJ Hf] HB. split; [by apply Forall_app|]. right. rewrite lookup_insert_eq. f_equal.
  assert (Hd : default "" (fs !! name) = jsonl_text J) by (by destruct Hf as [[-> ->]| -> ]). by rewrite Hd, jsonl_text_app.
Qed.

(** ** Reading a record *)

Lemma bind_done {A B} (m : io A) (f : A → io B) st a st' : m st = (Done a, st') → (m ≫= f) st = f a st'.
Proof. intros H. unfold mbind, io_bind. by rewrite H. Qed.

Lemma read_text_done name st raw text :
  st_events st = [] → st_fs st !! name = Some raw → decode_text raw = Some text → read_text name st = (Done text, st).
Proof.
  intros He Hf Hd. unfold read_text. rewrite (bind_done _ _ st IoOk st) by (unfold next_event; by rewrite He).
  rewrite (bind_done _ _ st (Some raw) st) by (unfold gets; by rewrite Hf). unfold lift. by rewrite Hd.
Qed.

Definition messages_doc (s : Session) (l : list (dict pyval)) : dict pyval :=
  match _serialize_for_write s with VDict d => dict_set "messages" (VList (map VDict l)) d | _ => [] end.

Lemma exists_done name st : exists_file name st = (Done (bool_decide (is_Some (st_fs st !! name))), st).
Proof. done. Qed.

Lemma load_snapshot_done t s st :
  st_events st = [] → snapshot_is (st_fs st) t s →
  ∃ d, _serialize_for_write s = VDict d ∧ load_snapshot t st = (Done (Some d), st).
Proof.
  intros He [Hr Hf]. eexists. split; [done|]. unfold load_snapshot, except_os.
  destruct (clean_indent _ 0 Hr) as [Hu Hn].
  rewrite (bind_done _ _ st _ st) by (eapply read_text_done; [done | done | by apply decode_kept]).
  by rewrite (indent_roundtrip 0 _ (proj1 Hr)).
Qed.

Lemma replay_done name l st :
  st_events st = [] → is_Some (st_fs st !! name) → log_reads (st_fs st) name l →
  _replay_jsonl_file name st = (Done (map VDict l), st).
Proof.
  intros He [raw Hraw] [[Hn _]|(raw' & text & Hf & Hd & Hl)]; [congruence|].
  unfold _replay_jsonl_file, except_os. rewrite (bind_done _ _ st text st) by (by eapply read_text_done).
  unfold lift. by rewrite Hl.
Qed.

(** Nothing fails: the orphan is read and removed. *)
Lemma read_aside t l st :
  st_events st = [] → log_reads (st_fs st) (_compacted_path t) l →
  ∃ st', (if bool_decide (is_Some (st_fs st !! _compacted_path t))
          then r ← _replay_jsonl_file (_compacted_path t);
               except_os (unlink (_compacted_path t)) (mret ());; mret r
          else mret []) st = (Done (map VDict l), st') ∧ st_events st' = [] ∧ st_fs st' = delete (_compacted_path t) (st_fs st).
Proof.
  intros He Hl. case_bool_decide as Hx.
  - exists (with_fs (delete (_compacted_path t)) st). split; [|done].
    rewrite (bind_done _ _ st (map VDict l) st) by (by apply replay_done).
    erewrite bind_done; [done|]. unfold except_os, unlink. destruct Hx as [raw Hraw].
    rewrite (bind_done _ _ st (Some raw) st) by (unfold gets; by rewrite Hraw).
    unfold entry_call. by rewrite (bind_done _ _ st IoOk st) by (unfold next_event; by rewrite He).
  - apply eq_None_not_Some in Hx. destruct Hl as [[_ ->]|(? & ? & ? & _)]; [|congruence].
    exists st. split; [done|]. split; [done|]. by rewrite delete_id.
Qed.

Lemma read_live t l st :
  st_events st = [] → log_reads (st_fs st) (_jsonl_path t) l →
  (if bool_decide (is_Some (st_fs st !! _jsonl_path t)) then _replay_jsonl_file (_jsonl_path t) else mret []) st =
  (Done (map VDict l), st).
Proof.
  intros He Hl. case_bool_decide as Hx; [by apply replay_done|].
  apply eq_None_not_Some in Hx. destruct Hl as [[_ ->]|(? & ? & ? & _)]; [done | congruence].
Qed.

Lemma jsonl_compacted t : _compacted_path t ≠ _jsonl_path t.
Proof. intros H. apply name_inj in H as [_ H]; [done|unfold extensions; set_solver..]. Qed.

(** A record read when nothing fails: each message once, where it was first. *)
Lemma read_session_done t l st :
  st_events st = [] → disk_reads (st_fs st) t l →
  ∃ s st', snapshot_is (st_fs st) t s ∧ read_session t st = (Done (Some (messages_doc s (first_seen [] l))), st').
Proof.
  intros He (s & C & J & Hs & HC & HJ & ->). exists s. unfold read_session.
  rewrite (bind_done _ _ st _ st) by apply exists_done.
  rewrite bool_decide_true by (rewrite (proj2 Hs); eauto). cbn [negb].
  destruct (load_snapshot_done t s st He Hs) as (d & Hd & Hload). rewrite (bind_done _ _ st _ st Hload).
  assert (Hm : py_iter (get_d "messages" (VList []) d) = Some (map VDict (s_messages s))).
  { unfold _serialize_for_write in Hd. injection Hd as <-. done. }
  rewrite Hm. rewrite (bind_done _ _ st (map VDict (s_messages s)) st) by done.
  rewrite (bind_done _ _ st _ st) by apply exists_done.
  destruct (read_aside t C st He HC) as (st1 & Ha & He1 & Hf1). rewrite (bind_done _ _ st _ st1 Ha).
  rewrite (bind_done _ _ st1 _ st1) by apply exists_done.
  assert (HJ1 : log_reads (st_fs st1) (_jsonl_path t) J).
  { rewrite Hf1. unfold log_reads. by rewrite lookup_delete_ne by apply jsonl_compacted. }
  rewrite (bind_done _ _ st1 _ st1 (read_live t J st1 He1 HJ1)).
  rewrite <- !map_app, dedup_entries_seen. erewrite bind_done by done.
  exists st1. split; [done|]. unfold messages_doc. by rewrite Hd.
Qed.

