(* ===== verification/SessionSteps.v ===== *)
(** * Steps of the task record store

    A weakest precondition for the operations over what the invariant sees of
    a store, and for each operation that it keeps the invariant: every session
    in memory is on disk. *)

From stdpp Require Import base list strings sets gmap.
From Stdlib Require Import ZArith Ascii.
From S2P Require Import Prelude PyText PyValue PyOps Failure JsonStored Json JsonDump SessionMessage SessionStore SessionLog.

(** ** Reasoning about the operations

    What the invariant sees of a store: the files, the sessions in memory,
    and whether a log was damaged. *)

Record View := mkView { v_fs : gmap string string; v_active : gmap string Session; v_torn : bool }.
Definition view (st : Store) : View := mkView (st_fs st) (st_active st) (st_torn st).

Definition wp {A} (m : io A) (Q : res A → View → Prop) (v : View) : Prop :=
  ∀ st, view st = v → Q (m st).1 (view (m st).2).

Section wp.
Context {A B : Type}.
Implicit Types (m : io A) (f : A → io B).

Lemma wp_io_mono m (Q Q' : res A → View → Prop) v : wp m Q v → (∀ r v', Q r v' → Q' r v') → wp m Q' v.
Proof. intros H HQ st Hst. by apply HQ, H. Qed.

Lemma wp_io_bind m f (Q : res B → View → Prop) v :
  wp m (λ r v', match r with
                | Done a => wp (f a) Q v' | OSErr => Q OSErr v' | Raised => Q Raised v' | Died => Q Died v' end) v →
  wp (m ≫= f) Q v.
Proof.
  intros H st Hst. specialize (H st Hst). unfold mbind, io_bind. destruct (m st) as [[a| | |] st']; [|done..].
  by apply H.
Qed.

Lemma wp_ret (a : A) (Q : res A → View → Prop) v : Q (Done a) v → wp (mret a) Q v.
Proof. by intros H st <-. Qed.

Lemma wp_gets (g : Store → A) (Q : res A → View → Prop) v :
  (∀ st, view st = v → Q (Done (g st)) v) → wp (gets g) Q v.
Proof. intros H st Hst. cbn. rewrite Hst. by apply H. Qed.

Lemma wp_modify g (Q : res () → View → Prop) v : (∀ st, view st = v → Q (Done ()) (view (g st))) → wp (modify g) Q v.
Proof. intros H st Hst. by apply H. Qed.

Lemma wp_except m h (Q : res A → View → Prop) v :
  wp m (λ r v', match r with OSErr => wp h Q v' | r => Q r v' end) v → wp (except_os m h) Q v.
Proof.
  intros H st Hst. specialize (H st Hst). unfold except_os. destruct (m st) as [[a| | |] st']; try done. by apply H.
Qed.

Lemma wp_on_error m c (Q : res A → View → Prop) v :
  wp m (λ r v', match r with
                | OSErr => wp c (λ r' v'', Q (match r' with Died => Died | _ => OSErr end) v'') v'
                | Raised => wp c (λ r' v'', Q (match r' with Died => Died | _ => Raised end) v'') v'
                | r => Q r v' end) v → wp (on_error m c) Q v.
Proof.
  intros H st Hst. specialize (H st Hst). unfold on_error. destruct (m st) as [[a| | |] st']; try done;
    specialize (H st' eq_refl); by destruct (c st').
Qed.

Lemma wp_os_error (Q : res A → View → Prop) v : Q OSErr v → wp os_error Q v.
Proof. by intros H st <-. Qed.

Lemma wp_died (Q : res A → View → Prop) v : Q Died v → wp died Q v.
Proof. by intros H st <-. Qed.

Lemma wp_io_lift (x : Exc A) (Q : res A → View → Prop) v :
  Q (match x with Some a => Done a | None => Raised end) v → wp (lift x) Q v.
Proof. by intros H st <-. Qed.
End wp.

Lemma wp_event (Q : res io_event → View → Prop) v : (∀ e, Q (Done e) v) → wp next_event Q v.
Proof. intros H st <-. unfold next_event. destruct (st_events st); apply H. Qed.

Lemma wp_now clock (Q : res string → View → Prop) v : (∀ n, Q (Done (clock n)) v) → wp (now_iso clock) Q v.
Proof. intros H st <-. apply H. Qed.

Lemma wp_exists name (Q : res bool → View → Prop) v :
  Q (Done (bool_decide (is_Some (v_fs v !! name)))) v → wp (exists_file name) Q v.
Proof. intros H. apply wp_gets. by intros st <-. Qed.

Definition set_fs (fs : gmap string string) (v : View) : View := mkView fs (v_active v) (v_torn v).

Lemma wp_entry f (Q : res () → View → Prop) v :
  Q (Done ()) (set_fs (f (v_fs v)) v) → Q OSErr v → Q Died v → Q Died (set_fs (f (v_fs v)) v) → wp (entry_call f) Q v.
Proof.
  intros H1 H2 H3 H4. apply wp_io_bind, wp_event. intros [|n|[|n]].
  - apply wp_modify. by intros st <-.
  - by intros st <-.
  - by intros st <-.
  - apply wp_io_bind, wp_modify. intros st <- st' Hv. cbn. by rewrite Hv.
Qed.

Lemma wp_unlink name (Q : res () → View → Prop) v :
  Q (Done ()) (set_fs (delete name (v_fs v)) v) → Q OSErr v → Q Died v → Q Died (set_fs (delete name (v_fs v)) v) →
  wp (unlink name) Q v.
Proof.
  intros ? ? ? ?. apply wp_io_bind, wp_gets. intros st <-. destruct (st_fs st !! name); [by apply wp_entry | by apply wp_os_error].
Qed.

Lemma wp_os_replace src dst (Q : res () → View → Prop) v :
  (∀ t, v_fs v !! src = Some t → let v' := set_fs (<[dst := t]> (delete src (v_fs v))) v in Q (Done ()) v' ∧ Q Died v') →
  Q OSErr v → Q Died v → wp (os_replace src dst) Q v.
Proof.
  intros H ? ?. apply wp_io_bind, wp_gets. intros st <-. destruct (st_fs st !! src) as [t|] eqn:E; [|by apply wp_os_error].
  destruct (H t E). by apply wp_entry.
Qed.

(** A text of known content. *)
Lemma wp_read name raw text (Q : res string → View → Prop) v :
  v_fs v !! name = Some raw → decode_text raw = Some text → Q (Done text) v → Q OSErr v → Q Died v → wp (read_text name) Q v.
Proof.
  intros Hf Hd ? ? ?. apply wp_io_bind, wp_event. intros [|n|n]; [|by intros st <-..].
  apply wp_io_bind, wp_gets. intros st <-. cbn in Hf. rewrite Hf. apply wp_io_lift. by rewrite Hd.
Qed.

Definition tear (b : bool) (v : View) : View := mkView (v_fs v) (v_active v) (v_torn v || b).

Lemma wp_append name text (Q : res () → View → Prop) v :
  let add t := set_fs (<[name := default "" (v_fs v !! name) +:+ t]> (v_fs v)) v in
  Q (Done ()) (add text) → Q OSErr v → Q Died v →
  (∀ k, Q OSErr (tear true (add (bytes_take k text)))) →
  (∀ k, Q Died (tear (negb (utf8_valid (bytes_take k text))) (add (bytes_take k text)))) →
  wp (append_text name text) Q v.
Proof.
  cbn zeta. intros ? ? ? Herr Hdied. apply wp_io_bind, wp_event. intros [|[|k]|[|k]].
  - apply wp_modify. by intros st <-.
  - by intros st <-.
  - apply wp_io_bind, wp_modify. intros st <-. apply wp_io_bind, wp_modify. intros st' Hv. apply wp_os_error.
    specialize (Herr k). injection Hv as Hf Ha Ht. unfold view, with_torn. cbn. rewrite Hf, Ha, Ht. exact Herr.
  - by intros st <-.
  - apply wp_io_bind, wp_modify. intros st <-. apply wp_io_bind, wp_modify. intros st' Hv. apply wp_died.
    specialize (Hdied k). injection Hv as Hf Ha Ht. unfold view, with_torn. cbn. rewrite Hf, Ha, Ht. exact Hdied.
Qed.

Lemma wp_write is_log name text (Q : res () → View → Prop) v :
  let put t := set_fs (<[name := t]> (v_fs v)) v in
  Q (Done ()) (put text) → Q OSErr v → Q Died v →
  (∀ t, Q OSErr (tear is_log (put t))) → (∀ t, Q Died (tear is_log (put t))) →
  wp (write_text is_log name text) Q v.
Proof.
  cbn zeta. intros ? ? ? Herr Hdied. apply wp_io_bind, wp_event. intros [|[|k]|[|k]].
  - apply wp_modify. by intros st <-.
  - by apply wp_os_error.
  - apply wp_io_bind, wp_modify. intros st <-. apply wp_io_bind, wp_modify. intros st' Hv. apply wp_os_error.
    injection Hv as Hf Ha Ht. unfold view, with_torn. cbn. rewrite Hf, Ha, Ht. apply Herr.
  - by apply wp_died.
  - apply wp_io_bind, wp_modify. intros st <-. apply wp_io_bind, wp_modify. intros st' Hv. apply wp_died.
    injection Hv as Hf Ha Ht. unfold view, with_torn. cbn. rewrite Hf, Ha, Ht. apply Hdied.
Qed.

(** ** The write of a snapshot *)

(** The files of the records; temporary files are others. *)
Definition is_record_file (t name : string) : Prop :=
  name = _file_path t ∨ name = _jsonl_path t ∨ name = _compacted_path t.

(** Only the snapshot of [t] and temporary files differ. *)
Definition only_snapshot (t : string) (v v' : View) : Prop :=
  v_active v' = v_active v ∧ v_torn v' = v_torn v ∧
  ∀ t' name, is_record_file t' name → name ≠ _file_path t → v_fs v' !! name = v_fs v !! name.

Lemma ext_in e : e = ".json" ∨ e = ".jsonl" ∨ e = ".jsonl.compacted" ∨ e = ".json.tmp" → e ∈ extensions.
Proof. unfold extensions. set_solver. Qed.

Lemma record_file_name t name :
  is_record_file t name ↔ ∃ e, (e = ".json" ∨ e = ".jsonl" ∨ e = ".jsonl.compacted") ∧ name = t +:+ e.
Proof. unfold is_record_file, _file_path, _jsonl_path, _compacted_path. naive_solver. Qed.

Lemma tmp_not_record x t name : is_record_file t name → name ≠ x +:+ ".json.tmp".
Proof.
  rewrite record_file_name. intros (e & He & ->) H. apply name_inj in H as [_ ->];
    [by destruct He as [?|[?|?]] | apply ext_in; tauto..].
Qed.

(** A file belongs to one record only. *)
Lemma record_file_task t t' name : is_record_file t name → is_record_file t' name → t = t'.
Proof.
  rewrite !record_file_name. intros (e & He & ->) (e' & He' & H). apply name_inj in H as [-> _]; [done | apply ext_in; tauto..].
Qed.

Lemma record_names t : _file_path t ≠ _jsonl_path t ∧ _file_path t ≠ _compacted_path t ∧ _jsonl_path t ≠ _compacted_path t.
Proof. split_and!; intros H; apply name_inj in H as [_ H]; try done; apply ext_in; tauto. Qed.

Lemma is_file t : is_record_file t (_file_path t).
Proof. by left. Qed.
Lemma is_jsonl t : is_record_file t (_jsonl_path t).
Proof. by right; left. Qed.
Lemma is_compacted t : is_record_file t (_compacted_path t).
Proof. by right; right. Qed.

#[local] Hint Resolve is_file is_jsonl is_compacted : core.

Lemma only_snapshot_refl t v : only_snapshot t v v.
Proof. done. Qed.

Lemma only_snapshot_tmp t v v' x f :
  only_snapshot t v v' → only_snapshot t v (set_fs (partial_alter f (x +:+ ".json.tmp") (v_fs v')) v').
Proof.
  intros (Ha & Ht & Hf). split_and!; [done..|]. intros t' name Hn Hne. cbn.
  rewrite lookup_partial_alter_ne by (apply not_eq_sym; by eapply tmp_not_record). by apply (Hf t').
Qed.

Lemma tmp_keeps_snapshot t v x f : partial_alter f (x +:+ ".json.tmp") (v_fs v) !! _file_path t = v_fs v !! _file_path t.
Proof. apply lookup_partial_alter_ne, not_eq_sym. by eapply tmp_not_record. Qed.

Lemma tear_false v : tear false v = v.
Proof. destruct v. unfold tear. cbn. by rewrite orb_false_r. Qed.

(** ** A damaged log stays damaged *)

Definition keeps {A} (m : io A) : Prop := ∀ st, st_torn st = true → st_torn (m st).2 = true.

Lemma keeps_bind {A B} (m : io A) (f : A → io B) : keeps m → (∀ a, keeps (f a)) → keeps (m ≫= f).
Proof. intros Hm Hf st Hst. unfold mbind, io_bind. specialize (Hm st Hst). destruct (m st) as [[a| | |] st']; try done. by apply Hf. Qed.

Lemma keeps_except {A} (m h : io A) : keeps m → keeps h → keeps (except_os m h).
Proof. intros Hm Hh st Hst. unfold except_os. specialize (Hm st Hst). destruct (m st) as [[a| | |] st']; try done. by apply Hh. Qed.

Lemma keeps_on_error {A} (m : io A) h : keeps m → keeps h → keeps (on_error m h).
Proof.
  intros Hm Hh st Hst. unfold on_error. specialize (Hm st Hst). destruct (m st) as [[a| | |] st']; try done;
    specialize (Hh st' Hm); by destruct (h st').
Qed.

Lemma keeps_modify f : (∀ st, st_torn st = true → st_torn (f st) = true) → keeps (modify f).
Proof. by intros H st Hst; apply H. Qed.

Lemma keeps_tear b : keeps (modify (with_torn b)).
Proof. intros st Hst. cbn. by rewrite Hst. Qed.

Lemma keeps_event : keeps next_event.
Proof. intros st Hst. unfold next_event. by destruct (st_events st). Qed.

Create HintDb keeps.
#[local] Hint Resolve keeps_event keeps_tear : keeps.

(** Calls that change nothing, changes of other fields, and the calls already
    seen to keep the mark. *)
Ltac keeps :=
  repeat first
    [ done
    | solve [auto with keeps]
    | apply keeps_except
    | apply keeps_on_error
    | apply keeps_bind; [|intros ?]
    | apply keeps_modify; (by intros ? ?)
    | progress case_match
    | (intros ? ?; done) ].

Lemma keeps_entry f : keeps (entry_call f).
Proof. unfold entry_call. keeps. Qed.
#[local] Hint Resolve keeps_entry : keeps.

Lemma keeps_unlink name : keeps (unlink name).
Proof. unfold unlink. keeps. Qed.
Lemma keeps_os_replace src dst : keeps (os_replace src dst).
Proof. unfold os_replace. keeps. Qed.
Lemma keeps_read name : keeps (read_text name).
Proof. unfold read_text. keeps. Qed.
Lemma keeps_append name text : keeps (append_text name text).
Proof. unfold append_text. keeps. Qed.
Lemma keeps_write is_log name text : keeps (write_text is_log name text).
Proof. unfold write_text. keeps. Qed.
#[local] Hint Resolve keeps_unlink keeps_os_replace keeps_read keeps_append keeps_write : keeps.

Section keeps.
Context (clock : nat → string) (fresh_name : gmap string string → string) (threshold : Z) (save_system tui : bool).

Lemma keeps_atomic t : keeps (_atomic_write_json fresh_name t).
Proof. unfold _atomic_write_json. keeps. Qed.
Lemma keeps_append_jsonl t B : keeps (_append_to_jsonl t B).
Proof. unfold _append_to_jsonl. keeps. Qed.
Lemma keeps_reclaim t : keeps (reclaim_orphan t).
Proof. unfold reclaim_orphan. keeps. Qed.
#[local] Hint Resolve keeps_atomic keeps_append_jsonl keeps_reclaim : keeps.

Lemma keeps_compact t : keeps (_compact fresh_name t).
Proof. unfold _compact. keeps. Qed.
#[local] Hint Resolve keeps_compact : keeps.

Lemma keeps_record t B : keeps (record_entries fresh_name threshold t B).
Proof. unfold record_entries. keeps. Qed.
Lemma keeps_new_entries node existing l : keeps (new_entries clock save_system node existing l).
Proof. revert existing. induction l as [|m l IH]; intros existing; cbn [new_entries]; keeps. Qed.
Lemma keeps_baseline l : keeps (baseline_keys_of clock save_system l).
Proof. induction l as [|m l IH]; cbn [baseline_keys_of]; keeps. Qed.
#[local] Hint Resolve keeps_record keeps_new_entries keeps_baseline : keeps.

Lemma keeps_append_messages t l node : keeps (append_messages clock fresh_name threshold save_system t l node).
Proof. unfold append_messages. keeps. Qed.
#[local] Hint Resolve keeps_append_messages : keeps.

Lemma keeps_append_raw t d : keeps (append_raw_message clock fresh_name threshold t d).
Proof. unfold append_raw_message. keeps. Qed.
Lemma keeps_create t operation tui_id parent baseline initial :
  keeps (create_session clock fresh_name threshold save_system tui t operation tui_id parent baseline initial).
Proof. unfold create_session. keeps. Qed.
Lemma keeps_discard name : keeps (discard name).
Proof. unfold discard. keeps. Qed.
#[local] Hint Resolve keeps_discard : keeps.

Lemma keeps_close t summary status : keeps (close_session clock fresh_name t summary status).
Proof. unfold close_session. keeps. Qed.
#[local] Hint Resolve keeps_close : keeps.

Lemma keeps_finalize t remaining summary status :
  keeps (finalize_session clock fresh_name threshold save_system tui t remaining summary status).
Proof. unfold finalize_session. keeps. Qed.
End keeps.

Lemma wp_torn {A} (m : io A) (Q : res A → View → Prop) v :
  keeps m → v_torn v = true → (∀ r v', v_torn v' = true → Q r v') → wp m Q v.
Proof. intros Hk Ht HQ st <-. by apply HQ, Hk. Qed.

(** ** Steps on one record *)

Definition elsewhere (t : string) (v v' : View) : Prop :=
  v_active v' = v_active v ∧ ∀ t' name, t' ≠ t → is_record_file t' name → v_fs v' !! name = v_fs v !! name.

Lemma elsewhere_refl t v : elsewhere t v v.
Proof. done. Qed.

Lemma elsewhere_fs t v v' f name :
  elsewhere t v v' → is_record_file t name → elsewhere t v (set_fs (partial_alter f name (v_fs v')) v').
Proof.
  intros [Ha Hf] Hn. split; [done|]. intros t' n Hne Hr. cbn. rewrite lookup_partial_alter_ne; [by apply (Hf t')|].
  intros <-. destruct Hne. by eapply record_file_task.
Qed.

Lemma elsewhere_tear t v v' b : elsewhere t v v' → elsewhere t v (tear b v').
Proof. done. Qed.

Lemma only_snapshot_elsewhere t v v' w : elsewhere t w v → only_snapshot t v v' → elsewhere t w v'.
Proof.
  intros [Ha Hf] (Ha' & _ & Hf'). split; [congruence|]. intros t' n Hne Hr. rewrite <- (Hf t') by done. apply (Hf' t'); [done|].
  intros ->. destruct Hne. by eapply record_file_task.
Qed.

(** The record of [t] holds what the session has in memory. *)
Definition durable (fs : gmap string string) (t : string) (s : Session) : Prop :=
  ∃ s0 C J, on_disk fs t s0 C J ∧ same_messages (s_messages s0 ++ C ++ J) (s_messages s).

(** The record of [t] reads as the messages [l]. *)
Definition readable (fs : gmap string string) (t : string) (l : list (dict pyval)) : Prop :=
  ∃ l', disk_reads fs t l' ∧ same_messages l' l.

Lemma durable_readable fs t s : durable fs t s → readable fs t (s_messages s).
Proof. intros (s0 & C & J & Hd & Hm). eexists. split; [by apply on_disk_reads | done]. Qed.

Lemma log_set fs name l : Forall entry_ok l → log_is (<[name := jsonl_text l]> fs) name l.
Proof. intros H. split; [done|]. right. apply lookup_insert_eq. Qed.

Lemma log_gone fs name : log_is (delete name fs) name [].
Proof. split; [done|]. left. by rewrite lookup_delete_eq. Qed.

Lemma log_ext fs fs' name l : fs' !! name = fs !! name → log_is fs name l → log_is fs' name l.
Proof. unfold log_is. by intros ->. Qed.

Lemma snapshot_ext fs fs' t s : fs' !! _file_path t = fs !! _file_path t → snapshot_is fs t s → snapshot_is fs' t s.
Proof. unfold snapshot_is. by intros ->. Qed.

Lemma log_decoded fs name l raw : log_is fs name l → fs !! name = Some raw → raw = jsonl_text l ∧ decode_text raw = Some raw.
Proof.
  intros [Hl [[H _]|H]] Hr; [congruence|]. assert (raw = jsonl_text l) as -> by congruence.
  split; [done|]. destruct (clean_log l Hl). by apply decode_kept.
Qed.

Lemma log_absent fs name l : log_is fs name l → fs !! name = None → l = [].
Proof. by intros [_ [[_ ->]|H]] Hn; [|congruence]. Qed.

(** A log that is not empty ends a line. *)
Lemma jsonl_text_ends C : truthy (jsonl_text C) && negb (endswith (jsonl_text C) newline) = false.
Proof.
  destruct (decide (C = [])) as [->|Hne]; [done|]. destruct (exists_last Hne) as (l & e & ->).
  rewrite jsonl_text_app. cbn [jsonl_text]. rewrite append_empty_r. unfold jsonl_line. rewrite <- append_assoc.
  set (x := jsonl_text l +:+ json_dumps (VDict e)). unfold endswith. rewrite andb_comm.
  assert (Hr : ∀ a b, str_rev (a +:+ b) = str_rev b +:+ str_rev a).
  { assert (H1 : ∀ a b, String.list_ascii_of_string (a +:+ b) = String.list_ascii_of_string a ++ String.list_ascii_of_string b).
    { induction a as [|c a IH]; intros b; [done|]. cbn. by rewrite IH. }
    assert (H2 : ∀ a b, String.string_of_list_ascii (a ++ b) = String.string_of_list_ascii a +:+ String.string_of_list_ascii b).
    { induction a as [|c a IH]; intros b; [done|]. cbn. by rewrite IH. }
    intros a b. unfold str_rev. by rewrite H1, rev_app_distr, H2. }
  rewrite Hr. unfold startswith. rewrite (proj2 (prefix_spec _ _)); [done|]. by eexists.
Qed.

Section operations.
Context (clock : nat → string) (fresh_name : gmap string string → string).
Context (threshold : Z) (save_system tui : bool).

Lemma wp_atomic_write t s (Q : res () → View → Prop) v :
  v_active v !! t = Some s →
  (∀ v', only_snapshot t v v' → v_fs v' !! _file_path t = Some (json_indent 0 (_serialize_for_write s)) → Q (Done ()) v' ∧ Q Died v') →
  (∀ v', only_snapshot t v v' → v_fs v' !! _file_path t = v_fs v !! _file_path t → Q OSErr v' ∧ Q Died v') →
  wp (_atomic_write_json fresh_name t) Q v.
Proof.
  intros Hs Hdone Herr. apply wp_io_bind, wp_gets. intros st0 <-. cbn in Hs. rewrite Hs.
  apply wp_io_bind, wp_gets. intros st1 Hv1. set (tmp := fresh_name (st_fs st1)) in *. set (v := view st0) in *.
  assert (Hsame : ∀ v', only_snapshot t v v' → v_fs v' !! _file_path t = v_fs v !! _file_path t →
    ∀ f, let v'' := set_fs (partial_alter f (tmp +:+ ".json.tmp") (v_fs v')) v' in
    only_snapshot t v v'' ∧ v_fs v'' !! _file_path t = v_fs v !! _file_path t).
  { intros v' Ho Hf f. split; [by apply only_snapshot_tmp|]. cbn. by rewrite tmp_keeps_snapshot. }
  assert (Hclean : ∀ v', only_snapshot t v v' → v_fs v' !! _file_path t = v_fs v !! _file_path t →
    wp (except_os (unlink (tmp +:+ ".json.tmp")) (mret ())) (λ r v'', Q (match r with Died => Died | _ => OSErr end) v'') v').
  { intros v' Ho Hf. destruct (Hsame v' Ho Hf (λ _, None)) as [Ho' Hf'].
    apply wp_except, wp_unlink; try apply wp_ret; by apply Herr. }
  apply wp_io_bind. destruct (Hsame v (only_snapshot_refl t v) eq_refl (λ _, Some "")) as [Ho1 Hf1].
  apply wp_entry; try (by apply Herr). apply wp_on_error, wp_io_bind.
  change (<[tmp +:+ ".json.tmp":=""]> (v_fs v)) with (partial_alter (λ _, Some "") (tmp +:+ ".json.tmp") (v_fs v)).
  set (v1 := set_fs (partial_alter (λ _, Some "") (tmp +:+ ".json.tmp") (v_fs v)) v) in *.
  apply wp_write.
  - set (doc := json_indent 0 (_serialize_for_write s)) in *. destruct (Hsame v1 Ho1 Hf1 (λ _, Some doc)) as [Ho2 Hf2].
    apply wp_os_replace; [|by apply Hclean | by apply Herr]. intros t0 Ht0. cbn [v_fs set_fs] in Ht0. rewrite lookup_insert_eq in Ht0.
    injection Ht0 as <-. cbn zeta. assert (Hfin : only_snapshot t v (set_fs (<[_file_path t:=doc]> (delete (tmp +:+ ".json.tmp") (v_fs (set_fs (<[tmp +:+ ".json.tmp":=doc]> (v_fs v1)) v1)))) (set_fs (<[tmp +:+ ".json.tmp":=doc]> (v_fs v1)) v1))).
    { destruct Ho2 as (Ha & Ht & Hn). split_and!; [done..|]. intros t' name Hr Hne. cbn.
      rewrite lookup_insert_ne by done. rewrite lookup_delete_ne by (apply not_eq_sym; by eapply tmp_not_record).
      by apply (Hn t'). }
    apply Hdone; [done|]. cbn. by rewrite lookup_insert_eq.
  - by apply Hclean.
  - by apply Herr.
  - intros x. rewrite tear_false. apply Hclean; by apply (Hsame v1 Ho1 Hf1 (λ _, Some x)).
  - intros x. rewrite tear_false. destruct (Hsame v1 Ho1 Hf1 (λ _, Some x)) as [H1 H2]. by apply (Herr _ H1 H2).
Qed.

Lemma wp_reclaim t s0 C J (Q : res bool → View → Prop) v :
  on_disk (v_fs v) t s0 C J →
  (∀ v', elsewhere t v v' → on_disk (v_fs v') t s0 [] (C ++ J) → v_fs v' !! _compacted_path t = None →
         Q (Done true) v' ∧ Q Died v') →
  (∀ v', elsewhere t v v' → on_disk (v_fs v') t s0 C J ∨ on_disk (v_fs v') t s0 C (C ++ J) → Q (Done false) v' ∧ Q Died v') →
  (∀ v', elsewhere t v v' → v_torn v' = true → Q (Done false) v' ∧ Q Died v') →
  wp (reclaim_orphan t) Q v.
Proof.
  intros [Hs HC HJ] Hok Hkeep Htorn. destruct (record_names t) as (N1 & N2 & N3).
  apply wp_io_bind, wp_exists. case_bool_decide as Hx.
  2:{ apply eq_None_not_Some in Hx. assert (C = []) as -> by (by eapply log_absent). apply wp_ret.
      apply Hok; [apply elsewhere_refl | by split | done]. }
  destruct Hx as [raw Hraw]. destruct (log_decoded _ _ _ _ HC Hraw) as [-> Hdec].
  assert (Hk : Q (Done false) v ∧ Q Died v) by (apply Hkeep; [apply elsewhere_refl | left; by split]).
  apply wp_except, wp_io_bind. eapply wp_read; [done | done | | by apply wp_ret, Hk | by apply Hk].
  assert (Hmerged : wp (let merged := if truthy (jsonl_text C) && negb (endswith (jsonl_text C) newline)
                        then jsonl_text C +:+ newline else jsonl_text C in
       write_text true (_jsonl_path t) (merged +:+ jsonl_text J);; unlink (_compacted_path t);; mret true)
       (λ r v', match r with OSErr => wp (mret false) Q v' | _ => Q r v' end) v).
  { cbn zeta. rewrite jsonl_text_ends, <- jsonl_text_app. apply wp_io_bind.
    assert (HCJ : Forall entry_ok (C ++ J)) by (apply Forall_app; split; [apply HC | apply HJ]).
    set (v1 := set_fs (<[_jsonl_path t:=jsonl_text (C ++ J)]> (v_fs v)) v).
    assert (H1 : on_disk (v_fs v1) t s0 C (C ++ J)).
    { split; cbn; [|eapply log_ext; [|done]|by apply log_set]; [eapply snapshot_ext; [|done]|]; by rewrite lookup_insert_ne. }
    assert (He1 : elsewhere t v v1) by (by apply elsewhere_fs).
    assert (Ht : ∀ x, Q (Done false) (tear true (set_fs (<[_jsonl_path t:=x]> (v_fs v)) v)) ∧ Q Died (tear true (set_fs (<[_jsonl_path t:=x]> (v_fs v)) v))).
    { intros x. apply Htorn; [by apply elsewhere_tear, elsewhere_fs | cbn; by rewrite orb_true_r]. }
    apply wp_write; [| by apply wp_ret, Hk | by apply Hk | intros x; apply wp_ret, Ht | intros x; apply Ht].
    set (v2 := set_fs (delete (_compacted_path t) (v_fs v1)) v1).
    assert (H2 : on_disk (v_fs v2) t s0 [] (C ++ J)).
    { destruct H1. split; cbn; [|apply log_gone|eapply log_ext; [|done]]; [eapply snapshot_ext; [|done]|]; by rewrite lookup_delete_ne. }
    assert (He2 : elsewhere t v v2) by (by apply elsewhere_fs).
    assert (HQ2 : Q (Done true) v2 ∧ Q Died v2) by (apply Hok; [done | done | apply lookup_delete_eq]).
    assert (HQ1 : Q (Done false) v1 ∧ Q Died v1) by (apply Hkeep; [done | by right]).
    apply wp_io_bind, wp_unlink; [by apply wp_ret, HQ2 | by apply wp_ret, HQ1 | by apply HQ1 | by apply HQ2]. }
  apply wp_io_bind, wp_exists. case_bool_decide as Hx.
  - destruct Hx as [raw' Hraw']. destruct (log_decoded _ _ _ _ HJ Hraw') as [-> Hdec']. apply wp_io_bind.
    eapply wp_read; [done | done | done | by apply wp_ret, Hk | by apply Hk].
  - apply eq_None_not_Some in Hx. assert (J = []) as -> by (by eapply log_absent). apply wp_io_bind, wp_ret. done.
Qed.

Lemma only_snapshot_disk t v v' s0 s C J :
  only_snapshot t v v' → on_disk (v_fs v) t s0 C J → snapshot_is (v_fs v') t s → on_disk (v_fs v') t s C J.
Proof.
  destruct (record_names t) as (N1 & N2 & N3). intros (_ & _ & Hf) [_ HC HJ] Hs.
  split; [done|eapply log_ext; [|done]..]; by apply (Hf t).
Qed.

(** From a rotated log to the end of a compaction: each step leaves the
    record durable. *)
Lemma wp_snapshot_rotated t s s0 C (Q : res () → View → Prop) w v :
  v_active v !! t = Some s → recordable (_serialize_for_write s) →
  on_disk (v_fs v) t s0 C [] → same_messages (s_messages s0 ++ C) (s_messages s) → elsewhere t w v →
  (∀ v', elsewhere t w v' → v_torn v' = true ∨ durable (v_fs v') t s → Q (Done ()) v' ∧ Q Died v') →
  wp (written ← except_os (_atomic_write_json fresh_name t;; mret true) (mret false);
      if negb written then mret () else
      orphan ← exists_file (_compacted_path t);
      cleaned ← (if (orphan : bool) then except_os (unlink (_compacted_path t);; mret true) (mret false) else mret true);
      if negb cleaned then mret () else modify (with_counts <[t := 0%Z]>)) Q v.
Proof.
  intros Hs Hr Hd Hm He HQ. destruct (record_names t) as (N1 & N2 & N3).
  assert (Habs : same_messages (s_messages s ++ C ++ []) (s_messages s)).
  { rewrite app_nil_r. apply same_absorb. intros k Hk. apply (same_keys _ _ Hm). rewrite keys_app. set_solver. }
  apply wp_io_bind, wp_except, wp_io_bind, (wp_atomic_write t s); [done|..].
  - intros v1 Ho Hf. assert (H1 : on_disk (v_fs v1) t s C []) by (by eapply only_snapshot_disk).
    assert (HQ1 : Q (Done ()) v1 ∧ Q Died v1).
    { apply HQ; [by eapply only_snapshot_elsewhere|]. right. by exists s, C, []. }
    split; [|apply HQ1]. apply wp_ret. cbn [negb]. apply wp_io_bind, wp_exists. apply wp_io_bind. case_bool_decide as Hx.
    + set (v2 := set_fs (delete (_compacted_path t) (v_fs v1)) v1).
      assert (HQ2 : Q (Done ()) v2 ∧ Q Died v2).
      { apply HQ; [by apply elsewhere_fs; [eapply only_snapshot_elsewhere|]|]. right. exists s, [], [].
        destruct H1. split; [|by rewrite !app_nil_r]. split; cbn; [|apply log_gone|eapply log_ext; [|done]];
          [eapply snapshot_ext; [|done]|]; by rewrite lookup_delete_ne. }
      apply wp_except, wp_io_bind, wp_unlink; [|by apply wp_ret, wp_ret, HQ1 | by apply HQ1 | by apply HQ2].
      apply wp_ret. cbn [negb]. apply wp_modify. intros st Hst. change (view (with_counts ?f st)) with (view st). rewrite Hst. apply HQ2.
    + apply wp_ret. cbn [negb]. apply wp_modify. intros st Hst. change (view (with_counts ?f st)) with (view st). rewrite Hst. apply HQ1.
  - intros v1 Ho Hf. assert (HQ1 : Q (Done ()) v1 ∧ Q Died v1).
    { apply HQ; [by eapply only_snapshot_elsewhere|]. right. exists s0, C, []. split; [|by rewrite app_nil_r].
      eapply only_snapshot_disk; [done..|]. eapply snapshot_ext; [done | apply Hd]. }
    split; [|apply HQ1]. by apply wp_ret, wp_ret, HQ1.
Qed.

Lemma wp_compact t s s0 C J (Q : res () → View → Prop) v :
  v_active v !! t = Some s → recordable (_serialize_for_write s) →
  on_disk (v_fs v) t s0 C J → same_messages (s_messages s0 ++ C ++ J) (s_messages s) →
  (∀ v', elsewhere t v v' → v_torn v' = true ∨ durable (v_fs v') t s → Q (Done ()) v' ∧ Q Died v') →
  wp (_compact fresh_name t) Q v.
Proof.
  intros Hs Hr Hd Hm HQ. destruct (record_names t) as (N1 & N2 & N3).
  apply wp_io_bind, (wp_reclaim t s0 C J); [done|..].
  2:{ intros v1 He Hd1. assert (HQ1 : Q (Done ()) v1 ∧ Q Died v1).
      { apply HQ; [done|]. right. destruct Hd1 as [Hd1|Hd1]; [by exists s0, C, J|]. exists s0, C, (C ++ J). split; [done|].
        rewrite <- Hm. rewrite !(assoc_L (++)). apply app_same; [|done]. apply same_absorb. intros k. rewrite !keys_app. set_solver. }
      split; [|apply HQ1]. by apply wp_ret, HQ1. }
  2:{ intros v1 He Ht. assert (HQ1 : Q (Done ()) v1 ∧ Q Died v1) by (apply HQ; [done | by left]).
      split; [|apply HQ1]. by apply wp_ret, HQ1. }
  intros v1 He Hd1 Hn. assert (HQ1 : Q (Done ()) v1 ∧ Q Died v1).
  { apply HQ; [done|]. right. by exists s0, [], (C ++ J). }
  split; [|apply HQ1]. cbn [negb]. apply wp_io_bind, wp_exists, wp_io_bind. case_bool_decide as Hx.
  - apply wp_except, wp_io_bind, wp_os_replace; [|by apply wp_ret, wp_ret, HQ1 | by apply HQ1].
    intros raw Hraw. destruct Hd1 as [Hs1 _ HJ1]. destruct (log_decoded _ _ _ _ HJ1 Hraw) as [-> _]. cbn zeta.
    set (v2 := set_fs _ _).
    assert (He2 : elsewhere t v v2).
    { assert (He1 : elsewhere t v (set_fs (delete (_jsonl_path t) (v_fs v1)) v1)) by (by apply elsewhere_fs).
      destruct (elsewhere_fs t v _ (λ _, Some (jsonl_text (C ++ J))) (_compacted_path t) He1) as [Ha Hf]; [done|].
      split; [exact Ha | exact Hf]. }
    assert (Hd2 : on_disk (v_fs v2) t s0 (C ++ J) []).
    { split; cbn; [eapply snapshot_ext; [|done]; by rewrite lookup_insert_ne, lookup_delete_ne | by apply log_set, HJ1|].
      eapply log_ext; [by apply lookup_insert_ne | apply log_gone]. }
    split; [|apply HQ; [done|]; right; exists s0, (C ++ J), []; by rewrite app_nil_r].
    apply wp_ret. cbn [negb]. eapply wp_snapshot_rotated; [|done..]. by rewrite (proj1 He2).
  - apply wp_ret. cbn [negb]. eapply (wp_snapshot_rotated t s s0 (C ++ J)); [by rewrite (proj1 He) | done | | done..].
    apply eq_None_not_Some in Hx. destruct Hd1 as [Hs1 HC1 HJ1]. pose proof (log_absent _ _ _ HJ1 Hx) as Hcj. rewrite Hcj in *. by split.
Qed.

(** ** The invariant

    Every session in memory is on disk; when the process ends in the middle
    of an operation, the record of a session reads as what was in memory,
    followed by what was being added. *)

Definition Inv (v : View) : Prop :=
  ∀ t s, v_active v !! t = Some s → recordable (_serialize_for_write s) ∧ durable (v_fs v) t s.

(** What the operation under way may add to the record of a task. *)
Context (added : string → dict pyval → Prop).

Definition Readable (v : View) : Prop :=
  ∀ t s, v_active v !! t = Some s → s_messages s ≠ [] →
    ∃ extra, Forall (added t) extra ∧ readable (v_fs v) t (s_messages s ++ extra).

(** The session in memory has what it had, and maybe some of what is added. *)
Definition grown (t : string) (v v' : View) : Prop :=
  ∀ s, v_active v !! t = Some s →
    ∃ s' es, v_active v' !! t = Some s' ∧ s_messages s' = s_messages s ++ es ∧ Forall (added t) es.

Lemma grown_same t v v' : v_active v' = v_active v → grown t v v'.
Proof. intros Ha s Hs. exists s, []. by rewrite Ha, app_nil_r. Qed.

Definition others (t : string) (v v' : View) : Prop :=
  ∀ t' name, t' ≠ t → is_record_file t' name → v_fs v' !! name = v_fs v !! name.

(** So do the other sessions in memory. *)
Definition apart (t : string) (v v' : View) : Prop :=
  others t v v' ∧ ∀ t', t' ≠ t → v_active v' !! t' = v_active v !! t'.

Definition kept {A} (t : string) (v : View) (r : res A) (v' : View) : Prop :=
  v_torn v' = true ∨ apart t v v' ∧ match r with Died => Readable v' | _ => Inv v' end.

Lemma log_reads_ext fs fs' name l : fs' !! name = fs !! name → log_reads fs name l → log_reads fs' name l.
Proof. unfold log_reads. by intros ->. Qed.

Lemma durable_ext fs fs' t s :
  (∀ name, is_record_file t name → fs' !! name = fs !! name) → durable fs t s → durable fs' t s.
Proof.
  intros H (s0 & C & J & [Hs HC HJ] & Hm). exists s0, C, J. split; [|done].
  split; [eapply snapshot_ext; [|done] | eapply log_ext; [|done]..]; by apply H.
Qed.

(** A step on the record of [t] that leaves the others alone. *)
Lemma Inv_step t v v' s' :
  Inv v → others t v v' → (∀ t', t' ≠ t → v_active v' !! t' = v_active v !! t') →
  v_active v' !! t = Some s' → recordable (_serialize_for_write s') → durable (v_fs v') t s' → Inv v'.
Proof.
  intros HI Ho Ha Hs' Hr Hd t' s Hs. destruct (decide (t' = t)) as [->|Hne]; [by simplify_eq|].
  rewrite Ha in Hs by done. destruct (HI t' s Hs) as [? Hd']. split; [done|].
  eapply durable_ext; [|done]. intros name Hn. by apply (Ho t').
Qed.

Lemma Inv_readable v : Inv v → Readable v.
Proof. intros H t s Hs _. exists []. rewrite app_nil_r. split; [constructor|]. by apply durable_readable, H. Qed.

Lemma Readable_step t v v' s l :
  Inv v → others t v v' → v_active v' = v_active v → v_active v !! t = Some s → Forall (added t) l →
  readable (v_fs v') t (s_messages s ++ l) → Readable v'.
Proof.
  intros HI Ho Ha Hs Hl Hr t' s' Hs' _. rewrite Ha in Hs'. destruct (decide (t' = t)) as [->|Hne]; [simplify_eq; eauto|].
  exists []. rewrite app_nil_r. split; [constructor|]. apply durable_readable. eapply durable_ext; [|by apply HI].
  intros name Hn. by apply (Ho t').
Qed.

Lemma session_recordable s B :
  recordable (_serialize_for_write s) → Forall entry_ok B →
  recordable (_serialize_for_write (with_messages (λ l, l ++ B) s)).
Proof.
  intros [Hj Hs] HB. unfold _serialize_for_write in *. cbn [with_messages s_taskId s_tui_session_id s_parent_task_id
    s_operation s_created_at s_finished_at s_status s_messages s_result_summary] in *.
  assert (Hm : jsonable (VList (map VDict (s_messages s))) ∧ storable (VList (map VDict (s_messages s))) = true).
  { inversion Hj as [| | | | | |? _ Hl]; subst. rewrite Forall_forall in Hl.
    split; [apply (Hl ("messages", _)); set_solver|]. cbn [storable forallb] in Hs. rewrite !andb_true_iff in Hs. tauto. }
  assert (Hm' : jsonable (VList (map VDict (s_messages s ++ B))) ∧ storable (VList (map VDict (s_messages s ++ B))) = true).
  { destruct Hm as [Hmj Hms]. rewrite map_app. split.
    - constructor. apply Forall_app. split; [by inversion Hmj|]. apply Forall_fmap. eapply Forall_impl; [done|]. by intros x [? _].
    - cbn [storable] in *. rewrite forallb_app, Hms. cbn. apply forallb_forall. intros x Hx. apply in_map_iff in Hx as (e & <- & He).
      rewrite Forall_forall in HB. by apply (HB e), list_elem_of_In. }
  split.
  - inversion Hj as [| | | | | |? Hwf Hl]; subst. constructor; [exact Hwf|]. repeat apply Forall_cons in Hl as [? Hl].
    repeat (apply Forall_cons; split; [done|]); try done. apply Forall_cons; split; [apply Hm'|]. by repeat (apply Forall_cons; split; [done|]).
  - cbn [storable forallb] in *. rewrite !andb_true_iff in *. tauto.
Qed.

Lemma wp_append_jsonl t s0 C J B (Q : res () → View → Prop) v :
  on_disk (v_fs v) t s0 C J → Forall entry_ok B →
  (∀ v', elsewhere t v v' → on_disk (v_fs v') t s0 C (J ++ B) → Q (Done ()) v') →
  Q OSErr v → Q Died v →
  (∀ v', elsewhere t v v' → v_torn v' = true → Q OSErr v' ∧ Q Died v') →
  (∀ v' B', elsewhere t v v' → B' `prefix_of` B → disk_reads (v_fs v') t (s_messages s0 ++ C ++ J ++ B') → Q Died v') →
  wp (_append_to_jsonl t B) Q v.
Proof.
  intros [Hs HC HJ] HB Hdone Herr Hdied Htorn Hcut. destruct (record_names t) as (N1 & N2 & N3).
  assert (He : ∀ x, elsewhere t v (set_fs (<[_jsonl_path t:=x]> (v_fs v)) v)).
  { intros x. exact (elsewhere_fs t v v (λ _, Some x) (_jsonl_path t) (elsewhere_refl t v) (is_jsonl t)). }
  apply wp_io_bind, wp_append; [|done..| |].
  - apply wp_modify. intros st Hst. change (view (with_counts ?f st)) with (view st). rewrite Hst. apply Hdone; [apply He|].
    split; cbn; [eapply snapshot_ext; [|done] | eapply log_ext; [|done] | by apply log_append]; by rewrite lookup_insert_ne.
  - intros k. apply Htorn; [apply He | cbn; by rewrite orb_true_r].
  - intros k. destruct (utf8_valid (bytes_take k (jsonl_text B))) eqn:Hu; [|apply Htorn; [apply He | cbn; by rewrite orb_true_r]].
    destruct (log_cut _ _ J B k HJ HB Hu) as (B' & Hp & Hl). apply (Hcut _ B'); [apply He | done|].
    exists s0, C, (J ++ B'). cbn. split_and!; [|eapply log_reads_ext; [|by apply log_is_reads]|done|done];
      [eapply snapshot_ext; [|done]|]; by rewrite lookup_insert_ne.
Qed.

Lemma wp_record t s B v :
  Inv v → v_active v !! t = Some s → Forall entry_ok B → Forall (added t) B →
  wp (record_entries fresh_name threshold t B) (λ r v', kept t v r v' ∧ grown t v v') v.
Proof.
  intros HI Hs HB HP. destruct (HI t s Hs) as [Hr (s0 & C & J & Hd & Hm)].
  assert (Hsame : ∀ r : res (), kept t v r v ∧ grown t v v).
  { intros r. split; [|by apply grown_same]. right. split; [done|]. destruct r; try done. by apply Inv_readable. }
  assert (Happ : ∀ B, same_messages (s_messages s0 ++ C ++ J ++ B) (s_messages s ++ B)).
  { intros B'. rewrite <- Hm, !(assoc_L (++)). done. }
  apply wp_io_bind, wp_except, wp_io_bind, (wp_append_jsonl t s0 C J B); [done | done | | by apply wp_ret, wp_ret, Hsame | by apply (Hsame Died)| |].
  2:{ intros v' He Ht. split; [apply wp_ret, wp_ret|]; (split; [by left | apply grown_same, (proj1 He)]). }
  2:{ intros v' B' He Hpre Hl. split; [|apply grown_same, (proj1 He)]. right. split; [split; [exact (proj2 He) | by rewrite (proj1 He)]|].
      eapply (Readable_step t v v' s B'); [done | exact (proj2 He) | exact (proj1 He) | done | | by eexists].
      destruct Hpre as [B2 ->]. by apply Forall_app in HP as [? _]. }
  intros v0 [Ha0 He0] Hd0. apply wp_ret. cbn [negb]. apply wp_io_bind, wp_modify. intros st1 <-.
  set (s1 := with_messages (λ l, l ++ B) s). set (v1 := view (with_active _ st1)).
  assert (Ha1 : v_active v1 = alter (with_messages (λ l, l ++ B)) t (v_active v)) by (cbn in *; by rewrite Ha0).
  assert (Hs1 : v_active v1 !! t = Some s1) by (by rewrite Ha1, lookup_alter_eq, Hs).
  assert (Hr1 : recordable (_serialize_for_write s1)) by (by apply session_recordable).
  assert (Hfin : ∀ (r : res ()) v', elsewhere t v1 v' → v_torn v' = true ∨ durable (v_fs v') t s1 → kept t v r v' ∧ grown t v v').
  { intros r v' [Ha Hf] Hor. split; [|intros s' Hs'; simplify_eq; exists s1, B; by rewrite Ha]. assert (Ho : others t v v') by (intros t' name ? ?; by rewrite (Hf t'), (He0 t')).
    assert (Hap : apart t v v') by (split; [done | intros t' Hne; by rewrite Ha, Ha1, lookup_alter_ne]).
    destruct Hor as [|Hdu]; [by left|]. right. split; [done|].
    assert (HI' : Inv v'); [|destruct r; try done; by apply Inv_readable].
    eapply (Inv_step t v v' s1); [done | done | apply Hap | by rewrite Ha | done | done]. }
  apply wp_io_bind, wp_gets. intros st2 Hst2. destruct (_needs_compaction threshold st2 t).
  - eapply (wp_compact t s1 s0 C (J ++ B)); [done | done | done | apply Happ|]. intros v' He Hor. split; by apply Hfin.
  - apply wp_ret, Hfin; [done|]. right. exists s0, C, (J ++ B). split; [done | apply Happ].
Qed.

(** ** The operations keep the invariant *)

(** What may be recorded: texts that UTF-8 can encode and numbers that JSON
    can hold, whatever the clock says. *)
Definition message_ok (node : string) (m : LcMessage) : Prop :=
  ∀ n, entry_ok (_serialize_message_full (clock n) (set_node node m)).

Definition raw_ok (d : dict pyval) : Prop :=
  if dict_mem "time" d then entry_ok d else ∀ n, entry_ok (dict_set "time" (VStr (clock n)) d).

(** An entry of a message of the list, at some time. *)
Definition entry_of (node : string) (l : list LcMessage) (e : dict pyval) : Prop :=
  ∃ m n, m ∈ l ∧ e = _serialize_message_full (clock n) (set_node node m).

Lemma wp_new_entries node existing l v :
  Forall (message_ok node) l →
  wp (new_entries clock save_system node existing l) (λ r v', v' = v ∧ ∃ es ms, r = Done (es, ms) ∧ Forall entry_ok es ∧ Forall (entry_of node l) es) v.
Proof.
  assert (Hone : ∀ m l es, Forall (entry_of node l) es → Forall (entry_of node (m :: l)) es).
  { intros m l' es He. eapply Forall_impl; [exact He|]. intros e (m' & n & Hm & ->). exists m', n. split; [by right | done]. }
  intros Hl. revert existing. induction Hl as [|m l Hm _ IH]; intros existing; cbn [new_entries].
  { apply wp_ret. split; [done|]. exists [], []. by split_and!. }
  destruct (skipped save_system m).
  { apply wp_io_bind. eapply wp_io_mono; [apply IH|]. intros r v' (-> & es & ms & -> & He & Hf). apply wp_ret. eauto 10. }
  apply wp_io_bind, wp_now. intros n. cbn zeta. destruct (_ ∈? existing).
  - apply wp_io_bind. eapply wp_io_mono; [apply IH|]. intros r v' (-> & es & ms & -> & He & Hf). apply wp_ret. eauto 10.
  - apply wp_io_bind. eapply wp_io_mono; [apply IH|]. intros r v' (-> & es & ms & -> & He & Hf). apply wp_ret. split; [done|].
    eexists _, _. split; [done|]. split; [constructor; [apply Hm | done]|]. constructor; [|by apply Hone].
    exists m, n. split; [by left | done].
Qed.

Lemma kept_refl {A} t v (r : res A) : Inv v → kept t v r v.
Proof. intros HI. right. split; [done|]. destruct r; try done. by apply Inv_readable. Qed.

Lemma apart_trans t v1 v2 v3 : apart t v1 v2 → apart t v2 v3 → apart t v1 v3.
Proof. intros [H1 A1] [H2 A2]. split; [intros t' n ? ?; by rewrite (H2 t'), (H1 t') | intros t' ?; by rewrite A2, A1]. Qed.

Lemma kept_from {A} t v1 v2 (r : res A) v3 : apart t v1 v2 → kept t v2 r v3 → kept t v1 r v3.
Proof. intros Ho [Ht|[Ho' H]]; [by left|]. right. split; [by eapply apart_trans | done]. Qed.

(** The outcome does not depend on the value returned. *)
Lemma kept_done {A B} t v (a : A) (b : B) v' : kept t v (Done a) v' → kept t v (Done b) v'.
Proof. done. Qed.

Lemma kept_grown_refl {A} t v (r : res A) : Inv v → kept t v r v ∧ grown t v v.
Proof. intros HI. split; [by apply kept_refl | by apply grown_same]. Qed.

Lemma wp_append_messages t l node v :
  Inv v → Forall (message_ok node) l → (∀ e, entry_of node l e → added t e) →
  wp (append_messages clock fresh_name threshold save_system t l node) (λ r v', kept t v r v' ∧ grown t v v') v.
Proof.
  intros HI Hl HP. apply wp_io_bind, wp_gets. intros st <-. destruct (st_active st !! t) as [s|] eqn:Hs; [|by apply wp_ret, kept_grown_refl].
  apply wp_io_bind. eapply wp_io_mono; [by apply wp_new_entries|]. intros r v' (-> & es & ms & -> & He & Hf). cbn [fst snd].
  destruct (nonempty es); [|by apply wp_ret, kept_grown_refl].
  apply wp_io_bind. eapply wp_io_mono; [apply (wp_record t s); [done..|by eapply Forall_impl]|]. intros [a| | |] v1 Hk; try done. by apply wp_ret.
Qed.

(** The entry of a raw message, at some time. *)
Definition raw_entry (d e : dict pyval) : Prop := e = d ∨ ∃ n, e = dict_set "time" (VStr (clock n)) d.

Lemma wp_append_raw t d v :
  Inv v → raw_ok d → (∀ e, raw_entry d e → added t e) → wp (append_raw_message clock fresh_name threshold t d) (kept t v) v.
Proof.
  intros HI Hd HP. apply wp_io_bind, wp_gets. intros st <-. destruct (st_active st !! t) as [s|] eqn:Hs; [|by apply wp_ret, kept_refl].
  assert (Hrec : ∀ d', entry_ok d' → raw_entry d d' → wp (record_entries fresh_name threshold t [d'];; mret d') (kept t (view st)) (view st)).
  { intros d' Hd' Hof. apply wp_io_bind. eapply wp_io_mono; [apply (wp_record t s); [done | done | by constructor | constructor; auto]|].
    intros [a| | |] v1 [Hk _]; try done. by apply wp_ret. }
  unfold raw_ok in Hd. apply wp_io_bind. destruct (dict_mem "time" d); [apply wp_ret, Hrec; [done | by left]|].
  apply wp_io_bind, wp_now. intros n. apply wp_ret, Hrec; [apply Hd | right; by eexists].
Qed.

Lemma wp_baseline l v :
  wp (baseline_keys_of clock save_system l) (λ r v', v' = v ∧ ∃ ks, r = Done ks) v.
Proof.
  induction l as [|m l IH]; cbn [baseline_keys_of]; [apply wp_ret; eauto|].
  destruct (skipped save_system m); [done|]. apply wp_io_bind, wp_now. intros n. cbn zeta. apply wp_io_bind.
  eapply wp_io_mono; [apply IH|]. intros r v' (-> & ks & ->). apply wp_ret. eauto.
Qed.

(** No log of the task is left over. *)
Definition clear (v : View) (t : string) : Prop :=
  v_fs v !! _jsonl_path t = None ∧ v_fs v !! _compacted_path t = None.

Lemma Inv_insert t s v v' :
  Inv v → others t v v' → v_active v' = <[t := s]> (v_active v) → recordable (_serialize_for_write s) →
  durable (v_fs v') t s → Inv v'.
Proof.
  intros HI Ho Ha Hr Hd. eapply (Inv_step t v v' s); [done | done | | by rewrite Ha, lookup_insert_eq | done | done].
  intros t' Hne. by rewrite Ha, lookup_insert_ne.
Qed.

(** A task leaves memory. *)
Lemma Inv_delete t v v' : Inv v → others t v v' → v_active v' = delete t (v_active v) → Inv v'.
Proof.
  intros HI Ho Ha t' s Hs. rewrite Ha in Hs. apply lookup_delete_Some in Hs as [Hne Hs]. destruct (HI t' s Hs) as [? Hd].
  split; [done|]. eapply durable_ext; [|done]. intros name Hn. by apply (Ho t').
Qed.

Lemma only_snapshot_others t v v' w : others t w v → only_snapshot t v v' → others t w v'.
Proof.
  intros Hf (_ & _ & Hf') t' n Hne Hr. rewrite <- (Hf t') by done. apply (Hf' t'); [done|].
  intros ->. destruct Hne. by eapply record_file_task.
Qed.


Hypothesis clock_text : ∀ n, utf8_valid (clock n) = true.

Definition new_session (t operation tui_id parent ts : string) (ks : list string) : Session :=
  mkSession t tui_id parent operation ts VNone "active" [] VNone ks.

Lemma new_session_ok t operation tui_id parent n ks :
  Forall (λ x, utf8_valid x = true) [t; operation; tui_id; parent] →
  recordable (_serialize_for_write (new_session t operation tui_id parent (clock n) ks)).
Proof.
  intros Hu. repeat apply Forall_cons in Hu as [? Hu]. split.
  - cbn. constructor; [apply (bool_decide_unpack _); by vm_compute|]. repeat constructor.
  - cbn [_serialize_for_write new_session storable forallb s_taskId s_tui_session_id s_parent_task_id s_operation
         s_created_at s_finished_at s_status s_messages s_result_summary fst snd map]. rewrite clock_text.
    repeat match goal with H : utf8_valid _ = true |- _ => rewrite H; clear H end. by vm_compute.
Qed.

Lemma wp_create t operation tui_id parent baseline initial v :
  Inv v → clear v t → Forall (λ x, utf8_valid x = true) [t; operation; tui_id; parent] →
  Forall (message_ok INTENT_CLARIFICATION) initial → (∀ e, entry_of INTENT_CLARIFICATION initial e → added t e) →
  wp (create_session clock fresh_name threshold save_system tui t operation tui_id parent baseline initial) (kept t v) v.
Proof.
  intros HI [HcJ HcC] Hu Hl HP. destruct (record_names t) as (N1 & N2 & N3).
  apply wp_io_bind, wp_now. intros n. apply wp_io_bind. eapply wp_io_mono; [apply wp_baseline|]. intros r v' (-> & ks & ->). cbn zeta.
  apply wp_io_bind, wp_modify. intros st <-. set (s := mkSession _ _ _ _ _ _ _ _ _ _). set (v1 := view (with_active _ st)).
  assert (Hr : recordable (_serialize_for_write s)) by (by apply new_session_ok).
  assert (Hs : v_active v1 !! t = Some s) by (cbn; by rewrite lookup_insert_eq).
  assert (Hnew : ∀ v', only_snapshot t v1 v' → others t (view st) v' ∧ v_active v' = <[t:=s]> (v_active (view st)) ∧ apart t (view st) v').
  { intros v' Ho. assert (Ho' : others t (view st) v') by (by apply (only_snapshot_others t v1)).
    split_and!; [done | apply (proj1 Ho)|]. split; [done|]. intros t' Hne. rewrite (proj1 Ho). by apply lookup_insert_ne. }
  assert (Hdied : ∀ v', only_snapshot t v1 v' → kept t (view st) (@Died ()) v').
  { intros v' Ho. destruct (Hnew v' Ho) as (Ho' & Ha & Hap). right. split; [done|]. intros t' s' Hs' Hm. rewrite Ha in Hs'.
    destruct (decide (t' = t)) as [->|Hne]; [rewrite lookup_insert_eq in Hs'; by simplify_eq|].
    rewrite lookup_insert_ne in Hs' by done. exists []. rewrite app_nil_r. split; [constructor|]. apply durable_readable.
    eapply durable_ext; [|by apply HI]. intros name Hn. by apply (Ho' t'). }
  apply wp_io_bind, wp_except, (wp_atomic_write t s); [done|..].
  2:{ intros v' Ho _. split; [|by apply Hdied]. destruct (Hnew v' Ho) as (Ho' & Ha & Hap).
      apply wp_io_bind, wp_modify. intros st' <-. apply wp_os_error. right.
      split; [split; [exact Ho' | intros t' Hne; cbn; rewrite lookup_delete_ne by done; by apply Hap]|].
      apply (Inv_delete t (view st)); [done | exact Ho'|]. cbn in *. rewrite Ha. apply map_eq. intros i.
      destruct (decide (i = t)) as [->|]; [by rewrite !lookup_delete_eq | by rewrite !lookup_delete_ne, lookup_insert_ne]. }
  intros v2 Ho Hf. split; [|by apply Hdied]. destruct (Hnew v2 Ho) as (Ho' & Ha & Hap).
  assert (HI2 : Inv v2).
  { eapply (Inv_insert t s (view st)); [done | done | done | done|]. exists s, [], []. split; [|done].
    split; [by split|..]; (split; [done|]; left; split; [|done]); by rewrite (proj2 (proj2 Ho) t). }
  assert (Hend : ∀ v3, kept t v2 (Done ()) v3 → wp (if truthy tui_id && tui then
      modify (λ st, mkStore (st_fs st) (st_active st) (st_counts st) (st_events st) (st_tick st)
                    (st_forward st ++ [(tui_id, t)]) (st_dialogue st) (st_torn st)) else mret ()) (kept t (view st)) v3).
  { intros v3 H3. assert (Hk : kept t (view st) (Done ()) v3) by (by eapply kept_from).
    destruct (truthy tui_id && tui); [|by apply wp_ret]. apply wp_modify. intros st' <-. exact Hk. }
  apply wp_io_bind. destruct (nonempty initial); [|by apply wp_ret, Hend, kept_refl].
  apply wp_io_bind. eapply wp_io_mono; [by apply wp_append_messages|]. intros [a| | |] v3 [H3 _]; [by apply wp_ret, Hend|by eapply kept_from..].
Qed.

Lemma wp_discard name (Q : res () → View → Prop) v :
  (∀ v', v' = v ∨ v' = set_fs (delete name (v_fs v)) v → Q (Done ()) v' ∧ Q Died v') → wp (discard name) Q v.
Proof.
  intros H. destruct (H v ltac:(by left)) as [H1 H2]. destruct (H (set_fs (delete name (v_fs v)) v) ltac:(by right)) as [H3 H4].
  apply wp_io_bind, wp_exists. case_bool_decide; [|by apply wp_ret]. apply wp_except, wp_unlink; try done. by apply wp_ret.
Qed.

Lemma finished_ok s n status summary :
  recordable (_serialize_for_write s) → utf8_valid status = true → recordable summary →
  recordable (_serialize_for_write (finished (clock n) status summary s)).
Proof.
  intros [Hj Hs] Hst [Hsj Hss]. split.
  - inversion Hj as [| | | | | |? Hwf Hl]; subst. constructor; [exact Hwf|]. repeat apply Forall_cons in Hl as [? Hl].
    repeat first [apply Forall_nil_2 | apply Forall_cons; split; [first [done | constructor]|]].
  - pose proof (clock_text n) as Hn. unfold _serialize_for_write, finished in *. cbn [storable forallb s_taskId s_tui_session_id s_parent_task_id s_operation
      s_created_at s_finished_at s_status s_messages s_result_summary fst snd] in *. rewrite Hst, Hss, Hn.
    rewrite !andb_true_iff in *. tauto.
Qed.

(** The logs may go once the snapshot holds the messages. *)
Lemma wp_discards t s C J (Q : res () → View → Prop) w v :
  on_disk (v_fs v) t s C J → (∀ k, k ∈ keys (C ++ J) → k ∈ keys (s_messages s)) → elsewhere t w v →
  (∀ v', elsewhere t w v' → durable (v_fs v') t s → Q (Done ()) v' ∧ Q Died v') →
  wp (discard (_jsonl_path t);; discard (_compacted_path t)) Q v.
Proof.
  intros [Hs HC HJ] Hk He HQ. destruct (record_names t) as (N1 & N2 & N3).
  assert (Hdur : ∀ v' C' J', elsewhere t w v' → on_disk (v_fs v') t s C' J' → C' = C ∨ C' = [] → J' = J ∨ J' = [] → Q (Done ()) v' ∧ Q Died v').
  { intros v' C' J' He' Hd' HC' HJ'. apply HQ; [done|]. exists s, C', J'. split; [done|]. apply same_absorb. intros k Hin. apply Hk.
    rewrite keys_app in *. destruct HC' as [->| -> ], HJ' as [->| -> ]; cbn in *; set_solver. }
  apply wp_io_bind, wp_discard. intros v1 Hv1.
  assert (H1 : elsewhere t w v1 ∧ ∃ J', on_disk (v_fs v1) t s C J' ∧ (J' = J ∨ J' = [])).
  { destruct Hv1 as [->| -> ]; [split; [done|]; exists J; split; [by split | by left]|]. split; [by apply elsewhere_fs|]. exists []. split; [|by right].
    split; cbn; [eapply snapshot_ext; [|done] | eapply log_ext; [|done] | apply log_gone]; by rewrite lookup_delete_ne. }
  destruct H1 as [He1 (J' & Hd1 & HJ')]. split; [|eapply (Hdur v1); [done | done | by left | done]].
  apply wp_discard. intros v2 Hv2. destruct Hv2 as [->| -> ]; [eapply Hdur; [done | done | by left | done]|].
  eapply (Hdur _ [] J'); [by apply elsewhere_fs | | by right | done]. destruct Hd1.
  split; cbn; [eapply snapshot_ext; [|done] | apply log_gone | eapply log_ext; [|done]]; by rewrite lookup_delete_ne.
Qed.

Lemma wp_close t s summary status v :
  Inv v → v_active v !! t = Some s → recordable (py_or summary VNone) → utf8_valid status = true →
  wp (close_session clock fresh_name t summary status)
     (λ r v', kept t v r v' ∧ (r = Done () → v_active v' !! t = None ∧ readable (v_fs v') t (s_messages s))) v.
Proof.
  intros HI Hs Hsum Hst. destruct (HI t s Hs) as [Hr (s0 & C & J & Hd & Hm)].
  apply wp_io_bind, wp_now. intros n. apply wp_io_bind, wp_modify. intros st <-.
  set (s1 := finished (clock n) status (py_or summary VNone) s). set (v1 := view (with_active _ st)).
  assert (Ha1 : v_active v1 = alter (finished (clock n) status (py_or summary VNone)) t (v_active (view st))) by done.
  assert (Hs1 : v_active v1 !! t = Some s1) by (rewrite Ha1, lookup_alter_eq; by rewrite Hs).
  assert (Hr1 : recordable (_serialize_for_write s1)) by (by apply finished_ok).
  assert (Hk : ∀ k, k ∈ keys (C ++ J) → k ∈ keys (s_messages s1)).
  { intros k Hin. apply (same_keys _ _ Hm). rewrite !keys_app in *. set_solver. }
  set (Q := λ (r : res ()) v', kept t (view st) r v' ∧ (r = Done () → v_active v' !! t = None ∧ readable (v_fs v') t (s_messages s))).
  assert (Hmid : ∀ v', elsewhere t v1 v' → durable (v_fs v') t s1 →
    wp (modify (with_counts (delete t));; modify (with_active (delete t))) Q v' ∧ Q Died v').
  { intros v' [Ha Hf] Hdu. assert (Ho : others t (view st) v') by (intros t' name ? ?; by rewrite (Hf t')). split.
    - apply wp_io_bind, wp_modify. intros st2 Hst2. apply wp_modify. intros st3 Hst3. change (view (with_counts ?f st2)) with (view st2) in Hst3.
      assert (Hv' : v' = view st3) by congruence. clear Hst2 Hst3. subst v'. split.
      + right. split; [split; [exact Ho | intros t' Hne; cbn; rewrite lookup_delete_ne by done; cbn in Ha; by rewrite Ha, lookup_alter_ne]|]. apply (Inv_delete t (view st)); [done | exact Ho|]. cbn in *. rewrite Ha. apply map_eq. intros i.
        destruct (decide (i = t)) as [->|]; [by rewrite !lookup_delete_eq | by rewrite !lookup_delete_ne, lookup_alter_ne].
      + intros _. split; [apply lookup_delete_eq | exact (durable_readable _ _ _ Hdu)].
    - split; [|done]. right. assert (Hap : apart t (view st) v') by (split; [done | intros t' Hne; by rewrite Ha, Ha1, lookup_alter_ne]).
      split; [done|]. apply Inv_readable. eapply (Inv_step t (view st) v' s1); [done | done | apply Hap | by rewrite Ha | done | done]. }
  apply wp_io_bind, wp_except, wp_io_bind, (wp_atomic_write t s1); [done|..].
  - intros v2 Ho Hf. assert (He2 : elsewhere t v1 v2) by (by eapply only_snapshot_elsewhere).
    assert (Hd2 : on_disk (v_fs v2) t s1 C J) by (eapply (only_snapshot_disk t v1 v2 s0); [done | exact Hd | by split]).
    assert (Hdu : durable (v_fs v2) t s1) by (exists s1, C, J; split; [done | by apply same_absorb]).
    split; [|by apply Hmid]. apply wp_ret. apply wp_io_bind. eapply (wp_discards t s1 C J); [done..|]. intros v3 He3 Hd3. by apply Hmid.
  - intros v2 Ho Hf. assert (He2 : elsewhere t v1 v2) by (by eapply only_snapshot_elsewhere).
    assert (Hdu : durable (v_fs v2) t s1).
    { exists s0, C, J. split; [|done]. eapply (only_snapshot_disk t v1 v2 s0); [done | exact Hd|]. eapply snapshot_ext; [done | apply Hd]. }
    split; [|by apply Hmid]. apply wp_ret, wp_io_bind, wp_ret. by apply Hmid.
Qed.

Lemma wp_finalize t remaining summary status v :
  Inv v → Forall (message_ok "") remaining → recordable (py_or summary VNone) → utf8_valid status = true →
  (∀ e, entry_of "" remaining e → added t e) →
  wp (finalize_session clock fresh_name threshold save_system tui t remaining summary status)
     (λ r v', kept t v r v' ∧ (r = Done () → v_torn v' = true ∨ ∀ s, v_active v !! t = Some s →
        v_active v' !! t = None ∧ ∃ es, Forall (added t) es ∧ readable (v_fs v') t (s_messages s ++ es))) v.
Proof.
  intros HI Hl Hsum Hst HP. apply wp_io_bind, wp_gets. intros st <-.
  destruct (st_active st !! t) as [s|] eqn:Hs; [|apply wp_ret; split; [by apply kept_refl|]; right; intros s Hs'; cbn in Hs'; congruence].
  set (Q := λ (r : res ()) v', kept t (view st) r v' ∧ _).
  assert (Hclose : ∀ v1, kept t (view st) (Done ()) v1 → grown t (view st) v1 →
    wp (close_session clock fresh_name t summary status) Q v1).
  { intros v1 [Ht|[Ho HI1]] Hg; [apply wp_torn; [apply keeps_close | done | intros r v' Ht'; split; by left]|].
    destruct (Hg s Hs) as (s1 & es & Hs1 & Hm & Hes).
    eapply wp_io_mono; [by apply (wp_close t s1)|]. intros r v2 [Hk Hd]. split; [by eapply kept_from|]. intros Hr. right. intros s' Hs'.
    cbn in Hs'. simplify_eq. destruct (Hd eq_refl) as [Hgone Hread]. split; [done|]. exists es. split; [done|]. by rewrite <- Hm. }
  apply wp_io_bind. destruct (nonempty remaining); [|by apply wp_ret, Hclose; [apply kept_refl | apply grown_same]].
  apply wp_io_bind, wp_io_lift. destruct (_split_at_handoff remaining) as [[dia ex]|] eqn:Hsplit; [|by split; [apply kept_refl|]]. cbn [fst snd].
  apply split_at_handoff_covers in Hsplit as (before & -> & _). apply Forall_app in Hl as [_ Hl].
  apply wp_io_bind. eapply (wp_io_mono _ (λ r v', r = Done () ∧ v' = view st)).
  { destruct (nonempty dia && truthy (s_tui_session_id s) && tui); [|by apply wp_ret]. apply wp_modify. by intros st' <-. }
  intros r v' [-> ->]. apply wp_io_bind. eapply wp_io_mono; [apply wp_append_messages; [done..|]|].
  { intros e (m & n & Hm & ->). apply HP. exists m, n. split; [apply elem_of_app; by right | done]. }
  intros [a| | |] v1 [Hk Hg]; try done. by apply wp_ret, Hclose.
Qed.
End operations.
