(* ===== verification/SessionProps.v ===== *)
(** * Correctness of the task record store

    What the record promises: whatever calls fail, and wherever the process
    ends, the messages the store has taken are read back from the directory,
    in order and once each, as long as no log was damaged by a write that
    failed part-way.  The examples at the end are the ways a log is damaged,
    or a message lost, that the store does not guard against. *)

From stdpp Require Import base list strings sets gmap.
From Stdlib Require Import ZArith Ascii.
From S2P Require Import Prelude PyText PyValue PyOps Failure JsonStored Json JsonDump SessionMessage SessionStore SessionLog SessionSteps.

(** ** Sequences of operations *)

Inductive writer :=
  | WCreate (t operation tui_id parent : string) (baseline initial : list LcMessage)
  | WAppend (t : string) (l : list LcMessage) (node : string)
  | WRaw (t : string) (d : dict pyval)
  | WFinalize (t : string) (remaining : list LcMessage) (summary : pyval) (status : string).

Definition writer_task (w : writer) : string :=
  match w with WCreate t _ _ _ _ _ | WAppend t _ _ | WRaw t _ | WFinalize t _ _ _ => t end.

Definition creates (ops : list writer) : list string :=
  omap (λ w, match w with WCreate t _ _ _ _ _ => Some t | _ => None end) ops.

Section runs.
Context (clock : nat → string) (fresh_name : gmap string string → string).
Context (threshold : Z) (save_system tui : bool).

Definition run_writer (w : writer) : io () :=
  match w with
  | WCreate t operation tui_id parent baseline initial =>
      create_session clock fresh_name threshold save_system tui t operation tui_id parent baseline initial
  | WAppend t l node => _ ← append_messages clock fresh_name threshold save_system t l node; mret ()
  | WRaw t d => _ ← append_raw_message clock fresh_name threshold t d; mret ()
  | WFinalize t remaining summary status =>
      finalize_session clock fresh_name threshold save_system tui t remaining summary status
  end.

(** The callers go on after an exception; the flag says that the process
    ended. *)
Fixpoint run (ops : list writer) (st : Store) : bool * Store :=
  match ops with
  | [] => (false, st)
  | w :: rest =>
      match run_writer w st with
      | (Died, st') => (true, st')
      | (_, st') => run rest st'
      end
  end.

Definition writer_ok (w : writer) : Prop :=
  match w with
  | WCreate t operation tui_id parent _ initial =>
      Forall (λ x, utf8_valid x = true) [t; operation; tui_id; parent] ∧
      Forall (message_ok clock INTENT_CLARIFICATION) initial
  | WAppend _ l node => Forall (message_ok clock node) l
  | WRaw _ d => raw_ok clock d
  | WFinalize _ remaining summary status =>
      Forall (message_ok clock "") remaining ∧ recordable (py_or summary VNone) ∧ utf8_valid status = true
  end.

Hypothesis clock_text : ∀ n, utf8_valid (clock n) = true.

(** What an operation adds to the record of its task. *)
Definition adds (w : writer) (t : string) (e : dict pyval) : Prop :=
  t = writer_task w ∧
  match w with
  | WCreate _ _ _ _ _ initial => entry_of clock INTENT_CLARIFICATION initial e
  | WAppend _ l node => entry_of clock node l e
  | WRaw _ d => raw_entry clock d e
  | WFinalize _ remaining _ _ => entry_of clock "" remaining e
  end.

Definition added_by (ops : list writer) (t : string) (e : dict pyval) : Prop := ∃ w, w ∈ ops ∧ adds w t e.

Lemma keeps_writer w : keeps (run_writer w).
Proof.
  destruct w; cbn [run_writer]; auto using keeps_create, keeps_finalize;
    apply keeps_bind; auto using keeps_append_messages, keeps_append_raw; by intros ? ? ?.
Qed.

Lemma keeps_run ops st : st_torn st = true → st_torn (run ops st).2 = true.
Proof.
  revert st. induction ops as [|w ops IH]; intros st Hst; [done|]. cbn [run].
  pose proof (keeps_writer w st Hst) as Hk. destruct (run_writer w st) as [[a| | |] st']; try by apply IH. done.
Qed.

Lemma run_writer_kept w st (added : string → dict pyval → Prop) :
  (∀ t e, adds w t e → added t e) → Inv (view st) → writer_ok w → (∀ t, t ∈ creates [w] → clear (view st) t) →
  kept added (writer_task w) (view st) (run_writer w st).1 (view (run_writer w st).2).
Proof.
  intros HP HI Hw Hc. assert (H : wp (run_writer w) (kept added (writer_task w) (view st)) (view st)); [|by apply H].
  assert (HP' : ∀ e, adds w (writer_task w) e → added (writer_task w) e) by auto. unfold adds in HP'.
  destruct w as [t op tu pa ba ini|t l n|t d|t l su sta]; cbn [run_writer writer_task] in *.
  - destruct Hw. apply wp_create; auto. apply Hc. by left.
  - apply wp_io_bind. eapply wp_io_mono; [apply (wp_append_messages _ _ _ _ added); [done | done | by auto]|]. intros [a| | |] v [Hk _]; try done. by apply wp_ret.
  - apply wp_io_bind. eapply wp_io_mono; [apply (wp_append_raw _ _ _ added); [done | done | by auto]|]. intros [a| | |] v Hk; try done. by apply wp_ret.
  - destruct Hw as (? & ? & ?). eapply wp_io_mono; [apply (wp_finalize _ _ _ _ _ added); [done..|by auto]|]. by intros r v [Hk _].
Qed.

(** Nothing is done for a task that is not in memory. *)
Lemma run_writer_absent w st : creates [w] = [] → st_active st !! writer_task w = None → (run_writer w st).2 = st.
Proof.
  destruct w as [| | |]; cbn [writer_task creates omap list_omap]; intros Hc Hn; [done|..]; cbn [run_writer].
  - unfold append_messages. cbn. unfold mbind, io_bind, gets. by rewrite Hn.
  - unfold append_raw_message. cbn. unfold mbind, io_bind, gets. by rewrite Hn.
  - unfold finalize_session. unfold mbind, io_bind, gets. by rewrite Hn.
Qed.

(** The tasks still to be created have no log and no session. *)
Definition pending (ops : list writer) (v : View) : Prop :=
  ∀ t, t ∈ creates ops → v_active v !! t = None ∧ clear v t.

Lemma creates_cons w ops : creates (w :: ops) = creates [w] ++ creates ops.
Proof. by destruct w. Qed.

Lemma creates_self w t : t ∈ creates [w] → t = writer_task w.
Proof. destruct w; set_solver. Qed.

Lemma pending_step w ops st st' :
  NoDup (creates (w :: ops)) → pending (w :: ops) (view st) → apart (writer_task w) (view st) (view st') →
  (creates [w] = [] → st_active st !! writer_task w = None → st' = st) → pending ops (view st').
Proof.
  rewrite creates_cons. intros Hnd Hp [Ho Ha] Habs t Ht. destruct (Hp t) as [Hn [HJ HC]]; [rewrite creates_cons; set_solver|].
  destruct (decide (t = writer_task w)) as [->|Hne].
  - destruct w; try (rewrite Habs by done; split; [done | by split]). apply NoDup_app in Hnd as (_ & Hd & _). set_solver.
  - split; [by rewrite Ha|]. split; [by rewrite (Ho t _ Hne (is_jsonl t)) | by rewrite (Ho t _ Hne (is_compacted t))].
Qed.

Lemma run_inv ops st (added : string → dict pyval → Prop) :
  (∀ t e, added_by ops t e → added t e) →
  st_torn (run ops st).2 = false → Inv (view st) → NoDup (creates ops) → pending ops (view st) → Forall writer_ok ops →
  if (run ops st).1 then Readable added (view (run ops st).2) else Inv (view (run ops st).2).
Proof.
  revert st. induction ops as [|w ops IH]; intros st HP Ht HI Hnd Hp Hok; [done|]. apply Forall_cons in Hok as [Hw Hok].
  assert (Hk : kept added (writer_task w) (view st) (run_writer w st).1 (view (run_writer w st).2)).
  { apply run_writer_kept; [intros t e He; apply HP; exists w; split; [by left | done] | done | done|]. intros t Hin. apply (Hp t). rewrite creates_cons. set_solver. }
  pose proof (run_writer_absent w st) as Habs.
  cbn [run] in *. destruct (run_writer w st) as [r st'] eqn:E. cbn [fst snd] in *.
  assert (Hgo : r ≠ Died → st_torn (run ops st').2 = false → Inv (view st') → apart (writer_task w) (view st) (view st') →
    if (run ops st').1 then Readable added (view (run ops st').2) else Inv (view (run ops st').2)).
  { intros _ Ht' HI' Hap. apply IH; try done.
    - intros t e (w' & Hw' & He). apply HP. exists w'. split; [by right | done].
    - rewrite creates_cons in Hnd. by apply NoDup_app in Hnd as (_ & _ & ?).
    - by eapply pending_step. }
  destruct Hk as [Htorn|[Hap Hk]].
  { cbn in Htorn. destruct r; cbn [fst snd] in *; [| | |congruence]; by rewrite keeps_run in Ht. }
  destruct r; cbn [fst snd] in *; [by apply Hgo..|done].
Qed.

Lemma Inv_empty st : st_active st = ∅ → Inv (view st).
Proof. intros H t s Hs. cbn in Hs. by rewrite H in Hs. Qed.

(** The messages a new process reads, when nothing fails, are [l]. *)
Definition reads_back (st : Store) (t : string) (l : list (dict pyval)) : Prop :=
  ∃ doc st', read_session t (restart [] st) = (Done (Some doc), st') ∧ dict_get "messages" doc = Some (VList (map VDict l)).

Lemma readable_reads_back st t l : readable (st_fs st) t l → reads_back st t (first_seen [] l).
Proof.
  intros (l' & Hd & Hm). destruct (read_session_done t l' (restart [] st) eq_refl Hd) as (s & st' & _ & Hr).
  rewrite Hm in Hr. exists (messages_doc s (first_seen [] l)), st'. split; [done | done].
Qed.

(** What is read back of the messages [l]: of those with the same key the
    first, and so all of them when no two have the same key. *)
Definition record_of (l read : list (dict pyval)) : Prop :=
  read = first_seen [] l ∧ (NoDup (keys l) → read = l).

Lemma readable_record st t l : readable (st_fs st) t l → ∃ read, record_of l read ∧ reads_back st t read.
Proof.
  intros Hr. exists (first_seen [] l). split; [|by apply readable_reads_back]. split; [done|]. intros Hnd. apply first_seen_distinct; [done|].
  intros k _ Hk. by apply elem_of_nil in Hk.
Qed.

(** C27. A run of the store in a fresh process, on tasks whose identifiers are new,
    with values that can be stored: whatever calls fail, a session in memory
    is read back from the directory by the next process, in the order of
    recording.  Of messages with the same key (the identifier, or without one
    the type, the first 200 characters and the identifier of the tool call)
    only the first is read back ([repeated_command_read_once]); with distinct
    keys it is every message.  When the process ends in the middle of an
    operation, a session that has messages is read back with those, followed
    by messages, if any, that an operation of the run on that task was given.
    Excepted are runs that damage a log: a failed append that left part of
    its text, an interrupted rewriting of a log, an append cut inside a
    character. *)
Theorem record_durable ops st t s :
  st_active st = ∅ → NoDup (creates ops) → (∀ t, t ∈ creates ops → clear (view st) t) → Forall writer_ok ops →
  st_torn (run ops st).2 = false → st_active (run ops st).2 !! t = Some s →
  if (run ops st).1
  then s_messages s ≠ [] → ∃ extra read, Forall (added_by ops t) extra ∧
         record_of (s_messages s ++ extra) read ∧ reads_back (run ops st).2 t read
  else ∃ read, record_of (s_messages s) read ∧ reads_back (run ops st).2 t read.
Proof.
  intros Ha Hnd Hc Hok Ht Hs.
  assert (Hp : pending ops (view st)).
  { intros t' Hin. split; [cbn; by rewrite Ha | by apply Hc]. }
  pose proof (run_inv ops st (added_by ops) (λ _ _ H, H) Ht (Inv_empty st Ha) Hnd Hp Hok) as H.
  destruct (run ops st) as [[] st']; cbn [fst snd] in *.
  - intros Hm. destruct (H t s Hs Hm) as (extra & Hx & Hr). exists extra.
    destruct (readable_record st' t _ Hr) as (read & ? & ?). by exists read.
  - by apply readable_record, durable_readable, (H t s Hs).
Qed.

(** C28. Closing a record after such a run, with any messages left to record: if it
    returns and damages no log, the session is gone from memory and the next
    process reads its messages back, followed by those of the messages left
    that were taken; of messages with the same key only the first.  The last
    snapshot may fail, and the logs may stay. *)
Theorem finalized_record_kept ops st t s remaining summary status st' :
  st_active st = ∅ → NoDup (creates ops) → (∀ t, t ∈ creates ops → clear (view st) t) → Forall writer_ok ops →
  (run ops st).1 = false → st_torn (run ops st).2 = false → st_active (run ops st).2 !! t = Some s →
  writer_ok (WFinalize t remaining summary status) →
  finalize_session clock fresh_name threshold save_system tui t remaining summary status (run ops st).2 = (Done (), st') →
  st_torn st' = false →
  st_active st' !! t = None ∧
  ∃ extra read, Forall (entry_of clock "" remaining) extra ∧ record_of (s_messages s ++ extra) read ∧ reads_back st' t read.
Proof.
  intros Ha Hnd Hc Hok Hlive Ht0 Hs (Hrem & Hsum & Hst) Hfin Ht1.
  assert (Hp : pending ops (view st)) by (intros t' Hin; split; [cbn; by rewrite Ha | by apply Hc]).
  pose proof (run_inv ops st (added_by ops) (λ _ _ H, H) Ht0 (Inv_empty st Ha) Hnd Hp Hok) as HI. rewrite Hlive in HI.
  set (st1 := (run ops st).2) in *.
  pose proof (wp_finalize clock fresh_name threshold save_system tui (λ _, entry_of clock "" remaining) clock_text t remaining summary status
    (view st1) HI Hrem Hsum Hst (λ _ H, H) st1 eq_refl) as [_ Hr].
  rewrite Hfin in Hr. destruct (Hr eq_refl) as [Htorn|Hkept]; [cbn in Htorn; congruence|].
  destruct (Hkept s Hs) as [Hgone (es & Hes & Hread)]. split; [done|]. exists es.
  destruct (readable_record st' t _ Hread) as (read & ? & ?). by exists read.
Qed.
End runs.

(** ** A run *)

Definition at_noon (_ : nat) : string := "2025-06-01T12:00:00+08:00".
Definition a_name (_ : gmap string string) : string := "tmp0a1b2c3d".

Definition said (i text : string) : LcMessage := mkLc COther "human" "" (VStr text) (VStr i) [] [] VNone.

Definition empty_store (events : list io_event) : Store := mkStore ∅ ∅ ∅ events 0 [] [] false.

Definition two_appends : list writer :=
  [WCreate "task-1" "inject" "" "" [] []; WAppend "task-1" [said "m1" "注入"] "agent_loop"; WAppend "task-1" [said "m2" "done"] ""].

(** The first compaction cannot write its snapshot; the process ends during
    the second, after the orphan was merged and removed. *)
Definition bad_day : list io_event :=
  [IoOk; IoOk; IoOk; IoOk; IoOk; IoErr 0; IoOk; IoOk; IoOk; IoOk; IoCrash 1].

Definition bad_run : bool * Store := run at_noon a_name 1 true false two_appends (empty_store bad_day).

Lemma noon_text n : utf8_valid (at_noon n) = true.
Proof. by vm_compute. Qed.

Ltac solve_recordable := apply recordableb_ok; vm_compute; reflexivity.

Lemma two_appends_ok : Forall (writer_ok at_noon) two_appends.
Proof.
  apply Forall_cons; split; [split; [apply (bool_decide_unpack _); vm_compute; exact I | apply Forall_nil_2]|].
  apply Forall_cons; split; [|apply Forall_cons; split; [|apply Forall_nil_2]]; apply Forall_singleton; intros n; solve_recordable.
Qed.

Definition noted (i text node : string) : dict pyval :=
  [("type", VStr "human"); ("content", VStr text); ("id", VStr i)] ++
  (if truthy node then [("node", VStr node)] else []) ++ [("time", VStr (at_noon 0))].

Definition task_session (st : Store) (t : string) : Session :=
  default (new_session t "" "" "" "" []) (st_active st !! t).

Lemma record_durable_witness :
  bad_run.1 = true ∧ st_torn bad_run.2 = false ∧
  s_messages (task_session bad_run.2 "task-1") = [noted "m1" "注入" "agent_loop"; noted "m2" "done" ""] ∧
  ∃ extra read, Forall (added_by at_noon two_appends "task-1") extra ∧
    record_of (s_messages (task_session bad_run.2 "task-1") ++ extra) read ∧ reads_back bad_run.2 "task-1" read.
Proof.
  assert (Hd : bad_run.1 = true) by (vm_compute; reflexivity).
  assert (Ht : st_torn bad_run.2 = false) by (vm_compute; reflexivity).
  assert (Hm : s_messages (task_session bad_run.2 "task-1") = [noted "m1" "注入" "agent_loop"; noted "m2" "done" ""])
    by (vm_compute; reflexivity).
  assert (Hs : st_active bad_run.2 !! "task-1" = Some (task_session bad_run.2 "task-1")) by (vm_compute; reflexivity).
  split; [exact Hd|]. split; [exact Ht|]. split; [exact Hm|].
  pose proof (record_durable at_noon a_name 1 true false noon_text two_appends (empty_store bad_day) "task-1"
    (task_session bad_run.2 "task-1") eq_refl) as H.
  fold bad_run in H. rewrite Hd in H. apply H.
  - apply (bool_decide_unpack _); vm_compute; exact I.
  - intros t _. by split.
  - exact two_appends_ok.
  - exact Ht.
  - exact Hs.
  - rewrite Hm. discriminate.
Defined.

(** Nothing fails, and the session is closed. *)
Definition good_run : bool * Store := run at_noon a_name 50 true false two_appends (empty_store []).
Definition left_over : list LcMessage := [said "m2" "done"; said "m3" "bye"].

Definition closed : Store :=
  (finalize_session at_noon a_name 50 true false "task-1" left_over (VStr "ok") "completed" good_run.2).2.

Lemma finalized_record_kept_witness :
  st_active closed !! "task-1" = None ∧
  ∃ extra read, Forall (entry_of at_noon "" left_over) extra ∧
    record_of (s_messages (task_session good_run.2 "task-1") ++ extra) read ∧ reads_back closed "task-1" read.
Proof.
  assert (Hd : good_run.1 = false) by (vm_compute; reflexivity).
  assert (Ht : st_torn good_run.2 = false) by (vm_compute; reflexivity).
  assert (Hs : st_active good_run.2 !! "task-1" = Some (task_session good_run.2 "task-1")) by (vm_compute; reflexivity).
  assert (Hf : finalize_session at_noon a_name 50 true false "task-1" left_over (VStr "ok") "completed" good_run.2 = (Done (), closed))
    by (vm_compute; reflexivity).
  pose proof (finalized_record_kept at_noon a_name 50 true false noon_text two_appends (empty_store []) "task-1"
    (task_session good_run.2 "task-1") left_over (VStr "ok") "completed" closed eq_refl) as H.
  fold good_run in H. apply H; [|by split|exact two_appends_ok|exact Hd|exact Ht|exact Hs| |exact Hf|vm_compute; reflexivity].
  - apply (bool_decide_unpack _); vm_compute; exact I.
  - split; [|split; [solve_recordable | vm_compute; reflexivity]].
    repeat (apply Forall_cons; split; [intros n; solve_recordable|]). apply Forall_nil_2.
Defined.

(** ** What the store does not guard against *)

Definition read_messages (t : string) (st : Store) : res (option pyval) * Store :=
  match read_session t (restart [] st) with
  | (Done (Some doc), st') => (Done (dict_get "messages" doc), st')
  | (Done None, st') => (Done None, st')
  | (OSErr, st') => (OSErr, st')
  | (Raised, st') => (Raised, st')
  | (Died, st') => (Died, st')
  end.

Definition one_append : list writer :=
  [WCreate "task-1" "inject" "" "" [] []; WAppend "task-1" [said "m1" "hello"] ""].

(** The snapshot of a compaction fails.  The next process reads the log set
    aside and removes it, but writes it nowhere: the message is read once and
    is gone. *)
Definition failed_snapshot : Store :=
  (run at_noon a_name 1 true false one_append (empty_store [IoOk; IoOk; IoOk; IoOk; IoOk; IoErr 0])).2.

Example orphan_read_once :
  let first := read_messages "task-1" failed_snapshot in
  first.1 = Done (Some (VList [VDict (noted "m1" "hello" "")])) ∧
  (read_messages "task-1" first.2).1 = Done (Some (VList [])).
Proof. vm_compute. split; reflexivity. Qed.

(** An append fails after ten bytes and is tried again: the retry is written
    on the same line, and the message, taken into memory, is not read back. *)
Definition torn_append : Store :=
  (run at_noon a_name 50 true false (one_append ++ [WAppend "task-1" [said "m1" "hello"] ""])
     (empty_store [IoOk; IoOk; IoOk; IoErr 11])).2.

Example torn_append_lost :
  s_messages (task_session torn_append "task-1") = [noted "m1" "hello" ""] ∧
  (read_messages "task-1" torn_append).1 = Done (Some (VList [])).
Proof. vm_compute. split; reflexivity. Qed.

(** The merge of an orphan rewrites the live log in place: when that write
    fails, or the process ends in it, the messages since the last compaction
    are gone from disk, although the failure is reported as an abort to avoid
    data loss. *)
Definition merge_failed : Store :=
  (run at_noon a_name 1 true false (one_append ++ [WAppend "task-1" [said "m2" "world"] ""])
     (empty_store [IoOk; IoOk; IoOk; IoOk; IoOk; IoErr 0; IoOk; IoOk; IoOk; IoErr 1])).2.

Example merge_loses_live_log :
  s_messages (task_session merge_failed "task-1") = [noted "m1" "hello" ""; noted "m2" "world" ""] ∧
  (read_messages "task-1" merge_failed).1 = Done (Some (VList [VDict (noted "m1" "hello" "")])).
Proof. vm_compute. split; reflexivity. Qed.

(** The process ends inside a character of an append: the record cannot be
    read any more, since only [OSError] and decode errors of JSON are caught. *)
Definition cut_character : Store :=
  (run at_noon a_name 50 true false
     [WCreate "task-1" "inject" "" "" [] []; WAppend "task-1" [said "m1" "注入"] ""]
     (empty_store [IoOk; IoOk; IoOk; IoCrash 33])).2.

Example cut_character_unreadable : (read_messages "task-1" cut_character).1 = Raised.
Proof. vm_compute. reflexivity. Qed.

(** Recorded command executions carry no identifier: the same command run
    twice is kept twice in memory and on disk, and read as one. *)
Definition command (exit_code : Z) : dict pyval :=
  [("type", VStr "tool_execution"); ("content", VStr "[shell] kubectl get pods");
   ("detail", VDict [("exit_code", VInt exit_code)]); ("node", VStr "execute_loop")].

Definition ran_twice : Store :=
  (run at_noon a_name 50 true false
     [WCreate "task-1" "inject" "" "" [] []; WRaw "task-1" (command 1); WRaw "task-1" (command 0)] (empty_store [])).2.

Definition timed (d : dict pyval) : dict pyval := dict_set "time" (VStr (at_noon 0)) d.

Example repeated_command_read_once :
  s_messages (task_session ran_twice "task-1") = [timed (command 1); timed (command 0)] ∧
  (read_messages "task-1" ran_twice).1 = Done (Some (VList [VDict (timed (command 1))])).
Proof. vm_compute. split; reflexivity. Qed.

(** When the last snapshot fails, the record of a closed task still says that
    it is active and has no outcome. *)
Definition closed_badly : Store :=
  (run at_noon a_name 50 true false (one_append ++ [WFinalize "task-1" [] (VStr "ok") "completed"])
     (empty_store [IoOk; IoOk; IoOk; IoOk; IoErr 0])).2.

Example closed_record_active :
  has_active closed_badly "task-1" = false ∧
  match (read_session "task-1" (restart [] closed_badly)).1 with
  | Done (Some doc) => dict_get "status" doc = Some (VStr "active") ∧ dict_get "result_summary" doc = Some VNone
  | _ => False
  end.
Proof. vm_compute. repeat split; reflexivity. Qed.

(** A task identifier used again after a crash: the log of the first record is
    read as part of the second. *)
Definition used_again : Store :=
  (run at_noon a_name 50 true false [WCreate "task-1" "recover" "" "" [] []]
     (restart [] (run at_noon a_name 50 true false one_append (empty_store [])).2)).2.

Example used_again_mixed :
  s_messages (task_session used_again "task-1") = [] ∧
  (read_messages "task-1" used_again).1 = Done (Some (VList [VDict (noted "m1" "hello" "")])).
Proof. vm_compute. split; reflexivity. Qed.
