(* ===== verification/TuiStore.v ===== *)
(** * The session store of the terminal interface (memory/tui_session_store.py)

    The record of one run of the interface: when it began and ended, the
    tasks that ran, the dialogue before them, and counters.  A session in
    memory is the dict that is written; files and failures are those of
    [SessionStore]. *)

From stdpp Require Import base list strings sets gmap.
From Stdlib Require Import ZArith Ascii.
From S2P Require Import Prelude PyText PyValue PyOps Failure JsonStored Json JsonDump SessionMessage SessionStore SessionLog.

(** ** State *)

Record Tui := mkTui {
  tu_os : Store;
  tu_active : gmap string (dict pyval);
  tu_keys : gmap string (list string);
  tu_counts : gmap string Z }.

Definition tio (A : Type) : Type := Tui → res A * Tui.

#[export] Instance tio_ret : MRet tio := λ A a st, (Done a, st).
#[export] Instance tio_bind : MBind tio := λ A B f m st,
  match m st with
  | (Done a, st') => f a st'
  | (OSErr, st') => (OSErr, st')
  | (Raised, st') => (Raised, st')
  | (Died, st') => (Died, st')
  end.

(** A call of the environment, an exception, a change of the memory. *)
Definition os {A} (m : io A) : tio A := λ st,
  let '(r, o) := m (tu_os st) in (r, mkTui o (tu_active st) (tu_keys st) (tu_counts st)).
Definition exc {A} (x : Exc A) : tio A := λ st, (match x with Some a => Done a | None => Raised end, st).
Definition look {A} (f : Tui → A) : tio A := λ st, (Done (f st), st).

Definition set_active (f : gmap string (dict pyval) → gmap string (dict pyval)) : tio () := λ st,
  (Done (), mkTui (tu_os st) (f (tu_active st)) (tu_keys st) (tu_counts st)).
Definition set_keys (f : gmap string (list string) → gmap string (list string)) : tio () := λ st,
  (Done (), mkTui (tu_os st) (tu_active st) (f (tu_keys st)) (tu_counts st)).
Definition set_counts (f : gmap string Z → gmap string Z) : tio () := λ st,
  (Done (), mkTui (tu_os st) (tu_active st) (tu_keys st) (f (tu_counts st))).

(** [try: m except OSError: h]. *)
Definition tui_except {A} (m h : tio A) : tio A := λ st,
  match m st with (OSErr, st') => h st' | r => r end.

(** A new process on the same directory. *)
Definition tui_restart (events : list io_event) (st : Tui) : Tui := mkTui (restart events (tu_os st)) ∅ ∅ ∅.

Section tui.
Context (clock : nat → string) (fresh_name : gmap string string → string) (compaction_threshold : Z).

(** ** Writing *)

Definition tui_write_json (sid : string) : tio () :=
  session ← look (λ st, tu_active st !! sid);
  match session with
  | None => mret ()
  | Some session =>
      os (except_os (write_text false (_file_path sid) (json_indent 0 (VDict session))) (mret ()))
  end.

(** The temporary file is removed when it cannot be written, not when it
    cannot be renamed. *)
Definition tui_atomic_write_json (sid : string) : tio () :=
  session ← look (λ st, tu_active st !! sid);
  match session with
  | None => mret ()
  | Some session =>
      os (except_os
            (tmp_path ← gets (λ st, fresh_name (st_fs st) +:+ ".json.tmp");
             entry_call <[tmp_path := ""]>;;
             on_error (write_text false tmp_path (json_indent 0 (VDict session))) (unlink tmp_path);;
             os_replace tmp_path (_file_path sid))
            (mret ()))
  end.

Definition tui_append_to_jsonl (sid : string) (entries : list (dict pyval)) : tio () :=
  tui_except
    (os (append_text (_jsonl_path sid) (jsonl_text entries));;
     set_counts (λ c, <[sid := (default 0 (c !! sid) + Z.of_nat (length entries))%Z]> c))
    (mret ()).

Definition tui_needs_compaction (st : Tui) (sid : string) : bool :=
  (compaction_threshold <=? default 0 (tu_counts st !! sid))%Z.

(** The log is cut whether or not the snapshot was written. *)
Definition tui_compact (sid : string) : tio () :=
  tui_atomic_write_json sid;;
  os (except_os (write_text true (_jsonl_path sid) "") (mret ()));;
  set_counts <[sid := 0%Z]>.

(** ** Reading *)

Definition tui_load (sid : string) : io (option pyval) :=
  except_os
    (text ← read_text (_file_path sid);
     match json_loads text with
     | JOk v => mret (Some v)
     | JDecodeError => mret None
     | JValueError => lift Raise
     end)
    (mret None).

(** [data.get("messages", []) + incremental_messages]. *)
Definition tui_replay (sid : string) (data : pyval) : io (dict pyval) :=
  text ← except_os (t ← read_text (_jsonl_path sid); mret (Some t)) (mret None);
  match text with
  | None => lift (as_dict data)
  | Some text =>
      lift (increments ← replay_lines (split_on "010" text);
            d ← as_dict data;
            old ← as_list (get_d "messages" (VList []) d);
            Some (dict_set "messages" (VList (old ++ increments)) d))
  end.

(** The dict in memory itself, or the record on disk.  A record that is not a
    JSON object, which the store never writes, raises. *)
Definition tui_read (sid : string) : tio (option (dict pyval)) :=
  session ← look (λ st, tu_active st !! sid);
  match session with
  | Some session => mret (Some session)
  | None =>
      e ← os (exists_file (_file_path sid));
      if negb e then mret None else
      data ← os (tui_load sid);
      match data with
      | None => mret None
      | Some data =>
          j ← os (exists_file (_jsonl_path sid));
          if negb j then d ← exc (as_dict data); mret (Some d)
          else d ← os (tui_replay sid data); mret (Some d)
      end
  end.

Definition tui_load_from_disk (sid : string) : tio (option (dict pyval)) :=
  data ← tui_read sid;
  match data with
  | None => mret None
  | Some data =>
      set_active <[sid := data]>;;
      msgs ← exc (l ← py_iter (get_d "messages" (VList []) data); mapM as_dict l);
      set_keys <[sid := map _message_dedup_key msgs]>;;
      set_counts <[sid := 0%Z]>;;
      mret (Some data)
  end.

(** ** Operations *)

Definition new_tui_session (sid cluster_name namespace ts : string) : dict pyval :=
  [("tui_session_id", VStr sid); ("started_at", VStr ts); ("finished_at", VNone); ("status", VStr "active");
   ("cluster_name", VStr cluster_name); ("namespace", VStr namespace); ("task_ids", VList []); ("messages", VList []);
   ("stats", VDict [("message_count", VInt 0); ("injection_count", VInt 0); ("injection_success", VInt 0);
                    ("injection_fail", VInt 0); ("recovery_count", VInt 0)])].

Definition tui_create (sid cluster_name namespace : string) : tio () :=
  ts ← os (now_iso clock);
  set_active <[sid := new_tui_session sid cluster_name namespace ts]>;;
  set_keys <[sid := []]>;;
  set_counts <[sid := 0%Z]>;;
  tui_write_json sid.

(** The session in memory, or from disk. *)
Definition tui_find (sid : string) : tio (option (dict pyval)) :=
  session ← look (λ st, tu_active st !! sid);
  match session with Some s => mret (Some s) | None => tui_load_from_disk sid end.

(** The same, a new session when there is none. *)
Definition tui_find_or_create (sid : string) : tio (dict pyval) :=
  session ← tui_find sid;
  match session with
  | Some s => mret s
  | None => tui_create sid "" "";; s ← look (λ st, tu_active st !! sid); exc s
  end.

Definition add_task (sid task_id : string) : tio () :=
  session ← tui_find_or_create sid;
  let session := if dict_mem "task_ids" session then session else dict_set "task_ids" (VList []) session in
  set_active <[sid := session]>;;
  ids ← exc (as_list (py_get "task_ids" session));
  if truthy task_id && negb (existsb (λ v, eqs v task_id) ids) then
    set_active <[sid := dict_set "task_ids" (VList (ids ++ [VStr task_id])) session]>;;
    tui_write_json sid
  else mret ().

Fixpoint dialogue_entries (existing : list string) (messages : list LcMessage) : io (list (dict pyval) * list string) :=
  match messages with
  | [] => mret ([], existing)
  | msg :: rest =>
      now ← now_iso clock;
      let entry := _serialize_message_full now msg in
      let key := _message_dedup_key entry in
      if key ∈? existing then dialogue_entries existing rest
      else r ← dialogue_entries (key :: existing) rest; mret (entry :: r.1, r.2)
  end.

Definition append_dialogue (sid : string) (messages : list LcMessage) : tio () :=
  session ← tui_find sid;
  match session with
  | None => mret ()
  | Some session =>
      existing ← look (λ st, default [] (tu_keys st !! sid));
      r ← os (dialogue_entries existing messages);
      if negb (nonempty r.1) then mret () else
      old ← exc (as_list (get_d "messages" (VList []) session));
      let msgs := old ++ map VDict r.1 in
      let session := dict_set "messages" (VList msgs) session in
      set_active <[sid := session]>;;
      session ← exc (set_in "stats" "message_count" (VInt (Z.of_nat (length msgs))) session);
      set_active <[sid := session]>;;
      set_keys <[sid := r.2]>;;
      tui_append_to_jsonl sid r.1;;
      tui_write_json sid;;
      needs ← look (λ st, tui_needs_compaction st sid);
      if (needs : bool) then tui_compact sid else mret ()
  end.

Definition read_dialogue (sid : string) : tio pyval :=
  data ← tui_read sid;
  mret (match data with None => VList [] | Some d => get_d "messages" (VList []) d end).

Definition update_stats (sid : string) (stats : dict pyval) : tio () :=
  session ← tui_find_or_create sid;
  cur ← exc (as_dict (get_d "stats" (VDict []) session));
  set_active <[sid := dict_set "stats" (VDict (dict_update cur stats)) session]>;;
  tui_write_json sid.

Definition update_env (sid : string) (cluster_name namespace : option string) : tio () :=
  session ← tui_find sid;
  match session with
  | None => mret ()
  | Some session =>
      let session := match cluster_name with Some c => dict_set "cluster_name" (VStr c) session | None => session end in
      let session := match namespace with Some n => dict_set "namespace" (VStr n) session | None => session end in
      set_active <[sid := session]>;;
      tui_write_json sid
  end.

Definition tui_finalize (sid status : string) : tio () :=
  session ← tui_find sid;
  match session with
  | None => mret ()
  | Some session =>
      now ← os (now_iso clock);
      set_active <[sid := dict_set "status" (VStr status) (dict_set "finished_at" (VStr now) session)]>;;
      tui_atomic_write_json sid;;
      os (discard (_jsonl_path sid));;
      set_active (delete sid);;
      set_keys (delete sid);;
      set_counts (delete sid)
  end.
End tui.

(** ** A closed session is read back *)

Lemma recordable_set k v d :
  recordable (VDict d) → recordable v → utf8_valid k = true → recordable (VDict (dict_set k v d)).
Proof.
  intros [Hj Hs] [Hvj Hvs] Hk. inversion Hj as [| | | | | |? Hwf Hl]; subst. split.
  - constructor; [by apply dict_set_wf|]. clear -Hl Hvj. induction Hl as [|[k' v'] d Hd Htl IH]; cbn [dict_set]; [by apply Forall_singleton|].
    destruct (String.eqb k k'); apply Forall_cons; by split.
  - cbn [storable] in *. clear -Hs Hvs Hk. induction d as [|[k' v'] d IH]; cbn [dict_set forallb fst snd] in *; [by rewrite Hk, Hvs|].
    apply andb_true_iff in Hs as [H1 H2]. destruct (String.eqb k k') eqn:E; cbn [forallb fst snd].
    + rewrite Hvs, H2. apply andb_true_iff in H1 as [H1 _]. by rewrite H1.
    + by rewrite H1, IH.
Qed.

Lemma entry_done f st : st_events st = [] → entry_call f st = (Done (), with_fs f st).
Proof. intros He. unfold entry_call. by rewrite (bind_done _ _ st IoOk st) by (unfold next_event; by rewrite He). Qed.

Lemma write_done b name text st : st_events st = [] → write_text b name text st = (Done (), with_fs <[name := text]> st).
Proof. intros He. unfold write_text. by rewrite (bind_done _ _ st IoOk st) by (unfold next_event; by rewrite He). Qed.

Lemma os_replace_done src dst t st :
  st_events st = [] → st_fs st !! src = Some t → os_replace src dst st = (Done (), with_fs (λ fs, <[dst := t]> (delete src fs)) st).
Proof.
  intros He Ht. unfold os_replace. rewrite (bind_done _ _ st (Some t) st) by (unfold gets; by rewrite Ht). by apply entry_done.
Qed.

Lemma discard_done name st : st_events st = [] → ∃ st', discard name st = (Done (), st') ∧ st_events st' = [] ∧ st_fs st' = delete name (st_fs st).
Proof.
  intros He. unfold discard. rewrite (bind_done _ _ st _ st) by apply exists_done. case_bool_decide as Hx.
  - destruct Hx as [t Ht]. exists (with_fs (delete name) st). split; [|done]. unfold except_os, unlink.
    rewrite (bind_done _ _ st (Some t) st) by (unfold gets; by rewrite Ht). by rewrite entry_done.
  - exists st. apply eq_None_not_Some in Hx. split; [done|]. by rewrite delete_id.
Qed.

Lemma tbind_done {A B} (m : tio A) (f : A → tio B) st a st' : m st = (Done a, st') → (m ≫= f) st = f a st'.
Proof. intros H. unfold mbind, tio_bind. by rewrite H. Qed.

Section closing.
Context (clock : nat → string) (fresh_name : gmap string string → string).

Lemma tui_atomic_done sid s st :
  tu_active st !! sid = Some s → st_events (tu_os st) = [] →
  ∃ o, tui_atomic_write_json fresh_name sid st = (Done (), mkTui o (tu_active st) (tu_keys st) (tu_counts st)) ∧
       st_events o = [] ∧ st_fs o !! _file_path sid = Some (json_indent 0 (VDict s)).
Proof.
  intros Hs He. unfold tui_atomic_write_json. rewrite (tbind_done _ _ st (Some s) st) by (unfold look; by rewrite Hs).
  unfold os, except_os. set (o0 := tu_os st) in *. set (tmp := fresh_name (st_fs o0) +:+ ".json.tmp").
  rewrite (bind_done _ _ o0 tmp o0) by done. rewrite (bind_done _ _ o0 () _ (entry_done _ o0 He)).
  set (o1 := with_fs <[tmp:=""]> o0). set (o2 := with_fs <[tmp:=json_indent 0 (VDict s)]> o1).
  assert (Hw : on_error (write_text false tmp (json_indent 0 (VDict s))) (unlink tmp) o1 = (Done (), o2)).
  { unfold on_error. by rewrite write_done. }
  rewrite (bind_done _ _ o1 () o2 Hw).
  rewrite (os_replace_done tmp (_file_path sid) (json_indent 0 (VDict s)) o2); [|done | by cbn; rewrite lookup_insert_eq].
  eexists. split; [done|]. split; [done|]. cbn. by rewrite lookup_insert_eq.
Qed.

(** A session that is closed when nothing fails is read by the next process
    as it was in memory, with its status and the time it ended. *)
Theorem tui_closed_roundtrip sid s status st :
  tu_active st !! sid = Some s → recordable (VDict s) → utf8_valid status = true → (∀ n, utf8_valid (clock n) = true) →
  st_events (tu_os st) = [] →
  ∃ st' st'', tui_finalize clock fresh_name sid status st = (Done (), st') ∧ tu_active st' !! sid = None ∧
    tui_read sid (tui_restart [] st') =
    (Done (Some (dict_set "status" (VStr status) (dict_set "finished_at" (VStr (clock (st_tick (tu_os st)))) s))), st'').
Proof.
  intros Hs Hr Hu Hc He. unfold tui_finalize. set (s' := dict_set "status" _ _).
  assert (Hr' : recordable (VDict s')).
  { repeat apply recordable_set; try done; (split; [constructor | by cbn]). }
  rewrite (tbind_done _ _ st (Some s) st).
  2:{ unfold tui_find. rewrite (tbind_done _ _ st (Some s) st); [done|]. unfold look. by rewrite Hs. }
  erewrite tbind_done by done. erewrite tbind_done by done. cbn [tu_os tu_active tu_keys tu_counts].
  edestruct (tui_atomic_done sid s') as (o & Ho & Heo & Hf); [| |erewrite (tbind_done _ _ _ () _ Ho)].
  { cbn. by rewrite lookup_insert_eq. }
  { done. }
  destruct (discard_done (_jsonl_path sid) o Heo) as (o' & Hd & Heo' & Hfo').
  erewrite tbind_done by (unfold os; cbn [tu_os]; by rewrite Hd). erewrite tbind_done by done. erewrite tbind_done by done.
  eexists _, _. split; [done|]. split; [cbn; by rewrite lookup_delete_eq|].
  set (r := tui_restart [] _). assert (Hfr : st_fs (tu_os r) = delete (_jsonl_path sid) (st_fs o)) by done.
  assert (Hfile : st_fs (tu_os r) !! _file_path sid = Some (json_indent 0 (VDict s'))).
  { rewrite Hfr, lookup_delete_ne; [done|]. intros H. apply name_inj in H as [_ H]; [done | unfold extensions; set_solver..]. }
  unfold tui_read. rewrite (tbind_done _ _ r None r) by done.
  rewrite (tbind_done _ _ r true r). 2:{ unfold os. rewrite exists_done, bool_decide_true by (rewrite Hfile; eauto). by destruct r. }
  cbn [negb]. rewrite (tbind_done _ _ r (Some (VDict s')) r).
  2:{ unfold os, tui_load, except_os. destruct (clean_indent _ 0 Hr') as [Hcu Hcn].
      rewrite (bind_done _ _ (tu_os r) (json_indent 0 (VDict s')) (tu_os r)) by (eapply read_text_done; [done | done | by apply decode_kept]).
      rewrite (indent_roundtrip 0 _ (proj1 Hr')). by destruct r. }
  rewrite (tbind_done _ _ r false r). 2:{ unfold os. rewrite exists_done, bool_decide_false; [by destruct r|]. rewrite Hfr, lookup_delete_eq. by intros []. }
  done.
Qed.
End closing.

(** ** Runs *)

Definition tui_clock (_ : nat) : string := "2025-06-01T12:00:00+08:00".
Definition tui_name (_ : gmap string string) : string := "tmp0a1b2c3d".
Definition tui_said (i text : string) : LcMessage := mkLc COther "human" "" (VStr text) (VStr i) [] [] VNone.
Definition new_tui (events : list io_event) : Tui := mkTui (mkStore ∅ ∅ ∅ events 0 [] [] false) ∅ ∅ ∅.

Definition tui_entry (i text : string) : dict pyval :=
  [("type", VStr "human"); ("content", VStr text); ("id", VStr i); ("time", VStr (tui_clock 0))].

(** One message of dialogue. *)
Definition one_dialogue (threshold : Z) (events : list io_event) : Tui :=
  ((tui_create tui_clock "tui-1" "prod" "default";;
    append_dialogue tui_clock tui_name threshold "tui-1" [tui_said "m1" "注入"]) (new_tui events)).2.

Definition tui_session (st : Tui) : dict pyval := default [] (tu_active st !! "tui-1").

Lemma tui_closed_roundtrip_witness :
  get_d "messages" VNone (tui_session (one_dialogue 50 [])) = VList [VDict (tui_entry "m1" "注入")] ∧
  ∃ st' st'', tui_finalize tui_clock tui_name "tui-1" "completed" (one_dialogue 50 []) = (Done (), st') ∧
    tu_active st' !! "tui-1" = None ∧
    tui_read "tui-1" (tui_restart [] st') =
    (Done (Some (dict_set "status" (VStr "completed")
                   (dict_set "finished_at" (VStr (tui_clock (st_tick (tu_os (one_dialogue 50 []))))) (tui_session (one_dialogue 50 []))))), st'').
Proof.
  split; [vm_compute; reflexivity|].
  apply (tui_closed_roundtrip tui_clock tui_name "tui-1" (tui_session (one_dialogue 50 [])) "completed" (one_dialogue 50 [])).
  - vm_compute; reflexivity.
  - apply recordableb_ok; vm_compute; reflexivity.
  - vm_compute; reflexivity.
  - intros n. vm_compute; reflexivity.
  - vm_compute; reflexivity.
Defined.

(** *** What the store does not guard against *)

Definition tui_messages (st : Tui) : option pyval :=
  match (read_dialogue "tui-1" (tui_restart [] st)).1 with Done v => Some v | _ => None end.

(** Each append is written both to the log and to the snapshot, and the two
    are joined without looking for duplicates: a session that was not closed
    is read with every message since the last compaction twice. *)
Example open_session_read_twice :
  get_d "messages" VNone (tui_session (one_dialogue 50 [])) = VList [VDict (tui_entry "m1" "注入")] ∧
  tui_messages (one_dialogue 50 []) = Some (VList [VDict (tui_entry "m1" "注入"); VDict (tui_entry "m1" "注入")]).
Proof. vm_compute. split; reflexivity. Qed.

(** A compaction whose snapshot fails cuts the log all the same: the dialogue
    is gone from disk. *)
Example failed_compaction_loses :
  get_d "messages" VNone (tui_session (one_dialogue 1 [IoOk; IoOk; IoErr 0; IoErr 0])) = VList [VDict (tui_entry "m1" "注入")] ∧
  tui_messages (one_dialogue 1 [IoOk; IoOk; IoErr 0; IoErr 0]) = Some (VList []).
Proof. vm_compute. split; reflexivity. Qed.

(** Closing a session removes the log although its last snapshot failed, and
    the session is gone from memory too. *)
Definition closed_without_snapshot : Tui :=
  (tui_finalize tui_clock tui_name "tui-1" "completed" (one_dialogue 50 [IoOk; IoOk; IoErr 0; IoErr 0])).2.

Example failed_close_loses :
  tu_active closed_without_snapshot !! "tui-1" = None ∧ tui_messages closed_without_snapshot = Some (VList []).
Proof. vm_compute. split; reflexivity. Qed.

(** The snapshot is rewritten in place: a process that ends during it leaves a
    record that is not read, although the log has the messages. *)
Example cut_snapshot_unread :
  (tui_read "tui-1" (tui_restart [] (one_dialogue 50 [IoOk; IoOk; IoCrash 20]))).1 = Done None.
Proof. vm_compute. reflexivity. Qed.
