(* ===== verification/ToolCompactor.v ===== *)
(** * Truncation of tool output, and what it keeps *)

From stdpp Require Import base list strings sets.
From Stdlib Require Import ZArith Ascii SpecFloat.
From S2P Require Import Prelude PyText PyValue PyFloat PyOps Json Failure Tokens ContextManager JsonDump JsonStored SessionMessage.

(** * Truncation of tool output (memory/tool_compactor.py)

    Before each question to the language model the outputs of tools are made
    shorter: old ones are cleared after a pause, large ones are cut to 16 KB,
    the older of them to 1 KB, lists of Kubernetes objects by keeping the
    fields that matter.  The messages are changed in place: the list returned
    holds the messages as they are afterwards. *)

(** ** Clearing after a pause *)

Definition TIME_BASED_MC_KEEP_RECENT : Z := 3.
Definition CLEARED_MARKER : string := "[Old tool result content cleared]".

Definition is_tool_message (msg : LcMessage) : bool := String.eqb (lc_type msg) "tool".
Definition is_ai_message (msg : LcMessage) : bool := String.eqb (lc_type msg) "ai".

Definition with_content (content : pyval) (msg : LcMessage) : LcMessage :=
  mkLc (lc_class msg) (lc_type msg) (lc_name msg) content (lc_id msg) (lc_kwargs msg) (lc_tool_calls msg) (lc_tool_call_id msg).

(** The tool results whose index is below [n], counted from [i]: cleared. *)
Fixpoint clear_results (i n : Z) (messages : list LcMessage) : list LcMessage * bool :=
  match messages with
  | [] => ([], false)
  | msg :: rest =>
      if is_tool_message msg then
        let '(rest', modified) := clear_results (i + 1) n rest in
        match lc_content msg with
        | VStr c =>
            if (i <? n)%Z && negb (String.eqb c CLEARED_MARKER)
            then (with_content (VStr CLEARED_MARKER) msg :: rest', true)
            else (msg :: rest', modified)
        | _ => (msg :: rest', modified)
        end
      else let '(rest', modified) := clear_results i n rest in (msg :: rest', modified)
  end.

Definition count_tools (messages : list LcMessage) : Z := count_if is_tool_message messages.

(** How many of [total] results [l[-keep:]] leaves out: none for [keep = 0],
    since [l[-0:]] is all of [l]; a negative [keep] takes from the front. *)
Definition cleared_count (total keep : Z) : Z :=
  if (keep =? 0)%Z then 0 else if (0 <? keep)%Z then total - keep else Z.min total (- keep).

Section clearing.
(** The idle minutes since a time stamp are at least the threshold; [None] for
    a time stamp that is not one. *)
Context (idle_since : string → option bool).

(** The time stamp of the last answer, [None] when it has none. *)
Definition last_ai_idle (messages : list LcMessage) : option bool :=
  match List.filter is_ai_message (rev messages) with
  | msg :: _ => match py_get "timestamp" (lc_kwargs msg) with VStr ts => idle_since ts | _ => None end
  | [] => None
  end.

Definition maybe_time_based_microcompact (messages : list LcMessage) (keep_recent : Z) : option (list LcMessage) :=
  match last_ai_idle messages with
  | Some true =>
      let total := count_tools messages in
      if (total <=? keep_recent)%Z then None
      else
        let '(result, modified) := clear_results 0 (cleared_count total keep_recent) messages in
        if modified then Some result else None
  | _ => None
  end.
End clearing.

(** ** Cutting texts *)

Definition REPLACEMENT : string := String "239" (String "191" (String "189" "")).

(** The characters within [k] bytes; a character that is cut is replaced. *)
Fixpoint decode_within (k : nat) (chars : list char) : string :=
  match chars with
  | [] => ""
  | c :: rest =>
      if Nat.leb (String.length c) k then c +:+ decode_within (k - String.length c) rest
      else if Nat.eqb k 0 then "" else REPLACEMENT
  end.

Definition truncate_text (text : string) (max_bytes : nat) : string :=
  if Nat.leb (String.length text) max_bytes then text else decode_within max_bytes (uchars text).

(** ** Lists of Kubernetes objects *)

Definition is_index (key : string) : bool := startswith key "[" && endswith key "]".

(** [key[1:-1]]. *)
Definition inner_text (key : string) : string := String.substring 1 (String.length key - 2) key.

(** [None] of Python is [VNone]. *)
Fixpoint extract_keys (keys : list string) (current : pyval) : Exc pyval :=
  match keys with
  | [] => Some current
  | key :: rest =>
      if is_index key then
        idx ← py_int_of_string (inner_text key);
        match current with
        | VList l =>
            if (0 <=? idx)%Z && (idx <? Z.of_nat (length l))%Z
            then v ← l !! Z.to_nat idx; extract_keys rest v else Some VNone
        | _ => Some VNone
        end
      else match current with
           | VDict d => match dict_get key d with Some v => extract_keys rest v | None => Some VNone end
           | _ => Some VNone
           end
  end.

Definition _extract_nested (obj : pyval) (path : string) : Exc pyval := extract_keys (split_on "." path) obj.

Definition _POD_STRIP_FIELDS : list string :=
  ["metadata.name"; "metadata.namespace"; "metadata.deletionTimestamp"; "spec.nodeName"; "status.phase"; "status.startTime";
   "status.conditions"; "status.containerStatuses[0].restartCount"; "status.containerStatuses[0].state";
   "status.containerStatuses[0].image"].

Definition _NODE_STRIP_FIELDS : list string :=
  ["metadata.name"; "spec.unschedulable"; "spec.taints"; "status.conditions"; "status.capacity"; "status.allocatable"].

Definition _EVENT_STRIP_FIELDS : list string :=
  ["metadata.name"; "metadata.namespace"; "involvedObject"; "reason"; "message"; "type"; "lastTimestamp"; "eventTime"; "count"].

Definition _GENERIC_STRIP_FIELDS : list string := ["metadata.name"; "metadata.namespace"; "status.phase"; "spec.nodeName"].

(** The value put at a path, the dicts on the way made; keys that are indices
    are skipped.  A value that is not a dict on the way raises, at the end it
    is left alone. *)
Fixpoint put_path (keys : list string) (value : pyval) (target : pyval) : Exc pyval :=
  match keys with
  | [] => Some target
  | [final] => Some (match target with VDict d => VDict (dict_set final value d) | t => t end)
  | key :: rest =>
      if startswith key "[" then put_path rest value target
      else
        d ← as_dict target;
        inner ← put_path rest value (get_d key (VDict []) d);
        Some (VDict (dict_set key inner d))
  end.

Fixpoint strip_fields (item : pyval) (fields : list string) (result : pyval) : Exc pyval :=
  match fields with
  | [] => Some result
  | f :: rest =>
      value ← _extract_nested item f;
      result ← match value with VNone => Some result | v => put_path (split_on "." f) v result end;
      strip_fields item rest result
  end.

Definition _strip_item (item : pyval) (fields : list string) : Exc pyval := strip_fields item fields (VDict []).

Definition WORKLOAD_OWNERS : list string := ["DaemonSet"; "ReplicaSet"; "Deployment"; "StatefulSet"; "Job"].

Fixpoint owned (owners : list pyval) : Exc bool :=
  match owners with
  | [] => Some false
  | o :: rest => k ← vget_d "kind" (VStr "") o; if one_of k WORKLOAD_OWNERS then Some true else owned rest
  end.

Definition _detect_item_kind (item : dict pyval) : Exc pyval :=
  let kind := get_d "kind" (VStr "") item in
  if py_truthy kind then Some kind
  else
    pod ← (if dict_mem "spec" item then py_in "nodeName" (get_d "spec" (VDict []) item) else Some false);
    if (pod : bool) then Some (VStr "Pod") else
    node ← (if dict_mem "status" item then
              c ← py_in "conditions" (get_d "status" (VDict []) item);
              if (c : bool) then py_in "capacity" (get_d "status" (VDict []) item) else Some false
            else Some false);
    if (node : bool) then Some (VStr "Node") else
    if dict_mem "involvedObject" item && dict_mem "reason" item && dict_mem "message" item then Some (VStr "Event") else
    owners ← vget_d "ownerReferences" (VList []) (get_d "metadata" (VDict []) item);
    pod ← (if py_truthy owners then l ← py_iter owners; owned l else Some false);
    Some (VStr (if (pod : bool) then "Pod" else "Generic")).

Definition _get_strip_fields (kind : pyval) : list string :=
  if eqs kind "Pod" then _POD_STRIP_FIELDS
  else if eqs kind "Node" then _NODE_STRIP_FIELDS
  else if eqs kind "Event" then _EVENT_STRIP_FIELDS
  else _GENERIC_STRIP_FIELDS.

(** [d.pop(k, None)]. *)
Definition dict_del (k : string) (d : dict pyval) : dict pyval := List.filter (λ kv, negb (String.eqb kv.1 k)) d.

Definition with_items (items : list pyval) (data : dict pyval) : dict pyval := dict_set "items" (VList items) data.

(** The items are given in reverse: the last is dropped until the text fits or
    one is left. *)
Fixpoint shrink (max_bytes : nat) (data : dict pyval) (rev_items : list pyval) : string :=
  match rev_items with
  | _ :: ((_ :: _) as rest) =>
      let result := json_dumps (VDict (with_items (rev rest) data)) in
      if Nat.leb (String.length result) max_bytes then result else shrink max_bytes data rest
  | l => json_dumps (VDict (with_items (rev l) data))
  end.

Definition stripped_data (data : dict pyval) (items : list pyval) : Exc (dict pyval) :=
  let d := dict_set "truncated" (VBool true) (with_items items data) in
  if dict_mem "metadata" d then
    meta ← as_dict (py_get "metadata" d);
    Some (dict_set "metadata" (VDict (dict_del "managedFields" (dict_del "annotations" meta))) d)
  else Some d.

(** [None] for what is not a list of objects; an exception where a value has
    not the shape of one. *)
Definition smart_strip_k8s_json (content : string) (max_bytes : nat) : Exc (option string) :=
  match json_loads content with
  | JDecodeError => Some None
  | JValueError => Raise
  | JOk (VDict data) =>
      if negb (dict_mem "items" data) then Some None
      else if negb (py_truthy (py_get "items" data)) then Some None
      else
        items ← as_list (py_get "items" data);
        first ← as_dict (default VNone (head items));
        kind ← _detect_item_kind first;
        stripped_items ← mapM (λ item, _strip_item item (_get_strip_fields kind)) items;
        data ← stripped_data data stripped_items;
        let result := json_dumps (VDict data) in
        Some (Some (if Nat.leb (String.length result) max_bytes then result
                    else shrink max_bytes data (rev stripped_items)))
  | JOk _ => Some None
  end.

(** ** Other JSON *)

Definition f_0_8 : spec_float := Eval vm_compute in float_of_repr "0.8".

Definition pair_at (chars : list char) (pos : nat) : string := unchars (take 2 (drop pos chars)).

(** The cut for the boundary found at or below [pos], above [stop]; [0] for
    none.  [n] is the number of positions left. *)
Fixpoint find_boundary (chars : list char) (n : nat) (pos : nat) : nat :=
  match n with
  | O => 0%nat
  | S n' =>
      if Nat.ltb pos (length chars - 1) then
        if String.eqb (pair_at chars pos) "}," then (pos + 1)%nat
        else if String.eqb (pair_at chars pos) "}]" then (pos + 2)%nat
        else find_boundary chars n' (pos - 1)
      else find_boundary chars n' (pos - 1)
  end.

(** [s[:-1]] of a text that ends in an ASCII character. *)
Definition but_last (s : string) : string := String.substring 0 (String.length s - 1) s.

Definition close_json (truncated : string) : string :=
  let truncated := if endswith (rstrip truncated) "," then but_last (rstrip truncated) else truncated in
  let truncated := if negb (endswith (rstrip truncated) "]") then truncated +:+ newline +:+ "  ]" else truncated in
  if endswith (rstrip truncated) "}"
  then but_last (rstrip truncated) +:+ "," +:+ newline +:+ "  " +:+ dquote +:+ "truncated" +:+ dquote +:+ ": true" +:+ newline +:+ "}"
  else truncated.

Definition truncate_json_at_boundary (content : string) (max_bytes : nat) : Exc string :=
  start ← scaled (Z.of_nat max_bytes) f_0_8;
  stop ← scaled (Z.of_nat max_bytes) f_1_20;
  let chars := uchars content in
  let search_start := Z.to_nat start in
  let search_end := Nat.min (length chars) (Z.to_nat stop) in
  let best_pos := find_boundary chars (search_end - search_start) search_end in
  Some (if Nat.ltb 0 best_pos then close_json (unchars (take best_pos chars)) else truncate_text content max_bytes).

(** ** The notice *)

Definition build_truncation_notice (original_size : nat) (is_recent : bool) (cache_path : string) : string :=
  if is_recent then
    newline +:+ newline +:+ "⚠️ OUTPUT_TRUNCATED: 输出已精简或截断（原始 " +:+ str_of_nat (original_size / 1024) +:+ "KB），仅保留关键字段。" +:+
    (if truthy cache_path then newline +:+ "完整输出缓存于: " +:+ cache_path else "") +:+
    newline +:+ "不要重复相同查询！如需完整数据，请使用以下策略：" +:+
    newline +:+ "- 使用 --field-selector 缩小范围（如 kubectl subcommand=" +:+ dquote +:+ "get" +:+ dquote +:+ " --field-selector spec.nodeName=<node>）" +:+
    newline +:+ "- 使用 -o name 获取精简列表" +:+
    newline +:+ "- 使用 kubectl 工具的 -o jsonpath 提取特定字段" +:+
    newline +:+ "- 按名称查询单个资源而非列出全部"
  else
    newline +:+ "⚠️ TRUNCATED. Use field_selector or output_format='name'." +:+
    (if truthy cache_path then " Cache: " +:+ cache_path else "").

(** ** The compactor *)

Definition RECENT_MAX_BYTES : nat := 16 * 1024.
Definition OLD_MAX_BYTES : nat := 1024.
Definition KEEP_RECENT_N : nat := 3.

Section compactor.
Context (idle_since : string → option bool).
(** The directory of the cache, the names made up for its files, and whether
    the [n]-th write succeeds; an error of the disk is not caught. *)
Context (cache_dir : option string) (cache_id : nat → string) (disk_ok : nat → bool).

(** The files written so far, oldest first. *)
Definition caches : Type := list (string * string).

Definition _cache_to_disk (content : string) (files : caches) : Exc (string * caches) :=
  match cache_dir with
  | None => Some ("", files)
  | Some dir =>
      if disk_ok (length files) then
        let path := dir +:+ "/" +:+ cache_id (length files) +:+ ".txt" in
        Some (path, files ++ [(path, content)])
      else Raise
  end.

Definition json_shaped (content : string) : bool := startswith (lstrip content) "{" || startswith (lstrip content) "[".

Definition shortened (content : string) (max_bytes : nat) : Exc string :=
  stripped ← smart_strip_k8s_json content max_bytes;
  match stripped with
  | Some s => Some s
  | None => if json_shaped content then truncate_json_at_boundary content max_bytes else Some (truncate_text content max_bytes)
  end.

(** One tool result. *)
Definition compact_result (is_recent : bool) (msg : LcMessage) (files : caches) : Exc (LcMessage * caches) :=
  let max_bytes := if is_recent then RECENT_MAX_BYTES else OLD_MAX_BYTES in
  if String.eqb (lc_name msg) "read_skill_resource" then Some (msg, files)
  else match lc_content msg with
       | VStr content =>
           if Nat.leb (String.length content) max_bytes then Some (msg, files)
           else
             r ← _cache_to_disk content files;
             s ← shortened content max_bytes;
             Some (with_content (VStr (s +:+ build_truncation_notice (String.length content) is_recent r.1)) msg, r.2)
       | _ => Some (msg, files)
       end.

(** [idx] counts the tool results, [total] is their number. *)
Fixpoint compact_from (idx total : nat) (messages : list LcMessage) (files : caches) : Exc (list LcMessage * caches) :=
  match messages with
  | [] => Some ([], files)
  | msg :: rest =>
      if is_tool_message msg then
        r ← compact_result (Nat.leb total (idx + KEEP_RECENT_N)) msg files;
        rest' ← compact_from (S idx) total rest r.2;
        Some (r.1 :: rest'.1, rest'.2)
      else rest' ← compact_from idx total rest files; Some (msg :: rest'.1, rest'.2)
  end.

Definition compact (messages : list LcMessage) (files : caches) : Exc (list LcMessage * caches) :=
  let messages := default messages (maybe_time_based_microcompact idle_since messages TIME_BASED_MC_KEEP_RECENT) in
  compact_from 0 (Z.to_nat (count_tools messages)) messages files.
End compactor.

(** * What the truncation of tool output keeps

    The stripped objects agree with the original ones on the fields that are
    kept, the shortened list is a first part of them, texts are within their
    budget, and nothing but the content of tool results changes. *)

(** ** Paths *)

Definition plain_key (k : string) : bool := negb (is_index k) && negb (startswith k "[").

Definition plain_path (p : list string) : bool := nonempty p && forallb plain_key p.

(** Neither path leads through the other. *)
Fixpoint apart_paths (p q : list string) : bool :=
  match p, q with
  | a :: p', b :: q' => if String.eqb a b then apart_paths p' q' else true
  | _, _ => false
  end.

Lemma apart_sym p q : apart_paths p q = apart_paths q p.
Proof. revert q. induction p as [|a p IH]; intros [|b q]; try done. cbn. rewrite String.eqb_sym. by destruct (String.eqb b a). Qed.

(** A value can be put at [p]: what is on the way is a dict or missing. *)
Fixpoint reachable (p : list string) (t : pyval) : Prop :=
  match p with
  | [] => True
  | k :: rest => ∃ d, t = VDict d ∧ match dict_get k d with Some v => rest = [] ∨ reachable rest v | None => True end
  end.

Lemma plain_cons k p : plain_path (k :: p) = true → is_index k = false ∧ startswith k "[" = false ∧ (p = [] ∨ plain_path p = true).
Proof.
  unfold plain_path. cbn [nonempty forallb]. intros [_ H]%andb_true_iff. apply andb_true_iff in H as [Hk Hp]. unfold plain_key in Hk.
  apply andb_true_iff in Hk as [H1 H2]. apply negb_true_iff in H1, H2. split_and!; [done..|]. destruct p; [by left|]. right. exact Hp.
Qed.

Lemma extract_cons k p d : is_index k = false →
  extract_keys (k :: p) (VDict d) = match dict_get k d with Some v => extract_keys p v | None => Some VNone end.
Proof. intros H. cbn [extract_keys]. by rewrite H. Qed.

Lemma put_path_cons k p v d : startswith k "[" = false → p ≠ [] →
  put_path (k :: p) v (VDict d) = inner ← put_path p v (get_d k (VDict []) d); Some (VDict (dict_set k inner d)).
Proof. intros H Hp. destruct p as [|k' p]; [done|]. cbn [put_path]. by rewrite H. Qed.

Lemma extract_empty q : plain_path q = true → extract_keys q (VDict []) = Some VNone.
Proof. destruct q as [|k q]; [done|]. intros (Hk & _ & _)%plain_cons. by rewrite extract_cons. Qed.

(** Putting a value: it is found there, other paths are as before. *)
Lemma put_path_spec p v t :
  plain_path p = true → reachable p t →
  ∃ t', put_path p v t = Some t' ∧ extract_keys p t' = Some v ∧
    ∀ q, plain_path q = true → apart_paths p q = true →
      extract_keys q t' = extract_keys q t ∧ (reachable q t → reachable q t').
Proof.
  revert t. induction p as [|k p IH]; intros t Hp Hr; [done|]. destruct (plain_cons k p Hp) as (Hi & Hs & Hp').
  destruct Hr as (d & -> & Hr). destruct (decide (p = [])) as [->|Hne].
  - exists (VDict (dict_set k v d)). split; [done|]. split; [by rewrite extract_cons, dict_get_set, String.eqb_refl|].
    intros [|b q] Hq Ha; [done|]. destruct (plain_cons b q Hq) as (Hb & _ & _). cbn in Ha.
    destruct (String.eqb_spec k b) as [->|Hkb]; [done|]. rewrite !extract_cons by done. rewrite dict_get_set_ne by congruence.
    split; [done|]. intros (d' & [= <-] & H). eexists. split; [done|]. by rewrite dict_get_set_ne by congruence.
  - destruct Hp' as [|Hp']; [done|]. set (w := get_d k (VDict []) d).
    assert (Hw : reachable p w).
    { unfold w, get_d. destruct (dict_get k d) as [x|]; cbn; [by destruct Hr|]. destruct p; [done|]. by exists []. }
    destruct (IH w Hp' Hw) as (w' & Hput & Hval & Hoth). exists (VDict (dict_set k w' d)).
    rewrite put_path_cons by done. fold w. rewrite Hput. split; [done|].
    split; [by rewrite extract_cons, dict_get_set, String.eqb_refl|].
    intros [|b q] Hq Ha; [done|]. destruct (plain_cons b q Hq) as (Hb & _ & Hq'). cbn in Ha.
    destruct (String.eqb_spec k b) as [<-|Hkb].
    + destruct Hq' as [->|Hq']; [by destruct p|]. destruct (Hoth q Hq' Ha) as [He Hre]. rewrite !extract_cons by done.
      rewrite dict_get_set, String.eqb_refl, He. unfold w, get_d in *. split.
      * destruct (dict_get k d); [done|]. cbn. by apply extract_empty.
      * intros (d' & [= <-] & H). eexists. split; [done|]. rewrite dict_get_set, String.eqb_refl. right. apply Hre.
        destruct (dict_get k d) as [x|]; cbn; [destruct H as [->|]; [by destruct p | done]|]. destruct q; [done|]. by exists [].
    + rewrite !extract_cons by done. rewrite dict_get_set_ne by congruence. split; [done|].
      intros (d' & [= <-] & H). eexists. split; [done|]. by rewrite dict_get_set_ne by congruence.
Qed.

(** ** Stripping *)

Definition keys_of (f : string) : list string := split_on "." f.

(** The fields of a list can be kept side by side. *)
Fixpoint compatible (fields : list string) : bool :=
  match fields with
  | [] => true
  | f :: rest => plain_path (keys_of f) && forallb (λ g, apart_paths (keys_of f) (keys_of g)) rest && compatible rest
  end.

Lemma fields_compatible kind : compatible (_get_strip_fields kind) = true.
Proof. unfold _get_strip_fields. by repeat (case_match; [by vm_compute|]). Qed.

Lemma extract_total q t : plain_path q = true → is_Some (extract_keys q t).
Proof.
  revert t. induction q as [|k q IH]; intros t Hq; [done|]. destruct (plain_cons k q Hq) as (Hi & _ & Hq').
  cbn [extract_keys]. rewrite Hi. destruct t as [| | | | | | |d]; try by eexists. destruct (dict_get k d) as [v|]; [|by eexists].
  destruct Hq' as [->|Hq']; [by eexists | by apply IH].
Qed.

Lemma strip_fields_spec item fields t :
  compatible fields = true → (∀ f, f ∈ fields → reachable (keys_of f) t ∧ extract_keys (keys_of f) t = Some VNone) →
  ∃ t', strip_fields item fields t = Some t' ∧
    (∀ f, f ∈ fields → _extract_nested t' f = _extract_nested item f) ∧
    (∀ q, plain_path q = true → (∀ f, f ∈ fields → apart_paths (keys_of f) q = true) → extract_keys q t' = extract_keys q t).
Proof.
  revert t. induction fields as [|f fields IH]; intros t Hc Ht; [by exists t; set_solver|]. cbn [compatible] in Hc.
  apply andb_true_iff in Hc as [Hc Hcs]. apply andb_true_iff in Hc as [Hp Ha]. rewrite forallb_forall in Ha.
  assert (Ha' : ∀ g, g ∈ fields → apart_paths (keys_of f) (keys_of g) = true) by (intros g Hg; by apply Ha, list_elem_of_In).
  assert (Hpl : ∀ g, g ∈ fields → plain_path (keys_of g) = true).
  { clear -Hcs. induction fields as [|g fields IH]; [set_solver|]. cbn [compatible] in Hcs. rewrite !andb_true_iff in Hcs. set_solver. }
  destruct (Ht f) as [Hr Hn]; [by left|]. cbn [strip_fields].
  destruct (extract_total (keys_of f) item Hp) as [v Hv]. change (_extract_nested item f) with (extract_keys (keys_of f) item). rewrite Hv. cbn [mbind option_bind].
  assert (Hstep : ∃ t1, (match v with VNone => Some t | w => put_path (split_on "." f) w t end) = Some t1 ∧ extract_keys (keys_of f) t1 = Some v ∧
    ∀ q, plain_path q = true → apart_paths (keys_of f) q = true → extract_keys q t1 = extract_keys q t ∧ (reachable q t → reachable q t1)).
  { destruct v; [by exists t|by apply put_path_spec..]. }
  destruct Hstep as (t1 & -> & He & Hoth). cbn [mbind option_bind].
  destruct (IH t1) as (t' & Ht' & Hall & Hrest); [done|intros g Hg; destruct (Ht g) as [H1 H2]; [by right|]; destruct (Hoth (keys_of g)); auto; split; [auto | congruence]|].
  exists t'. split; [done|]. split.
  - intros g [->|Hg]%elem_of_cons; [|by apply Hall]. unfold _extract_nested. fold (keys_of f). rewrite Hrest, He; [done | done|].
    intros g Hg. rewrite apart_sym. by apply Ha'.
  - intros q Hq Hap. rewrite Hrest by (intros; try apply Hap; try done; by right). apply Hoth; [done|]. apply Hap. by left.
Qed.

(** *** What a field path means

    [a.b\[0\].c] is the entry [a], in it the entry [b], of that list the first
    element, and of that the entry [c].  The code reads [b\[0\]] as one key. *)

Inductive step := Key (k : string) | Index (n : nat).

Definition part_steps (part : string) : list step :=
  match cut "[" part with
  | Some (name, idx) => [Key name; Index (Z.to_nat (default 0%Z (py_int_of_string (before "]" idx))))]
  | None => [Key part]
  end.

Definition steps_of (f : string) : list step := flat_map part_steps (split_on "." f).

Fixpoint value_at (p : list step) (v : pyval) : option pyval :=
  match p with
  | [] => Some v
  | Key k :: rest => match v with VDict d => w ← dict_get k d; value_at rest w | _ => None end
  | Index n :: rest => match v with VList l => w ← l !! n; value_at rest w | _ => None end
  end.

(** A null counts as nothing. *)
Definition field_value (f : string) (v : pyval) : option pyval :=
  match value_at (steps_of f) v with Some VNone => None | r => r end.

Definition indexed (f : string) : bool := has_char "[" f.

(** The keys in front of the first index. *)
Fixpoint leading_keys (p : list step) : list string :=
  match p with Key k :: rest => k :: leading_keys rest | _ => [] end.

(** Nothing is behind what is missing or null. *)
Lemma value_at_leading p v :
  default VNone (value_at (map Key (leading_keys p)) v) = VNone → default VNone (value_at p v) = VNone.
Proof.
  revert v. induction p as [|[k|n] p IH]; intros v; cbn [leading_keys map value_at]; [done| |intros H; cbn in H; by subst].
  destruct v as [| | | | | | |d]; try done. destruct (dict_get k d) as [w|]; [|done]. apply IH.
Qed.

Lemma extract_value_at q t : plain_path q = true → extract_keys q t = Some (default VNone (value_at (map Key q) t)).
Proof.
  revert t. induction q as [|k q IH]; intros t Hq; [done|]. destruct (plain_cons k q Hq) as (Hi & _ & Hq').
  cbn [extract_keys map value_at]. rewrite Hi. destruct t; try done. destruct (dict_get k _) as [v|]; [|done].
  cbn. destruct Hq' as [->|Hq']; [done | by apply IH].
Qed.

(** The paths of the tables: a field without an index is read key by key, and
    no field leads to what stands in front of an index. *)
Definition paths_ok (fields : list string) : bool :=
  forallb (λ f, let q := leading_keys (steps_of f) in
    if indexed f then plain_path q && forallb (λ g, apart_paths (keys_of g) q) fields
    else bool_decide (q = keys_of f) && Nat.eqb (length q) (length (steps_of f))) fields.

Lemma fields_paths_ok kind : paths_ok (_get_strip_fields kind) = true.
Proof. unfold _get_strip_fields. by repeat (case_match; [by vm_compute|]). Qed.

Lemma leading_all p : length (leading_keys p) = length p → p = map Key (leading_keys p).
Proof. induction p as [|[k|n] p IH]; cbn; [done| |done]. intros [= H]. by rewrite <- IH. Qed.

(** C29. Stripping an object to the fields kept for its kind never raises.  A field
    whose path has no index has in the result the value it has in the object;
    a field whose path has one, [containerStatuses\[0\].restartCount] and the
    like, is never in the result. *)
Theorem strip_item_fields kind item :
  ∃ r, _strip_item item (_get_strip_fields kind) = Some r ∧
       ∀ f, f ∈ _get_strip_fields kind → field_value f r = if indexed f then None else field_value f item.
Proof.
  pose proof (fields_compatible kind) as Hc. pose proof (fields_paths_ok kind) as Hok. unfold paths_ok in Hok. rewrite forallb_forall in Hok.
  assert (Hp : ∀ f, f ∈ _get_strip_fields kind → plain_path (keys_of f) = true).
  { generalize (_get_strip_fields kind) Hc. clear. induction l as [|g l IH]; intros Hc; [set_solver|]. cbn [compatible] in Hc.
    rewrite !andb_true_iff in Hc. set_solver. }
  destruct (strip_fields_spec item _ (VDict []) Hc) as (r & Hr & Hf & Hrest).
  { intros f Hf. split; [|by apply extract_empty, Hp]. pose proof (Hp f Hf). destruct (keys_of f) as [|k p]; [done|]. by exists []. }
  exists r. split; [done|]. intros f Hin. specialize (Hok f ltac:(by apply list_elem_of_In)). cbv zeta in Hok. unfold field_value.
  destruct (indexed f).
  - rewrite andb_true_iff, forallb_forall in Hok. destruct Hok as [Hq Ha].
    assert (Hx : extract_keys (leading_keys (steps_of f)) r = Some VNone).
    { rewrite Hrest, extract_empty; [done..|]. intros g Hg. by apply Ha, list_elem_of_In. }
    rewrite extract_value_at in Hx by done. injection Hx as Hx%value_at_leading.
    destruct (value_at (steps_of f) r) as [[]|]; by cbn in Hx.
  - apply andb_true_iff in Hok as [Hq%bool_decide_eq_true Hl%Nat.eqb_eq]. rewrite (leading_all _ Hl), Hq.
    specialize (Hf f Hin). unfold _extract_nested in Hf. rewrite !extract_value_at in Hf by by apply Hp. injection Hf as Hf.
    fold (keys_of f) in Hf. destruct (value_at _ r) as [[]|], (value_at _ item) as [[]|]; cbn in Hf; congruence.
Qed.

(** ** The shortened list *)

Lemma shrink_spec max_bytes data rev_items :
  rev_items ≠ [] →
  ∃ k, (1 ≤ k)%nat ∧ shrink max_bytes data rev_items = json_dumps (VDict (with_items (take k (rev rev_items)) data)) ∧
       ((String.length (shrink max_bytes data rev_items) ≤ max_bytes)%nat ∨ k = 1%nat).
Proof.
  induction rev_items as [|x [|y rest] IH]; intros Hne; [done| |].
  - exists 1%nat. by split_and!; [|cbn|right].
  - assert (Ht : ∀ k, (k ≤ length (y :: rest))%nat → take k (rev (x :: y :: rest)) = take k (rev (y :: rest))).
    { intros k Hk. change (rev (x :: y :: rest)) with (rev (y :: rest) ++ [x]). apply take_app_le. rewrite length_rev. done. }
    change (shrink max_bytes data (x :: y :: rest)) with
      (let result := json_dumps (VDict (with_items (rev (y :: rest)) data)) in
       if Nat.leb (String.length result) max_bytes then result else shrink max_bytes data (y :: rest)). cbv zeta.
    destruct (Nat.leb (String.length (json_dumps (VDict (with_items (rev (y :: rest)) data)))) max_bytes) eqn:E.
    + exists (length (y :: rest)). split_and!; [cbn; lia | | left; by apply Nat.leb_le].
      rewrite Ht, take_ge by (try rewrite length_rev; done). done.
    + destruct IH as (k & Hk & Heq & Hor); [done|]. destruct (decide (k ≤ length (y :: rest))%nat) as [Hle|Hgt].
      * exists k. rewrite Ht by done. done.
      * exists (length (y :: rest)). split_and!; [cbn; lia | |].
        -- rewrite Heq, Ht, !take_ge by (try rewrite length_rev; lia). done.
        -- destruct Hor as [|Hor]; [by left|]. subst. cbn in Hgt. lia.
Qed.

(** What the stripping of a list answers: the encoding of the same object with
    at least one of the stripped items, the first ones; within the budget
    unless one item is left. *)
Theorem smart_strip_spec content max_bytes r :
  smart_strip_k8s_json content max_bytes = Some (Some r) →
  ∃ data items kind stripped d k,
    json_loads content = JOk (VDict data) ∧ dict_get "items" data = Some (VList items) ∧
    mapM (λ item, _strip_item item (_get_strip_fields kind)) items = Some stripped ∧
    stripped_data data stripped = Some d ∧ (1 ≤ k)%nat ∧
    r = json_dumps (VDict (with_items (take k stripped) d)) ∧
    ((String.length r ≤ max_bytes)%nat ∨ k = 1%nat).
Proof.
  unfold smart_strip_k8s_json. destruct (json_loads content) as [[| | | | | | |data]| |]; try done.
  destruct (dict_mem "items" data) eqn:Em; [|done]. destruct (py_truthy (py_get "items" data)) eqn:Et; [|done]. cbn [negb].
  intros (items & Hi & H)%bind_Some. apply bind_Some in H as (first & Hf & H). apply bind_Some in H as (kind & Hk & H).
  apply bind_Some in H as (stripped & Hs & H). apply bind_Some in H as (d & Hd & H). cbv zeta in H.
  apply Some_inj, Some_inj in H. subst r.
  assert (Hget : dict_get "items" data = Some (VList items)).
  { unfold py_get in Hi, Et. destruct (dict_get "items" data) as [v|]; cbn in Hi, Et; [|done]. destruct v; try done. by injection Hi as <-. }
  assert (Hne : stripped ≠ []).
  { intros ->. apply length_mapM in Hs. destruct items; [done|]. discriminate Hs. }
  assert (Hwith : with_items stripped d = d).
  { clear -Hd. unfold stripped_data in Hd. set (d0 := dict_set "truncated" _ _) in Hd.
    assert (Hset : ∀ (x : dict pyval) k v, dict_get k x = Some v → dict_set k v x = x).
    { induction x as [|[k' v'] x IH]; intros k v H; [done|]. cbn in *. destruct (String.eqb_spec k k') as [->|]; [congruence|]. by rewrite IH. }
    apply Hset. assert (H0 : dict_get "items" d0 = Some (VList stripped)).
    { unfold d0, with_items. by rewrite dict_get_set_ne, dict_get_set, String.eqb_refl by done. }
    destruct (dict_mem "metadata" d0); [|by injection Hd as <-]. apply bind_Some in Hd as (m & _ & [= <-]).
    by rewrite dict_get_set_ne. }
  exists data, items, kind, stripped, d.
  destruct (Nat.leb (String.length (json_dumps (VDict d))) max_bytes) eqn:El.
  - exists (length stripped). split_and!; try done; [by destruct stripped; [|cbn; lia] | by rewrite take_ge, Hwith | left; by apply Nat.leb_le].
  - destruct (shrink_spec max_bytes d (rev stripped)) as (k & Hk1 & Heq & Hor); [by destruct stripped as [|? ? _] using rev_ind; [|rewrite rev_app_distr]|].
    rewrite rev_involutive in Heq. exists k. split_and!; try done.
Qed.

(** ** Texts *)

Lemma decode_within_bound k chars : (String.length (decode_within k chars) ≤ k + 2)%nat.
Proof.
  revert k. induction chars as [|c chars IH]; intros k; cbn [decode_within]; [cbn; lia|].
  destruct (Nat.leb (String.length c) k) eqn:E.
  - apply Nat.leb_le in E. rewrite length_append. specialize (IH (k - String.length c)%nat). lia.
  - destruct (Nat.eqb k 0) eqn:E0; [cbn; lia|]. apply Nat.eqb_neq in E0. cbn. lia.
Qed.

(** A text is cut to its budget, but for the mark of a character that was cut. *)
Lemma truncate_text_bound s k : (String.length (truncate_text s k) ≤ k + 2)%nat.
Proof. unfold truncate_text. destruct (Nat.leb (String.length s) k) eqn:E; [apply Nat.leb_le in E; lia | apply decode_within_bound]. Qed.

(** ** What a compaction changes *)

(** Everything but the content of a tool result. *)
Definition only_content (m m' : LcMessage) : Prop :=
  if is_tool_message m then m' = with_content (lc_content m') m else m' = m.

Lemma only_content_refl m : only_content m m.
Proof. unfold only_content. destruct (is_tool_message m); [by destruct m | done]. Qed.

Lemma only_content_trans m1 m2 m3 : only_content m1 m2 → only_content m2 m3 → only_content m1 m3.
Proof.
  unfold only_content. destruct (is_tool_message m1) eqn:E; intros H1 H2; [|subst; by rewrite E in H2].
  assert (E2 : is_tool_message m2 = true) by (rewrite H1; exact E). rewrite E2 in H2. rewrite H2, H1. done.
Qed.

Lemma clear_results_only i n l : Forall2 only_content l (clear_results i n l).1.
Proof.
  revert i. induction l as [|m l IH]; intros i; [constructor|]. cbn [clear_results].
  destruct (is_tool_message m) eqn:E.
  - specialize (IH (i + 1)%Z). destruct (clear_results (i + 1) n l) as [l' b].
    destruct (lc_content m) as [| | | |c| | |]; try (constructor; [apply only_content_refl | exact IH]).
    destruct ((i <? n)%Z && negb (String.eqb c CLEARED_MARKER)); (constructor; [|exact IH]); [|apply only_content_refl].
    unfold only_content. by rewrite E.
  - specialize (IH i). destruct (clear_results i n l) as [l' b]. constructor; [apply only_content_refl | exact IH].
Qed.

Lemma Forall2_only_trans l1 l2 l3 : Forall2 only_content l1 l2 → Forall2 only_content l2 l3 → Forall2 only_content l1 l3.
Proof. intros H1. revert l3. induction H1; intros l3 H2; inversion H2; subst; constructor; eauto using only_content_trans. Qed.

Section frame.
Context (idle_since : string → option bool) (cache_dir : option string) (cache_id : nat → string) (disk_ok : nat → bool).

Lemma compact_result_only b m files m' files' :
  is_tool_message m = true → compact_result cache_dir cache_id disk_ok b m files = Some (m', files') → only_content m m'.
Proof.
  intros E. unfold compact_result. destruct (String.eqb (lc_name m) "read_skill_resource"); [intros [= <- <-]; apply only_content_refl|].
  destruct (lc_content m) as [| | | |c| | |]; try (intros [= <- <-]; apply only_content_refl).
  destruct (Nat.leb _ _); [intros [= <- <-]; apply only_content_refl|].
  intros (r & _ & H)%bind_Some. apply bind_Some in H as (s & _ & [= <- <-]). unfold only_content. by rewrite E.
Qed.

Lemma compact_from_only idx total l files l' files' :
  compact_from cache_dir cache_id disk_ok idx total l files = Some (l', files') → Forall2 only_content l l'.
Proof.
  revert idx files l' files'. induction l as [|m l IH]; intros idx files l' files'; cbn [compact_from]; [intros [= <- <-]; constructor|].
  destruct (is_tool_message m) eqn:E.
  - intros ([m1 f1] & Hm & H)%bind_Some. apply bind_Some in H as ([l1 f2] & Hl & [= <- <-]). cbn [fst snd] in *.
    constructor; [by eapply compact_result_only | by eapply IH].
  - intros ([l1 f2] & Hl & [= <- <-])%bind_Some. constructor; [apply only_content_refl | by eapply IH].
Qed.

(** A compaction keeps every message in its place, with its kind, name,
    identifiers, calls and annotations; only contents of tool results change. *)
Theorem compact_only_contents l files l' files' :
  compact idle_since cache_dir cache_id disk_ok l files = Some (l', files') → Forall2 only_content l l'.
Proof.
  unfold compact, maybe_time_based_microcompact. intros H. apply compact_from_only in H.
  destruct (last_ai_idle idle_since l) as [[]|]; try exact H. destruct (count_tools l <=? TIME_BASED_MC_KEEP_RECENT)%Z; [exact H|].
  pose proof (clear_results_only 0 (cleared_count (count_tools l) TIME_BASED_MC_KEEP_RECENT) l) as Hc.
  destruct (clear_results _ _ l) as [cl []]; [|exact H]. by eapply Forall2_only_trans.
Qed.

(** A tool result that is not JSON ends within its budget, the mark of a cut
    character and the notice. *)
Lemma compact_result_bound (b : bool) m files m' files' c :
  lc_content m = VStr c → json_shaped c = false → lc_name m ≠ "read_skill_resource" → smart_strip_k8s_json c (if b then RECENT_MAX_BYTES else OLD_MAX_BYTES) = Some None →
  compact_result cache_dir cache_id disk_ok b m files = Some (m', files') →
  lc_content m' = lc_content m ∧ (String.length c ≤ if b then RECENT_MAX_BYTES else OLD_MAX_BYTES)%nat ∨
  ∃ text path, lc_content m' = VStr (text +:+ build_truncation_notice (String.length c) b path) ∧
    (String.length text ≤ (if b then RECENT_MAX_BYTES else OLD_MAX_BYTES) + 2)%nat.
Proof.
  intros Hc Hj Hn Hs. unfold compact_result. apply String.eqb_neq in Hn. rewrite Hn, Hc. set (mx := if b then RECENT_MAX_BYTES else OLD_MAX_BYTES) in *.
  destruct (Nat.leb (String.length c) mx) eqn:E; [intros [= <- <-]; left; split; [done | by apply Nat.leb_le]|].
  intros (r & _ & H)%bind_Some. apply bind_Some in H as (s & Hsh & [= <- <-]). right. unfold shortened in Hsh.
  rewrite Hs, Hj in Hsh. injection Hsh as <-. exists (truncate_text c mx), r.1. split; [done | apply truncate_text_bound].
Qed.
End frame.

(** ** Examples *)

Definition quoted (s : string) : string := dquote +:+ s +:+ dquote.

Definition tool_result (name i content : string) : LcMessage :=
  mkLc COther "tool" name (VStr content) (VStr i) [] [] (VStr i).

Definition answer_at (ts : string) : LcMessage :=
  mkLc COther "ai" "" (VStr "ok") (VStr "a") [("timestamp", VStr ts)] [] VNone.

Definition event (name message : string) : pyval :=
  VDict [("kind", VStr "Event"); ("metadata", VDict [("name", VStr name); ("uid", VStr "0123456789abcdef")]); ("message", VStr message)].

Definition events : dict pyval := [("kind", VStr "List"); ("items", VList [event "e1" "Started"; event "e2" "Killing"])].

Lemma smart_strip_spec_witness :
  let r := json_dumps (VDict [("kind", VStr "List");
             ("items", VList [VDict [("metadata", VDict [("name", VStr "e1")]); ("message", VStr "Started")]]); ("truncated", VBool true)]) in
  smart_strip_k8s_json (json_dumps (VDict events)) 120 = Some (Some r) ∧
  ∃ data items kind stripped d k,
    json_loads (json_dumps (VDict events)) = JOk (VDict data) ∧ dict_get "items" data = Some (VList items) ∧
    mapM (λ item, _strip_item item (_get_strip_fields kind)) items = Some stripped ∧
    stripped_data data stripped = Some d ∧ (1 ≤ k)%nat ∧
    r = json_dumps (VDict (with_items (take k stripped) d)) ∧ ((String.length r ≤ 120)%nat ∨ k = 1%nat).
Proof.
  cbv zeta. assert (H : smart_strip_k8s_json (json_dumps (VDict events)) 120 = Some (Some (json_dumps (VDict [("kind", VStr "List");
             ("items", VList [VDict [("metadata", VDict [("name", VStr "e1")]); ("message", VStr "Started")]]); ("truncated", VBool true)]))))
    by (vm_compute; reflexivity).
  split; [exact H|]. exact (smart_strip_spec _ _ _ H).
Defined.

Fixpoint letters (n : nat) : string := match n with O => "" | S n' => String "a" (letters n') end.

Definition cache_names (n : nat) : string := "cache" +:+ str_of_nat n.
Definition disk_works (_ : nat) : bool := true.
Definition never_idle (_ : string) : option bool := Some false.

Definition compact_here : list LcMessage → caches → Exc (list LcMessage * caches) :=
  compact never_idle (Some "/cache") cache_names disk_works.

Definition long_text : string := letters 1100.

(** An old result over its budget of one kilobyte, and three recent ones. *)
Definition results : list LcMessage :=
  tool_result "kubectl" "c1" long_text :: map (λ i, tool_result "kubectl" i "ok") ["1"; "2"; "3"].

Definition once : list LcMessage * caches := default ([], []) (compact_here results []).
Definition twice : list LcMessage * caches := default ([], []) (compact_here once.1 once.2).

Lemma compact_only_contents_witness :
  compact_here results [] = Some once ∧ Forall2 only_content results once.1.
Proof.
  assert (H : compact_here results [] = Some (once.1, once.2)) by (vm_compute; reflexivity).
  split; [vm_compute; reflexivity|]. exact (compact_only_contents _ _ _ _ _ _ _ _ H).
Defined.

(** ** What the truncation does not keep *)

(** The state of the containers is meant to survive the stripping of a pod;
    the index is not separated from the key, so it never does. *)
Definition restarted_pod : pyval :=
  VDict [("kind", VStr "Pod"); ("metadata", VDict [("name", VStr "p")]);
         ("status", VDict [("phase", VStr "Running");
           ("containerStatuses", VList [VDict [("restartCount", VInt 8); ("image", VStr "nginx")]])])].

Example restart_count_dropped :
  "status.containerStatuses[0].restartCount" ∈ _POD_STRIP_FIELDS ∧
  _strip_item restarted_pod _POD_STRIP_FIELDS =
  Some (VDict [("metadata", VDict [("name", VStr "p")]); ("status", VDict [("phase", VStr "Running")])]).
Proof. split; [apply (bool_decide_unpack _); vm_compute; exact I | vm_compute; reflexivity]. Qed.

(** The cut at an item boundary closes the array only: the object stays open
    and the flag is never written. *)
Definition not_a_list : string :=
  "{" +:+ quoted "data" +:+ ": [{" +:+ quoted "a" +:+ ": 1}, {" +:+ quoted "b" +:+ ": 2}, {" +:+ quoted "c" +:+ ": 3}]}".

Example boundary_cut_unclosed :
  match truncate_json_at_boundary not_a_list 24 with
  | Some r => r = "{" +:+ quoted "data" +:+ ": [{" +:+ quoted "a" +:+ ": 1}, {" +:+ quoted "b" +:+ ": 2}" +:+ newline +:+ "  ]" ∧ json_loads r = JDecodeError
  | None => False
  end.
Proof. vm_compute. split; reflexivity. Qed.

(** One item may exceed the budget by any amount. *)
Example one_item_unbounded :
  match smart_strip_k8s_json (json_dumps (VDict [("items", VList [event "e" (letters 500)])])) 100 with
  | Some (Some r) => Nat.leb 500 (String.length r) = true
  | _ => False
  end.
Proof. vm_compute. reflexivity. Qed.

(** The notice is not counted: a text that was cut is over the budget again on
    the next turn.  It is cut again, what was left is cached as if it were the
    full output, and the notice names that file instead of the first. *)
Example second_pass_forgets_cache :
  once.2 = [("/cache/cache0.txt", long_text)] ∧
  match once.1, twice.1, twice.2 with
  | m1 :: _, m2 :: _, [_; (path, cached)] =>
      contains "/cache/cache0.txt" (py_str (lc_content m1)) = true ∧
      contains "/cache/cache0.txt" (py_str (lc_content m2)) = false ∧
      contains "/cache/cache1.txt" (py_str (lc_content m2)) = true ∧
      path = "/cache/cache1.txt" ∧ String.eqb cached long_text = false
  | _, _, _ => False
  end.
Proof. vm_compute. repeat split; reflexivity. Qed.

(** A use case read by the agent is never to be truncated; after a pause it is
    cleared. *)
Definition always_idle (_ : string) : option bool := Some true.

Example skill_case_cleared :
  match compact always_idle None cache_names disk_works
          ([tool_result "read_skill_resource" "s" "use case"; answer_at "2025-01-01T00:00:00Z"] ++
           map (λ i, tool_result "kubectl" i "ok") ["1"; "2"; "3"]) [] with
  | Some (m :: _, _) => lc_content m = VStr CLEARED_MARKER
  | _ => False
  end.
Proof. vm_compute. reflexivity. Qed.

(** The program stamps its messages under another name: without a
    [timestamp], nothing is ever cleared. *)
Lemma unstamped_never_cleared idle_since l keep :
  (∀ m, m ∈ l → dict_get "timestamp" (lc_kwargs m) = None) → maybe_time_based_microcompact idle_since l keep = None.
Proof.
  intros H. unfold maybe_time_based_microcompact, last_ai_idle. destruct (List.filter is_ai_message (rev l)) as [|m f] eqn:E; [done|].
  assert (Hm : m ∈ l).
  { assert (Hi : In m (List.filter is_ai_message (rev l))) by (rewrite E; by left). apply filter_In in Hi as [Hi _].
    by apply list_elem_of_In, in_rev. }
  unfold py_get. by rewrite H.
Qed.
