(* ===== verification/Intent.v ===== *)
(** * The clarification of an intent: what texts say, and the nodes *)

From stdpp Require Import base list strings sets gmap.
From Stdlib Require Import ZArith Ascii SpecFloat.
From S2P Require Import Prelude PyText PyRe PyValue PyFloat PyOps Json FaultSpec Failure Screener Router SafetyGate ReactHelpers ExecuteLoop JsonStored SessionMessage SessionStore TuiStore.

(** * What a dialogue says about a fault (agent/nodes/intent_clarification.py)

    The helpers of the clarification node that work on texts and values: the
    coercions of submitted arguments, the reading of an answer of the language
    model, the extraction of scope, target, namespace, names and parameters
    from a message, and the merge of a whole conversation into an intent. *)

(** ** Submitted arguments *)

Definition _coerce_to_list (raw : pyval) : list pyval :=
  match raw with
  | VNone => []
  | VList l => l
  | VStr t =>
      let s := strip t in
      if negb (truthy s) then []
      else if startswith s "[" && endswith s "]" then
        match json_loads s with JOk (VList parsed) => parsed | _ => [raw] end
      else [raw]
  | _ => default [raw] (py_iter raw)
  end.

Definition _coerce_to_dict (raw : pyval) : dict pyval :=
  match raw with
  | VDict d => d
  | VStr t =>
      let s := strip t in
      if startswith s "{" && endswith s "}" then
        match json_loads s with JOk (VDict parsed) => parsed | _ => [] end
      else []
  | _ => []
  end.

(** [coerced if coerced else None]. *)
Definition or_none (v : pyval) : pyval := if py_truthy v then v else VNone.

Definition _validate_names (v : pyval) : pyval := or_none (VList (_coerce_to_list v)).
Definition _validate_labels (v : pyval) : pyval := or_none (VDict (_coerce_to_dict v)).
Definition _validate_params (v : pyval) : pyval := or_none (VDict (_coerce_to_dict v)).

Definition _scalar_str (value : pyval) : string :=
  match value with VNone => "" | VStr s => s | v => py_str v end.

(** [n not in (None, "")]. *)
Definition given (n : pyval) : bool := match n with VNone => false | v => negb (eqs v "") end.

Definition scalar_values (d : dict pyval) : dict pyval := map (λ kv, (kv.1, VStr (_scalar_str kv.2))) d.

Definition submitted (args : dict pyval) : dict pyval :=
  let field k := (k, VStr (_scalar_str (py_get k args))) in
  [field "fault_type"; field "scope"; field "target"; field "action"; field "namespace";
   ("names", VList (map (λ n, VStr (_scalar_str n)) (List.filter given (_coerce_to_list (py_get "names" args)))));
   ("labels", VDict (scalar_values (_coerce_to_dict (py_get "labels" args))));
   ("params", VDict (scalar_values (_coerce_to_dict (py_get "params" args))));
   field "user_description"].

Definition is_submit (tc : ToolCall) : bool := String.eqb (tc_name tc) "submit_fault_intent".

(** Newest message first. *)
Fixpoint submit_args_in (messages : list Message) : Exc (dict pyval) :=
  match messages with
  | ToolMessage _ _ _ _ :: rest => submit_args_in rest
  | AIMessage _ _ calls :: _ =>
      match List.find is_submit calls with
      | Some tc => args ← as_dict (py_or (tc_args tc) (VDict [])); Some (submitted args)
      | None => Some []
      end
  | _ => Some []
  end.

Definition _extract_submit_args (messages : list Message) : Exc (dict pyval) := submit_args_in (rev messages).

(** ** The answer of the language model *)

(** [min(1.0, max(0.0, confidence))]. *)
Definition clamp (confidence : pyval) : Exc pyval :=
  pos ← py_gt confidence (VFloat "0.0");
  let x := if (pos : bool) then confidence else VFloat "0.0" in
  below ← py_lt x (VFloat "1.0");
  Some (if (below : bool) then x else VFloat "1.0").

Definition confidence_of (v : pyval) : pyval :=
  match v with
  | VStr t => match py_float_of_string (strip t) with Some x => VFloat (float_repr x) | None => VFloat "0.0" end
  | v => v
  end.

Record Classification := mkClass {
  c_intent : string;
  c_confidence : pyval;
  c_recover_task_id : pyval }.

Definition is_classify (tc : ToolCall) : bool := String.eqb (tc_name tc) "classify_intent".

Definition _extract_classify_intent (tool_calls : list ToolCall) : Exc (option Classification) :=
  match List.find is_classify tool_calls with
  | None => Some None
  | Some tc =>
      args ← as_dict (tc_args tc);
      c ← clamp (confidence_of (get_d "confidence" (VFloat "0.0") args));
      Some (Some (mkClass (if eqs (get_d "intent" (VStr "chat") args) "recover" then "recover" else "chat") c
                    (get_d "recover_task_id" (VStr "") args)))
  end.

Definition _INTENT_CONTENT_FALLBACKS : dict string :=
  [("recover", "好的，正在为您恢复实验。"); ("chat", "好的,随时回来找我。");
   ("inject", "好的，已记下你的需求，请确认下面的故障注入意图。"); ("unset", "好的，我继续帮你确认参数。")].

Definition _REASONING_STRIP_PATTERNS : list pattern := Eval vm_compute in
  [get_pattern (compile re_I "^.{0,6}(?:所有|全部|必填|必要|已收集|已确认|已获).*?(?:应该|需要|现在|接下来|下一步).{0,30}(?:调用|提交|使用|执行|触发).{0,50}(?:submit_fault_intent|classify_intent|kubectl|activate_skill|blade).{0,30}$") ltac:(vm_compute; discriminate);
   get_pattern (compile re_I "^.{0,6}(?:用户|user).{0,30}(?:提供|给出|说|输入|mentioned|provided).{0,40}(?:节点|namespace|pod|参数|标签|label|target).{0,30}$") ltac:(vm_compute; discriminate)].

Definition blank_line : string := newline +:+ newline.

(** The first line of a paragraph decides. *)
Definition is_reasoning (para : string) : bool :=
  existsb (λ p, bool_decide (is_Some (re_match p (strip (first_line para))))) _REASONING_STRIP_PATTERNS.

Definition _strip_reasoning_from_content (content : string) : string :=
  if negb (truthy (strip content)) then content
  else join blank_line (List.filter (λ p, negb (is_reasoning p)) (List.filter truthy (map strip (split_str blank_line content)))).

Definition fallback_content (intent : string) : string :=
  default "好的，请继续告诉我你的需求。" (dict_get intent _INTENT_CONTENT_FALLBACKS).

Definition _ensure_visible_content (r : Response) (intent : string) : string :=
  match r_content r with
  | VStr content =>
      if truthy (strip content) && truthy (strip (_strip_reasoning_from_content content))
      then _strip_reasoning_from_content content
      else fallback_content intent
  | _ => fallback_content intent
  end.

(** The reasoning of the model is not carried over. *)
Definition _filter_internal_tools_from_response (r : Response) (intent : string) : Message :=
  AIMessage (VStr (_ensure_visible_content r intent)) VNone (List.filter (λ tc, negb (is_classify tc)) (r_calls r)).

(** ** What a message says *)

Definition _EXECUTION_KEYWORDS : list string :=
  ["开始"; "执行"; "确认"; "好的"; "可以"; "go"; "run"; "就这样"; "没问题"; "可以了"; "是的"; "对"; "没错";
   "确认执行"; "开始吧"; "执行吧"].

Definition _SCOPE_KEYWORDS : list (string * list string) :=
  [("pod", ["pod"; "pods"; "容器"]); ("node", ["node"; "nodes"; "节点"]); ("container", ["container"; "容器实例"])].

Definition _TARGET_KEYWORDS : list (string * list string) :=
  [("cpu", ["cpu"; "处理器"; "CPU"]); ("mem", ["内存"; "mem"; "memory"; "MEM"]);
   ("network", ["网络"; "network"; "net"; "Network"]); ("disk", ["磁盘"; "disk"; "Disk"]);
   ("process", ["进程"; "process"; "Process"])].

Definition _ACTION_MAP : dict string :=
  [("cpu", "fullload"); ("mem", "load"); ("network", "drop"); ("disk", "burn"); ("process", "kill")].

Definition _SCOPE_KEYWORD_EXCLUSIONS : list string := concat (map (λ e, map lower e.2) _SCOPE_KEYWORDS).

Definition _OVERRIDE_SIGNALS : list string := ["改成"; "换成"; "修改为"; "改为"; "调整"].

(** The first entry with a keyword in the text. *)
Definition keyword_in (table : list (string * list string)) (text : string) : string :=
  match List.find (λ e, existsb (λ kw, contains (lower kw) (lower text)) e.2) table with
  | Some e => e.1
  | None => ""
  end.

Definition _extract_scope (text : string) : string := keyword_in _SCOPE_KEYWORDS text.
Definition _extract_target_keyword (text : string) : string := keyword_in _TARGET_KEYWORDS text.

(** [m.group(1) or m.group(2) or ...]. *)
Definition first_group (ns : list nat) (m : mobj) : string :=
  fold_right (λ n r, let t := default "" (group n m) in if truthy t then t else r) "" ns.

Definition NAMESPACE_FLAG : pattern := Eval vm_compute in
  get_pattern (compile re_I "(?:-n|--namespace)[\s=]+([a-zA-Z0-9][-a-zA-Z0-9_.]*)|namespace[:=]\s*([a-zA-Z0-9][-a-zA-Z0-9_.]*)") ltac:(vm_compute; discriminate).
Definition NAMESPACE_ACK : pattern := Eval vm_compute in
  get_pattern (compile re_I "\*{0,2}(?:命名空间|namespace)\*{0,2}\s*(?:已确认为|确认为|is|confirmed\s+as|为|[:：])\s*[*`]*([a-zA-Z0-9][-a-zA-Z0-9_.]*)[*`]*") ltac:(vm_compute; discriminate).
Definition BARE_NAMESPACE : pattern := Eval vm_compute in
  get_pattern (compile no_flags "[a-zA-Z0-9][-a-zA-Z0-9_]*") ltac:(vm_compute; discriminate).
Definition NAME_ACK : pattern := Eval vm_compute in
  get_pattern (compile re_I "\*{0,2}(?:目标节点|节点名|node\s+name|pod名|target\s+node)\*{0,2}\s*(?:已确认为|确认为|is|confirmed\s+as|为|[:：])\s*[*`]*([a-zA-Z0-9][-a-zA-Z0-9_.]*)[*`]*") ltac:(vm_compute; discriminate).
Definition NODE_NAME : pattern := Eval vm_compute in
  get_pattern (compile no_flags "cn-[a-z]+(?:\.[\d]+){3,4}") ltac:(vm_compute; discriminate).
Definition BARE_NAME : pattern := Eval vm_compute in
  get_pattern (compile no_flags "[a-zA-Z0-9][-a-zA-Z0-9_.]*") ltac:(vm_compute; discriminate).
Definition PERCENT : pattern := Eval vm_compute in
  get_pattern (compile re_I "(\d+)%|percent\s+(\d+)|强度\s+(\d+)|占用\s+(\d+)") ltac:(vm_compute; discriminate).
Definition TIMEOUT : pattern := Eval vm_compute in
  get_pattern (compile re_I "(\d+)\s*(?:s|秒|seconds)|timeout\s+(\d+)|时间\s+(\d+)|duration\s+(\d+)") ltac:(vm_compute; discriminate).

(** The whole text is a word of the pattern, neither an order to go on nor a
    scope. *)
Definition bare (p : pattern) (text : string) : bool :=
  bool_decide (is_Some (re_fullmatch p text)) && negb (existsb (λ kw, contains kw (lower text)) _EXECUTION_KEYWORDS) &&
  negb (lower text ∈? _SCOPE_KEYWORD_EXCLUSIONS).

Definition _extract_namespace (text : string) : string :=
  match re_search NAMESPACE_FLAG text with
  | Some m => first_group [1; 2]%nat m
  | None =>
      match re_search NAMESPACE_ACK text with
      | Some m => first_group [1]%nat m
      | None => if bare BARE_NAMESPACE (strip text) then strip text else ""
      end
  end.

(** [human]: the speaker is the user; of other messages only an explicit
    confirmation counts. *)
Definition _extract_names (text : string) (human : bool) : list string :=
  let names := match re_search NAME_ACK text with Some m => [default "" (group 1 m)] | None => [] end in
  if negb human then names
  else
    let names := fold_left add_new (findall NODE_NAME (strip text)) names in
    if negb (nonempty names) && bare BARE_NAME (strip text) then names ++ [strip text] else names.

Definition _extract_params_from_text (text : string) : dict pyval :=
  let percent := match re_search PERCENT text with Some m => [("percent", VStr (first_group [1; 2; 3; 4]%nat m))] | None => [] end in
  match re_search TIMEOUT text with
  | Some m => dict_set "timeout" (VStr (first_group [1; 2; 3; 4]%nat m)) percent
  | None => percent
  end.

(** ** The merge of a conversation *)

Definition _merge_slot (merged : dict pyval) (key value : string) (is_override : bool) : dict pyval :=
  if truthy value && (negb (py_truthy (py_get key merged)) || is_override) then dict_set key (VStr value) merged else merged.

(** An intent holds its target as a text. *)
Definition derive_action (merged : dict pyval) : dict pyval :=
  match py_get "target" merged with
  | VStr t =>
      if truthy t && negb (py_truthy (py_get "action" merged))
      then dict_set "action" (VStr (default "" (dict_get t _ACTION_MAP))) merged else merged
  | _ => merged
  end.

Definition add_name (namespace : pyval) (existing : list pyval) (n : string) : list pyval :=
  if eqs namespace n || existsb (λ v, eqs v n) existing then existing else existing ++ [VStr n].

Definition merge_names (extracted : list string) (merged : dict pyval) : Exc (dict pyval) :=
  if nonempty extracted then
    existing ← as_list (py_or (py_get "names" merged) (VList []));
    Some (dict_set "names" (VList (fold_left (add_name (get_d "namespace" (VStr "") merged)) extracted existing)) merged)
  else Some merged.

Definition merge_params (found : dict pyval) (is_override : bool) (merged : dict pyval) : Exc (dict pyval) :=
  if nonempty found then
    existing ← as_dict (py_or (py_get "params" merged) (VDict []));
    Some (dict_set "params"
            (VDict (fold_left (λ p kv, if negb (dict_mem kv.1 p) || is_override then dict_set kv.1 kv.2 p else p) found existing))
            merged)
  else Some merged.

Definition merge_text (human : bool) (merged : dict pyval) (text : string) : Exc (dict pyval) :=
  let is_override := existsb (λ sig, contains sig text) _OVERRIDE_SIGNALS in
  let merged := _merge_slot merged "scope" (_extract_scope text) is_override in
  let merged := _merge_slot merged "target" (_extract_target_keyword text) is_override in
  let merged := derive_action merged in
  let merged := _merge_slot merged "namespace" (_extract_namespace text) is_override in
  merged ← merge_names (_extract_names text human) merged;
  merge_params (_extract_params_from_text text) is_override merged.

(** A content that is a list of blocks has no [strip]. *)
Definition merge_message (merged : dict pyval) (msg : Message) : Exc (dict pyval) :=
  match msg with
  | HumanMessage content => if truthy (strip content) then merge_text true merged (strip content) else Some merged
  | AIMessage content _ _ =>
      c ← as_str content;
      if truthy (strip c) then merge_text false merged (strip c) else Some merged
  | _ => Some merged
  end.

(** Newest message first. *)
Fixpoint merge_messages (messages : list Message) (merged : dict pyval) : Exc (dict pyval) :=
  match messages with
  | [] => Some merged
  | msg :: rest => merged ← merge_message merged msg; merge_messages rest merged
  end.

Definition _merge_known_params_into_fault_intent (messages : list Message) (fault_intent : dict pyval) : Exc (dict pyval) :=
  merge_messages (rev messages) fault_intent.

(** The copy of the intent is shallow: names and parameters that were there
    are extended in place, so the intent given changes with the result. *)
Definition shared_key (k : string) (merged fault_intent : dict pyval) : dict pyval :=
  if py_truthy (py_get k fault_intent) then dict_set k (py_get k merged) fault_intent else fault_intent.

Definition after_merge (merged fault_intent : dict pyval) : dict pyval :=
  shared_key "params" merged (shared_key "names" merged fault_intent).

(** * The clarification of an intent and its confirmation
      (agent/nodes/intent_clarification.py, intent_confirm.py,
      plan_change_confirm.py)

    The node that talks with the user until a fault is submitted, the gate in
    front of the planning loop, and the gate in front of a change of the fault
    during a new plan.  The language model, the memory hook, the system prompt,
    the random part of a new task identifier and the answers to the interrupts
    are parameters; a model that raises is a model without an answer.  The
    confirmation of an intent opens the record of its task, so it is a program
    of [SessionStore] over the messages of the framework, which have
    identifiers.  Tracking and the messages to the terminal are left out; the
    record of the dialogue is modelled by itself ([_persist_dialogue]). *)

(** ** The clarification node *)

Section clarify.
Context (loops : LoopSettings) (MAX_DIALOGUE_ROUNDS : Z).
Context (prompt : dict pyval → Exc string).
Context (llm : option (list Message → list string → Exc Response)) (tools : list string).
Context (hook : option (GState → Exc Delta)) (uuid_hex : string).

Definition _allocate_operation_task_id (current_task_id : pyval) : pyval :=
  match current_task_id with
  | VStr t => if startswith t "task-" then VStr t else VStr ("task-" +:+ py_take 12 uuid_hex)
  | _ => VStr ("task-" +:+ py_take 12 uuid_hex)
  end.

(** Newest message first: a result of [submit_fault_intent] in the last batch. *)
Fixpoint submit_result_in (messages : list Message) : bool :=
  match messages with
  | ToolMessage _ name _ _ :: rest => String.eqb name "submit_fault_intent" || submit_result_in rest
  | _ => false
  end.

(** The submitted fields that are not empty win; they are texts, lists and
    dicts, so that not empty is true. *)
Definition overlay (llm_args intent : dict pyval) : dict pyval :=
  fold_left (λ d kv, if py_truthy kv.2 then dict_set kv.1 kv.2 d else d) llm_args intent.

Definition node_default (intent : dict pyval) : dict pyval :=
  if negb (py_truthy (py_get "namespace" intent)) && eqs (py_get "scope" intent) "node"
  then dict_set "namespace" (VStr "default") intent else intent.

Definition REQUIRED : list string := ["scope"; "target"; "action"; "namespace"].
Definition has_required (intent : dict pyval) : bool := forallb (λ k, py_truthy (py_get k intent)) REQUIRED.

(** The intent of a submission, and what the merge did to the one on record. *)
Definition submitted_intent (messages : list Message) (existing : dict pyval) : Exc (dict pyval * dict pyval) :=
  llm_args ← _extract_submit_args messages;
  fallback ← _merge_known_params_into_fault_intent messages existing;
  let existing := after_merge fallback existing in
  Some (node_default (overlay llm_args (dict_update existing fallback)), existing).

Definition converged (s : GState) (round : Z) (intent : dict pyval) (existing : option FaultSpec) : Exc Delta :=
  new_spec ← from_intent_args intent existing None;
  Some (mkDelta []
          [("confirmed_intent", VStr "inject"); ("fault_spec", VDict (to_dict new_spec)); ("intent_confidence", VFloat "1.0");
           ("intent_reasoning", VStr "submit_fault_intent tool executed"); ("dialogue_round", VInt (round + 1));
           ("task_id", _allocate_operation_task_id (get_d "task_id" (VStr "") (g_values s)))]).

Definition intent_stagnation_hint (tool : string) : string :=
  if contains ":" tool then
    "**ACTION_STAGNATION**: You have called `" +:+ tool +:+ "` too many " +:+
    "consecutive times with no progress. Stop using this subcommand. " +:+
    "You can still use `" +:+ before ":" tool +:+ "` with OTHER subcommands." +:+ newline +:+
    "- Call `submit_fault_intent` if you have collected enough fault parameters." +:+ newline +:+
    "Do NOT call `" +:+ tool +:+ "` again."
  else
    "**ACTION_STAGNATION**: You have called `" +:+ tool +:+ "` too many " +:+
    "consecutive times with no progress. This tool has been temporarily " +:+
    "removed. You MUST now either:" +:+ newline +:+
    "- Call `submit_fault_intent` if you have collected enough fault parameters." +:+ newline +:+
    "- Use a DIFFERENT tool (activate_skill, read_skill_resource) for more info." +:+ newline +:+
    "- Output a plain text response to conclude this conversation turn." +:+ newline +:+
    "Do NOT attempt to call `" +:+ tool +:+ "` again.".

(** The submission is never taken away. *)
Definition clarify_tools (stagnant : option string) : list string :=
  match stagnant with
  | Some t => if contains ":" t then tools
              else List.filter (λ n, negb (String.eqb n t) || String.eqb n "submit_fault_intent") tools
  | None => tools
  end.

Definition optional_message (text : option string) : list Message :=
  match text with Some t => if truthy t then [HumanMessage t] else [] | None => [] end.

(** The outer [None] is an exception of the node, the inner one of the model. *)
Definition ask_model (model : list Message → list string → Exc Response) (messages : list Message)
    (existing : dict pyval) : Exc (option Response) :=
  p ← prompt existing;
  loop_hint ← detect_repeated_tool_calls loops messages;
  let stagnant := snd <$> detect_action_stagnation loops messages None in
  Some (model ([SystemMessage p] ++ last_n 20 messages ++ optional_message loop_hint ++
               optional_message (intent_stagnation_hint <$> stagnant))
          (clarify_tools stagnant)).

Definition mid_spec (messages : list Message) (existing : dict pyval) (spec : option FaultSpec) : Exc (dict pyval) :=
  updated ← _merge_known_params_into_fault_intent messages existing;
  sp ← from_intent_args updated spec None;
  Some (to_dict sp).

Definition classified (s : GState) (r : Response) (c : Classification) : Exc Delta :=
  if String.eqb (c_intent c) "chat" then
    Some (mkDelta [_filter_internal_tools_from_response r "chat"]
            [("confirmed_intent", VStr "chat"); ("intent_confidence", c_confidence c)])
  else
    (** [raw_content.strip()] *)
    _ ← as_str (py_or (r_content r) (VStr ""));
    Some (mkDelta [_filter_internal_tools_from_response r (c_intent c)]
            [("confirmed_intent", VStr (c_intent c)); ("intent_confidence", c_confidence c);
             ("recover_task_id", c_recover_task_id c);
             ("task_id", _allocate_operation_task_id (get_d "task_id" (VStr "") (g_values s)))]).

Definition replied (s : GState) (round : Z) (existing : dict pyval) (spec : option FaultSpec) (r : Response) : Exc Delta :=
  classification ← _extract_classify_intent (r_calls r);
  match classification with
  | Some c => classified s r c
  | None =>
      if nonempty (r_calls r) then
        d ← mid_spec (g_messages s) existing spec;
        clarification_round ← counter_of "clarification_round" s;
        Some (mkDelta [_filter_internal_tools_from_response r ""]
                [("fault_spec", VDict d); ("clarification_round", VInt (clarification_round + 1));
                 ("dialogue_round", VInt (round + 1))])
      else
        d ← mid_spec (g_messages s) existing spec;
        Some (mkDelta [_filter_internal_tools_from_response r ""]
                [("fault_spec", VDict d); ("dialogue_round", VInt (round + 1))])
  end.

Definition apologise : Delta :=
  mkDelta [AIMessage (VStr "抱歉，我遇到了一些问题。请稍后再试。") VNone []] [("confirmed_intent", VStr "chat")].

(** One round of the dialogue: the submission of the last batch, or a call of
    the model. *)
Definition converse (model : list Message → list string → Exc Response) (s : GState) (round : Z) : Exc Delta :=
  spec ← read_fault_spec (g_values s);
  let existing := match spec with Some sp => to_intent_dict sp | None => [] end in
  let dialogue existing :=
    response ← ask_model model (g_messages s) existing;
    match response with Some r => replied s round existing spec r | None => Some apologise end in
  if submit_result_in (rev (g_messages s)) then
    '(intent, existing) ← submitted_intent (g_messages s) existing;
    if has_required intent then converged s round intent spec else dialogue existing
  else dialogue existing.

Definition goodbye (round : Z) : Delta :=
  mkDelta [AIMessage (VStr "感谢使用 Blade AI！如有需要随时回来，再见！") VNone []]
    [("confirmed_intent", VStr "chat"); ("dialogue_round", VInt (round + 1))].

Definition intent_clarification (s : GState) : Exc Delta :=
  if existsb (λ i, is_str "confirmed_intent" i s) ["inject"; "chat"; "recover"] then Some (mkDelta [] [])
  else
    match llm with
    | None => Some (mkDelta [] [("confirmed_intent", VStr "chat")])
    | Some model =>
        round ← counter_of "dialogue_round" s;
        if (MAX_DIALOGUE_ROUNDS <=? round)%Z then Some (goodbye round)
        else
          updates ← run_hook hook s;
          d ← converse model s round;
          Some (merge_hook_updates d updates)
    end.
End clarify.

(** ** The record of the dialogue *)

(** The answer as the model gave it, but for the classification. *)
Definition _filter_internal_tools_raw (response : LcMessage) : LcMessage :=
  mkLc COther "ai" "" (py_or (lc_content response) (VStr "")) (or_none (lc_id response)) (lc_kwargs response)
    (List.filter (λ tc, negb (eqs (py_get "name" tc) "classify_intent")) (lc_tool_calls response)) VNone.

(** The prompt has one identifier in each round. *)
Definition recorded_prompt (system_msg : LcMessage) (dialogue_round : Z) : LcMessage :=
  mkLc CSystem "system" "" (VStr ("[Intent Clarification Prompt]" +:+ newline +:+ py_str (lc_content system_msg)))
    (VStr ("ic-system-round-" +:+ str_of_Z dialogue_round)) [] [] VNone.

Definition recorded_result (m : LcMessage) : bool :=
  String.eqb (lc_type m) "tool" && negb (py_truthy (py_get NO_SESSION_MARKER (lc_kwargs m))).

Definition _build_dialogue_persist_list (messages : list LcMessage) (response system_msg human_msg : option LcMessage)
    (dialogue_round : Z) : list LcMessage :=
  map (λ m, recorded_prompt m dialogue_round) (option_list system_msg) ++ option_list human_msg ++
  List.filter recorded_result messages ++ map _filter_internal_tools_raw (option_list response).

(** Whatever happens to the record, the dialogue goes on. *)
Definition _persist_dialogue (clock : nat → string) (fresh_name : gmap string string → string) (threshold : Z) (registered : bool)
    (tui_session_id : string) (messages : list LcMessage) : tio () := λ st,
  if negb (truthy tui_session_id) || negb registered then (Done (), st)
  else
    match append_dialogue clock fresh_name threshold tui_session_id messages st with
    | (Died, st') => (Died, st')
    | (_, st') => (Done (), st')
    end.

(** ** Tools of the dialogue *)

Definition submit_fault_intent : string := "✓ 故障注入意图已提交，正在进入执行确认阶段。".

Definition experiment_line (i : nat) (t : dict pyval) : Exc string :=
  let fault := py_or (py_or (py_get "skill" t) (py_get "skill_name" t)) (VStr "?") in
  ns ← vget_d "namespace" (VStr "?") (or_empty (py_get "target" t));
  Some ("  " +:+ str_of_Z (Z.of_nat i) +:+ ". task_id=" +:+ py_str (get_d "task_id" (VStr "?") t) +:+
        ", fault_type=" +:+ py_str fault +:+ ", namespace=" +:+ py_str ns).

(** [active] is what the task store answers. *)
Definition query_active_experiments (active : list (dict pyval)) : Exc string :=
  match active with
  | [] => Some "当前没有活跃的故障注入实验，无需恢复。"
  | _ =>
      lines ← mapM (λ it, experiment_line it.1 it.2) (zip (seq 1 10) (take 10 active));
      Some (join newline (("当前有 " +:+ str_of_Z (Z.of_nat (length active)) +:+ " 个可恢复的活跃实验:") :: lines))
  end.

(** ** The confirmation of an intent *)

Definition _TRIM_TAIL_KEEP : nat := 4.

Definition summary_field (label key : string) (intent : dict pyval) : string :=
  label +:+ ": " +:+ py_str (get_d key (VStr "未知") intent).

(** An optional line of the summary. *)
Definition summary_line (key : string) (line : pyval → Exc string) (intent : dict pyval) : Exc (list string) :=
  let v := py_get key intent in if py_truthy v then t ← line v; Some [t] else Some [].

Definition shown_params (d : dict pyval) : string := join ", " (map (λ kv, kv.1 +:+ "=" +:+ py_str kv.2) d).

Definition _format_intent_summary (intent : dict pyval) : Exc string :=
  labels ← summary_line "labels" (λ v, Some ("标签选择器: " +:+ py_str v)) intent;
  names ← summary_line "names" (λ v, l ← as_list v; t ← join_vals ", " l; Some ("目标资源: " +:+ t)) intent;
  params ← summary_line "params" (λ v, d ← as_dict v; Some ("参数: " +:+ shown_params d)) intent;
  description ← summary_line "user_description" (λ v, Some ("用户描述: " +:+ py_str v)) intent;
  Some (join newline
    ([summary_field "故障类型" "fault_type" intent; summary_field "范围" "scope" intent; summary_field "目标" "target" intent;
      summary_field "动作" "action" intent; summary_field "命名空间" "namespace" intent] ++
     labels ++ names ++ params ++ description)).

Definition handoff_text (intent : dict pyval) (dialogue_round : Z) : string :=
  let f key d := py_str (get_d key (VStr d) intent) in
  HANDOFF +:+ newline +:+ "Dialogue rounds: " +:+ str_of_Z dialogue_round +:+ newline +:+
  "Confirmed intent: inject" +:+ newline +:+ "Fault: " +:+ f "fault_type" "unknown" +:+ " → " +:+
  f "scope" "" +:+ "/" +:+ f "target" "" +:+ "/" +:+ f "action" "" +:+ " @ " +:+ f "namespace" "".

Definition _build_handoff_summary (intent : dict pyval) (dialogue_round : Z) : LcMessage :=
  mkLc CSystem "system" "" (VStr (handoff_text intent dialogue_round)) VNone [] [] VNone.

Definition RemoveMessage (id : pyval) : LcMessage := mkLc CRemove "remove" "" (VStr "") id [] [] VNone.

Definition _build_trim_remove_list (messages : list LcMessage) : list LcMessage :=
  map (λ m, RemoveMessage (lc_id m))
    (List.filter (λ m, py_truthy (lc_id m)) (take (length messages - _TRIM_TAIL_KEEP) messages)).

Section confirm.
Context (clock : nat → string) (fresh_name : gmap string string → string).
Context (threshold : Z) (save_system_message tui_registered store_registered : bool).
Context (interrupt : dict pyval → pyval).

(** [try: m except Exception: pass]. *)
Definition except_all (m : io ()) : io () := λ st,
  match m st with (Died, st') => (Died, st') | (_, st') => (Done (), st') end.

Definition bootstrap_task_session (op_task_id operation tui_session_id : string) (handoff_message : option LcMessage) : io () :=
  if negb (truthy op_task_id) || negb store_registered then mret ()
  else
    except_all
      (active ← gets (λ st, has_active st op_task_id);
       if (active : bool) then mret ()
       else create_session clock fresh_name threshold save_system_message tui_registered op_task_id operation tui_session_id ""
              [] (option_list handoff_message)).

Definition text_or_empty (v : pyval) : string := match v with VStr t => t | _ => "" end.

(** A task identifier that is not a text opens no record; session identifiers
    are texts. *)
Definition _commit_inject_handoff (messages : list LcMessage) (state intent : dict pyval) : io (list LcMessage) :=
  dialogue_round ← lift (py_int (py_get "dialogue_round" state));
  let summary := _build_handoff_summary intent dialogue_round in
  bootstrap_task_session (text_or_empty (get_d "task_id" (VStr "") state)) "inject"
    (text_or_empty (py_get "tui_session_id" state)) (Some summary);;
  mret (_build_trim_remove_list messages ++ [summary]).

Definition intent_card (state intent : dict pyval) (confidence : spec_float) : Exc (dict pyval) :=
  summary ← _format_intent_summary intent;
  rounds ← py_int (py_get "clarification_round" state);
  Some [("type", VStr "intent_confirm"); ("fault_intent", VDict intent); ("summary", VStr summary);
        ("intent_confidence", VFloat (float_repr confidence));
        ("intent_reasoning", py_or (py_get "intent_reasoning" state) (VStr "")); ("clarification_round", VInt rounds)].

Definition intent_confirm (messages : list LcMessage) (state : dict pyval) : io (list LcMessage * dict pyval) :=
  spec ← lift (read_fault_spec state);
  let intent := match spec with Some sp => to_intent_dict sp | None => [] end in
  confidence ← lift (py_float (py_get "intent_confidence" state));
  if py_truthy (py_get "dry_run" state) then
    m ← _commit_inject_handoff messages state intent; mret (m, [])
  else
    info ← lift (intent_card state intent confidence);
    if says (interrupt info) "approved" then
      m ← _commit_inject_handoff messages state intent; mret (m, [])
    else mret ([], [("confirmed_intent", VNone)]).
End confirm.

(** ** The confirmation of a changed plan *)

Record Proposal := mkProposal {
  pr_reason : pyval;
  pr_scope : pyval;
  pr_target : pyval;
  pr_action : pyval }.

Fixpoint proposal_in (messages : list Message) : Exc (option Proposal) :=
  match messages with
  | [] => Some None
  | AIMessage _ _ calls :: _ =>
      match List.find (λ tc, String.eqb (tc_name tc) "propose_plan_change") calls with
      | Some tc =>
          args ← as_dict (tc_args tc);
          let f k := get_d k (VStr "") args in
          Some (Some (mkProposal (f "reason") (f "scope") (f "target") (f "action")))
      | None => Some None
      end
  | _ :: rest => proposal_in rest
  end.

Definition _extract_proposal (messages : list Message) : Exc (option Proposal) := proposal_in (rev messages).

Definition plan_change_info (spec : FaultSpec) (p : Proposal) : dict pyval :=
  [("type", VStr "plan_change"); ("reason", pr_reason p);
   ("original", VDict [("scope", VStr (s_scope spec)); ("blade_target", VStr (s_blade_target spec));
                       ("blade_action", VStr (s_blade_action spec)); ("fault_type", VStr (fault_type spec))]);
   ("proposed", VDict [("scope", pr_scope p); ("blade_target", pr_target p); ("blade_action", pr_action p);
                       ("fault_type", VStr (py_str (pr_scope p) +:+ "-" +:+ py_str (pr_target p) +:+ "-" +:+ py_str (pr_action p)))])].

(** [spec.replace(scope=..., ...).to_dict()]: the values are taken as they
    are. *)
Definition replaced (spec : FaultSpec) (p : Proposal) : dict pyval :=
  dict_set "blade_action" (pr_action p) (dict_set "blade_target" (pr_target p) (dict_set "scope" (pr_scope p) (to_dict spec))).

(** [new_spec.fault_type]: only texts can be joined. *)
Definition replaced_type (p : Proposal) : Exc string :=
  join_vals "-" (List.filter py_truthy [pr_scope p; pr_target p; pr_action p]).

Definition plan_approved (spec : FaultSpec) (p : Proposal) : Exc Delta :=
  type ← replaced_type p;
  Some (mkDelta
          [HumanMessage ("[PLAN CHANGE APPROVED] Fault type changed to " +:+ type +:+
                         ". Re-activate the correct skill and continue planning with the new approach.")]
          [("fault_spec", VDict (replaced spec p)); ("skill_name", VNone); ("plan", VNone); ("plan_path", VNone);
           ("is_complex", VBool false); ("matched_use_case_path", VNone); ("plan_change_reject_count", VInt 0)]).

(** The second rejection ends the planning. *)
Definition plan_rejected (count : Z) (terminated advice : string) : Delta :=
  if (2 <=? count + 1)%Z then
    mkDelta [] (("plan_change_reject_count", VInt (count + 1)) :: fail_state USER_REJECTED terminated [])
  else
    mkDelta [HumanMessage ("[PLAN CHANGE REJECTED] " +:+ advice)] [("plan_change_reject_count", VInt (count + 1))].

Definition plan_change_confirm (interrupt : dict pyval → pyval) (s : GState) : Exc Delta :=
  proposed ← _extract_proposal (g_messages s);
  match proposed with
  | None => Some (mkDelta [] [])
  | Some p =>
      spec ← read_fault_spec (g_values s);
      match spec with
      | None => Some (mkDelta [] [])
      | Some spec =>
          count ← py_int (get "plan_change_reject_count" s);
          if is_str "interaction_mode" "cli" s then
            Some (plan_rejected count "Plan change rejected twice in CLI mode; terminating."
                    ("CLI mode does not support interactive plan changes. Use finish_planning(rejected=True) or continue " +:+
                     "with the original fault type."))
          else if says (interrupt (plan_change_info spec p)) "approved" then plan_approved spec p
          else
            Some (plan_rejected count "Plan change rejected twice; terminating planning."
                    ("The user declined the proposed change. Continue with the original fault type, try a different " +:+
                     "alternative, or use finish_planning(rejected=True) to abort."))
      end
  end.
