(* ===== verification/IntentProps.v ===== *)
(** * The way from a dialogue to a plan

    An intent reaches the planning loop only as it was submitted and only when
    a human approved it; the dialogue in front of it ends; what the dialogue
    has settled is not changed behind the user's back unless a message asks
    for a change.  The examples at the end are readings of plain sentences
    that the extraction gets wrong. *)

From stdpp Require Import base list strings sets gmap.
From Stdlib Require Import ZArith Ascii SpecFloat.
From S2P Require Import Prelude PyText PyRe PyValue PyFloat PyOps Coerce FaultSpec Failure Screener Router Graph SafetyGate LoopBounds InjectionDetection PlanningMetadata ReactHelpers ExecuteLoop ExecuteProps AgentLoop AgentProps JsonStored SessionMessage SessionStore Intent.

(** ** The slots of an intent are texts *)

Definition slots_text (d : dict pyval) : Prop := Forall (λ kv, kv.1 ∈ REQUIRED → ∃ t, kv.2 = VStr t) d.

Lemma slots_set k v d : (k ∈ REQUIRED → ∃ t, v = VStr t) → slots_text d → slots_text (dict_set k v d).
Proof.
  intros Hv. induction 1 as [|[k' v'] d Hkv Hd IH]; cbn [dict_set]; [by repeat constructor|].
  destruct (String.eqb k k') eqn:E; constructor; try done. apply String.eqb_eq in E as ->. exact Hv.
Qed.

Lemma slots_set_text k t d : slots_text d → slots_text (dict_set k (VStr t) d).
Proof. apply slots_set. eauto. Qed.

Lemma slots_set_other k v d : k ∉ REQUIRED → slots_text d → slots_text (dict_set k v d).
Proof. intros Hk. apply slots_set. by intros ?. Qed.

Lemma slots_check d :
  forallb (λ kv, negb (kv.1 ∈? REQUIRED) || match kv.2 with VStr _ => true | _ => false end) d = true → slots_text d.
Proof.
  induction d as [|[k v] d IH]; [constructor|]. cbn [forallb fst snd]. intros [H1 H2]%andb_true_iff. constructor; [|by apply IH].
  cbn. intros Hk%str_in_spec. rewrite Hk in H1. destruct v; try done. eauto.
Qed.

Create HintDb slots.
#[export] Hint Resolve slots_set_text : slots.
#[export] Hint Extern 1 (slots_text (dict_set _ _ _)) => apply slots_set_other; [apply str_in_false; reflexivity|] : slots.

Lemma slots_get k d : slots_text d → k ∈ REQUIRED → py_truthy (py_get k d) = true → ∃ t, py_get k d = VStr t ∧ t ≠ "".
Proof.
  intros Hd Hk Ht. unfold py_get in *. destruct (dict_get k d) as [v|] eqn:E; [|done].
  unfold slots_text in Hd. rewrite Forall_forall in Hd. destruct (Hd _ (dict_get_In _ _ _ E) Hk) as [t Hv]. cbn in Hv. subst v.
  exists t. split; [done|]. by intros ->.
Qed.

Lemma slots_update d1 d2 : slots_text d1 → slots_text d2 → slots_text (dict_update d1 d2).
Proof.
  intros H1 H2. revert d1 H1. unfold dict_update. induction H2 as [|[k v] d Hkv Hd IH]; intros d1 H1; [done|].
  cbn [fold_left]. apply IH. by apply slots_set.
Qed.

Lemma slots_slot d k v b : slots_text d → slots_text (_merge_slot d k v b).
Proof. intros. unfold _merge_slot. destruct (_ && _); auto with slots. Qed.

Lemma slots_action d : slots_text d → slots_text (derive_action d).
Proof. intros. unfold derive_action. destruct (py_get "target" d); try done. destruct (_ && _); auto with slots. Qed.

Lemma slots_text_merge human d text d' : merge_text human d text = Some d' → slots_text d → slots_text d'.
Proof.
  unfold merge_text. cbv zeta. set (d0 := _merge_slot (derive_action _) _ _ _). intros (d1 & H1 & H2)%bind_Some Hd.
  assert (Hd0 : slots_text d0) by (unfold d0; auto using slots_slot, slots_action).
  assert (Hd1 : slots_text d1).
  { unfold merge_names in H1. destruct (nonempty _); [apply bind_Some in H1 as (l & _ & [= <-]); auto with slots | by injection H1 as <-]. }
  unfold merge_params in H2. destruct (nonempty _); [apply bind_Some in H2 as (l & _ & [= <-]); auto with slots | by injection H2 as <-].
Qed.

Lemma slots_merge messages d d' : _merge_known_params_into_fault_intent messages d = Some d' → slots_text d → slots_text d'.
Proof.
  unfold _merge_known_params_into_fault_intent. generalize (rev messages). clear messages.
  intros l. revert d. induction l as [|m l IH]; intros d H Hd; cbn [merge_messages] in H; [by injection H as <-|].
  apply bind_Some in H as (d1 & H1 & H2). eapply IH; [done|]. unfold merge_message in H1.
  destruct m as [c ? ?|?|c|?]; [| by injection H1 as <- | | by injection H1 as <-].
  - apply bind_Some in H1 as (t & _ & H1). destruct (truthy (strip t)); [by eapply slots_text_merge|by injection H1 as <-].
  - destruct (truthy (strip c)); [by eapply slots_text_merge|by injection H1 as <-].
Qed.

Lemma slots_intent sp : slots_text (to_intent_dict sp).
Proof. by apply slots_check. Qed.

(** ** What is submitted wins *)

Lemma py_get_cons k k' v (d : dict pyval) : py_get k ((k', v) :: d) = if String.eqb k k' then v else py_get k d.
Proof. unfold py_get. cbn [dict_get]. by destruct (String.eqb k k'). Qed.

Lemma overlay_get args d k : dict_wf args →
  py_get k (overlay args d) = if py_truthy (py_get k args) then py_get k args else py_get k d.
Proof.
  revert d. induction args as [|[k' v] args IH]; intros d Hw; [done|].
  unfold dict_wf in Hw. cbn in Hw. apply NoDup_cons in Hw as [Hn Hw]. unfold overlay in *. cbn [fold_left fst snd].
  rewrite (IH _ Hw), py_get_cons. destruct (String.eqb k k') eqn:E.
  - apply String.eqb_eq in E as ->. unfold py_get at 1 2. rewrite (proj2 (dict_get_None k' args) Hn). cbn [py_truthy].
    destruct (py_truthy v) eqn:Ev; [|done]. by rewrite py_get_set, String.eqb_refl.
  - destruct (py_truthy (py_get k args)); [done|]. destruct (py_truthy v); [|done]. by rewrite py_get_set, E.
Qed.

Lemma slots_overlay args d : slots_text args → slots_text d → slots_text (overlay args d).
Proof.
  intros Ha. revert d. induction Ha as [|[k v] args Hkv Ha IH]; intros d Hd; [done|].
  unfold overlay in *. cbn [fold_left fst snd]. apply IH. destruct (py_truthy v); [by apply slots_set | done].
Qed.

Lemma submitted_wf args : dict_wf (submitted args).
Proof. unfold dict_wf, submitted. cbn. refine (bool_decide_eq_true_1 _ _). vm_compute. reflexivity. Qed.

Lemma slots_submitted args : slots_text (submitted args).
Proof. by apply slots_check. Qed.

Lemma submit_args_spec messages args : _extract_submit_args messages = Some args → dict_wf args ∧ slots_text args.
Proof.
  unfold _extract_submit_args. generalize (rev messages). clear. intros l. induction l as [|m l IH]; cbn [submit_args_in].
  { intros [= <-]. split; [apply NoDup_nil_2 | constructor]. }
  assert (Hnil : Some [] = Some args → dict_wf args ∧ slots_text args).
  { intros [= <-]. split; [apply NoDup_nil_2 | constructor]. }
  destruct m as [c r calls|c n i e|c|c]; [|done..]. destruct (List.find is_submit calls) as [tc|]; [|done].
  intros (a & _ & [= <-])%bind_Some. auto using submitted_wf, slots_submitted.
Qed.

Lemma node_default_get k d : k ∈ REQUIRED → py_truthy (py_get k d) = true → py_get k (node_default d) = py_get k d.
Proof.
  intros Hk Ht. unfold node_default. destruct (_ && _) eqn:E; [|done]. apply andb_true_iff in E as [E _].
  rewrite py_get_set. destruct (String.eqb k "namespace") eqn:Ek; [|done].
  apply String.eqb_eq in Ek as ->. by rewrite Ht in E.
Qed.

Lemma node_default_other k d : k ≠ "namespace" → py_get k (node_default d) = py_get k d.
Proof.
  intros Hk. unfold node_default. destruct (_ && _); [|done]. rewrite py_get_set.
  destruct (String.eqb k "namespace") eqn:Ek; [|done]. by apply String.eqb_eq in Ek.
Qed.

(** The fields of a specification by their names in an intent. *)
Definition SPEC_SLOTS : list (string * (FaultSpec → string)) :=
  [("scope", s_scope); ("target", s_blade_target); ("action", s_blade_action); ("namespace", s_namespace)].

(** [sp] is complete and is what the last batch submitted, where something
    was submitted. *)
Definition submission (messages : list Message) (sp : FaultSpec) : Prop :=
  submit_result_in (rev messages) = true ∧
  (∀ k f, (k, f) ∈ SPEC_SLOTS → f sp ≠ "") ∧
  ∃ args, _extract_submit_args messages = Some args ∧
    (∀ k f t, (k, f) ∈ SPEC_SLOTS → dict_get k args = Some (VStr t) → t ≠ "" → f sp = t) ∧
    (py_truthy (py_get "names" args) = true → _normalise_names (py_get "names" args) = Some (s_names sp)) ∧
    (py_truthy (py_get "labels" args) = true → _normalise_labels (py_get "labels" args) = Some (s_labels sp)) ∧
    (py_truthy (py_get "params" args) = true → _normalise_params (py_get "params" args) = Some (s_params sp)).

Lemma slot_required k f : (k, f) ∈ SPEC_SLOTS → k ∈ REQUIRED.
Proof. unfold SPEC_SLOTS, REQUIRED. set_solver. Qed.

Lemma from_intent_slots intent existing source sp k f :
  from_intent_args intent existing source = Some sp → (k, f) ∈ SPEC_SLOTS → f sp = coerce_to_str (py_get k intent) "".
Proof.
  unfold from_intent_args. intros H Hk. do 4 (apply bind_Some in H as (? & _ & H)). injection H as <-.
  unfold SPEC_SLOTS in Hk. repeat (apply elem_of_cons in Hk as [[= -> ->]|Hk]; [done|]). by apply elem_of_nil in Hk.
Qed.

Lemma converged_submission messages existing intent ex' spec sp :
  slots_text existing → submit_result_in (rev messages) = true → submitted_intent messages existing = Some (intent, ex') →
  has_required intent = true → from_intent_args intent spec None = Some sp → submission messages sp.
Proof.
  intros Hs Hsub Hi Hreq Hsp. unfold submitted_intent in Hi.
  apply bind_Some in Hi as (args & Ha & Hi). apply bind_Some in Hi as (fb & Hf & Hi). cbv zeta in Hi.
  injection Hi as <- <-. destruct (submit_args_spec _ _ Ha) as [Hw Hta]. set (base := dict_update _ fb) in *.
  assert (Hb : slots_text base).
  { apply slots_update; [|by eapply slots_merge]. unfold after_merge, shared_key.
    destruct (py_truthy (py_get "names" existing)); destruct (py_truthy (py_get "params" _)); auto with slots. }
  set (intent := overlay args base) in *. assert (Hit : slots_text intent) by by apply slots_overlay.
  assert (Hnt : slots_text (node_default intent)) by (unfold node_default; destruct (_ && _); auto with slots).
  unfold has_required in Hreq. rewrite forallb_forall in Hreq.
  assert (Hslot : ∀ k f, (k, f) ∈ SPEC_SLOTS → ∃ t, py_get k (node_default intent) = VStr t ∧ t ≠ "" ∧ f sp = t).
  { intros k f Hk. pose proof (slot_required _ _ Hk) as Hr. destruct (slots_get k (node_default intent)) as (t & Ht & Hne); try done.
    { apply Hreq. by apply list_elem_of_In. }
    exists t. split_and!; try done. rewrite (from_intent_slots _ _ _ _ _ _ Hsp Hk), Ht. done. }
  split; [done|]. split.
  { intros k f Hk. destruct (Hslot k f Hk) as (t & _ & Hne & ->). done. }
  exists args. split; [done|].
  assert (Hother : ∀ k, k ≠ "namespace" → py_truthy (py_get k args) = true → py_get k (node_default intent) = py_get k args).
  { intros k Hk Ht. rewrite node_default_other by done. unfold intent. rewrite overlay_get, Ht by done. done. }
  unfold from_intent_args in Hsp. apply bind_Some in Hsp as (params & Hp & Hsp). apply bind_Some in Hsp as (dur & _ & Hsp).
  apply bind_Some in Hsp as (names & Hn & Hsp). apply bind_Some in Hsp as (labels & Hl & Hsp). injection Hsp as <-.
  split_and!.
  - intros k f t Hk Hg Hne. destruct (Hslot k f Hk) as (t' & Ht' & _ & ->).
    assert (Htr : py_truthy (py_get k args) = true) by (unfold py_get; rewrite Hg; cbn; by destruct t).
    rewrite node_default_get in Ht'; [|by eapply slot_required|unfold intent; rewrite overlay_get, Htr by done; done].
    unfold intent in Ht'. rewrite overlay_get, Htr in Ht' by done. unfold py_get in Ht'. rewrite Hg in Ht'. by injection Ht' as ->.
  - intros Ht. by rewrite <- (Hother "names") by done.
  - intros Ht. by rewrite <- (Hother "labels") by done.
  - intros Ht. by rewrite <- (Hother "params") by done.
Qed.

(** ** One visit of the clarification node *)

Section clarify_props.
Context (loops : LoopSettings) (maxr : Z) (prompt : dict pyval → Exc string).
Context (llm : option (list Message → list string → Exc Response)) (tools : list string).
Context (hook : option (GState → Exc Delta)) (uuid : string).

Local Abbreviation node := (intent_clarification loops maxr prompt llm tools hook uuid).

Definition INTENTS : list string := ["inject"; "chat"; "recover"].

Lemma clarify_cases s d :
  node s = Some d →
  (existsb (λ i, is_str "confirmed_intent" i s) INTENTS = true ∧ d = mkDelta [] []) ∨
  existsb (λ i, is_str "confirmed_intent" i s) INTENTS = false ∧
  (d = mkDelta [] [("confirmed_intent", VStr "chat")] ∨
   ∃ round, counter_of "dialogue_round" s = Some round ∧
     (d = goodbye round ∨
      ∃ model u d0, (round < maxr)%Z ∧ run_hook hook s = Some u ∧ converse loops prompt tools uuid model s round = Some d0 ∧
                    d = merge_hook_updates d0 u)).
Proof.
  unfold intent_clarification. fold INTENTS. destruct (existsb _ _); [intros [= <-]; by left|]. intros H. right. split; [done|].
  destruct llm as [model|]; [|left; by injection H as <-]. right. apply bind_Some in H as (round & Hr & H). exists round. split; [done|].
  destruct (maxr <=? round)%Z eqn:E; [left; by injection H as <-|]. right. apply bind_Some in H as (u & Hu & H).
  apply bind_Some in H as (d0 & Hd & [= <-]). exists model, u, d0. split_and!; try done. lia.
Qed.

(** What a round of the dialogue writes: a submission; the end of the
    dialogue; or the next round. *)
Inductive round_result (s : GState) (round : Z) (d : Delta) : Prop :=
  | round_inject sp :
      submission (g_messages s) sp → dict_get "confirmed_intent" (dl_values d) = Some (VStr "inject") →
      dict_get "fault_spec" (dl_values d) = Some (VDict (to_dict sp)) → round_result s round d
  | round_end i :
      i ∈ ["chat"; "recover"] → dict_get "confirmed_intent" (dl_values d) = Some (VStr i) → round_result s round d
  | round_next :
      dict_get "confirmed_intent" (dl_values d) = None → dict_get "dialogue_round" (dl_values d) = Some (VInt (round + 1)) →
      round_result s round d.

Lemma classify_intents calls c : _extract_classify_intent calls = Some (Some c) → c_intent c ∈ ["chat"; "recover"].
Proof.
  unfold _extract_classify_intent. destruct (List.find _ _); [|done]. intros (a & _ & H)%bind_Some.
  apply bind_Some in H as (x & _ & [= <-]). cbn. destruct (eqs _ _); set_solver.
Qed.

Lemma replied_result s round ex spec r d :
  replied uuid s round ex spec r = Some d → round_result s round d ∧ dict_wf (dl_values d).
Proof.
  unfold replied. intros (c & Hc & H)%bind_Some. destruct c as [c|].
  - apply classify_intents in Hc. unfold classified in H. destruct (String.eqb _ _).
    + injection H as <-. split; [by eapply (round_end _ _ _ "chat"); [set_solver|] | wf_keys].
    + apply bind_Some in H as (t & _ & [= <-]). split; [by eapply round_end | wf_keys].
  - destruct (nonempty _); apply bind_Some in H as (x & _ & H); [apply bind_Some in H as (n & _ & [= <-]) | injection H as <-];
      (split; [by apply round_next | wf_keys]).
Qed.

Lemma converse_result model s round d :
  converse loops prompt tools uuid model s round = Some d → round_result s round d ∧ dict_wf (dl_values d).
Proof.
  unfold converse. intros (spec & Hs & H)%bind_Some. cbv zeta in H.
  set (existing := match spec with Some sp => to_intent_dict sp | None => [] end) in *.
  assert (Hd : ∀ ex, (response ← ask_model loops prompt tools model (g_messages s) ex;
      match response with Some r => replied uuid s round ex spec r | None => Some apologise end) = Some d →
      round_result s round d ∧ dict_wf (dl_values d)).
  { intros ex (r & _ & Hr)%bind_Some. destruct r as [r|]; [by eapply replied_result|]. injection Hr as <-.
    split; [by eapply (round_end _ _ _ "chat"); [set_solver|] | wf_keys]. }
  destruct (submit_result_in _) eqn:Esub; [|by eapply Hd]. apply bind_Some in H as ([intent ex'] & Hi & H).
  destruct (has_required intent) eqn:Er; [|by eapply Hd]. apply bind_Some in H as (sp & Hsp & [= <-]). split; [|wf_keys].
  apply (round_inject _ _ _ sp); [|done..]. eapply converged_submission; [|done..].
  unfold existing. destruct spec; [apply slots_intent | constructor].
Qed.

(** What the round writes is what the state holds, unless the hook writes it. *)
Lemma after_round k s d0 u :
  hook_keeps hook [k] → run_hook hook s = Some u → dict_wf (dl_values d0) →
  get k (update s (merge_hook_updates d0 u)) = match dict_get k (dl_values d0) with Some v => v | None => get k s end.
Proof.
  intros Hk Hu Hw. rewrite get_after by (cbn; by apply dict_update_wf). cbn [merge_hook_updates dl_values].
  rewrite update_get_notin; [done|]. unfold run_hook in Hu. destruct hook as [h|]; [|injection Hu as <-; by apply not_elem_of_nil].
  destruct (Hk h s u eq_refl Hu) as [_ H]. apply H. by left.
Qed.

Lemma not_confirmed i s : existsb (λ i, is_str "confirmed_intent" i s) INTENTS = false → i ∈ INTENTS → is_str "confirmed_intent" i s = false.
Proof. intros H Hi. apply not_true_iff_false. intros Hs. apply not_true_iff_false in H. apply H, existsb_exists. exists i. by rewrite <- list_elem_of_In. Qed.


(** A round after which the tools run counts. *)
Lemma continue_counts s d :
  hook_keeps hook ["confirmed_intent"] → hook_keeps hook ["dialogue_round"] → node s = Some d →
  should_continue_intent_clarification (update s d) = "continue" →
  ∃ round, counter_of "dialogue_round" s = Some round ∧ (round < maxr)%Z ∧ get "dialogue_round" (update s d) = VInt (round + 1).
Proof.
  intros Hh Hr Hn Hi. unfold should_continue_intent_clarification in Hi.
  destruct (is_str "confirmed_intent" "inject" _) eqn:E1; [done|]. destruct (is_str "confirmed_intent" "recover" _) eqn:E2; [done|].
  destruct (is_str "confirmed_intent" "chat" _) eqn:E3; [done|].
  destruct (clarify_cases _ _ Hn) as [[He ->]|[He Hc]].
  { exfalso. unfold is_str in E1, E2, E3. rewrite get_update_other in E1, E2, E3 by done.
    apply existsb_exists in He as (i & Hin & Hs). unfold is_str in Hs. cbn in Hin. destruct (get "confirmed_intent" s); try done.
    destruct Hin as [<-|[<-|[<-|[]]]]; congruence. }
  destruct Hc as [->|(round & Hround & [->|(model & u & d0 & Hlt & Hu & Hd & ->)])].
  - unfold is_str in E3. by rewrite get_after in E3 by wf_keys.
  - unfold is_str in E3. by rewrite get_after in E3 by wf_keys.
  - exists round. split_and!; [done..|]. destruct (converse_result _ _ _ _ Hd) as [Hres Hw]. rewrite (after_round _ _ _ _ Hr Hu Hw).
    unfold is_str in E1, E2, E3. rewrite (after_round _ _ _ _ Hh Hu Hw) in E1, E2, E3.
    destruct Hres as [sp Hsp Hconf Hspec|i Hin Hconf|Hconf ->]; [rewrite Hconf in E1; done| |done].
    rewrite Hconf in E2, E3. apply elem_of_cons in Hin as [->|Hin]; [done|]. by apply list_elem_of_singleton in Hin as ->.
Qed.
End clarify_props.

(** ** The dialogue ends *)

(** The rounds of one invocation of the graph: the node, with a hook that
    writes neither the intent nor the round, its edge to the tools, and the
    tools, which leave the round alone; the rest of the state is free. *)
Inductive talk (maxr : Z) (s0 : GState) : nat → GState → Prop :=
  | talk_start : talk maxr s0 0 s0
  | talk_round n s loops prompt llm tools hook uuid d s' :
      talk maxr s0 n s → hook_keeps hook ["confirmed_intent"] → hook_keeps hook ["dialogue_round"] →
      intent_clarification loops maxr prompt llm tools hook uuid s = Some d →
      should_continue_intent_clarification (update s d) = "continue" →
      get "dialogue_round" s' = get "dialogue_round" (update s d) →
      talk maxr s0 (S n) s'.

Lemma counter_get k s z : get k s = VInt z → counter k s = z.
Proof. unfold get, py_get, counter. by destruct (dict_get k (g_values s)) as [v|]; intros H; subst. Qed.

(** C15. As long as the hook writes neither the intent nor the round and nothing
    between two rounds changes the round, the clarification asks for tools at
    most as often as rounds are left in its budget, whatever the model
    answers and whatever else the hook and the tools do. *)
Theorem clarification_bounded maxr s0 n s :
  talk maxr s0 n s → (Z.of_nat n <= Z.max 0 (maxr - counter "dialogue_round" s0))%Z.
Proof.
  intros H. assert (Hc : n = 0%nat ∧ s = s0 ∨
    (counter "dialogue_round" s = counter "dialogue_round" s0 + Z.of_nat n)%Z ∧ (counter "dialogue_round" s <= maxr)%Z); [|lia].
  induction H as [|n s loops prompt llm tools hook uuid d s' H IH Hh Hr Hn Hc Hs']; [by left|]. right.
  destruct (continue_counts _ _ _ _ _ _ _ _ _ Hh Hr Hn Hc) as (round & Hround & Hlt & Hget).
  apply counter_of_counter in Hround. rewrite Hget in Hs'. apply counter_get in Hs'. destruct IH as [[-> ->]|IH]; lia.
Qed.

(** ** Planning needs an approved submission *)






Section intent_runs.
(** [answers info a]: shown the card [info], the human may answer [a]. *)
Context (answers : dict pyval → pyval → Prop) (other : Node → GState → GState → Prop).



End intent_runs.


(** ** What the dialogue settled is kept *)

(** No signal of a change in the text of the message. *)
Definition asks_for_change (text : string) : bool := existsb (λ sig, contains sig (strip text)) _OVERRIDE_SIGNALS.

Definition quiet (m : Message) : bool :=
  match m with
  | HumanMessage c => negb (asks_for_change c)
  | AIMessage (VStr c) _ _ => negb (asks_for_change c)
  | _ => true
  end.

(** [d'] has what [d] had, and maybe more. *)
Definition extends (d d' : dict pyval) : Prop :=
  (∀ k, k ∈ REQUIRED → py_truthy (py_get k d) = true → py_get k d' = py_get k d) ∧
  (∀ l, py_get "names" d = VList l → ∃ l', py_get "names" d' = VList (l ++ l')) ∧
  (∀ p, py_get "params" d = VDict p →
     ∃ p', py_get "params" d' = VDict p' ∧ ∀ k v, dict_get k p = Some v → dict_get k p' = Some v).

#[export] Instance extends_refl : Reflexive extends.
Proof. intros d. split_and!; [done | |]; eauto. intros l ->. exists []. by rewrite app_nil_r. Qed.

#[export] Instance extends_trans : Transitive extends.
Proof.
  intros a b c (S1 & N1 & P1) (S2 & N2 & P2). split_and!.
  - intros k Hk Ht. rewrite (S2 k Hk); [auto|]. by rewrite (S1 k Hk).
  - intros l Hl. destruct (N1 l Hl) as [l1 H1]. destruct (N2 _ H1) as [l2 H2]. exists (l1 ++ l2). by rewrite app_assoc.
  - intros p Hp. destruct (P1 p Hp) as (p1 & H1 & K1). destruct (P2 _ H1) as (p2 & H2 & K2). eauto.
Qed.

(** Setting a slot that is empty, or another key. *)
Lemma extends_set k v d :
  k ∉ ["names"; "params"] → (k ∈ REQUIRED → py_truthy (py_get k d) = false) → extends d (dict_set k v d).
Proof.
  intros Hk He. split_and!.
  - intros k' Hk' Ht. rewrite py_get_set. destruct (String.eqb k' k) eqn:E; [|done]. apply String.eqb_eq in E as ->.
    by rewrite He in Ht.
  - intros l Hl. exists []. rewrite app_nil_r, py_get_set, <- Hl. destruct (String.eqb "names" k) eqn:E; [|done].
    apply String.eqb_eq in E as <-. set_solver.
  - intros p Hp. exists p. rewrite py_get_set, <- Hp. split; [|done]. destruct (String.eqb "params" k) eqn:E; [|done].
    apply String.eqb_eq in E as <-. set_solver.
Qed.

Lemma extends_slot k v d : k ∈ REQUIRED → extends d (_merge_slot d k v false).
Proof.
  intros Hk. unfold _merge_slot. rewrite orb_false_r. destruct (_ && _) eqn:E; [|reflexivity].
  apply andb_true_iff in E as [_ E]. apply negb_true_iff in E. apply extends_set; [|done].
  unfold REQUIRED in Hk. set_solver.
Qed.

Lemma extends_action d : extends d (derive_action d).
Proof.
  unfold derive_action. destruct (py_get "target" d); try reflexivity. destruct (_ && _) eqn:E; [|reflexivity].
  apply andb_true_iff in E as [_ E]. apply negb_true_iff in E. apply extends_set; [set_solver | done].
Qed.

Lemma add_names_app ns names l : ∃ l', fold_left (add_name ns) names l = l ++ l'.
Proof.
  revert l. induction names as [|n names IH]; intros l; cbn [fold_left]; [exists []; by rewrite app_nil_r|].
  unfold add_name at 2. destruct (_ || _); [apply IH|]. destruct (IH (l ++ [VStr n])) as [l' ->]. exists (VStr n :: l').
  by rewrite <- app_assoc.
Qed.

Lemma extends_names found d d' : merge_names found d = Some d' → extends d d'.
Proof.
  unfold merge_names. destruct (nonempty found); [|by intros [= <-]]. intros (l & Hl & [= <-])%bind_Some. split_and!.
  - intros k Hk _. rewrite py_get_set. destruct (String.eqb k "names") eqn:E; [|done]. apply String.eqb_eq in E as ->.
    apply str_in_spec in Hk. discriminate Hk.
  - intros l0 H0. rewrite py_get_set. cbn [String.eqb]. rewrite H0 in Hl. destruct (add_names_app (get_d "namespace" (VStr "") d) found l) as [l' Hl'].
    exists l'. change (String.eqb "names" "names") with true. cbv iota. rewrite Hl'. f_equal. f_equal.
    destruct l0; cbn in Hl; by injection Hl as <-.
  - intros p Hp. exists p. split; [|done]. by rewrite py_get_set.
Qed.

Lemma params_kept (found l : dict pyval) k v :
  dict_get k l = Some v →
  dict_get k (fold_left (λ p kv, if negb (dict_mem kv.1 p) || false then dict_set kv.1 kv.2 p else p) found l) = Some v.
Proof.
  revert l. induction found as [|[k' v'] found IH]; intros l Hl; [done|]. cbn [fold_left fst snd]. apply IH. rewrite orb_false_r.
  destruct (dict_mem k' l) eqn:E; [done|]. cbn. rewrite dict_get_set_ne; [done|]. intros ->. unfold dict_mem in E. by rewrite Hl in E.
Qed.

Lemma extends_params found d d' : merge_params found false d = Some d' → extends d d'.
Proof.
  unfold merge_params. destruct (nonempty found); [|by intros [= <-]]. intros (l & Hl & [= <-])%bind_Some. split_and!.
  - intros k Hk _. rewrite py_get_set. destruct (String.eqb k "params") eqn:E; [|done]. apply String.eqb_eq in E as ->.
    apply str_in_spec in Hk. discriminate Hk.
  - intros l0 H0. exists []. by rewrite app_nil_r, py_get_set.
  - intros p Hp. eexists. split; [by rewrite py_get_set|]. intros k v Hk. apply params_kept. rewrite Hp in Hl.
    destruct p; cbn in Hl; by injection Hl as <-.
Qed.

Lemma extends_text human d text d' :
  existsb (λ sig, contains sig text) _OVERRIDE_SIGNALS = false → merge_text human d text = Some d' → extends d d'.
Proof.
  unfold merge_text. cbv zeta. intros ->. intros (d1 & H1 & H2)%bind_Some.
  transitivity d1; [|by eapply extends_params]. etransitivity; [|by eapply extends_names].
  repeat first [etransitivity; [|apply extends_slot; apply str_in_spec; reflexivity] | etransitivity; [|apply extends_action]]. reflexivity.
Qed.

(** A dialogue in which no message signals a change keeps every field that was
    settled, and only adds names and parameters. *)
Theorem dialogue_keeps_settled messages d d' :
  forallb quiet messages = true → _merge_known_params_into_fault_intent messages d = Some d' → extends d d'.
Proof.
  intros Hq. unfold _merge_known_params_into_fault_intent. assert (Hr : forallb quiet (rev messages) = true).
  { apply forallb_forall. intros m Hm. rewrite forallb_forall in Hq. by apply Hq, in_rev. }
  revert d Hr. generalize (rev messages). clear messages Hq. intros l. induction l as [|m l IH]; intros d Hq H; cbn [merge_messages] in H;
    [by injection H as <-|]. cbn [forallb] in Hq. apply andb_true_iff in Hq as [Hm Hq].
  apply bind_Some in H as (d1 & H1 & H2). transitivity d1; [|by eapply IH]. clear IH H2. unfold merge_message in H1.
  destruct m as [c ? ?|?|c|?]; [|by injection H1 as <-| |by injection H1 as <-].
  - apply bind_Some in H1 as (t & Ht & H1). destruct c; try done. injection Ht as <-. cbn in Hm. apply negb_true_iff in Hm.
    destruct (truthy (strip s)); [by eapply extends_text; [exact Hm|]|by injection H1 as <-].
  - cbn in Hm. apply negb_true_iff in Hm. destruct (truthy (strip c)); [by eapply extends_text; [exact Hm|]|by injection H1 as <-].
Qed.

(** ** A plan change rejected twice ends the planning *)

(** The planning loop does not clear an error. *)
Lemma planning_keeps_error cfg loops sc prompt llm tools hook cases s d :
  hook_keeps hook ["error"] → _agent_loop_with_llm cfg loops sc prompt llm tools hook cases s = Some d →
  on "error" s = true → on "error" (update s d) = true.
Proof.
  intros Hk Hd He. pose proof (node_wf _ _ _ _ _ _ _ _ _ _ Hd) as Hw. unfold on. rewrite get_after by done.
  apply turn_cases in Hd as (n & b & _ & _ & H). cbv zeta in H. destruct (_ <? _)%Z; [subst d; apply reason_truthy|].
  destruct H as (model & u & pending & path & intent & r & calls & values & _ & Hu & _ & _ & Hv & Hd).
  assert (Hn : dict_get "error" (dict_update values (dl_values u)) = None).
  { rewrite update_get_notin.
    - apply notes_within in Hv as [Hv _]. cbn [entries dl_values] in Hv. rewrite (Hv "error") by (apply str_in_false; reflexivity).
      unfold first_entries, AgentLoop.set_if. destruct b, (py_truthy path), pending;
        rewrite ?update_get_notin by (apply str_in_false; reflexivity); by rewrite ?dict_get_set_ne by done.
    - unfold run_hook in Hu. destruct hook as [h|]; [|injection Hu as <-; by apply not_elem_of_nil].
      destruct (Hk h s u eq_refl Hu) as [_ H]. apply H. by left. }
  unfold concluded in Hd. destruct (r_calls r); [|injection Hd as <-; cbn [dl_values merge_hook_updates]; by rewrite Hn].
  destruct (_ || _); [injection Hd as <-; cbn [dl_values merge_hook_updates]; by rewrite Hn|].
  apply bind_Some in Hd as (t & _ & Hd). destruct (truthy (strip t)); injection Hd as <-;
    [|cbn [dl_values merge_hook_updates]; by rewrite Hn].
  cbn [amend dl_values merge_hook_updates]. rewrite dict_get_update by (unfold fail_state; wf_keys). apply reason_truthy.
Qed.

(** After the second rejection, whatever the model answers in the next turn of
    the planning loop, the router rejects the task. *)
Theorem second_rejection_ends interrupt cfg now loops sc prompt llm tools hook cases s d z d' r :
  plan_change_confirm interrupt s = Some d → dict_get "plan_change_reject_count" (dl_values d) = Some (VInt z) → (2 <= z)%Z →
  hook_keeps hook ["error"] → _agent_loop_with_llm cfg loops sc prompt llm tools hook cases (update s d) = Some d' →
  should_continue_agent_loop cfg now (update (update s d) d') = Some r → r = "reject".
Proof.
  intros Hp Hz Hle Hk Hd Hr.
  assert (He : on "error" (update s d) = true).
  { unfold plan_change_confirm in Hp. apply bind_Some in Hp as (p & _ & Hp). destruct p as [p|]; [|by injection Hp as <-].
    apply bind_Some in Hp as (spec & _ & Hp). destruct spec as [spec|]; [|by injection Hp as <-].
    apply bind_Some in Hp as (n & _ & Hp). unfold on.
    assert (Hrej : ∀ t a, plan_rejected n t a = d → py_truthy (get "error" (update s d)) = true).
    { intros t a <-. unfold plan_rejected in *. destruct (2 <=? n + 1)%Z eqn:E; [|cbn in Hz; injection Hz as <-; lia].
      rewrite get_after by (unfold fail_state; wf_keys). apply reason_truthy. }
    destruct (is_str _ _ _); [injection Hp as Hp; by eapply Hrej|]. destruct (says _ _); [|injection Hp as Hp; by eapply Hrej].
    apply bind_Some in Hp as (t & _ & [= <-]). cbn in Hz. injection Hz as <-. lia. }
  apply (planning_keeps_error _ _ _ _ _ _ _ _ _ _ Hk Hd) in He.
  unfold should_continue_agent_loop in Hr. apply bind_Some in Hr as (t & _ & Hr). destruct t; [by injection Hr as <-|].
  apply bind_Some in Hr as (o & _ & Hr). destruct o; [by injection Hr as <-|].
  destruct (is_str _ _ _); [by injection Hr as <-|]. rewrite He in Hr. by injection Hr as <-.
Qed.

(** ** The handoff is found again *)

(** The record store splits a conversation at the summary that the
    confirmation adds. *)
Lemma handoff_splits intent rounds before rest :
  summary_idx before = Some None →
  _split_at_handoff (before ++ _build_handoff_summary intent rounds :: rest) =
  Some (List.filter (λ m, negb (is_remove m)) before, _build_handoff_summary intent rounds :: rest).
Proof.
  intros H. assert (Hi : summary_idx (before ++ _build_handoff_summary intent rounds :: rest) = Some (Some (length before))).
  { induction before as [|m l IH]; [done|]. cbn [summary_idx app] in *. apply bind_Some in H as (h & -> & H). cbn [mbind option_bind].
    destruct h; [done|]. apply bind_Some in H as (i & Hi & [= H]). destruct i; [done|]. by rewrite (IH Hi). }
  unfold _split_at_handoff. rewrite Hi. cbn [mbind option_bind]. by rewrite take_app_length, drop_app_length.
Qed.

(** ** A dialogue *)

Definition submit_call : ToolCall :=
  mkCall "submit_fault_intent"
    (VDict [("scope", VStr "pod"); ("target", VStr "cpu"); ("action", VStr "fullload"); ("namespace", VStr "shop");
            ("names", VStr "cart-1"); ("params", VDict [("percent", VInt 80)])]) (Some "c1").

(** The answer of the tool node: [refused] when the arguments did not fit. *)
Definition after_submit (refused : bool) : GState :=
  mkState [HumanMessage "对 cart 服务做 CPU 满载"; AIMessage (VStr "") VNone [submit_call];
           ToolMessage "ok" "submit_fault_intent" "c1" refused]
    [("interaction_mode", VStr "tui"); ("task_id", VStr "turn-1")].

Definition ten_rounds : LoopSettings := mkLoop 10 3 5 3.
Definition a_prompt (_ : dict pyval) : Exc string := Some "You clarify intents.".
Definition silent (_ : list Message) (_ : list string) : Exc Response := Raise.
Definition an_id : string := "0123456789abcdef0123456789abcdef".

Definition converges (s : GState) : GState :=
  match intent_clarification ten_rounds 999 a_prompt (Some silent) [] None an_id s with Some d => update s d | None => s end.

Definition asks (text : string) : list Message → list string → Exc Response := λ _ _,
  Some (mkResponse (VStr text) VNone [mkCall "kubectl" (VDict [("subcommand", VStr "get"); ("v_args", VStr "pods")]) (Some "c1")]).

Definition looks_up (s : GState) : GState :=
  match intent_clarification ten_rounds 3 a_prompt (Some (asks "")) ["kubectl"] None an_id s with Some d => update s d | None => s end.

Definition opening : GState := mkState [HumanMessage "对 cart 服务做 CPU 满载"] [].

Lemma no_hook ks : hook_keeps None ks.
Proof. by intros h s d Hh. Qed.

Lemma looks_up_round n s :
  talk 3 opening n s →
  (if intent_clarification ten_rounds 3 a_prompt (Some (asks "")) ["kubectl"] None an_id s is Some _ then true else false) = true →
  should_continue_intent_clarification (looks_up s) = "continue" → talk 3 opening (S n) (looks_up s).
Proof.
  unfold looks_up. destruct (intent_clarification _ _ _ _ _ _ _ s) as [d|] eqn:E; [|done]. intros Ht _ Hc.
  eapply talk_round; [exact Ht | apply no_hook | apply no_hook | exact E | exact Hc | reflexivity].
Qed.

Lemma clarification_bounded_witness :
  talk 3 opening 2 (looks_up (looks_up opening)) ∧ (2 <= Z.max 0 (3 - counter "dialogue_round" opening))%Z.
Proof.
  assert (H : talk 3 opening 2 (looks_up (looks_up opening))).
  { apply looks_up_round; [|vm_compute; reflexivity..]. apply looks_up_round; [apply talk_start | vm_compute; reflexivity..]. }
  split; [exact H|]. exact (clarification_bounded 3 opening 2 _ H).
Defined.







(** The submission filled the scope; a later sentence does not change it. *)
Definition settled_pod : dict pyval :=
  [("scope", VStr "pod"); ("target", VStr "cpu"); ("action", VStr "fullload"); ("namespace", VStr "shop");
   ("names", VList [VStr "cart-1"]); ("params", VDict [("percent", VStr "80")])].

Definition small_talk : list Message :=
  [HumanMessage "节点的内存如何？强度 90，timeout 600"; AIMessage (VStr "目标节点：cart-2") VNone []].

Lemma dialogue_keeps_settled_witness :
  ∃ d', _merge_known_params_into_fault_intent small_talk settled_pod = Some d' ∧ extends settled_pod d' ∧
        py_get "names" d' = VList [VStr "cart-1"; VStr "cart-2"].
Proof.
  eexists. split; [vm_compute; reflexivity|]. split; [|reflexivity].
  apply (dialogue_keeps_settled small_talk settled_pod); vm_compute; reflexivity.
Defined.

(** A proposal that is declined for the second time. *)
Definition declined_twice : GState :=
  mkState [AIMessage (VStr "") VNone
             [mkCall "propose_plan_change" (VDict [("scope", VStr "node"); ("target", VStr "mem"); ("action", VStr "load")]) (Some "c1")];
           ToolMessage "ok" "propose_plan_change" "c1" false]
    [("fault_spec", VDict (to_dict cli_spec)); ("plan_change_reject_count", VInt 1)].

Definition proposal_declined : Delta :=
  match plan_change_confirm (human_says "rejected") declined_twice with Some d => d | None => mkDelta [] [] end.

(** The model goes on as if nothing had happened. *)
Definition next_plan : Delta := default (mkDelta [] []) (planned_by probe (update declined_twice proposal_declined)).

Lemma second_rejection_ends_witness :
  has_calls (update (update declined_twice proposal_declined) next_plan) = true ∧
  should_continue_agent_loop two_turns (S754_zero false) (update (update declined_twice proposal_declined) next_plan) = Some "reject".
Proof.
  split; [vm_compute; reflexivity|].
  destruct (should_continue_agent_loop two_turns (S754_zero false) (update (update declined_twice proposal_declined) next_plan)) as [r|] eqn:E;
    [|vm_compute in E; discriminate].
  f_equal. apply (second_rejection_ends (human_says "rejected") two_turns (S754_zero false) (mkLoop 10 3 5 3) protected (λ _ _, Some "plan")
    (Some (λ _ _, Some probe)) ["kubectl"] None None declined_twice proposal_declined 2 next_plan r);
    [vm_compute; reflexivity | vm_compute; reflexivity | vm_compute; discriminate | apply no_hook | vm_compute; reflexivity|].
  exact E.
Defined.

(** ** What the dialogue gets wrong *)

(** The name of the platform contains a keyword of the network. *)
Example kubernetes_is_network : _extract_target_keyword "看一下 kubernetes 集群" = "network".
Proof. vm_compute. reflexivity. Qed.

(** The keyword of a container instance contains the one of a pod, which is
    tried first. *)
Example container_instance_is_pod : _extract_scope "容器实例" = "pod".
Proof. vm_compute. reflexivity. Qed.

(** A one-word answer is taken for a namespace and for a name, also the answer
    to another question. *)
Example any_word_is_namespace :
  _merge_known_params_into_fault_intent [HumanMessage "cpu"] [] =
  Some [("target", VStr "cpu"); ("action", VStr "fullload"); ("namespace", VStr "cpu"); ("names", VList [])].
Proof. vm_compute. reflexivity. Qed.

(** A namespace with the letters of an order to go on is not recognised. *)
Example argo_is_no_namespace : _extract_namespace "argocd" = "" ∧ _extract_namespace "mongo" = "".
Proof. vm_compute. split; reflexivity. Qed.

(** A number in front of a word with s is a duration in seconds. *)
Example services_are_seconds : _extract_params_from_text "there are 3 services" = [("timeout", VStr "3")].
Proof. vm_compute. reflexivity. Qed.

(** Messages are read newest first, and a change overwrites what is there: of
    two changes the older one wins, and a change wins over every later
    statement. *)
Example oldest_change_wins :
  py_get "target" <$> _merge_known_params_into_fault_intent [HumanMessage "改成 cpu"; HumanMessage "还是改成 disk"] [] = Some (VStr "cpu").
Proof. vm_compute. reflexivity. Qed.

(** The action that was derived for the old target stays when the target
    changes. *)
Example changed_target_keeps_action :
  (λ d, (py_get "target" d, py_get "action" d)) <$>
    _merge_known_params_into_fault_intent [HumanMessage "改成 cpu"] [("target", VStr "network"); ("action", VStr "drop")] =
  Some (VStr "cpu", VStr "drop").
Proof. vm_compute. reflexivity. Qed.

(** An answer in blocks, which the framework allows, ends the node with an
    exception. *)
Example blocks_raise :
  _merge_known_params_into_fault_intent [AIMessage (VList [VDict [("type", VStr "text"); ("text", VStr "hi")]]) VNone []] [] = Raise.
Proof. vm_compute. reflexivity. Qed.

(** A submission that the tool refused is taken as one that was executed. *)
Example refused_submission_confirmed :
  is_str "confirmed_intent" "inject" (converges (after_submit true)) = true.
Proof. vm_compute. reflexivity. Qed.
