(* ===== verification/TaskState.v ===== *)
(** * The life cycle of a task (agent/state.py)

    What the keys of the graph state say about a task: its state, stage, phase
    and status, and the record of it that the interfaces show.  A missing key
    is [None] or the default of the source; a value of the wrong type raises
    where the source would.  The validation of a failure record and the time
    between two stamps are parameters. *)

From stdpp Require Import base list strings sets.
From Stdlib Require Import ZArith Ascii SpecFloat.
From S2P Require Import Prelude PyText PyValue PyFloat PyOps SideEffects FaultSpec Failure Screener Router.

(** ** State, stage and phase *)

(** [values.get("replan_count", 0) > 0 and values.get("replan_context")], in
    either order. *)
Definition replanned (values : dict pyval) : Exc bool := py_gt (get_d "replan_count" (VInt 0) values) (VInt 0).

Definition non_injection (values : dict pyval) : bool := one_of (py_get "confirmed_intent" values) ["chat"; "recover"].

(** [x.get(k, d) if isinstance(x, dict) else d]. *)
Definition get_of (k : string) (d x : pyval) : pyval := match x with VDict m => get_d k d m | _ => d end.

(** The statuses of the two layers and the level of a verification. *)
Record Layers := mkLayers {
  l1_status : pyval;
  l2_status : pyval;
  v_level : pyval;
  v_side_effects : pyval }.

(** The first layer is read with [get] whatever it is. *)
Definition read_layers (verification : pyval) : Exc Layers :=
  l1 ← vget "status" (get_of "layer1" (VDict []) verification);
  Some (mkLayers l1 (get_of "status" (VStr "unknown") (get_of "layer2" (VDict []) verification))
          (get_of "level" (VStr "unknown") verification) (get_of "side_effects" VNone verification)).

Definition acceptable (l : Layers) : bool := one_of (v_level l) ["verified"; "partial"].

(** [any(v for v in side_effects.values() if v)]. *)
Definition any_effect (effects : pyval) : Exc bool := d ← as_dict effects; Some (existsb (λ kv, py_truthy kv.2) d).

Definition verified_state (l : Layers) : Exc string :=
  let injected (b : bool) := if b then "injected" else "failed" in
  if eqs (l1_status l) "passed" && one_of (l2_status l) ["passed"; "skipped"] then Some "injected"
  else if eqs (l1_status l) "passed" && eqs (l2_status l) "unknown" then Some (injected (negb (eqs (v_level l) "unverified")))
  else if eqs (l1_status l) "passed" && eqs (l2_status l) "partial" then Some (injected (acceptable l))
  else if eqs (l1_status l) "skipped" && eqs (l2_status l) "passed" then Some "injected"
  else if eqs (l1_status l) "skipped" && eqs (l2_status l) "partial" then Some (injected (acceptable l))
  else if eqs (l1_status l) "passed" && eqs (l2_status l) "recovered_before_observation" then
    if py_truthy (v_side_effects l) then b ← any_effect (v_side_effects l); Some (injected b) else Some "failed"
  else Some "failed".

Definition result_of (values : dict pyval) : dict pyval :=
  match py_or (py_get "result" values) (VDict []) with VDict r => r | _ => [] end.

Definition recovery_state (values : dict pyval) : Exc string :=
  let rv := py_get "recover_verification" values in
  if py_truthy rv then
    if py_truthy (py_get "recovered" (result_of values)) then
      Some (if eqs (get_d "recovery_level" (VStr "recovered") (result_of values)) "partial" then "partial_recovered" else "recovered")
    else
      rl1 ← vget "status" (get_of "layer1" (VDict []) rv);
      let level := get_of "level" VNone rv in
      Some (if eqs rl1 "skipped" && eqs level "recovered" then "recovered"
            else if eqs rl1 "skipped" && eqs level "partial" then "partial_recovered" else "failed")
  else Some "recovering".

(** What is left when the task was neither rejected nor failed. *)
Definition lifecycle_state (values : dict pyval) : Exc string :=
  r ← replanned values;
  if r && py_truthy (py_get "replan_context" values) &&
     (negb (py_truthy (py_get "blade_uid" values)) && negb (py_truthy (py_get "verification" values))) then Some "failed"
  else if eqs (get_d "operation" (VStr "") values) "recover" then recovery_state values
  else if negb (py_truthy (py_get "verification" values)) then Some "injecting"
  else l ← read_layers (py_get "verification" values); verified_state l.

Definition infer_task_state (values : dict pyval) : Exc string :=
  if non_injection values then Some "completed"
  else if eqs (get_d "safety_status" (VStr "pending") values) "rejected" then Some "rejected"
  else if py_truthy (py_get "error" values) then
    r ← replanned values;
    if r && py_truthy (py_get "replan_context" values) then lifecycle_state values else Some "failed"
  else lifecycle_state values.

Definition infer_stage (values : dict pyval) : option string :=
  if non_injection values then None
  else if eqs (get_d "operation" (VStr "") values) "recover" then Some "recovery" else Some "injection".

Definition verified_phase (l : Layers) : Exc string :=
  let phase (b : bool) := if b then "verification_passed" else "verification_failed" in
  if eqs (l1_status l) "passed" && one_of (l2_status l) ["passed"; "skipped"] then Some (phase true)
  else if eqs (l1_status l) "passed" && eqs (l2_status l) "unknown" then Some (phase (negb (eqs (v_level l) "unverified")))
  else if eqs (l1_status l) "passed" && eqs (l2_status l) "partial" then Some (phase (acceptable l))
  else if eqs (l1_status l) "skipped" && one_of (l2_status l) ["passed"; "skipped"] then Some (phase true)
  else if eqs (l1_status l) "skipped" && eqs (l2_status l) "partial" then Some (phase (acceptable l))
  else if eqs (l1_status l) "passed" && eqs (l2_status l) "recovered_before_observation" then
    if py_truthy (v_side_effects l) then v ← vget "container_restarts" (v_side_effects l); Some (phase (py_truthy v)) else Some (phase false)
  else Some (phase false).

Definition recovery_phase (values : dict pyval) : string :=
  if py_truthy (py_get "recover_verification" values) then
    if py_truthy (py_get "recovered" (result_of values)) then
      if eqs (get_d "recovery_level" (VStr "recovered") (result_of values)) "partial" then "partial_recovered" else "recovered"
    else "verification_failed"
  else "recovering".

Definition injection_phase (values : dict pyval) : Exc string :=
  let skill_name := py_get "skill_name" values in
  let blade_uid := py_get "blade_uid" values in
  if negb (py_truthy skill_name) && negb (py_truthy blade_uid) then Some "planning"
  else if negb (py_truthy skill_name) && py_truthy blade_uid then Some "executing"
  else if py_truthy (get_d "needs_confirmation" (VBool false) values) then Some "confirming"
  else if one_of (get_d "safety_status" (VStr "pending") values) ["safe"; "warning"] && negb (py_truthy blade_uid) then Some "safety_check"
  else if negb (py_truthy blade_uid) then Some "planning"
  else if negb (py_truthy (py_get "verification" values)) then Some "executing"
  else l ← read_layers (py_get "verification" values); verified_phase l.

(** [None] inside: no phase applies. *)
Definition infer_phase (values : dict pyval) : Exc (option string) :=
  if non_injection values then Some None
  else if py_truthy (py_get "error" values) then Some (Some "failed")
  else if eqs (get_d "safety_status" (VStr "pending") values) "rejected" then Some (Some "rejected")
  else if py_truthy (py_get "dry_run" values) && py_truthy (py_get "plan_summary" values) then Some (Some "dry_run_planned")
  else
    r ← (if py_truthy (py_get "replan_context" values) then replanned values else Some false);
    if r && negb (py_truthy (py_get "blade_uid" values)) then Some (Some "replanning")
    else if eqs (get_d "operation" (VStr "") values) "recover" then Some (Some (recovery_phase values))
    else p ← injection_phase values; Some (Some p).

(** ** Status *)

Definition infer_inject_status (task_state operation : string) : string :=
  if String.eqb operation "recover" then "success"
  else if task_state ∈? ["injected"; "recovering"; "recovered"; "partial_recovered"] then "success"
  else if String.eqb task_state "injecting" then "in_progress"
  else if task_state ∈? ["failed"; "rejected"] then "failed"
  else "pending".

Definition infer_recover_status (task_state operation : string) : string :=
  if task_state ∈? ["recovered"; "partial_recovered"] then "success"
  else if String.eqb task_state "recovering" then "in_progress"
  else if String.eqb task_state "failed" && String.eqb operation "recover" then "failed"
  else "pending".

Definition infer_status (stage : option string) (task_state operation : string) : option string :=
  match stage with
  | Some st =>
      if String.eqb st "injection" then Some (infer_inject_status task_state operation)
      else if String.eqb st "recovery" then Some (infer_recover_status task_state operation) else None
  | None => None
  end.

(** ** What the interfaces show *)

Definition dict_pop (k : string) (d : dict pyval) : dict pyval := List.filter (λ kv, negb (String.eqb kv.1 k)) d.

Definition strip_side_effects (verification : pyval) : pyval :=
  match verification with VDict d => VDict (dict_pop "side_effects" d) | v => v end.

Definition _extract_side_effects (verification : pyval) : dict pyval :=
  match get_of "side_effects" VNone verification with VDict d => d | _ => [] end.

(** The keys of the detectors in the order of their registry. *)
Definition _KEY_LABELS : list (string * string) :=
  [("container_restarts", "容器重启"); ("evicted_pods", "Pod驱逐"); ("oom_killed_pods", "OOMKill");
   ("crash_loop_pods", "CrashLoop"); ("endpoint_removals", "Endpoint移除"); ("hpa_scaling", "HPA扩缩");
   ("probe_failures", "探针失败"); ("dependency_errors", "依赖异常")].

Definition list_length (v : pyval) : Z := match v with VList l => Z.of_nat (length l) | _ => 0%Z end.

Definition _build_side_effects_summary (verification : pyval) : string :=
  match verification with
  | VDict _ =>
      let detected := _extract_side_effects verification in
      let parts := map (λ kl, kl.2 +:+ ": " +:+ str_of_Z (list_length (get_d kl.1 (VList []) detected))) _KEY_LABELS in
      let total := fold_right (λ kv n, (list_length kv.2 + n)%Z) 0%Z detected in
      if (total =? 0)%Z then "未检测到连带影响 (" +:+ join ", " parts +:+ ")"
      else "检测到 " +:+ str_of_Z total +:+ " 项连带影响 (" +:+ join ", " parts +:+ ")"
  | _ => ""
  end.

Section status.
Context (validate_failure : dict pyval → Exc FailureDetail).
(** [int((b - a).total_seconds() * 1000)]; [None] when a stamp cannot be read. *)
Context (elapsed_ms : pyval → pyval → option Z).

Definition _derive_failure_reason (values : dict pyval) : pyval :=
  let reason := py_or (py_get "failure_reason" values) (VStr "") in
  if py_truthy reason then reason
  else
    match py_get "failure_detail" values with
    | VDict ((_ :: _) as detail) =>
        match validate_failure detail with Some f => VStr (to_reason_string f) | None => get_d "category" (VStr "") detail end
    | _ => VStr ""
    end.

Definition extract_ui_diagnostics (values : dict pyval) : Exc (dict pyval) :=
  count ← py_int (py_get "replan_count" values);
  history ← py_iter (py_or (py_get "replan_history" values) (VList []));
  Some [("failure_reason", _derive_failure_reason values); ("failure_detail", py_get "failure_detail" values);
        ("replan_count", VInt count); ("replan_history", VList history);
        ("side_effects", VDict (_extract_side_effects (py_get "verification" values)));
        ("side_effects_summary", VStr (_build_side_effects_summary (py_get "verification" values)))].

Definition target_of (spec : option FaultSpec) : dict pyval :=
  match spec with
  | Some sp => [("namespace", VStr (s_namespace sp)); ("names", VList (s_names sp)); ("labels", VDict (s_labels sp));
                ("resource_type", VStr (s_scope sp))]
  | None => [("namespace", VStr ""); ("names", VList []); ("labels", VDict []); ("resource_type", VStr "")]
  end.

Definition or_text (v : pyval) : pyval := py_or v (VStr "").
Definition opt_text (o : option string) : pyval := match o with Some t => VStr t | None => VNone end.

Definition duration_of (created finished : pyval) : Z :=
  if py_truthy created && py_truthy finished then default 0%Z (elapsed_ms created finished) else 0%Z.

(** [updated_at] is the time of the call; an operation that is not a text
    compares unequal to every text. *)
Definition build_status_data (task_id updated_at : string) (values : dict pyval) : Exc (dict pyval) :=
  let spec := from_dict (py_get "fault_spec" values) in
  let skill_name := or_text (py_get "skill_name" values) in
  let params := match spec with Some sp => s_params sp | None => [] end in
  let fault := match spec with
               | Some sp => if truthy (fault_type sp) then VStr (fault_type sp) else skill_name
               | None => skill_name
               end in
  let created := or_text (py_get "created_at" values) in
  let finished := or_text (py_get "finished_at" values) in
  let reason := _derive_failure_reason values in
  let verification := py_get "verification" values in
  state ← infer_task_state values;
  let stage := infer_stage values in
  let operation := match get_d "operation" (VStr "") values with VStr t => t | _ => "" end in
  phase ← infer_phase values;
  confidence ← py_float (py_get "intent_confidence" values);
  count ← py_int (py_get "replan_count" values);
  history ← py_iter (py_or (py_get "replan_history" values) (VList []));
  let data :=
    [("task_id", VStr task_id); ("stage", opt_text stage); ("status", opt_text (infer_status stage state operation));
     ("phase", opt_text phase); ("fault_type", fault); ("skill_name", skill_name); ("target", VDict (target_of spec));
     ("params", match params with [] => VNone | p => VDict p end); ("blade_uid", or_text (py_get "blade_uid" values));
     ("safety_status", get_d "safety_status" (VStr "pending") values); ("safety_reason", or_text (py_get "safety_reason" values));
     ("needs_confirm", get_d "needs_confirmation" (VBool false) values); ("verification", strip_side_effects verification);
     ("recover_verification", strip_side_effects (py_get "recover_verification" values));
     ("side_effects", VDict (_extract_side_effects verification)); ("plan_summary", get_d "plan_summary" (VStr "") values);
     ("error", py_or (py_or reason (py_get "error" values)) (VStr "")); ("failure_reason", reason);
     ("failure_detail", py_get "failure_detail" values); ("intent_confidence", VFloat (float_repr confidence));
     ("replan_count", VInt count); ("replan_history", VList history); ("created_at", created); ("updated_at", VStr updated_at);
     ("finished_at", finished); ("duration_ms", VInt (duration_of created finished))] in
  let baseline := py_get "baseline_data" values in
  Some (if py_truthy baseline then dict_set "baseline_data" baseline data else data).
End status.
