(* ===== verification/TaskStore.v ===== *)
(** * The task store and its SQLite back end

    The store, written against the protocol of its back ends and their
    contract, and the back end on SQLite. *)

From stdpp Require Import base list strings sets sorting.
From Stdlib Require Import ZArith Ascii.
From S2P Require Import Prelude PyText PyValue PyFloat PyOps Json FaultSpec Failure JsonDump TaskState.

(** * The task store (persistence/task_store.py, task_store_backend.py,
      agent/nodes/_store_sync.py, and the writes of observability/tracer.py)

    One narrow row and one wide row per task, the spans of its nodes, and
    sessions.  The store is written against the class [StorageBackend], the
    protocol of the source, whose contract is [BackendLaws]; the SQLite back
    end below is an instance of the first, and keeps the second.  Rows are dicts;
    the time of a call and the reading of time stamps are arguments. *)

(** ** Columns *)

Definition _JSON_COLUMNS : list string :=
  ["target"; "params"; "verification"; "recover_verification"; "result"; "baseline_data"; "postmortem";
   "target_health_report"; "feasibility_report"].

Definition _TASK_COLUMNS : list string :=
  ["id"; "task_id"; "task_state"; "stage"; "phase"; "operation"; "skill_name"; "blade_uid"; "namespace"; "target_name";
   "error"; "finished_at"; "duration_ms"; "gmt_create"; "gmt_modified"].

Definition _DETAIL_COLUMNS : list string :=
  ["id"; "task_id"; "target"; "params"; "input"; "safety_status"; "safety_reason"; "needs_confirm"; "plan_summary";
   "kubeconfig"; "kube_context"; "verification"; "recover_verification"; "result"; "failure_reason"; "baseline_data";
   "inject_context"; "skill_use_case"; "injection_method"; "kubectl_exec_pod_name"; "postmortem"; "target_health_report";
   "feasibility_report"; "total_token_input"; "total_token_output"; "total_llm_calls"; "total_tool_calls";
   "total_duration_ms"; "gmt_create"; "gmt_modified"].

Definition _SESSION_COLUMNS : list string :=
  ["session_id"; "status"; "cluster_name"; "namespace"; "started_at"; "finished_at"; "gmt_create"; "gmt_modified"].

(** [fields.setdefault(k, v)]: a key that holds [None] is present. *)
Definition setdefault (k : string) (v : pyval) (d : dict pyval) : dict pyval := if dict_mem k d then d else dict_set k v d.

(** [names[0]] of a value that is true. *)
Definition first_name (names : pyval) : Exc pyval :=
  match names with
  | VList (x :: _) | VTuple (x :: _) => Some x
  | VStr s => match uchars s with c :: _ => Some (VStr c) | [] => Raise end
  | _ => Raise
  end.

Definition index_target (fields : dict pyval) : Exc pyval :=
  match py_get "target" fields with
  | VStr t => match json_loads t with JOk v => Some v | JDecodeError => Some VNone | JValueError => Raise end
  | v => Some v
  end.

Definition _extract_index_fields (fields : dict pyval) : Exc (dict pyval) :=
  target ← index_target fields;
  match target with
  | VDict t =>
      let fields := setdefault "namespace" (get_d "namespace" (VStr "") t) fields in
      let names := get_d "names" (VList []) t in
      if py_truthy names then n ← first_name names; Some (setdefault "target_name" n fields) else Some fields
  | _ => Some fields
  end.

Definition _set_timestamps (now : string) (fields : dict pyval) (existing : option (dict pyval)) : dict pyval :=
  let old := match existing with Some e => py_get "gmt_create" e | None => VNone end in
  let fields :=
    if py_truthy old then dict_set "gmt_create" old fields
    else if negb (py_truthy (py_get "gmt_create" fields)) then dict_set "gmt_create" (VStr now) fields else fields in
  dict_set "gmt_modified" (VStr now) fields.

(** ** The protocol *)

Definition Row : Type := dict pyval.

Class StorageBackend (DB : Type) := {
  select_task : string → DB → option Row;
  upsert_task : string → Row → DB → Exc DB;
  select_tasks_ordered : nat → nat → DB → list Row;
  select_tasks_by_state : string → nat → nat → DB → list Row;
  select_active_tasks : string → string → DB → list Row;
  delete_task : string → DB → DB * bool;
  count_tasks : option string → DB → nat;
  select_details : string → DB → option Row;
  upsert_details : string → Row → DB → Exc DB;
  select_details_batch : list string → DB → list Row;
  delete_details : string → DB → DB;
  delete_spans_by_task : string → DB → DB;
  insert_span : Row → DB → Exc DB;
  update_task_summary : string → list (string * Z) → string → DB → DB;
  select_spans : string → DB → list Row;
  upsert_session : string → Row → DB → Exc DB;
  select_session : string → DB → option Row;
  select_sessions_ordered : nat → nat → string → DB → list Row }.

(** ** The contract of a back end

    The documented behaviour of the two databases on the columns of the
    schema: texts in columns of texts, integers of 64 bits in columns of
    integers, and NULL are kept as given; a column that an upsert does not
    name keeps its value, or gets its default in a new row. *)

Definition INTEGER_COLUMNS : list string :=
  ["id"; "duration_ms"; "needs_confirm"; "total_token_input"; "total_token_output"; "total_llm_calls"; "total_tool_calls";
   "total_duration_ms"].

Definition NOT_NULL_COLUMNS : list string :=
  ["task_id"; "task_state"; "stage"; "phase"; "operation"; "safety_status"; "needs_confirm"; "total_token_input";
   "total_token_output"; "total_llm_calls"; "total_tool_calls"; "total_duration_ms"].

Definition int64 (z : Z) : bool := (-2 ^ 63 <=? z)%Z && (z <? 2 ^ 63)%Z.

Definition is_none (v : pyval) : bool := match v with VNone => true | _ => false end.

Definition fits (c : string) (v : pyval) : bool :=
  match v with
  | VNone => negb (c ∈? NOT_NULL_COLUMNS)
  | VInt z => (c ∈? INTEGER_COLUMNS) && int64 z
  | VStr _ => negb (c ∈? INTEGER_COLUMNS)
  | _ => false
  end.

Definition column_default (c : string) : pyval :=
  match c with
  | "task_state" => VStr "injecting" | "stage" => VStr "injection" | "phase" => VStr "planning" | "operation" => VStr "inject"
  | "safety_status" => VStr "pending" | "plan_summary" => VStr ""
  | _ => if (c ∈? INTEGER_COLUMNS) then VInt 0 else VNone
  end.

(** The row of a key after an upsert of the columns [given]. *)
Definition overlay (columns : list string) (given : Row) (old : option Row) (row : Row) : Prop :=
  ∀ c, c ∈ columns → c ≠ "id" →
    match dict_get c given with
    | Some v => fits c v = true → dict_get c row = Some v
    | None => dict_get c row = match old with Some o => dict_get c o | None => Some (column_default c) end
    end.

(** Columns a statement accepts for the row of [t]. *)
Record acceptable_row (columns : list string) (t : string) (given : Row) : Prop := {
  row_wf : dict_wf given;
  row_key : dict_get "task_id" given = Some (VStr t);
  row_more : ∃ c, c ≠ "task_id" ∧ is_Some (dict_get c given);
  row_fits c v : dict_get c given = Some v → c ∈ columns ∧ c ≠ "id" ∧ fits c v = true }.

Class BackendLaws (DB : Type) `{StorageBackend DB} := {
  db_ok : DB → Prop;
  task_row db t row : db_ok db → select_task t db = Some row →
    dict_wf row ∧ ∀ c v, dict_get c row = Some v → c ∈ _TASK_COLUMNS ∧ (c ≠ "id" → fits c v = true);
  upsert_task_total db t given : db_ok db → acceptable_row _TASK_COLUMNS t given → is_Some (upsert_task t given db);
  upsert_task_ok db t given db' : db_ok db → acceptable_row _TASK_COLUMNS t given → upsert_task t given db = Some db' →
    db_ok db' ∧ (∀ u, select_details u db' = select_details u db) ∧ (∀ u, u ≠ t → select_task u db' = select_task u db) ∧
    ∃ row, select_task t db' = Some row ∧ overlay _TASK_COLUMNS given (select_task t db) row;
  upsert_details_total db t given : db_ok db → acceptable_row _DETAIL_COLUMNS t given → is_Some (upsert_details t given db);
  upsert_details_ok db t given db' : db_ok db → acceptable_row _DETAIL_COLUMNS t given → upsert_details t given db = Some db' →
    db_ok db' ∧ (∀ u, select_task u db' = select_task u db) ∧ (∀ u, u ≠ t → select_details u db' = select_details u db) ∧
    ∃ row, select_details t db' = Some row ∧ overlay _DETAIL_COLUMNS given (select_details t db) row;
  insert_span_task db span db' u : insert_span span db = Some db' → select_task u db' = select_task u db;
  update_summary_task db t totals now u : select_task u (update_task_summary t totals now db) = select_task u db }.

Section store.
Context {DB : Type} `{StorageBackend DB}.
(** [int((b - a).total_seconds() * 1000)]. *)
Context (elapsed_ms : pyval → pyval → option Z).

(** ** Writing *)

(** [for col in _JSON_COLUMNS]: texts that are JSON are decoded. *)
Definition decode_column (d : dict pyval) (col : string) : Exc (dict pyval) :=
  match py_get col d with
  | VStr t =>
      if truthy t then match json_loads t with JOk v => Some (dict_set col v d) | JDecodeError => Some d | JValueError => Raise end
      else Some d
  | _ => Some d
  end.

Fixpoint decode_columns (cols : list string) (d : dict pyval) : Exc (dict pyval) :=
  match cols with [] => Some d | c :: rest => d ← decode_column d c; decode_columns rest d end.

Definition _row_to_dict (row : dict pyval) : Exc (dict pyval) := decode_columns _JSON_COLUMNS row.

Definition waiting (values : dict pyval) (task_state : string) : bool :=
  (String.eqb task_state "injecting" && py_truthy (py_get "needs_confirmation" values) && negb (py_truthy (py_get "blade_uid" values))) ||
  (eqs (py_get "interaction_mode" values) "tui" && negb (py_truthy (py_get "confirmed_intent" values)) &&
   negb (py_truthy (py_get "blade_uid" values))).

(** The body of the [try]. *)
Definition inferred (merged : dict pyval) : Exc (dict pyval) :=
  values ← decode_columns _JSON_COLUMNS merged;
  let values := match dict_get "needs_confirm" values with Some v => dict_set "needs_confirmation" v values | None => values end in
  task_state ← infer_task_state values;
  phase ← infer_phase values;
  let stage := infer_stage values in
  let other := one_of (py_get "confirmed_intent" values) ["chat"; "recover"; "query"; "explore"] in
  let task_state := if other then "completed" else task_state in
  let stage := if other then Some (default "injection" stage) else stage in
  let phase := if other then Some (default "completed" phase) else phase in
  Some [("task_state", VStr (if waiting values task_state then "waiting_input" else task_state)); ("stage", opt_text stage);
        ("phase", opt_text phase)].

Definition _infer_fields (merged : dict pyval) : dict pyval := default [] (inferred merged).

(** [c in merged and c != "id"]. *)
Definition columns_of (cols : list string) (merged : dict pyval) : Row :=
  omap (λ c, if String.eqb c "id" then None else v ← dict_get c merged; Some (c, v)) cols.

Definition encode_field (merged : dict pyval) (kv : string * pyval) : dict pyval :=
  let v := if (kv.1 ∈? _JSON_COLUMNS) && negb (is_none kv.2) then VStr (json_dumps kv.2) else kv.2 in
  dict_set kv.1 v merged.

(** What the two rows are written from. *)
Definition merged_fields (task_id : string) (fields : dict pyval) (now : string) (row : option Row) : Exc (dict pyval) :=
  let merged := match row with Some r => r | None => [("task_id", VStr task_id)] end in
  merged ← _extract_index_fields (fold_left encode_field fields merged);
  let merged := dict_set "task_id" (VStr task_id) (dict_update merged (_infer_fields merged)) in
  Some (_set_timestamps now merged row).

Definition unrecorded (task_id : string) : bool := negb (truthy task_id) || startswith task_id "turn-".

(** A write leaves a database and returns ([true]) or raises ([false]); every
    statement is committed on its own, so what came before an exception
    stays. *)
Definition stmt (r : Exc DB) (db : DB) : DB * bool := match r with Some db' => (db', true) | None => (db, false) end.
Definition and_then (r : DB * bool) (k : DB → DB * bool) : DB * bool := if r.2 then k r.1 else r.

Definition upsert (task_id : string) (fields : dict pyval) (now : string) (db : DB) : DB * bool :=
  if unrecorded task_id then (db, true)
  else
    match merged_fields task_id fields now (select_task task_id db) with
    | None => (db, false)
    | Some merged =>
        and_then (stmt (upsert_task task_id (columns_of _TASK_COLUMNS merged) db) db)
          (λ db, stmt (upsert_details task_id (columns_of _DETAIL_COLUMNS merged) db) db)
    end.

(** ** Reading *)

Definition get_task (task_id : string) (db : DB) : Exc (option (dict pyval)) :=
  match select_task task_id db with
  | None => Some None
  | Some task_row => d ← _row_to_dict (dict_update (default [] (select_details task_id db)) task_row); Some (Some d)
  end.

Definition list_tasks (task_state : string) (limit offset : nat) (db : DB) : Exc (list (dict pyval)) :=
  mapM _row_to_dict (if truthy task_state then select_tasks_by_state task_state limit offset db else select_tasks_ordered limit offset db).

(** Only decode errors are caught. *)
Definition parsed_or (dflt v : pyval) : Exc pyval :=
  match v with VStr t => match json_loads t with JOk x => Some x | JDecodeError => Some dflt | JValueError => Raise end | v => Some v end.

Definition active_entry (db : DB) (r : Row) : Exc (dict pyval) :=
  d ← _row_to_dict r;
  tid ← dict_get "task_id" d;
  t ← as_str tid;
  let detail := default [] (select_details t db) in
  target ← parsed_or (VDict []) (py_or (py_get "target" detail) (VDict []));
  Some [("task_id", tid); ("operation", get_d "operation" (VStr "inject") d); ("skill", get_d "skill_name" (VStr "") d);
        ("target", target); ("params", py_or (py_get "params" detail) (VDict [])); ("blade_uid", get_d "blade_uid" (VStr "") d);
        ("status", VStr (if py_truthy (py_get "error" d) then "failed" else "success")); ("error", py_get "error" d)].

Definition query_active (namespace target_name : string) (db : DB) : Exc (list (dict pyval)) :=
  mapM (active_entry db) (select_active_tasks namespace target_name db).

Definition delete_all (task_id : string) (db : DB) : DB * bool :=
  delete_task task_id (delete_details task_id (delete_spans_by_task task_id db)).

Definition count (task_state : option string) (db : DB) : nat := count_tasks task_state db.

(** ** Spans *)

Record Span := mkSpan {
  sp_node : string;
  sp_start : pyval;
  sp_end : pyval;
  sp_duration : pyval;
  sp_token_input : Z;
  sp_token_output : Z;
  sp_tool_calls : list string;
  sp_error : pyval }.

(** [duration_ms] is [int(duration_ms)]. *)
Definition append_span (task_id : string) (s : Span) (duration_ms : Z) (now : string) (db : DB) : DB * bool :=
  and_then
    (stmt (insert_span
       [("task_id", VStr task_id); ("node_name", VStr (sp_node s)); ("start_time", sp_start s); ("end_time", sp_end s);
        ("duration_ms", sp_duration s); ("token_input", VInt (sp_token_input s)); ("token_output", VInt (sp_token_output s));
        ("tool_calls", VStr (json_dumps (VList (map VStr (sp_tool_calls s))))); ("error", sp_error s);
        ("gmt_create", VStr now); ("gmt_modified", VStr now)] db) db)
    (λ db, (update_task_summary task_id
       [("total_token_input", sp_token_input s); ("total_token_output", sp_token_output s); ("total_duration_ms", duration_ms);
        ("total_tool_calls", Z.of_nat (length (sp_tool_calls s)));
        ("total_llm_calls", if (0 <? sp_token_input s)%Z then 1%Z else 0%Z)] now db, true)).

Definition span_entry (d : Row) : Exc (dict pyval) :=
  match get_d "tool_calls" (VStr "[]") d with
  | VStr t => match json_loads t with JOk v => Some (dict_set "tool_calls" v d) | _ => Raise end
  | _ => Raise
  end.

Definition get_spans (task_id : string) (db : DB) : Exc (list (dict pyval)) := mapM span_entry (select_spans task_id db).

Definition SUMMARY_COLUMNS : list string :=
  ["total_token_input"; "total_token_output"; "total_llm_calls"; "total_tool_calls"; "total_duration_ms"].

Definition get_summary (task_id : string) (db : DB) : option (dict pyval) :=
  detail ← select_details task_id db; Some (omap (λ k, v ← dict_get k detail; Some (k, v)) SUMMARY_COLUMNS).

(** ** Metrics *)

Definition _compute_fault_type (task : dict pyval) : Exc pyval :=
  let params := or_empty (py_get "params" task) in
  let by_skill := get_d "skill_name" (VStr "") task in
  if py_truthy params then
    p ← as_dict params;
    let f k := get_d k (VStr "") p in
    Some (if py_truthy (f "scope") && py_truthy (f "target") && py_truthy (f "action")
          then VStr (py_str (f "scope") +:+ "-" +:+ py_str (f "target") +:+ "-" +:+ py_str (f "action")) else by_skill)
  else Some by_skill.

(** [infer_status] of values of columns. *)
Definition status_of (stage state operation : pyval) : pyval :=
  let text v := match v with VStr t => t | _ => "" end in
  match stage with VStr st => opt_text (infer_status (Some st) (text state) (text operation)) | _ => VNone end.

Definition metric_duration (task : dict pyval) : pyval :=
  let duration := get_d "duration_ms" (VInt 0) task in
  if py_truthy duration then duration
  else
    let created := get_d "gmt_create" (VStr "") task in
    let finished := get_d "finished_at" (VStr "") task in
    if py_truthy created && py_truthy finished
    then match elapsed_ms created finished with Some z => VInt z | None => duration end else duration.

Definition no_summary : dict pyval := map (λ k, (k, VInt 0)) SUMMARY_COLUMNS.

Definition get_metric (task_id : string) (db : DB) : Exc (option (dict pyval)) :=
  task ← get_task task_id db;
  match task with
  | None => Some None
  | Some task =>
      spans ← get_spans task_id db;
      let summary := match get_summary task_id db with Some ((_ :: _) as s) => s | _ => no_summary end in
      fault_type ← _compute_fault_type task;
      let text k := get_d k (VStr "") task in
      let task_state := get_d "task_state" (VStr "injecting") task in
      let stage := get_d "stage" (VStr "injection") task in
      Some (Some
        [("task_id", VStr task_id); ("task_state", task_state); ("operation", text "operation"); ("stage", stage);
         ("status", status_of stage task_state (text "operation")); ("phase", get_d "phase" (VStr "planning") task);
         ("fault_type", fault_type); ("skill_name", text "skill_name"); ("target", py_get "target" task);
         ("params", py_get "params" task); ("blade_uid", text "blade_uid");
         ("safety_status", get_d "safety_status" (VStr "pending") task); ("safety_reason", py_get "safety_reason" task);
         ("needs_confirm", VBool (py_truthy (get_d "needs_confirm" (VInt 0) task))); ("verification", py_get "verification" task);
         ("recover_verification", py_get "recover_verification" task); ("plan_summary", text "plan_summary");
         ("error", py_or (py_or (py_get "failure_reason" task) (py_get "error" task)) (VStr "")); ("gmt_create", text "gmt_create");
         ("gmt_modified", text "gmt_modified"); ("finished_at", text "finished_at"); ("duration_ms", metric_duration task);
         ("spans", VList (map VDict spans)); ("summary", VDict summary)])
  end.

Definition metric_target (detail : dict pyval) : Exc pyval :=
  match py_get "target" detail with
  | VStr t => if truthy t then parsed_or VNone (VStr t) else Some (VStr t)
  | v => Some v
  end.

Definition metric_entry (details : list Row) (task : dict pyval) : Exc (dict pyval) :=
  tid ← dict_get "task_id" task;
  let detail := default [] (List.find (λ r, match tid with VStr t => eqs (py_get "task_id" r) t | _ => false end) (rev details)) in
  let text k := get_d k (VStr "") task in
  let task_state := get_d "task_state" (VStr "injecting") task in
  let stage := get_d "stage" (VStr "injection") task in
  target ← metric_target detail;
  Some [("task_id", tid); ("task_state", task_state); ("operation", text "operation"); ("stage", stage);
        ("status", status_of stage task_state (text "operation")); ("phase", get_d "phase" (VStr "planning") task);
        ("skill_name", text "skill_name"); ("blade_uid", text "blade_uid"); ("target", target); ("gmt_create", text "gmt_create");
        ("gmt_modified", text "gmt_modified"); ("finished_at", text "finished_at");
        ("error", py_or (py_or (py_get "failure_reason" detail) (py_get "error" task)) (VStr ""));
        ("summary", VDict (map (λ k, (k, get_d k (VInt 0) detail)) SUMMARY_COLUMNS))].

Definition get_all_metrics (task_state : string) (limit : nat) (db : DB) : Exc (dict pyval) :=
  tasks ← list_tasks task_state limit 0 db;
  match tasks with
  | [] => Some [("total", VInt 0); ("tasks", VList [])]
  | _ =>
      ids ← mapM (λ t, tid ← dict_get "task_id" t; as_str tid) tasks;
      l ← mapM (metric_entry (select_details_batch ids db)) tasks;
      Some [("total", VInt (Z.of_nat (length l))); ("tasks", VList (map VDict l))]
  end.

(** ** Sessions *)

Definition record_session (session_id : string) (fields : dict pyval) (now : string) (db : DB) : DB * bool :=
  if negb (truthy session_id) then (db, true)
  else
    let existing := select_session session_id db in
    let merged := match existing with Some ((_ :: _) as e) => e | _ => [("session_id", VStr session_id)] end in
    let merged := dict_set "session_id" (VStr session_id) (dict_update merged fields) in
    stmt (upsert_session session_id (columns_of _SESSION_COLUMNS (_set_timestamps now merged existing)) db) db.

Definition list_sessions (status : string) (limit offset : nat) (db : DB) : list Row := select_sessions_ordered limit offset status db.

(** ** The writes of nodes and of the tracer *)

Definition _STATE_TO_DB_MAP : dict string :=
  [("needs_confirmation", "needs_confirm"); ("plan_summary", "plan_summary"); ("created_at", "gmt_create");
   ("skill_case_content", "skill_use_case")].

Definition project_spec (merged : dict pyval) : Exc (dict pyval) :=
  match FaultSpec.from_dict (py_get "fault_spec" merged) with
  | Some sp =>
      names ← join_vals "," (s_names sp);
      Some (setdefault "target_name" (VStr names) (setdefault "namespace" (VStr (s_namespace sp))
              (setdefault "params" (VDict (s_params sp)) (setdefault "target" (VDict (target_of (Some sp))) merged))))
  | None => Some merged
  end.

(** The task columns and the detail columns of the state. *)
Definition add_field (merged : dict pyval) (acc : dict pyval * dict pyval) (kv : string * pyval) : dict pyval * dict pyval :=
  if String.eqb kv.1 "fault_spec" then acc
  else
    let db_key := default kv.1 (dict_get kv.1 _STATE_TO_DB_MAP) in
    if String.eqb db_key "task_id" then acc
    else
      let v := if String.eqb kv.1 "skill_case_content" then get_d "skill_name" (VStr "") merged else kv.2 in
      if db_key ∈? _TASK_COLUMNS then (dict_set db_key v acc.1, acc.2)
      else if db_key ∈? _DETAIL_COLUMNS then (acc.1, dict_set db_key v acc.2) else acc.

Definition _extract_db_fields (state : dict pyval) : Exc (dict pyval * dict pyval) :=
  merged ← project_spec state;
  let '(task, detail) := fold_left (add_field merged) merged ([], []) in
  Some (task, match dict_get "needs_confirm" detail with
              | Some (VBool b) => dict_set "needs_confirm" (VInt (if b then 1 else 0)) detail
              | _ => detail
              end).

(** Exceptions are logged.  Task identifiers are texts. *)
Definition sync_to_store (state updated : dict pyval) (now : string) (db : DB) : DB :=
  match py_or (get_d "task_id" (VStr "") state) (get_d "task_id" (VStr "") updated) with
  | VStr task_id =>
      if unrecorded task_id then db
      else match _extract_db_fields (dict_update state updated) with
           | Some (task, detail) => (upsert task_id (dict_update task detail) now db).1
           | None => db
           end
  | _ => db
  end.

Definition _persist_span (task_id : string) (s : Span) (duration_ms : Z) (now : string) (db : DB) : DB :=
  if unrecorded task_id then db
  else (and_then (upsert task_id [] now db) (append_span task_id s duration_ms now)).1.

Definition _persist_summary (task_id : string) (totals : dict pyval) (now : string) (db : DB) : DB :=
  if unrecorded task_id then db else (upsert task_id totals now db).1.
End store.

(** * The SQLite back end (persistence/task_store_sqlite.py)

    The schema as data and the statements of the back end as operations on
    tables, with the engine's rules they rely on: defaults and NOT NULL of a
    new row, [ON CONFLICT ... DO UPDATE] on the unique key, type affinity of
    columns.  A conversion between types that a column's affinity makes (a
    text in a column of integers, a float in a column of texts) is a
    parameter.  Identifiers only order rows: the gaps the engine may leave
    are not modelled, nor is the order of rows with equal stamps. *)

(** ** Schema *)

Inductive Affinity := TEXT | INTEGER | REAL.

Record Column := mkColumn {
  c_name : string;
  c_affinity : Affinity;
  c_not_null : bool;
  c_default : pyval }.

Definition text (n : string) : Column := mkColumn n TEXT false VNone.
Definition text_default (n d : string) : Column := mkColumn n TEXT false (VStr d).
Definition text_required (n : string) : Column := mkColumn n TEXT true VNone.
Definition text_not_null (n d : string) : Column := mkColumn n TEXT true (VStr d).
Definition integer_not_null (n : string) : Column := mkColumn n INTEGER true (VInt 0).

(** The columns other than the primary key [id]. *)
Definition _TASKS_DDL : list Column :=
  [text_required "task_id"; text_not_null "task_state" "injecting"; text_not_null "stage" "injection";
   text_not_null "phase" "planning"; text_not_null "operation" "inject"; text "skill_name"; text "blade_uid"; text "namespace";
   text "target_name"; text "error"; text "finished_at"; mkColumn "duration_ms" INTEGER false (VInt 0); text "gmt_create";
   text "gmt_modified"].

Definition _DETAILS_DDL : list Column :=
  [text_required "task_id"; text "target"; text "params"; text "input"; text_not_null "safety_status" "pending";
   text "safety_reason"; integer_not_null "needs_confirm"; text_default "plan_summary" ""; text "kubeconfig"; text "kube_context";
   text "verification"; text "recover_verification"; text "result"; text "failure_reason"; text "postmortem";
   text "target_health_report"; text "feasibility_report"; integer_not_null "total_token_input";
   integer_not_null "total_token_output"; integer_not_null "total_llm_calls"; integer_not_null "total_tool_calls";
   integer_not_null "total_duration_ms"; text "gmt_create"; text "gmt_modified"].

Definition _SPANS_DDL : list Column :=
  [text_required "task_id"; text_required "node_name"; mkColumn "start_time" REAL true VNone; mkColumn "end_time" REAL true VNone;
   mkColumn "duration_ms" REAL true VNone; integer_not_null "token_input"; integer_not_null "token_output";
   text_default "tool_calls" "[]"; text "error"; text "gmt_create"; text "gmt_modified"].

Definition _SESSIONS_DDL : list Column :=
  [text_required "session_id"; text_not_null "status" "active"; text_default "cluster_name" ""; text_default "namespace" "";
   text "started_at"; text "finished_at"; text "gmt_create"; text "gmt_modified"].

(** [ALTER TABLE task_details ADD COLUMN c TEXT], a column that exists being an error that is ignored. *)
Definition add_column (cs : list Column) (n : string) : list Column :=
  if existsb (λ c, String.eqb (c_name c) n) cs then cs else cs ++ [text n].

Definition details_columns : list Column :=
  fold_left add_column
    ["failure_reason"; "baseline_data"; "inject_context"; "skill_use_case"; "postmortem"; "target_health_report";
     "feasibility_report"; "injection_method"; "kubectl_exec_pod_name"] _DETAILS_DDL.

(** ** Tables *)

Record Table := mkTable {
  next_id : Z;
  rows : list Row }.

Record Tables := mkTables {
  tasks : Table;
  task_details : Table;
  task_spans : Table;
  sessions : Table }.

(** [_ensure_schema_on_conn] on a new file. *)
Definition empty_tables : Tables := let t := mkTable 1 [] in mkTables t t t t.

Section sqlite.
Context (convert : Affinity → pyval → pyval).

(** What a column keeps of a bound value; other Python values cannot be bound. *)
Definition keep (a : Affinity) (v : pyval) : Exc pyval :=
  let int z :=
    if int64 z then Some (match a with INTEGER => VInt z | TEXT => VStr (str_of_Z z) | REAL => convert REAL (VInt z) end) else Raise in
  match v with
  | VNone => Some VNone
  | VBool b => int (if b then 1%Z else 0%Z)
  | VInt z => int z
  | VFloat _ => Some (match a with REAL => v | _ => convert a v end)
  | VStr _ => Some (match a with TEXT => v | _ => convert a v end)
  | _ => Raise
  end.

Definition find_column (cs : list Column) (n : string) : option Column := List.find (λ c, String.eqb (c_name c) n) cs.

(** An unknown column is an error of the statement. *)
Fixpoint bind_row (cs : list Column) (given : Row) : Exc Row :=
  match given with
  | [] => Some []
  | (n, v) :: rest => c ← find_column cs n; v ← keep (c_affinity c) v; rest ← bind_row cs rest; Some ((n, v) :: rest)
  end.

Definition cell (given : Row) (c : Column) : Exc (string * pyval) :=
  let v := default (c_default c) (dict_get (c_name c) given) in
  if c_not_null c && is_none v then Raise else Some (c_name c, v).

Fixpoint cells (given : Row) (cs : list Column) : Exc Row :=
  match cs with [] => Some [] | c :: rest => x ← cell given c; l ← cells given rest; Some (x :: l) end.

Definition has (k t : string) (r : Row) : bool := eqs (py_get k r) t.

Definition insert_into (cs : list Column) (given : Row) (tb : Table) : Exc Table :=
  bound ← bind_row cs given;
  new ← cells bound cs;
  Some (mkTable (next_id tb + 1) (rows tb ++ [("id", VInt (next_id tb)) :: new])).

(** [_build_upsert_sql]: [INSERT INTO table (columns) VALUES (...) ON
    CONFLICT(key) DO UPDATE SET c=EXCLUDED.c, ...] for the columns other than
    the key; with no other column the statement is malformed. *)
Definition upsert_into (cs : list Column) (key : string) (given : Row) (tb : Table) : Exc Table :=
  let others := List.filter (λ kv, negb (String.eqb kv.1 key)) in
  match others given with
  | [] => Raise
  | _ =>
      bound ← bind_row cs given;
      new ← cells bound cs;
      k ← as_str (py_get key bound);
      if existsb (has key k) (rows tb)
      then Some (mkTable (next_id tb) (map (λ r, if has key k r then dict_update r (others bound) else r) (rows tb)))
      else Some (mkTable (next_id tb + 1) (rows tb ++ [("id", VInt (next_id tb)) :: new]))
  end.

Definition select_one (key t : string) (tb : Table) : option Row := List.find (has key t) (rows tb).
Definition delete_from (t : string) (tb : Table) : Table := mkTable (next_id tb) (List.filter (λ r, negb (has "task_id" t r)) (rows tb)).

(** [ORDER BY gmt_create DESC]: texts by their bytes, NULL last. *)
Definition newerb (r1 r2 : Row) : bool :=
  match py_get "gmt_create" r1, py_get "gmt_create" r2 with
  | VStr a, VStr b => String.leb b a
  | VStr _, _ => true
  | _, VStr _ => false
  | _, _ => true
  end.
Definition newer (r1 r2 : Row) : Prop := newerb r1 r2 = true.
#[global] Instance newer_dec : RelDecision newer := λ r1 r2, bool_eq_dec (newerb r1 r2) true.

Definition page (limit offset : nat) (l : list Row) : list Row := take limit (drop offset (merge_sort newer l)).

Definition active (namespace target_name : string) (r : Row) : bool :=
  one_of (py_get "task_state" r) ["injecting"; "injected"] && (negb (truthy namespace) || has "namespace" namespace r) &&
  (negb (truthy target_name) || has "target_name" target_name r).

Definition with_tasks (db : Tables) (t : Table) : Tables := mkTables t (task_details db) (task_spans db) (sessions db).
Definition with_details (db : Tables) (t : Table) : Tables := mkTables (tasks db) t (task_spans db) (sessions db).
Definition with_spans (db : Tables) (t : Table) : Tables := mkTables (tasks db) (task_details db) t (sessions db).
Definition with_sessions (db : Tables) (t : Table) : Tables := mkTables (tasks db) (task_details db) (task_spans db) t.

(** [SET column = column + ?]; NULL stays NULL. *)
Definition add_total (r : Row) (kz : string * Z) : Row :=
  match py_get kz.1 r with VInt z => dict_set kz.1 (VInt (z + kz.2)) r | _ => r end.

Definition add_totals (totals : list (string * Z)) (now : string) (r : Row) : Row :=
  dict_set "gmt_modified" (VStr now) (fold_left add_total totals r).

#[export] Instance SQLiteBackend : StorageBackend Tables := {
  select_task t db := select_one "task_id" t (tasks db);
  upsert_task _ cols db := tb ← upsert_into _TASKS_DDL "task_id" cols (tasks db); Some (with_tasks db tb);
  select_tasks_ordered limit offset db := page limit offset (rows (tasks db));
  select_tasks_by_state st limit offset db := page limit offset (List.filter (has "task_state" st) (rows (tasks db)));
  select_active_tasks ns tn db := merge_sort newer (List.filter (active ns tn) (rows (tasks db)));
  delete_task t db := (with_tasks db (delete_from t (tasks db)), existsb (has "task_id" t) (rows (tasks db)));
  count_tasks st db := length (match st with
                               | Some t => if truthy t then List.filter (has "task_state" t) (rows (tasks db)) else rows (tasks db)
                               | None => rows (tasks db)
                               end);
  select_details t db := select_one "task_id" t (task_details db);
  upsert_details _ cols db := tb ← upsert_into details_columns "task_id" cols (task_details db); Some (with_details db tb);
  select_details_batch ids db := List.filter (λ r, existsb (λ t, has "task_id" t r) ids) (rows (task_details db));
  delete_details t db := with_details db (delete_from t (task_details db));
  delete_spans_by_task t db := with_spans db (delete_from t (task_spans db));
  insert_span cols db := tb ← insert_into _SPANS_DDL cols (task_spans db); Some (with_spans db tb);
  update_task_summary t totals now db :=
    with_details db (mkTable (next_id (task_details db))
      (map (λ r, if has "task_id" t r then add_totals totals now r else r) (rows (task_details db))));
  select_spans t db := List.filter (has "task_id" t) (rows (task_spans db));
  upsert_session _ cols db := tb ← upsert_into _SESSIONS_DDL "session_id" cols (sessions db); Some (with_sessions db tb);
  select_session t db := select_one "session_id" t (sessions db);
  select_sessions_ordered limit offset status db :=
    page limit offset (if truthy status then List.filter (has "status" status) (rows (sessions db)) else rows (sessions db)) }.
End sqlite.
