(* ===== verification/TaskProps.v ===== *)
(** * What the task store promises

    The SQLite back end keeps the contract of the protocol; the store on top
    of any back end that keeps it; the agreement of the phase of a task with
    its state. *)

From stdpp Require Import base list strings sets.
From Stdlib Require Import ZArith.
From S2P Require Import Prelude PyText PyValue PyFloat PyOps Json FaultSpec Failure JsonDump TaskState TaskStore.

(** * The SQLite back end keeps the contract of the protocol *)

(** ** A schema that matches the names of the protocol *)

Definition column_matches (col : Column) : bool :=
  let c := c_name col in
  match c_affinity col with INTEGER => c ∈? INTEGER_COLUMNS | TEXT => negb (c ∈? INTEGER_COLUMNS) | REAL => false end &&
  Bool.eqb (c_not_null col) (c ∈? NOT_NULL_COLUMNS) &&
  match c_default col, column_default c with
  | VNone, VNone => true
  | VInt a, VInt b => (a =? b)%Z
  | VStr a, VStr b => String.eqb a b
  | _, _ => false
  end &&
  (String.eqb c "task_id" || fits c (c_default col)) && negb (String.eqb c "id").

Definition schema_matches (cs : list Column) (columns : list string) : bool :=
  forallb column_matches cs && forallb (λ c, String.eqb c "id" || existsb (λ col, String.eqb (c_name col) c) cs) columns &&
  forallb (λ col, c_name col ∈? columns) cs && bool_decide (NoDup (map c_name cs)) && ("id" ∈? columns) && ("task_id" ∈? columns).

Lemma tasks_schema : schema_matches _TASKS_DDL _TASK_COLUMNS = true.
Proof. vm_compute. reflexivity. Qed.

Lemma details_schema : schema_matches details_columns _DETAIL_COLUMNS = true.
Proof. vm_compute. reflexivity. Qed.

Section table.
Context (convert : Affinity → pyval → pyval) (cs : list Column) (columns : list string).
Context (Hs : schema_matches cs columns = true).

Lemma schema_split :
  (∀ col, col ∈ cs → column_matches col = true ∧ c_name col ∈ columns) ∧
  (∀ c, c ∈ columns → c ≠ "id" → ∃ col, col ∈ cs ∧ c_name col = c) ∧ NoDup (map c_name cs) ∧ "id" ∈ columns.
Proof.
  unfold schema_matches in Hs. rewrite !andb_true_iff, !forallb_forall, bool_decide_eq_true, !str_in_spec in Hs.
  destruct Hs as [[[[[Hm Hc] Hn] Hd] Hi] _]. split_and!; [| |done..].
  - intros col Hin. rewrite <- str_in_spec. apply list_elem_of_In in Hin. auto.
  - intros c Hin Hid. apply list_elem_of_In in Hin. specialize (Hc _ Hin).
    rewrite orb_true_iff, String.eqb_eq, existsb_exists in Hc. destruct Hc as [?|(col & Hcol & Heq)]; [done|].
    exists col. by rewrite list_elem_of_In, <- String.eqb_eq.
Qed.

Lemma find_column_name col : col ∈ cs → find_column cs (c_name col) = Some col.
Proof.
  destruct schema_split as (_ & _ & Hd & _). clear Hs. unfold find_column. induction cs as [|a l IH]; [by intros ?%elem_of_nil|].
  cbn in Hd |- *. apply NoDup_cons in Hd as [Hn Hd]. intros [->|Hin]%elem_of_cons; [by rewrite String.eqb_refl|].
  destruct (String.eqb_spec (c_name a) (c_name col)) as [He|_]; [|auto].
  destruct Hn. rewrite He. apply list_elem_of_fmap. eauto.
Qed.

(** The facts of one column. *)
Lemma column_facts c : c ∈ columns → c ≠ "id" →
  ∃ col, find_column cs c = Some col ∧ c_name col = c ∧ c_default col = column_default c ∧
    (∀ v, fits c v = true → keep convert (c_affinity col) v = Some v).
Proof.
  intros Hin Hid. destruct schema_split as (Hm & Hc & _). destruct (Hc _ Hin Hid) as (col & Hcol & <-).
  exists col. split_and!; [by apply find_column_name|done|..]; destruct (Hm _ Hcol) as [H _];
    unfold column_matches in H; rewrite !andb_true_iff in H; destruct H as [[[[Ha _] Hdef] _] _].
  - destruct (c_default col), (column_default (c_name col)); try done.
    + apply Z.eqb_eq in Hdef. by subst.
    + apply String.eqb_eq in Hdef. by subst.
  - intros v Hv. unfold fits in Hv. destruct v; try done; cbn.
    + apply andb_true_iff in Hv as [H1 ->]. rewrite H1 in Ha. by destruct (c_affinity col).
    + apply negb_true_iff in Hv. rewrite Hv in Ha. by destruct (c_affinity col).
Qed.

Lemma bind_row_accepted given : (∀ c v, (c, v) ∈ given → c ∈ columns ∧ c ≠ "id" ∧ fits c v = true) →
  bind_row convert cs given = Some given.
Proof.
  induction given as [|[c v] l IH]; intros H; [done|]. cbn.
  destruct (H c v) as (Hin & Hid & Hf); [left|]. destruct (column_facts c Hin Hid) as (col & -> & _ & _ & Hk). cbn.
  rewrite (Hk v Hf). cbn. rewrite IH; [done|]. intros c' v' H'. apply H. by right.
Qed.

Definition value_of (given : Row) (col : Column) : pyval := default (c_default col) (dict_get (c_name col) given).

Lemma cells_accepted t given : acceptable_row columns t given →
  cells given cs = Some (map (λ col, (c_name col, value_of given col)) cs).
Proof.
  intros Ha. destruct schema_split as (Hm & _).
  assert (∀ l, (∀ col, col ∈ l → column_matches col = true) → cells given l = Some (map (λ col, (c_name col, value_of given col)) l)) as H.
  { induction l as [|col l IH]; intros Hl; [done|]. cbn. rewrite IH by (intros ??; apply Hl; by right). clear IH.
    assert (cell given col = Some (c_name col, value_of given col)) as ->; [|done].
    unfold cell. fold (value_of given col). specialize (Hl col ltac:(left)). unfold column_matches in Hl.
    rewrite !andb_true_iff, !orb_true_iff, eqb_true_iff in Hl. destruct Hl as [[[[_ Hnn] _] Hd] _].
    destruct (c_not_null col) eqn:E; [|done]. symmetry in Hnn. unfold value_of. destruct (dict_get (c_name col) given) as [v|] eqn:Ev; cbn.
    - destruct (row_fits _ _ _ Ha _ _ Ev) as (_ & _ & Hf). destruct v; try done. unfold fits in Hf. by rewrite Hnn in Hf.
    - destruct Hd as [Hd|Hd]; [apply String.eqb_eq in Hd; by rewrite Hd, (row_key _ _ _ Ha) in Ev|].
      destruct (c_default col); try done. unfold fits in Hd. by rewrite Hnn in Hd. }
  apply H. intros col Hin. by apply Hm.
Qed.

Lemma cells_get (f : Column → pyval) c col : find_column cs c = Some col → c_name col = c →
  dict_get c (map (λ col, (c_name col, f col)) cs) = Some (f col).
Proof.
  unfold find_column. clear Hs. induction cs as [|a l IH]; [done|]. cbn. intros Hf Hn.
  rewrite String.eqb_sym. destruct (String.eqb_spec (c_name a) c); [by simplify_eq|auto].
Qed.

(** ** Rows of a table *)

Definition row_ok (r : Row) : Prop :=
  dict_wf r ∧ ∀ c v, dict_get c r = Some v → c ∈ columns ∧ (c ≠ "id" → fits c v = true).
Definition table_ok (tb : Table) : Prop := ∀ r, r ∈ rows tb → row_ok r.

Definition not_key (kv : string * pyval) : bool := negb (String.eqb kv.1 "task_id").

Lemma filter_wf (d : Row) : dict_wf d → dict_wf (List.filter not_key d).
Proof.
  unfold dict_wf, dict_keys. induction d as [|[k v] d IH]; [done|]. cbn. intros [Hn Hd]%NoDup_cons.
  destruct (not_key (k, v)); [|auto]. cbn. apply NoDup_cons. split; [|auto].
  intros Hin. apply Hn. apply list_elem_of_fmap in Hin as ([k' v'] & -> & Hin).
  apply list_elem_of_In, filter_In in Hin as [Hin%list_elem_of_In _]. apply list_elem_of_fmap. by exists (k', v').
Qed.

Lemma get_others c (d : Row) : dict_get c (List.filter not_key d) = if String.eqb c "task_id" then None else dict_get c d.
Proof.
  induction d as [|[k v] d IH]; cbn; [by destruct (String.eqb c "task_id")|]. unfold not_key at 1. cbn.
  destruct (String.eqb_spec k "task_id") as [->|Hk]; cbn; rewrite IH.
  - destruct (String.eqb_spec c "task_id") as [->|]; [done|]. done.
  - destruct (String.eqb_spec c "task_id") as [->|]; [|done]. by destruct (String.eqb_spec "task_id" k); [subst|].
Qed.

Definition merge_row (given r : Row) : Row := dict_update r (List.filter not_key given).

Lemma merge_row_get t given r c : acceptable_row columns t given → has "task_id" t r = true →
  dict_get c (merge_row given r) = match dict_get c given with Some v => Some v | None => dict_get c r end.
Proof.
  intros Ha Hh. unfold merge_row. rewrite dict_get_update by apply filter_wf, (row_wf _ _ _ Ha). rewrite get_others.
  destruct (String.eqb_spec c "task_id") as [->|]; [|done]. rewrite (row_key _ _ _ Ha).
  unfold has, py_get in Hh. apply eqs_true in Hh. by destruct (dict_get "task_id" r); cbn in Hh; simplify_eq.
Qed.

Lemma merge_row_ok t given r : acceptable_row columns t given → has "task_id" t r = true → row_ok r → row_ok (merge_row given r).
Proof.
  intros Ha Hh [Hw Hr]. split; [by apply dict_update_wf|]. intros c v. rewrite (merge_row_get t) by done.
  destruct (dict_get c given) eqn:E; [|apply Hr]. intros [= ->]. destruct (row_fits _ _ _ Ha _ _ E) as (? & ? & ?). done.
Qed.

Definition new_row (given : Row) (id : Z) : Row := ("id", VInt id) :: map (λ col, (c_name col, value_of given col)) cs.

Lemma new_row_get given id c : c ∈ columns → c ≠ "id" →
  dict_get c (new_row given id) = Some (default (column_default c) (dict_get c given)).
Proof.
  intros Hin Hid. destruct (column_facts c Hin Hid) as (col & Hf & Hn & Hd & _). unfold new_row. cbn.
  destruct (String.eqb_spec c "id"); [done|]. rewrite (cells_get _ _ _ Hf Hn). unfold value_of. by rewrite Hn, Hd.
Qed.

Lemma new_row_wf given id : dict_wf (new_row given id).
Proof.
  destruct schema_split as (Hm & _ & Hd & _). unfold dict_wf, new_row, dict_keys. cbn. rewrite map_map. cbn.
  apply NoDup_cons. split; [|done]. intros Hin. apply list_elem_of_fmap in Hin as (col & He & Hin).
  destruct (Hm _ Hin) as [H _]. unfold column_matches in H. by rewrite <- He, andb_false_r in H.
Qed.

Lemma new_row_ok t given id : acceptable_row columns t given → row_ok (new_row given id).
Proof.
  intros Ha. destruct schema_split as (Hm & _ & _ & Hid). split; [apply new_row_wf|]. intros c v Hg.
  destruct (decide (c = "id")) as [->|Hn]; [done|]. unfold new_row in Hg. cbn in Hg.
  destruct (String.eqb_spec c "id"); [done|]. apply dict_get_In, list_elem_of_fmap in Hg as (col & [= -> ->] & Hin).
  destruct (Hm _ Hin) as [H Hc]. split; [done|]. intros _. unfold value_of.
  destruct (dict_get (c_name col) given) as [v|] eqn:E; cbn; [by destruct (row_fits _ _ _ Ha _ _ E) as (_ & _ & ?)|].
  unfold column_matches in H. rewrite !andb_true_iff, orb_true_iff, String.eqb_eq in H. destruct H as [[_ [H|H]] _]; [|done].
  by rewrite H, (row_key _ _ _ Ha) in E.
Qed.

(** ** The statement *)

Definition upserted (t : string) (given : Row) (tb : Table) : Table :=
  if existsb (has "task_id" t) (rows tb)
  then mkTable (next_id tb) (map (λ r, if has "task_id" t r then merge_row given r else r) (rows tb))
  else mkTable (next_id tb + 1) (rows tb ++ [new_row given (next_id tb)]).

Lemma upsert_into_accepted t given tb : acceptable_row columns t given →
  upsert_into convert cs "task_id" given tb = Some (upserted t given tb).
Proof.
  intros Ha. unfold upsert_into. fold not_key.
  destruct (row_more _ _ _ Ha) as (c & Hc & Hs').
  assert (dict_get c (List.filter not_key given) ≠ None) as Hne.
  { rewrite get_others. destruct (String.eqb_spec c "task_id"); [done|]. intros E. rewrite E in Hs'. by destruct Hs'. }
  change (List.filter (λ kv, negb (String.eqb kv.1 "task_id")) given) with (List.filter not_key given).
  destruct (List.filter not_key given) eqn:E; [done|].
  rewrite bind_row_accepted by (intros ?? H; apply (row_fits _ _ _ Ha), dict_wf_get; [apply (row_wf _ _ _ Ha)|done]). cbn [mbind option_bind].
  rewrite (cells_accepted _ _ Ha). cbn [mbind option_bind]. unfold py_get at 1. rewrite (row_key _ _ _ Ha). cbn [default as_str mbind option_bind].
  unfold upserted, merge_row. by destruct (existsb _ _).
Qed.

Lemma find_map (f : Row → Row) (p : Row → bool) l : (∀ r, p (f r) = p r) → List.find p (map f l) = option_map f (List.find p l).
Proof. intros H. induction l as [|r l IH]; [done|]. cbn. rewrite H. by destruct (p r). Qed.

Lemma find_snoc (p : Row → bool) l x : List.find p (l ++ [x]) = match List.find p l with Some r => Some r | None => if p x then Some x else None end.
Proof. induction l as [|r l IH]; [done|]. cbn. by destruct (p r). Qed.

Lemma find_absent (p : Row → bool) l : existsb p l = false → List.find p l = None.
Proof. induction l as [|r l IH]; [done|]. cbn. by destruct (p r). Qed.

Lemma has_merge t u given r : acceptable_row columns t given → has "task_id" t r = true → has "task_id" u (merge_row given r) = has "task_id" u r.
Proof.
  intros Ha Hh. unfold has at 1, py_get. rewrite (merge_row_get t) by done. rewrite (row_key _ _ _ Ha). cbn.
  unfold has in Hh |- *. apply eqs_true in Hh. by rewrite Hh.
Qed.

Lemma has_new t u given id : acceptable_row columns t given → has "task_id" u (new_row given id) = String.eqb t u.
Proof.
  intros Ha. destruct (row_fits _ _ _ Ha _ _ (row_key _ _ _ Ha)) as (Hin & _). unfold has, py_get.
  rewrite new_row_get by done. by rewrite (row_key _ _ _ Ha).
Qed.

Lemma upserted_ok t given tb : acceptable_row columns t given → table_ok tb → table_ok (upserted t given tb).
Proof.
  intros Ha Ht r. unfold upserted. destruct (existsb _ _); cbn.
  - intros (r' & -> & Hin)%list_elem_of_fmap. destruct (has "task_id" t r') eqn:E; [|auto]. eapply merge_row_ok; eauto.
  - intros [Hin | ->%list_elem_of_singleton]%elem_of_app; [auto|]. by eapply new_row_ok.
Qed.

Lemma upserted_other t u given tb : acceptable_row columns t given → u ≠ t →
  select_one "task_id" u (upserted t given tb) = select_one "task_id" u tb.
Proof.
  intros Ha Hu. unfold select_one, upserted. destruct (existsb _ _); cbn.
  - induction (rows tb) as [|r l IH]; [done|]. cbn. destruct (has "task_id" t r) eqn:E; [|by rewrite IH].
    rewrite (has_merge t) by done. rewrite IH. unfold has in *. apply eqs_true in E. rewrite E. cbn.
    by destruct (String.eqb_spec t u).
  - rewrite find_snoc, (has_new t) by done. destruct (String.eqb_spec t u); [done|]. by destruct (List.find _ _).
Qed.

Lemma upserted_row t given tb : acceptable_row columns t given →
  ∃ row, select_one "task_id" t (upserted t given tb) = Some row ∧ overlay columns given (select_one "task_id" t tb) row.
Proof.
  intros Ha. unfold select_one, upserted. destruct (existsb _ _) eqn:E; cbn.
  - rewrite find_map by (intros r; destruct (has "task_id" t r) eqn:E'; [by rewrite (has_merge t)|done]).
    destruct (List.find _ _) as [r|] eqn:Er.
    2:{ apply existsb_exists in E as (r & Hin & Hr). by rewrite (find_none _ _ Er _ Hin) in Hr. }
    cbn. apply find_some in Er as [_ Hr]. rewrite Hr. eexists. split; [done|]. intros c Hc Hid. rewrite (merge_row_get t) by done.
    by destruct (dict_get c given).
  - rewrite find_snoc, (find_absent _ _ E), (has_new t), String.eqb_refl by done. eexists. split; [done|].
    intros c Hc Hid. rewrite new_row_get by done. by destruct (dict_get c given).
Qed.
End table.

(** ** The contract *)

Definition tables_ok (db : Tables) : Prop := table_ok _TASK_COLUMNS (tasks db) ∧ table_ok _DETAIL_COLUMNS (task_details db).

#[export] Instance SQLiteLaws convert : @BackendLaws Tables (SQLiteBackend convert).
Proof.
  refine {| db_ok := tables_ok |}.
  - intros db t row [Ht _] Hf. cbn in Hf. apply find_some in Hf as [Hin%list_elem_of_In _]. by apply Ht.
  - intros db t given _ Ha. cbn. rewrite (upsert_into_accepted convert _ _ tasks_schema t given) by done. by eexists.
  - intros db t given db' [Ht Hd] Ha. cbn. rewrite (upsert_into_accepted convert _ _ tasks_schema t given) by done. intros [= <-]. cbn.
    split_and!; [split; [by eapply (upserted_ok _ _ tasks_schema)|done] | done
      | by intros; eapply (upserted_other convert _ _ tasks_schema) | by eapply (upserted_row convert _ _ tasks_schema)].
  - intros db t given _ Ha. cbn. rewrite (upsert_into_accepted convert _ _ details_schema t given) by done. by eexists.
  - intros db t given db' [Ht Hd] Ha. cbn. rewrite (upsert_into_accepted convert _ _ details_schema t given) by done. intros [= <-]. cbn.
    split_and!; [split; [done|by eapply (upserted_ok _ _ details_schema)] | done
      | by intros; eapply (upserted_other convert _ _ details_schema) | by eapply (upserted_row convert _ _ details_schema)].
  - intros db span db' u. cbn. destruct (insert_into _ _ _ _); [|done]. by intros [= <-].
  - done.
Defined.

(** * What the task store promises

    Writing fields and reading them back, against the contract of the back
    end; the agreement of the phase of a task with its state; what the write
    of a span does to the state of its task. *)

(** Case analysis on the conditions of a body. *)
Ltac branches := repeat (match goal with |- context [if ?b then _ else _] => destruct b end; cbn [mbind option_bind]).

(** ** State and phase *)

Lemma eqs_ne v a b : eqs v a = true → a ≠ b → eqs v b = false.
Proof. rewrite eqs_true. intros ->. cbn. by destruct (String.eqb_spec a b). Qed.

Definition both_skipped (l : Layers) : Prop := l1_status l = VStr "skipped" ∧ l2_status l = VStr "skipped".

(** A container that restarted is a side effect. *)
Lemma restarts_are_effects effects v : vget "container_restarts" effects = Some v → py_truthy v = true → any_effect effects = Some true.
Proof.
  unfold vget, vget_d, any_effect. destruct (as_dict effects) as [d|]; [|done]. cbn. intros [= <-]. unfold get_d.
  destruct (dict_get "container_restarts" d) as [w|] eqn:E; [|done]. cbn. intros Hw. f_equal. apply existsb_exists.
  exists ("container_restarts", w). split; [|done]. by apply list_elem_of_In, dict_get_In.
Qed.

Lemma verdict_agrees l : verified_phase l = Some "verification_passed" →
  verified_state l = Some "injected" ∨ both_skipped l ∧ verified_state l = Some "failed".
Proof.
  unfold verified_phase, verified_state, both_skipped.
  destruct (eqs (l1_status l) "passed") eqn:P1.
  - rewrite (eqs_ne _ _ "skipped" P1) by done. cbn [andb].
    destruct (one_of (l2_status l) ["passed"; "skipped"]); [by left|]. destruct (eqs (l2_status l) "unknown"); [destruct (negb _); by auto|].
    destruct (eqs (l2_status l) "partial"); [destruct (acceptable l); by auto|].
    destruct (eqs (l2_status l) "recovered_before_observation"); [|done]. destruct (py_truthy (v_side_effects l)); [|done].
    destruct (vget _ _) as [v|] eqn:Ev; [|done]. cbn. destruct (py_truthy v) eqn:Et; [|done].
    intros _. left. by rewrite (restarts_are_effects _ _ Ev Et).
  - cbn [andb]. destruct (eqs (l1_status l) "skipped") eqn:S1; cbn [andb]; [|done].
    destruct (eqs (l2_status l) "passed") eqn:P2; [by left|].
    destruct (one_of (l2_status l) ["passed"; "skipped"]) eqn:E.
    + intros _. right. apply eqs_true in S1. destruct (l2_status l) as [| | | |x| | |]; try done. cbn in P2, E |- *.
      unfold str_in in E. cbn in E. rewrite P2 in E. rewrite orb_false_r, orb_false_l in E.
      apply String.eqb_eq in E as ->. done.
    + destruct (eqs (l2_status l) "partial"); [destruct (acceptable l); by auto|done].
Qed.

(** The keys that an injection whose verification passed has. *)
Lemma passed_values values : infer_phase values = Some (Some "verification_passed") →
  non_injection values = false ∧ py_truthy (py_get "error" values) = false ∧
  eqs (get_d "safety_status" (VStr "pending") values) "rejected" = false ∧ py_truthy (py_get "blade_uid" values) = true ∧
  eqs (get_d "operation" (VStr "") values) "recover" = false ∧ py_truthy (py_get "verification" values) = true ∧
  ∃ l, read_layers (py_get "verification" values) = Some l ∧ verified_phase l = Some "verification_passed".
Proof.
  unfold infer_phase. destruct (non_injection values); [done|]. destruct (py_truthy (py_get "error" values)); [done|].
  destruct (eqs (get_d "safety_status" _ values) "rejected"); [done|]. destruct (_ && _); [done|].
  destruct (if py_truthy (py_get "replan_context" values) then _ else _) as [r|]; [|done]. cbn [mbind option_bind].
  destruct (r && _); [done|]. destruct (eqs (get_d "operation" _ values) "recover").
  { unfold recovery_phase. by branches. }
  destruct (injection_phase values) as [p|] eqn:Ep; [|done]. cbn. intros [= ->]. revert Ep. unfold injection_phase.
  destruct (py_truthy (py_get "skill_name" values)), (py_truthy (py_get "blade_uid" values)); cbn [negb andb]; try done;
    (destruct (py_truthy (get_d "needs_confirmation" _ values)); [done|]); rewrite ?andb_false_r, ?andb_true_r; cbn iota.
  - destruct (py_truthy (py_get "verification" values)); [|done]. cbn [negb].
    destruct (read_layers _) as [l|]; [|done]. cbn. eauto 10.
  - by destruct (one_of _ _).
Qed.

(** An injection whose phase says that its verification passed is recorded as
    injected, unless both layers of the verification were skipped. *)
Theorem passed_is_injected values : is_Some (replanned values) → infer_phase values = Some (Some "verification_passed") →
  infer_task_state values = Some "injected" ∨
  ∃ l, read_layers (py_get "verification" values) = Some l ∧ both_skipped l ∧ infer_task_state values = Some "failed".
Proof.
  intros [r Hr] Hp. apply passed_values in Hp as (Hn & He & Hs & Hb & Ho & Hv & l & Hl & Hp).
  assert (infer_task_state values = verified_state l) as ->.
  { unfold infer_task_state, lifecycle_state. rewrite Hn, Hs, He, Hr. cbn [mbind option_bind]. rewrite Hb, Ho, Hv, Hl. cbn.
    by rewrite andb_false_r. }
  destruct (verdict_agrees l Hp) as [?|[? ?]]; eauto.
Qed.

(** ** Fields *)

Definition ALL_COLUMNS : list string := _TASK_COLUMNS ++ _DETAIL_COLUMNS.

(** Columns the caller decides: the others are inferred or stamped. *)
Definition user_column (c : string) : bool :=
  (c ∈? ALL_COLUMNS) && negb (c ∈? ["id"; "task_id"; "task_state"; "stage"; "phase"; "gmt_create"; "gmt_modified"]).

Definition typed_target (target : pyval) : Prop :=
  match target with
  | VDict t => (∃ ns, get_d "namespace" (VStr "") t = VStr ns) ∧ ∃ l, get_d "names" (VList []) t = VList (map VStr l)
  | _ => True
  end.

(** Fields of the types of their columns; keys that are no column are free. *)
Record typed_fields (fields : dict pyval) : Prop := {
  fields_wf : dict_wf fields;
  fields_json c v : dict_get c fields = Some v → c ∈ _JSON_COLUMNS → v = VNone ∨ jsonable v;
  fields_fit c v : dict_get c fields = Some v → c ∈ ALL_COLUMNS → c ∉ _JSON_COLUMNS → c ≠ "id" → fits c v = true;
  fields_target : typed_target (py_get "target" fields) }.

(** Dicts that can be written. *)
Record fit_dict (m : dict pyval) : Prop := {
  fit_wf : dict_wf m;
  fit_get c v : dict_get c m = Some v → c ∈ ALL_COLUMNS → c ≠ "id" → fits c v = true }.

Lemma fit_set c v m : fit_dict m → (c ∈ ALL_COLUMNS → c ≠ "id" → fits c v = true) → fit_dict (dict_set c v m).
Proof.
  intros [Hw Hg] Hv. split; [by apply dict_set_wf|]. intros c' v'. rewrite dict_get_set.
  destruct (String.eqb_spec c' c) as [->|]; [intros [= <-]; auto|apply Hg].
Qed.

Lemma fit_text c t m : c ∉ INTEGER_COLUMNS → fit_dict m → fit_dict (dict_set c (VStr t) m).
Proof. intros Hc Hm. apply fit_set; [done|]. intros _ _. cbn. apply negb_true_iff. by apply str_in_false. Qed.

Lemma fit_setdefault c v m : fit_dict m → (c ∈ ALL_COLUMNS → c ≠ "id" → fits c v = true) → fit_dict (setdefault c v m).
Proof. intros Hm Hv. unfold setdefault. destruct (dict_mem c m); [done|]. by apply fit_set. Qed.

Lemma setdefault_get c v m c' w : dict_get c' m = Some w → dict_get c' (setdefault c v m) = Some w.
Proof.
  intros Hg. unfold setdefault, dict_mem. destruct (dict_get c m) eqn:E; [done|]. rewrite dict_get_set.
  destruct (String.eqb_spec c' c) as [->|]; [congruence|done].
Qed.

Lemma setdefault_ne c v m c' : c' ≠ c → dict_get c' (setdefault c v m) = dict_get c' m.
Proof. intros Hn. unfold setdefault. destruct (dict_mem c m); [done|]. by apply dict_get_set_ne. Qed.

(** ** Encoding *)

Definition encoded (c : string) (v : pyval) : pyval := if (c ∈? _JSON_COLUMNS) && negb (is_none v) then VStr (json_dumps v) else v.

Lemma encode_fold_get fields m c : dict_wf fields →
  dict_get c (fold_left encode_field fields m) = match dict_get c fields with Some v => Some (encoded c v) | None => dict_get c m end.
Proof.
  unfold dict_wf. revert m. induction fields as [|[k v] l IH]; intros m Hw; [done|]. apply NoDup_cons in Hw as [Hn Hw].
  cbn [fold_left dict_get]. rewrite IH by done. unfold encode_field at 1. fold (encoded k v). cbn [fst snd].
  rewrite dict_get_set. destruct (String.eqb_spec c k) as [->|]; [|done]. by rewrite (proj2 (dict_get_None k l) Hn).
Qed.

Lemma encode_fold_wf fields m : dict_wf m → dict_wf (fold_left encode_field fields m).
Proof. revert m. induction fields as [|kv l IH]; intros m Hm; [done|]. cbn. by apply IH, dict_set_wf. Qed.

Lemma json_columns_text c v : c ∈ _JSON_COLUMNS → v = VNone ∨ (∃ t, v = VStr t) → fits c v = true.
Proof.
  intros Hc Hv. assert (forallb (λ c, fits c VNone && fits c (VStr "")) _JSON_COLUMNS = true) as H by (vm_compute; reflexivity).
  rewrite forallb_forall in H. apply list_elem_of_In in Hc. apply H, andb_true_iff in Hc as [H1 H2].
  by destruct Hv as [->|[t ->]].
Qed.

Lemma encoded_fits fields c v : typed_fields fields → dict_get c fields = Some v → c ∈ ALL_COLUMNS → c ≠ "id" → fits c (encoded c v) = true.
Proof.
  intros Ht Hg Hc Hid. unfold encoded. destruct (c ∈? _JSON_COLUMNS) eqn:E; cbn.
  - apply str_in_spec in E. apply json_columns_text; [done|]. destruct v; cbn; eauto.
  - apply str_in_false in E. by eapply fields_fit.
Qed.

Lemma encode_fold_fit fields m : typed_fields fields → fit_dict m → fit_dict (fold_left encode_field fields m).
Proof.
  intros Ht [Hw Hg]. split; [by apply encode_fold_wf|]. intros c v. rewrite encode_fold_get by apply Ht.
  destruct (dict_get c fields) eqn:E; [|apply Hg]. intros [= <-]. by eapply encoded_fits.
Qed.

(** ** The merged row *)

Definition old_fits (row : option Row) : Prop :=
  ∀ r, row = Some r → dict_wf r ∧ ∀ c v, dict_get c r = Some v → c ∈ _TASK_COLUMNS ∧ (c ≠ "id" → fits c v = true).

Definition base (task_id : string) (row : option Row) : dict pyval := match row with Some r => r | None => [("task_id", VStr task_id)] end.

Lemma base_fit t row : old_fits row → fit_dict (base t row).
Proof.
  intros Hr. destruct row as [r|]; cbn.
  - destruct (Hr r eq_refl) as [Hw Hg]. split; [done|]. intros c v H _ Hid. by apply Hg in H as [_ H]; apply H.
  - split; [by repeat constructor; intros ?%elem_of_nil|]. intros c v. cbn. destruct (String.eqb_spec c "task_id") as [->|]; [|done].
    by intros [= <-].
Qed.

Lemma base_json t row c : old_fits row → c ∈ _JSON_COLUMNS → dict_get c (base t row) = None.
Proof.
  intros Hr Hc. assert (c ∉ _TASK_COLUMNS) as Hn.
  { assert (forallb (λ c, negb (c ∈? _TASK_COLUMNS)) _JSON_COLUMNS = true) as H by (vm_compute; reflexivity).
    rewrite forallb_forall in H. apply list_elem_of_In in Hc. apply H, negb_true_iff in Hc. by apply str_in_false in Hc. }
  destruct (dict_get c (base t row)) eqn:E; [|done]. destruct Hn. destruct row as [r|]; cbn in E.
  - by destruct (Hr r eq_refl) as [_ Hg]; apply Hg in E as [E _].
  - destruct (String.eqb_spec c "task_id") as [->|]; [|done]. apply str_in_spec. reflexivity.
Qed.

Lemma json_dumps_truthy v : jsonable v → truthy (json_dumps v) = true.
Proof. intros Hj. destruct (json_dumps v) eqn:E; [|done]. pose proof (json_roundtrip v Hj) as H. by rewrite E in H. Qed.

Lemma index_target_ok t row fields : old_fits row → typed_fields fields →
  ∃ target, index_target (fold_left encode_field fields (base t row)) = Some target ∧ typed_target target.
Proof.
  intros Hr Ht. unfold index_target, py_get at 1. rewrite encode_fold_get by apply Ht.
  pose proof (fields_target _ Ht) as Hx. unfold py_get in Hx. destruct (dict_get "target" fields) as [v|] eqn:E.
  - cbn [default from_option]. unfold encoded. destruct (fields_json _ Ht _ _ E) as [->|Hj]; [by apply str_in_spec|by exists VNone|].
    destruct (is_none v) eqn:En; [destruct v; try done; by exists VNone|]. cbn [negb andb].
    replace ("target" ∈? _JSON_COLUMNS) with true by reflexivity. cbn [andb].
    exists v. by rewrite (json_roundtrip v Hj).
  - rewrite base_json by (done || by apply str_in_spec). by exists VNone.
Qed.

Lemma extract_index_ok t row fields : old_fits row → typed_fields fields →
  let m := fold_left encode_field fields (base t row) in
  ∃ m', _extract_index_fields m = Some m' ∧ fit_dict m' ∧ (∀ c v, dict_get c m = Some v → dict_get c m' = Some v) ∧
    (∀ c, c ∈ _JSON_COLUMNS → dict_get c m' = dict_get c m).
Proof.
  intros Hr Ht m. assert (fit_dict m) as Hm by (apply encode_fold_fit; [done|by apply base_fit]).
  destruct (index_target_ok t row fields Hr Ht) as (target & Hi & Hx). unfold _extract_index_fields. fold m in Hi. rewrite Hi.
  cbn [mbind option_bind]. destruct target as [| | | | | | |d]; try (by exists m).
  destruct Hx as [[ns Hns] [l Hl]]. rewrite Hns, Hl. cbn zeta. cbn [typed_target] in *.
  set (m1 := setdefault "namespace" (VStr ns) m).
  assert (fit_dict m1) as Hm1 by (by apply fit_setdefault).
  assert (∀ c, c ∈ _JSON_COLUMNS → c ≠ "namespace" ∧ c ≠ "target_name") as Hne by (intros c Hc; split; intros ->; by apply str_in_spec in Hc).
  destruct l as [|n l]; cbn [map py_truthy negb].
  - exists m1. split_and!; [done..| by intros; apply setdefault_get |]. intros c Hc. apply setdefault_ne. by apply Hne.
  - exists (setdefault "target_name" (VStr n) m1). split_and!; [done|by apply fit_setdefault| |].
    + intros c v Hg. by apply setdefault_get, setdefault_get.
    + intros c Hc. unfold m1. by rewrite !setdefault_ne by (by apply Hne).
Qed.

(** [stage] and [phase] are never NULL. *)
Lemma inferred_texts m d : inferred m = Some d →
  ∃ a b c, d = [("task_state", VStr a); ("stage", VStr b); ("phase", VStr c)].
Proof.
  unfold inferred. destruct (decode_columns _ m) as [values|]; [|done]. cbn [mbind option_bind].
  match goal with |- context [infer_task_state ?x] => generalize x; intros vs end.
  destruct (infer_task_state vs) as [st|]; [|done]. destruct (infer_phase vs) as [ph|] eqn:Ep; [|done]. cbn [mbind option_bind].
  intros [= <-]. destruct (one_of (py_get "confirmed_intent" vs) ["chat"; "recover"; "query"; "explore"]) eqn:E; cbn [opt_text].
  - by eexists _, _, _.
  - assert (non_injection vs = false) as Hn.
    { unfold non_injection. destruct (py_get "confirmed_intent" vs) as [| | | |s| | |]; try done. cbn in *.
      unfold str_in in *. cbn in *. by destruct (String.eqb s "chat"), (String.eqb s "recover"). }
    unfold infer_stage. rewrite Hn. unfold infer_phase in Ep. rewrite Hn in Ep.
    assert (∃ p, ph = Some p) as [p ->].
    { revert Ep. branches; try (intros [= <-]; by eauto); destruct (replanned vs) as [b|]; cbn [mbind option_bind]; try done;
        branches; try (intros [= <-]; by eauto); destruct (injection_phase vs); cbn; try done; intros [= <-]; eauto. }
    destruct (eqs (get_d "operation" (VStr "") vs) "recover"); cbn; by eexists _, _, _.
Qed.

Lemma inferred_fit m m' : fit_dict m → fit_dict (dict_update m (_infer_fields m')).
Proof.
  intros Hm. unfold _infer_fields. destruct (inferred m') as [d|] eqn:E; [|done]. cbn [default from_option].
  apply inferred_texts in E as (a & b & c & ->). unfold dict_update. cbn [fold_left fst snd].
  by repeat (apply fit_text; [by apply str_in_false|]).
Qed.

Lemma inferred_get m m' c : c ∉ ["task_state"; "stage"; "phase"] → dict_get c (dict_update m (_infer_fields m')) = dict_get c m.
Proof.
  intros Hc. unfold _infer_fields. destruct (inferred m') as [d|] eqn:E; [|done]. cbn [default from_option].
  apply inferred_texts in E as (a & b & e & ->). by apply update_get_notin.
Qed.

Lemma timestamps_fit now m row : old_fits row → fit_dict m → fit_dict (_set_timestamps now m row).
Proof.
  intros Hr Hm. unfold _set_timestamps. apply fit_text; [by apply str_in_false|].
  destruct (py_truthy _) eqn:E.
  - destruct row as [r|]; [|done]. apply fit_set; [done|]. intros _ _. destruct (Hr r eq_refl) as [_ Hg].
    unfold py_get in *. destruct (dict_get "gmt_create" r) as [v|] eqn:Ev; [|done]. by apply Hg in Ev as [_ Ev]; apply Ev.
  - destruct (negb _); [|done]. apply fit_text; [by apply str_in_false|done].
Qed.

Lemma timestamps_get now m row c : c ∉ ["gmt_create"; "gmt_modified"] → dict_get c (_set_timestamps now m row) = dict_get c m.
Proof.
  intros Hc. unfold _set_timestamps. rewrite dict_get_set_ne by set_solver.
  destruct (py_truthy _); [|destruct (negb _)]; rewrite ?dict_get_set_ne by set_solver; done.
Qed.

(** What both rows are written from. *)
Record merged_ok (t : string) (fields m : dict pyval) : Prop := {
  merged_fit : fit_dict m;
  merged_key : dict_get "task_id" m = Some (VStr t);
  merged_stamp : is_Some (dict_get "gmt_modified" m);
  merged_user c v : user_column c = true → dict_get c fields = Some v → dict_get c m = Some (encoded c v);
  merged_json c : c ∈ _JSON_COLUMNS → dict_get c m = (encoded c) <$> dict_get c fields }.

Lemma user_not c : user_column c = true → c ∈ ALL_COLUMNS ∧ c ∉ ["id"; "task_id"; "task_state"; "stage"; "phase"; "gmt_create"; "gmt_modified"].
Proof. unfold user_column. by rewrite andb_true_iff, negb_true_iff, str_in_spec, str_in_false. Qed.

Lemma json_user c : c ∈ _JSON_COLUMNS → user_column c = true.
Proof.
  assert (forallb user_column _JSON_COLUMNS = true) as H by (vm_compute; reflexivity). rewrite forallb_forall in H.
  intros Hc%list_elem_of_In. auto.
Qed.

Lemma merged_fields_ok t fields now row : old_fits row → typed_fields fields →
  ∃ m, merged_fields t fields now row = Some m ∧ merged_ok t fields m.
Proof.
  intros Hr Ht. destruct (extract_index_ok t row fields Hr Ht) as (m & Hi & Hm & Hg & Hj).
  unfold merged_fields. cbv zeta. change (match row with Some r => r | None => _ end) with (base t row).
  rewrite Hi. cbn [mbind option_bind]. eexists. split; [done|]. split.
  - apply timestamps_fit; [done|]. apply fit_text; [by apply str_in_false|]. by apply inferred_fit.
  - rewrite timestamps_get by (by apply str_in_false). by rewrite dict_get_set, String.eqb_refl.
  - unfold _set_timestamps. rewrite dict_get_set, String.eqb_refl. by eexists.
  - intros c v Hu Hf. apply user_not in Hu as [_ Hu]. rewrite timestamps_get by set_solver. rewrite dict_get_set_ne by set_solver.
    rewrite inferred_get by set_solver. apply Hg. rewrite encode_fold_get by apply Ht. by rewrite Hf.
  - intros c Hc. pose proof (json_user c Hc) as Hu. apply user_not in Hu as [_ Hu]. rewrite timestamps_get by set_solver.
    rewrite dict_get_set_ne by set_solver. rewrite inferred_get by set_solver. rewrite Hj by done.
    rewrite encode_fold_get by apply Ht. destruct (dict_get c fields); [done|]. by apply base_json.
Qed.

(** ** Columns *)

Lemma columns_of_get cols m c : dict_get c (columns_of cols m) = if (c ∈? cols) && negb (String.eqb c "id") then dict_get c m else None.
Proof.
  unfold columns_of. induction cols as [|k l IH]; [done|]. cbn [omap list_omap].
  change (c ∈? k :: l) with (String.eqb c k || (c ∈? l)). destruct (String.eqb_spec c k) as [<-|Hck]; cbn [orb].
  - destruct (String.eqb c "id") eqn:Hid; cbn [negb andb]; [by rewrite IH, andb_false_r|].
    destruct (dict_get c m) eqn:E; cbn [mbind option_bind dict_get]; [by rewrite String.eqb_refl|].
    rewrite IH. by destruct (_ && _).
  - destruct (String.eqb k "id"); [done|]. destruct (dict_get k m); [|done]. cbn [mbind option_bind dict_get].
    by destruct (String.eqb_spec c k).
Qed.

Lemma columns_of_wf cols m : NoDup cols → dict_wf (columns_of cols m).
Proof.
  unfold dict_wf. induction 1 as [|k l Hn Hd IH]; [by constructor|]. unfold columns_of. cbn [omap list_omap].
  destruct (String.eqb k "id"); [done|]. destruct (dict_get k m); [|done]. cbn. apply NoDup_cons. split; [|done].
  intros Hin. assert (dict_get k (columns_of l m) ≠ None) as H by (intros H; by apply dict_get_None in H).
  rewrite columns_of_get in H. apply str_in_false in Hn. by rewrite Hn in H.
Qed.

Lemma merged_row cols t fields m : merged_ok t fields m → NoDup cols → "task_id" ∈ cols → "gmt_modified" ∈ cols → (∀ c, c ∈ cols → c ∈ ALL_COLUMNS) →
  acceptable_row cols t (columns_of cols m).
Proof.
  intros Hm Hd Ht Hg Hs. apply str_in_spec in Ht, Hg. split.
  - by apply columns_of_wf.
  - rewrite columns_of_get, Ht. by apply Hm.
  - exists "gmt_modified". split; [done|]. rewrite columns_of_get, Hg. by eapply merged_stamp.
  - intros c v. rewrite columns_of_get. destruct (c ∈? cols) eqn:E; [|done]. destruct (String.eqb_spec c "id"); [done|]. cbn.
    apply str_in_spec in E. intros Hv. split_and!; [done..|]. eapply fit_get; [apply Hm|done|by apply Hs|done].
Qed.

Lemma task_columns_all c : c ∈ _TASK_COLUMNS → c ∈ ALL_COLUMNS.
Proof. intros Hc. apply elem_of_app. by left. Qed.

Lemma detail_columns_all c : c ∈ _DETAIL_COLUMNS → c ∈ ALL_COLUMNS.
Proof. intros Hc. apply elem_of_app. by right. Qed.

Lemma task_columns_row t fields m : merged_ok t fields m → acceptable_row _TASK_COLUMNS t (columns_of _TASK_COLUMNS m).
Proof.
  intros Hm. eapply merged_row; [done|by apply (bool_decide_unpack _); vm_compute|by apply str_in_spec..|exact task_columns_all].
Qed.

Lemma detail_columns_row t fields m : merged_ok t fields m → acceptable_row _DETAIL_COLUMNS t (columns_of _DETAIL_COLUMNS m).
Proof.
  intros Hm. eapply merged_row; [done|by apply (bool_decide_unpack _); vm_compute|by apply str_in_spec..|exact detail_columns_all].
Qed.

(** ** Decoding *)

Definition decodable (v : pyval) : Prop := match v with VStr s => json_loads s ≠ JValueError | _ => True end.

Definition decoded (v : pyval) : pyval :=
  match v with VStr s => if truthy s then match json_loads s with JOk x => x | _ => v end else v | _ => v end.

Lemma decode_column_ok d c : decodable (py_get c d) →
  ∃ d', decode_column d c = Some d' ∧ dict_get c d' = decoded <$> dict_get c d ∧ ∀ c', c' ≠ c → dict_get c' d' = dict_get c' d.
Proof.
  unfold decode_column, py_get. intros Hd. destruct (dict_get c d) as [v|] eqn:E; cbn [default from_option] in *; [|by exists d].
  destruct v as [| | | |s| | |]; try (by exists d; rewrite E). cbn in *.
  destruct (truthy s); [|by exists d; rewrite E]. destruct (json_loads s); [|by exists d; rewrite E|done].
  eexists. split; [done|]. split; [by rewrite dict_get_set, String.eqb_refl|]. intros c' Hc. by apply dict_get_set_ne.
Qed.

Lemma decode_columns_ok cols d : NoDup cols → (∀ c, c ∈ cols → decodable (py_get c d)) →
  ∃ d', decode_columns cols d = Some d' ∧ ∀ c, dict_get c d' = if c ∈? cols then decoded <$> dict_get c d else dict_get c d.
Proof.
  intros Hnd. revert d. induction Hnd as [|k l Hn Hd IH]; intros d Hj; [by exists d|].
  destruct (decode_column_ok d k) as (d1 & He & Hk & Hr); [apply Hj; by left|]. cbn [decode_columns]. rewrite He. cbn [mbind option_bind].
  destruct (IH d1) as (d' & -> & Hg).
  { intros c Hc. unfold py_get. rewrite Hr by (by intros ->). apply Hj. by right. }
  exists d'. split; [done|]. intros c. rewrite Hg. change (c ∈? k :: l) with (String.eqb c k || (c ∈? l)).
  destruct (String.eqb_spec c k) as [->|Hck]; cbn [orb]; [|by rewrite Hr].
  apply str_in_false in Hn. by rewrite Hn.
Qed.

Lemma decoded_encoded c v : v = VNone ∨ jsonable v → c ∈ _JSON_COLUMNS → decodable (encoded c v) ∧ decoded (encoded c v) = v.
Proof.
  intros Hv Hc. unfold encoded. apply str_in_spec in Hc as ->. destruct (is_none v) eqn:E; [by destruct v|]. cbn [negb andb].
  destruct Hv as [->|Hj]; [done|]. cbn. by rewrite json_dumps_truthy, json_roundtrip.
Qed.

Section laws.
Context {DB : Type} `{BackendLaws DB}.

(** Every stored text of a JSON column can be read back: [json.loads] may
    raise on a text it does not reject, an integer of too many digits. *)
Definition readable (t : string) (db : DB) : Prop :=
  ∀ row, select_details t db = Some row → ∀ c, c ∈ _JSON_COLUMNS → decodable (py_get c row).

Lemma select_fits t db : db_ok db → old_fits (select_task t db).
Proof. intros Hok r Hr. by eapply task_row. Qed.

(** What the two statements leave. *)
Lemma upsert_rows t fields now db : db_ok db → unrecorded t = false → typed_fields fields →
  ∃ db' m task detail, upsert t fields now db = (db', true) ∧ db_ok db' ∧ merged_ok t fields m ∧
    merged_fields t fields now (select_task t db) = Some m ∧
    select_task t db' = Some task ∧ overlay _TASK_COLUMNS (columns_of _TASK_COLUMNS m) (select_task t db) task ∧
    select_details t db' = Some detail ∧ overlay _DETAIL_COLUMNS (columns_of _DETAIL_COLUMNS m) (select_details t db) detail ∧
    (∀ u, u ≠ t → select_task u db' = select_task u db ∧ select_details u db' = select_details u db).
Proof.
  intros Hok Hrec Ht. destruct (merged_fields_ok t fields now (select_task t db) (select_fits t db Hok) Ht) as (m & Hm & Hmok).
  pose proof (task_columns_row _ _ _ Hmok) as Ha1. pose proof (detail_columns_row _ _ _ Hmok) as Ha2.
  destruct (upsert_task_total _ _ _ Hok Ha1) as [db1 E1]. destruct (upsert_task_ok _ _ _ _ Hok Ha1 E1) as (Hok1 & Hd1 & Ho1 & task & Htask & Hov1).
  destruct (upsert_details_total _ _ _ Hok1 Ha2) as [db2 E2]. destruct (upsert_details_ok _ _ _ _ Hok1 Ha2 E2) as (Hok2 & Ht2 & Ho2 & detail & Hdet & Hov2).
  exists db2, m, task, detail. unfold upsert. rewrite Hrec, Hm, E1. cbn [stmt and_then fst snd]. rewrite E2. cbn [stmt].
  rewrite Hd1 in Hov2. split_and!; try done; [by rewrite Ht2|]. intros u Hu. by rewrite Ht2, Ho1, Ho2, Hd1.
Qed.

Lemma overlay_stored cols m t fields old row c v : merged_ok t fields m → overlay cols (columns_of cols m) old row →
  (∀ c, c ∈ cols → c ∈ ALL_COLUMNS) → c ∈ cols → c ≠ "id" → dict_get c m = Some v → dict_get c row = Some v.
Proof.
  intros Hm Ho Hs Hc Hid Hg. specialize (Ho c Hc Hid). rewrite columns_of_get in Ho. apply str_in_spec in Hc as Hc'.
  rewrite Hc' in Ho. destruct (String.eqb_spec c "id"); [done|]. cbn in Ho. rewrite Hg in Ho. apply Ho.
  eapply fit_get; [by eapply merged_fit|done|by apply Hs|done].
Qed.

(** A detail row after the upsert can be read, if it could before. *)
Lemma upsert_readable t fields m db detail : merged_ok t fields m → typed_fields fields → readable t db →
  overlay _DETAIL_COLUMNS (columns_of _DETAIL_COLUMNS m) (select_details t db) detail →
  ∀ c, c ∈ _JSON_COLUMNS → decodable (py_get c detail).
Proof.
  intros Hm Ht Hr Ho c Hc. assert (c ≠ "id") as Hid by (intros ->; by apply str_in_spec in Hc).
  assert ((c ∈? _DETAIL_COLUMNS) = true) as Hin.
  { assert (forallb (λ c, c ∈? _DETAIL_COLUMNS) _JSON_COLUMNS = true) as Hf by (vm_compute; reflexivity).
    rewrite forallb_forall in Hf. by apply Hf, list_elem_of_In. }
  pose proof (merged_json _ _ _ Hm c Hc) as Hg. destruct (dict_get c fields) as [v|] eqn:Ev; cbn in Hg.
  - unfold py_get. rewrite (overlay_stored _ _ _ _ _ _ c _ Hm Ho detail_columns_all (proj1 (str_in_spec _ _) Hin) Hid Hg). cbn [default from_option]. apply decoded_encoded; [|done]. by eapply fields_json.
  - specialize (Ho c (proj1 (str_in_spec _ _) Hin) Hid). rewrite columns_of_get, Hg in Ho.
    destruct (_ && _) in Ho; unfold py_get; rewrite Ho; (destruct (select_details t db) as [old|] eqn:Eo; [by apply Hr|]);
      apply str_in_spec in Hin; repeat (apply elem_of_cons in Hc as [->|Hc]; [done|]); by apply elem_of_nil in Hc.
Qed.

Lemma json_not_task c : c ∈ _JSON_COLUMNS → c ∉ _TASK_COLUMNS.
Proof.
  intros Hc. assert (forallb (λ c, negb (c ∈? _TASK_COLUMNS)) _JSON_COLUMNS = true) as Hf by (vm_compute; reflexivity).
  rewrite forallb_forall in Hf. apply list_elem_of_In, Hf, negb_true_iff in Hc. by apply str_in_false.
Qed.

Lemma task_row_absent t db row c : db_ok db → select_task t db = Some row → c ∉ _TASK_COLUMNS → dict_get c row = None.
Proof.
  intros Hok Hr Hc. destruct (dict_get c row) eqn:E; [|done]. destruct (task_row _ _ _ Hok Hr) as [_ Hg]. by apply Hg in E as [E _].
Qed.

(** The record of a task, read from its two rows. *)
Lemma get_task_rows t db task detail : db_ok db → select_task t db = Some task → select_details t db = Some detail →
  (∀ c, c ∈ _JSON_COLUMNS → decodable (py_get c detail)) →
  ∃ d, get_task t db = Some (Some d) ∧ ∀ c, dict_get c d =
    if c ∈? _TASK_COLUMNS then match dict_get c task with Some v => Some v | None => dict_get c detail end
    else if c ∈? _JSON_COLUMNS then decoded <$> dict_get c detail else dict_get c detail.
Proof.
  intros Hok Ht Hd Hdec. destruct (task_row _ _ _ Hok Ht) as [Hw _]. unfold get_task. rewrite Ht, Hd. cbn [default from_option id].
  assert (∀ c, c ∈ _JSON_COLUMNS → dict_get c (dict_update detail task) = dict_get c detail) as Hj.
  { intros c Hc. rewrite dict_get_update by done. by rewrite (task_row_absent t db) by (done || by apply json_not_task). }
  destruct (decode_columns_ok _JSON_COLUMNS (dict_update detail task)) as (d & Hdd & Hg).
  { by apply (bool_decide_unpack _); vm_compute. }
  { intros c Hc. unfold py_get. rewrite Hj by done. by apply Hdec. }
  exists d. unfold _row_to_dict. rewrite Hdd. split; [done|]. intros c. rewrite Hg.
  destruct (c ∈? _JSON_COLUMNS) eqn:Ej.
  - apply str_in_spec in Ej. rewrite Hj by done. apply json_not_task, str_in_false in Ej. by rewrite Ej.
  - rewrite dict_get_update by done. destruct (c ∈? _TASK_COLUMNS) eqn:Et; [done|].
    by rewrite (task_row_absent t db) by (done || by apply str_in_false).
Qed.

(** C38. For every back end that keeps the contract and every identifier that is
    recorded, that is not empty and does not begin with "turn-", an upsert of
    fields of the types of their columns to a task whose stored JSON can be
    read returns, and the record read back
    holds every field the caller decides, the JSON columns decoded; it can be
    read again, and no other task changes. *)
Theorem upsert_get t fields now db : db_ok db → unrecorded t = false → typed_fields fields → readable t db →
  ∃ db' d, upsert t fields now db = (db', true) ∧ db_ok db' ∧ readable t db' ∧ get_task t db' = Some (Some d) ∧
    (∀ c v, user_column c = true → dict_get c fields = Some v → dict_get c d = Some v) ∧
    (∀ u, u ≠ t → get_task u db' = get_task u db).
Proof.
  intros Hok Hrec Ht Hr. destruct (upsert_rows t fields now db Hok Hrec Ht) as (db' & m & task & detail & Hu & Hok' & Hm & _ & Htk & Hov1 & Hdt & Hov2 & Ho).
  pose proof (upsert_readable _ _ _ _ _ Hm Ht Hr Hov2) as Hdec.
  destruct (get_task_rows t db' task detail Hok' Htk Hdt Hdec) as (d & Hget & Hg).
  exists db', d. split_and!; try done.
  - intros row Hrow. rewrite Hdt in Hrow. by simplify_eq.
  - intros c v Huc Hf. pose proof (merged_user _ _ _ Hm c v Huc Hf) as Hc. apply user_not in Huc as [Hall Hnot].
    assert (c ≠ "id") as Hid by (intros ->; apply Hnot; by left). rewrite Hg. destruct (c ∈? _TASK_COLUMNS) eqn:Et.
    + apply str_in_spec in Et. rewrite (overlay_stored _ _ _ _ _ _ c _ Hm Hov1 task_columns_all Et Hid Hc). unfold encoded.
      destruct (c ∈? _JSON_COLUMNS) eqn:Ej; [|done]. by apply str_in_spec, json_not_task in Ej.
    + apply str_in_false in Et. apply elem_of_app in Hall as [Hall|Hall]; [done|].
      rewrite (overlay_stored _ _ _ _ _ _ c _ Hm Hov2 detail_columns_all Hall Hid Hc).
      destruct (c ∈? _JSON_COLUMNS) eqn:Ej; [|unfold encoded; by rewrite Ej]. apply str_in_spec in Ej. cbn.
      f_equal. apply decoded_encoded; [|done]. by eapply fields_json.
  - intros u Hne. unfold get_task. by destruct (Ho u Hne) as [-> ->].
Qed.

(** ** What a span does to the state of its task *)

Lemma empty_fields : typed_fields [].
Proof. split; [constructor|by intros..|done]. Qed.

(** The state an upsert without fields infers: the narrow row holds neither
    the safety status, nor the verdicts, nor the intent. *)
Definition narrow_state (m : dict pyval) : string :=
  if py_truthy (py_get "error" m) then "failed"
  else if eqs (get_d "operation" (VStr "") m) "recover" then "recovering" else "injecting".

Lemma narrow_inferred m : (∀ c v, dict_get c m = Some v → c ∈ _TASK_COLUMNS) →
  ∃ stage phase, inferred m = Some [("task_state", VStr (narrow_state m)); ("stage", stage); ("phase", phase)].
Proof.
  intros Hm. assert (∀ c, (c ∈? _TASK_COLUMNS) = false → dict_get c m = None) as Ha.
  { intros c Hc. destruct (dict_get c m) eqn:E; [|done]. apply Hm, str_in_spec in E. congruence. }
  assert (decode_columns _JSON_COLUMNS m = Some m) as Hd.
  { unfold _JSON_COLUMNS. cbn [decode_columns]. unfold decode_column, py_get.
    by repeat (rewrite Ha by reflexivity; cbn [default from_option mbind option_bind]). }
  assert (∃ p, infer_phase m = Some p) as [p Hp].
  { unfold infer_phase, non_injection, replanned, injection_phase, py_get, get_d. rewrite !(Ha "confirmed_intent"), !(Ha "replan_context"), !(Ha "verification") by reflexivity.
    cbn [default from_option py_truthy negb andb mbind option_bind]. branches; eauto. }
  assert (infer_task_state m = Some (narrow_state m)) as Hst.
  { unfold infer_task_state, lifecycle_state, replanned, recovery_state, narrow_state, non_injection, py_get, get_d.
    rewrite !(Ha "confirmed_intent"), !(Ha "safety_status"), !(Ha "replan_count"), !(Ha "replan_context"), !(Ha "verification"), !(Ha "recover_verification") by reflexivity.
    cbn [default from_option one_of eqs py_truthy negb andb]. change (py_gt (VInt 0) (VInt 0)) with (Some false). cbn [mbind option_bind andb].
    change (String.eqb "pending" "rejected") with false. cbn iota. by branches. }
  unfold inferred. rewrite Hd. cbn [mbind option_bind]. rewrite (Ha "needs_confirm"), Hst, Hp by reflexivity. cbn [mbind option_bind].
  unfold waiting, py_get. rewrite (Ha "confirmed_intent"), (Ha "needs_confirmation"), (Ha "interaction_mode") by reflexivity.
  cbn [default from_option one_of eqs py_truthy]. rewrite !andb_false_r. cbn [orb andb]. eauto.
Qed.

(** Whatever state is recorded, the write of a span replaces it by the one the
    narrow row alone suggests. *)
Theorem span_resets_state t s ms now db task : db_ok db → unrecorded t = false → select_task t db = Some task →
  ∃ task', select_task t (_persist_span t s ms now db) = Some task' ∧ dict_get "task_state" task' = Some (VStr (narrow_state task)).
Proof.
  intros Hok Hrec Htk. destruct (upsert_rows t [] now db Hok Hrec empty_fields) as (db' & m & task' & detail & Hu & _ & Hm & Hmf & Ht' & Hov & _).
  unfold _persist_span. rewrite Hrec, Hu. cbn [and_then snd fst]. exists task'. split.
  - unfold append_span, and_then, stmt. destruct (insert_span _ _) eqn:E; cbn; [|done].
    rewrite update_summary_task. by rewrite (insert_span_task _ _ _ _ E).
  - rewrite Htk in Hmf. unfold merged_fields in Hmf. cbn [fold_left] in Hmf.
    assert (_extract_index_fields task = Some task) as Hx.
    { unfold _extract_index_fields, index_target, py_get. by rewrite (task_row_absent t db task "target") by (done || by apply str_in_false). }
    rewrite Hx in Hmf. cbn [mbind option_bind] in Hmf. simplify_eq.
    destruct (task_row _ _ _ Hok Htk) as [_ Hg]. destruct (narrow_inferred task) as (st & ph & Hi); [by intros c v Hc; apply Hg in Hc as [? _]|].
    eapply (overlay_stored _ _ _ _ _ _ "task_state" _ Hm Hov task_columns_all); [by apply str_in_spec|done|].
    rewrite timestamps_get by (by apply str_in_false). rewrite dict_get_set_ne by done. unfold _infer_fields. rewrite Hi.
    cbn [default from_option id]. by rewrite dict_get_update by (by apply (bool_decide_unpack _); vm_compute).
Qed.
End laws.

(** ** Concrete runs on the SQLite back end *)

Definition sqlite := SQLiteBackend (λ _ v, v).

Definition passed_verdict : pyval := VDict [("layer1", VDict [("status", VStr "passed")]); ("layer2", VDict [("status", VStr "passed")])].

Definition example_fields : dict pyval :=
  [("operation", VStr "inject"); ("skill_name", VStr "pod-kill"); ("blade_uid", VStr "0a1b"); ("needs_confirm", VInt 0);
   ("target", VDict [("namespace", VStr "shop"); ("names", VList [VStr "cart"])]); ("verification", passed_verdict)].

Ltac entries H := apply dict_get_In in H; repeat (apply elem_of_cons in H as [[= -> ->]|H]); [..|by apply elem_of_nil in H].
Ltac json_value := repeat (first [apply j_dict | apply j_list | apply j_str | apply Forall_cons; split; cbn [snd] | apply Forall_nil; exact I
  | by apply (bool_decide_unpack _); vm_compute]).

Lemma example_typed : typed_fields example_fields.
Proof.
  split.
  - by apply (bool_decide_unpack _); vm_compute.
  - intros c v Hg Hc. entries Hg; try (by apply str_in_spec in Hc); right; json_value.
  - intros c v Hg _ Hc _. entries Hg; try reflexivity; by (destruct Hc; apply str_in_spec).
  - split; [by eexists|]. by exists ["cart"].
Defined.

Lemma upsert_get_witness :
  ∃ db' d, @upsert _ sqlite "task-1" example_fields "2026-01-01T00:00:00+08:00" empty_tables = (db', true) ∧ tables_ok db' ∧
    @readable _ sqlite "task-1" db' ∧ @get_task _ sqlite "task-1" db' = Some (Some d) ∧
    (∀ c v, user_column c = true → dict_get c example_fields = Some v → dict_get c d = Some v) ∧
    (∀ u, u ≠ "task-1" → @get_task _ sqlite u db' = @get_task _ sqlite u empty_tables).
Proof.
  apply (@upsert_get Tables sqlite (SQLiteLaws (λ _ v, v)) "task-1" example_fields "2026-01-01T00:00:00+08:00" empty_tables).
  - split; intros r Hr; by apply elem_of_nil in Hr.
  - reflexivity.
  - exact example_typed.
  - by intros row Hr.
Defined.

Lemma passed_is_injected_witness :
  infer_task_state example_fields = Some "injected" ∨
  ∃ l, read_layers (py_get "verification" example_fields) = Some l ∧ both_skipped l ∧ infer_task_state example_fields = Some "failed".
Proof. apply (passed_is_injected example_fields); [eexists; vm_compute; reflexivity | vm_compute; reflexivity]. Defined.

(** The exception of [passed_is_injected] occurs. *)
Example skipped_layers_disagree :
  let layer := VDict [("status", VStr "skipped")] in
  let values := dict_set "verification" (VDict [("layer1", layer); ("layer2", layer)]) example_fields in
  infer_phase values = Some (Some "verification_passed") ∧ infer_task_state values = Some "failed".
Proof. by vm_compute. Qed.

Definition stored_state (db : Tables) : option pyval := r ← @select_task _ sqlite "task-1" db; dict_get "task_state" r.

Definition example_span : Span := mkSpan "verifier" (VFloat "1.0") (VFloat "2.0") (VFloat "1000.0") 10 20 ["kubectl"] VNone.

(** An injected task is recorded as still injecting once a span is written. *)
Example span_forgets_injection :
  let db := (@upsert _ sqlite "task-1" example_fields "t0" empty_tables).1 in
  stored_state db = Some (VStr "injected") ∧
  stored_state (@_persist_span _ sqlite "task-1" example_span 1000 "t1" db) = Some (VStr "injecting").
Proof. by vm_compute. Qed.

(** The parameters of an active task come back as JSON text. *)
Example active_params_text :
  let fields := dict_set "params" (VDict [("time", VStr "60")]) example_fields in
  let db := (@upsert _ sqlite "task-1" fields "t0" empty_tables).1 in
  (rows ← @query_active _ sqlite "shop" "cart" db; Some (map (py_get "params") rows)) = Some [VStr (json_dumps (VDict [("time", VStr "60")]))].
Proof. by vm_compute. Qed.

(** A task with two targets, as the nodes record it, is not found by the name
    of one of them. *)
Example two_targets_not_found :
  let spec := VDict [("scope", VStr "pod"); ("namespace", VStr "shop"); ("names", VList [VStr "cart"; VStr "pay"])] in
  let db := @sync_to_store _ sqlite [("task_id", VStr "task-1"); ("operation", VStr "inject"); ("fault_spec", spec)] [] "t0" empty_tables in
  stored_state db = Some (VStr "injecting") ∧
  @query_active _ sqlite "shop" "cart" db = Some [] ∧ option_map length (@query_active _ sqlite "shop" "cart,pay" db) = Some 1%nat.
Proof. by vm_compute. Qed.

(** Side effects other than restarts make a task injected whose verification
    phase says failed. *)
Example other_effects_disagree :
  let verdict := VDict [("layer1", VDict [("status", VStr "passed")]); ("layer2", VDict [("status", VStr "recovered_before_observation")]);
                        ("side_effects", VDict [("evicted_pods", VList [VStr "cart"])])] in
  let values := dict_set "verification" verdict example_fields in
  infer_phase values = Some (Some "verification_failed") ∧ infer_task_state values = Some "injected".
Proof. by vm_compute. Qed.
