(* ===== verification/Skills.v ===== *)
(** * Skills (skills/loader.py, validator.py, registry.py)

    A skill is a directory with a description in [SKILL.md], whose front
    matter is metadata, and with scripts and reference files.  What the file
    system answers is a parameter ([FS]), also what a path resolves to, so
    that links are covered; the parser of YAML is one as well.  Paths are
    their texts, normalised as pathlib does.  An exception carries its text,
    except the two kinds that callers tell apart. *)

From stdpp Require Import base list strings sets sorting.
From Stdlib Require Import ZArith Ascii.
From S2P Require Import Prelude Regex GuardParser ToolGuard PyText PyValue PyFloat PyOps Shlex Failure JsonStored Kubectl Effects.

(** ** Paths *)

Definition path_parts (s : string) : list string := List.filter (λ c, truthy c && negb (String.eqb c ".")) (split_on "/" s).

(** Two leading slashes, and no more, are kept. *)
Definition path_root (s : string) : string :=
  if startswith s "//" && negb (startswith s "///") then "//" else if startswith s "/" then "/" else "".

(** [str(Path(s))]. *)
Definition path_str (s : string) : string := str_or (path_root s +:+ join "/" (path_parts s)) ".".

(** [p / s]. *)
Definition path_join (p s : string) : string := if startswith s "/" then path_str s else path_str (p +:+ "/" +:+ s).

Definition is_absolute (p : string) : bool := truthy (path_root p).

(** [p.parent]. *)
Definition path_parent (p : string) : string := path_str (path_root p +:+ join "/" (removelast (path_parts p))).

(** [p.suffix]: from the last dot of the name, unless it is its first or last
    character. *)
Definition path_suffix (p : string) : string :=
  let name := path_name p in
  match rev (split_on "." name) with
  | ext :: ((_ :: _) as before) =>
      if truthy ext && truthy (join "." (rev before)) then "." +:+ ext else ""
  | _ => ""
  end.

(** [str(p.relative_to(base))], for a path made by joining names. *)
Definition relative_to (base p : string) : outcome string :=
  if startswith p (base +:+ "/") then Ret (String.substring (S (String.length base)) (String.length p) p)
  else Exn (p +:+ " is not in the subpath of " +:+ base).

(** ** The file system *)

Record FS := mkFS {
  fs_resolve : string → outcome string;
  fs_expanduser : string → outcome string;
  fs_cwd : string;
  fs_exists : string → outcome bool;
  fs_is_dir : string → outcome bool;
  fs_is_file : string → outcome bool;
  fs_iterdir : string → outcome (list string);
  fs_rglob : string → outcome (list string);
  fs_size : string → outcome Z;
  fs_bytes : string → outcome string;
  fs_mkdir : string → outcome unit;
  fs_write : string → string → outcome unit }.

(** [sorted(p.iterdir())], as names. *)
Definition name_le (a b : string) : Prop := String.leb a b = true.
#[global] Instance name_le_dec : RelDecision name_le := λ a b, bool_eq_dec (String.leb a b) true.
Definition sorted_names (names : list string) : list string := merge_sort name_le names.

Fixpoint filter_io {A} (p : A → outcome bool) (l : list A) : outcome (list A) :=
  match l with
  | [] => Ret []
  | x :: rest => b ← p x; r ← filter_io p rest; Ret (if (b : bool) then x :: r else r)
  end.

Fixpoint any_io {A} (p : A → outcome bool) (l : list A) : outcome bool :=
  match l with [] => Ret false | x :: rest => b ← p x; if (b : bool) then Ret true else any_io p rest end.

Fixpoint fold_io {A B} (f : B → A → outcome B) (b : B) (l : list A) : outcome B :=
  match l with [] => Ret b | x :: rest => b' ← f b x; fold_io f b' rest end.

Fixpoint map_io {A B} (f : A → outcome B) (l : list A) : outcome (list B) :=
  match l with [] => Ret [] | x :: rest => y ← f x; r ← map_io f rest; Ret (y :: r) end.

Definition keep_some {A B} (f : A → option B) (l : list A) : list B := omap f l.

(** ** Metadata (skills/models.py) *)

Record SkillParameter := mkParameter {
  sp_name : pyval;
  sp_type : pyval;
  sp_required : pyval;
  sp_default : pyval;
  sp_description : pyval;
  sp_example : pyval }.

Record ScriptInfo := mkScript {
  si_name : pyval;
  si_description : pyval;
  si_parameters : list SkillParameter;
  si_interpreter : pyval;
  si_timeout : pyval }.

Record SkillMetadata := mkMeta {
  m_name : pyval;
  m_description : pyval;
  m_version : string;
  m_category : pyval;
  m_target : pyval;
  m_required_tools : pyval;
  m_tags : pyval;
  m_parameters : list SkillParameter;
  m_scripts : list ScriptInfo }.

Record Skill := mkSkill {
  k_metadata : SkillMetadata;
  k_instructions : string;
  k_skill_dir : string }.

(** What the registry knows. *)
Record Registry := mkRegistry {
  r_metadata : dict SkillMetadata;
  r_instructions : dict string;
  r_skill_dirs : dict string }.

(** [KeyError], [FileNotFoundError], or another exception with its text. *)
Inductive skill_exn := KeyErr | NotFound | OtherExn (text : string).

Definition SK (A : Type) : Type := A + skill_exn.
#[global] Instance SK_ret : MRet SK := λ A a, inl a.
#[global] Instance SK_bind : MBind SK := λ A B f x, match x with inl a => f a | inr e => inr e end.
Definition io {A} (x : outcome A) : SK A := match x with Ret a => inl a | Exn t => inr (OtherExn t) end.

Section skills.
Context (fs : FS).
(** [yaml.safe_load]; [None] is a [YAMLError]. *)
Context (yaml_load : string → option pyval).
(** The text of an exception the model does not determine. *)
Context (err : string).

(** ** Loading *)

Definition has_skill_md (dir : string) : outcome bool :=
  d ← fs_is_dir fs dir; if (d : bool) then fs_exists fs (path_join dir "SKILL.md") else Ret false.

Definition read_text (p : string) : outcome string := raw ← fs_bytes fs p; with_text err (decode_text raw).

(** [content.split("---", 2)]. *)
Definition split_matter (content : string) : list string :=
  match split_str "---" content with
  | a :: b :: ((_ :: _) as rest) => [a; b; join "---" rest]
  | l => l
  end.

(** [None] outside: no front matter. *)
Definition parse_frontmatter (content : string) : option pyval :=
  if negb (startswith content "---") then None
  else match split_matter content with
       | [_; matter; _] => match yaml_load matter with Some VNone => None | r => r end
       | _ => None
       end.

Definition parse_parameter (p : pyval) : option SkillParameter :=
  match p with
  | VDict d => Some (mkParameter (get_d "name" (VStr "") d) (get_d "type" (VStr "string") d) (get_d "required" (VBool false) d)
                       (py_get "default" d) (get_d "description" (VStr "") d) (py_get "example" d))
  | _ => None
  end.

Definition _parse_parameters (data : pyval) : outcome (list SkillParameter) :=
  if negb (py_truthy data) then Ret [] else l ← with_text err (py_iter data); Ret (keep_some parse_parameter l).

Definition parse_script (s : pyval) : outcome (option ScriptInfo) :=
  match s with
  | VDict d =>
      ps ← _parse_parameters (py_get "parameters" d);
      Ret (Some (mkScript (get_d "name" (VStr "") d) (get_d "description" (VStr "") d) ps (py_get "interpreter" d) (py_get "timeout" d)))
  | _ => Ret None
  end.

Definition _parse_scripts (data : pyval) : outcome (list ScriptInfo) :=
  if negb (py_truthy data) then Ret []
  else l ← with_text err (py_iter data); r ← map_io parse_script l; Ret (keep_some id r).

(** [sorted(scripts_dir.iterdir())] restricted to files of the two kinds. *)
Definition list_skill_scripts (skill_dir : string) : outcome (list string) :=
  let dir := path_join skill_dir "scripts" in
  e ← fs_exists fs dir;
  if negb (e : bool) then Ret []
  else
    d ← fs_is_dir fs dir;
    if negb (d : bool) then Ret []
    else
      names ← fs_iterdir fs dir;
      files ← filter_io (λ n, fs_is_file fs (path_join dir n)) (sorted_names names);
      Ret (map (λ n, "scripts/" +:+ n) (List.filter (λ n, path_suffix n ∈? [".py"; ".sh"]) files)).

Definition load_skill_metadata (skill_dir : string) : outcome SkillMetadata :=
  content ← read_text (path_join skill_dir "SKILL.md");
  match parse_frontmatter content with
  | None => Exn ("Invalid or missing YAML frontmatter in " +:+ path_join skill_dir "SKILL.md")
  | Some matter =>
      f ← with_text err (as_dict matter);
      ps ← _parse_parameters (py_get "parameters" f);
      ss ← _parse_scripts (py_get "scripts" f);
      Ret (mkMeta (get_d "name" (VStr "") f) (get_d "description" (VStr "") f) (py_str (get_d "version" (VStr "1.0") f))
             (get_d "category" (VStr "") f) (get_d "target" (VStr "") f)
             (py_or (get_d "required_tools" (VList []) f) (VList [])) (py_or (get_d "tags" (VList []) f) (VList [])) ps ss)
  end.

Definition load_skill_instructions (skill_dir : string) : outcome string :=
  content ← read_text (path_join skill_dir "SKILL.md");
  Ret (match split_matter content with [_; _; body] => strip body | _ => "" end).

(** The entries of a listing below a child of the directory. *)
Definition child_items (skill_dir full name : string) : outcome (list string) :=
  let child := path_join full name in
  if startswith name "." then Ret []
  else
    rel ← relative_to skill_dir child;
    f ← fs_is_file fs child;
    if (f : bool) then Ret [rel]
    else
      d ← fs_is_dir fs child;
      if negb (d : bool) then Ret []
      else
        subs ← fs_iterdir fs child;
        files ← filter_io (λ n, b ← fs_is_file fs (path_join child n); Ret ((b : bool) && negb (startswith n "."))) (sorted_names subs);
        rels ← map_io (λ n, relative_to skill_dir (path_join child n)) files;
        Ret ((rel +:+ "/") :: rels).

Definition load_skill_resource (skill_dir resource_path : string) : SK string :=
  let full := path_join skill_dir resource_path in
  e ← io (fs_exists fs full);
  if negb (e : bool) then inr NotFound
  else
    d ← io (fs_is_dir fs full);
    if (d : bool) then
      names ← io (fs_iterdir fs full);
      items ← io (map_io (child_items skill_dir full) (sorted_names names));
      mret (match concat items with
            | [] => "Directory: " +:+ resource_path +:+ "/ (empty)"
            | l => "Directory: " +:+ resource_path +:+ "/" +:+ newline +:+ "Contents:" +:+ newline +:+
                   join newline (map (λ i, "  - " +:+ i) l)
            end)
    else io (read_text full).

(** Names below the directory, in the order of the system. *)
Definition resources_of (skill_dir subdir : string) : outcome (list string) :=
  let dir := path_join skill_dir subdir in
  e ← fs_exists fs dir;
  if negb (e : bool) then Ret []
  else
    d ← fs_is_dir fs dir;
    if negb (d : bool) then Ret []
    else
      names ← fs_rglob fs dir;
      files ← filter_io (λ n, fs_is_file fs (path_join dir n)) names;
      Ret (map (λ n, subdir +:+ "/" +:+ n) files).

Definition list_skill_resources (skill_dir : string) : outcome (list string) :=
  l ← map_io (resources_of skill_dir) ["scripts"; "references"; "assets"]; Ret (concat l).

(** ** Validation *)

Definition REQUIRED_FRONTMATTER : list string := ["name"; "description"].
Definition ALLOWED_SCRIPT_EXTENSIONS : list string := [".py"; ".sh"; ".yaml"; ".yml"; ".json"].

Definition name_char (first : bool) (c : ascii) : bool :=
  let n := nat_of_ascii c in
  (Nat.leb 97 n && Nat.leb n 122) || (Nat.leb 48 n && Nat.leb n 57) || (negb first && Ascii.eqb c "-").

Fixpoint name_rest (s : string) : bool :=
  match s with
  | "" => true
  | String c rest => (name_char false c && name_rest rest) || String.eqb s newline
  end.

(** [NAME_PATTERN.match(name)]: the end also matches before a last new line. *)
Definition name_matches (s : string) : bool := match s with String c rest => name_char true c && name_rest rest | _ => false end.

Definition script_type_errors (scripts_dir : string) : outcome (list string) :=
  e ← fs_exists fs scripts_dir;
  d ← (if (e : bool) then fs_is_dir fs scripts_dir else Ret false);
  if negb (d : bool) then Ret []
  else
    names ← fs_iterdir fs scripts_dir;
    files ← filter_io (λ n, fs_is_file fs (path_join scripts_dir n)) names;
    Ret (map (λ n, "Unexpected script file type: " +:+ n) (List.filter (λ n, negb (path_suffix n ∈? ALLOWED_SCRIPT_EXTENSIONS)) files)).

Definition declared_errors (scripts_dir : string) (s : pyval) : outcome (list string) :=
  match s with
  | VDict d =>
      let name := get_d "name" (VStr "") d in
      if py_truthy name then
        n ← with_text err (as_str name);
        e ← fs_exists fs (path_join scripts_dir n);
        Ret (if (e : bool) then [] else ["Declared script not found: " +:+ n])
      else Ret []
  | _ => Ret []
  end.

(** The text on script types names the allowed ones as well. *)
Definition validate (skill_dir : string) : outcome (bool * list string) :=
  let md := path_join skill_dir "SKILL.md" in
  e ← fs_exists fs md;
  if negb (e : bool) then Ret (false, ["SKILL.md not found in " +:+ skill_dir])
  else
    content ← read_text md;
    match parse_frontmatter content with
    | None => Ret (false, ["Invalid or missing YAML frontmatter"])
    | Some matter =>
        f ← with_text err (as_dict matter);
        let missing := keep_some (λ k, if py_truthy (py_get k f) then None else Some ("Missing required field: " +:+ k)) REQUIRED_FRONTMATTER in
        let name := get_d "name" (VStr "") f in
        format ← (if py_truthy name then
                    n ← with_text err (as_str name);
                    Ret (if name_matches n then [] else ["Invalid name format: " +:+ n +:+ " (use lowercase letters, digits, hyphens)"])
                  else Ret []);
        types ← script_type_errors (path_join skill_dir "scripts");
        declared ← match get_d "scripts" (VList []) f with
                   | VList l => r ← map_io (declared_errors (path_join skill_dir "scripts")) l; Ret (concat r)
                   | _ => Ret []
                   end;
        let errors := missing ++ format ++ types ++ declared in
        Ret (match errors with [] => true | _ => false end, errors)
    end.

(** ** Scanning *)

Definition Scanned : Type := dict SkillMetadata * dict string.

(** The body of the [try] for one directory. *)
Definition add_scanned (disabled : list string) (acc : Scanned) (dir : string) (meta : SkillMetadata) : Scanned :=
  match m_name meta with
  | VStr n =>
      if negb (truthy n) || (n ∈? disabled) || dict_mem n acc.1 then acc else (dict_set n meta acc.1, dict_set n dir acc.2)
  | _ => acc
  end.

Definition scan_entry (disabled : list string) (acc : Scanned) (dir : string) : outcome Scanned :=
  md ← has_skill_md dir;
  if negb (md : bool) then Ret acc
  else
    v ← validate dir;
    if negb v.1 then Ret acc
    else Ret (match load_skill_metadata dir with Ret meta => add_scanned disabled acc dir meta | Exn _ => acc end).

Definition _scan_directory (disabled : list string) (skills_dir : string) : outcome Scanned :=
  e ← fs_exists fs skills_dir;
  if negb (e : bool) then Ret ([], [])
  else
    names ← fs_iterdir fs skills_dir;
    fold_io (scan_entry disabled) ([], []) (map (path_join skills_dir) (sorted_names names)).

Definition empty_registry : Registry := mkRegistry [] [] [].

Definition add_skill (r : Registry) (scanned : Scanned) (kv : string * SkillMetadata) : Registry :=
  if dict_mem kv.1 (r_metadata r) then r
  else mkRegistry (dict_set kv.1 kv.2 (r_metadata r)) (r_instructions r)
         (dict_set kv.1 (default "" (dict_get kv.1 scanned.2)) (r_skill_dirs r)).

Definition load_from_directory (disabled : list string) (skills_dir : string) (r : Registry) : outcome Registry :=
  scanned ← _scan_directory disabled skills_dir; Ret (fold_left (λ r kv, add_skill r scanned kv) scanned.1 r).

Definition has_skill_subdirs (dir : string) : outcome bool :=
  names ← fs_iterdir fs dir; any_io (λ n, has_skill_md (path_join dir n)) names.

Definition swap (disabled : list string) (dir : string) : outcome Registry :=
  scanned ← _scan_directory disabled dir; Ret (mkRegistry scanned.1 [] scanned.2).

Definition reload (disabled : list string) (skills_dir : option string) (r : Registry) : outcome Registry :=
  match (match skills_dir with Some d => Some d | None => match r_skill_dirs r with (_, d) :: _ => Some d | [] => None end end) with
  | None => Ret r
  | Some dir =>
      e ← fs_exists fs dir;
      if negb (e : bool) then Ret r
      else
        own ← has_skill_subdirs dir;
        if (own : bool) then swap disabled dir
        else
          up ← has_skill_subdirs (path_parent dir);
          if (up : bool) then swap disabled (path_parent dir) else Ret r
  end.

(** ** Reading *)

Definition build_catalog_prompt (r : Registry) : string :=
  join newline (map (λ kv, "- " +:+ kv.1 +:+ ": " +:+ py_str (m_description kv.2)) (r_metadata r)).

Definition skill_dir_of (r : Registry) (skill_name : string) : SK string :=
  match dict_get skill_name (r_skill_dirs r) with Some d => inl d | None => inr KeyErr end.

Definition activate (skill_name : string) (r : Registry) : SK string * Registry :=
  match skill_dir_of r skill_name with
  | inr e => (inr e, r)
  | inl dir =>
      match dict_get skill_name (r_instructions r) with
      | Some text => (inl text, r)
      | None =>
          match load_skill_instructions dir with
          | Ret text => (inl text, mkRegistry (r_metadata r) (dict_set skill_name text (r_instructions r)) (r_skill_dirs r))
          | Exn t => (inr (OtherExn t), r)
          end
      end
  end.

Definition read_resource (r : Registry) (skill_name resource_path : string) : SK string :=
  dir ← skill_dir_of r skill_name; load_skill_resource dir resource_path.

Definition list_resources (r : Registry) (skill_name : string) : SK (list string) :=
  dir ← skill_dir_of r skill_name; io (list_skill_resources dir).

Definition get_skill (r : Registry) (skill_name : string) : option Skill :=
  meta ← dict_get skill_name (r_metadata r);
  Some (mkSkill meta (default "" (dict_get skill_name (r_instructions r))) (default "" (dict_get skill_name (r_skill_dirs r)))).

Definition list_skills (r : Registry) : list string := dict_keys (r_metadata r).

(** ** Use cases *)

Definition _SCOPE_PREFIX_MAP : dict (list string) :=
  [("node", ["Node_"; "节点"]); ("pod", ["Pod_"]); ("service", ["Service_"]); ("workload", ["workload_"; "HPA_"; "DaemonSet_"])].

Definition _TARGET_KEYWORD_MAP : dict (list string) :=
  [("cpu", ["CPU"; "cpu"]); ("mem", ["内存"; "OOM"]); ("disk", ["磁盘"]); ("network", ["网络"; "network"]); ("process", ["进程"; "process"])].

Definition _ACTION_KEYWORD_MAP : dict (list string) :=
  [("fill", ["填充"; "fill"; "使用率"; "空间"]); ("fullload", ["fullload"; "满载"; "使用率"]); ("burn", ["burn"; "IO"; "读写"]);
   ("load", ["load"; "加载"; "压力"]); ("drop", ["drop"; "丢包"; "丢弃"]); ("loss", ["loss"; "丢包"; "丢失"]); ("kill", ["kill"; "杀死"]);
   ("dns", ["dns"; "DNS"; "域名"])].

Definition _RELATED_SCOPES : dict (list string) := [("pod", ["workload"; "service"]); ("node", ["workload"; "pod"; "service"])].

Definition capitalize (s : string) : string := match s with String c rest => String (upper_ascii c) (lower rest) | _ => "" end.

Definition scope_prefixes (scope : string) : list string := default [capitalize scope +:+ "_"] (dict_get scope _SCOPE_PREFIX_MAP).

Definition mentions (keywords : list string) (t : string) : bool := existsb (λ kw, contains kw t) keywords.

(** The directories of the catalogue for a scope. *)
Definition scope_dirs (catalogue scope : string) : outcome (list string) :=
  names ← fs_iterdir fs catalogue;
  dirs ← filter_io (λ n, fs_is_dir fs (path_join catalogue n)) (sorted_names names);
  Ret (List.filter (λ n, existsb (startswith n) (scope_prefixes scope)) dirs).

Definition use_case (dir file : string) : string := "references/catalogue/" +:+ dir +:+ "/" +:+ file.

(** A file of a related scope counts if its beginning mentions target and
    action; one that cannot be read does not. *)
Definition related_match (target action path : string) : bool :=
  match read_text path with
  | Ret t =>
      let lowered := lower (py_take 2000 t) in
      mentions (map lower (default [target] (dict_get target _TARGET_KEYWORD_MAP))) lowered &&
      mentions (map lower (default [action] (dict_get action _ACTION_KEYWORD_MAP))) lowered
  | Exn _ => false
  end.

Definition related_files (target action catalogue dir : string) : outcome (list string) :=
  names ← fs_iterdir fs (path_join catalogue dir);
  Ret (map (use_case dir)
         (List.filter (λ n, String.eqb (path_suffix n) ".md" && related_match target action (path_join (path_join catalogue dir) n))
            (sorted_names names))).

(** The directories that match, if one does. *)
Definition narrow (keywords dirs : list string) : list string :=
  match List.filter (mentions keywords) dirs with [] => dirs | l => l end.

Definition own_dirs (target action : string) (dirs : list string) : list string :=
  let keywords := default [target] (dict_get target _TARGET_KEYWORD_MAP) in
  match List.filter (mentions keywords) dirs with
  | [] => if dict_mem target _TARGET_KEYWORD_MAP then [] else narrow (default [] (dict_get action _ACTION_KEYWORD_MAP)) dirs
  | l => narrow (default [] (dict_get action _ACTION_KEYWORD_MAP)) l
  end.

Definition action_hits (action file : string) : nat :=
  length (List.filter (λ kw, contains (lower kw) (lower file)) (default [action] (dict_get action _ACTION_KEYWORD_MAP))).

(** [sorted(files, key=-hits)], which keeps the order of files with as many. *)
Definition by_hits (action : string) (files : list string) : list string :=
  let top := length (default [action] (dict_get action _ACTION_KEYWORD_MAP)) in
  flat_map (λ k, List.filter (λ f, Nat.eqb (action_hits action f) k) files) (rev (seq 0 (S top))).

Definition own_files (action catalogue dir : string) : outcome (list string) :=
  names ← fs_iterdir fs (path_join catalogue dir);
  Ret (map (use_case dir) (by_hits action (List.filter (λ n, String.eqb (path_suffix n) ".md") names))).

Definition add_new (results : list string) (x : string) : list string := if x ∈? results then results else results ++ [x].

Definition search_skill (scope target action search_scope : string) (results : list string) (skill_dir : string) : outcome (list string) :=
  let catalogue := path_join skill_dir "references/catalogue" in
  e ← fs_exists fs catalogue;
  if negb (e : bool) then Ret results
  else
    dirs ← scope_dirs catalogue search_scope;
    match dirs with
    | [] => Ret results
    | _ =>
        found ← (if String.eqb search_scope scope then map_io (own_files action catalogue) (own_dirs target action dirs)
                 else map_io (related_files target action catalogue) dirs);
        Ret (fold_left add_new (concat found) results)
    end.

Definition match_use_cases (r : Registry) (scope target action : string) : outcome (list string) :=
  fold_io (λ results s, fold_io (search_skill scope target action s) results (map snd (r_skill_dirs r))) []
    (scope :: default [] (dict_get scope _RELATED_SCOPES)).

Definition match_use_case (r : Registry) (scope target action : string) : outcome (option string) :=
  l ← match_use_cases r scope target action; Ret (head l).

(** ** Scripts *)

Definition _ALLOWED_SCRIPT_EXTENSIONS : list string := [".py"; ".sh"].

Definition parameter_entry (p : SkillParameter) : pyval :=
  VDict [("name", sp_name p); ("type", sp_type p); ("required", sp_required p); ("description", sp_description p)].

Definition script_entry (s : ScriptInfo) : dict pyval :=
  [("name", si_name s); ("description", si_description s); ("parameters", VList (map parameter_entry (si_parameters s)))].

Definition named (n : string) (s : ScriptInfo) : bool := eqs (si_name s) n.

Definition list_scripts (r : Registry) (skill_name : string) : SK (list (dict pyval)) :=
  dir ← skill_dir_of r skill_name;
  match dict_get skill_name (r_metadata r) with
  | None => inr KeyErr
  | Some meta =>
      discovered ← io (list_skill_scripts dir);
      let new := List.filter (λ n, negb (existsb (named n) (m_scripts meta))) (map path_name discovered) in
      mret (map script_entry (m_scripts meta) ++
            map (λ n, [("name", VStr n); ("description", VStr ""); ("parameters", VList [])]) new)
  end.

Definition get_script_metadata (r : Registry) (skill_name script_name : string) : option ScriptInfo :=
  meta ← dict_get skill_name (r_metadata r); List.find (named script_name) (m_scripts meta).

Record ScriptSettings := mkScriptSettings {
  timeout_skill_script : Z;
  skill_script_max_output : nat;
  kubeconfig_path : string }.

Section scripts.
Context (cfg : ToolSettings) (scfg : ScriptSettings) (executable : string) (which : string → option string).
(** [f"{result.duration_ms:.0f}"]. *)
Context (duration_text : CommandResult → string).

Definition _format_script_output (script_name : string) (result : CommandResult) : string :=
  let out := stdout result in
  let cut := Nat.ltb (skill_script_max_output scfg) (py_len out) in
  let code := str_of_Z (exit_code result) in
  join newline
    ((if (exit_code result =? 0)%Z then [] else ["[ERROR] Script failed with exit code " +:+ code +:+ "."]) ++
     ["[Script: " +:+ script_name +:+ "] Exit code: " +:+ code +:+ " | Duration: " +:+ duration_text result +:+ "ms"; "--- STDOUT ---";
      if cut then py_take (skill_script_max_output scfg) out else out] ++
     (if cut then ["... (truncated, " +:+ str_of_Z (Z.of_nat (py_len out)) +:+ " characters total)"] else []) ++
     (if truthy (strip (stderr result)) then ["--- STDERR ---"; py_take 1000 (stderr result)] else [])).

(** What the interpreter is; a declared one that is no text cannot be run. *)
Definition interpreter_of (meta : option ScriptInfo) (script_path : string) : outcome string :=
  match meta with
  | Some m => if py_truthy (si_interpreter m) then with_text err (as_str (si_interpreter m))
              else if String.eqb (path_suffix script_path) ".py" then Ret executable
              else Ret (default (default "/bin/sh" (which "sh")) (which "bash"))
  | None => if String.eqb (path_suffix script_path) ".py" then Ret executable
            else Ret (default (default "/bin/sh" (which "sh")) (which "bash"))
  end.

(** A declared time-out is an integer. *)
Definition declared_timeout (meta : option ScriptInfo) : outcome (option Z) :=
  match meta with
  | Some m => match si_timeout m with
              | VInt z => Ret (if (z =? 0)%Z then None else Some z)
              | v => if py_truthy v then Exn err else Ret None
              end
  | None => Ret None
  end.

Definition timeout_of (timeout : option Z) (meta : option ScriptInfo) : outcome Z :=
  t ← match timeout with Some z => Ret (Some z) | None => declared_timeout meta end;
  Ret (match t with Some z => if (z =? 0)%Z then timeout_skill_script scfg else z | None => timeout_skill_script scfg end).

Definition env_of (r : Registry) (skill_name : string) : outcome (dict string) :=
  match dict_get skill_name (r_metadata r) with
  | None => Ret []
  | Some meta =>
      needs ← with_text err (py_in "kubectl" (m_required_tools meta));
      if (needs : bool) && truthy (kubeconfig_path scfg)
      then p ← fs_expanduser fs (path_str (kubeconfig_path scfg)); Ret [("KUBECONFIG", p)] else Ret []
  end.

(** The checks in front of a script, and its path. *)
Definition checked_script (r : Registry) (skill_name script_name params : string) : outcome string :=
  match dict_get skill_name (r_skill_dirs r) with
  | None => Exn ("Skill not found: " +:+ skill_name)
  | Some skill_dir =>
      scripts_dir ← fs_resolve fs (path_join skill_dir "scripts");
      script_path ← fs_resolve fs (path_join (path_join skill_dir "scripts") script_name);
      if negb (startswith script_path scripts_dir)
      then Exn ("Path traversal blocked: '" +:+ script_name +:+ "' resolves outside scripts/ directory")
      else if negb (path_suffix script_path ∈? _ALLOWED_SCRIPT_EXTENSIONS)
      then Exn ("Script type not allowed: '" +:+ script_name +:+ "' (allowed: .py, .sh)")
      else
        e ← fs_exists fs script_path;
        if negb (e : bool) then Exn ("Script not found: '" +:+ script_name +:+ "' in skill '" +:+ skill_name +:+ "'")
        else if truthy params && existsb (λ p, search p params) PARAM_BLACKLIST_PATTERNS
        then Exn "Dangerous pattern detected in script parameters"
        else Ret script_path
  end.

Definition script_command (r : Registry) (skill_name script_name params script_path : string) : outcome (list string) :=
  interp ← interpreter_of (get_script_metadata r skill_name script_name) script_path;
  args ← (if truthy params then with_text err (shlex_split params) else Ret []);
  Ret (interp :: script_path :: args).

Definition execute_script (r : Registry) (skill_name script_name params : string) (timeout : option Z) : prog string :=
  script_path ← Done (checked_script r skill_name script_name params);
  cmd ← Done (script_command r skill_name script_name params script_path);
  env ← Done (env_of r skill_name);
  t ← Done (timeout_of timeout (get_script_metadata r skill_name script_name));
  result ← Run (mkSpawn cmd (if (t =? 0)%Z then timeout_default cfg else t) env "") Done;
  mret (_format_script_output script_name result).
End scripts.
End skills.

(** ** What the search for use cases finds *)

Lemma fold_io_inv {A B} (f : B → A → outcome B) (I : B → Prop) l : (∀ b x b', x ∈ l → I b → f b x = Ret b' → I b') →
  ∀ b b', I b → fold_io f b l = Ret b' → I b'.
Proof.
  induction l as [|x l IH]; intros Hf b b' Hb; [by intros [= <-]|]. cbn. destruct (f b x) as [b1|] eqn:E; [|done]. cbn.
  apply IH; [|by eapply Hf; [left|..]]. intros b2 y b3 Hy. apply Hf. by right.
Qed.

Lemma map_io_elem {A B} (f : A → outcome B) l r : map_io f l = Ret r → ∀ y, y ∈ r → ∃ x, x ∈ l ∧ f x = Ret y.
Proof.
  revert r. induction l as [|x l IH]; intros r; cbn; [by intros [= <-] y ?%elem_of_nil|].
  destruct (f x) as [b|] eqn:E; [|done]. cbn. destruct (map_io f l) as [r'|]; [|done]. cbn. intros [= <-] y [->|Hy]%elem_of_cons.
  - exists x. by split; [left|].
  - destruct (IH r' eq_refl y Hy) as (z & Hz & ?). exists z. by split; [right|].
Qed.

Lemma filter_io_elem {A} (p : A → outcome bool) l r : filter_io p l = Ret r → ∀ y, y ∈ r → y ∈ l ∧ p y = Ret true.
Proof.
  revert r. induction l as [|x l IH]; intros r; cbn; [by intros [= <-] y ?%elem_of_nil|].
  destruct (p x) as [b|] eqn:E; [|done]. cbn. destruct (filter_io p l) as [r'|]; [|done]. cbn. intros [= <-] y.
  destruct b; [intros [->|Hy]%elem_of_cons; [by split; [left|]|]|intros Hy]; destruct (IH r' eq_refl y Hy); (split; [by right|done]).
Qed.

Section search.
Context (fs : FS) (err : string) (scope target action : string).

(** A Markdown file of a directory of the catalogue for the scope. *)
Definition catalogued (s x : string) : Prop :=
  ∃ dir file, x = use_case dir file ∧ path_suffix file = ".md" ∧ existsb (startswith dir) (scope_prefixes s) = true.

Definition scopes : list string := scope :: default [] (dict_get scope _RELATED_SCOPES).

Definition found_ok (l : list string) : Prop := NoDup l ∧ ∀ x, x ∈ l → ∃ s, s ∈ scopes ∧ catalogued s x.

Lemma add_all_ok s new l : s ∈ scopes → (∀ x, x ∈ new → catalogued s x) → found_ok l → found_ok (fold_left add_new new l).
Proof.
  intros Hs. revert l. induction new as [|x new IH]; intros l Hn Hl; [done|]. cbn. apply IH; [by intros y Hy; apply Hn; right|].
  unfold add_new. destruct (x ∈? l) eqn:E; [done|]. apply str_in_false in E. destruct Hl as [Hd Hl]. split.
  - apply NoDup_app. split_and!; [done| |apply NoDup_singleton]. intros y Hy ->%list_elem_of_singleton. done.
  - intros y [Hy | ->%list_elem_of_singleton]%elem_of_app; [auto|]. exists s. split; [done|]. apply Hn. by left.
Qed.

Lemma scope_dirs_prefix catalogue s dirs : scope_dirs fs catalogue s = Ret dirs →
  ∀ d, d ∈ dirs → existsb (startswith d) (scope_prefixes s) = true.
Proof.
  unfold scope_dirs. destruct (fs_iterdir fs catalogue); [|done]. cbn. destruct (filter_io _ _); [|done]. cbn. intros [= <-] d Hd.
  apply list_elem_of_In, filter_In in Hd. by destruct Hd.
Qed.

Lemma narrow_sub keywords dirs d : d ∈ narrow keywords dirs → d ∈ dirs.
Proof.
  unfold narrow. destruct (List.filter _ _) eqn:E; [done|]. rewrite <- E. intros Hd. apply list_elem_of_In, filter_In in Hd as [Hd _].
  by apply list_elem_of_In.
Qed.

Lemma own_dirs_sub dirs d : d ∈ own_dirs target action dirs → d ∈ dirs.
Proof.
  unfold own_dirs. destruct (List.filter _ _) eqn:E.
  - destruct (dict_mem _ _); [by intros ?%elem_of_nil|apply narrow_sub].
  - intros Hd%narrow_sub. rewrite <- E in Hd. apply list_elem_of_In, filter_In in Hd as [Hd _]. by apply list_elem_of_In.
Qed.

Lemma own_files_catalogued s catalogue dir l : existsb (startswith dir) (scope_prefixes s) = true →
  own_files fs action catalogue dir = Ret l → ∀ x, x ∈ l → catalogued s x.
Proof.
  unfold own_files. intros Hp. destruct (fs_iterdir fs _); [|done]. cbn. intros [= <-] x (f & -> & Hf)%list_elem_of_fmap.
  exists dir, f. split_and!; [done| |done]. unfold by_hits in Hf. apply list_elem_of_In, in_flat_map in Hf as (k & _ & Hf).
  apply filter_In in Hf as [Hf _]. apply filter_In in Hf as [_ Hf]. by apply String.eqb_eq in Hf.
Qed.

Lemma related_files_catalogued s catalogue dir l : existsb (startswith dir) (scope_prefixes s) = true →
  related_files fs err target action catalogue dir = Ret l → ∀ x, x ∈ l → catalogued s x.
Proof.
  unfold related_files. intros Hp. destruct (fs_iterdir fs _); [|done]. cbn. intros [= <-] x (f & -> & Hf)%list_elem_of_fmap.
  exists dir, f. split_and!; [done| |done]. apply list_elem_of_In, filter_In in Hf as [_ Hf].
  apply andb_true_iff in Hf as [Hf _]. by apply String.eqb_eq in Hf.
Qed.

Lemma search_skill_ok s results skill_dir results' : s ∈ scopes → found_ok results →
  search_skill fs err scope target action s results skill_dir = Ret results' → found_ok results'.
Proof.
  intros Hs Hr. unfold search_skill. destruct (fs_exists fs _) as [[]|]; cbn; [|by intros [= <-]|done].
  destruct (scope_dirs fs _ s) as [dirs|] eqn:Ed; [|done]. cbn. pose proof (scope_dirs_prefix _ _ _ Ed) as Hp.
  destruct dirs as [|d0 dirs0]; [by intros [= <-]|]. set (dirs := d0 :: dirs0) in *.
  destruct (if String.eqb s scope then _ else _) as [found|] eqn:Ef; [|done]. cbn. intros [= <-]. eapply add_all_ok; [done| |done].
  intros x Hx. apply list_elem_of_In, in_concat in Hx as (l & Hl & Hx). apply list_elem_of_In in Hl, Hx.
  destruct (String.eqb s scope); destruct (map_io_elem _ _ _ Ef l Hl) as (d & Hd & Hf).
  - eapply own_files_catalogued; [apply Hp; by apply own_dirs_sub|done..].
  - eapply related_files_catalogued; [by apply Hp|done..].
Qed.

(** What is found are Markdown files of the catalogue of the scope or of a
    scope related to it, each once. *)
Theorem match_use_cases_sound r l : match_use_cases fs err r scope target action = Ret l → found_ok l.
Proof.
  unfold match_use_cases. apply fold_io_inv.
  - intros b s b' Hs Hb. apply fold_io_inv; [|done]. intros b1 x b2 _ Hb1. by apply search_skill_ok.
  - split; [constructor|]. by intros x ?%elem_of_nil.
Qed.
End search.
