(* ===== verification/AgentTools.v ===== *)
(** * The tools of the agent on files and skills (agent/factory.py,
      tools/file_reader.py, tools/file_writer.py)

    What the language model can read, write and run on the machine of the
    agent besides kubectl and blade.  A write returns the files it tried to
    write; a script is a program of [Effects]. *)

From stdpp Require Import base list strings sets.
From Stdlib Require Import ZArith Ascii.
From S2P Require Import Prelude Regex GuardParser ToolGuard PyText PyValue PyFloat PyOps Shlex Failure JsonStored Kubectl Effects Skills.

(** ** Files *)

Definition _DENIED_PATHS : list string := ["/etc/shadow"; "/etc/ssh"; "/etc/kubernetes"; ".ssh"; ".gnupg"; ".aws"; ".kube/config"].
Definition _DENIED_SUFFIXES : list string := [".pem"; ".key"; ".p12"; ".pfx"; ".jks"].
Definition MAX_FILE_BYTES : nat := 256 * 1024.

Definition _WRITE_DENIED_ROOTS : list string :=
  ["/etc"; "/private/etc"; "/usr"; "/bin"; "/private/bin"; "/sbin"; "/private/sbin"; "/boot"; "/sys"; "/proc"; "/dev"; "/root";
   "/var/log"; "/var/db"; "/var/run"; "/private/var/log"; "/private/var/db"; "/private/var/run"].

Definition _WRITE_DENIED_EXCEPTIONS : list string := ["/var/folders"; "/var/tmp"; "/private/var/folders"; "/private/var/tmp"].

(** [bytes.decode("utf-8", errors="ignore")]: the parts of the text that are
    no characters are dropped. *)
Fixpoint decode_ignore (st : utf8_state) (pending s : string) : string :=
  match s with
  | "" => ""
  | String c rest =>
      let emit st' p := if bool_decide (st' = utf8_start) then p +:+ decode_ignore utf8_start "" rest else decode_ignore st' p rest in
      match utf8_step st c with
      | Some _ as st' => emit st' (pending +:+ String c "")
      | None => match utf8_step utf8_start c with
                | Some _ as st' => emit st' (String c "")
                | None => decode_ignore utf8_start "" rest
                end
      end
  end.

(** A path equal to a directory of the list or below it. *)
Definition under (roots : list string) (p : string) : bool := existsb (λ d, startswith p (d +:+ "/") || String.eqb p d) roots.

Section files.
Context (fs : FS) (err : string).

(** [None]: the path is not on the list. *)
Definition denied_reason (resolved p : string) : option string :=
  match List.find (λ d, contains d resolved || contains d p) _DENIED_PATHS with
  | Some d => Some ("Access denied: path matches restricted pattern '" +:+ d +:+ "'")
  | None => if path_suffix p ∈? _DENIED_SUFFIXES then Some ("Access denied: " +:+ path_suffix p +:+ " files may contain private keys") else None
  end.

Definition _is_denylisted (p : string) : outcome (option string) := resolved ← fs_resolve fs p; Ret (denied_reason resolved p).

(** [Path(file_path).expanduser()], against the working directory. *)
Definition tool_path (file_path : string) : outcome string :=
  p ← fs_expanduser fs (path_str file_path);
  Ret (if is_absolute p then p else path_join (fs_cwd fs) p).

Definition listing_item (dir name : string) : outcome string :=
  d ← fs_is_dir fs (path_join dir name); Ret (if (d : bool) then name +:+ "/" else name).

Definition dir_listing (p : string) : outcome string :=
  names ← fs_iterdir fs p;
  items ← map_io (listing_item p) (sorted_names names);
  let header := "Directory: " +:+ p +:+ newline +:+ "Contents:" in
  Ret (match items with [] => header +:+ " (empty)" | l => header +:+ newline +:+ join newline (map (λ i, "  - " +:+ i) l) end).

Definition file_content (p : string) : outcome string :=
  size ← fs_size fs p;
  raw ← fs_bytes fs p;
  if (Z.of_nat MAX_FILE_BYTES <? size)%Z
  then Ret (decode_ignore utf8_start "" (bytes_take MAX_FILE_BYTES raw) +:+ newline +:+ newline +:+
            "[truncated: showing first " +:+ str_of_Z (Z.of_nat MAX_FILE_BYTES) +:+ " of " +:+ str_of_Z size +:+ " bytes]")
  else with_text err (decode_text raw).

(** The tool answers [FileNotFoundError] and [PermissionError] with a prefix
    of their own; errors of the system among the latter are told apart by
    nothing the model keeps, and count as others. *)
Inductive read_result := Content (t : string) | Missing (t : string) | Denied (t : string).

Definition safe_read_file (file_path : string) : outcome read_result :=
  p ← tool_path file_path;
  denied ← _is_denylisted p;
  match denied with
  | Some reason => Ret (Denied reason)
  | None =>
      e ← fs_exists fs p;
      if negb (e : bool) then Ret (Missing ("Path not found: " +:+ p))
      else
        d ← fs_is_dir fs p;
        t ← (if (d : bool) then dir_listing p else file_content p);
        Ret (Content t)
  end.

Definition read_file (file_path : string) : string :=
  match safe_read_file file_path with
  | Ret (Content t) => t
  | Ret (Missing t) => "Error: " +:+ t
  | Ret (Denied t) => "Error: Access denied - " +:+ t
  | Exn t => "Error reading file '" +:+ file_path +:+ "': " +:+ t
  end.

(** A path that cannot be resolved is not denied. *)
Definition _is_write_denied (p : string) : outcome (option string) :=
  match fs_resolve fs p with
  | Exn _ => Ret None
  | Ret resolved =>
      match (if under _WRITE_DENIED_EXCEPTIONS resolved then None
             else List.find (λ d, startswith resolved (d +:+ "/") || String.eqb resolved d) _WRITE_DENIED_ROOTS) with
      | Some d => Ret (Some ("Writing to system directory is not allowed: " +:+ d))
      | None => _is_denylisted p
      end
  end.

(** The answer, and the file that is written. *)
Definition Written : Type := outcome string * list (string * string).

Definition raised (t : string) : Written := (Exn t, []).

Definition write_to (p content answer : string) : Written :=
  match fs_mkdir fs (path_parent p) with
  | Exn t => raised t
  | Ret _ => (match fs_write fs p content with Ret _ => Ret answer | Exn t => Exn t end, [(p, content)])
  end.

(** The two kinds of refusals keep their prefix. *)
Definition safe_write_file (file_path content : string) : outcome read_result * list (string * string) :=
  match (p ← tool_path file_path;
         e ← fs_exists fs p;
         d ← (if (e : bool) then fs_is_dir fs p else Ret false);
         if (d : bool) then Ret (p, Some (Missing ("Cannot write: path is a directory: " +:+ p)))
         else denied ← _is_write_denied p; Ret (p, option_map Denied denied)) with
  | Exn t => (Exn t, [])
  | Ret (p, Some refusal) => (Ret refusal, [])
  | Ret (p, None) =>
      let '(r, w) := write_to p content ("Successfully wrote " +:+ str_of_Z (Z.of_nat (String.length content)) +:+ " bytes to " +:+ p) in
      (match r with Ret t => Ret (Content t) | Exn t => Exn t end, w)
  end.

Definition write_file (file_path content : string) : string * list (string * string) :=
  let '(r, w) := safe_write_file file_path content in
  (match r with
   | Ret (Content t) => t
   | Ret (Missing t) => "Error: " +:+ t
   | Ret (Denied t) => "Error: Access denied - " +:+ t
   | Exn t => "Error writing file '" +:+ file_path +:+ "': " +:+ t
   end, w).

(** The name of the file comes from the call. *)
Definition save_fault_plan (memory_dir plan_content task_id : string) : string * list (string * string) :=
  let dir := path_join memory_dir "plan" in
  let file := path_join dir (task_id +:+ ".md") in
  match fs_mkdir fs dir with
  | Exn t => ("Error saving plan: " +:+ t, [])
  | Ret _ => (match fs_write fs file plan_content with
              | Ret _ => "Plan saved to " +:+ file +:+ newline +:+ newline +:+ plan_content
              | Exn t => "Error saving plan: " +:+ t
              end, [(file, plan_content)])
  end.
End files.

(** ** Signals *)

Definition finish_planning (summary : string) (rejected : bool) (rejection_reason : string) : string :=
  if rejected then "Planning rejected. Reason: " +:+ str_or rejection_reason summary else "Planning finalized. Summary: " +:+ summary.

Definition propose_plan_change (reason scope target action : string) : string :=
  "Plan change proposed: " +:+ scope +:+ "-" +:+ target +:+ "-" +:+ action +:+ ". Reason: " +:+ reason.

(** ** Skills *)

Section skill_tools.
Context (fs : FS) (yaml_load : string → option pyval) (err : string).

Definition names_text (r : Registry) : string := py_str (VList (map VStr (list_skills r))).

Definition activate_skill (skill_name : string) (r : Registry) : string * Registry :=
  let '(res, r') := activate fs err skill_name r in
  (match res with
   | inl t => t
   | inr KeyErr => "Error: Skill '" +:+ skill_name +:+ "' not found. Available skills: " +:+ names_text r
   | inr NotFound => "Error activating skill '" +:+ skill_name +:+ "': "
   | inr (OtherExn t) => "Error activating skill '" +:+ skill_name +:+ "': " +:+ t
   end, r').

Definition RESOURCE_HEADER : string :=
  "[Skill resource — REFERENCE for planning]" +:+ newline +:+ "The injection / verification commands shown below are" +:+ newline +:+
  "EXECUTION TEMPLATES that Phase 2 will run automatically" +:+ newline +:+
  "once your plan is approved. In Phase 1 (current), use them" +:+ newline +:+ "to understand WHAT will happen and decide IF the plan is" +:+ newline +:+
  "safe. DO NOT execute them yourself in this phase." +:+ newline +:+ "─────────────────────────────────────────────────────" +:+ newline +:+ newline.

(** The listing after a missing file is made outside of any handler. *)
Definition read_skill_resource (r : Registry) (skill_name resource_path : string) : outcome string :=
  match read_resource fs err r skill_name resource_path with
  | inl result =>
      Ret (if truthy (strip result) then RESOURCE_HEADER +:+ result
           else "Resource '" +:+ resource_path +:+ "' in skill '" +:+ skill_name +:+ "' is empty or contains no content.")
  | inr NotFound =>
      match list_resources fs r skill_name with
      | inl available =>
          Ret ("Error: Resource '" +:+ resource_path +:+ "' not found in skill '" +:+ skill_name +:+ "'." +:+ newline +:+
               "Available resources:" +:+ newline +:+
               match available with [] => "  (none found)" | l => join newline (map (λ x, "  - " +:+ x) l) end)
      | inr (OtherExn t) => Exn t
      | inr _ => Exn err
      end
  | inr KeyErr => Ret ("Error: Skill '" +:+ skill_name +:+ "' not found. Activate it first with activate_skill.")
  | inr (OtherExn t) => Ret ("Error reading resource '" +:+ resource_path +:+ "' from skill '" +:+ skill_name +:+ "': " +:+ t)
  end.

(** [s.rsplit(".", 1)[0]]. *)
Definition stem (s : string) : string :=
  match split_on "." s with [_] => s | l => join "." (removelast l) end.

Definition loose (s : string) : string := replace ".sh" "" (replace ".py" "" (replace "_" "" s)).

Definition similar (requested available : string) : bool :=
  let req := lower requested in
  let avl := lower available in
  String.eqb avl req || startswith avl (stem req) || startswith req (stem avl) ||
  (truthy (loose req) && truthy (loose avl) && (contains (loose req) (loose avl) || contains (loose avl) (loose req))).

Definition _fuzzy_match_script (requested : string) (available : list string) : option string := List.find (similar requested) available.

Context (cfg : ToolSettings) (scfg : ScriptSettings) (executable : string) (which : string → option string).
Context (duration_text : CommandResult → string).

Definition unknown_script (skill_name script_name : string) (available : list pyval) : outcome string :=
  names ← with_text err (mapM as_str available);
  Ret ("Error: Script '" +:+ script_name +:+ "' does not exist in skill '" +:+ skill_name +:+ "'." +:+ newline +:+
       "Available scripts:" +:+ newline +:+
       match names with [] => "  (none)" | l => join newline (map (λ n, "  - " +:+ n) l) end +:+ newline +:+
       "Only use scripts listed above. Do NOT invent script names." +:+
       match _fuzzy_match_script script_name names with Some s => newline +:+ "Did you mean '" +:+ s +:+ "'?" | None => "" end).

Definition execute_skill_script (r : Registry) (skill_name script_name params : string) (timeout : Z) : prog string :=
  match list_scripts fs r skill_name with
  | inr KeyErr => mret ("Error: Skill '" +:+ skill_name +:+ "' not found. Available skills: " +:+ names_text r)
  | inr NotFound => Done (Exn err)
  | inr (OtherExn t) => Done (Exn t)
  | inl scripts =>
      let available := map (py_get "name") scripts in
      if negb (existsb (λ n, eqs n script_name) available) then Done (unknown_script skill_name script_name available)
      else
        catch (execute_script fs err cfg scfg executable which duration_text r skill_name script_name params
                 (if (timeout =? 0)%Z then None else Some timeout))
          (λ t, mret ("Error executing script '" +:+ script_name +:+ "' from skill '" +:+ skill_name +:+ "': " +:+ t))
  end.
End skill_tools.

(** ** What scripts the model can run *)

Section script_props.
Context (fs : FS) (err : string) (cfg : ToolSettings) (scfg : ScriptSettings) (executable : string) (which : string → option string).
Context (duration_text : CommandResult → string).

(** A script its skill declares, or a script file of its directory. *)
Definition listed (r : Registry) (skill_name script_name : string) : Prop :=
  (∃ meta s, dict_get skill_name (r_metadata r) = Some meta ∧ s ∈ m_scripts meta ∧ si_name s = VStr script_name) ∨
  (∃ dir l, dict_get skill_name (r_skill_dirs r) = Some dir ∧ list_skill_scripts fs dir = Ret l ∧ script_name ∈ map path_name l).

(** No part of the text is in the language of a blacklisted pattern. *)
Definition harmless (params : string) : Prop :=
  ∀ p, p ∈ PARAM_BLACKLIST_PATTERNS → ¬ ∃ a m b, params = a +:+ m +:+ b ∧ re_matches p m.

(** What a call may start. *)
Record script_spawn (r : Registry) (skill_name script_name params : string) (s : Spawn) (dir scripts_dir path : string) : Prop := {
  spawn_dir : dict_get skill_name (r_skill_dirs r) = Some dir;
  spawn_listed : listed r skill_name script_name;
  spawn_scripts : fs_resolve fs (path_join dir "scripts") = Ret scripts_dir;
  spawn_path : fs_resolve fs (path_join (path_join dir "scripts") script_name) = Ret path;
  spawn_prefix : ∃ rest, path = scripts_dir +:+ rest;
  spawn_kind : path_suffix path = ".py" ∨ path_suffix path = ".sh";
  spawn_exists : fs_exists fs path = Ret true;
  spawn_cmd : ∃ interp args, sp_cmd s = interp :: path :: args ∧ (args = [] ∧ params = "" ∨ shlex_split params = Some args);
  spawn_params : harmless params }.

Lemma list_scripts_listed r skill_name script_name scripts : list_scripts fs r skill_name = inl scripts →
  existsb (λ n, eqs n script_name) (map (py_get "name") scripts) = true → listed r skill_name script_name.
Proof.
  unfold list_scripts, skill_dir_of, listed. destruct (dict_get skill_name (r_skill_dirs r)) as [dir|]; [|done].
  change (mbind (M:=SK) ?f (inl dir)) with (f dir). cbv beta.
  destruct (dict_get skill_name (r_metadata r)) as [meta|]; [|done].
  destruct (list_skill_scripts fs dir) as [found|t] eqn:Ef; [|done]. cbn [io].
  change (mbind (M:=SK) ?f (inl found)) with (f found). cbv beta. intros [= <-]. rewrite existsb_exists.
  intros (n & Hin & ->%eqs_true). apply in_map_iff in Hin as (e & He & Hin). apply in_app_iff in Hin as [Hin|Hin].
  - left. apply in_map_iff in Hin as (s & <- & Hin). exists meta, s. split_and!; [done|by apply list_elem_of_In|]. by cbn in He.
  - right. apply in_map_iff in Hin as (m & <- & Hin). cbn in He. simplify_eq. apply filter_In in Hin as [Hin _].
    exists dir, found. split_and!; [done..|]. by apply list_elem_of_In.
Qed.

(** The checks of the registry. *)
Lemma checked_script_sound r skill_name script_name params path :
  checked_script fs r skill_name script_name params = Ret path →
  ∃ dir scripts_dir, dict_get skill_name (r_skill_dirs r) = Some dir ∧ fs_resolve fs (path_join dir "scripts") = Ret scripts_dir ∧
    fs_resolve fs (path_join (path_join dir "scripts") script_name) = Ret path ∧ (∃ rest, path = scripts_dir +:+ rest) ∧
    (path_suffix path = ".py" ∨ path_suffix path = ".sh") ∧ fs_exists fs path = Ret true ∧ harmless params.
Proof.
  unfold checked_script. destruct (dict_get skill_name (r_skill_dirs r)) as [dir|]; [|done].
  destruct (fs_resolve fs (path_join dir "scripts")) as [sd|] eqn:Es; [|done]. cbn [mbind outcome_bind].
  destruct (fs_resolve fs (path_join (path_join dir "scripts") script_name)) as [p|] eqn:Ep; [|done]. cbn [mbind outcome_bind].
  destruct (startswith p sd) eqn:Epre; [|done]. cbn [negb].
  destruct (path_suffix p ∈? _ALLOWED_SCRIPT_EXTENSIONS) eqn:Esuf; [|done]. cbn [negb].
  destruct (fs_exists fs p) as [[]|] eqn:Ee; try done. cbn [mbind outcome_bind negb].
  destruct (truthy params && _) eqn:Eb; [done|]. intros [= <-]. exists dir, sd. split_and!; try done.
  - by apply prefix_spec.
  - apply str_in_spec in Esuf. unfold _ALLOWED_SCRIPT_EXTENSIONS in Esuf. set_solver.
  - intros pat Hpat Hm. apply search_spec in Hm. apply andb_false_iff in Eb as [Eb|Eb].
    + unfold truthy in Eb. apply negb_false_iff, String.eqb_eq in Eb as ->.
      repeat (apply elem_of_cons in Hpat as [->|Hpat]; [by vm_compute in Hm|]). by apply elem_of_nil in Hpat.
    + assert (existsb (λ p0, search p0 params) PARAM_BLACKLIST_PATTERNS = true) as He; [|congruence].
      apply existsb_exists. exists pat. by rewrite <- list_elem_of_In.
Qed.

Lemma script_command_form r skill_name script_name params path cmd :
  script_command err executable which r skill_name script_name params path = Ret cmd →
  ∃ interp args, cmd = interp :: path :: args ∧ (args = [] ∧ params = "" ∨ shlex_split params = Some args).
Proof.
  unfold script_command. destruct (interpreter_of _ _ _ _ _) as [i|]; [|done]. cbn [mbind outcome_bind].
  destruct (truthy params) eqn:E.
  - destruct (shlex_split params) as [args|] eqn:Es; [|done]. cbn. intros [= <-]. eauto 10.
  - cbn. intros [= <-]. apply negb_false_iff, String.eqb_eq in E. eauto 10.
Qed.

(** C18. In every world, a call of the script tool starts at most one process, and
    what it starts is a script that the skill declares or that lies in its
    directory of scripts, at a path that resolves to a text continuing that of
    the directory, of one of the two kinds, with arguments in which no
    blacklisted pattern occurs. *)
Theorem script_tool_confined r skill_name script_name params timeout w :
  let h := (execute w [] (execute_skill_script fs err cfg scfg executable which duration_text r skill_name script_name params timeout)).2 in
  (length h ≤ 1)%nat ∧ ∀ s o, (s, o) ∈ h → ∃ dir scripts_dir path, script_spawn r skill_name script_name params s dir scripts_dir path.
Proof.
  cbv zeta. assert (∀ (h : history) (P : Spawn → Prop), h = [] → (length h ≤ 1)%nat ∧ ∀ s o, (s, o) ∈ h → P s) as Hnil.
  { intros h P ->. split; [cbn; lia|]. by intros s o ?%elem_of_nil. }
  unfold execute_skill_script. destruct (list_scripts fs r skill_name) as [scripts|[| |]] eqn:El; try (by apply Hnil).
  destruct (existsb (λ n, eqs n script_name) (map (py_get "name") scripts)) eqn:Ex; cbn [negb]; [|by apply Hnil].
  pose proof (list_scripts_listed _ _ _ _ El Ex) as Hlisted. unfold execute_script.
  destruct (checked_script fs r skill_name script_name params) as [path|t] eqn:Ec; [|by apply Hnil].
  apply checked_script_sound in Ec as (dir & sd & ? & ? & ? & ? & ? & ? & ?).
  cbn [mbind prog_bind and_then catch]. destruct (script_command _ _ _ _ _ _ _ _) as [cmd|t] eqn:Ecmd; [|by apply Hnil].
  apply script_command_form in Ecmd. destruct (env_of _ _ _ _ _) as [env|t]; [|by apply Hnil].
  destruct (timeout_of _ _ _ _) as [z|t]; [|by apply Hnil].
  assert (script_spawn r skill_name script_name params
            (mkSpawn cmd (if (z =? 0)%Z then timeout_default cfg else z) env "") dir sd path) as Hs by done.
  cbn. destruct (w [] _) as [res|t]; cbn; (split; [lia|]); intros s o Hin; apply list_elem_of_singleton in Hin; simplify_eq; eauto.
Qed.

(** The prefix of the text means containment, where nothing beside the
    directory has a name that continues its own. *)
Lemma script_inside r skill_name script_name params s dir scripts_dir path :
  (∀ rest, fs_exists fs (scripts_dir +:+ rest) = Ret true → rest = "" ∨ startswith rest "/" = true) →
  script_spawn r skill_name script_name params s dir scripts_dir path → path = scripts_dir ∨ startswith path (scripts_dir +:+ "/") = true.
Proof.
  intros Hsib Hs. destruct (spawn_prefix _ _ _ _ _ _ _ _ Hs) as [rest ->]. destruct (Hsib _ (spawn_exists _ _ _ _ _ _ _ _ Hs)) as [->|Hr].
  - left. apply append_empty_r.
  - right. apply prefix_spec in Hr as [r' ->]. apply prefix_spec. exists r'. by rewrite append_assoc.
Qed.
End script_props.

(** ** What files the model can read and write *)

(** A location, links resolved, that has a restricted pattern in it. *)
Definition restricted (resolved : string) : bool := existsb (λ d, contains d resolved) _DENIED_PATHS.

(** Two systems that differ only in the content and the size of files at
    restricted locations, by whatever path these are reached. *)
Record same_but_restricted (fs1 fs2 : FS) : Prop := {
  same_resolve p : fs_resolve fs1 p = fs_resolve fs2 p;
  same_home p : fs_expanduser fs1 p = fs_expanduser fs2 p;
  same_cwd : fs_cwd fs1 = fs_cwd fs2;
  same_exists p : fs_exists fs1 p = fs_exists fs2 p;
  same_is_dir p : fs_is_dir fs1 p = fs_is_dir fs2 p;
  same_iterdir p : fs_iterdir fs1 p = fs_iterdir fs2 p;
  same_open p resolved : fs_resolve fs1 p = Ret resolved → restricted resolved = false →
    fs_bytes fs1 p = fs_bytes fs2 p ∧ fs_size fs1 p = fs_size fs2 p }.

Lemma not_denied resolved p : denied_reason resolved p = None → restricted resolved = false ∧ path_suffix p ∉ _DENIED_SUFFIXES.
Proof.
  unfold denied_reason, restricted. destruct (List.find _ _) eqn:E; [done|]. destruct (path_suffix p ∈? _DENIED_SUFFIXES) eqn:Es; [done|]. intros _.
  split; [|by apply str_in_false]. apply not_true_iff_false. rewrite existsb_exists. intros (d & Hd & Hc).
  pose proof (List.find_none _ _ E d Hd) as H. cbn in H. by rewrite Hc in H.
Qed.

(** A path whose own suffix is that of a key is answered with the refusal. *)
Lemma suffix_refused fs err x p resolved :
  tool_path fs x = Ret p → fs_resolve fs p = Ret resolved → path_suffix p ∈ _DENIED_SUFFIXES →
  ∃ reason, denied_reason resolved p = Some reason ∧ read_file fs err x = "Error: Access denied - " +:+ reason.
Proof.
  intros Hp Hr Hs. destruct (denied_reason resolved p) as [reason|] eqn:E; [|by apply not_denied in E as [_ E]].
  exists reason. split; [done|]. unfold read_file, safe_read_file, _is_denylisted. rewrite Hp. cbn [mbind outcome_bind]. rewrite Hr.
  cbn [mbind outcome_bind]. by rewrite E.
Qed.

Lemma map_io_ext {A B} (f g : A → outcome B) l : (∀ x, f x = g x) → map_io f l = map_io g l.
Proof. intros H. induction l as [|x l IH]; [done|]. cbn. by rewrite H, IH. Qed.

Lemma dir_listing_same fs1 fs2 p : same_but_restricted fs1 fs2 → dir_listing fs1 p = dir_listing fs2 p.
Proof.
  intros Hs. unfold dir_listing. rewrite (same_iterdir _ _ Hs). destruct (fs_iterdir fs2 p); [|done]. cbn [mbind outcome_bind].
  by rewrite (map_io_ext (listing_item fs1 p) (listing_item fs2 p)) by (intros x; unfold listing_item; by rewrite (same_is_dir _ _ Hs)).
Qed.

Lemma safe_read_same fs1 fs2 err x : same_but_restricted fs1 fs2 → safe_read_file fs1 err x = safe_read_file fs2 err x.
Proof.
  intros Hs. unfold safe_read_file, tool_path, _is_denylisted. rewrite (same_home _ _ Hs), (same_cwd _ _ Hs).
  destruct (fs_expanduser fs2 _) as [q|]; [|done]. cbn [mbind outcome_bind]. generalize (if is_absolute q then q else path_join (fs_cwd fs2) q). intros p.
  pose proof (same_open _ _ Hs p) as Hopen. rewrite (same_resolve _ _ Hs) in Hopen |- *.
  destruct (fs_resolve fs2 p) as [resolved|]; [|done]. cbn [mbind outcome_bind].
  destruct (denied_reason resolved p) eqn:Ed; [done|]. rewrite (same_exists _ _ Hs), (same_is_dir _ _ Hs), (dir_listing_same _ _ p Hs).
  destruct (Hopen _ eq_refl (proj1 (not_denied _ _ Ed))) as [Hb Hz]. unfold file_content. by rewrite Hb, Hz.
Qed.

(** Where the write tool may write. *)
Definition writable (fs : FS) (p : string) : Prop :=
  (∃ t, fs_resolve fs p = Exn t) ∨
  ∃ resolved, fs_resolve fs p = Ret resolved ∧ denied_reason resolved p = None ∧
    (under _WRITE_DENIED_EXCEPTIONS resolved = true ∨ under _WRITE_DENIED_ROOTS resolved = false).

Lemma write_denied_sound fs p : _is_write_denied fs p = Ret None → writable fs p.
Proof.
  unfold _is_write_denied, writable. destruct (fs_resolve fs p) as [resolved|t] eqn:Er; [|eauto]. intros H. right. exists resolved. split; [done|].
  unfold _is_denylisted in H. rewrite Er in H. cbn [mbind outcome_bind] in H.
  destruct (under _WRITE_DENIED_EXCEPTIONS resolved); [by split; [congruence|left]|].
  destruct (List.find _ _) as [d|] eqn:Ef; [done|]. split; [congruence|]. right. unfold under.
  apply not_true_iff_false. rewrite existsb_exists. intros (d & Hin & Hd). by rewrite (find_none _ _ Ef d Hin) in Hd.
Qed.

Lemma write_file_writes fs x content p c : (p, c) ∈ (write_file fs x content).2 → c = content ∧ writable fs p.
Proof.
  unfold write_file, safe_write_file. destruct (tool_path fs x) as [q|]; [|by intros ?%elem_of_nil]. cbn [mbind outcome_bind].
  destruct (fs_exists fs q) as [e|]; [|by intros ?%elem_of_nil]. cbn [mbind outcome_bind].
  destruct (if e then fs_is_dir fs q else Ret false) as [[]|]; [by intros ?%elem_of_nil| |by intros ?%elem_of_nil]. cbn [mbind outcome_bind].
  destruct (_is_write_denied fs q) as [[reason|]|] eqn:Ed; [by intros ?%elem_of_nil| |by intros ?%elem_of_nil]. cbn [mbind outcome_bind option_map].
  unfold write_to, raised. destruct (fs_mkdir fs _); [|by intros ?%elem_of_nil]. cbn.
  intros [= -> ->]%list_elem_of_singleton. split; [done|]. by apply write_denied_sound.
Qed.

(** C8. Nothing that is in a file at a restricted location can be learnt through
    the read tool, by whatever path: two systems that differ only in such
    files give the same answers.  The files with the suffix of a key are
    protected under paths with that suffix only, which are refused: through a
    link of another name they are read ([key_behind_link]).  The write tool
    writes what it was given, and only to paths that resolve outside the
    system directories, or inside the exempt ones, and are not denied for
    reading, or that do not resolve at all. *)
Theorem file_tools_confined fs err :
  (∀ fs' x, same_but_restricted fs fs' → read_file fs err x = read_file fs' err x) ∧
  (∀ x p resolved, tool_path fs x = Ret p → fs_resolve fs p = Ret resolved → path_suffix p ∈ _DENIED_SUFFIXES →
     ∃ reason, denied_reason resolved p = Some reason ∧ read_file fs err x = "Error: Access denied - " +:+ reason) ∧
  (∀ x content p c, (p, c) ∈ (write_file fs x content).2 → c = content ∧ writable fs p).
Proof.
  split; [intros fs' x Hs; unfold read_file; by rewrite (safe_read_same _ _ _ _ Hs)|].
  split; [intros x p resolved; apply suffix_refused | apply write_file_writes].
Qed.

(** ** A small file system *)

(** The lexical resolution of a path, then a link. *)
Definition lexical (p : string) : string :=
  "/" +:+ join "/" (fold_left (λ acc c, if String.eqb c ".." then removelast acc else acc ++ [c]) (path_parts p) []).

Definition below (dir p : string) : option string :=
  if startswith p (dir +:+ "/") then Some (String.substring (S (String.length dir)) (String.length p) p) else None.

Definition tree_fs (files links : dict string) : FS :=
  let at_ p := let q := lexical p in default q (dict_get q links) in
  let is_file p := dict_mem (at_ p) files in
  let is_dir p := existsb (λ kv, startswith kv.1 (at_ p +:+ "/")) files in
  {| fs_resolve p := Ret (at_ p); fs_expanduser p := Ret p; fs_cwd := "/work"; fs_exists p := Ret (is_file p || is_dir p);
     fs_is_dir p := Ret (is_dir p); fs_is_file p := Ret (is_file p);
     fs_iterdir p := Ret (remove_dups (keep_some (λ kv, r ← below (at_ p) kv.1; head (split_on "/" r)) files));
     fs_rglob p := Ret (keep_some (λ kv, below (at_ p) kv.1) files);
     fs_size p := Ret (Z.of_nat (String.length (default "" (dict_get (at_ p) files))));
     fs_bytes p := match dict_get (at_ p) files with Some t => Ret t | None => Exn "No such file" end;
     fs_mkdir _ := Ret tt; fs_write _ _ := Ret tt |}.

Definition skill_md : string := "---" +:+ newline +:+ "matter" +:+ newline +:+ "---" +:+ newline +:+ "# Skill".

Definition disk : dict string :=
  [("/skills/pods/SKILL.md", skill_md); ("/skills/pods/scripts/list.sh", "kubectl get pods"); ("/skills/pods/scripts-old/wipe.sh", "rm");
   ("/skills/pods/references/catalogue/Pod_CPU/Pod_CPU_fullload.md", "cpu"); ("/home/u/.ssh/id_rsa", "secret"); ("/home/u/id.key", "secret")].

Definition fs0 : FS := tree_fs disk [("/work/notes.txt", "/home/u/id.key")].

(** The front matter of every skill of the example. *)
Definition yaml0 (scripts : list pyval) (_ : string) : option pyval :=
  Some (VDict [("name", VStr "pods"); ("description", VStr "pods"); ("scripts", VList scripts)]).

Definition declare (n : string) : pyval := VDict [("name", VStr n)].

Definition registry0 (scripts : list pyval) : Registry :=
  match load_from_directory fs0 (yaml0 scripts) "" [] "/skills" empty_registry with Ret r => r | Exn _ => empty_registry end.

Definition cfg0 : ToolSettings := mkToolSettings "kubectl" "" "" 30 30 30 100000.
Definition scfg0 : ScriptSettings := mkScriptSettings 60 4000 "".
Definition world0 : world := λ _ _, Ret (mkResult 0 "done" "").

Definition run_script (scripts : list pyval) (name params : string) : outcome string * history :=
  execute world0 [] (execute_skill_script fs0 "" cfg0 scfg0 "/usr/bin/python3" (λ _, Some "/bin/bash") (λ _, "5") (registry0 scripts) "pods" name params 0).

Example listed_script_runs :
  map (λ e, sp_cmd e.1) (run_script [] "list.sh" "-n shop").2 = [["/bin/bash"; "/skills/pods/scripts/list.sh"; "-n"; "shop"]] ∧
  (run_script [] "list.sh" "-n `id`").2 = [] ∧ (run_script [] "wipe.sh" "").2 = [].
Proof. by vm_compute. Qed.

Lemma script_tool_confined_witness :
  let h := (run_script [] "list.sh" "-n shop").2 in
  (length h ≤ 1)%nat ∧ ∀ s o, (s, o) ∈ h → ∃ dir scripts_dir path, script_spawn fs0 (registry0 []) "pods" "list.sh" "-n shop" s dir scripts_dir path.
Proof.
  exact (script_tool_confined fs0 "" cfg0 scfg0 "/usr/bin/python3" (λ _, Some "/bin/bash") (λ _, "5") (registry0 []) "pods" "list.sh" "-n shop" 0 world0).
Defined.

Example use_case_found : match_use_cases fs0 "" (registry0 []) "pod" "cpu" "fullload" = Ret ["references/catalogue/Pod_CPU/Pod_CPU_fullload.md"].
Proof. by vm_compute. Qed.

(** ** Divergences *)

(** The test of containment compares texts: a directory beside the scripts
    whose name continues theirs is inside. *)
Example sibling_script_runs :
  map (λ e, sp_cmd e.1) (run_script [declare "../scripts-old/wipe.sh"] "../scripts-old/wipe.sh" "").2 =
    [["/bin/bash"; "/skills/pods/scripts-old/wipe.sh"]].
Proof. by vm_compute. Qed.

(** A resource may be any file of the machine, also one the file tool denies. *)
Example resource_escapes :
  read_skill_resource fs0 "" (registry0 []) "pods" "/home/u/.ssh/id_rsa" = Ret (RESOURCE_HEADER +:+ "secret") ∧
  read_file fs0 "" "/home/u/.ssh/id_rsa" = "Error: Access denied - Access denied: path matches restricted pattern '.ssh'".
Proof. by vm_compute. Qed.

(** The plan file is named by the call: it can be put where the write tool
    may not write. *)
Example plan_escapes :
  (save_fault_plan fs0 "/home/u/memory" "x" "../../../../etc/cron.d/job").2 = [("/home/u/memory/plan/../../../../etc/cron.d/job.md", "x")] ∧
  fs_resolve fs0 "/home/u/memory/plan/../../../../etc/cron.d/job.md" = Ret "/etc/cron.d/job.md" ∧
  (write_file fs0 "/home/u/memory/plan/../../../../etc/cron.d/job.md" "x").2 = [].
Proof. by vm_compute. Qed.

(** The suffix of a private key is looked for in the path as given: through a
    link the key is read. *)
Example key_behind_link : read_file fs0 "" "notes.txt" = "secret" ∧
  read_file fs0 "" "/home/u/id.key" = "Error: Access denied - Access denied: .key files may contain private keys".
Proof. by vm_compute. Qed.

(** A path that cannot be resolved is written to, whatever it is. *)
Example unresolved_path_written :
  let fs := {| fs_resolve p := Exn "Too many levels of symbolic links"; fs_expanduser p := Ret p; fs_cwd := "/work"; fs_exists _ := Ret false;
               fs_is_dir _ := Ret false; fs_is_file _ := Ret false; fs_iterdir _ := Ret []; fs_rglob _ := Ret []; fs_size _ := Ret 0%Z;
               fs_bytes _ := Exn ""; fs_mkdir _ := Ret tt; fs_write _ _ := Ret tt |} in
  (write_file fs "/etc/passwd" "x").2 = [("/etc/passwd", "x")].
Proof. by vm_compute. Qed.

(** One skill whose name is a number ends the scan of all of them. *)
Example numeric_name_stops_scan :
  load_from_directory fs0 (λ _, Some (VDict [("name", VInt 7); ("description", VStr "d")])) "expected string" [] "/skills" empty_registry
  = Exn "expected string".
Proof. by vm_compute. Qed.
