(* ===== verification/InjectContext.v ===== *)
(** * What a recovery is told of the injection (utils/inject_context.py)

    The conversation of the injection is handed to the recovery as a text:
    what the language model concluded, and of each tool result a short
    description without the values that were observed.  Tool messages have a
    name; the content of an answer of the model that is no text raises. *)

From stdpp Require Import base list strings sets.
From Stdlib Require Import ZArith Ascii.
From S2P Require Import Prelude PyText PyRe PyValue PyFloat PyOps Json Failure.

Definition _INJECT_CONTEXT_MAX_LEN : nat := 4000.
Definition _TOOL_ABSTRACT_MAX_LEN : nat := 80.
Definition _AI_CONTENT_MAX_LEN : nat := 500.

(** ** Values *)

Definition PERCENT_RE : pattern := get_pattern (compile no_flags "\b\d+(?:\.\d+)?%") ltac:(vm_compute; discriminate).
Definition SIZE_RE : pattern := get_pattern (compile no_flags "\b\d+(?:\.\d+)?[KMG]i?\b") ltac:(vm_compute; discriminate).
Definition RESTARTS_RE : pattern := get_pattern (compile no_flags "(?:Restart\s+Count|RESTARTS)[:\s]+\d+") ltac:(vm_compute; discriminate).
Definition RESOURCE_RE : pattern := get_pattern (compile no_flags "\b(?:CPU|Memory|Mem|Cpu)[:\s]+\d+[mMiKg]+\b") ltac:(vm_compute; discriminate).

Definition _METRIC_VALUE_PATTERNS : list pattern := [PERCENT_RE; SIZE_RE; RESTARTS_RE; RESOURCE_RE].

Definition _strip_metric_values (text : string) : string := fold_left (λ t p, re_sub p "[expired]" t) _METRIC_VALUE_PATTERNS text.

(** ** Kinds of output *)

Definition FILESYSTEM_RE : pattern := get_pattern (compile re_M "^Filesystem\s+") ltac:(vm_compute; discriminate).
Definition NAME_LINE_RE : pattern := get_pattern (compile re_M "^Name:\s+") ltac:(vm_compute; discriminate).
Definition NAME_HEADER_RE : pattern := get_pattern (compile re_M "^NAME\s+") ltac:(vm_compute; discriminate).
Definition LAST_SEEN_RE : pattern := get_pattern (compile re_M "^LAST\s+SEEN\s+") ltac:(vm_compute; discriminate).

Definition found (p : pattern) (t : string) : bool := match re_search p t with Some _ => true | None => false end.

Definition _looks_like_df_output (content : string) : bool := found FILESYSTEM_RE content.
Definition _looks_like_describe_output (content : string) : bool := found NAME_LINE_RE content.
Definition _looks_like_get_output (content : string) : bool := found NAME_HEADER_RE content.
Definition _looks_like_events_output (content : string) : bool := found LAST_SEEN_RE content.

Definition quote : string := String "034" "".

Definition _looks_like_blade_json (content : string) : bool :=
  let c := strip content in
  startswith c "{" && contains (quote +:+ "code" +:+ quote) c && contains (quote +:+ "success" +:+ quote) c.

Definition _looks_like_exec_output (content : string) : bool :=
  if _looks_like_blade_json content then false
  else if _looks_like_df_output content || _looks_like_describe_output content || _looks_like_get_output content || _looks_like_events_output content
  then false
  else Nat.ltb (py_len content) 5000 && Nat.ltb 0 (py_len (strip content)).

(** ** What a description says *)

(** The lines after the first that are neither blank nor a header. *)
Definition data_lines (header content : string) : nat :=
  length (List.filter (λ l, truthy (strip l) && negb (startswith l header)) (tail (lines (strip content)))).

Definition _count_filesystems_in_df (content : string) : nat := data_lines "Filesystem" content.
Definition _count_table_rows (content : string) : nat := data_lines "NAME" content.

Definition POD_NAME_RE : pattern := get_pattern (compile re_M "^Name:\s+(\S+)") ltac:(vm_compute; discriminate).
Definition NAMESPACE_RE : pattern := get_pattern (compile re_M "^Namespace:\s+(\S+)") ltac:(vm_compute; discriminate).

Definition first_group (p : pattern) (t : string) : string :=
  match re_search p t with Some m => default "" (group 1 m) | None => "" end.

Definition _extract_pod_name_from_describe (content : string) : string := first_group POD_NAME_RE content.
Definition _extract_namespace_from_describe (content : string) : string := first_group NAMESPACE_RE content.

Definition SIZE_LINE_RE : pattern := get_pattern (compile no_flags "^\d+[KMG]?\s+") ltac:(vm_compute; discriminate).
Definition PID_RE : pattern := get_pattern (compile no_flags "^\s*PID\s+") ltac:(vm_compute; discriminate).

Definition _extract_exec_command_hint (content : string) : string :=
  let c := strip content in
  if startswith c "total " || contains "drwx" (py_take 20 c) then "ls/dir listing"
  else if found SIZE_LINE_RE c then "du/size check"
  else if found PID_RE c then "top/process stats"
  else if contains "Memory" (py_take 50 c) || contains "CPU" (py_take 50 c) then "resource stats"
  else "command output".

Definition count_text (n : nat) : string := str_of_Z (Z.of_nat n).

Definition df_abstract (n : nat) : string :=
  "[kubectl] df -h: disk usage report for " +:+ count_text n +:+ " filesystem(s) (values expired — re-execute df -h now)".

Definition describe_abstract (pod_name ns : string) : string :=
  "[kubectl] describe pod" +:+ (if truthy pod_name then " " +:+ pod_name else "") +:+ (if truthy ns then " in " +:+ ns else "") +:+
  " (status/details expired — re-execute now)".

Definition get_abstract (n : nat) : string :=
  "[kubectl] get: resource listing with " +:+ count_text n +:+ " entries (details expired — re-execute now)".

Definition exec_abstract (hint : string) : string :=
  "[kubectl] exec " +:+ hint +:+ ": output observed during injection (expired — re-execute now)".

Definition events_abstract : string := "[kubectl] get events: event listing from injection phase (expired — re-execute now)".

Definition raw_abstract (c : string) : string :=
  "[kubectl] " +:+ _strip_metric_values (py_take _TOOL_ABSTRACT_MAX_LEN c) +:+ " (expired — re-execute now)".

(** A result that is no text cannot be cut: [TypeError], which is not caught. *)
Definition _abstract_blade_in_kubectl (content : string) : Exc string :=
  let c := strip content in
  match json_loads c with
  | JOk v =>
      d ← as_dict v;
      result ← as_str (get_d "result" (VStr "") d);
      Some ("[kubectl] blade operation result: code=" +:+ py_str (get_d "code" (VStr "unknown") d) +:+ ", success=" +:+
            py_str (get_d "success" (VStr "unknown") d) +:+ ", " +:+ _strip_metric_values (py_take 150 result))
  | _ => Some (raw_abstract c)
  end.

Definition _abstract_kubectl_result (content : string) : Exc string :=
  let c := strip content in
  if _looks_like_df_output c then Some (df_abstract (_count_filesystems_in_df c))
  else if _looks_like_describe_output c then
    Some (describe_abstract (_extract_pod_name_from_describe c) (_extract_namespace_from_describe c))
  else if _looks_like_get_output c then Some (get_abstract (_count_table_rows c))
  else if _looks_like_blade_json c then _abstract_blade_in_kubectl c
  else if _looks_like_exec_output c then Some (exec_abstract (_extract_exec_command_hint c))
  else if _looks_like_events_output c then Some events_abstract
  else Some (raw_abstract c).

Definition _abstract_blade_result (tool_name content : string) : string :=
  "[" +:+ tool_name +:+ "] " +:+ _strip_metric_values (py_take 200 (strip content)).

Definition _abstract_tool_result (tool_name content : string) : Exc string :=
  if String.eqb tool_name "kubectl" || String.eqb tool_name "" then _abstract_kubectl_result content
  else if startswith tool_name "blade_" then Some (_abstract_blade_result tool_name content)
  else Some ("[" +:+ tool_name +:+ "] " +:+ _strip_metric_values (py_take _TOOL_ABSTRACT_MAX_LEN (strip content))).

(** ** The text *)

Definition ai_part (m : Message) : Exc (list string) :=
  match m with
  | AIMessage content _ _ =>
      if py_truthy content then t ← as_str content; Some (if truthy (strip t) then [py_take _AI_CONTENT_MAX_LEN (strip t)] else []) else Some []
  | _ => Some []
  end.

Definition tool_part (m : Message) : Exc (list string) :=
  match m with
  | ToolMessage content name _ _ => if truthy (strip content) then a ← _abstract_tool_result name content; Some [a] else Some []
  | _ => Some []
  end.

Definition EXPIRED_PREFIX : string :=
  "⚠️ EXPIRED DATA — captured during fault injection (NOT current state)" +:+ newline +:+
  "The observations below were made WHILE THE FAULT WAS ACTIVE. They represent the FAULT STATE, not the CURRENT (post-recovery) state." +:+ newline +:+
  "You MUST re-execute the same kubectl commands NOW to obtain CURRENT data. Using these injection-phase observations as 'current evidence' is INVALID." +:+ newline.

Definition SEPARATOR : string := newline +:+ newline +:+ "---" +:+ newline +:+ newline.

Definition build_inject_context (inject_messages : list Message) : Exc string :=
  ai ← mapM ai_part inject_messages;
  tools ← mapM tool_part inject_messages;
  match concat ai ++ concat tools with
  | [] => Some ""
  | parts => Some (EXPIRED_PREFIX +:+ py_take _INJECT_CONTEXT_MAX_LEN (join SEPARATOR parts))
  end.

(** ** What the text can hold *)

Definition HINTS : list string := ["ls/dir listing"; "du/size check"; "top/process stats"; "resource stats"; "command output"].

(** Descriptions that hold nothing of an output but a count or a name. *)
Inductive value_free (content : string) : string → Prop :=
  | vf_df n : value_free content (df_abstract n)
  | vf_describe : value_free content (describe_abstract (_extract_pod_name_from_describe content) (_extract_namespace_from_describe content))
  | vf_get n : value_free content (get_abstract n)
  | vf_exec hint : hint ∈ HINTS → value_free content (exec_abstract hint)
  | vf_events : value_free content events_abstract.

Lemma hint_known c : _extract_exec_command_hint c ∈ HINTS.
Proof. apply str_in_spec. unfold _extract_exec_command_hint. by repeat case_match. Qed.

(** An output of kubectl that is shorter than 5000 characters and is no answer
    of blade is described without any value of it. *)
Theorem kubectl_abstract_value_free content :
  (0 < py_len (strip content) < 5000)%nat → _looks_like_blade_json (strip content) = false →
  ∃ a, _abstract_tool_result "kubectl" content = Some a ∧ value_free (strip content) a.
Proof.
  intros [Hpos Hlen] Hb. unfold _abstract_tool_result. cbn [String.eqb Ascii.eqb Bool.eqb orb]. unfold _abstract_kubectl_result.
  destruct (_looks_like_df_output (strip content)) eqn:E1; [eauto using value_free|].
  destruct (_looks_like_describe_output (strip content)) eqn:E2; [eauto using value_free|].
  destruct (_looks_like_get_output (strip content)) eqn:E3; [eauto using value_free|]. rewrite Hb.
  destruct (_looks_like_exec_output (strip content)) eqn:E4; [eauto using value_free, hint_known|].
  destruct (_looks_like_events_output (strip content)) eqn:E5; [eauto using value_free|]. exfalso.
  unfold _looks_like_exec_output in E4. rewrite Hb, E1, E2, E3, E5, strip_idem in E4. cbn [orb] in E4.
  apply andb_false_iff in E4 as [E4|E4]; apply Nat.ltb_ge in E4; lia.
Qed.

Lemma py_len_app a b : py_len (a +:+ b) = (py_len a + py_len b)%nat.
Proof. induction a as [|c a IH]; [done|]. cbn. rewrite IH. lia. Qed.

(** The text is empty, or says first that it is out of date and is bounded,
    however long the conversation was. *)
Theorem inject_context_bounded messages t : build_inject_context messages = Some t →
  t = "" ∨ startswith t EXPIRED_PREFIX = true ∧ (py_len t ≤ py_len EXPIRED_PREFIX + _INJECT_CONTEXT_MAX_LEN)%nat.
Proof.
  unfold build_inject_context. destruct (mapM ai_part messages) as [ai|]; [|done]. destruct (mapM tool_part messages) as [tools|]; [|done].
  cbn [mbind option_bind]. destruct (concat ai ++ concat tools) as [|p l]; [intros [= <-]; by left|].
  generalize (join SEPARATOR (p :: l)). intros j Hj. right.
  assert (t = EXPIRED_PREFIX +:+ py_take _INJECT_CONTEXT_MAX_LEN j) as -> by congruence. split.
  - apply prefix_spec. by eexists.
  - rewrite py_len_app. pose proof (py_take_len _INJECT_CONTEXT_MAX_LEN j). lia.
Qed.

Example disk_usage_abstract :
  build_inject_context [AIMessage (VStr "disk is full") VNone []; ToolMessage ("Filesystem Size Use%" +:+ newline +:+ "overlay 116G 12%") "kubectl" "c1" false]
  = Some (EXPIRED_PREFIX +:+ "disk is full" +:+ SEPARATOR +:+ df_abstract 1).
Proof. vm_compute. reflexivity. Qed.

(** ** Divergences *)

(** The answer of blade to a question for the status has an object as its
    result, which raises out of the construction of the whole text. *)
Example status_result_raises :
  let q := quote in
  build_inject_context
    [ToolMessage ("{" +:+ q +:+ "code" +:+ q +:+ ":200," +:+ q +:+ "success" +:+ q +:+ ":true," +:+ q +:+ "result" +:+ q +:+ ":{" +:+ q +:+ "Uid" +:+ q +:+ ":" +:+
                  q +:+ "0a1b" +:+ q +:+ "}}") "kubectl" "c1" false] = None.
Proof. vm_compute. reflexivity. Qed.

(** Values in units that are not on the list stay. *)
Example units_kept : _strip_metric_values "used 12% of 3Gi, 2Ti free, 800m" = "used [expired] of [expired], 2Ti free, 800m".
Proof. vm_compute. reflexivity. Qed.
